(* ===== verification/_CoqProject ===== *)
-Q . S2P
Prelude.v
Utf8.v
StdMap.v
Cutting.v
Swiften.v
Protocol.v
Framing.v
ReferenceCodec.v
NetworkPlugin.v
Pool.v
PoolInv.v
PoolSafety.v
PoolTheorems.v
PresenceOracle.v
Names.v
Outgoing.v
Wire.v
Typing.v
Media.v
Text.v
Codecs.v
Roster.v
RosterInv.v
RosterStore.v
RosterTheorems.v
Login.v
LoginTheorems.v
UserManager.v
Sqlite.v
SqliteTheorems.v
RosterSqlite.v
ManagerTheorems.v
Registration.v
RegistrationTheorems.v
AdHoc.v
AdHocTheorems.v
Admin.v
AdminTheorems.v
ThreadPool.v
Chat.v
ChatTheorems.v
Server.v
ServerTheorems.v
Delivery.v
Responders.v
ResponderTheorems.v
Channel.v
ChannelTheorems.v
WebSocket.v
WebSocketTheorems.v
SlackApi.v
Slack.v
SlackTheorems.v
SlackMessages.v
Config.v
ConfigTheorems.v
Irc.v
IrcTheorems.v
MySql.v
MySqlTheorems.v
Pqxx.v
PqxxTheorems.v
Http.v
Web.v
WebTheorems.v
Instances.v
InstancesTheorems.v
