(* ===== verification/Prelude.v ===== *)
(** * Spectrum 2: a verification development

    Spectrum 2 is an XMPP gateway. The program spectrum2 (src/libtransport,
    src/spectrum) speaks XMPP with clients or with a server and starts backends, one
    process per group of users, that speak the legacy network's protocol; server and
    backends exchange protobuf messages over a local socket. A second frontend speaks
    with Slack. This development models the C++ of the server and its frontends, the base
    class of the backends, the backend for IRC, the protocol between them and the manager
    that starts and asks the gateways of a machine, and proves what makes the parts correct
    alone and together.

    ** How the code is modelled

    A member function is a program [prog S A] (below) over the state [S] of its
    component: it returns a value and a new state, or it runs into a [fault] (a null
    or dangling pointer, an index out of range, a division by zero, an exception
    nobody catches). Objects that are shared or deleted live in heaps, finite maps
    from addresses to records; reading the address of a deleted object is
    [UseAfterFree]. A std::map is a list sorted by its keys ([StdMap]), since the
    code depends on the order of iteration. Integers are [Z] with the wrap-around of
    their type written out where it can happen. What a component sends to others is
    a list of events of its state, in order. Code that is not of the repository is a
    type class: [Swiften.Jid] and the stanzas of Swiften, [Protocol.ProtoCodec] for
    protobuf, [Codecs.Base64], [Text.Split] and [Config.ConfigLibraries] for Boost,
    [Sqlite.SqlEngine], [MySql.MySqlEngine] and [Pqxx.PgEngine] for the databases,
    [Irc.IrcLibraries] for Qt and Communi, [Web.Md5] and [Web.Tokenizer] for the manager,
    [Instances.Machine] for files, processes and the network, and the environments of single
    components; each has an instance, which the witnesses of the theorems use.

    ** The parts, and the files that hold them

    - The wire. [Protocol] is protocol.proto; [Framing] the four byte header and the
      two loops that cut the stream (NetworkPluginServer::send, handleDataRead,
      NetworkPlugin::send), over what [Cutting] says of streams that are cut into pieces;
      [NetworkPlugin] the base class of the backends (plugin/cpp/networkplugin.cpp), [Irc]
      the backend for IRC (backends/libcommuni); [ReferenceCodec] an instance of protobuf.
    - The backends. [Pool] is the half of NetworkPluginServer.cpp that starts
      backends, gives them users and shuts them down, with User::handleDisconnected
      and the user list; [Outgoing] the handlers that tell a backend what its user
      does; [Server] the handlers of what the backends tell, over the pool, the
      conversations and the rosters together; [Media] the pictures of messages; [Utf8]
      the repair of the texts a backend sends (utf8::replace_invalid), which can throw.
    - The users. [UserManager] is UserManager.cpp with the presences that come in,
      [PresenceOracle] PresenceOracle.cpp, [Chat] Conversation.cpp,
      ConversationManager.cpp and the presences and rooms of User.cpp, [Roster]
      Buddy.cpp, LocalBuddy.cpp, RosterManager.cpp, RosterStorage.cpp and the roster
      of the XMPP frontend, [Names] the names of contacts as nodes of JIDs, [Responders]
      the requests of clients the XMPP frontend answers itself (vcardresponder.cpp,
      discoinforesponder.cpp, discoitemsresponder.cpp, gatewayresponder.cpp,
      storageresponder.cpp, carbonresponder.cpp).
    - Connections. [Channel] is the sessions of clients in server mode
      (ServerStanzaChannel.cpp, Server.cpp), [WebSocket] the client of
      WebSocketClient.cpp.
    - Slack. [SlackApi] is the requests of SlackAPI.cpp and the names of SlackIdManager.cpp,
      [Slack] the sessions, their two queues of requests (HTTPRequestQueue.cpp), the
      real-time connection and the users of frontends/slack.
    - Accounts. [Login] is UserRegistry.cpp with the sessions of server mode
      (ServerFromClientSession.cpp); [Registration] UserRegistration.cpp,
      XMPPUserRegistration.cpp and UsersReconnecter.cpp; [Sqlite] SQLite3Backend.cpp,
      [MySql] MySQLBackend.cpp and [Pqxx] PQXXBackend.cpp on the same tables; [Codecs]
      the encodings of Util.cpp and StorageBackend.cpp.
    - Administration. [Admin] is AdminInterface.cpp and AdminInterfaceCommand.cpp with
      the commands of the Slack frontend; [AdHoc] the ad-hoc commands
      (adhocmanager.cpp, settingsadhoccommand.cpp).
    - Options. [Config] is Config.cpp: what a file, the command line and a backend set.
    - Jobs. [ThreadPool] is ThreadPool.cpp.
    - The manager. [Instances] is methods.cpp and main.cpp of spectrum_manager, [Web] its
      web interface (server/server.cpp, server/APIServer.cpp) over the [Gateways] of the
      machine and the accounts of a storage, [Http] how it reads forms and cookies
      (mg_get_http_var, mg_http_parse_header).
    [Text] holds what the textual components share. A member function keeps its name;
    its parts have names of their own where a loop or a branch is long. A file
    [XTheorems], [XInv] or [XSafety] holds the lemmas and theorems on [X], and
    [SlackMessages] those on the messages of [Slack].

    Events come into a component through a function [react] or through the handlers
    themselves, one event at a time, as the single thread of the main loop delivers
    them; [ThreadPool] alone has steps that interleave. A request over HTTP is on its way
    between two events of [Slack], and a connection to IRC or to a WebSocket is events of
    its library. [Server] shows how the parts interact: the pool finds the user of a payload,
    the session under the user's address holds its conversations and its roster, and signals
    are delivered in the order the code raises them. The clients of an interface are proved against it and
    an implementation discharges it: [Outgoing] over [Link] with the pool as one
    instance, [Roster] over [BuddyStorage], with the laws [RosterStore.BuddyRows], which
    [RosterSqlite] shows of the SQLite storage, [UserManager] over [StorageBackend],
    [Registration] over [AccountStorage] with SQLite as the instance, [Admin] over
    [AdminServices], [Web] over [Gateways], which [Instances.manager_gateways] provides.

    ** What the theorems show

    - Memory safety as invariants over every event: [PoolTheorems.pool_safety] and
      [pool_wellformed], [RosterTheorems.roster_safety], [ManagerTheorems.manager_sound],
      [LoginTheorems.registry_sound], [AdHocTheorems.requests_answered],
      [ThreadPool.pool_jobs], [ResponderTheorems.vcards_accounted],
      [ChannelTheorems.channel_sound], [SlackTheorems.slack_sound],
      [IrcTheorems.irc_table_sound]. Where an event can end in undefined behaviour the theorem
      says which one, and error theorems exhibit the runs ([PoolTheorems.ping_double_free],
      [ChatTheorems.renamed_error_use_after_free], [AdHocTheorems.old_session_dangles],
      [AdminTheorems.online_users_stops], [SlackTheorems.late_answer] and [late_connection],
      [IrcTheorems.short_command_stops], [MySqlTheorems.lost_server_use_after_free]). That a
      request to the manager is answered without one is [WebTheorems.requests_served].
    - The two ends of the protocol: [Framing.stream_round_trip] for the stream,
      [Typing.frames_well_typed] for what the server writes,
      [Wire.calls_reach_the_backend] and [ServerTheorems.calls_reach_the_server] for
      the calls, as refinements of the sequence of requests; [Delivery] follows a
      message and an answer from end to end. Stanzas find their session
      ([ChannelTheorems.stanza_routed]), the payloads of a WebSocket come in order
      ([WebSocketTheorems.payloads_in_order]), requests to Slack go out one at a time
      ([SlackMessages.requests_in_order]) and messages to IRC line by line
      ([IrcTheorems.lines_sent]). The manager's command reaches the gateway, and the answer
      it sends back is the one that is shown ([InstancesTheorems.command_answered]), unless an
      older one is in the way ([old_answer_in_the_way]).
    - Who may do what: [ManagerTheorems.login_gate], [LoginTheorems.authentication_step],
      [ServerTheorems.other_users_untouched], [AdminTheorems.only_administrators_change],
      [RegistrationTheorems.registration_request], [WebTheorems.administrators_rule],
      [WebTheorems.sessions_for_passwords]; and where somebody may do more than he should,
      [IrcTheorems.session_shared], [SlackMessages.first_token_counts],
      [WebTheorems.anybody_becomes_administrator], [somebody_else_unregistered].
    - Processes: [InstancesTheorems.start_outcome], [stop_reported], what is reported of a
      gateway and what is done to it, and [bad_pidfile_signals_everybody].
    - What is stored: [RosterStore.stored_buddies], [SqliteTheorems.database_consistent],
      which says what each operation keeps and when, and [orphan_setting], where the program
      does not keep it; [SqliteTheorems.contact_round_trip] and [user_round_trip], the round
      trips of
      [Codecs] and [Names]; [MySqlTheorems.buddies_as_sqlite] and
      [PqxxTheorems.contacts_as_sqlite], that the three storages read the same contacts
      while nothing fails;
      [SlackMessages.rooms_rejoined], that the rooms of a user are joined again;
      [ConfigTheorems.first_load] and [reload_keeps], what the options are after a first and
      after a later reading.
    - Queues and loops end: [PoolTheorems.queue_in_order], [removeAllUsers_empties],
      [ManagerTheorems.handlePresence_depth], [ThreadPool.pool_drains],
      [ResponderTheorems.vcards_collected].

    ** Bounds and fuel

    The reading loops of [Framing] take as fuel the length of the buffer: each turn
    takes at least the four bytes of a header off it, and more fuel gives the same
    frames ([Framing.split_frames_fuel]). [Chat.find_conversation] takes the length of
    the name, whose parts are shorter, and [Chat.delete_all] the number of
    conversations, one of which goes each turn. UserManager::handlePresence and what
    calls it back take a depth, and [ManagerTheorems.handlePresence_depth] shows that
    no greater one gives another result. [WebSocket.read_payloads] takes the length of its
    buffer, [Irc.send_lines] one more than the length of the message, of which each turn
    takes a newline, and a method of [MySql] one more than the number of outcomes that are
    left, one of which is used up each time it calls itself
    ([MySqlTheorems.methods_call_themselves]). [Instances.wait_for] counts the twenty seconds
    of the code, and [Instances.run_loop] the turns of the event loop until the time is over.
    Everything else recurses on a list or a text.
    Sizes are those of the code: 32 bits for a frame, 100 messages for a cache, a
    quarter of an hour for a session.

    ** What is not modelled

    The backends for networks other than IRC (libpurple, Swiften and others), the vendored
    mongoose.c but for the functions of [Http], HTTPRequest.cpp (calls of libcurl), TLS,
    logging and everything that only wires Swiften objects together: they are input and
    output, or calls of libraries. XML itself is Swiften's: stanzas are records. Time and random identifiers are parameters. Memory
    is not exhausted, and the heap answers an address that is not in use. *)

From Stdlib Require Export Ascii String.
From stdpp Require Export prelude strings gmap list fin_maps.
From Stdlib Require Export ZArith Lia.

#[global] Open Scope list_scope.

(** ** Programs that may fault

    A C++ member function is a program over the state of its component: it
    returns a value and a new state, or it runs into undefined behaviour or an
    exception nobody catches. *)

Inductive fault :=
  | NullDereference
  | UseAfterFree
  | OutOfRange
  | DivisionByZero
  | UncaughtException.

#[export] Instance fault_eq_dec : EqDecision fault.
Proof. solve_decision. Defined.

Inductive result (S A : Type) :=
  | Done (a : A) (s : S)
  | Fault (f : fault).
Arguments Done {S A} a s.
Arguments Fault {S A} f.

Definition prog (S A : Type) : Type := S → result S A.

#[export] Instance prog_ret (S : Type) : MRet (prog S) := λ A a s, Done a s.
#[export] Instance prog_bind (S : Type) : MBind (prog S) := λ A B k m s,
  match m s with
  | Done a s' => k a s'
  | Fault f => Fault f
  end.

Definition get {S} : prog S S := λ s, Done s s.
Definition gets {S A} (f : S → A) : prog S A := λ s, Done (f s) s.
Definition put {S} (s : S) : prog S unit := λ _, Done tt s.
Definition modify {S} (f : S → S) : prog S unit := λ s, Done tt (f s).
Definition raise {S A} (f : fault) : prog S A := λ _, Fault f.

(** [deref] reads through a pointer that must be alive. *)
Definition deref {S A} (o : option A) : prog S A :=
  match o with
  | Some a => mret a
  | None => raise UseAfterFree
  end.

Definition when {S} (b : bool) (m : prog S unit) : prog S unit :=
  if b then m else mret tt.

(** A [for] loop over a snapshot of a list. *)
Fixpoint for_each {S A} (xs : list A) (body : A → prog S unit) : prog S unit :=
  match xs with
  | [] => mret tt
  | x :: xs => body x ;; for_each xs body
  end.

(** The same with [break]: the body answers whether to go on. *)
Fixpoint for_each_until {S A} (xs : list A) (body : A → prog S bool) : prog S unit :=
  match xs with
  | [] => mret tt
  | x :: xs => go ← body x; if go : bool then for_each_until xs body else mret tt
  end.

Lemma bind_run {S A B} (m : prog S A) (k : A → prog S B) (s : S) :
  (m ≫= k) s = match m s with
               | Done a s' => k a s'
               | Fault f => Fault f
               end.
Proof. done. Qed.

Lemma bind_done {S A B} (m : prog S A) (k : A → prog S B) (s s' : S) (a : A) :
  m s = Done a s' → (m ≫= k) s = k a s'.
Proof. intros E. by rewrite bind_run, E. Qed.

Lemma ret_run {S A} (a : A) (s : S) : (mret a : prog S A) s = Done a s.
Proof. done. Qed.

(** ** Specifications of programs

    [spec E P m Q]: from a state satisfying [P], [m] ends with a value and a
    state satisfying [Q], or stops at a fault of [E]. [no_fault] is the total
    reading, [any_fault] the partial one. *)

Definition no_fault (f : fault) : Prop := False.
Definition any_fault (f : fault) : Prop := True.

Definition spec {S A} (E : fault → Prop) (P : S → Prop) (m : prog S A) (Q : A → S → Prop) : Prop :=
  ∀ s, P s → match m s with
             | Done a s' => Q a s'
             | Fault f => E f
             end.

Section spec_rules.
Context {S : Type} (E : fault → Prop).

Lemma spec_ret {A} (P : S → Prop) (a : A) (Q : A → S → Prop) :
  (∀ s, P s → Q a s) → spec E P (mret a) Q.
Proof. intros H s Hs. by apply H. Qed.

Lemma spec_bind {A B} P (m : prog S A) R (k : A → prog S B) Q :
  spec E P m R → (∀ a, spec E (R a) (k a) Q) → spec E P (m ≫= k) Q.
Proof.
  intros Hm Hk s Hs. specialize (Hm s Hs). rewrite bind_run.
  destruct (m s) as [a s'|f]; [|done]. by apply Hk.
Qed.

(** Programs that keep one property of the state. *)
Lemma spec_keep {A B} (I : S → Prop) (m : prog S A) (k : A → prog S B) :
  spec E I m (λ _, I) → (∀ a, spec E I (k a) (λ _, I)) → spec E I (m ≫= k) (λ _, I).
Proof. apply spec_bind. Qed.

Lemma spec_get (P : S → Prop) (Q : S → S → Prop) :
  (∀ s, P s → Q s s) → spec E P get Q.
Proof. intros H s Hs. by apply H. Qed.

Lemma spec_gets {A} (P : S → Prop) (f : S → A) (Q : A → S → Prop) :
  (∀ s, P s → Q (f s) s) → spec E P (gets f) Q.
Proof. intros H s Hs. by apply H. Qed.

Lemma spec_modify (P : S → Prop) (f : S → S) (Q : unit → S → Prop) :
  (∀ s, P s → Q tt (f s)) → spec E P (modify f) Q.
Proof. intros H s Hs. by apply H. Qed.

(** Dereferencing: the pointer is alive, or the access is a tolerated fault. *)
Lemma spec_deref {A} (P : S → Prop) (o : option A) (Q : A → S → Prop) :
  (∀ s a, P s → o = Some a → Q a s) → (∀ s, P s → o = None → E UseAfterFree) →
  spec E P (deref o) Q.
Proof. intros H H' s Hs. destruct o; [by apply H|by eapply H']. Qed.

Lemma spec_weaken {A} (P P' : S → Prop) (m : prog S A) (Q Q' : A → S → Prop) :
  spec E P m Q → (∀ s, P' s → P s) → (∀ a s, Q a s → Q' a s) → spec E P' m Q'.
Proof.
  intros H HP HQ s Hs. specialize (H s (HP s Hs)).
  destruct (m s); [by apply HQ|done].
Qed.

(** Fixing the state a program starts from. *)
Lemma spec_at {A} (P : S → Prop) (m : prog S A) (Q : A → S → Prop) :
  (∀ s, P s → spec E (eq s) m Q) → spec E P m Q.
Proof. intros H s Hs. by apply (H s Hs). Qed.

Lemma spec_when (b : bool) (m : prog S unit) (I : S → Prop) :
  spec E I m (λ _, I) → spec E I (when b m) (λ _, I).
Proof. destruct b; [done|]. intros ?. by apply spec_ret. Qed.

Lemma spec_for_each {A} (xs : list A) (body : A → prog S unit) (I : S → Prop) :
  (∀ x, x ∈ xs → spec E I (body x) (λ _, I)) → spec E I (for_each xs body) (λ _, I).
Proof.
  induction xs as [|x xs IH]; intros H; simpl; [by apply spec_ret|].
  eapply spec_bind.
  - apply H. set_solver.
  - intros []. apply IH. intros y Hy. apply H. set_solver.
Qed.

(** A loop whose invariant depends on what is left to visit. *)
Lemma spec_for_each_rest {A} (xs : list A) (body : A → prog S unit) (I : list A → S → Prop) :
  (∀ x rest, spec E (I (x :: rest)) (body x) (λ _, I rest)) →
  spec E (I xs) (for_each xs body) (λ _, I []).
Proof.
  intros H. induction xs as [|x xs IH]; simpl; [by apply spec_ret|].
  eapply spec_bind; [apply H|]. intros []. apply IH.
Qed.

Lemma spec_for_each_until {A} (xs : list A) (body : A → prog S bool) (I : S → Prop) :
  (∀ x, x ∈ xs → spec E I (body x) (λ _, I)) → spec E I (for_each_until xs body) (λ _, I).
Proof.
  induction xs as [|x xs IH]; intros H; simpl; [by apply spec_ret|].
  eapply spec_bind.
  - apply H. set_solver.
  - intros [|].
    + apply IH. intros y Hy. apply H. set_solver.
    + by apply spec_ret.
Qed.
End spec_rules.

(** One step through a program that keeps a property of the state. *)
Ltac walk_step :=
  match goal with
  | |- spec _ _ (_ ≫= _) _ => eapply spec_keep; [|intros ?]
  | |- spec _ _ (when _ _) _ => apply spec_when
  | |- spec _ _ (for_each _ _) _ => apply spec_for_each; intros ? _
  | |- spec _ _ (mret _) _ => apply spec_ret
  | |- spec _ _ get _ => apply spec_get
  | |- spec _ _ (raise _) _ => by intros ? ?
  | |- spec _ _ (match ?x with _ => _ end) _ => destruct x
  end; try done.

(** [for_each] runs the bodies one after the other. *)
Lemma for_each_app {S A} (xs ys : list A) (body : A → prog S unit) s :
  for_each (xs ++ ys) body s = (for_each xs body ;; for_each ys body) s.
Proof.
  revert s. induction xs as [|x xs IH]; intros s; simpl; [done|].
  rewrite !bind_run. destruct (body x s) as [[] s'|f]; [apply IH|done].
Qed.

(** ** Lists *)

(** std::list::remove: every element equal to [x] goes. *)
Definition list_remove_all {A} `{EqDecision A} (x : A) (l : list A) : list A :=
  filter (λ y, y ≠ x) l.

Lemma elem_of_list_remove_all {A} `{EqDecision A} (x y : A) l :
  y ∈ list_remove_all x l ↔ y ∈ l ∧ y ≠ x.
Proof. unfold list_remove_all. rewrite list_elem_of_filter. tauto. Qed.

Lemma NoDup_list_remove_all {A} `{EqDecision A} (x : A) l : NoDup l → NoDup (list_remove_all x l).
Proof. apply NoDup_filter. Qed.

Lemma length_list_remove_all {A} `{EqDecision A} (x : A) l :
  length (list_remove_all x l) ≤ length l.
Proof. apply length_filter. Qed.

Lemma list_remove_all_absent {A} `{EqDecision A} (x : A) l : x ∉ l → list_remove_all x l = l.
Proof.
  unfold list_remove_all. induction l as [|y l IH]; intros H; [done|].
  rewrite filter_cons. rewrite decide_True by set_solver. f_equal. apply IH. set_solver.
Qed.

Lemma list_remove_all_Permutation {A} `{EqDecision A} (x : A) l :
  NoDup l → x ∈ l → l ≡ₚ x :: list_remove_all x l.
Proof.
  induction 1 as [|y l Hy Hl IH]; [by intros ?%not_elem_of_nil|].
  unfold list_remove_all. rewrite filter_cons. destruct (decide (y = x)) as [->|Hne]; intros Hx.
  - rewrite decide_False by auto. fold (list_remove_all x l). by rewrite list_remove_all_absent.
  - rewrite decide_True by done. rewrite (IH ltac:(set_solver)) at 1. apply perm_swap.
Qed.

(** ** Strings *)

Lemma string_nil_app (b : string) : ("" +:+ b)%string = b.
Proof. done. Qed.

Lemma string_cons_app (x : ascii) (a b : string) : (String x a +:+ b)%string = String x (a +:+ b).
Proof. done. Qed.

Lemma string_app_assoc (a b c : string) : ((a +:+ b) +:+ c)%string = (a +:+ (b +:+ c))%string.
Proof. induction a as [|x a IH]; [done|]. by rewrite !string_cons_app, IH. Qed.

Lemma string_app_nil_r (a : string) : (a +:+ "")%string = a.
Proof. induction a as [|x a IH]; [done|]. by rewrite string_cons_app, IH. Qed.

Lemma string_length_app (a b : string) :
  String.length (a +:+ b) = String.length a + String.length b.
Proof. induction a as [|x a IH]; [done|]. rewrite string_cons_app. simpl. by rewrite IH. Qed.

Lemma substring_all (s : string) : substring 0 (String.length s) s = s.
Proof. induction s as [|x s IH]; simpl; congruence. Qed.

(** ** Machine integers *)

(** (int) of an integer value: the 32 low bits, signed. *)
Definition to_int (z : Z) : Z := ((z + 2 ^ 31) mod 2 ^ 32 - 2 ^ 31)%Z.

Lemma to_int_id z : (- 2 ^ 31 <= z < 2 ^ 31)%Z → to_int z = z.
Proof. intros H. unfold to_int. rewrite Z.mod_small by lia. lia. Qed.

Definition zlen {A} (l : list A) : Z := Z.of_nat (length l).

(** ** Hints *)

Create HintDb spectrum.
#[export] Hint Resolve NoDup_list_remove_all : spectrum.

(** Texts with their concatenations to the right. *)
#[export] Hint Rewrite string_app_assoc string_nil_app string_cons_app string_app_nil_r : texts.
