(* ===== verification/Utf8.v ===== *)
(** * Repairing UTF-8

    utf8::replace_invalid with what it calls (include/transport/utf8: core.h, checked.h):
    the texts a backend sends are copied with a mark in the place of each sequence that is
    not UTF-8. A sequence that is cut off by the end of the text is an exception. *)

From S2P Require Import Prelude.

Definition octet (c : ascii) : N := N_of_ascii c.

Section core.
Local Open Scope N_scope.

Definition is_trail (c : ascii) : bool := N.shiftr (octet c) 6 =? 2.

Definition is_surrogate (cp : N) : bool := (55296 <=? cp) && (cp <=? 57343).

Definition is_code_point_valid (cp : N) : bool :=
  (cp <=? 1114111) && negb (is_surrogate cp) && negb (cp =? 65534) && negb (cp =? 65535).

(** The length a sequence has by its first byte, 0 for a byte none starts with. *)
Definition sequence_length (lead : ascii) : nat :=
  let n := octet lead in
  if n <? 128 then 1%nat
  else if N.shiftr n 5 =? 6 then 2%nat
  else if N.shiftr n 4 =? 14 then 3%nat
  else if N.shiftr n 3 =? 30 then 4%nat
  else 0%nat.

Inductive utf_error := OK | NOT_ENOUGH_ROOM | INVALID_LEAD | INCOMPLETE_SEQUENCE | OVERLONG_SEQUENCE | INVALID_CODE_POINT.

(** The bits of a byte, moved to their place. *)
Definition bits (c : ascii) (by_ mask : N) : N := N.land (N.shiftl (octet c) by_) mask.
Definition low (c : ascii) : N := N.land (octet c) 63.

(** What the code point says of a sequence of [length] bytes whose trail bytes are there. *)
Definition judge (length : nat) (cp : N) : utf_error :=
  if negb (is_code_point_valid cp) then INVALID_CODE_POINT
  else if cp <? 128 then (if (length =? 1)%nat then OK else OVERLONG_SEQUENCE)
  else if cp <? 2048 then (if (length =? 2)%nat then OK else OVERLONG_SEQUENCE)
  else if cp <? 65536 then (if (length =? 3)%nat then OK else OVERLONG_SEQUENCE)
  else OK.

(** validate_next of a text that is not empty; the iterator is moved behind the sequence,
    which is [sequence_length] long, if it answers OK, and is where it was otherwise. *)
Definition validate_next (lead : ascii) (rest : string) : utf_error :=
  match sequence_length lead with
  | 1%nat => OK
  | 0%nat => INVALID_LEAD
  | 2%nat =>
      match rest with
      | String a _ => if is_trail a then judge 2 (bits lead 6 2047 + low a) else INCOMPLETE_SEQUENCE
      | _ => NOT_ENOUGH_ROOM
      end
  | 3%nat =>
      match rest with
      | String a (String b _) =>
          if is_trail a && is_trail b then judge 3 (bits lead 12 65535 + bits a 6 4095 + low b) else INCOMPLETE_SEQUENCE
      | _ => NOT_ENOUGH_ROOM
      end
  | _ =>
      match rest with
      | String a (String b (String c _)) =>
          if is_trail a && is_trail b && is_trail c then judge 4 (bits lead 18 2097151 + bits a 12 262143 + bits b 6 4095 + low c)
          else INCOMPLETE_SEQUENCE
      | _ => NOT_ENOUGH_ROOM
      end
  end.
End core.

(** The loop of replace_invalid. [copied]: how many bytes of a sequence are still to be
    copied; [skipping]: whether the trail bytes of a replaced one are passed over. The byte
    behind the text, which is looked at then, is a zero. *)
Fixpoint replace_from (mark : ascii) (copied : nat) (skipping : bool) (s : string) : option string :=
  match s with
  | EmptyString => Some ""%string
  | String c rest =>
      match copied with
      | S n => String c <$> replace_from mark n false rest
      | O =>
          if skipping && is_trail c then replace_from mark 0 true rest
          else match validate_next c rest with
               | OK => String c <$> replace_from mark (pred (sequence_length c)) false rest
               | NOT_ENOUGH_ROOM => None
               | INVALID_LEAD => String mark <$> replace_from mark 0 false rest
               | INCOMPLETE_SEQUENCE | OVERLONG_SEQUENCE | INVALID_CODE_POINT => String mark <$> replace_from mark 0 true rest
               end
      end
  end.

(** With the mark of all calls; nothing when not_enough_room is thrown. *)
Definition replace_invalid (s : string) : option string := replace_from "_" 0 false s.

(** In a program. *)
Definition replaced {S} (s : string) : prog S string :=
  match replace_invalid s with Some t => mret t | None => raise UncaughtException end.

(** One text after the other. *)
Fixpoint replaced_all {S} (l : list string) : prog S (list string) :=
  match l with
  | [] => mret []
  | s :: l => t ← replaced s; rest ← replaced_all l; mret (t :: rest)
  end.

(** find_invalid(start, end) == end *)
Fixpoint valid_from (passed : nat) (s : string) : bool :=
  match s with
  | EmptyString => true
  | String c rest =>
      match passed with
      | S n => valid_from n rest
      | O => match validate_next c rest with OK => valid_from (pred (sequence_length c)) rest | _ => false end
      end
  end.

Definition is_valid (s : string) : bool := valid_from 0 s.

(** ** Properties *)

(** What is left of a sequence that began: trail bytes. *)
Fixpoint trails (n : nat) (s : string) : bool :=
  match n, s with
  | O, _ => true
  | S n, String c rest => is_trail c && trails n rest
  | S _, EmptyString => false
  end.

Lemma validate_next_trails c rest : validate_next c rest = OK → trails (pred (sequence_length c)) rest = true.
Proof.
  unfold validate_next. destruct (sequence_length c) as [|[|[|[|n]]]] eqn:E; try done.
  - destruct rest as [|a rest]; [done|]. by destruct (is_trail a) eqn:Ea; simpl; rewrite ?Ea.
  - destruct rest as [|a [|b rest]]; try done. destruct (is_trail a) eqn:Ea, (is_trail b) eqn:Eb; try done. simpl. by rewrite Ea, Eb.
  - assert (n = 0) as -> by (unfold sequence_length in E; repeat case_match; lia).
    destruct rest as [|a [|b [|d rest]]]; try done.
    destruct (is_trail a) eqn:Ea, (is_trail b) eqn:Eb, (is_trail d) eqn:Ed; try done. simpl. by rewrite Ea, Eb, Ed.
Qed.

(** It sees no more of the rest than the sequence. *)
Lemma validate_next_prefix c rest rest' : validate_next c rest = OK →
  substring 0 (pred (sequence_length c)) rest' = substring 0 (pred (sequence_length c)) rest → validate_next c rest' = OK.
Proof.
  unfold validate_next. destruct (sequence_length c) as [|[|[|[|n]]]] eqn:E; try done.
  - destruct rest as [|a rest], rest' as [|a' rest']; try done. simpl. by intros ? [= ->].
  - destruct rest as [|a [|b rest]], rest' as [|a' [|b' rest']]; try done. simpl. by intros ? [= -> ->].
  - assert (n = 0) as -> by (unfold sequence_length in E; repeat case_match; lia).
    destruct rest as [|a [|b [|d rest]]], rest' as [|a' [|b' [|d' rest']]]; try done. simpl. by intros ? [= -> -> ->].
Qed.

(** UTF-8 is left as it is. *)
Lemma valid_from_kept mark n s : valid_from n s = true → replace_from mark n false s = Some s.
Proof.
  revert n. induction s as [|c s IH]; intros [|n]; simpl; [done..| |intros Hv; by rewrite IH].
  destruct (validate_next c s) eqn:E; try done. intros Hv. by rewrite IH.
Qed.

Lemma replace_from_valid n skipping s t :
  replace_from "_" n skipping s = Some t → trails n s = true → substring 0 n t = substring 0 n s ∧ valid_from n t = true.
Proof.
  revert n skipping t. induction s as [|c s IH]; intros [|n] skipping t; simpl; [by intros [= <-]|done| |].
  - assert (∀ sk, String "_" <$> replace_from "_" 0 sk s = Some t → substring 0 0 t = ""%string ∧ valid_from 0 t = true) as Hmark.
    { intros sk (t' & Ht & ->)%fmap_Some. split; [done|]. apply (IH 0 sk t' Ht eq_refl). }
    intros Hr _. destruct (skipping && is_trail c).
    { split; [by destruct t|]. by apply (IH 0 true t Hr eq_refl). }
    destruct (validate_next c s) eqn:E; [|done|by eapply Hmark..].
    apply fmap_Some in Hr as (t' & Ht & ->). destruct (IH _ _ _ Ht (validate_next_trails c s E)) as [Hs Hv].
    split; [done|]. simpl. by rewrite (validate_next_prefix c s t' E Hs).
  - intros (t' & Ht & ->)%fmap_Some [_ Htr]%andb_true_iff. destruct (IH n false t' ltac:(done) Htr) as [Hs Hv].
    simpl. by rewrite Hs.
Qed.

(** What is sent on is UTF-8, and what was UTF-8 is the same; but a text that ends inside a
    sequence stops the program. *)
Theorem replaced_is_valid s :
  (∀ t, replace_invalid s = Some t → is_valid t = true) ∧ (is_valid s = true → replace_invalid s = Some s).
Proof.
  split; [|apply valid_from_kept]. intros t Ht. by destruct (replace_from_valid 0 false s t Ht eq_refl) as [_ Hv].
Qed.

(** Repairing texts stops only with the exception, and only if one of them is cut off. *)
Lemma replaced_all_spec {S} (E : fault → Prop) (P : S → Prop) l :
  (∀ s, s ∈ l → replace_invalid s = None → E UncaughtException) → spec E P (replaced_all l) (λ _, P).
Proof.
  intros HE. induction l as [|s l IH]; simpl; [by apply spec_ret|].
  eapply spec_keep; [|intros t; eapply spec_keep; [apply IH; set_solver|intros ?; by apply spec_ret]].
  unfold replaced. destruct (replace_invalid s) eqn:Es; [by apply spec_ret|]. intros w _. apply (HE s); [set_solver|done].
Qed.

Example latin1_repaired : replace_invalid (String "c" (String "233" "a"%string)) = None.
Proof. reflexivity. Qed.

Example latin1_replaced : replace_invalid (String "c" (String "233" "a  b"%string)) = Some "c_a  b"%string.
Proof. reflexivity. Qed.
