(* ===== verification/StdMap.v ===== *)
(** * std::map

    A std::map is iterated in the order of its keys, and several components
    depend on that order (which presence is found first, which user or
    conversation comes first). It is a list of entries sorted by a strict total
    order on the keys, with the operations the code uses. *)

From Stdlib Require Import Sorting.Sorted.
From S2P Require Import Prelude.

(** What std::map asks of operator<. *)
Class StdKey (K : Type) := {
  key_eq_dec :: EqDecision K;
  key_lt : K → K → bool;
  key_lt_irrefl x : key_lt x x = false;
  key_lt_trans x y z : key_lt x y = true → key_lt y z = true → key_lt x z = true;
  key_lt_total x y : x ≠ y → key_lt x y = true ∨ key_lt y x = true;
}.

(** The entries in key order. *)
Abbreviation smap K V := (list (K * V)).

(** ** The operations *)

Section std_map.
Context {K V : Type} `{StdKey K}.

(** find, and operator[] on a key that is there. *)
Fixpoint sfind (k : K) (m : smap K V) : option V :=
  match m with
  | [] => None
  | (k', v) :: m => if decide (k = k') then Some v else sfind k m
  end.

(** m[k] = v *)
Fixpoint sinsert (k : K) (v : V) (m : smap K V) : smap K V :=
  match m with
  | [] => [(k, v)]
  | (k', v') :: m =>
      if decide (k = k') then (k, v) :: m
      else if key_lt k k' then (k, v) :: (k', v') :: m
      else (k', v') :: sinsert k v m
  end.

Definition serase (k : K) (m : smap K V) : smap K V := filter (λ kv, fst kv ≠ k) m.

Definition entry_lt (x y : K * V) : Prop := key_lt (fst x) (fst y) = true.

Definition sorted (m : smap K V) : Prop := StronglySorted entry_lt m.

(** ** Lemmas *)

Lemma sorted_nil : sorted [].
Proof. constructor. Qed.

Lemma sinsert_Forall (P : K * V → Prop) k v m : P (k, v) → Forall P m → Forall P (sinsert k v m).
Proof.
  intros Hk. induction 1 as [|[k' v'] m Hx Hm IH]; simpl; [by constructor|].
  repeat case_decide; [by constructor|]. destruct (key_lt k k'); by repeat constructor.
Qed.

Lemma sinsert_sorted k v m : sorted m → sorted (sinsert k v m).
Proof.
  induction 1 as [|[k' v'] m Hm IH Hall]; simpl; [by repeat constructor|].
  case_decide as Hk; [subst; by constructor|].
  destruct (key_lt k k') eqn:E.
  - constructor; [by constructor|]. constructor; [done|].
    eapply Forall_impl; [exact Hall|]. intros [k2 v2] Hlt. by eapply key_lt_trans.
  - constructor; [done|]. apply sinsert_Forall; [|done].
    unfold entry_lt. simpl. destruct (key_lt_total k k') as [|]; congruence.
Qed.

Lemma sfilter_sorted (P : K * V → Prop) `{∀ x, Decision (P x)} m : sorted m → sorted (filter P m).
Proof.
  induction 1 as [|x m Hm IH Hall]; [constructor|]. rewrite filter_cons.
  case_decide; [|done]. constructor; [done|]. apply Forall_forall.
  intros y [_ Hy]%list_elem_of_filter. by eapply Forall_forall in Hall.
Qed.

Lemma serase_sorted k m : sorted m → sorted (serase k m).
Proof. apply sfilter_sorted. Qed.

Lemma sfind_sinsert_eq k v m : sfind k (sinsert k v m) = Some v.
Proof.
  induction m as [|[k' v'] m IH]; simpl; [by rewrite decide_True|].
  case_decide; simpl; [by rewrite decide_True|].
  destruct (key_lt k k'); simpl; [by rewrite decide_True|]. by rewrite decide_False.
Qed.

Lemma sfind_sinsert_ne k k' v m : k ≠ k' → sfind k (sinsert k' v m) = sfind k m.
Proof.
  intros Hne. induction m as [|[k2 v2] m IH]; simpl; [by rewrite decide_False|].
  destruct (decide (k' = k2)) as [<-|]; simpl; [by rewrite !decide_False|].
  destruct (key_lt k' k2); simpl; [by rewrite decide_False|]. by rewrite IH.
Qed.

Lemma sfind_serase_eq k m : sfind k (serase k m) = None.
Proof.
  unfold serase. induction m as [|[k' v'] m IH]; [done|]. rewrite filter_cons. simpl.
  case_decide; simpl; [|done]. by rewrite decide_False.
Qed.

Lemma sfind_serase_ne k k' m : k ≠ k' → sfind k (serase k' m) = sfind k m.
Proof.
  intros Hne. unfold serase. induction m as [|[k2 v2] m IH]; [done|]. rewrite filter_cons. simpl.
  destruct (decide (k2 ≠ k')) as [|Heq]; simpl; [by rewrite IH|].
  apply dec_stable in Heq as ->. by rewrite decide_False.
Qed.

Lemma sfind_elem k v m : sfind k m = Some v → (k, v) ∈ m.
Proof.
  induction m as [|[k' v'] m IH]; simpl; [done|]. case_decide; [intros [= ->]; set_solver|].
  intros ?%IH. set_solver.
Qed.

Lemma elem_sfind k v m : sorted m → (k, v) ∈ m → sfind k m = Some v.
Proof.
  induction 1 as [|[k' v'] m Hm IH Hall]; [by intros ?%not_elem_of_nil|]. simpl.
  intros [[= -> ->]|Hin]%elem_of_cons; [by rewrite decide_True|].
  case_decide as Heq; [|by apply IH]. subst. eapply Forall_forall in Hall; [|done].
  unfold entry_lt in Hall. simpl in Hall. by rewrite key_lt_irrefl in Hall.
Qed.

Lemma sorted_keys m : sorted m → NoDup (fst <$> m).
Proof.
  induction 1 as [|[k v] m Hm IH Hall]; [constructor|]. apply NoDup_cons. split; [|done]. simpl.
  intros ([k' v'] & -> & Hin)%list_elem_of_fmap. eapply Forall_forall in Hall; [|done].
  unfold entry_lt in Hall. simpl in Hall. by rewrite key_lt_irrefl in Hall.
Qed.

Lemma sinsert_again k v w m : sinsert k v (sinsert k w m) = sinsert k v m.
Proof.
  induction m as [|[k' v'] m IH]; simpl; [by rewrite decide_True|].
  destruct (decide (k = k')); simpl; [by rewrite decide_True|].
  destruct (key_lt k k') eqn:E; simpl; [by rewrite decide_True|]. by rewrite decide_False, E, IH.
Qed.

Lemma sinsert_elem k v m x : x ∈ sinsert k v m → x = (k, v) ∨ x ∈ m.
Proof.
  induction m as [|[k' v'] m IH]; simpl; [set_solver|]. repeat case_match; set_solver.
Qed.

Lemma sfind_None k m : sfind k m = None ↔ k ∉ map fst m.
Proof.
  induction m as [|[k' v'] m IH]; simpl; [set_solver|]. case_decide; set_solver.
Qed.

Lemma sorted_ext m m' : sorted m → sorted m' → (∀ k, sfind k m = sfind k m') → m = m'.
Proof.
  intros Hm. revert m'. induction Hm as [|[k v] m Hm IH Hall]; intros m' Hm' Heq.
  - destruct m' as [|[k v] m']; [done|]. specialize (Heq k). simpl in Heq.
    by rewrite decide_True in Heq.
  - destruct Hm' as [|[k' v'] m' Hm' Hall'].
    { specialize (Heq k). simpl in Heq. by rewrite decide_True in Heq. }
    assert (k = k') as <-.
    { destruct (decide (k = k')) as [|Hne]; [done|].
      pose proof (Heq k) as H1. pose proof (Heq k') as H2. simpl in H1, H2.
      rewrite decide_True in H1 by done. rewrite decide_False in H1 by done.
      rewrite decide_False in H2 by done. rewrite decide_True in H2 by done.
      symmetry in H1. apply sfind_elem in H1, H2.
      eapply Forall_forall in H1; [|exact Hall']. eapply Forall_forall in H2; [|exact Hall].
      unfold entry_lt in *. simpl in *. pose proof (key_lt_trans _ _ _ H1 H2) as H3.
      by rewrite key_lt_irrefl in H3. }
    pose proof (Heq k) as H1. simpl in H1. rewrite !decide_True in H1 by done. injection H1 as <-.
    f_equal. apply IH; [done|]. intros k2. specialize (Heq k2). simpl in Heq.
    case_decide as Hk; [|done]. subst.
    assert (Hnone : ∀ l : smap K V, Forall (entry_lt (k, v)) l → sfind k l = None).
    { intros l Hl. apply sfind_None. intros ([k3 v3] & -> & Hin)%list_elem_of_fmap.
      eapply Forall_forall in Hl; [|done]. unfold entry_lt in Hl. simpl in Hl.
      by rewrite key_lt_irrefl in Hl. }
    by rewrite !Hnone.
Qed.
End std_map.

#[export] Hint Resolve sorted_nil sinsert_sorted serase_sorted : spectrum.

(** ** std::string as a key *)

Fixpoint string_lt (x y : string) : bool :=
  match x, y with
  | EmptyString, EmptyString => false
  | EmptyString, String _ _ => true
  | String _ _, EmptyString => false
  | String a x, String b y =>
      if (N_of_ascii a <? N_of_ascii b)%N then true
      else if (N_of_ascii b <? N_of_ascii a)%N then false
      else string_lt x y
  end.

#[export] Instance string_key : StdKey string.
Proof.
  refine {| key_lt := string_lt |}.
  - induction x as [|a x IH]; simpl; [done|]. by rewrite N.ltb_irrefl.
  - induction x as [|a x IH]; intros [|b y] [|c z]; simpl; try done.
    repeat case_match; try done; rewrite ?N.ltb_lt, ?N.ltb_ge in *; try lia. apply IH.
  - induction x as [|a x IH]; intros [|b y] Hne; simpl; auto.
    destruct (N.ltb_spec (N_of_ascii a) (N_of_ascii b)); [by left|].
    destruct (N.ltb_spec (N_of_ascii b) (N_of_ascii a)); [by right|].
    assert (a = b) as ->.
    { rewrite <- (ascii_N_embedding a), <- (ascii_N_embedding b). f_equal. lia. }
    apply IH. congruence.
Defined.

(** ** Pairs, and keys compared through a function *)

Lemma key_lt_antisym {K} `{StdKey K} (x y : K) : key_lt x y = false → key_lt y x = false → x = y.
Proof.
  intros H1 H2. destruct (decide (x = y)) as [|Hne]; [done|].
  destruct (key_lt_total x y Hne); congruence.
Qed.

Definition pair_lt {K L} `{StdKey K, StdKey L} (x y : K * L) : bool :=
  if key_lt (fst x) (fst y) then true
  else if decide (fst x = fst y) then key_lt (snd x) (snd y) else false.

#[export] Instance pair_key {K L} `{StdKey K, StdKey L} : StdKey (K * L).
Proof.
  refine {| key_lt := pair_lt |}; unfold pair_lt.
  - intros [k l]. simpl. by rewrite key_lt_irrefl, decide_True, key_lt_irrefl.
  - intros [k1 l1] [k2 l2] [k3 l3]. simpl.
    destruct (key_lt k1 k2) eqn:E12.
    + intros _. destruct (key_lt k2 k3) eqn:E23.
      * by rewrite (key_lt_trans _ _ _ E12 E23).
      * case_decide; [subst; by rewrite E12|done].
    + case_decide; [subst|done]. intros H12. destruct (key_lt k2 k3); [done|].
      case_decide; [|done]. by apply key_lt_trans.
  - intros [k1 l1] [k2 l2] Hne. simpl.
    destruct (decide (k1 = k2)) as [<-|Hk].
    + rewrite !key_lt_irrefl, !decide_True by done. apply key_lt_total. congruence.
    + destruct (key_lt_total k1 k2 Hk) as [->|E]; [by left|right]. by rewrite E.
Defined.

Lemma injective_key {K L} `{EqDecision K, StdKey L} (f : K → L) : Inj eq eq f → StdKey K.
Proof.
  intros Hf. refine {| key_lt x y := key_lt (f x) (f y) |}.
  - intros x. apply key_lt_irrefl.
  - intros x y z. apply key_lt_trans.
  - intros x y Hne. apply key_lt_total. intros E. by apply Hne, Hf.
Defined.
