(* ===== verification/Cutting.v ===== *)
(** * Cutting a stream into pieces

    What the readers of a connection have in common: a buffer to which chunks are
    appended and from whose front pieces are taken as long as there is a whole one.
    [next] answers the first piece and the rest of the buffer; whatever arrives later
    does not change a piece that is there. *)

From S2P Require Import Prelude.

Section cutting.
Context {A F : Type} (next : list A → option (F * list A)).

(** The pieces of a buffer, in order, and what follows them. *)
Fixpoint cut (fuel : nat) (data : list A) : list F * list A :=
  match fuel with
  | O => ([], data)
  | S fuel =>
      match next data with
      | None => ([], data)
      | Some (piece, rest) => let '(ps, remaining) := cut fuel rest in (piece :: ps, remaining)
      end
  end.

Definition cut_all (data : list A) : list F * list A := cut (length data) data.

Context (next_shorter : ∀ data piece rest, next data = Some (piece, rest) → length rest < length data).

Lemma next_nil : next [] = None.
Proof. destruct (next []) as [[piece rest]|] eqn:E; [|done]. apply next_shorter in E. simpl in E. lia. Qed.

Lemma cut_fuel fuel fuel' data : length data ≤ fuel → length data ≤ fuel' → cut fuel data = cut fuel' data.
Proof.
  revert fuel' data. induction fuel as [|fuel IH]; intros [|fuel'] data Hf Hf'; simpl; [done| | |].
  1, 2: destruct data; [by rewrite next_nil|simpl in *; lia].
  destruct (next data) as [[piece rest]|] eqn:E; [|done]. apply next_shorter in E. by rewrite (IH fuel' rest) by lia.
Qed.

Lemma cut_all_unfold data :
  cut_all data = match next data with
                 | None => ([], data)
                 | Some (piece, rest) => let '(ps, remaining) := cut_all rest in (piece :: ps, remaining)
                 end.
Proof.
  unfold cut_all. destruct (next data) as [[piece rest]|] eqn:E.
  - pose proof (next_shorter _ _ _ E) as Hl. destruct (length data) as [|fuel] eqn:Ed; [lia|]. simpl. rewrite E.
    by rewrite (cut_fuel fuel (length rest)) by lia.
  - destruct (length data); simpl; [done|]. by rewrite E.
Qed.

(** Induction over the pieces of a buffer. *)
Lemma cut_ind (P : list A → Prop) :
  (∀ data, next data = None → P data) →
  (∀ data piece rest, next data = Some (piece, rest) → P rest → P data) →
  ∀ data, P data.
Proof.
  intros H0 HS data. remember (length data) as n eqn:Hn. revert data Hn.
  induction n as [n IH] using lt_wf_ind. intros data ->. destruct (next data) as [[piece rest]|] eqn:E; [|by apply H0].
  eapply HS; [done|]. apply next_shorter in E. by apply (IH (length rest)).
Qed.

Lemma cut_all_remaining data : next (cut_all data).2 = None.
Proof.
  induction data as [data E|data piece rest E IH] using cut_ind; rewrite cut_all_unfold, E; [done|by destruct (cut_all rest)].
Qed.

Context (next_app : ∀ data piece rest more, next data = Some (piece, rest) → next (data ++ more) = Some (piece, rest ++ more)).

(** The pieces of a buffer stay its first pieces whatever arrives later. *)
Lemma cut_all_app data more :
  cut_all (data ++ more) = ((cut_all data).1 ++ (cut_all ((cut_all data).2 ++ more)).1, (cut_all ((cut_all data).2 ++ more)).2).
Proof.
  induction data as [data E|data piece rest E IH] using cut_ind.
  - rewrite (cut_all_unfold data), E. simpl. by destruct (cut_all (data ++ more)).
  - rewrite (cut_all_unfold (data ++ more)), (next_app _ _ _ _ E), (cut_all_unfold data), E, IH. by destruct (cut_all rest).
Qed.

(** Writing pieces one after the other. *)
Lemma cut_all_concat {M} (write : M → list A) (piece : M → F) (ms : list M) rest :
  Forall (λ m, ∀ more, next (write m ++ more) = Some (piece m, more)) ms →
  cut_all (concat (map write ms) ++ rest) = (map piece ms ++ (cut_all rest).1, (cut_all rest).2).
Proof.
  induction 1 as [|m ms Hm _ IH]; [by simpl; destruct (cut_all rest)|].
  rewrite !map_cons, concat_cons, <- app_assoc, cut_all_unfold, Hm. by rewrite IH.
Qed.
End cutting.
