(* ===== verification/Swiften.v ===== *)
(** * What the code uses of Swiften

    The addresses and stanzas of the XMPP library. [Jid] lists the operations of
    Swift::JID the code calls, with the documented facts the theorems use; the
    stanzas are records of what their getters answer. [reference_jid] shows that
    the interface can be met. *)

From S2P Require Import Prelude StdMap.

Class Jid (J : Type) := {
  jid_key :: StdKey J;
  no_jid : J;
  (** JID(node, domain, resource) *)
  make_jid : string → string → string → J;
  jid_of_string : string → J;
  toBare : J → J;
  isBare : J → bool;
  isValid : J → bool;
  getNode : J → string;
  getDomain : J → string;
  getResource : J → string;
  toString : J → string;
  getUnescapedNode : J → string;
  getEscapedNode : string → string;
  no_jid_invalid : isValid no_jid = false;
  isBare_toBare j : isBare (toBare j) = true;
  toBare_isBare j : isBare j = true → toBare j = j;
  getNode_toBare j : getNode (toBare j) = getNode j;
  getDomain_toBare j : getDomain (toBare j) = getDomain j;
}.

Lemma toBare_idem {J} `{Jid J} j : toBare (toBare j) = toBare j.
Proof. apply toBare_isBare, isBare_toBare. Qed.

#[export] Hint Rewrite @toBare_idem @isBare_toBare @getNode_toBare @getDomain_toBare : jid.

(** Swift::Presence::Type *)
Inductive PresenceType :=
  | Available | ErrorPresence | Probe | Subscribe | Subscribed | Unavailable | Unsubscribe | Unsubscribed.

#[export] Instance PresenceType_eq_dec : EqDecision PresenceType.
Proof. solve_decision. Defined.

(** Swift::StatusShow::Type; the code casts integers of the protocol to it. *)
Inductive StatusShow := Online | Away | FFC | XA | DND | NoShow | OtherShow (n : Z).

Definition StatusShow_of_int (n : Z) : StatusShow :=
  match n with
  | 0 => Online | 1 => Away | 2 => FFC | 3 => XA | 4 => DND | 5 => NoShow | n => OtherShow n
  end%Z.

#[export] Instance StatusShow_eq_dec : EqDecision StatusShow.
Proof. solve_decision. Defined.

(** Swift::MUCOccupant *)
Inductive Affiliation := Owner | Admin | Member | Outcast | NoAffiliation.
Inductive Role := Moderator | ParticipantRole | Visitor | NoRole.

(** Swift::MUCUserPayload with its one item. *)
Record MUCUserPayload := mkMUCUser {
  mu_affiliation : Affiliation;
  mu_role : Role;
  mu_nick : string;
  mu_actor : string;
  mu_reason : string;
  mu_codes : list Z;
}.

(** Swift::ErrorPayload::Condition, the ones the code makes. *)
Inductive ErrorCondition := Conflict | NotAuthorized | ItemNotFound | SubscriptionRequired | OtherCondition.

#[export] Instance ErrorCondition_eq_dec : EqDecision ErrorCondition.
Proof. solve_decision. Defined.

(** A presence, with the payloads the code looks at. *)
Record Presence (J : Type) := mkPresence {
  pr_from : J;
  pr_to : J;
  pr_type : PresenceType;
  pr_show : StatusShow;
  pr_status : string;
  pr_priority : Z;
  (** MUCPayload, with its password *)
  pr_muc : option (option string);
  pr_mucUser : option MUCUserPayload;
  pr_error : option (ErrorCondition * string);
  (** VCardUpdate *)
  pr_photoHash : option string;
  (** CapsInfo's hash *)
  pr_caps : option string;
}.
Arguments mkPresence {J}.
Arguments pr_from {J}.
Arguments pr_to {J}.
Arguments pr_type {J}.
Arguments pr_show {J}.
Arguments pr_status {J}.
Arguments pr_priority {J}.
Arguments pr_muc {J}.
Arguments pr_mucUser {J}.
Arguments pr_error {J}.
Arguments pr_photoHash {J}.
Arguments pr_caps {J}.

Section presence.
Context {J : Type} `{Jid J}.

(** Presence::create() *)
Definition empty_presence : Presence J :=
  mkPresence no_jid no_jid Available Online "" 0 None None None None None.

Definition setPresenceTo (to : J) (p : Presence J) : Presence J :=
  mkPresence (pr_from p) to (pr_type p) (pr_show p) (pr_status p) (pr_priority p)
    (pr_muc p) (pr_mucUser p) (pr_error p) (pr_photoHash p) (pr_caps p).
Definition setPresenceFrom (from : J) (p : Presence J) : Presence J :=
  mkPresence from (pr_to p) (pr_type p) (pr_show p) (pr_status p) (pr_priority p)
    (pr_muc p) (pr_mucUser p) (pr_error p) (pr_photoHash p) (pr_caps p).
Definition setPresenceType (t : PresenceType) (p : Presence J) : Presence J :=
  mkPresence (pr_from p) (pr_to p) t (pr_show p) (pr_status p) (pr_priority p)
    (pr_muc p) (pr_mucUser p) (pr_error p) (pr_photoHash p) (pr_caps p).
Definition setPresenceShow (w : StatusShow) (p : Presence J) : Presence J :=
  mkPresence (pr_from p) (pr_to p) (pr_type p) w (pr_status p) (pr_priority p)
    (pr_muc p) (pr_mucUser p) (pr_error p) (pr_photoHash p) (pr_caps p).
Definition addMUCUser (u : MUCUserPayload) (p : Presence J) : Presence J :=
  mkPresence (pr_from p) (pr_to p) (pr_type p) (pr_show p) (pr_status p) (pr_priority p)
    (pr_muc p) (Some u) (pr_error p) (pr_photoHash p) (pr_caps p).
Definition addPhotoHash (h : string) (p : Presence J) : Presence J :=
  mkPresence (pr_from p) (pr_to p) (pr_type p) (pr_show p) (pr_status p) (pr_priority p)
    (pr_muc p) (pr_mucUser p) (pr_error p) (Some h) (pr_caps p).
(** MUCPayload and ErrorPayload, as the error presences of a room carry them. *)
Definition addMUCError (c : ErrorCondition) (text : string) (p : Presence J) : Presence J :=
  mkPresence (pr_from p) (pr_to p) (pr_type p) (pr_show p) (pr_status p) (pr_priority p)
    (Some None) (pr_mucUser p) (Some (c, text)) (pr_photoHash p) (pr_caps p).
Definition setPresenceStatus (s : string) (p : Presence J) : Presence J :=
  mkPresence (pr_from p) (pr_to p) (pr_type p) (pr_show p) s (pr_priority p)
    (pr_muc p) (pr_mucUser p) (pr_error p) (pr_photoHash p) (pr_caps p).
End presence.

(** Swift::Message::Type *)
Inductive MessageKind := Chat | Groupchat | Headline | Normal | ErrorMessage.

#[export] Instance MessageKind_eq_dec : EqDecision MessageKind.
Proof. solve_decision. Defined.

(** Swift::ChatState::ChatStateType *)
Inductive ChatStateType := Active | Composing | Paused | Inactive | Gone.

#[export] Instance ChatStateType_eq_dec : EqDecision ChatStateType.
Proof. solve_decision. Defined.

(** A message, with the payloads the code makes and reads; a carbon or a
    privilege request forwards a whole message. *)
Inductive Message (J : Type) :=
  | mkMessage (from to : J) (type : MessageKind) (body subject : string)
      (payloads : list (Payload J))
with Payload (J : Type) :=
  | Delay (stamp : Z)
  | CarbonsSent (forwarded : Message J)
  | CarbonsReceived (forwarded : Message J)
  | NoCopy
  | Privilege (forwarded : Message J)
  | ChatState (state : ChatStateType)
  | XHTMLIMPayload (body : string)
  | RawXMLPayload (xml : string)
  | DeliveryReceipt (id : string)
  | AttentionPayload
  | OtherPayload (name content : string).
Arguments mkMessage {J}.
Arguments Delay {J}.
Arguments CarbonsSent {J}.
Arguments CarbonsReceived {J}.
Arguments NoCopy {J}.
Arguments Privilege {J}.
Arguments ChatState {J}.
Arguments XHTMLIMPayload {J}.
Arguments RawXMLPayload {J}.
Arguments DeliveryReceipt {J}.
Arguments AttentionPayload {J}.
Arguments OtherPayload {J}.

Section message.
Context {J : Type}.

Definition m_from (m : Message J) : J := let '(mkMessage x _ _ _ _ _) := m in x.
Definition m_to (m : Message J) : J := let '(mkMessage _ x _ _ _ _) := m in x.
Definition m_type (m : Message J) : MessageKind := let '(mkMessage _ _ x _ _ _) := m in x.
Definition m_body (m : Message J) : string := let '(mkMessage _ _ _ x _ _) := m in x.
Definition m_subject (m : Message J) : string := let '(mkMessage _ _ _ _ x _) := m in x.
Definition m_payloads (m : Message J) : list (Payload J) := let '(mkMessage _ _ _ _ _ x) := m in x.

Definition setMessageFrom (x : J) (m : Message J) : Message J :=
  mkMessage x (m_to m) (m_type m) (m_body m) (m_subject m) (m_payloads m).
Definition setMessageTo (x : J) (m : Message J) : Message J :=
  mkMessage (m_from m) x (m_type m) (m_body m) (m_subject m) (m_payloads m).
Definition setMessageType (x : MessageKind) (m : Message J) : Message J :=
  mkMessage (m_from m) (m_to m) x (m_body m) (m_subject m) (m_payloads m).
Definition addPayload (x : Payload J) (m : Message J) : Message J :=
  mkMessage (m_from m) (m_to m) (m_type m) (m_body m) (m_subject m) (m_payloads m ++ [x]).
Definition setBody (x : string) (m : Message J) : Message J :=
  mkMessage (m_from m) (m_to m) (m_type m) x (m_subject m) (m_payloads m).
Definition setSubject (x : string) (m : Message J) : Message J :=
  mkMessage (m_from m) (m_to m) (m_type m) (m_body m) x (m_payloads m).

(** getPayload<XHTMLIMPayload>(): the body of the first one. *)
Definition getXHTML (m : Message J) : option string :=
  head (omap (λ p, match p with XHTMLIMPayload x => Some x | _ => None end) (m_payloads m)).
End message.

(** ** A reference instance *)

Record ref_jid := mkRefJid { rj_node : string; rj_domain : string; rj_resource : string }.

#[export] Instance ref_jid_eq_dec : EqDecision ref_jid.
Proof. solve_decision. Defined.

#[export] Instance ref_jid_key : StdKey ref_jid.
Proof.
  apply (injective_key (λ j, (rj_node j, (rj_domain j, rj_resource j)))).
  by intros [] [] [= -> -> ->].
Defined.

(** A printer good enough for addresses whose parts hold neither @ nor /. *)
Definition ref_toString (j : ref_jid) : string :=
  ((if String.eqb (rj_node j) "" then "" else rj_node j +:+ "@") +:+ rj_domain j
   +:+ (if String.eqb (rj_resource j) "" then "" else "/" +:+ rj_resource j))%string.

#[export] Instance reference_jid : Jid ref_jid.
Proof.
  refine {|
    no_jid := mkRefJid "" "" "";
    make_jid := mkRefJid;
    jid_of_string s := mkRefJid "" s "";
    toBare j := mkRefJid (rj_node j) (rj_domain j) "";
    isBare j := String.eqb (rj_resource j) "";
    isValid j := negb (String.eqb (rj_domain j) "");
    getNode := rj_node;
    getDomain := rj_domain;
    getResource := rj_resource;
    toString := ref_toString;
    getUnescapedNode := rj_node;
    getEscapedNode s := s;
  |}; try done.
  intros [n d r] Hr%String.eqb_eq. simpl in *. by subst.
Defined.
