(* ===== verification/Protocol.v ===== *)
(** * The wire protocol between Spectrum 2 and its backends

    The messages of include/transport/protocol.proto. A field a sender has not
    set is [None], as protobuf's has-bits record it; [IsInitialized] is
    protobuf's test that every required field is set. Reading an unset field
    gives the default of its type, as the generated accessors do. The wire
    encoding itself is protobuf's and is a parameter: the class [ProtoCodec]. *)

From S2P Require Import Prelude.

(** The bytes of a std::string or of a Swift::SafeByteArray. *)
Abbreviation bytes := (list ascii).

Inductive StatusType :=
  | STATUS_ONLINE
  | STATUS_AWAY
  | STATUS_FFC
  | STATUS_XA
  | STATUS_DND
  | STATUS_NONE
  | STATUS_INVISIBLE.

#[export] Instance StatusType_eq_dec : EqDecision StatusType.
Proof. solve_decision. Defined.

Definition StatusType_number (x : StatusType) : Z :=
  match x with
  | STATUS_ONLINE => 0
  | STATUS_AWAY => 1
  | STATUS_FFC => 2
  | STATUS_XA => 3
  | STATUS_DND => 4
  | STATUS_NONE => 5
  | STATUS_INVISIBLE => 6
  end%Z.

Inductive ConnectionError :=
  | CONNECTION_ERROR_NETWORK_ERROR
  | CONNECTION_ERROR_INVALID_USERNAME
  | CONNECTION_ERROR_AUTHENTICATION_FAILED
  | CONNECTION_ERROR_AUTHENTICATION_IMPOSSIBLE
  | CONNECTION_ERROR_NO_SSL_SUPPORT
  | CONNECTION_ERROR_ENCRYPTION_ERROR
  | CONNECTION_ERROR_NAME_IN_USE
  | CONNECTION_ERROR_INVALID_SETTINGS
  | CONNECTION_ERROR_CERT_NOT_PROVIDED
  | CONNECTION_ERROR_CERT_UNTRUSTED
  | CONNECTION_ERROR_CERT_EXPIRED
  | CONNECTION_ERROR_CERT_NOT_ACTIVATED
  | CONNECTION_ERROR_CERT_HOSTNAME_MISMATCH
  | CONNECTION_ERROR_CERT_FINGERPRINT_MISMATCH
  | CONNECTION_ERROR_CERT_SELF_SIGNED
  | CONNECTION_ERROR_CERT_OTHER_ERROR
  | CONNECTION_ERROR_OTHER_ERROR.

#[export] Instance ConnectionError_eq_dec : EqDecision ConnectionError.
Proof. solve_decision. Defined.

Definition ConnectionError_number (x : ConnectionError) : Z :=
  match x with
  | CONNECTION_ERROR_NETWORK_ERROR => 0
  | CONNECTION_ERROR_INVALID_USERNAME => 1
  | CONNECTION_ERROR_AUTHENTICATION_FAILED => 2
  | CONNECTION_ERROR_AUTHENTICATION_IMPOSSIBLE => 3
  | CONNECTION_ERROR_NO_SSL_SUPPORT => 4
  | CONNECTION_ERROR_ENCRYPTION_ERROR => 5
  | CONNECTION_ERROR_NAME_IN_USE => 6
  | CONNECTION_ERROR_INVALID_SETTINGS => 7
  | CONNECTION_ERROR_CERT_NOT_PROVIDED => 8
  | CONNECTION_ERROR_CERT_UNTRUSTED => 9
  | CONNECTION_ERROR_CERT_EXPIRED => 10
  | CONNECTION_ERROR_CERT_NOT_ACTIVATED => 11
  | CONNECTION_ERROR_CERT_HOSTNAME_MISMATCH => 12
  | CONNECTION_ERROR_CERT_FINGERPRINT_MISMATCH => 13
  | CONNECTION_ERROR_CERT_SELF_SIGNED => 14
  | CONNECTION_ERROR_CERT_OTHER_ERROR => 15
  | CONNECTION_ERROR_OTHER_ERROR => 16
  end%Z.

Inductive MessageType :=
  | TYPE_CONNECTED
  | TYPE_DISCONNECTED
  | TYPE_LOGIN
  | TYPE_LOGOUT
  | TYPE_BUDDY_CHANGED
  | TYPE_BUDDY_REMOVED
  | TYPE_CONV_MESSAGE
  | TYPE_PING
  | TYPE_PONG
  | TYPE_JOIN_ROOM
  | TYPE_LEAVE_ROOM
  | TYPE_PARTICIPANT_CHANGED
  | TYPE_ROOM_NICKNAME_CHANGED
  | TYPE_ROOM_SUBJECT_CHANGED
  | TYPE_VCARD
  | TYPE_STATUS_CHANGED
  | TYPE_BUDDY_TYPING
  | TYPE_BUDDY_STOPPED_TYPING
  | TYPE_BUDDY_TYPED
  | TYPE_AUTH_REQUEST
  | TYPE_ATTENTION
  | TYPE_STATS
  | TYPE_FT_START
  | TYPE_FT_FINISH
  | TYPE_FT_DATA
  | TYPE_FT_PAUSE
  | TYPE_FT_CONTINUE
  | TYPE_EXIT
  | TYPE_BACKEND_CONFIG
  | TYPE_QUERY
  | TYPE_ROOM_LIST
  | TYPE_CONV_MESSAGE_ACK
  | TYPE_RAW_XML
  | TYPE_BUDDIES
  | TYPE_API_VERSION.

#[export] Instance MessageType_eq_dec : EqDecision MessageType.
Proof. solve_decision. Defined.

Definition MessageType_number (x : MessageType) : Z :=
  match x with
  | TYPE_CONNECTED => 1
  | TYPE_DISCONNECTED => 2
  | TYPE_LOGIN => 3
  | TYPE_LOGOUT => 4
  | TYPE_BUDDY_CHANGED => 6
  | TYPE_BUDDY_REMOVED => 7
  | TYPE_CONV_MESSAGE => 8
  | TYPE_PING => 9
  | TYPE_PONG => 10
  | TYPE_JOIN_ROOM => 11
  | TYPE_LEAVE_ROOM => 12
  | TYPE_PARTICIPANT_CHANGED => 13
  | TYPE_ROOM_NICKNAME_CHANGED => 14
  | TYPE_ROOM_SUBJECT_CHANGED => 15
  | TYPE_VCARD => 16
  | TYPE_STATUS_CHANGED => 17
  | TYPE_BUDDY_TYPING => 18
  | TYPE_BUDDY_STOPPED_TYPING => 19
  | TYPE_BUDDY_TYPED => 20
  | TYPE_AUTH_REQUEST => 21
  | TYPE_ATTENTION => 22
  | TYPE_STATS => 23
  | TYPE_FT_START => 24
  | TYPE_FT_FINISH => 25
  | TYPE_FT_DATA => 26
  | TYPE_FT_PAUSE => 27
  | TYPE_FT_CONTINUE => 28
  | TYPE_EXIT => 29
  | TYPE_BACKEND_CONFIG => 30
  | TYPE_QUERY => 31
  | TYPE_ROOM_LIST => 32
  | TYPE_CONV_MESSAGE_ACK => 33
  | TYPE_RAW_XML => 34
  | TYPE_BUDDIES => 35
  | TYPE_API_VERSION => 36
  end%Z.

Module pbnetwork.

Module Connected.
Record t := make {
  user : option string;
}.
Definition empty : t := make None.
Definition set_user (v : string) (m : t) : t :=
  make (Some v).
Definition IsInitialized (m : t) : bool :=
  bool_decide (is_Some (user m)).
End Connected.

Module Disconnected.
Record t := make {
  user : option string;
  error : option Z;
  message : option string;
}.
Definition empty : t := make None None None.
Definition set_user (v : string) (m : t) : t :=
  make (Some v) (error m) (message m).
Definition set_error (v : Z) (m : t) : t :=
  make (user m) (Some v) (message m).
Definition set_message (v : string) (m : t) : t :=
  make (user m) (error m) (Some v).
Definition IsInitialized (m : t) : bool :=
  bool_decide (is_Some (user m)) &&
  bool_decide (is_Some (error m)).
End Disconnected.

Module Login.
Record t := make {
  user : option string;
  legacyName : option string;
  password : option string;
  extraFields : list string;
  settings : option (list (string * string));
}.
Definition empty : t := make None None None [] None.
Definition set_user (v : string) (m : t) : t :=
  make (Some v) (legacyName m) (password m) (extraFields m) (settings m).
Definition set_legacyName (v : string) (m : t) : t :=
  make (user m) (Some v) (password m) (extraFields m) (settings m).
Definition set_password (v : string) (m : t) : t :=
  make (user m) (legacyName m) (Some v) (extraFields m) (settings m).
Definition set_extraFields (v : list string) (m : t) : t :=
  make (user m) (legacyName m) (password m) v (settings m).
Definition set_settings (v : list (string * string)) (m : t) : t :=
  make (user m) (legacyName m) (password m) (extraFields m) (Some v).
Definition IsInitialized (m : t) : bool :=
  bool_decide (is_Some (user m)) &&
  bool_decide (is_Some (legacyName m)) &&
  bool_decide (is_Some (password m)).
End Login.

Module Logout.
Record t := make {
  user : option string;
  legacyName : option string;
}.
Definition empty : t := make None None.
Definition set_user (v : string) (m : t) : t :=
  make (Some v) (legacyName m).
Definition set_legacyName (v : string) (m : t) : t :=
  make (user m) (Some v).
Definition IsInitialized (m : t) : bool :=
  bool_decide (is_Some (user m)) &&
  bool_decide (is_Some (legacyName m)).
End Logout.

Module Buddy.
Record t := make {
  userName : option string;
  buddyName : option string;
  alias : option string;
  group : list string;
  status : option StatusType;
  statusMessage : option string;
  iconHash : option string;
  blocked : option bool;
}.
Definition empty : t := make None None None [] None None None None.
Definition set_userName (v : string) (m : t) : t :=
  make (Some v) (buddyName m) (alias m) (group m) (status m) (statusMessage m) (iconHash m) (blocked m).
Definition set_buddyName (v : string) (m : t) : t :=
  make (userName m) (Some v) (alias m) (group m) (status m) (statusMessage m) (iconHash m) (blocked m).
Definition set_alias (v : string) (m : t) : t :=
  make (userName m) (buddyName m) (Some v) (group m) (status m) (statusMessage m) (iconHash m) (blocked m).
Definition set_group (v : list string) (m : t) : t :=
  make (userName m) (buddyName m) (alias m) v (status m) (statusMessage m) (iconHash m) (blocked m).
Definition set_status (v : StatusType) (m : t) : t :=
  make (userName m) (buddyName m) (alias m) (group m) (Some v) (statusMessage m) (iconHash m) (blocked m).
Definition set_statusMessage (v : string) (m : t) : t :=
  make (userName m) (buddyName m) (alias m) (group m) (status m) (Some v) (iconHash m) (blocked m).
Definition set_iconHash (v : string) (m : t) : t :=
  make (userName m) (buddyName m) (alias m) (group m) (status m) (statusMessage m) (Some v) (blocked m).
Definition set_blocked (v : bool) (m : t) : t :=
  make (userName m) (buddyName m) (alias m) (group m) (status m) (statusMessage m) (iconHash m) (Some v).
Definition IsInitialized (m : t) : bool :=
  bool_decide (is_Some (userName m)) &&
  bool_decide (is_Some (buddyName m)).
End Buddy.

Module Buddies.
Record t := make {
  buddy : list Buddy.t;
}.
Definition empty : t := make [].
Definition set_buddy (v : list Buddy.t) (m : t) : t :=
  make v.
Definition IsInitialized (m : t) : bool :=
  forallb Buddy.IsInitialized (buddy m).
End Buddies.

Module Attachment.
Record t := make {
  url : option string;
  mimeType : option string;
  description : option string;
}.
Definition empty : t := make None None None.
Definition set_url (v : string) (m : t) : t :=
  make (Some v) (mimeType m) (description m).
Definition set_mimeType (v : string) (m : t) : t :=
  make (url m) (Some v) (description m).
Definition set_description (v : string) (m : t) : t :=
  make (url m) (mimeType m) (Some v).
Definition IsInitialized (m : t) : bool :=
  bool_decide (is_Some (url m)).
End Attachment.

Module ConversationMessage.
Record t := make {
  userName : option string;
  buddyName : option string;
  message : option string;
  nickname : option string;
  xhtml : option string;
  timestamp : option string;
  headline : option bool;
  id : option string;
  pm : option bool;
  carbon : option bool;
  attachment : list Attachment.t;
}.
Definition empty : t := make None None None None None None None None None None [].
Definition set_userName (v : string) (m : t) : t :=
  make (Some v) (buddyName m) (message m) (nickname m) (xhtml m) (timestamp m) (headline m) (id m) (pm m) (carbon m) (attachment m).
Definition set_buddyName (v : string) (m : t) : t :=
  make (userName m) (Some v) (message m) (nickname m) (xhtml m) (timestamp m) (headline m) (id m) (pm m) (carbon m) (attachment m).
Definition set_message (v : string) (m : t) : t :=
  make (userName m) (buddyName m) (Some v) (nickname m) (xhtml m) (timestamp m) (headline m) (id m) (pm m) (carbon m) (attachment m).
Definition set_nickname (v : string) (m : t) : t :=
  make (userName m) (buddyName m) (message m) (Some v) (xhtml m) (timestamp m) (headline m) (id m) (pm m) (carbon m) (attachment m).
Definition set_xhtml (v : string) (m : t) : t :=
  make (userName m) (buddyName m) (message m) (nickname m) (Some v) (timestamp m) (headline m) (id m) (pm m) (carbon m) (attachment m).
Definition set_timestamp (v : string) (m : t) : t :=
  make (userName m) (buddyName m) (message m) (nickname m) (xhtml m) (Some v) (headline m) (id m) (pm m) (carbon m) (attachment m).
Definition set_headline (v : bool) (m : t) : t :=
  make (userName m) (buddyName m) (message m) (nickname m) (xhtml m) (timestamp m) (Some v) (id m) (pm m) (carbon m) (attachment m).
Definition set_id (v : string) (m : t) : t :=
  make (userName m) (buddyName m) (message m) (nickname m) (xhtml m) (timestamp m) (headline m) (Some v) (pm m) (carbon m) (attachment m).
Definition set_pm (v : bool) (m : t) : t :=
  make (userName m) (buddyName m) (message m) (nickname m) (xhtml m) (timestamp m) (headline m) (id m) (Some v) (carbon m) (attachment m).
Definition set_carbon (v : bool) (m : t) : t :=
  make (userName m) (buddyName m) (message m) (nickname m) (xhtml m) (timestamp m) (headline m) (id m) (pm m) (Some v) (attachment m).
Definition set_attachment (v : list Attachment.t) (m : t) : t :=
  make (userName m) (buddyName m) (message m) (nickname m) (xhtml m) (timestamp m) (headline m) (id m) (pm m) (carbon m) v.
Definition IsInitialized (m : t) : bool :=
  bool_decide (is_Some (userName m)) &&
  bool_decide (is_Some (buddyName m)) &&
  bool_decide (is_Some (message m)) &&
  forallb Attachment.IsInitialized (attachment m).
End ConversationMessage.

Module Room.
Record t := make {
  userName : option string;
  nickname : option string;
  room : option string;
  password : option string;
}.
Definition empty : t := make None None None None.
Definition set_userName (v : string) (m : t) : t :=
  make (Some v) (nickname m) (room m) (password m).
Definition set_nickname (v : string) (m : t) : t :=
  make (userName m) (Some v) (room m) (password m).
Definition set_room (v : string) (m : t) : t :=
  make (userName m) (nickname m) (Some v) (password m).
Definition set_password (v : string) (m : t) : t :=
  make (userName m) (nickname m) (room m) (Some v).
Definition IsInitialized (m : t) : bool :=
  bool_decide (is_Some (userName m)) &&
  bool_decide (is_Some (nickname m)) &&
  bool_decide (is_Some (room m)).
End Room.

Module RoomList.
Record t := make {
  room : list string;
  name : list string;
  user : option string;
}.
Definition empty : t := make [] [] None.
Definition set_room (v : list string) (m : t) : t :=
  make v (name m) (user m).
Definition set_name (v : list string) (m : t) : t :=
  make (room m) v (user m).
Definition set_user (v : string) (m : t) : t :=
  make (room m) (name m) (Some v).
Definition IsInitialized (m : t) : bool :=
  true.
End RoomList.

Module Participant.
Record t := make {
  userName : option string;
  room : option string;
  nickname : option string;
  flag : option Z;
  status : option StatusType;
  statusMessage : option string;
  newname : option string;
  iconHash : option string;
  alias : option string;
}.
Definition empty : t := make None None None None None None None None None.
Definition set_userName (v : string) (m : t) : t :=
  make (Some v) (room m) (nickname m) (flag m) (status m) (statusMessage m) (newname m) (iconHash m) (alias m).
Definition set_room (v : string) (m : t) : t :=
  make (userName m) (Some v) (nickname m) (flag m) (status m) (statusMessage m) (newname m) (iconHash m) (alias m).
Definition set_nickname (v : string) (m : t) : t :=
  make (userName m) (room m) (Some v) (flag m) (status m) (statusMessage m) (newname m) (iconHash m) (alias m).
Definition set_flag (v : Z) (m : t) : t :=
  make (userName m) (room m) (nickname m) (Some v) (status m) (statusMessage m) (newname m) (iconHash m) (alias m).
Definition set_status (v : StatusType) (m : t) : t :=
  make (userName m) (room m) (nickname m) (flag m) (Some v) (statusMessage m) (newname m) (iconHash m) (alias m).
Definition set_statusMessage (v : string) (m : t) : t :=
  make (userName m) (room m) (nickname m) (flag m) (status m) (Some v) (newname m) (iconHash m) (alias m).
Definition set_newname (v : string) (m : t) : t :=
  make (userName m) (room m) (nickname m) (flag m) (status m) (statusMessage m) (Some v) (iconHash m) (alias m).
Definition set_iconHash (v : string) (m : t) : t :=
  make (userName m) (room m) (nickname m) (flag m) (status m) (statusMessage m) (newname m) (Some v) (alias m).
Definition set_alias (v : string) (m : t) : t :=
  make (userName m) (room m) (nickname m) (flag m) (status m) (statusMessage m) (newname m) (iconHash m) (Some v).
Definition IsInitialized (m : t) : bool :=
  bool_decide (is_Some (userName m)) &&
  bool_decide (is_Some (room m)) &&
  bool_decide (is_Some (nickname m)) &&
  bool_decide (is_Some (flag m)) &&
  bool_decide (is_Some (status m)).
End Participant.

Module VCard.
Record t := make {
  userName : option string;
  buddyName : option string;
  id : option Z;
  fullname : option string;
  nickname : option string;
  photo : option string;
}.
Definition empty : t := make None None None None None None.
Definition set_userName (v : string) (m : t) : t :=
  make (Some v) (buddyName m) (id m) (fullname m) (nickname m) (photo m).
Definition set_buddyName (v : string) (m : t) : t :=
  make (userName m) (Some v) (id m) (fullname m) (nickname m) (photo m).
Definition set_id (v : Z) (m : t) : t :=
  make (userName m) (buddyName m) (Some v) (fullname m) (nickname m) (photo m).
Definition set_fullname (v : string) (m : t) : t :=
  make (userName m) (buddyName m) (id m) (Some v) (nickname m) (photo m).
Definition set_nickname (v : string) (m : t) : t :=
  make (userName m) (buddyName m) (id m) (fullname m) (Some v) (photo m).
Definition set_photo (v : string) (m : t) : t :=
  make (userName m) (buddyName m) (id m) (fullname m) (nickname m) (Some v).
Definition IsInitialized (m : t) : bool :=
  bool_decide (is_Some (userName m)) &&
  bool_decide (is_Some (buddyName m)) &&
  bool_decide (is_Some (id m)).
End VCard.

Module Status.
Record t := make {
  userName : option string;
  status : option StatusType;
  statusMessage : option string;
}.
Definition empty : t := make None None None.
Definition set_userName (v : string) (m : t) : t :=
  make (Some v) (status m) (statusMessage m).
Definition set_status (v : StatusType) (m : t) : t :=
  make (userName m) (Some v) (statusMessage m).
Definition set_statusMessage (v : string) (m : t) : t :=
  make (userName m) (status m) (Some v).
Definition IsInitialized (m : t) : bool :=
  bool_decide (is_Some (userName m)) &&
  bool_decide (is_Some (status m)).
End Status.

Module Stats.
Record t := make {
  res : option Z;
  init_res : option Z;
  shared : option Z;
  id : option string;
}.
Definition empty : t := make None None None None.
Definition set_res (v : Z) (m : t) : t :=
  make (Some v) (init_res m) (shared m) (id m).
Definition set_init_res (v : Z) (m : t) : t :=
  make (res m) (Some v) (shared m) (id m).
Definition set_shared (v : Z) (m : t) : t :=
  make (res m) (init_res m) (Some v) (id m).
Definition set_id (v : string) (m : t) : t :=
  make (res m) (init_res m) (shared m) (Some v).
Definition IsInitialized (m : t) : bool :=
  bool_decide (is_Some (res m)) &&
  bool_decide (is_Some (init_res m)) &&
  bool_decide (is_Some (shared m)) &&
  bool_decide (is_Some (id m)).
End Stats.

Module BackendConfig.
Record t := make {
  config : option string;
}.
Definition empty : t := make None.
Definition set_config (v : string) (m : t) : t :=
  make (Some v).
Definition IsInitialized (m : t) : bool :=
  bool_decide (is_Some (config m)).
End BackendConfig.

Module APIVersion.
Record t := make {
  version : option Z;
}.
Definition empty : t := make None.
Definition set_version (v : Z) (m : t) : t :=
  make (Some v).
Definition IsInitialized (m : t) : bool :=
  bool_decide (is_Some (version m)).
End APIVersion.

Module WrapperMessage.
Record t := make {
  type : option MessageType;
  payload : option bytes;
}.
Definition empty : t := make None None.
Definition set_type (v : MessageType) (m : t) : t :=
  make (Some v) (payload m).
Definition set_payload (v : bytes) (m : t) : t :=
  make (type m) (Some v).
Definition IsInitialized (m : t) : bool :=
  bool_decide (is_Some (type m)).
End WrapperMessage.

End pbnetwork.

(** Building a message field by field, in the order the code calls the setters. *)
Notation "m |> f" := (f m) (at level 56, f at level 9, left associativity, only parsing).

(** Reading a field that may be unset. *)
Definition str (o : option string) : string := default EmptyString o.
Definition flag_of (o : option bool) : bool := default false o.
Definition num (o : option Z) : Z := default 0%Z o.

(** What the code relies on in protobuf: an initialized message that is
    serialized is parsed back as it was, and parsing refuses a message whose
    required fields are not all there. *)
Class ProtoCodec (M : Type) (IsInitialized : M → bool) := {
  SerializeToString : M → bytes;
  ParseFromString : bytes → option M;
  parse_serialize : ∀ m, IsInitialized m = true → ParseFromString (SerializeToString m) = Some m;
  parse_initialized : ∀ data m, ParseFromString data = Some m → IsInitialized m = true;
}.
Arguments SerializeToString {M IsInitialized _} m.
Arguments ParseFromString {M IsInitialized _} data.

(** One codec per message the two sides exchange. *)
Class Protobuf := {
  #[global] codec_Connected :: ProtoCodec pbnetwork.Connected.t pbnetwork.Connected.IsInitialized;
  #[global] codec_Disconnected :: ProtoCodec pbnetwork.Disconnected.t pbnetwork.Disconnected.IsInitialized;
  #[global] codec_Login :: ProtoCodec pbnetwork.Login.t pbnetwork.Login.IsInitialized;
  #[global] codec_Logout :: ProtoCodec pbnetwork.Logout.t pbnetwork.Logout.IsInitialized;
  #[global] codec_Buddy :: ProtoCodec pbnetwork.Buddy.t pbnetwork.Buddy.IsInitialized;
  #[global] codec_Buddies :: ProtoCodec pbnetwork.Buddies.t pbnetwork.Buddies.IsInitialized;
  #[global] codec_ConversationMessage :: ProtoCodec pbnetwork.ConversationMessage.t pbnetwork.ConversationMessage.IsInitialized;
  #[global] codec_Room :: ProtoCodec pbnetwork.Room.t pbnetwork.Room.IsInitialized;
  #[global] codec_RoomList :: ProtoCodec pbnetwork.RoomList.t pbnetwork.RoomList.IsInitialized;
  #[global] codec_Participant :: ProtoCodec pbnetwork.Participant.t pbnetwork.Participant.IsInitialized;
  #[global] codec_VCard :: ProtoCodec pbnetwork.VCard.t pbnetwork.VCard.IsInitialized;
  #[global] codec_Status :: ProtoCodec pbnetwork.Status.t pbnetwork.Status.IsInitialized;
  #[global] codec_Stats :: ProtoCodec pbnetwork.Stats.t pbnetwork.Stats.IsInitialized;
  #[global] codec_BackendConfig :: ProtoCodec pbnetwork.BackendConfig.t pbnetwork.BackendConfig.IsInitialized;
  #[global] codec_APIVersion :: ProtoCodec pbnetwork.APIVersion.t pbnetwork.APIVersion.IsInitialized;
  #[global] codec_WrapperMessage :: ProtoCodec pbnetwork.WrapperMessage.t pbnetwork.WrapperMessage.IsInitialized;
}.
