(* ===== verification/Framing.v ===== *)
(** * Message framing

    Every WrapperMessage travels behind a four byte header, its size in network
    byte order: NetworkPluginServer::send and NetworkPlugin::send write it, the
    two handleDataRead loops cut the stream at it. The loops differ in what
    they do with a frame that does not parse, which is [on_parse_error]. *)

From S2P Require Import Prelude Protocol Cutting.

(** ** The header *)

Definition byte_of (z : Z) : ascii := ascii_of_N (Z.to_N (z mod 256)).
Definition Z_of_byte (c : ascii) : Z := Z.of_N (N_of_ascii c).

(** uint32_t size = htonl(data.size()), as the four bytes of its object. *)
Definition htonl_bytes (size : Z) : bytes :=
  let size := (size mod 2 ^ 32)%Z in
  [byte_of (size / 2 ^ 24); byte_of (size / 2 ^ 16); byte_of (size / 2 ^ 8); byte_of size]%Z.

(** ntohl of the unsigned int read at the start of the buffer. *)
Definition ntohl_bytes (b0 b1 b2 b3 : ascii) : Z :=
  (Z_of_byte b0 * 2 ^ 24 + Z_of_byte b1 * 2 ^ 16 + Z_of_byte b2 * 2 ^ 8 + Z_of_byte b3)%Z.

(** NetworkPluginServer::send and NetworkPlugin::send: what is written to the
    connection. *)
Definition send_frame (data : bytes) : bytes :=
  htonl_bytes (Z.of_nat (length data)) ++ data.

Section wrap.
Context `{Protobuf}.
Import pbnetwork.

(** The WRAP macro: the payload inside a WrapperMessage of the given type. *)
Definition WRAP (payload : bytes) (type : MessageType) : bytes :=
  SerializeToString
    (WrapperMessage.empty |> (WrapperMessage.set_type type) |> (WrapperMessage.set_payload payload)).

(** A WrapperMessage without payload. *)
Definition WRAP_empty (type : MessageType) : bytes :=
  SerializeToString (WrapperMessage.empty |> (WrapperMessage.set_type type)).
End wrap.

(** What the head of the buffer holds: a whole frame and the rest of the
    buffer, or not enough data yet. The frame is given to the parser by its address,
    &data[4], and its length; for an empty frame at the end of the buffer that address is
    the one past the end, from which nothing is read. *)
Definition next_frame (data : bytes) : option (bytes * bytes) :=
  match data with
  | b0 :: b1 :: b2 :: b3 :: rest =>
      let expected_size := ntohl_bytes b0 b1 b2 b3 in
      if (Z.of_nat (length rest) <? expected_size)%Z then None
      else Some (firstn (Z.to_nat expected_size) rest, skipn (Z.to_nat expected_size) rest)
  | _ => None
  end.

(** ** The receive loop

    [dispatch] is the switch of handleDataRead; it answers [false] in the
    default branch, which leaves the loop with a return. *)

Section receive.
Context {S W : Type}.
Context (parse : bytes → option W) (on_parse_error : bool) (dispatch : W → prog S bool).

(** while (data.size() != 0), over the buffer; answers the buffer left. *)
Fixpoint read_loop (fuel : nat) (data : bytes) : prog S bytes :=
  match fuel with
  | O => mret data
  | Datatypes.S fuel =>
      match next_frame data with
      | None => mret data
      | Some (frame, rest) =>
          match parse frame with
          | None => if on_parse_error then read_loop fuel rest else mret rest
          | Some wrapper =>
              go ← dispatch wrapper;
              if go : bool then read_loop fuel rest else mret rest
          end
      end
  end.

(** handleDataRead: append the chunk, then loop. An iteration erases at least
    the header, so the buffer's length is enough fuel. *)
Definition handle_data_read (buffer chunk : bytes) : prog S bytes :=
  let data := buffer ++ chunk in read_loop (length data) data.
End receive.

(** The whole frames of a buffer, in order, and what follows them. *)
Definition split_frames (fuel : nat) (data : bytes) : list bytes * bytes := cut next_frame fuel data.

Definition frames (data : bytes) : list bytes * bytes := split_frames (length data) data.

(** ** Lemmas *)

Lemma Z_of_byte_of z : Z_of_byte (byte_of z) = (z mod 256)%Z.
Proof.
  unfold Z_of_byte, byte_of.
  assert (0 <= z mod 256 < 256)%Z by (apply Z.mod_pos_bound; lia).
  rewrite N_ascii_embedding by lia. lia.
Qed.

Lemma Z_of_byte_range c : (0 <= Z_of_byte c < 256)%Z.
Proof. unfold Z_of_byte. pose proof (N_ascii_bounded c). lia. Qed.

Lemma ntohl_bytes_range b0 b1 b2 b3 : (0 <= ntohl_bytes b0 b1 b2 b3 < 2 ^ 32)%Z.
Proof.
  unfold ntohl_bytes.
  pose proof (Z_of_byte_range b0). pose proof (Z_of_byte_range b1).
  pose proof (Z_of_byte_range b2). pose proof (Z_of_byte_range b3). lia.
Qed.

Lemma ntohl_htonl n :
  match htonl_bytes n with
  | [b0; b1; b2; b3] => ntohl_bytes b0 b1 b2 b3 = (n mod 2 ^ 32)%Z
  | _ => False
  end.
Proof.
  unfold htonl_bytes, ntohl_bytes. rewrite !Z_of_byte_of.
  set (m := (n mod 2 ^ 32)%Z).
  assert (0 <= m < 2 ^ 32)%Z by (apply Z.mod_pos_bound; lia).
  Z.to_euclidean_division_equations. lia.
Qed.

Lemma next_frame_send data rest :
  (Z.of_nat (length data) < 2 ^ 32)%Z →
  next_frame (send_frame data ++ rest) = Some (data, rest).
Proof.
  intros Hlen. unfold send_frame.
  pose proof (ntohl_htonl (Z.of_nat (length data))) as H.
  destruct (htonl_bytes (Z.of_nat (length data))) as [|b0 [|b1 [|b2 [|b3 [|]]]]]; try done.
  simpl. rewrite H, Z.mod_small by lia. rewrite length_app.
  destruct (Z.ltb_spec (Z.of_nat (length data + length rest)) (Z.of_nat (length data))); [lia|].
  rewrite Nat2Z.id, take_app_length, drop_app_length. done.
Qed.

(** A frame is cut the same way when more data follows it. *)
Lemma next_frame_app data frame rest more :
  next_frame data = Some (frame, rest) → next_frame (data ++ more) = Some (frame, rest ++ more).
Proof.
  destruct data as [|b0 [|b1 [|b2 [|b3 l]]]]; try done. simpl.
  pose proof (ntohl_bytes_range b0 b1 b2 b3) as Hr.
  set (n := ntohl_bytes b0 b1 b2 b3) in *. rewrite length_app.
  destruct (Z.ltb_spec (Z.of_nat (length l)) n) as [|Hge]; [done|].
  destruct (Z.ltb_spec (Z.of_nat (length l + length more)) n); [lia|].
  intros [= <- <-].
  rewrite take_app_le, drop_app_le by lia. done.
Qed.

Lemma next_frame_length data frame rest :
  next_frame data = Some (frame, rest) → length data = 4 + length frame + length rest.
Proof.
  destruct data as [|b0 [|b1 [|b2 [|b3 l]]]]; try done. simpl.
  destruct (Z.ltb_spec (Z.of_nat (length l)) (ntohl_bytes b0 b1 b2 b3)) as [|Hge]; [done|].
  pose proof (ntohl_bytes_range b0 b1 b2 b3).
  intros [= <- <-]. rewrite length_take, length_drop. lia.
Qed.

Lemma next_frame_short data : length data < 4 → next_frame data = None.
Proof. by destruct data as [|? [|? [|? [|? ?]]]]; simpl; [..|lia]. Qed.

(** *** Cutting a buffer into frames *)

Lemma next_frame_shorter data frame rest : next_frame data = Some (frame, rest) → length rest < length data.
Proof. intros E%next_frame_length. lia. Qed.

Lemma split_frames_fuel fuel fuel' data :
  length data ≤ fuel → length data ≤ fuel' → split_frames fuel data = split_frames fuel' data.
Proof. apply cut_fuel, next_frame_shorter. Qed.

Lemma frames_unfold data :
  frames data = match next_frame data with
                | None => ([], data)
                | Some (frame, rest) =>
                    let '(fs, remaining) := frames rest in (frame :: fs, remaining)
                end.
Proof. apply (cut_all_unfold next_frame), next_frame_shorter. Qed.

(** The frames of a buffer stay its first frames whatever arrives later. *)
Lemma frames_app data more :
  frames (data ++ more) =
  ((frames data).1 ++ (frames ((frames data).2 ++ more)).1, (frames ((frames data).2 ++ more)).2).
Proof. apply (cut_all_app next_frame); [apply next_frame_shorter|intros ????; apply next_frame_app]. Qed.

Lemma next_frame_remaining data : next_frame (frames data).2 = None.
Proof. apply (cut_all_remaining next_frame), next_frame_shorter. Qed.

Lemma frames_send_all (msgs : list bytes) rest :
  Forall (λ m, (Z.of_nat (length m) < 2 ^ 32)%Z) msgs →
  frames (concat (map send_frame msgs) ++ rest) = (msgs ++ (frames rest).1, (frames rest).2).
Proof.
  intros Hm. unfold frames, split_frames. fold (cut_all next_frame (concat (map send_frame msgs) ++ rest)).
  rewrite (cut_all_concat next_frame next_frame_shorter send_frame id); [by rewrite map_id|].
  eapply Forall_impl; [exact Hm|]. intros m Hlen more. by apply next_frame_send.
Qed.

Section receive_lemmas.
Context {S W : Type}.
Context (parse : bytes → option W) (dispatch : W → prog S bool).

(** The handler of one frame, on the side that skips what does not parse. *)
Definition run_frame (frame : bytes) : prog S unit :=
  match parse frame with
  | None => mret tt
  | Some wrapper => dispatch wrapper ;; mret tt
  end.

(** A switch that never reaches its default branch on [frame]. *)
Definition never_returns (frame : bytes) : Prop :=
  ∀ wrapper s b s', parse frame = Some wrapper → dispatch wrapper s = Done b s' → b = true.

Lemma read_loop_frames fuel data s :
  length data ≤ fuel → Forall never_returns (frames data).1 →
  read_loop parse true dispatch fuel data s =
  (for_each (frames data).1 run_frame ;; mret (frames data).2) s.
Proof.
  revert data s. induction fuel as [|fuel IH]; intros data s Hf Hnever.
  - destruct data; [done|simpl in Hf; lia].
  - simpl read_loop. rewrite frames_unfold in Hnever |- *.
    destruct (next_frame data) as [[frame rest]|] eqn:E; [|done].
    apply next_frame_length in E.
    destruct (frames rest) as [fs remaining] eqn:Er. simpl in Hnever.
    apply Forall_cons in Hnever as [Hn Hnever].
    specialize (IH rest). rewrite Er in IH. simpl in IH.
    unfold mbind, prog_bind, run_frame in *. simpl.
    destruct (parse frame) as [wrapper|] eqn:Ep; [|apply IH; [lia|done]].
    rewrite !bind_run. unfold mbind, prog_bind in *.
    destruct (dispatch wrapper s) as [b s'|f] eqn:Ed; [|done].
    rewrite (Hn wrapper s b s' Ep Ed). simpl. apply IH; [lia|done].
Qed.
End receive_lemmas.

(** *** Reading a stream that arrives in chunks *)

Section chunks.
Context {S W : Type}.
Context (parse : bytes → option W) (dispatch : W → prog S bool).

(** The connection delivers [chunks] one after the other. *)
Fixpoint read_chunks (buffer : bytes) (chunks : list bytes) : prog S bytes :=
  match chunks with
  | [] => mret buffer
  | chunk :: chunks =>
      buffer ← handle_data_read parse true dispatch buffer chunk; read_chunks buffer chunks
  end.

Lemma read_chunks_frames buffer chunks s :
  next_frame buffer = None →
  Forall (never_returns parse dispatch) (frames (buffer ++ concat chunks)).1 →
  read_chunks buffer chunks s =
  (for_each (frames (buffer ++ concat chunks)).1 (run_frame parse dispatch) ;;
   mret (frames (buffer ++ concat chunks)).2) s.
Proof.
  revert buffer s. induction chunks as [|chunk chunks IH]; intros buffer s Hb Hnever; simpl.
  - rewrite app_nil_r, frames_unfold, Hb. done.
  - simpl in Hnever. rewrite app_assoc in Hnever |- *.
    rewrite frames_app in Hnever |- *. cbn [fst snd] in *.
    apply Forall_app in Hnever as [Hnow Hlater].
    unfold handle_data_read. rewrite !bind_run, read_loop_frames by done.
    rewrite !bind_run, for_each_app, bind_run.
    destruct (for_each _ _ s) as [[] s'|f]; [|reflexivity].
    rewrite ret_run, IH; [by rewrite bind_run| |exact Hlater].
    apply next_frame_remaining.
Qed.
End chunks.

(** ** What the protocol promises *)

(** C5: however the network cuts the stream into chunks, a reader whose switch
    knows the messages dispatches exactly the payloads the peer sent, once
    each and in order, and is left with an empty buffer. *)
Theorem stream_round_trip {S W : Type} (parse : bytes → option W) (dispatch : W → prog S bool)
    (payloads chunks : list bytes) (s : S) :
  Forall (λ p, (Z.of_nat (length p) < 2 ^ 32)%Z) payloads →
  Forall (never_returns parse dispatch) payloads →
  concat chunks = concat (map send_frame payloads) →
  read_chunks parse dispatch [] chunks s =
  (for_each payloads (run_frame parse dispatch) ;; mret []) s.
Proof.
  intros Hlen Hnever Hchunks.
  pose proof (frames_send_all payloads [] Hlen) as Hf.
  rewrite app_nil_r, (frames_unfold []) in Hf. simpl in Hf. rewrite app_nil_r in Hf.
  rewrite read_chunks_frames; simpl; rewrite ?Hchunks, ?Hf; done.
Qed.

Lemma stream_round_trip_witness :
  read_chunks Some (λ w s, Done true (s ++ [w]))
    [] [take 3 (send_frame ["a"; "b"]%char); drop 3 (send_frame ["a"; "b"]%char) ++ send_frame []] []
  = Done [] [["a"; "b"]%char; []].
Proof.
  rewrite (stream_round_trip Some (λ w s, Done true (s ++ [w])) [["a"; "b"]%char; []]).
  - reflexivity.
  - repeat constructor.
  - repeat constructor; by intros ? ? ? ? _ [= <- <-].
  - reflexivity.
Defined.

(** C6: the size field is 32 bits wide. A payload is recovered from its frame
    exactly when it is shorter than 2^32 bytes: the header of a longer one
    announces the size modulo 2^32 and the reader loses the frame boundary. *)
Theorem frame_size_bound (data rest : bytes) :
  next_frame (send_frame data ++ rest) = Some (data, rest) ↔ (Z.of_nat (length data) < 2 ^ 32)%Z.
Proof.
  split; [|apply next_frame_send].
  unfold send_frame. pose proof (ntohl_htonl (Z.of_nat (length data))) as H.
  destruct (htonl_bytes (Z.of_nat (length data))) as [|b0 [|b1 [|b2 [|b3 [|]]]]]; try done.
  intros E. apply next_frame_length in E as El. cbn in E. rewrite H in E.
  destruct (_ <? _)%Z eqn:Elt; [done|]. apply Z.ltb_ge in Elt.
  injection E as Hd _. apply (f_equal length) in Hd.
  rewrite length_take, length_app in Hd.
  pose proof (Z.mod_pos_bound (Z.of_nat (length data)) (2 ^ 32)). lia.
Qed.
