(* ===== verification/ReferenceCodec.v ===== *)
(** * A reference codec

    A concrete instance of [Protobuf], so that the theorems that take protobuf
    as a parameter can be applied to concrete runs: a message is written as the
    bits of its [Countable] code. It is not protobuf's wire format; it has the
    two properties the development asks of protobuf. *)

From S2P Require Import Prelude Protocol.
Import pbnetwork.

(** ** Bits as bytes *)

Fixpoint bytes_of_positive (p : positive) : bytes :=
  match p with
  | xH => []
  | xO p => "0"%char :: bytes_of_positive p
  | xI p => "1"%char :: bytes_of_positive p
  end.

Fixpoint positive_of_bytes (b : bytes) : positive :=
  match b with
  | [] => xH
  | c :: b => if Ascii.eqb c "1" then xI (positive_of_bytes b) else xO (positive_of_bytes b)
  end.

Lemma positive_of_bytes_of_positive p : positive_of_bytes (bytes_of_positive p) = p.
Proof. induction p; simpl; congruence. Qed.

Section countable_codec.
Context {M : Type} `{Countable M} (IsInitialized : M → bool).

Definition serialize_countable (m : M) : bytes := bytes_of_positive (encode m).

Definition parse_countable (b : bytes) : option M :=
  match decode (positive_of_bytes b) with
  | Some m => if IsInitialized m then Some m else None
  | None => None
  end.

#[refine] Instance countable_codec : ProtoCodec M IsInitialized := {
  SerializeToString := serialize_countable;
  ParseFromString := parse_countable;
}.
Proof.
  - intros m Hm. unfold parse_countable, serialize_countable.
    by rewrite positive_of_bytes_of_positive, decode_encode, Hm.
  - intros data m. unfold parse_countable. repeat case_match; naive_solver.
Defined.
End countable_codec.

(** ** The messages are countable *)

#[export] Instance ascii_bytes_countable : Countable ascii.
Proof. apply (inj_countable' N_of_ascii ascii_of_N), ascii_N_embedding. Defined.

Definition all_StatusType : list StatusType :=
  [STATUS_ONLINE; STATUS_AWAY; STATUS_FFC; STATUS_XA; STATUS_DND; STATUS_NONE; STATUS_INVISIBLE].

#[export] Instance StatusType_countable : Countable StatusType.
Proof.
  apply (inj_countable StatusType_number
    (λ z, list_find (λ x, StatusType_number x = z) all_StatusType ≫= λ r, Some (snd r))).
  by intros [].
Defined.

Definition all_MessageType : list MessageType :=
  [TYPE_CONNECTED; TYPE_DISCONNECTED; TYPE_LOGIN; TYPE_LOGOUT; TYPE_BUDDY_CHANGED; TYPE_BUDDY_REMOVED; TYPE_CONV_MESSAGE; TYPE_PING; TYPE_PONG; TYPE_JOIN_ROOM; TYPE_LEAVE_ROOM; TYPE_PARTICIPANT_CHANGED; TYPE_ROOM_NICKNAME_CHANGED; TYPE_ROOM_SUBJECT_CHANGED; TYPE_VCARD; TYPE_STATUS_CHANGED; TYPE_BUDDY_TYPING; TYPE_BUDDY_STOPPED_TYPING; TYPE_BUDDY_TYPED; TYPE_AUTH_REQUEST; TYPE_ATTENTION; TYPE_STATS; TYPE_FT_START; TYPE_FT_FINISH; TYPE_FT_DATA; TYPE_FT_PAUSE; TYPE_FT_CONTINUE; TYPE_EXIT; TYPE_BACKEND_CONFIG; TYPE_QUERY; TYPE_ROOM_LIST; TYPE_CONV_MESSAGE_ACK; TYPE_RAW_XML; TYPE_BUDDIES; TYPE_API_VERSION].

#[export] Instance MessageType_countable : Countable MessageType.
Proof.
  apply (inj_countable MessageType_number
    (λ z, list_find (λ x, MessageType_number x = z) all_MessageType ≫= λ r, Some (snd r))).
  by intros [].
Defined.

#[export] Instance Connected_eq_dec : EqDecision Connected.t.
Proof. solve_decision. Defined.
#[export] Instance Connected_countable : Countable Connected.t.
Proof.
  apply (inj_countable' (λ m, (Connected.user m))
    (λ x0, Connected.make x0)).
  by intros [].
Defined.

#[export] Instance Disconnected_eq_dec : EqDecision Disconnected.t.
Proof. solve_decision. Defined.
#[export] Instance Disconnected_countable : Countable Disconnected.t.
Proof.
  apply (inj_countable' (λ m, (Disconnected.user m, Disconnected.error m, Disconnected.message m))
    (λ '(x0, x1, x2), Disconnected.make x0 x1 x2)).
  by intros [].
Defined.

#[export] Instance Login_eq_dec : EqDecision Login.t.
Proof. solve_decision. Defined.
#[export] Instance Login_countable : Countable Login.t.
Proof.
  apply (inj_countable' (λ m, (Login.user m, Login.legacyName m, Login.password m, Login.extraFields m, Login.settings m))
    (λ '(x0, x1, x2, x3, x4), Login.make x0 x1 x2 x3 x4)).
  by intros [].
Defined.

#[export] Instance Logout_eq_dec : EqDecision Logout.t.
Proof. solve_decision. Defined.
#[export] Instance Logout_countable : Countable Logout.t.
Proof.
  apply (inj_countable' (λ m, (Logout.user m, Logout.legacyName m))
    (λ '(x0, x1), Logout.make x0 x1)).
  by intros [].
Defined.

#[export] Instance Buddy_eq_dec : EqDecision Buddy.t.
Proof. solve_decision. Defined.
#[export] Instance Buddy_countable : Countable Buddy.t.
Proof.
  apply (inj_countable' (λ m, (Buddy.userName m, Buddy.buddyName m, Buddy.alias m, Buddy.group m, Buddy.status m, Buddy.statusMessage m, Buddy.iconHash m, Buddy.blocked m))
    (λ '(x0, x1, x2, x3, x4, x5, x6, x7), Buddy.make x0 x1 x2 x3 x4 x5 x6 x7)).
  by intros [].
Defined.

#[export] Instance Buddies_eq_dec : EqDecision Buddies.t.
Proof. solve_decision. Defined.
#[export] Instance Buddies_countable : Countable Buddies.t.
Proof.
  apply (inj_countable' (λ m, (Buddies.buddy m))
    (λ x0, Buddies.make x0)).
  by intros [].
Defined.

#[export] Instance Attachment_eq_dec : EqDecision Attachment.t.
Proof. solve_decision. Defined.
#[export] Instance Attachment_countable : Countable Attachment.t.
Proof.
  apply (inj_countable' (λ m, (Attachment.url m, Attachment.mimeType m, Attachment.description m))
    (λ '(x0, x1, x2), Attachment.make x0 x1 x2)).
  by intros [].
Defined.

#[export] Instance ConversationMessage_eq_dec : EqDecision ConversationMessage.t.
Proof. solve_decision. Defined.
#[export] Instance ConversationMessage_countable : Countable ConversationMessage.t.
Proof.
  apply (inj_countable' (λ m, (ConversationMessage.userName m, ConversationMessage.buddyName m, ConversationMessage.message m, ConversationMessage.nickname m, ConversationMessage.xhtml m, ConversationMessage.timestamp m, ConversationMessage.headline m, ConversationMessage.id m, ConversationMessage.pm m, ConversationMessage.carbon m, ConversationMessage.attachment m))
    (λ '(x0, x1, x2, x3, x4, x5, x6, x7, x8, x9, x10), ConversationMessage.make x0 x1 x2 x3 x4 x5 x6 x7 x8 x9 x10)).
  by intros [].
Defined.

#[export] Instance Room_eq_dec : EqDecision Room.t.
Proof. solve_decision. Defined.
#[export] Instance Room_countable : Countable Room.t.
Proof.
  apply (inj_countable' (λ m, (Room.userName m, Room.nickname m, Room.room m, Room.password m))
    (λ '(x0, x1, x2, x3), Room.make x0 x1 x2 x3)).
  by intros [].
Defined.

#[export] Instance RoomList_eq_dec : EqDecision RoomList.t.
Proof. solve_decision. Defined.
#[export] Instance RoomList_countable : Countable RoomList.t.
Proof.
  apply (inj_countable' (λ m, (RoomList.room m, RoomList.name m, RoomList.user m))
    (λ '(x0, x1, x2), RoomList.make x0 x1 x2)).
  by intros [].
Defined.

#[export] Instance Participant_eq_dec : EqDecision Participant.t.
Proof. solve_decision. Defined.
#[export] Instance Participant_countable : Countable Participant.t.
Proof.
  apply (inj_countable' (λ m, (Participant.userName m, Participant.room m, Participant.nickname m, Participant.flag m, Participant.status m, Participant.statusMessage m, Participant.newname m, Participant.iconHash m, Participant.alias m))
    (λ '(x0, x1, x2, x3, x4, x5, x6, x7, x8), Participant.make x0 x1 x2 x3 x4 x5 x6 x7 x8)).
  by intros [].
Defined.

#[export] Instance VCard_eq_dec : EqDecision VCard.t.
Proof. solve_decision. Defined.
#[export] Instance VCard_countable : Countable VCard.t.
Proof.
  apply (inj_countable' (λ m, (VCard.userName m, VCard.buddyName m, VCard.id m, VCard.fullname m, VCard.nickname m, VCard.photo m))
    (λ '(x0, x1, x2, x3, x4, x5), VCard.make x0 x1 x2 x3 x4 x5)).
  by intros [].
Defined.

#[export] Instance Status_eq_dec : EqDecision Status.t.
Proof. solve_decision. Defined.
#[export] Instance Status_countable : Countable Status.t.
Proof.
  apply (inj_countable' (λ m, (Status.userName m, Status.status m, Status.statusMessage m))
    (λ '(x0, x1, x2), Status.make x0 x1 x2)).
  by intros [].
Defined.

#[export] Instance Stats_eq_dec : EqDecision Stats.t.
Proof. solve_decision. Defined.
#[export] Instance Stats_countable : Countable Stats.t.
Proof.
  apply (inj_countable' (λ m, (Stats.res m, Stats.init_res m, Stats.shared m, Stats.id m))
    (λ '(x0, x1, x2, x3), Stats.make x0 x1 x2 x3)).
  by intros [].
Defined.

#[export] Instance BackendConfig_eq_dec : EqDecision BackendConfig.t.
Proof. solve_decision. Defined.
#[export] Instance BackendConfig_countable : Countable BackendConfig.t.
Proof.
  apply (inj_countable' (λ m, (BackendConfig.config m))
    (λ x0, BackendConfig.make x0)).
  by intros [].
Defined.

#[export] Instance APIVersion_eq_dec : EqDecision APIVersion.t.
Proof. solve_decision. Defined.
#[export] Instance APIVersion_countable : Countable APIVersion.t.
Proof.
  apply (inj_countable' (λ m, (APIVersion.version m))
    (λ x0, APIVersion.make x0)).
  by intros [].
Defined.

#[export] Instance WrapperMessage_eq_dec : EqDecision WrapperMessage.t.
Proof. solve_decision. Defined.
#[export] Instance WrapperMessage_countable : Countable WrapperMessage.t.
Proof.
  apply (inj_countable' (λ m, (WrapperMessage.type m, WrapperMessage.payload m))
    (λ '(x0, x1), WrapperMessage.make x0 x1)).
  by intros [].
Defined.

(** ** The instance *)

#[export] Instance reference_protobuf : Protobuf := {
  codec_Connected := countable_codec Connected.IsInitialized;
  codec_Disconnected := countable_codec Disconnected.IsInitialized;
  codec_Login := countable_codec Login.IsInitialized;
  codec_Logout := countable_codec Logout.IsInitialized;
  codec_Buddy := countable_codec Buddy.IsInitialized;
  codec_Buddies := countable_codec Buddies.IsInitialized;
  codec_ConversationMessage := countable_codec ConversationMessage.IsInitialized;
  codec_Room := countable_codec Room.IsInitialized;
  codec_RoomList := countable_codec RoomList.IsInitialized;
  codec_Participant := countable_codec Participant.IsInitialized;
  codec_VCard := countable_codec VCard.IsInitialized;
  codec_Status := countable_codec Status.IsInitialized;
  codec_Stats := countable_codec Stats.IsInitialized;
  codec_BackendConfig := countable_codec BackendConfig.IsInitialized;
  codec_APIVersion := countable_codec APIVersion.IsInitialized;
  codec_WrapperMessage := countable_codec WrapperMessage.IsInitialized;
}.
