(* ===== verification/NetworkPlugin.v ===== *)
(** * The backend side of the protocol

    NetworkPlugin of plugin/cpp/networkplugin.cpp, the base class of every
    backend: the calls a backend makes are serialized, wrapped, framed and
    written with sendData; the bytes Spectrum sends are cut into frames and
    become calls of the virtual request handlers. Both leave an event in
    [p_log], in order. *)

From S2P Require Import Prelude Protocol Framing.
Import pbnetwork.

(** The virtual request handlers a backend implements. *)
Inductive request :=
  | LoginRequest (user legacyName password : string) (settings : list (string * string))
  | LogoutRequest (user legacyName : string)
  | StatusChangeRequest (user : string) (status : StatusType) (statusMessage : string)
  | MessageSendRequest (user legacyName message xhtml id : string)
  | RoomSubjectChangedRequest (user room message : string)
  | AttentionRequest (user buddyName message : string)
  | JoinRoomRequest (user room nickname password : string)
  | LeaveRoomRequest (user room : string)
  | VCardUpdatedRequest (user photo nickname : string)
  | VCardRequest (user legacyName : string) (id : Z)
  | BuddyBlockToggled (user buddyName : string) (blocked : bool)
  | BuddyUpdatedRequest (user buddyName alias : string) (groups : list string)
  | BuddyRemovedRequest (user buddyName : string) (groups : list string)
  | TypingRequest (user buddyName : string)
  | TypedRequest (user buddyName : string)
  | StoppedTypingRequest (user buddyName : string)
  | RawXML (xml : bytes)
  | ExitRequest.

Inductive plugin_event :=
  | SendData (data : bytes)
  | Request (r : request).

Record plugin := mkPlugin {
  m_data : bytes;
  m_pingReceived : bool;
  m_init_res : Z;
  p_log : list plugin_event;
}.

Record PluginConfig := mkPluginConfig {
  m_needPassword : bool;
  m_needRegistration : bool;
  m_supportMUC : bool;
  m_rawXML : bool;
  m_disableJIDEscaping : bool;
  m_extraFields : list string;
}.

Definition log_plugin (e : plugin_event) : prog plugin unit :=
  modify (λ p, mkPlugin (m_data p) (m_pingReceived p) (m_init_res p) (p_log p ++ [e])).

Definition set_pingReceived (b : bool) : prog plugin unit :=
  modify (λ p, mkPlugin (m_data p) b (m_init_res p) (p_log p)).

Definition set_data (d : bytes) : prog plugin unit :=
  modify (λ p, mkPlugin d (m_pingReceived p) (m_init_res p) (p_log p)).

Definition request_ (r : request) : prog plugin unit := log_plugin (Request r).

Section network_plugin.
Context `{Protobuf}.

Definition send (data : bytes) : prog plugin unit := log_plugin (SendData (send_frame data)).

(** *** Calls of the backend *)

Definition config_flag (name : string) (b : bool) : string :=
  (name +:+ "=" +:+ (if b then "1" else "0") +:+ String "010" "")%string.

(** The configuration file a PluginConfig is sent as. *)
Definition config_text (cfg : PluginConfig) : string :=
  let data := ("[registration]" +:+ String "010" ""
    +:+ config_flag "needPassword" (m_needPassword cfg)
    +:+ config_flag "needRegistration" (m_needRegistration cfg))%string in
  let data := foldl (λ data field, data +:+ "extraField=" +:+ field +:+ String "010" "")%string
                    data (m_extraFields cfg) in
  (data +:+ "[features]" +:+ String "010" ""
    +:+ config_flag "muc" (m_supportMUC cfg)
    +:+ config_flag "rawxml" (m_rawXML cfg)
    +:+ config_flag "disable_jid_escaping" (m_disableJIDEscaping cfg))%string.

Definition sendConfig (cfg : PluginConfig) : prog plugin unit :=
  let m := BackendConfig.empty |> (BackendConfig.set_config (config_text cfg)) in
  send (WRAP (SerializeToString m) TYPE_BACKEND_CONFIG).

Definition sendRawXML (xml : bytes) : prog plugin unit := send (WRAP xml TYPE_RAW_XML).

Definition handleMessage (user legacyName msg nickname xhtml timestamp : string)
    (headline pm carbon : bool) (attachments : list Attachment.t) : prog plugin unit :=
  let m := ConversationMessage.empty
    |> (ConversationMessage.set_userName user)
    |> (ConversationMessage.set_buddyName legacyName)
    |> (ConversationMessage.set_message msg)
    |> (ConversationMessage.set_nickname nickname)
    |> (ConversationMessage.set_xhtml xhtml)
    |> (ConversationMessage.set_timestamp timestamp)
    |> (ConversationMessage.set_headline headline)
    |> (ConversationMessage.set_pm pm)
    |> (ConversationMessage.set_carbon carbon)
    |> (ConversationMessage.set_attachment attachments) in
  send (WRAP (SerializeToString m) TYPE_CONV_MESSAGE).

Definition handleMessageAck (user legacyName id : string) : prog plugin unit :=
  let m := ConversationMessage.empty
    |> (ConversationMessage.set_userName user)
    |> (ConversationMessage.set_buddyName legacyName)
    |> (ConversationMessage.set_message "")
    |> (ConversationMessage.set_id id) in
  send (WRAP (SerializeToString m) TYPE_CONV_MESSAGE_ACK).

Definition handleAttention (user buddyName msg : string) : prog plugin unit :=
  let m := ConversationMessage.empty
    |> (ConversationMessage.set_userName user)
    |> (ConversationMessage.set_buddyName buddyName)
    |> (ConversationMessage.set_message msg) in
  send (WRAP (SerializeToString m) TYPE_ATTENTION).

Definition handleVCard (user : string) (id : Z) (legacyName fullName nickname photo : string)
    : prog plugin unit :=
  let vcard := VCard.empty
    |> (VCard.set_userName user)
    |> (VCard.set_buddyName legacyName)
    |> (VCard.set_id (to_int id))
    |> (VCard.set_fullname fullName)
    |> (VCard.set_nickname nickname)
    |> (VCard.set_photo photo) in
  send (WRAP (SerializeToString vcard) TYPE_VCARD).

Definition handleSubject (user legacyName msg nickname : string) : prog plugin unit :=
  let m := ConversationMessage.empty
    |> (ConversationMessage.set_userName user)
    |> (ConversationMessage.set_buddyName legacyName)
    |> (ConversationMessage.set_message msg)
    |> (ConversationMessage.set_nickname nickname) in
  send (WRAP (SerializeToString m) TYPE_ROOM_SUBJECT_CHANGED).

Definition handleBuddyChanged (user buddyName alias : string) (groups : list string)
    (status : StatusType) (statusMessage iconHash : string) (blocked : bool) : prog plugin unit :=
  let buddy := Buddy.empty
    |> (Buddy.set_userName user)
    |> (Buddy.set_buddyName buddyName)
    |> (Buddy.set_alias alias)
    |> (Buddy.set_group groups)
    |> (Buddy.set_status status)
    |> (Buddy.set_statusMessage statusMessage)
    |> (Buddy.set_iconHash iconHash)
    |> (Buddy.set_blocked blocked) in
  send (WRAP (SerializeToString buddy) TYPE_BUDDY_CHANGED).

(** The Buddy message most of the calls send: only its two required fields. *)
Definition plain_buddy (user buddyName : string) : Buddy.t :=
  Buddy.empty |> (Buddy.set_userName user) |> (Buddy.set_buddyName buddyName).

Definition handleBuddyRemoved (user buddyName : string) : prog plugin unit :=
  send (WRAP (SerializeToString (plain_buddy user buddyName)) TYPE_BUDDY_REMOVED).

Definition handleBuddyTyping (user buddyName : string) : prog plugin unit :=
  send (WRAP (SerializeToString (plain_buddy user buddyName)) TYPE_BUDDY_TYPING).

Definition handleBuddyTyped (user buddyName : string) : prog plugin unit :=
  send (WRAP (SerializeToString (plain_buddy user buddyName)) TYPE_BUDDY_TYPED).

Definition handleBuddyStoppedTyping (user buddyName : string) : prog plugin unit :=
  send (WRAP (SerializeToString (plain_buddy user buddyName)) TYPE_BUDDY_STOPPED_TYPING).

Definition handleAuthorization (user buddyName : string) : prog plugin unit :=
  send (WRAP (SerializeToString (plain_buddy user buddyName)) TYPE_AUTH_REQUEST).

Definition handleConnected (user : string) : prog plugin unit :=
  let d := Connected.empty |> (Connected.set_user user) in
  send (WRAP (SerializeToString d) TYPE_CONNECTED).

Definition handleDisconnected (user : string) (error : Z) (msg : string) : prog plugin unit :=
  let d := Disconnected.empty
    |> (Disconnected.set_user user)
    |> (Disconnected.set_error error)
    |> (Disconnected.set_message msg) in
  send (WRAP (SerializeToString d) TYPE_DISCONNECTED).

Definition handleParticipantChanged (user nickname room : string) (flags : Z)
    (status : StatusType) (statusMessage newname alias : string) : prog plugin unit :=
  let d := Participant.empty
    |> (Participant.set_userName user)
    |> (Participant.set_nickname nickname)
    |> (Participant.set_room room)
    |> (Participant.set_flag flags)
    |> (Participant.set_newname newname)
    |> (Participant.set_status status)
    |> (Participant.set_statusMessage statusMessage)
    |> (Participant.set_alias alias) in
  send (WRAP (SerializeToString d) TYPE_PARTICIPANT_CHANGED).

Definition handleRoomNicknameChanged (user r nickname : string) : prog plugin unit :=
  let room := Room.empty
    |> (Room.set_userName user)
    |> (Room.set_nickname nickname)
    |> (Room.set_room r)
    |> (Room.set_password "") in
  send (WRAP (SerializeToString room) TYPE_ROOM_NICKNAME_CHANGED).

Definition handleRoomList (user : string) (rooms names : list string) : prog plugin unit :=
  let d := RoomList.empty
    |> (RoomList.set_room rooms)
    |> (RoomList.set_name names)
    |> (RoomList.set_user user) in
  send (WRAP (SerializeToString d) TYPE_ROOM_LIST).

(** *** Calls of Spectrum *)

(** Every handleXxxPayload parses its message, returns when that fails, and
    otherwise hands the fields to a request handler. *)
Definition with_payload {M : Type} {init : M → bool} `{ProtoCodec M init}
    (data : bytes) (handler : M → prog plugin unit) : prog plugin unit :=
  match ParseFromString data with
  | None => mret tt
  | Some payload => handler payload
  end.

Definition handleLoginPayload (data : bytes) : prog plugin unit :=
  with_payload data (λ payload : Login.t,
    request_ (LoginRequest (str (Login.user payload)) (str (Login.legacyName payload))
               (str (Login.password payload)) (default [] (Login.settings payload)))).

Definition handleLogoutPayload (data : bytes) : prog plugin unit :=
  with_payload data (λ payload : Logout.t,
    request_ (LogoutRequest (str (Logout.user payload)) (str (Logout.legacyName payload)))).

Definition handleStatusChangedPayload (data : bytes) : prog plugin unit :=
  with_payload data (λ payload : Status.t,
    request_ (StatusChangeRequest (str (Status.userName payload))
               (default STATUS_ONLINE (Status.status payload)) (str (Status.statusMessage payload)))).

Definition handleConvMessagePayload (data : bytes) : prog plugin unit :=
  with_payload data (λ payload : ConversationMessage.t,
    request_ (MessageSendRequest (str (ConversationMessage.userName payload))
               (str (ConversationMessage.buddyName payload))
               (str (ConversationMessage.message payload))
               (str (ConversationMessage.xhtml payload)) (str (ConversationMessage.id payload)))).

Definition handleRoomSubjectChangedPayload (data : bytes) : prog plugin unit :=
  with_payload data (λ payload : ConversationMessage.t,
    request_ (RoomSubjectChangedRequest (str (ConversationMessage.userName payload))
               (str (ConversationMessage.buddyName payload))
               (str (ConversationMessage.message payload)))).

Definition handleAttentionPayload (data : bytes) : prog plugin unit :=
  with_payload data (λ payload : ConversationMessage.t,
    request_ (AttentionRequest (str (ConversationMessage.userName payload))
               (str (ConversationMessage.buddyName payload))
               (str (ConversationMessage.message payload)))).

Definition handleJoinRoomPayload (data : bytes) : prog plugin unit :=
  with_payload data (λ payload : Room.t,
    request_ (JoinRoomRequest (str (Room.userName payload)) (str (Room.room payload))
               (str (Room.nickname payload)) (str (Room.password payload)))).

Definition handleLeaveRoomPayload (data : bytes) : prog plugin unit :=
  with_payload data (λ payload : Room.t,
    request_ (LeaveRoomRequest (str (Room.userName payload)) (str (Room.room payload)))).

Definition handleVCardPayload (data : bytes) : prog plugin unit :=
  with_payload data (λ payload : VCard.t,
    if bool_decide (is_Some (VCard.photo payload)) then
      request_ (VCardUpdatedRequest (str (VCard.userName payload)) (str (VCard.photo payload))
                 (str (VCard.nickname payload)))
    else if negb (String.eqb (str (VCard.buddyName payload)) "") then
      request_ (VCardRequest (str (VCard.userName payload)) (str (VCard.buddyName payload))
                 (num (VCard.id payload)))
    else mret tt).

Definition handleBuddyChangedPayload (data : bytes) : prog plugin unit :=
  with_payload data (λ payload : Buddy.t,
    if bool_decide (is_Some (Buddy.blocked payload)) then
      request_ (BuddyBlockToggled (str (Buddy.userName payload)) (str (Buddy.buddyName payload))
                 (flag_of (Buddy.blocked payload)))
    else
      request_ (BuddyUpdatedRequest (str (Buddy.userName payload)) (str (Buddy.buddyName payload))
                 (str (Buddy.alias payload)) (Buddy.group payload))).

Definition handleBuddyRemovedPayload (data : bytes) : prog plugin unit :=
  with_payload data (λ payload : Buddy.t,
    request_ (BuddyRemovedRequest (str (Buddy.userName payload)) (str (Buddy.buddyName payload))
               (Buddy.group payload))).

Definition handleChatStatePayload (data : bytes) (type : MessageType) : prog plugin unit :=
  with_payload data (λ payload : Buddy.t,
    let user := str (Buddy.userName payload) in
    let buddy := str (Buddy.buddyName payload) in
    match type with
    | TYPE_BUDDY_TYPING => request_ (TypingRequest user buddy)
    | TYPE_BUDDY_TYPED => request_ (TypedRequest user buddy)
    | TYPE_BUDDY_STOPPED_TYPING => request_ (StoppedTypingRequest user buddy)
    | _ => mret tt
    end).

(** *** Pings *)

(** What the process measures of itself (process_mem_usage and the backend's
    handleMemoryUsage, in KB) and its pid. *)
Class ProcessMemory := {
  mem_res : Z;
  mem_shared : Z;
  backend_res : Z;
  backend_shared : Z;
  getpid : string;
}.
Context `{ProcessMemory}.

Definition sendMemoryUsage : prog plugin unit :=
  p ← get;
  let stats := Stats.empty
    |> (Stats.set_init_res (m_init_res p))
    |> (Stats.set_res (mem_res + backend_res)%Z)
    |> (Stats.set_shared (mem_shared + backend_shared)%Z)
    |> (Stats.set_id getpid) in
  send (WRAP (SerializeToString stats) TYPE_STATS).

Definition sendPong : prog plugin unit :=
  set_pingReceived true ;;
  send (WRAP_empty TYPE_PONG) ;;
  sendMemoryUsage.

Definition checkPing : prog plugin unit :=
  p ← get;
  (if m_pingReceived p then mret tt else request_ ExitRequest) ;;
  set_pingReceived false.

(** The switch of handleDataRead. *)
Definition dispatch (wrapper : WrapperMessage.t) : prog plugin bool :=
  let payload := default [] (WrapperMessage.payload wrapper) in
  match default TYPE_CONNECTED (WrapperMessage.type wrapper) with
  | TYPE_LOGIN => handleLoginPayload payload ;; mret true
  | TYPE_LOGOUT => handleLogoutPayload payload ;; mret true
  | TYPE_PING => sendPong ;; mret true
  | TYPE_CONV_MESSAGE => handleConvMessagePayload payload ;; mret true
  | TYPE_ROOM_SUBJECT_CHANGED => handleRoomSubjectChangedPayload payload ;; mret true
  | TYPE_JOIN_ROOM => handleJoinRoomPayload payload ;; mret true
  | TYPE_LEAVE_ROOM => handleLeaveRoomPayload payload ;; mret true
  | TYPE_VCARD => handleVCardPayload payload ;; mret true
  | TYPE_BUDDY_CHANGED => handleBuddyChangedPayload payload ;; mret true
  | TYPE_BUDDY_REMOVED => handleBuddyRemovedPayload payload ;; mret true
  | TYPE_STATUS_CHANGED => handleStatusChangedPayload payload ;; mret true
  | TYPE_BUDDY_TYPING => handleChatStatePayload payload TYPE_BUDDY_TYPING ;; mret true
  | TYPE_BUDDY_TYPED => handleChatStatePayload payload TYPE_BUDDY_TYPED ;; mret true
  | TYPE_BUDDY_STOPPED_TYPING =>
      handleChatStatePayload payload TYPE_BUDDY_STOPPED_TYPING ;; mret true
  | TYPE_ATTENTION => handleAttentionPayload payload ;; mret true
  | TYPE_EXIT => request_ ExitRequest ;; mret true
  | TYPE_RAW_XML => request_ (RawXML payload) ;; mret true
  | _ => mret false
  end.

(** A frame that does not parse makes this loop return; what follows it waits
    for the next chunk. *)
Definition handleDataRead (data : bytes) : prog plugin unit :=
  p ← get;
  rest ← handle_data_read ParseFromString false dispatch (m_data p) data;
  set_data rest.
End network_plugin.
