(* ===== verification/Pool.v ===== *)
(** * The backend pool

    The part of NetworkPluginServer (libtransport/NetworkPluginServer.cpp) that
    owns the backend processes and decides which one serves which user, with
    the lifecycle operations of User and UserManager it calls and that call it
    back (User::handleDisconnected, UserManager::addUser, removeUser).

    Backends and users are objects in a heap: [bid] and [uid] are their
    addresses, a deleted object is not in the heap any more, and reading
    through a pointer to it is [UseAfterFree]. What the pool asks other parts
    to do, and what it writes to a connection, is a list of events. *)

From S2P Require Import Prelude Protocol Framing.
Import pbnetwork.

Abbreviation bid := nat.
Abbreviation uid := nat.

(** struct UserInfo of include/transport/StorageBackend.h *)
Record UserInfo := mkUserInfo {
  ui_id : Z;
  ui_jid : string;
  ui_uin : string;
  ui_password : string;
  ui_language : string;
  ui_encoding : string;
  ui_vip : bool;
  ui_settings : list (string * string);
}.

(** An entry of RosterManager::getBuddies() as handleUserReadyToConnect reads it. *)
Record roster_entry := mkRosterEntry {
  re_name : string;
  re_alias : string;
  re_iconHash : string;
  re_groups : list string;
}.

(** struct NetworkPluginServer::Backend. The receive buffer [data] is with the
    connection handlers. *)
Record Backend := mkBackend {
  pongReceived : Z;
  b_users : list uid;
  b_connection : option nat;
  b_res : Z;
  b_init_res : Z;
  b_shared : Z;
  acceptUsers : bool;
  longRun : bool;
  willDie : bool;
  b_id : string;
}.

(** The members of User the pool reads or writes; [u_slots] counts how often
    the pool's handlers are connected to the user's signals. *)
Record User := mkUser {
  u_jid : string;
  u_info : UserInfo;
  u_data : option bid;
  u_connected : bool;
  u_readyForConnect : bool;
  u_ignoreDisconnect : bool;
  u_lastActivity : Z;
  u_reconnectCounter : Z;
  u_reconnectLimit : Z;
  u_roster : list (option roster_entry);
  u_slots : nat;
}.

Inductive event :=
  | Write (connection : nat) (data : bytes)
  | CloseConnection (connection : nat)
  | Exec (log_id : Z)
  | Kill (pid : string)
  | StartLoginTimer (milliseconds : Z)
  | StopLoginTimer
  | StartPingTimer
  | StartCollectTimer
  | StopReconnectTimer (u : uid)
  | StartComponent
  | SetUserOnline (id : Z) (online : bool)
  | ClearPresences (jid : string)
  | DisconnectSession (jid : string)
  | SendErrorMessage (jid error : string) (e : Z)
  | UserDisconnected (u : uid)
  | DisconnectUser (u : uid) (error : string) (e : Z)
  | ConnectedPresences (u : uid)
  | UserDeleted (u : uid)
  | PasswordValid (jid : string)
  | PasswordInvalid (jid error : string)
  | PresenceChanged (u : uid).

(** The state: the members of NetworkPluginServer, those of UserManager, the
    heap with the next address it hands out, the clock and the process
    identifier the next fork returns. *)
Record Pool := mkPool {
  backends : gmap bid Backend;
  users : gmap uid User;
  m_clients : list bid;
  m_waitingUsers : list uid;
  m_pids : list Z;
  m_isNextLongRun : bool;
  m_crashedBackends : list string;
  m_startingBackend : bool;
  m_lastLogin : Z;
  m_firstPong : bool;
  m_users : gmap string uid;
  m_cachedUser : option uid;
  now : Z;
  next_pid : Z;
  heap_next : nat;
  events : list event;
}.

(** The configuration the pool reads. *)
Record PoolConfig := mkPoolConfig {
  users_per_backend : Z;
  reuse_old_backends : bool;
  login_delay : Z;
  idle_reconnect_time : Z;
  send_buddies_on_login : bool;
  server_mode : bool;
  has_storage : bool;
  has_collect_timer : bool;
}.

(** Swift::SpectrumErrorPayload::Error has the numbers of ConnectionError. *)
Definition OTHER_ERROR : Z := ConnectionError_number CONNECTION_ERROR_OTHER_ERROR.
Definition NETWORK_ERROR : Z := ConnectionError_number CONNECTION_ERROR_NETWORK_ERROR.

(** ** Updating one member *)

Definition with_backends f (p : Pool) : Pool :=
  mkPool (f (backends p)) (users p) (m_clients p) (m_waitingUsers p) (m_pids p)
    (m_isNextLongRun p) (m_crashedBackends p) (m_startingBackend p) (m_lastLogin p)
    (m_firstPong p) (m_users p) (m_cachedUser p) (now p) (next_pid p) (heap_next p) (events p).
Definition with_users f (p : Pool) : Pool :=
  mkPool (backends p) (f (users p)) (m_clients p) (m_waitingUsers p) (m_pids p)
    (m_isNextLongRun p) (m_crashedBackends p) (m_startingBackend p) (m_lastLogin p)
    (m_firstPong p) (m_users p) (m_cachedUser p) (now p) (next_pid p) (heap_next p) (events p).
Definition with_clients f (p : Pool) : Pool :=
  mkPool (backends p) (users p) (f (m_clients p)) (m_waitingUsers p) (m_pids p)
    (m_isNextLongRun p) (m_crashedBackends p) (m_startingBackend p) (m_lastLogin p)
    (m_firstPong p) (m_users p) (m_cachedUser p) (now p) (next_pid p) (heap_next p) (events p).
Definition with_waiting f (p : Pool) : Pool :=
  mkPool (backends p) (users p) (m_clients p) (f (m_waitingUsers p)) (m_pids p)
    (m_isNextLongRun p) (m_crashedBackends p) (m_startingBackend p) (m_lastLogin p)
    (m_firstPong p) (m_users p) (m_cachedUser p) (now p) (next_pid p) (heap_next p) (events p).
Definition with_pids f (p : Pool) : Pool :=
  mkPool (backends p) (users p) (m_clients p) (m_waitingUsers p) (f (m_pids p))
    (m_isNextLongRun p) (m_crashedBackends p) (m_startingBackend p) (m_lastLogin p)
    (m_firstPong p) (m_users p) (m_cachedUser p) (now p) (next_pid p) (heap_next p) (events p).
Definition with_isNextLongRun b (p : Pool) : Pool :=
  mkPool (backends p) (users p) (m_clients p) (m_waitingUsers p) (m_pids p)
    b (m_crashedBackends p) (m_startingBackend p) (m_lastLogin p)
    (m_firstPong p) (m_users p) (m_cachedUser p) (now p) (next_pid p) (heap_next p) (events p).
Definition with_crashed f (p : Pool) : Pool :=
  mkPool (backends p) (users p) (m_clients p) (m_waitingUsers p) (m_pids p)
    (m_isNextLongRun p) (f (m_crashedBackends p)) (m_startingBackend p) (m_lastLogin p)
    (m_firstPong p) (m_users p) (m_cachedUser p) (now p) (next_pid p) (heap_next p) (events p).
Definition with_starting b (p : Pool) : Pool :=
  mkPool (backends p) (users p) (m_clients p) (m_waitingUsers p) (m_pids p)
    (m_isNextLongRun p) (m_crashedBackends p) b (m_lastLogin p)
    (m_firstPong p) (m_users p) (m_cachedUser p) (now p) (next_pid p) (heap_next p) (events p).
Definition with_lastLogin t (p : Pool) : Pool :=
  mkPool (backends p) (users p) (m_clients p) (m_waitingUsers p) (m_pids p)
    (m_isNextLongRun p) (m_crashedBackends p) (m_startingBackend p) t
    (m_firstPong p) (m_users p) (m_cachedUser p) (now p) (next_pid p) (heap_next p) (events p).
Definition with_firstPong b (p : Pool) : Pool :=
  mkPool (backends p) (users p) (m_clients p) (m_waitingUsers p) (m_pids p)
    (m_isNextLongRun p) (m_crashedBackends p) (m_startingBackend p) (m_lastLogin p)
    b (m_users p) (m_cachedUser p) (now p) (next_pid p) (heap_next p) (events p).
Definition with_userMap f (p : Pool) : Pool :=
  mkPool (backends p) (users p) (m_clients p) (m_waitingUsers p) (m_pids p)
    (m_isNextLongRun p) (m_crashedBackends p) (m_startingBackend p) (m_lastLogin p)
    (m_firstPong p) (f (m_users p)) (m_cachedUser p) (now p) (next_pid p) (heap_next p) (events p).
Definition with_cachedUser o (p : Pool) : Pool :=
  mkPool (backends p) (users p) (m_clients p) (m_waitingUsers p) (m_pids p)
    (m_isNextLongRun p) (m_crashedBackends p) (m_startingBackend p) (m_lastLogin p)
    (m_firstPong p) (m_users p) o (now p) (next_pid p) (heap_next p) (events p).
Definition with_events f (p : Pool) : Pool :=
  mkPool (backends p) (users p) (m_clients p) (m_waitingUsers p) (m_pids p)
    (m_isNextLongRun p) (m_crashedBackends p) (m_startingBackend p) (m_lastLogin p)
    (m_firstPong p) (m_users p) (m_cachedUser p) (now p) (next_pid p) (heap_next p) (f (events p)).

Definition with_heap_next n (p : Pool) : Pool :=
  mkPool (backends p) (users p) (m_clients p) (m_waitingUsers p) (m_pids p)
    (m_isNextLongRun p) (m_crashedBackends p) (m_startingBackend p) (m_lastLogin p)
    (m_firstPong p) (m_users p) (m_cachedUser p) (now p) (next_pid p) n (events p).

Definition set_pongReceived v (b : Backend) : Backend :=
  mkBackend v (b_users b) (b_connection b) (b_res b) (b_init_res b) (b_shared b)
    (acceptUsers b) (longRun b) (willDie b) (b_id b).
Definition map_users f (b : Backend) : Backend :=
  mkBackend (pongReceived b) (f (b_users b)) (b_connection b) (b_res b) (b_init_res b) (b_shared b)
    (acceptUsers b) (longRun b) (willDie b) (b_id b).
Definition set_acceptUsers v (b : Backend) : Backend :=
  mkBackend (pongReceived b) (b_users b) (b_connection b) (b_res b) (b_init_res b) (b_shared b)
    v (longRun b) (willDie b) (b_id b).
Definition set_willDie v (b : Backend) : Backend :=
  mkBackend (pongReceived b) (b_users b) (b_connection b) (b_res b) (b_init_res b) (b_shared b)
    (acceptUsers b) (longRun b) v (b_id b).
Definition set_stats res init_res shared id (b : Backend) : Backend :=
  mkBackend (pongReceived b) (b_users b) (b_connection b) res init_res shared
    (acceptUsers b) (longRun b) (willDie b) id.

Definition set_info v (u : User) : User :=
  mkUser (u_jid u) v (u_data u) (u_connected u) (u_readyForConnect u) (u_ignoreDisconnect u)
    (u_lastActivity u) (u_reconnectCounter u) (u_reconnectLimit u) (u_roster u) (u_slots u).
Definition setData d (u : User) : User :=
  mkUser (u_jid u) (u_info u) d (u_connected u) (u_readyForConnect u) (u_ignoreDisconnect u)
    (u_lastActivity u) (u_reconnectCounter u) (u_reconnectLimit u) (u_roster u) (u_slots u).
Definition set_ignoreDisconnect v (u : User) : User :=
  mkUser (u_jid u) (u_info u) (u_data u) (u_connected u) (u_readyForConnect u) v
    (u_lastActivity u) (u_reconnectCounter u) (u_reconnectLimit u) (u_roster u) (u_slots u).
Definition set_reconnectCounter v (u : User) : User :=
  mkUser (u_jid u) (u_info u) (u_data u) (u_connected u) (u_readyForConnect u) (u_ignoreDisconnect u)
    (u_lastActivity u) v (u_reconnectLimit u) (u_roster u) (u_slots u).
Definition set_connected v (u : User) : User :=
  mkUser (u_jid u) (u_info u) (u_data u) v (u_readyForConnect u) (u_ignoreDisconnect u)
    (u_lastActivity u) (u_reconnectCounter u) (u_reconnectLimit u) (u_roster u) (u_slots u).
Definition set_readyForConnect v (u : User) : User :=
  mkUser (u_jid u) (u_info u) (u_data u) (u_connected u) v (u_ignoreDisconnect u)
    (u_lastActivity u) (u_reconnectCounter u) (u_reconnectLimit u) (u_roster u) (u_slots u).
Definition set_lastActivity v (u : User) : User :=
  mkUser (u_jid u) (u_info u) (u_data u) (u_connected u) (u_readyForConnect u) (u_ignoreDisconnect u)
    v (u_reconnectCounter u) (u_reconnectLimit u) (u_roster u) (u_slots u).
Definition set_slots v (u : User) : User :=
  mkUser (u_jid u) (u_info u) (u_data u) (u_connected u) (u_readyForConnect u) (u_ignoreDisconnect u)
    (u_lastActivity u) (u_reconnectCounter u) (u_reconnectLimit u) (u_roster u) v.

(** ** Pointers *)

Definition log (e : event) : prog Pool unit := modify (with_events (λ es, es ++ [e])).

(** Reading an object through a pointer. *)
Definition load_backend (b : bid) : prog Pool Backend :=
  p ← get; deref (backends p !! b).
Definition load_user (u : uid) : prog Pool User :=
  p ← get; deref (users p !! u).

(** Writing a member of an object through a pointer. *)
Definition update_backend (b : bid) (f : Backend → Backend) : prog Pool unit :=
  o ← load_backend b; modify (with_backends <[b := f o]>).
Definition update_user (u : uid) (f : User → User) : prog Pool unit :=
  o ← load_user u; modify (with_users <[u := f o]>).

(** ** The operations *)

Section operations.
Context `{Protobuf} (cfg : PoolConfig).
(** StorageBackend::getAllSettings: the settings of a user as the database
    has them, given those in memory. *)
Context (getAllSettings : Z → list (string * string) → list (string * string)).

(** NetworkPluginServer::send through a backend's connection. *)
Definition send_to (c : bid) (data : bytes) : prog Pool unit :=
  o ← load_backend c;
  match b_connection o with
  | Some k => log (Write k (send_frame data))
  | None => raise NullDereference
  end.

Definition sendPing (c : bid) : prog Pool unit :=
  o ← load_backend c;
  if bool_decide (is_Some (b_connection o)) then
    send_to c (WRAP_empty TYPE_PING) ;;
    update_backend c (set_pongReceived 0)
  else mret tt.

(** *** Choosing a backend *)

(** The test of getFreeClient's loop. *)
Definition is_free (want_accept want_longRun : bool) (o : Backend) : bool :=
  negb (willDie o)
  && Bool.eqb (acceptUsers o) want_accept
  && (to_int (zlen (b_users o)) <? users_per_backend cfg)%Z
  && bool_decide (is_Some (b_connection o))
  && Bool.eqb (longRun o) want_longRun.

Fixpoint find_free (want_accept want_longRun : bool) (l : list bid) : prog Pool (option bid) :=
  match l with
  | [] => mret None
  | c :: l =>
      o ← load_backend c;
      if is_free want_accept want_longRun o then mret (Some c)
      else find_free want_accept want_longRun l
  end.

(** The index of the first entry of m_pids that is 0. *)
Fixpoint find_zero (l : list Z) : option nat :=
  match l with
  | [] => None
  | x :: l => if (x =? 0)%Z then Some 0 else S <$> find_zero l
  end.

(** The part of getFreeClient that starts a process; exec_ answers its pid. *)
Definition spawn_backend (want_longRun : bool) : prog Pool unit :=
  modify (with_isNextLongRun want_longRun) ;;
  modify (with_starting true) ;;
  p ← get;
  match find_zero (m_pids p) with
  | None =>
      log (Exec (zlen (m_pids p) + 1)) ;;
      modify (with_pids (λ l, l ++ [next_pid p]))
  | Some i =>
      log (Exec (Z.of_nat i + 1)) ;;
      modify (with_pids <[i := next_pid p]>)
  end.

Definition getFreeClient (want_accept want_longRun check : bool) : prog Pool (option bid) :=
  p ← get;
  let diff := login_delay cfg in
  if negb (diff =? 0)%Z && (now p - m_lastLogin p <? diff)%Z then
    log StopLoginTimer ;;
    log (StartLoginTimer ((diff - (now p - m_lastLogin p)) * 1000)) ;;
    mret None
  else
    (if check then mret tt else modify (with_lastLogin (now p))) ;;
    c ← find_free want_accept want_longRun (m_clients p);
    match c with
    | Some c =>
        o ← load_backend c;
        when (negb (reuse_old_backends cfg) && negb check
              && (users_per_backend cfg <=? to_int (zlen (b_users o)) + 1)%Z)
          (update_backend c (set_acceptUsers false)) ;;
        mret (Some c)
    | None =>
        when (negb (m_startingBackend p)) (spawn_backend want_longRun) ;;
        mret None
    end.

(** *** Connecting users to backends *)

Definition handleUserCreated (u : uid) : prog Pool unit :=
  c ← getFreeClient true false false;
  match c with
  | None => modify (with_waiting (λ l, l ++ [u]))
  | Some c =>
      update_user u (setData (Some c)) ;;
      update_backend c (map_users (λ l, l ++ [u])) ;;
      o ← load_user u;
      update_user u (set_slots (S (u_slots o)))
  end.

Definition login_message (o : User) : bytes :=
  let info := u_info o in
  let login := Login.empty
    |> (Login.set_user (u_jid o))
    |> (Login.set_legacyName (ui_uin info))
    |> (Login.set_password (ui_password info))
    |> (Login.set_settings (ui_settings info)) in
  WRAP (SerializeToString login) TYPE_LOGIN.

Definition buddy_of_entry (jid : string) (e : roster_entry) : Buddy.t :=
  Buddy.empty
    |> (Buddy.set_userName jid)
    |> (Buddy.set_buddyName (re_name e))
    |> (Buddy.set_alias (re_alias e))
    |> (Buddy.set_iconHash (re_iconHash e))
    |> (Buddy.set_group (re_groups e))
    |> (Buddy.set_status STATUS_NONE).

Definition buddies_message (o : User) : bytes :=
  let buddies := Buddies.empty
    |> (Buddies.set_buddy (buddy_of_entry (u_jid o) <$> omap (λ e, e) (u_roster o))) in
  WRAP (SerializeToString buddies) TYPE_BUDDIES.

Definition handleUserReadyToConnect (u : uid) : prog Pool unit :=
  o ← load_user u;
  match u_data o with
  | None => mret tt
  | Some c =>
      send_to c (login_message o) ;;
      when (send_buddies_on_login cfg) (send_to c (buddies_message o))
  end.

Definition logout_message (o : User) : bytes :=
  let logout := Logout.empty
    |> (Logout.set_user (u_jid o))
    |> (Logout.set_legacyName (ui_uin (u_info o))) in
  WRAP (SerializeToString logout) TYPE_LOGOUT.

Definition handleUserDestroyed (u : uid) : prog Pool unit :=
  modify (with_waiting (list_remove_all u)) ;;
  update_user u (set_slots 0) ;;
  o ← load_user u;
  match u_data o with
  | None => mret tt
  | Some c =>
      send_to c (logout_message o) ;;
      update_backend c (map_users (list_remove_all u)) ;;
      b ← load_backend c;
      when (bool_decide (b_users b = []) && (users_per_backend cfg =? 1)%Z)
        (update_backend c (set_willDie true))
  end.

(** The signal User::onReadyToConnect: one call per connected slot. *)
Definition onReadyToConnect (u : uid) : prog Pool unit :=
  o ← load_user u;
  for_each (replicate (u_slots o) u) handleUserReadyToConnect.

(** while (!m_waitingUsers.empty()); every turn takes a user off the queue, so
    its length is enough fuel. *)
Fixpoint connect_waiting (fuel : nat) : prog Pool unit :=
  match fuel with
  | O => mret tt
  | S fuel =>
      p ← get;
      match m_waitingUsers p with
      | [] => mret tt
      | u :: _ =>
          c ← getFreeClient true false true;
          match c with
          | None => mret tt
          | Some _ =>
              modify (with_waiting tail) ;;
              handleUserCreated u ;;
              o ← load_user u;
              when (u_readyForConnect o) (handleUserReadyToConnect u) ;;
              connect_waiting fuel
          end
      end
  end.

Definition connectWaitingUsers : prog Pool unit :=
  p ← get; connect_waiting (length (m_waitingUsers p)).

Definition loginDelayFinished : prog Pool unit :=
  log StopLoginTimer ;; connectWaitingUsers.

(** *** UserManager and User *)

(** UserManager::getUser: the cached user first, then the map. *)
Definition getUser (barejid : string) : prog Pool (option uid) :=
  p ← get;
  hit ← match m_cachedUser p with
        | Some u => o ← load_user u; mret (String.eqb barejid (u_jid o))
        | None => mret false
        end;
  if hit : bool then mret (m_cachedUser p)
  else match m_users p !! barejid with
       | None => mret None
       | Some u =>
           modify (with_cachedUser (Some u)) ;;
           o ← load_user u;
           when (has_storage cfg) (update_user u (λ o, set_info
             (let i := u_info o in
              mkUserInfo (ui_id i) (ui_jid i) (ui_uin i) (ui_password i) (ui_language i)
                (ui_encoding i) (ui_vip i) (getAllSettings (ui_id i) (ui_settings i))) o)) ;;
           mret (Some u)
       end.

(** User::User: the object allocated by Frontend::createUser. *)
Definition new_user (jid : string) (info : UserInfo) (time : Z) : User :=
  mkUser jid info None false false false time 0 3 [] 0.

Definition create_user (jid : string) (info : UserInfo) : prog Pool uid :=
  p ← get;
  let u := heap_next p in
  modify (with_users <[u := new_user jid info (now p)]>) ;;
  modify (with_heap_next (S u)) ;;
  mret u.

Definition addUser (u : uid) : prog Pool unit :=
  o ← load_user u;
  modify (with_userMap <[u_jid o := u]>) ;;
  when (has_storage cfg) (log (SetUserOnline (ui_id (u_info o)) true)) ;;
  handleUserCreated u.

(** UserManager::removeUser, with the ~User it ends with. *)
Definition removeUser (u : uid) (onUserBehalf : bool) : prog Pool unit :=
  o ← load_user u;
  modify (with_userMap (delete (u_jid o))) ;;
  p ← get;
  when (bool_decide (m_cachedUser p = Some u)) (modify (with_cachedUser None)) ;;
  (if server_mode cfg then log (DisconnectSession (u_jid o)) else log (ClearPresences (u_jid o))) ;;
  when (has_storage cfg && onUserBehalf) (log (SetUserOnline (ui_id (u_info o)) false)) ;;
  handleUserDestroyed u ;;
  log (UserDeleted u) ;;
  modify (with_users (delete u)).

(** The entry std::map iteration starts with: the least key. *)
Definition first_user (m : gmap string uid) : option uid :=
  snd <$> foldr (λ kv best,
    match best with
    | Some b => if String.leb (fst b) (fst kv) then Some b else Some kv
    | None => Some kv
    end) None (map_to_list m).

Fixpoint remove_all (fuel : nat) (onUserBehalf : bool) : prog Pool unit :=
  match fuel with
  | O => mret tt
  | S fuel =>
      p ← get;
      match first_user (m_users p) with
      | None => mret tt
      | Some u => removeUser u onUserBehalf ;; remove_all fuel onUserBehalf
      end
  end.

(** Every turn erases an entry, so the size of the map is enough fuel. *)
Definition removeAllUsers (onUserBehalf : bool) : prog Pool unit :=
  p ← get; remove_all (base.size (m_users p)) onUserBehalf.

Definition setIgnoreDisconnect (u : uid) (b : bool) : prog Pool unit :=
  update_user u (set_ignoreDisconnect b).

(** User::setConnected; the presences it then sends and the rooms it joins
    again are other components' work. *)
Definition setConnected (u : uid) (connected : bool) : prog Pool unit :=
  update_user u (set_connected connected) ;;
  update_user u (set_reconnectCounter 0) ;;
  setIgnoreDisconnect u false ;;
  p ← get;
  update_user u (set_lastActivity (now p)) ;;
  log (ConnectedPresences u).

Definition handleDisconnected (u : uid) (error : string) (e : Z) : prog Pool unit :=
  o ← load_user u;
  if u_ignoreDisconnect o then mret tt
  else if ((e =? OTHER_ERROR) || (e =? NETWORK_ERROR))%Z
          && ((u_reconnectLimit o <? 0) || (u_reconnectCounter o <? u_reconnectLimit o))%Z then
    update_user u (set_reconnectCounter (u_reconnectCounter o + 1)%Z) ;;
    handleUserDestroyed u ;;
    handleUserCreated u ;;
    onReadyToConnect u
  else
    log (UserDisconnected u) ;;
    log (SendErrorMessage (u_jid o) error e) ;;
    log (DisconnectUser u error e) ;;
    found ← getUser (u_jid o);
    match found with
    | Some _ => removeUser u true
    | None => mret tt
    end.

(** User::onConnectingTimeout; [presence] tells whether the oracle has a
    presence of the user to forward. *)
Definition onConnectingTimeout (u : uid) (presence : bool) : prog Pool unit :=
  o ← load_user u;
  if u_connected o || u_readyForConnect o then mret tt
  else
    log (StopReconnectTimer u) ;;
    update_user u (set_readyForConnect true) ;;
    onReadyToConnect u ;;
    when presence (log (PresenceChanged u)).

(** *** Backend connections *)

Definition new_backend (k : nat) (long : bool) : Backend :=
  mkBackend (-1) [] (Some k) 0 0 0 (negb long) long true "".

Definition handleNewClientConnection (k : nat) : prog Pool unit :=
  p ← get;
  let c := heap_next p in
  modify (with_heap_next (S c)) ;;
  modify (with_backends <[c := new_backend k (m_isNextLongRun p)]>) ;;
  modify (with_starting false) ;;
  modify (with_clients (cons c)) ;;
  sendPing c ;;
  update_backend c (set_pongReceived (-1)).

Definition handleSessionFinished (c : bid) : prog Pool unit :=
  o ← load_backend c;
  update_backend c (set_willDie true) ;;
  when (negb (bool_decide (b_users o = []))) (modify (with_crashed (λ l, l ++ [b_id o]))) ;;
  for_each (b_users o) (λ u,
    update_user u (setData None) ;;
    handleDisconnected u "Internal Server Error, please reconnect." OTHER_ERROR) ;;
  send_to c (WRAP_empty TYPE_EXIT) ;;
  o ← load_backend c;
  match b_connection o with
  | Some k => log (CloseConnection k)
  | None => raise NullDereference
  end ;;
  modify (with_clients (list_remove_all c)) ;;
  modify (with_backends (delete c)).

Definition handlePongReceived (c : bid) : prog Pool unit :=
  o ← load_backend c;
  (if (pongReceived o =? -1)%Z then
     update_backend c (set_willDie false) ;;
     p ← get;
     when (m_firstPong p) (log StartComponent ;; modify (with_firstPong false)) ;;
     connectWaitingUsers
   else mret tt) ;;
  update_backend c (set_pongReceived 1).

(** The payloads that reach the pool; int32 fields are stored in unsigned
    longs. *)
Definition to_ulong (z : Z) : Z := (z mod 2 ^ 64)%Z.

Definition handleStatsPayload (c : bid) (data : bytes) : prog Pool unit :=
  match ParseFromString data : option Stats.t with
  | None => mret tt
  | Some payload =>
      update_backend c (set_stats (to_ulong (num (Stats.res payload)))
        (to_ulong (num (Stats.init_res payload))) (to_ulong (num (Stats.shared payload)))
        (str (Stats.id payload)))
  end.

Definition handleConnectedPayload (data : bytes) : prog Pool unit :=
  match ParseFromString data : option Connected.t with
  | None => mret tt
  | Some payload =>
      user ← getUser (str (Connected.user payload));
      match user with
      | None => mret tt
      | Some u =>
          setConnected u true ;;
          log (PasswordValid (str (Connected.user payload)))
      end
  end.

Definition handleDisconnectedPayload (data : bytes) : prog Pool unit :=
  match ParseFromString data : option Disconnected.t with
  | None => mret tt
  | Some payload =>
      log (PasswordInvalid (str (Disconnected.user payload)) (str (Disconnected.message payload))) ;;
      user ← getUser (str (Disconnected.user payload));
      match user with
      | None => mret tt
      | Some u =>
          handleDisconnected u (str (Disconnected.message payload))
            (num (Disconnected.error payload))
      end
  end.

Definition handlePIDTerminated (pid : Z) : prog Pool unit :=
  modify (with_pids (λ l,
    match list_find (eq pid) l with
    | Some (i, _) => <[i := 0%Z]> l
    | None => l
    end)).

(** *** Timers *)

Definition moveToLongRunBackend (u : uid) : prog Pool bool :=
  o ← load_user u;
  match u_data o with
  | None => mret true
  | Some old =>
      b ← load_backend old;
      if longRun b then mret true
      else
        backend ← getFreeClient false true false;
        match backend with
        | None => mret false
        | Some c =>
            setIgnoreDisconnect u true ;;
            update_backend old (map_users (list_remove_all u)) ;;
            update_user u (setData (Some c)) ;;
            update_backend c (map_users (λ l, l ++ [u])) ;;
            handleUserReadyToConnect u ;;
            mret true
        end
  end.

(** The first loop of pingTimeout: the users, of the backends that are not
    long-running, idle for more than [diff] seconds. *)
Fixpoint idle_among (diff : Z) (us : list uid) : prog Pool (list uid) :=
  match us with
  | [] => mret []
  | u :: us =>
      p ← get;
      o ← load_user u;
      rest ← idle_among diff us;
      mret (if (diff <? now p - u_lastActivity o)%Z then u :: rest else rest)
  end.

Fixpoint idle_users (diff : Z) (l : list bid) : prog Pool (list uid) :=
  match l with
  | [] => mret []
  | c :: l =>
      b ← load_backend c;
      here ← (if longRun b then mret [] else idle_among diff (b_users b));
      rest ← idle_users diff l;
      mret (here ++ rest)
  end.

(** The second loop of pingTimeout: pings the backends that answered, and
    collects those to remove. *)
Fixpoint ping_backends (l : list bid) : prog Pool (list bid) :=
  match l with
  | [] => mret []
  | c :: l =>
      b ← load_backend c;
      dead ← (if negb (pongReceived b =? 0)%Z then
                sendPing c ;; mret []
              else
                when (negb (String.eqb (b_id b) "")) (log (Kill (b_id b))) ;; mret [c]);
      let unused := if bool_decide (b_users b = []) then [c] else [] in
      rest ← ping_backends l;
      mret (dead ++ unused ++ rest)
  end.

Definition pingTimeout : prog Pool unit :=
  p ← get;
  let diff := idle_reconnect_time cfg in
  (if (diff =? 0)%Z then mret tt
   else
     usersToMove ← idle_users diff (m_clients p);
     for_each_until usersToMove moveToLongRunBackend) ;;
  modify (with_starting false) ;;
  p ← get;
  toRemove ← ping_backends (m_clients p);
  for_each toRemove handleSessionFinished ;;
  log StartPingTimer.

Fixpoint biggest (max : Z) (best : option bid) (l : list bid) : prog Pool (option bid) :=
  match l with
  | [] => mret best
  | c :: l =>
      b ← load_backend c;
      if (max <? b_res b)%Z then biggest (b_res b) (Some c) l else biggest max best l
  end.

Definition collectBackend : prog Pool unit :=
  p ← get;
  backend ← biggest 0 None (m_clients p);
  match backend with
  | None => mret tt
  | Some c =>
      when (has_collect_timer cfg) (log StartCollectTimer) ;;
      update_backend c (set_acceptUsers false)
  end.

(** UserManager::handlePresence where it creates the user: the bare JID is not
    in the map yet and the checks of the registration have passed. *)
Definition loginUser (userkey : string) (info : UserInfo) : prog Pool unit :=
  user ← getUser userkey;
  match user with
  | Some _ => mret tt
  | None => u ← create_user userkey info; addUser u
  end.

(** *** What the pool reacts to *)

Inductive input :=
  | NewConnection (k : nat)
  | SessionFinished (c : bid)
  | PongReceived (c : bid)
  | StatsPayload (c : bid) (data : bytes)
  | ConnectedPayload (data : bytes)
  | DisconnectedPayload (data : bytes)
  | PIDTerminated (pid : Z)
  | PingTimer
  | CollectTimer
  | LoginTimer
  | LoginUser (userkey : string) (info : UserInfo)
  | RemoveUser (u : uid) (onUserBehalf : bool)
  | RemoveAllUsers (onUserBehalf : bool)
  | ConnectingTimeout (u : uid) (presence : bool)
  | Tick (seconds pid : Z).

(** The clock advances and the next fork gets another pid. *)
Definition tick (seconds pid : Z) (p : Pool) : Pool :=
  mkPool (backends p) (users p) (m_clients p) (m_waitingUsers p) (m_pids p)
    (m_isNextLongRun p) (m_crashedBackends p) (m_startingBackend p) (m_lastLogin p)
    (m_firstPong p) (m_users p) (m_cachedUser p) (now p + seconds)%Z pid (heap_next p) (events p).

Definition react (i : input) : prog Pool unit :=
  match i with
  | NewConnection k => handleNewClientConnection k
  | SessionFinished c => handleSessionFinished c
  | PongReceived c => handlePongReceived c
  | StatsPayload c data => handleStatsPayload c data
  | ConnectedPayload data => handleConnectedPayload data
  | DisconnectedPayload data => handleDisconnectedPayload data
  | PIDTerminated pid => handlePIDTerminated pid
  | PingTimer => pingTimeout
  | CollectTimer => collectBackend
  | LoginTimer => loginDelayFinished
  | LoginUser userkey info => loginUser userkey info
  | RemoveUser u onUserBehalf => removeUser u onUserBehalf
  | RemoveAllUsers onUserBehalf => removeAllUsers onUserBehalf
  | ConnectingTimeout u presence => onConnectingTimeout u presence
  | Tick seconds pid => modify (tick seconds pid)
  end.

(** A connection reports for its own backend, a user's timer for a live user. *)
Definition enabled (i : input) (p : Pool) : Prop :=
  match i with
  | SessionFinished c | PongReceived c | StatsPayload c _ => is_Some (backends p !! c)
  | RemoveUser u _ | ConnectingTimeout u _ => is_Some (users p !! u)
  | Tick seconds _ => (0 <= seconds)%Z
  | _ => True
  end.
End operations.

(** The constructor, and start: the first backend is a process [pid] that has not
    connected yet. *)
Definition initial (time pid next : Z) : Pool :=
  mkPool ∅ ∅ [] [] [pid] false [] false 0 true ∅ None time next 0 [StartPingTimer; Exec 1].

Inductive reachable `{Protobuf} (cfg : PoolConfig)
    (getAllSettings : Z → list (string * string) → list (string * string)) : Pool → Prop :=
  | reach_initial time pid next : reachable cfg getAllSettings (initial time pid next)
  | reach_react i p p' :
      reachable cfg getAllSettings p → enabled i p →
      react cfg getAllSettings i p = Done tt p' → reachable cfg getAllSettings p'.
