(* ===== verification/PoolInv.v ===== *)
(** * The backend pool: invariant

    The well-formedness invariant of the pool and the proof that every
    operation preserves it. [pinv d fl p] is the part about backends, users and
    the queue. While a handler runs it may hold with one exception each:
    [d = Some (c, todo)] says that backend [c] is being shut down and only the
    users [todo] of its list are still up to date, [fl = Some u] that user [u]
    is neither on a backend nor in the queue for the moment. *)

From S2P Require Import Prelude Protocol Framing Pool.
Import pbnetwork.

(** ** Vocabulary *)

Abbreviation dying := (option (bid * list uid)).

(** The users on the list of backend [c]. *)
Definition listed (p : Pool) (c : bid) : list uid :=
  match backends p !! c with Some b => b_users b | None => [] end.

Definition assigned (d : dying) (p : Pool) (c : bid) : list uid :=
  match d with
  | Some (c', todo) => if decide (c = c') then todo else listed p c
  | None => listed p c
  end.

#[global] Arguments assigned : simpl never.
#[global] Arguments listed : simpl never.

(** A user whose backend pointer is dangling. *)
Definition stale (p : Pool) (u : uid) : Prop :=
  ∃ o c, users p !! u = Some o ∧ u_data o = Some c ∧ backends p !! c = None.

Section invariant.
Context (cfg : PoolConfig).

Record pinv (d : dying) (fl : option uid) (p : Pool) : Prop := {
  inv_clients_nodup : NoDup (m_clients p);
  inv_clients : ∀ c, c ∈ m_clients p ↔ is_Some (backends p !! c);
  inv_connection : ∀ c b, backends p !! c = Some b → is_Some (b_connection b);
  inv_capacity : ∀ c b, backends p !! c = Some b →
    (zlen (b_users b) <= Z.max 0 (users_per_backend cfg))%Z;
  inv_assigned_nodup : ∀ c, NoDup (assigned d p c);
  inv_assigned : ∀ c u, u ∈ assigned d p c → ∃ o, users p !! u = Some o ∧ u_data o = Some c;
  inv_data : ∀ u o c, users p !! u = Some o → u_data o = Some c → fl ≠ Some u →
    u ∈ assigned d p c ∨ u ∈ m_waitingUsers p;
  inv_waiting_nodup : NoDup (m_waitingUsers p);
  inv_waiting : ∀ u, u ∈ m_waitingUsers p →
    (∃ o, users p !! u = Some o ∧ u_slots o = 0) ∧ ∀ c, u ∉ assigned d p c;
  inv_floating : ∀ u, fl = Some u →
    (∃ o, users p !! u = Some o ∧ u_slots o = 0) ∧ (u ∉ m_waitingUsers p) ∧ ∀ c, u ∉ assigned d p c;
  inv_dying : ∀ c todo, d = Some (c, todo) →
    ∃ b, backends p !! c = Some b ∧ willDie b = true;
  inv_heap_backends : ∀ c, is_Some (backends p !! c) → c < heap_next p;
  inv_heap_users : ∀ u, is_Some (users p !! u) → u < heap_next p;
}.

(** The part of the state UserManager's map is about. *)
Definition registry (p : Pool) : gmap uid string * gmap string uid * option uid :=
  (u_jid <$> users p, m_users p, m_cachedUser p).

Record reg_inv (r : gmap uid string * gmap string uid * option uid) : Prop := {
  reg_complete : ∀ u j, (r.1.1 !! u = Some j) → r.1.2 !! j = Some u;
  reg_sound : ∀ j u, r.1.2 !! j = Some u → r.1.1 !! u = Some j;
  reg_cached : ∀ u, r.2 = Some u → is_Some (r.1.1 !! u);
}.

(** The invariant between two events. *)
Definition inv (p : Pool) : Prop := pinv None None p ∧ reg_inv (registry p).

(** The invariant inside a handler, with the registry it keeps. *)
Definition kept (d : dying) (fl : option uid) r (p : Pool) : Prop :=
  pinv d fl p ∧ registry p = r.
End invariant.

(** ** Running the primitives *)

Lemma load_user_run u o p : users p !! u = Some o → load_user u p = Done o p.
Proof. intros H. unfold load_user. rewrite bind_run. simpl. by rewrite H. Qed.

Lemma load_backend_run c b p : backends p !! c = Some b → load_backend c p = Done b p.
Proof. intros H. unfold load_backend. rewrite bind_run. simpl. by rewrite H. Qed.

Lemma load_backend_dead c p : backends p !! c = None → load_backend c p = Fault UseAfterFree.
Proof. intros H. unfold load_backend. rewrite bind_run. simpl. by rewrite H. Qed.

Lemma update_user_run u f o p :
  users p !! u = Some o → update_user u f p = Done tt (with_users <[u := f o]> p).
Proof. intros H. unfold update_user. rewrite bind_run. by erewrite load_user_run. Qed.

Lemma update_backend_run c f b p :
  backends p !! c = Some b → update_backend c f p = Done tt (with_backends <[c := f b]> p).
Proof. intros H. unfold update_backend. rewrite bind_run. by erewrite load_backend_run. Qed.

Lemma send_to_run c b k data p :
  backends p !! c = Some b → b_connection b = Some k →
  send_to c data p = Done tt (with_events (λ es, es ++ [Write k (send_frame data)]) p).
Proof.
  intros H Hk. unfold send_to. rewrite bind_run. erewrite load_backend_run by done.
  by rewrite Hk.
Qed.

Section transitions.
Context (cfg : PoolConfig).

Lemma assigned_ext d p p' c :
  listed p' c = listed p c → assigned d p' c = assigned d p c.
Proof. intros H. unfold assigned. destruct d as [[c' todo]|]; [|done]. by case_decide. Qed.

Lemma assigned_other c' todo p c : c ≠ c' → assigned (Some (c', todo)) p c = listed p c.
Proof. intros H. unfold assigned. by rewrite decide_False. Qed.

Lemma assigned_dying c todo p : assigned (Some (c, todo)) p c = todo.
Proof. unfold assigned. by rewrite decide_True. Qed.

Lemma listed_lookup p c b : backends p !! c = Some b → listed p c = b_users b.
Proof. intros H. unfold listed. by rewrite H. Qed.

Lemma assigned_alive d fl p c u : pinv cfg d fl p → u ∈ assigned d p c → is_Some (backends p !! c).
Proof.
  intros Hp Hu. unfold assigned in Hu. destruct d as [[c' todo]|].
  - case_decide as Ec; subst.
    + destruct (inv_dying _ _ _ _ Hp c' todo) as (b & -> & _); eauto.
    + unfold listed in Hu. destruct (backends p !! c); [eauto|by apply not_elem_of_nil in Hu].
  - unfold listed in Hu. destruct (backends p !! c); [eauto|by apply not_elem_of_nil in Hu].
Qed.

(** A user is on one list at most. *)
Lemma assigned_unique d fl p c c' u :
  pinv cfg d fl p → u ∈ assigned d p c → u ∈ assigned d p c' → c = c'.
Proof.
  intros Hp H H'. destruct (inv_assigned _ _ _ _ Hp _ _ H) as (o & Ho & Hd).
  destruct (inv_assigned _ _ _ _ Hp _ _ H') as (o' & Ho' & Hd'). congruence.
Qed.

(** *** Changes that do not touch what the invariant reads *)

Lemma pinv_ext d fl p p' :
  backends p' = backends p → users p' = users p → m_clients p' = m_clients p →
  m_waitingUsers p' = m_waitingUsers p → heap_next p' = heap_next p →
  pinv cfg d fl p → pinv cfg d fl p'.
Proof.
  intros Eb Eu Ec Ew Eh [].
  assert (∀ c, assigned d p' c = assigned d p c) as Ea.
  { intros c. apply assigned_ext. unfold listed. by rewrite Eb. }
  split; rewrite ?Eb, ?Eu, ?Ec, ?Ew, ?Eh; try setoid_rewrite Ea; eauto.
Qed.

Lemma kept_ext d fl r p p' :
  backends p' = backends p → users p' = users p → m_clients p' = m_clients p →
  m_waitingUsers p' = m_waitingUsers p → heap_next p' = heap_next p →
  m_users p' = m_users p → m_cachedUser p' = m_cachedUser p →
  kept cfg d fl r p → kept cfg d fl r p'.
Proof.
  intros ?????? ? [Hp Hr]. split; [by eapply pinv_ext|].
  rewrite <- Hr. unfold registry. congruence.
Qed.

(** *** Writing members of a user that keep its place *)

Lemma pinv_user d fl p u o o' :
  users p !! u = Some o → u_data o' = u_data o → u_slots o' = u_slots o →
  pinv cfg d fl p → pinv cfg d fl (with_users <[u := o']> p).
Proof.
  intros Hu Hd Hs [].
  assert (∀ v w, <[u:=o']> (users p) !! v = Some w →
    ∃ w0, users p !! v = Some w0 ∧ u_data w0 = u_data w ∧ u_slots w0 = u_slots w) as Hback.
  { intros v w. destruct (decide (v = u)) as [->|]; simplify_map_eq; [|by eauto].
    intros. simplify_eq. eauto. }
  assert (∀ v w, users p !! v = Some w →
    ∃ w', <[u:=o']> (users p) !! v = Some w' ∧ u_data w' = u_data w ∧ u_slots w' = u_slots w) as Hforth.
  { intros v w Hv. destruct (decide (v = u)) as [->|]; simplify_map_eq; [by eauto|].
    exists w. by simplify_map_eq. }
  split; simpl; intros; try (change (assigned d (with_users <[u:=o']> p)) with (assigned d p) in *); eauto.
  - destruct (inv_assigned0 c u0) as (w & Hw & Hwd); [done|].
    destruct (Hforth u0 w Hw) as (w' & ? & ? & ?). exists w'. split; [done|congruence].
  - destruct (Hback _ _ H) as (w & Hw & ? & ?). eapply inv_data0; [done|congruence|done].
  - destruct (inv_waiting0 u0) as ((w & Hw & Hws) & ?); [done|]. split; [|done].
    destruct (Hforth u0 w Hw) as (w' & ? & ? & ?). exists w'. split; [done|congruence].
  - destruct (inv_floating0 u0) as ((w & Hw & Hws) & ? & ?); [done|]. split; [|done].
    destruct (Hforth u0 w Hw) as (w' & ? & ? & ?). exists w'. split; [done|congruence].
  - destruct H as [w Hw]. destruct (Hback _ _ Hw) as (w0 & ? & _). apply inv_heap_users0. eauto.
Qed.

Lemma registry_user p u o o' :
  users p !! u = Some o → u_jid o' = u_jid o → registry (with_users <[u := o']> p) = registry p.
Proof.
  intros Hu Hj. unfold registry. simpl. rewrite fmap_insert, Hj, insert_id; [done|].
  by rewrite lookup_fmap, Hu.
Qed.

Lemma kept_user d fl r p u o o' :
  users p !! u = Some o → u_data o' = u_data o → u_slots o' = u_slots o → u_jid o' = u_jid o →
  kept cfg d fl r p → kept cfg d fl r (with_users <[u := o']> p).
Proof.
  intros ???? [Hp Hr]. split; [by eapply pinv_user|]. by erewrite registry_user.
Qed.

(** *** Writing members of a backend other than its users *)

Lemma pinv_backend d fl p c b b' :
  backends p !! c = Some b → b_users b' = b_users b → is_Some (b_connection b') →
  (∀ todo, d = Some (c, todo) → willDie b' = true) →
  pinv cfg d fl p → pinv cfg d fl (with_backends <[c := b']> p).
Proof.
  intros Hc Hus Hk Hw [].
  assert (∀ x, assigned d (with_backends <[c:=b']> p) x = assigned d p x) as Ea.
  { intros x. apply assigned_ext. unfold listed. simpl.
    destruct (decide (x = c)) as [->|]; simplify_map_eq; [|done]. done. }
  assert (∀ x, is_Some (<[c:=b']> (backends p) !! x) ↔ is_Some (backends p !! x)) as Es.
  { intros x. destruct (decide (x = c)) as [->|]; simplify_map_eq; [|done]. split; eauto. }
  split; simpl; try setoid_rewrite Ea; try setoid_rewrite Es; eauto; intros.
  - destruct (decide (c0 = c)) as [->|]; simplify_map_eq; [done|eauto].
  - destruct (decide (c0 = c)) as [->|]; simplify_map_eq; [rewrite Hus|]; eauto.
  - destruct (decide (c0 = c)) as [->|]; simplify_map_eq; [eauto|eauto].
Qed.

(** *** A user changes place *)

(** From nowhere to the end of a backend's list. *)
Lemma pinv_attach d u p c b o o' :
  backends p !! c = Some b → (∀ todo, d ≠ Some (c, todo)) →
  (zlen (b_users b) < users_per_backend cfg)%Z →
  users p !! u = Some o → u_data o' = Some c →
  pinv cfg d (Some u) p →
  pinv cfg d None
    (with_backends <[c := map_users (λ l, l ++ [u]) b]> (with_users <[u := o']> p)).
Proof.
  intros Hc Hd Hcap Hu Hdata Hp.
  destruct (inv_floating _ _ _ _ Hp u eq_refl) as (_ & Hnw & Hna).
  set (p' := with_backends _ _).
  assert (Ec : assigned d p' c = assigned d p c ++ [u]).
  { unfold assigned, listed, p'. simpl. destruct d as [[c' todo]|]; [|by simplify_map_eq].
    assert (c ≠ c') by (intros ->; by apply (Hd todo)).
    rewrite !decide_False by done. by simplify_map_eq. }
  assert (Eo : ∀ x, x ≠ c → assigned d p' x = assigned d p x).
  { intros x Hx. apply assigned_ext. unfold listed, p'. simpl. by simplify_map_eq. }
  assert (Ein : ∀ x v, v ∈ assigned d p' x ↔ v ∈ assigned d p x ∨ x = c ∧ v = u).
  { intros x v. destruct (decide (x = c)) as [->|]; rewrite ?Ec, ?Eo by done; set_solver. }
  assert (Es : ∀ x, is_Some (<[c:=map_users (λ l, l ++ [u]) b]> (backends p) !! x) ↔
    is_Some (backends p !! x)).
  { intros x. destruct (decide (x = c)) as [->|]; simplify_map_eq; [|done]. split; eauto. }
  destruct Hp. split; simpl; try setoid_rewrite Es; try setoid_rewrite Ein; eauto.
  - intros x w. destruct (decide (x = c)) as [->|]; intros; simplify_map_eq; simpl; eauto.
  - intros x w. destruct (decide (x = c)) as [->|]; intros; simplify_map_eq; [simpl|by eauto].
    unfold zlen in *. rewrite length_app. simpl. lia.
  - intros x. destruct (decide (x = c)) as [->|]; [|by rewrite Eo].
    rewrite Ec. apply NoDup_app. split; [done|]. split; [|by apply NoDup_singleton].
    intros y Hy ->%list_elem_of_singleton. by apply (Hna c).
  - intros x v [Hv|[-> ->]]; [|exists o'; by simplify_map_eq].
    destruct (decide (v = u)) as [->|]; [by destruct (Hna x)|]. simplify_map_eq. eauto.
  - intros v w x Hv Hx _. destruct (decide (v = u)) as [->|]; simplify_map_eq; [by eauto|].
    destruct (inv_data0 v w x) as [?|?]; [done|done|congruence|eauto|eauto].
  - intros v Hv. assert (v ≠ u) by (by intros ->).
    destruct (inv_waiting0 v Hv) as [? Hvn]. simplify_map_eq. split; [done|].
    intros x [?|[? ?]]; [by eapply Hvn|done].
  - done.
  - intros x todo ->. destruct (inv_dying0 x todo eq_refl) as (w & Hw & Hwd).
    assert (x ≠ c) by (intros ->; by apply (Hd todo)). exists w. by simplify_map_eq.
  - intros v. destruct (decide (v = u)) as [->|]; simplify_map_eq; eauto.
Qed.

(** From nowhere to the end of the queue. *)
Lemma pinv_enqueue d u p :
  pinv cfg d (Some u) p → pinv cfg d None (with_waiting (λ l, l ++ [u]) p).
Proof.
  intros Hp. destruct (inv_floating _ _ _ _ Hp u eq_refl) as (Halive & Hnw & Hna).
  destruct Hp. split; simpl; eauto; change (assigned d (with_waiting _ p)) with (assigned d p); eauto.
  - intros v w x Hv Hx _. destruct (decide (v = u)) as [->|]; [set_solver|].
    destruct (inv_data0 v w x) as [?|?]; [done|done|congruence|by eauto|set_solver].
  - apply NoDup_app. split; [done|]. split; [|by apply NoDup_singleton]. set_solver.
  - intros v [Hv| ->%list_elem_of_singleton]%elem_of_app; eauto.
  - done.
Qed.

(** From the head of the queue to nowhere. *)
Lemma pinv_dequeue d u rest p :
  m_waitingUsers p = u :: rest → pinv cfg d None p →
  pinv cfg d (Some u) (with_waiting tail p).
Proof.
  intros Hw []. rewrite Hw in *.
  apply NoDup_cons in inv_waiting_nodup0 as [Hnin Hnd].
  split; simpl; rewrite ?Hw; simpl; eauto;
    change (assigned d (with_waiting _ p)) with (assigned d p); eauto.
  - intros v o c Hv Hc Hne. destruct (inv_data0 v o c) as [?|?]; [done|done|done|by eauto|].
    right. set_solver.
  - intros v Hv. apply inv_waiting0. set_solver.
  - intros v [= ->]. destruct (inv_waiting0 v) as [? ?]; [set_solver|done].
Qed.

(** Off every list that counts and off the queue. *)
Definition detached (d : dying) (u : uid) (c : bid) (b b' : option Backend) : Prop :=
  match b, b' with
  | Some b, Some b' =>
      ((∀ todo, d ≠ Some (c, todo)) → b_users b' = list_remove_all u (b_users b)) ∧
      length (b_users b') ≤ length (b_users b) ∧
      b_connection b' = b_connection b ∧ (willDie b = true → willDie b' = true)
  | None, None => True
  | _, _ => False
  end.

Lemma detached_removed d u c b w :
  detached d u c (Some b) (Some (if w : bool then set_willDie true (map_users (list_remove_all u) b)
                                 else map_users (list_remove_all u) b)).
Proof. destruct w; repeat split; simpl; auto using length_list_remove_all. Qed.

Lemma detached_same d u c b :
  (∀ o, b = Some o → (∀ todo, d ≠ Some (c, todo)) → u ∉ b_users o) → detached d u c b b.
Proof.
  intros H. destruct b as [o|]; [|done]. repeat split; auto.
  intros Hd. symmetry. apply list_remove_all_absent. by apply H.
Qed.

Lemma pinv_detach d u p p' o' :
  m_clients p' = m_clients p → heap_next p' = heap_next p →
  m_waitingUsers p' = list_remove_all u (m_waitingUsers p) →
  users p' = <[u := o']> (users p) → is_Some (users p !! u) → u_slots o' = 0 →
  (∀ x, detached d u x (backends p !! x) (backends p' !! x)) →
  (∀ c todo, d = Some (c, todo) → u ∉ todo) →
  pinv cfg d None p → pinv cfg d (Some u) p'.
Proof.
  intros Ecl Eh Ew Eu Hu Hs Hb Hd Hp.
  assert (Ea : ∀ x, assigned d p' x = list_remove_all u (assigned d p x)).
  { intros x. assert ((∀ todo, d ≠ Some (x, todo)) → listed p' x = list_remove_all u (listed p x)).
    { intros Hx. unfold listed. specialize (Hb x).
      destruct (backends p !! x), (backends p' !! x); try done. destruct Hb. auto. }
    unfold assigned. destruct d as [[c todo]|]; [|auto].
    case_decide; [|apply H; congruence]. rewrite list_remove_all_absent; [done|by eapply Hd]. }
  assert (Es : ∀ x, is_Some (backends p' !! x) ↔ is_Some (backends p !! x)).
  { intros x. specialize (Hb x).
    destruct (backends p !! x), (backends p' !! x); try done; split; eauto. }
  destruct Hp. split; try setoid_rewrite Es; try setoid_rewrite Ea;
    try setoid_rewrite elem_of_list_remove_all; rewrite ?Ecl, ?Eh, ?Ew, ?Eu; auto with spectrum.
  - intros c b Hc. specialize (Hb c). rewrite Hc in Hb.
    destruct (backends p !! c) eqn:E; [|done]. destruct Hb as (_ & _ & -> & _). eauto.
  - intros c b Hc. specialize (Hb c). rewrite Hc in Hb.
    destruct (backends p !! c) as [b0|] eqn:E; [|done]. destruct Hb as (_ & Hl & _ & _).
    specialize (inv_capacity0 c b0 E).
    unfold zlen in *. lia.
  - intros c v [Hv Hne]. simplify_map_eq. eauto.
  - intros v o c Hv Hc Hne. assert (v ≠ u) by congruence. simplify_map_eq.
    rewrite elem_of_list_remove_all. destruct (inv_data0 v o c); auto.
  - intros v [Hv Hne]%elem_of_list_remove_all. destruct (inv_waiting0 v Hv) as [? Hn].
    simplify_map_eq. split; [done|]. intros c [? ?]. by eapply Hn.
  - intros v [= ->]. simplify_map_eq. rewrite elem_of_list_remove_all.
    split; [by eauto|]. split; [tauto|]. intros c. tauto.
  - intros c todo ->. destruct (inv_dying0 c todo eq_refl) as (b & Hc & Hw).
    specialize (Hb c). rewrite Hc in Hb. destruct (backends p' !! c) as [b'|]; [|done].
    exists b'. split; [done|]. by apply Hb.
  - intros v. destruct (decide (v = u)) as [->|]; simplify_map_eq; eauto.
Qed.

(** The floating user is deleted. *)
Lemma pinv_delete_user d u p :
  pinv cfg d (Some u) p → pinv cfg d None (with_users (delete u) p).
Proof.
  intros Hp. destruct (inv_floating _ _ _ _ Hp u eq_refl) as (Halive & Hnw & Hna).
  destruct Hp. split; simpl; eauto;
    change (assigned d (with_users _ p)) with (assigned d p); eauto.
  - intros c v Hv. assert (v ≠ u) by (intros ->; by eapply Hna). simplify_map_eq. eauto.
  - intros v o c Hv Hc _. assert (v ≠ u) by (intros ->; simplify_map_eq). simplify_map_eq.
    eapply inv_data0; [done|done|congruence].
  - intros v Hv. assert (v ≠ u) by (by intros ->). simplify_map_eq. eauto.
  - done.
  - intros v [o Ho]. apply inv_heap_users0. destruct (decide (v = u)) as [->|]; simplify_map_eq; eauto.
Qed.

(** A user is created: it is nowhere yet. *)
Lemma pinv_new_user d p o :
  u_slots o = 0 → pinv cfg d None p →
  pinv cfg d (Some (heap_next p))
    (with_heap_next (S (heap_next p)) (with_users <[heap_next p := o]> p)).
Proof.
  intros Hs Hp. destruct Hp. set (u := heap_next p) in *.
  assert (users p !! u = None) as Hnone.
  { destruct (users p !! u) eqn:E; [|done]. specialize (inv_heap_users0 u). rewrite E in inv_heap_users0.
    specialize (inv_heap_users0 ltac:(eauto)). lia. }
  assert (Hna : ∀ c, u ∉ assigned d p c).
  { intros c Hc. destruct (inv_assigned0 c u Hc) as (? & ? & _). congruence. }
  assert (Hnw : u ∉ m_waitingUsers p).
  { intros Hc. destruct (inv_waiting0 u Hc) as ((? & ? & _) & _). congruence. }
  split; simpl; eauto;
    change (assigned d (with_heap_next _ (with_users _ p))) with (assigned d p); eauto.
  - intros c v Hv. assert (v ≠ u) by (intros ->; by eapply Hna). simplify_map_eq. eauto.
  - intros v w c Hv Hc Hne. assert (v ≠ u) by congruence. simplify_map_eq.
    eapply inv_data0; [done..|]. done.
  - intros v Hv. assert (v ≠ u) by (by intros ->). simplify_map_eq. eauto.
  - intros v [= ->]. simplify_map_eq. eauto.
  - intros c Hc. specialize (inv_heap_backends0 c Hc). lia.
  - intros v. destruct (decide (v = u)) as [->|]; simplify_map_eq; [lia|].
    intros Hv. specialize (inv_heap_users0 v Hv). lia.
Qed.

(** From one backend to another. *)
Lemma pinv_move d u p old c b0 b o o' :
  backends p !! old = Some b0 → backends p !! c = Some b → old ≠ c →
  (∀ x todo, d ≠ Some (x, todo)) →
  (zlen (b_users b) < users_per_backend cfg)%Z →
  users p !! u = Some o → u_data o = Some old → u ∈ b_users b0 → u_data o' = Some c →
  pinv cfg d None p →
  pinv cfg d None
    (with_backends <[c := map_users (λ l, l ++ [u]) b]>
      (with_users <[u := o']> (with_backends <[old := map_users (list_remove_all u) b0]> p))).
Proof.
  intros Hold Hc Hne Hd Hcap Hu Hdata Hin Hdata' Hp.
  assert (Hnw : u ∉ m_waitingUsers p).
  { intros Hw. destruct (inv_waiting _ _ _ _ Hp u Hw) as [_ Hn]. apply (Hn old).
    unfold assigned. destruct d as [[x todo]|]; [by destruct (Hd x todo)|].
    by rewrite (listed_lookup _ _ _ Hold). }
  set (pd := with_users <[u := set_slots 0 o]>
    (with_backends <[old := map_users (list_remove_all u) b0]> p)).
  assert (Hpd : pinv cfg d (Some u) pd).
  { eapply (pinv_detach d u p pd (set_slots 0 o)); simpl; eauto.
    - symmetry. by apply list_remove_all_absent.
    - intros x. destruct (decide (x = old)) as [->|]; simplify_map_eq;
        [apply (detached_removed d u old b0 false)|].
      apply detached_same. intros bx E _ Hx.
      destruct (inv_assigned _ _ _ _ Hp x u) as (w & Hw & Hwd); [|simplify_map_eq].
      unfold assigned. destruct d as [[y todo]|]; [by destruct (Hd y todo)|].
      by rewrite (listed_lookup _ _ _ E).
    - intros x todo ->. by destruct (Hd x todo). }
  eapply (pinv_attach d u pd c b (set_slots 0 o) o') in Hpd; simpl; simplify_map_eq; auto.
  eapply pinv_ext, Hpd; simpl; try done. by rewrite insert_insert_eq.
Qed.

(** *** Backends come and go *)

Lemma pinv_new_backend p b :
  b_users b = [] → is_Some (b_connection b) →
  pinv cfg None None p →
  pinv cfg None None
    (with_clients (cons (heap_next p))
      (with_backends <[heap_next p := b]> (with_heap_next (S (heap_next p)) p))).
Proof.
  intros Hus Hk []. set (c := heap_next p) in *.
  assert (Hnone : backends p !! c = None).
  { destruct (backends p !! c) eqn:E; [|done].
    specialize (inv_heap_backends0 c ltac:(eauto)). lia. }
  set (p' := with_clients _ _).
  assert (Ea : ∀ x, assigned None p' x = assigned None p x).
  { intros x. unfold assigned, listed, p'. simpl.
    destruct (decide (x = c)) as [->|]; simplify_map_eq; done. }
  split; try setoid_rewrite Ea; simpl; eauto.
  - apply NoDup_cons. split; [|done]. rewrite inv_clients0, Hnone. by intros [].
  - intros x. rewrite elem_of_cons, inv_clients0.
    destruct (decide (x = c)) as [->|]; simplify_map_eq; [|by split; [intros [|]|auto]].
    split; eauto.
  - intros x w. destruct (decide (x = c)) as [->|]; intros; simplify_map_eq; eauto.
  - intros x w. destruct (decide (x = c)) as [->|]; intros; simplify_map_eq; eauto.
    rewrite Hus. unfold zlen. simpl. lia.
  - done.
  - intros x. destruct (decide (x = c)) as [->|]; simplify_map_eq; [lia|].
    intros Hx. specialize (inv_heap_backends0 x Hx). lia.
  - intros v Hv. specialize (inv_heap_users0 v Hv). lia.
Qed.

Lemma pinv_start_dying p c b :
  backends p !! c = Some b → pinv cfg None None p →
  pinv cfg (Some (c, b_users b)) None (with_backends <[c := set_willDie true b]> p).
Proof.
  intros Hc Hp.
  assert (Hp' : pinv cfg None None (with_backends <[c := set_willDie true b]> p)).
  { eapply pinv_backend; [done|done| |done|done]. exact (inv_connection _ _ _ _ Hp c b Hc). }
  set (p' := with_backends _ _) in *.
  assert (Ea : ∀ x, assigned (Some (c, b_users b)) p' x = assigned None p' x).
  { intros x. unfold assigned, listed, p'. simpl. case_decide; subst; by simplify_map_eq. }
  destruct Hp'. split; try setoid_rewrite Ea; eauto.
  - intros x todo [= <- <-]. exists (set_willDie true b). unfold p'. simpl. by simplify_map_eq.
Qed.

(** The next user of the dying backend loses its backend. *)
Lemma pinv_drop c u rest p o :
  users p !! u = Some o → pinv cfg (Some (c, u :: rest)) None p →
  pinv cfg (Some (c, rest)) None (with_users <[u := setData None o]> p).
Proof.
  intros Hu Hp. set (p' := with_users _ _).
  assert (Ea : ∀ x, x ≠ c → assigned (Some (c, rest)) p' x = assigned (Some (c, u :: rest)) p x).
  { intros x Hx. by rewrite !assigned_other by done. }
  assert (Hout : ∀ x v, v ∈ assigned (Some (c, rest)) p' x →
    v ≠ u ∧ v ∈ assigned (Some (c, u :: rest)) p x).
  { intros x v Hv. pose proof (inv_assigned_nodup _ _ _ _ Hp c) as Hnd.
    rewrite assigned_dying, NoDup_cons in Hnd. destruct Hnd as [Hnin _].
    destruct (decide (x = c)) as [->|Hx].
    - rewrite assigned_dying in *. split; [by intros ->|set_solver].
    - rewrite Ea in Hv by done. split; [|done]. intros ->. apply Hx.
      eapply assigned_unique; [done..|]. rewrite assigned_dying. set_solver. }
  assert (Hdead : is_Some (backends p !! c)).
  { destruct (inv_dying _ _ _ _ Hp c (u :: rest) eq_refl) as (? & ? & _). eauto. }
  destruct Hp. split; simpl; eauto.
  - intros x. destruct (decide (x = c)) as [->|]; [|rewrite Ea by done; done].
    specialize (inv_assigned_nodup0 c). rewrite assigned_dying, NoDup_cons in *. by destruct inv_assigned_nodup0.
  - intros x v Hv. destruct (Hout x v Hv) as [? ?]. simplify_map_eq. eauto.
  - intros v w x Hv Hx _. destruct (decide (v = u)) as [->|]; simplify_map_eq.
    destruct (inv_data0 v w x) as [Hin|]; [done..|left|by right].
    destruct (decide (x = c)) as [->|]; [|by rewrite Ea]. rewrite assigned_dying in *. set_solver.
  - intros v Hv. destruct (inv_waiting0 v Hv) as [Hal Hn].
    assert (v ≠ u). { intros ->. apply (Hn c). rewrite assigned_dying. set_solver. }
    simplify_map_eq. split; [done|]. intros x Hx. apply (Hn x). by apply Hout.
  - done.
  - intros x todo [= -> ->]. by apply (inv_dying0 x (u :: todo)).
  - intros v. destruct (decide (v = u)) as [->|]; simplify_map_eq; eauto.
Qed.

Lemma pinv_end_dying c p :
  pinv cfg (Some (c, [])) None p →
  pinv cfg None None (with_backends (delete c) (with_clients (list_remove_all c) p)).
Proof.
  intros Hp. set (p' := with_backends _ _).
  assert (Ea : ∀ x, assigned None p' x = assigned (Some (c, [])) p x).
  { intros x. unfold assigned, listed, p'. simpl. case_decide; subst; by simplify_map_eq. }
  destruct Hp. split; try setoid_rewrite Ea; simpl; eauto with spectrum.
  - intros x. rewrite elem_of_list_remove_all, inv_clients0.
    destruct (decide (x = c)) as [->|]; simplify_map_eq; [|tauto].
    split; [tauto|by intros []].
  - intros x b Hx. destruct (decide (x = c)) as [->|]; simplify_map_eq. eauto.
  - intros x b Hx. destruct (decide (x = c)) as [->|]; simplify_map_eq. eauto.
  - done.
  - intros x Hx. apply inv_heap_backends0.
    destruct (decide (x = c)) as [->|]; simplify_map_eq; [by destruct Hx|done].
Qed.
End transitions.

(** ** The operations *)

(** Symbolic execution of straight-line code. *)
Ltac side := simpl; simplify_map_eq; eauto; done.
Ltac run1 :=
  first
    [ rewrite bind_run
    | rewrite ret_run
    | erewrite load_user_run by side
    | erewrite load_backend_run by side
    | erewrite update_user_run by side
    | erewrite update_backend_run by side
    | erewrite send_to_run by side ].
Ltac run := repeat (run1; cbn beta iota).

(** A live user whose backend pointer, if any, is valid. *)
Definition sound_user (p : Pool) (u : uid) : Prop :=
  ∃ o, users p !! u = Some o ∧ ∀ c, u_data o = Some c → is_Some (backends p !! c).

Section operations.
Context `{Protobuf} (cfg : PoolConfig).
Context (getAllSettings : Z → list (string * string) → list (string * string)).
(** users_per_backend is an int. *)
Context (upb_int : (- 2 ^ 31 <= users_per_backend cfg < 2 ^ 31)%Z).

(** *** Choosing a backend *)

Definition free_at (p : Pool) (want_accept want_longRun : bool) (c : bid) : bool :=
  match backends p !! c with Some o => is_free cfg want_accept want_longRun o | None => false end.

Definition first_free (p : Pool) (want_accept want_longRun : bool) : option bid :=
  snd <$> list_find (λ c, free_at p want_accept want_longRun c = true) (m_clients p).

Definition delayed (p : Pool) : bool :=
  negb (login_delay cfg =? 0)%Z && (now p - m_lastLogin p <? login_delay cfg)%Z.

Lemma find_free_run a l cs p :
  (∀ c, c ∈ cs → is_Some (backends p !! c)) →
  find_free cfg a l cs p =
  Done (snd <$> list_find (λ c, free_at p a l c = true) cs) p.
Proof.
  induction cs as [|c cs IH]; intros Hcs; [done|]. simpl.
  destruct (Hcs c) as [o Ho]; [set_solver|]. run.
  assert (Hf : free_at p a l c = is_free cfg a l o) by (unfold free_at; by rewrite Ho).
  case_decide as Hd; rewrite Hf in Hd.
  - by rewrite Hd.
  - apply not_true_is_false in Hd. rewrite Hd, IH by set_solver.
    by destruct (list_find _ cs) as [[]|].
Qed.

(** What getFreeClient leaves alone. *)
Record same_places (p p' : Pool) : Prop := {
  sp_users : users p' = users p;
  sp_clients : m_clients p' = m_clients p;
  sp_waiting : m_waitingUsers p' = m_waitingUsers p;
  sp_userMap : m_users p' = m_users p;
  sp_cached : m_cachedUser p' = m_cachedUser p;
  sp_heap : heap_next p' = heap_next p;
  sp_now : now p' = now p;
  sp_listed : ∀ c, listed p' c = listed p c;
  sp_pong : ∀ c, pongReceived <$> (backends p' !! c) = pongReceived <$> (backends p !! c);
}.

Lemma same_places_refl p : same_places p p.
Proof. done. Qed.

Lemma same_places_trans p1 p2 p3 : same_places p1 p2 → same_places p2 p3 → same_places p1 p3.
Proof. intros [] []. split; congruence. Qed.

Lemma same_places_backends p p' :
  backends p' = backends p → users p' = users p → m_clients p' = m_clients p →
  m_waitingUsers p' = m_waitingUsers p → m_users p' = m_users p →
  m_cachedUser p' = m_cachedUser p → heap_next p' = heap_next p → now p' = now p →
  same_places p p'.
Proof. intros Eb ???????. split; try done; intros c; unfold listed; by rewrite Eb. Qed.

Lemma same_places_accept p c b v :
  backends p !! c = Some b →
  same_places p (with_backends <[c := set_acceptUsers v b]> p).
Proof.
  intros Hc. split; try done; intros x; unfold listed; simpl;
    destruct (decide (x = c)) as [->|]; by simplify_map_eq.
Qed.

Lemma spawn_backend_run l p :
  ∃ p', spawn_backend l p = Done tt p' ∧ same_places p p' ∧ backends p' = backends p ∧
    m_lastLogin p' = m_lastLogin p.
Proof.
  unfold spawn_backend. repeat (rewrite bind_run; simpl).
  destruct (find_zero (m_pids p)); (eexists; split; [reflexivity|]; split; [|done]);
    by apply same_places_backends.
Qed.

Lemma getFreeClient_run a l ch p :
  (∀ c, c ∈ m_clients p → is_Some (backends p !! c)) →
  ∃ p', getFreeClient cfg a l ch p =
          Done (if delayed p then None else first_free p a l) p' ∧ same_places p p' ∧
        (backends p' = backends p ∨
         ch = false ∧ ∃ c b, first_free p a l = Some c ∧ delayed p = false ∧
           backends p !! c = Some b ∧ backends p' = <[c := set_acceptUsers false b]> (backends p)) ∧
        (ch = true → m_lastLogin p' = m_lastLogin p).
Proof.
  intros Hcs. unfold getFreeClient. rewrite bind_run. simpl. unfold delayed.
  destruct (negb _ && _); simpl.
  { eexists. split; [reflexivity|]. split; [by apply same_places_backends|]. split; [by left|done]. }
  assert (∃ p1, (if ch then mret tt else modify (with_lastLogin (now p))) p = Done tt p1 ∧
    same_places p p1 ∧ backends p1 = backends p ∧
    (ch = true → m_lastLogin p1 = m_lastLogin p)) as (p1 & E1 & S1 & B1 & M1).
  { destruct ch; (eexists; split; [reflexivity|]; split; [by apply same_places_backends|done]). }
  rewrite bind_run, E1, bind_run, find_free_run; [|by rewrite B1].
  replace (snd <$> list_find (λ c, free_at p1 a l c = true) (m_clients p)) with (first_free p a l).
  2:{ unfold first_free, free_at. by rewrite B1. }
  destruct (first_free p a l) as [c|] eqn:Ef.
  - unfold first_free in Ef. apply fmap_Some in Ef as ([i c'] & Ef & ->).
    apply list_find_Some in Ef as (Hi & Hfree & _). simpl.
    destruct (Hcs c') as [b Hb]; [by eapply list_elem_of_lookup_2|].
    rewrite bind_run. erewrite load_backend_run by (by rewrite B1). rewrite bind_run.
    unfold when. destruct (_ && _) eqn:Ew.
    + erewrite update_backend_run by (by rewrite B1). eexists. split; [reflexivity|].
      split. { eapply same_places_trans; [done|]. apply same_places_accept. by rewrite B1. }
      assert (ch = false) by (destruct ch; [by rewrite andb_false_r in Ew|done]).
      split; [|by intros ->]. right. split; [done|]. exists c', b.
      split_and!; try done. simpl. by rewrite B1.
    + eexists. split; [reflexivity|]. split; [done|]. split; [by left|done].
  - rewrite bind_run. unfold when. destruct (negb (m_startingBackend p)).
    + destruct (spawn_backend_run l p1) as (p2 & -> & S2 & B2 & M2). eexists. split; [reflexivity|].
      split; [by eapply same_places_trans|]. split; [left|intros; rewrite M2]; [congruence|auto].
    + eexists. split; [reflexivity|]. split; [done|]. split; [by left|done].
Qed.

Lemma first_free_spec p a l c :
  first_free p a l = Some c →
  c ∈ m_clients p ∧ ∃ b, backends p !! c = Some b ∧ is_free cfg a l b = true.
Proof.
  unfold first_free. intros ([i c'] & Ef & ->)%fmap_Some.
  apply list_find_Some in Ef as (Hi & Hfree & _). split; [by eapply list_elem_of_lookup_2|].
  unfold free_at in Hfree. simpl. destruct (backends p !! c') as [b|]; [eauto|done].
Qed.

Lemma is_free_room d fl p a l c b :
  pinv cfg d fl p → backends p !! c = Some b → is_free cfg a l b = true →
  (zlen (b_users b) < users_per_backend cfg)%Z ∧ longRun b = l ∧ acceptUsers b = a ∧
  willDie b = false ∧ (∀ todo, d ≠ Some (c, todo)).
Proof.
  intros Hp Hc. unfold is_free. rewrite !andb_true_iff.
  intros ((((Hw & Ha) & Hlen) & _) & Hl).
  apply negb_true_iff in Hw. apply Z.ltb_lt in Hlen. apply eqb_prop in Ha, Hl.
  pose proof (inv_capacity _ _ _ _ Hp c b Hc) as Hcap.
  rewrite to_int_id in Hlen by (unfold zlen in *; lia).
  repeat split; auto. intros todo ->.
  destruct (inv_dying _ _ _ _ Hp c todo eq_refl) as (b' & Hb' & Hw'). congruence.
Qed.

(** The backend getFreeClient answers. *)
Definition candidate (p : Pool) (a l : bool) : option bid :=
  if delayed p then None else first_free p a l.

Lemma getFreeClient_kept d fl r a l ch p :
  kept cfg d fl r p →
  ∃ p', getFreeClient cfg a l ch p = Done (candidate p a l) p' ∧
    same_places p p' ∧ kept cfg d fl r p' ∧
    (ch = true → candidate p' a l = candidate p a l) ∧
    (∀ c, is_Some (backends p' !! c) ↔ is_Some (backends p !! c)) ∧
    (∀ c, candidate p a l = Some c → ∃ b, backends p' !! c = Some b ∧
      (zlen (b_users b) < users_per_backend cfg)%Z ∧ longRun b = l ∧
      (∀ todo, d ≠ Some (c, todo))).
Proof.
  intros [Hp Hr].
  destruct (getFreeClient_run a l ch p) as (p' & Erun & Hsp & Hb & Hl).
  { intros c. by rewrite (inv_clients _ _ _ _ Hp). }
  exists p'. split; [exact Erun|]. split; [done|].
  pose proof Hsp as [Eu Ec Ew Em Ech Eh En _ _].
  assert (Hfree : ∀ c b, first_free p a l = Some c → backends p !! c = Some b →
    (zlen (b_users b) < users_per_backend cfg)%Z ∧ longRun b = l ∧ acceptUsers b = a ∧
    willDie b = false ∧ (∀ todo, d ≠ Some (c, todo))).
  { intros c b (_ & b' & Hb' & Hfree)%first_free_spec Hc. rewrite Hc in Hb'.
    injection Hb' as <-. by eapply is_free_room. }
  split; [|split; [|split]].
  - destruct Hb as [Hb|(_ & c & b & Hf & _ & Hc & Hb)]; [by eapply kept_ext; [..|split; [exact Hp|exact Hr]]|].
    eapply kept_ext with (p := with_backends <[c := set_acceptUsers false b]> p); try done.
    split; [|done]. eapply pinv_backend; try done.
    + exact (inv_connection _ _ _ _ Hp c b Hc).
    + intros todo Hd. destruct (Hfree c b Hf Hc) as (_ & _ & _ & _ & Hnd). by apply Hnd in Hd.
  - intros ->. destruct Hb as [Hb|[? _]]; [|done].
    unfold candidate, delayed, first_free, free_at. by rewrite Hb, En, Ec, Hl.
  - intros x. destruct Hb as [->|(_ & c & b & _ & _ & Hc & ->)]; [done|].
    destruct (decide (x = c)) as [->|]; simplify_map_eq; [|done]. split; eauto.
  - unfold candidate. intros c Hc. destruct (delayed p); [done|].
    pose proof (first_free_spec _ _ _ _ Hc) as (_ & b & Hb' & _).
    destruct (Hfree c b Hc Hb') as (? & ? & _ & _ & ?).
    destruct Hb as [->|(_ & c' & b' & Hf & _ & Hc' & ->)]; [by eauto|].
    rewrite Hf in Hc. injection Hc as ->. rewrite Hc' in Hb'. injection Hb' as <-.
    eexists. split; [by simplify_map_eq|]. done.
Qed.

(** *** Users enter and leave the pool *)

Definition join (l : list uid) (u : uid) (target : option bid) (c : bid) : list uid :=
  if decide (target = Some c) then l ++ [u] else l.

(** Where a user ends up: on a backend that is not shut down, or with the
    pointer it had. *)
Definition placed (d : dying) (p p' : Pool) (u : uid) : Prop :=
  ∀ o', users p' !! u = Some o' → (∃ o, users p !! u = Some o ∧ u_data o' = u_data o) ∨
    ∃ c, u_data o' = Some c ∧ ∀ todo, d ≠ Some (c, todo).

Lemma handleUserCreated_run d r p u :
  kept cfg d (Some u) r p →
  ∃ p', handleUserCreated cfg u p = Done tt p' ∧ kept cfg d None r p' ∧
    m_waitingUsers p' =
      (if candidate p true false then m_waitingUsers p else m_waitingUsers p ++ [u]) ∧
    (∀ c, listed p' c = join (listed p c) u (candidate p true false) c) ∧
    (∀ x, is_Some (backends p' !! x) ↔ is_Some (backends p !! x)) ∧
    (∀ v, v ≠ u → users p' !! v = users p !! v) ∧
    (candidate p true false ≠ None → sound_user p' u) ∧
    placed d p p' u.
Proof.
  intros Hk. unfold handleUserCreated. rewrite bind_run.
  destruct (getFreeClient_kept d (Some u) r true false false p Hk)
    as (p1 & -> & Hsp & [Hp Hr] & _ & Hdom & Hc).
  destruct (candidate p true false) as [c|].
  - destruct (Hc c eq_refl) as (b & Hb & Hroom & _ & Hnd).
    destruct (inv_floating _ _ _ _ Hp u eq_refl) as ((o & Ho & Hs) & _).
    run. eexists. split; [reflexivity|]. split; [split|].
    + eapply pinv_ext, (pinv_attach cfg d u p1 c b o (set_slots (S (u_slots o)) (setData (Some c) o)));
        simpl; try done. by rewrite insert_insert_eq.
    + rewrite <- Hr. unfold registry. simpl. rewrite insert_insert_eq.
      exact (registry_user p1 u o (set_slots (S (u_slots o)) (setData (Some c) o)) Ho eq_refl).
    + simpl. split; [apply Hsp|]. split_and!.
      * intros x. unfold listed at 1, join. rewrite <- (sp_listed _ _ Hsp x). simpl.
        case_decide as E; [injection E as <-|rewrite lookup_insert_ne by congruence; done].
        rewrite lookup_insert_eq, (listed_lookup _ _ _ Hb). done.
      * intros x. rewrite <- Hdom.
        destruct (decide (x = c)) as [->|]; simplify_map_eq; [|done]. split; eauto.
      * intros v Hv. simplify_map_eq. by rewrite (sp_users _ _ Hsp).
      * intros _. eexists. simpl. split; [by simplify_map_eq|]. simpl.
        intros x [= <-]. simplify_map_eq. eauto.
      * intros o'. simpl. rewrite lookup_insert_eq. intros [= <-]. right. by exists c.
  - eexists. split; [reflexivity|]. split; [split; [by apply pinv_enqueue|done]|]. simpl.
    split; [by rewrite (sp_waiting _ _ Hsp)|]. split_and!; try done.
    + intros c. apply Hsp.
    + intros v _. by rewrite (sp_users _ _ Hsp).
    + intros o'. simpl. rewrite (sp_users _ _ Hsp). intros Ho'. left. eauto.
Qed.

Lemma not_stale_sound p u : is_Some (users p !! u) → ¬ stale p u → sound_user p u.
Proof.
  intros [o Ho] Hs. exists o. split; [done|]. intros c Hc.
  destruct (backends p !! c) eqn:E; [eauto|]. destruct Hs. exists o, c. done.
Qed.

Lemma unqueued_sound d fl p u :
  pinv cfg d fl p → is_Some (users p !! u) → u ∉ m_waitingUsers p → fl ≠ Some u → sound_user p u.
Proof.
  intros Hp [o Ho] Hw Hf. exists o. split; [done|]. intros c Hc.
  destruct (inv_data _ _ _ _ Hp u o c Ho Hc Hf) as [Hin|]; [|done].
  by eapply assigned_alive.
Qed.

Lemma assigned_sound d fl p c u : pinv cfg d fl p → u ∈ assigned d p c → sound_user p u.
Proof.
  intros Hp Hu. destruct (inv_assigned _ _ _ _ Hp c u Hu) as (o & Ho & Hc).
  exists o. split; [done|]. intros x Hx. simplify_eq. by eapply assigned_alive.
Qed.

Lemma registry_alive p u j :
  (registry p).1.1 !! u = Some j → ∃ o, users p !! u = Some o ∧ u_jid o = j.
Proof. unfold registry. simpl. rewrite lookup_fmap. intros (o & Ho & ->)%fmap_Some. eauto. Qed.

Lemma alive_registry p u o : users p !! u = Some o → (registry p).1.1 !! u = Some (u_jid o).
Proof. intros Ho. unfold registry. simpl. by rewrite lookup_fmap, Ho. Qed.

(** handleUserReadyToConnect only writes to the backend. *)
Lemma handleUserReadyToConnect_run d fl p u :
  pinv cfg d fl p → sound_user p u →
  ∃ es, handleUserReadyToConnect cfg u p = Done tt (with_events (λ l, l ++ es) p).
Proof.
  intros Hp (o & Ho & Hc). unfold handleUserReadyToConnect. run.
  destruct (u_data o) as [c|] eqn:Ed.
  - destruct (Hc c eq_refl) as [b Hb].
    destruct (inv_connection _ _ _ _ Hp c b Hb) as [k Hk]. run. unfold when.
    destruct (send_buddies_on_login cfg).
    + erewrite send_to_run by side. eexists [_; _]. unfold with_events. simpl.
      by rewrite <- app_assoc.
    + by eexists [_].
  - exists []. unfold with_events. rewrite app_nil_r. by destruct p.
Qed.

(** Signals reach the handlers of users that are on a backend. *)
Lemma onReadyToConnect_run d p u o :
  pinv cfg d None p → users p !! u = Some o →
  ∃ es, onReadyToConnect cfg u p = Done tt (with_events (λ l, l ++ es) p).
Proof.
  intros Hp Ho. unfold onReadyToConnect. run.
  assert (Hs : u_slots o ≠ 0 → sound_user p u).
  { intros Hs. apply (unqueued_sound d None); [done|eauto| |done]. intros Hw.
    destruct (inv_waiting _ _ _ _ Hp u Hw) as ((o' & Ho' & Hz) & _). congruence. }
  destruct (u_slots o) as [|n] eqn:En.
  { exists []. unfold with_events. rewrite app_nil_r. by destruct p. }
  specialize (Hs ltac:(done)). clear En. revert p Hp Ho Hs.
  induction (S n) as [|m IH]; intros p Hp Ho Hs; simpl.
  { exists []. unfold with_events. rewrite app_nil_r. by destruct p. }
  rewrite bind_run. destruct (handleUserReadyToConnect_run d None p u Hp Hs) as [es ->].
  destruct (IH (with_events (λ l, l ++ es) p)) as [es' ->]; try done.
  { by eapply pinv_ext; [..|exact Hp]. }
  exists (es ++ es'). unfold with_events. simpl. by rewrite <- app_assoc.
Qed.

(** handleUserDestroyed takes a user off its backend and the queue. *)
Lemma handleUserDestroyed_run d r p u :
  kept cfg d None r p → sound_user p u →
  (∀ c todo, d = Some (c, todo) → u ∉ todo ∧ ∀ o, users p !! u = Some o → u_data o = None) →
  ∃ p', handleUserDestroyed cfg u p = Done tt p' ∧ kept cfg d (Some u) r p' ∧
    (∃ o, users p !! u = Some o ∧ users p' = <[u := set_slots 0 o]> (users p)) ∧
    (∀ x, is_Some (backends p' !! x) ↔ is_Some (backends p !! x)).
Proof.
  intros [Hp Hr] (o & Ho & Hc) Hd. unfold handleUserDestroyed. rewrite bind_run. simpl. run. simpl.
  assert (Hgoal : ∀ p', m_clients p' = m_clients p → heap_next p' = heap_next p →
    m_waitingUsers p' = list_remove_all u (m_waitingUsers p) →
    users p' = <[u := set_slots 0 o]> (users p) → m_users p' = m_users p →
    m_cachedUser p' = m_cachedUser p → (∀ x, detached d u x (backends p !! x) (backends p' !! x)) →
    kept cfg d (Some u) r p' ∧
    (∃ o, users p !! u = Some o ∧ users p' = <[u := set_slots 0 o]> (users p)) ∧
    (∀ x, is_Some (backends p' !! x) ↔ is_Some (backends p !! x))).
  { intros p' E1 E2 E3 E4 E5 E6 Hb. split; [split|split].
    - eapply pinv_detach; eauto. intros c todo ->. by apply (Hd c todo).
    - rewrite <- Hr. unfold registry. rewrite E4, E5, E6, fmap_insert. simpl.
      rewrite insert_id; [done|]. by rewrite lookup_fmap, Ho.
    - eauto.
    - intros x. specialize (Hb x). by destruct (backends p !! x), (backends p' !! x). }
  assert (Habs : ∀ x, u_data o ≠ Some x → detached d u x (backends p !! x) (backends p !! x)).
  { intros x Hne. apply detached_same. intros b Hx Hnd Hin.
    assert (u ∈ assigned d p x) as Ha.
    { unfold assigned. destruct d as [[y todo]|]; [|by rewrite (listed_lookup _ _ _ Hx)].
      case_decide; subst; [by destruct (Hnd todo)|]. by rewrite (listed_lookup _ _ _ Hx). }
    destruct (inv_assigned _ _ _ _ Hp x u Ha) as (o' & Ho' & Hdo). congruence. }
  destruct (u_data o) as [c|] eqn:Ed.
  - destruct (Hc c eq_refl) as [b Hb].
    destruct (inv_connection _ _ _ _ Hp c b Hb) as [k Hk]. run.
    unfold when. destruct (_ && _).
    + erewrite update_backend_run by side. eexists. split; [reflexivity|].
      apply Hgoal; try done. intros x. simpl. rewrite insert_insert_eq.
      destruct (decide (x = c)) as [->|]; simplify_map_eq.
      * apply (detached_removed d u c b true).
      * apply Habs. congruence.
    + eexists. split; [reflexivity|]. apply Hgoal; try done. intros x. simpl.
      destruct (decide (x = c)) as [->|]; simplify_map_eq.
      * apply (detached_removed d u c b false).
      * apply Habs. congruence.
  - eexists. split; [reflexivity|]. apply Hgoal; try done. intros x. by apply Habs.
Qed.

(** The same on a user whose backend is gone: the logout message is written
    through freed memory. *)
Lemma handleUserDestroyed_stale p u : stale p u → handleUserDestroyed cfg u p = Fault UseAfterFree.
Proof.
  intros (o & c & Ho & Hc & Hdead). unfold handleUserDestroyed. rewrite bind_run. simpl. run. simpl.
  rewrite Hc. rewrite bind_run. unfold send_to. rewrite bind_run, load_backend_dead by done. done.
Qed.

(** *** The queue *)

Lemma kept_events d fl r p f : kept cfg d fl r p → kept cfg d fl r (with_events f p).
Proof. by apply kept_ext. Qed.

(** One turn of the loop takes the head of the queue to a backend. *)
Lemma connect_one d r p u rest :
  kept cfg d None r p → m_waitingUsers p = u :: rest → candidate p true false ≠ None →
  ∃ p', (modify (with_waiting tail) ;;
         handleUserCreated cfg u ;;
         o ← load_user u;
         when (u_readyForConnect o) (handleUserReadyToConnect cfg u)) p = Done tt p' ∧
    kept cfg d None r p' ∧ m_waitingUsers p' = rest ∧
    (∀ c, listed p' c = join (listed p c) u (candidate p true false) c) ∧
    (∀ x, is_Some (backends p' !! x) ↔ is_Some (backends p !! x)).
Proof.
  intros Hk Hw Hc. rewrite bind_run. simpl.
  assert (Hk1 : kept cfg d (Some u) r (with_waiting tail p)).
  { destruct Hk as [Hp Hr]. split; [by eapply pinv_dequeue|done]. }
  destruct (handleUserCreated_run d r _ u Hk1) as (p2 & E2 & Hk2 & Hw2 & Hl2 & Hd2 & _ & Hs2 & _).
  rewrite bind_run, E2. change (candidate (with_waiting tail p)) with (candidate p) in *.
  destruct (candidate p true false) as [c|] eqn:Ec; [|done].
  destruct (Hs2 ltac:(done)) as (o & Ho & Hdata). simpl in Hw2. rewrite Hw in Hw2. simpl in Hw2.
  rewrite bind_run. erewrite load_user_run by done. unfold when.
  destruct (u_readyForConnect o).
  - destruct (handleUserReadyToConnect_run d None p2 u) as [es ->]; [apply Hk2|by exists o|].
    eexists. split; [reflexivity|]. split; [by apply kept_events|]. done.
  - eexists. split; [reflexivity|]. done.
Qed.

Lemma turn_assoc {S A B C D E} (m1 : prog S A) (m2 : prog S B) (m3 : prog S C)
    (m4 : C → prog S D) (k : prog S E) s :
  (m1 ;; m2 ;; o ← m3; m4 o ;; k) s = ((m1 ;; m2 ;; o ← m3; m4 o) ;; k) s.
Proof.
  rewrite !bind_run. destruct (m1 s) as [a s1|]; [|done]. rewrite !bind_run.
  destruct (m2 s1) as [b s2|]; [|done]. rewrite !bind_run. by destruct (m3 s2).
Qed.

Lemma join_incl l u t c x : x ∈ l → x ∈ join l u t c.
Proof. unfold join. case_decide; set_solver. Qed.

Lemma connect_waiting_run d r fuel p :
  kept cfg d None r p → length (m_waitingUsers p) ≤ fuel →
  ∃ p' k, connect_waiting cfg fuel p = Done tt p' ∧ kept cfg d None r p' ∧
    m_waitingUsers p' = drop k (m_waitingUsers p) ∧
    (∀ u, u ∈ take k (m_waitingUsers p) → ∃ c, u ∈ listed p' c) ∧
    (m_waitingUsers p' = [] ∨ candidate p' true false = None) ∧
    (∀ c x, x ∈ listed p c → x ∈ listed p' c) ∧
    (∀ x, is_Some (backends p' !! x) ↔ is_Some (backends p !! x)).
Proof.
  revert p. induction fuel as [|fuel IH]; intros p Hk Hlen; simpl.
  { exists p, 0. rewrite drop_0. split_and!; try done; [set_solver|].
    left. by destruct (m_waitingUsers p); [|simpl in Hlen; lia]. }
  rewrite bind_run. simpl. destruct (m_waitingUsers p) as [|u rest] eqn:Hw.
  { exists p, 0. rewrite Hw. split_and!; try done; [set_solver|by left]. }
  rewrite bind_run.
  destruct (getFreeClient_kept d None r true false true p Hk)
    as (p1 & -> & Hsp & Hk1 & Hcand & Hdom & _). specialize (Hcand eq_refl).
  destruct (candidate p true false) as [c|] eqn:Ec.
  - destruct (connect_one d r p1 u rest Hk1) as (p2 & E2 & Hk2 & Hw2 & Hl2 & Hd2).
    { by rewrite (sp_waiting _ _ Hsp). }
    { by rewrite Hcand. }
    rewrite turn_assoc, bind_run, E2.
    destruct (IH p2 Hk2) as (p5 & k & E5 & Hk5 & Hw5 & Ht5 & Hex & Hin & Hd5).
    { rewrite Hw2. simpl in Hlen. lia. }
    exists p5, (S k). rewrite Hw2 in *. simpl. split_and!; try done.
    + intros v [->|Hv]%elem_of_cons; [|by apply Ht5]. exists c. apply Hin.
      rewrite Hl2, Hcand. unfold join. rewrite decide_True by done. set_solver.
    + intros x v Hv. apply Hin. rewrite Hl2. apply join_incl. by rewrite (sp_listed _ _ Hsp).
    + intros x. by rewrite Hd5, Hd2.
  - exists p1, 0. rewrite drop_0. split_and!; try done; [by rewrite (sp_waiting _ _ Hsp)|set_solver|by right|].
    intros x v. by rewrite (sp_listed _ _ Hsp).
Qed.

(** *** The user map *)

Lemma getUser_run d fl p jid :
  pinv cfg d fl p → reg_inv (registry p) →
  ∃ o p', getUser cfg getAllSettings jid p = Done o p' ∧ pinv cfg d fl p' ∧ reg_inv (registry p') ∧
    o = m_users p !! jid ∧ backends p' = backends p ∧ m_users p' = m_users p ∧
    u_jid <$> users p' = u_jid <$> users p ∧ u_data <$> users p' = u_data <$> users p ∧
    m_waitingUsers p' = m_waitingUsers p ∧ m_clients p' = m_clients p.
Proof.
  intros Hp Hr. unfold getUser. rewrite bind_run. simpl. rewrite bind_run.
  assert (Hhit : ∃ b, (match m_cachedUser p with
                 | Some u => o ← load_user u; mret (String.eqb jid (u_jid o))
                 | None => mret false
                 end) p = Done b p ∧ (b = true → m_cachedUser p = m_users p !! jid)).
  { destruct (m_cachedUser p) as [u|] eqn:Ec; [|exists false; done].
    destruct (reg_cached _ Hr u Ec) as [j Hj]. destruct (registry_alive p u j Hj) as (o & Ho & <-).
    run. eexists. split; [reflexivity|]. intros ->%String.eqb_eq.
    symmetry. by apply (reg_complete _ Hr u (u_jid o)). }
  destruct Hhit as (b & -> & Hb). destruct b.
  { eexists _, p. split; [reflexivity|]. split_and!; auto. }
  destruct (m_users p !! jid) as [u|] eqn:Eu.
  2:{ eexists _, p. split; [reflexivity|]. by split_and!. }
  pose proof (reg_sound _ Hr jid u Eu) as Hj.
  destruct (registry_alive p u jid Hj) as (o & Ho & Hoj).
  assert (Hp1 : pinv cfg d fl (with_cachedUser (Some u) p)) by (by eapply pinv_ext; [..|exact Hp]).
  assert (Hr1 : reg_inv (registry (with_cachedUser (Some u) p))).
  { destruct Hr as [H1 H2 H3]. split; [exact H1|exact H2|]. intros v [= <-]. eexists. exact Hj. }
  rewrite bind_run. simpl. run. simpl. unfold when. destruct (has_storage cfg).
  - erewrite update_user_run by done. eexists _, _. split; [reflexivity|].
    split; [by eapply pinv_user|].
    split; [by erewrite registry_user|]. simpl. rewrite !fmap_insert. simpl.
    split_and!; try done; apply insert_id; by rewrite lookup_fmap, Ho.
  - eexists _, _. split; [reflexivity|]. by split_and!.
Qed.

(** What a handler for user [u] leaves of the others. *)
Record others_kept (u : uid) (p p' : Pool) : Prop := {
  ok_data : ∀ v, v ≠ u → u_data <$> (users p' !! v) = u_data <$> (users p !! v);
  ok_backends : ∀ x, is_Some (backends p' !! x) ↔ is_Some (backends p !! x);
}.

Definition undying (d : dying) (p : Pool) (u : uid) : Prop :=
  ∀ c todo, d = Some (c, todo) → u ∉ todo ∧ ∀ o, users p !! u = Some o → u_data o = None.

Lemma registry_delete p u o p1 :
  reg_inv (registry p) → users p !! u = Some o →
  registry p1 = (u_jid <$> users p, delete (u_jid o) (m_users p),
                 if decide (m_cachedUser p = Some u) then None else m_cachedUser p) →
  reg_inv (registry (with_users (delete u) p1)).
Proof.
  intros [H1 H2 H3] Ho E. unfold registry in E. injection E as E1 E2 E3.
  unfold registry. simpl. rewrite fmap_delete, E1, E2, E3.
  pose proof (alive_registry p u o Ho) as Hj. split; simpl in *.
  - intros v j [Hne Hv]%lookup_delete_Some.
    rewrite lookup_delete_ne; [by apply H1|]. intros <-.
    pose proof (H1 _ _ Hv). pose proof (H1 _ _ Hj). congruence.
  - intros j v [Hne Hv]%lookup_delete_Some.
    rewrite lookup_delete_ne; [by apply H2|]. intros <-.
    pose proof (H2 _ _ Hv). congruence.
  - intros v Hv. case_decide as Hc; [done|]. rewrite lookup_delete_ne; [by apply H3|congruence].
Qed.

Lemma removeUser_run d p u behalf :
  pinv cfg d None p → reg_inv (registry p) → sound_user p u → undying d p u →
  ∃ p', removeUser cfg u behalf p = Done tt p' ∧ pinv cfg d None p' ∧ reg_inv (registry p') ∧
    users p' !! u = None ∧ others_kept u p p' ∧
    (∃ o, users p !! u = Some o ∧ m_users p' = delete (u_jid o) (m_users p)).
Proof.
  intros Hp Hr [o [Ho Hc]] Hd. unfold removeUser. run. simpl. rewrite bind_run. simpl. rewrite bind_run.
  set (p0 := with_userMap _ p).
  set (p1 := if decide (m_cachedUser p = Some u) then with_cachedUser None p0 else p0).
  assert (E1 : when (bool_decide (m_cachedUser p = Some u)) (modify (with_cachedUser None)) p0
               = Done tt p1).
  { unfold when, p1. case_decide; [rewrite bool_decide_true by done|rewrite bool_decide_false by done]; done. }
  rewrite E1, bind_run.
  assert (∃ es, (if server_mode cfg then log (DisconnectSession (u_jid o))
                 else log (ClearPresences (u_jid o))) p1 = Done tt (with_events es p1)) as [es ->].
  { destruct (server_mode cfg); eexists; reflexivity. }
  rewrite bind_run.
  assert (∃ es', when (has_storage cfg && behalf) (log (SetUserOnline (ui_id (u_info o)) false))
            (with_events es p1) = Done tt (with_events es' p1)) as [es' ->].
  { unfold when. destruct (_ && _); [|by exists es]. by eexists (λ l, es l ++ _). }
  assert (Hp1 : kept cfg d None (registry p1) (with_events es' p1)).
  { apply kept_events. split; [|done]. unfold p1. case_decide; by eapply pinv_ext; [..|exact Hp]. }
  assert (Eu1 : users p1 = users p) by (unfold p1; by case_decide).
  assert (Eb1 : backends p1 = backends p) by (unfold p1; by case_decide).
  destruct (handleUserDestroyed_run d _ _ u Hp1) as (p2 & E2 & [Hp2 Hr2] & (o2 & Ho2 & Eu2) & Hb2).
  { exists o. simpl. by rewrite Eu1, Eb1. }
  { simpl. by rewrite Eu1. }
  rewrite bind_run, E2, bind_run. simpl. simpl in Ho2, Eu2. rewrite Eu1 in Ho2, Eu2.
  assert (o2 = o) as -> by congruence.
  eexists. split; [reflexivity|].
  split; [apply pinv_delete_user; by eapply pinv_ext; [..|exact Hp2]|].
  split.
  { eapply (registry_delete p u o); [done..|].
    transitivity (registry p2); [done|]. rewrite Hr2. unfold registry, p1.
    by case_decide. }
  simpl. split; [by simplify_map_eq|]. split.
  - split; simpl.
    + intros v Hv. rewrite Eu2. by simplify_map_eq.
    + intros x. rewrite Hb2. simpl. by rewrite Eb1.
  - exists o. split; [done|]. unfold registry in Hr2. injection Hr2 as _ -> _.
    unfold p1. by case_decide.
Qed.

(** The test of User::handleDisconnected for another attempt. *)
Definition retries (o : User) (e : Z) : bool :=
  ((e =? OTHER_ERROR) || (e =? NETWORK_ERROR))%Z
  && ((u_reconnectLimit o <? 0) || (u_reconnectCounter o <? u_reconnectLimit o))%Z.

Definition given_up (p p' : Pool) (u : uid) (e : Z) : Prop :=
  ∀ o, users p !! u = Some o → u_ignoreDisconnect o = false → retries o e = false →
    users p' !! u = None ∧ m_users p' = delete (u_jid o) (m_users p).

Lemma handleDisconnected_run d p u err e :
  pinv cfg d None p → reg_inv (registry p) → sound_user p u → undying d p u →
  ∃ p', handleDisconnected cfg getAllSettings u err e p = Done tt p' ∧ pinv cfg d None p' ∧
    reg_inv (registry p') ∧ others_kept u p p' ∧ placed d p p' u ∧ given_up p p' u e.
Proof.
  intros Hp Hr Hs Hd. destruct (Hs) as (o & Ho & Hc). unfold handleDisconnected. run.
  destruct (u_ignoreDisconnect o) eqn:Ei.
  { exists p. split_and!; try done; [intros o' Ho'; left; eauto|]. intros o' Ho' Hig _; congruence. }
  fold (retries o e). destruct (retries o e) eqn:Ert.
  - run. set (o1 := set_reconnectCounter _ o). set (p1 := with_users _ p).
    assert (Hk1 : kept cfg d None (registry p) p1) by (eapply kept_user; done).
    destruct (handleUserDestroyed_run d _ p1 u Hk1) as (p2 & E2 & Hk2 & (o2 & Ho2 & Eu2) & Hb2).
    { exists o1. unfold p1. simpl. by simplify_map_eq. }
    { intros c todo Hdy. destruct (Hd c todo Hdy) as [? Hn]. split; [done|].
      intros w. unfold p1. simpl. intros. simplify_map_eq. by apply (Hn o). }
    rewrite E2, bind_run.
    destruct (handleUserCreated_run d _ p2 u Hk2) as (p3 & E3 & [Hp3 Hr3] & _ & _ & Hb3 & Hv3 & _ & Hpl).
    rewrite E3.
    pose proof (alive_registry p u o Ho) as Hal. rewrite <- Hr3 in Hal.
    destruct (registry_alive p3 u _ Hal) as (o3 & Ho3 & _).
    destruct (onReadyToConnect_run d p3 u o3 Hp3 Ho3) as [es E4].
    eexists. split; [exact E4|]. split; [by eapply pinv_ext; [..|exact Hp3]|].
    split; [change (reg_inv (registry p3)); by rewrite Hr3|]. split; [split; simpl|split].
    + intros v Hv. rewrite Hv3, Eu2 by done. unfold p1. simpl. by simplify_map_eq.
    + intros x. rewrite Hb3, Hb2. done.
    + intros o' Ho'. destruct (Hpl o' Ho') as [(w & Hw & ->)|]; [left|by right].
      exists o. split; [done|]. rewrite Eu2, lookup_insert_eq in Hw. injection Hw as <-. simpl.
      unfold p1 in Ho2. simpl in Ho2. by simplify_map_eq.
    + intros o' Ho'. rewrite Ho in Ho'. injection Ho' as <-. congruence.
  - do 4 (rewrite bind_run; simpl).
    set (p1 := with_events _ _).
    assert (Hp1 : pinv cfg d None p1) by (by eapply pinv_ext; [..|exact Hp]).
    destruct (getUser_run d None p1 (u_jid o) Hp1 Hr)
      as (w & p2 & -> & Hp2 & Hr2 & -> & Eb & Em & Ej & Ed & _).
    assert (m_users p1 !! u_jid o = Some u) as ->
      by exact (reg_complete _ Hr u _ (alive_registry p u o Ho)).
    assert (Hback : ∀ v, u_data <$> (users p2 !! v) = u_data <$> (users p !! v)).
    { intros v. rewrite <- !lookup_fmap. by rewrite Ed. }
    assert (Hdata : ∀ w, users p2 !! u = Some w → u_data w = u_data o).
    { intros w Hw. specialize (Hback u). rewrite Hw, Ho in Hback. by injection Hback. }
    destruct (removeUser_run d p2 u true Hp2 Hr2) as (p3 & E3 & Hp3 & Hr3 & Hgone & [Hv3 Hb3] & (o2 & Ho2 & Em3)).
    { destruct (users p2 !! u) as [w|] eqn:Ew.
      - exists w. split; [done|]. rewrite (Hdata w eq_refl), Eb. exact Hc.
      - specialize (Hback u). by rewrite Ew, Ho in Hback. }
    { intros c todo Hdy. destruct (Hd c todo Hdy) as [? Hn]. split; [done|].
      intros w Hw. rewrite (Hdata w Hw). by apply Hn. }
    exists p3. split; [exact E3|]. split_and!; try done.
    + split; [intros v Hv; by rewrite Hv3, Hback|intros x; by rewrite Hb3, Eb].
    + intros o'. by rewrite Hgone.
    + intros o' Ho' _ _. rewrite Ho in Ho'. injection Ho' as <-. split; [done|]. rewrite Em3, Em.
      assert (Hj : (u_jid <$> users p2) !! u = (u_jid <$> users p) !! u) by by rewrite Ej.
      rewrite !lookup_fmap, Ho, Ho2 in Hj. injection Hj as ->. done.
Qed.

(** *** Backend connections *)

Lemma sendPing_run d fl p c b :
  pinv cfg d fl p → backends p !! c = Some b →
  ∃ es, sendPing c p = Done tt (with_events es (with_backends <[c := set_pongReceived 0 b]> p)).
Proof.
  intros Hp Hb. unfold sendPing. run.
  destruct (inv_connection _ _ _ _ Hp c b Hb) as [k Hk].
  rewrite Hk, bool_decide_true by eauto. run. by eexists (λ es, es ++ _).
Qed.

Lemma kept_pong d fl r p c b v :
  kept cfg d fl r p → backends p !! c = Some b →
  kept cfg d fl r (with_backends <[c := set_pongReceived v b]> p).
Proof.
  intros [Hp Hr] Hb. split; [|done]. eapply pinv_backend; try done.
  - exact (inv_connection _ _ _ _ Hp c b Hb).
  - intros todo Hd. destruct (inv_dying _ _ _ _ Hp c todo Hd) as (b' & Hb' & Hw).
    rewrite Hb in Hb'. by injection Hb' as <-.
Qed.

Lemma handleNewClientConnection_run p k :
  inv cfg p →
  ∃ p', handleNewClientConnection k p = Done tt p' ∧ inv cfg p' ∧
    m_clients p' = heap_next p :: m_clients p ∧
    backends p' !! heap_next p = Some (new_backend k (m_isNextLongRun p)).
Proof.
  intros [Hp Hr]. unfold handleNewClientConnection. do 5 (rewrite bind_run; simpl).
  set (b := new_backend k (m_isNextLongRun p)). rewrite bind_run.
  match goal with |- context [sendPing _ ?q] => set (p1 := q) end.
  assert (Hp1 : pinv cfg None None p1).
  { eapply pinv_ext, (pinv_new_backend cfg p b); done. }
  assert (Hb1 : backends p1 !! heap_next p = Some b) by (unfold p1; simpl; by simplify_map_eq).
  destruct (sendPing_run None None p1 _ b Hp1 Hb1) as [es ->].
  erewrite update_backend_run by (simpl; by simplify_map_eq).
  eexists. split; [reflexivity|]. simpl. rewrite insert_insert_eq. split.
  - assert (kept cfg None None (registry p1) (with_backends <[heap_next p := set_pongReceived (-1) b]> p1))
      as [Hp2 _] by (by apply kept_pong).
    split; [|done]. eapply pinv_ext, Hp2; simpl; try done. by rewrite insert_insert_eq.
  - split; [done|]. by simplify_map_eq.
Qed.

(** The loop of handleSessionFinished over the users of the backend. *)
Definition dropping (p0 : Pool) (c : bid) (us rest : list uid) (p : Pool) : Prop :=
  pinv cfg (Some (c, rest)) None p ∧ reg_inv (registry p) ∧
  (∀ x, is_Some (backends p !! x) ↔ is_Some (backends p0 !! x)) ∧
  (∃ gone, us = gone ++ rest ∧
    ∀ u o, u ∈ gone → users p !! u = Some o → u_data o ≠ Some c).

Lemma disconnect_users_spec (p0 : Pool) c us err :
  NoDup us →
  spec no_fault (dropping p0 c us us)
    (for_each us (λ u,
       update_user u (setData None) ;;
       handleDisconnected cfg getAllSettings u err OTHER_ERROR))
    (λ _, dropping p0 c us []).
Proof.
  intros Hus. apply (spec_for_each_rest _ us _ (dropping p0 c us)).
  intros u rest p (Hp & Hr & Hdom & gone & -> & Hgone). rewrite bind_run.
  destruct (inv_assigned _ _ _ _ Hp c u) as (o & Ho & Hdata).
  { rewrite assigned_dying. set_solver. }
  apply NoDup_app in Hus as (_ & Hsep & [Hnin Hnd]%NoDup_cons).
  erewrite update_user_run by done. set (p1 := with_users <[u := setData None o]> p).
  destruct (handleDisconnected_run (Some (c, rest)) p1 u err OTHER_ERROR)
    as (p' & -> & Hp' & Hr' & [Hv Hb] & Hpl & _).
  - by apply pinv_drop.
  - unfold p1. by erewrite registry_user.
  - eexists. unfold p1. simpl. split; [by simplify_map_eq|done].
  - intros x todo [= <- <-]. split; [done|]. unfold p1. simpl. intros w Hw. by simplify_map_eq.
  - split_and!; try done; [intros x; rewrite Hb; unfold p1; simpl; by rewrite Hdom|].
    exists (gone ++ [u]). split; [by rewrite <- app_assoc|].
    intros v w Hvg Hw. destruct (decide (v = u)) as [->|Hne].
    + destruct (Hpl w Hw) as [(w1 & Hw1 & ->)|(x & -> & Hx)].
      * unfold p1 in Hw1. simpl in Hw1. by simplify_map_eq.
      * intros [= ->]. by apply (Hx rest).
    + specialize (Hv v Hne). rewrite Hw in Hv. unfold p1 in Hv. simpl in Hv.
      rewrite lookup_insert_ne in Hv by done. simpl in Hv.
      destruct (users p !! v) as [w0|] eqn:E; [|done]. injection Hv as ->.
      eapply Hgone; [|done]. set_solver.
Qed.

Lemma handleSessionFinished_run p c :
  inv cfg p → is_Some (backends p !! c) →
  ∃ p', handleSessionFinished cfg getAllSettings c p = Done tt p' ∧ inv cfg p' ∧
    (∀ x, is_Some (backends p' !! x) ↔ is_Some (backends p !! x) ∧ x ≠ c) ∧
    (∀ u o, u ∈ listed p c → users p' !! u = Some o → u_data o ≠ Some c).
Proof.
  intros [Hp Hr] [b Hb]. unfold handleSessionFinished. run.
  set (p1 := with_backends _ p).
  set (p2 := if bool_decide (b_users b = []) then p1 else with_crashed (λ l, l ++ [b_id b]) p1).
  assert (E2 : when (negb (bool_decide (b_users b = []))) (modify (with_crashed (λ l, l ++ [b_id b]))) p1
               = Done tt p2).
  { unfold when, p2. by case_bool_decide. }
  rewrite E2, bind_run.
  assert (Hk2 : kept cfg (Some (c, b_users b)) None (registry p) p2).
  { eapply (kept_ext cfg _ _ _ p1); try (unfold p2; by case_bool_decide).
    split; [by apply pinv_start_dying|done]. }
  assert (Hd2 : ∀ x, is_Some (backends p2 !! x) ↔ is_Some (backends p !! x)).
  { intros x. replace (backends p2) with (backends p1) by (unfold p2; by case_bool_decide).
    simpl. destruct (decide (x = c)) as [->|]; simplify_map_eq; [by split; eauto|done]. }
  destruct Hk2 as [Hp2 Hr2].
  pose proof (inv_assigned_nodup _ _ _ _ Hp2 c) as Hnd. rewrite assigned_dying in Hnd.
  pose proof (disconnect_users_spec p c (b_users b) "Internal Server Error, please reconnect." Hnd p2)
    as Hloop.
  destruct (for_each _ _ p2) as [[] p3|f].
  2:{ exfalso. apply Hloop. split_and!; try done; [by rewrite Hr2|]. exists []. split; [done|set_solver]. }
  destruct Hloop as (Hp3 & Hr3 & Hdom & gone & Egone & Hgone).
  { split_and!; try done; [by rewrite Hr2|]. exists []. split; [done|set_solver]. }
  destruct (inv_dying _ _ _ _ Hp3 c [] eq_refl) as (b3 & Hb3 & _).
  destruct (inv_connection _ _ _ _ Hp3 c b3 Hb3) as [k Hk].
  rewrite bind_run. erewrite send_to_run by done. run. rewrite Hk. simpl. rewrite bind_run. simpl.
  eexists. split; [reflexivity|]. split; [split|split].
  - eapply pinv_ext, (pinv_end_dying cfg c p3); done.
  - done.
  - intros x. simpl. rewrite <- Hdom. destruct (decide (x = c)) as [->|]; simplify_map_eq; [|tauto].
    split; [by intros []|tauto].
  - intros u o Hu. simpl. rewrite (listed_lookup _ _ _ Hb), Egone, app_nil_r in Hu. by apply Hgone.
Qed.

Lemma connectWaitingUsers_run d r p :
  kept cfg d None r p →
  ∃ p', connectWaitingUsers cfg p = Done tt p' ∧ kept cfg d None r p' ∧
    (∀ x, is_Some (backends p' !! x) ↔ is_Some (backends p !! x)).
Proof.
  intros Hk. unfold connectWaitingUsers. rewrite bind_run. simpl.
  destruct (connect_waiting_run d r _ p Hk ltac:(done)) as (p' & k & -> & Hk' & _ & _ & _ & _ & Hd).
  eauto.
Qed.

Lemma handlePongReceived_run p c :
  inv cfg p → is_Some (backends p !! c) →
  ∃ p', handlePongReceived cfg c p = Done tt p' ∧ inv cfg p'.
Proof.
  intros [Hp Hr] [b Hb]. unfold handlePongReceived. run.
  set (r := registry p) in *.
  assert (∃ p1, (if (pongReceived b =? -1)%Z then
            update_backend c (set_willDie false) ;;
            p ← get;
            when (m_firstPong p) (log StartComponent ;; modify (with_firstPong false)) ;;
            connectWaitingUsers cfg
          else mret tt) p = Done tt p1 ∧ kept cfg None None r p1 ∧ is_Some (backends p1 !! c))
    as (p1 & E1 & Hk1 & [b1 Hb1]).
  { destruct (_ =? _)%Z; [|exists p; split; [done|split; [by split|eauto]]]. run.
    set (p1 := with_backends _ p).
    assert (Hk1 : kept cfg None None r p1).
    { split; [|done]. eapply pinv_backend; try done. exact (inv_connection _ _ _ _ Hp c b Hb). }
    simpl. rewrite bind_run.
    set (p2 := if m_firstPong p then with_firstPong false (with_events (λ es, es ++ [StartComponent]) p1)
               else p1).
    assert (when (m_firstPong p) (log StartComponent ;; modify (with_firstPong false)) p1 = Done tt p2) as ->.
    { unfold when, p2. by destruct (m_firstPong p). }
    destruct (connectWaitingUsers_run None r p2) as (p3 & -> & Hk3 & Hd3).
    { unfold p2. destruct (m_firstPong p); [|done]. eapply kept_ext, Hk1; done. }
    exists p3. split; [done|]. split; [done|]. rewrite Hd3. unfold p2.
    destruct (m_firstPong p); simpl; simplify_map_eq; eauto. }
  rewrite E1. erewrite update_backend_run by done. eexists. split; [done|].
  destruct (kept_pong None None r p1 c b1 1 Hk1 Hb1) as [? E]. split; [done|]. by rewrite E.
Qed.

Lemma handleStatsPayload_run p c data :
  inv cfg p → is_Some (backends p !! c) →
  ∃ p', handleStatsPayload c data p = Done tt p' ∧ inv cfg p'.
Proof.
  intros [Hp Hr] [b Hb]. unfold handleStatsPayload.
  destruct (ParseFromString data) as [payload|]; [|by exists p]. run.
  eexists. split; [done|]. split; [|done]. eapply pinv_backend; try done.
  exact (inv_connection _ _ _ _ Hp c b Hb).
Qed.

Lemma getUser_inv p jid :
  inv cfg p →
  ∃ p', getUser cfg getAllSettings jid p = Done (m_users p !! jid) p' ∧ inv cfg p' ∧
    backends p' = backends p ∧ (∀ v, u_data <$> (users p' !! v) = u_data <$> (users p !! v)) ∧
    m_users p' = m_users p.
Proof.
  intros [Hp Hr].
  destruct (getUser_run None None p jid Hp Hr) as (o & p' & -> & ? & ? & -> & ? & ? & _ & Hd & _).
  exists p'. split_and!; try done. intros v. by rewrite <- !lookup_fmap, Hd.
Qed.

Lemma map_alive p jid u : inv cfg p → m_users p !! jid = Some u → is_Some (users p !! u).
Proof.
  intros [_ Hr] Hu. pose proof (reg_sound _ Hr jid u Hu) as Hj.
  destruct (registry_alive p u jid Hj) as (o & -> & _). eauto.
Qed.

Lemma sound_transfer p p' u :
  backends p' = backends p → u_data <$> (users p' !! u) = u_data <$> (users p !! u) →
  sound_user p u → sound_user p' u.
Proof.
  intros Eb Ed (o & Ho & Hc). rewrite Ho in Ed.
  destruct (users p' !! u) as [o'|] eqn:E; [|done]. exists o'. split; [done|].
  rewrite Eb. injection Ed as ->. done.
Qed.

Lemma user_inv p u o o' :
  users p !! u = Some o → u_data o' = u_data o → u_slots o' = u_slots o → u_jid o' = u_jid o →
  inv cfg p → inv cfg (with_users <[u := o']> p).
Proof.
  intros ???? [Hp Hr]. split; [by eapply pinv_user|]. by erewrite registry_user.
Qed.

Lemma inv_events p f : inv cfg p → inv cfg (with_events f p).
Proof. intros [Hp Hr]. split; [by eapply pinv_ext; [..|exact Hp]|done]. Qed.

Lemma setConnected_run p u v :
  inv cfg p → is_Some (users p !! u) →
  ∃ p', setConnected u v p = Done tt p' ∧ inv cfg p'.
Proof.
  intros Hi [o Ho]. unfold setConnected, setIgnoreDisconnect. run. simpl. run.
  eexists. split; [reflexivity|]. apply inv_events.
  repeat (eapply user_inv; [simpl; simplify_map_eq; reflexivity|reflexivity..|]). done.
Qed.

Lemma handleConnectedPayload_run p data :
  inv cfg p → ∃ p', handleConnectedPayload cfg getAllSettings data p = Done tt p' ∧ inv cfg p'.
Proof.
  intros Hi. unfold handleConnectedPayload.
  destruct (ParseFromString data) as [payload|]; [|by exists p]. rewrite bind_run.
  destruct (getUser_inv p (str (Connected.user payload)) Hi) as (p1 & -> & Hi1 & Eb & Ed & Em).
  destruct (m_users p !! _) as [u|] eqn:Eu; [|by exists p1]. rewrite <- Em in Eu.
  destruct (setConnected_run p1 u true Hi1 (map_alive _ _ _ Hi1 Eu)) as (p2 & E2 & Hi2).
  rewrite bind_run, E2. eexists. split; [reflexivity|]. by apply inv_events.
Qed.

Lemma handleDisconnectedPayload_run p data :
  inv cfg p →
  (∀ payload u, (ParseFromString data : option Disconnected.t) = Some payload →
     m_users p !! str (Disconnected.user payload) = Some u → ¬ stale p u) →
  ∃ p', handleDisconnectedPayload cfg getAllSettings data p = Done tt p' ∧ inv cfg p'.
Proof.
  intros Hi Hs. unfold handleDisconnectedPayload.
  destruct (ParseFromString data) as [payload|]; [|by exists p]. do 2 (rewrite bind_run; simpl).
  set (p0 := with_events _ p). assert (Hi0 : inv cfg p0) by by apply inv_events.
  destruct (getUser_inv p0 (str (Disconnected.user payload)) Hi0) as (p1 & -> & Hi1 & Eb & Ed & Em).
  change (m_users p0) with (m_users p) in *.
  destruct (m_users p !! _) as [u|] eqn:Eu; [|by exists p1].
  destruct (handleDisconnected_run None p1 u (str (Disconnected.message payload))
    (num (Disconnected.error payload))) as (p2 & -> & ? & ? & _); [apply Hi1|apply Hi1| |done|by exists p2].
  eapply sound_transfer; [exact Eb|exact (Ed u)|].
  apply (not_stale_sound p); [by eapply map_alive|]. by eapply Hs.
Qed.

Lemma onConnectingTimeout_run p u presence :
  inv cfg p → is_Some (users p !! u) →
  ∃ p', onConnectingTimeout cfg u presence p = Done tt p' ∧ inv cfg p'.
Proof.
  intros Hi [o Ho]. unfold onConnectingTimeout. run.
  destruct (_ || _); [by exists p|]. rewrite bind_run. simpl. run.
  match goal with |- context [onReadyToConnect cfg u ?q] => set (p1 := q) end.
  assert (Hi1 : inv cfg p1).
  { change (inv cfg (with_events (λ es, es ++ [StopReconnectTimer u])
      (with_users <[u:=set_readyForConnect true o]> p))). apply inv_events. by eapply user_inv. }
  destruct (onReadyToConnect_run None p1 u (set_readyForConnect true o)) as [es ->];
    [apply Hi1|unfold p1; simpl; by simplify_map_eq|].
  unfold when. destruct presence; (eexists; split; [reflexivity|]); by repeat apply inv_events.
Qed.
End operations.
