(* ===== verification/PoolSafety.v ===== *)
(** * The backend pool: theorems

    Every event keeps the invariant, and the exact circumstances in which one
    ends in undefined behaviour; the queue; the choice of a backend. *)

From S2P Require Import Prelude Protocol Framing Pool PoolInv.
Import pbnetwork.

Section safety.
Context `{Protobuf} (cfg : PoolConfig).
Context (getAllSettings : Z → list (string * string) → list (string * string)).
Context (upb_int : (- 2 ^ 31 <= users_per_backend cfg < 2 ^ 31)%Z).

(** ** Creating and removing users *)

Lemma loginUser_run p jid info :
  inv cfg p → ∃ p', loginUser cfg getAllSettings jid info p = Done tt p' ∧ inv cfg p'.
Proof.
  intros Hi. unfold loginUser. rewrite bind_run.
  destruct (getUser_inv cfg getAllSettings p jid Hi) as (p1 & -> & Hi1 & _ & _ & Em).
  destruct (m_users p !! jid) as [u|] eqn:Eu; [by exists p1|].
  unfold create_user, addUser. repeat (rewrite bind_run; simpl).
  erewrite load_user_run by (simpl; by simplify_map_eq). simpl. rewrite bind_run. simpl.
  set (u := heap_next p1). set (o := new_user jid info (now p1)).
  match goal with |- context [with_userMap _ ?q] => set (p2 := q) end.
  assert (Hp2 : pinv cfg None (Some u) p2) by (apply (pinv_new_user cfg None p1 o); [done|apply Hi1]).
  set (p3 := with_userMap <[jid:=u]> p2).
  assert (Hr3 : reg_inv (registry p3)).
  { destruct Hi1 as [Hp1 [H1 H2 H3]]. unfold registry in *. simpl in *.
    assert (Hn : users p1 !! u = None).
    { apply eq_None_not_Some. intros Hs. pose proof (inv_heap_users _ _ _ _ Hp1 u Hs). unfold u in *. lia. }
    split; simpl; rewrite fmap_insert.
    - intros v j. destruct (decide (v = u)) as [->|].
      + rewrite lookup_insert_eq. intros [= <-]. by simplify_map_eq.
      + rewrite lookup_insert_ne by done. intros Hv. rewrite lookup_insert_ne; [by apply H1|].
        intros <-. apply H1 in Hv. congruence.
    - intros j v. destruct (decide (j = jid)) as [->|].
      + rewrite lookup_insert_eq. intros [= <-]. by rewrite lookup_insert_eq.
      + rewrite lookup_insert_ne by done. intros Hv. apply H2 in Hv.
        rewrite lookup_insert_ne; [done|]. intros <-. by rewrite lookup_fmap, Hn in Hv.
    - intros v Hv. destruct (decide (v = u)) as [->|]; [rewrite lookup_insert_eq; eauto|].
      rewrite lookup_insert_ne by done. by apply H3. }
  assert (∃ p4, when (has_storage cfg) (log (SetUserOnline (ui_id info) true)) p3 = Done tt p4 ∧
    kept cfg None (Some u) (registry p3) p4) as (p4 & E4 & Hk4).
  { unfold when. destruct (has_storage cfg); (eexists; split; [reflexivity|]);
      (split; [by eapply pinv_ext; [..|exact Hp2]|done]). }
  rewrite bind_run, E4.
  destruct (handleUserCreated_run cfg upb_int None _ p4 u Hk4) as (p5 & -> & [Hp5 Hr5] & _).
  exists p5. split; [done|]. split; [done|]. by rewrite Hr5.
Qed.

Definition no_stale (p : Pool) : Prop := ∀ u, ¬ stale p u.

Lemma others_kept_no_stale u p p' :
  others_kept u p p' → users p' !! u = None → no_stale p → no_stale p'.
Proof.
  intros [Hd Hb] Hu Hs v (o & c & Ho & Hc & Hdead). destruct (decide (v = u)) as [->|Hne]; [congruence|].
  apply (Hs v). specialize (Hd v Hne). rewrite Ho in Hd.
  destruct (users p !! v) as [w|] eqn:E; [|done]. exists w, c.
  injection Hd as Hd. split; [done|]. split; [congruence|].
  apply eq_None_not_Some. intros Hx. apply Hb in Hx. rewrite Hdead in Hx. by destruct Hx.
Qed.

Lemma first_user_None m : first_user m = None ↔ m = ∅.
Proof.
  unfold first_user. rewrite <- map_to_list_empty_iff. destruct (map_to_list m) as [|kv l]; [done|].
  simpl. split; [|done]. intros E%fmap_None. destruct (foldr _ _ l) as [b|]; [by destruct (String.leb _ _)|done].
Qed.

Lemma first_user_elem m u : first_user m = Some u → ∃ k, m !! k = Some u.
Proof.
  unfold first_user. intros ([k v] & E & ->)%fmap_Some. exists k. simpl.
  apply elem_of_map_to_list. revert E. generalize (k, v). induction (map_to_list m) as [|x l IH]; [done|].
  intros kv. simpl. destruct (foldr _ _ l) as [b|] eqn:E.
  - specialize (IH b eq_refl). destruct (String.leb _ _); intros [= ->]; set_solver.
  - intros [= ->]. set_solver.
Qed.

Lemma remove_all_run fuel behalf p :
  inv cfg p → no_stale p → base.size (m_users p) ≤ fuel →
  ∃ p', remove_all cfg fuel behalf p = Done tt p' ∧ inv cfg p' ∧ m_users p' = ∅ ∧ no_stale p'.
Proof.
  revert p. induction fuel as [|fuel IH]; intros p Hi Hs Hlen; simpl.
  { exists p. split_and!; try done. apply map_size_empty_iff. lia. }
  rewrite bind_run. simpl. destruct (first_user (m_users p)) as [u|] eqn:Eu.
  2:{ exists p. split_and!; try done. by apply first_user_None. }
  destruct (first_user_elem _ _ Eu) as [jid Hj].
  destruct Hi as [Hp Hr].
  assert (Hal : is_Some (users p !! u)) by (eapply map_alive; [by split|done]).
  destruct (removeUser_run cfg None p u behalf Hp Hr) as
    (p1 & E1 & Hp1 & Hr1 & Hgone & Hok & (o & Ho & Em)); [|done|].
  { by apply not_stale_sound. }
  rewrite bind_run, E1. apply IH; [by split|by eapply others_kept_no_stale|].
  rewrite Em, map_size_delete_Some; [lia|]. exists u.
  apply (reg_complete _ Hr u). by apply alive_registry.
Qed.

(** ** Moving idle users *)

(** What the first half of pingTimeout keeps. *)
Record moved (p p' : Pool) : Prop := {
  mv_waiting : m_waitingUsers p' = m_waitingUsers p;
  mv_clients : m_clients p' = m_clients p;
  mv_alive : ∀ u, is_Some (users p' !! u) ↔ is_Some (users p !! u);
  mv_pong : ∀ c, pongReceived <$> (backends p' !! c) = pongReceived <$> (backends p !! c);
}.

Lemma moved_refl p : moved p p.
Proof. done. Qed.

Lemma moved_trans p1 p2 p3 : moved p1 p2 → moved p2 p3 → moved p1 p3.
Proof.
  intros [W1 C1 A1 P1] [W2 C2 A2 P2]. split; [congruence..| |].
  - intros u. by rewrite A2, A1.
  - intros c. by rewrite P2, P1.
Qed.

Lemma moveToLongRunBackend_run p u :
  inv cfg p → is_Some (users p !! u) → u ∉ m_waitingUsers p →
  ∃ b p', moveToLongRunBackend cfg u p = Done b p' ∧ inv cfg p' ∧ moved p p'.
Proof.
  intros [Hp Hr] Hal Hw. pose proof (unqueued_sound cfg None None p u Hp Hal Hw ltac:(done)) as (o & Ho & Hc).
  unfold moveToLongRunBackend. run.
  destruct (u_data o) as [old|] eqn:Ed; [|by exists true, p].
  destruct (Hc old eq_refl) as [b0 Hb0]. run.
  destruct (longRun b0) eqn:El; [by exists true, p|]. run1.
  destruct (getFreeClient_kept cfg upb_int None None (registry p) false true false p)
    as (p1 & -> & Hsp & [Hp1 Hr1] & _ & _ & Hcand); [by split|].
  destruct (candidate cfg p false true) as [c|] eqn:Ec.
  2:{ exists false, p1. split; [done|]. split; [split; [done|by rewrite Hr1]|].
      destruct Hsp. split; [done..| |done]. intros v. by rewrite sp_users. }
  destruct (Hcand c eq_refl) as (b & Hb & Hroom & Hl & _).
  assert (Hne : old ≠ c).
  { unfold candidate in Ec. destruct (delayed cfg p); [done|].
    apply first_free_spec in Ec as (_ & b' & Hb' & Hfree). intros ->.
    destruct (is_free_room cfg upb_int None None p false true c b' Hp Hb' Hfree) as (_ & Hl' & _).
    congruence. }
  pose proof Hsp as [Eu _ Ew _ _ _ _ El' Epong].
  assert (∃ b1, backends p1 !! old = Some b1 ∧ b_users b1 = b_users b0) as (b1 & Hb1 & Hus).
  { specialize (El' old). specialize (Epong old). rewrite Hb0 in Epong.
    destruct (backends p1 !! old) as [b1|] eqn:E; [|done]. exists b1. split; [done|].
    by rewrite (listed_lookup _ _ _ E), (listed_lookup _ _ _ Hb0) in El'. }
  unfold setIgnoreDisconnect. run1. erewrite update_user_run by (rewrite Eu; done). cbn beta iota.
  rewrite bind_run. erewrite update_backend_run by done. cbn beta iota.
  rewrite bind_run. erewrite update_user_run by (simpl; by simplify_map_eq). cbn beta iota.
  rewrite bind_run. erewrite update_backend_run by (simpl; by simplify_map_eq). cbn beta iota.
  set (o' := setData (Some c) (set_ignoreDisconnect true o)).
  set (p2 := with_backends <[c := map_users (λ l, l ++ [u]) b]>
      (with_users <[u := o']> (with_backends <[old := map_users (list_remove_all u) b1]> p1))).
  assert (Hp2 : pinv cfg None None p2).
  { eapply (pinv_move cfg None u p1 old c b1 b o o'); try done; [by rewrite Eu|].
    rewrite Hus. destruct (inv_data _ _ _ _ Hp u o old Ho Ed ltac:(done)) as [Hin|]; [|done].
    unfold assigned in Hin. by rewrite (listed_lookup _ _ _ Hb0) in Hin. }
  match goal with |- ∃ b p', (_ ≫= _) ?q = _ ∧ _ => assert (q = p2) as -> end.
  { unfold p2, with_users, with_backends. simpl. by rewrite insert_insert_eq. }
  destruct (handleUserReadyToConnect_run cfg None None p2 u Hp2) as [es E].
  { exists o'. unfold p2. simpl. split; [by simplify_map_eq|]. simpl. intros x [= <-].
    simplify_map_eq. eauto. }
  rewrite bind_run, E. eexists true, _. split; [reflexivity|]. split.
  - apply inv_events. split; [done|].
    replace (registry p2) with (registry p1); [by rewrite Hr1|]. unfold p2, registry. simpl.
    rewrite fmap_insert. simpl. rewrite insert_id; [done|]. by rewrite lookup_fmap, Eu, Ho.
  - unfold p2. split; simpl; [done|by destruct Hsp| |].
    + intros v. rewrite Eu. destruct (decide (v = u)) as [->|]; simplify_map_eq; [|done].
      split; [by eauto|done].
    + intros x. rewrite <- Epong. destruct (decide (x = c)) as [->|]; simplify_map_eq; [done|].
      destruct (decide (x = old)) as [->|]; by simplify_map_eq.
Qed.

Lemma move_all_run us p :
  inv cfg p → (∀ u, u ∈ us → is_Some (users p !! u) ∧ u ∉ m_waitingUsers p) →
  ∃ p', for_each_until us (moveToLongRunBackend cfg) p = Done tt p' ∧ inv cfg p' ∧ moved p p'.
Proof.
  revert p. induction us as [|u us IH]; intros p Hi Hus; simpl; [by exists p|].
  destruct (Hus u) as [Hal Hw]; [set_solver|].
  destruct (moveToLongRunBackend_run p u Hi Hal Hw) as (b & p1 & E & Hi1 & Hm).
  rewrite bind_run, E. destruct b; [|by exists p1].
  destruct (IH p1 Hi1) as (p2 & -> & Hi2 & Hm2).
  { intros v Hv. destruct (Hus v) as [? ?]; [set_solver|].
    by rewrite (mv_alive _ _ Hm), (mv_waiting _ _ Hm). }
  exists p2. split_and!; try done. by eapply moved_trans.
Qed.

Lemma idle_among_run diff us p :
  (∀ u, u ∈ us → is_Some (users p !! u)) →
  ∃ l, idle_among diff us p = Done l p ∧ ∀ u, u ∈ l → u ∈ us.
Proof.
  induction us as [|u us IH]; intros Hus; simpl; [by exists []|].
  destruct (Hus u) as [o Ho]; [set_solver|]. rewrite bind_run. simpl. run.
  destruct IH as (l & -> & Hl); [set_solver|].
  destruct (_ <? _)%Z; (eexists; split; [reflexivity|]); set_solver.
Qed.

Lemma idle_users_run diff cs p :
  inv cfg p → (∀ c, c ∈ cs → is_Some (backends p !! c)) →
  ∃ l, idle_users diff cs p = Done l p ∧
    ∀ u, u ∈ l → is_Some (users p !! u) ∧ u ∉ m_waitingUsers p.
Proof.
  intros [Hp Hr]. induction cs as [|c cs IH]; intros Hcs; simpl; [exists []; set_solver|].
  destruct (Hcs c) as [b Hb]; [set_solver|].
  assert (Hlisted : ∀ u, u ∈ b_users b → is_Some (users p !! u) ∧ u ∉ m_waitingUsers p).
  { intros u Hu. assert (Ha : u ∈ assigned None p c).
    { unfold assigned. by rewrite (listed_lookup _ _ _ Hb). }
    destruct (inv_assigned _ _ _ _ Hp c u Ha) as (o & Ho & _). split; [eauto|].
    intros Hw. by apply (inv_waiting _ _ _ _ Hp u Hw) in Ha. }
  run. assert (∃ l, (if longRun b then mret [] else idle_among diff (b_users b)) p = Done l p ∧
    ∀ u, u ∈ l → u ∈ b_users b) as (l & -> & Hl).
  { destruct (longRun b); [exists []; set_solver|]. apply idle_among_run. intros u Hu. by apply Hlisted. }
  rewrite bind_run. destruct IH as (l' & -> & Hl'); [set_solver|].
  eexists. split; [reflexivity|]. intros u [?|?]%elem_of_app; auto.
Qed.

(** ** Pings *)

(** A backend that did not answer the last ping. *)
Definition unanswered (p : Pool) (c : bid) : Prop :=
  ∃ b, backends p !! c = Some b ∧ pongReceived b = 0%Z.

Definition unused (p : Pool) (c : bid) : Prop :=
  ∃ b, backends p !! c = Some b ∧ b_users b = [].

#[local] Instance backend_dec p c (P : Backend → Prop) :
  (∀ b, Decision (P b)) → Decision (∃ b, backends p !! c = Some b ∧ P b).
Proof.
  intros HP. destruct (backends p !! c) as [b|].
  - destruct (decide (P b)); [left; eauto|right]. by intros (? & [= <-] & ?).
  - right. by intros (? & ? & _).
Defined.

#[export] Instance unanswered_dec p c : Decision (unanswered p c).
Proof. unfold unanswered. apply _. Defined.

#[export] Instance unused_dec p c : Decision (unused p c).
Proof. unfold unused. apply _. Defined.

Lemma ping_backends_run cs p :
  inv cfg p → NoDup cs → (∀ c, c ∈ cs → is_Some (backends p !! c)) →
  ∃ l p', ping_backends cs p = Done l p' ∧ inv cfg p' ∧
    (∀ x, is_Some (backends p' !! x) ↔ is_Some (backends p !! x)) ∧
    (∀ x, x ∉ cs → backends p' !! x = backends p !! x) ∧
    (∀ c, c ∈ l → c ∈ cs) ∧
    (NoDup l ↔ ∀ c, c ∈ cs → unanswered p c → unused p c → False).
Proof.
  revert p. induction cs as [|c cs IH]; intros p Hi Hnd Hcs; simpl.
  { exists [], p. split_and!; try done.
    split; [set_solver|]. intros _. constructor. }
  apply NoDup_cons in Hnd as [Hnin Hnd].
  destruct (Hcs c) as [b Hb]; [set_solver|]. run.
  set (dead := if (pongReceived b =? 0)%Z then [c] else []).
  assert (∃ p1, (if negb (pongReceived b =? 0)%Z then sendPing c ;; mret []
                 else when (negb (String.eqb (b_id b) "")) (log (Kill (b_id b))) ;; mret [c]) p
                = Done dead p1 ∧ inv cfg p1 ∧
    (∀ x, is_Some (backends p1 !! x) ↔ is_Some (backends p !! x)) ∧
    (∀ x, x ≠ c → backends p1 !! x = backends p !! x)) as (p1 & -> & Hi1 & Hd1 & Hx1).
  { unfold dead. destruct Hi as [Hp Hr]. destruct (_ =? _)%Z eqn:Ez; simpl; rewrite bind_run.
    - exists (if String.eqb (b_id b) "" then p else with_events (λ es, es ++ [Kill (b_id b)]) p).
      unfold when. destruct (String.eqb (b_id b) ""); simpl; (split; [done|]); split_and!; try done.
      by apply inv_events.
    - destruct (sendPing_run cfg None None p c b Hp Hb) as [es ->]. eexists. split; [reflexivity|].
      split; [apply inv_events|split].
      + destruct (kept_pong cfg None None _ p c b 0 (conj Hp eq_refl) Hb) as [? E].
        split; [done|]. by rewrite E.
      + intros x. simpl. destruct (decide (x = c)) as [->|]; simplify_map_eq; [|done]. split; eauto.
      + intros x Hx. simpl. by simplify_map_eq. }
  rewrite bind_run.
  destruct (IH p1 Hi1 Hnd) as (l & p2 & -> & Hi2 & Hd2 & Hx2 & Hl & Hnl).
  { intros x Hx. apply Hd1, Hcs. set_solver. }
  eexists _, p2. split; [reflexivity|]. split; [done|].
  split; [intros x; by rewrite Hd2, Hd1|]. split; [intros x Hx; rewrite Hx2, Hx1; set_solver|].
  set (un := if bool_decide (b_users b = []) then [c] else []).
  assert (Hin : ∀ x, x ∈ dead ++ un → x = c).
  { intros x. unfold dead, un. destruct (_ =? _)%Z, (bool_decide _); set_solver. }
  split.
  { rewrite app_assoc. intros x [->%Hin|?]%elem_of_app; set_solver. }
  rewrite app_assoc, NoDup_app, Hnl.
  assert (Hself : NoDup (dead ++ un) ↔ ¬ (unanswered p c ∧ unused p c)).
  { unfold dead, un, unanswered, unused. rewrite Hb. split.
    - intros Hn [(b1 & [= <-] & Hz) (b2 & [= <-] & Hus)].
      rewrite Hz, Hus in Hn. apply NoDup_cons in Hn. set_solver.
    - intros Hn. destruct (Z.eqb_spec (pongReceived b) 0); case_bool_decide; simpl;
        [|apply NoDup_singleton..|constructor].
      destruct Hn. by split; exists b. }
  assert (Hrest : ∀ x, x ∈ cs → (unanswered p1 x ↔ unanswered p x) ∧ (unused p1 x ↔ unused p x)).
  { intros x Hx. unfold unanswered, unused. rewrite Hx1; [done|]. by intros ->. }
  rewrite Hself. split.
  - intros (Hc & _ & Hrec) x [->|Hx]%elem_of_cons Ha Hu; [by apply Hc|].
    destruct (Hrest x Hx) as [E1 E2]. apply (Hrec x Hx); [by apply E1|by apply E2].
  - intros Hall. split; [|split].
    + intros [? ?]. eapply Hall; [|done..]. set_solver.
    + intros x ->%Hin Hx. by apply Hl in Hx.
    + intros x Hx ? ?. destruct (Hrest x Hx) as [E1 E2].
      apply (Hall x); [set_solver|by apply E1|by apply E2].
Qed.

Lemma finish_all_run l p :
  inv cfg p → NoDup l → (∀ c, c ∈ l → is_Some (backends p !! c)) →
  ∃ p', for_each l (handleSessionFinished cfg getAllSettings) p = Done tt p' ∧ inv cfg p'.
Proof.
  revert p. induction l as [|c l IH]; intros p Hi Hnd Hl; simpl; [by exists p|].
  apply NoDup_cons in Hnd as [Hnin Hnd].
  destruct (handleSessionFinished_run cfg getAllSettings upb_int p c Hi) as (p1 & E & Hi1 & Hd & _); [set_solver|].
  rewrite bind_run, E. apply IH; [done..|]. intros x Hx. apply Hd.
  split; [set_solver|by intros ->].
Qed.

Lemma finish_all_twice l p :
  inv cfg p → (∃ c, c ∈ l ∧ backends p !! c = None) ∨ ¬ NoDup l →
  for_each l (handleSessionFinished cfg getAllSettings) p = Fault UseAfterFree.
Proof.
  revert p. induction l as [|c l IH]; intros p Hi Hbad.
  { destruct Hbad as [(? & ?%not_elem_of_nil & _)|[]]; [done|constructor]. }
  simpl. rewrite bind_run. destruct (backends p !! c) as [b|] eqn:Ec.
  - destruct (handleSessionFinished_run cfg getAllSettings upb_int p c Hi) as (p1 & E & Hi1 & Hd & _); [eauto|].
    rewrite E. apply IH; [done|].
    destruct (decide (NoDup l)) as [Hnd|]; [|by right]. left.
    destruct Hbad as [(x & [->|Hx]%elem_of_cons & Hn)|Hn]; [congruence| |].
    + exists x. split; [done|]. apply eq_None_not_Some. rewrite Hd, Hn. by intros [[] _].
    + exists c. split.
      * destruct (decide (c ∈ l)); [done|]. destruct Hn. by constructor.
      * apply eq_None_not_Some. rewrite Hd. tauto.
  - unfold handleSessionFinished at 1. by rewrite bind_run, load_backend_dead.
Qed.

(** The state after the first half of pingTimeout. *)
Lemma ping_moves_run p :
  inv cfg p →
  ∃ p', (if (idle_reconnect_time cfg =? 0)%Z then mret tt
         else usersToMove ← idle_users (idle_reconnect_time cfg) (m_clients p);
              for_each_until usersToMove (moveToLongRunBackend cfg)) p = Done tt p' ∧
    inv cfg p' ∧ moved p p' ∧ (idle_reconnect_time cfg = 0%Z → p' = p).
Proof.
  intros Hi. destruct (Z.eqb_spec (idle_reconnect_time cfg) 0) as [|Hne]; [by exists p|].
  rewrite bind_run.
  destruct (idle_users_run (idle_reconnect_time cfg) (m_clients p) p Hi) as (l & -> & Hl).
  { intros c. by apply (inv_clients _ _ _ _ (proj1 Hi)). }
  destruct (move_all_run l p Hi Hl) as (p' & -> & ? & ?). by exists p'.
Qed.

Lemma pingTimeout_twice p c :
  inv cfg p → idle_reconnect_time cfg = 0%Z → unanswered p c → unused p c →
  pingTimeout cfg getAllSettings p = Fault UseAfterFree.
Proof.
  intros Hi Hz Ha Hu. unfold pingTimeout. rewrite bind_run. simpl. rewrite bind_run.
  rewrite Hz. simpl. rewrite bind_run. simpl. rewrite bind_run. simpl. rewrite bind_run.
  set (p2 := with_starting false p).
  assert (Hi2 : inv cfg p2).
  { destruct Hi. split; [|done]. by eapply pinv_ext; [..|done]. }
  destruct (ping_backends_run (m_clients p) p2 Hi2) as (l & p3 & -> & Hi3 & Hd3 & _ & Hl & Hnd).
  { apply Hi. }
  { intros x. by apply (inv_clients _ _ _ _ (proj1 Hi)). }
  rewrite bind_run, finish_all_twice; [done|done|]. right. intros Hn.
  apply Hnd with c; [done| |done|done].
  apply (inv_clients _ _ _ _ (proj1 Hi)). destruct Ha as (b & Hb & _). eauto.
Qed.

(** ** The remaining timers *)

Lemma biggest_run cs max best p :
  (∀ c, c ∈ cs → is_Some (backends p !! c)) →
  ∃ o, biggest max best cs p = Done o p ∧
    (o = best ∧ (∀ c b, c ∈ cs → backends p !! c = Some b → b_res b <= max)%Z ∨
     ∃ c b, o = Some c ∧ c ∈ cs ∧ backends p !! c = Some b ∧ (max < b_res b)%Z ∧
       ∀ c' b', c' ∈ cs → backends p !! c' = Some b' → (b_res b' <= b_res b)%Z).
Proof.
  revert max best. induction cs as [|c cs IH]; intros max best Hcs; simpl.
  { exists best. split; [done|]. left. split; [done|]. set_solver. }
  destruct (Hcs c) as [b Hb]; [set_solver|]. run.
  destruct (Z.ltb_spec max (b_res b)).
  - destruct (IH (b_res b) (Some c)) as (o & -> & Ho); [set_solver|]. exists o. split; [done|]. right.
    destruct Ho as [[-> Hall]|(x & bx & -> & Hx & Hbx & Hlt & Hall)].
    + exists c, b. split_and!; try done; [set_solver|].
      intros c' b' [->|Hc']%elem_of_cons Hb'; [simplify_eq; lia|by eauto].
    + exists x, bx. split_and!; try done; [set_solver|lia|].
      intros c' b' [->|Hc']%elem_of_cons Hb'; [simplify_eq; lia|by eauto].
  - destruct (IH max best) as (o & -> & Ho); [set_solver|]. exists o. split; [done|].
    destruct Ho as [[-> Hall]|(x & bx & -> & Hx & Hbx & Hlt & Hall)].
    + left. split; [done|]. intros c' b' [->|Hc']%elem_of_cons Hb'; [simplify_eq; lia|by eauto].
    + right. exists x, bx. split_and!; try done; [set_solver|].
      intros c' b' [->|Hc']%elem_of_cons Hb'; [simplify_eq; lia|by eauto].
Qed.

Lemma collectBackend_run p :
  inv cfg p → ∃ p', collectBackend cfg p = Done tt p' ∧ inv cfg p'.
Proof.
  intros [Hp Hr]. unfold collectBackend. rewrite bind_run. simpl. rewrite bind_run.
  destruct (biggest_run (m_clients p) 0 None p) as (o & -> & Ho).
  { intros c. by apply (inv_clients _ _ _ _ Hp). }
  destruct o as [c|]; [|by exists p].
  assert (∃ b, backends p !! c = Some b) as [b Hb].
  { destruct Ho as [[? _]|(x & b & [= <-] & _ & ? & _)]; [done|eauto]. }
  rewrite bind_run. unfold when.
  assert (Hi' : inv cfg (with_backends <[c := set_acceptUsers false b]> p)).
  { split; [|done]. eapply pinv_backend; try done. exact (inv_connection _ _ _ _ Hp c b Hb). }
  destruct (has_collect_timer cfg).
  - simpl. erewrite update_backend_run by done. eexists. split; [reflexivity|].
    destruct Hi' as [Hq ?]. split; [|done]. by eapply pinv_ext; [..|exact Hq].
  - rewrite ret_run. erewrite update_backend_run by done. by eexists.
Qed.

(** ** Reaching a freed backend *)

Lemma removeUser_stale p u behalf : stale p u → removeUser cfg u behalf p = Fault UseAfterFree.
Proof.
  intros Hs. pose proof Hs as (o & c & Ho & Hc & Hdead). unfold removeUser. run. simpl.
  rewrite bind_run. simpl.
  assert (Hpre : ∀ (m : prog Pool unit) (k : prog Pool unit) q,
    (∃ q', m q = Done tt q' ∧ users q' = users q ∧ backends q' = backends q) →
    (∀ q', users q' = users q → backends q' = backends q → k q' = Fault UseAfterFree) →
    (m ;; k) q = Fault UseAfterFree).
  { intros m k q (q' & E & ? & ?) Hk. rewrite bind_run, E. by apply Hk. }
  apply Hpre; [unfold when; case_bool_decide; (eexists; split; [reflexivity|by split])|].
  intros q1 Eu1 Eb1.
  apply Hpre; [destruct (server_mode cfg); (eexists; split; [reflexivity|by split])|].
  intros q2 Eu2 Eb2.
  apply Hpre; [unfold when; destruct (_ && _); (eexists; split; [reflexivity|by split])|].
  intros q3 Eu3 Eb3.
  rewrite bind_run, handleUserDestroyed_stale; [done|].
  exists o, c. rewrite Eu3, Eu2, Eu1, Eb3, Eb2, Eb1. done.
Qed.

Lemma stale_transfer p p' u :
  backends p' = backends p → u_data <$> (users p' !! u) = u_data <$> (users p !! u) →
  stale p u → stale p' u.
Proof.
  intros Eb Ed (o & c & Ho & Hc & Hdead). rewrite Ho in Ed.
  destruct (users p' !! u) as [o'|] eqn:E; [|done]. exists o', c.
  injection Ed as Ed. split_and!; [done|congruence|by rewrite Eb].
Qed.

(** On a stale user handleDisconnected does nothing or faults. *)
Lemma handleDisconnected_stale p u err e :
  inv cfg p → stale p u →
  handleDisconnected cfg getAllSettings u err e p = Done tt p ∨
  handleDisconnected cfg getAllSettings u err e p = Fault UseAfterFree.
Proof.
  intros Hi Hs. pose proof Hs as (o & c & Ho & Hc & Hdead). unfold handleDisconnected. run.
  destruct (u_ignoreDisconnect o); [by left|right]. destruct (_ && _).
  - run. rewrite handleUserDestroyed_stale; [done|].
    exists (set_reconnectCounter (u_reconnectCounter o + 1) o), c. simpl. by simplify_map_eq.
  - do 4 (rewrite bind_run; simpl). set (p1 := with_events _ _).
    assert (Hi1 : inv cfg p1) by (unfold p1; repeat apply inv_events; done).
    destruct (getUser_inv cfg getAllSettings p1 (u_jid o) Hi1) as (p2 & -> & Hi2 & Eb & Ed & Em).
    assert (m_users p1 !! u_jid o = Some u) as ->
      by exact (reg_complete _ (proj2 Hi) u _ (alive_registry p u o Ho)).
    apply removeUser_stale. by apply (stale_transfer p1); [|apply Ed|].
Qed.

(** The circumstances in which an event can meet a freed backend. *)
Definition dangerous (i : input) (p : Pool) : Prop :=
  match i with
  | DisconnectedPayload data => ∃ payload u,
      (ParseFromString data : option Disconnected.t) = Some payload ∧
      m_users p !! str (Disconnected.user payload) = Some u ∧ stale p u
  | RemoveUser u _ => stale p u
  | RemoveAllUsers _ => ∃ u, stale p u
  | PingTimer => ∃ c, unanswered p c ∧ (idle_reconnect_time cfg = 0%Z → unused p c)
  | _ => False
  end.

(** The outcome of a handler: the invariant, or a use after free that the
    circumstances explain. *)
Definition sound_outcome (danger : Prop) (r : result Pool unit) : Prop :=
  match r with
  | Done _ p' => inv cfg p'
  | Fault f => f = UseAfterFree ∧ danger
  end.

Lemma sound_done danger r : (∃ p', r = Done tt p' ∧ inv cfg p') → sound_outcome danger r.
Proof. by intros (p' & -> & Hi). Qed.

Lemma stale_dec p u : is_Some (users p !! u) → stale p u ∨ ¬ stale p u.
Proof.
  intros [o Ho]. destruct (u_data o) as [c|] eqn:Ed; [destruct (backends p !! c) eqn:Eb|].
  - right. intros (o' & c' & ? & ? & ?). congruence.
  - left. by exists o, c.
  - right. intros (o' & c' & ? & ? & ?). congruence.
Qed.

Lemma DisconnectedPayload_sound p data :
  inv cfg p →
  sound_outcome (dangerous (DisconnectedPayload data) p)
    (handleDisconnectedPayload cfg getAllSettings data p).
Proof.
  intros Hi. destruct (ParseFromString data : option Disconnected.t) as [payload|] eqn:Ep.
  2:{ unfold handleDisconnectedPayload. by rewrite Ep. }
  destruct (m_users p !! str (Disconnected.user payload)) as [u|] eqn:Eu.
  2:{ apply sound_done, handleDisconnectedPayload_run; try done. intros ? ? ? ?. congruence. }
  destruct (stale_dec p u) as [Hs|Hs]; [by eapply map_alive| |].
  2:{ apply sound_done, handleDisconnectedPayload_run; try done. intros ? ? ? ?. congruence. }
  unfold handleDisconnectedPayload. rewrite Ep. do 2 (rewrite bind_run; simpl).
  set (p0 := with_events _ p). assert (Hi0 : inv cfg p0) by by apply inv_events.
  destruct (getUser_inv cfg getAllSettings p0 (str (Disconnected.user payload)) Hi0)
    as (p1 & -> & Hi1 & Eb & Ed & Em).
  change (m_users p0) with (m_users p) in *. rewrite Eu.
  destruct (handleDisconnected_stale p1 u (str (Disconnected.message payload))
    (num (Disconnected.error payload)) Hi1) as [-> | ->]; [|done|].
  - by apply (stale_transfer p0); [|apply Ed|].
  - split; [done|]. exists payload, u. done.
Qed.

Lemma RemoveUser_sound p u behalf :
  inv cfg p → is_Some (users p !! u) →
  sound_outcome (stale p u) (removeUser cfg u behalf p).
Proof.
  intros [Hp Hr] Hal. destruct (stale_dec p u Hal) as [Hs|Hs].
  - by rewrite removeUser_stale.
  - destruct (removeUser_run cfg None p u behalf Hp Hr) as (p' & -> & ? & ? & _); try done.
    by apply not_stale_sound.
Qed.

Lemma others_kept_stale u p p' v : others_kept u p p' → users p' !! u = None → stale p' v → stale p v.
Proof.
  intros [Hd Hb] Hu (o & c & Ho & Hc & Hdead). destruct (decide (v = u)) as [->|Hne]; [congruence|].
  specialize (Hd v Hne). rewrite Ho in Hd. destruct (users p !! v) as [w|] eqn:E; [|done].
  injection Hd as Hd. exists w, c. split_and!; [done|congruence|].
  apply eq_None_not_Some. intros Hx. apply Hb in Hx. rewrite Hdead in Hx. by destruct Hx.
Qed.

Lemma RemoveAllUsers_sound p behalf :
  inv cfg p → sound_outcome (∃ u, stale p u) (removeAllUsers cfg behalf p).
Proof.
  intros Hi. unfold removeAllUsers. rewrite bind_run. simpl.
  generalize (base.size (m_users p)). intros fuel. revert p Hi.
  induction fuel as [|fuel IH]; intros p Hi; simpl; [done|].
  rewrite bind_run. simpl. destruct (first_user (m_users p)) as [u|] eqn:Eu; [|done].
  destruct (first_user_elem _ _ Eu) as [jid Hj]. pose proof (map_alive cfg p jid u Hi Hj) as Hal.
  rewrite bind_run. destruct (stale_dec p u Hal) as [Hs|Hs].
  - rewrite removeUser_stale by done. split; [done|by exists u].
  - destruct Hi as [Hp Hr].
    destruct (removeUser_run cfg None p u behalf Hp Hr) as
      (p1 & -> & Hp1 & Hr1 & Hgone & Hok & _); [by apply not_stale_sound|done|].
    specialize (IH p1 (conj Hp1 Hr1)).
    destruct (remove_all cfg fuel behalf p1) as [[] p2|f]; [done|].
    destruct IH as [-> (v & Hv)]. split; [done|]. exists v. by eapply others_kept_stale.
Qed.

Lemma moved_unanswered p p' c : moved p p' → unanswered p' c → unanswered p c.
Proof.
  intros Hm (b & Hb & Hz). pose proof (mv_pong _ _ Hm c) as E. rewrite Hb in E. unfold unanswered.
  destruct (backends p !! c) as [b0|]; [|done]. exists b0. split; [done|].
  injection E as E. congruence.
Qed.

Lemma PingTimer_sound p :
  inv cfg p → sound_outcome (dangerous PingTimer p) (pingTimeout cfg getAllSettings p).
Proof.
  intros Hi.
  unfold pingTimeout. rewrite bind_run. simpl. rewrite bind_run.
  destruct (ping_moves_run p Hi) as (p1 & -> & Hi1 & Hm & Hid).
  rewrite bind_run. simpl. rewrite bind_run. simpl. rewrite bind_run.
  set (p2 := with_starting false p1).
  assert (Hi2 : inv cfg p2).
  { destruct Hi1. split; [|done]. by eapply pinv_ext; [..|done]. }
  destruct (ping_backends_run (m_clients p1) p2 Hi2) as (l & p3 & -> & Hi3 & Hd3 & _ & Hl & Hnd).
  { apply Hi1. }
  { intros c. by apply (inv_clients _ _ _ _ (proj1 Hi1)). }
  rewrite bind_run. destruct (decide (NoDup l)) as [Hn|Hn].
  - destruct (finish_all_run l p3 Hi3 Hn) as (p4 & -> & Hi4); [|by apply inv_events].
    intros c Hc. apply Hd3, (inv_clients _ _ _ _ (proj1 Hi1)). by apply Hl.
  - rewrite finish_all_twice by auto. split; [done|].
    destruct (decide (Exists (λ c, unanswered p2 c ∧ unused p2 c) (m_clients p1)))
      as [(c & _ & Ha & Hu)%Exists_exists|Hno].
    + exists c. split.
      * apply (moved_unanswered p p1 c Hm). exact Ha.
      * intros Hz. change (unused p1 c) in Hu. by rewrite (Hid Hz) in Hu.
    + destruct Hn. apply Hnd. intros c Hc Ha Hu. apply Hno, Exists_exists. eauto.
Qed.
End safety.
