(* ===== verification/PoolTheorems.v ===== *)
(** * The backend pool: properties

    What holds of every state the server can reach, what each of the pool's
    decisions answers, and two runs that end in freed memory. *)

From S2P Require Import Prelude Protocol Framing Pool PoolInv PoolSafety ReferenceCodec.
Import pbnetwork.

Section properties.
Context `{Protobuf} (cfg : PoolConfig).
Context (getAllSettings : Z → list (string * string) → list (string * string)).

(** users_per_backend is read into an int. *)
Definition int_config : Prop := (- 2 ^ 31 <= users_per_backend cfg < 2 ^ 31)%Z.

Lemma initial_inv time pid next : inv cfg (initial time pid next).
Proof.
  split; split; simpl; try done; unfold assigned, listed; simpl;
    try setoid_rewrite lookup_empty; try by (intros; try constructor; set_solver).
Qed.

Lemma react_sound i p :
  int_config → inv cfg p → enabled i p →
  sound_outcome cfg (dangerous cfg i p) (react cfg getAllSettings i p).
Proof.
  intros Hint Hi Hen. destruct i; simpl in *.
  - destruct (handleNewClientConnection_run cfg p k Hi) as (p' & -> & ? & _). done.
  - destruct (handleSessionFinished_run cfg getAllSettings Hint p c Hi Hen) as (p' & -> & ? & _). done.
  - by apply sound_done, handlePongReceived_run.
  - by apply sound_done, handleStatsPayload_run.
  - by apply sound_done, handleConnectedPayload_run.
  - by apply DisconnectedPayload_sound.
  - destruct Hi. split; [|done]. by eapply pinv_ext; [..|done].
  - by apply PingTimer_sound.
  - by apply sound_done, collectBackend_run.
  - unfold loginDelayFinished. rewrite bind_run. simpl.
    destruct (connectWaitingUsers_run cfg Hint None (registry p) (with_events (λ es, es ++ [StopLoginTimer]) p))
      as (p' & -> & [Hp' Hr'] & _).
    { apply kept_events. by split; [apply Hi|]. }
    split; [done|]. rewrite Hr'. apply Hi.
  - by apply sound_done, loginUser_run.
  - by apply RemoveUser_sound.
  - by apply RemoveAllUsers_sound.
  - by apply sound_done, onConnectingTimeout_run.
  - destruct Hi. split; [|done]. by eapply pinv_ext; [..|done].
Qed.

Lemma reachable_inv p : int_config → reachable cfg getAllSettings p → inv cfg p.
Proof.
  intros Hint. induction 1 as [|i p p' _ IH Hen Hr]; [apply initial_inv|].
  pose proof (react_sound i p Hint IH Hen) as Hs. by rewrite Hr in Hs.
Qed.
End properties.

(** ** Playing a sequence of events *)

Definition is_Some_b {A} (o : option A) : bool := match o with Some _ => true | None => false end.

Definition enabledb (i : input) (p : Pool) : bool :=
  match i with
  | SessionFinished c | PongReceived c | StatsPayload c _ => is_Some_b (backends p !! c)
  | RemoveUser u _ | ConnectingTimeout u _ => is_Some_b (users p !! u)
  | Tick seconds _ => (0 <=? seconds)%Z
  | _ => true
  end.

Lemma enabledb_enabled i p : enabledb i p = true → enabled i p.
Proof.
  destruct i; simpl; try done; try (destruct (_ !! _); [by eauto|done]).
  apply Z.leb_le.
Qed.

Fixpoint play `{Protobuf} (cfg : PoolConfig)
    (getAllSettings : Z → list (string * string) → list (string * string))
    (inputs : list input) (p : Pool) : option Pool :=
  match inputs with
  | [] => Some p
  | i :: rest =>
      if enabledb i p then
        match react cfg getAllSettings i p with
        | Done _ p' => play cfg getAllSettings rest p'
        | Fault _ => None
        end
      else None
  end.

Lemma play_reachable `{Protobuf} cfg gs inputs p p' :
  reachable cfg gs p → play cfg gs inputs p = Some p' → reachable cfg gs p'.
Proof.
  revert p. induction inputs as [|i rest IH]; intros p Hp; simpl; [by intros [= ->]|].
  destruct (enabledb i p) eqn:Ee; [|done].
  destruct (react cfg gs i p) as [[] p1|] eqn:Er; [|done].
  apply IH. eapply reach_react; [done|by apply enabledb_enabled|done].
Qed.

(** A server with one user per backend, as the sample configurations have it
    for libpurple, and one with ten. *)
Definition config_of (per_backend : Z) : PoolConfig :=
  mkPoolConfig per_backend true 0 0 false false true false.

Definition no_settings (id : Z) (s : list (string * string)) : list (string * string) := s.

Definition info_of (uin : string) : UserInfo := mkUserInfo 1 "u@example.com" uin "pw" "en" "utf8" false [].

Definition disconnected_payload (user : string) (error : Z) : bytes :=
  SerializeToString (pbnetwork.Disconnected.empty
    |> (pbnetwork.Disconnected.set_user user)
    |> (pbnetwork.Disconnected.set_error error)
    |> (pbnetwork.Disconnected.set_message "gone")).

(** A backend connects and answers, a user logs in, its network drops it. *)
Definition dropped_user : list input :=
  [NewConnection 7; PongReceived 0; LoginUser "u@example.com" (info_of "u");
   ConnectingTimeout 1 false; DisconnectedPayload (disconnected_payload "u@example.com" NETWORK_ERROR)].

Definition state_after (per_backend : Z) (inputs : list input) : Pool :=
  default (initial 1000 41 42)
    (play (config_of per_backend) no_settings inputs (initial 1000 41 42)).

Lemma state_after_reachable n inputs :
  is_Some_b (play (config_of n) no_settings inputs (initial 1000 41 42)) = true →
  reachable (config_of n) no_settings (state_after n inputs).
Proof.
  intros Hs. apply (play_reachable _ _ inputs (initial 1000 41 42)); [constructor|].
  unfold state_after. by destruct (play _ _ _ _).
Qed.

(** ** The properties *)

Section theorems.
Context `{Protobuf} (cfg : PoolConfig).
Context (getAllSettings : Z → list (string * string) → list (string * string)).

(** C1: whatever the server has gone through, an event it reacts to keeps
    every structure consistent, or it is one of the events of [dangerous] and
    ends in a use after free. Nothing else can go wrong. *)
Theorem pool_safety (i : input) (p : Pool) :
  int_config cfg → reachable cfg getAllSettings p → enabled i p →
  match react cfg getAllSettings i p with
  | Done _ p' => inv cfg p'
  | Fault f => f = UseAfterFree ∧ dangerous cfg i p
  end.
Proof.
  intros Hint Hp Hen. apply react_sound; [done| |done]. by eapply reachable_inv.
Qed.

(** C2: the well-formedness of every reachable state: the list of backends
    holds the live ones once each; the users of a backend are alive, point
    back to it, are on no other list and not in the queue, and are no more than
    users_per_backend; the queue has no duplicates. *)
Theorem pool_wellformed (p : Pool) :
  int_config cfg → reachable cfg getAllSettings p →
  NoDup (m_clients p) ∧ (∀ c, c ∈ m_clients p ↔ is_Some (backends p !! c)) ∧
  NoDup (m_waitingUsers p) ∧
  (∀ c b, backends p !! c = Some b →
    NoDup (b_users b) ∧ (zlen (b_users b) <= Z.max 0 (users_per_backend cfg))%Z ∧
    ∀ u, u ∈ b_users b →
      (∃ o, users p !! u = Some o ∧ u_data o = Some c) ∧ (u ∉ m_waitingUsers p) ∧
      ∀ c' b', backends p !! c' = Some b' → u ∈ b_users b' → c' = c).
Proof.
  intros Hint Hp. destruct (reachable_inv cfg getAllSettings p Hint Hp) as [Hi _].
  assert (Ha : ∀ c b, backends p !! c = Some b → assigned None p c = b_users b).
  { intros c b Hb. unfold assigned. by apply listed_lookup. }
  split; [apply Hi|]. split; [apply Hi|]. split; [apply Hi|].
  intros c b Hb. rewrite <- (Ha c b Hb). split; [apply Hi|].
  split. { rewrite (Ha c b Hb). by eapply inv_capacity. }
  intros u Hu. split; [by apply (inv_assigned _ _ _ _ Hi)|]. split.
  - intros Hw. by apply (inv_waiting _ _ _ _ Hi u Hw) in Hu.
  - intros c' b' Hb' Hu'. eapply assigned_unique; [exact Hi| |exact Hu].
    by rewrite (Ha c' b' Hb').
Qed.

(** UserManager's map and its one-entry cache agree with the live users:
    looking up a bare JID answers the live user with that JID, if there is
    one, cache hit or not. *)
Theorem getUser_finds (p : Pool) (jid : string) :
  int_config cfg → reachable cfg getAllSettings p →
  ∃ o p', getUser cfg getAllSettings jid p = Done o p' ∧ inv cfg p' ∧
    ∀ u, o = Some u ↔ ∃ w, users p !! u = Some w ∧ u_jid w = jid.
Proof.
  intros Hint Hp. pose proof (reachable_inv cfg getAllSettings p Hint Hp) as Hi.
  destruct (getUser_inv cfg getAllSettings p jid Hi) as (p' & E & Hi' & _).
  eexists _, p'. split; [exact E|]. split; [done|]. intros u. destruct Hi as [_ Hr]. split.
  - intros Hu%(reg_sound _ Hr). by apply registry_alive.
  - intros (w & Hw & <-). by apply (reg_complete _ Hr u), alive_registry.
Qed.

(** a dangling backend pointer is only ever found in a user that waits in
    the queue. *)
Theorem stale_users_wait (p : Pool) (u : uid) :
  int_config cfg → reachable cfg getAllSettings p → stale p u → u ∈ m_waitingUsers p.
Proof.
  intros Hint Hp (o & c & Ho & Hc & Hdead).
  destruct (reachable_inv cfg getAllSettings p Hint Hp) as [Hi _].
  destruct (inv_data _ _ _ _ Hi u o c Ho Hc ltac:(done)) as [Ha|]; [|done].
  unfold assigned, listed in Ha. rewrite Hdead in Ha. by apply not_elem_of_nil in Ha.
Qed.

(** C4: connectWaitingUsers terminates with a prefix of the queue taken off it,
    in order, each of its users on a backend; it stops only when the queue is
    empty or no backend can take a user now. *)
Theorem queue_in_order (p : Pool) :
  int_config cfg → reachable cfg getAllSettings p →
  ∃ p' k, connectWaitingUsers cfg p = Done tt p' ∧ inv cfg p' ∧
    m_waitingUsers p' = drop k (m_waitingUsers p) ∧
    (∀ u, u ∈ take k (m_waitingUsers p) → ∃ c, u ∈ listed p' c) ∧
    (m_waitingUsers p' = [] ∨ candidate cfg p' true false = None).
Proof.
  intros Hint Hp. destruct (reachable_inv cfg getAllSettings p Hint Hp) as [Hi Hr].
  unfold connectWaitingUsers. rewrite bind_run. simpl.
  destruct (connect_waiting_run cfg Hint None (registry p) _ p (conj Hi eq_refl) ltac:(done))
    as (p' & k & -> & [Hi' Hr'] & ? & ? & ? & _).
  exists p', k. split; [done|]. split; [split; [done|by rewrite Hr']|]. done.
Qed.

(** getFreeClient answers the first backend of m_clients that may take a
    user (answered its ping, accepts, has room, is connected, of the wanted
    kind), nothing while the login delay lasts, and starts a process exactly
    when there is no such backend and none is starting already. *)
Theorem getFreeClient_first (p : Pool) (want_accept want_longRun check : bool) :
  int_config cfg → reachable cfg getAllSettings p →
  ∃ o p', getFreeClient cfg want_accept want_longRun check p = Done o p' ∧
    (if delayed cfg p then o = None ∧ m_startingBackend p' = m_startingBackend p
     else match o with
     | Some c => ∃ before after, m_clients p = before ++ c :: after ∧
         free_at cfg p want_accept want_longRun c = true ∧
         Forall (λ x, free_at cfg p want_accept want_longRun x = false) before ∧
         events p' = events p
     | None =>
         Forall (λ x, free_at cfg p want_accept want_longRun x = false) (m_clients p) ∧
         m_startingBackend p' = true ∧
         (if m_startingBackend p then events p' = events p
          else ∃ n, events p' = events p ++ [Exec n])
     end).
Proof.
  intros Hint Hp. destruct (reachable_inv cfg getAllSettings p Hint Hp) as [Hi _].
  unfold getFreeClient. rewrite bind_run. simpl. unfold delayed.
  destruct (negb _ && _); simpl; [by eexists _, _|].
  set (p1 := if check then p else with_lastLogin (now p) p).
  assert (E1 : (if check then mret tt else modify (with_lastLogin (now p))) p = Done tt p1)
    by by destruct check.
  assert (Eb : backends p1 = backends p) by by destruct check.
  assert (Ee : events p1 = events p) by by destruct check.
  assert (Es : m_startingBackend p1 = m_startingBackend p) by by destruct check.
  rewrite bind_run, E1, bind_run, (find_free_run cfg Hint).
  2:{ intros c. rewrite Eb. apply (inv_clients _ _ _ _ Hi). }
  destruct (list_find _ (m_clients p)) as [[i c]|] eqn:Ef; simpl; rewrite bind_run.
  - apply list_find_Some in Ef as (Hc & Hfree & Hbefore).
    assert (∃ b, backends p1 !! c = Some b) as [b Hb].
    { rewrite Eb. apply (inv_clients _ _ _ _ Hi). by eapply list_elem_of_lookup_2. }
    erewrite load_backend_run by done. rewrite bind_run.
    assert (∃ p2, when (negb (reuse_old_backends cfg) && negb check
              && (users_per_backend cfg <=? to_int (zlen (b_users b)) + 1)%Z)
        (update_backend c (set_acceptUsers false)) p1 = Done tt p2 ∧ events p2 = events p)
      as (p2 & -> & E2).
    { unfold when. destruct (_ && _); [erewrite update_backend_run by done|]; by eexists. }
    eexists _, p2. split; [reflexivity|]. simpl.
    exists (take i (m_clients p)), (drop (S i) (m_clients p)).
    split; [by rewrite take_drop_middle|].
    assert (Hsame : ∀ x, free_at cfg p1 want_accept want_longRun x =
      free_at cfg p want_accept want_longRun x) by (intros; unfold free_at; by rewrite Eb).
    rewrite <- Hsame. split; [done|]. split; [|done].
    apply Forall_forall. intros x Hx. apply list_elem_of_lookup in Hx as [j Hj].
    apply lookup_take_Some in Hj as [Hj Hlt]. rewrite <- Hsame.
    apply not_true_is_false. by eapply Hbefore.
  - apply list_find_None in Ef.
    assert (Hnone : Forall (λ x, free_at cfg p want_accept want_longRun x = false) (m_clients p)).
    { eapply Forall_impl; [exact Ef|]. intros x Hx. apply not_true_is_false in Hx.
      rewrite <- Hx. unfold free_at. by rewrite Eb. }
    unfold when. destruct (m_startingBackend p) eqn:Est; simpl.
    + eexists _, p1. split; [reflexivity|]. simpl. by split_and!.
    + unfold spawn_backend. repeat (rewrite bind_run; simpl).
      destruct (find_zero (m_pids p1)); (eexists _, _; split; [reflexivity|]);
        simpl; (split; [done|]; split; [done|]); rewrite Ee; eauto.
Qed.

(** Whoever waits was in [L]. *)
Definition waits_in (L : list uid) (p : Pool) : Prop := ∀ u, u ∈ m_waitingUsers p → u ∈ L.

Section queue.
Context (L : list uid).

Abbreviation queues m := (spec any_fault (waits_in L) m (λ _, waits_in L)).

Lemma queues_modify f : (∀ p u, u ∈ m_waitingUsers (f p) → u ∈ m_waitingUsers p ∨ u ∈ L) → queues (modify f).
Proof. intros Hf p Hp u Hu. destruct (Hf p u Hu); [by apply Hp|done]. Qed.

Lemma queues_load_user w : queues (load_user w).
Proof. unfold load_user. walk_step; [by apply spec_get|]. by apply spec_deref. Qed.

Lemma queues_load_backend c : queues (load_backend c).
Proof. unfold load_backend. walk_step; [by apply spec_get|]. by apply spec_deref. Qed.

Ltac queue_walk :=
  repeat first
    [ walk_step
    | apply queues_load_user | apply queues_load_backend
    | apply queues_modify; intros ? ?; simpl; by auto
    | progress unfold log, update_user, update_backend, send_to, setIgnoreDisconnect ].

Lemma queues_find_free a l xs : queues (find_free cfg a l xs).
Proof. induction xs as [|c xs IH]; simpl; queue_walk; apply IH. Qed.

Lemma queues_handleUserCreated w : w ∈ L → queues (handleUserCreated cfg w).
Proof.
  intros Hw. unfold handleUserCreated, getFreeClient, spawn_backend. queue_walk; [apply queues_find_free..|].
  apply queues_modify. intros p u. simpl. set_solver.
Qed.

Lemma queues_handleUserDestroyed w : queues (handleUserDestroyed cfg w).
Proof.
  unfold handleUserDestroyed. walk_step; [|queue_walk]. apply queues_modify. intros p u. simpl.
  unfold list_remove_all. intros [_ Hu]%list_elem_of_filter. by left.
Qed.

Lemma queues_handleDisconnected w error e : w ∈ L → queues (handleDisconnected cfg getAllSettings w error e).
Proof.
  intros Hw. unfold handleDisconnected, onReadyToConnect, handleUserReadyToConnect, Pool.getUser, removeUser.
  queue_walk; first [apply queues_handleUserDestroyed | by apply queues_handleUserCreated].
Qed.

Lemma queues_handleSessionFinished c p : waits_in L p → listed p c ⊆ L →
  match handleSessionFinished cfg getAllSettings c p with Done _ p' => waits_in L p' | Fault _ => True end.
Proof.
  intros Hp Hl. unfold handleSessionFinished. rewrite bind_run. destruct (backends p !! c) as [o|] eqn:Eo.
  - rewrite (load_backend_run c o p Eo). rewrite (listed_lookup _ _ _ Eo) in Hl. revert Hp.
    match goal with |- _ → match ?m p with _ => _ end => enough (queues m) as Hm by (intros Hp; exact (Hm p Hp)) end.
    do 2 (walk_step; [queue_walk|]). walk_step; [|queue_walk]. apply spec_for_each. intros u Hu.
    walk_step; [queue_walk|]. apply queues_handleDisconnected. by apply Hl.
  - by rewrite load_backend_dead.
Qed.
End queue.

(** C3: when a backend goes, its object is freed, the other backends stay, and every user it
    served is removed or loses the pointer to it: whoever still has one was waiting in the
    queue before, and waits there still. *)
Theorem session_finished (p : Pool) (c : bid) :
  int_config cfg → reachable cfg getAllSettings p → is_Some (backends p !! c) →
  ∃ p', handleSessionFinished cfg getAllSettings c p = Done tt p' ∧ inv cfg p' ∧
    (∀ x, is_Some (backends p' !! x) ↔ is_Some (backends p !! x) ∧ x ≠ c) ∧
    (∀ u o, u ∈ listed p c → users p' !! u = Some o → u_data o ≠ Some c) ∧
    (∀ u o, users p' !! u = Some o → u_data o = Some c → u ∈ m_waitingUsers p ∧ u ∈ m_waitingUsers p').
Proof.
  intros Hint Hp Hc. pose proof (reachable_inv cfg getAllSettings p Hint Hp) as Hi.
  destruct (handleSessionFinished_run cfg getAllSettings Hint p c Hi Hc) as (p' & E & Hi' & Hd & Hu).
  exists p'. split; [done|]. split; [done|]. split; [done|]. split; [done|].
  intros u o Ho Hoc. destruct (inv_data _ _ _ _ (proj1 Hi') u o c Ho Hoc ltac:(done)) as [Ha|Hw].
  - apply (assigned_alive cfg None None) in Ha; [|apply Hi']. apply Hd in Ha. tauto.
  - pose proof (queues_handleSessionFinished (m_waitingUsers p ++ listed p c) c p) as Hq. rewrite E in Hq.
    assert (u ∈ m_waitingUsers p ++ listed p c) as [Hb|Hb]%elem_of_app.
    { apply Hq; [intros v Hv; set_solver|set_solver|done]. }
    + by split.
    + exfalso. by eapply Hu.
Qed.

(** a disconnection User::handleDisconnected does not retry (another error
    than a network one, or the attempts are used up) removes the user from the
    map, every list, the queue and the heap. *)
Theorem disconnected_user_removed (p : Pool) (u : uid) (o : User) (error : string) (e : Z) :
  int_config cfg → reachable cfg getAllSettings p → users p !! u = Some o → ¬ stale p u →
  u_ignoreDisconnect o = false → retries o e = false →
  ∃ p', handleDisconnected cfg getAllSettings u error e p = Done tt p' ∧ inv cfg p' ∧
    users p' !! u = None ∧ m_users p' !! u_jid o = None ∧ (u ∉ m_waitingUsers p') ∧
    ∀ c, u ∉ listed p' c.
Proof.
  intros Hint Hp Ho Hs Hig Hret. destruct (reachable_inv cfg getAllSettings p Hint Hp) as [Hi Hr].
  destruct (handleDisconnected_run cfg getAllSettings Hint None p u error e Hi Hr)
    as (p' & E & Hi' & Hr' & _ & _ & Hg); [by apply not_stale_sound|done|].
  destruct (Hg o Ho Hig Hret) as [Hgone Hm]. exists p'. split; [done|]. split; [done|].
  split; [done|]. split; [by rewrite Hm, lookup_delete_eq|]. split.
  - intros Hw. destruct (inv_waiting _ _ _ _ Hi' u Hw) as ((? & ? & _) & _). congruence.
  - intros c Hc. destruct (inv_assigned _ _ _ _ Hi' c u Hc) as (? & ? & _). congruence.
Qed.

(** removeAllUsers terminates, whatever the number of users, and leaves no
    user; it needs no user of the queue to have a dangling pointer. *)
Theorem removeAllUsers_empties (p : Pool) (onUserBehalf : bool) :
  int_config cfg → reachable cfg getAllSettings p → no_stale p →
  ∃ p', removeAllUsers cfg onUserBehalf p = Done tt p' ∧ inv cfg p' ∧ m_users p' = ∅ ∧
    users p' = ∅ ∧ m_waitingUsers p' = [].
Proof.
  intros Hint Hp Hs. pose proof (reachable_inv cfg getAllSettings p Hint Hp) as Hi.
  unfold removeAllUsers. rewrite bind_run. simpl.
  destruct (remove_all_run cfg Hint (base.size (m_users p)) onUserBehalf p Hi Hs ltac:(done))
    as (p' & -> & Hi' & Hm & _).
  exists p'. split; [done|]. split; [done|]. split; [done|].
  assert (Hu : users p' = ∅).
  { apply map_empty. intros u. apply eq_None_not_Some. intros [o Ho].
    pose proof (reg_complete _ (proj2 Hi') u _ (alive_registry p' u o Ho)) as Hin.
    unfold registry in Hin. simpl in Hin. by rewrite Hm in Hin. }
  split; [done|]. destruct (m_waitingUsers p') as [|u l] eqn:E; [done|].
  destruct (inv_waiting _ _ _ _ (proj1 Hi') u) as ((o & Ho & _) & _); [rewrite E; set_solver|].
  by rewrite Hu in Ho.
Qed.

(** collectBackend stops the backend with the most memory from accepting
    users, and changes no other. *)
Theorem collect_biggest (p : Pool) :
  int_config cfg → reachable cfg getAllSettings p →
  ∃ p', collectBackend cfg p = Done tt p' ∧
    ((backends p' = backends p ∧ ∀ c b, backends p !! c = Some b → (b_res b <= 0)%Z) ∨
     ∃ c b, backends p !! c = Some b ∧ backends p' = <[c := set_acceptUsers false b]> (backends p) ∧
       ∀ c' b', backends p !! c' = Some b' → (b_res b' <= b_res b)%Z).
Proof.
  intros Hint Hp. destruct (reachable_inv cfg getAllSettings p Hint Hp) as [Hi Hr].
  assert (Hcl := inv_clients _ _ _ _ Hi).
  unfold collectBackend. rewrite bind_run. simpl. rewrite bind_run.
  destruct (biggest_run cfg getAllSettings Hint (m_clients p) 0 None p) as (o & -> & Ho); [intros c; apply Hcl|].
  destruct Ho as [[-> Hall]|(c & b & -> & Hc & Hb & Hlt & Hall)].
  - exists p. split; [done|]. left. split; [done|]. intros c b Hb. eapply Hall; [|done].
    apply Hcl. eauto.
  - rewrite bind_run.
    assert (∃ p1, when (has_collect_timer cfg) (log StartCollectTimer) p = Done tt p1 ∧
      backends p1 = backends p) as (p1 & -> & E1).
    { unfold when. destruct (has_collect_timer cfg); by eexists. }
    erewrite update_backend_run by (by rewrite E1). eexists. split; [reflexivity|]. right.
    exists c, b. simpl. rewrite E1. split; [done|]. split; [done|]. intros c' b' Hb'.
    eapply Hall; [|done]. apply Hcl. eauto.
Qed.

(** with service.idle_reconnect_time off, pingTimeout runs to its end
    except when a backend that did not answer the last ping has no users: it
    is put on the list of backends to remove twice, and the second
    handleSessionFinished works on the freed object. *)
Theorem ping_double_free (p : Pool) :
  int_config cfg → reachable cfg getAllSettings p → idle_reconnect_time cfg = 0%Z →
  ((∃ c, unanswered p c ∧ unused p c) →
     pingTimeout cfg getAllSettings p = Fault UseAfterFree) ∧
  ((∀ c, unanswered p c → ¬ unused p c) →
     ∃ p', pingTimeout cfg getAllSettings p = Done tt p' ∧ inv cfg p').
Proof.
  intros Hint Hp Hz. pose proof (reachable_inv cfg getAllSettings p Hint Hp) as Hi. split.
  - intros (c & Ha & Hu). by apply (pingTimeout_twice cfg getAllSettings Hint p c).
  - intros Hok. pose proof (PingTimer_sound cfg getAllSettings Hint p Hi) as Hs.
    destruct (pingTimeout cfg getAllSettings p) as [[] p'|f]; [by exists p'|].
    destruct Hs as (_ & c & Ha & Hu). destruct (Hok c Ha). by apply Hu.
Qed.
End theorems.

(** ** Runs that end in freed memory *)

(** a user the network dropped goes back to the queue with its pointer to
    the backend; when that backend exits before another one takes the user, its
    logout is written through the freed object. *)
Theorem requeued_user_use_after_free :
  ∃ p, reachable (config_of 1) no_settings p ∧ enabled (RemoveUser 1 true) p ∧
    react (config_of 1) no_settings (RemoveUser 1 true) p = Fault UseAfterFree.
Proof.
  exists (state_after 1 (dropped_user ++ [SessionFinished 0])). split; [|split].
  - apply state_after_reachable. vm_compute. reflexivity.
  - apply enabledb_enabled. vm_compute. reflexivity.
  - vm_compute. reflexivity.
Qed.

(** The hung backend: it serves a user at one ping, loses it, and does not
    answer until the next. *)
Definition hung_backend : list input :=
  [NewConnection 7; PongReceived 0; LoginUser "u@example.com" (info_of "u"); PingTimer;
   RemoveUser 1 true].

(** the double free of pingTimeout happens in a reachable state. *)
Theorem hung_backend_double_free :
  ∃ p, reachable (config_of 10) no_settings p ∧
    react (config_of 10) no_settings PingTimer p = Fault UseAfterFree.
Proof.
  exists (state_after 10 hung_backend). split.
  - apply state_after_reachable. vm_compute. reflexivity.
  - vm_compute. reflexivity.
Qed.

(** ** The properties at concrete runs *)

(** Two users on a backend that answers, and one that waits. *)
Definition two_users : list input :=
  [NewConnection 7; PongReceived 0; LoginUser "u@example.com" (info_of "u");
   LoginUser "v@example.com" (info_of "v")].

Ltac concrete :=
  repeat first
    [ apply state_after_reachable; vm_compute; reflexivity
    | apply enabledb_enabled; vm_compute; reflexivity
    | unfold int_config; simpl; lia
    | split ].

Lemma pool_safety_witness :
  sound_outcome (config_of 10) (dangerous (config_of 10) (SessionFinished 0) (state_after 10 two_users))
    (react (config_of 10) no_settings (SessionFinished 0) (state_after 10 two_users)).
Proof. apply (pool_safety (config_of 10) no_settings (SessionFinished 0)); concrete. Defined.

Lemma pool_wellformed_witness : NoDup (m_clients (state_after 10 two_users)).
Proof. apply (pool_wellformed (config_of 10) no_settings (state_after 10 two_users)); concrete. Defined.

Lemma getUser_finds_witness :
  ∃ o p', getUser (config_of 10) no_settings "v@example.com" (state_after 10 two_users) = Done o p' ∧
    inv (config_of 10) p' ∧
    ∀ u, o = Some u ↔ ∃ w, users (state_after 10 two_users) !! u = Some w ∧ u_jid w = "v@example.com"%string.
Proof. apply (getUser_finds (config_of 10) no_settings); concrete. Defined.

Lemma stale_users_wait_witness :
  1 ∈ m_waitingUsers (state_after 1 (dropped_user ++ [SessionFinished 0])).
Proof.
  apply (stale_users_wait (config_of 1) no_settings); [concrete..|].
  eexists _, 0. split; [vm_compute; reflexivity|]. split; vm_compute; reflexivity.
Defined.

Lemma queue_in_order_witness :
  ∃ p' k, connectWaitingUsers (config_of 1) (state_after 1 two_users) = Done tt p' ∧
    inv (config_of 1) p' ∧ m_waitingUsers p' = drop k (m_waitingUsers (state_after 1 two_users)) ∧
    (∀ u, u ∈ take k (m_waitingUsers (state_after 1 two_users)) → ∃ c, u ∈ listed p' c) ∧
    (m_waitingUsers p' = [] ∨ candidate (config_of 1) p' true false = None).
Proof. apply (queue_in_order (config_of 1) no_settings); concrete. Defined.

Lemma getFreeClient_first_witness :
  ∃ o p', getFreeClient (config_of 10) true false false (state_after 10 two_users) = Done o p'.
Proof.
  destruct (getFreeClient_first (config_of 10) no_settings (state_after 10 two_users) true false false)
    as (o & p' & E & _); [concrete..|]. exists o, p'. exact E.
Defined.

Lemma session_finished_witness :
  ∃ p', handleSessionFinished (config_of 10) no_settings 0 (state_after 10 two_users) = Done tt p' ∧
    ∀ u o, users p' !! u = Some o → u_data o = Some 0 → u ∈ m_waitingUsers (state_after 10 two_users) ∧ u ∈ m_waitingUsers p'.
Proof.
  destruct (session_finished (config_of 10) no_settings (state_after 10 two_users) 0)
    as (p' & E & _ & _ & _ & Hw).
  - concrete.
  - concrete.
  - eexists. vm_compute. reflexivity.
  - exists p'. split; [exact E|exact Hw].
Defined.

Lemma disconnected_user_removed_witness :
  ∃ p', handleDisconnected (config_of 10) no_settings 1 "Wrong password" 3 (state_after 10 two_users)
        = Done tt p' ∧ users p' !! 1 = None.
Proof.
  destruct (disconnected_user_removed (config_of 10) no_settings (state_after 10 two_users) 1
    (default (new_user "" (info_of "") 0) (users (state_after 10 two_users) !! 1)) "Wrong password" 3)
    as (p' & E & _ & Hu & _).
  - concrete.
  - concrete.
  - vm_compute. reflexivity.
  - intros (o & c & Ho & Hc & Hd). vm_compute in Ho. injection Ho as <-. vm_compute in Hc.
    injection Hc as <-. vm_compute in Hd. discriminate Hd.
  - vm_compute. reflexivity.
  - vm_compute. reflexivity.
  - exists p'. split; [exact E|exact Hu].
Defined.

Lemma no_stale_two_users : no_stale (state_after 10 two_users).
Proof.
  intros u (o & c & Ho & Hc & Hd).
  assert (Hall : map_Forall (λ _ o, match u_data o with
    | Some c => is_Some_b (backends (state_after 10 two_users) !! c) = true
    | None => True end) (users (state_after 10 two_users))).
  { apply map_Forall_to_list. vm_compute. repeat constructor. }
  specialize (Hall u o Ho). simpl in Hall. by rewrite Hc, Hd in Hall.
Qed.

Lemma removeAllUsers_empties_witness :
  ∃ p', removeAllUsers (config_of 10) true (state_after 10 two_users) = Done tt p' ∧ users p' = ∅.
Proof.
  destruct (removeAllUsers_empties (config_of 10) no_settings (state_after 10 two_users) true)
    as (p' & E & _ & _ & Hu & _); [concrete|concrete|exact no_stale_two_users|].
  exists p'. split; [exact E|exact Hu].
Defined.

Lemma collect_biggest_witness :
  ∃ p', collectBackend (config_of 10) (state_after 10 two_users) = Done tt p'.
Proof.
  destruct (collect_biggest (config_of 10) no_settings (state_after 10 two_users)) as (p' & E & _); [concrete..|].
  exists p'. exact E.
Defined.

Lemma ping_double_free_witness :
  pingTimeout (config_of 10) no_settings (state_after 10 hung_backend) = Fault UseAfterFree.
Proof.
  apply (ping_double_free (config_of 10) no_settings (state_after 10 hung_backend)).
  - concrete.
  - concrete.
  - reflexivity.
  - exists 0. split; (eexists; split; [vm_compute; reflexivity|vm_compute; reflexivity]).
Defined.
