(* ===== verification/PresenceOracle.v ===== *)
(** * The presence oracle

    PresenceOracle (libtransport/PresenceOracle.cpp) remembers the last presence
    of every resource of every user: a map from bare JIDs to maps from the
    JIDs a presence came from. The maps are iterated in key order. *)

From S2P Require Import Prelude StdMap Swiften.

Section oracle.
Context {J : Type} `{Jid J}.
(** StatusShow::typeToAvailabilityOrdering *)
Context (typeToAvailabilityOrdering : StatusShow → Z).

Abbreviation presence := (Presence J).

(** entries_; [onPresenceChange] is the signal's argument, when it fires. *)
Abbreviation presence_map := (smap J presence).
Abbreviation oracle := (smap J presence_map).

(** operator[] *)
Definition entry (bareJID : J) (o : oracle) : presence_map := default [] (sfind bareJID o).

Definition handleStanzaChannelAvailableChanged (available : bool) (o : oracle) : oracle :=
  if available then [] else o.

Definition clearPresences (bareJID : J) (o : oracle) : oracle := sinsert bareJID [] o.

(** The presence handleIncomingPresence records: for an unsubscription, an
    unavailable presence it makes itself. *)
Definition passed_presence (p : presence) : presence :=
  if decide (pr_type p = Unsubscribe ∨ pr_type p = Unsubscribed) then
    setPresenceStatus (pr_status p)
      (setPresenceFrom (toBare (pr_from p)) (setPresenceType Unavailable empty_presence))
  else p.

Definition update_entry (p : presence) (jidMap : presence_map) : presence_map :=
  let bareJID := toBare (pr_from p) in
  let passed := passed_presence p in
  let jidMap :=
    if isBare (pr_from passed) && bool_decide (pr_type p = Unavailable) then []
    else if bool_decide (pr_type passed = Available) then serase bareJID jidMap
    else jidMap in
  if bool_decide (pr_type passed = Unavailable) && (1 <? length jidMap)%nat
  then serase (pr_from passed) jidMap
  else sinsert (pr_from passed) passed jidMap.

Definition handleIncomingPresence (p : presence) (o : oracle) : option presence * oracle :=
  if negb (String.eqb (getNode (pr_to p)) "") then (None, o)
  else if bool_decide (pr_type p = Subscribe ∨ pr_type p = Subscribed) then (None, o)
  else
    let bareJID := toBare (pr_from p) in
    (Some (passed_presence p), sinsert bareJID (update_entry p (entry bareJID o)) o).

Definition getLastPresence (jid : J) (o : oracle) : option presence :=
  match sfind (toBare jid) o with
  | None => None
  | Some presenceMap => sfind jid presenceMap
  end.

Definition getAllPresence (bareJID : J) (o : oracle) : list presence :=
  match sfind bareJID o with
  | None => []
  | Some presenceMap => map snd presenceMap
  end.

(** The loop's test: [current] beats what is the highest so far. *)
Definition beats (current highest : presence) : bool :=
  (pr_priority highest <? pr_priority current)%Z
  || ((pr_priority current =? pr_priority highest)%Z
      && (typeToAvailabilityOrdering (pr_show highest) <?
          typeToAvailabilityOrdering (pr_show current))%Z).

Definition getHighestPriorityPresence (bareJID : J) (o : oracle) : option presence :=
  match sfind bareJID o with
  | None => None
  | Some presenceMap =>
      foldl (λ highest kv,
        match highest with
        | None => Some (snd kv)
        | Some h => if beats (snd kv) h then Some (snd kv) else highest
        end) None presenceMap
  end.

(** ** The invariant *)

(** An entry holds presences of its own user, each under the JID it came from. *)
Definition entry_ok (bareJID : J) (m : presence_map) : Prop :=
  sorted m ∧ Forall (λ kv, pr_from (snd kv) = fst kv ∧ toBare (fst kv) = bareJID) m.

Definition oracle_ok (o : oracle) : Prop :=
  sorted o ∧ Forall (λ kv, entry_ok (fst kv) (snd kv)) o.

Lemma oracle_ok_entry b o : oracle_ok o → entry_ok b (entry b o).
Proof.
  intros [_ Ho]. unfold entry. destruct (sfind b o) as [m|] eqn:E; simpl.
  - apply sfind_elem in E. rewrite Forall_forall in Ho. exact (Ho _ E).
  - split; [apply sorted_nil|constructor].
Qed.

Lemma oracle_ok_insert b m o : oracle_ok o → entry_ok b m → oracle_ok (sinsert b m o).
Proof. intros [Hs Ho] Hm. split; [auto with spectrum|]. by apply sinsert_Forall. Qed.

Lemma passed_bare p : toBare (pr_from (passed_presence p)) = toBare (pr_from p).
Proof. unfold passed_presence. case_decide; simpl; [apply toBare_idem|done]. Qed.

Lemma entry_ok_erase b k m : entry_ok b m → entry_ok b (serase k m).
Proof.
  intros [Hs Hm]. split; [auto with spectrum|]. unfold serase. rewrite Forall_forall in *. intros x [_ Hx]%list_elem_of_filter. auto.
Qed.

Lemma entry_ok_insert b p m :
  entry_ok b m → toBare (pr_from p) = b → entry_ok b (sinsert (pr_from p) p m).
Proof. intros [Hs Hm] Hb. split; [auto with spectrum|]. by apply sinsert_Forall. Qed.

Lemma update_entry_ok p m : entry_ok (toBare (pr_from p)) m → entry_ok (toBare (pr_from p)) (update_entry p m).
Proof.
  intros Hm. unfold update_entry.
  assert (Hm' : entry_ok (toBare (pr_from p))
    (if isBare (pr_from (passed_presence p)) && bool_decide (pr_type p = Unavailable) then []
     else if bool_decide (pr_type (passed_presence p) = Available)
          then serase (toBare (pr_from p)) m else m)).
  { destruct (_ && _); [split; [apply sorted_nil|constructor]|].
    case_bool_decide; [by apply entry_ok_erase|done]. }
  destruct (_ && (1 <? _)%nat); [by apply entry_ok_erase|].
  apply entry_ok_insert; [done|apply passed_bare].
Qed.

(** ** Lookups after an update *)

Lemma entry_insert_eq b m o : entry b (sinsert b m o) = m.
Proof. unfold entry. by rewrite sfind_sinsert_eq. Qed.

Lemma getLastPresence_entry jid o : getLastPresence jid o = sfind jid (entry (toBare jid) o).
Proof. unfold getLastPresence, entry. by destruct (sfind _ o). Qed.

Lemma beats_spec x y :
  beats x y = true ↔
  (pr_priority y < pr_priority x ∨ pr_priority x = pr_priority y ∧
   typeToAvailabilityOrdering (pr_show y) < typeToAvailabilityOrdering (pr_show x))%Z.
Proof.
  unfold beats. rewrite orb_true_iff, andb_true_iff, !Z.ltb_lt, Z.eqb_eq. done.
Qed.

Lemma beats_false x y :
  beats x y = false ↔
  (pr_priority x < pr_priority y ∨ pr_priority x = pr_priority y ∧
   typeToAvailabilityOrdering (pr_show x) <= typeToAvailabilityOrdering (pr_show y))%Z.
Proof. rewrite <- not_true_iff_false, beats_spec. lia. Qed.

(** The loop keeps a presence none of the ones it has seen beats. *)
Lemma highest_fold (l : presence_map) h :
  ∃ r, foldl (λ highest kv,
        match highest with
        | None => Some (snd kv)
        | Some h => if beats (snd kv) h then Some (snd kv) else highest
        end) (Some h) l = Some r ∧
    (r = h ∨ r ∈ map snd l) ∧ beats h r = false ∧
    ∀ x, x ∈ map snd l → beats x r = false.
Proof.
  revert h. induction l as [|[k x] l IH]; intros h; simpl.
  - exists h. split; [done|]. split; [by left|]. split; [apply beats_false; lia|set_solver].
  - destruct (beats x h) eqn:E.
    + destruct (IH x) as (r & -> & Hr & Hx & Hl). exists r. split; [done|].
      split; [set_solver|]. split.
      * apply beats_spec in E. apply beats_false in Hx. apply beats_false. lia.
      * intros y [->|Hy]%elem_of_cons; auto.
    + destruct (IH h) as (r & -> & Hr & Hx & Hl). exists r. split; [done|].
      split; [set_solver|]. split; [done|].
      intros y [->|Hy]%elem_of_cons; [|auto].
      apply beats_false in E, Hx. apply beats_false. lia.
Qed.
End oracle.

(** ** The properties *)

Section properties.
Context {J : Type} `{Jid J}.
Context (typeToAvailabilityOrdering : StatusShow → Z).

(** The oracles a stream of events can produce. *)
Inductive oracle_event :=
  | IncomingPresence (p : Presence J)
  | AvailableChanged (available : bool)
  | ClearPresences (bareJID : J).

Definition oracle_react (e : oracle_event) (o : smap J (smap J (Presence J))) :=
  match e with
  | IncomingPresence p => snd (handleIncomingPresence p o)
  | AvailableChanged b => handleStanzaChannelAvailableChanged b o
  | ClearPresences b => clearPresences b o
  end.

(** whatever presences arrive, every presence the oracle holds is filed
    under the JID it came from, in the entry of that JID's bare JID, and the
    maps stay sorted maps. *)
Theorem oracle_wellformed (es : list oracle_event) :
  oracle_ok (fold_left (λ o e, oracle_react e o) es []).
Proof.
  assert (Hgen : ∀ o, oracle_ok o → oracle_ok (fold_left (λ o e, oracle_react e o) es o)).
  { induction es as [|e es IH]; intros o Ho; simpl; [done|]. apply IH.
    destruct e as [p|b|b]; simpl.
    - unfold handleIncomingPresence. destruct (negb _); [done|]. case_bool_decide; [done|]. simpl.
      apply oracle_ok_insert; [done|]. by apply update_entry_ok, oracle_ok_entry.
    - destruct b; [split; [apply sorted_nil|constructor]|done].
    - apply oracle_ok_insert; [done|]. split; [apply sorted_nil|constructor]. }
  apply Hgen. split; [apply sorted_nil|constructor].
Qed.

(** the highest presence of a user is one of its presences, it has the
    greatest priority, and among those the most available show; there is one as
    soon as there is any presence. *)
Theorem highest_presence (bareJID : J) (o : smap J (smap J (Presence J))) :
  match getHighestPriorityPresence typeToAvailabilityOrdering bareJID o with
  | None => getAllPresence bareJID o = []
  | Some h =>
      h ∈ getAllPresence bareJID o ∧
      ∀ x, x ∈ getAllPresence bareJID o →
        (pr_priority x < pr_priority h ∨ pr_priority x = pr_priority h ∧
         typeToAvailabilityOrdering (pr_show x) <= typeToAvailabilityOrdering (pr_show h))%Z
  end.
Proof.
  unfold getHighestPriorityPresence, getAllPresence. destruct (sfind bareJID o) as [[|[k x] m]|]; simpl; try done.
  destruct (highest_fold typeToAvailabilityOrdering m x) as (r & -> & Hr & Hx & Hl).
  split; [set_solver|]. intros y [->|Hy]%elem_of_cons; apply (beats_false typeToAvailabilityOrdering); auto.
Qed.

(** What an available presence of a resource changes. *)
Lemma update_available p m :
  pr_type p = Available → isBare (pr_from p) = false →
  update_entry p m = sinsert (pr_from p) p (serase (toBare (pr_from p)) m).
Proof.
  intros Ht Hb. unfold update_entry, passed_presence. rewrite Ht.
  rewrite decide_False by (by intros [|]). simpl. rewrite Ht, Hb. done.
Qed.

(** an available presence of a resource is what the oracle answers for it
    from then on; the other resources and the other users keep theirs, and a
    bare presence of the same user is forgotten. *)
Theorem available_recorded (p : Presence J) (o : smap J (smap J (Presence J))) (jid : J) :
  pr_type p = Available → getNode (pr_to p) = ""%string → isBare (pr_from p) = false →
  getLastPresence jid (snd (handleIncomingPresence p o)) =
    if decide (jid = pr_from p) then Some p
    else if decide (jid = toBare (pr_from p)) then None
    else getLastPresence jid o.
Proof.
  intros Ht Hn Hb. unfold handleIncomingPresence. rewrite Hn. simpl. rewrite Ht. simpl.
  rewrite !getLastPresence_entry. unfold entry.
  destruct (decide (toBare jid = toBare (pr_from p))) as [Hu|Hu].
  - rewrite Hu, sfind_sinsert_eq. simpl. rewrite update_available by done.
    case_decide as Hj; [subst; by rewrite sfind_sinsert_eq|]. rewrite sfind_sinsert_ne by done.
    case_decide as Hj2; [subst; by rewrite sfind_serase_eq|]. by rewrite sfind_serase_ne.
  - rewrite sfind_sinsert_ne by done. rewrite decide_False by congruence.
    rewrite decide_False; [done|]. intros ->. by rewrite toBare_idem in Hu.
Qed.

(** when a resource goes offline it is forgotten as long as another one is
    known; the last one stays, as unavailable, so the user still has an entry. *)
Theorem unavailable_forgotten (p : Presence J) (o : smap J (smap J (Presence J))) :
  pr_type p = Unavailable → getNode (pr_to p) = ""%string → isBare (pr_from p) = false →
  getLastPresence (pr_from p) (snd (handleIncomingPresence p o)) =
    if (1 <? length (getAllPresence (toBare (pr_from p)) o))%nat then None else Some p.
Proof.
  intros Ht Hn Hb. unfold handleIncomingPresence. rewrite Hn. simpl. rewrite Ht. simpl.
  rewrite getLastPresence_entry, entry_insert_eq. unfold update_entry, passed_presence. rewrite Ht.
  rewrite decide_False by (by intros [|]). rewrite Ht, Hb. simpl.
  assert (Hl : length (getAllPresence (toBare (pr_from p)) o) = length (entry (toBare (pr_from p)) o)).
  { unfold getAllPresence, entry. destruct (sfind _ o); simpl; [by rewrite length_map|done]. }
  rewrite Hl. destruct (1 <? _)%nat; [apply sfind_serase_eq|apply sfind_sinsert_eq].
Qed.

(** an unsubscription is simulated as an unavailable presence of the bare
    JID, but it does not clear the resources the way an unavailable presence of
    the bare JID does: those that were available stay. *)
Theorem unsubscribe_keeps_resources (p : Presence J) (o : smap J (smap J (Presence J))) (jid : J) :
  pr_type p = Unsubscribed → getNode (pr_to p) = ""%string →
  jid ≠ toBare (pr_from p) →
  getLastPresence jid (snd (handleIncomingPresence p o)) = getLastPresence jid o ∧
  getAllPresence (toBare (pr_from p)) (snd (handleIncomingPresence (setPresenceFrom (toBare (pr_from p))
    (setPresenceType Unavailable p)) o)) =
    [setPresenceFrom (toBare (pr_from p)) (setPresenceType Unavailable p)].
Proof.
  intros Ht Hn Hj. split.
  - unfold handleIncomingPresence. rewrite Hn, Ht. simpl. rewrite !getLastPresence_entry. unfold entry.
    destruct (decide (toBare jid = toBare (pr_from p))) as [Hu|Hu].
    2:{ by rewrite sfind_sinsert_ne. }
    rewrite Hu, sfind_sinsert_eq. simpl. unfold update_entry, passed_presence. rewrite Ht.
    rewrite decide_True by auto. simpl. rewrite isBare_toBare. simpl.
    destruct (1 <? _)%nat; [by rewrite sfind_serase_ne|by rewrite sfind_sinsert_ne].
  - unfold handleIncomingPresence. simpl. rewrite Hn. simpl. unfold getAllPresence.
    rewrite toBare_idem, sfind_sinsert_eq. unfold update_entry, passed_presence. simpl.
    rewrite isBare_toBare. simpl. done.
Qed.
End properties.

(** ** Concrete runs *)

Definition show_order (s : StatusShow) : Z :=
  match s with Online => 4 | FFC => 5 | Away => 3 | XA => 2 | DND => 1 | _ => 0 end.

Definition presence_of (node resource : string) (t : PresenceType) (priority : Z) : Presence ref_jid :=
  mkPresence (mkRefJid node "example.com" resource) (mkRefJid "" "icq.example.com" "") t Online "" priority
    None None None None None.

Lemma available_recorded_witness :
  getLastPresence (mkRefJid "u" "example.com" "phone")
    (snd (handleIncomingPresence (presence_of "u" "phone" Available 5) [])) =
  Some (presence_of "u" "phone" Available 5).
Proof. rewrite available_recorded; reflexivity. Defined.

Lemma unavailable_forgotten_witness :
  getLastPresence (mkRefJid "u" "example.com" "phone")
    (snd (handleIncomingPresence (presence_of "u" "phone" Unavailable 0)
      (snd (handleIncomingPresence (presence_of "u" "phone" Available 5)
        (snd (handleIncomingPresence (presence_of "u" "desk" Available 1) [])))))) = None.
Proof.
  rewrite (unavailable_forgotten (presence_of "u" "phone" Unavailable 0)); [vm_compute; reflexivity|reflexivity..].
Defined.

Lemma unsubscribe_keeps_resources_witness :
  getLastPresence (mkRefJid "u" "example.com" "phone")
    (snd (handleIncomingPresence (presence_of "u" "" Unsubscribed 0)
      (snd (handleIncomingPresence (presence_of "u" "phone" Available 5) [])))) =
  Some (presence_of "u" "phone" Available 5).
Proof.
  destruct (unsubscribe_keeps_resources (presence_of "u" "" Unsubscribed 0)
    (snd (handleIncomingPresence (presence_of "u" "phone" Available 5) []))
    (mkRefJid "u" "example.com" "phone")) as [-> _]; [reflexivity|reflexivity|discriminate|].
  vm_compute. reflexivity.
Defined.
