(* ===== verification/Names.v ===== *)
(** * Legacy names and JIDs

    The names of the legacy network and the node parts of JIDs
    (libtransport/Buddy.cpp: getSafeName, JIDToLegacyName; Conversation.cpp,
    for rooms). A name is escaped as XEP-0106 says, or its last @ becomes a %. *)

From S2P Require Import Prelude StdMap Swiften.

(** name.find_last_of(c) followed by name.replace(_, 1, d). *)
Fixpoint has_char (c : ascii) (s : string) : bool :=
  match s with
  | EmptyString => false
  | String x s => Ascii.eqb x c || has_char c s
  end.

Fixpoint replace_last (c d : ascii) (s : string) : string :=
  match s with
  | EmptyString => EmptyString
  | String x s =>
      if has_char c s then String x (replace_last c d s)
      else if Ascii.eqb x c then String d s
      else String x s
  end.

Definition at_to_percent (s : string) : string := replace_last "@" "%" s.
Definition percent_to_at (s : string) : string := replace_last "%" "@" s.

Section names.
Context {J : Type} `{Jid J}.

(** Buddy::getSafeName, for a buddy whose JID has not been generated yet. *)
Definition getSafeName (jid_escaping : bool) (name : string) : string :=
  if jid_escaping then getEscapedNode name else at_to_percent name.

(** Buddy::generateJID *)
Definition generateJID (jid_escaping : bool) (name : string) (component resource : string) : J :=
  make_jid (getSafeName jid_escaping name) component resource.

(** Buddy::JIDToLegacyName without a user, and Buddy::JIDToLegacyName with one:
    [getBuddy] answers the name the roster has for it. *)
Definition JIDToLegacyName (jid : J) : string :=
  if String.eqb (getUnescapedNode jid) (getNode jid) then percent_to_at (getNode jid)
  else getUnescapedNode jid.

Definition JIDToLegacyName_of (getBuddy : string → option string) (jid : J) : string :=
  let name := JIDToLegacyName jid in default name (getBuddy name).

(** Buddy::buddyFlagsFromJID: whether the JID is an escaped one. *)
Definition buddyFlagsFromJID (jid : J) : bool :=
  negb (String.eqb (getUnescapedNode jid) (getNode jid)).
End names.

(** ** Lemmas *)

Lemma replace_last_absent c d s : has_char c s = false → replace_last c d s = s.
Proof.
  induction s as [|x s IH]; simpl; [done|]. intros [Hx Hs]%orb_false_iff. by rewrite Hs, Hx.
Qed.

Lemma has_char_replace_last c d s :
  c ≠ d → has_char c s = true → has_char d (replace_last c d s) = true.
Proof.
  intros Hne. induction s as [|x s IH]; simpl; [done|]. destruct (has_char c s) eqn:E.
  - intros _. simpl. rewrite IH by done. apply orb_true_r.
  - rewrite orb_false_r. intros ->. simpl. by rewrite Ascii.eqb_refl.
Qed.

(** Replacing there and back. *)
Lemma replace_last_back c d s :
  c ≠ d → has_char d s = false → replace_last d c (replace_last c d s) = s.
Proof.
  intros Hne. induction s as [|x s IH]; simpl; [done|]. intros [Hx Hs]%orb_false_iff.
  destruct (has_char c s) eqn:E; simpl.
  - rewrite has_char_replace_last by done. by rewrite IH.
  - destruct (Ascii.eqb x c) eqn:Ex; simpl.
    + rewrite Hs, Ascii.eqb_refl. by apply Ascii.eqb_eq in Ex as ->.
    + by rewrite Hs, Hx.
Qed.

(** Replacing changes a name that has the character. *)
Lemma replace_last_same c d s : c ≠ d → replace_last c d s = s ↔ has_char c s = false.
Proof.
  intros Hne. split; [|apply replace_last_absent]. induction s as [|x s IH]; simpl; [done|].
  destruct (has_char c s) eqn:E; [intros [= Es]; apply IH in Es; discriminate Es|].
  destruct (Ascii.eqb_spec x c) as [->|]; [by intros [= ?]|done].
Qed.

(** The part of a name behind its last such character, or all of it. *)
Fixpoint behind_last (c : ascii) (s : string) : string :=
  match s with
  | EmptyString => EmptyString
  | String x rest => if has_char c rest then behind_last c rest else if Ascii.eqb x c then rest else s
  end.

(** Replacing there and back is right exactly when the new character is not behind the old
    one. *)
Lemma replace_last_back_iff c d s :
  c ≠ d → replace_last d c (replace_last c d s) = s ↔ has_char d (behind_last c s) = false.
Proof.
  intros Hne. induction s as [|x s IH]; [done|]. simpl. destruct (has_char c s) eqn:E.
  - simpl. rewrite has_char_replace_last by done. rewrite <- IH. split; [by intros [= ->]|by intros ->].
  - destruct (Ascii.eqb_spec x c) as [->|Hx].
    + simpl. destruct (has_char d s) eqn:Ed; [split; [by intros [= ?]|done]|]. by rewrite Ascii.eqb_refl.
    + by apply (replace_last_same d c (String x s)).
Qed.

(** ** The properties *)

(** What is relied on of Swift::JID: a node that nodeprep leaves as it is stays so, and XEP-0106's
    unescaping depends on the node alone and undoes the escaping. *)
Class NodeLaws {J : Type} `{Jid J} (prepared : string → Prop) (unescape : string → string) : Prop := {
  node_kept n domain resource : prepared n → getNode (make_jid n domain resource) = n;
  node_unescaped j : getUnescapedNode j = unescape (getNode j);
  unescape_escaped n : unescape (getEscapedNode n) = n;
}.

Section properties.
Context {J : Type} `{Jid J}.

(** The names that survive: with escaping, those that are changed by it and those without a
    percent sign; without it, those with no percent sign behind their last @. *)
Definition survives (jid_escaping : bool) (name : string) : Prop :=
  if jid_escaping then getEscapedNode name ≠ name ∨ has_char "%" name = false
  else has_char "%" (behind_last "@" name) = false.

(** C7: which legacy names survive the way to a JID and back. For a name whose node nodeprep
    leaves as it is (so not one with capital letters) and, without JID escaping, has no escape
    sequence in it: with escaping exactly the names that escaping changes or that have no
    percent sign come back as they were; without, exactly those that have no percent sign
    behind their last @, or at all when they have no @. *)
Theorem legacy_name_round_trip `{!NodeLaws prepared unescape} (jid_escaping : bool) (name component resource : string) :
  prepared (getSafeName jid_escaping name) →
  (jid_escaping = false → unescape (getSafeName false name) = getSafeName false name) →
  JIDToLegacyName (generateJID jid_escaping name component resource) = name ↔ survives jid_escaping name.
Proof.
  intros Hp Hu. unfold JIDToLegacyName, generateJID. rewrite node_unescaped, node_kept by done. destruct jid_escaping; simpl.
  - rewrite unescape_escaped. destruct (String.eqb_spec name (getEscapedNode name)) as [E|Hne].
    + rewrite <- E. unfold percent_to_at. rewrite replace_last_same by done. split; [by right|by intros [[]|]].
    + split; [left; congruence|done].
  - assert (unescape (at_to_percent name) = at_to_percent name) as -> by (by apply Hu).
    rewrite String.eqb_refl. by apply replace_last_back_iff.
Qed.

(** a name with a percent sign and nothing to escape does not survive, even
    with JID escaping: it comes back with an @ in the place of the percent sign. *)
Theorem percent_name_lost (name component resource : string) :
  has_char "%" name = true → getEscapedNode name = name →
  getNode (generateJID true name component resource) = name →
  getUnescapedNode (generateJID true name component resource) = name →
  JIDToLegacyName (generateJID true name component resource) = percent_to_at name ∧
  percent_to_at name ≠ name.
Proof.
  intros Hp He Hn Hu. unfold JIDToLegacyName. rewrite Hn, Hu, String.eqb_refl. split; [done|].
  unfold percent_to_at. clear He Hn Hu. induction name as [|x s IH]; simpl in *; [done|].
  destruct (has_char "%" s) eqn:E.
  - intros [= E2]. by apply IH.
  - rewrite orb_false_r in Hp. apply Ascii.eqb_eq in Hp as ->. rewrite Ascii.eqb_refl.
    intros [= E2].
Qed.
End properties.

(** ** Escaping as XEP-0106 has it *)

Definition escape_char (c : ascii) : string :=
  if Ascii.eqb c " " then "\20" else if Ascii.eqb c "034" then "\22" else if Ascii.eqb c "&" then "\26"
  else if Ascii.eqb c "'" then "\27" else if Ascii.eqb c "/" then "\2f" else if Ascii.eqb c ":" then "\3a"
  else if Ascii.eqb c "<" then "\3c" else if Ascii.eqb c ">" then "\3e" else if Ascii.eqb c "@" then "\40"
  else if Ascii.eqb c "\" then "\5c" else String c "".

Fixpoint escape (s : string) : string :=
  match s with EmptyString => EmptyString | String c s => (escape_char c +:+ escape s)%string end.

Definition unescape_pair (a b : ascii) : option ascii :=
  match a, b with
  | "2", "0" => Some " " | "2", "2" => Some "034" | "2", "6" => Some "&" | "2", "7" => Some "'" | "2", "f" => Some "/"
  | "3", "a" => Some ":" | "3", "c" => Some "<" | "3", "e" => Some ">" | "4", "0" => Some "@" | "5", "c" => Some "\"
  | _, _ => None
  end%char.

Fixpoint unescape (s : string) : string :=
  match s with
  | EmptyString => EmptyString
  | String c rest =>
      if Ascii.eqb c "\" then
        match rest with
        | String a (String b rest') =>
            match unescape_pair a b with Some x => String x (unescape rest') | None => String c (unescape rest) end
        | _ => String c (unescape rest)
        end
      else String c (unescape rest)
  end.

Lemma unescape_escape s : unescape (escape s) = s.
Proof.
  induction s as [|c s IH]; [done|]. simpl.
  assert (∀ t, unescape (escape_char c +:+ t) = String c (unescape t)) as -> by (by destruct c as [[] [] [] [] [] [] [] []]).
  by rewrite IH.
Qed.

(** nodeprep of letters of ASCII. *)
Definition lower_char (c : ascii) : ascii :=
  let n := nat_of_ascii c in if (65 <=? n)%nat && (n <=? 90)%nat then ascii_of_nat (n + 32) else c.

Fixpoint lower_case (s : string) : string :=
  match s with EmptyString => EmptyString | String c s => String (lower_char c) (lower_case s) end.

(** The reference addresses with this escaping; a node in small letters is prepared. *)
Definition escaping_jid : Jid ref_jid := {|
  jid_key := jid_key (J := ref_jid);
  no_jid := no_jid;
  make_jid n d r := mkRefJid (lower_case n) d r;
  jid_of_string := jid_of_string;
  toBare := toBare;
  isBare := isBare;
  isValid := isValid;
  getNode := getNode;
  getDomain := getDomain;
  getResource := getResource;
  toString := toString;
  getUnescapedNode j := unescape (getNode j);
  getEscapedNode := escape;
  no_jid_invalid := no_jid_invalid;
  isBare_toBare := isBare_toBare;
  toBare_isBare := toBare_isBare;
  getNode_toBare := getNode_toBare;
  getDomain_toBare := getDomain_toBare;
|}.

Lemma escaping_laws : NodeLaws (H := escaping_jid) (λ n, lower_case n = n) unescape.
Proof. split; [|done|exact unescape_escape]. intros n d r Hn. exact Hn. Qed.

Lemma legacy_name_round_trip_witness :
  (JIDToLegacyName (H := escaping_jid) (generateJID (H := escaping_jid) true "50% of@me" "msn.example.com" "bot") = "50% of@me"%string) ∧
  (JIDToLegacyName (H := escaping_jid) (generateJID (H := escaping_jid) false "someone@hotmail.com" "msn.example.com" "bot") =
  "someone@hotmail.com"%string) ∧
  JIDToLegacyName (H := escaping_jid) (generateJID (H := escaping_jid) true "50%off" "msn.example.com" "bot") ≠ "50%off"%string.
Proof.
  split; [|split].
  - apply (legacy_name_round_trip (NodeLaws0 := escaping_laws) true "50% of@me"); [reflexivity|discriminate|left; discriminate].
  - apply (legacy_name_round_trip (NodeLaws0 := escaping_laws) false "someone@hotmail.com"); reflexivity.
  - intros E. apply (legacy_name_round_trip (NodeLaws0 := escaping_laws) true "50%off") in E; [|reflexivity|discriminate].
    destruct E as [E|E]; [by apply E|discriminate E].
Defined.

Lemma percent_name_lost_witness :
  JIDToLegacyName (generateJID true "50%off" "irc.example.com" "bot" : ref_jid) = "50@off"%string.
Proof. apply (percent_name_lost "50%off" "irc.example.com" "bot"); reflexivity. Defined.
