(* ===== verification/Outgoing.v ===== *)
(** * Requests to the backends

    The handlers of NetworkPluginServer (libtransport/NetworkPluginServer.cpp)
    that tell a user's backend what the user did: presences, rooms, messages,
    contacts, vCards. They only read the user and write to the connection of the
    user's backend, so they are programs over any state that offers [Link];
    the backend pool is one. *)

From S2P Require Import Prelude StdMap Swiften Protocol Framing Names Pool.
Import pbnetwork.

(** What the handlers need of the rest of the server: UserManager::getUser,
    User::getData, NetworkPluginServer::send on a backend's connection, and
    User::updateLastActivity. *)
Class Link (S : Type) := {
  link_getUser : string → prog S (option uid);
  link_getData : uid → prog S (option bid);
  link_send : bid → bytes → prog S unit;
  link_updateLastActivity : uid → prog S unit;
}.

(** The pool: the map of users, the users and the backends in its heap. *)
#[export] Instance pool_link : Link Pool := {
  link_getUser jid := p ← get; mret (m_users p !! jid);
  link_getData u := o ← load_user u; mret (u_data o);
  link_send := send_to;
  link_updateLastActivity u := p ← get; update_user u (set_lastActivity (now p));
}.

(** The payloads of a message the handlers look at. *)
Record OutMessage (J : Type) := mkOutMessage {
  om_to : J;
  om_id : string;
  om_chatState : option ChatStateType;
  om_attention : bool;
  om_subject : string;
  om_body : option string;
  om_xhtml : option string;
  om_receiptRequest : bool;
}.
Arguments mkOutMessage {J}.
Arguments om_to {J}.
Arguments om_id {J}.
Arguments om_chatState {J}.
Arguments om_attention {J}.
Arguments om_subject {J}.
Arguments om_body {J}.
Arguments om_xhtml {J}.
Arguments om_receiptRequest {J}.

Definition setOutTo {J} (to : J) (m : OutMessage J) : OutMessage J :=
  mkOutMessage to (om_id m) (om_chatState m) (om_attention m) (om_subject m) (om_body m) (om_xhtml m)
    (om_receiptRequest m).

(** A contact as the handlers read it: getName, getAlias, getGroups, isBlocked. *)
Record Contact := mkContact {
  ct_name : string;
  ct_alias : string;
  ct_groups : list string;
  ct_blocked : bool;
}.

(** pbnetwork::StatusType of an integer, where it has one. *)
Definition StatusType_of_show (s : StatusShow) : option StatusType :=
  match s with
  | Online => Some STATUS_ONLINE
  | Away => Some STATUS_AWAY
  | FFC => Some STATUS_FFC
  | XA => Some STATUS_XA
  | DND => Some STATUS_DND
  | NoShow => Some STATUS_NONE
  | OtherShow 6 => Some STATUS_INVISIBLE
  | OtherShow _ => None
  end.

(** What the backend of a query and the one of a raw stanza are sent. *)
Definition query_answer `{Protobuf} (answer : string) : bytes :=
  WRAP (SerializeToString (BackendConfig.empty |> (BackendConfig.set_config answer))) TYPE_QUERY.

Definition raw_stanza `{Protobuf} (xml : bytes) : bytes := WRAP xml TYPE_RAW_XML.

Section outgoing.
Context {S : Type} `{Link S} {J : Type} `{Jid J} `{Protobuf}.
(** features.rawxml *)
Context (rawxml : bool).

(** The end of most handlers: a user without backend gets nothing. *)
Definition send_to_backend (u : uid) (data : bytes) : prog S unit :=
  c ← link_getData u;
  match c with
  | None => mret tt
  | Some c => link_send c data
  end.

(** The same without the test. *)
Definition send_unchecked (u : uid) (data : bytes) : prog S unit :=
  c ← link_getData u;
  match c with
  | None => raise NullDereference
  | Some c => link_send c data
  end.

(** *** Raw stanzas *)

(** The legacy address of a stanza's recipient, with the resource kept. *)
Definition legacy_to (to : J) : J :=
  let legacyname := jid_of_string (JIDToLegacyName to) in
  make_jid (getNode legacyname) (getDomain legacyname) (getResource to).

Definition send_raw {Stanza : Type} (serializeElement : Stanza → bytes) (u : uid) (stanza : Stanza) : prog S unit :=
  send_to_backend u (raw_stanza (serializeElement stanza)).

(** handleRawPresenceReceived changes the recipient of the presence it is given. *)
Definition handleRawPresenceReceived (serializePresence : Presence J → bytes) (p : Presence J) : prog S (Presence J) :=
  if negb rawxml then mret p
  else
    u ← link_getUser (toString (toBare (pr_from p)));
    match u with
    | None => mret p
    | Some u =>
        c ← link_getData u;
        match c with
        | None => mret p
        | Some c =>
            let p := setPresenceTo (legacy_to (pr_to p)) p in
            link_send c (raw_stanza (serializePresence p)) ;;
            mret p
        end
    end.

(** *** Presences and rooms *)

Definition status_message (user : string) (status : StatusType) (statusMessage : string) : bytes :=
  WRAP (SerializeToString (Status.empty
    |> (Status.set_userName user) |> (Status.set_status status) |> (Status.set_statusMessage statusMessage)))
    TYPE_STATUS_CHANGED.

(** [invisible] is whether the presence has an InvisiblePayload; the cast of a
    show without number in the protocol is left out. *)
Definition handleUserPresenceChanged (serializePresence : Presence J → bytes) (u : uid) (user : string)
    (p : Presence J) (invisible : bool) : prog S unit :=
  if bool_decide (pr_show p = NoShow) then mret tt
  else
    p ← handleRawPresenceReceived serializePresence p;
    let status := if invisible then Some STATUS_INVISIBLE else StatusType_of_show (pr_show p) in
    match status with
    | Some status => send_to_backend u (status_message user status (pr_status p))
    | None => mret tt
    end.

Definition room_message (user nickname room password : string) (type : MessageType) : bytes :=
  WRAP (SerializeToString (Room.empty
    |> (Room.set_userName user) |> (Room.set_nickname nickname) |> (Room.set_room room)
    |> (Room.set_password password))) type.

Definition handleRoomJoined (u : uid) (user r nickname password : string) : prog S unit :=
  send_to_backend u (room_message user nickname r password TYPE_JOIN_ROOM).

Definition handleRoomLeft (u : uid) (user r : string) : prog S unit :=
  send_to_backend u (room_message user "" r "" TYPE_LEAVE_ROOM).

(** *** Messages *)

Definition conv_message (user legacyName message : string) : ConversationMessage.t :=
  ConversationMessage.empty
    |> (ConversationMessage.set_userName user) |> (ConversationMessage.set_buddyName legacyName)
    |> (ConversationMessage.set_message message).

Definition chat_state_type (st : ChatStateType) : option MessageType :=
  match st with
  | Active => Some TYPE_BUDDY_STOPPED_TYPING
  | Composing => Some TYPE_BUDDY_TYPING
  | Paused => Some TYPE_BUDDY_TYPED
  | _ => None
  end.

Definition buddy_message (user : string) (b : Contact) (type : MessageType) (blocked : option bool) : bytes :=
  let buddy := Buddy.empty
    |> (Buddy.set_userName user) |> (Buddy.set_buddyName (ct_name b)) |> (Buddy.set_alias (ct_alias b))
    |> (Buddy.set_group (ct_groups b)) |> (Buddy.set_status STATUS_NONE) in
  WRAP (SerializeToString match blocked with
                          | Some x => Buddy.set_blocked x buddy
                          | None => buddy
                          end) type.

Definition typing_message (user legacyName : string) (type : MessageType) : bytes :=
  WRAP (SerializeToString (Buddy.empty |> (Buddy.set_userName user) |> (Buddy.set_buddyName legacyName))) type.

(** The chat state part; it answers false when the handler returns there. *)
Definition send_chat_state (u : uid) (user legacyName : string) (m : OutMessage J) : prog S bool :=
  match om_chatState m ≫= chat_state_type with
  | Some type =>
      c ← link_getData u;
      match c with
      | None => mret false
      | Some c => link_send c (typing_message user legacyName type) ;; mret true
      end
  | None => mret true
  end.

(** The body part: the message itself. *)
Definition send_body (u : uid) (user legacyName : string) (m : OutMessage J) : prog S unit :=
  let xhtml := str (om_xhtml m) in
  let body := str (om_body m) in
  if String.eqb body "" && String.eqb xhtml "" then mret tt
  else
    let pm := ConversationMessage.set_xhtml xhtml (conv_message user legacyName body) in
    let pm := if om_receiptRequest m && negb (String.eqb (om_id m) "")
              then ConversationMessage.set_id (om_id m) pm else pm in
    send_to_backend u (WRAP (SerializeToString pm) TYPE_CONV_MESSAGE).

(** NetworkPluginServer::handleMessageReceived, for a conversation of that name. *)
Definition handleMessageReceived (serializeMessage : OutMessage J → bytes) (u : uid) (user legacyName : string)
    (m : OutMessage J) : prog S unit :=
  link_updateLastActivity u ;;
  if rawxml then send_raw serializeMessage u (setOutTo (legacy_to (om_to m)) m)
  else
    go ← send_chat_state u user legacyName m;
    if negb go then mret tt
    else if om_attention m then
      send_unchecked u (WRAP (SerializeToString (conv_message user legacyName (str (om_body m)))) TYPE_ATTENTION)
    else if negb (String.eqb (om_subject m) "") then
      send_unchecked u (WRAP (SerializeToString (conv_message user legacyName (om_subject m)))
        TYPE_ROOM_SUBJECT_CHANGED)
    else send_body u user legacyName m.

(** *** Contacts *)

Definition handleBuddyRemoved (u : uid) (user : string) (b : Contact) : prog S unit :=
  send_to_backend u (buddy_message user b TYPE_BUDDY_REMOVED None).

Definition handleUserBuddyAdded (u : uid) (user : string) (b : Contact) : prog S unit :=
  send_to_backend u (buddy_message user b TYPE_BUDDY_CHANGED None).

Definition handleUserBuddyRemoved (u : uid) (user : string) (b : Contact) : prog S unit :=
  handleBuddyRemoved u user b.

(** handleBuddyUpdated, once the contact has the new alias and groups. *)
Definition send_buddy_updated (u : uid) (user : string) (b : Contact) : prog S unit :=
  send_to_backend u (buddy_message user b TYPE_BUDDY_CHANGED None).

Definition handleBlockToggled (u : uid) (user : string) (b : Contact) : prog S unit :=
  send_to_backend u (buddy_message user b TYPE_BUDDY_CHANGED (Some (negb (ct_blocked b)))).

(** *** vCards *)

(** [photo] and [nickname] of the vCard, when there is one; &v->getPhoto()[0] of
    an empty photo is out of range. *)
Definition handleVCardUpdated (u : uid) (user : string) (v : option (string * string)) : prog S unit :=
  match v with
  | None => mret tt
  | Some (EmptyString, _) => raise OutOfRange
  | Some (photo, nickname) =>
      send_to_backend u (WRAP (SerializeToString (VCard.empty
        |> (VCard.set_userName user) |> (VCard.set_buddyName "") |> (VCard.set_id 0)
        |> (VCard.set_photo photo) |> (VCard.set_nickname nickname))) TYPE_VCARD)
  end.

Definition handleVCardRequired (u : uid) (user name : string) (id : Z) : prog S unit :=
  send_to_backend u (WRAP (SerializeToString (VCard.empty
    |> (VCard.set_userName user) |> (VCard.set_buddyName name) |> (VCard.set_id (to_int id))))
    TYPE_VCARD).

(** *** The backend itself *)

(** NETWORK_PLUGIN_API_VERSION *)
Definition NETWORK_PLUGIN_API_VERSION : Z := 1.

Definition api_version_message : bytes :=
  WRAP (SerializeToString (APIVersion.empty |> (APIVersion.set_version NETWORK_PLUGIN_API_VERSION)))
    TYPE_API_VERSION.
End outgoing.

(** sendAPIVersion and the destructor's TYPE_EXIT, on the pool. *)
Definition sendAPIVersion `{Protobuf} (c : bid) : prog Pool unit :=
  o ← load_backend c;
  when (bool_decide (is_Some (b_connection o))) (send_to c api_version_message).

Definition stop_backends `{Protobuf} : prog Pool unit :=
  p ← get; for_each (m_clients p) (λ c, send_to c (WRAP_empty TYPE_EXIT)).
