(* ===== verification/Wire.v ===== *)
(** * The server's calls reach the backend

    The two ends of a connection put together: what the handlers of [Outgoing]
    write on the connection of a user's backend, cut into chunks by the network
    and read by the backend's NetworkPlugin, is the sequence of request handlers
    the specification [requests_of] names. *)

From S2P Require Import Prelude StdMap Swiften Protocol Framing ReferenceCodec Names Pool Outgoing.
From S2P Require NetworkPlugin.
Import pbnetwork.

(** ** The specification *)

Section spec.
Context {J : Type} `{Jid J}.
(** features.rawxml, and the serializers of the stanzas sent raw *)
Context (rawxml : bool) (serializePresence : Presence J → bytes) (serializeMessage : OutMessage J → bytes).

(** What a user does, as far as a backend is told. *)
Inductive call :=
  | CallPresence (p : Presence J) (invisible : bool)
  | CallRoomJoined (room nickname password : string)
  | CallRoomLeft (room : string)
  | CallMessage (legacyName : string) (m : OutMessage J)
  | CallBuddyAdded (b : Contact)
  | CallBuddyUpdated (b : Contact)
  | CallBuddyRemoved (b : Contact)
  | CallBlockToggled (b : Contact)
  | CallVCardUpdated (photo nickname : string)
  | CallVCardRequired (name : string) (id : Z).

Definition typing_request (user legacyName : string) (st : ChatStateType) : list NetworkPlugin.request :=
  match st with
  | Active => [NetworkPlugin.StoppedTypingRequest user legacyName]
  | Composing => [NetworkPlugin.TypingRequest user legacyName]
  | Paused => [NetworkPlugin.TypedRequest user legacyName]
  | _ => []
  end.

(** A message is first its chat state, then one of: an attention, a subject, a
    body, nothing. *)
Definition message_requests (user legacyName : string) (m : OutMessage J) : list NetworkPlugin.request :=
  match om_chatState m with
  | Some st => typing_request user legacyName st
  | None => []
  end ++
  if om_attention m then [NetworkPlugin.AttentionRequest user legacyName (str (om_body m))]
  else if negb (String.eqb (om_subject m) "") then
    [NetworkPlugin.RoomSubjectChangedRequest user legacyName (om_subject m)]
  else if String.eqb (str (om_body m)) "" && String.eqb (str (om_xhtml m)) "" then []
  else [NetworkPlugin.MessageSendRequest user legacyName (str (om_body m)) (str (om_xhtml m))
         (if om_receiptRequest m then om_id m else "")].

Definition requests_of (user : string) (c : call) : list NetworkPlugin.request :=
  match c with
  | CallPresence p invisible =>
      if bool_decide (pr_show p = NoShow) then []
      else (if rawxml then [NetworkPlugin.RawXML (serializePresence (setPresenceTo (legacy_to (pr_to p)) p))] else [])
      ++ match (if invisible then Some STATUS_INVISIBLE else StatusType_of_show (pr_show p)) with
           | Some status => [NetworkPlugin.StatusChangeRequest user status (pr_status p)]
           | None => []
           end
  | CallRoomJoined room nickname password => [NetworkPlugin.JoinRoomRequest user room nickname password]
  | CallRoomLeft room => [NetworkPlugin.LeaveRoomRequest user room]
  | CallMessage legacyName m =>
      if rawxml then [NetworkPlugin.RawXML (serializeMessage (setOutTo (legacy_to (om_to m)) m))]
      else message_requests user legacyName m
  | CallBuddyAdded b | CallBuddyUpdated b => [NetworkPlugin.BuddyUpdatedRequest user (ct_name b) (ct_alias b) (ct_groups b)]
  | CallBuddyRemoved b => [NetworkPlugin.BuddyRemovedRequest user (ct_name b) (ct_groups b)]
  | CallBlockToggled b => [NetworkPlugin.BuddyBlockToggled user (ct_name b) (negb (ct_blocked b))]
  | CallVCardUpdated photo nickname => [NetworkPlugin.VCardUpdatedRequest user photo nickname]
  | CallVCardRequired name id =>
      if String.eqb name "" then [] else [NetworkPlugin.VCardRequest user name (to_int id)]
  end.

(** &photo[0] needs a byte; a presence that is sent raw goes to the backend of its sender,
    who is the user. *)
Definition call_defined (user : string) (c : call) : Prop :=
  match c with
  | CallVCardUpdated photo _ => photo ≠ ""%string
  | CallPresence p _ => rawxml = true → toString (toBare (pr_from p)) = user
  | _ => True
  end.
End spec.
Arguments call : clear implicits.

(** ** The calls on the pool *)

Section wire.
Context {J : Type} `{Jid J} `{Protobuf} `{NetworkPlugin.ProcessMemory}.
Context (rawxml : bool) (serializePresence : Presence J → bytes) (serializeMessage : OutMessage J → bytes).

Definition perform (u : uid) (user : string) (c : call J) : prog Pool unit :=
  match c with
  | CallPresence p invisible => handleUserPresenceChanged rawxml serializePresence u user p invisible
  | CallRoomJoined room nickname password => handleRoomJoined u user room nickname password
  | CallRoomLeft room => handleRoomLeft u user room
  | CallMessage legacyName m => handleMessageReceived rawxml serializeMessage u user legacyName m
  | CallBuddyAdded b => handleUserBuddyAdded u user b
  | CallBuddyUpdated b => send_buddy_updated u user b
  | CallBuddyRemoved b => handleUserBuddyRemoved u user b
  | CallBlockToggled b => handleBlockToggled u user b
  | CallVCardUpdated photo nickname => handleVCardUpdated u user (Some (photo, nickname))
  | CallVCardRequired name id => handleVCardRequired u user name id
  end.

(** The user is the one of that name and on a backend with that connection. *)
Definition serving (u : uid) (k : nat) (user : string) (p : Pool) : Prop :=
  m_users p !! user = Some u ∧ ∃ o c b, users p !! u = Some o ∧ u_data o = Some c ∧
    backends p !! c = Some b ∧ b_connection b = Some k.

Definition writes (k : nat) (es : list event) : list bytes :=
  omap (λ e, match e with Write k' data => if decide (k' = k) then Some data else None | _ => None end) es.

(** What the connection delivers to the backend. *)
Definition deliver (chunks : list bytes) : prog NetworkPlugin.plugin unit :=
  for_each chunks NetworkPlugin.handleDataRead.

Definition logged (rs : list NetworkPlugin.request) (data : bytes) (pl : NetworkPlugin.plugin) : NetworkPlugin.plugin :=
  NetworkPlugin.mkPlugin data (NetworkPlugin.m_pingReceived pl) (NetworkPlugin.m_init_res pl)
    (NetworkPlugin.p_log pl ++ map NetworkPlugin.Request rs).

(** ** Reading *)

(** The backend turns the frame into these requests. *)
Definition yields (frame : bytes) (rs : list NetworkPlugin.request) : Prop :=
  ∃ w, ParseFromString frame = Some w ∧
    ∀ pl, NetworkPlugin.dispatch w pl = Done true (logged rs (NetworkPlugin.m_data pl) pl).

Lemma logged_logged rs rs' d d' pl : logged rs' d' (logged rs d pl) = logged (rs ++ rs') d' pl.
Proof. unfold logged. simpl. by rewrite map_app, app_assoc. Qed.

Lemma read_loop_yields fuel data pl rss :
  length data ≤ fuel → Forall2 yields (frames data).1 rss →
  read_loop ParseFromString false NetworkPlugin.dispatch fuel data pl =
  Done (frames data).2 (logged (concat rss) (NetworkPlugin.m_data pl) pl).
Proof.
  revert data pl rss. induction fuel as [|fuel IH]; intros data pl rss Hf Hy.
  - destruct data; [|simpl in Hf; lia]. inversion Hy; subst. simpl. unfold logged. simpl.
    rewrite app_nil_r. by destruct pl.
  - simpl read_loop. rewrite frames_unfold in Hy |- *.
    destruct (next_frame data) as [[frame rest]|] eqn:E.
    + apply next_frame_length in E.
      destruct (frames rest) as [fs remaining] eqn:Er. cbn [fst snd] in *.
      apply Forall2_cons_inv_l in Hy as (rs & rss' & (w & Hw & Hd) & Hy & ->).
      rewrite Hw, bind_run, Hd.
      specialize (IH rest (logged rs (NetworkPlugin.m_data pl) pl) rss').
      rewrite Er in IH. rewrite IH by (done || lia). by rewrite logged_logged.
    + inversion Hy; subst. unfold logged. simpl. rewrite app_nil_r. by destruct pl.
Qed.

Lemma deliver_frames chunks pl rss :
  next_frame (NetworkPlugin.m_data pl) = None →
  Forall2 yields (frames (NetworkPlugin.m_data pl ++ concat chunks)).1 rss →
  deliver chunks pl =
  Done tt (logged (concat rss) (frames (NetworkPlugin.m_data pl ++ concat chunks)).2 pl).
Proof.
  revert pl rss. induction chunks as [|chunk chunks IH]; intros pl rss Hb Hy.
  - simpl in *. rewrite app_nil_r, frames_unfold, Hb in Hy |- *. inversion Hy; subst.
    unfold logged. simpl. rewrite app_nil_r. by destruct pl.
  - simpl concat in *. rewrite app_assoc in Hy |- *. rewrite frames_app in Hy |- *. cbn [fst snd] in *.
    apply Forall2_app_inv_l in Hy as (rss1 & rss2 & Hnow & Hlater & ->).
    unfold deliver in *. simpl for_each. rewrite bind_run.
    unfold NetworkPlugin.handleDataRead at 1. rewrite bind_run. cbn beta iota delta [get].
    unfold handle_data_read. rewrite bind_run, (read_loop_yields _ _ _ rss1) by done.
    unfold NetworkPlugin.set_data, modify. cbn beta iota.
    match goal with |- _ ?s = _ => set (pl1 := s) end.
    change (for_each chunks NetworkPlugin.handleDataRead pl1 = 
      Done tt (logged (concat (rss1 ++ rss2)) (frames ((frames (NetworkPlugin.m_data pl ++ chunk)).2 ++ concat chunks)).2 pl)).
    rewrite (IH pl1 rss2).
    + unfold pl1. simpl. unfold logged. simpl. by rewrite concat_app, map_app, app_assoc.
    + apply next_frame_remaining.
    + exact Hlater.
Qed.

(** ** Writing *)

(** What a call leaves behind: the user still on its backend, and the frames of
    these messages on the connection. *)
Definition wrote (u : uid) (k : nat) (user : string) (rs : list NetworkPlugin.request) (p : Pool) (r : result Pool unit) : Prop :=
  ∃ p' msgs rss, r = Done tt p' ∧ serving u k user p' ∧
    events p' = events p ++ map (λ m, Write k (send_frame m)) msgs ∧
    Forall2 yields msgs rss ∧ concat rss = rs.

Lemma wrote_nothing u k user p : serving u k user p → wrote u k user [] p (Done tt p).
Proof. intros Hs. exists p, [], []. simpl. rewrite app_nil_r. by split_and!; [|apply Hs..| |constructor|]. Qed.

Lemma wrote_bind u k user rs1 rs2 p (m1 m2 : prog Pool unit) :
  wrote u k user rs1 p (m1 p) → (∀ p', serving u k user p' → wrote u k user rs2 p' (m2 p')) →
  wrote u k user (rs1 ++ rs2) p ((m1 ;; m2) p).
Proof.
  intros (p1 & msgs1 & rss1 & E1 & Hs1 & Hev1 & Hy1 & <-) H2.
  destruct (H2 p1 Hs1) as (p2 & msgs2 & rss2 & E2 & Hs2 & Hev2 & Hy2 & <-).
  exists p2, (msgs1 ++ msgs2), (rss1 ++ rss2). rewrite bind_run, E1. split_and!; try done.
  - by rewrite Hev2, Hev1, map_app, app_assoc.
  - by apply Forall2_app.
  - apply concat_app.
Qed.

Lemma link_send_run u k user p : serving u k user p →
  ∃ c, link_getData u p = Done (Some c) p ∧
    ∀ m rs, yields m rs → wrote u k user rs p (link_send c m p).
Proof.
  intros (Hm & o & c & b & Hu & Hd & Hb & Hk). exists c.
  split.
  { cbn [link_getData pool_link]. unfold load_user. rewrite !bind_run. cbn beta iota delta [get].
    rewrite Hu. cbn. by rewrite Hd. }
  intros m rs Hy. cbn [link_send pool_link]. unfold send_to, load_backend.
  rewrite !bind_run. cbn beta iota delta [get]. rewrite Hb. cbn. rewrite Hk. unfold log, modify.
  exists (with_events (λ es, es ++ [Write k (send_frame m)]) p), [m], [rs].
  simpl. split_and!; try done; [by split; [|exists o, c, b]|by repeat constructor|by rewrite app_nil_r].
Qed.

Lemma send_to_backend_run u k user m rs p :
  serving u k user p → yields m rs → wrote u k user rs p (send_to_backend u m p).
Proof.
  intros (c & Hd & Hw)%link_send_run Hy. unfold send_to_backend. rewrite bind_run, Hd. by apply Hw.
Qed.

Lemma send_unchecked_run u k user m rs p :
  serving u k user p → yields m rs → wrote u k user rs p (send_unchecked u m p).
Proof.
  intros (c & Hd & Hw)%link_send_run Hy. unfold send_unchecked. rewrite bind_run, Hd. by apply Hw.
Qed.

(** Updating the time of the last activity keeps the user where it is. *)
Lemma touch_run u k user p : serving u k user p → wrote u k user [] p (link_updateLastActivity u p).
Proof.
  intros (Hm & o & c & b & Hu & Hd & Hb & Hk). cbn [link_updateLastActivity pool_link].
  rewrite bind_run. cbn beta iota delta [get]. unfold update_user, load_user.
  rewrite !bind_run. cbn beta iota delta [get]. rewrite Hu. cbn beta iota delta [deref].
  rewrite ret_run. unfold modify.
  exists (with_users <[u := set_lastActivity (now p) o]> p), [], [].
  split_and!; [done| |simpl; by rewrite app_nil_r|constructor|done].
  split; [exact Hm|]. exists (set_lastActivity (now p) o), c, b. simpl. by rewrite lookup_insert_eq.
Qed.

(** *** The frames *)

(** A wrapped message is parsed back, and the dispatch of its type reads it. *)
Lemma yields_wrap (payload : bytes) (type : MessageType) rs :
  (∀ pl, NetworkPlugin.dispatch (WrapperMessage.empty |> (WrapperMessage.set_type type)
      |> (WrapperMessage.set_payload payload)) pl = Done true (logged rs (NetworkPlugin.m_data pl) pl)) →
  yields (WRAP payload type) rs.
Proof. intros Hd. eexists. split; [by apply parse_serialize|done]. Qed.

Ltac read_frame :=
  apply yields_wrap; intros pl;
  unfold NetworkPlugin.dispatch; cbn -[SerializeToString ParseFromString];
  rewrite bind_run;
  unfold NetworkPlugin.handleStatusChangedPayload, NetworkPlugin.handleConvMessagePayload,
    NetworkPlugin.handleRoomSubjectChangedPayload, NetworkPlugin.handleAttentionPayload,
    NetworkPlugin.handleJoinRoomPayload, NetworkPlugin.handleLeaveRoomPayload,
    NetworkPlugin.handleVCardPayload, NetworkPlugin.handleBuddyChangedPayload,
    NetworkPlugin.handleBuddyRemovedPayload, NetworkPlugin.handleChatStatePayload;
  unfold NetworkPlugin.with_payload; rewrite parse_serialize by reflexivity.

Ltac read_back := read_frame; reflexivity.

Lemma yields_status user status text :
  yields (status_message user status text) [NetworkPlugin.StatusChangeRequest user status text].
Proof. unfold status_message. read_back. Qed.

Lemma yields_join user room nickname password :
  yields (room_message user nickname room password TYPE_JOIN_ROOM)
    [NetworkPlugin.JoinRoomRequest user room nickname password].
Proof. unfold room_message. read_back. Qed.

Lemma yields_leave user room :
  yields (room_message user "" room "" TYPE_LEAVE_ROOM) [NetworkPlugin.LeaveRoomRequest user room].
Proof. unfold room_message. read_back. Qed.

Lemma yields_typing user name st type :
  chat_state_type st = Some type → yields (typing_message user name type) (typing_request user name st).
Proof.
  unfold typing_message. destruct st; intros [= <-]; read_back.
Qed.

Lemma yields_attention user name text :
  yields (WRAP (SerializeToString (conv_message user name text)) TYPE_ATTENTION)
    [NetworkPlugin.AttentionRequest user name text].
Proof. unfold conv_message. read_back. Qed.

Lemma yields_subject user name text :
  yields (WRAP (SerializeToString (conv_message user name text)) TYPE_ROOM_SUBJECT_CHANGED)
    [NetworkPlugin.RoomSubjectChangedRequest user name text].
Proof. unfold conv_message. read_back. Qed.

Lemma yields_changed user b :
  yields (buddy_message user b TYPE_BUDDY_CHANGED None)
    [NetworkPlugin.BuddyUpdatedRequest user (ct_name b) (ct_alias b) (ct_groups b)].
Proof. unfold buddy_message. read_back. Qed.

Lemma yields_block user b blocked :
  yields (buddy_message user b TYPE_BUDDY_CHANGED (Some blocked))
    [NetworkPlugin.BuddyBlockToggled user (ct_name b) blocked].
Proof. unfold buddy_message. read_back. Qed.

Lemma yields_removed user b :
  yields (buddy_message user b TYPE_BUDDY_REMOVED None)
    [NetworkPlugin.BuddyRemovedRequest user (ct_name b) (ct_groups b)].
Proof. unfold buddy_message. read_back. Qed.

Lemma yields_vcard_request user name id :
  yields (WRAP (SerializeToString (VCard.empty |> (VCard.set_userName user) |> (VCard.set_buddyName name)
    |> (VCard.set_id id))) TYPE_VCARD)
    (if String.eqb name "" then [] else [NetworkPlugin.VCardRequest user name id]).
Proof.
  destruct name as [|a name]; [|read_back]. read_frame. unfold logged. rewrite app_nil_r. by destruct pl.
Qed.

Lemma yields_raw xml : yields (raw_stanza xml) [NetworkPlugin.RawXML xml].
Proof. apply yields_wrap. intros pl. unfold NetworkPlugin.dispatch. cbn -[SerializeToString ParseFromString]. reflexivity. Qed.

Lemma send_body_run u k user name (m : OutMessage J) p :
  serving u k user p →
  wrote u k user (if String.eqb (str (om_body m)) "" && String.eqb (str (om_xhtml m)) "" then []
     else [NetworkPlugin.MessageSendRequest user name (str (om_body m)) (str (om_xhtml m))
            (if om_receiptRequest m then om_id m else "")]) p (send_body u user name m p).
Proof.
  intros Hs. unfold send_body. destruct (_ && String.eqb (str (om_xhtml m)) _); [by apply wrote_nothing|].
  apply send_to_backend_run; [done|].
  destruct (om_receiptRequest m); simpl (false && _); simpl (true && _).
  - destruct (String.eqb_spec (om_id m) "") as [->|]; simpl (negb _); unfold conv_message; read_back.
  - unfold conv_message. read_back.
Qed.

Lemma handleMessageReceived_run u k user name (m : OutMessage J) p :
  serving u k user p →
  wrote u k user (if rawxml then [NetworkPlugin.RawXML (serializeMessage (setOutTo (legacy_to (om_to m)) m))]
    else message_requests user name m) p
    (handleMessageReceived rawxml serializeMessage u user name m p).
Proof.
  intros Hs. unfold handleMessageReceived. destruct rawxml.
  { apply (wrote_bind _ _ _ [] _ _ _ _ (touch_run _ _ _ _ Hs)). intros p' Hs'. unfold send_raw.
    apply send_to_backend_run; [done|apply yields_raw]. }
  apply (wrote_bind _ _ _ [] _ _ _ _ (touch_run _ _ _ _ Hs)). clear p Hs. intros p Hs.
  assert (Hrest : ∀ p, serving u k user p → wrote u k user
    (if om_attention m then [NetworkPlugin.AttentionRequest user name (str (om_body m))]
     else if negb (String.eqb (om_subject m) "") then
       [NetworkPlugin.RoomSubjectChangedRequest user name (om_subject m)]
     else if String.eqb (str (om_body m)) "" && String.eqb (str (om_xhtml m)) "" then []
     else [NetworkPlugin.MessageSendRequest user name (str (om_body m)) (str (om_xhtml m))
            (if om_receiptRequest m then om_id m else "")]) p
    ((if om_attention m then
        send_unchecked u (WRAP (SerializeToString (conv_message user name (str (om_body m)))) TYPE_ATTENTION)
      else if negb (String.eqb (om_subject m) "") then
        send_unchecked u (WRAP (SerializeToString (conv_message user name (om_subject m)))
          TYPE_ROOM_SUBJECT_CHANGED)
      else send_body u user name m) p)).
  { clear p Hs. intros p Hs. destruct (om_attention m); [by apply send_unchecked_run, yields_attention|].
    destruct (negb _); [by apply send_unchecked_run, yields_subject|]. by apply send_body_run. }
  unfold message_requests, send_chat_state.
  destruct (om_chatState m) as [st|]; [|by apply Hrest].
  change (Some st ≫= chat_state_type) with (chat_state_type st).
  destruct (chat_state_type st) as [type|] eqn:E.
  - destruct (link_send_run _ _ _ _ Hs) as (c & Hd & Hw).
    pose proof (wrote_bind u k user _ _ p (link_send c (typing_message user name type)) _
      (Hw _ _ (yields_typing user name st type E)) Hrest) as Hall.
    rewrite bind_run in Hall. rewrite bind_run, (bind_done _ _ _ _ _ Hd), bind_run.
    by destruct (link_send c (typing_message user name type) p) as [[] ?|]; [exact Hall|exact Hall].
  - replace (typing_request user name st) with (@nil NetworkPlugin.request) by (by destruct st).
    by apply Hrest.
Qed.
Lemma presence_run u k user (pr : Presence J) invisible p :
  serving u k user p → (rawxml = true → toString (toBare (pr_from pr)) = user) →
  wrote u k user (requests_of rawxml serializePresence serializeMessage user (CallPresence pr invisible)) p
    (handleUserPresenceChanged rawxml serializePresence u user pr invisible p).
Proof.
  intros Hs Hfrom. unfold requests_of, handleUserPresenceChanged. case_bool_decide; [by apply wrote_nothing|].
  assert (∀ pr' : Presence J, pr_show pr' = pr_show pr → pr_status pr' = pr_status pr → ∀ p, serving u k user p →
    wrote u k user (match (if invisible then Some STATUS_INVISIBLE else StatusType_of_show (pr_show pr)) with
      | Some status => [NetworkPlugin.StatusChangeRequest user status (pr_status pr)]
      | None => []
      end) p ((let status := if invisible then Some STATUS_INVISIBLE else StatusType_of_show (pr_show pr') in
      match status with
      | Some status => send_to_backend u (status_message user status (pr_status pr'))
      | None => mret tt
      end) p)) as Hstatus.
  { intros pr' -> -> q Hq. destruct (if invisible then _ else _); [|by apply wrote_nothing].
    by apply send_to_backend_run, yields_status. }
  unfold handleRawPresenceReceived. destruct rawxml; cbn [negb]; [|rewrite bind_run; by apply Hstatus].
  destruct (link_send_run _ _ _ _ Hs) as (c & Hd & Hw). set (pr' := setPresenceTo (legacy_to (pr_to pr)) pr).
  set (sent := λ pr' : Presence J, match (if invisible then Some STATUS_INVISIBLE else StatusType_of_show (pr_show pr')) with
    | Some status => send_to_backend u (status_message user status (pr_status pr'))
    | None => mret tt
    end) in *.
  assert (∀ k : Presence J → prog Pool unit,
    ((user_ ← link_getUser (toString (toBare (pr_from pr)));
      match user_ with
      | None => mret pr
      | Some u =>
          c ← link_getData u;
          match c with
          | None => mret pr
          | Some c => link_send c (raw_stanza (serializePresence pr')) ;; mret pr'
          end
      end) ≫= k) p = (link_send c (raw_stanza (serializePresence pr')) ;; k pr') p) as Hrun.
  { intros k'. rewrite !bind_run. cbn [link_getUser pool_link]. rewrite !bind_run. cbn beta iota delta [get]. rewrite ret_run.
    rewrite Hfrom by done. destruct Hs as [Hm _]. rewrite Hm, (bind_done _ _ _ _ _ Hd), bind_run.
    by destruct (link_send c _ p) as [[] q|]. }
  rewrite Hrun. apply wrote_bind; [apply Hw, yields_raw|intros q Hq; by apply (Hstatus pr')].
Qed.

Abbreviation requests := (requests_of rawxml serializePresence serializeMessage).

Lemma perform_run u k user c p :
  serving u k user p → call_defined rawxml user c → wrote u k user (requests user c) p (perform u user c p).
Proof.
  intros Hs Hc. destruct c as [pr invisible|room nickname password|room|name m|b|b|b|b|photo nickname|name id];
    [by apply presence_run|simpl..].
  - by apply send_to_backend_run, yields_join.
  - by apply send_to_backend_run, yields_leave.
  - by apply handleMessageReceived_run.
  - by apply send_to_backend_run, yields_changed.
  - by apply send_to_backend_run, yields_changed.
  - by apply send_to_backend_run, yields_removed.
  - by apply send_to_backend_run, yields_block.
  - destruct photo as [|a photo]; [done|]. apply send_to_backend_run; [done|]. read_back.
  - by apply send_to_backend_run, yields_vcard_request.
Qed.

Lemma performs_run u k user calls p :
  serving u k user p → Forall (call_defined rawxml user) calls →
  wrote u k user (flat_map (requests user) calls) p (for_each calls (perform u user) p).
Proof.
  intros Hs Hc. revert p Hs. induction Hc as [|c calls Hc _ IH]; intros p Hs; [by apply wrote_nothing|].
  simpl flat_map. simpl for_each. apply wrote_bind; [by apply perform_run|done].
Qed.

Lemma writes_frames k msgs : writes k (map (λ m, Write k (send_frame m)) msgs) = map send_frame msgs.
Proof.
  induction msgs as [|m msgs IH]; [done|]. simpl map. rewrite <- IH. unfold writes. simpl.
  by rewrite decide_True by done.
Qed.
(** ** The property *)

(** C15: a user's actions arrive. For whatever sequence of presences, rooms, messages, changes
    of contacts and vCards of a user on a backend, with raw XML or without it, provided that a
    vCard has a photo that is not empty and, with raw XML, presences come from the user
    himself, the handlers run to their end; and if each frame is shorter than 2^32 bytes, then
    however the network cuts what they wrote on the backend's connection into pieces, the
    backend's NetworkPlugin calls exactly the request handlers the specification lists, once
    each and in order, and has nothing left to read. *)
Theorem calls_reach_the_backend u k user (calls : list (call J)) p :
  serving u k user p → Forall (call_defined rawxml user) calls →
  ∃ p' es, for_each calls (perform u user) p = Done tt p' ∧ events p' = events p ++ es ∧ serving u k user p' ∧
    ∀ chunks pl,
      Forall (λ data, Z.of_nat (length data) < 2 ^ 32 + 4)%Z (writes k es) →
      concat chunks = concat (writes k es) → NetworkPlugin.m_data pl = [] →
      deliver chunks pl = Done tt (logged (flat_map (requests user) calls) [] pl).
Proof.
  intros Hs Hc. destruct (performs_run u k user calls p Hs Hc) as (p' & msgs & rss & E & Hs' & Hev & Hy & Hr).
  exists p', (map (λ m, Write k (send_frame m)) msgs). split_and!; [done..|].
  rewrite writes_frames. intros chunks pl Hlen Hchunks Hbuf.
  assert (Hframes : frames (concat chunks) = (msgs, [])).
  { rewrite Hchunks. replace (concat _) with (concat (map send_frame msgs) ++ []) by apply app_nil_r.
    rewrite frames_send_all; [by rewrite app_nil_r|]. apply Forall_fmap in Hlen.
    eapply Forall_impl; [exact Hlen|]. intros m. unfold compose, send_frame. simpl.
    simpl. lia. }
  rewrite (deliver_frames chunks pl rss); rewrite Hbuf; simpl; rewrite ?Hframes; [by rewrite Hr|done|done].
Qed.

(** *** Users without a backend *)

Definition waiting (u : uid) (p : Pool) : Prop := ∃ o, users p !! u = Some o ∧ u_data o = None.

(** The messages whose handler does not look at the pointer first. *)
Definition unguarded (c : call J) : bool :=
  match c with
  | CallMessage _ m =>
      bool_decide (om_chatState m ≫= chat_state_type = None)
      && (om_attention m || negb (String.eqb (om_subject m) ""))
  | _ => false
  end.

Lemma no_data_run u p : waiting u p → link_getData u p = Done None p.
Proof.
  intros (o & Hu & Hd). cbn [link_getData pool_link]. unfold load_user. rewrite !bind_run.
  cbn beta iota delta [get]. rewrite Hu. cbn. by rewrite Hd.
Qed.

Lemma no_backend_run u m p : waiting u p → send_to_backend u m p = Done tt p.
Proof. intros Hd%no_data_run. unfold send_to_backend. by rewrite (bind_done _ _ _ _ _ Hd). Qed.

Lemma unchecked_run u m p : waiting u p → send_unchecked u m p = Fault NullDereference.
Proof. intros Hd%no_data_run. unfold send_unchecked. by rewrite (bind_done _ _ _ _ _ Hd). Qed.

Lemma waiting_touch u p : waiting u p →
  ∃ p', link_updateLastActivity u p = Done tt p' ∧ events p' = events p ∧ waiting u p'.
Proof.
  intros (o & Hu & Hd). cbn [link_updateLastActivity pool_link]. rewrite bind_run.
  cbn beta iota delta [get]. unfold update_user, load_user. rewrite !bind_run.
  cbn beta iota delta [get]. rewrite Hu. cbn beta iota delta [deref]. rewrite ret_run.
  eexists. split; [reflexivity|]. split; [done|].
  exists (set_lastActivity (now p) o). simpl. by rewrite lookup_insert_eq.
Qed.

(** what a user without a backend does is dropped: nothing is written to any
    connection. But an attention request or the change of a room's subject ends
    in a null pointer dereference, unless it carries a chat state, whose part of
    the handler returns first. *)
Theorem calls_without_backend u user c p :
  waiting u p → rawxml = false → call_defined rawxml user c →
  if unguarded c then perform u user c p = Fault NullDereference
  else ∃ p', perform u user c p = Done tt p' ∧ events p' = events p.
Proof.
  intros Hw Hr Hc. destruct c as [pr invisible|room nickname password|room|name m|b|b|b|b|photo nickname|name id];
    simpl; try (exists p; split; [by apply no_backend_run|done]).
  - exists p. split; [|done]. unfold handleUserPresenceChanged. case_bool_decide; [done|].
    unfold handleRawPresenceReceived. rewrite Hr, bind_run. simpl (if negb false then _ else _). rewrite ret_run.
    destruct (if invisible then _ else _); [by apply no_backend_run|done].
  - destruct (waiting_touch u p Hw) as (p' & E & Hev & Hw'). unfold handleMessageReceived.
    rewrite Hr, (bind_done _ _ _ _ _ E). unfold send_chat_state.
    destruct (om_chatState m ≫= chat_state_type) as [type|]; simpl (bool_decide _).
    + exists p'. split; [|done]. by rewrite bind_run, (bind_done _ _ _ _ _ (no_data_run _ _ Hw')).
    + rewrite bind_run, ret_run. simpl (if negb true then _ else _). simpl (true && _).
      destruct (om_attention m); simpl (_ || _); [by apply unchecked_run|].
      destruct (negb _); [by apply unchecked_run|]. exists p'. split; [|done].
      unfold send_body. destruct (_ && _); [done|by apply no_backend_run].
  - destruct photo; [done|]. exists p. split; [by apply no_backend_run|done].
Qed.
End wire.

(** A user on a backend that enters a room, types, says something and asks for
    a vCard. *)
Definition sample_pool : Pool :=
  mkPool {[1 := mkBackend 1 [2] (Some 7) 0 0 0 true false false "1"]}
    {[2 := mkUser "u@h" (mkUserInfo 1 "u@h" "u" "" "" "" false []) (Some 1) true true false 0 0 0 [] 1]}
    [1] [] [] false [] false 0 false {["u@h"%string := 2]} None 0 0 3 [].

Definition sample_calls : list (call ref_jid) :=
  [CallRoomJoined "#room" "me" "";
   CallMessage "#room" (mkOutMessage (mkRefJid "r" "h" "") "id1" (Some Active) false "" (Some "hi"%string) None true);
   CallVCardRequired "friend" 3].

#[local] Instance no_memory : NetworkPlugin.ProcessMemory :=
  NetworkPlugin.Build_ProcessMemory 0 0 0 0 "1".

Lemma calls_reach_the_backend_witness :
  ∃ p' es, for_each sample_calls (perform false (λ _, []) (λ _, []) 2 "u@h") sample_pool = Done tt p' ∧
    deliver [take 9 (concat (writes 7 es)); drop 9 (concat (writes 7 es))]
      (NetworkPlugin.mkPlugin [] true 0 []) =
    Done tt (NetworkPlugin.mkPlugin [] true 0 (map NetworkPlugin.Request
      [NetworkPlugin.JoinRoomRequest "u@h" "#room" "me" "";
       NetworkPlugin.StoppedTypingRequest "u@h" "#room";
       NetworkPlugin.MessageSendRequest "u@h" "#room" "hi" "" "id1";
       NetworkPlugin.VCardRequest "u@h" "friend" 3])).
Proof.
  destruct (calls_reach_the_backend false (λ _, []) (λ _, []) 2 7 "u@h" sample_calls sample_pool)
    as (p' & es & E & Hev & _ & Hd).
  - split; [reflexivity|]. repeat eexists; reflexivity.
  - repeat constructor.
  - exists p', es. split; [done|]. rewrite Hd; [reflexivity| |by simpl; rewrite app_nil_r, take_drop|done].
    assert (Hl : match for_each sample_calls (perform false (λ _, []) (λ _, []) 2 "u@h") sample_pool with
                 | Done _ p' => forallb (λ data, Z.of_nat (length data) <? 2 ^ 32 + 4)%Z (writes 7 (events p'))
                 | Fault _ => false
                 end = true) by (vm_compute; reflexivity).
    rewrite E, Hev in Hl. simpl app in Hl. apply Forall_forall. intros data Hin.
    eapply forallb_forall in Hl; [|by apply list_elem_of_In]. by apply Z.ltb_lt in Hl.
Defined.

Lemma calls_without_backend_witness :
  perform false (λ _, []) (λ _, []) 2 "u@h"
    (CallMessage "buddy" (mkOutMessage (mkRefJid "b" "h" "") "" None true "" None None false))
    (with_users (alter (setData None) 2) sample_pool) = Fault NullDereference.
Proof.
  apply (calls_without_backend false (λ _, []) (λ _, []) 2 "u@h" (CallMessage "buddy"
    (mkOutMessage (mkRefJid "b" "h" "") "" None true "" None None false))); [|done..].
  eexists. split; reflexivity.
Defined.
