(* ===== verification/Typing.v ===== *)
(** * Every frame is well typed

    The type discipline of the wire: whatever the pool or the handlers of
    [Outgoing] write to a backend is a frame whose wrapper parses, with a payload
    that parses as a message of the wrapper's type. *)

From S2P Require Import Prelude StdMap Swiften Protocol Framing ReferenceCodec Names Pool Outgoing Wire.
Import pbnetwork.

Section typing.
Context `{Protobuf}.

(** The message a wrapper of this type carries; a raw stanza and the payload of
    the other types are not messages. *)
Definition payload_typed (type : MessageType) (payload : option bytes) : Prop :=
  let data := default [] payload in
  match type with
  | TYPE_LOGIN => is_Some (ParseFromString data : option Login.t)
  | TYPE_LOGOUT => is_Some (ParseFromString data : option Logout.t)
  | TYPE_BUDDIES => is_Some (ParseFromString data : option Buddies.t)
  | TYPE_STATUS_CHANGED => is_Some (ParseFromString data : option Status.t)
  | TYPE_JOIN_ROOM | TYPE_LEAVE_ROOM => is_Some (ParseFromString data : option Room.t)
  | TYPE_CONV_MESSAGE | TYPE_ATTENTION | TYPE_ROOM_SUBJECT_CHANGED =>
      is_Some (ParseFromString data : option ConversationMessage.t)
  | TYPE_BUDDY_TYPING | TYPE_BUDDY_TYPED | TYPE_BUDDY_STOPPED_TYPING | TYPE_BUDDY_CHANGED | TYPE_BUDDY_REMOVED =>
      is_Some (ParseFromString data : option Buddy.t)
  | TYPE_VCARD => is_Some (ParseFromString data : option VCard.t)
  | TYPE_API_VERSION => is_Some (ParseFromString data : option APIVersion.t)
  | TYPE_QUERY => is_Some (ParseFromString data : option BackendConfig.t)
  | TYPE_PING | TYPE_EXIT => payload = None
  | TYPE_RAW_XML => True
  | _ => False
  end.

Definition message_typed (message : bytes) : Prop :=
  ∃ w type, ParseFromString message = Some w ∧ WrapperMessage.type w = Some type ∧
    payload_typed type (WrapperMessage.payload w).

Definition event_typed (e : Pool.event) : Prop :=
  match e with
  | Write _ data => ∃ message, data = send_frame message ∧ message_typed message
  | _ => True
  end.

Definition typed (p : Pool) : Prop := Forall event_typed (events p).

(** ** Messages *)

Lemma typed_wrap {M : Type} {init : M → bool} `{ProtoCodec M init} (m : M) (type : MessageType) :
  init m = true → payload_typed type (Some (SerializeToString m)) → message_typed (WRAP (SerializeToString m) type).
Proof. intros Hm Ht. eexists _, type. split; [by apply parse_serialize|done]. Qed.

Lemma typed_empty type : payload_typed type None → message_typed (WRAP_empty type).
Proof. intros Ht. eexists _, type. split; [by apply parse_serialize|done]. Qed.

Ltac well_typed := apply typed_wrap; [|simpl; rewrite parse_serialize]; done.

Lemma typed_ping : message_typed (WRAP_empty TYPE_PING).
Proof. by apply typed_empty. Qed.
Lemma typed_exit : message_typed (WRAP_empty TYPE_EXIT).
Proof. by apply typed_empty. Qed.
Lemma typed_login o : message_typed (login_message o).
Proof. unfold login_message. well_typed. Qed.
Lemma typed_logout o : message_typed (logout_message o).
Proof. unfold logout_message. well_typed. Qed.

Lemma typed_buddies o : message_typed (buddies_message o).
Proof.
  unfold buddies_message. assert (Hi : Buddies.IsInitialized (Buddies.make
    (buddy_of_entry (u_jid o) <$> omap (λ e, e) (u_roster o))) = true).
  { unfold Buddies.IsInitialized. simpl. induction (omap _ _) as [|e l IH]; simpl; [done|exact IH]. }
  apply typed_wrap; [exact Hi|]. simpl. by rewrite parse_serialize.
Qed.

Lemma typed_answer text : message_typed (query_answer text).
Proof. unfold query_answer. well_typed. Qed.
Lemma typed_raw xml : message_typed (raw_stanza xml).
Proof. unfold raw_stanza. eexists _, TYPE_RAW_XML. split; [by apply parse_serialize|done]. Qed.
Lemma typed_version : message_typed api_version_message.
Proof. unfold api_version_message. well_typed. Qed.

Create HintDb frames.
#[local] Hint Resolve typed_ping typed_exit typed_login typed_logout typed_buddies typed_answer typed_raw typed_version : frames.

(** ** The pool *)

Lemma typed_log e : event_typed e → spec any_fault typed (log e) (λ _, typed).
Proof. intros He p Hp. apply Forall_app. by split; [|constructor]. Qed.

Lemma typed_modify f : (∀ p, events (f p) = events p) → spec any_fault typed (modify f) (λ _, typed).
Proof. intros Hf p Hp. change (typed (f p)). unfold typed. by rewrite Hf. Qed.

Lemma typed_load_user w : spec any_fault typed (load_user w) (λ _, typed).
Proof. unfold load_user. walk_step; [by apply spec_get|]. by apply spec_deref. Qed.

Lemma typed_load_backend c : spec any_fault typed (load_backend c) (λ _, typed).
Proof. unfold load_backend. walk_step; [by apply spec_get|]. by apply spec_deref. Qed.

Lemma typed_send_to c m : message_typed m → spec any_fault typed (send_to c m) (λ _, typed).
Proof.
  intros Hm. unfold send_to. walk_step; [apply typed_load_backend|]. walk_step. apply typed_log. simpl. eauto.
Qed.

Ltac frame_walk :=
  repeat first
    [ walk_step
    | apply typed_load_user | apply typed_load_backend
    | apply typed_send_to; solve [auto with frames]
    | apply typed_log; done
    | apply typed_modify; done
    | solve [auto with frames]
    | progress unfold update_user, update_backend, setIgnoreDisconnect ].

Context (cfg : PoolConfig) (settings : Z → list (string * string) → list (string * string)).

Abbreviation keeps m := (spec any_fault typed m (λ _, typed)).

Lemma typed_sendPing c : keeps (sendPing c).
Proof. unfold sendPing. frame_walk. Qed.

Lemma typed_find_free a l xs : keeps (find_free cfg a l xs).
Proof. induction xs as [|c xs IH]; simpl; frame_walk; apply IH. Qed.

Lemma typed_getFreeClient a l check : keeps (getFreeClient cfg a l check).
Proof. unfold getFreeClient, spawn_backend. frame_walk; apply typed_find_free. Qed.
#[local] Hint Resolve typed_sendPing typed_getFreeClient : frames.

Lemma typed_handleUserCreated w : keeps (handleUserCreated cfg w).
Proof. unfold handleUserCreated. frame_walk. Qed.

Lemma typed_handleUserReadyToConnect w : keeps (handleUserReadyToConnect cfg w).
Proof. unfold handleUserReadyToConnect. frame_walk. Qed.

Lemma typed_handleUserDestroyed w : keeps (handleUserDestroyed cfg w).
Proof. unfold handleUserDestroyed. frame_walk. Qed.

Lemma typed_getUser name : keeps (Pool.getUser cfg settings name).
Proof. unfold Pool.getUser. frame_walk. Qed.
#[local] Hint Resolve typed_handleUserCreated typed_handleUserReadyToConnect typed_handleUserDestroyed typed_getUser : frames.

Lemma typed_removeUser w b : keeps (removeUser cfg w b).
Proof. unfold removeUser. frame_walk. Qed.
#[local] Hint Resolve typed_removeUser : frames.

Lemma typed_handleDisconnected w error e : keeps (handleDisconnected cfg settings w error e).
Proof. unfold handleDisconnected, onReadyToConnect. frame_walk. Qed.
#[local] Hint Resolve typed_handleDisconnected : frames.

Lemma typed_connect_waiting fuel : keeps (connect_waiting cfg fuel).
Proof. induction fuel as [|fuel IH]; simpl; frame_walk; apply IH. Qed.
#[local] Hint Resolve typed_connect_waiting : frames.

Lemma typed_handleSessionFinished c : keeps (handleSessionFinished cfg settings c).
Proof. unfold handleSessionFinished. frame_walk. Qed.
#[local] Hint Resolve typed_handleSessionFinished : frames.

Lemma typed_moveToLongRunBackend u : keeps (moveToLongRunBackend cfg u).
Proof. unfold moveToLongRunBackend. frame_walk. Qed.

Lemma typed_idle_among diff us : keeps (idle_among diff us).
Proof. induction us as [|u us IH]; simpl; frame_walk; apply IH. Qed.
#[local] Hint Resolve typed_idle_among : frames.

Lemma typed_idle_users diff l : keeps (idle_users diff l).
Proof. induction l as [|c l IH]; simpl; frame_walk; apply IH. Qed.

Lemma typed_ping_backends l : keeps (ping_backends l).
Proof. induction l as [|c l IH]; simpl; frame_walk; apply IH. Qed.

Lemma typed_biggest max best l : keeps (biggest max best l).
Proof. revert max best. induction l as [|c l IH]; intros max best; simpl; frame_walk; apply IH. Qed.

Lemma typed_remove_all fuel b : keeps (remove_all cfg fuel b).
Proof. induction fuel as [|fuel IH]; simpl; frame_walk; apply IH. Qed.
#[local] Hint Resolve typed_moveToLongRunBackend typed_idle_users typed_ping_backends typed_biggest typed_remove_all : frames.

Lemma typed_pingTimeout : keeps (pingTimeout cfg settings).
Proof.
  unfold pingTimeout. frame_walk. apply spec_for_each_until. intros u _. apply typed_moveToLongRunBackend.
Qed.

Lemma typed_react i : keeps (react cfg settings i).
Proof.
  destruct i; cbn [react];
    unfold handleNewClientConnection, handlePongReceived, connectWaitingUsers, handleStatsPayload,
      handleConnectedPayload, handleDisconnectedPayload, handlePIDTerminated, collectBackend, loginDelayFinished,
      loginUser, create_user, addUser, removeAllUsers, onConnectingTimeout, onReadyToConnect, setConnected,
      connectWaitingUsers; try apply typed_pingTimeout; frame_walk.
Qed.

(** ** The handlers of a user's calls *)

Section calls.
Context {J : Type} `{Jid J}.
Context (rawxml : bool) (serializePresence : Presence J → bytes) (serializeMessage : OutMessage J → bytes).

Lemma typed_status user status text : message_typed (status_message user status text).
Proof. unfold status_message. well_typed. Qed.
Lemma typed_join user nickname room password : message_typed (room_message user nickname room password TYPE_JOIN_ROOM).
Proof. unfold room_message. well_typed. Qed.
Lemma typed_leave user room : message_typed (room_message user "" room "" TYPE_LEAVE_ROOM).
Proof. unfold room_message. well_typed. Qed.
Lemma typed_typing user name st type : chat_state_type st = Some type → message_typed (typing_message user name type).
Proof. unfold typing_message. destruct st; intros [= <-]; well_typed. Qed.
Lemma typed_attention user name text :
  message_typed (WRAP (SerializeToString (conv_message user name text)) TYPE_ATTENTION).
Proof. unfold conv_message. well_typed. Qed.
Lemma typed_subject user name text :
  message_typed (WRAP (SerializeToString (conv_message user name text)) TYPE_ROOM_SUBJECT_CHANGED).
Proof. unfold conv_message. well_typed. Qed.
Lemma typed_changed user b blocked : message_typed (buddy_message user b TYPE_BUDDY_CHANGED blocked).
Proof. unfold buddy_message. destruct blocked; well_typed. Qed.
Lemma typed_removed user b : message_typed (buddy_message user b TYPE_BUDDY_REMOVED None).
Proof. unfold buddy_message. well_typed. Qed.
#[local] Hint Resolve typed_status typed_join typed_leave typed_attention typed_subject typed_changed typed_removed : frames.

Lemma typed_getData u : keeps (link_getData (S := Pool) u).
Proof. cbn [link_getData pool_link]. frame_walk. Qed.

Lemma typed_send_to_backend u m : message_typed m → keeps (send_to_backend (S := Pool) u m).
Proof.
  intros Hm. unfold send_to_backend. walk_step; [apply typed_getData|].
  walk_step; [by apply typed_send_to|by apply spec_ret].
Qed.

Lemma typed_send_unchecked u m : message_typed m → keeps (send_unchecked (S := Pool) u m).
Proof.
  intros Hm. unfold send_unchecked. walk_step; [apply typed_getData|]. walk_step. by apply typed_send_to.
Qed.

Lemma typed_send_body u user name (m : OutMessage J) : keeps (send_body (S := Pool) u user name m).
Proof.
  unfold send_body. walk_step; [by apply spec_ret|]. apply typed_send_to_backend. unfold conv_message.
  destruct (om_receiptRequest m && negb (String.eqb (om_id m) "")); well_typed.
Qed.

Lemma typed_send_chat_state u user name (m : OutMessage J) : keeps (send_chat_state (S := Pool) u user name m).
Proof.
  unfold send_chat_state. destruct (om_chatState m) as [st|]; simpl; [|by apply spec_ret].
  destruct (chat_state_type st) as [type|] eqn:E; [|by apply spec_ret].
  walk_step; [apply typed_getData|]. walk_step; [|by apply spec_ret].
  walk_step; [apply typed_send_to; by eapply typed_typing|by apply spec_ret].
Qed.

Lemma typed_handleMessageReceived u user name (m : OutMessage J) :
  keeps (handleMessageReceived (S := Pool) rawxml serializeMessage u user name m).
Proof.
  unfold handleMessageReceived. walk_step; [cbn [link_updateLastActivity pool_link]; frame_walk|].
  destruct rawxml; [unfold send_raw; apply typed_send_to_backend; auto with frames|]. walk_step; [apply typed_send_chat_state|].
  walk_step; [by apply spec_ret|].
  walk_step; [apply typed_send_unchecked; auto with frames|].
  walk_step; [apply typed_send_unchecked; auto with frames|apply typed_send_body].
Qed.

Lemma typed_handleUserPresenceChanged u user p invisible :
  keeps (handleUserPresenceChanged (S := Pool) rawxml serializePresence u user p invisible).
Proof.
  unfold handleUserPresenceChanged, handleRawPresenceReceived. walk_step; [by apply spec_ret|].
  walk_step; [destruct rawxml; cbn [negb link_getUser link_getData link_send pool_link]; frame_walk|].
  destruct (if invisible then _ else _); [apply typed_send_to_backend; auto with frames|by apply spec_ret].
Qed.

Lemma typed_perform u user (c : call J) : keeps (perform rawxml serializePresence serializeMessage u user c).
Proof.
  destruct c; cbn [perform];
    first [apply typed_handleUserPresenceChanged | apply typed_handleMessageReceived
          | apply typed_send_to_backend; solve [auto with frames | well_typed] | idtac].
  destruct photo; [by intros p Hp|]. apply typed_send_to_backend. well_typed.
Qed.

Lemma typed_stop_backends : keeps stop_backends.
Proof. unfold stop_backends. frame_walk. Qed.

Lemma typed_sendAPIVersion c : keeps (sendAPIVersion c).
Proof. unfold sendAPIVersion. frame_walk. Qed.

(** The server at work: the pool reacts, users do things, whose stanzas may go to the backend
    as they are (query_received and handleRawIQReceived of [Server] send these two), and the
    server tells a backend its version and stops them all. *)
Inductive running : Pool → Prop :=
  | run_initial time pid next : running (initial time pid next)
  | run_react i p p' : running p → react cfg settings i p = Done tt p' → running p'
  | run_call u user c p p' :
      running p → perform rawxml serializePresence serializeMessage u user c p = Done tt p' → running p'
  | run_query c answer p p' : running p → send_to c (query_answer answer) p = Done tt p' → running p'
  | run_raw_iq c xml p p' : running p → send_to c (raw_stanza xml) p = Done tt p' → running p'
  | run_version c p p' : running p → sendAPIVersion c p = Done tt p' → running p'
  | run_stop p p' : running p → stop_backends p = Done tt p' → running p'.

(** C19: the server never writes garbage to a backend. Whatever the pool reacts to, users do,
    with raw XML or without it, and clients send as raw IQs, and whatever it answers to
    queries and tells all backends at their start and at its end, each write to a connection
    is one frame whose wrapper parses and names a type, with a payload that parses as the
    message of that type; a raw stanza is of any form. *)
Theorem frames_well_typed (p : Pool) (k : nat) (data : bytes) :
  running p → Write k data ∈ events p →
  ∃ message w type, data = send_frame message ∧ ParseFromString message = Some w ∧
    WrapperMessage.type w = Some type ∧ payload_typed type (WrapperMessage.payload w).
Proof.
  intros Hr Hin.
  assert (typed p) as Ht.
  { clear Hin. induction Hr as [time pid next|i p p' _ IH E|u user c p p' _ IH E|c answer p p' _ IH E|c xml p p' _ IH E|c p p' _ IH E|p p' _ IH E];
      [by repeat constructor|..]; match goal with E : ?m p = _ |- _ => assert (keeps m) as Hm by
        first [apply typed_react | apply typed_perform | apply typed_send_to; auto with frames | apply typed_sendAPIVersion | apply typed_stop_backends];
        specialize (Hm p IH); by rewrite E in Hm end. }
  unfold typed in Ht. rewrite Forall_forall in Ht. destruct (Ht _ Hin) as (m & -> & w & type & Hw). by exists m, w, type.
Qed.
End calls.
End typing.

(** The first backend connects: the pool writes a ping. *)
Lemma frames_well_typed_witness :
  let cfg := mkPoolConfig 10 true 0 0 false false false false in
  match react cfg (λ _ l, l) (NewConnection 7) (initial 0 1 2) with
  | Done _ p => Write 7 (send_frame (WRAP_empty TYPE_PING)) ∈ events p ∧
      ∃ message w type, send_frame (WRAP_empty TYPE_PING) = send_frame message ∧ ParseFromString message = Some w ∧
        WrapperMessage.type w = Some type ∧ payload_typed type (WrapperMessage.payload w)
  | Fault _ => False
  end.
Proof.
  intros cfg. destruct (react cfg (λ _ l, l) (NewConnection 7) (initial 0 1 2)) as [[] p|f] eqn:E; [|discriminate E].
  assert (Hin : Write 7 (send_frame (WRAP_empty TYPE_PING)) ∈ events p)
    by (injection E as <-; cbn [events]; set_solver).
  split; [done|]. apply (frames_well_typed (J := ref_jid) cfg (λ _ l, l) false (λ _, []) (λ _, []) p 7); [|done].
  eapply (run_react _ _ _ _ _ (NewConnection 7)); [apply (run_initial _ _ _ _ _ 0 1 2)|exact E].
Defined.
