(* ===== verification/Media.v ===== *)
(** * Pictures in incoming messages

    How NetworkPluginServer prepares a message of the legacy network for XMPP
    clients (libtransport/NetworkPluginServer.cpp: xhtml_trim, plaintext_trim,
    copySwiftMessage, addOobPayload, wrapIncomingMedia): every picture of the
    XHTML gets an out-of-band tag, and the message may be split around them. *)

From S2P Require Import Prelude Swiften.

(** ** Strings *)

Local Open Scope string_scope.
Local Open Scope list_scope.

Definition newline : string := String "010" "".
Definition tab : string := String "009" "".

(** s.erase(0, n), and s.erase(s.size() - n) *)
Definition drop_front (n : nat) (s : string) : string := substring n (String.length s - n) s.
Definition drop_back (n : nat) (s : string) : string := substring 0 (String.length s - n) s.

Definition is_one_of (t : string) (c : ascii) : bool :=
  existsb (Ascii.eqb c) (list_ascii_of_string t).

(** text.erase(0, text.find_first_not_of(t)): everything when there is none. *)
Fixpoint trim_front (t s : string) : string :=
  match s with
  | EmptyString => EmptyString
  | String c rest => if is_one_of t c then trim_front t rest else s
  end.

(** text.erase(text.find_last_not_of(t) + 1): npos + 1 is 0. *)
Fixpoint trim_back (t s : string) : string :=
  match s with
  | EmptyString => EmptyString
  | String c rest =>
      match trim_back t rest with
      | EmptyString => if is_one_of t c then EmptyString else String c EmptyString
      | rest => String c rest
      end
  end.

Definition blanks : string := (" " +:+ newline +:+ tab)%string.

Definition plaintext_trim (text : string) : string := trim_front blanks (trim_back blanks text).

(** Swift::XMLElement: a tag, its namespace, and text or children. *)
Inductive XMLElement := mkXMLElement (tag xmlns text : string) (nodes : list XMLElement).

(** What boost::regex_search answers: the text before the match, the match, its
    group, and the text behind it. *)
Record image_match := mkImageMatch {
  before : string;
  image_tag : string;
  image_url : string;
  after : string;
}.

Inductive OobMode := OobWrapAll | OobExclusive | OobSplit.

(** service.oob_split and service.oob_replace_body *)
Definition oob_mode (oob_split oob_replace_body : bool) : OobMode :=
  if oob_split then OobSplit else if oob_replace_body then OobExclusive else OobWrapAll.

(** ** The operations

    boost::algorithm::istarts_with and iends_with, the search for image_expr, and
    Swiften's XML printer are parameters. *)

Section media.
Context {J : Type} `{Jid J}.
Context (istarts_with iends_with : string → string → bool).
Context (regex_search : string → option image_match).
Context (serialize : XMLElement → string).

Definition trimmed : list string := [" "; newline; tab; "<br>"; "<br/>"].

(** The for loop: whether something matched, and what is left. *)
Definition trim_pass (test : string → string → bool) (drop : nat → string → string) (s : string)
    : bool * string :=
  foldl (λ '(m, s) t, if test s t then (true, drop (String.length t) s) else (m, s)) (false, s) trimmed.

(** The while loop; a pass that matched leaves a shorter string. *)
Fixpoint trim_loop (test : string → string → bool) (drop : nat → string → string) (fuel : nat) (s : string)
    : string :=
  let '(m, s) := trim_pass test drop s in
  match fuel with
  | O => s
  | S fuel => if m : bool then trim_loop test drop fuel s else s
  end.

Definition xhtml_trim (s : string) : string :=
  let s := trim_loop istarts_with drop_front (String.length s) s in
  trim_loop iends_with drop_back (String.length s) s.

Definition is_xhtml (p : Payload J) : bool :=
  match p with XHTMLIMPayload _ => true | _ => false end.

(** A new message has neither addresses nor a type; the subject is a payload. *)
Definition copySwiftMessage (msg : Message J) (xhtml body : string) : Message J :=
  mkMessage no_jid no_jid Chat body (m_subject msg)
    (List.filter (λ p, negb (is_xhtml p)) (m_payloads msg) ++ [XHTMLIMPayload xhtml]).

(** The description makes an element without text. *)
Definition oob_element (url description : string) : XMLElement :=
  mkXMLElement "x" "jabber:x:oob" ""
    (mkXMLElement "url" "" url []
     :: (if String.eqb description "" then [] else [mkXMLElement "desc" "" "" []])).

Definition addOobPayload (message : Message J) (url description : string) : Message J :=
  addPayload (RawXMLPayload (serialize (oob_element url description))) message.

Definition find_from (pos : nat) (needle s : string) : option nat := index pos needle s.

(** The text before a picture, in the split mode: the messages made of it, and
    the new position in the body. *)
Definition text_before (msg : Message J) (body : string) (body_pos : nat) (m : image_match)
    : list (Message J) * nat :=
  if String.eqb (before m) "" then ([], body_pos)
  else
    let xhtml_prev := xhtml_trim (before m) in
    let '(body_prev, body_pos) :=
      match find_from body_pos (image_url m) body with
      | Some body_match =>
          (plaintext_trim (substring body_pos (body_match - body_pos) body),
           (body_match + String.length (image_url m))%nat)
      | None => ("", body_pos)
      end in
    (if String.eqb xhtml_prev "" && String.eqb body_prev "" then []
     else [copySwiftMessage msg xhtml_prev body_prev], body_pos).

(** The loop of the split mode: the messages, the rest of the XHTML and the
    position in the body. *)
Fixpoint split_loop (fuel : nat) (msg : Message J) (body xhtml : string) (body_pos : nat)
    : list (Message J) * string * nat :=
  match fuel, regex_search xhtml with
  | S fuel, Some m =>
      let '(prev, body_pos) := text_before msg body body_pos m in
      let this := addOobPayload (copySwiftMessage msg (image_tag m) (image_url m)) (image_url m) "" in
      let '(rest, xhtml, body_pos) := split_loop fuel msg body (after m) body_pos in
      (prev ++ this :: rest, xhtml, body_pos)
  | _, _ => ([], xhtml, body_pos)
  end.

(** The text remainder. *)
Definition remainder (msg : Message J) (body xhtml : string) (body_pos : nat) : list (Message J) :=
  if String.eqb xhtml "" then []
  else
    let xhtml_prev := xhtml_trim xhtml in
    let body_prev := plaintext_trim (substring body_pos (String.length body - body_pos) body) in
    if String.eqb xhtml_prev "" && String.eqb body_prev "" then []
    else [copySwiftMessage msg xhtml_prev body_prev].

(** The loop of the other modes, on the message itself: it and the number of
    pictures, which the exclusive mode leaves at one. *)
Fixpoint wrap_loop (fuel : nat) (once : bool) (msg : Message J) (xhtml : string) : Message J * list string :=
  match fuel, regex_search xhtml with
  | S fuel, Some m =>
      let msg := addOobPayload msg (image_url m) "" in
      if once then (msg, [image_url m])
      else let '(msg, urls) := wrap_loop fuel once msg (after m) in (msg, image_url m :: urls)
  | _, _ => (msg, [])
  end.

(** A match is not empty, so the length of the XHTML is enough fuel. *)
Definition wrap_with (mode : OobMode) (msg : Message J) (body xhtml : string) : list (Message J) :=
  match mode with
  | OobSplit =>
      let '(result, rest, body_pos) := split_loop (String.length xhtml) msg body xhtml 0 in
      result ++ remainder msg body rest body_pos
  | OobWrapAll => [(wrap_loop (String.length xhtml) false msg xhtml).1]
  | OobExclusive =>
      match wrap_loop (String.length xhtml) true msg xhtml with
      | (msg, url :: _) => [setBody url msg]
      | (msg, []) => [msg]
      end
  end.

Fixpoint mentions (needle s : string) : bool :=
  String.prefix needle s || match s with EmptyString => false | String _ s => mentions needle s end.

(** msg->getBody().get() of a message that has no body reads an empty optional. *)
Definition wrapIncomingMedia {S} (mode : OobMode) (body : option string) (msg : Message J)
    : prog S (list (Message J)) :=
  match getXHTML msg with
  | None => mret [msg]
  | Some xhtml =>
      if negb (mentions "<img" xhtml) then mret [msg]
      else match body with
           | None => raise NullDereference
           | Some body => mret (wrap_with mode msg body xhtml)
           end
  end.
End media.

(** ** A search

    The expression image_expr, matched the way a backtracking engine does: from
    the first place that matches, with the longest text before the attribute. *)

Fixpoint span (f : ascii → bool) (s : string) : string * string :=
  match s with
  | EmptyString => (EmptyString, EmptyString)
  | String c rest =>
      if f c then let '(a, b) := span f rest in (String c a, b) else (EmptyString, s)
  end.

Definition strip (p s : string) : option string :=
  if String.prefix p s then Some (drop_front (String.length p) s) else None.

Definition is_space (c : ascii) : bool :=
  is_one_of (" " +:+ newline +:+ tab +:+ String "011" (String "012" (String "013" "")))%string c.
Definition is_quote (c : ascii) : bool := Ascii.eqb c "'" || Ascii.eqb c "034".

(** The attribute src with its quoted value, up to the end of the tag: what it
    takes, the value, and the rest. *)
Definition source_attribute (s : string) : option (string * string * string) :=
  r ← strip "src" s;
  let '(w1, r) := span is_space r in
  r ← strip "=" r;
  let '(w2, r) := span is_space r in
  match r with
  | EmptyString => None
  | String q r =>
      if negb (is_quote q) then None
      else
        let '(url, r) := span (λ c, negb (is_quote c)) r in
        match url, r with
        | EmptyString, _ | _, EmptyString => None
        | _, String q' r =>
            let '(w3, r) := span (λ c, negb (Ascii.eqb c ">")) r in
            match r with
            | EmptyString => None
            | String c r =>
                Some (("src" +:+ w1 +:+ "=" +:+ w2 +:+ String q (url +:+ String q' (w3 +:+ String c "")))%string, url, r)
            end
        end
  end.

(** What the tag may hold before it, the longest first. *)
Fixpoint attributes (s : string) : option (string * string * string) :=
  match s with
  | EmptyString => None
  | String c rest =>
      match (if Ascii.eqb c ">" then None else attributes rest) with
      | Some (taken, url, r) => Some (String c taken, url, r)
      | None => source_attribute s
      end
  end.

Definition image_here (s : string) : option (string * string * string) :=
  r ← strip "<img" s;
  let '(w, r) := span is_space r in
  if String.eqb w "" then None
  else '(taken, url, r) ← attributes r; Some (("<img" +:+ w +:+ taken)%string, url, r).

Fixpoint find_image (s : string) : option image_match :=
  match image_here s with
  | Some (tag, url, r) => Some (mkImageMatch "" tag url r)
  | None =>
      match s with
      | EmptyString => None
      | String c rest =>
          m ← find_image rest;
          Some (mkImageMatch (String c (before m)) (image_tag m) (image_url m) (after m))
      end
  end.

Example find_image_example :
  find_image "see <b>it</b><img alt=src src = 'http://x/y.png' />!" =
  Some (mkImageMatch "see <b>it</b>" "<img alt=src src = 'http://x/y.png' />" "http://x/y.png" "!").
Proof. reflexivity. Qed.

(** ** Lemmas *)

Lemma strip_app p s r : strip p s = Some r → s = (p +:+ r)%string.
Proof.
  unfold strip, drop_front. case_match eqn:E; [|done]. intros [= <-].
  revert s E. induction p as [|c p IH]; intros s E; simpl.
  - by rewrite Nat.sub_0_r, substring_all.
  - destruct s as [|d s]; [done|]. simpl in E. case_match; [subst|done].
    rewrite string_cons_app. simpl. f_equal. by apply IH.
Qed.

Lemma span_app f s : s = ((span f s).1 +:+ (span f s).2)%string.
Proof.
  induction s as [|c s IH]; simpl; [done|]. destruct (f c); [|done].
  destruct (span f s) as [a b]. simpl in *. by rewrite string_cons_app, IH at 1.
Qed.

(** Whoever takes a text takes its front. *)
Definition takes_front (f : string → option (string * string * string)) : Prop :=
  ∀ s taken url r, f s = Some (taken, url, r) → s = (taken +:+ r)%string.

Lemma source_attribute_front : takes_front source_attribute.
Proof.
  intros s taken url r. unfold source_attribute. simpl.
  destruct (strip "src" s) as [r1|] eqn:E1; [|done]. apply strip_app in E1 as ->. simpl.
  pose proof (span_app is_space r1) as Hw1. destruct (span is_space r1) as [w1 r2]. simpl in Hw1. subst r1.
  destruct (strip "=" r2) as [r3|] eqn:E2; [|done]. apply strip_app in E2 as ->. simpl.
  pose proof (span_app is_space r3) as Hw2. destruct (span is_space r3) as [w2 r4]. simpl in Hw2. subst r3.
  destruct r4 as [|q r5]; [done|]. destruct (negb (is_quote q)); [done|].
  pose proof (span_app (λ c, negb (is_quote c)) r5) as Hu. destruct (span _ r5) as [u r6]. simpl in Hu. subst r5.
  destruct u as [|u0 u]; [done|]. destruct r6 as [|q' r7]; [done|].
  pose proof (span_app (λ c, negb (Ascii.eqb c ">")) r7) as Hw3.
  destruct (span _ r7) as [w3 r8]. simpl in Hw3. subst r7.
  destruct r8 as [|c r9]; [done|]. intros [= <- _ <-].
  by autorewrite with texts.
Qed.

Lemma attributes_front : takes_front attributes.
Proof.
  intros s. induction s as [|c s IH]; intros taken url r; simpl; [done|].
  destruct (if Ascii.eqb c ">" then None else attributes s) as [[[t u] r']|] eqn:E.
  - intros [= <- <- <-]. destruct (Ascii.eqb c ">"); [done|].
      rewrite string_cons_app. f_equal. eauto.
  - intros E2. by apply source_attribute_front in E2.
Qed.

Lemma image_here_front : takes_front image_here.
Proof.
  intros s taken url r. unfold image_here.
  destruct (strip "<img" s) as [r1|] eqn:E1; [|done]. apply strip_app in E1 as ->. cbn [mbind option_bind].
  pose proof (span_app is_space r1) as Hw. destruct (span is_space r1) as [w r2]. simpl in Hw. subst r1.
  destruct (String.eqb w ""); [done|].
  destruct (attributes r2) as [[[t u] r3]|] eqn:E2; [|done]. apply attributes_front in E2 as ->.
  intros [= <- _ <-]. by autorewrite with texts.
Qed.

(** ** What a search promises *)

Class ImageSearch (regex_search : string → option image_match) : Prop := {
  search_splits s m :
    regex_search s = Some m → s = (before m +:+ image_tag m +:+ after m)%string;
  search_takes s m : regex_search s = Some m → image_tag m ≠ ""%string;
}.

#[export] Instance find_image_search : ImageSearch find_image.
Proof.
  split; intros s; induction s as [|c s IH]; intros m; cbn [find_image].
  - destruct (image_here "") as [[[t u] r]|] eqn:E; [|done]. intros [= <-]. by apply image_here_front in E.
  - destruct (image_here (String c s)) as [[[t u] r]|] eqn:E.
    + intros [= <-]. by apply image_here_front in E.
    + destruct (find_image s) as [m'|] eqn:E2; [|done]. intros [= <-]. simpl. rewrite string_cons_app. f_equal. by apply IH.
  - destruct (image_here "") as [[[t u] r]|] eqn:E; [|done]. by vm_compute in E.
  - destruct (image_here (String c s)) as [[[t u] r]|] eqn:E.
    + intros [= <-]. unfold image_here in E. destruct (strip "<img" (String c s)); [|done].
      cbn [mbind option_bind] in E. destruct (span is_space s0). destruct (String.eqb s1 ""); [done|].
      destruct (attributes s2) as [[[? ?] ?]|]; [|done]. by injection E as <- _ _.
    + destruct (find_image s) as [m'|] eqn:E2; [|done]. intros [= <-]. simpl. apply (IH m' eq_refl).
Qed.

(** ** The reference: text and pictures in turn *)

Inductive part := Text (text : string) | Picture (tag url : string).

Definition raw (p : part) : string := match p with Text s => s | Picture tag _ => tag end.
Definition text_part (s : string) : list part := if String.eqb s "" then [] else [Text s].

Section reference.
Context {J : Type} `{Jid J}.
Context (istarts_with iends_with : string → string → bool).
Context (regex_search : string → option image_match) `{!ImageSearch regex_search}.
Context (serialize : XMLElement → string).

Fixpoint parts_in (fuel : nat) (xhtml : string) : list part :=
  match fuel, regex_search xhtml with
  | S fuel, Some m => text_part (before m) ++ Picture (image_tag m) (image_url m) :: parts_in fuel (after m)
  | _, _ => text_part xhtml
  end.

Definition parts (xhtml : string) : list part := parts_in (String.length xhtml) xhtml.

Definition pictures (l : list part) : list (string * string) :=
  omap (λ p, match p with Picture tag url => Some (tag, url) | Text _ => None end) l.

(** What the part looks like in a message of its own. *)
Definition shown (p : part) : string :=
  match p with
  | Text s => xhtml_trim istarts_with iends_with s
  | Picture tag _ => tag
  end.

Definition picture_message (msg : Message J) (tu : string * string) : Message J :=
  addOobPayload serialize (copySwiftMessage msg tu.1 tu.2) tu.2 "".

Definition xhtml_of (m : Message J) : string :=
  default ""%string (getXHTML m).

Definition visible (l : list string) : list string := List.filter (λ s, negb (String.eqb s "")) l.

Lemma after_shorter s m : regex_search s = Some m → (String.length (after m) < String.length s)%nat.
Proof.
  intros E. pose proof (search_takes _ _ E) as Ht. apply search_splits in E. rewrite E at 1.
  rewrite !string_length_app. destruct (image_tag m); [done|]. simpl. lia.
Qed.

Lemma search_empty : regex_search "" = None.
Proof. destruct (regex_search "") eqn:E; [|done]. apply after_shorter in E. simpl in E. lia. Qed.

(** The parts are the whole text, and what no picture is in is one part. *)
Lemma parts_in_raw fuel xhtml : String.concat "" (map raw (parts_in fuel xhtml)) = xhtml.
Proof.
  assert (Hc : ∀ p l, String.concat "" (map raw (p :: l)) = (raw p +:+ String.concat "" (map raw l))%string).
  { intros p [|q l]; simpl; [by rewrite string_app_nil_r|done]. }
  assert (Ht : ∀ s l, String.concat "" (map raw (text_part s ++ l)) = (s +:+ String.concat "" (map raw l))%string).
  { intros s l. unfold text_part. destruct (String.eqb_spec s "") as [->|]; [done|]. apply Hc. }
  revert xhtml. induction fuel as [|fuel IH]; intros xhtml; simpl.
  - rewrite <- (app_nil_r (text_part _)), Ht. apply string_app_nil_r.
  - destruct (regex_search xhtml) as [m|] eqn:E.
    + apply search_splits in E. rewrite Ht, Hc, IH. simpl raw. by rewrite <- E.
    + rewrite <- (app_nil_r (text_part _)), Ht. apply string_app_nil_r.
Qed.

(** *** Every mode *)

Definition is_picture (m : Message J) : bool :=
  match last (m_payloads m) with Some (RawXMLPayload _) => true | _ => false end.

Abbreviation copy := (copySwiftMessage (J := J)).
Abbreviation wrap := (wrap_with istarts_with iends_with regex_search serialize).
Abbreviation remain := (remainder (J := J) istarts_with iends_with).

Lemma xhtml_of_copy msg x b : xhtml_of (copy msg x b) = x.
Proof.
  unfold xhtml_of, getXHTML, copySwiftMessage. simpl.
  induction (m_payloads msg) as [|[] l IH]; simpl; done.
Qed.

Lemma xhtml_of_picture msg tu : xhtml_of (picture_message msg tu) = tu.1.
Proof.
  unfold xhtml_of, getXHTML, picture_message, addOobPayload, copySwiftMessage. simpl.
  induction (m_payloads msg) as [|[] l IH]; simpl; done.
Qed.

Lemma is_picture_copy msg x b : is_picture (copy msg x b) = false.
Proof. unfold is_picture, copySwiftMessage. simpl. by rewrite last_snoc. Qed.

Lemma is_picture_picture msg tu : is_picture (picture_message msg tu) = true.
Proof. unfold is_picture, picture_message, addOobPayload, addPayload. simpl. by rewrite last_snoc. Qed.

(** What a stretch of text becomes. *)
Definition text_shows (s : string) (out : list (Message J)) : Prop :=
  visible (map xhtml_of out) = visible (map shown (text_part s)) ∧ List.filter is_picture out = [].

Lemma text_shows_copy msg s b : s ≠ ""%string →
  text_shows s (if String.eqb (shown (Text s)) "" && String.eqb b "" then [] else [copy msg (shown (Text s)) b]).
Proof.
  intros Hs. unfold text_shows, text_part. destruct (String.eqb_spec s ""); [done|].
  destruct (String.eqb (shown (Text s)) "") eqn:E; destruct (String.eqb b ""); cbn [andb];
    simpl map; rewrite ?xhtml_of_copy; cbn [List.filter]; rewrite ?is_picture_copy; simpl in *; by rewrite ?E.
Qed.

Lemma text_before_shows msg body pos m : 
  text_shows (before m) (text_before istarts_with iends_with msg body pos m).1.
Proof.
  unfold text_before. destruct (String.eqb_spec (before m) "") as [->|Hs]; [done|].
  destruct (find_from pos (image_url m) body); cbn [fst]; by apply text_shows_copy.
Qed.

Lemma remainder_shows msg body s pos : text_shows s (remain msg body s pos).
Proof.
  unfold remainder. destruct (String.eqb_spec s "") as [->|Hs]; [done|]. by apply text_shows_copy.
Qed.

Lemma visible_app l l' : visible (l ++ l') = visible l ++ visible l'.
Proof. apply List.filter_app. Qed.

Lemma pictures_text s l : pictures (text_part s ++ l) = pictures l.
Proof. unfold text_part. by destruct (String.eqb s ""). Qed.

Lemma split_loop_shows fuel msg body xhtml pos :
  let '(out, rest, pos) := split_loop istarts_with iends_with regex_search serialize fuel msg body xhtml pos in
  let out := out ++ remain msg body rest pos in
  visible (map xhtml_of out) = visible (map shown (parts_in fuel xhtml)) ∧
  List.filter is_picture out = map (picture_message msg) (pictures (parts_in fuel xhtml)).
Proof.
  assert (Hend : ∀ s pos, let out := [] ++ remain msg body s pos in
    visible (map xhtml_of out) = visible (map shown (text_part s)) ∧
    List.filter is_picture out = map (picture_message msg) (pictures (text_part s))).
  { intros s p. destruct (remainder_shows msg body s p) as [H1 H2].
    rewrite <- (app_nil_r (text_part s)), pictures_text, app_nil_r. done. }
  revert xhtml pos. induction fuel as [|fuel IH]; intros xhtml pos; simpl; [apply Hend|].
  destruct (regex_search xhtml) as [m|]; [|apply Hend].
  destruct (text_before_shows msg body pos m) as [Hv Hp].
  destruct (text_before istarts_with iends_with msg body pos m) as [prev pos']. cbn [fst] in Hv, Hp.
  specialize (IH (after m) pos'). destruct (split_loop _ _ _ _ fuel msg body (after m) pos') as [[rest x'] p'].
  destruct IH as [IHv IHp]. rewrite map_app, visible_app in IHv. rewrite List.filter_app in IHp.
  change (addOobPayload serialize (copy msg (image_tag m) (image_url m)) (image_url m) "")
    with (picture_message msg (image_tag m, image_url m)).
  rewrite <- app_assoc, !map_app, !visible_app, !List.filter_app, Hv, Hp, pictures_text. split.
  - f_equal. cbn [map app]. rewrite xhtml_of_picture. unfold visible in *. cbn [List.filter shown fst].
    rewrite <- IHv. by destruct (negb (String.eqb (image_tag m) "")).
  - cbn [List.filter app pictures omap list_omap map]. rewrite is_picture_picture.
    unfold pictures in IHp. by rewrite <- IHp.
Qed.

Lemma wrap_loop_all fuel (msg : Message J) xhtml :
  (wrap_loop regex_search serialize fuel false msg xhtml).1 =
  foldl (λ (m : Message J) tu, addOobPayload serialize m tu.2 "") msg (pictures (parts_in fuel xhtml)).
Proof.
  assert (Hend : ∀ s (m : Message J), m = foldl (λ (m : Message J) tu, addOobPayload serialize m tu.2 "") m (pictures (text_part s))).
  { intros s m. by rewrite <- (app_nil_r (text_part s)), pictures_text. }
  revert msg xhtml. induction fuel as [|fuel IH]; intros msg xhtml; simpl; [apply Hend|].
  destruct (regex_search xhtml) as [m|]; [|apply Hend].
  rewrite pictures_text. simpl. rewrite <- IH. by destruct (wrap_loop _ _ fuel false _ (after m)).
Qed.

Lemma wrap_loop_once fuel (msg : Message J) xhtml :
  wrap_loop regex_search serialize fuel true msg xhtml =
  match pictures (parts_in fuel xhtml) with
  | (_, url) :: _ => (addOobPayload serialize msg url "", [url])
  | [] => (msg, [])
  end.
Proof.
  assert (Hend : ∀ s, pictures (text_part s) = []).
  { intros s. by rewrite <- (app_nil_r (text_part s)), pictures_text. }
  destruct fuel as [|fuel]; simpl; [by rewrite Hend|].
  destruct (regex_search xhtml) as [m|]; [by rewrite pictures_text|by rewrite Hend].
Qed.

(** C18: whatever the mode, the pictures are those of the reference cut of the
    XHTML, which loses none of its text: split, the messages show its parts in
    order, each picture a message of its own; otherwise one message carries an
    out-of-band tag for every picture, or for the first, whose address replaces
    its body. *)
Theorem pictures_delivered (mode : OobMode) (msg : Message J) (body xhtml : string) :
  let out := wrap mode msg body xhtml in
  let cut := parts xhtml in
  String.concat "" (map raw cut) = xhtml ∧
  match mode with
  | OobSplit =>
      visible (map xhtml_of out) = visible (map shown cut) ∧
      List.filter is_picture out = map (picture_message msg) (pictures cut)
  | OobWrapAll => out = [foldl (λ (m : Message J) tu, addOobPayload serialize m tu.2 "") msg (pictures cut)]
  | OobExclusive =>
      out = [match pictures cut with
             | (_, url) :: _ => setBody url (addOobPayload serialize msg url "")
             | [] => msg
             end]
  end.
Proof.
  intros out cut. split; [apply parts_in_raw|]. unfold out, cut, parts, wrap_with. destruct mode.
  - by rewrite wrap_loop_all.
  - rewrite wrap_loop_once. by destruct (pictures _) as [|[tag url] l].
  - pose proof (split_loop_shows (String.length xhtml) msg body xhtml 0) as Hs.
    by destruct (split_loop _ _ _ _ _ msg body xhtml 0) as [[rest x'] p'].
Qed.

(** split, a picture at the start of the message repeats its address: the
    code moves on in the body only for a picture that has text before it, so
    the text message that follows still holds the whole body. *)
Theorem leading_picture_url_repeated (msg : Message J) (body xhtml : string) (m : image_match) :
  regex_search xhtml = Some m → before m = ""%string → regex_search (after m) = None →
  after m ≠ ""%string → plaintext_trim body ≠ ""%string →
  wrap OobSplit msg body xhtml =
  [picture_message msg (image_tag m, image_url m);
   copy msg (xhtml_trim istarts_with iends_with (after m)) (plaintext_trim body)].
Proof.
  intros Hm Hb Hn Ha Ht. pose proof (after_shorter _ _ Hm) as Hl. unfold wrap_with.
  destruct (String.length xhtml) as [|fuel]; [lia|]. simpl. rewrite Hm. unfold text_before. rewrite Hb. simpl.
  assert (split_loop istarts_with iends_with regex_search serialize fuel msg body (after m) 0 = ([], after m, 0))
    as -> by (destruct fuel; simpl; [done|by rewrite Hn]).
  simpl. unfold remainder. destruct (String.eqb_spec (after m) ""); [done|].
  rewrite Nat.sub_0_r, substring_all. destruct (String.eqb_spec (plaintext_trim body) ""); [done|].
  by rewrite andb_false_r.
Qed.
End reference.

(** *** Witnesses *)

Definition ascii_starts (s t : string) : bool := String.prefix t s.
Definition ascii_ends (s t : string) : bool :=
  (String.length t <=? String.length s)%nat
  && String.eqb (substring (String.length s - String.length t) (String.length t) s) t.
Definition show_element (e : XMLElement) : string :=
  let '(mkXMLElement tag _ _ nodes) := e in String.concat "/" (tag :: map (λ '(mkXMLElement _ _ t _), t) nodes).

Definition captioned : string := "a <img src='u'/><br/> b".

Lemma pictures_delivered_witness :
  let msg := mkMessage (mkRefJid "" "" "") (mkRefJid "" "" "") Chat "a u b" "" [XHTMLIMPayload captioned] in
  let out := wrap_with ascii_starts ascii_ends find_image show_element OobSplit msg "a u b" captioned in
  map (λ m, (xhtml_of m, m_body m)) out = [("a", "a"); ("<img src='u'/>", "u"); ("b", "b")]%string ∧
  List.filter is_picture out =
    map (picture_message show_element msg) (pictures (parts find_image captioned)).
Proof.
  intros msg out. split; [reflexivity|].
  apply (pictures_delivered ascii_starts ascii_ends find_image show_element OobSplit msg "a u b" captioned).
Defined.

Lemma leading_picture_url_repeated_witness :
  let msg := mkMessage (mkRefJid "" "" "") (mkRefJid "" "" "") Chat "u hi" "" [XHTMLIMPayload "<img src='u'/>hi"] in
  map m_body (wrap_with ascii_starts ascii_ends find_image show_element OobSplit msg "u hi" "<img src='u'/>hi") =
  ["u"; "u hi"]%string.
Proof.
  intros msg.
  rewrite (leading_picture_url_repeated ascii_starts ascii_ends find_image show_element msg _ _
    (mkImageMatch "" "<img src='u'/>" "u" "hi")); [reflexivity|reflexivity|reflexivity|reflexivity|discriminate|].
  vm_compute. discriminate.
Defined.
