(* ===== verification/Text.v ===== *)
(** * Texts of the commands

    boost::split, which the program parses its commands with, as an interface with
    its documented behaviour; numbers in decimal, and the doubles the memory
    statistics add up. *)

From S2P Require Import Prelude.
From stdpp Require Export pretty.

(** ** Pieces of a text *)

(** boost::split(result, text, is_any_of(c)) for one separator. *)
Class Split := split_on : ascii → string → list string.

Definition has (c : ascii) (s : string) : Prop := In c (list_ascii_of_string s).

#[export] Instance has_dec c s : Decision (has c s).
Proof. apply (in_dec Ascii.ascii_dec). Defined.

Class SplitLaws `{Split} : Prop := {
  split_none c s : ¬ has c s → split_on c s = [s];
  split_some c s t : ¬ has c s → split_on c (s +:+ String c t)%string = s :: split_on c t;
}.

Fixpoint pieces (c : ascii) (s : string) : list string :=
  match s with
  | EmptyString => [EmptyString]
  | String d rest =>
      if Ascii.eqb d c then ""%string :: pieces c rest
      else match pieces c rest with
           | l :: ls => String d l :: ls
           | [] => []
           end
  end.

#[export] Instance reference_split : Split := pieces.

#[export] Instance reference_split_laws : SplitLaws.
Proof.
  split; unfold split_on, reference_split, has; intros sep; induction s as [|c s IH]; simpl.
  - done.
  - intros Hn. destruct (Ascii.eqb_spec c sep); [naive_solver|]. by rewrite IH by naive_solver.
  - intros t _. by rewrite Ascii.eqb_refl.
  - intros t Hn. destruct (Ascii.eqb_spec c sep); [naive_solver|].
    by rewrite IH by naive_solver.
Qed.

Lemma first_separator c s : has c s → ∃ a b, s = (a +:+ String c b)%string ∧ ¬ has c a.
Proof.
  unfold has. induction s as [|d s IH]; [done|]. simpl. intros Hs.
  destruct (decide (d = c)) as [->|Hne]; [by exists "", s; split; [done|by intros []]|].
  destruct IH as (a & b & -> & Ha); [naive_solver|]. exists (String d a), b. split; [done|]. simpl. naive_solver.
Qed.

Lemma has_app c s t : has c (s +:+ t)%string ↔ has c s ∨ has c t.
Proof.
  unfold has. induction s as [|d s IH]; [simpl; tauto|]. rewrite string_cons_app. simpl. rewrite IH. tauto.
Qed.

(** The laws leave no choice. *)
Lemma split_pieces `{SplitLaws} c s : split_on c s = pieces c s.
Proof.
  remember (String.length s) as n eqn:En. revert s En. induction n as [n IH] using lt_wf_ind. intros s ->.
  destruct (decide (has c s)) as [Hs|Hs].
  - apply first_separator in Hs as (a & b & -> & Ha). rewrite split_some by done.
    pose proof (split_some c a b Ha) as E. rewrite (split_some (H:=reference_split)) by done. f_equal.
    apply (IH (String.length b)); [rewrite string_length_app; simpl; lia|done].
  - by rewrite split_none, (split_none (H:=reference_split)).
Qed.

(** Words joined with a separator. *)
Fixpoint join_with (c : ascii) (l : list string) : string :=
  match l with
  | [] => ""
  | [s] => s
  | s :: l => s +:+ String c (join_with c l)
  end.

Lemma split_join `{SplitLaws} c l : l ≠ [] → Forall (λ s, ¬ has c s) l → split_on c (join_with c l) = l.
Proof.
  induction l as [|g l IH]; intros Hl Hn; [done|]. apply Forall_cons in Hn as [Hg Hn].
  destruct l as [|h l]; [by apply split_none|].
  change (join_with c (g :: h :: l)) with (g +:+ String c (join_with c (h :: l)))%string.
  rewrite split_some by done. f_equal. by apply IH.
Qed.

Lemma split_not_nil `{SplitLaws} c s : split_on c s ≠ [].
Proof.
  rewrite split_pieces. induction s as [|d s IH]; simpl; [done|].
  destruct (Ascii.eqb d c); [done|]. by destruct (pieces c s).
Qed.

(** ** Numbers *)

(** boost::lexical_cast of an integer *)
Definition decimal (z : Z) : string := pretty z.

(** unsigned long *)
Definition to_ulong (z : Z) : Z := (z mod 2 ^ 64)%Z.

(** [n / d] to the nearest integer, a tie to the even one. *)
Definition round_quotient (n d : Z) : Z :=
  let q := (n / d)%Z in
  let r := (n mod d)%Z in
  if (2 * r <? d)%Z || ((2 * r =? d)%Z && Z.even q) then q else (q + 1)%Z.

(** The double next to an integer: 53 significant bits. *)
Definition to_double (z : Z) : Z :=
  let e := (Z.log2 (Z.abs z) - 52)%Z in
  if (e <=? 0)%Z then z else (round_quotient z (2 ^ e) * 2 ^ e)%Z.

Lemma to_double_exact z : (Z.abs z < 2 ^ 53)%Z → to_double z = z.
Proof.
  intros Hz. unfold to_double. destruct (Z.eqb_spec z 0) as [->|Hne]; [done|].
  assert (Z.log2 (Z.abs z) < 53)%Z by (apply Z.log2_lt_pow2; lia).
  destruct (Z.leb_spec (Z.log2 (Z.abs z) - 52) 0); [done|lia].
Qed.

(** Sums and differences of doubles that are integers. *)
Definition double_add (a b : Z) : Z := to_double (a + b).
Definition double_sub (a b : Z) : Z := to_double (a - b).

Fixpoint trim_right_zeros (s : string) : string :=
  match s with
  | EmptyString => EmptyString
  | String c s =>
      match trim_right_zeros s with
      | EmptyString => if Ascii.eqb c "0" then EmptyString else String c EmptyString
      | s' => String c s'
      end
  end.

Definition exponent (e : Z) : string :=
  ((if (e <? 10)%Z then "e+0" else "e+") +:+ decimal e)%string.

(** The format %.17g of a double that is a natural number: what
    boost::lexical_cast makes of it. *)
Definition show_magnitude (n : Z) : string :=
  if (n <? 10 ^ 17)%Z then decimal n
  else
    let e := (Z.of_nat (String.length (decimal n)) - 1)%Z in
    let q := round_quotient n (10 ^ (e - 16)) in
    let '(q, e) := (if (q =? 10 ^ 17)%Z then (10 ^ 16, e + 1) else (q, e))%Z in
    match decimal q with
    | EmptyString => EmptyString
    | String c digits =>
        (String c (match trim_right_zeros digits with EmptyString => "" | d => "." +:+ d end) +:+ exponent e)%string
    end.

Definition show_double (z : Z) : string :=
  if (z <? 0)%Z then ("-" +:+ show_magnitude (- z))%string else show_magnitude z.

Example show_small : show_double (-4096) = "-4096"%string.
Proof. reflexivity. Qed.

Example show_large : show_double (to_double (2 ^ 64 - 100)) = "1.8446744073709552e+19"%string.
Proof. vm_compute. reflexivity. Qed.
