(* ===== verification/Codecs.v ===== *)
(** * Encodings of what is stored and sent

    The encodings of protocol/Util.cpp (char2hex, urlencode, base64Encode,
    base64Decode) and libtransport/StorageBackend.cpp (encryptPassword,
    decryptPassword, serializeGroups, deserializeGroups). Boost's base64
    iterators and its split are parameters, with what they are documented to do
    and a reference implementation. *)

From S2P Require Import Prelude Text.

(** ** Characters *)

(** The value of a byte; a char is signed and wraps around. *)
Definition byte_value (c : ascii) : Z := Z.of_N (N_of_ascii c).
Definition byte_of_Z (z : Z) : ascii := ascii_of_N (Z.to_N (z mod 256)).
Definition char_value (c : ascii) : Z :=
  let v := byte_value c in if (v <? 128)%Z then v else (v - 256)%Z.

Lemma byte_of_value c : byte_of_Z (byte_value c) = c.
Proof.
  unfold byte_of_Z, byte_value. pose proof (N_ascii_bounded c). rewrite Z.mod_small by lia.
  by rewrite N2Z.id, ascii_N_embedding.
Qed.

Lemma value_of_byte z : byte_value (byte_of_Z z) = (z mod 256)%Z.
Proof.
  unfold byte_of_Z, byte_value. pose proof (Z.mod_pos_bound z 256 ltac:(lia)).
  rewrite N_ascii_embedding by lia. lia.
Qed.

Lemma byte_value_range c : (0 <= byte_value c < 256)%Z.
Proof. unfold byte_value. pose proof (N_ascii_bounded c). lia. Qed.

Lemma byte_of_Z_char c z : byte_of_Z (char_value c + z) = byte_of_Z (byte_value c + z).
Proof.
  unfold byte_of_Z, char_value. f_equal. f_equal.
  destruct (byte_value c <? 128)%Z; [done|].
  replace (byte_value c - 256 + z)%Z with (byte_value c + z + (-1) * 256)%Z by lia. apply Z_mod_plus_full.
Qed.

Lemma byte_of_Z_mod z : byte_of_Z (z mod 256) = byte_of_Z z.
Proof. unfold byte_of_Z. by rewrite Z.mod_mod. Qed.

Fixpoint map_string (f : ascii → string) (s : string) : string :=
  match s with
  | EmptyString => EmptyString
  | String c s => (f c +:+ map_string f s)%string
  end.

(** ** urlencode *)

Definition hex_digit (v : Z) : ascii :=
  let v := if (0 <=? v)%Z && (v <=? 9)%Z then (v + 48)%Z else v in
  let v := if (10 <=? v)%Z && (v <=? 15)%Z then (v + 65 - 10)%Z else v in
  byte_of_Z v.

Definition char2hex (dec : ascii) : string :=
  String (hex_digit (Z.shiftr (Z.land (char_value dec) 240) 4))
    (String (hex_digit (Z.land (char_value dec) 15)) "").

Definition unreserved (c : ascii) : bool :=
  let v := char_value c in
  ((48 <=? v) && (v <=? 57) || (65 <=? v) && (v <=? 90) || (97 <=? v) && (v <=? 122))%Z
  || (Ascii.eqb c "~" || Ascii.eqb c "-" || Ascii.eqb c "_" || Ascii.eqb c ".").

Definition urlencode (c : string) : string :=
  map_string (λ x, if unreserved x then String x "" else String "%" (char2hex x)) c.

(** Percent decoding as RFC 3986 describes it, for the round trip. *)
Definition hex_value (c : ascii) : option Z :=
  let v := byte_value c in
  if ((48 <=? v) && (v <=? 57))%Z then Some (v - 48)%Z
  else if ((65 <=? v) && (v <=? 70))%Z then Some (v - 55)%Z
  else None.

Fixpoint urldecode (s : string) : option string :=
  match s with
  | EmptyString => Some ""%string
  | String "%" (String h (String l rest)) =>
      h ← hex_value h; l ← hex_value l; r ← urldecode rest; Some (String (byte_of_Z (16 * h + l)) r)
  | String "%" _ => None
  | String c rest => r ← urldecode rest; Some (String c r)
  end.

(** A statement about every byte is checked byte by byte. *)
Lemma every_byte (P : ascii → bool) :
  forallb (λ n, P (ascii_of_nat n)) (seq 0 256) = true → ∀ c, P c = true.
Proof.
  intros H c. rewrite forallb_forall in H.
  rewrite <- (ascii_nat_embedding c). apply H, in_seq. pose proof (nat_ascii_bounded c). lia.
Qed.

Definition decodes_back (c : ascii) : bool :=
  match hex_value (hex_digit (Z.shiftr (Z.land (char_value c) 240) 4)),
        hex_value (hex_digit (Z.land (char_value c) 15)) with
  | Some h, Some l => Ascii.eqb (byte_of_Z (16 * h + l)) c
  | _, _ => false
  end.

Lemma char2hex_back : ∀ c, decodes_back c = true.
Proof. apply every_byte. vm_compute. reflexivity. Qed.

(** The characters urlencode writes. *)
Definition url_char (c : ascii) : bool := unreserved c || Ascii.eqb c "%".

Lemma char2hex_chars c : forallb url_char (list_ascii_of_string (char2hex c)) = true.
Proof.
  revert c. apply (every_byte (λ c, forallb url_char (list_ascii_of_string (char2hex c)))).
  vm_compute. reflexivity.
Qed.

Lemma unreserved_not_percent c : unreserved c = true → c ≠ "%"%char.
Proof. by intros H ->. Qed.

Lemma urldecode_cons c rest : c ≠ "%"%char →
  urldecode (String c rest) = (r ← urldecode rest; Some (String c r)).
Proof.
  intros Hc. destruct c as [[] [] [] [] [] [] [] []]; cbn [urldecode]; try reflexivity; done.
Qed.

(** a string survives being urlencoded: percent decoding gives it back, byte
    for byte, whatever bytes it holds, and the encoded form is made of
    unreserved characters and percent signs only. *)
Theorem urlencode_round_trip (s : string) :
  urldecode (urlencode s) = Some s ∧ forallb url_char (list_ascii_of_string (urlencode s)) = true.
Proof.
  induction s as [|c s [IH Hc]]; [done|]. unfold urlencode in *. simpl. destruct (unreserved c) eqn:E.
  - rewrite string_cons_app, string_nil_app. split.
    + rewrite urldecode_cons by (by apply unreserved_not_percent). by rewrite IH.
    + simpl. rewrite Hc. unfold url_char at 1. by rewrite E.
  - pose proof (char2hex_back c) as Hb. unfold decodes_back in Hb. pose proof (char2hex_chars c) as Hx.
    unfold char2hex in *. rewrite !string_cons_app, string_nil_app. simpl in Hx. split.
    + simpl. destruct (hex_value _) as [h|]; [|done]. simpl. destruct (hex_value _) as [l|]; [|done]. simpl.
      rewrite IH. simpl. by apply Ascii.eqb_eq in Hb as ->.
    + simpl. rewrite Hc, andb_true_r in *. exact Hx.
Qed.

(** ** Passwords *)

(** base64_from_binary over 6 bits of 8, and transform_width to 8 bits of 6 over
    binary_from_base64, which takes the padding sign for zeros: what was encoded
    comes back with a zero for every sign. *)
Class Base64 := {
  base64_from_binary : string → string;
  binary_from_base64 : string → string;
}.

Definition repeat_char (c : ascii) (n : nat) : string := string_of_list_ascii (repeat c n).

Definition padding (s : string) : nat := ((3 - String.length s mod 3) mod 3)%nat.

Class Base64Laws `{Base64} : Prop := {
  base64_back s :
    binary_from_base64 (base64_from_binary s +:+ repeat_char "=" (padding s)) =
    (s +:+ repeat_char "000" (padding s))%string;
}.

(** trim_right_copy_if: the zeros at the end go. *)
Fixpoint trim_zeros (s : string) : string :=
  match s with
  | EmptyString => EmptyString
  | String c rest =>
      match trim_zeros rest with
      | EmptyString => if Ascii.eqb c "000" then EmptyString else String c EmptyString
      | rest => String c rest
      end
  end.

Section passwords.
Context `{Base64}.

Definition base64Encode (input : string) : string :=
  (base64_from_binary input +:+ repeat_char "=" (padding input))%string.

Definition base64Decode (input : string) : string := trim_zeros (binary_from_base64 input).

(** The loops; key[i % key.size()] divides by zero when there is no key. *)
Fixpoint shift_from (i : nat) (op : Z → Z → Z) (key s : string) : option string :=
  match s with
  | EmptyString => Some ""%string
  | String c s =>
      match String.length key with
      | O => None
      | S _ as n =>
          k ← String.get (i mod n) key;
          rest ← shift_from (S i) op key s;
          Some (String (byte_of_Z (op (char_value c) (char_value k))) rest)
      end
  end.

Definition encryptPassword {S} (password key : string) : prog S string :=
  match shift_from 0 Z.add key password with
  | Some encrypted => mret (base64Encode encrypted)
  | None => raise DivisionByZero
  end.

Definition decryptPassword {S} (encrypted key : string) : prog S string :=
  match shift_from 0 Z.sub key (base64Decode encrypted) with
  | Some password => mret password
  | None => raise DivisionByZero
  end.
End passwords.

Fixpoint last_char (s : string) : option ascii :=
  match s with
  | EmptyString => None
  | String c EmptyString => Some c
  | String _ s => last_char s
  end.

Lemma trim_zeros_spec s : trim_zeros s = s ↔ last_char s ≠ Some "000"%char.
Proof.
  induction s as [|c s IH]; [done|]. simpl. destruct s as [|d s].
  - simpl. destruct (Ascii.eqb_spec c "000") as [->|Hc]; [naive_solver|]. naive_solver.
  - destruct (trim_zeros (String d s)) as [|e t] eqn:E.
    + split.
      * destruct (Ascii.eqb c "000"); discriminate.
      * intros Hl. apply IH in Hl. discriminate Hl.
    + rewrite <- IH. split; [by intros [= -> ->]|by intros [= -> ->]].
Qed.

Lemma trim_zeros_append s n : trim_zeros (s +:+ repeat_char "000" n) = trim_zeros s.
Proof.
  assert (Hn : trim_zeros (repeat_char "000" n) = ""%string).
  { induction n as [|n IH]; [done|]. simpl. unfold repeat_char in IH. by rewrite IH. }
  induction s as [|c s IH]; [by rewrite string_nil_app|]. rewrite string_cons_app. simpl. by rewrite IH.
Qed.

Lemma trim_zeros_length s : String.length (trim_zeros s) ≤ String.length s.
Proof.
  induction s as [|c s IH]; simpl; [done|]. destruct (trim_zeros s) as [|d t].
  - destruct (Ascii.eqb c "000"); simpl; lia.
  - simpl in *. lia.
Qed.

Lemma shift_cons i op key c s : String.length key ≠ 0 →
  shift_from i op key (String c s) =
  (k ← String.get (i mod String.length key) key;
   rest ← shift_from (S i) op key s;
   Some (String (byte_of_Z (op (char_value c) (char_value k))) rest)).
Proof. simpl. by destruct (String.length key). Qed.

Lemma shift_cons_empty i op key c s : String.length key = 0 → shift_from i op key (String c s) = None.
Proof. simpl. by intros ->. Qed.

Lemma get_in_range n s : n < String.length s → is_Some (String.get n s).
Proof.
  revert n. induction s as [|c s IH]; intros n; simpl; [lia|]. destruct n as [|n]; [eauto|].
  intros Hn. apply IH. lia.
Qed.

Lemma shift_from_total i op key s : key ≠ ""%string → is_Some (shift_from i op key s).
Proof.
  intros Hk. assert (String.length key ≠ 0) as Hn by by destruct key.
  revert i. induction s as [|c s IH]; intros i; [by eexists|]. rewrite shift_cons by done.
  destruct (get_in_range (i mod String.length key) key) as [k ->]; [by apply Nat.mod_upper_bound|].
  destruct (IH (S i)) as [r ->]. simpl. eauto.
Qed.

(** Adding and taking away the same character. *)
Lemma shift_back c k :
  byte_of_Z (char_value (byte_of_Z (char_value c + char_value k)) - char_value k) = c.
Proof.
  rewrite <- Z.add_opp_r, byte_of_Z_char, value_of_byte.
  rewrite <- (byte_of_Z_mod (_ mod 256 + _)), Zplus_mod_idemp_l, byte_of_Z_mod.
  rewrite <- Z.add_assoc, Z.add_opp_diag_r, byte_of_Z_char, Z.add_0_r. apply byte_of_value.
Qed.

Lemma shift_from_back i key s s' :
  shift_from i Z.add key s = Some s' → shift_from i Z.sub key s' = Some s.
Proof.
  revert i s'. induction s as [|c s IH]; intros i s'; [by intros [= <-]|].
  destruct (decide (String.length key = 0)) as [Hn|Hn]; [by rewrite shift_cons_empty|].
  rewrite shift_cons by done. destruct (String.get (i mod String.length key) key) as [k|] eqn:Ek; [|done].
  simpl. destruct (shift_from (S i) Z.add key s) as [r|] eqn:E; [|done]. simpl. intros [= <-].
  rewrite shift_cons, Ek by done. simpl. rewrite (IH _ _ E). simpl. by rewrite shift_back.
Qed.

Lemma shift_from_length i op key s s' : shift_from i op key s = Some s' → String.length s' = String.length s.
Proof.
  revert i s'. induction s as [|c s IH]; intros i s'; [by intros [= <-]|].
  destruct (decide (String.length key = 0)) as [Hn|Hn]; [by rewrite shift_cons_empty|].
  rewrite shift_cons by done. destruct (String.get _ key); [|done]. simpl.
  destruct (shift_from (S i) op key s) as [r|] eqn:E; [|done]. simpl. intros [= <-]. simpl. f_equal. by eapply IH.
Qed.

(** a password survives being stored exactly when its encrypted bytes do not
    end with a zero: decrypting gives it back, and otherwise the byte at its end
    is lost, which happens to passwords that are not plain ASCII. *)
Theorem password_round_trip `{Base64Laws} {S : Type} (password key encrypted : string) (s : S) :
  key ≠ ""%string → shift_from 0 Z.add key password = Some encrypted →
  encryptPassword password key s = Done (base64Encode encrypted) s ∧
  (decryptPassword (base64Encode encrypted) key s = Done password s ↔ last_char encrypted ≠ Some "000"%char).
Proof.
  intros Hk E. unfold encryptPassword, decryptPassword. rewrite E. split; [done|].
  unfold base64Decode, base64Encode. rewrite base64_back, trim_zeros_append.
  destruct (shift_from_total 0 Z.sub key (trim_zeros encrypted) Hk) as [p Ep]. rewrite Ep. rewrite <- trim_zeros_spec.
  split.
  - intros [= ->]. apply shift_from_length in E, Ep.
    assert (Hs : ∀ t, String.length (trim_zeros t) = String.length t → trim_zeros t = t).
    { clear. induction t as [|c t IH]; [done|]. simpl. pose proof (trim_zeros_length t) as Hl.
      destruct (trim_zeros t) as [|d u]; simpl in *.
      - destruct (Ascii.eqb c "000"); simpl; [done|]. intros Ht. destruct t; [done|simpl in Ht; lia].
      - intros [= Ht]. by rewrite <- IH. }
    apply Hs. congruence.
  - intros Ht. rewrite Ht, (shift_from_back _ _ _ _ E) in Ep. by injection Ep as <-.
Qed.

(** ** Groups *)

Definition newline_char : ascii := "010".

(** ret.erase(ret.end() - 1) *)
Fixpoint drop_last (s : string) : string :=
  match s with
  | EmptyString | String _ EmptyString => EmptyString
  | String c s => String c (drop_last s)
  end.

Definition serializeGroups (groups : list string) : string :=
  drop_last (foldl (λ ret group, ret +:+ group +:+ String newline_char "")%string "" groups).

Definition deserializeGroups `{Split} (groups : string) : list string :=
  if String.eqb groups "" then []
  else
    let ret := split_on newline_char groups in
    match last ret with
    | Some EmptyString => removelast ret
    | _ => ret
    end.

Abbreviation join_lines := (join_with newline_char).

Lemma drop_last_snoc s c : drop_last (s +:+ String c "") = s.
Proof.
  induction s as [|d s IH]; [done|]. rewrite string_cons_app. simpl.
  destruct (s +:+ String c "")%string eqn:E; [by destruct s|]. by rewrite IH.
Qed.

Lemma joined_lines l acc : l ≠ [] →
  foldl (λ ret group, ret +:+ group +:+ String newline_char "")%string acc l =
  (acc +:+ join_lines l +:+ String newline_char "")%string.
Proof.
  revert acc. induction l as [|g l IH]; intros acc Hl; [done|]. simpl foldl. destruct l as [|h l]; [done|].
  rewrite IH by done. simpl join_with. by autorewrite with texts.
Qed.

Lemma serialized_groups l : serializeGroups l = join_lines l.
Proof.
  destruct l as [|g l]; [done|]. unfold serializeGroups. rewrite joined_lines by done.
  rewrite string_nil_app. apply drop_last_snoc.
Qed.

Definition no_newline (s : string) : Prop := ¬ has newline_char s.

Lemma joined_empty l : join_lines l = ""%string → l = [] ∨ l = [""%string].
Proof.
  destruct l as [|g [|h l]]; simpl join_with; [by left| |].
  - intros ->. by right.
  - destruct g; discriminate.
Qed.

Lemma removelast_shorter {A} (l : list A) : l ≠ [] → length (removelast l) < length l.
Proof.
  destruct l as [|a l]; [done|]. intros Hl. rewrite (app_removelast_last a Hl) at 2. rewrite length_app. simpl. lia.
Qed.

Lemma groups_back `{SplitLaws} (groups : list string) :
  Forall no_newline groups → last groups ≠ Some ""%string → deserializeGroups (serializeGroups groups) = groups.
Proof.
  intros Hn Hl. rewrite serialized_groups. unfold deserializeGroups.
  destruct (String.eqb_spec (join_lines groups) "") as [E|E]; [apply joined_empty in E as [-> | ->]; naive_solver|].
  assert (groups ≠ []) as Hne by (by intros ->). rewrite split_join by done.
  destruct (last groups) as [[|c s]|] eqn:El; naive_solver.
Qed.

Lemma last_group_lost `{SplitLaws} (groups : list string) :
  Forall no_newline groups → last groups = Some ""%string → deserializeGroups (serializeGroups groups) ≠ groups.
Proof.
  intros Hn Hl Er. rewrite serialized_groups in Er. unfold deserializeGroups in Er.
  destruct (String.eqb_spec (join_lines groups) "") as [E|E]; [by rewrite <- Er in Hl|].
  assert (groups ≠ []) as Hne by (by intros ->). rewrite split_join, Hl in Er by done.
  apply (f_equal length) in Er. pose proof (removelast_shorter groups Hne). lia.
Qed.

(** the groups of a contact survive the database exactly when the last one is
    not the empty group, provided no group holds a newline, which separates
    them. *)
Theorem groups_round_trip `{SplitLaws} (groups : list string) :
  Forall no_newline groups →
  (deserializeGroups (serializeGroups groups) = groups ↔ last groups ≠ Some ""%string).
Proof.
  intros Hn. split; [intros E Hl; by apply (last_group_lost groups Hn Hl)|by apply groups_back].
Qed.

(** ** Reference implementations *)

Definition alphabet : string := "ABCDEFGHIJKLMNOPQRSTUVWXYZabcdefghijklmnopqrstuvwxyz0123456789+/".

Definition bits (b5 b4 b3 b2 b1 b0 : bool) : nat :=
  (if b5 then 32 else 0) + (if b4 then 16 else 0) + (if b3 then 8 else 0) + (if b2 then 4 else 0)
  + (if b1 then 2 else 0) + (if b0 then 1 else 0).

Definition digit (b5 b4 b3 b2 b1 b0 : bool) : ascii :=
  default "="%char (String.get (bits b5 b4 b3 b2 b1 b0) alphabet).

Definition undigit (c : ascii) : bool * bool * bool * bool * bool * bool :=
  let n := N.of_nat (default 0 (index 0 (String c "") alphabet)) in
  (N.testbit n 5, N.testbit n 4, N.testbit n 3, N.testbit n 2, N.testbit n 1, N.testbit n 0).

Fixpoint b64 (s : string) : string :=
  match s with
  | String (Ascii a0 a1 a2 a3 a4 a5 a6 a7) (String (Ascii b0 b1 b2 b3 b4 b5 b6 b7)
      (String (Ascii c0 c1 c2 c3 c4 c5 c6 c7) rest)) =>
      String (digit a7 a6 a5 a4 a3 a2) (String (digit a1 a0 b7 b6 b5 b4)
        (String (digit b3 b2 b1 b0 c7 c6) (String (digit c5 c4 c3 c2 c1 c0) (b64 rest))))
  | String (Ascii a0 a1 a2 a3 a4 a5 a6 a7) (String (Ascii b0 b1 b2 b3 b4 b5 b6 b7) EmptyString) =>
      String (digit a7 a6 a5 a4 a3 a2) (String (digit a1 a0 b7 b6 b5 b4)
        (String (digit b3 b2 b1 b0 false false) ""))
  | String (Ascii a0 a1 a2 a3 a4 a5 a6 a7) EmptyString =>
      String (digit a7 a6 a5 a4 a3 a2) (String (digit a1 a0 false false false false) "")
  | EmptyString => ""
  end.

Fixpoint unb64 (s : string) : string :=
  match s with
  | String w (String x (String y (String z rest))) =>
      let '(a7, a6, a5, a4, a3, a2) := undigit w in
      let '(a1, a0, b7, b6, b5, b4) := undigit x in
      let '(b3, b2, b1, b0, c7, c6) := undigit y in
      let '(c5, c4, c3, c2, c1, c0) := undigit z in
      String (Ascii a0 a1 a2 a3 a4 a5 a6 a7) (String (Ascii b0 b1 b2 b3 b4 b5 b6 b7)
        (String (Ascii c0 c1 c2 c3 c4 c5 c6 c7) (unb64 rest)))
  | _ => ""
  end.

Lemma undigit_digit b5 b4 b3 b2 b1 b0 :
  undigit (digit b5 b4 b3 b2 b1 b0) = (b5, b4, b3, b2, b1, b0).
Proof. by destruct b5, b4, b3, b2, b1, b0. Qed.

Lemma undigit_pad : undigit "=" = (false, false, false, false, false, false).
Proof. done. Qed.

Lemma string_ind3 (P : string → Prop) :
  P ""%string → (∀ a, P (String a "")) → (∀ a b, P (String a (String b ""))) →
  (∀ a b c s, P s → P (String a (String b (String c s)))) → ∀ s, P s.
Proof.
  intros H0 H1 H2 H3. fix IH 1. intros [|a [|b [|c s]]]; [done|apply H1|apply H2|apply H3, IH].
Qed.

#[export] Instance reference_base64 : Base64 := {
  base64_from_binary := b64;
  binary_from_base64 := unb64;
}.

Lemma padding_step a b c s : padding (String a (String b (String c s))) = padding s.
Proof.
  unfold padding. simpl String.length.
  replace (S (S (S (String.length s)))) with (String.length s + 1 * 3) by lia.
  by rewrite Nat.Div0.mod_add.
Qed.

#[export] Instance reference_base64_laws : Base64Laws.
Proof.
  split. intros s. induction s as [|a|a b|a b c s IH] using string_ind3; [done| | |].
  - destruct a. lazy -[undigit digit]. by rewrite !undigit_digit, !undigit_pad.
  - destruct a, b. lazy -[undigit digit]. by rewrite !undigit_digit, !undigit_pad.
  - rewrite padding_step. destruct a, b, c. cbn -[undigit digit padding repeat_char String.append].
    rewrite !string_cons_app. cbn -[undigit digit padding repeat_char String.append].
    rewrite !undigit_digit. cbn -[padding repeat_char String.append unb64 b64].
    cbn [binary_from_base64 base64_from_binary reference_base64] in IH. by rewrite IH.
Qed.

(** *** Witnesses *)

Lemma password_round_trip_witness :
  encryptPassword "password" "key" tt = Done "28bs3tzo3ck="%string tt ∧
  decryptPassword "28bs3tzo3ck=" "key" tt = Done "password"%string tt.
Proof.
  destruct (password_round_trip "password" "key"
    (default ""%string (shift_from 0 Z.add "key" "password")) tt) as [E Hd]; [discriminate|reflexivity|].
  split; [reflexivity|]. apply Hd. vm_compute. discriminate.
Defined.

Lemma groups_round_trip_witness :
  deserializeGroups (serializeGroups ["Buddies"; "Buddies2"]) = ["Buddies"; "Buddies2"]%string.
Proof.
  apply groups_round_trip; [|discriminate].
  repeat constructor; intros Hn; vm_compute in Hn; repeat destruct Hn as [Hn|Hn]; congruence || done.
Defined.
