(* ===== verification/Roster.v ===== *)
(** * The roster of one user

    The contacts of a user: Buddy and LocalBuddy (libtransport/Buddy.cpp,
    LocalBuddy.cpp), RosterManager and RosterStorage (RosterManager.cpp,
    RosterStorage.cpp), XMPPRosterManager and RosterResponder
    (spectrum/src/frontends/xmpp/), and the handlers of NetworkPluginServer that
    change contacts. A contact is an object of a heap; the roster's map and the
    queue of the storage hold pointers to it. The map may hold null pointers:
    getBuddy is m_buddies[name], which makes an entry for every name asked for. *)

From S2P Require Utf8.
From S2P Require Import Prelude StdMap Swiften Protocol Framing Names Pool Outgoing.
Import pbnetwork.

(** ** Data *)

(** BuddyFlag and Buddy::Subscription *)
Definition BUDDY_NO_FLAG : Z := 0.
Definition BUDDY_JID_ESCAPING : Z := 2.
Definition BUDDY_BLOCKED : Z := 8.

Inductive Subscription := Ask | Both.

#[export] Instance Subscription_eq_dec : EqDecision Subscription.
Proof. solve_decision. Defined.

(** struct BuddyInfo; of its settings only icon_hash is used. *)
Record BuddyInfo := mkBuddyInfo {
  bi_id : Z;
  bi_alias : string;
  bi_legacyName : string;
  bi_subscription : string;
  bi_groups : list string;
  bi_icon_hash : option string;
  bi_flags : Z;
}.

Definition has_mask (flags mask : Z) : bool := negb (Z.land flags mask =? 0)%Z.

(** The abstract class StorageBackend, as far as the roster calls it. *)
Class BuddyStorage (St : Type) := {
  db_getBuddies : Z → St → list BuddyInfo;
  db_addBuddy : Z → BuddyInfo → St → Z * St;
  db_updateBuddy : Z → BuddyInfo → St → St;
  db_removeBuddy : Z → St → St;
  db_beginTransaction : St → St;
  db_commitTransaction : St → St;
}.

(** Swift::RosterItemPayload *)
Inductive ItemSubscription := ItemBoth | ItemRemove | ItemOther.

#[export] Instance ItemSubscription_eq_dec : EqDecision ItemSubscription.
Proof. solve_decision. Defined.

Section types.
Context {J St : Type}.

Record RosterItem := mkRosterItem {
  ri_jid : J;
  ri_name : string;
  ri_groups : list string;
  ri_subscription : ItemSubscription;
}.

(** The members of Buddy and LocalBuddy. *)
Record Buddy := mkBuddy {
  b_id : Z;
  b_flags : Z;
  b_subscription : Subscription;
  b_jid : J;
  b_presences : list (Presence J);
  b_name : string;
  b_alias : string;
  b_groups : list string;
  b_statusMessage : string;
  b_iconHash : string;
  b_status : StatusShow;
}.

Inductive roster_event :=
  | SendPresence (p : Presence J)
  | SubscribePresence (from to : J) (nickname : option string)
  | RosterPush (to : J) (items : list RosterItem) (request : option nat)
  | RosterResponse (to : J) (items : list RosterItem)
  | RosterItemExchange (to : J) (items : list RosterItem)
  | RemoteRosterRequest (to : J)
  | RemoveHandler (request : option nat)
  | StartStorageTimer
  | StopStorageTimer
  | StartRIETimer
  | StopRIETimer
  | BuddySet (b : nat)
  | BuddyUnset (b : nat)
  | ToBackend (c : bid) (data : bytes).

(** The members of RosterManager, XMPPRosterManager and RosterStorage (the
    queue of buddies to store), what they read of the user (getData, the slots
    of the backend handlers, isConnected, shouldCacheMessages) and of the
    presence oracle (the user's resources), and the database. *)
Record Roster := mkRoster {
  r_heap : gmap nat Buddy;
  r_next : nat;
  m_buddies : smap string (option nat);
  m_rosterStorage : option (smap string nat);
  m_supportRemoteRoster : bool;
  m_remoteRosterRequest : bool;
  m_requests : list nat;
  r_next_request : nat;
  r_data : option bid;
  r_slots : nat;
  r_connected : bool;
  r_cacheMessages : bool;
  r_resources : list J;
  r_db : St;
  r_out : list roster_event;
}.

(** What does not change: the user, the component, the configuration, and a
    library function: boost::locale::to_lower. *)
Record RosterEnv := mkRosterEnv {
  re_user_jid : J;
  re_user_id : Z;
  re_uin : string;
  re_component_jid : J;
  re_serverMode : bool;
  re_rawxml : bool;
  re_enable_remove_buddy : bool;
  re_jid_escaping : bool;
  to_lower : string → string;
}.
End types.
Arguments RosterItem : clear implicits.
Arguments Buddy : clear implicits.
Arguments roster_event : clear implicits.
Arguments Roster : clear implicits.
Arguments RosterEnv : clear implicits.

(** ** Updating members *)

Section updates.
Context {J St : Type}.
Implicit Types b : Buddy J.

Definition set_id x b := mkBuddy x (b_flags b) (b_subscription b) (b_jid b) (b_presences b) (b_name b) (b_alias b) (b_groups b) (b_statusMessage b) (b_iconHash b) (b_status b).
Definition set_flags x b := mkBuddy (b_id b) x (b_subscription b) (b_jid b) (b_presences b) (b_name b) (b_alias b) (b_groups b) (b_statusMessage b) (b_iconHash b) (b_status b).
Definition set_subscription x b := mkBuddy (b_id b) (b_flags b) x (b_jid b) (b_presences b) (b_name b) (b_alias b) (b_groups b) (b_statusMessage b) (b_iconHash b) (b_status b).
Definition set_jid x b := mkBuddy (b_id b) (b_flags b) (b_subscription b) x (b_presences b) (b_name b) (b_alias b) (b_groups b) (b_statusMessage b) (b_iconHash b) (b_status b).
Definition set_presences x b := mkBuddy (b_id b) (b_flags b) (b_subscription b) (b_jid b) x (b_name b) (b_alias b) (b_groups b) (b_statusMessage b) (b_iconHash b) (b_status b).
Definition set_name x b := mkBuddy (b_id b) (b_flags b) (b_subscription b) (b_jid b) (b_presences b) x (b_alias b) (b_groups b) (b_statusMessage b) (b_iconHash b) (b_status b).
Definition set_alias x b := mkBuddy (b_id b) (b_flags b) (b_subscription b) (b_jid b) (b_presences b) (b_name b) x (b_groups b) (b_statusMessage b) (b_iconHash b) (b_status b).
Definition set_groups x b := mkBuddy (b_id b) (b_flags b) (b_subscription b) (b_jid b) (b_presences b) (b_name b) (b_alias b) x (b_statusMessage b) (b_iconHash b) (b_status b).
Definition set_iconHash x b := mkBuddy (b_id b) (b_flags b) (b_subscription b) (b_jid b) (b_presences b) (b_name b) (b_alias b) (b_groups b) (b_statusMessage b) x (b_status b).
Definition set_status x t b := mkBuddy (b_id b) (b_flags b) (b_subscription b) (b_jid b) (b_presences b) (b_name b) (b_alias b) (b_groups b) t (b_iconHash b) x.

Implicit Types r : Roster J St.

Definition with_heap f r := mkRoster (f (r_heap r)) (r_next r) (m_buddies r) (m_rosterStorage r) (m_supportRemoteRoster r) (m_remoteRosterRequest r) (m_requests r) (r_next_request r) (r_data r) (r_slots r) (r_connected r) (r_cacheMessages r) (r_resources r) (r_db r) (r_out r).
Definition with_next x r := mkRoster (r_heap r) x (m_buddies r) (m_rosterStorage r) (m_supportRemoteRoster r) (m_remoteRosterRequest r) (m_requests r) (r_next_request r) (r_data r) (r_slots r) (r_connected r) (r_cacheMessages r) (r_resources r) (r_db r) (r_out r).
Definition with_buddies f r := mkRoster (r_heap r) (r_next r) (f (m_buddies r)) (m_rosterStorage r) (m_supportRemoteRoster r) (m_remoteRosterRequest r) (m_requests r) (r_next_request r) (r_data r) (r_slots r) (r_connected r) (r_cacheMessages r) (r_resources r) (r_db r) (r_out r).
Definition with_rosterStorage x r := mkRoster (r_heap r) (r_next r) (m_buddies r) x (m_supportRemoteRoster r) (m_remoteRosterRequest r) (m_requests r) (r_next_request r) (r_data r) (r_slots r) (r_connected r) (r_cacheMessages r) (r_resources r) (r_db r) (r_out r).
Definition with_remote support pending r := mkRoster (r_heap r) (r_next r) (m_buddies r) (m_rosterStorage r) support pending (m_requests r) (r_next_request r) (r_data r) (r_slots r) (r_connected r) (r_cacheMessages r) (r_resources r) (r_db r) (r_out r).
Definition with_requests f n r := mkRoster (r_heap r) (r_next r) (m_buddies r) (m_rosterStorage r) (m_supportRemoteRoster r) (m_remoteRosterRequest r) (f (m_requests r)) n (r_data r) (r_slots r) (r_connected r) (r_cacheMessages r) (r_resources r) (r_db r) (r_out r).
Definition with_db (x : St) r := mkRoster (r_heap r) (r_next r) (m_buddies r) (m_rosterStorage r) (m_supportRemoteRoster r) (m_remoteRosterRequest r) (m_requests r) (r_next_request r) (r_data r) (r_slots r) (r_connected r) (r_cacheMessages r) (r_resources r) x (r_out r).
Definition with_out f r := mkRoster (r_heap r) (r_next r) (m_buddies r) (m_rosterStorage r) (m_supportRemoteRoster r) (m_remoteRosterRequest r) (m_requests r) (r_next_request r) (r_data r) (r_slots r) (r_connected r) (r_cacheMessages r) (r_resources r) (r_db r) (f (r_out r)).
End updates.

Section roster.
Context {J St : Type} `{Jid J} `{BuddyStorage St} `{Protobuf} (env : RosterEnv J).

Abbreviation roster := (prog (Roster J St)).

Definition emit (e : roster_event J) : roster unit := modify (with_out (λ l, l ++ [e])).
Definition load (b : nat) : roster (Buddy J) := r ← get; deref (r_heap r !! b).
Definition store (b : nat) (f : Buddy J → Buddy J) : roster unit :=
  o ← load b; modify (with_heap <[b := f o]>).
(** delete buddy *)
Definition delete_buddy (b : nat) : roster unit := _ ← load b; modify (with_heap (delete b)).
(** Calling a member function through a pointer. *)
Definition this (p : option nat) : roster nat :=
  match p with Some b => mret b | None => raise NullDereference end.

Definition database (f : St → St) : roster unit := r ← get; modify (with_db (f (r_db r))).
Definition user_bare : J := toBare (re_user_jid env).

(** *** Buddy *)

(** Buddy::generateJID: the JID is cleared first, so the name is the legacy one. *)
Definition generated_jid (o : Buddy J) : J :=
  Names.generateJID (has_mask (b_flags o) BUDDY_JID_ESCAPING) (b_name o)
    (toString (re_component_jid env)) "bot".

Definition generateJID (b : nat) : roster unit := store b (λ o, set_jid (generated_jid o) o).

Definition getSafeName (o : Buddy J) : string :=
  if isValid (b_jid o) then getNode (b_jid o)
  else Names.getSafeName (has_mask (b_flags o) BUDDY_JID_ESCAPING) (b_name o).

Definition setFlags (b : nat) (flags : Z) : roster unit :=
  store b (set_flags flags) ;;
  o ← load b;
  when (negb (String.eqb (getSafeName o) "")) (generateJID b).

Definition setBlocked (b : nat) (block : bool) : roster unit :=
  store b (λ o, set_flags (if block then Z.lor (b_flags o) BUDDY_BLOCKED
                           else Z.ldiff (b_flags o) BUDDY_BLOCKED) o).

Definition isBlocked (o : Buddy J) : bool := has_mask (b_flags o) BUDDY_BLOCKED.

Definition getJID (b : nat) : roster J :=
  o ← load b;
  when (negb (isValid (b_jid o)) || String.eqb (getNode (b_jid o)) "") (generateJID b) ;;
  o ← load b;
  mret (b_jid o).

(** The first presence of the list from that address goes. *)
Fixpoint erase_from (from : J) (l : list (Presence J)) : list (Presence J) :=
  match l with
  | [] => []
  | p :: l => if decide (pr_from p = from) then l else p :: erase_from from l
  end.

(** The first presence of the list from that address is replaced, or the new
    one is added at the end. *)
Fixpoint replace_from (new : Presence J) (l : list (Presence J)) : list (Presence J) :=
  match l with
  | [] => [new]
  | p :: l => if decide (pr_from p = pr_from new) then new :: l else p :: replace_from new l
  end.

Definition handleRawPresence (b : nat) (p : Presence J) : roster unit :=
  store b (λ o, set_presences (erase_from (pr_from p) (b_presences o) ++ [p]) o) ;;
  emit (SendPresence p).

Definition isAvailable (o : Buddy J) : bool := negb (bool_decide (b_status o = NoShow)).

(** The presence generatePresenceStanzas makes for the status of the buddy. *)
Definition current_presence (o : Buddy J) : Presence J :=
  let p := setPresenceFrom (b_jid o) (setPresenceTo user_bare empty_presence) in
  let p := if String.eqb (b_statusMessage o) "" then p else setPresenceStatus (b_statusMessage o) p in
  let p := if bool_decide (b_status o = NoShow) then setPresenceType Unavailable p else p in
  let p := setPresenceShow (b_status o) p in
  if bool_decide (b_status o = NoShow) then p else addPhotoHash (b_iconHash o) p.

(** Buddy::generatePresenceStanzas with LocalBuddy::getStatus, which has no
    answer when raw XML is on. *)
Definition generatePresenceStanzas (b : nat) : roster (list (Presence J)) :=
  o ← load b;
  when (String.eqb (getNode (b_jid o)) "") (generateJID b) ;;
  store b (λ o, set_presences
    (if re_rawxml env then erase_from (b_jid o) (b_presences o)
     else replace_from (current_presence o) (b_presences o)) o) ;;
  o ← load b;
  mret (b_presences o).

Definition sendPresence (b : nat) : roster unit :=
  presences ← generatePresenceStanzas b;
  for_each presences (λ p, emit (SendPresence p)).

(** A loop that addresses the buddy's own presences and sends them. *)
Definition send_presences_to (b : nat) (to : J) : roster unit :=
  presences ← generatePresenceStanzas b;
  store b (λ o, set_presences (map (setPresenceTo to) (b_presences o)) o) ;;
  for_each presences (λ p, emit (SendPresence (setPresenceTo to p))).

(** *** RosterStorage *)

Definition with_queue (f : smap string nat → smap string nat) (r : Roster J St) : Roster J St :=
  with_rosterStorage (f <$> m_rosterStorage r) r.

(** RosterManager::storeBuddy with RosterStorage::storeBuddy *)
Definition storeBuddy (b : nat) : roster unit :=
  r ← get;
  match m_rosterStorage r with
  | None => mret tt
  | Some _ =>
      o ← load b;
      if String.eqb (b_name o) "" then mret tt
      else modify (with_queue (sinsert (b_name o) b)) ;; emit StartStorageTimer
  end.

(** RosterStorage::removeBuddy *)
Definition storage_removeBuddy (b : nat) : roster unit :=
  o ← load b;
  when (negb (b_id o =? -1)%Z) (database (db_removeBuddy (b_id o))).

Definition removeBuddyFromQueue (b : nat) : roster unit :=
  o ← load b; modify (with_queue (serase (b_name o))).

(** The BuddyInfo storeBuddies writes. *)
Definition info_of (o : Buddy J) : BuddyInfo :=
  mkBuddyInfo (b_id o) (b_alias o) (b_name o) (if decide (b_subscription o = Ask) then "ask" else "both")
    (b_groups o) (Some (b_iconHash o)) (b_flags o).

Definition store_one (b : nat) : roster unit :=
  o ← load b;
  if negb (b_id o =? -1)%Z then database (db_updateBuddy (re_user_id env) (info_of o))
  else
    r ← get;
    let '(id, db) := db_addBuddy (re_user_id env) (info_of o) (r_db r) in
    modify (with_db db) ;;
    store b (set_id id).

Definition storeBuddies : roster bool :=
  r ← get;
  match default [] (m_rosterStorage r) with
  | [] => mret false
  | queue =>
      database db_beginTransaction ;;
      for_each queue (λ kv, store_one kv.2) ;;
      modify (with_queue (λ _, [])) ;;
      database db_commitTransaction ;;
      mret true
  end.

(** *** LocalBuddy *)

Definition local_buddy (id : Z) (name alias : string) (groups : list string) (flags : Z) : Buddy J :=
  let o := mkBuddy id flags Ask no_jid [] name alias groups "" "" NoShow in
  set_jid (generated_jid o) o.

(** new LocalBuddy *)
Definition newLocalBuddy (id : Z) (name alias : string) (groups : list string) (flags : Z) : roster nat :=
  r ← get;
  let b := r_next r in
  modify (with_heap <[b := local_buddy id name alias groups flags]>) ;;
  modify (with_next (S b)) ;;
  mret b.

Definition local_isValid (o : Buddy J) : bool :=
  isValid (b_jid o) && negb (has_char "/" (getSafeName o)).

Definition setStatus (b : nat) (status : StatusShow) (statusMessage : string) : roster unit :=
  o ← load b;
  when (negb (bool_decide (b_status o = status)) || negb (String.eqb (b_statusMessage o) statusMessage))
    (store b (set_status status statusMessage) ;; sendPresence b).

Definition setIconHash (b : nat) (iconHash : string) : roster unit :=
  o ← load b;
  store b (set_iconHash iconHash) ;;
  when (negb (String.eqb (b_iconHash o) iconHash)) (storeBuddy b ;; sendPresence b).

(** LocalBuddy::setName; the address is generated again, and not undone. *)
Definition setName (b : nat) (name : string) : roster bool :=
  o ← load b;
  if String.eqb name (b_name o) then mret true
  else
    store b (set_name name) ;;
    generateJID b ;;
    o ← load b;
    mret (isValid (b_jid o)).

(** *** RosterManager: the map *)

(** m_buddies[to_lower(name)] *)
Definition getBuddy (name : string) : roster (option nat) :=
  r ← get;
  let key := to_lower env name in
  match sfind key (m_buddies r) with
  | Some p => mret p
  | None => modify (with_buddies (sinsert key None)) ;; mret None
  end.

(** Buddy::JIDToBuddy and Buddy::JIDToLegacyName with a user. *)
Definition JIDToBuddy (jid : J) : roster (option nat) := getBuddy (Names.JIDToLegacyName jid).

Definition JIDToLegacyName (jid : J) : roster string :=
  p ← JIDToBuddy jid;
  match p with
  | Some b => o ← load b; mret (b_name o)
  | None => mret (Names.JIDToLegacyName jid)
  end.

(** NetworkFactory::createBuddy; a buddy with an invalid address is deleted. *)
Definition createBuddy (info : BuddyInfo) : roster (option nat) :=
  b ← newLocalBuddy (bi_id info) (bi_legacyName info) (bi_alias info) (bi_groups info) (bi_flags info);
  o ← load b;
  if negb (local_isValid o) then delete_buddy b ;; mret None
  else
    store b (set_subscription (if String.eqb (bi_subscription info) "both" then Both else Ask)) ;;
    match bi_icon_hash info with
    | Some hash => setIconHash b hash
    | None => mret tt
    end ;;
    mret (Some b).

(** *** XMPPRosterManager: what the XMPP side is told *)

Definition item_of (o : Buddy J) (jid : J) : RosterItem J :=
  mkRosterItem (toBare jid) (b_alias o) (b_groups o) ItemBoth.

(** A roster push, with or without waiting for its result. *)
Definition push_to (to : J) (items : list (RosterItem J)) (wait : bool) : roster unit :=
  if wait then
    r ← get;
    let n := r_next_request r in
    emit (RosterPush to items (Some n)) ;;
    modify (with_requests (λ l, l ++ [n]) (S n))
  else emit (RosterPush to items None).

Definition push_all (items : list (RosterItem J)) (wait : bool) : roster unit :=
  if re_serverMode env then r ← get; for_each (r_resources r) (λ to, push_to to items wait)
  else push_to user_bare items wait.

Definition sendBuddyRosterRemove (b : nat) : roster unit :=
  jid ← getJID b;
  push_all [mkRosterItem (toBare jid) "" [] ItemRemove] false.

Definition sendBuddyRosterPush (p : option nat) : roster unit :=
  r ← get;
  if re_serverMode env && (negb (r_connected r) || r_cacheMessages r) then mret tt
  else
    b ← this p;
    jid ← getJID b;
    o ← load b;
    push_all [item_of o jid] true ;;
    when (negb (bool_decide (b_subscription o = Both)))
      (store b (set_subscription Both) ;; storeBuddy b).

Definition sendBuddyUnsubscribePresence (b : nat) : roster unit :=
  jid ← getJID b;
  let p := setPresenceFrom jid (setPresenceTo (re_user_jid env) empty_presence) in
  emit (SendPresence (setPresenceType Unsubscribe p)) ;;
  emit (SendPresence (setPresenceType Unsubscribed p)).

Definition sendBuddySubscribePresence (b : nat) : roster unit :=
  jid ← getJID b;
  o ← load b;
  emit (SubscribePresence (toBare jid) (re_user_jid env)
    (if String.eqb (b_alias o) "" then None else Some (b_alias o))).

Definition doRemoveBuddy (b : nat) : roster unit :=
  r ← get;
  if re_serverMode env || m_supportRemoteRoster r then sendBuddyRosterRemove b
  else sendBuddyUnsubscribePresence b.

Definition doAddBuddy (b : nat) : roster unit :=
  if re_serverMode env then sendBuddyRosterPush (Some b)
  else
    o ← load b;
    r ← get;
    if bool_decide (b_subscription o = Both) then mret tt
    else if m_supportRemoteRoster r then sendBuddyRosterPush (Some b)
    else emit StartRIETimer.

Definition doUpdateBuddy (b : nat) : roster unit :=
  r ← get;
  when (re_serverMode env || m_supportRemoteRoster r) (sendBuddyRosterPush (Some b)).

(** *** LocalBuddy: what an update also does *)

Definition setAlias (b : nat) (alias : string) : roster unit :=
  o ← load b;
  store b (set_alias alias) ;;
  when (negb (String.eqb (b_alias o) alias)) (doUpdateBuddy b ;; storeBuddy b).

Definition setGroups (b : nat) (groups : list string) : roster unit :=
  o ← load b;
  store b (set_groups groups) ;;
  when (negb (bool_decide (b_groups o = groups))) (doUpdateBuddy b ;; storeBuddy b).

(** *** RosterManager: adding and removing *)

Definition setBuddy (p : option nat) : roster unit :=
  b ← this p;
  o ← load b;
  modify (with_buddies (sinsert (to_lower env (b_name o)) (Some b))) ;;
  emit (BuddySet b) ;;
  doAddBuddy b ;;
  storeBuddy b.

Definition unsetBuddy (b : nat) : roster unit :=
  o ← load b;
  modify (with_buddies (serase (to_lower env (b_name o)))) ;;
  removeBuddyFromQueue b ;;
  emit (BuddyUnset b).

Definition removeBuddy (name : string) : roster unit :=
  p ← getBuddy (to_lower env name);
  match p with
  | None => mret tt
  | Some b =>
      doRemoveBuddy b ;;
      r ← get;
      when (bool_decide (is_Some (m_rosterStorage r))) (storage_removeBuddy b) ;;
      unsetBuddy b ;;
      delete_buddy b
  end.

(** *** The handlers of NetworkPluginServer connected to the roster *)

#[local] Instance roster_link : Link (Roster J St) := {
  link_getUser jid := mret (if String.eqb jid (toString user_bare) then Some 0 else None);
  link_getData _ := r ← get; mret (r_data r);
  link_send c data := emit (ToBackend c data);
  link_updateLastActivity _ := mret tt;
}.

Definition contact_of (o : Buddy J) : Contact :=
  mkContact (b_name o) (b_alias o) (b_groups o) (isBlocked o).

(** The signals onBuddyAdded and onBuddyRemoved: one call per connected slot. *)
Definition onBuddyAdded (p : option nat) : roster unit :=
  r ← get;
  for_each (replicate (r_slots r) tt) (λ _,
    b ← this p; o ← load b; handleUserBuddyAdded 0 (toString user_bare) (contact_of o)).

Definition onBuddyRemoved (p : option nat) : roster unit :=
  r ← get;
  for_each (replicate (r_slots r) tt) (λ _,
    b ← this p; o ← load b; handleUserBuddyRemoved 0 (toString user_bare) (contact_of o)).

Definition handleBuddyRemoved (b : nat) : roster unit :=
  o ← load b; Outgoing.handleBuddyRemoved 0 (toString user_bare) (contact_of o).

Definition handleBuddyUpdated (p : option nat) (item : RosterItem J) : roster unit :=
  b ← this p;
  setAlias b (ri_name item) ;;
  setGroups b (ri_groups item) ;;
  o ← load b;
  send_buddy_updated 0 (toString user_bare) (contact_of o).

Definition handleBuddyAdded (p : option nat) (item : RosterItem J) : roster unit := handleBuddyUpdated p item.

(** The static function handleBuddyPayload. *)
Definition handleBuddyPayload (b : nat) (payload : pbnetwork.Buddy.t) : roster unit :=
  when (negb (String.eqb (str (pbnetwork.Buddy.alias payload)) "")) (setAlias b (str (pbnetwork.Buddy.alias payload))) ;;
  groups ← Utf8.replaced_all (pbnetwork.Buddy.group payload);
  when (negb (bool_decide (groups = []))) (setGroups b groups) ;;
  setStatus b (StatusShow_of_int (StatusType_number (default STATUS_ONLINE (pbnetwork.Buddy.status payload))))
    (str (pbnetwork.Buddy.statusMessage payload)) ;;
  setIconHash b (str (pbnetwork.Buddy.iconHash payload)) ;;
  setBlocked b (flag_of (pbnetwork.Buddy.blocked payload)).

(** handleBuddyChangedPayload and handleBuddyRemovedPayload, once the payload is
    parsed and its user found. *)
Definition handleBuddyChangedPayload (payload : pbnetwork.Buddy.t) : roster unit :=
  let name := str (pbnetwork.Buddy.buddyName payload) in
  p ← getBuddy name;
  match p with
  | Some b => handleBuddyPayload b payload
  | None =>
      if String.eqb name (re_uin env) then mret tt
      else
        b ← newLocalBuddy (-1) name (str (pbnetwork.Buddy.alias payload)) (pbnetwork.Buddy.group payload)
              (if re_jid_escaping env then BUDDY_JID_ESCAPING else BUDDY_NO_FLAG);
        o ← load b;
        if negb (local_isValid o) then delete_buddy b
        else
          setBlocked b (flag_of (pbnetwork.Buddy.blocked payload)) ;;
          setBuddy (Some b) ;;
          setStatus b (StatusShow_of_int (StatusType_number (default STATUS_ONLINE (pbnetwork.Buddy.status payload))))
            (str (pbnetwork.Buddy.statusMessage payload)) ;;
          setIconHash b (str (pbnetwork.Buddy.iconHash payload))
  end.

Definition handleBuddyRemovedPayload (payload : pbnetwork.Buddy.t) : roster unit :=
  removeBuddy (str (pbnetwork.Buddy.buddyName payload)).

(** *** RosterManager: subscriptions *)

(** The temporary contact of an unknown name. *)
Definition temporary_info (legacyName : string) (to : J) : BuddyInfo :=
  mkBuddyInfo (-1) "" legacyName "both" [] None
    (if buddyFlagsFromJID to then BUDDY_JID_ESCAPING else BUDDY_NO_FLAG).

(** The switch of server mode: the buddy that is left, whether it is still a
    temporary one, and the type of the answer. *)
Definition subscription_server (type : PresenceType) (buddy : option nat) (newBuddy : bool)
    : roster (option nat * bool * PresenceType) :=
  match type with
  | Subscribe =>
      when newBuddy (setBuddy buddy) ;;
      onBuddyAdded buddy ;;
      mret (buddy, false, Subscribed)
  | Subscribed =>
      when (negb newBuddy) (onBuddyAdded buddy) ;;
      mret (buddy, newBuddy, Unavailable)
  | Unsubscribe =>
      onBuddyRemoved buddy ;;
      if newBuddy then mret (buddy, newBuddy, Unsubscribed)
      else b ← this buddy; o ← load b; removeBuddy (b_name o) ;; mret (None, newBuddy, Unsubscribed)
  | _ => mret (buddy, newBuddy, Unavailable)
  end.

(** The switch of gateway mode. *)
Definition subscription_gateway (type : PresenceType) (from : J) (buddy : option nat) (newBuddy : bool)
    : roster (option nat * bool * PresenceType) :=
  match type with
  | Subscribe | Subscribed =>
      (if newBuddy then setBuddy buddy
       else b ← this buddy; o ← load b;
            when (negb (bool_decide (b_subscription o = Both)))
              (store b (set_subscription Both) ;; storeBuddy b)) ;;
      onBuddyAdded buddy ;;
      b ← this buddy;
      send_presences_to b from ;;
      mret (buddy, false, if bool_decide (type = Subscribe) then Subscribed else Unavailable)
  | Unsubscribe =>
      forget ← (if newBuddy then mret true
                else b ← this buddy; o ← load b;
                     mret (bool_decide (b_subscription o = Ask) || re_enable_remove_buddy env));
      when forget (onBuddyRemoved buddy) ;;
      if newBuddy then mret (buddy, newBuddy, Unsubscribed)
      else b ← this buddy; o ← load b; removeBuddy (b_name o) ;; mret (None, newBuddy, Unsubscribed)
  | Unsubscribed =>
      b ← this buddy;
      o ← load b;
      if bool_decide (b_subscription o = Ask) then
        onBuddyRemoved buddy ;;
        removeBuddy (b_name o) ;;
        mret (None, newBuddy, Unsubscribe)
      else mret (buddy, newBuddy, Unavailable)
  | _ => mret (buddy, newBuddy, Unavailable)
  end.

(** The answer, and in gateway mode what the contact itself would send. *)
Definition answer_subscription (response : Presence J) (type : PresenceType) : roster unit :=
  when (negb (bool_decide (type = Unavailable))) (emit (SendPresence (setPresenceType type response))) ;;
  if re_serverMode env then mret tt
  else match type with
       | Unsubscribed => emit (SendPresence (setPresenceType Unsubscribe response))
       | Subscribed => emit (SendPresence (setPresenceType Subscribe response))
       | _ => mret tt
       end.

Definition handleSubscription (p : Presence J) : roster unit :=
  legacyName ← JIDToLegacyName (pr_to p);
  if String.eqb legacyName "" then mret tt
  else
    let response := setPresenceFrom (toBare (pr_to p)) (setPresenceTo (toBare (pr_from p)) empty_presence) in
    known ← getBuddy legacyName;
    let newBuddy := negb (bool_decide (is_Some known)) in
    buddy ← (if newBuddy then createBuddy (temporary_info legacyName (pr_to p)) else mret known);
    '(buddy, newBuddy, type) ←
      (if re_serverMode env then subscription_server (pr_type p) buddy newBuddy
       else subscription_gateway (pr_type p) (pr_from p) buddy newBuddy);
    answer_subscription response type ;;
    if newBuddy : bool then
      match buddy with
      | Some b => delete_buddy b
      | None => mret tt
      end
    else mret tt.

(** *** RosterManager: loading and showing *)

(** The loop over m_buddies that skips null pointers; the bodies do not add or
    remove entries. *)
Definition for_buddies (body : nat → roster unit) : roster unit :=
  r ← get;
  for_each (m_buddies r) (λ kv, match kv.2 with Some b => body b | None => mret tt end).

Definition setStorageBackend (storageBackend : bool) : roster unit :=
  r ← get;
  if bool_decide (is_Some (m_rosterStorage r)) || negb storageBackend then mret tt
  else
    for_each (db_getBuddies (re_user_id env) (r_db r)) (λ info,
      p ← createBuddy info;
      match p with
      | Some b =>
          o ← load b;
          modify (with_buddies (sinsert (to_lower env (b_name o)) (Some b))) ;;
          emit (BuddySet b)
      | None => mret tt
      end) ;;
    modify (with_rosterStorage (Some [])).

(** The items for the buddies of the map, in its order. *)
Fixpoint roster_items (l : smap string (option nat)) : roster (list (RosterItem J)) :=
  match l with
  | [] => mret []
  | (_, None) :: l => roster_items l
  | (_, Some b) :: l =>
      jid ← getJID b;
      o ← load b;
      items ← roster_items l;
      mret (item_of o jid :: items)
  end.

Definition generateRosterPayload : roster (list (RosterItem J)) :=
  r ← get; roster_items (m_buddies r).

Definition sendCurrentPresences (to : J) : roster unit :=
  for_buddies (λ b, o ← load b; when (isAvailable o) (send_presences_to b to)).

Definition sendCurrentPresence (from to : J) : roster unit :=
  p ← JIDToBuddy from;
  match p with
  | Some b => send_presences_to b to
  | None => emit (SendPresence (setPresenceType Unavailable
              (setPresenceFrom from (setPresenceTo to empty_presence))))
  end.

(** The type of a presence is changed for sending it, and then put back. *)
Definition sendUnavailablePresences (to : J) : roster unit :=
  for_buddies (λ b,
    o ← load b;
    when (isAvailable o) (
      presences ← generatePresenceStanzas b;
      store b (λ o, set_presences (map (setPresenceTo to) (b_presences o)) o) ;;
      for_each presences (λ p, emit (SendPresence (setPresenceType Unavailable (setPresenceTo to p)))))) ;;
  emit (SendPresence (setPresenceType Unavailable
    (setPresenceFrom (re_component_jid env) (setPresenceTo to empty_presence)))).

(** *** XMPPRosterManager: answers of the XMPP server *)

Definition newRosterManager : roster unit :=
  if re_serverMode env then mret tt
  else modify (with_remote false true) ;; emit (RemoteRosterRequest user_bare).

Definition handleBuddyRosterPushResponse (request : nat) (key : string) : roster unit :=
  p ← getBuddy key;
  match p with
  | Some b => o ← load b; when (isAvailable o) (sendPresence b)
  | None => mret tt
  end ;;
  r ← get;
  modify (with_requests (list_remove_all request) (r_next_request r)).

(** What follows the return at the end of the first part is never reached. *)
Definition handleRemoteRosterResponse (items : list (RosterItem J)) (error : bool) : roster unit :=
  if error then modify (with_remote false false)
  else
    modify (with_remote true false) ;;
    r ← get;
    when (bool_decide (items = [])) (for_each (m_buddies r) (λ kv, sendBuddyRosterPush kv.2)).

Definition sendRIE (jidWithRIE : list J) : roster unit :=
  emit StopRIETimer ;;
  match jidWithRIE with
  | [] => for_buddies sendBuddySubscribePresence
  | _ =>
      items ← generateRosterPayload;
      for_each jidWithRIE (λ to, emit (RosterItemExchange to items))
  end.

(** The destructors of XMPPRosterManager and RosterManager. *)
Definition destroyRosterManager : roster unit :=
  emit StopRIETimer ;;
  r ← get;
  when (m_remoteRosterRequest r) (emit (RemoveHandler None)) ;;
  for_each (m_requests r) (λ n, emit (RemoveHandler (Some n))) ;;
  modify (with_requests (λ _, []) (r_next_request r)) ;;
  storeBuddies ;;
  sendUnavailablePresences user_bare ;;
  for_buddies delete_buddy ;;
  r ← get;
  when (bool_decide (is_Some (m_rosterStorage r))) (emit StopStorageTimer).

(** *** RosterResponder, for a user who is logged in *)

Definition handleGetRequest (from : J) : roster unit :=
  items ← generateRosterPayload;
  emit (RosterResponse from items) ;;
  sendCurrentPresences from.

Definition handleSetRequest (from : J) (items : list (RosterItem J)) : roster unit :=
  emit (RosterResponse from []) ;;
  match items with
  | [] => mret tt
  | item :: _ =>
      if String.eqb (getNode (ri_jid item)) "" then mret tt
      else
        p ← JIDToBuddy (ri_jid item);
        match p with
        | Some b =>
            if bool_decide (ri_subscription item = ItemRemove) then
              handleBuddyRemoved b ;;
              emit (RosterPush user_bare items None)
            else handleBuddyUpdated (Some b) item
        | None =>
            if bool_decide (ri_subscription item = ItemRemove) then mret tt
            else
              legacyName ← JIDToLegacyName (ri_jid item);
              let info := mkBuddyInfo (-1) (ri_name item) legacyName "both" [] None
                (if buddyFlagsFromJID (ri_jid item) then BUDDY_JID_ESCAPING else BUDDY_NO_FLAG) in
              p ← createBuddy info;
              setBuddy p ;;
              handleBuddyAdded p item
        end
  end.

(** ** What happens to a roster

    The calls the rest of the program makes, and what changes around the roster:
    the user gets on or off a backend, connects, its resources come and go. *)

Inductive input :=
  | Subscription_ (p : Presence J)
  | StorageBackend (present : bool)
  | CurrentPresences (to : J)
  | CurrentPresence (from to : J)
  | UnavailablePresences (to : J)
  | PushResponse (request : nat) (key : string)
  | RemoteRoster (items : list (RosterItem J)) (error : bool)
  | RIETick (jidWithRIE : list J)
  | StorageTick
  | GetRequest (from : J)
  | SetRequest (from : J) (items : list (RosterItem J))
  | BackendChanged (payload : pbnetwork.Buddy.t)
  | BackendRemoved (payload : pbnetwork.Buddy.t)
  | Surroundings (data : option bid) (slots : nat) (connected cacheMessages : bool) (resources : list J).

Definition surroundings data slots connected cacheMessages resources (r : Roster J St) : Roster J St :=
  mkRoster (r_heap r) (r_next r) (m_buddies r) (m_rosterStorage r) (m_supportRemoteRoster r)
    (m_remoteRosterRequest r) (m_requests r) (r_next_request r) data slots connected cacheMessages resources
    (r_db r) (r_out r).

Definition react (e : input) : roster unit :=
  match e with
  | Subscription_ p => handleSubscription p
  | StorageBackend present => setStorageBackend present
  | CurrentPresences to => sendCurrentPresences to
  | CurrentPresence from to => sendCurrentPresence from to
  | UnavailablePresences to => sendUnavailablePresences to
  | PushResponse request key => handleBuddyRosterPushResponse request key
  | RemoteRoster items error => handleRemoteRosterResponse items error
  | RIETick jids => sendRIE jids
  | StorageTick => storeBuddies ;; mret tt
  | GetRequest from => handleGetRequest from
  | SetRequest from items => handleSetRequest from items
  | BackendChanged payload => handleBuddyChangedPayload payload
  | BackendRemoved payload => handleBuddyRemovedPayload payload
  | Surroundings data slots connected cache resources =>
      modify (surroundings data slots connected cache resources)
  end.

(** The roster of a new user: no contacts, no storage. *)
Definition empty_roster (db : St) : Roster J St :=
  mkRoster ∅ 0 [] None false false [] 0 None 0 false false [] db [].
End roster.
