(* ===== verification/RosterInv.v ===== *)
(** * The roster: invariant

    Every pointer in the roster's map and in the queue of the storage is alive
    and is filed under its buddy's name; the operations keep that, and can only
    stop at a null pointer, in three of them. *)

From S2P Require Utf8.
From S2P Require Import Prelude StdMap Swiften Protocol Framing Names Pool Outgoing Roster.
Import pbnetwork.

Section invariant.
Context {J St : Type} `{Jid J} `{BuddyStorage St} `{Protobuf} (env : RosterEnv J).

Implicit Types r : Roster J St.

Definition alive r (b : nat) : Prop := is_Some (r_heap r !! b).

(** The map files [b] under its name in lower case, the queue under its name. *)
Definition map_ok r : Prop :=
  ∀ k b, (k, Some b) ∈ m_buddies r → ∃ o, r_heap r !! b = Some o ∧ k = to_lower env (b_name o).
Definition queue_ok r : Prop :=
  ∀ q n b, m_rosterStorage r = Some q → (n, b) ∈ q → ∃ o, r_heap r !! b = Some o ∧ b_name o = n.

(** No two presences of a contact come from the same address. *)
Definition presences_ok (o : Buddy J) : Prop := NoDup (pr_from <$> b_presences o).

Record rinv r : Prop := mkRinv {
  inv_sorted : sorted (m_buddies r);
  inv_map : map_ok r;
  inv_queue : queue_ok r;
  inv_next : ∀ b, alive r b → b < r_next r;
  inv_presences : ∀ b o, r_heap r !! b = Some o → presences_ok o;
  inv_queue_sorted : ∀ q, m_rosterStorage r = Some q → sorted q;
}.

(** The invariant, with some pointers that a handler holds. *)
Definition I (L : list nat) r : Prop := rinv r ∧ Forall (alive r) L.

(** Nothing in the roster refers to [b]. *)
Definition unlinked r (b : nat) : Prop :=
  (∀ k, (k, Some b) ∉ m_buddies r) ∧ (∀ q n, m_rosterStorage r = Some q → (n, b) ∉ q).

Lemma buddy_loaded r b o : r_heap r !! b = Some o → load b r = Done o r.
Proof. intros Ho. unfold load. rewrite bind_run. cbn beta iota delta [get]. by rewrite Ho. Qed.

(** ** Steps that leave the contacts alone *)

(** [same r r']: the same contacts under the same names, the same map and queue. *)
Record same r r' : Prop := mkSame {
  same_heap : ∀ b, option_Forall2 (λ o o', b_name o' = b_name o ∧ (presences_ok o → presences_ok o'))
    (r_heap r !! b) (r_heap r' !! b);
  same_map : m_buddies r' = m_buddies r;
  same_queue : m_rosterStorage r' = m_rosterStorage r;
  same_next : r_next r' = r_next r;
}.

(** The heap did not change at all. *)
Lemma same_intro r r' :
  r_heap r' = r_heap r → m_buddies r' = m_buddies r → m_rosterStorage r' = m_rosterStorage r →
  r_next r' = r_next r → same r r'.
Proof. intros E1 E2 E3 E4. split; try done. intros b. rewrite E1. by destruct (r_heap r !! b); constructor. Qed.

Lemma same_alive r r' b : same r r' → alive r b ↔ alive r' b.
Proof.
  intros Hs. unfold alive. destruct (same_heap _ _ Hs b); split; intros [? [=]]; by eexists.
Qed.

Lemma same_lookup r r' b o :
  same r r' → r_heap r !! b = Some o →
  ∃ o', r_heap r' !! b = Some o' ∧ b_name o' = b_name o ∧ (presences_ok o → presences_ok o').
Proof.
  intros Hs E. destruct (same_heap _ _ Hs b) as [o1 o' Ho|]; [|done]. injection E as ->. by exists o'.
Qed.

Lemma same_lookup_back r r' b o' :
  same r r' → r_heap r' !! b = Some o' →
  ∃ o, r_heap r !! b = Some o ∧ b_name o' = b_name o ∧ (presences_ok o → presences_ok o').
Proof.
  intros Hs E. destruct (same_heap _ _ Hs b) as [o o1 Ho|]; [|done]. injection E as ->. by exists o.
Qed.

Lemma same_rinv r r' : same r r' → rinv r → rinv r'.
Proof.
  intros Hs [Hsorted Hmap Hqueue Hnext Hpres Hqs]. split.
  - by rewrite (same_map _ _ Hs).
  - intros k b Hin. rewrite (same_map _ _ Hs) in Hin. destruct (Hmap k b Hin) as (o & Ho & ->).
    destruct (same_lookup _ _ _ _ Hs Ho) as (o' & Ho' & En & _). exists o'. by rewrite En.
  - intros q n b Hq Hin. rewrite (same_queue _ _ Hs) in Hq. destruct (Hqueue q n b Hq Hin) as (o & Ho & <-).
    destruct (same_lookup _ _ _ _ Hs Ho) as (o' & Ho' & En & _). by exists o'.
  - intros b Hb. rewrite (same_next _ _ Hs). apply Hnext. by apply (same_alive _ _ _ Hs).
  - intros b o' Ho'. destruct (same_lookup_back _ _ _ _ Hs Ho') as (o & Ho & _ & Hok). eauto.
  - intros q. rewrite (same_queue _ _ Hs). apply Hqs.
Qed.

Lemma same_I L r r' : same r r' → I L r → I L r'.
Proof.
  intros Hs [Hr HL]. split; [by eapply same_rinv|]. eapply Forall_impl; [exact HL|].
  intros b. by apply (same_alive _ _ _ Hs).
Qed.

Lemma same_unlinked r r' b : same r r' → unlinked r b → unlinked r' b.
Proof.
  intros Hs [Hm Hq]. split.
  - intros k. rewrite (same_map _ _ Hs). apply Hm.
  - intros q n. rewrite (same_queue _ _ Hs). apply Hq.
Qed.

(** *** The presences of one contact *)

Lemma erase_from_sublist from (l : list (Presence J)) : sublist (erase_from from l) l.
Proof. induction l as [|p l IH]; simpl; [done|]. case_decide; by constructor. Qed.

Lemma erase_from_gone from (l : list (Presence J)) :
  NoDup (pr_from <$> l) → from ∉ pr_from <$> erase_from from l.
Proof.
  induction l as [|p l IH]; simpl; [set_solver|]. intros [Hp Hl]%NoDup_cons.
  case_decide; [by subst|]. simpl. specialize (IH Hl). set_solver.
Qed.

Lemma presences_erase from o : presences_ok o → presences_ok (set_presences (erase_from from (b_presences o)) o).
Proof.
  unfold presences_ok. simpl. intros Hl. eapply sublist_NoDup; [exact Hl|].
  apply (fmap_sublist pr_from), erase_from_sublist.
Qed.

Lemma presences_push p o :
  presences_ok o → presences_ok (set_presences (erase_from (pr_from p) (b_presences o) ++ [p]) o).
Proof.
  intros Ho. pose proof (presences_erase (pr_from p) o Ho) as Hl. unfold presences_ok in *. simpl in *.
  rewrite fmap_app. apply NoDup_app. split_and!; [done| |apply NoDup_singleton].
  intros x Hx Hx'. simpl in Hx'. apply list_elem_of_singleton in Hx' as ->.
  exact (erase_from_gone _ _ Ho Hx).
Qed.

Lemma replace_from_elem p (l : list (Presence J)) x :
  x ∈ pr_from <$> replace_from p l → x = pr_from p ∨ x ∈ pr_from <$> l.
Proof.
  induction l as [|q l IH]; simpl; [set_solver|]. case_decide; simpl; set_solver.
Qed.

Lemma presences_replace p o :
  presences_ok o → presences_ok (set_presences (replace_from p (b_presences o)) o).
Proof.
  unfold presences_ok. simpl. induction (b_presences o) as [|q l IH]; simpl; [intros _; apply NoDup_singleton|].
  intros [Hq Hl]%NoDup_cons. case_decide as Hpq; simpl.
  - rewrite <- Hpq. by apply NoDup_cons.
  - apply NoDup_cons. split; [|by apply IH]. intros [E|Hin]%replace_from_elem; done.
Qed.

Lemma presences_to to o :
  presences_ok o → presences_ok (set_presences (map (setPresenceTo to) (b_presences o)) o).
Proof.
  unfold presences_ok. simpl. intros Ho.
  replace (pr_from <$> map (setPresenceTo to) (b_presences o)) with (pr_from <$> b_presences o); [done|].
  change (map (setPresenceTo to) (b_presences o)) with (setPresenceTo to <$> b_presences o).
  rewrite <- list_fmap_compose. by apply list_fmap_ext.
Qed.

Lemma presences_generated o :
  presences_ok o →
  presences_ok (set_presences (if re_rawxml env then erase_from (b_jid o) (b_presences o)
                               else replace_from (current_presence env o) (b_presences o)) o).
Proof. destruct (re_rawxml env); [apply presences_erase|apply presences_replace]. Qed.

(** A property that only depends on that, and that makes [b] alive. *)
Definition stable (P : Roster J St → Prop) : Prop := ∀ r r', same r r' → P r → P r'.

Definition holds (b : nat) (P : Roster J St → Prop) : Prop := ∀ r, P r → alive r b.

Lemma stable_I L : stable (I L).
Proof. intros r r'. apply same_I. Qed.

Lemma holds_I b L : b ∈ L → holds b (I L).
Proof. intros Hb r [_ HL]. by eapply Forall_forall in HL. Qed.

Section calm.
Context (E : fault → Prop) (P : Roster J St → Prop) (HP : stable P).

Lemma calm_modify f : (∀ r, same r (f r)) → spec E P (modify f) (λ _, P).
Proof. intros Hf. apply spec_modify. intros r Hr. by eapply HP. Qed.

Lemma calm_emit e : spec E P (emit e) (λ _, P).
Proof. apply calm_modify. intros r. by apply same_intro. Qed.

Lemma calm_database f : spec E P (database f) (λ _, P).
Proof.
  unfold database. eapply spec_keep; [by apply spec_get|]. intros r.
  apply calm_modify. intros r'. by apply same_intro.
Qed.

Context (b : nat) (Hb : holds b P).

Lemma calm_load : spec E P (load b) (λ _, P).
Proof.
  intros r Hr. unfold load. rewrite bind_run. cbn beta iota delta [get].
  destruct (Hb r Hr) as [o Ho]. by rewrite Ho.
Qed.

Lemma calm_store f :
  (∀ o, b_name (f o) = b_name o ∧ (presences_ok o → presences_ok (f o))) → spec E P (store b f) (λ _, P).
Proof.
  intros Hf r Hr. unfold store, load. rewrite !bind_run. cbn beta iota delta [get].
  destruct (Hb r Hr) as [o Ho]. rewrite Ho. cbn. eapply HP; [|exact Hr].
  split; try done. intros b'. simpl. destruct (decide (b' = b)) as [->|].
  - rewrite lookup_insert_eq, Ho. constructor. apply Hf.
  - rewrite lookup_insert_ne by done. by destruct (r_heap r !! b'); constructor.
Qed.
End calm.

(** Stepping through a program that only does such things. *)
Ltac calm_step :=
  match goal with
  | |- spec ?E ?P (this (Some ?b) ≫= ?k) ?Q => change (spec E P (k b) Q); cbv beta
  | |- spec _ _ (_ ≫= _) _ => eapply spec_keep; [|intros ?]
  | |- spec _ _ (when _ _) _ => apply spec_when
  | |- spec _ _ (for_each _ _) _ => apply spec_for_each; intros ? _
  | |- spec _ _ (emit _) _ => apply calm_emit
  | |- spec _ _ (database _) _ => apply calm_database
  | |- spec _ _ (load _) _ => apply calm_load
  | |- spec _ _ (store _ _) _ => apply calm_store; [| |intros ?; split; [|try done]]
  | |- spec _ _ (mret _) _ => apply spec_ret
  | |- spec _ _ get _ => apply spec_get
  | |- spec _ _ (this (Some _)) _ => apply spec_ret
  | |- spec _ _ (modify _) _ => apply calm_modify; [|intros ?; apply same_intro]
  | |- spec _ _ (match ?x with _ => _ end) _ => destruct x
  end; try done.

Create HintDb roster.
Ltac calm := repeat first [calm_step | solve [auto with roster]].
#[local] Hint Resolve stable_I holds_I presences_erase presences_push presences_to presences_generated : roster.

Section calm_operations.
Context (E : fault → Prop) (P : Roster J St → Prop) (HP : stable P).

Lemma calm_push_to to items wait : spec E P (push_to to items wait) (λ _, P).
Proof using HP. unfold push_to. calm. Qed.
#[local] Hint Resolve calm_push_to : roster.

Lemma calm_push_all items wait : spec E P (push_all env items wait) (λ _, P).
Proof using HP. unfold push_all. calm. Qed.
#[local] Hint Resolve calm_push_all : roster.

Lemma calm_answer response type : spec E P (answer_subscription env response type) (λ _, P).
Proof using HP. unfold answer_subscription. calm. Qed.

Context (b : nat) (Hb : holds b P).

Lemma calm_generateJID : spec E P (generateJID env b) (λ _, P).
Proof using HP Hb. unfold generateJID. calm. Qed.
#[local] Hint Resolve calm_generateJID : roster.

Lemma calm_setFlags flags : spec E P (setFlags env b flags) (λ _, P).
Proof using HP Hb. unfold setFlags. calm. Qed.

Lemma calm_setBlocked x : spec E P (setBlocked b x) (λ _, P).
Proof using HP Hb. unfold setBlocked. calm. Qed.

Lemma calm_getJID : spec E P (getJID env b) (λ _, P).
Proof using HP Hb. unfold getJID. calm. Qed.
#[local] Hint Resolve calm_getJID : roster.

Lemma calm_handleRawPresence p : spec E P (handleRawPresence b p) (λ _, P).
Proof using HP Hb. unfold handleRawPresence. calm. Qed.

Lemma calm_generatePresenceStanzas : spec E P (generatePresenceStanzas env b) (λ _, P).
Proof using HP Hb. unfold generatePresenceStanzas. calm. Qed.
#[local] Hint Resolve calm_generatePresenceStanzas : roster.

Lemma calm_sendPresence : spec E P (sendPresence env b) (λ _, P).
Proof using HP Hb. unfold sendPresence. calm. Qed.
#[local] Hint Resolve calm_sendPresence : roster.

Lemma calm_send_presences_to to : spec E P (send_presences_to env b to) (λ _, P).
Proof using HP Hb. unfold send_presences_to. calm. Qed.

Lemma calm_setStatus status text : spec E P (setStatus env b status text) (λ _, P).
Proof using HP Hb. unfold setStatus. calm. Qed.

Lemma calm_sendBuddyRosterRemove : spec E P (sendBuddyRosterRemove env b) (λ _, P).
Proof using HP Hb. unfold sendBuddyRosterRemove. calm. Qed.
#[local] Hint Resolve calm_sendBuddyRosterRemove : roster.

Lemma calm_sendBuddyUnsubscribePresence : spec E P (sendBuddyUnsubscribePresence env b) (λ _, P).
Proof using HP Hb. unfold sendBuddyUnsubscribePresence. calm. Qed.
#[local] Hint Resolve calm_sendBuddyUnsubscribePresence : roster.

Lemma calm_sendBuddySubscribePresence : spec E P (sendBuddySubscribePresence env b) (λ _, P).
Proof using HP Hb. unfold sendBuddySubscribePresence. calm. Qed.

Lemma calm_doRemoveBuddy : spec E P (doRemoveBuddy env b) (λ _, P).
Proof using HP Hb. unfold doRemoveBuddy. calm. Qed.

Lemma calm_storage_removeBuddy : spec E P (storage_removeBuddy b) (λ _, P).
Proof using HP Hb. unfold storage_removeBuddy. calm. Qed.

Lemma calm_store_one : spec E P (store_one env b) (λ _, P).
Proof using HP Hb. unfold store_one. calm. Qed.
End calm_operations.

#[local] Hint Resolve calm_push_to calm_push_all calm_answer calm_generateJID calm_setFlags calm_setBlocked
  calm_getJID calm_handleRawPresence calm_generatePresenceStanzas calm_sendPresence calm_send_presences_to
  calm_setStatus calm_sendBuddyRosterRemove calm_sendBuddyUnsubscribePresence
  calm_sendBuddySubscribePresence calm_doRemoveBuddy calm_storage_removeBuddy calm_store_one : roster.

(** The handlers of the backend side only write to a connection. *)
Lemma calm_send E P u data : stable P →
  spec E P (send_to_backend (H := roster_link env) u data) (λ _, P).
Proof.
  intros HP. unfold send_to_backend. eapply spec_keep.
  - cbn [link_getData roster_link]. calm.
  - intros [c|]; [|by apply spec_ret]. by apply calm_emit.
Qed.
#[local] Hint Resolve calm_send : roster.

Section signals.
Context (E : fault → Prop) (P : Roster J St → Prop) (HP : stable P) (b : nat) (Hb : holds b P).

Lemma calm_onBuddyAdded : spec E P (onBuddyAdded env (Some b)) (λ _, P).
Proof using HP Hb. unfold onBuddyAdded, handleUserBuddyAdded. calm. Qed.

Lemma calm_onBuddyRemoved : spec E P (onBuddyRemoved env (Some b)) (λ _, P).
Proof using HP Hb. unfold onBuddyRemoved, handleUserBuddyRemoved, Outgoing.handleBuddyRemoved. calm. Qed.

Lemma calm_handleBuddyRemoved : spec E P (handleBuddyRemoved env b) (λ _, P).
Proof using HP Hb. unfold handleBuddyRemoved, Outgoing.handleBuddyRemoved. calm. Qed.
End signals.
#[local] Hint Resolve calm_onBuddyAdded calm_onBuddyRemoved calm_handleBuddyRemoved : roster.

(** ** Steps that change the queue *)

Section queue.
Context (E : fault → Prop) (L : list nat) (b : nat) (Hb : b ∈ L).

(** A new queue all of whose entries are filed correctly. *)
Lemma I_queue r q : I L r →
  (∀ n b, (n, b) ∈ q → ∃ o, r_heap r !! b = Some o ∧ b_name o = n) → sorted q →
  I L (with_rosterStorage (Some q) r).
Proof.
  intros [[Hs Hm Hq Hn Hp Hqs] HL] Hq' Hsq. split; [|done]. split; try done; [|by intros q' [= <-]].
  intros q' n b' [= <-]. apply Hq'.
Qed.

Lemma I_storeBuddy : spec E (I L) (storeBuddy b) (λ _, I L).
Proof using Hb.
  intros r Hr. unfold storeBuddy. rewrite bind_run. cbn beta iota delta [get].
  destruct (m_rosterStorage r) as [q|] eqn:Eq; [|done].
  unfold load. rewrite !bind_run. cbn beta iota delta [get].
  destruct (holds_I b L Hb r Hr) as [o Ho]. rewrite Ho. cbn beta iota delta [deref]. rewrite ret_run.
  destruct (String.eqb _ _); [done|]. rewrite bind_run.
  apply (stable_I L (with_queue (sinsert (b_name o) b) r)); [by apply same_intro|].
  unfold with_queue. rewrite Eq. simpl (_ <$> _). destruct Hr as [Hi HL]. apply I_queue; [done| |by apply sinsert_sorted, (inv_queue_sorted _ Hi)].
  intros n b' [[= -> ->]|Hin]%sinsert_elem; [by exists o|]. by eapply (inv_queue _ Hi).
Qed.
End queue.
#[local] Hint Resolve I_storeBuddy : roster.

Section storing.
Context (E : fault → Prop) (L : list nat) (b : nat) (Hb : b ∈ L).

Lemma I_setIconHash hash : spec E (I L) (setIconHash env b hash) (λ _, I L).
Proof using Hb. unfold setIconHash. calm. Qed.

Lemma I_sendBuddyRosterPush : spec E (I L) (sendBuddyRosterPush env (Some b)) (λ _, I L).
Proof using Hb. unfold sendBuddyRosterPush. calm. Qed.
#[local] Hint Resolve I_sendBuddyRosterPush : roster.

Lemma I_doAddBuddy : spec E (I L) (doAddBuddy env b) (λ _, I L).
Proof using Hb. unfold doAddBuddy. calm. Qed.

Lemma I_doUpdateBuddy : spec E (I L) (doUpdateBuddy env b) (λ _, I L).
Proof using Hb. unfold doUpdateBuddy. calm. Qed.
#[local] Hint Resolve I_doUpdateBuddy : roster.

Lemma I_setAlias alias : spec E (I L) (setAlias env b alias) (λ _, I L).
Proof using Hb. unfold setAlias. calm. Qed.
#[local] Hint Resolve I_setAlias : roster.

Lemma I_setGroups groups : spec E (I L) (setGroups env b groups) (λ _, I L).
Proof using Hb. unfold setGroups. calm. Qed.
#[local] Hint Resolve I_setGroups : roster.

Lemma I_handleBuddyUpdated item : spec E (I L) (handleBuddyUpdated env (Some b) item) (λ _, I L).
Proof using Hb. unfold handleBuddyUpdated, send_buddy_updated. calm. Qed.
End storing.
#[local] Hint Resolve I_setIconHash I_sendBuddyRosterPush I_doAddBuddy I_doUpdateBuddy I_setAlias
  I_setGroups I_handleBuddyUpdated : roster.

(** A group whose UTF-8 is cut off. *)
Definition cut_off (payload : pbnetwork.Buddy.t) : Prop :=
  ∃ g, g ∈ pbnetwork.Buddy.group payload ∧ Utf8.replace_invalid g = None.

Lemma I_handleBuddyPayload E L b payload :
  b ∈ L → (cut_off payload → E UncaughtException) → spec E (I L) (handleBuddyPayload env b payload) (λ _, I L).
Proof.
  intros Hb HE. unfold handleBuddyPayload. eapply spec_keep; [calm|]. intros _.
  eapply spec_keep; [apply Utf8.replaced_all_spec; intros g Hg Hn; apply HE; by exists g|]. intros groups. calm.
Qed.
#[local] Hint Resolve I_handleBuddyPayload : roster.

(** ** Steps that add and remove contacts *)

(** A contact only the handler knows. *)
Definition fresh (b : nat) (L : list nat) r : Prop := I (b :: L) r ∧ unlinked r b ∧ b ∉ L.

Lemma stable_fresh b L : stable (fresh b L).
Proof.
  intros r r' Hs (HI & Hu & Hb). split_and!; [by eapply same_I|by eapply same_unlinked|done].
Qed.

Lemma holds_fresh b L : holds b (fresh b L).
Proof. intros r (HI & _). eapply holds_I; [|exact HI]. set_solver. Qed.
#[local] Hint Resolve stable_fresh holds_fresh : roster.

Definition opt (p : option nat) : list nat := match p with Some b => [b] | None => [] end.

Lemma I_weaken L L' r : L' ⊆ L → I L r → I L' r.
Proof.
  intros Hsub [Hr HL]. split; [done|]. rewrite Forall_forall in HL |- *. intros b Hb. by apply HL, Hsub.
Qed.

Lemma I_map_alive L r k b : I L r → (k, Some b) ∈ m_buddies r → alive r b.
Proof. intros [[_ Hm _ _ _] _] Hin. destruct (Hm k b Hin) as (o & Ho & _). by exists o. Qed.

Lemma I_getBuddy E L name : spec E (I L) (getBuddy env name) (λ p, I (opt p ++ L)).
Proof.
  intros r Hr. unfold getBuddy. rewrite bind_run. cbn beta iota delta [get].
  destruct (sfind (to_lower env name) (m_buddies r)) as [p|] eqn:Ef.
  - rewrite ret_run. destruct p as [b|]; [|done]. apply sfind_elem in Ef.
    pose proof (I_map_alive _ _ _ _ Hr Ef). destruct Hr as [Hr HL]. split; [done|]. by constructor.
  - rewrite bind_run. unfold modify. cbn -[sinsert].
    destruct Hr as [[Hs Hm Hq Hn Hp Hqs] HL]. split; [split|done]; try done.
    + simpl. by apply sinsert_sorted.
    + intros k b [[= ]|Hin]%sinsert_elem. by apply Hm.
Qed.

Lemma fresh_newLocalBuddy E L id name alias groups flags :
  spec E (I L) (newLocalBuddy env id name alias groups flags) (λ b, fresh b L).
Proof.
  intros r [[Hs Hm Hq Hn Hp Hqs] HL]. set (b := r_next r).
  change (fresh b L (with_next (S b)
    (with_heap <[b := local_buddy env id name alias groups flags]> r))).
  assert (Hnone : r_heap r !! b = None).
  { destruct (r_heap r !! b) eqn:E0; [|done]. assert (b < r_next r) by (apply Hn; by eexists). lia. }
  assert (Hother : ∀ b' o, r_heap r !! b' = Some o →
    <[b:=local_buddy env id name alias groups flags]> (r_heap r) !! b' = Some o).
  { intros b' o Ho. rewrite lookup_insert_ne; [done|]. intros <-. congruence. }
  split_and!; [split; [split|]| |]; simpl; try done.
  - intros k b' Hin. destruct (Hm k b' Hin) as (o & Ho & ->). exists o. auto.
  - intros q n b' Eq Hin. destruct (Hq q n b' Eq Hin) as (o & Ho & <-). exists o. auto.
  - intros b' [o Ho]. simpl in Ho. destruct (decide (b' = b)) as [->|]; [subst b; lia|].
    rewrite lookup_insert_ne in Ho by done. assert (b' < r_next r) by (apply Hn; by eexists). lia.
  - intros b' o Ho. apply lookup_insert_Some in Ho as [[_ <-]|[_ Ho]]; [by apply NoDup_nil|by eapply Hp].
  - constructor; [unfold alive; simpl; rewrite lookup_insert_eq; by eexists|].
    eapply Forall_impl; [exact HL|]. intros b' [o Ho]. exists o. simpl. auto.
  - split.
    + intros k Hin. simpl in Hin. destruct (Hm k b Hin) as (o & Ho & _). congruence.
    + intros q n Eq Hin. simpl in Eq. destruct (Hq q n b Eq Hin) as (o & Ho & _). congruence.
  - intros Hin. rewrite Forall_forall in HL. destruct (HL b Hin) as [o Ho]. congruence.
Qed.

Lemma fresh_delete E b L : spec E (fresh b L) (delete_buddy b) (λ _, I L).
Proof.
  unfold delete_buddy.
  apply (spec_bind E _ _ (λ _, fresh b L)); [apply calm_load, holds_fresh|intros o].
  apply spec_modify. intros r ([[Hs Hm Hq Hn Hp Hqs] HL] & [Hum Huq] & Hb).
  assert (Hother : ∀ b' o, r_heap r !! b' = Some o → b' ≠ b → delete b (r_heap r) !! b' = Some o).
  { intros b' o' Ho Hne. by rewrite lookup_delete_ne. }
  split; [split|]; simpl; try done.
  - intros k b' Hin. destruct (Hm k b' Hin) as (o' & Ho & ->). exists o'. split; [|done].
    apply Hother; [done|]. intros ->. by eapply Hum.
  - intros q n b' Eq Hin. destruct (Hq q n b' Eq Hin) as (o' & Ho & <-). exists o'. split; [|done].
    apply Hother; [done|]. intros ->. by eapply Huq.
  - intros b' [o' Ho]. simpl in Ho. apply lookup_delete_Some in Ho as [_ Ho]. apply Hn. by eexists.
  - intros b' o' Ho. apply lookup_delete_Some in Ho as [_ Ho]. by eapply Hp.
  - apply Forall_cons in HL as [_ HL]. rewrite Forall_forall in HL |- *. intros b' Hb'.
    destruct (HL b' Hb') as [o' Ho]. exists o'. simpl. apply Hother; [done|]. by intros ->.
Qed.

Lemma fresh_I b L r : fresh b L r → I (b :: L) r.
Proof. by intros [HI _]. Qed.

(** A contact without an icon in its settings is not stored before it is added. *)
Lemma fresh_createBuddy E L info :
  bi_icon_hash info = None →
  spec E (I L) (createBuddy env info) (λ p r, match p with Some b => fresh b L r | None => I L r end).
Proof.
  intros Hicon. unfold createBuddy. eapply spec_bind; [apply fresh_newLocalBuddy|]. intros b.
  eapply spec_bind; [apply calm_load, holds_fresh|]. intros o. destruct (negb _).
  - eapply spec_bind; [apply fresh_delete|]. intros []. by apply spec_ret.
  - eapply spec_bind; [apply calm_store; [apply stable_fresh|apply holds_fresh|by split]|]. intros []. rewrite Hicon.
    apply (spec_bind E _ _ (λ _, fresh b L)); [by apply spec_ret|]. intros []. by apply spec_ret.
Qed.

Lemma I_createBuddy E L info : spec E (I L) (createBuddy env info) (λ p, I (opt p ++ L)).
Proof.
  unfold createBuddy. eapply spec_bind; [apply fresh_newLocalBuddy|]. intros b.
  eapply spec_bind; [apply calm_load, holds_fresh|]. intros o. destruct (negb _).
  - eapply spec_bind; [apply fresh_delete|]. intros []. by apply spec_ret.
  - eapply spec_bind; [apply calm_store; [apply stable_fresh|apply holds_fresh|by split]|]. intros [].
    apply (spec_bind E _ _ (λ _, I (b :: L))); [|intros []; by apply spec_ret].
    apply (spec_weaken E (I (b :: L)) _ _ (λ _, I (b :: L))); [|apply fresh_I|done].
    destruct (bi_icon_hash info); [apply I_setIconHash; set_solver|by apply spec_ret].
Qed.

Lemma I_setBuddy E L b : b ∈ L → spec E (I L) (setBuddy env (Some b)) (λ _, I L).
Proof.
  intros Hb. unfold setBuddy.
  change (spec E (I L) (o ← load b;
    modify (with_buddies (sinsert (to_lower env (b_name o)) (Some b))) ;;
    emit (BuddySet b) ;; doAddBuddy env b ;; storeBuddy b) (λ _, I L)).
  intros r Hr. destruct (holds_I b L Hb r Hr) as [o Ho].
  rewrite (bind_done _ _ _ _ _ (buddy_loaded _ _ _ Ho)), bind_run. unfold modify at 1. cbn beta iota.
  set (r' := with_buddies _ r). assert (Hr' : I L r').
  { destruct Hr as [[Hs Hm Hq Hn Hp Hqs] HL]. split; [split|done]; try done.
    - simpl. by apply sinsert_sorted.
    - intros k b' [[= -> ->]|Hin]%sinsert_elem; [by exists o|by apply (Hm k b')]. }
  revert Hr'. generalize r'. change (spec E (I L) (emit (BuddySet b) ;; doAddBuddy env b ;; storeBuddy b) (λ _, I L)).
  calm.
Qed.
#[local] Hint Resolve I_setBuddy : roster.

Lemma serase_elem {K V} `{StdKey K} (k : K) (m : smap K V) x : x ∈ serase k m ↔ x.1 ≠ k ∧ x ∈ m.
Proof. unfold serase. by rewrite list_elem_of_filter. Qed.

(** A contact that goes is forgotten by the map and the queue. *)
Lemma fresh_unsetBuddy E L b :
  b ∉ L → spec E (I (b :: L)) (unsetBuddy env b) (λ _, fresh b L).
Proof.
  intros Hb r Hr. destruct (holds_I b (b :: L) ltac:(set_solver) r Hr) as [o Ho].
  set (r' := with_queue (serase (b_name o)) (with_buddies (serase (to_lower env (b_name o))) r)).
  assert (E1 : unsetBuddy env b r = emit (BuddyUnset b) r').
  { unfold unsetBuddy, removeBuddyFromQueue. rewrite (bind_done _ _ _ _ _ (buddy_loaded _ _ _ Ho)).
    rewrite bind_run. unfold modify at 1. cbn beta iota.
    set (r1 := with_buddies _ r). assert (Ho1 : r_heap r1 !! b = Some o) by done.
    by rewrite bind_run, (bind_done _ _ _ _ _ (buddy_loaded _ _ _ Ho1)). }
  rewrite E1. apply (stable_fresh b L r'); [by apply same_intro|].
  destruct Hr as [[Hs Hm Hq Hn Hp Hqs] HL]. split_and!; [split; [split|done]|split|done]; simpl.
  - by apply serase_sorted.
  - intros k b' [_ Hin]%serase_elem. by apply (Hm k b').
  - intros q n b'. simpl. destruct (m_rosterStorage r) as [q0|] eqn:Eq; intros [= <-].
    intros [_ Hin]%serase_elem. by apply (Hq q0 n b').
  - done.
  - done.
  - intros q. simpl. destruct (m_rosterStorage r) as [q0|] eqn:Eq; intros [= <-]. by apply serase_sorted, Hqs.
  - intros k [Hne Hin]%serase_elem. destruct (Hm k b Hin) as (o' & Ho' & ->). simpl in Hne. congruence.
  - intros q n. simpl. destruct (m_rosterStorage r) as [q0|] eqn:Eq; intros [= <-].
    intros [Hne Hin]%serase_elem. destruct (Hq q0 n b Eq Hin) as (o' & Ho' & <-). simpl in Hne. congruence.
Qed.

Lemma I_removeBuddy E L name : spec E (I L) (removeBuddy env name) (λ _, I []).
Proof.
  apply (spec_weaken E (I []) _ _ (λ _, I [])); [|intros r; apply I_weaken; set_solver|done].
  unfold removeBuddy. eapply spec_bind; [apply I_getBuddy|]. intros [b|]; [|by apply spec_ret].
  simpl opt. rewrite app_nil_r.
  assert (Hb : b ∈ [b]) by set_solver.
  apply (spec_bind E _ _ (λ _, I [b])); [by auto with roster|]. intros [].
  apply (spec_bind E _ _ (λ _, I [b])); [by apply spec_get|]. intros r.
  apply (spec_bind E _ _ (λ _, I [b])); [apply spec_when; auto with roster|]. intros [].
  apply (spec_bind E _ _ (λ _, fresh b [])); [apply fresh_unsetBuddy; set_solver|]. intros [].
  apply fresh_delete.
Qed.

(** ** Loops over the contacts *)

Definition map_pointers (m : smap string (option nat)) : list nat := omap snd m.

Lemma map_pointers_elem (m : smap string (option nat)) k b : (k, Some b) ∈ m → b ∈ map_pointers m.
Proof. intros Hin. apply list_elem_of_omap. by exists (k, Some b). Qed.

Lemma I_pointers L r : I L r → I (map_pointers (m_buddies r) ++ L) r.
Proof.
  intros HI. split; [apply HI|]. apply Forall_app. split; [|apply HI].
  apply Forall_forall. intros b ([k p] & Hin & Hp)%list_elem_of_omap. simpl in Hp. subst p.
  by eapply I_map_alive.
Qed.

Lemma I_entries E L (m : smap string (option nat)) (body : string * option nat → prog (Roster J St) unit) :
  (∀ k p, (k, p) ∈ m → spec E (I (map_pointers m ++ L)) (body (k, p)) (λ _, I (map_pointers m ++ L))) →
  spec E (I (map_pointers m ++ L)) (for_each m body) (λ _, I L).
Proof.
  intros Hbody. apply (spec_weaken E (I (map_pointers m ++ L)) _ _ (λ _, I (map_pointers m ++ L))).
  - apply spec_for_each. intros [k p] Hin. by apply Hbody.
  - done.
  - intros _ r. apply I_weaken. set_solver.
Qed.

Lemma I_for_buddies E L body :
  (∀ b L', b ∈ L' → L ⊆ L' → spec E (I L') (body b) (λ _, I L')) →
  spec E (I L) (for_buddies body) (λ _, I L).
Proof.
  intros Hbody r Hr. unfold for_buddies. rewrite bind_run. cbn beta iota delta [get].
  apply I_pointers in Hr. revert Hr. generalize (m_buddies r). intros m Hr.
  apply (I_entries E L m); [|done]. intros k [b|] Hin; [|by apply spec_ret].
  simpl. apply Hbody; [|set_solver]. apply elem_of_app. left. by eapply map_pointers_elem.
Qed.

Lemma queue_alive L r q n b : I L r → m_rosterStorage r = Some q → (n, b) ∈ q → alive r b.
Proof. intros [[_ _ Hq _ _ _] _] Eq Hin. destruct (Hq q n b Eq Hin) as (o & Ho & _). by exists o. Qed.

Lemma I_empty_queue E L : spec E (I L) (modify (with_queue (λ _, []))) (λ _, I L).
Proof.
  apply spec_modify. intros r Hr. unfold with_queue. destruct (m_rosterStorage r) as [q|] eqn:Eq; simpl.
  - apply I_queue; [done|by intros n b ?%not_elem_of_nil|constructor].
  - eapply stable_I; [|exact Hr]. by apply same_intro.
Qed.

Lemma I_storeBuddies E L : spec E (I L) (storeBuddies env) (λ _, I L).
Proof.
  intros r Hr. unfold storeBuddies. rewrite bind_run. cbn beta iota delta [get].
  destruct (m_rosterStorage r) as [q|] eqn:Eq; [|done].
  assert (Hq : I (map snd q ++ L) r).
  { split; [apply Hr|]. apply Forall_app. split; [|apply Hr]. apply Forall_forall.
    intros b ([n b'] & -> & Hin)%list_elem_of_fmap. by eapply queue_alive. }
  destruct q as [|[n0 b0] q]; [done|]. simpl default. cbn beta iota.
  set (queue := (n0, b0) :: q) in *. clear Hr Eq. revert r Hq.
  change (spec E (I (map snd queue ++ L)) (database db_beginTransaction ;;
    for_each queue (λ kv, store_one env kv.2) ;; modify (with_queue (λ _, [])) ;;
    database db_commitTransaction ;; mret true) (λ _, I L)).
  apply (spec_weaken E (I (map snd queue ++ L)) _ _ (λ _, I (map snd queue ++ L)));
    [|done|intros ? r; apply I_weaken; set_solver].
  eapply spec_keep; [apply calm_database; auto with roster|]. intros _.
  eapply spec_keep.
  { apply spec_for_each. intros [n b] Hin. apply calm_store_one; [auto with roster|].
    apply holds_I. apply elem_of_app. left. apply list_elem_of_fmap. by exists (n, b). }
  intros _. eapply spec_keep; [apply I_empty_queue|]. intros _.
  eapply spec_keep; [apply calm_database; auto with roster|]. intros _. by apply spec_ret.
Qed.

(** ** The handlers *)

Definition null (f : fault) : Prop := f = NullDereference.

Lemma I_setBuddy_null L p : spec null (I (opt p ++ L)) (setBuddy env p) (λ _, I (opt p ++ L)).
Proof. destruct p as [b|]; [apply I_setBuddy; set_solver|by intros r Hr]. Qed.

Lemma I_roster_items E L (m : smap string (option nat)) :
  map_pointers m ⊆ L → spec E (I L) (roster_items env m) (λ _, I L).
Proof.
  intros Hm. induction m as [|[k [b|]] m IH]; simpl; [by apply spec_ret| |by apply IH].
  assert (Hb : b ∈ L) by (apply Hm; unfold map_pointers; simpl; set_solver).
  eapply spec_keep; [apply calm_getJID; auto with roster|]. intros jid.
  eapply spec_keep; [apply calm_load; auto with roster|]. intros o.
  eapply spec_keep; [apply IH; intros x Hx; apply Hm; unfold map_pointers; simpl; set_solver|].
  intros items. by apply spec_ret.
Qed.

Lemma I_generateRosterPayload E L : spec E (I L) (generateRosterPayload env) (λ _, I L).
Proof.
  intros r Hr. unfold generateRosterPayload. rewrite bind_run. cbn beta iota delta [get].
  apply I_pointers in Hr. revert Hr. generalize (m_buddies r). intros m Hr. revert r Hr.
  change (spec E (I (map_pointers m ++ L)) (roster_items env m) (λ _, I L)).
  eapply spec_weaken; [apply I_roster_items|done|intros ? r; apply I_weaken]; set_solver.
Qed.

(** What holds of the contact of a subscription: known and in the roster, or a
    temporary one, or one that could not be made. *)
Definition subject (buddy : option nat) (newBuddy : bool) r : Prop :=
  match buddy with
  | Some b => if newBuddy then fresh b [] r else I [b] r
  | None => I [] r
  end.

Lemma subject_I buddy newBuddy r : subject buddy newBuddy r → I (opt buddy) r.
Proof. destruct buddy as [b|], newBuddy; simpl; try done. apply fresh_I. Qed.

Lemma stable_subject buddy newBuddy : stable (subject buddy newBuddy).
Proof.
  intros r r' Hs. destruct buddy as [b|], newBuddy; simpl; [by apply stable_fresh|by apply same_I..].
Qed.

Lemma holds_subject b newBuddy : holds b (subject (Some b) newBuddy).
Proof. intros r. destruct newBuddy; simpl; [apply holds_fresh|apply holds_I; set_solver]. Qed.

Ltac known :=
  match goal with
  | |- spec ?E ?P (this (Some ?b) ≫= ?k) ?Q => change (spec E P (k b) Q); cbv beta
  end.

(** A null pointer stops the program, nothing else happens. *)
Lemma spec_this_null {A} P (k : nat → prog (Roster J St) A) Q : spec null P (this None ≫= k) Q.
Proof. by intros r Hr. Qed.

Lemma null_onBuddyAdded P buddy : stable P → (∀ b, buddy = Some b → holds b P) →
  spec null P (onBuddyAdded env buddy) (λ _, P).
Proof.
  intros HP Hb. destruct buddy as [b|]; [apply calm_onBuddyAdded; auto|]. unfold onBuddyAdded.
  eapply spec_keep; [by apply spec_get|]. intros r. apply spec_for_each. intros [] _. apply spec_this_null.
Qed.

Lemma null_onBuddyRemoved P buddy : stable P → (∀ b, buddy = Some b → holds b P) →
  spec null P (onBuddyRemoved env buddy) (λ _, P).
Proof.
  intros HP Hb. destruct buddy as [b|]; [apply calm_onBuddyRemoved; auto|]. unfold onBuddyRemoved.
  eapply spec_keep; [by apply spec_get|]. intros r. apply spec_for_each. intros [] _. apply spec_this_null.
Qed.

Lemma subject_set buddy newBuddy :
  spec null (subject buddy newBuddy) (when newBuddy (setBuddy env buddy)) (λ _, I (opt buddy)).
Proof.
  destruct newBuddy; simpl; [|intros r; apply subject_I].
  pose proof (I_setBuddy_null [] buddy) as Hs. rewrite app_nil_r in Hs.
  eapply spec_weaken; [exact Hs|intros r Hr; by apply (subject_I buddy true)|done].
Qed.

Definition outcome (x : option nat * bool * PresenceType) : Roster J St → Prop :=
  let '(buddy, newBuddy, _) := x in if newBuddy : bool then subject buddy true else I [].

Lemma opt_I buddy r : I (opt buddy) r → I [] r.
Proof. apply I_weaken. set_solver. Qed.

Lemma opt_holds buddy b : buddy = Some b → holds b (I (opt buddy)).
Proof. intros ->. apply holds_I. simpl. set_solver. Qed.

Lemma subject_outcome buddy newBuddy type r : subject buddy newBuddy r → outcome (buddy, newBuddy, type) r.
Proof. destruct newBuddy; simpl; [done|]. intros ?%subject_I. by eapply opt_I. Qed.

Lemma subject_holds buddy newBuddy b : buddy = Some b → holds b (subject buddy newBuddy).
Proof. intros ->. apply holds_subject. Qed.

(** Forgetting the contact: the backend is told, then the roster loses it. *)
Lemma subject_forget buddy newBuddy :
  spec null (subject buddy newBuddy)
    (if newBuddy : bool then mret (buddy, newBuddy, Unsubscribed)
     else b ← this buddy; o ← load b; removeBuddy env (b_name o) ;; mret (None, newBuddy, Unsubscribed))
    outcome.
Proof.
  destruct newBuddy; [apply spec_ret; intros r; apply subject_outcome|].
  destruct buddy as [b|]; [|apply spec_this_null].
  known. apply (spec_bind null _ _ (λ _, I [b])); [apply calm_load, holds_I; set_solver|]. intros o.
  eapply spec_bind; [apply I_removeBuddy|]. intros []. by apply spec_ret.
Qed.

Lemma subscription_server_ok type buddy newBuddy :
  spec null (subject buddy newBuddy) (subscription_server env type buddy newBuddy) outcome.
Proof.
  destruct type; simpl; try (apply spec_ret; intros r; apply subject_outcome).
  - eapply spec_bind; [apply subject_set|]. intros [].
    eapply spec_bind; [apply null_onBuddyAdded; [apply stable_I|apply opt_holds]|]. intros [].
    apply spec_ret. intros r. apply opt_I.
  - apply (spec_bind null _ _ (λ _, subject buddy newBuddy)).
    + apply spec_when, null_onBuddyAdded; [apply stable_subject|apply subject_holds].
    + intros []. apply spec_ret. intros r. apply subject_outcome.
  - eapply spec_bind; [apply null_onBuddyRemoved; [apply stable_subject|apply subject_holds]|].
    intros []. apply subject_forget.
Qed.

(** Gateway mode: a new contact is added, a known one becomes a full one. *)
Lemma subject_both buddy newBuddy :
  spec null (subject buddy newBuddy)
    (if newBuddy : bool then setBuddy env buddy
     else b ← this buddy; o ← load b;
          when (negb (bool_decide (b_subscription o = Both))) (store b (set_subscription Both) ;; storeBuddy b))
    (λ _, I (opt buddy)).
Proof.
  destruct newBuddy; [apply (subject_set buddy true)|]. destruct buddy as [b|]; [|apply spec_this_null].
  assert (Hb : b ∈ [b]) by set_solver. known. simpl opt. calm.
Qed.

Lemma subscription_gateway_ok type from buddy newBuddy :
  spec null (subject buddy newBuddy) (subscription_gateway env type from buddy newBuddy) outcome.
Proof.
  assert (Hadd : ∀ t, spec null (subject buddy newBuddy)
    ((if newBuddy : bool then setBuddy env buddy
      else b ← this buddy; o ← load b;
           when (negb (bool_decide (b_subscription o = Both))) (store b (set_subscription Both) ;; storeBuddy b)) ;;
     onBuddyAdded env buddy ;; b ← this buddy; send_presences_to env b from ;; mret (buddy, false, t)) outcome).
  { intros t. eapply spec_bind; [apply subject_both|]. intros [].
    eapply spec_bind; [apply null_onBuddyAdded; [apply stable_I|apply opt_holds]|]. intros [].
    destruct buddy as [b|]; [|apply spec_this_null].
    known. apply (spec_bind null _ _ (λ _, I [b])).
    - apply calm_send_presences_to; [apply stable_I|apply holds_I; set_solver].
    - intros []. apply spec_ret. intros r. apply I_weaken. set_solver. }
  destruct type; simpl; try (apply spec_ret; intros r; apply subject_outcome); try apply Hadd.
  - apply (spec_bind null _ _ (λ _, subject buddy newBuddy)).
    { destruct newBuddy; [by apply spec_ret|]. destruct buddy as [b|]; [|apply spec_this_null].
      known. eapply spec_keep; [apply calm_load, holds_subject|]. intros o. by apply spec_ret. }
    intros forget. apply (spec_bind null _ _ (λ _, subject buddy newBuddy)).
    { apply spec_when, null_onBuddyRemoved; [apply stable_subject|apply subject_holds]. }
    intros []. apply subject_forget.
  - destruct buddy as [b|]; [|apply spec_this_null].
    known. eapply spec_bind; [apply calm_load, holds_subject|]. intros o.
    destruct (bool_decide _); [|apply spec_ret; intros r; apply subject_outcome].
    eapply spec_bind; [apply null_onBuddyRemoved; [apply stable_subject|by apply subject_holds]|].
    intros []. eapply spec_bind; [eapply spec_weaken; [apply I_removeBuddy|apply subject_I|done]|].
    intros []. apply spec_ret. intros r Hr. by destruct newBuddy.
Qed.

Lemma I_JIDToBuddy E L jid : spec E (I L) (JIDToBuddy env jid) (λ p, I (opt p ++ L)).
Proof. apply I_getBuddy. Qed.

Lemma I_JIDToLegacyName E L jid : spec E (I L) (JIDToLegacyName env jid) (λ _, I L).
Proof.
  unfold JIDToLegacyName. eapply spec_bind; [apply I_JIDToBuddy|]. intros p.
  eapply (spec_weaken E (I (opt p ++ L)) _ _ (λ _, I (opt p ++ L))); [|done|].
  - destruct p as [b|]; [|by apply spec_ret].
    eapply spec_keep; [apply calm_load, holds_I; set_solver|]. intros o. by apply spec_ret.
  - intros _ r. apply I_weaken. set_solver.
Qed.

Lemma handleSubscription_ok p : spec null (I []) (handleSubscription env p) (λ _, I []).
Proof.
  unfold handleSubscription. eapply spec_bind; [apply I_JIDToLegacyName|]. intros name.
  destruct (String.eqb name ""); [by apply spec_ret|].
  eapply spec_bind; [apply I_getBuddy|]. intros known. cbv beta. rewrite app_nil_r.
  set (newBuddy := negb (bool_decide (is_Some known))).
  apply (spec_bind null _ _ (λ buddy, subject buddy newBuddy)).
  { destruct known as [b|]; subst newBuddy; simpl; [by apply spec_ret|].
    eapply spec_weaken; [by apply (fresh_createBuddy null [])|done|]. by intros [b|] r. }
  intros buddy. eapply spec_bind.
  { destruct (re_serverMode env); [apply subscription_server_ok|apply subscription_gateway_ok]. }
  intros [[buddy' newBuddy'] type].
  apply (spec_bind null _ _ (λ _, outcome (buddy', newBuddy', type))).
  { apply calm_answer. destruct newBuddy'; [apply (stable_subject buddy' true)|apply stable_I]. }
  intros []. destruct newBuddy'; [|by apply spec_ret]. destruct buddy' as [b|]; [|by apply spec_ret].
  apply fresh_delete.
Qed.

Lemma setStorageBackend_ok E present : spec E (I []) (setStorageBackend env present) (λ _, I []).
Proof.
  intros r Hr. unfold setStorageBackend. rewrite bind_run. cbn beta iota delta [get].
  destruct (_ || _); [done|]. revert r Hr. intros r0. generalize (db_getBuddies (re_user_id env) (r_db r0)).
  intros infos Hr0. revert Hr0. generalize r0. clear r0. intros r Hr.
  match goal with |- match ?m r with _ => _ end =>
    cut (spec E (I []) m (λ _, I [])); [by intros Hs; apply Hs|] end.
  eapply spec_keep.
  - apply spec_for_each. intros info _. eapply spec_bind; [apply I_createBuddy|]. intros [b|].
    + rewrite app_nil_r. simpl opt. intros r' Hr'. destruct (holds_I b [b] ltac:(set_solver) r' Hr') as [o Ho].
      rewrite (bind_done _ _ _ _ _ (buddy_loaded _ _ _ Ho)), bind_run. unfold modify. cbn beta iota.
      apply (stable_I [] (with_buddies (sinsert (to_lower env (b_name o)) (Some b)) r')); [by apply same_intro|].
      destruct Hr' as [[Hs Hm Hq Hn Hp Hqs] HL]. split; [split|done]; try done.
      * simpl. by apply sinsert_sorted.
      * intros k b' [[= -> ->]|Hin]%sinsert_elem; [by exists o|by apply (Hm k b')].
    + by apply spec_ret.
  - intros _. apply spec_modify. intros r' Hr'. apply I_queue; [done|by intros n b ?%not_elem_of_nil|constructor].
Qed.

Lemma sendCurrentPresences_ok E L to : spec E (I L) (sendCurrentPresences env to) (λ _, I L).
Proof. unfold sendCurrentPresences. apply I_for_buddies. intros b L' Hb _. calm. Qed.

Lemma sendUnavailablePresences_ok E L to : spec E (I L) (sendUnavailablePresences env to) (λ _, I L).
Proof.
  unfold sendUnavailablePresences. eapply spec_keep; [|intros _; calm].
  apply I_for_buddies. intros b L' Hb _. calm.
Qed.

Lemma sendCurrentPresence_ok E from to : spec E (I []) (sendCurrentPresence env from to) (λ _, I []).
Proof.
  unfold sendCurrentPresence. eapply spec_bind; [apply I_JIDToBuddy|]. intros p. cbv beta. rewrite app_nil_r.
  apply (spec_weaken E (I (opt p)) _ _ (λ _, I (opt p))); [|done|intros _ r; apply opt_I].
  destruct p as [b|]; [|calm]. apply calm_send_presences_to; [apply stable_I|by apply opt_holds].
Qed.

Lemma pushResponse_ok E request key :
  spec E (I []) (handleBuddyRosterPushResponse env request key) (λ _, I []).
Proof.
  unfold handleBuddyRosterPushResponse. eapply spec_bind; [apply I_getBuddy|]. intros p. cbv beta. rewrite app_nil_r.
  apply (spec_weaken E (I (opt p)) _ _ (λ _, I (opt p))); [|done|intros _ r; apply opt_I].
  eapply spec_keep; [|intros _; calm].
  destruct p as [b|]; [|by apply spec_ret]. assert (b ∈ opt (Some b)) by (simpl; set_solver). calm.
Qed.

Lemma remoteRoster_ok items error :
  spec null (I []) (handleRemoteRosterResponse env items error) (λ _, I []).
Proof.
  unfold handleRemoteRosterResponse. destruct error; [calm|].
  eapply spec_keep; [calm|]. intros _ r Hr. rewrite bind_run. cbn beta iota delta [get].
  destruct (bool_decide _); [|done]. simpl when. apply I_pointers in Hr. revert Hr.
  generalize (m_buddies r). intros m Hr. revert r Hr.
  apply (I_entries null [] m). intros k [b|] Hin.
  - apply I_sendBuddyRosterPush. apply elem_of_app. left. by eapply map_pointers_elem.
  - simpl. unfold sendBuddyRosterPush. eapply spec_keep; [by apply spec_get|]. intros r.
    destruct (_ && _); [by apply spec_ret|apply spec_this_null].
Qed.

Lemma sendRIE_ok E jids : spec E (I []) (sendRIE env jids) (λ _, I []).
Proof.
  unfold sendRIE. eapply spec_keep; [calm|]. intros _. destruct jids as [|jid jids].
  - apply I_for_buddies. intros b L' Hb _. calm.
  - eapply spec_keep; [apply I_generateRosterPayload|]. intros items. calm.
Qed.

Lemma getRequest_ok E from : spec E (I []) (handleGetRequest env from) (λ _, I []).
Proof.
  unfold handleGetRequest. eapply spec_keep; [apply I_generateRosterPayload|]. intros items.
  eapply spec_keep; [calm|]. intros _. apply sendCurrentPresences_ok.
Qed.

Lemma setRequest_ok from items : spec null (I []) (handleSetRequest env from items) (λ _, I []).
Proof.
  unfold handleSetRequest. eapply spec_keep; [calm|]. intros _.
  destruct items as [|item items]; [by apply spec_ret|].
  destruct (String.eqb _ ""); [by apply spec_ret|].
  eapply spec_bind; [apply I_JIDToBuddy|]. intros p. cbv beta. rewrite app_nil_r.
  apply (spec_weaken null (I (opt p)) _ _ (λ _, I [])); [|done..].
  destruct p as [b|].
  - assert (b ∈ opt (Some b)) by (simpl; set_solver).
    apply (spec_weaken null (I (opt (Some b))) _ _ (λ _, I (opt (Some b)))); [|done|intros _ r; apply opt_I].
    destruct (bool_decide _); [|by apply I_handleBuddyUpdated].
    eapply spec_keep; [by apply calm_handleBuddyRemoved; auto with roster|]. intros _. calm.
  - simpl opt. destruct (bool_decide _); [by apply spec_ret|].
    eapply spec_keep; [apply I_JIDToLegacyName|]. intros name.
    eapply spec_bind; [apply I_createBuddy|]. intros p.
    eapply spec_bind; [apply I_setBuddy_null|]. intros [].
    destruct p as [b|]; [|by intros r Hr].
    eapply spec_weaken; [apply (I_handleBuddyUpdated null [b]); set_solver|done|intros ? r; apply I_weaken; set_solver].
Qed.

Lemma backendChanged_ok E payload :
  (cut_off payload → E UncaughtException) → spec E (I []) (handleBuddyChangedPayload env payload) (λ _, I []).
Proof.
  intros HE. unfold handleBuddyChangedPayload. eapply spec_bind; [apply I_getBuddy|]. intros p. cbv beta.
  rewrite app_nil_r. destruct p as [b|]; simpl opt.
  - eapply spec_weaken; [by apply (I_handleBuddyPayload E [b]); [set_solver|]|done|intros ? r; apply I_weaken; set_solver].
  - destruct (String.eqb _ _); [by apply spec_ret|].
    eapply spec_bind; [apply fresh_newLocalBuddy|]. intros b.
    eapply spec_bind; [apply calm_load, holds_fresh|]. intros o.
    destruct (negb _); [apply fresh_delete|].
    assert (b ∈ [b]) by set_solver.
    apply (spec_weaken E (I [b]) _ _ (λ _, I [b])); [calm|apply fresh_I|intros ? r; apply I_weaken; set_solver].
Qed.

(** The events whose handler may stop at a null pointer, and the one that may end in an
    exception. *)
Definition may_stop (e : input (J := J)) (f : fault) : Prop :=
  match e with
  | Subscription_ _ | RemoteRoster _ false | SetRequest _ _ => f = NullDereference
  | BackendChanged payload => f = UncaughtException ∧ cut_off payload
  | _ => False
  end.

Lemma I_rinv r : I [] r ↔ rinv r.
Proof. split; [by intros [? _]|]. intros Hr. split; [done|constructor]. Qed.

Lemma react_ok e : spec (may_stop e) rinv (react env e) (λ _, rinv).
Proof.
  assert (Hnull : ∀ m : prog (Roster J St) unit, may_stop e NullDereference → spec null (I []) m (λ _, I []) →
    spec (may_stop e) (I []) m (λ _, I [])).
  { intros m He Hm r Hr. specialize (Hm r Hr). destruct (m r); [done|]. by rewrite Hm. }
  apply (spec_weaken _ (I []) _ _ (λ _, I [])); [|intros r; by apply I_rinv|intros _ r; by apply I_rinv].
  destruct e; simpl react.
  - by apply Hnull, handleSubscription_ok.
  - apply setStorageBackend_ok.
  - apply sendCurrentPresences_ok.
  - apply sendCurrentPresence_ok.
  - apply sendUnavailablePresences_ok.
  - apply pushResponse_ok.
  - destruct error; [unfold handleRemoteRosterResponse; calm|by apply Hnull, remoteRoster_ok].
  - apply sendRIE_ok.
  - eapply spec_keep; [apply I_storeBuddies|]. intros b. by apply spec_ret.
  - apply getRequest_ok.
  - by apply Hnull, setRequest_ok.
  - apply backendChanged_ok. by intros Hg.
  - apply I_removeBuddy.
  - apply calm_modify; [apply stable_I|]. intros r. by apply same_intro.
Qed.

Lemma empty_rinv (db : St) : rinv (empty_roster db).
Proof.
  split; simpl; [apply sorted_nil|by intros k b ?%not_elem_of_nil|by intros q n b| | |].
  - intros b [o Ho]. simpl in Ho. by apply lookup_empty_Some in Ho.
  - intros b o Ho. by apply lookup_empty_Some in Ho.
  - by intros q.
Qed.
End invariant.
