(* ===== verification/RosterStore.v ===== *)
(** * The roster and its database

    RosterStorage writes the contacts of its queue when its timer fires. [BuddyRows] is
    what it relies on in a storage backend; [RosterSqlite] shows it of SQLite3Backend.
    The database then holds, for each of the contacts, what the roster holds, or
    refused it because the user had its name. *)

From S2P Require Import Prelude StdMap Swiften Protocol Framing ReferenceCodec Names Pool Outgoing Roster RosterInv.

(** What a user has in the database: the contacts getBuddies answers, by identifier. *)
Definition rows {St} `{BuddyStorage St} (user : Z) (s : St) : gmap Z BuddyInfo :=
  list_to_map ((λ i, (bi_id i, i)) <$> db_getBuddies user s).

Definition taken (name : string) (m : gmap Z BuddyInfo) : Prop :=
  ∃ id i, m !! id = Some i ∧ bi_legacyName i = name.

Definition with_id (id : Z) (info : BuddyInfo) : BuddyInfo :=
  mkBuddyInfo id (bi_alias info) (bi_legacyName info) (bi_subscription info) (bi_groups info) (bi_icon_hash info)
    (bi_flags info).

(** What a storage backend promises to the roster, for contacts whose texts it can keep
    ([clean]) and as long as its tables are in order with room for [n] more rows ([good]):
    what is updated under an identifier and the name it has there is read back; a contact
    of a new name gets a new identifier; one of a name the user has already gets -1. *)
Class BuddyRows (St : Type) `{BuddyStorage St} := {
  good : nat → St → Prop;
  clean : BuddyInfo → Prop;
  rows_begin n user s : good n s →
    good n (db_beginTransaction s) ∧ rows user (db_beginTransaction s) = rows user s;
  rows_commit n user s : good n s →
    good n (db_commitTransaction s) ∧ rows user (db_commitTransaction s) = rows user s;
  rows_update n user info row s :
    good (S n) s → clean info → rows user s !! bi_id info = Some row → bi_legacyName row = bi_legacyName info →
    good n (db_updateBuddy user info s) ∧
    rows user (db_updateBuddy user info s) = <[bi_id info := info]> (rows user s);
  rows_add n user info s :
    good (S n) s → clean info → ¬ taken (bi_legacyName info) (rows user s) →
    ∃ id s', db_addBuddy user info s = (id, s') ∧ good n s' ∧ id ≠ (-1)%Z ∧ rows user s !! id = None ∧
      rows user s' = <[id := with_id id info]> (rows user s);
  rows_refuse n user info s :
    good (S n) s → clean info → taken (bi_legacyName info) (rows user s) →
    ∃ s', db_addBuddy user info s = ((-1)%Z, s') ∧ good n s' ∧ rows user s' = rows user s;
}.

Section store.
Context {J St : Type} `{Jid J} `{BuddyRows St} `{Protobuf} (env : RosterEnv J).
Implicit Types r : Roster J St.

Abbreviation my_rows r := (rows (re_user_id env) (r_db r)).

(** The contacts with an identifier have a row of their own, under their name. *)
Record db_ok r : Prop := mkDbOk {
  ok_row : ∀ b o, r_heap r !! b = Some o → b_id o ≠ (-1)%Z →
    ∃ i, my_rows r !! b_id o = Some i ∧ bi_legacyName i = b_name o;
  ok_inj : ∀ b b' o o', r_heap r !! b = Some o → r_heap r !! b' = Some o' →
    b_id o = b_id o' → b_id o ≠ (-1)%Z → b = b';
}.

(** What has become of the contact [o], which is now [o']. *)
Definition stored (r0 r : Roster J St) (o o' : Buddy J) : Prop :=
  (b_id o' = (-1)%Z ↔ b_id o = (-1)%Z ∧ taken (b_name o) (my_rows r0)) ∧
  (b_id o' ≠ (-1)%Z → my_rows r !! b_id o' = Some (info_of o')).

(** The state of the loop when [bs] are stored. *)
Record storing (n : nat) (r0 : Roster J St) (bs : list nat) r : Prop := mkStoring {
  st_good : good n (r_db r);
  st_same : ∀ b, set_id 0 <$> r_heap r !! b = set_id 0 <$> r_heap r0 !! b;
  st_todo : ∀ b, b ∉ bs → r_heap r !! b = r_heap r0 !! b;
  st_done : ∀ b o o', b ∈ bs → r_heap r0 !! b = Some o → r_heap r !! b = Some o' → stored r0 r o o';
  st_rest : ∀ id, (∀ b o, b ∈ bs → r_heap r !! b = Some o → b_id o ≠ id) → my_rows r !! id = my_rows r0 !! id;
  st_names : ∀ name, taken name (my_rows r) ↔
    taken name (my_rows r0) ∨ ∃ b o, b ∈ bs ∧ r_heap r !! b = Some o ∧ b_id o ≠ (-1)%Z ∧ b_name o = name;
  st_ok : db_ok r;
  st_queue : m_rosterStorage r = m_rosterStorage r0;
}.

Lemma taken_insert name id i m :
  taken name (<[id := i]> m) ↔ bi_legacyName i = name ∨ ∃ id' i', id' ≠ id ∧ m !! id' = Some i' ∧ bi_legacyName i' = name.
Proof.
  unfold taken. split.
  - intros (id' & i' & [[<- <-]|[Hne Hi]]%lookup_insert_Some & Hn); [by left|right; by eauto 6].
  - intros [Hn|(id' & i' & Hne & Hi & Hn)].
    + exists id, i. by rewrite lookup_insert_eq.
    + exists id', i'. by rewrite lookup_insert_ne.
Qed.

Lemma taken_new name id i m : m !! id = None → taken name (<[id := i]> m) ↔ bi_legacyName i = name ∨ taken name m.
Proof.
  intros Hid. rewrite taken_insert. split; (intros [?|(id' & i' & Hrest)]; [by left|right]).
  - destruct Hrest as (_ & ? & ?). by exists id', i'.
  - destruct Hrest as [Hi ?]. exists id', i'. split; [congruence|done].
Qed.

Lemma taken_same name id i i' m :
  m !! id = Some i' → bi_legacyName i = bi_legacyName i' → taken name (<[id := i]> m) ↔ taken name m.
Proof.
  intros Hid Hn. rewrite taken_insert. split.
  - intros [<-|(id2 & i2 & _ & ? & ?)]; [by exists id, i'|by exists id2, i2].
  - intros (id2 & i2 & Hi & <-). destruct (decide (id2 = id)) as [->|]; [left; congruence|right; by eauto 6].
Qed.

(** What it means for a step that the names in the queue differ. *)
Definition new_name (r : Roster J St) (bs : list nat) (o : Buddy J) : Prop :=
  ∀ b' o', b' ∈ bs → r_heap r !! b' = Some o' → b_name o' ≠ b_name o.

Lemma storing_update n r0 bs r b o :
  storing (S n) r0 bs r → b ∉ bs → r_heap r !! b = Some o → b_id o ≠ (-1)%Z → clean (info_of o) →
  storing n r0 (bs ++ [b]) (with_db (db_updateBuddy (re_user_id env) (info_of o) (r_db r)) r).
Proof.
  intros [Hg Hsame Htodo Hdone Hrest Hnames [Hrow Hinj] Hq] Hb Ho Hid Hclean.
  destruct (Hrow _ _ Ho Hid) as (i & Hi & Hin).
  destruct (rows_update n _ (info_of o) i (r_db r) Hg Hclean Hi Hin) as [Hg' Hup].
  assert (Hother : ∀ b' o', b' ≠ b → r_heap r !! b' = Some o' → b_id o' ≠ (-1)%Z → b_id o ≠ b_id o').
  { intros b' o' Hne Ho' Hid' E. apply Hne. by apply (Hinj b' b o' o). }
  split; simpl; try done.
  - intros b' Hb'. apply Htodo. set_solver.
  - intros b' o1 o' [Hb'|Hb'%list_elem_of_singleton]%elem_of_app Ho1 Ho'.
    + destruct (Hdone b' o1 o' Hb' Ho1 Ho') as [Hd1 Hd2]. split; [done|]. simpl. intros Hid'.
      rewrite Hup, lookup_insert_ne; [by apply Hd2|]. apply (Hother b'); [by intros ->|done|done].
    + subst b'. assert (o' = o) as -> by congruence. rewrite (Htodo b Hb) in Ho. assert (o1 = o) as -> by congruence.
      split; [tauto|]. intros _. simpl. rewrite Hup. apply lookup_insert_eq.
  - intros id Hid'. rewrite Hup, lookup_insert_ne by (apply (Hid' b); [set_solver|done]).
    apply Hrest. intros b' o' Hb'. apply Hid'. set_solver.
  - intros name. rewrite Hup, (taken_same _ _ (info_of o) i), Hnames by done. split.
    + intros [?|(b' & o' & ? & ?)]; [by left|right]. exists b', o'. split; [set_solver|done].
    + intros [?|(b' & o' & [?|Hb'%list_elem_of_singleton]%elem_of_app & Ho' & ? & Hn)]; [by left|right; by eauto 6|].
      apply Hnames. subst b'. rewrite Ho in Ho'. injection Ho' as <-. exists (b_id o), i. split; [done|congruence].
  - split; simpl; [|done]. intros b' o' Ho' Hid'. rewrite Hup.
    destruct (decide (b_id o = b_id o')) as [E|]; [|rewrite lookup_insert_ne by done; by eapply Hrow].
    rewrite <- E, lookup_insert_eq. eexists. split; [done|]. pose proof (Hinj _ _ _ _ Ho Ho' E Hid) as <-.
    rewrite Ho in Ho'. by injection Ho' as <-.
Qed.

Lemma storing_add n r0 bs r b o id db :
  storing (S n) r0 bs r → b ∉ bs → r_heap r !! b = Some o → b_id o = (-1)%Z →
  ¬ taken (b_name o) (my_rows r) → good n db → id ≠ (-1)%Z → my_rows r !! id = None →
  rows (re_user_id env) db = <[id := with_id id (info_of o)]> (my_rows r) →
  storing n r0 (bs ++ [b]) (with_heap <[b := set_id id o]> (with_db db r)).
Proof.
  intros [Hg Hsame Htodo Hdone Hrest Hnames [Hrow Hinj] Hq] Hb Ho Hid Hnew Hg' Hid' Hfree Hdb.
  assert (Hother : ∀ b' o', r_heap r !! b' = Some o' → b_id o' ≠ id).
  { intros b' o' Ho' E. destruct (decide (b_id o' = (-1)%Z)); [congruence|].
    destruct (Hrow _ _ Ho' ltac:(done)) as (i & Hi & _). congruence. }
  split; simpl; try done.
  - intros b'. destruct (decide (b' = b)) as [->|]; [|by rewrite lookup_insert_ne].
    rewrite lookup_insert_eq, <- Hsame, Ho. done.
  - intros b' Hb'. rewrite lookup_insert_ne by set_solver. apply Htodo. set_solver.
  - intros b' o1 o' Hb' Ho1 Ho'. apply lookup_insert_Some in Ho' as [[<- <-]|[Hne Ho']].
    + rewrite (Htodo b Hb) in Ho. assert (o1 = o) as -> by congruence. split; simpl.
      * split; [done|]. intros [_ Ht]. exfalso. apply Hnew, Hnames. by left.
      * intros _. rewrite Hdb. apply lookup_insert_eq.
    + apply elem_of_app in Hb' as [Hb'|?%list_elem_of_singleton]; [|done].
      destruct (Hdone b' o1 o' Hb' Ho1 Ho') as [Hd1 Hd2]. split; [done|]. simpl. intros ?.
      rewrite Hdb, lookup_insert_ne by (by apply not_eq_sym, (Hother b')). by apply Hd2.
  - intros id' Hid2. rewrite Hdb, lookup_insert_ne.
    + apply Hrest. intros b' o' Hb' Ho'. apply (Hid2 b'); [set_solver|]. rewrite lookup_insert_ne; [done|by intros <-].
    + apply (Hid2 b (set_id id o)); [set_solver|apply lookup_insert_eq].
  - intros name. rewrite Hdb, taken_new, Hnames by done. simpl. split.
    + intros [<-|[?|(b' & o' & ? & ? & ?)]]; [right|by left|right].
      * exists b, (set_id id o). rewrite lookup_insert_eq. split; [set_solver|done].
      * exists b', o'. rewrite lookup_insert_ne by (by intros <-). split; [set_solver|done].
    + intros [?|(b' & o' & Hb' & Ho' & ? & Hn)]; [by right; left|].
      apply lookup_insert_Some in Ho' as [[<- <-]|[Hne Ho']]; [by left|right; right].
      apply elem_of_app in Hb' as [Hb'|?%list_elem_of_singleton]; [by eauto 6|done].
  - split; simpl.
    + intros b' o' Ho' ?. rewrite Hdb. apply lookup_insert_Some in Ho' as [[<- <-]|[Hne Ho']]; simpl.
      * rewrite lookup_insert_eq. by eexists.
      * rewrite lookup_insert_ne by (by apply not_eq_sym, (Hother b')). by eapply Hrow.
    + intros b1 b2 o1 o2 Ho1 Ho2 E ?.
      apply lookup_insert_Some in Ho1 as [[<- <-]|[Hne1 Ho1]], Ho2 as [[<- <-]|[Hne2 Ho2]]; simpl in *.
      * done.
      * by destruct (Hother _ _ Ho2).
      * by destruct (Hother _ _ Ho1).
      * by eapply Hinj.
Qed.

Lemma storing_refused n r0 bs r b o db :
  storing (S n) r0 bs r → b ∉ bs → new_name r bs o → r_heap r !! b = Some o → b_id o = (-1)%Z →
  taken (b_name o) (my_rows r) → good n db → rows (re_user_id env) db = my_rows r →
  storing n r0 (bs ++ [b]) (with_heap <[b := set_id (-1) o]> (with_db db r)).
Proof.
  intros [Hg Hsame Htodo Hdone Hrest Hnames [Hrow Hinj] Hq] Hb Hnew Ho Hid Ht Hg' Hdb.
  assert (Hset : <[b := set_id (-1) o]> (r_heap r) = r_heap r).
  { apply insert_id. rewrite Ho. f_equal. destruct o. simpl in *. by subst. }
  unfold with_heap. simpl. rewrite Hset. split; simpl; try done; [| | | |split; simpl; [|done]; by rewrite Hdb].
  - intros b' Hb'. apply Htodo. set_solver.
  - intros b' o1 o' [Hb'|Hb'%list_elem_of_singleton]%elem_of_app Ho1 Ho'.
    + destruct (Hdone b' o1 o' Hb' Ho1 Ho') as [Hd1 Hd2]. split; [done|]. simpl. by rewrite Hdb.
    + subst b'. assert (o' = o) as -> by congruence. rewrite (Htodo b Hb) in Ho. assert (o1 = o) as -> by congruence.
      split; [|done]. split; [|done]. intros _. split; [done|].
      apply Hnames in Ht as [?|(b' & o' & Hb' & Hl & _ & Hn)]; [done|]. by destruct (Hnew b' o').
  - intros id Hid2. rewrite Hdb. apply Hrest. intros b' o' Hb'. apply Hid2. set_solver.
  - intros name. rewrite Hdb, Hnames. split; (intros [?|(b' & o' & Hb' & Hrest')]; [by left|right]).
    + exists b', o'. split; [set_solver|done].
    + apply elem_of_app in Hb' as [Hb'|E%list_elem_of_singleton]; [by eauto|].
      subst b'. destruct Hrest' as (Ho' & ? & _). congruence.
Qed.

(** A contact of the queue is alive, its name is not yet stored, its texts can be kept. *)
Lemma storing_one n r0 bs r b o0 :
  storing (S n) r0 bs r → r_heap r0 !! b = Some o0 → new_name r0 bs o0 → clean (info_of o0) →
  ∃ r', store_one env b r = Done tt r' ∧ storing n r0 (bs ++ [b]) r'.
Proof.
  intros Hs Ho0 Hnew Hclean. assert (Hb : b ∉ bs) by (intros Hb; by apply (Hnew b o0)).
  assert (Ho : r_heap r !! b = Some o0) by (by rewrite (st_todo _ _ _ _ Hs b Hb)).
  unfold store_one. rewrite (bind_done _ _ _ _ _ (buddy_loaded _ _ _ Ho)).
  destruct (Z.eqb_spec (b_id o0) (-1)) as [Hid|Hid].
  2: { change (negb false) with true. cbv beta iota. eexists. split; [|by eapply storing_update]. done. }
  change (negb true) with false. cbv beta iota. rewrite bind_run. cbn beta iota delta [get].
  assert (Hput : ∀ id db, modify (with_db db) (r) = Done tt (with_db db r) ∧
    store b (set_id id) (with_db db r) = Done tt (with_heap <[b := set_id id o0]> (with_db db r))).
  { intros id db. split; [done|]. unfold store. assert (Ho' : r_heap (with_db db r) !! b = Some o0) by done.
    by rewrite (bind_done _ _ _ _ _ (buddy_loaded _ _ _ Ho')). }
  assert (Hdec : taken (b_name o0) (my_rows r) ∨ ¬ taken (b_name o0) (my_rows r)).
  { destruct (decide (map_Exists (λ _ i, bi_legacyName i = b_name o0) (my_rows r))) as [Ht|Ht]; [by left|by right]. }
  destruct Hdec as [Ht|Ht].
  - destruct (rows_refuse n (re_user_id env) (info_of o0) (r_db r) (st_good _ _ _ _ Hs) Hclean Ht) as (db & -> & Hg & Hr).
    destruct (Hput (-1)%Z db) as [E1 E2]. eexists. rewrite (bind_done _ _ _ _ _ E1). split; [exact E2|].
    eapply storing_refused; try done. intros b' o' Hb' Ho'.
    pose proof (st_same _ _ _ _ Hs b') as E. rewrite Ho' in E. destruct (r_heap r0 !! b') as [o1|] eqn:Eo1; [|done].
    injection E as E. pose proof (Hnew _ _ Hb' Eo1) as Hne. by destruct o1, o'; simplify_eq/=.
  - destruct (rows_add n (re_user_id env) (info_of o0) (r_db r) (st_good _ _ _ _ Hs) Hclean Ht)
      as (id & db & -> & Hg & Hne & Hfree & Hr).
    destruct (Hput id db) as [E1 E2]. eexists. rewrite (bind_done _ _ _ _ _ E1). split; [exact E2|]. by eapply storing_add.
Qed.

Lemma storing_all n r0 bs r (q : smap string nat) :
  storing (length q + n) r0 bs r →
  (∀ name b, (name, b) ∈ q → ∃ o, r_heap r0 !! b = Some o ∧ b_name o = name ∧ clean (info_of o) ∧ new_name r0 bs o) →
  NoDup q.*1 →
  ∃ r', for_each q (λ kv, store_one env kv.2) r = Done tt r' ∧ storing n r0 (bs ++ q.*2) r'.
Proof.
  revert bs r. induction q as [|[name b] q IH]; intros bs r Hs Hq Hnd; simpl.
  - rewrite app_nil_r. by exists r.
  - apply NoDup_cons in Hnd as [Hname Hnd].
    destruct (Hq name b ltac:(set_solver)) as (o & Ho & <- & Hclean & Hnew).
    destruct (storing_one _ _ _ _ _ _ Hs Ho Hnew Hclean) as (r1 & E1 & Hs1).
    destruct (IH _ _ Hs1) as (r2 & E2 & Hs2); [|done|].
    + intros n2 b2 Hin. destruct (Hq n2 b2 ltac:(set_solver)) as (o2 & Ho2 & <- & Hc2 & Hnew2).
      exists o2. split_and!; try done. intros b' o' [Hb'|Hb'%list_elem_of_singleton]%elem_of_app Ho'; [by eapply Hnew2|].
      subst b'. assert (o' = o) as -> by congruence. intros E. apply Hname. apply list_elem_of_fmap.
      exists (b_name o2, b2). split; [done|exact Hin].
    + exists r2. rewrite bind_run, E1, E2. rewrite <- app_assoc in Hs2. done.
Qed.

Lemma storing_start n r : good n (r_db r) → db_ok r → storing n r [] r.
Proof.
  intros Hg Hok. split; try done.
  - by intros b o o' ?%not_elem_of_nil.
  - intros name. split; [by left|]. by intros [?|(b & o & ?%not_elem_of_nil & _)].
Qed.

(** C17: what storing the queue leaves in the database, for a roster whose contacts with an
    identifier have rows of their own under their names, a storage that keeps what
    [BuddyRows] says with room for the queue, and queued contacts whose texts it can keep.
    Every queued contact then has an identifier and under it exactly what the roster holds
    of it; except a new one whose name the user already had in the database: it is refused
    and stays without identifier. Rows of other identifiers are as before, contacts change
    in nothing but their identifiers, the queue is empty, and contacts and rows still fit. *)
Theorem stored_buddies r q n :
  rinv env r → db_ok r → m_rosterStorage r = Some q → good (length q + n) (r_db r) →
  (∀ name b o, (name, b) ∈ q → r_heap r !! b = Some o → clean (info_of o)) →
  ∃ r', storeBuddies env r = Done (negb (bool_decide (q = []))) r' ∧
    m_rosterStorage r' = Some [] ∧ good n (r_db r') ∧ db_ok r' ∧
    (∀ name b, (name, b) ∈ q → ∃ o o', r_heap r !! b = Some o ∧ r_heap r' !! b = Some o' ∧ b_name o = name ∧
      (b_id o' = (-1)%Z ↔ b_id o = (-1)%Z ∧ taken name (my_rows r)) ∧
      (b_id o' ≠ (-1)%Z → my_rows r' !! b_id o' = Some (info_of o'))) ∧
    (∀ id, (∀ name b o, (name, b) ∈ q → r_heap r' !! b = Some o → b_id o ≠ id) → my_rows r' !! id = my_rows r !! id) ∧
    (∀ b, set_id 0 <$> r_heap r' !! b = set_id 0 <$> r_heap r !! b).
Proof.
  intros Hr Hok Hq Hg Hclean. unfold storeBuddies. rewrite bind_run. cbn beta iota delta [get]. rewrite Hq. simpl default.
  destruct q as [|[name0 b0] q].
  { exists r. split; [done|]. repeat split; try done; try apply Hok. by intros name b ?%not_elem_of_nil. }
  set (queue := (name0, b0) :: q) in *.
  set (r1 := with_db (db_beginTransaction (r_db r)) r).
  destruct (rows_begin _ (re_user_id env) _ Hg) as [Hg1 Hb1].
  assert (Hok1 : db_ok r1).
  { split; simpl; [|apply Hok]. intros b' o Ho Hid. rewrite Hb1. by eapply ok_row. }
  destruct (storing_all n r1 [] r1 queue (storing_start _ r1 Hg1 Hok1)) as (r2 & E2 & Hs2).
  { intros name b Hin. destruct (inv_queue _ _ Hr _ _ _ Hq Hin) as (o & Ho & Hn). exists o.
    split_and!; [done|done|by eapply Hclean|by intros b' o' ?%not_elem_of_nil]. }
  { apply sorted_keys. by eapply inv_queue_sorted. }
  destruct (rows_commit _ (re_user_id env) _ (st_good _ _ _ _ Hs2)) as [Hg3 Hc3].
  set (r3 := with_db (db_commitTransaction (r_db r2)) (with_queue (λ _, []) r2)). exists r3. split.
  { change ((database db_beginTransaction ;; for_each queue (λ kv, store_one env kv.2) ;;
      modify (with_queue (λ _, [])) ;; database db_commitTransaction ;; mret true) r = Done true r3).
    assert (E1 : database db_beginTransaction r = Done tt r1) by done.
    by rewrite (bind_done _ _ _ _ _ E1), (bind_done _ _ _ _ _ E2). }
  assert (Hc : my_rows r3 = my_rows r2) by exact Hc3.
  assert (Hb : my_rows r1 = my_rows r) by exact Hb1.
  destruct Hs2 as [_ Hsame _ Hdone Hrest _ Hok2 Hq2]. split_and!; [|done|split|..].
  - simpl. rewrite Hq2. simpl. by rewrite Hq.
  - intros b o Ho Hid. rewrite Hc. by eapply ok_row.
  - apply Hok2.
  - intros name b Hin. destruct (inv_queue _ _ Hr _ _ _ Hq Hin) as (o & Ho & Hn).
    pose proof (Hsame b) as E. replace (r_heap r1 !! b) with (Some o) in E by done.
    destruct (r_heap r2 !! b) as [o'|] eqn:Eo'; [|done]. exists o, o'.
    assert (Hbin : b ∈ queue.*2) by (apply list_elem_of_fmap; by exists (name, b)).
    destruct (Hdone b o o' Hbin Ho Eo') as [Hd1 Hd2]. rewrite Hc, <- Hn, <- Hb. by split_and!.
  - intros id Hid. rewrite Hc, <- Hb. apply Hrest. intros b o ([name b'] & -> & Hin)%list_elem_of_fmap Ho. by eapply Hid.
  - exact Hsame.
Qed.
End store.

(** ** A reference storage *)

(** A table of rows; the identifier of a new one is not in use and not -1. *)
Definition ref_rows := gmap Z BuddyInfo.

Definition new_id (s : ref_rows) : Z := stdpp.base.fresh ({[(-1)%Z]} ∪ dom s : gset Z).

#[export] Instance ref_storage : BuddyStorage ref_rows := {
  db_getBuddies _ s := (map_to_list s).*2;
  db_addBuddy _ info s :=
    (new_id s, <[new_id s := mkBuddyInfo (new_id s) (bi_alias info) (bi_legacyName info) (bi_subscription info)
                 (bi_groups info) (bi_icon_hash info) (bi_flags info)]> s);
  db_updateBuddy _ info s := <[bi_id info := info]> s;
  db_removeBuddy id s := delete id s;
  db_beginTransaction s := s;
  db_commitTransaction s := s;
}.

Definition sample_env : RosterEnv ref_jid :=
  mkRosterEnv (mkRefJid "me" "example.com" "") 1 "me" (mkRefJid "" "icq.example.com" "") false false true false
    (λ s, s).

(** A contact of the sample user, in the roster and in the queue. *)
Definition sample_buddy : Buddy ref_jid :=
  local_buddy sample_env (-1) "bob" "Bob" ["Friends"%string] 0.

Definition sample_roster : Roster ref_jid ref_rows :=
  mkRoster {[0 := sample_buddy]} 1 [("bob"%string, Some 0)] (Some [("bob"%string, 0)])
    false false [] 0 (Some 1) 1 true false [] ∅ [].

Lemma sample_lookup b o : r_heap sample_roster !! b = Some o → b = 0 ∧ o = sample_buddy.
Proof. intros Ho. simpl in Ho. by apply lookup_singleton_Some in Ho as [<- <-]. Qed.

Lemma sample_rinv : rinv sample_env sample_roster.
Proof.
  split.
  - repeat constructor.
  - intros k b [[= -> ->]|Hin]%elem_of_cons; [|by apply not_elem_of_nil in Hin]. by exists sample_buddy.
  - intros q n b [= <-] [[= -> ->]|Hin]%elem_of_cons; [|by apply not_elem_of_nil in Hin]. by exists sample_buddy.
  - intros b [o [-> _]%sample_lookup]. simpl. lia.
  - intros b o [_ ->]%sample_lookup. by apply NoDup_nil.
  - intros q [= <-]. repeat constructor.
Qed.
