(* ===== verification/RosterTheorems.v ===== *)
(** * The roster: properties

    What every reachable roster satisfies and where it can stop; the presences of
    a contact; subscriptions; what the database holds after the queue is stored;
    the end of a roster. *)

From S2P Require Import Prelude StdMap Swiften Protocol Framing ReferenceCodec Names Pool Outgoing Roster RosterInv RosterStore.
Import pbnetwork.

(** ** Safety *)

Section safety.
Context {J St : Type} `{Jid J} `{BuddyStorage St} `{Protobuf} (env : RosterEnv J).

(** The states a new user's roster gets to. *)
Definition reachable (r : Roster J St) : Prop :=
  ∃ db es, for_each es (react env) (empty_roster db) = Done tt r.

Lemma reacts_ok (es : list input) (r r' : Roster J St) :
  rinv env r → for_each es (react env) r = Done tt r' → rinv env r'.
Proof.
  revert r. induction es as [|e es IH]; intros r Hr; simpl; [by intros [= <-]|].
  rewrite bind_run. pose proof (react_ok env e r Hr) as He.
  destruct (react env e r) as [[] r1|f]; [|done]. by apply IH.
Qed.

(** C16: in every reachable roster the map files each contact under its name in
    lower case and the storage's queue under its name, both with pointers to live
    contacts, and a contact keeps one presence per address; the next event leaves
    such a roster, and only two things can stop it: a null pointer, in a subscription, a
    roster set or the XMPP server's answer to the roster request, and the exception for a
    group a backend sends whose UTF-8 is cut off. No handler touches a deleted contact. *)
Theorem roster_safety (r : Roster J St) :
  reachable r →
  sorted (m_buddies r)
  ∧ (∀ k b, (k, Some b) ∈ m_buddies r → ∃ o, r_heap r !! b = Some o ∧ k = to_lower env (b_name o))
  ∧ (∀ q n b, m_rosterStorage r = Some q → (n, b) ∈ q → ∃ o, r_heap r !! b = Some o ∧ b_name o = n)
  ∧ (∀ b o, r_heap r !! b = Some o → NoDup (pr_from <$> b_presences o))
  ∧ ∀ e, match react env e r with
         | Done _ r' => reachable r'
         | Fault f => may_stop e f
         end.
Proof.
  intros (db & es & Ht). pose proof (reacts_ok _ _ _ (empty_rinv env db) Ht) as Hr.
  split_and!; [apply Hr..|]. intros e. pose proof (react_ok env e r Hr) as He.
  destruct (react env e r) as [[] r'|f] eqn:Er; [|done]. exists db, (es ++ [e]).
  rewrite for_each_app, (bind_done _ _ _ _ _ Ht). simpl. by rewrite bind_run, Er.
Qed.

(** *** The answer to the roster request *)

(** A loop that meets a null pointer does not get through. *)
Lemma pushes_stop (m : smap string (option nat)) k (r r' : Roster J St) :
  re_serverMode env = false → (k, None) ∈ m →
  for_each m (λ kv, sendBuddyRosterPush env kv.2) r ≠ Done tt r'.
Proof.
  intros Hmode. revert r. induction m as [|[k' p] m IH]; intros r Hin; [by apply not_elem_of_nil in Hin|].
  simpl. rewrite bind_run. apply elem_of_cons in Hin as [[= <- <-]|Hin].
  - unfold sendBuddyRosterPush. rewrite bind_run. cbn beta iota delta [get]. by rewrite Hmode.
  - destruct (sendBuddyRosterPush env p r) as [[] r1|f]; [by apply IH|done].
Qed.

Lemma unknown_entry (name : string) (r : Roster J St) :
  default None (sfind (to_lower env name) (m_buddies r)) = None →
  ∃ r', getBuddy env name r = Done None r' ∧ sfind (to_lower env name) (m_buddies r') = Some None
    ∧ r' = with_buddies (λ _, m_buddies r') r
    ∧ ∀ v, sinsert (to_lower env name) v (m_buddies r') = sinsert (to_lower env name) v (m_buddies r).
Proof.
  intros Hname. unfold getBuddy. rewrite bind_run. cbn beta iota delta [get].
  destruct (sfind _ _) as [p|] eqn:Ef; simpl in Hname.
  - subst p. exists r. split; [done|]. split; [done|]. split; [by destruct r|done].
  - eexists. split; [reflexivity|]. simpl. split; [by rewrite sfind_sinsert_eq|].
    split; [by destruct r|]. intros v. apply sinsert_again.
Qed.

(** asking for the presence of somebody who is not in the roster leaves a null
    pointer in its map, and the XMPP server's answer to the roster request, when
    it says that the user's roster is empty, dereferences it. *)
Theorem remote_roster_stops (r : Roster J St) (from to : J) :
  rinv env r → re_serverMode env = false →
  default None (sfind (to_lower env (Names.JIDToLegacyName from)) (m_buddies r)) = None →
  ∃ r', react env (CurrentPresence from to) r = Done tt r' ∧
    react env (RemoteRoster [] false) r' = Fault NullDereference.
Proof.
  intros Hr Hmode Hname. destruct (unknown_entry _ _ Hname) as (r1 & E1 & Hin & _).
  set (r' := with_out (λ l, l ++ [SendPresence (setPresenceType Unavailable
    (setPresenceFrom from (setPresenceTo to empty_presence)))]) r1).
  assert (E : react env (CurrentPresence from to) r = Done tt r').
  { simpl. unfold sendCurrentPresence, JIDToBuddy. by rewrite (bind_done _ _ _ _ _ E1). }
  exists r'. split; [done|].
  pose proof (react_ok env (CurrentPresence from to) r Hr) as Hr'. rewrite E in Hr'.
  pose proof (react_ok env (RemoteRoster [] false) r' Hr') as Hs.
  destruct (react env (RemoteRoster [] false) r') as [[] r2|f] eqn:Er; [|by destruct Hs as [-> _]].
  exfalso. simpl react in Er. unfold handleRemoteRosterResponse in Er.
  rewrite bind_run in Er. unfold modify in Er. cbn beta iota in Er.
  rewrite bind_run in Er. cbn beta iota delta [get] in Er. simpl when in Er.
  eapply pushes_stop in Er; [done|done|by apply sfind_elem].
Qed.
End safety.

(** ** Runs *)

Section runs.
Context {J St : Type} `{Jid J} `{BuddyStorage St} `{Protobuf} (env : RosterEnv J).
Implicit Types r : Roster J St.

Lemma buddy_stored r b o f : r_heap r !! b = Some o → store b f r = Done tt (with_heap <[b := f o]> r).
Proof. intros Ho. unfold store. by rewrite (bind_done _ _ _ _ _ (buddy_loaded _ _ _ Ho)). Qed.

Lemma emits {A} (g : A → roster_event J) (l : list A) r :
  for_each l (λ x, emit (g x)) r = Done tt (with_out (λ o, o ++ map g l) r).
Proof.
  revert r. induction l as [|x l IH]; intros r; simpl.
  - unfold with_out. rewrite app_nil_r. by destruct r.
  - rewrite bind_run. unfold emit at 1, modify. rewrite IH. unfold with_out. simpl. by rewrite <- app_assoc.
Qed.

Lemma known_buddy r name p :
  sfind (to_lower env name) (m_buddies r) = Some p → getBuddy env name r = Done p r.
Proof. intros Hp. unfold getBuddy. rewrite bind_run. cbn beta iota delta [get]. by rewrite Hp. Qed.

(** *** The presences of a contact *)

Lemma stanzas_run r b o :
  re_rawxml env = false → r_heap r !! b = Some o → getNode (b_jid o) ≠ ""%string →
  let l := replace_from (current_presence env o) (b_presences o) in
  generatePresenceStanzas env b r = Done l (with_heap <[b := set_presences l o]> r).
Proof.
  intros Hraw Ho Hnode l. unfold generatePresenceStanzas.
  rewrite (bind_done _ _ _ _ _ (buddy_loaded _ _ _ Ho)).
  apply String.eqb_neq in Hnode. rewrite Hnode. simpl when. rewrite bind_run, ret_run.
  rewrite (bind_done _ _ _ _ _ (buddy_stored _ _ _ _ Ho)). rewrite Hraw. fold l.
  assert (Ho' : r_heap (with_heap <[b := set_presences l o]> r) !! b = Some (set_presences l o))
    by apply lookup_insert_eq.
  by rewrite (bind_done _ _ _ _ _ (buddy_loaded _ _ _ Ho')).
Qed.

Lemma presences_run r b o to :
  re_rawxml env = false → r_heap r !! b = Some o → getNode (b_jid o) ≠ ""%string →
  let l := map (setPresenceTo to) (replace_from (current_presence env o) (b_presences o)) in
  send_presences_to env b to r =
  Done tt (with_out (λ out, out ++ map SendPresence l) (with_heap <[b := set_presences l o]> r)).
Proof.
  intros Hraw Ho Hnode l. unfold send_presences_to.
  rewrite (bind_done _ _ _ _ _ (stanzas_run _ _ _ Hraw Ho Hnode)).
  set (l0 := replace_from _ _). set (r1 := with_heap _ _).
  assert (Ho1 : r_heap r1 !! b = Some (set_presences l0 o)) by apply lookup_insert_eq.
  rewrite (bind_done _ _ _ _ _ (buddy_stored _ _ _ _ Ho1)).
  rewrite (emits (λ p, SendPresence (setPresenceTo to p))). f_equal.
  unfold with_heap, with_out, r1. simpl. rewrite insert_insert_eq. unfold l. by rewrite map_map.
Qed.

Lemma replaced_own p (l : list (Presence J)) :
  NoDup (pr_from <$> l) → filter (λ q, pr_from q = pr_from p) (replace_from p l) = [p].
Proof.
  induction l as [|q l IH]; simpl; [by rewrite filter_cons, decide_True|].
  intros [Hq Hl]%NoDup_cons. case_decide as Hpq; rewrite filter_cons.
  - rewrite decide_True by done. f_equal. clear IH Hl. rewrite Hpq in Hq.
    induction l as [|q' l IH]; [done|]. rewrite filter_cons, decide_False by (intros E; set_solver).
    apply IH. set_solver.
  - rewrite decide_False by done. by apply IH.
Qed.

Lemma replaced_others p (l : list (Presence J)) :
  filter (λ q, pr_from q ≠ pr_from p) (replace_from p l) = filter (λ q, pr_from q ≠ pr_from p) l.
Proof.
  induction l as [|q l IH]; simpl.
  - rewrite filter_cons, decide_False by auto. done.
  - case_decide as Hpq; rewrite !filter_cons.
    + rewrite decide_False by auto. by rewrite decide_False by auto.
    + rewrite decide_True by done. by rewrite decide_True, IH by done.
Qed.

Lemma filter_to_eq (a to : J) (l : list (Presence J)) :
  filter (λ q, pr_from q = a) (map (setPresenceTo to) l) = map (setPresenceTo to) (filter (λ q, pr_from q = a) l).
Proof. induction l as [|q l IH]; [done|]. simpl. rewrite !filter_cons. simpl. case_decide; simpl; by rewrite IH. Qed.

Lemma filter_to_ne (a to : J) (l : list (Presence J)) :
  filter (λ q, pr_from q ≠ a) (map (setPresenceTo to) l) = map (setPresenceTo to) (filter (λ q, pr_from q ≠ a) l).
Proof. induction l as [|q l IH]; [done|]. simpl. rewrite !filter_cons. simpl. case_decide; simpl; by rewrite IH. Qed.

(** who asks for the presence of a contact gets one presence from the
    contact's own address, with its current status and no older one, and the
    last one of each of its other addresses, all addressed to the asker. *)
Theorem probe_answered r (from to : J) b o :
  rinv env r → re_rawxml env = false →
  sfind (to_lower env (Names.JIDToLegacyName from)) (m_buddies r) = Some (Some b) →
  r_heap r !! b = Some o → getNode (b_jid o) ≠ ""%string →
  ∃ r' sent, react env (CurrentPresence from to) r = Done tt r' ∧
    r_out r' = r_out r ++ map SendPresence sent ∧
    filter (λ p, pr_from p = b_jid o) sent = [setPresenceTo to (current_presence env o)] ∧
    filter (λ p, pr_from p ≠ b_jid o) sent =
      map (setPresenceTo to) (filter (λ p, pr_from p ≠ b_jid o) (b_presences o)).
Proof.
  intros Hr Hraw Hb Ho Hnode.
  assert (Hfrom : pr_from (current_presence env o) = b_jid o).
  { unfold current_presence. by repeat case_match. }
  eexists _, (map (setPresenceTo to) (replace_from (current_presence env o) (b_presences o))).
  split.
  { simpl. unfold sendCurrentPresence, JIDToBuddy.
    rewrite (bind_done _ _ _ _ _ (known_buddy _ _ _ Hb)). by apply presences_run. }
  split; [reflexivity|]. rewrite filter_to_eq, filter_to_ne.
  rewrite <- Hfrom, replaced_others, replaced_own; [done|]. by eapply inv_presences.
Qed.
End runs.

(** ** Subscriptions *)

Section subscription.
Context {J St : Type} `{Jid J} `{BuddyStorage St} `{Protobuf} (env : RosterEnv J).
Implicit Types r : Roster J St.

(** The contact a subscription to an unknown name makes. *)
Definition subscribed_buddy (to : J) : Buddy J :=
  set_subscription Both (local_buddy env (-1) (Names.JIDToLegacyName to) "" []
    (if buddyFlagsFromJID to then BUDDY_JID_ESCAPING else BUDDY_NO_FLAG)).

Lemma created_run r name (to : J) :
  Names.JIDToLegacyName to = name → local_isValid (subscribed_buddy to) = true →
  createBuddy env (temporary_info name to) r =
  Done (Some (r_next r)) (with_next (S (r_next r)) (with_heap <[r_next r := subscribed_buddy to]> r)).
Proof.
  intros <- Hvalid. unfold createBuddy. cbn [temporary_info bi_id bi_legacyName bi_alias bi_groups bi_flags
    bi_icon_hash bi_subscription].
  set (lb := local_buddy env (-1) (Names.JIDToLegacyName to) "" []
    (if buddyFlagsFromJID to then BUDDY_JID_ESCAPING else BUDDY_NO_FLAG)).
  set (r1 := with_next (S (r_next r)) (with_heap <[r_next r := lb]> r)).
  assert (E1 : newLocalBuddy env (-1) (Names.JIDToLegacyName to) "" []
    (if buddyFlagsFromJID to then BUDDY_JID_ESCAPING else BUDDY_NO_FLAG) r = Done (r_next r) r1) by done.
  assert (Ho1 : r_heap r1 !! r_next r = Some lb) by apply lookup_insert_eq.
  rewrite (bind_done _ _ _ _ _ E1), (bind_done _ _ _ _ _ (buddy_loaded _ _ _ Ho1)).
  replace (local_isValid lb) with true by (symmetry; exact Hvalid). change (negb true) with false. cbv beta iota.
  rewrite (bind_done _ _ _ _ _ (buddy_stored _ _ _ _ Ho1)). change (String.eqb "both" "both") with true. cbv beta iota.
  rewrite bind_run, ret_run. unfold with_heap, r1, with_next. simpl. by rewrite insert_insert_eq.
Qed.

(** The storage's queue takes a contact with a name. *)
Lemma queued_run r b o :
  r_heap r !! b = Some o → b_name o ≠ ""%string →
  storeBuddy b r = Done tt
    match m_rosterStorage r with
    | None => r
    | Some _ => with_out (λ l, l ++ [StartStorageTimer]) (with_queue (sinsert (b_name o) b) r)
    end.
Proof.
  intros Ho Hname. unfold storeBuddy. rewrite bind_run. cbn beta iota delta [get].
  destruct (m_rosterStorage r); [|done]. rewrite (bind_done _ _ _ _ _ (buddy_loaded _ _ _ Ho)).
  apply String.eqb_neq in Hname. by rewrite Hname.
Qed.

(** In gateway mode adding a full contact tells nobody on the XMPP side. *)
Lemma set_both_run r b o :
  re_serverMode env = false → r_heap r !! b = Some o → b_subscription o = Both → b_name o ≠ ""%string →
  ∃ r' timers, setBuddy env (Some b) r = Done tt r' ∧ r_heap r' = r_heap r ∧
    m_buddies r' = sinsert (to_lower env (b_name o)) (Some b) (m_buddies r) ∧
    m_rosterStorage r' = sinsert (b_name o) b <$> m_rosterStorage r ∧
    r_out r' = r_out r ++ BuddySet b :: timers ∧ r_data r' = r_data r ∧ r_slots r' = r_slots r.
Proof.
  intros Hmode Ho Hsub Hname. unfold setBuddy. rewrite bind_run. cbn [this]. rewrite ret_run.
  rewrite (bind_done _ _ _ _ _ (buddy_loaded _ _ _ Ho)), bind_run. unfold modify at 1. cbv beta iota.
  rewrite bind_run. unfold emit at 1, modify at 1. cbv beta iota.
  set (r1 := with_out _ _). assert (Ho1 : r_heap r1 !! b = Some o) by done.
  unfold doAddBuddy. rewrite Hmode, bind_run, (bind_done _ _ _ _ _ (buddy_loaded _ _ _ Ho1)), bind_run.
  cbn beta iota delta [get]. rewrite bool_decide_true by done. rewrite ret_run.
  rewrite (queued_run _ _ _ Ho1 Hname).
  change (m_rosterStorage r1) with (m_rosterStorage r).
  destruct (m_rosterStorage r) as [q|] eqn:Eq.
  - eexists _, [StartStorageTimer]. split; [reflexivity|]. unfold with_queue, r1. simpl. rewrite Eq.
    by rewrite <- app_assoc.
  - eexists _, []. split; [reflexivity|]. simpl. by rewrite Eq.
Qed.

(** What the backend is told, once per connected slot. *)
Definition added_notices r (o : Buddy J) : list (roster_event J) :=
  match r_data r with
  | Some c => replicate (r_slots r)
      (ToBackend c (buddy_message (toString (user_bare env)) (contact_of o) TYPE_BUDDY_CHANGED None))
  | None => []
  end.

Lemma added_run r b o :
  r_heap r !! b = Some o →
  onBuddyAdded env (Some b) r = Done tt (with_out (λ l, l ++ added_notices r o) r).
Proof.
  intros Ho. unfold onBuddyAdded. rewrite bind_run. cbn beta iota delta [get]. unfold added_notices.
  assert (Hone : ∀ r, r_heap r !! b = Some o →
    (b ← this (Some b); o ← load b; handleUserBuddyAdded (H := roster_link env) 0 (toString (user_bare env)) (contact_of o)) r =
    Done tt match r_data r with
            | Some c => with_out (λ l, l ++ [ToBackend c (buddy_message (toString (user_bare env)) (contact_of o) TYPE_BUDDY_CHANGED None)]) r
            | None => r
            end).
  { clear r Ho. intros r Ho. change (this (Some b)) with (mret b : prog (Roster J St) nat).
    rewrite bind_run, ret_run, (bind_done _ _ _ _ _ (buddy_loaded _ _ _ Ho)).
    unfold handleUserBuddyAdded, send_to_backend. rewrite bind_run. cbn [link_getData roster_link].
    rewrite bind_run. cbn beta iota delta [get]. rewrite ret_run. by destruct (r_data r). }
  revert r Ho. assert (∀ n r, r_heap r !! b = Some o → 
    for_each (replicate n tt) (λ _, b ← this (Some b); o ← load b;
      handleUserBuddyAdded (H := roster_link env) 0 (toString (user_bare env)) (contact_of o)) r =
    Done tt (with_out (λ l, l ++ match r_data r with
      | Some c => replicate n (ToBackend c (buddy_message (toString (user_bare env)) (contact_of o) TYPE_BUDDY_CHANGED None))
      | None => []
      end) r)) as Hn; [|intros r Ho; by apply Hn].
  induction n as [|n IH]; intros r Ho; simpl.
  - unfold with_out. destruct r as [? ? ? ? ? ? ? ? [c|] ? ? ? ? ? ?]; simpl; by rewrite app_nil_r.
  - rewrite bind_run, Hone by done. destruct (r_data r) as [c|] eqn:Ed.
    + rewrite IH by done. unfold with_out. simpl. rewrite Ed. by rewrite <- app_assoc.
    + rewrite IH by done. by rewrite Ed.
Qed.

(** in gateway mode a subscription request to somebody who is not in the roster,
    with an address that can be made, puts them into it as a full contact under
    their legacy name in lower case, queues them for the database, tells the
    backend, and answers with subscribed and then with the contact's own request;
    nothing else of the map changes. *)
Theorem subscription_adds_contact r (p : Presence J) :
  re_serverMode env = false → re_rawxml env = false → pr_type p = Subscribe →
  default None (sfind (to_lower env (Names.JIDToLegacyName (pr_to p))) (m_buddies r)) = None →
  Names.JIDToLegacyName (pr_to p) ≠ ""%string →
  local_isValid (subscribed_buddy (pr_to p)) = true → getNode (b_jid (subscribed_buddy (pr_to p))) ≠ ""%string →
  let name := Names.JIDToLegacyName (pr_to p) in
  let response := setPresenceFrom (toBare (pr_to p)) (setPresenceTo (toBare (pr_from p)) empty_presence) in
  ∃ r' b o mid, react env (Subscription_ p) r = Done tt r' ∧
    r_heap r' !! b = Some o ∧ b_name o = name ∧ b_subscription o = Both ∧
    m_buddies r' = sinsert (to_lower env name) (Some b) (m_buddies r) ∧
    m_rosterStorage r' = sinsert name b <$> m_rosterStorage r ∧
    r_out r' = r_out r ++ mid ++ [SendPresence (setPresenceType Subscribed response);
                                  SendPresence (setPresenceType Subscribe response)] ∧
    added_notices r o ⊆ mid.
Proof.
  intros Hmode Hraw Htype Hunknown Hname Hvalid Hnode name response.
  destruct (unknown_entry env _ _ Hunknown) as (r1 & E1 & Hentry & Er1 & Hagain).
  pose proof (known_buddy env r1 _ _ Hentry) as E2.
  set (b := r_next r1). set (o := subscribed_buddy (pr_to p)).
  set (r2 := with_next (S b) (with_heap <[b := o]> r1)).
  assert (Ho2 : r_heap r2 !! b = Some o) by apply lookup_insert_eq.
  destruct (set_both_run r2 b o Hmode Ho2 eq_refl Hname) as (r3 & timers & E3 & Hh3 & Hm3 & Hq3 & Hout3 & Hd3 & Hs3).
  assert (Ho3 : r_heap r3 !! b = Some o) by by rewrite Hh3.
  set (r4 := with_out (λ l, l ++ added_notices r3 o) r3).
  set (l := map (setPresenceTo (pr_from p)) (replace_from (current_presence env o) (b_presences o))).
  set (r5 := with_out (λ out, out ++ map SendPresence l) (with_heap <[b := set_presences l o]> r4)).
  assert (E5 : send_presences_to env b (pr_from p) r4 = Done tt r5)
    by exact (presences_run env r4 b o (pr_from p) Hraw Ho3 Hnode).
  set (r6 := with_out (λ out, out ++ [SendPresence (setPresenceType Subscribe response)])
    (with_out (λ out, out ++ [SendPresence (setPresenceType Subscribed response)]) r5)).
  exists r6, b, (set_presences l o),
    (BuddySet b :: timers ++ added_notices r3 o ++ map SendPresence l).
  split.
  { simpl. unfold handleSubscription, JIDToLegacyName.
    rewrite bind_run, (bind_done _ _ _ _ _ E1). rewrite ret_run.
    apply String.eqb_neq in Hname. rewrite Hname. cbv beta iota.
    rewrite (bind_done _ _ _ _ _ E2). rewrite bool_decide_false by (by intros [? [=]]). simpl negb. cbv beta iota.
    rewrite (bind_done _ _ _ _ _ (created_run r1 _ (pr_to p) eq_refl Hvalid)). fold b o r2.
    rewrite Hmode, Htype. unfold subscription_gateway.
    rewrite bind_run, bind_run, E3, bind_run, (added_run _ _ _ Ho3). fold r4.
    rewrite bind_run. change (this (Some b)) with (mret b : prog (Roster J St) nat). rewrite ret_run.
    rewrite bind_run, E5, ret_run. cbv beta iota.
    rewrite bind_run. unfold answer_subscription. by rewrite Hmode. }
  assert (Hn : added_notices r3 o = added_notices r o).
  { unfold added_notices. rewrite Hd3, Hs3. simpl. by rewrite Er1. }
  split_and!; try done.
  - apply lookup_insert_eq.
  - simpl. rewrite Hm3. apply Hagain.
  - simpl. rewrite Hq3. simpl. by rewrite Er1.
  - simpl. rewrite Hout3. simpl. replace (r_out r1) with (r_out r) by (by rewrite Er1).
    rewrite <- ?app_assoc. simpl. rewrite <- ?app_assoc. by rewrite Hn.
  - rewrite Hn. set_solver.
Qed.
End subscription.

(** ** The end of a roster *)

Section destruction.
Context {J St : Type} `{Jid J} `{BuddyStorage St} `{Protobuf} (env : RosterEnv J).
Implicit Types r : Roster J St.

(** The map names every contact once. *)
Lemma pointers_NoDup r : rinv env r → NoDup (map_pointers (m_buddies r)).
Proof.
  intros Hr. assert (Hk : ∀ k k' b, (k, Some b) ∈ m_buddies r → (k', Some b) ∈ m_buddies r → k = k').
  { intros k k' b H1' H2'. destruct (inv_map _ _ Hr _ _ H1') as (o & Ho & ->).
    destruct (inv_map _ _ Hr _ _ H2') as (o' & Ho' & ->). congruence. }
  pose proof (inv_sorted _ _ Hr) as Hs. revert Hk Hs. generalize (m_buddies r). clear r Hr. intros m Hk.
  induction 1 as [|[k [b|]] m Hm IH Hall]; [by apply NoDup_nil| |].
  - change (NoDup (b :: map_pointers m)). apply NoDup_cons. split.
    + intros ([k' p] & Hin & Hp)%list_elem_of_omap. simpl in Hp. subst p.
      pose proof (Hk k k' b ltac:(set_solver) ltac:(set_solver)) as <-.
      eapply Forall_forall in Hall; [|exact Hin]. unfold entry_lt in Hall. cbn [fst] in Hall.
      by rewrite key_lt_irrefl in Hall.
    + apply IH. intros k1 k2 b' H1' H2'. apply (Hk k1 k2 b'); set_solver.
  - apply IH. intros k1 k2 b' H1' H2'. apply (Hk k1 k2 b'); set_solver.
Qed.

Lemma deletes (m : smap string (option nat)) r :
  NoDup (map_pointers m) → Forall (alive r) (map_pointers m) →
  ∃ h, for_each m (λ kv, match kv.2 with Some b => delete_buddy b | None => mret tt end) r =
    Done tt (with_heap (λ _, h) r) ∧
    (∀ b, b ∈ map_pointers m → h !! b = None) ∧ (∀ b, b ∉ map_pointers m → h !! b = r_heap r !! b).
Proof.
  revert r. induction m as [|[k [b|]] m IH]; intros r Hn Ha; simpl.
  - exists (r_heap r). split; [by destruct r|]. split; [by intros b ?%not_elem_of_nil|done].
  - change (NoDup (b :: map_pointers m)) in Hn. change (Forall (alive r) (b :: map_pointers m)) in Ha.
    apply NoDup_cons in Hn as [Hb Hn]. apply Forall_cons in Ha as [[o Ho] Ha].
    set (r1 := with_heap (delete b) r).
    assert (E1 : delete_buddy b r = Done tt r1).
    { unfold delete_buddy. by rewrite (bind_done _ _ _ _ _ (buddy_loaded _ _ _ Ho)). }
    destruct (IH r1) as (h & E2 & Hgone & Hkept); [done| |].
    { apply Forall_forall. intros b' Hb'. rewrite Forall_forall in Ha. destruct (Ha b' Hb') as [o' Ho'].
      exists o'. simpl. rewrite lookup_delete_ne; [done|]. by intros ->. }
    exists h. rewrite (bind_done _ _ _ _ _ E1), E2. split; [done|].
    change (map_pointers ((k, Some b) :: m)) with (b :: map_pointers m). split.
    + intros b' [->|Hb']%elem_of_cons; [|by apply Hgone]. rewrite Hkept by done. simpl.
      apply lookup_delete_eq.
    + intros b' Hb'. rewrite Hkept by set_solver. simpl. rewrite lookup_delete_ne; [done|]. set_solver.
  - destruct (IH r Hn Ha) as (h & E & Hh). by exists h.
Qed.

(** the end of a roster uses nothing that is gone: the queue is stored, the
    user is told that the contacts are unavailable, and every contact of the map
    is deleted exactly once. *)
Theorem roster_destroyed r :
  rinv env r →
  ∃ r', destroyRosterManager env r = Done tt r' ∧
    ∀ k b, (k, Some b) ∈ m_buddies r' → r_heap r' !! b = None.
Proof.
  intros Hr.
  apply I_rinv in Hr. unfold destroyRosterManager.
  assert (Hemit : ∀ e, spec no_fault (I (St := St) env []) (emit e) (λ _, I env [])) by (intros e; apply calm_emit, stable_I).
  pose (goal := λ (_ : unit) (r' : Roster J St), ∀ k b, (k, Some b) ∈ m_buddies r' → r_heap r' !! b = None).
  cut (spec no_fault (I env []) (destroyRosterManager env) goal).
  { intros Hs. specialize (Hs r Hr). unfold destroyRosterManager in Hs.
    match goal with |- ∃ _, ?m = _ ∧ _ => destruct m as [[] r'|f] end; [by exists r'|done]. }
  clear r Hr. unfold destroyRosterManager.
  eapply spec_bind; [apply Hemit|]. intros ?. eapply spec_bind; [by apply (spec_get _ _ (λ _, I env []))|]. intros r0.
  eapply spec_bind; [apply spec_when, Hemit|]. intros ?.
  eapply spec_bind; [apply spec_for_each; intros n _; apply Hemit|]. intros ?.
  eapply spec_bind; [apply calm_modify; [apply stable_I|intros r1; by apply same_intro]|]. intros ?.
  eapply spec_bind; [apply I_storeBuddies|]. intros ?.
  eapply spec_bind; [apply sendUnavailablePresences_ok|]. intros ?.
  apply (spec_bind no_fault _ _ goal).
  - intros r Hr. apply I_pointers in Hr as Hp. unfold for_buddies. rewrite bind_run. cbn beta iota delta [get].
    rewrite app_nil_r in Hp. destruct Hp as [_ Ha]. apply I_rinv in Hr.
    destruct (deletes (m_buddies r) r (pointers_NoDup r Hr) Ha) as (h & -> & Hgone & _).
    intros k b Hin. apply Hgone. by eapply map_pointers_elem.
  - intros []. eapply spec_bind; [by apply (spec_get _ _ (λ _, goal tt))|]. intros r1.
    apply spec_when. intros r2 Hg. exact Hg.
Qed.
End destruction.

(** ** Examples *)

Lemma roster_safety_witness :
  reachable sample_env (empty_roster (∅ : ref_rows)) ∧
  match react sample_env (BackendChanged (pbnetwork.Buddy.set_userName "me@example.com" (pbnetwork.Buddy.set_buddyName "bob" pbnetwork.Buddy.empty))) (empty_roster (∅ : ref_rows)) with
  | Done _ r' => reachable sample_env r'
  | Fault _ => False
  end.
Proof.
  assert (Hr : reachable sample_env (empty_roster (∅ : ref_rows))) by (by exists ∅, []).
  split; [done|]. destruct (roster_safety sample_env _ Hr) as (_ & _ & _ & _ & He).
  specialize (He (BackendChanged (pbnetwork.Buddy.set_userName "me@example.com" (pbnetwork.Buddy.set_buddyName "bob" pbnetwork.Buddy.empty)))).
  destruct (react _ _ _); [done|]. destruct He as [_ (g & Hg%not_elem_of_nil & _)]. exact Hg.
Defined.

Lemma remote_roster_stops_witness :
  ∃ r', react sample_env (CurrentPresence (mkRefJid "nobody" "icq.example.com" "") (mkRefJid "me" "example.com" ""))
          sample_roster = Done tt r' ∧
    react sample_env (RemoteRoster [] false) r' = Fault NullDereference.
Proof. apply remote_roster_stops; [apply sample_rinv|reflexivity|reflexivity]. Defined.

Lemma probe_answered_witness :
  ∃ r' sent, react sample_env (CurrentPresence (mkRefJid "bob" "icq.example.com" "") (mkRefJid "me" "example.com" "home"))
      sample_roster = Done tt r' ∧
    r_out r' = map SendPresence sent ∧
    filter (λ p, pr_from p = mkRefJid "bob" "icq.example.com" "bot") sent =
      [setPresenceTo (mkRefJid "me" "example.com" "home") (current_presence sample_env sample_buddy)].
Proof.
  destruct (probe_answered sample_env sample_roster (mkRefJid "bob" "icq.example.com" "")
    (mkRefJid "me" "example.com" "home") 0 sample_buddy sample_rinv) as (r' & sent & E & Hout & Hown & _);
    [reflexivity..|done|].
  by exists r', sent.
Defined.

Lemma subscription_adds_contact_witness :
  ∃ r' b, react sample_env (Subscription_ (setPresenceType Subscribe (setPresenceTo (mkRefJid "eve" "icq.example.com" "")
      (setPresenceFrom (mkRefJid "me" "example.com" "home") empty_presence)))) sample_roster = Done tt r' ∧
    m_buddies r' = [("bob"%string, Some 0); ("eve"%string, Some b)].
Proof.
  destruct (subscription_adds_contact sample_env sample_roster
    (setPresenceType Subscribe (setPresenceTo (mkRefJid "eve" "icq.example.com" "")
      (setPresenceFrom (mkRefJid "me" "example.com" "home") empty_presence))))
    as (r' & b & o & mid & E & _ & _ & _ & Hm & _); [reflexivity..|done|reflexivity|done|].
  exists r', b. split; [exact E|exact Hm].
Defined.

Lemma roster_destroyed_witness :
  ∃ r', destroyRosterManager sample_env sample_roster = Done tt r' ∧
    ∀ k b, (k, Some b) ∈ m_buddies r' → r_heap r' !! b = None.
Proof. apply roster_destroyed, sample_rinv. Defined.
