(* ===== verification/Login.v ===== *)
(** * Logins in server mode

    UserRegistry and the sessions of Swiften's server side that call it: a client
    opens a stream, authenticates, binds a resource and starts a session; the
    registry keeps, per bare JID, the session waiting for the legacy network's
    verdict. The signals to UserManager are events of the log, and its calls are
    inputs of their own. *)

From S2P Require Import Prelude StdMap Swiften.

(** ** Data *)

(** A ServerFromClientSession. *)
Definition sid := nat.

Record Session (J : Type) := mkSession {
  user_ : string;
  localJID : J;
  remoteJID : J;
  authenticated_ : bool;
  initialized : bool;
  allowSASLEXTERNAL : bool;
  (** whether there is a TLS layer to start, and whether it is up *)
  tlsLayer : bool;
  tlsConnected : bool;
  (** finishSession was called; the connection reported its end *)
  finishing : bool;
  closed : bool;
}.
Arguments mkSession {J}.
Arguments user_ {J}.
Arguments localJID {J}.
Arguments remoteJID {J}.
Arguments authenticated_ {J}.
Arguments initialized {J}.
Arguments allowSASLEXTERNAL {J}.
Arguments tlsLayer {J}.
Arguments tlsConnected {J}.
Arguments finishing {J}.
Arguments closed {J}.

(** The registry's Sess. *)
Record Sess := mkSess { sess_password : string; sess_session : sid }.

(** What a session writes, and the two signals of the registry. *)
Inductive login_event (J : Type) :=
  | AuthSuccess (s : sid)
  | AuthFailure (s : sid)
  | StreamError (s : sid) (text : string)
  | StreamHeader (s : sid) (from : J)
  | StreamFeatures (s : sid) (startTLS plain external bind session : bool)
  | TLSProceed (s : sid)
  | BindResult (s : sid) (jid : J)
  | SessionResult (s : sid)
  | SessionStarted (s : sid)
  | ElementReceived (s : sid)
  | ConnectUser (user : J)
  | DisconnectUser (user : J).
Arguments AuthSuccess {J}.
Arguments AuthFailure {J}.
Arguments StreamError {J}.
Arguments StreamHeader {J}.
Arguments StreamFeatures {J}.
Arguments TLSProceed {J}.
Arguments BindResult {J}.
Arguments SessionResult {J}.
Arguments SessionStarted {J}.
Arguments ElementReceived {J}.
Arguments ConnectUser {J}.
Arguments DisconnectUser {J}.

Record Registry (J : Type) := mkRegistry {
  users : gmap string Sess;
  m_inRemoveLater : bool;
  (** the handlers connected to m_removeTimer->onTick *)
  m_removeTimer : list J;
  sessions : gmap sid (Session J);
  login_log : list (login_event J);
}.
Arguments mkRegistry {J}.
Arguments users {J}.
Arguments m_inRemoveLater {J}.
Arguments m_removeTimer {J}.
Arguments sessions {J}.
Arguments login_log {J}.

(** The elements handleElement tells apart. *)
Inductive element :=
  | AuthRequest (mechanism user password : string)
  | StartTLSRequest
  | ResourceBind (uuid : string)
  | StartSession
  | OtherElement.

Record LoginConfig := mkLoginConfig { admin_jid : list string; admin_password : string }.

Section login.
Context {J : Type} `{Jid J} (cfg : LoginConfig).

Abbreviation login A := (prog (Registry J) A).

Definition bare_key (user : J) : string := toString (toBare user).

Definition with_registry_users f (r : Registry J) : Registry J :=
  mkRegistry (f (users r)) (m_inRemoveLater r) (m_removeTimer r) (sessions r) (login_log r).
Definition with_inRemoveLater b (r : Registry J) : Registry J :=
  mkRegistry (users r) b (m_removeTimer r) (sessions r) (login_log r).
Definition with_removeTimer f (r : Registry J) : Registry J :=
  mkRegistry (users r) (m_inRemoveLater r) (f (m_removeTimer r)) (sessions r) (login_log r).
Definition with_sessions f (r : Registry J) : Registry J :=
  mkRegistry (users r) (m_inRemoveLater r) (m_removeTimer r) (f (sessions r)) (login_log r).
Definition with_login_log f (r : Registry J) : Registry J :=
  mkRegistry (users r) (m_inRemoveLater r) (m_removeTimer r) (sessions r) (f (login_log r)).

Definition set_user x (o : Session J) := mkSession x (localJID o) (remoteJID o) (authenticated_ o) (initialized o) (allowSASLEXTERNAL o) (tlsLayer o) (tlsConnected o) (finishing o) (closed o).
Definition set_localJID x (o : Session J) := mkSession (user_ o) x (remoteJID o) (authenticated_ o) (initialized o) (allowSASLEXTERNAL o) (tlsLayer o) (tlsConnected o) (finishing o) (closed o).
Definition set_remoteJID x (o : Session J) := mkSession (user_ o) (localJID o) x (authenticated_ o) (initialized o) (allowSASLEXTERNAL o) (tlsLayer o) (tlsConnected o) (finishing o) (closed o).
Definition set_authenticated (o : Session J) := mkSession (user_ o) (localJID o) (remoteJID o) true (initialized o) (allowSASLEXTERNAL o) (tlsLayer o) (tlsConnected o) (finishing o) (closed o).
Definition set_initialized (o : Session J) := mkSession (user_ o) (localJID o) (remoteJID o) (authenticated_ o) true (allowSASLEXTERNAL o) (tlsLayer o) (tlsConnected o) (finishing o) (closed o).
Definition take_tlsLayer (o : Session J) := mkSession (user_ o) (localJID o) (remoteJID o) (authenticated_ o) (initialized o) (allowSASLEXTERNAL o) false (tlsConnected o) (finishing o) (closed o).
Definition set_tlsConnected (o : Session J) := mkSession (user_ o) (localJID o) (remoteJID o) (authenticated_ o) (initialized o) (allowSASLEXTERNAL o) (tlsLayer o) true (finishing o) (closed o).
Definition set_finishing (o : Session J) := mkSession (user_ o) (localJID o) (remoteJID o) (authenticated_ o) (initialized o) (allowSASLEXTERNAL o) (tlsLayer o) (tlsConnected o) true (closed o).
Definition set_closed (o : Session J) := mkSession (user_ o) (localJID o) (remoteJID o) (authenticated_ o) (initialized o) (allowSASLEXTERNAL o) (tlsLayer o) (tlsConnected o) (finishing o) true.

Definition signal (e : login_event J) : login unit := modify (with_login_log (λ l, l ++ [e])).
Definition load_session (s : sid) : login (Session J) := r ← get; deref (sessions r !! s).
Definition update_session (s : sid) (f : Session J → Session J) : login unit :=
  o ← load_session s; modify (with_sessions (<[s := f o]>)).

(** ** The sessions *)

(** Swift::Session: the footer is written and the connection closes later. *)
Definition finishSession (s : sid) : login unit := update_session s set_finishing.

Definition handlePasswordValid (s : sid) : login unit :=
  o ← load_session s;
  when (negb (initialized o)) (signal (AuthSuccess s) ;; update_session s set_authenticated).

Definition handlePasswordInvalid (s : sid) (error : string) : login unit :=
  o ← load_session s;
  when (negb (initialized o)) (
    signal (AuthFailure s) ;;
    when (negb (String.eqb error "")) (signal (StreamError s error)) ;;
    finishSession s).

(** ** The registry *)

Definition isValidUserPassword (user : J) (session : sid) (password : string) : login unit :=
  let key := bare_key user in
  if bool_decide (key ∈ admin_jid cfg) then
    (if String.eqb password (admin_password cfg) then handlePasswordValid session
     else handlePasswordInvalid session "")
  else
    r ← get;
    match users r !! key with
    | Some e =>
        modify (with_registry_users (<[key := mkSess (sess_password e) session]>)) ;;
        handlePasswordInvalid (sess_session e) ""
    | None => mret tt
    end ;;
    modify (with_registry_users (<[key := mkSess password session]>)) ;;
    signal (ConnectUser user).

Definition stopLogin (user : J) (session : sid) : login unit :=
  let key := bare_key user in
  r ← get;
  match users r !! key with
  | Some e =>
      when (bool_decide (sess_session e = session)) (modify (with_registry_users (delete key)))
  | None => mret tt
  end ;;
  r ← get;
  when (negb (m_inRemoveLater r)) (signal (DisconnectUser user)).

Definition onPasswordValid (user : J) : login unit :=
  let key := bare_key user in
  r ← get;
  match users r !! key with
  | Some e =>
      handlePasswordValid (sess_session e) ;;
      modify (with_registry_users (delete key))
  | None => mret tt
  end.

Definition onPasswordInvalid (user : J) (error : string) : login unit :=
  let key := bare_key user in
  r ← get;
  match users r !! key with
  | Some e =>
      handlePasswordInvalid (sess_session e) error ;;
      modify (with_registry_users (delete key))
  | None => mret tt
  end.

Definition handleRemoveTimeout (user : J) : login unit :=
  modify (with_inRemoveLater true) ;;
  onPasswordInvalid user "" ;;
  modify (with_inRemoveLater false).

Definition removeLater (user : J) : login unit :=
  modify (with_removeTimer (λ l, l ++ [user])).

Definition getUserPassword (barejid : string) (r : Registry J) : string :=
  match users r !! barejid with Some e => sess_password e | None => "" end.

(** ** What a session reads *)

(** JID(user, getLocalJID().getDomain()) *)
Definition login_jid (user : string) (o : Session J) : J := make_jid user (getDomain (localJID o)) "".

Definition handleElement (s : sid) (e : element) : login unit :=
  o ← load_session s;
  if initialized o then signal (ElementReceived s) else
  match e with
  | AuthRequest mechanism user password =>
      if (String.eqb mechanism "PLAIN" || (allowSASLEXTERNAL o && String.eqb mechanism "EXTERNAL"))%bool then
        (if String.eqb mechanism "EXTERNAL" then
           signal (AuthSuccess s) ;; update_session s set_authenticated
         else
           update_session s (set_user user) ;;
           isValidUserPassword (login_jid user o) s password)
      else signal (AuthFailure s) ;; finishSession s
  | StartTLSRequest =>
      signal (TLSProceed s) ;;
      (if tlsLayer o then update_session s take_tlsLayer else raise NullDereference)
  | ResourceBind uuid =>
      let jid := make_jid (user_ o) (getDomain (localJID o)) uuid in
      update_session s (set_remoteJID jid) ;; signal (BindResult s jid)
  | StartSession =>
      signal (SessionResult s) ;; update_session s set_initialized ;; signal (SessionStarted s)
  | OtherElement => mret tt
  end.

Definition handleStreamStart (s : sid) (to : J) : login unit :=
  update_session s (set_localJID to) ;;
  signal (StreamHeader s to) ;;
  o ← load_session s;
  if negb (authenticated_ o) then
    signal (StreamFeatures s (tlsLayer o && negb (tlsConnected o)) true (allowSASLEXTERNAL o) false false)
  else signal (StreamFeatures s false false false true true).

Definition handleSessionFinished (s : sid) : login unit :=
  o ← load_session s;
  update_session s set_closed ;;
  stopLogin (login_jid (user_ o) o) s.

Definition newSession (external tls : bool) : Session J :=
  mkSession "" no_jid no_jid false false external tls false false false.

(** ** Inputs *)

Inductive login_input :=
  | NewClient (s : sid) (external tls : bool)
  | StreamStart (s : sid) (to : J)
  | Element (s : sid) (e : element)
  | TLSConnected (s : sid)
  (** the connection ended: handleSessionFinished, then the server drops the session *)
  | Finished (s : sid)
  | Freed (s : sid)
  (** libtransport's calls *)
  | PasswordValid (user : J)
  | PasswordInvalid (user : J) (error : string)
  | RemoveLater (user : J)
  | RemoveTick.

Definition react (i : login_input) : login unit :=
  match i with
  | NewClient s external tls => modify (with_sessions (<[s := newSession external tls]>))
  | StreamStart s to => handleStreamStart s to
  | Element s e => handleElement s e
  | TLSConnected s => update_session s set_tlsConnected
  | Finished s => handleSessionFinished s
  | Freed s => modify (with_sessions (delete s))
  | PasswordValid user => onPasswordValid user
  | PasswordInvalid user error => onPasswordInvalid user error
  | RemoveLater user => removeLater user
  | RemoveTick => r ← get; for_each (m_removeTimer r) handleRemoveTimeout
  end.

Definition open_session (s : sid) (r : Registry J) : Prop :=
  ∃ o, sessions r !! s = Some o ∧ closed o = false.

(** What can happen next: a client speaks on an open connection, which ends once,
    and a session is dropped after that. *)
Definition enabled (i : login_input) (r : Registry J) : Prop :=
  match i with
  | NewClient s _ _ => sessions r !! s = None
  | StreamStart s _ | Element s _ | TLSConnected s | Finished s => open_session s r
  | Freed s => ∃ o, sessions r !! s = Some o ∧ closed o = true
  | _ => True
  end.

Definition initial : Registry J := mkRegistry ∅ false [] ∅ [].

(** A sequence of events, each of which can happen when its turn comes. *)
Inductive trace : Registry J → list login_input → Registry J → Prop :=
  | trace_nil r : trace r [] r
  | trace_cons i inputs r r' r'' :
      enabled i r → react i r = Done tt r' → trace r' inputs r'' → trace r (i :: inputs) r''.
End login.
