(* ===== verification/LoginTheorems.v ===== *)
(** * Theorems on logins in server mode

    The registry never points at a session that is gone as long as a client
    authenticates under one name (and what happens otherwise); who can become
    authenticated; a session can start without it; a delayed removal repeats. *)

From S2P Require Import Prelude StdMap Swiften Login.

Section theorems.
Context {J : Type} `{Jid J} (cfg : LoginConfig).

Abbreviation react := (react cfg).
Abbreviation trace := (trace cfg).

(** ** The runs of the operations *)

(** What the operations on a password leave alone in a session. *)
Definition same_login (o o' : Session J) : Prop :=
  user_ o' = user_ o ∧ localJID o' = localJID o ∧ closed o' = closed o.

Lemma update_session_run s f (r : Registry J) o :
  sessions r !! s = Some o → update_session s f r = Done tt (with_sessions (<[s := f o]>) r).
Proof. intros Hs. unfold update_session, load_session. rewrite !bind_run. simpl. by rewrite Hs. Qed.

Definition accepted (o : Session J) : Session J := if initialized o then o else set_authenticated o.
Definition refused (o : Session J) : Session J := if initialized o then o else set_finishing o.

Lemma accepted_same o : same_login o (accepted o).
Proof. unfold accepted. by destruct (initialized o) eqn:E. Qed.

Lemma refused_same o : same_login o (refused o).
Proof. unfold refused. by destruct (initialized o) eqn:E. Qed.

Lemma handlePasswordValid_run s (r : Registry J) o :
  sessions r !! s = Some o →
  ∃ l, handlePasswordValid s r
       = Done tt (mkRegistry (users r) (m_inRemoveLater r) (m_removeTimer r)
                    (<[s := accepted o]> (sessions r)) l).
Proof.
  intros Hs. unfold handlePasswordValid, load_session, accepted. rewrite !bind_run. simpl. rewrite Hs. simpl.
  destruct (initialized o); simpl; [rewrite insert_id by done; destruct r; by eexists|].
  unfold signal. rewrite bind_run. simpl. rewrite (update_session_run _ _ _ o) by done. by eexists.
Qed.

Lemma handlePasswordInvalid_run s error (r : Registry J) o :
  sessions r !! s = Some o →
  ∃ l, handlePasswordInvalid s error r
       = Done tt (mkRegistry (users r) (m_inRemoveLater r) (m_removeTimer r)
                    (<[s := refused o]> (sessions r)) l).
Proof.
  intros Hs. unfold handlePasswordInvalid, load_session, refused, finishSession.
  rewrite !bind_run. simpl. rewrite Hs. simpl.
  destruct (initialized o); simpl; [rewrite insert_id by done; destruct r; by eexists|].
  unfold signal. rewrite !bind_run. simpl. rewrite bind_run.
  destruct (String.eqb error ""); simpl; rewrite (update_session_run _ _ _ o) by done; by eexists.
Qed.

Lemma onPasswordInvalid_run user error (r : Registry J) e o :
  users r !! bare_key user = Some e → sessions r !! sess_session e = Some o →
  ∃ l, onPasswordInvalid user error r
       = Done tt (mkRegistry (delete (bare_key user) (users r)) (m_inRemoveLater r) (m_removeTimer r)
                    (<[sess_session e := refused o]> (sessions r)) l).
Proof.
  intros Hu Hs. unfold onPasswordInvalid. rewrite bind_run. simpl. rewrite Hu, bind_run.
  destruct (handlePasswordInvalid_run _ error r o Hs) as [l ->]. by eexists.
Qed.

(** ** The pointers of the registry *)

(** Every entry is the login of its session, whose connection is open. *)
Definition entries_ok (U : gmap string Sess) (S : gmap sid (Session J)) : Prop :=
  ∀ key e, U !! key = Some e →
  ∃ o, S !! sess_session e = Some o ∧ closed o = false ∧ bare_key (login_jid (user_ o) o) = key.

Definition registry_ok (r : Registry J) : Prop := entries_ok (users r) (sessions r).

Definition pending (r : Registry J) (s : sid) (key : string) : Prop :=
  ∃ e, users r !! key = Some e ∧ sess_session e = s.

(** A client that has a login pending asks for no other name, and only starts TLS
    when it was offered. *)
Definition harmless (i : login_input) (r : Registry J) : Prop :=
  match i with
  | Element s (AuthRequest _ user _) =>
      ∀ o key, sessions r !! s = Some o → pending r s key → key = bare_key (login_jid user o)
  | StreamStart s to =>
      ∀ o key, sessions r !! s = Some o → pending r s key →
      key = bare_key (make_jid (user_ o) (getDomain to) "")
  | Element s StartTLSRequest => ∀ o, sessions r !! s = Some o → tlsLayer o = true
  | _ => True
  end.

(** Replacing a session: its pending logins must still be its own. *)
Lemma entries_ok_session U S s o' :
  entries_ok U S →
  (∀ key e, U !! key = Some e → sess_session e = s →
     closed o' = false ∧ bare_key (login_jid (user_ o') o') = key) →
  entries_ok U (<[s := o']> S).
Proof.
  intros Hok Hs key e He. destruct (decide (sess_session e = s)) as [<-|Hne].
  - exists o'. split; [apply lookup_insert_eq|]. by eapply Hs.
  - rewrite lookup_insert_ne by done. by apply Hok.
Qed.

Lemma entries_ok_same U S s o o' :
  entries_ok U S → S !! s = Some o → same_login o o' → entries_ok U (<[s := o']> S).
Proof.
  intros Hok Hs (Hu & Hl & Hc). apply entries_ok_session; [done|].
  intros key e He <-. destruct (Hok _ _ He) as (o2 & Ho2 & Hc2 & Hk).
  rewrite Hs in Ho2. injection Ho2 as <-. unfold login_jid in *. by rewrite Hu, Hl, Hc.
Qed.

Lemma entries_ok_delete U S key : entries_ok U S → entries_ok (delete key U) S.
Proof. intros Hok k e [_ He]%lookup_delete_Some. by apply Hok. Qed.

Lemma entries_ok_insert U S e o :
  entries_ok U S → S !! sess_session e = Some o → closed o = false →
  entries_ok (<[bare_key (login_jid (user_ o) o) := e]> U) S.
Proof.
  intros Hok Hs Hc k e' [[<- <-]|[_ He]]%lookup_insert_Some; [by exists o|by apply Hok].
Qed.

(** The entries that name a session that is not there: none. *)
Lemma entries_ok_absent U S s key e :
  entries_ok U S → S !! s = None → U !! key = Some e → sess_session e ≠ s.
Proof. intros Hok Hs He <-. destruct (Hok _ _ He) as (? & ? & _). congruence. Qed.
(** ** No dangling session *)

Abbreviation safe m := (spec no_fault registry_ok m (λ _, registry_ok)).

Lemma signal_safe e : safe (signal e).
Proof. intros r Hr. exact Hr. Qed.

Lemma onPasswordValid_safe user : safe (onPasswordValid user).
Proof.
  intros r Hok. unfold onPasswordValid. rewrite bind_run. simpl.
  destruct (users r !! bare_key user) as [e|] eqn:He; [|done].
  destruct (Hok _ _ He) as (o & Ho & _).
  rewrite bind_run. destruct (handlePasswordValid_run _ r o Ho) as [l ->].
  apply entries_ok_delete. eapply entries_ok_same; eauto using accepted_same.
Qed.

Lemma onPasswordInvalid_safe user error : safe (onPasswordInvalid user error).
Proof.
  intros r Hok. destruct (users r !! bare_key user) as [e|] eqn:He.
  - destruct (Hok _ _ He) as (o & Ho & _).
    destruct (onPasswordInvalid_run user error r e o He Ho) as [l ->].
    apply entries_ok_delete. eapply entries_ok_same; eauto using refused_same.
  - unfold onPasswordInvalid. rewrite bind_run. simpl. by rewrite He.
Qed.

Lemma handleRemoveTimeout_safe user : safe (handleRemoveTimeout user).
Proof.
  apply spec_bind with (λ _, registry_ok); [intros r Hr; exact Hr|]. intros [].
  eapply spec_bind; [apply onPasswordInvalid_safe|]. intros [] r Hr. exact Hr.
Qed.

(** A session that authenticates under its own name. *)
Lemma isValidUserPassword_safe s o password (r : Registry J) :
  registry_ok r → sessions r !! s = Some o → closed o = false →
  ∃ r', isValidUserPassword cfg (login_jid (user_ o) o) s password r = Done tt r' ∧ registry_ok r'.
Proof.
  intros Hok Hs Hc. unfold isValidUserPassword. set (key := bare_key (login_jid (user_ o) o)).
  case_bool_decide.
  { destruct (String.eqb password (admin_password cfg)).
    - destruct (handlePasswordValid_run s r o Hs) as [l ->].
      eexists; split; [done|]. eapply entries_ok_same; eauto using accepted_same.
    - destruct (handlePasswordInvalid_run s "" r o Hs) as [l ->].
      eexists; split; [done|]. eapply entries_ok_same; eauto using refused_same. }
  rewrite bind_run. simpl. destruct (users r !! key) as [e|] eqn:He.
  - rewrite !bind_run. simpl. destruct (Hok _ _ He) as (o2 & Ho2 & _).
    destruct (handlePasswordInvalid_run (sess_session e) ""
                (with_registry_users (<[key := mkSess (sess_password e) s]>) r) o2 Ho2) as [l ->].
    rewrite bind_run. simpl. eexists; split; [done|].
    apply entries_ok_same with o2; [|done|apply refused_same]. simpl. rewrite insert_insert_eq.
    by apply (entries_ok_insert _ _ (mkSess password s) o).
  - eexists; split; [done|]. by apply (entries_ok_insert _ _ (mkSess password s) o).
Qed.

Lemma handleElement_safe s e (r : Registry J) :
  registry_ok r → open_session s r → harmless (Element s e) r →
  ∃ r', handleElement cfg s e r = Done tt r' ∧ registry_ok r'.
Proof.
  intros Hok (o & Hs & Hc) Hh. unfold handleElement, load_session.
  rewrite !bind_run. simpl. rewrite Hs. simpl. destruct (initialized o) eqn:Hi; [by eexists|].
  assert (Hupd : ∀ r2 f, users r2 = users r → sessions r2 = sessions r → same_login o (f o) →
    ∃ r', update_session s f r2 = Done tt r' ∧ registry_ok r').
  { intros r2 f Hu2 Hs2 Hf. rewrite (update_session_run _ _ _ o) by congruence. eexists; split; [done|].
    unfold registry_ok. simpl. rewrite Hu2, Hs2. by eapply entries_ok_same. }
  destruct e as [m u p| |uuid| |].
  - destruct (_ || _)%bool.
    + destruct (String.eqb m "EXTERNAL"); [by apply (Hupd (with_login_log _ r) set_authenticated)|].
      rewrite bind_run, (update_session_run _ _ _ o) by done.
      apply (isValidUserPassword_safe s (set_user u o) p); simpl; [|apply lookup_insert_eq|done].
      apply entries_ok_session; [done|]. intros key e He <-. split; [done|]. symmetry. apply (Hh o); [done|by exists e].
    + by apply (Hupd (with_login_log _ r) set_finishing).
  - rewrite (Hh o Hs). by apply (Hupd (with_login_log _ r) take_tlsLayer).
  - rewrite bind_run. destruct (Hupd r (set_remoteJID (make_jid (user_ o) (getDomain (localJID o)) uuid)))
      as (r' & -> & Hok'); [done..|]. by eexists.
  - rewrite bind_run. simpl. rewrite bind_run.
    destruct (Hupd (with_login_log (λ l, l ++ [SessionResult s]) r) set_initialized)
      as (r' & -> & Hok'); [done..|]. by eexists.
  - by eexists.
Qed.

Lemma stopLogin_run user s (r : Registry J) :
  ∃ r', stopLogin user s r = Done tt r' ∧ sessions r' = sessions r
        ∧ ∀ key e, users r' !! key = Some e →
            users r !! key = Some e ∧ (key = bare_key user → sess_session e ≠ s).
Proof.
  unfold stopLogin. rewrite bind_run. simpl. rewrite bind_run.
  destruct (users r !! bare_key user) as [e|] eqn:He.
  - case_bool_decide as Hs; simpl; rewrite ?bind_run; simpl;
      (destruct (m_inRemoveLater r); simpl; eexists; (split; [reflexivity|]); (split; [reflexivity|]); simpl; intros key e').
    1-2: intros [Hne Hk]%lookup_delete_Some; split; [exact Hk|congruence].
    all: intros Hk; (split; [exact Hk|]); intros ->; congruence.
  - simpl. rewrite bind_run. simpl. destruct (m_inRemoveLater r); simpl; eexists;
      (split; [reflexivity|]); (split; [reflexivity|]); intros key e' Hk; (split; [exact Hk|]);
      intros ->; simpl in *; congruence.
Qed.

Lemma handleSessionFinished_safe s (r : Registry J) :
  registry_ok r → open_session s r →
  ∃ r', handleSessionFinished s r = Done tt r' ∧ registry_ok r'.
Proof.
  intros Hok (o & Hs & Hc). unfold handleSessionFinished, load_session.
  rewrite !bind_run. simpl. rewrite Hs. simpl. rewrite bind_run, (update_session_run _ _ _ o) by done.
  edestruct stopLogin_run as (r' & -> & Hs' & Hu'). eexists; split; [done|]. intros key e He.
  destruct (Hu' _ _ He) as [He' Hk]. rewrite Hs'. simpl in *.
  destruct (Hok _ _ He') as (o2 & Ho2 & Hc2 & Hkey). exists o2. split; [|done].
  rewrite lookup_insert_ne; [done|]. intros Heq. apply Hk; [|done].
  rewrite <- Heq, Hs in Ho2. by injection Ho2 as <-.
Qed.

Lemma registry_ok_initial : registry_ok initial.
Proof. intros key e He. destruct (lookup_empty_Some (M:=gmap string) key e He). Qed.

(** C9: logins never use a session that is gone. As long as a client with a login
    pending asks for no other name and starts TLS only when there is a layer for
    it, every event runs to its end and leaves each entry of the registry with
    an open session whose own bare JID is the entry's key. *)
Theorem registry_sound :
  registry_ok initial
  ∧ ∀ (r : Registry J) i, registry_ok r → enabled i r → harmless i r →
    ∃ r', react i r = Done tt r' ∧ registry_ok r'.
Proof.
  split; [exact registry_ok_initial|]. intros r i Hok Hen Hh.
  assert (Hspec : ∀ m : prog (Registry J) unit, safe m → ∃ r', m r = Done tt r' ∧ registry_ok r').
  { intros m Hm. specialize (Hm r Hok). destruct (m r) as [[] r'|f]; [by exists r'|done]. }
  destruct i as [s x t|s to|s e|s|s|s|u|u er|u| ]; simpl.
  - eexists; split; [done|]. apply entries_ok_session; [done|]. intros key e He Hs.
    by destruct (entries_ok_absent _ _ _ _ _ Hok Hen He).
  - destruct Hen as (o & Hs & Hc). unfold handleStreamStart, load_session.
    rewrite bind_run, (update_session_run _ _ _ o) by done.
    rewrite !bind_run. simpl. rewrite !bind_run. simpl. rewrite lookup_insert_eq. simpl.
    assert (Hok' : entries_ok (users r) (<[s:=set_localJID to o]> (sessions r))).
    { apply entries_ok_session; [done|]. intros key e He <-. split; [done|]. symmetry. apply (Hh o); [done|by exists e]. }
    destruct (negb (authenticated_ o)); by eexists.
  - by apply handleElement_safe.
  - destruct Hen as (o & Hs & Hc). rewrite (update_session_run _ _ _ o) by done. eexists; split; [done|].
    by apply entries_ok_same with o.
  - by apply handleSessionFinished_safe.
  - destruct Hen as (o & Hs & Hc). eexists; split; [done|]. intros key e He.
    destruct (Hok _ _ He) as (o2 & Ho2 & Hc2 & Hk). exists o2. split; [|done].
    simpl. rewrite lookup_delete_ne; [done|congruence].
  - apply Hspec, onPasswordValid_safe.
  - apply Hspec, onPasswordInvalid_safe.
  - apply Hspec. intros r0 Hr0. exact Hr0.
  - apply Hspec. intros r0 Hr0. rewrite bind_run. simpl. 
    apply (spec_for_each no_fault _ handleRemoveTimeout registry_ok); [|done]. intros. apply handleRemoveTimeout_safe.
Qed.

(** ** Who is authenticated *)

(** Only sessions of [P] are authenticated. *)
Definition authenticated_in (P : sid → Prop) (r : Registry J) : Prop :=
  ∀ s o, sessions r !! s = Some o → authenticated_ o = true → P s.

Section authenticated.
Context (P : sid → Prop).

Abbreviation keeps m := (spec any_fault (authenticated_in P) m (λ _, authenticated_in P)).

Lemma keeps_modify f :
  (∀ r : Registry J, sessions (f r) = sessions r) → keeps (modify f).
Proof. intros Hf r Hr s o. simpl. rewrite Hf. apply Hr. Qed.

Lemma keeps_get {B} (k : Registry J → prog (Registry J) B) :
  (∀ r, spec any_fault (authenticated_in P) (k r) (λ _, authenticated_in P)) →
  spec any_fault (authenticated_in P) (get ≫= k) (λ _, authenticated_in P).
Proof. intros Hk r Hr. by apply (Hk r r). Qed.

Lemma keeps_load {B} s (k : Session J → prog (Registry J) B) :
  (∀ o, spec any_fault (authenticated_in P) (k o) (λ _, authenticated_in P)) →
  spec any_fault (authenticated_in P) (load_session s ≫= k) (λ _, authenticated_in P).
Proof.
  intros Hk r Hr. unfold load_session. rewrite !bind_run. simpl.
  destruct (sessions r !! s) as [o|]; simpl; [by apply Hk|done].
Qed.

Lemma keeps_update s f :
  (∀ o : Session J, authenticated_ (f o) = true → authenticated_ o = true ∨ P s) →
  keeps (update_session s f).
Proof.
  intros Hf r Hr. unfold update_session, load_session. rewrite !bind_run. simpl.
  destruct (sessions r !! s) as [o|] eqn:Hs; simpl; [|done].
  intros s2 o2 Ho Ha. simpl in Ho. apply lookup_insert_Some in Ho as [[<- <-]|[_ Ho2]]; [|by eapply Hr].
  destruct (Hf _ Ha); [by eapply Hr|done].
Qed.
End authenticated.

Ltac keep_step :=
  lazymatch goal with
  | |- spec _ _ (modify _) _ => apply keeps_modify; done
  | |- spec _ _ (raise _) _ => intros ? ?; exact I
  | |- spec _ _ (when _ _) _ => apply spec_when
  | |- spec _ _ (mret _) _ => apply spec_ret; intros; assumption
  | |- spec _ _ (update_session _ _) _ => apply keeps_update; intros; simpl in *; by auto
  | |- spec _ _ (get ≫= _) _ => apply keeps_get; intros ?
  | |- spec _ _ (load_session _ ≫= _) _ => apply keeps_load; intros ?
  | |- spec _ _ (_ ≫= _) _ => apply spec_keep; [|intros []]
  | |- spec _ _ (match _ with _ => _ end) _ => case_match
  end.
Ltac keep := repeat keep_step.

Lemma handlePasswordInvalid_keeps P s error :
  spec any_fault (authenticated_in P) (handlePasswordInvalid s error) (λ _, authenticated_in P).
Proof. unfold handlePasswordInvalid, signal, finishSession. keep. Qed.

Lemma handlePasswordValid_keeps (P : sid → Prop) s : P s →
  spec any_fault (authenticated_in P) (handlePasswordValid s) (λ _, authenticated_in P).
Proof. intros Hs. unfold handlePasswordValid, signal. keep. Qed.

Lemma onPasswordInvalid_keeps P user error :
  spec any_fault (authenticated_in P) (onPasswordInvalid user error) (λ _, authenticated_in P).
Proof. unfold onPasswordInvalid. keep. apply handlePasswordInvalid_keeps. Qed.

Lemma isValidUserPassword_keeps (P : sid → Prop) user s password :
  (bare_key user ∈ admin_jid cfg → password = admin_password cfg → P s) →
  spec any_fault (authenticated_in P) (isValidUserPassword cfg user s password) (λ _, authenticated_in P).
Proof.
  intros HP. unfold isValidUserPassword, signal. case_bool_decide as Ha.
  - destruct (String.eqb_spec password (admin_password cfg)).
    + by apply handlePasswordValid_keeps, HP.
    + apply handlePasswordInvalid_keeps.
  - keep. apply handlePasswordInvalid_keeps.
Qed.

Lemma handleElement_keeps (P : sid → Prop) s e (r : Registry J) :
  (∀ o m u p, e = AuthRequest m u p → sessions r !! s = Some o →
     (m = "EXTERNAL"%string ∧ allowSASLEXTERNAL o = true)
     ∨ (bare_key (login_jid u o) ∈ admin_jid cfg ∧ p = admin_password cfg) → P s) →
  authenticated_in P r → ∀ r', handleElement cfg s e r = Done tt r' → authenticated_in P r'.
Proof.
  intros HP Hr r'. unfold handleElement, load_session. rewrite !bind_run. simpl.
  destruct (sessions r !! s) as [o|] eqn:Hs; simpl; [|done].
  match goal with |- ?m r = _ → _ =>
    assert (Hm : spec any_fault (authenticated_in P) m (λ _, authenticated_in P)) end.
  { destruct (initialized o); [unfold signal; keep|]. destruct e as [m u p| | | |]; [|unfold signal; keep..].
    destruct (_ || _)%bool eqn:Hm; [|unfold signal, finishSession; keep].
    destruct (String.eqb_spec m "EXTERNAL") as [Hext|Hne].
    - unfold signal. apply spec_keep; [keep|]. intros []. apply keeps_update. intros o2 _. right.
      apply (HP o m u p); [done..|]. left. split; [done|].
      apply orb_prop in Hm as [Hm|Hm]; [|by apply andb_prop in Hm as []]. apply String.eqb_eq in Hm. congruence.
    - keep. apply isValidUserPassword_keeps. intros Ha Hp. apply (HP o m u p); [done..|]. by right. }
  intros Hdone. specialize (Hm r Hr). by rewrite Hdone in Hm.
Qed.

(** Who an event may authenticate: the session whose login libtransport accepts,
    an administrator with the right password, or EXTERNAL where it is allowed. *)
Definition may_authenticate (i : login_input) (r : Registry J) (s : sid) : Prop :=
  match i with
  | PasswordValid user => pending r s (bare_key user)
  | Element s' (AuthRequest m user password) =>
      s' = s ∧ ∃ o, sessions r !! s = Some o ∧
        ((m = "EXTERNAL"%string ∧ allowSASLEXTERNAL o = true)
         ∨ (bare_key (login_jid user o) ∈ admin_jid cfg ∧ password = admin_password cfg))
  | _ => False
  end.

(** C10: nobody gets authenticated by accident. After any event, a session that is
    authenticated was so before, or is the one whose pending login libtransport
    just accepted, or gave the administrator's name and password, or used
    EXTERNAL on a session that allows it. *)
Theorem authentication_step (r r' : Registry J) i s o' :
  react i r = Done tt r' → sessions r' !! s = Some o' → authenticated_ o' = true →
  (∃ o, sessions r !! s = Some o ∧ authenticated_ o = true) ∨ may_authenticate i r s.
Proof.
  set (P s := (∃ o, sessions r !! s = Some o ∧ authenticated_ o = true) ∨ may_authenticate i r s).
  intros Hi Hs Ha. change (P s). assert (Hr : authenticated_in P r) by (intros s2 o2; left; by exists o2).
  assert (Hspec : ∀ m : prog (Registry J) unit,
    spec any_fault (authenticated_in P) m (λ _, authenticated_in P) → m r = Done tt r' → P s).
  { intros m Hm Hdone. specialize (Hm r Hr). rewrite Hdone in Hm. by eapply Hm. }
  destruct i as [s2 x t|s2 to|s2 e|s2|s2|s2|u|u er|u| ]; simpl in Hi.
  - injection Hi as <-. simpl in Hs.
    apply lookup_insert_Some in Hs as [[<- <-]|[_ Hs]]; [done|]. left. by exists o'.
  - eapply Hspec; [|exact Hi]. unfold handleStreamStart, signal. keep.
  - eapply (handleElement_keeps P); [|done|done..]. intros o m u p -> Ho Hor. right. split; [done|]. by exists o.
  - eapply Hspec; [|exact Hi]. keep.
  - eapply Hspec; [|exact Hi]. unfold handleSessionFinished, stopLogin, signal. keep.
  - injection Hi as <-. simpl in Hs. apply lookup_delete_Some in Hs as [_ Hs]. left. by exists o'.
  - unfold onPasswordValid in Hi. rewrite bind_run in Hi. simpl in Hi.
    destruct (users r !! bare_key u) as [e|] eqn:He; [|injection Hi as <-; left; by exists o'].
    eapply Hspec; [|exact Hi]. apply spec_keep; [|intros []; keep].
    apply handlePasswordValid_keeps. right. by exists e.
  - eapply Hspec; [|exact Hi]. apply onPasswordInvalid_keeps.
  - eapply Hspec; [|exact Hi]. unfold removeLater. keep.
  - eapply Hspec; [|exact Hi]. apply keeps_get. intros r0. apply spec_for_each. intros user _.
    unfold handleRemoveTimeout. keep. apply onPasswordInvalid_keeps.
Qed.

(** ** What a client can do *)

(** The first login under a name. *)
Lemma first_login_run s user password (r : Registry J) o :
  sessions r !! s = Some o → initialized o = false →
  bare_key (login_jid user o) ∉ admin_jid cfg → users r !! bare_key (login_jid user o) = None →
  handleElement cfg s (AuthRequest "PLAIN" user password) r
  = Done tt (mkRegistry (<[bare_key (login_jid user o) := mkSess password s]> (users r)) (m_inRemoveLater r)
               (m_removeTimer r) (<[s := set_user user o]> (sessions r))
               (login_log r ++ [ConnectUser (login_jid user o)])).
Proof.
  intros Hs Hi Hadm Hu. unfold handleElement, load_session. rewrite !bind_run. simpl. rewrite Hs. simpl.
  rewrite Hi. rewrite bind_run, (update_session_run _ _ _ o) by done.
  unfold isValidUserPassword. rewrite bool_decide_false by done. rewrite bind_run. simpl. by rewrite Hu.
Qed.

Ltac run_login :=
  simpl; unfold handleElement, handleStreamStart, handleSessionFinished, stopLogin, onPasswordValid,
    onPasswordInvalid, handlePasswordValid, handlePasswordInvalid, update_session, load_session;
  repeat (rewrite ?bind_run, ?lookup_insert_eq, ?insert_insert_eq, ?bool_decide_eq_true_2 by reflexivity; simpl);
  reflexivity.
Ltac open_now := eexists; split; [apply lookup_insert_eq|reflexivity].

(** a session can start without a password. The element that starts a session
    is accepted before any authentication, and a started session ignores the
    verdict: a client that gives a user's name and any password, binds a resource
    and starts its session goes on as that user when the password is refused. *)
Theorem session_without_password s (to : J) user password uuid error :
  bare_key (make_jid user (getDomain to) "") ∉ admin_jid cfg →
  ∃ r o,
    trace initial
      [NewClient s false false; StreamStart s to; Element s (AuthRequest "PLAIN" user password);
       Element s (ResourceBind uuid); Element s StartSession;
       PasswordInvalid (make_jid user (getDomain to) "") error; Element s OtherElement] r
    ∧ sessions r !! s = Some o ∧ initialized o = true ∧ authenticated_ o = false ∧ finishing o = false
    ∧ remoteJID o = make_jid user (getDomain to) uuid ∧ last (login_log r) = Some (ElementReceived s).
Proof.
  intros Hadm. eexists _, _. split.
  - eapply trace_cons; [apply lookup_empty|reflexivity|].
    eapply trace_cons; [open_now|run_login|].
    eapply trace_cons; [open_now|apply first_login_run; [apply lookup_insert_eq|done..]|].
    eapply trace_cons; [open_now|simpl; run_login|]. simpl.
    eapply trace_cons; [open_now|simpl; run_login|]. simpl.
    eapply trace_cons; [exact I|run_login|]. simpl.
    eapply trace_cons; [open_now|run_login|]. apply trace_nil.
  - simpl. rewrite lookup_insert_eq. repeat (split; [done|]). done.
Qed.

(** a client nobody has authenticated can crash the server: by asking for TLS
    where there is no certificate, and by asking for two names before it
    disconnects, since stopLogin forgets the login under the last name only and
    the verdict on the other one is given to a session that is gone. *)
Theorem client_crashes :
  (∀ s external, ∃ r : Registry J,
    trace initial [NewClient s external false] r
    ∧ enabled (Element s StartTLSRequest) r ∧ react (Element s StartTLSRequest) r = Fault NullDereference)
  ∧ ∀ s (to : J) alice bob password,
    bare_key (make_jid alice (getDomain to) "") ∉ admin_jid cfg →
    bare_key (make_jid bob (getDomain to) "") ∉ admin_jid cfg →
    bare_key (make_jid alice (getDomain to) "") ≠ bare_key (make_jid bob (getDomain to) "") →
    ∃ r,
      trace initial
        [NewClient s false false; StreamStart s to; Element s (AuthRequest "PLAIN" alice password);
         Element s (AuthRequest "PLAIN" bob password); Finished s; Freed s] r
      ∧ react (PasswordValid (make_jid alice (getDomain to) "")) r = Fault UseAfterFree
      ∧ react (PasswordInvalid (make_jid alice (getDomain to) "") "") r = Fault UseAfterFree.
Proof.
  split.
  { intros s external. eexists. split; [|split].
    - eapply trace_cons; [apply lookup_empty|reflexivity|]. apply trace_nil.
    - open_now.
    - run_login. }
  intros s to alice bob password Ha Hb Hne. eexists. split.
  - eapply trace_cons; [apply lookup_empty|reflexivity|].
    eapply trace_cons; [open_now|run_login|].
    eapply trace_cons; [open_now|apply first_login_run; [apply lookup_insert_eq|done..]|].
    eapply trace_cons; [open_now|apply first_login_run; [apply lookup_insert_eq|done..|]|].
    { simpl. by rewrite lookup_insert_ne. }
    eapply trace_cons; [open_now|simpl; run_login|]. simpl.
    eapply trace_cons; [open_now|reflexivity|]. apply trace_nil.
  - unfold login_jid. simpl. split; unfold onPasswordValid, onPasswordInvalid, handlePasswordValid,
      handlePasswordInvalid, load_session; rewrite !bind_run; simpl;
      rewrite lookup_delete_ne, lookup_insert_ne, lookup_insert_eq by done;
      rewrite !bind_run; simpl; by rewrite lookup_delete_eq.
Qed.

(** ** Delayed removals *)

Lemma handleRemoveTimeout_run user (r : Registry J) :
  registry_ok r →
  ∃ r', handleRemoveTimeout user r = Done tt r' ∧ registry_ok r' ∧ m_removeTimer r' = m_removeTimer r
    ∧ users r' = delete (bare_key user) (users r)
    ∧ ∀ s o, sessions r !! s = Some o →
        ∃ o', sessions r' !! s = Some o'
          ∧ o' = (if bool_decide (sess_session <$> users r !! bare_key user = Some s) then refused o else o).
Proof.
  intros Hok. unfold handleRemoveTimeout. rewrite bind_run. simpl. rewrite bind_run.
  destruct (users r !! bare_key user) as [e|] eqn:He; simpl.
  - destruct (Hok _ _ He) as (o & Ho & _).
    destruct (onPasswordInvalid_run user "" (with_inRemoveLater true r) e o) as [l ->]; [done..|]. simpl.
    eexists; split; [reflexivity|]. simpl. split.
    { apply entries_ok_delete. eapply entries_ok_same; eauto using refused_same. }
    repeat (split; [done|]). intros s o' Ho'. case_bool_decide as Hs.
    + injection Hs as <-. rewrite Ho in Ho'. injection Ho' as <-. rewrite lookup_insert_eq. by eexists.
    + rewrite lookup_insert_ne by congruence. by eexists.
  - unfold onPasswordInvalid. rewrite bind_run. simpl. rewrite He. simpl.
    eexists; split; [reflexivity|]. rewrite delete_id by done. repeat (split; [done|]).
    intros s o Ho. by eexists.
Qed.

Section removed.
Context (T : list J) (s : sid) (key : string).

(** The session waits for its verdict under [key], or has got it ([told]). *)
Definition awaits (told : bool) (r : Registry J) : Prop :=
  registry_ok r ∧ m_removeTimer r = T
  ∧ ∃ o, sessions r !! s = Some o ∧ initialized o = false
    ∧ (users r !! key = None ∧ finishing o = true
       ∨ told = false ∧ sess_session <$> users r !! key = Some s).

Lemma handleRemoveTimeout_awaits told user :
  spec no_fault (awaits told) (handleRemoveTimeout user)
    (λ _, awaits (told || bool_decide (bare_key user = key))).
Proof.
  intros r (Hok & HT & o & Ho & Hi & Hw).
  destruct (handleRemoveTimeout_run user r Hok) as (r' & -> & Hok' & HT' & Hu & Hs).
  destruct (Hs s o Ho) as (o' & Ho' & Heq). split; [done|]. split; [congruence|]. exists o'. split; [done|].
  rewrite Hu. assert (Hi' : initialized o' = false).
  { rewrite Heq. case_bool_decide; [|done]. unfold refused. by rewrite Hi. }
  split; [done|]. destruct (decide (bare_key user = key)) as [<-|Hne].
  - rewrite lookup_delete_eq. left. split; [done|]. rewrite Heq. unfold refused. rewrite Hi.
    case_bool_decide as Hd; [done|]. destruct Hw as [[_ Hf]|[_ Hw]]; [done|congruence].
  - rewrite lookup_delete_ne by done. rewrite bool_decide_false by done. rewrite orb_false_r.
    destruct Hw as [[Hn Hf]|Hw]; [left|by right]. split; [done|]. rewrite Heq. unfold refused. rewrite Hi.
    by case_bool_decide.
Qed.
End removed.

(** a delayed removal repeats. The handlers of the timer are never
    disconnected: whoever was removed once is refused again by the tick of
    anybody's removal, while its new login waits for the legacy network. *)
Theorem removal_repeats (r : Registry J) user e o :
  registry_ok r → user ∈ m_removeTimer r →
  users r !! bare_key user = Some e → sessions r !! sess_session e = Some o → initialized o = false →
  ∃ r' o', react RemoveTick r = Done tt r' ∧ users r' !! bare_key user = None
    ∧ sessions r' !! sess_session e = Some o' ∧ finishing o' = true
    ∧ m_removeTimer r' = m_removeTimer r.
Proof.
  intros Hok (l1 & l2 & Hl)%list_elem_of_split He Ho Hi.
  set (A := awaits (m_removeTimer r) (sess_session e) (bare_key user)).
  assert (Hkeep : ∀ b l, spec no_fault (A b) (for_each l handleRemoveTimeout) (λ _, A b)).
  { intros b l. apply spec_for_each. intros u _.
    eapply spec_weaken; [apply (handleRemoveTimeout_awaits (m_removeTimer r) (sess_session e) (bare_key user) b)|done|].
    intros ? r0 (? & ? & o0 & ? & ? & Hw). repeat (split; [done|]). exists o0.
    repeat (split; [done|]). destruct Hw as [|[[-> _]%orb_false_elim ?]]; auto. }
  assert (Hall : spec no_fault (A false) (for_each (m_removeTimer r) handleRemoveTimeout) (λ _, A true)).
  { rewrite Hl. intros r0. rewrite for_each_app. revert r0.
    apply (spec_bind no_fault (A false) _ (λ _, A false)); [apply Hkeep|]. intros [].
    apply (spec_bind no_fault (A false) _ (λ _, A true)); [|intros []; apply Hkeep].
    eapply spec_weaken; [apply (handleRemoveTimeout_awaits (m_removeTimer r) (sess_session e) (bare_key user) false)|done|].
    intros ? r0. by rewrite bool_decide_true. }
  simpl. rewrite bind_run. simpl. specialize (Hall r).
  destruct (for_each _ _ r) as [[] r'|f]; [|destruct Hall; split; [done|]; split; [done|]; exists o].
  - destruct Hall as (_ & HT & o' & Ho' & _ & [[Hu Hf]|[? _]]); [|by exists r', o'|done].
    split; [done|]. split; [done|]. exists o. repeat (split; [done|]). right. by rewrite He.
  - repeat (split; [done|]). right. by rewrite He.
Qed.
End theorems.

(** ** Witnesses *)

Definition plain_config : LoginConfig := mkLoginConfig ["admin@localhost"%string] "secret".
Definition alice : ref_jid := mkRefJid "alice" "localhost" "".

(** One session, waiting for its verdict; alice was removed with a delay before. *)
Definition waiting_registry : Registry ref_jid :=
  mkRegistry {["alice@localhost"%string := mkSess "pass" 0]} false [alice]
    {[0 := mkSession "alice" alice no_jid false false false false false false false]} [].

Lemma registry_sound_witness :
  ∃ r' : Registry ref_jid, react plain_config (NewClient 3 false false) initial = Done tt r' ∧ registry_ok r'.
Proof.
  exact (proj2 (registry_sound plain_config) initial (NewClient 3 false false)
           (proj1 (registry_sound plain_config)) (lookup_empty 3) I).
Defined.

Lemma waiting_registry_ok : registry_ok waiting_registry.
Proof.
  intros key e He. unfold waiting_registry in He. simpl in He.
  apply lookup_singleton_Some in He as [<- <-]. eexists; split; [reflexivity|]. split; reflexivity.
Qed.

Lemma authentication_step_witness :
  pending waiting_registry 0 "alice@localhost".
Proof.
  destruct (authentication_step plain_config waiting_registry
              (mkRegistry ∅ false [alice]
                 {[0 := mkSession "alice" alice no_jid true false false false false false false]} [AuthSuccess 0])
              (PasswordValid alice) 0
              (mkSession "alice" alice no_jid true false false false false false false)) as [(o & Ho & Ha)|Hp].
  - vm_compute. reflexivity.
  - reflexivity.
  - reflexivity.
  - vm_compute in Ho. injection Ho as <-. discriminate.
  - exact Hp.
Defined.

Lemma session_without_password_witness :
  ∃ r o, sessions r !! 0 = Some o ∧ initialized o = true ∧ authenticated_ o = false
         ∧ remoteJID o = mkRefJid "alice" "localhost" "pc".
Proof.
  destruct (session_without_password plain_config 0 alice "alice" "wrong" "pc" "")
    as (r & o & _ & Ho & Hi & Ha & _ & Hj & _).
  - intros Hin. apply list_elem_of_singleton in Hin. discriminate Hin.
  - exists r, o. auto.
Defined.

Lemma client_crashes_witness :
  ∃ r : Registry ref_jid, react plain_config (PasswordValid alice) r = Fault UseAfterFree.
Proof.
  destruct (proj2 (client_crashes plain_config) 0 alice "alice" "bob" "x"%string) as (r & _ & Hr & _).
  - intros Hin. apply list_elem_of_singleton in Hin. discriminate Hin.
  - intros Hin. apply list_elem_of_singleton in Hin. discriminate Hin.
  - discriminate.
  - exists r. exact Hr.
Defined.

Lemma removal_repeats_witness :
  ∃ r' o', react plain_config RemoveTick waiting_registry = Done tt r'
    ∧ users r' !! "alice@localhost"%string = None ∧ sessions r' !! 0 = Some o' ∧ finishing o' = true.
Proof.
  destruct (removal_repeats plain_config waiting_registry alice (mkSess "pass" 0)
              (mkSession "alice" alice no_jid false false false false false false false))
    as (r' & o' & H1 & H2 & H3 & H4 & _).
  - exact waiting_registry_ok.
  - apply list_elem_of_singleton. reflexivity.
  - reflexivity.
  - reflexivity.
  - reflexivity.
  - exists r', o'. auto.
Defined.
