(* ===== verification/UserManager.v ===== *)
(** * The user manager

    UserManager (libtransport/UserManager.cpp) creates a User when somebody who may
    use the transport becomes available, hands presences and messages to it, and
    removes it. Presences come in through the frontend's signal, which goes to the
    presence oracle, from there to Component::handlePresence and to the user
    manager; the registry of server mode is the one of [Login]. What a User does
    with what it is handed is an event of the log. *)

From S2P Require Import Prelude StdMap Swiften PresenceOracle Names Login.
From S2P Require Pool.

Abbreviation UserInfo := Pool.UserInfo.
Abbreviation uid := nat.

(** ** Interfaces *)

(** SettingType *)
Definition TYPE_BOOLEAN : Z := 4.

(** The abstract class StorageBackend, as far as the manager calls it. *)
Class StorageBackend (St : Type) := {
  db_getUser : string → St → option UserInfo;
  db_setUser : UserInfo → St → St;
  db_setUserOnline : Z → bool → St → St;
  (** what getAllSettings leaves in the map it is given *)
  db_getAllSettings : Z → list (string * string) → St → list (string * string);
  (** getUserSetting with the type and the value it is given *)
  db_getUserSetting : Z → string → Z → string → St → string * St;
}.

(** ** Data *)

Record ManagedUser (J : Type) := mkManagedUser {
  mu_jid : J;
  mu_info : UserInfo;
  mu_connected : bool;
}.
Arguments mkManagedUser {J}.
Arguments mu_jid {J}.
Arguments mu_info {J}.
Arguments mu_connected {J}.

Inductive manager_event (J : Type) :=
  | SendPresence (p : Presence J)
  | SendMessage (m : Message J)
  | SendRosterRequest (item : J) (name : string) (to : J)
  | SendCapabilitiesRequest (to : J)
  (** the signals, and the calls of a User and its RosterManager and
      ConversationManager *)
  | UserCreated (u : uid)
  | UserDestroyed (u : uid)
  | UserPresence (u : uid) (p : Presence J)
  | UserSubscription (u : uid) (p : Presence J)
  | UserDiscoInfo (u : uid) (jid : J)
  | UserMessage (u : uid) (m : Message J)
  | UserCurrentPresence (u : uid) (from to : J).
Arguments SendPresence {J}.
Arguments SendMessage {J}.
Arguments SendRosterRequest {J}.
Arguments SendCapabilitiesRequest {J}.
Arguments UserCreated {J}.
Arguments UserDestroyed {J}.
Arguments UserPresence {J}.
Arguments UserSubscription {J}.
Arguments UserDiscoInfo {J}.
Arguments UserMessage {J}.
Arguments UserCurrentPresence {J}.

Record Manager (J St : Type) := mkManager {
  m_users : smap string uid;
  m_cachedUser : option uid;
  (** the handlers connected to m_removeTimer->onTick *)
  m_removeHandlers : list (string * uid * bool);
  m_sentToBackend : Z;
  m_storageBackend : option St;
  m_userRegistry : Registry J;
  m_presenceOracle : smap J (smap J (Presence J));
  user_heap : gmap uid (ManagedUser J);
  manager_log : list (manager_event J);
}.
Arguments mkManager {J St}.
Arguments m_users {J St}.
Arguments m_cachedUser {J St}.
Arguments m_removeHandlers {J St}.
Arguments m_sentToBackend {J St}.
Arguments m_storageBackend {J St}.
Arguments m_userRegistry {J St}.
Arguments m_presenceOracle {J St}.
Arguments user_heap {J St}.
Arguments manager_log {J St}.

(** The configuration; None for a key that is not set. *)
Record ManagerConfig (J : Type) := mkManagerConfig {
  inServerMode : bool;
  component_jid : J;
  cfg_admin_jid : list string;
  needRegistration : option bool;
  needPassword : option bool;
  auto_register : bool;
  vip_only : bool;
  vip_message : string;
  more_resources : bool;
}.
Arguments mkManagerConfig {J}.
Arguments inServerMode {J}.
Arguments component_jid {J}.
Arguments cfg_admin_jid {J}.
Arguments needRegistration {J}.
Arguments needPassword {J}.
Arguments auto_register {J}.
Arguments vip_only {J}.
Arguments vip_message {J}.
Arguments more_resources {J}.

(** What the rest of the process decides: the address of a new object (not one in
    use), whether a slot of onUserCreated makes the new user disconnect at once
    (User::handleDisconnected removes it), what an uninitialised UserInfo holds,
    and the order of the shows. *)
Class ManagerEnv (J : Type) := {
  alloc : gmap uid (ManagedUser J) → uid;
  alloc_fresh h : h !! alloc h = None;
  refused_by_slot : ManagedUser J → bool;
  fresh_info : UserInfo;
  typeToAvailabilityOrdering : StatusShow → Z;
}.

Section manager.
Context {J St : Type} `{Jid J} `{StorageBackend St} `{ManagerEnv J} (cfg : ManagerConfig J).

Abbreviation mgr A := (prog (Manager J St) A).
Implicit Types s : Manager J St.

Definition with_users f s := mkManager (f (m_users s)) (m_cachedUser s) (m_removeHandlers s) (m_sentToBackend s) (m_storageBackend s) (m_userRegistry s) (m_presenceOracle s) (user_heap s) (manager_log s).
Definition with_cachedUser x s := mkManager (m_users s) x (m_removeHandlers s) (m_sentToBackend s) (m_storageBackend s) (m_userRegistry s) (m_presenceOracle s) (user_heap s) (manager_log s).
Definition with_removeHandlers f s := mkManager (m_users s) (m_cachedUser s) (f (m_removeHandlers s)) (m_sentToBackend s) (m_storageBackend s) (m_userRegistry s) (m_presenceOracle s) (user_heap s) (manager_log s).
Definition with_sentToBackend f s := mkManager (m_users s) (m_cachedUser s) (m_removeHandlers s) (f (m_sentToBackend s)) (m_storageBackend s) (m_userRegistry s) (m_presenceOracle s) (user_heap s) (manager_log s).
Definition with_storage (x : option St) s := mkManager (m_users s) (m_cachedUser s) (m_removeHandlers s) (m_sentToBackend s) x (m_userRegistry s) (m_presenceOracle s) (user_heap s) (manager_log s).
Definition with_registry x s := mkManager (m_users s) (m_cachedUser s) (m_removeHandlers s) (m_sentToBackend s) (m_storageBackend s) x (m_presenceOracle s) (user_heap s) (manager_log s).
Definition with_oracle x s := mkManager (m_users s) (m_cachedUser s) (m_removeHandlers s) (m_sentToBackend s) (m_storageBackend s) (m_userRegistry s) x (user_heap s) (manager_log s).
Definition with_user_heap f s := mkManager (m_users s) (m_cachedUser s) (m_removeHandlers s) (m_sentToBackend s) (m_storageBackend s) (m_userRegistry s) (m_presenceOracle s) (f (user_heap s)) (manager_log s).
Definition with_manager_log f s := mkManager (m_users s) (m_cachedUser s) (m_removeHandlers s) (m_sentToBackend s) (m_storageBackend s) (m_userRegistry s) (m_presenceOracle s) (user_heap s) (f (manager_log s)).

Definition emit (e : manager_event J) : mgr unit := modify (with_manager_log (λ l, l ++ [e])).
Definition load (u : uid) : mgr (ManagedUser J) := s ← get; deref (user_heap s !! u).

(** A call of the registry. *)
Definition registry {A} (m : prog (Registry J) A) : mgr A := λ s,
  match m (m_userRegistry s) with
  | Done a r => Done a (with_registry r s)
  | Fault f => Fault f
  end.

(** A call of the storage backend, where there is one. *)
Definition storage (f : St → St) : mgr unit :=
  modify (λ s, with_storage (f <$> m_storageBackend s) s).

Definition set_settings x (o : ManagedUser J) : ManagedUser J :=
  let i := mu_info o in
  mkManagedUser (mu_jid o)
    (Pool.mkUserInfo (Pool.ui_id i) (Pool.ui_jid i) (Pool.ui_uin i) (Pool.ui_password i) (Pool.ui_language i)
       (Pool.ui_encoding i) (Pool.ui_vip i) x) (mu_connected o).

Definition getUserSetting (key : string) (o : ManagedUser J) : string := default "" (sfind key (Pool.ui_settings (mu_info o))).

Definition key_of (o : ManagedUser J) : string := bare_key (mu_jid o).

(** ** Users *)

Definition getUser (barejid : string) : mgr (option uid) :=
  s ← get;
  hit ← match m_cachedUser s with
        | Some u => o ← load u; mret (String.eqb barejid (key_of o))
        | None => mret false
        end;
  if hit : bool then mret (m_cachedUser s)
  else match sfind barejid (m_users s) with
       | None => mret None
       | Some u =>
           modify (with_cachedUser (Some u)) ;;
           match m_storageBackend s with
           | Some st =>
               o ← load u;
               modify (with_user_heap (<[u := set_settings
                 (db_getAllSettings (Pool.ui_id (mu_info o)) (Pool.ui_settings (mu_info o)) st) o]>))
           | None => mret tt
           end ;;
           mret (Some u)
       end.

(** Frontend::createUser, down to the constructor of User. *)
Definition createUser (jid : J) (info : UserInfo) : mgr uid :=
  s ← get;
  let u := alloc (user_heap s) in
  modify (with_user_heap (<[u := mkManagedUser (toBare jid) info false]>)) ;;
  mret u.

(** addUser; [remove] is removeUser, for a slot of onUserCreated. *)
Definition addUser (remove : uid → bool → mgr unit) (u : uid) : mgr unit :=
  o ← load u;
  modify (with_users (sinsert (key_of o) u)) ;;
  storage (db_setUserOnline (Pool.ui_id (mu_info o)) true) ;;
  emit (UserCreated u) ;;
  when (refused_by_slot o) (remove u true).

Definition isMUC (p : Presence J) : bool :=
  bool_decide (is_Some (pr_muc p))
  || match getNode (pr_to p) with String c _ => Ascii.eqb c "#" | EmptyString => false end.

Definition answer (type : PresenceType) (p : Presence J) : Presence J :=
  setPresenceType type (setPresenceFrom (pr_to p) (setPresenceTo (pr_from p) empty_presence)).

Definition answer_bare (type : PresenceType) (p : Presence J) : Presence J :=
  setPresenceType type
    (setPresenceTo (toBare (pr_from p)) (setPresenceFrom (toBare (pr_to p)) empty_presence)).

(** *** handlePresence: who may log in *)

(** The administrator of a server is no legacy user: he gets a contact. *)
Definition admin_contact (p : Presence J) : mgr unit :=
  emit (SendRosterRequest (component_jid cfg) "Admin" (pr_from p)) ;;
  emit (SendPresence (setPresenceFrom (component_jid cfg) (setPresenceTo (pr_from p) empty_presence))).

(** Somebody without a User goes offline, or asks. *)
Definition answer_offline (p : Presence J) (userkey : string) : mgr unit :=
  emit (SendPresence (answer Unavailable p)) ;;
  when (bool_decide (pr_type p = Probe)) (emit (SendPresence (answer Probe p))) ;;
  s ← get;
  match m_storageBackend s with
  | Some st =>
      match db_getUser userkey st with
      | Some res => storage (db_setUserOnline (Pool.ui_id res) false)
      | None => mret tt
      end
  | None => mret tt
  end.

Definition set_account (password uin jid : string) (i : UserInfo) : UserInfo :=
  Pool.mkUserInfo (Pool.ui_id i) jid uin password (Pool.ui_language i) (Pool.ui_encoding i) (Pool.ui_vip i)
    (Pool.ui_settings i).
Definition set_password (password : string) (i : UserInfo) : UserInfo :=
  set_account password (Pool.ui_uin i) (Pool.ui_jid i) i.

(** setUser and getUser again to get the user's ID; without a backend everybody is
    registered. *)
Definition store_user (userkey : string) (res : UserInfo) : mgr (bool * UserInfo) :=
  s ← get;
  match m_storageBackend s with
  | Some st =>
      storage (db_setUser res) ;;
      match db_getUser userkey (db_setUser res st) with
      | Some res => mret (true, res)
      | None => mret (false, res)
      end
  | None => mret (true, res)
  end.

(** The loop that replaces every percent sign; each turn removes one. *)
Fixpoint percents_to_at (fuel : nat) (uin : string) : string :=
  match fuel with
  | O => uin
  | S fuel => if has_char "%" uin then percents_to_at fuel (percent_to_at uin) else uin
  end.

(** None when handlePresence returns. *)
Definition server_registration (p : Presence J) (userkey : string) (registered : bool) (res : UserInfo)
    : mgr (option (bool * UserInfo)) :=
  if negb registered && default false (needRegistration cfg) && default true (needPassword cfg) then
    registry (onPasswordInvalid (pr_from p) "") ;; mret None
  else
    '(registered, res) ←
      (if registered then mret (registered, res)
       else let node := getNode (pr_from p) in
            store_user userkey (set_account "" (percents_to_at (String.length node) node) userkey res));
    s ← get;
    mret (Some (registered, set_password (getUserPassword userkey (m_userRegistry s)) res)).

Definition gateway_registration (p : Presence J) (userkey : string) (registered : bool) (res : UserInfo)
    : mgr (bool * UserInfo) :=
  if negb registered && (auto_register cfg || negb (default true (needRegistration cfg))) then
    let uin := if isMUC p then getResource (pr_to p) else toString (pr_from p) in
    store_user userkey (set_account "" uin userkey res)
  else mret (registered, res).

Definition refuse_non_vip (p : Presence J) : mgr unit :=
  when (negb (String.eqb (vip_message cfg) ""))
    (emit (SendMessage (mkMessage (component_jid cfg) (pr_from p) Chat (vip_message cfg) "" []))) ;;
  when (inServerMode cfg) (registry (onPasswordInvalid (pr_from p) "")).

Definition transport_enabled (id : Z) : mgr bool :=
  s ← get;
  match m_storageBackend s with
  | Some st =>
      let '(value, st) := db_getUserSetting id "enable_transport" TYPE_BOOLEAN "1" st in
      modify (with_storage (Some st)) ;;
      mret (String.eqb value "1")
  | None => mret true
  end.

(** The checks on an account, and the user's creation. *)
Definition login_account (remove : uid → bool → mgr unit) (p : Presence J) (registered : bool) (res : UserInfo)
    : mgr bool :=
  if negb registered then mret false
  else if vip_only cfg && negb (Pool.ui_vip res) then refuse_non_vip p ;; mret false
  else
    enabled ← transport_enabled (Pool.ui_id res);
    if negb enabled then mret false
    else
      u ← createUser (pr_from p) res;
      addUser remove u ;;
      mret true.

(** handlePresence for somebody without a User: whether it goes on. *)
Definition create_user_for (remove : uid → bool → mgr unit) (p : Presence J) (userkey : string) : mgr bool :=
  if inServerMode cfg && bool_decide (userkey ∈ cfg_admin_jid cfg) then admin_contact p ;; mret false
  else
    s ← get;
    let found := m_storageBackend s ≫= db_getUser userkey in
    if bool_decide (pr_type p = Unavailable ∨ pr_type p = Probe) then answer_offline p userkey ;; mret false
    else
      account ←
        (if inServerMode cfg
         then server_registration p userkey (bool_decide (is_Some found)) (default fresh_info found)
         else account ← gateway_registration p userkey (bool_decide (is_Some found)) (default fresh_info found);
              mret (Some account));
      match account with
      | None => mret false
      | Some (registered, res) => login_account remove p registered res
      end.

(** The rest of handlePresence, on the user's own presences. *)
Definition user_presence (u : uid) (p : Presence J) : mgr unit :=
  emit (UserPresence u p) ;;
  if isMUC p then mret tt
  else if bool_decide (pr_type p = Unavailable) then
    o ← load u;
    if String.eqb (getUserSetting "stay_connected" o) "1" then mret tt
    else
      s ← get;
      match getHighestPriorityPresence typeToAvailabilityOrdering (toBare (pr_from p)) (m_presenceOracle s) with
      | None => modify (with_removeHandlers (λ l, l ++ [(key_of o, u, false)]))
      | Some highest =>
          when (bool_decide (pr_type highest = Unavailable))
            (modify (with_removeHandlers (λ l, l ++ [(key_of o, u, false)])))
      end
  else mret tt.

Definition handlePresence_with (remove : uid → bool → mgr unit) (p : Presence J) : mgr unit :=
  let userkey := bare_key (pr_from p) in
  user ← getUser userkey;
  go ← match user with
       | Some _ => mret true
       | None => create_user_for remove p userkey
       end;
  if negb go then mret tt
  else
    user ← getUser userkey;
    match user with
    | None => registry (onPasswordInvalid (pr_from p) "")
    | Some u => user_presence u p
    end.

(** ** The other handlers, over handlePresence *)

Section handlers.
Context (handlePresence : Presence J → mgr unit).

Definition handleMUCPresence (p : Presence J) : mgr unit :=
  if String.eqb (getNode (pr_to p)) "" then mret tt
  else if bool_decide (pr_type p = Available) then handlePresence p
  else if bool_decide (pr_type p = Unavailable) then
    user ← getUser (bare_key (pr_from p));
    match user with
    | Some u => emit (UserPresence u p)
    | None => mret tt
    end
  else mret tt.

Definition handleProbePresence (p : Presence J) : mgr unit :=
  if String.eqb (getNode (pr_to p)) "" then mret tt
  else
    user ← getUser (bare_key (pr_from p));
    match user with
    | Some u => emit (UserCurrentPresence u (pr_to p) (pr_from p))
    | None => emit (SendPresence (answer Unavailable p))
    end.

Definition registered_in (userkey : string) : mgr bool :=
  s ← get; mret (bool_decide (is_Some (m_storageBackend s ≫= db_getUser userkey))).

Definition handleErrorPresence (p : Presence J) : mgr unit :=
  if negb (String.eqb (getNode (pr_to p)) "") then mret tt
  else match pr_error p with
  | None => mret tt
  | Some (condition, _) =>
      if negb (bool_decide (condition = SubscriptionRequired)) then mret tt
      else
        registered ← registered_in (bare_key (pr_from p));
        when registered (emit (SendPresence (answer_bare Subscribe p)))
  end.

Definition handleSubscription (p : Presence J) : mgr unit :=
  if bool_decide (pr_type p = Subscribe) && String.eqb (getNode (pr_to p)) "" then
    emit (SendPresence (answer_bare Subscribed p))
  else if bool_decide (pr_type p = Unsubscribed) && String.eqb (getNode (pr_to p)) "" then
    registered ← registered_in (bare_key (pr_from p));
    when registered (emit (SendPresence (answer_bare Subscribe p)))
  else if String.eqb (getNode (pr_to p)) "" then mret tt
  else
    user ← getUser (bare_key (pr_from p));
    match user with
    | Some u => emit (UserSubscription u p)
    | None => when (bool_decide (pr_type p = Unsubscribe)) (emit (SendPresence (answer Unsubscribed p)))
    end.

Definition handleGeneralPresenceReceived (p : Presence J) : mgr unit :=
  match pr_type p with
  | Subscribe | Subscribed | Unsubscribe | Unsubscribed => handleSubscription p
  | Available | Unavailable => handleMUCPresence p
  | Probe => handleProbePresence p
  | ErrorPresence => handleErrorPresence p
  end.

(** Component::handlePresence, which ends with onUserPresenceReceived. *)
Definition component_handlePresence (p : Presence J) : mgr unit :=
  if negb (String.eqb (getNode (pr_to p)) "") then mret tt
  else if negb (isValid (pr_from p)) then mret tt
  else match pr_type p with
  | ErrorPresence | Subscribe | Subscribed | Unsubscribe | Unsubscribed => mret tt
  | _ =>
      when (negb (bool_decide (pr_type p = Unavailable))) (emit (SendCapabilitiesRequest (pr_from p))) ;;
      handlePresence p
  end.

(** The frontend's onPresenceReceived: the oracle's slot comes first. *)
Definition onPresenceReceived (p : Presence J) : mgr unit :=
  s ← get;
  let '(changed, oracle) := handleIncomingPresence p (m_presenceOracle s) in
  modify (with_oracle oracle) ;;
  match changed with
  | Some p => component_handlePresence p
  | None => mret tt
  end ;;
  handleGeneralPresenceReceived p.

Definition disconnectUser (user : J) : mgr unit :=
  onPresenceReceived
    (setPresenceType Unavailable (setPresenceFrom user (setPresenceTo (component_jid cfg) empty_presence))).

Definition removeUser (u : uid) (onUserBehalf : bool) : mgr unit :=
  o ← load u;
  modify (with_users (serase (key_of o))) ;;
  s ← get;
  when (bool_decide (m_cachedUser s = Some u)) (modify (with_cachedUser None)) ;;
  (if inServerMode cfg then disconnectUser (mu_jid o)
   else modify (λ s, with_oracle (clearPresences (toBare (mu_jid o)) (m_presenceOracle s)) s)) ;;
  o ← load u;
  when onUserBehalf (storage (db_setUserOnline (Pool.ui_id (mu_info o)) false)) ;;
  emit (UserDestroyed u) ;;
  modify (with_user_heap (delete u)).

(** [messageToBackendSent], and the conversations of the user. *)
Definition handleMessageReceived (m : Message J) : mgr unit :=
  let statePayload := existsb (λ x, match x with ChatState _ => true | _ => false end)
                              (m_payloads m) in
  if bool_decide (m_type m = ErrorMessage) then mret tt
  else
    when (negb statePayload) (modify (with_sentToBackend (λ n, n + 1)%Z)) ;;
    if String.eqb (m_body m) "" && negb statePayload && String.eqb (m_subject m) "" then mret tt
    else
      user ← getUser (bare_key (m_from m));
      match user with
      | Some u => emit (UserMessage u m)
      | None => mret tt
      end.

Definition handleDiscoInfo (jid : J) : mgr unit :=
  user ← getUser (bare_key jid);
  match user with
  | Some u => emit (UserDiscoInfo u jid)
  | None => mret tt
  end.

(** Disconnecting the manager's slot and connecting it again changes nothing: the
    other slots of onUserPresenceReceived are none. *)
Definition switch_session (user : J) : mgr unit :=
  emit (SendMessage (mkMessage (component_jid cfg) user Chat "You have signed on from another location." "" [])) ;;
  registry (onPasswordValid user).

Definition connectUser (user : J) : mgr unit :=
  let key := bare_key user in
  s ← get;
  match sfind key (m_users s) with
  | Some u =>
      if negb (inServerMode cfg) then mret tt
      else
        o ← load u;
        if mu_connected o then
          (if negb (String.eqb (getUserPassword key (m_userRegistry s)) (Pool.ui_password (mu_info o))) then
             registry (removeLater user)
           else if more_resources cfg then registry (onPasswordValid user)
           else switch_session user)
        else
          modify (with_removeHandlers (list_remove_all (key, u, false))) ;;
          modify (with_removeHandlers (λ l, l ++ [(key, u, true)]))
  | None =>
      onPresenceReceived
        (setPresenceType Available (setPresenceFrom user (setPresenceTo (component_jid cfg) empty_presence)))
  end.

Definition handleRemoveTimeout (jid : string) (u : uid) (reconnect : bool) : mgr unit :=
  modify (with_removeHandlers (list_remove_all (jid, u, reconnect))) ;;
  user ← getUser jid;
  if negb (bool_decide (user = Some u)) then mret tt
  else
    removeUser u true ;;
    when reconnect (connectUser (jid_of_string jid)).

(** The tick calls the handlers that were connected when it came, unless they are
    disconnected meanwhile. *)
Definition removeTimer_onTick : mgr unit :=
  s ← get;
  for_each (m_removeHandlers s) (λ '(jid, u, reconnect),
    s ← get;
    when (bool_decide ((jid, u, reconnect) ∈ m_removeHandlers s)) (handleRemoveTimeout jid u reconnect)).
End handlers.

(** removeUser comes back to handlePresence through disconnectUser in server mode,
    and a slot of onUserCreated may remove the user handlePresence creates. *)
Fixpoint handlePresence_at (depth : nat) (p : Presence J) : mgr unit :=
  match depth with
  | O => mret tt
  | S depth => handlePresence_with (removeUser (handlePresence_at depth)) p
  end.

(** Two calls inside each other are all there can be ([handlePresence_depth]). *)
Definition handlePresence : Presence J → mgr unit := handlePresence_at 2.

(** ** Inputs *)

Inductive manager_input :=
  | PresenceReceived (p : Presence J)
  | MessageReceived (m : Message J)
  | DiscoInfoReceived (jid : J)
  | Connect (user : J)
  | Disconnect (user : J)
  | Remove (u : uid) (onUserBehalf : bool)
  | RemoveTimerTick
  (** User::setConnected *)
  | SetConnected (u : uid) (b : bool).

Definition react (i : manager_input) : mgr unit :=
  match i with
  | PresenceReceived p => onPresenceReceived handlePresence p
  | MessageReceived m => handleMessageReceived m
  | DiscoInfoReceived jid => handleDiscoInfo jid
  | Connect user => connectUser handlePresence user
  | Disconnect user => disconnectUser handlePresence user
  | Remove u b => removeUser handlePresence u b
  | RemoveTimerTick => removeTimer_onTick handlePresence
  | SetConnected u b =>
      o ← load u; modify (with_user_heap (<[u := mkManagedUser (mu_jid o) (mu_info o) b]>))
  end.

Definition initial (st : option St) : Manager J St :=
  mkManager [] None [] 0 st Login.initial [] ∅ [].
End manager.
