(* ===== verification/Sqlite.v ===== *)
(** * The SQLite storage

    SQLite3Backend (libtransport/SQLite3Backend.cpp). The tables are sorted by their
    primary keys, which is the order of the statements that ask for one; the
    prepared statements are read as SQL says. The engine decides which statements
    fail, and the order of rows nobody asked an order for. *)

From S2P Require Import Prelude StdMap Codecs Text.
From S2P Require Pool Roster UserManager.

Abbreviation UserInfo := Pool.UserInfo.

#[export] Instance Z_key : StdKey Z.
Proof.
  refine {| key_lt := Z.ltb |}.
  - apply Z.ltb_irrefl.
  - intros x y z ?%Z.ltb_lt ?%Z.ltb_lt. apply Z.ltb_lt. lia.
  - intros x y Hne. rewrite !Z.ltb_lt. lia.
Defined.

(** ** Tables *)

Record users_row := mkUsersRow {
  ur_jid : string;
  ur_uin : string;
  ur_password : string;
  ur_language : string;
  ur_encoding : string;
  ur_last_login : Z;
  ur_vip : Z;
  ur_online : Z;
}.

Record buddies_row := mkBuddiesRow {
  br_user_id : Z;
  br_uin : string;
  br_subscription : string;
  br_nickname : string;
  br_groups : string;
  br_flags : Z;
}.

(** A row of buddies_settings, without its key (buddy_id, var). *)
Record buddies_settings_row := mkBuddiesSettingsRow {
  bs_user_id : Z;
  bs_type : Z;
  bs_value : string;
}.

(** A row of users_settings, without its key (user_id, var). *)
Record users_settings_row := mkUsersSettingsRow {
  us_type : Z;
  us_value : string;
}.

Record Database := mkDatabase {
  t_users : smap Z users_row;
  t_buddies : smap Z buddies_row;
  t_buddies_settings : smap (Z * string) buddies_settings_row;
  t_users_settings : smap (Z * string) users_settings_row;
  (** sqlite3_last_insert_rowid *)
  last_insert_rowid : Z;
  (** DATETIME('NOW') *)
  db_now : Z;
}.

Definition with_users f (d : Database) := mkDatabase (f (t_users d)) (t_buddies d) (t_buddies_settings d) (t_users_settings d) (last_insert_rowid d) (db_now d).
Definition with_buddies f (d : Database) := mkDatabase (t_users d) (f (t_buddies d)) (t_buddies_settings d) (t_users_settings d) (last_insert_rowid d) (db_now d).
Definition with_buddies_settings f (d : Database) := mkDatabase (t_users d) (t_buddies d) (f (t_buddies_settings d)) (t_users_settings d) (last_insert_rowid d) (db_now d).
Definition with_users_settings f (d : Database) := mkDatabase (t_users d) (t_buddies d) (t_buddies_settings d) (f (t_users_settings d)) (last_insert_rowid d) (db_now d).
Definition with_rowid x (d : Database) := mkDatabase (t_users d) (t_buddies d) (t_buddies_settings d) (t_users_settings d) x (db_now d).

(** The prepared statements. *)
Inductive Statement :=
  | m_setUser | m_getUser | m_getUserSettings | m_getUserSetting | m_setUserSetting | m_updateUserSetting
  | m_removeUser | m_removeUserBuddies | m_removeUserSettings | m_removeUserBuddiesSettings
  | m_removeBuddy | m_removeBuddySettings | m_addBuddy | m_updateBuddy | m_updateBuddySetting
  | m_getBuddySetting | m_getBuddies | m_getBuddiesSettings | m_setUserOnline | m_getOnlineUsers
  | m_getUsers | m_getLegacyNetworkUsers.

(** The engine: a statement that reads may fail after some rows, one that writes may
    fail; rows without ORDER BY come in some order. *)
Class SqlEngine := {
  fails_after : Statement → Database → option nat;
  arrange : list string → list string;
  arrange_permutes l : arrange l ≡ₚ l;
}.

(** SettingType, with [UserManager.TYPE_BOOLEAN] *)
Definition TYPE_STRING : Z := 13.

(** struct SettingVariableInfo, whose member [i] nobody uses *)
Record SettingVariableInfo := mkSettingVariable {
  sv_type : Z;
  sv_s : string;
  sv_b : bool;
}.

(** struct BuddyInfo *)
Record BuddyInfo := mkBuddyInfo {
  bi_id : Z;
  bi_alias : string;
  bi_legacyName : string;
  bi_subscription : string;
  bi_groups : list string;
  bi_settings : smap string SettingVariableInfo;
  bi_flags : Z;
}.

(** What c_str() of a string is: it ends at the first NUL. *)
Fixpoint c_str (s : string) : string :=
  match s with
  | EmptyString => EmptyString
  | String c s => if Ascii.eqb c "000" then EmptyString else String c (c_str s)
  end.

(** atoi: white space, a sign, digits. *)
Fixpoint digits_value (acc : Z) (s : string) : Z :=
  match s with
  | EmptyString => acc
  | String c s =>
      let d := (Z.of_N (N_of_ascii c) - 48)%Z in
      if (0 <=? d)%Z && (d <=? 9)%Z then digits_value (10 * acc + d) s else acc
  end.

Definition is_space (c : ascii) : bool :=
  let n := N_of_ascii c in (n =? 32)%N || ((9 <=? n)%N && (n <=? 13)%N).

Fixpoint atoi (s : string) : Z :=
  match s with
  | EmptyString => 0
  | String c rest =>
      if is_space c then atoi rest
      else if Ascii.eqb c "-" then (- digits_value 0 rest)%Z
      else if Ascii.eqb c "+" then digits_value 0 rest
      else digits_value 0 s
  end.

(** A row of the settings, in the order of the contacts. *)
Abbreviation setting := (Z * string * buddies_settings_row)%type.

Section sqlite.
Context `{SqlEngine} `{Split}.
Implicit Types (d : Database).

(** The rows a reading statement steps through, and whether it ends well. *)
Definition select {A} (stmt : Statement) d (rows : list A) : list A * bool :=
  match fails_after stmt d with
  | None => (rows, true)
  | Some n => (take n rows, false)
  end.

(** The effect of a writing statement, and whether it is done. *)
Definition write (stmt : Statement) (f : Database → Database) d : Database * bool :=
  match fails_after stmt d with
  | None => (f d, true)
  | Some _ => (d, false)
  end.

(** The key of a new row of a table with INTEGER PRIMARY KEY: one more than the
    largest. *)
Definition new_rowid {V} (m : smap Z V) : Z :=
  match last m with Some (id, _) => (id + 1)%Z | None => 1 end.

(** ** Users *)

(** SELECT id FROM users WHERE jid = ? *)
Definition find_jid (jid : string) d : option (Z * users_row) :=
  List.find (λ '(_, r), String.eqb (ur_jid r) jid) (t_users d).

(** INSERT OR REPLACE: the new row has the old one's key, but columns that are not
    given have their defaults. *)
Definition insert_or_replace_user (user : UserInfo) d : Database :=
  let jid := c_str (Pool.ui_jid user) in
  let id := match find_jid jid d with Some (id, _) => id | None => new_rowid (t_users d) end in
  with_rowid id (with_users (sinsert id (mkUsersRow jid (c_str (Pool.ui_uin user)) (c_str (Pool.ui_password user))
    (c_str (Pool.ui_language user)) (c_str (Pool.ui_encoding user)) (db_now d)
    (if Pool.ui_vip user then 1 else 0) 0)) d).

Definition setUser (user : UserInfo) d : Database := fst (write m_setUser (insert_or_replace_user user) d).

Definition getUser (barejid : string) d : option UserInfo :=
  match select m_getUser d (filter (λ '(_, r), ur_jid r = c_str barejid) (t_users d)) with
  | ((id, r) :: _, _) =>
      Some (Pool.mkUserInfo (to_int id) (ur_jid r) (ur_uin r) (ur_password r) (ur_language r) (ur_encoding r)
              (negb (ur_vip r =? 0)%Z) [])
  | ([], _) => None
  end.

(** UPDATE of the rows that satisfy a condition. *)
Definition update_rows {K V} (p : K → V → bool) (f : V → V) (m : smap K V) : smap K V :=
  (λ '(k, v), (k, if p k v then f v else v)) <$> m.

(** DELETE of the rows that satisfy a condition. *)
Definition delete_rows {K V} (p : K → V → bool) (m : smap K V) : smap K V :=
  filter (λ '(k, v), p k v = false) m.

Definition setUserOnline (id : Z) (online : bool) d : Database :=
  fst (write m_setUserOnline (λ d, with_users (update_rows (λ k _, (k =? to_int id)%Z) (λ r,
    mkUsersRow (ur_jid r) (ur_uin r) (ur_password r) (ur_language r) (ur_encoding r) (db_now d) (ur_vip r)
      (if online then 1 else 0))) d) d).

(** The three lists of users: what was there, what is found, and whether all is. *)
Definition getOnlineUsers (found : list string) d : list string * bool :=
  let '(rows, done) := select m_getOnlineUsers d
    (arrange ((λ '(_, r), ur_jid r) <$> filter (λ '(_, r), ur_online r = 1%Z) (t_users d))) in
  (found ++ rows, done).

Definition getUsers (found : list string) d : list string * bool :=
  let '(rows, done) := select m_getUsers d (arrange ((λ '(_, r), ur_jid r) <$> t_users d)) in
  (found ++ rows, done).

Definition getLegacyNetworkUsers (found : list string) d : list string * bool :=
  let '(rows, done) := select m_getLegacyNetworkUsers d (arrange ((λ '(_, r), ur_uin r) <$> t_users d)) in
  (found ++ rows, done).

(** ** Contacts *)

Definition insert_or_replace_setting (userId buddyId : Z) (variable : string) (type : Z) (value : string) d : Database :=
  with_buddies_settings (sinsert (to_int buddyId, c_str variable)
    (mkBuddiesSettingsRow (to_int userId) type (c_str value))) d.

Definition updateBuddySetting (userId buddyId : Z) (variable : string) (type : Z) (value : string) d : Database :=
  fst (write m_updateBuddySetting (insert_or_replace_setting userId buddyId variable type value) d).

(** The setting icon_hash of a contact; a contact without one is end(), whose
    members nobody may read. *)
Definition store_icon_hash (userId id : Z) (info : BuddyInfo) d : result Database unit :=
  match sfind "icon_hash"%string (bi_settings info) with
  | Some var => Done tt (updateBuddySetting userId id "icon_hash" TYPE_STRING (sv_s var) d)
  | None => Fault OutOfRange
  end.

(** The unique index on user_id and uin. *)
Definition buddy_exists (userId : Z) (uin : string) d : bool :=
  existsb (λ '(_, r), (br_user_id r =? userId)%Z && String.eqb (br_uin r) uin) (t_buddies d).

Definition insert_buddy (userId : Z) (info : BuddyInfo) d : Database :=
  let id := new_rowid (t_buddies d) in
  with_rowid id (with_buddies (sinsert id (mkBuddiesRow (to_int userId) (c_str (bi_legacyName info))
    (c_str (bi_subscription info)) (c_str (bi_alias info)) (c_str (serializeGroups (bi_groups info))) (bi_flags info))) d).

Definition addBuddy (userId : Z) (info : BuddyInfo) : prog Database Z :=
  d ← get;
  if buddy_exists (to_int userId) (c_str (bi_legacyName info)) d then mret (-1)%Z
  else
    let '(d', done) := write m_addBuddy (insert_buddy userId info) d in
    put d' ;;
    if negb done then mret (-1)%Z
    else
      let id := last_insert_rowid d' in
      store_icon_hash userId id info ;;
      mret id.

Definition updateBuddy (userId : Z) (info : BuddyInfo) : prog Database unit :=
  modify (λ d, fst (write m_updateBuddy (with_buddies (update_rows
    (λ _ r, (br_user_id r =? to_int userId)%Z && String.eqb (br_uin r) (c_str (bi_legacyName info)))
    (λ r, mkBuddiesRow (br_user_id r) (br_uin r) (c_str (bi_subscription info)) (c_str (bi_alias info))
            (c_str (serializeGroups (bi_groups info))) (bi_flags info)))) d)) ;;
  store_icon_hash userId (bi_id info) info.

(** *** getBuddies: two statements read side by side *)

(** Where the second statement is: the rows it has not given yet, how its last step
    ended, and the setting that was read ahead for the contact [buddy_id]. *)
Inductive Step := NotStepped | StepRow | StepDone | StepError.

#[export] Instance Step_eq_dec : EqDecision Step.
Proof. solve_decision. Defined.

Record Cursor := mkCursor {
  cu_rest : list setting;
  cu_complete : bool;
  ret2 : Step;
  cu_buddy : Z;
  cu_key : string;
  cu_var : SettingVariableInfo;
}.

(** The switch over the type; a type that is none of the two leaves [var]'s values. *)
Definition read_value (type : Z) (val : string) (var : SettingVariableInfo) : SettingVariableInfo :=
  if (type =? UserManager.TYPE_BOOLEAN)%Z then mkSettingVariable type (sv_s var) (negb (atoi val =? 0)%Z)
  else if (type =? TYPE_STRING)%Z then mkSettingVariable type val (sv_b var)
  else mkSettingVariable type (sv_s var) (sv_b var).

Definition known_type (type : Z) : bool := (type =? UserManager.TYPE_BOOLEAN)%Z || (type =? TYPE_STRING)%Z.

(** The inner loop, over the rows that are left. *)
Fixpoint read_settings (id : Z) (rest : list setting) (c : Cursor) (settings : smap string SettingVariableInfo)
    : Cursor * smap string SettingVariableInfo :=
  if negb (cu_buddy c =? -1)%Z || bool_decide (ret2 c = StepDone) || bool_decide (ret2 c = StepError) then (c, settings)
  else match rest with
  | [] =>
      (mkCursor [] (cu_complete c) (if cu_complete c then StepDone else StepError) (cu_buddy c) (cu_key c) (cu_var c),
       settings)
  | (buddy, key, row) :: rest =>
      let type := to_int (bs_type row) in
      let var := read_value type (bs_value row) (cu_var c) in
      let mine := (to_int buddy =? id)%Z in
      let c := mkCursor rest (cu_complete c) StepRow (if mine then -1 else to_int buddy)%Z key var in
      read_settings id rest c (if mine && known_type type then sinsert key var settings else settings)
  end.

Definition read_buddy (c : Cursor) (row : Z * buddies_row) : Cursor * BuddyInfo :=
  let '(rowid, r) := row in
  let id := to_int rowid in
  let ahead := (cu_buddy c =? id)%Z in
  let settings := if ahead then sinsert (cu_key c) (cu_var c) [] else [] in
  let c := if ahead then mkCursor (cu_rest c) (cu_complete c) (ret2 c) (-1) (cu_key c) (cu_var c) else c in
  let '(c, settings) := read_settings id (cu_rest c) c settings in
  (c, mkBuddyInfo id (br_nickname r) (br_uin r) (br_subscription r) (deserializeGroups (br_groups r)) settings
        (to_int (br_flags r))).

Fixpoint read_buddies (c : Cursor) (rows : list (Z * buddies_row)) : Cursor * list BuddyInfo :=
  match rows with
  | [] => (c, [])
  | row :: rows =>
      let '(c, info) := read_buddy c row in
      let '(c, infos) := read_buddies c rows in
      (c, info :: infos)
  end.

Definition buddies_of (userId : Z) d : list (Z * buddies_row) :=
  filter (λ '(_, r), br_user_id r = to_int userId) (t_buddies d).

Definition settings_of (userId : Z) d : list setting :=
  filter (λ '(_, r), bs_user_id r = to_int userId) (t_buddies_settings d).

Definition start_cursor (rows : list setting) (complete : bool) : Cursor :=
  mkCursor rows complete NotStepped (-1) "" (mkSettingVariable 0 "" false).

(** What the second statement has not given yet is read at the end, so the answer says
    whether both end well. *)
Definition getBuddies (userId : Z) d : list BuddyInfo * bool :=
  let '(rows, done) := select m_getBuddies d (buddies_of userId d) in
  let '(settings, complete) := select m_getBuddiesSettings d (settings_of userId d) in
  let '(_, infos) := read_buddies (start_cursor settings complete) rows in
  (infos, done && complete).

Definition removeBuddy (id : Z) d : Database :=
  let '(d, done) := write m_removeBuddy (with_buddies (delete_rows (λ k _, (k =? to_int id)%Z))) d in
  if negb done then d
  else fst (write m_removeBuddySettings
              (with_buddies_settings (delete_rows (λ k _, (fst k =? to_int id)%Z))) d).

Definition removeUser (id : Z) d : Database * bool :=
  let id := to_int id in
  let '(d, done) := write m_removeUser (with_users (delete_rows (λ k _, (k =? id)%Z))) d in
  if negb done then (d, false) else
  let '(d, done) := write m_removeUserSettings (with_users_settings (delete_rows (λ k _, (fst k =? id)%Z))) d in
  if negb done then (d, false) else
  let '(d, done) := write m_removeUserBuddies (with_buddies (delete_rows (λ _ r, (br_user_id r =? id)%Z))) d in
  if negb done then (d, false) else
  write m_removeUserBuddiesSettings (with_buddies_settings (delete_rows (λ _ r, (bs_user_id r =? id)%Z))) d.

(** ** Settings *)

Definition getAllSettings (userId : Z) (settings : list (string * string)) d : list (string * string) :=
  foldl (λ settings '((_, var), r), sinsert var (us_value r) settings) settings
    (fst (select m_getUserSettings d (filter (λ '(k, _), fst k = to_int userId) (t_users_settings d)))).

(** A plain INSERT fails where there is a row. *)
Definition insert_user_setting (id : Z) (variable : string) (type : Z) (value : string) d : Database :=
  let key := (to_int id, c_str variable) in
  match sfind key (t_users_settings d) with
  | Some _ => d
  | None => with_users_settings (sinsert key (mkUsersSettingsRow type (c_str value))) d
  end.

(** The type and value asked for; a setting that is not there is written. *)
Definition getUserSetting (id : Z) (variable : string) (type : Z) (value : string) d : (Z * string) * Database :=
  match select m_getUserSetting d (option_list (sfind (to_int id, c_str variable) (t_users_settings d))) with
  | (r :: _, _) => ((to_int (us_type r), us_value r), d)
  | ([], _) => ((type, value), fst (write m_setUserSetting (insert_user_setting id variable type value) d))
  end.

Definition updateUserSetting (id : Z) (variable value : string) d : Database :=
  fst (write m_updateUserSetting (with_users_settings (update_rows
    (λ k _, bool_decide (k = (to_int id, c_str variable)))
    (λ r, mkUsersSettingsRow (us_type r) (c_str value)))) d).

Definition getBuddySetting (userId buddyId : Z) (variable : string) (type : Z) (value : string) d : Z * string :=
  match select m_getBuddySetting d (filter (λ r, bs_user_id r = to_int userId)
          (option_list (sfind (to_int buddyId, c_str variable) (t_buddies_settings d)))) with
  | (r :: _, _) => (to_int (bs_type r), bs_value r)
  | ([], _) => (type, value)
  end.

(** ** The abstract class StorageBackend *)

(** The roster's view of a contact keeps one setting. *)
Definition icon_hash_settings (icon_hash : option string) : smap string SettingVariableInfo :=
  match icon_hash with
  | Some s => [("icon_hash"%string, mkSettingVariable TYPE_STRING s false)]
  | None => []
  end.

Definition of_roster (i : Roster.BuddyInfo) : BuddyInfo :=
  mkBuddyInfo (Roster.bi_id i) (Roster.bi_alias i) (Roster.bi_legacyName i) (Roster.bi_subscription i)
    (Roster.bi_groups i) (icon_hash_settings (Roster.bi_icon_hash i)) (Roster.bi_flags i).

Definition to_roster (i : BuddyInfo) : Roster.BuddyInfo :=
  Roster.mkBuddyInfo (bi_id i) (bi_alias i) (bi_legacyName i) (bi_subscription i) (bi_groups i)
    (sv_s <$> sfind "icon_hash"%string (bi_settings i)) (bi_flags i).

#[export] Instance sqlite_users : UserManager.StorageBackend Database := {
  db_getUser := getUser;
  db_setUser := setUser;
  db_setUserOnline := setUserOnline;
  db_getAllSettings := getAllSettings;
  db_getUserSetting id variable type value d :=
    let '((_, value), d) := getUserSetting id variable type value d in (value, d);
}.

(** A contact the roster writes has an icon hash, so the fault does not come. *)
#[export] Instance sqlite_buddies : Roster.BuddyStorage Database := {
  db_getBuddies userId d := to_roster <$> fst (getBuddies userId d);
  db_addBuddy userId info d :=
    match addBuddy userId (of_roster info) d with Done id d => (id, d) | Fault _ => ((-1)%Z, d) end;
  db_updateBuddy userId info d :=
    match updateBuddy userId (of_roster info) d with Done _ d => d | Fault _ => d end;
  db_removeBuddy := removeBuddy;
  db_beginTransaction d := d;
  db_commitTransaction d := d;
}.
End sqlite.
