(* ===== verification/SqliteTheorems.v ===== *)
(** * What the SQLite storage keeps

    Its tables stay consistent, and the two statements getBuddies reads side by side
    give each contact its own settings: a contact that is added is read back. *)

From Stdlib Require Import Sorting.Sorted.
From S2P Require Import Prelude StdMap Codecs Text Sqlite.
From S2P Require Pool Roster UserManager.

(** ** Statements on tables *)

Lemma filter_nothing {A} (P : A → Prop) `{∀ x, Decision (P x)} (l : list A) : (∀ x, x ∈ l → ¬ P x) → filter P l = [].
Proof.
  induction l as [|x l IH]; intros Hl; [done|]. rewrite filter_cons_False by (apply Hl; set_solver). apply IH. set_solver.
Qed.

Lemma filter_everything {A} (P : A → Prop) `{∀ x, Decision (P x)} (l : list A) : (∀ x, x ∈ l → P x) → filter P l = l.
Proof.
  induction l as [|x l IH]; intros Hl; [done|]. rewrite filter_cons_True by (apply Hl; set_solver). f_equal.
  apply IH. set_solver.
Qed.

Section tables.
Context {K V : Type} `{StdKey K}.
Implicit Types (m : smap K V) (p : K → V → bool).

Lemma sfind_update_rows p f k m : sfind k (update_rows p f m) = (λ v, if p k v then f v else v) <$> sfind k m.
Proof.
  induction m as [|[k' v'] m IH]; [done|]. simpl. case_decide as Hk; [by subst|exact IH].
Qed.

Lemma update_rows_sorted p f m : sorted m → sorted (update_rows p f m).
Proof.
  induction 1 as [|[k v] m Hm IH Hall]; [constructor|]. constructor; [done|].
  apply Forall_fmap. eapply Forall_impl; [exact Hall|]. by intros [k' v'].
Qed.

Lemma delete_rows_sorted p m : sorted m → sorted (delete_rows p m).
Proof. apply sfilter_sorted. Qed.

Lemma sfind_delete_rows p k m :
  sorted m → sfind k (delete_rows p m) = v ← sfind k m; if p k v then None else Some v.
Proof.
  intros Hm. destruct (sfind k (delete_rows p m)) as [v|] eqn:E.
  - apply sfind_elem, list_elem_of_filter in E as [Hp Hin]. rewrite (elem_sfind k v m) by done. simpl. by rewrite Hp.
  - destruct (sfind k m) as [v|] eqn:Ek; [|done]. simpl. destruct (p k v) eqn:Ep; [done|].
    apply sfind_elem in Ek. rewrite (elem_sfind k v (delete_rows p m)) in E; [done|by apply delete_rows_sorted|].
    by apply list_elem_of_filter.
Qed.

Lemma sinsert_last k v m : (∀ k' v', (k', v') ∈ m → key_lt k' k = true) → sinsert k v m = m ++ [(k, v)].
Proof.
  induction m as [|[k' v'] m IH]; intros Hlt; [done|]. simpl.
  assert (key_lt k' k = true) as Hk by (apply (Hlt k' v'); set_solver).
  rewrite decide_False by (intros ->; by rewrite key_lt_irrefl in Hk).
  destruct (key_lt k k') eqn:E; [pose proof (key_lt_trans _ _ _ Hk E) as Hk2; by rewrite key_lt_irrefl in Hk2|].
  rewrite IH; [done|]. intros k2 v2 Hin. apply (Hlt k2 v2). set_solver.
Qed.

Lemma sfind_elem_iff k v m : sorted m → sfind k m = Some v ↔ (k, v) ∈ m.
Proof. split; [apply sfind_elem|by apply elem_sfind]. Qed.
End tables.

Lemma new_rowid_above {V} (m : smap Z V) k v : sorted m → (k, v) ∈ m → (k < new_rowid m)%Z.
Proof.
  unfold new_rowid. intros Hm. induction Hm as [|[k' v'] m Hm IH Hall]; [by intros ?%not_elem_of_nil|].
  rewrite last_cons. destruct (last m) as [[k2 v2]|] eqn:El.
  - intros [[= -> ->]|Hin]%elem_of_cons; [|by apply IH].
    apply last_Some_elem_of in El. eapply Forall_forall in El; [|exact Hall].
    unfold entry_lt in El. simpl in El. apply Z.ltb_lt in El. lia.
  - apply last_None in El as ->. intros [[= -> ->]|?%not_elem_of_nil]%elem_of_cons; [lia|done].
Qed.

Lemma new_rowid_fresh {V} (m : smap Z V) : sorted m → sfind (new_rowid m) m = None.
Proof.
  intros Hm. destruct (sfind (new_rowid m) m) as [v|] eqn:E; [|done].
  apply sfind_elem, new_rowid_above in E; [lia|done].
Qed.

(** ** Consistent tables *)

(** Rows in the order of their keys; one user per JID, one contact per name, whose
    identifier fits an int. *)
Record tables_ok (d : Database) : Prop := mkTablesOk {
  tb_users : sorted (t_users d);
  tb_buddies : sorted (t_buddies d);
  tb_buddies_settings : sorted (t_buddies_settings d);
  tb_users_settings : sorted (t_users_settings d);
  tb_jids : ∀ id id' r r', sfind id (t_users d) = Some r → sfind id' (t_users d) = Some r' →
    ur_jid r = ur_jid r' → id = id';
  tb_uins : ∀ id id' r r', sfind id (t_buddies d) = Some r → sfind id' (t_buddies d) = Some r' →
    br_user_id r = br_user_id r' → br_uin r = br_uin r' → id = id';
  tb_ids : ∀ id r, sfind id (t_buddies d) = Some r → (0 < id < 2 ^ 31)%Z;
}.

(** The settings of a contact, all strings, belong to its owner. *)
Record settings_ok (d : Database) : Prop := mkSettingsOk {
  so_owner : ∀ id var s, sfind (id, var) (t_buddies_settings d) = Some s →
    ∃ r, sfind id (t_buddies d) = Some r ∧ br_user_id r = bs_user_id s;
  so_strings : ∀ k s, sfind k (t_buddies_settings d) = Some s → bs_type s = TYPE_STRING;
}.

Record consistent (d : Database) : Prop := mkConsistent {
  ct_tables : tables_ok d;
  ct_settings : settings_ok d;
}.

Lemma ct_users d : consistent d → sorted (t_users d).
Proof. intros [[] _]. done. Qed.

Lemma ct_buddies d : consistent d → sorted (t_buddies d).
Proof. intros [[] _]. done. Qed.

Lemma ct_buddies_settings d : consistent d → sorted (t_buddies_settings d).
Proof. intros [[] _]. done. Qed.

Lemma ct_ids d : consistent d → ∀ id r, sfind id (t_buddies d) = Some r → (0 < id < 2 ^ 31)%Z.
Proof. intros [[] _]. done. Qed.

Definition empty_database (now : Z) : Database := mkDatabase [] [] [] [] 0 now.

Lemma empty_consistent now : consistent (empty_database now).
Proof. split; split; simpl; try constructor; done. Qed.

(** What the program does to its database. *)
Inductive operation :=
  | SetUser (user : UserInfo)
  | SetUserOnline (id : Z) (online : bool)
  | RemoveUser (id : Z)
  | AddBuddy (userId : Z) (info : BuddyInfo)
  | UpdateBuddy (userId : Z) (info : BuddyInfo)
  | RemoveBuddy (id : Z)
  | UpdateBuddySetting (userId buddyId : Z) (variable : string) (type : Z) (value : string)
  | GetUserSetting (id : Z) (variable : string) (type : Z) (value : string)
  | UpdateUserSetting (id : Z) (variable value : string).

(** *** The tables, whatever the engine carries out *)

Section tables_kept.
Implicit Types (d : Database).

Lemma find_jid_Some jid d id r : tables_ok d →
  find_jid jid d = Some (id, r) ↔ sfind id (t_users d) = Some r ∧ ur_jid r = jid.
Proof.
  intros Hc. unfold find_jid. split.
  - intros [Hin Hj]%List.find_some. apply list_elem_of_In in Hin. split; [|by apply String.eqb_eq].
    apply elem_sfind; [apply Hc|done].
  - intros [Hf <-]. destruct (List.find _ (t_users d)) as [[id' r']|] eqn:E.
    + apply List.find_some in E as [Hin Hj]. apply list_elem_of_In, elem_sfind in Hin; [|apply Hc].
      apply String.eqb_eq in Hj. pose proof (tb_jids _ Hc _ _ _ _ Hin Hf Hj) as ->. congruence.
    + eapply List.find_none in E; [|by apply list_elem_of_In, sfind_elem]. simpl in E. by rewrite String.eqb_refl in E.
Qed.

Lemma find_jid_None jid d id r : find_jid jid d = None → sfind id (t_users d) = Some r → ur_jid r ≠ jid.
Proof.
  intros E Hf <-. eapply List.find_none in E; [|by apply list_elem_of_In, sfind_elem].
  simpl in E. by rewrite String.eqb_refl in E.
Qed.

(** The key insert_or_replace_user writes to. *)
Definition user_key (jid : string) d : Z :=
  match find_jid jid d with Some (id, _) => id | None => new_rowid (t_users d) end.

Lemma user_key_others jid d id r : tables_ok d → sfind id (t_users d) = Some r → ur_jid r = jid → id = user_key jid d.
Proof.
  intros Hc Hf Hj. unfold user_key. destruct (find_jid jid d) as [[id' r']|] eqn:E.
  - apply find_jid_Some in E as [Hf' Hj']; [|done]. eapply (tb_jids _ Hc); [exact Hf|exact Hf'|congruence].
  - by eapply find_jid_None in E.
Qed.

Lemma set_user_tables user d : tables_ok d → tables_ok (insert_or_replace_user user d).
Proof.
  intros Hc. pose proof Hc as [Hu Hb Hs Hus Hj Hn Hi]. split; simpl; try done; [by apply sinsert_sorted|].
  change (match find_jid (c_str (Pool.ui_jid user)) d with Some (id, _) => id | None => new_rowid (t_users d) end)
    with (user_key (c_str (Pool.ui_jid user)) d).
  intros id id' r r'. set (k := user_key (c_str (Pool.ui_jid user)) d).
  destruct (decide (id = k)) as [->|Hk], (decide (id' = k)) as [->|Hk'];
    rewrite ?sfind_sinsert_eq, ?sfind_sinsert_ne by done; [done| | |by apply Hj].
  - intros [= <-] Hf Hjid. simpl in Hjid. exfalso. apply Hk'. by eapply user_key_others.
  - intros Hf [= <-] Hjid. simpl in Hjid. exfalso. apply Hk. by eapply user_key_others.
Qed.

(** Changing users only, without their JIDs. *)
Lemma update_users_tables p f d :
  (∀ r, ur_jid (f r) = ur_jid r) → tables_ok d → tables_ok (with_users (update_rows p f) d).
Proof.
  intros Hf [Hu Hb Hs Hus Hj Hn Hi]. split; simpl; try done; [by apply update_rows_sorted|].
  intros id id' r r'. rewrite !sfind_update_rows, !fmap_Some. intros (r1 & H1 & ->) (r2 & H2 & ->) Hjid.
  eapply Hj; [exact H1|exact H2|]. repeat case_match; rewrite ?Hf in Hjid; done.
Qed.

Lemma delete_users_tables p d : tables_ok d → tables_ok (with_users (delete_rows p) d).
Proof.
  intros [Hu Hb Hs Hus Hj Hn Hi]. split; simpl; try done; [by apply delete_rows_sorted|].
  intros id id' r r'. rewrite !sfind_delete_rows by done. intros H1 H2.
  apply bind_Some in H1 as (r1 & H1 & E1), H2 as (r2 & H2 & E2). repeat case_match; try done.
  injection E1 as ->. injection E2 as ->. by apply Hj.
Qed.

Lemma users_settings_tables f d :
  (∀ m, sorted m → sorted (f m)) → tables_ok d → tables_ok (with_users_settings f d).
Proof. intros Hf [Hu Hb Hs Hus Hj Hn Hi]. split; simpl; auto. Qed.

Lemma buddies_settings_tables f d :
  (∀ m, sorted m → sorted (f m)) → tables_ok d → tables_ok (with_buddies_settings f d).
Proof. intros Hf [Hu Hb Hs Hus Hj Hn Hi]. split; simpl; auto. Qed.

Lemma setting_tables userId buddyId variable type value d :
  tables_ok d → tables_ok (insert_or_replace_setting userId buddyId variable type value d).
Proof. apply buddies_settings_tables. intros m. apply sinsert_sorted. Qed.

Lemma buddy_exists_None userId uin d id r :
  buddy_exists userId uin d = false → sfind id (t_buddies d) = Some r → br_user_id r = userId → br_uin r ≠ uin.
Proof.
  intros E Hf <- <-. unfold buddy_exists in E.
  assert (existsb (λ '(_, r0), (br_user_id r0 =? br_user_id r)%Z && String.eqb (br_uin r0) (br_uin r)) (t_buddies d) = true) as E';
    [|congruence].
  apply existsb_exists. exists (id, r). split; [by apply list_elem_of_In, sfind_elem|]. by rewrite Z.eqb_refl, String.eqb_refl.
Qed.

Lemma new_id_range d : tables_ok d → (0 < new_rowid (t_buddies d))%Z.
Proof.
  intros Hc. unfold new_rowid. destruct (last (t_buddies d)) as [[k v]|] eqn:E; [|done].
  apply last_Some_elem_of, elem_sfind in E; [|apply Hc]. apply (tb_ids _ Hc) in E. lia.
Qed.

Lemma insert_buddy_tables `{Split} userId info d :
  tables_ok d → (new_rowid (t_buddies d) < 2 ^ 31)%Z →
  buddy_exists (to_int userId) (c_str (bi_legacyName info)) d = false → tables_ok (insert_buddy userId info d).
Proof.
  intros Hc Hlt Hex. pose proof (new_id_range d Hc) as Hpos. pose proof Hc as [Hu Hb Hs Hus Hj Hn Hi].
  split; simpl; try done; [by apply sinsert_sorted| |]; set (k := new_rowid (t_buddies d)) in *.
  - intros id id' r r'. destruct (decide (id = k)) as [->|Hk], (decide (id' = k)) as [->|Hk'];
      rewrite ?sfind_sinsert_eq, ?sfind_sinsert_ne by done; [done| | |by apply Hn].
    + intros [= <-] Hf Hw Hname. simpl in *. exfalso. by eapply (buddy_exists_None _ _ _ _ _ Hex).
    + intros Hf [= <-] Hw Hname. simpl in *. exfalso. by eapply (buddy_exists_None _ _ _ _ _ Hex).
  - intros id r. destruct (decide (id = k)) as [->|Hk]; [lia|]. rewrite sfind_sinsert_ne by done. by apply Hi.
Qed.

(** Changing contacts, but not whose they are nor their names. *)
Lemma update_buddies_tables p f d :
  (∀ r, br_user_id (f r) = br_user_id r ∧ br_uin (f r) = br_uin r) → tables_ok d →
  tables_ok (with_buddies (update_rows p f) d).
Proof.
  intros Hf [Hu Hb Hs Hus Hj Hn Hi]. split; simpl; try done; [by apply update_rows_sorted| |].
  - intros id id' r r'. rewrite !sfind_update_rows, !fmap_Some. intros (r1 & H1 & ->) (r2 & H2 & ->) Hw Hname.
    destruct (Hf r1), (Hf r2). eapply Hn; [exact H1|exact H2| |]; repeat case_match; congruence.
  - intros id r. rewrite sfind_update_rows, fmap_Some. intros (r1 & H1 & _). by eapply Hi.
Qed.

Lemma delete_buddies_tables p d : tables_ok d → tables_ok (with_buddies (delete_rows p) d).
Proof.
  intros [Hu Hb Hs Hus Hj Hn Hi]. split; simpl; try done; [by apply delete_rows_sorted| |].
  - intros id id' r r'. rewrite !sfind_delete_rows by done. intros (r1 & H1 & E1)%bind_Some (r2 & H2 & E2)%bind_Some.
    repeat case_match; try done. injection E1 as ->. injection E2 as ->. by apply Hn.
  - intros id r. rewrite sfind_delete_rows by done. intros (r1 & H1 & _)%bind_Some. by eapply Hi.
Qed.
End tables_kept.

(** *** The settings *)

Section settings_kept.
Implicit Types (d : Database).

Definition owns (userId id : Z) d : Prop :=
  ∃ r, sfind (to_int id) (t_buddies d) = Some r ∧ br_user_id r = to_int userId.

(** The settings are kept by what touches neither table. *)
Lemma settings_elsewhere d d' :
  settings_ok d → t_buddies d' = t_buddies d → t_buddies_settings d' = t_buddies_settings d → settings_ok d'.
Proof. intros [Ho Ht] E1 E2. split; by rewrite ?E1, ?E2. Qed.

(** A setting is in order exactly when it is a string, for a contact of the user. *)
Lemma setting_kept userId buddyId variable type value d :
  settings_ok d →
  settings_ok (insert_or_replace_setting userId buddyId variable type value d) ↔ type = TYPE_STRING ∧ owns userId buddyId d.
Proof.
  intros [Ho Ht]. set (key := (to_int buddyId, c_str variable)). split.
  - intros [Ho' Ht'].
    assert (Hf : sfind key (t_buddies_settings (insert_or_replace_setting userId buddyId variable type value d)) =
      Some (mkBuddiesSettingsRow (to_int userId) type (c_str value))) by apply sfind_sinsert_eq.
    split; [exact (Ht' _ _ Hf)|]. exact (Ho' _ _ _ Hf).
  - intros [-> (row & Hrow & Howner)]. split; simpl.
    + intros id var s. destruct (decide ((id, var) = key)) as [[= -> ->]|Hne].
      * unfold key. rewrite sfind_sinsert_eq. intros [= <-]. by exists row.
      * rewrite sfind_sinsert_ne by done. by apply Ho.
    + intros k s. destruct (decide (k = key)) as [->|Hne].
      * unfold key. rewrite sfind_sinsert_eq. by intros [= <-].
      * rewrite sfind_sinsert_ne by done. by apply Ht.
Qed.

Lemma insert_buddy_kept `{Split} userId info d :
  sorted (t_buddies d) → settings_ok d → settings_ok (insert_buddy userId info d).
Proof.
  intros Hb [Ho Ht]. pose proof (new_rowid_fresh _ Hb) as Hfresh. split; simpl; [|done].
  intros id var s Hf. destruct (Ho _ _ _ Hf) as (r & Hr & Hw). exists r. split; [|done].
  rewrite sfind_sinsert_ne; [done|]. intros ->. congruence.
Qed.

Lemma update_buddies_owns p f d userId id :
  (∀ r, br_user_id (f r) = br_user_id r) → owns userId id (with_buddies (update_rows p f) d) ↔ owns userId id d.
Proof.
  intros Hf. unfold owns. simpl. rewrite sfind_update_rows. destruct (sfind (to_int id) (t_buddies d)) as [r|]; simpl.
  - split; (intros (r' & [= <-] & <-); eexists; split; [done|]); case_match; by rewrite ?Hf.
  - split; by intros (r' & ? & _).
Qed.

Lemma update_buddies_kept p f d :
  (∀ r, br_user_id (f r) = br_user_id r) → settings_ok d → settings_ok (with_buddies (update_rows p f) d).
Proof.
  intros Hf [Ho Ht]. split; simpl; [|done]. intros id var s Hs1. destruct (Ho _ _ _ Hs1) as (r & Hr & Hw). eexists.
  rewrite sfind_update_rows, Hr. split; [done|]. case_match; by rewrite ?Hf.
Qed.

(** Deleting contacts with the settings of those that go. *)
Lemma delete_buddies_kept p q d :
  sorted (t_buddies d) → sorted (t_buddies_settings d) →
  (∀ id var r s, br_user_id r = bs_user_id s → p id r = true → q (id, var) s = true) → settings_ok d →
  settings_ok (with_buddies_settings (delete_rows q) (with_buddies (delete_rows p) d)).
Proof.
  intros Hb Hs Hpq [Ho Ht]. split; simpl.
  - intros id var s. rewrite !sfind_delete_rows by done. intros (s1 & H1 & E1)%bind_Some.
    destruct (q (id, var) s1) eqn:Eq; [done|]. injection E1 as ->. destruct (Ho _ _ _ H1) as (r & Hr & Hw).
    exists r. rewrite Hr. simpl. destruct (p id r) eqn:Ep; [|done]. by rewrite (Hpq _ _ _ _ Hw Ep) in Eq.
  - intros k s. rewrite sfind_delete_rows by done. intros (s1 & H1 & E1)%bind_Some. case_match; [done|].
    injection E1 as ->. by eapply Ht.
Qed.
End settings_kept.

(** *** The operations *)

Section operations.
Context `{SqlEngine} `{Split}.
Implicit Types (d : Database).

Definition run (o : operation) : prog Database unit :=
  match o with
  | SetUser user => modify (setUser user)
  | SetUserOnline id online => modify (setUserOnline id online)
  | RemoveUser id => modify (λ d, fst (removeUser id d))
  | AddBuddy userId info => _ ← addBuddy userId info; mret tt
  | UpdateBuddy userId info => updateBuddy userId info
  | RemoveBuddy id => modify (removeBuddy id)
  | UpdateBuddySetting userId buddyId variable type value =>
      modify (updateBuddySetting userId buddyId variable type value)
  | GetUserSetting id variable type value => modify (λ d, snd (getUserSetting id variable type value d))
  | UpdateUserSetting id variable value => modify (updateUserSetting id variable value)
  end.

Definition has_icon_hash (info : BuddyInfo) : Prop := is_Some (sfind "icon_hash"%string (bi_settings info)).

(** Contacts are written with their icon hash, and there is a key left for a new one. *)
Definition fits (o : operation) d : Prop :=
  match o with
  | AddBuddy _ info => has_icon_hash info ∧ (new_rowid (t_buddies d) < 2 ^ 31)%Z
  | UpdateBuddy _ info => has_icon_hash info
  | _ => True
  end.

(** Settings are written as strings, for contacts of the user. *)
Definition names_own (o : operation) d : Prop :=
  match o with
  | UpdateBuddy userId info => owns userId (bi_id info) d
  | UpdateBuddySetting userId buddyId _ type _ => type = TYPE_STRING ∧ owns userId buddyId d
  | _ => True
  end.

(** No statement fails. *)
Definition reliable : Prop := ∀ stmt d, fails_after stmt d = None.

Lemma write_done stmt f d : reliable → write stmt f d = (f d, true).
Proof. intros Hr. unfold write. by rewrite Hr. Qed.

Lemma select_all {A} stmt d (rows : list A) : reliable → select stmt d rows = (rows, true).
Proof. intros Hr. unfold select. by rewrite Hr. Qed.

(** What holds of the state with and without the effect holds however a statement ends. *)
Lemma write_cases (P : Database → Prop) stmt f d : P d → P (f d) → P (fst (write stmt f d)).
Proof. intros Hd Hf. unfold write. by destruct (fails_after stmt d). Qed.

Lemma write_tables stmt f d :
  tables_ok d → (tables_ok d → tables_ok (f d)) → tables_ok (fst (write stmt f d)).
Proof. intros Hd Hf. apply write_cases; auto. Qed.

Lemma store_icon_hash_run userId id info d :
  has_icon_hash info → ∃ s, store_icon_hash userId id info d =
    Done tt (updateBuddySetting userId id "icon_hash" TYPE_STRING s d).
Proof. intros [var Hv]. unfold store_icon_hash. rewrite Hv. by eexists. Qed.

Lemma updateBuddySetting_tables userId buddyId variable type value d :
  tables_ok d → tables_ok (updateBuddySetting userId buddyId variable type value d).
Proof. intros Hd. by apply write_tables, setting_tables. Qed.

Lemma addBuddy_tables userId info d :
  tables_ok d → fits (AddBuddy userId info) d → ∃ id d', addBuddy userId info d = Done id d' ∧ tables_ok d'.
Proof.
  intros Hd [[var Hv] Hlt]. unfold addBuddy. rewrite bind_run. cbn beta iota delta [get].
  destruct (buddy_exists _ _ d) eqn:Hex; [by eexists _, _|].
  pose proof (write_tables m_addBuddy (insert_buddy userId info) d Hd) as Hw.
  destruct (write m_addBuddy _ d) as [d' []]; simpl in Hw.
  - rewrite bind_run. unfold put. cbv beta iota. simpl. rewrite bind_run. unfold store_icon_hash. rewrite Hv.
    do 2 eexists. split; [done|]. apply updateBuddySetting_tables, Hw. intros _. by apply insert_buddy_tables.
  - rewrite bind_run. unfold put. do 2 eexists. split; [done|]. apply Hw. intros _. by apply insert_buddy_tables.
Qed.

Lemma updateBuddy_tables userId info d :
  tables_ok d → has_icon_hash info → ∃ d', updateBuddy userId info d = Done tt d' ∧ tables_ok d'.
Proof.
  intros Hd Hi. unfold updateBuddy. rewrite bind_run. unfold modify. cbv beta iota.
  match goal with |- context [fst (write ?s ?f d)] => assert (Hw : tables_ok (fst (write s f d))) end.
  { apply write_tables; [done|]. apply update_buddies_tables. done. }
  edestruct (store_icon_hash_run userId (bi_id info) info) as (s & ->); [done|]. eexists. split; [done|].
  by apply updateBuddySetting_tables.
Qed.

Lemma removeBuddy_tables id d : tables_ok d → tables_ok (removeBuddy id d).
Proof.
  intros Hd. unfold removeBuddy.
  pose proof (write_tables m_removeBuddy (with_buddies (delete_rows (λ k _, (k =? to_int id)%Z))) d Hd) as Hw.
  destruct (write m_removeBuddy _ d) as [d' []]; simpl in *.
  - apply write_tables; [by apply Hw, delete_buddies_tables|]. apply buddies_settings_tables. intros m. apply delete_rows_sorted.
  - by apply Hw, delete_buddies_tables.
Qed.

Lemma removeUser_tables id d : tables_ok d → tables_ok (fst (removeUser id d)).
Proof.
  intros Hd. unfold removeUser.
  pose proof (write_tables m_removeUser (with_users (delete_rows (λ k _, (k =? to_int id)%Z))) d Hd (delete_users_tables _ _)) as H1.
  destruct (write m_removeUser _ d) as [d1 []]; simpl negb; cbv beta iota zeta; [|exact H1]. simpl in H1.
  match goal with |- context [write m_removeUserSettings ?f d1] => pose proof (write_tables m_removeUserSettings f d1 H1) as H2 end.
  specialize (H2 (users_settings_tables _ _ (delete_rows_sorted _))).
  destruct (write m_removeUserSettings _ d1) as [d2 []]; simpl negb; cbv beta iota zeta; [|exact H2]. simpl in H2.
  match goal with |- context [write m_removeUserBuddies ?f d2] => pose proof (write_tables m_removeUserBuddies f d2 H2 (delete_buddies_tables _ _)) as H3 end.
  destruct (write m_removeUserBuddies _ d2) as [d3 []]; simpl negb; cbv beta iota zeta; [|exact H3]. simpl in H3.
  apply write_tables; [done|]. apply buddies_settings_tables, delete_rows_sorted.
Qed.

Lemma getUserSetting_tables id variable type value d :
  tables_ok d → tables_ok (snd (getUserSetting id variable type value d)).
Proof.
  intros Hd. unfold getUserSetting. destruct (select _ _ _) as [[|r l] b]; [|done]. simpl. apply write_tables; [done|].
  unfold insert_user_setting. destruct (sfind _ _); [done|]. apply users_settings_tables. intros m. apply sinsert_sorted.
Qed.

Lemma delete_user_run id d : reliable → removeUser id d =
  (with_buddies_settings (delete_rows (λ _ r, (bs_user_id r =? to_int id)%Z))
    (with_buddies (delete_rows (λ _ r, (br_user_id r =? to_int id)%Z))
      (with_users_settings (delete_rows (λ k _, (fst k =? to_int id)%Z))
        (with_users (delete_rows (λ k _, (k =? to_int id)%Z)) d))), true).
Proof. intros Hr. unfold removeUser. by rewrite !write_done. Qed.

Lemma addBuddy_run userId info d :
  reliable → fits (AddBuddy userId info) d →
  buddy_exists (to_int userId) (c_str (bi_legacyName info)) d = false →
  ∃ s, addBuddy userId info d = Done (new_rowid (t_buddies d))
    (updateBuddySetting userId (new_rowid (t_buddies d)) "icon_hash" TYPE_STRING s (insert_buddy userId info d))
    ∧ sv_s <$> sfind "icon_hash"%string (bi_settings info) = Some s.
Proof.
  intros Hr [[var Hv] Hlt] Hex. exists (sv_s var). unfold addBuddy. rewrite bind_run. simpl. rewrite Hex, write_done by done.
  rewrite bind_run. simpl. rewrite bind_run. unfold store_icon_hash. by rewrite Hv.
Qed.

Lemma new_buddy_owned userId info d :
  tables_ok d → (new_rowid (t_buddies d) < 2 ^ 31)%Z → owns userId (new_rowid (t_buddies d)) (insert_buddy userId info d).
Proof.
  intros Hc Hlt. pose proof (new_id_range d Hc). eexists. simpl.
  rewrite to_int_id by lia. rewrite sfind_sinsert_eq. done.
Qed.

Lemma addBuddy_kept userId info d id d' :
  reliable → tables_ok d → settings_ok d → fits (AddBuddy userId info) d → addBuddy userId info d = Done id d' → settings_ok d'.
Proof.
  intros Hr Hc Hs Ha. destruct (buddy_exists (to_int userId) (c_str (bi_legacyName info)) d) eqn:Hex.
  - unfold addBuddy. rewrite bind_run. simpl. rewrite Hex. by intros [= _ <-].
  - destruct (addBuddy_run userId info d Hr Ha Hex) as (s & -> & _). intros [= _ <-]. destruct Ha as [_ Hlt].
    unfold updateBuddySetting. rewrite write_done by done.
    apply setting_kept; [apply insert_buddy_kept; [apply Hc|done]|]. split; [done|]. by apply new_buddy_owned.
Qed.

Lemma updateBuddy_kept userId info d d' :
  reliable → settings_ok d → has_icon_hash info → updateBuddy userId info d = Done tt d' →
  settings_ok d' ↔ owns userId (bi_id info) d.
Proof.
  intros Hr Hs Hi. unfold updateBuddy. rewrite bind_run. simpl. rewrite write_done by done.
  edestruct (store_icon_hash_run userId (bi_id info) info) as (s & ->); [done|]. intros [= <-].
  unfold updateBuddySetting. rewrite write_done by done. cbn [fst]. rewrite setting_kept by (by apply update_buddies_kept).
  rewrite update_buddies_owns by done. tauto.
Qed.

Lemma removeUser_kept id d : reliable → tables_ok d → settings_ok d → settings_ok (fst (removeUser id d)).
Proof.
  intros Hr [] Hs. rewrite delete_user_run by done. apply delete_buddies_kept; [done|done| |].
  - intros _ _ r s -> ?. done.
  - by apply (settings_elsewhere d).
Qed.

(** C23: what the program's operations keep of its database. Whatever statements the engine
    fails at: rows in the order of their keys, one user for a JID, one contact of a user
    for a name, identifiers that fit an int; and the operations themselves never stop. With an engine that
    carries everything out, the settings also stay those of contacts that exist and of
    their owners: by every operation, but for writing a setting or updating a contact,
    where that is so exactly when a string is written and the contact named is one of
    that user (which UserRegistration does not see to, [orphan_setting]). Contacts are
    written with their icon hash, and a new key is below 2^31. *)
Theorem database_consistent (o : operation) d :
  tables_ok d → fits o d →
  ∃ d', run o d = Done tt d' ∧ tables_ok d' ∧ (reliable → settings_ok d → (settings_ok d' ↔ names_own o d)).
Proof.
  intros Hd. destruct o; simpl; intros Hf.
  - eexists. split; [done|]. split; [by apply write_tables, set_user_tables|].
    intros Hr Hs. unfold setUser. rewrite write_done by done. split; [done|]. intros _. by apply (settings_elsewhere d).
  - eexists. split; [done|]. split; [apply write_tables; [done|]; by apply update_users_tables|].
    intros Hr Hs. unfold setUserOnline. rewrite write_done by done. split; [done|]. intros _. by apply (settings_elsewhere d).
  - eexists. split; [done|]. split; [by apply removeUser_tables|]. intros Hr Hs. split; [done|]. intros _. by apply removeUser_kept.
  - rewrite bind_run. destruct (addBuddy_tables userId info d Hd Hf) as (id & d' & E & Hd'). rewrite E.
    exists d'. split; [done|]. split; [done|]. intros Hr Hs. split; [done|]. intros _. exact (addBuddy_kept _ _ _ _ _ Hr Hd Hs Hf E).
  - destruct (updateBuddy_tables userId info d Hd Hf) as (d' & E & Hd'). exists d'. split; [done|]. split; [done|].
    intros Hr Hs. by eapply updateBuddy_kept.
  - eexists. split; [done|]. split; [by apply removeBuddy_tables|]. intros Hr Hs. split; [done|]. intros _.
    unfold removeBuddy. rewrite !write_done by done. simpl. apply delete_buddies_kept; [apply Hd..| |done]. done.
  - eexists. split; [done|]. split; [by apply updateBuddySetting_tables|]. intros Hr Hs.
    unfold updateBuddySetting. rewrite write_done by done. by apply setting_kept.
  - eexists. split; [done|]. split; [by apply getUserSetting_tables|]. intros Hr Hs. split; [done|]. intros _.
    unfold getUserSetting. rewrite select_all by done. destruct (option_list _); [|done]. rewrite write_done by done.
    apply (settings_elsewhere d); [exact Hs|..]; unfold insert_user_setting; simpl; by destruct (sfind _ _).
  - eexists. split; [done|]. split.
    + apply write_tables; [done|]. apply users_settings_tables. intros m. apply update_rows_sorted.
    + intros Hr Hs. unfold updateUserSetting. rewrite write_done by done. split; [done|]. intros _. by apply (settings_elsewhere d).
Qed.

(** unregisterUser removes the user from the database before it removes the User, whose
    roster then stores what it has queued: the update of a contact that is gone leaves a
    setting of nobody's. *)
Theorem orphan_setting userId info d :
  reliable → tables_ok d → settings_ok d → has_icon_hash info →
  ∃ d', updateBuddy userId info (fst (removeUser userId d)) = Done tt d' ∧ ¬ settings_ok d'.
Proof.
  intros Hr Hd Hs Hi. pose proof (removeUser_tables userId d Hd) as Hd1.
  destruct (updateBuddy_tables userId info _ Hd1 Hi) as (d' & E & _). exists d'. split; [done|].
  rewrite (updateBuddy_kept _ _ _ _ Hr (removeUser_kept _ _ Hr Hd Hs) Hi E). rewrite delete_user_run by done.
  intros (r & Hf & Hw). simpl in Hf. rewrite sfind_delete_rows in Hf by apply Hd.
  apply bind_Some in Hf as (r1 & _ & E1). rewrite <- Hw in E1. destruct (Z.eqb_spec (br_user_id r1) (br_user_id r)); [done|].
  by injection E1 as ->.
Qed.

(** *** Both *)

Lemma setUser_consistent user d : reliable → consistent d → consistent (setUser user d).
Proof.
  intros Hr [Hd Hs]. split; [by apply write_tables, set_user_tables|]. unfold setUser. rewrite write_done by done.
  by apply (settings_elsewhere d).
Qed.

Lemma update_users_consistent p f d :
  (∀ r, ur_jid (f r) = ur_jid r) → consistent d → consistent (with_users (update_rows p f) d).
Proof. intros Hf [Hd Hs]. split; [by apply update_users_tables|]. by apply (settings_elsewhere d). Qed.

Lemma setting_consistent userId buddyId variable value d :
  consistent d → owns userId buddyId d →
  consistent (insert_or_replace_setting userId buddyId variable TYPE_STRING value d).
Proof. intros [Hd Hs] Ho. split; [by apply setting_tables|by apply setting_kept]. Qed.

Lemma insert_buddy_consistent userId info d :
  consistent d → (new_rowid (t_buddies d) < 2 ^ 31)%Z →
  buddy_exists (to_int userId) (c_str (bi_legacyName info)) d = false → consistent (insert_buddy userId info d).
Proof. intros [Hd Hs] ??. split; [by apply insert_buddy_tables|]. apply insert_buddy_kept; [apply Hd|done]. Qed.

Lemma addBuddy_consistent userId info d :
  reliable → consistent d → fits (AddBuddy userId info) d →
  ∃ id d', addBuddy userId info d = Done id d' ∧ consistent d'.
Proof.
  intros Hr [Hd Hs] Ha. destruct (addBuddy_tables userId info d Hd Ha) as (id & d' & E & Hd').
  exists id, d'. split; [done|]. split; [done|]. exact (addBuddy_kept _ _ _ _ _ Hr Hd Hs Ha E).
Qed.

Lemma updateBuddy_consistent userId info d :
  reliable → consistent d → has_icon_hash info → owns userId (bi_id info) d →
  ∃ d', updateBuddy userId info d = Done tt d' ∧ consistent d'.
Proof.
  intros Hr [Hd Hs] Hi Ho. destruct (updateBuddy_tables userId info d Hd Hi) as (d' & E & Hd').
  exists d'. split; [done|]. split; [done|]. by eapply updateBuddy_kept.
Qed.

Lemma removeUser_consistent id d : reliable → consistent d → consistent (fst (removeUser id d)).
Proof. intros Hr [Hd Hs]. split; [by apply removeUser_tables|by apply removeUser_kept]. Qed.
End operations.

(** ** The contacts and their settings *)

Section side_by_side.
Context `{SqlEngine} `{Split}.

Definition value_of (r : buddies_settings_row) : SettingVariableInfo := mkSettingVariable TYPE_STRING (bs_value r) false.

(** The settings the cursor has not handed out: the one read ahead and the rest. *)
Definition ahead (c : Cursor) : list (Z * string * SettingVariableInfo) :=
  if (cu_buddy c =? -1)%Z then [] else [(cu_buddy c, cu_key c, cu_var c)].

Definition todo (c : Cursor) : list (Z * string * SettingVariableInfo) :=
  ahead c ++ ((λ '(k, r), (k, value_of r)) <$> cu_rest c).

(** Identifiers that fit an int, and strings for values. *)
Definition plain (e : setting) : Prop :=
  to_int (fst (fst e)) = fst (fst e) ∧ fst (fst e) ≠ (-1)%Z ∧ bs_type (snd e) = TYPE_STRING.

Record cursor_ok (c : Cursor) : Prop := mkCursorOk {
  co_plain : Forall plain (cu_rest c);
  co_var : cu_buddy c ≠ (-1)%Z → cu_var c = mkSettingVariable TYPE_STRING (sv_s (cu_var c)) false;
  co_bool : sv_b (cu_var c) = false;
  co_end : ret2 c = StepDone ∨ ret2 c = StepError → todo c = [];
}.

Definition with_all (mine : list (Z * string * SettingVariableInfo)) (m : smap string SettingVariableInfo) :=
  foldl (λ m '((_, key), var), sinsert key var m) m mine.

Lemma read_string type val var : type = TYPE_STRING → sv_b var = false →
  read_value type val var = mkSettingVariable TYPE_STRING val false.
Proof. intros -> Hb. unfold read_value. simpl. by rewrite Hb. Qed.

Lemma read_settings_spec id rest mine others c settings :
  cu_buddy c = (-1)%Z → ret2 c ≠ StepDone → ret2 c ≠ StepError → sv_b (cu_var c) = false →
  cu_rest c = rest → Forall plain rest →
  ((λ '(k, r), (k, value_of r)) <$> rest) = mine ++ others →
  Forall (λ e, fst (fst e) = id) mine → (∀ e, head others = Some e → fst (fst e) ≠ id) →
  ∃ c', read_settings id rest c settings = (c', with_all mine settings) ∧ todo c' = others ∧ cursor_ok c'.
Proof.
  revert mine others c settings. induction rest as [|[[b k] r] rest IH];
    intros mine others c settings Hb Hd He Hv Hr Hp Hs Hm Ho.
  - destruct mine; [|done]. destruct others; [|done]. simpl. rewrite Hb, !bool_decide_false by done. simpl.
    eexists. split_and!; [done|done|]. split; simpl; rewrite ?Hb; try done.
  - simpl. rewrite Hb, !bool_decide_false by done. simpl. apply Forall_cons in Hp as [(Hi & Hb1 & Ht) Hp]. simpl in *.
    rewrite Hi, Ht. rewrite (read_string (to_int TYPE_STRING)) by done. change (known_type (to_int TYPE_STRING)) with true.
    rewrite andb_true_r. destruct mine as [|e mine].
    + simpl in Hs. subst others. assert (b ≠ id) as Hne by (by apply (Ho ((b, k), value_of r))).
      rewrite (proj2 (Z.eqb_neq b id) Hne).
      exists (mkCursor rest (cu_complete c) StepRow b k (value_of r)). split_and!.
      * destruct rest as [|[[b2 k2] r2] rest]; simpl; by rewrite (proj2 (Z.eqb_neq b (-1)) Hb1).
      * unfold todo, ahead. simpl. by rewrite (proj2 (Z.eqb_neq b (-1)) Hb1).
      * split; simpl; [done|done|done|by intros [?|?]].
    + injection Hs as <- Hs. apply Forall_cons in Hm as [Hm0 Hm]. simpl in Hm0. subst b. rewrite Z.eqb_refl.
      apply (IH mine others (mkCursor rest (cu_complete c) StepRow (-1) k (value_of r)) (sinsert k (value_of r) settings)); done.
Qed.

Definition info_of_row (rowid : Z) (r : buddies_row) (settings : smap string SettingVariableInfo) : BuddyInfo :=
  mkBuddyInfo (to_int rowid) (br_nickname r) (br_uin r) (br_subscription r) (deserializeGroups (br_groups r)) settings
    (to_int (br_flags r)).

Lemma read_buddy_spec id r mine others c :
  cursor_ok c → to_int id = id → id ≠ (-1)%Z →
  todo c = mine ++ others → Forall (λ e, fst (fst e) = id) mine → (∀ e, head others = Some e → fst (fst e) ≠ id) →
  ∃ c', read_buddy c (id, r) = (c', info_of_row id r (with_all mine [])) ∧ todo c' = others ∧ cursor_ok c'.
Proof.
  intros Hok Hi Hne Ht Hm Ho. pose proof Hok as [Hp Hv Hb He]. unfold read_buddy. rewrite Hi. unfold info_of_row. rewrite Hi.
  destruct (Z.eqb_spec (cu_buddy c) id) as [E|E].
  - unfold todo, ahead in Ht. rewrite E, (proj2 (Z.eqb_neq id (-1)) Hne) in Ht. destruct mine as [|e mine].
    { simpl in Ht. exfalso. apply (Ho (id, cu_key c, cu_var c)); [by rewrite <- Ht|done]. }
    injection Ht as <- Ht. apply Forall_cons in Hm as [_ Hm].
    assert (ret2 c ≠ StepDone ∧ ret2 c ≠ StepError) as [Hd Hee].
    { split; intros Er; [specialize (He (or_introl Er))|specialize (He (or_intror Er))];
        unfold todo, ahead in He; by rewrite E, (proj2 (Z.eqb_neq id (-1)) Hne) in He. }
    cbn [cu_rest]. destruct (read_settings_spec id (cu_rest c) mine others
      (mkCursor (cu_rest c) (cu_complete c) (ret2 c) (-1) (cu_key c) (cu_var c)) (sinsert (cu_key c) (cu_var c) []))
      as (c' & -> & Htodo & Hok'); try done. by exists c'.
  - destruct (Z.eqb_spec (cu_buddy c) (-1)) as [E1|E1].
    + unfold todo, ahead in Ht. rewrite E1 in Ht. simpl in Ht.
      destruct (decide (ret2 c = StepDone ∨ ret2 c = StepError)) as [Hend|Hend].
      * specialize (He Hend). unfold todo, ahead in He. rewrite E1 in He. simpl in He. rewrite He in Ht.
        destruct mine; [|done]. destruct others; [|done]. destruct (cu_rest c) eqn:Er; [|done].
        assert (negb (cu_buddy c =? -1)%Z || bool_decide (ret2 c = StepDone) || bool_decide (ret2 c = StepError) = true) as Hstop
          by (destruct Hend as [-> | ->]; by rewrite !orb_true_r).
        simpl. rewrite Hstop.
        exists c. split_and!; [done| |done]. unfold todo, ahead. by rewrite E1, Er.
      * destruct (read_settings_spec id (cu_rest c) mine others c []) as (c' & -> & Htodo & Hok'); try done; [tauto|tauto|].
        by exists c'.
    + unfold todo, ahead in Ht. rewrite (proj2 (Z.eqb_neq _ _) E1) in Ht. destruct mine as [|e mine].
      * simpl. exists c. split_and!; [|unfold todo, ahead; by rewrite (proj2 (Z.eqb_neq _ _) E1)|done].
        destruct (cu_rest c) as [|[[b k] s] rest]; simpl; by rewrite (proj2 (Z.eqb_neq _ _) E1).
      * injection Ht as <- _. apply Forall_cons in Hm as [Hm _]. done.
Qed.

(** The settings of one contact, in a list of those of all. *)
Definition group (l : list setting) (id : Z) : list (Z * string * SettingVariableInfo) :=
  (λ '(k, r), (k, value_of r)) <$> filter (λ e, fst (fst e) = id) l.

Lemma group_id l id e : e ∈ group l id → fst (fst e) = id.
Proof. intros ([[b k] r] & -> & [Hb _]%list_elem_of_filter)%list_elem_of_fmap. done. Qed.

Definition info_with l (row : Z * buddies_row) : BuddyInfo :=
  info_of_row (fst row) (snd row) (with_all (group l (fst row)) []).

#[local] Arguments read_buddy : simpl never.

Lemma read_buddies_spec l rows c :
  cursor_ok c → NoDup (fst <$> rows) → Forall (λ row, to_int (fst row) = fst row ∧ fst row ≠ (-1)%Z) rows →
  todo c = mjoin (group l <$> (fst <$> rows)) →
  ∃ c', read_buddies c rows = (c', info_with l <$> rows).
Proof.
  revert c. induction rows as [|[id r] rows IH]; intros c Hc Hnd Hr Ht; [by exists c|].
  apply NoDup_cons in Hnd as [Hid Hnd]. apply Forall_cons in Hr as [[Hi Hne] Hr]. simpl in *.
  destruct (read_buddy_spec id r (group l id) (mjoin (group l <$> (fst <$> rows))) c) as (c1 & E & Ht1 & Hc1); try done.
  - apply Forall_forall. intros e. apply group_id.
  - intros e He <-. apply Hid. apply head_Some_elem_of, list_elem_of_join in He as (g & He & (id' & -> & Hid')%list_elem_of_fmap).
    by apply group_id in He as ->.
  - rewrite E. destruct (IH c1 Hc1 Hnd Hr Ht1) as (c2 & ->). by exists c2.
Qed.

(** Rows sorted by contact are the groups of the contacts, one after the other. *)
Lemma sorted_filter_split (l : list setting) id :
  sorted l → (∀ e, e ∈ l → id <= fst (fst e))%Z →
  l = filter (λ e, fst (fst e) = id) l ++ filter (λ e, fst (fst e) ≠ id) l.
Proof.
  induction 1 as [|[[b k] r] l Hl IH Hall]; intros Hle; [done|]. rewrite !filter_cons. simpl.
  destruct (decide (b = id)) as [->|Hne].
  - rewrite decide_False by tauto. simpl. f_equal. apply IH. intros e He. apply Hle. set_solver.
  - rewrite decide_True by done.
    assert (Hgt : ∀ e, e ∈ l → fst (fst e) ≠ id).
    { intros e He E. eapply Forall_forall in Hall; [|exact He]. unfold entry_lt in Hall. simpl in Hall. unfold pair_lt in Hall.
      simpl in Hall. assert (id <= b)%Z by (apply (Hle (b, k, r)); set_solver). destruct (fst e) as [b' k'] eqn:Ee. simpl in *.
      subst. destruct (Z.ltb_spec b id); [lia|]. case_decide; congruence. }
    rewrite filter_nothing, filter_everything by done. done.
Qed.

Lemma group_filter (l : list setting) id id' : id ≠ id' → group (filter (λ e, fst (fst e) ≠ id) l) id' = group l id'.
Proof.
  intros Hne. unfold group. f_equal. rewrite list_filter_filter. apply list_filter_iff. intros e. split; [by intros [??]|].
  intros <-. done.
Qed.

Lemma groups_in_order (l : list setting) ids :
  StronglySorted Z.lt ids → sorted l → (∀ e, e ∈ l → fst (fst e) ∈ ids) →
  ((λ '(k, r), (k, value_of r)) <$> l) = mjoin (group l <$> ids).
Proof.
  intros Hids. revert l. induction Hids as [|id ids Hs IH Hall]; intros l Hl Hin.
  - destruct l as [|e l]; [done|]. destruct (not_elem_of_nil (fst (fst e))). apply Hin. set_solver.
  - rewrite (sorted_filter_split l id) at 1; [|done|].
    + rewrite fmap_app. simpl. f_equal. rewrite IH; [|by apply sfilter_sorted|].
      * f_equal. apply list_fmap_ext. intros i id' Hid'. apply group_filter. intros <-.
        apply list_elem_of_lookup_2 in Hid'. eapply Forall_forall in Hid'; [|exact Hall]. lia.
      * intros e [Hne He]%list_elem_of_filter. apply Hin in He. set_solver.
    + intros e He. apply Hin in He as [-> |He]%elem_of_cons; [done|]. eapply Forall_forall in He; [|exact Hall]. lia.
Qed.

Lemma sorted_ids {V} (m : smap Z V) : sorted m → StronglySorted Z.lt (fst <$> m).
Proof.
  induction 1 as [|[k v] m Hm IH Hall]; [constructor|]. constructor; [done|]. apply Forall_fmap.
  eapply Forall_impl; [exact Hall|]. intros [k' v'] Hlt. by apply Z.ltb_lt.
Qed.

Lemma NoDup_ids l : StronglySorted Z.lt l → NoDup l.
Proof.
  induction 1 as [|x l Hl IH Hall]; constructor; [|done]. intros Hx. eapply Forall_forall in Hx; [|exact Hall]. lia.
Qed.

Lemma range_id id : (0 < id < 2 ^ 31)%Z → to_int id = id ∧ id ≠ (-1)%Z.
Proof. intros ?. split; [apply to_int_id|]; lia. Qed.

(** A sequence of statements read side by side is the join of the tables. *)
Lemma getBuddies_rows userId d :
  reliable → consistent d →
  getBuddies userId d = (info_with (settings_of userId d) <$> buddies_of userId d, true).
Proof.
  intros Hr [[Hu Hb Hs Hus Hj Hn Hi] [Ho Ht]]. unfold getBuddies. rewrite !select_all by done.
  assert (Hsb : sorted (buddies_of userId d)) by by apply sfilter_sorted.
  assert (Hss : sorted (settings_of userId d)) by by apply sfilter_sorted.
  assert (Hown : ∀ id var s, ((id, var), s) ∈ settings_of userId d → (0 < id < 2 ^ 31)%Z ∧ bs_type s = TYPE_STRING ∧
    id ∈ fst <$> buddies_of userId d).
  { intros id var s [Hw Hin]%list_elem_of_filter. apply elem_sfind in Hin; [|done].
    destruct (Ho _ _ _ Hin) as (r & Hrow & Hw'). split; [by eapply Hi|split; [by eapply Ht|]].
    apply list_elem_of_fmap. exists (id, r). split; [done|]. apply list_elem_of_filter. split; [congruence|by apply sfind_elem]. }
  destruct (read_buddies_spec (settings_of userId d) (buddies_of userId d) (start_cursor (settings_of userId d) true))
    as (c' & E).
  - split; simpl; [|done|done|by intros [?|?]]. apply Forall_forall. intros [[id var] s] Hin.
    destruct (Hown _ _ _ Hin) as (Hrange & Hty & _). apply range_id in Hrange as [??]. done.
  - by apply NoDup_ids, sorted_ids.
  - apply Forall_forall. intros [id r] [_ Hin]%list_elem_of_filter. apply elem_sfind in Hin; [|done].
    by apply range_id, (Hi _ _ Hin).
  - apply groups_in_order; [by apply sorted_ids|done|]. intros [[id var] s] Hin. by destruct (Hown _ _ _ Hin) as (_ & _ & ?).
  - by rewrite E.
Qed.

Lemma c_str_clean s : ¬ has "000" s → c_str s = s.
Proof.
  unfold has. induction s as [|c s IH]; [done|]. simpl. intros Hc. destruct (Ascii.eqb_spec c "000"); [naive_solver|].
  f_equal. apply IH. naive_solver.
Qed.

(** A contact whose texts SQLite and the encoding of groups can hold. *)
Record storable (info : BuddyInfo) (hash : string) : Prop := mkStorable {
  sto_name : ¬ has "000" (bi_legacyName info);
  sto_alias : ¬ has "000" (bi_alias info);
  sto_subscription : ¬ has "000" (bi_subscription info);
  sto_hash : ¬ has "000" hash;
  sto_groups : ¬ has "000" (serializeGroups (bi_groups info));
  sto_lines : Forall no_newline (bi_groups info);
  sto_last : last (bi_groups info) ≠ Some ""%string;
  sto_flags : to_int (bi_flags info) = bi_flags info;
  sto_settings : bi_settings info = [("icon_hash"%string, mkSettingVariable TYPE_STRING hash false)];
}.

Definition set_bi_id id (info : BuddyInfo) : BuddyInfo :=
  mkBuddyInfo id (bi_alias info) (bi_legacyName info) (bi_subscription info) (bi_groups info) (bi_settings info)
    (bi_flags info).

(** The row addBuddy writes. *)
Definition row_of userId (info : BuddyInfo) : buddies_row :=
  mkBuddiesRow (to_int userId) (c_str (bi_legacyName info)) (c_str (bi_subscription info)) (c_str (bi_alias info))
    (c_str (serializeGroups (bi_groups info))) (bi_flags info).

Lemma buddies_of_added userId info d :
  consistent d → buddies_of userId (insert_buddy userId info d) =
    buddies_of userId d ++ [(new_rowid (t_buddies d), row_of userId info)].
Proof.
  intros Hc. unfold buddies_of, insert_buddy. simpl. rewrite sinsert_last.
  - rewrite filter_app. f_equal. rewrite filter_cons_True by done. done.
  - intros k v Hin. apply Z.ltb_lt. eapply new_rowid_above; [apply Hc|exact Hin].
Qed.

Lemma settings_of_added userId info hash d :
  consistent d → (new_rowid (t_buddies d) < 2 ^ 31)%Z →
  settings_of userId (insert_or_replace_setting userId (new_rowid (t_buddies d)) "icon_hash" TYPE_STRING hash
    (insert_buddy userId info d)) =
  settings_of userId d ++ [(new_rowid (t_buddies d), "icon_hash"%string,
    mkBuddiesSettingsRow (to_int userId) TYPE_STRING (c_str hash))].
Proof.
  intros Hc Hlt. pose proof (new_id_range d (ct_tables _ Hc)). unfold settings_of, insert_or_replace_setting.
  rewrite (to_int_id (new_rowid _)) by lia. cbn [t_buddies_settings with_buddies_settings insert_buddy with_rowid with_buddies].
  rewrite sinsert_last.
  - rewrite filter_app. f_equal. rewrite filter_cons_True by done. done.
  - intros [k var] s Hin. simpl. unfold pair_lt. simpl. apply elem_sfind in Hin; [|apply Hc].
    apply (so_owner _ (ct_settings _ Hc)) in Hin as (r & Hr & _). apply sfind_elem, new_rowid_above in Hr; [|apply Hc].
    by rewrite (proj2 (Z.ltb_lt _ _) Hr).
Qed.

Lemma group_snoc l (e : setting) id : group (l ++ [e]) id = group l id ++ group [e] id.
Proof. unfold group. by rewrite filter_app, fmap_app. Qed.

Lemma group_same id var r : group [(id, var, r)] id = [((id, var), value_of r)].
Proof. unfold group. by rewrite filter_cons_True. Qed.

Lemma group_fresh userId d : consistent d → group (settings_of userId d) (new_rowid (t_buddies d)) = [].
Proof.
  intros Hc. unfold group. rewrite filter_nothing; [done|].
  intros [[id var] s] [_ Hin]%list_elem_of_filter E. simpl in E. subst. apply elem_sfind in Hin; [|apply Hc].
  apply (so_owner _ (ct_settings _ Hc)) in Hin as (r & Hf & _). by rewrite new_rowid_fresh in Hf by apply Hc.
Qed.

(** a contact that is added to the database is read back, last in the user's list
    and as it was, its setting included; the contacts that were there are read as
    before. Only a user's second contact of one name is refused. *)
Theorem contact_round_trip `{!SplitLaws} userId info hash d :
  reliable → consistent d → (new_rowid (t_buddies d) < 2 ^ 31)%Z → storable info hash →
  buddy_exists (to_int userId) (bi_legacyName info) d = false →
  ∃ id d', addBuddy userId info d = Done id d' ∧
    getBuddies userId d' = (fst (getBuddies userId d) ++ [set_bi_id id info], true).
Proof.
  intros Hr Hc Hlt [Hname Halias Hsub Hhash Hgroups Hlines Hlast Hflags Hset] Hex.
  assert (Hex' : buddy_exists (to_int userId) (c_str (bi_legacyName info)) d = false) by by rewrite c_str_clean.
  assert (Ha : fits (AddBuddy userId info) d) by (split; [unfold has_icon_hash; rewrite Hset; by eexists|done]).
  destruct (addBuddy_run userId info d Hr Ha Hex') as (s & E & Hs). rewrite Hset in Hs. simpl in Hs. injection Hs as <-.
  unfold updateBuddySetting in E. rewrite write_done in E by done. do 2 eexists. split; [exact E|].
  pose proof (new_id_range d (ct_tables _ Hc)) as Hpos.
  rewrite !getBuddies_rows; [|done|done|done|].
  2: { apply setting_consistent; [by apply insert_buddy_consistent|by apply new_buddy_owned, Hlt; apply Hc]. }
  cbn [fst]. rewrite settings_of_added by done. f_equal.
  change (buddies_of userId (insert_or_replace_setting _ _ _ _ _ ?d)) with (buddies_of userId d).
  rewrite buddies_of_added, fmap_app by done. f_equal.
  - apply list_fmap_ext. intros i [id' r] Hin. apply list_elem_of_lookup_2, list_elem_of_filter in Hin as [_ Hin].
    apply new_rowid_above in Hin; [|apply Hc]. unfold info_with. simpl. rewrite group_snoc.
    unfold group at 2. rewrite filter_cons_False by (simpl; lia). by rewrite filter_nil, app_nil_r.
  - unfold info_with, info_of_row, set_bi_id. simpl. rewrite group_snoc.
    rewrite group_fresh, group_same by done. rewrite !c_str_clean, groups_back, Hflags, Hset by done.
    by rewrite (to_int_id (new_rowid _)) by lia.
Qed.

(** A user who is removed leaves no contact behind. *)
Lemma getBuddies_removed id d : reliable → getBuddies id (fst (removeUser id d)) = ([], true).
Proof.
  intros Hr. rewrite delete_user_run by done. unfold getBuddies. rewrite !select_all by done. cbn [fst].
  assert (buddies_of id (with_buddies_settings (delete_rows (λ _ r, (bs_user_id r =? to_int id)%Z))
    (with_buddies (delete_rows (λ _ r, (br_user_id r =? to_int id)%Z))
      (with_users_settings (delete_rows (λ k _, (fst k =? to_int id)%Z))
        (with_users (delete_rows (λ k _, (k =? to_int id)%Z)) d)))) = []) as ->; [|done].
  apply filter_nothing. intros [k r] [Hne _]%list_elem_of_filter. simpl in *. lia.
Qed.

(** *** Users *)

Lemma getUser_key jid d id r :
  reliable → consistent d → sfind id (t_users d) = Some r → ur_jid r = c_str jid →
  getUser jid d = Some (Pool.mkUserInfo (to_int id) (ur_jid r) (ur_uin r) (ur_password r) (ur_language r)
    (ur_encoding r) (negb (ur_vip r =? 0)%Z) []).
Proof.
  intros Hr Hc Hf Hj. unfold getUser. rewrite select_all by done.
  assert ((id, r) ∈ filter (λ '(_, r), ur_jid r = c_str jid) (t_users d)) as Hin
    by (apply list_elem_of_filter; split; [done|by apply sfind_elem]).
  destruct (filter _ _) as [|[id' r'] l] eqn:E; [by apply not_elem_of_nil in Hin|].
  assert ((id', r') ∈ filter (λ '(_, r), ur_jid r = c_str jid) (t_users d)) as [Hj' Hf']%list_elem_of_filter
    by (rewrite E; set_solver).
  apply elem_sfind in Hf'; [|apply Hc]. pose proof (tb_jids _ (ct_tables _ Hc) _ _ _ _ Hf Hf' ltac:(congruence)) as <-. congruence.
Qed.

Definition clean_user (user : UserInfo) : Prop :=
  Forall (λ s, ¬ has "000" s)
    [Pool.ui_jid user; Pool.ui_uin user; Pool.ui_password user; Pool.ui_language user; Pool.ui_encoding user].

(** what setUser stores for a JID getUser answers, under the identifier the JID had
    before if it had one; but whoever was online is not any more, so an account that is
    stored again while its user is online is not among those to be reconnected. *)
Theorem user_round_trip user d :
  reliable → consistent d → clean_user user → Pool.ui_settings user = [] →
  (to_int (user_key (Pool.ui_jid user) d) = user_key (Pool.ui_jid user) d) →
  getUser (Pool.ui_jid user) (setUser user d) =
    Some (Pool.mkUserInfo (user_key (Pool.ui_jid user) d) (Pool.ui_jid user) (Pool.ui_uin user) (Pool.ui_password user)
      (Pool.ui_language user) (Pool.ui_encoding user) (Pool.ui_vip user) [])
  ∧ (∀ info, getUser (Pool.ui_jid user) d = Some info → Pool.ui_id info = user_key (Pool.ui_jid user) d)
  ∧ Pool.ui_jid user ∉ fst (getOnlineUsers [] (setUser user d)).
Proof.
  intros Hr Hc Hclean Hs Hid.
  apply Forall_cons in Hclean as [H1 [H2 [H3 [H4 [H5 _]%Forall_cons]%Forall_cons]%Forall_cons]%Forall_cons].
  pose proof (setUser_consistent user d Hr Hc) as Hc'.
  assert (Hset : setUser user d = insert_or_replace_user user d) by (unfold setUser; by rewrite write_done).
  assert (Hf : sfind (user_key (Pool.ui_jid user) d) (t_users (setUser user d)) =
    Some (mkUsersRow (Pool.ui_jid user) (Pool.ui_uin user) (Pool.ui_password user) (Pool.ui_language user)
      (Pool.ui_encoding user) (db_now d) (if Pool.ui_vip user then 1 else 0) 0)).
  { rewrite Hset. unfold insert_or_replace_user. rewrite !c_str_clean by done. apply sfind_sinsert_eq. }
  split; [|split].
  - rewrite (getUser_key _ _ _ _ Hr Hc' Hf) by (simpl; by rewrite c_str_clean). simpl. rewrite Hid.
    by destruct (Pool.ui_vip user).
  - intros info. unfold getUser. rewrite select_all, c_str_clean by done.
    destruct (filter _ _) as [|[id r] l] eqn:E; [done|]. intros [= <-]. simpl.
    assert ((id, r) ∈ filter (λ '(_, r), ur_jid r = Pool.ui_jid user) (t_users d)) as [Hj Hin]%list_elem_of_filter
      by (rewrite E; set_solver).
    apply elem_sfind in Hin; [|apply Hc]. rewrite (user_key_others _ _ _ _ (ct_tables _ Hc) Hin Hj). by rewrite Hid.
  - unfold getOnlineUsers. rewrite select_all by done. simpl. rewrite arrange_permutes.
    intros ([id r] & Hj & [Hon Hin]%list_elem_of_filter)%list_elem_of_fmap. apply elem_sfind in Hin; [|apply Hc'].
    pose proof (tb_jids _ (ct_tables _ Hc') _ _ _ _ Hin Hf ltac:(simpl; congruence)) as ->. rewrite Hf in Hin. by injection Hin as <-.
Qed.
End side_by_side.

(** ** Witnesses *)

(** An engine that carries everything out, and lists rows in the order of their keys. *)
#[local] Instance obedient_engine : SqlEngine := {
  fails_after _ _ := None;
  arrange l := l;
  arrange_permutes l := reflexivity l;
}.

Definition carol : UserInfo := Pool.mkUserInfo 0 "carol@localhost" "carol" "secret" "en" "" true [].

Definition dave : BuddyInfo :=
  mkBuddyInfo 0 "Dave" "dave" "both" ["Friends"; "Work"] [("icon_hash", mkSettingVariable TYPE_STRING "da39a3ee" false)] 2.

(** The database with one user. *)
Definition carol_stored : Database := setUser carol (empty_database 1700000000).

Lemma carol_consistent : consistent carol_stored.
Proof. apply setUser_consistent; [done|apply empty_consistent]. Qed.

Lemma dave_storable : storable dave "da39a3ee".
Proof. split; try reflexivity; try (by apply (bool_decide_eq_true_1 _); vm_compute); done. Qed.

Lemma database_consistent_witness :
  ∃ d, run (AddBuddy 1 dave) carol_stored = Done tt d ∧ consistent d.
Proof.
  destruct (database_consistent (AddBuddy 1 dave) carol_stored) as (d & E & Hd & Hs);
    [apply carol_consistent|split; [by eexists|vm_compute; reflexivity]|].
  exists d. split; [exact E|]. split; [exact Hd|]. by apply Hs; [|apply carol_consistent|].
Defined.

(** Her database with Dave in it. *)
Definition dave_stored : Database :=
  match addBuddy 1 dave carol_stored with Done _ d => d | Fault _ => carol_stored end.

(** Carol is unregistered while Dave is in the queue of her roster. *)
Lemma orphan_setting_witness :
  ∃ d, updateBuddy 1 (set_bi_id 1 dave) (fst (removeUser 1 dave_stored)) = Done tt d ∧
    t_buddies d = [] ∧ ¬ settings_ok d.
Proof.
  destruct (addBuddy_consistent 1 dave carol_stored) as (id & d & E & [Hd Hs]);
    [done|exact carol_consistent|split; [by eexists|vm_compute; reflexivity]|].
  destruct (orphan_setting 1 (set_bi_id 1 dave) d) as (d' & E' & Hn); [done|exact Hd|exact Hs|by eexists|].
  exists d'. unfold dave_stored. rewrite E. split; [exact E'|]. split; [|exact Hn]. vm_compute in E. injection E as <- <-.
  vm_compute in E'. injection E' as <-. reflexivity.
Defined.

Lemma contact_round_trip_witness :
  ∃ id d, addBuddy 1 dave carol_stored = Done id d ∧ getBuddies 1 d = ([set_bi_id id dave], true).
Proof.
  exact (contact_round_trip 1 dave "da39a3ee" carol_stored (λ _ _, eq_refl) carol_consistent eq_refl dave_storable eq_refl).
Defined.

Lemma user_round_trip_witness :
  getUser "carol@localhost" (setUser carol (setUserOnline 1 true carol_stored)) = Some (Pool.mkUserInfo 1
    "carol@localhost" "carol" "secret" "en" "" true [])
  ∧ getOnlineUsers [] (setUserOnline 1 true carol_stored) = (["carol@localhost"%string], true)
  ∧ ("carol@localhost" ∉ fst (getOnlineUsers [] (setUser carol (setUserOnline 1 true carol_stored))))%string.
Proof.
  assert (Hc : consistent (setUserOnline 1 true carol_stored)).
  { unfold setUserOnline. rewrite write_done by done. apply update_users_consistent; [done|apply carol_consistent]. }
  destruct (user_round_trip carol (setUserOnline 1 true carol_stored)) as (H1 & _ & H3);
    [done|exact Hc|by apply (bool_decide_eq_true_1 _); vm_compute|reflexivity|reflexivity|].
  split; [exact H1|split; [reflexivity|exact H3]].
Defined.
