(* ===== verification/RosterSqlite.v ===== *)
(** * The roster's storage in SQLite

    SQLite3Backend keeps what the roster relies on ([RosterStore.BuddyRows]): what storing
    the queue leaves is what getBuddies answers afterwards. *)

From S2P Require Import Prelude StdMap Swiften Names Codecs Text Sqlite SqliteTheorems.
From S2P Require Pool Roster RosterInv RosterStore.

(** ** Rows *)

Lemma sfind_filter {K V} `{StdKey K} (P : K * V → Prop) `{∀ x, Decision (P x)} k (m : smap K V) :
  sorted m → sfind k (filter P m) = v ← sfind k m; if decide (P (k, v)) then Some v else None.
Proof.
  intros Hm. destruct (sfind k (filter P m)) as [v|] eqn:E.
  - apply sfind_elem, list_elem_of_filter in E as [Hp Hin]. rewrite (elem_sfind k v m) by done. simpl. by rewrite decide_True.
  - destruct (sfind k m) as [v|] eqn:Ek; [|done]. simpl. case_decide as Hp; [|done]. apply sfind_elem in Ek.
    rewrite (elem_sfind k v (filter P m)) in E; [done|by apply sfilter_sorted|by apply list_elem_of_filter].
Qed.

(** The first entry of a key is the one of the map. *)
Lemma list_map_entries {V B} (g : Z → V → B) id (m : smap Z V) :
  (list_to_map ((λ '(k, r), (k, g k r)) <$> m) : gmap Z B) !! id = g id <$> sfind id m.
Proof.
  induction m as [|[k r] m IH]; [apply lookup_empty|]. simpl. destruct (decide (id = k)) as [->|Hne].
  - by rewrite lookup_insert_eq.
  - by rewrite lookup_insert_ne.
Qed.

Lemma group_lookup id key (l : list setting) m :
  NoDup (fst <$> l) →
  sfind key (with_all (group l id) m) =
    match sfind (id, key) l with Some r => Some (value_of r) | None => sfind key m end.
Proof.
  revert m. induction l as [|[[b k] r] l IH]; intros m; [done|]. intros [Hk Hnd]%NoDup_cons. unfold group in *.
  rewrite filter_cons. simpl. destruct (decide (b = id)) as [->|Hb].
  - simpl. unfold with_all in *. simpl. rewrite (IH (sinsert k (value_of r) m)) by done.
    destruct (decide ((id, key) = (id, k))) as [[= ->]|Hne].
    + destruct (sfind (id, k) l) as [s|] eqn:E; [|by rewrite sfind_sinsert_eq]. exfalso. apply Hk.
      apply list_elem_of_fmap. exists (id, k, s). split; [done|by apply sfind_elem].
    + rewrite sfind_sinsert_ne; [done|congruence].
  - rewrite (IH m) by done. rewrite decide_False by congruence. done.
Qed.

Section sqlite_rows.
Context `{SqlEngine} `{SplitLaws} (Hr : reliable).
Implicit Types (d : Database).

(** What the roster reads of a row and its icon hash. *)
Definition roster_row (id : Z) (r : buddies_row) (hash : option buddies_settings_row) : Roster.BuddyInfo :=
  Roster.mkBuddyInfo id (br_nickname r) (br_uin r) (br_subscription r) (deserializeGroups (br_groups r))
    (bs_value <$> hash) (to_int (br_flags r)).

Definition icon_hash_of (id : Z) d : option buddies_settings_row := sfind (id, "icon_hash"%string) (t_buddies_settings d).

Lemma rows_lookup user d id :
  consistent d →
  RosterStore.rows user d !! id =
    r ← sfind id (t_buddies d); if decide (br_user_id r = to_int user) then Some (roster_row id r (icon_hash_of id d)) else None.
Proof using Hr.
  intros Hc. unfold RosterStore.rows. simpl Roster.db_getBuddies. rewrite getBuddies_rows by done. cbn [fst].
  assert (((λ i, (Roster.bi_id i, i)) <$> (to_roster <$> (info_with (settings_of user d) <$> buddies_of user d))) =
    ((λ '(k, r), (k, roster_row k r (icon_hash_of k d))) <$> buddies_of user d)) as ->.
  { rewrite <- !list_fmap_compose. apply list_fmap_ext. intros i [k r] [Hw Hin]%list_elem_of_lookup_2%list_elem_of_filter.
    apply elem_sfind in Hin; [|by apply ct_buddies]. simpl.
    assert (to_int k = k) as Hk by (by eapply range_id, ct_ids).
    unfold to_roster, info_with, info_of_row, roster_row. simpl. rewrite Hk. do 2 f_equal.
    rewrite group_lookup by (by apply sorted_keys, sfilter_sorted, ct_buddies_settings).
    unfold settings_of, icon_hash_of. rewrite sfind_filter by (by apply ct_buddies_settings).
    destruct (sfind (k, "icon_hash"%string) (t_buddies_settings d)) as [s|] eqn:Es; [|done]. simpl.
    destruct (so_owner _ (ct_settings _ Hc) _ _ _ Es) as (r' & Hr' & Ho). rewrite decide_True by congruence. done. }
  rewrite (list_map_entries (λ k r, roster_row k r (icon_hash_of k d))). unfold buddies_of.
  rewrite sfind_filter by (by apply ct_buddies). destruct (sfind id (t_buddies d)) as [r|]; [|done]. simpl. by case_decide.
Qed.

(** ** What the roster writes *)

(** A contact whose texts SQLite and the encoding of groups keep. *)
Definition keepable (i : Roster.BuddyInfo) : Prop := ∃ hash, storable (of_roster i) hash.

(** Consistent tables with [n] keys left for contacts. *)
Definition room (n : nat) d : Prop := consistent d ∧ (new_rowid (t_buddies d) + Z.of_nat n <= 2 ^ 31)%Z.

Lemma room_less n d : room (S n) d → room n d.
Proof. intros [Hc Hn]. split; [done|lia]. Qed.

Lemma keepable_hash i hash : storable (of_roster i) hash → Roster.bi_icon_hash i = Some hash.
Proof. intros [_ _ _ _ _ _ _ _ Hs]. unfold of_roster, icon_hash_settings in Hs. simpl in Hs.
  destruct (Roster.bi_icon_hash i); [by injection Hs as ->|done]. Qed.

(** The row of a contact is read as it was written. *)
Lemma row_back user i hash id s :
  storable (of_roster i) hash → bs_value s = hash →
  roster_row id (row_of user (of_roster i)) (Some s) = RosterStore.with_id id i.
Proof.
  intros Hsto Hs. pose proof (keepable_hash _ _ Hsto) as Hh. destruct Hsto as [Hn Ha Hsub Hhash Hg Hl Hlast Hf _].
  unfold roster_row, row_of, RosterStore.with_id. simpl in *. rewrite Hs, Hh, !c_str_clean, groups_back, Hf by done. done.
Qed.

Lemma written_hash user i hash id d :
  storable (of_roster i) hash → to_int id = id →
  store_icon_hash user id (of_roster i) d =
  Done tt (insert_or_replace_setting user id "icon_hash" TYPE_STRING hash d).
Proof using Hr.
  intros Hsto Hid. unfold store_icon_hash. rewrite (sto_settings _ _ Hsto). simpl. unfold updateBuddySetting.
  by rewrite write_done.
Qed.

Lemma hash_written user id id' hash d :
  to_int id = id → ¬ has "000" hash →
  icon_hash_of id' (insert_or_replace_setting user id "icon_hash" TYPE_STRING hash d) =
  if decide (id' = id) then Some (mkBuddiesSettingsRow (to_int user) TYPE_STRING hash) else icon_hash_of id' d.
Proof.
  intros Hid Hh. unfold icon_hash_of. simpl. rewrite Hid, (c_str_clean hash) by done. case_decide as E.
  - subst. apply sfind_sinsert_eq.
  - apply sfind_sinsert_ne. congruence.
Qed.

Lemma taken_exists user name d :
  consistent d → RosterStore.taken name (RosterStore.rows user d) ↔ buddy_exists (to_int user) name d = true.
Proof using Hr.
  intros Hc. unfold RosterStore.taken, buddy_exists. rewrite existsb_exists. split.
  - intros (id & i & Hi & <-). rewrite rows_lookup in Hi by done. apply bind_Some in Hi as (r & Hf & E). case_decide as Hw; [|done].
    injection E as <-. exists (id, r). split; [by apply list_elem_of_In, sfind_elem|]. by rewrite Hw, Z.eqb_refl, String.eqb_refl.
  - intros ([id r] & Hin & [Hw Hn]%andb_true_iff). apply list_elem_of_In, elem_sfind in Hin; [|by apply ct_buddies].
    apply Z.eqb_eq in Hw. apply String.eqb_eq in Hn. eexists id, _. rewrite rows_lookup, Hin by done. simpl.
    rewrite decide_True by done. split; [done|exact Hn].
Qed.

(** *** The laws *)

Lemma new_rowid_update {V} p (f : V → V) (m : smap Z V) : new_rowid (update_rows p f m) = new_rowid m.
Proof. unfold new_rowid, update_rows. rewrite fmap_last. by destruct (last m) as [[]|]. Qed.

Lemma new_rowid_insert {V} (v : V) (m : smap Z V) :
  sorted m → new_rowid (sinsert (new_rowid m) v m) = (new_rowid m + 1)%Z.
Proof.
  intros Hm. rewrite sinsert_last.
  - unfold new_rowid at 1. by rewrite last_snoc.
  - intros k v' Hin. apply Z.ltb_lt. by eapply new_rowid_above.
Qed.

(** What updateBuddy does to the rows of a user's contact. *)
Definition rewrites user (info : BuddyInfo) : smap Z buddies_row → smap Z buddies_row :=
  update_rows (λ _ r, (br_user_id r =? to_int user)%Z && String.eqb (br_uin r) (c_str (bi_legacyName info)))
    (λ r, mkBuddiesRow (br_user_id r) (br_uin r) (c_str (bi_subscription info)) (c_str (bi_alias info))
            (c_str (serializeGroups (bi_groups info))) (bi_flags info)).

Lemma rewritten user info id r d id' :
  tables_ok d → ¬ has "000" (bi_legacyName info) → sfind id (t_buddies d) = Some r →
  br_user_id r = to_int user → br_uin r = bi_legacyName info →
  (r' ← sfind id' (rewrites user info (t_buddies d)); if decide (br_user_id r' = to_int user) then Some r' else None) =
  if decide (id' = id) then Some (row_of user info)
  else r' ← sfind id' (t_buddies d); if decide (br_user_id r' = to_int user) then Some r' else None.
Proof.
  intros Hd Hn Hf Hw Hu. unfold rewrites. rewrite sfind_update_rows, (c_str_clean (bi_legacyName info)) by done.
  destruct (decide (id' = id)) as [->|Hne].
  - rewrite Hf. simpl. rewrite Hw, Hu, Z.eqb_refl, String.eqb_refl. simpl. rewrite decide_True by done.
    unfold row_of. by rewrite (c_str_clean (bi_legacyName info)).
  - destruct (sfind id' (t_buddies d)) as [r'|] eqn:Ef; [|done]. simpl.
    destruct (Z.eqb_spec (br_user_id r') (to_int user)) as [Ew|Ew]; [|done].
    destruct (String.eqb_spec (br_uin r') (bi_legacyName info)) as [Eu|Eu]; [|done].
    destruct Hne. eapply (tb_uins _ Hd); [exact Ef|exact Hf|congruence|congruence].
Qed.

(** The rows of a user, contact by contact. *)
Lemma rows_lookup_alt user d id :
  consistent d →
  RosterStore.rows user d !! id =
    (λ r, roster_row id r (icon_hash_of id d)) <$>
      (r ← sfind id (t_buddies d); if decide (br_user_id r = to_int user) then Some r else None).
Proof using Hr. intros Hc. rewrite rows_lookup by done. destruct (sfind id _) as [r|]; [|done]. simpl. by case_decide. Qed.

Lemma update_law n user i row d :
  room (S n) d → keepable i → RosterStore.rows user d !! Roster.bi_id i = Some row →
  Roster.bi_legacyName row = Roster.bi_legacyName i →
  room n (Roster.db_updateBuddy user i d) ∧
  RosterStore.rows user (Roster.db_updateBuddy user i d) = <[Roster.bi_id i := i]> (RosterStore.rows user d).
Proof using Type*.
  intros Hroom [hash Hsto] Hrow Hname. pose proof (room_less _ _ Hroom) as [Hc Hn].
  rewrite rows_lookup in Hrow by done. apply bind_Some in Hrow as (r & Hf & E). case_decide as Hw; [|done]. injection E as <-.
  simpl in Hname. set (id := Roster.bi_id i) in *. assert (Hid : to_int id = id) by (by eapply range_id, ct_ids).
  set (d1 := with_buddies (rewrites user (of_roster i)) d).
  assert (E : Roster.db_updateBuddy user i d = insert_or_replace_setting user id "icon_hash" TYPE_STRING hash d1).
  { simpl. unfold updateBuddy. rewrite bind_run. unfold modify. cbv beta iota. rewrite write_done by done.
    by rewrite (written_hash _ _ _ _ _ Hsto Hid). }
  assert (Hc' : consistent (Roster.db_updateBuddy user i d)).
  { rewrite E. apply setting_consistent.
    - split; [apply update_buddies_tables; [done|apply Hc]|apply update_buddies_kept; [done|apply Hc]].
    - apply update_buddies_owns; [done|]. exists r. by rewrite Hid. }
  split.
  - split; [exact Hc'|]. rewrite E. simpl. unfold rewrites. by rewrite new_rowid_update.
  - apply map_eq. intros id'. rewrite (rows_lookup_alt user _ id' Hc'), E. cbn [t_buddies insert_or_replace_setting with_buddies_settings].
    rewrite (hash_written _ _ _ _ _ Hid (sto_hash _ _ Hsto)).
    change (t_buddies d1) with (rewrites user (of_roster i) (t_buddies d)).
    rewrite (rewritten user (of_roster i) id r d id' (ct_tables _ Hc) (sto_name _ _ Hsto) Hf Hw Hname).
    destruct (decide (id' = id)) as [->|Hne].
    + rewrite lookup_insert_eq. simpl. by rewrite (row_back user i hash id) by done; destruct i.
    + rewrite lookup_insert_ne by done. by rewrite rows_lookup_alt.
Qed.

Lemma add_law n user i d :
  room (S n) d → keepable i → ¬ RosterStore.taken (Roster.bi_legacyName i) (RosterStore.rows user d) →
  ∃ id d', Roster.db_addBuddy user i d = (id, d') ∧ room n d' ∧ id ≠ (-1)%Z ∧ RosterStore.rows user d !! id = None ∧
    RosterStore.rows user d' = <[id := RosterStore.with_id id i]> (RosterStore.rows user d).
Proof using Type*.
  intros [Hc Hn] [hash Hsto] Hnew. rewrite taken_exists, not_true_iff_false in Hnew by done.
  set (id := new_rowid (t_buddies d)). pose proof (new_id_range d (ct_tables _ Hc)) as Hpos.
  assert (Hid : to_int id = id) by (apply to_int_id; lia).
  assert (Hex : buddy_exists (to_int user) (c_str (bi_legacyName (of_roster i))) d = false)
    by (by rewrite (c_str_clean _ (sto_name _ _ Hsto))).
  assert (Hfresh : sfind id (t_buddies d) = None) by apply new_rowid_fresh, Hc.
  set (d1 := insert_buddy user (of_roster i) d).
  set (d' := insert_or_replace_setting user id "icon_hash" TYPE_STRING hash d1).
  assert (Hc' : consistent d').
  { apply setting_consistent; [apply insert_buddy_consistent; [done|lia|done]|]. apply new_buddy_owned; [apply Hc|lia]. }
  exists id, d'. split_and!; [|split; [exact Hc'|]|lia| |].
  - simpl. unfold addBuddy. rewrite bind_run. cbn beta iota delta [get]. rewrite Hex, write_done by done. cbv beta iota.
    rewrite bind_run. unfold put. cbv beta iota. change (negb true) with false. cbv beta iota zeta.
    rewrite bind_run. change (last_insert_rowid (insert_buddy user (of_roster i) d)) with id.
    by rewrite (written_hash _ _ _ _ _ Hsto Hid).
  - change (t_buddies d') with (sinsert id (row_of user (of_roster i)) (t_buddies d)).
    unfold id. rewrite new_rowid_insert by (by apply ct_buddies). lia.
  - by rewrite rows_lookup, Hfresh.
  - apply map_eq. intros id'. rewrite rows_lookup by done. unfold d'. rewrite (hash_written _ _ _ _ _ Hid (sto_hash _ _ Hsto)).
    change (t_buddies (insert_or_replace_setting _ _ _ _ _ d1)) with (sinsert id (row_of user (of_roster i)) (t_buddies d)).
    destruct (decide (id' = id)) as [->|Hne].
    + rewrite sfind_sinsert_eq, lookup_insert_eq. simpl. rewrite decide_True by done. by rewrite (row_back user i hash).
    + rewrite sfind_sinsert_ne, lookup_insert_ne by done. by rewrite rows_lookup.
Qed.

Lemma refuse_law n user i d :
  room (S n) d → keepable i → RosterStore.taken (Roster.bi_legacyName i) (RosterStore.rows user d) →
  ∃ d', Roster.db_addBuddy user i d = ((-1)%Z, d') ∧ room n d' ∧ RosterStore.rows user d' = RosterStore.rows user d.
Proof using Type*.
  intros Hroom [hash Hsto] Ht. exists d. split; [|by split; [apply room_less|]].
  rewrite taken_exists in Ht by apply Hroom. simpl. unfold addBuddy. rewrite bind_run. cbn beta iota delta [get].
  rewrite (c_str_clean (bi_legacyName _)) by apply (sto_name _ _ Hsto). simpl. by rewrite Ht.
Qed.

(** SQLite3Backend, where no statement fails, is a storage as the roster needs one. *)
Definition sqlite_rows : RosterStore.BuddyRows Database := {|
  RosterStore.good := room;
  RosterStore.clean := keepable;
  RosterStore.rows_begin n user d Hg := conj Hg eq_refl;
  RosterStore.rows_commit n user d Hg := conj Hg eq_refl;
  RosterStore.rows_update := update_law;
  RosterStore.rows_add := add_law;
  RosterStore.rows_refuse := refuse_law;
|}.
End sqlite_rows.

(** ** Witness *)

Section witness.
Import Roster RosterInv RosterStore.

#[local] Existing Instance obedient_engine.
Lemma all_carried_out : reliable.
Proof. by intros ??. Qed.

#[local] Instance obedient_rows : BuddyRows Database := sqlite_rows all_carried_out.

(** A contact of Carol's, with a text of each kind. *)
Definition friend (id : Z) (name alias : string) : Buddy ref_jid :=
  set_iconHash "da39a3ee" (local_buddy sample_env id name alias ["Friends"; "Work"]%string 2).

(** Her database with Dave and Erin. *)
Definition two_stored : Database :=
  snd (db_addBuddy 1 (info_of (friend (-1) "erin" "Erin")) dave_stored).

(** Her roster without Erin: Dave has a new alias, Bob is new, and Erin is added again. *)
Definition carols_roster : Roster ref_jid Database :=
  mkRoster {[0 := friend 1 "dave" "David"; 1 := friend (-1) "bob" "Bob"; 2 := friend (-1) "erin" "Erin"]} 3
    [("bob", Some 1); ("dave", Some 0); ("erin", Some 2)]%string
    (Some [("bob", 1); ("dave", 0); ("erin", 2)]%string)
    false false [] 0 (Some 1) 1 true false [] two_stored [].

Lemma carols_contacts b o :
  r_heap carols_roster !! b = Some o →
  (b, o) ∈ [(0, friend 1 "dave" "David"); (1, friend (-1) "bob" "Bob"); (2, friend (-1) "erin" "Erin")].
Proof.
  intros Ho. simpl in Ho. apply lookup_insert_Some in Ho as [[<- <-]|[_ Ho]]; [set_solver|].
  apply lookup_insert_Some in Ho as [[<- <-]|[_ Ho]]; [set_solver|].
  apply lookup_singleton_Some in Ho as [<- <-]. set_solver.
Qed.

Lemma carols_rinv : rinv sample_env carols_roster.
Proof.
  split.
  - repeat constructor.
  - intros k b Hin. simpl in Hin. repeat (apply elem_of_cons in Hin as [[= -> ->]|Hin]; [by eexists|]).
    by apply not_elem_of_nil in Hin.
  - intros q n b [= <-] Hin. repeat (apply elem_of_cons in Hin as [[= -> ->]|Hin]; [by eexists|]).
    by apply not_elem_of_nil in Hin.
  - intros b [o Hin%carols_contacts]. repeat (apply elem_of_cons in Hin as [[= -> ->]|Hin]; [simpl; lia|]).
    by apply not_elem_of_nil in Hin.
  - intros b o Hin%carols_contacts. repeat (apply elem_of_cons in Hin as [[= -> ->]|Hin]; [constructor|]).
    by apply not_elem_of_nil in Hin.
  - intros q [= <-]. repeat constructor.
Qed.

Lemma friend_keepable b o : r_heap carols_roster !! b = Some o → keepable (info_of o).
Proof.
  intros Hin%carols_contacts. exists "da39a3ee"%string.
  repeat (apply elem_of_cons in Hin as [[= -> ->]|Hin];
    [split; try reflexivity; try (by apply (bool_decide_eq_true_1 _); vm_compute); done|]).
  by apply not_elem_of_nil in Hin.
Qed.

Lemma dave_stored_consistent : consistent dave_stored.
Proof.
  destruct (addBuddy_consistent 1 dave carol_stored) as (id & d & E & Hd);
    [done|exact carol_consistent|split; [by eexists|vm_compute; reflexivity]|]. unfold dave_stored. by rewrite E.
Qed.

Lemma two_stored_room : room 3 two_stored.
Proof.
  destruct (add_law all_carried_out 3 1 (info_of (friend (-1) "erin" "Erin")) dave_stored) as (id & d & E & Hd & _).
  - split; [exact dave_stored_consistent|]. by vm_compute.
  - by apply (friend_keepable 2).
  - rewrite taken_exists; [by vm_compute|done|exact dave_stored_consistent].
  - unfold two_stored. by rewrite E.
Qed.

Lemma carols_db_ok : db_ok sample_env carols_roster.
Proof.
  split.
  - intros b o Hin%carols_contacts Hid. repeat (apply elem_of_cons in Hin as [[= -> ->]|Hin];
      [first [done|by eexists (mkBuddyInfo 1 "Dave" "dave" "both" ["Friends"; "Work"]%string (Some "da39a3ee"%string) 2)]|]).
    by apply not_elem_of_nil in Hin.
  - intros b b' o o' Hin%carols_contacts Hin'%carols_contacts.
    repeat (apply elem_of_cons in Hin as [[= -> ->]|Hin]); try (by apply not_elem_of_nil in Hin);
      repeat (apply elem_of_cons in Hin' as [[= -> ->]|Hin']); try (by apply not_elem_of_nil in Hin'); done.
Qed.

(** Bob gets the next identifier, Dave's row is rewritten, Erin is refused. *)
Lemma stored_buddies_witness :
  ∃ r', storeBuddies sample_env carols_roster = Done true r' ∧ m_rosterStorage r' = Some [] ∧
    (∃ o, r_heap r' !! 1 = Some o ∧ b_id o ≠ (-1)%Z ∧ rows 1 (r_db r') !! b_id o = Some (info_of o)) ∧
    (∃ o, r_heap r' !! 0 = Some o ∧ b_id o ≠ (-1)%Z ∧ rows 1 (r_db r') !! b_id o = Some (info_of o)) ∧
    (∃ o, r_heap r' !! 2 = Some o ∧ b_id o = (-1)%Z).
Proof.
  destruct (stored_buddies sample_env carols_roster [("bob", 1); ("dave", 0); ("erin", 2)]%string 0 carols_rinv carols_db_ok eq_refl)
    as (r' & E & Hq & _ & _ & Hrow & _); [exact two_stored_room|intros name b o _; apply friend_keepable|].
  assert (Ht : taken "bob" (rows 1 two_stored) → False) by (rewrite taken_exists; [by vm_compute|done|apply two_stored_room]).
  assert (Ht' : taken "erin" (rows 1 two_stored)) by (rewrite taken_exists; [by vm_compute|done|apply two_stored_room]).
  exists r'. split_and!; [exact E|exact Hq|..].
  - destruct (Hrow "bob"%string 1) as (o & o' & Ho & Ho' & _ & Hid & Hr); [set_solver|]. exists o'. split; [done|].
    assert (Hne : b_id o' ≠ (-1)%Z) by (intros Heq; apply Hid in Heq as [_ ?]; by apply Ht). split; [exact Hne|by apply Hr].
  - destruct (Hrow "dave"%string 0) as (o & o' & Ho & Ho' & _ & Hid & Hr); [set_solver|]. exists o'. split; [done|].
    simpl in Ho. injection Ho as <-. assert (Hne : b_id o' ≠ (-1)%Z) by (intros Heq; by apply Hid in Heq as [? _]).
    split; [exact Hne|by apply Hr].
  - destruct (Hrow "erin"%string 2) as (o & o' & Ho & Ho' & _ & Hid & Hr); [set_solver|]. exists o'. split; [done|].
    simpl in Ho. injection Ho as <-. by apply Hid.
Defined.
End witness.
