(* ===== verification/ManagerTheorems.v ===== *)
(** * Theorems on the user manager

    No event makes the manager use a deleted user, and its map, its one-entry cache
    and the registry stay consistent; only who passes the checks of the account gets
    a User; the calls inside each other end. *)

From S2P Require Import Prelude StdMap Swiften PresenceOracle Names Login LoginTheorems UserManager.
From S2P Require Pool.

Section theorems.
Context {J St : Type} `{Jid J} `{StorageBackend St} `{ManagerEnv J} (cfg : ManagerConfig J).

Abbreviation mgr A := (prog (Manager J St) A).
Implicit Types s : Manager J St.

(** ** The invariant *)

Record manager_ok s : Prop := {
  ok_users k u : sfind k (m_users s) = Some u → ∃ o, user_heap s !! u = Some o ∧ key_of o = k;
  ok_cached u : m_cachedUser s = Some u →
    ∃ o, user_heap s !! u = Some o ∧ sfind (key_of o) (m_users s) = Some u;
  ok_registry : registry_ok (m_userRegistry s);
}.

(** [D]: the users being removed, which nobody can reach through the map. *)
Definition detached (D : gmap uid (ManagedUser J)) s : Prop :=
  ∀ u o, D !! u = Some o → user_heap s !! u = Some o ∧ ∀ k, sfind k (m_users s) ≠ Some u.

(** [K]: what is known of the map. *)
Definition sane D (K : smap string uid → Prop) s : Prop :=
  manager_ok s ∧ detached D s ∧ K (m_users s).
Definition anybody (m : smap string uid) : Prop := True.
Definition nobody (k : string) (m : smap string uid) : Prop := sfind k m = None.

(** Programs that keep all of it, without a fault; and those that may add users. *)
Abbreviation quiet m := (∀ D K, spec no_fault (sane D K) m (λ _, sane D K)).
Abbreviation sound m := (∀ D, spec no_fault (sane D anybody) m (λ _, sane D anybody)).

(** Changes of the members the invariant does not speak of. *)
Lemma sane_same D K s s' :
  m_users s' = m_users s → m_cachedUser s' = m_cachedUser s → m_userRegistry s' = m_userRegistry s →
  user_heap s' = user_heap s → sane D K s → sane D K s'.
Proof.
  intros Hu Hc Hr Hh [[H2 H3 H4] [Hd Hk]].
  split; [constructor|]; unfold detached; rewrite ?Hu, ?Hc, ?Hr, ?Hh; done.
Qed.

Lemma emit_quiet e : quiet (emit e).
Proof. intros D K s. by apply sane_same. Qed.

Lemma storage_quiet f : quiet (storage f).
Proof. intros D K s. by apply sane_same. Qed.

Lemma handlers_quiet f : quiet (modify (with_removeHandlers f)).
Proof. intros D K s. by apply sane_same. Qed.

Lemma registry_quiet (m : prog (Registry J) unit) :
  spec no_fault registry_ok m (λ _, registry_ok) → quiet (registry m).
Proof.
  intros Hm D K s [[H2 H3 H4] Hd]. unfold registry. specialize (Hm _ H4).
  destruct (m (m_userRegistry s)) as [[] r|f]; [|done]. by split.
Qed.

Lemma onPasswordInvalid_quiet user error : quiet (registry (onPasswordInvalid user error)).
Proof. apply registry_quiet, onPasswordInvalid_safe. Qed.

Lemma onPasswordValid_quiet user : quiet (registry (onPasswordValid user)).
Proof. apply registry_quiet, onPasswordValid_safe. Qed.

Lemma removeLater_quiet user : quiet (registry (removeLater user)).
Proof. apply registry_quiet. intros r Hr. exact Hr. Qed.

Lemma load_user_live u o s : user_heap s !! u = Some o → load u s = Done o s.
Proof. intros Ho. unfold load. rewrite bind_run. simpl. by rewrite Ho. Qed.

(** ** getUser *)

(** What a lookup changes: the cache, and the settings of the user it finds. *)
Definition looked_up s s' : Prop :=
  m_users s' = m_users s ∧ m_userRegistry s' = m_userRegistry s ∧ m_presenceOracle s' = m_presenceOracle s
  ∧ m_storageBackend s' = m_storageBackend s ∧ m_removeHandlers s' = m_removeHandlers s
  ∧ manager_log s' = manager_log s.

Lemma lookup_user_run k s :
  manager_ok s → ∃ s', getUser k s = Done (sfind k (m_users s)) s' ∧ looked_up s s'
                       ∧ ∀ D K, sane D K s → sane D K s'.
Proof.
  intros Hok. unfold getUser. rewrite bind_run. simpl.
  assert (Hmiss : ∃ s',
    match sfind k (m_users s) with
    | Some u =>
        modify (with_cachedUser (Some u)) ;;
        match m_storageBackend s with
        | Some st =>
            o ← load u;
            modify (with_user_heap (<[u := set_settings
              (db_getAllSettings (Pool.ui_id (mu_info o)) (Pool.ui_settings (mu_info o)) st) o]>))
        | None => mret tt
        end ;;
        mret (Some u)
    | None => mret None
    end s = Done (sfind k (m_users s)) s' ∧ looked_up s s' ∧ ∀ D K, sane D K s → sane D K s').
  { destruct (sfind k (m_users s)) as [u|] eqn:Hu; [|by exists s].
    destruct (ok_users _ Hok _ _ Hu) as (o & Ho & Hk).
    assert (Hcache : ∀ D K, sane D K s → sane D K (with_cachedUser (Some u) s)).
    { intros D K [[H2 H3 H4] Hd]. split; [constructor; simpl; auto|done].
      intros v [= <-]. exists o. split; [done|]. by rewrite Hk. }
    repeat (rewrite bind_run; simpl). destruct (m_storageBackend s) as [st|]; [|by eexists].
    unfold load. repeat (rewrite bind_run; simpl). rewrite Ho. simpl.
    eexists. split; [reflexivity|]. split; [done|]. intros D K [[H2 H3 H4] [Hd HK]]%Hcache.
    set (o' := set_settings _ o). assert (Hk' : key_of o' = k) by (by rewrite <- Hk).
    split; [constructor; simpl|split; [|exact HK]].
    - intros k' v Hv. destruct (H2 _ _ Hv) as (o2 & Ho2 & Hk2). simpl in *.
      destruct (decide (v = u)) as [->|Hne]; [|by rewrite lookup_insert_ne by done; exists o2].
      rewrite lookup_insert_eq. exists o'. split; [done|]. congruence.
    - intros v Hv. injection Hv as <-. exists o'. rewrite lookup_insert_eq. by rewrite Hk'.
    - exact H4.
    - intros v ov Hv. destruct (Hd _ _ Hv) as [Hin Hnot]. split; [|done]. simpl in *.
      rewrite lookup_insert_ne; [done|]. intros <-. by apply (Hnot k). }
  destruct (m_cachedUser s) as [u|] eqn:Hc; [|rewrite bind_run; exact Hmiss].
  destruct (ok_cached _ Hok _ Hc) as (o & Ho & Hk).
  unfold load. repeat (rewrite bind_run; simpl). rewrite Ho. simpl.
  destruct (String.eqb_spec k (key_of o)) as [->|Hne]; simpl; [|exact Hmiss].
  exists s. by rewrite Hk.
Qed.

(** The rest of a handler, after its lookup: the user is alive. *)
Lemma getUser_spec {B} k (f : option uid → mgr B) D K Q :
  (∀ r, spec no_fault (λ s, sane D K s ∧ sfind k (m_users s) = r) (f r) Q) →
  spec no_fault (sane D K) (getUser k ≫= f) Q.
Proof.
  intros Hf s Hs. destruct (lookup_user_run k s (proj1 Hs)) as (s' & Hrun & Hl & Hsane).
  rewrite bind_run, Hrun. apply Hf. split; [by apply Hsane|]. by destruct Hl as [-> _].
Qed.

(** When the lookup only decides what to do next. *)
Lemma getUser_quiet {B} k (f : option uid → mgr B) D K Q :
  (∀ r, spec no_fault (sane D K) (f r) Q) → spec no_fault (sane D K) (getUser k ≫= f) Q.
Proof. intros Hf. apply getUser_spec. intros r s [Hs _]. by apply Hf. Qed.

Lemma get_quiet {B} (f : Manager J St → mgr B) P Q :
  (∀ s0, spec no_fault P (f s0) Q) → spec no_fault P (get ≫= f) Q.
Proof. intros Hf s Hs. by apply (Hf s s). Qed.

Ltac quiet_step :=
  lazymatch goal with
  | |- spec _ _ (emit _) _ => apply emit_quiet
  | |- spec _ _ (storage _) _ => apply storage_quiet
  | |- spec _ _ (modify (with_removeHandlers _)) _ => apply handlers_quiet
  | |- spec _ _ (modify _) _ => intros ?; by apply sane_same
  | |- spec _ _ (registry (onPasswordInvalid _ _)) _ => apply onPasswordInvalid_quiet
  | |- spec _ _ (registry (onPasswordValid _)) _ => apply onPasswordValid_quiet
  | |- spec _ _ (registry (removeLater _)) _ => apply removeLater_quiet
  | |- spec _ _ (when _ _) _ => apply spec_when
  | |- spec _ _ (mret _) _ => apply spec_ret; intros ? Hsane; exact Hsane
  | |- spec _ _ (getUser _ ≫= _) _ => apply getUser_quiet; intros ?
  | |- spec _ _ (get ≫= _) _ => apply get_quiet; intros ?
  | |- spec _ _ (_ ≫= _) _ => apply spec_keep; [|intros ?]
  | |- spec _ _ (match _ with _ => _ end) _ => case_match
  end.
Ltac quiet := intros; repeat quiet_step.

(** ** The checks of an account *)

Lemma answer_offline_quiet p userkey : quiet (answer_offline (St:=St) p userkey).
Proof. unfold answer_offline. quiet. Qed.

Lemma store_user_quiet userkey res : quiet (store_user (St:=St) (J:=J) userkey res).
Proof. unfold store_user. quiet. Qed.

Lemma server_registration_quiet p userkey registered res :
  quiet (server_registration (St:=St) cfg p userkey registered res).
Proof. unfold server_registration. quiet. apply store_user_quiet. Qed.

Lemma gateway_registration_quiet p userkey registered res :
  quiet (gateway_registration (St:=St) cfg p userkey registered res).
Proof. unfold gateway_registration. quiet. apply store_user_quiet. Qed.

Lemma refuse_non_vip_quiet p : quiet (refuse_non_vip (St:=St) cfg p).
Proof. unfold refuse_non_vip. quiet. Qed.

Lemma transport_enabled_quiet id : quiet (transport_enabled (J:=J) (St:=St) id).
Proof. unfold transport_enabled. quiet. Qed.

(** ** Creating and removing *)

(** What a removal needs, and keeps. *)
Definition removes (remove : uid → bool → mgr unit) : Prop :=
  ∀ D u b, spec no_fault
    (λ s, sane D anybody s ∧ ∃ o, user_heap s !! u = Some o ∧ sfind (key_of o) (m_users s) = Some u)
    (remove u b) (λ _, sane D anybody).

Lemma weaken_absent D K s : sane D K s → sane D anybody s.
Proof. intros (Hok & Hd & _). by split. Qed.

(** A user nobody has is allocated, entered and announced; then comes the slot. *)
Lemma new_user_run from info D s :
  sane D (nobody (bare_key from)) s →
  ∃ u o s', sane D anybody s' ∧ user_heap s' !! u = Some o ∧ key_of o = bare_key from
    ∧ mu_info o = info ∧ m_users s' = sinsert (bare_key from) u (m_users s)
    ∧ manager_log s' = manager_log s ++ [UserCreated u]
    ∧ ∀ remove, (u ← createUser from info; addUser remove u) s = when (refused_by_slot o) (remove u true) s'.
Proof.
  intros ([H2 H3 H4] & Hd & HK). unfold nobody in HK.
  set (u := alloc (user_heap s)). assert (Hu : user_heap s !! u = None) by apply alloc_fresh.
  set (o := mkManagedUser (toBare from) info false).
  assert (Hkey : key_of o = bare_key from) by (unfold key_of, bare_key; simpl; by rewrite toBare_idem).
  set (s' := mkManager (sinsert (bare_key from) u (m_users s)) (m_cachedUser s) (m_removeHandlers s)
    (m_sentToBackend s) (db_setUserOnline (Pool.ui_id info) true <$> m_storageBackend s) (m_userRegistry s)
    (m_presenceOracle s) (<[u := o]> (user_heap s)) (manager_log s ++ [UserCreated u])).
  exists u, o, s'. split; [|repeat (split; [apply lookup_insert_eq || done|])].
  2: { intros remove. unfold createUser, addUser, load. repeat (rewrite bind_run; simpl). fold u.
       rewrite lookup_insert_eq. repeat (rewrite bind_run; simpl). unfold s'. by rewrite <- Hkey. }
  split; [constructor; simpl|split; [|done]].
  - intros k v Hv. destruct (decide (k = bare_key from)) as [->|Hne].
    + rewrite sfind_sinsert_eq in Hv. injection Hv as <-. exists o. by rewrite lookup_insert_eq.
    + rewrite sfind_sinsert_ne in Hv by done. destruct (H2 _ _ Hv) as (o2 & Ho2 & Hk2).
      exists o2. rewrite lookup_insert_ne by congruence. done.
  - intros v Hv. destruct (H3 _ Hv) as (o2 & Ho2 & Hk2). exists o2.
    rewrite lookup_insert_ne by congruence. split; [done|].
    rewrite sfind_sinsert_ne; [done|]. congruence.
  - exact H4.
  - intros v ov Hv. destruct (Hd _ _ Hv) as [Hin Hnot]. simpl. rewrite lookup_insert_ne by congruence.
    split; [done|]. intros k. destruct (decide (k = bare_key from)) as [->|Hne].
    + rewrite sfind_sinsert_eq. congruence.
    + rewrite sfind_sinsert_ne by done. apply Hnot.
Qed.

Lemma new_user_sound remove from info D :
  removes remove →
  spec no_fault (sane D (nobody (bare_key from))) (u ← createUser from info; addUser remove u)
    (λ _, sane D anybody).
Proof.
  intros Hremove s Hs. destruct (new_user_run from info D s Hs) as (u & o & s' & Hs' & Ho & Hk & _ & Hu & _ & ->).
  destruct (refused_by_slot o); simpl; [|exact Hs']. apply Hremove. split; [exact Hs'|].
  exists o. split; [done|]. by rewrite Hu, Hk, sfind_sinsert_eq.
Qed.

Lemma forget_absent {B} (m : mgr B) D K Q :
  spec no_fault (sane D anybody) m Q → spec no_fault (sane D K) m Q.
Proof. intros Hm s Hs. by apply Hm, (weaken_absent _ K). Qed.

Lemma login_account_sound remove p registered res D :
  removes remove →
  spec no_fault (sane D (nobody (bare_key (pr_from p)))) (login_account cfg remove p registered res)
    (λ _, sane D anybody).
Proof.
  intros Hremove. unfold login_account. destruct (negb registered); [apply forget_absent; quiet|].
  destruct (_ && _)%bool.
  { apply forget_absent. quiet. apply refuse_non_vip_quiet. }
  eapply spec_bind; [apply transport_enabled_quiet|]. intros enabled. simpl.
  destruct (negb enabled); [apply forget_absent; quiet|].
  intros s Hs. pose proof (new_user_sound remove (pr_from p) res D Hremove s Hs) as Hnew.
  rewrite bind_run in Hnew. rewrite bind_run. destruct (createUser _ _ s) as [u s1|f]; [|exact Hnew].
  rewrite bind_run. by destruct (addUser remove u s1) as [[] s2|f]; [|exact Hnew].
Qed.

Lemma create_user_for_sound remove p D :
  removes remove →
  spec no_fault (sane D (nobody (bare_key (pr_from p)))) (create_user_for cfg remove p (bare_key (pr_from p)))
    (λ _, sane D anybody).
Proof.
  intros Hremove. unfold create_user_for.
  destruct (_ && _)%bool; [apply forget_absent; unfold admin_contact; quiet|].
  apply get_quiet. intros s0. case_bool_decide.
  { apply forget_absent. quiet. apply answer_offline_quiet. }
  eapply spec_bind.
  - destruct (inServerMode cfg); [apply server_registration_quiet|].
    eapply spec_bind; [apply gateway_registration_quiet|]. intros account. quiet.
  - intros [[registered res]|]; [by apply login_account_sound|]. apply forget_absent. quiet.
Qed.

Lemma user_presence_sound u p D :
  spec no_fault (λ s, sane D anybody s ∧ ∃ k, sfind k (m_users s) = Some u) (user_presence (St:=St) u p)
    (λ _, sane D anybody).
Proof.
  intros s [Hs [k Hk]]. unfold user_presence. rewrite bind_run. simpl.
  destruct (isMUC p); [by apply (sane_same D anybody s)|]. case_bool_decide; [|by apply (sane_same D anybody s)].
  destruct (ok_users _ (proj1 Hs) _ _ Hk) as (o & Ho & _).
  unfold load. repeat (rewrite bind_run; simpl). rewrite Ho. simpl.
  destruct (String.eqb _ _); [by apply (sane_same D anybody s)|]. rewrite bind_run. simpl.
  destruct (getHighestPriorityPresence _ _ _) as [h|]; [|by apply (sane_same D anybody s)].
  case_bool_decide; by apply (sane_same D anybody s).
Qed.

Lemma handlePresence_with_sound remove p : removes remove → sound (handlePresence_with cfg remove p).
Proof.
  intros Hremove D. unfold handlePresence_with. apply getUser_spec. intros r.
  apply (spec_bind no_fault _ _ (λ _, sane D anybody)).
  - destruct r as [u|]; [apply spec_ret; intros s [Hs _]; exact Hs|].
    intros s [(Hok & Hd & _) Hnone]. apply (create_user_for_sound remove p D Hremove).
    exact (conj Hok (conj Hd Hnone)).
  - intros go. destruct (negb go); [quiet|]. apply getUser_spec. intros [u|].
    + intros s [Hs Hu]. apply user_presence_sound. split; [done|]. by eexists.
    + intros s [Hs _]. by apply onPasswordInvalid_quiet.
Qed.

Lemma detach D s u o :
  sane D anybody s → user_heap s !! u = Some o → sfind (key_of o) (m_users s) = Some u →
  sane (<[u := o]> D) anybody
    (with_cachedUser (if bool_decide (m_cachedUser s = Some u) then None else m_cachedUser s)
       (with_users (serase (key_of o)) s)).
Proof.
  intros ([H2 H3 H4] & Hd & _) Ho Hu. split; [constructor; simpl|split; [|done]].
  - intros k v Hv. destruct (decide (k = key_of o)) as [->|Hne]; [by rewrite sfind_serase_eq in Hv|].
    rewrite sfind_serase_ne in Hv by done. by apply H2.
  - intros v Hv. case_bool_decide as Hc; [done|]. destruct (H3 _ Hv) as (o2 & Ho2 & Hk2). exists o2.
    split; [done|]. rewrite sfind_serase_ne; [done|]. congruence.
  - exact H4.
  - intros v ov Hv. simpl. apply lookup_insert_Some in Hv as [[<- <-]|[Hne Hv]].
    + split; [done|]. intros k Hk. destruct (decide (k = key_of o)) as [->|Hnek]; [by rewrite sfind_serase_eq in Hk|].
      rewrite sfind_serase_ne in Hk by done. destruct (H2 _ _ Hk) as (o2 & Ho2 & <-). congruence.
    + destruct (Hd _ _ Hv) as [Hin Hnot]. split; [done|]. intros k Hk.
      destruct (decide (k = key_of o)) as [->|Hnek]; [by rewrite sfind_serase_eq in Hk|].
      rewrite sfind_serase_ne in Hk by done. by apply (Hnot k).
Qed.

(** Deleting a detached user. *)
Lemma delete_detached D s u o :
  D !! u = None → sane (<[u := o]> D) anybody s → sane D anybody (with_user_heap (delete u) s).
Proof.
  intros HD ([H2 H3 H4] & Hd & _). destruct (Hd u o) as [Ho Hnot]; [apply lookup_insert_eq|].
  split; [constructor; simpl|split; [|done]].
  - intros k v Hv. destruct (H2 _ _ Hv) as (o2 & Ho2 & Hk2). exists o2. split; [|done].
    rewrite lookup_delete_ne; [done|]. intros <-. by apply (Hnot k).
  - intros v Hv. destruct (H3 _ Hv) as (o2 & Ho2 & Hk2). exists o2. split; [|done].
    rewrite lookup_delete_ne; [done|]. intros <-. by apply (Hnot (key_of o2)).
  - exact H4.
  - intros v ov Hv. destruct (Hd v ov) as [Hin Hn]; [rewrite lookup_insert_ne; [done|congruence]|].
    simpl. rewrite lookup_delete_ne by congruence. done.
Qed.

(** removeUser in three parts: out of the map and the cache, offline, deleted. *)
Definition leave_users (hp : Presence J → mgr unit) (o : ManagedUser J) : mgr unit :=
  if inServerMode cfg then disconnectUser cfg hp (mu_jid o)
  else modify (λ s, with_oracle (clearPresences (toBare (mu_jid o)) (m_presenceOracle s)) s).

Definition finish_removal (u : uid) (onUserBehalf : bool) : mgr unit :=
  o ← load u;
  when onUserBehalf (storage (db_setUserOnline (Pool.ui_id (mu_info o)) false)) ;;
  emit (UserDestroyed u) ;;
  modify (with_user_heap (delete u)).

Lemma remove_user_parts D s u o :
  sane D anybody s → user_heap s !! u = Some o → sfind (key_of o) (m_users s) = Some u →
  ∃ s1, D !! u = None ∧ sane (<[u := o]> D) anybody s1 ∧ sfind (key_of o) (m_users s1) = None
    ∧ ∀ hp b, removeUser cfg hp u b s = (leave_users hp o ;; finish_removal u b) s1.
Proof.
  intros Hs Ho Hu.
  exists (with_cachedUser (if bool_decide (m_cachedUser s = Some u) then None else m_cachedUser s)
            (with_users (serase (key_of o)) s)).
  split; [|split; [by apply detach|split; [apply sfind_serase_eq|]]].
  - destruct (D !! u) as [o2|] eqn:HD; [|done].
    destruct (proj1 (proj2 Hs) _ _ HD) as [_ Hn]. by destruct (Hn (key_of o)).
  - intros hp b. unfold removeUser. rewrite bind_run, (load_user_live u o) by done. cbn beta iota.
    rewrite (bind_run (modify _)). cbn beta iota delta [modify].
    rewrite (bind_run get). cbn beta iota delta [get]. rewrite (bind_run (when _ _)).
    simpl m_cachedUser. case_bool_decide; [done|]. by destruct s.
Qed.

(** ** The handlers *)

Section handlers.
Context (hp : Presence J → mgr unit) (Hhp : ∀ p, sound (hp p)).

Lemma handleGeneralPresenceReceived_sound p : sound (handleGeneralPresenceReceived hp p).
Proof.
  intros D. unfold handleGeneralPresenceReceived, handleSubscription, handleMUCPresence, handleProbePresence,
    handleErrorPresence, registered_in.
  quiet; apply Hhp.
Qed.

Lemma onPresenceReceived_sound p : sound (onPresenceReceived hp p).
Proof.
  intros D. unfold onPresenceReceived. apply get_quiet. intros s0.
  destruct (handleIncomingPresence p (m_presenceOracle s0)) as [changed oracle].
  apply spec_keep; [intros s; by apply sane_same|]. intros _. apply spec_keep.
  - destruct changed as [p'|]; [|quiet]. unfold component_handlePresence. quiet; apply Hhp.
  - intros _. apply handleGeneralPresenceReceived_sound.
Qed.

Lemma removeUser_removes : removes (removeUser cfg hp).
Proof.
  intros D u b s [Hs (o & Ho & Hu)].
  destruct (remove_user_parts D s u o Hs Ho Hu) as (s1 & HD & Hs1 & _ & ->).
  set (I := sane (<[u := o]> D) anybody). revert s1 Hs1. fold (spec no_fault I (leave_users hp o ;; finish_removal u b) (λ _, sane D anybody)).
  apply (spec_bind no_fault I _ (λ _, I)).
  - unfold leave_users. destruct (inServerMode cfg); [apply onPresenceReceived_sound|intros s2; by apply sane_same].
  - intros _ s2 Hs2. destruct (proj1 (proj2 Hs2) u o) as [Ho2 _]; [apply lookup_insert_eq|].
    unfold finish_removal, load. repeat (rewrite bind_run; simpl). rewrite Ho2. simpl. repeat (rewrite bind_run; simpl).
    destruct b; simpl; apply (delete_detached D _ u o); try done; by apply (sane_same _ anybody s2).
Qed.

Lemma connectUser_sound user : sound (connectUser cfg hp user).
Proof.
  intros D s Hs. unfold connectUser. rewrite bind_run. simpl.
  destruct (sfind (bare_key user) (m_users s)) as [u|] eqn:Hu; [|by apply onPresenceReceived_sound].
  destruct (negb (inServerMode cfg)); [exact Hs|].
  destruct (ok_users _ (proj1 Hs) _ _ Hu) as (o & Ho & _).
  unfold load. repeat (rewrite bind_run; simpl). rewrite Ho. simpl.
  match goal with |- match ?m s with _ => _ end => enough (Hm : spec no_fault (sane D anybody) m (λ _, sane D anybody)) by exact (Hm s Hs) end.
  unfold switch_session. quiet.
Qed.

Lemma handleRemoveTimeout_sound jid u reconnect : sound (handleRemoveTimeout cfg hp jid u reconnect).
Proof.
  intros D. unfold handleRemoveTimeout. apply spec_keep; [quiet|]. intros _.
  apply getUser_spec. intros r. case_bool_decide as Hr; simpl; [|by intros s [Hs _]].
  eapply spec_bind.
  - intros s [Hs Hu]. apply removeUser_removes. split; [exact Hs|]. subst r.
    destruct (ok_users _ (proj1 Hs) _ _ Hu) as (o & Ho & <-). by exists o.
  - intros []. apply spec_when. apply connectUser_sound.
Qed.

Lemma removeTimer_sound : sound (removeTimer_onTick cfg hp).
Proof.
  intros D. unfold removeTimer_onTick. apply get_quiet. intros s0. apply spec_for_each.
  intros [[jid u] reconnect] _. apply get_quiet. intros s1. apply spec_when. apply handleRemoveTimeout_sound.
Qed.
End handlers.

Lemma handlePresence_at_sound depth p : sound (handlePresence_at cfg depth p).
Proof.
  revert p. induction depth as [|depth IH]; intros p D; simpl; [quiet|].
  apply handlePresence_with_sound, removeUser_removes, IH.
Qed.

(** Users are removed, and connect, while the manager knows them. *)
Definition possible (i : manager_input (J:=J)) s : Prop :=
  match i with
  | Remove u _ | SetConnected u _ => ∃ k, sfind k (m_users s) = Some u
  | _ => True
  end.

Lemma setConnected_sound u b s :
  manager_ok s → possible (SetConnected u b) s →
  ∃ s', react cfg (SetConnected u b) s = Done tt s' ∧ manager_ok s'.
Proof.
  intros Hok [k Hk]. destruct (ok_users _ Hok _ _ Hk) as (o & Ho & <-).
  simpl. unfold load. repeat (rewrite bind_run; simpl). rewrite Ho. simpl. eexists. split; [reflexivity|].
  destruct Hok as [H2 H3 H4]. constructor; simpl; [| |done].
  - intros k v Hv. destruct (H2 _ _ Hv) as (o2 & Ho2 & Hk2). destruct (decide (v = u)) as [->|Hne].
    + rewrite lookup_insert_eq. eexists. split; [done|]. rewrite Ho in Ho2. by injection Ho2 as <-.
    + rewrite lookup_insert_ne by done. by exists o2.
  - intros v Hv. destruct (H3 _ Hv) as (o2 & Ho2 & Hk2). destruct (decide (v = u)) as [->|Hne].
    + rewrite lookup_insert_eq. eexists. split; [done|]. rewrite Ho in Ho2. by injection Ho2 as <-.
    + rewrite lookup_insert_ne by done. by exists o2.
Qed.

Lemma manager_ok_initial st : manager_ok (initial st).
Proof. constructor; simpl; [done|done|exact registry_ok_initial]. Qed.

(** C13: whatever presences, messages, logins and ticks of the timer come, the
    manager runs to the end of each event, never through the pointer of a user it
    deleted; its map only holds live users, each under its own bare JID, the cached
    user is the one the map has, and the registry stays consistent. *)
Theorem manager_sound :
  (∀ st, manager_ok (initial st))
  ∧ ∀ s i, manager_ok s → possible i s → ∃ s', react cfg i s = Done tt s' ∧ manager_ok s'.
Proof.
  split.
  { exact manager_ok_initial. }
  intros s i Hok Hi.
  assert (Hs : sane ∅ anybody s) by (split; [done|split; [by intros u o ?%lookup_empty_Some|done]]).
  assert (Hsound : ∀ m : mgr unit, spec no_fault (sane ∅ anybody) m (λ _, sane ∅ anybody) →
    ∃ s', m s = Done tt s' ∧ manager_ok s').
  { intros m Hm. specialize (Hm s Hs). destruct (m s) as [[] s'|f]; [|done]. exists s'. by destruct Hm. }
  pose proof (handlePresence_at_sound 2) as Hhp.
  destruct i as [p|m|jid|user|user|u b| |u b].
  - by apply Hsound, onPresenceReceived_sound.
  - apply Hsound. simpl. unfold handleMessageReceived. quiet.
  - apply Hsound. simpl. unfold handleDiscoInfo. quiet.
  - by apply Hsound, connectUser_sound.
  - by apply Hsound, onPresenceReceived_sound.
  - destruct Hi as [k Hk]. destruct (ok_users _ Hok _ _ Hk) as (o & Ho & <-).
    pose proof (removeUser_removes _ Hhp ∅ u b s (conj Hs (ex_intro _ o (conj Ho Hk)))) as Hm. simpl.
    destruct (removeUser _ _ u b s) as [[] s'|f]; [|done]. exists s'. by destruct Hm.
  - by apply Hsound, removeTimer_sound.
  - by apply setConnected_sound.
Qed.

(** ** How deep the calls go *)

(** Two removals that do the same to every user the manager has. *)
Definition same_removal (r1 r2 : uid → bool → mgr unit) : Prop :=
  ∀ s u o, manager_ok s → user_heap s !! u = Some o → sfind (key_of o) (m_users s) = Some u →
  ∀ b, r1 u b s = r2 u b s.

Lemma login_account_same r1 r2 p registered res s D :
  same_removal r1 r2 → sane D (nobody (bare_key (pr_from p))) s →
  login_account cfg r1 p registered res s = login_account cfg r2 p registered res s.
Proof.
  intros Hr Hs. unfold login_account. destruct (negb registered); [done|]. destruct (_ && _)%bool; [done|].
  rewrite !bind_run. pose proof (transport_enabled_quiet (Pool.ui_id res) _ _ s Hs) as Ht.
  destruct (transport_enabled (Pool.ui_id res) s) as [enabled s1|f]; [|done].
  destruct (negb enabled); [done|].
  destruct (new_user_run (pr_from p) res D s1 Ht) as (u & o & s' & Hs' & Ho & Hk & _ & Hu & _ & Hrun).
  pose proof (Hrun r1) as H3. pose proof (Hrun r2) as H4. rewrite bind_run in H3, H4. rewrite !bind_run.
  destruct (createUser (pr_from p) res s1) as [u1 s2|f]; [|done].
  rewrite !bind_run, H3, H4. destruct (refused_by_slot o); simpl; [|done].
  rewrite (Hr s' u o); [done|apply Hs'|done|]. by rewrite Hu, Hk, sfind_sinsert_eq.
Qed.

Lemma create_user_for_same r1 r2 p s D :
  same_removal r1 r2 → sane D (nobody (bare_key (pr_from p))) s →
  create_user_for cfg r1 p (bare_key (pr_from p)) s = create_user_for cfg r2 p (bare_key (pr_from p)) s.
Proof.
  intros Hr Hs. unfold create_user_for. destruct (_ && _)%bool; [done|].
  rewrite !(bind_run get). simpl. case_bool_decide; [done|].
  match goal with |- (?m ≫= _) _ = _ =>
    assert (Hm : spec no_fault (sane D (nobody (bare_key (pr_from p)))) m (λ _, sane D (nobody (bare_key (pr_from p))))) end.
  { destruct (inServerMode cfg); [apply server_registration_quiet|].
    apply spec_keep; [apply gateway_registration_quiet|]. intros account. quiet. }
  specialize (Hm s Hs). rewrite !(bind_run (if inServerMode cfg then _ else _)).
  match type of Hm with match ?m with Done _ _ => _ | Fault _ => _ end => destruct m as [[[registered res]|] s1|f] end;
    [|done..]. by eapply login_account_same.
Qed.

Lemma handlePresence_with_same r1 r2 p s :
  same_removal r1 r2 → manager_ok s → handlePresence_with cfg r1 p s = handlePresence_with cfg r2 p s.
Proof.
  intros Hr Hok. unfold handlePresence_with. rewrite !(bind_run (getUser _)).
  destruct (lookup_user_run (bare_key (pr_from p)) s Hok) as (s1 & -> & Hl & Hsane).
  destruct (sfind (bare_key (pr_from p)) (m_users s)) as [u|] eqn:Hu; [done|].
  assert (Hs1 : sane ∅ (nobody (bare_key (pr_from p))) s1).
  { destruct (Hsane ∅ anybody) as (Hok1 & Hd & _).
    { split; [done|]. split; [by intros ? ? ?%lookup_empty_Some|done]. }
    split; [done|]. split; [done|]. unfold nobody. by rewrite (proj1 Hl). }
  pose proof (create_user_for_same r1 r2 p s1 ∅ Hr Hs1) as Heq.
  rewrite !(bind_run (create_user_for _ _ _ _)). rewrite Heq. reflexivity.
Qed.

(** Going offline without a User removes nobody. *)
Lemma offline_same r1 r2 p s :
  manager_ok s → pr_type p = Unavailable → sfind (bare_key (pr_from p)) (m_users s) = None →
  handlePresence_with cfg r1 p s = handlePresence_with cfg r2 p s.
Proof.
  intros Hok Ht Hu. unfold handlePresence_with. rewrite !(bind_run (getUser _)).
  destruct (lookup_user_run (bare_key (pr_from p)) s Hok) as (s1 & -> & _). rewrite Hu.
  unfold create_user_for. destruct (_ && _)%bool; [done|]. by rewrite !bool_decide_true by auto.
Qed.

(** The presence a removal sends finds the manager without the user. *)
Lemma disconnectUser_same n1 n2 user s :
  manager_ok s → sfind (bare_key user) (m_users s) = None →
  disconnectUser cfg (handlePresence_at cfg (S n1)) user s
  = disconnectUser cfg (handlePresence_at cfg (S n2)) user s.
Proof.
  intros Hok Hu. unfold disconnectUser, onPresenceReceived. rewrite !(bind_run get).
  change (get s) with (Done s s : result (Manager J St) (Manager J St)). cbn beta iota.
  set (p := setPresenceType Unavailable _).
  destruct (handleIncomingPresence p (m_presenceOracle s)) as [changed oracle] eqn:Hch.
  rewrite !(bind_run (modify _)). set (s1 := with_oracle oracle s).
  assert (Hmid : match changed with
                 | Some p => component_handlePresence (handlePresence_at cfg (S n1)) p
                 | None => mret tt end s1
               = match changed with
                 | Some p => component_handlePresence (handlePresence_at cfg (S n2)) p
                 | None => mret tt end s1).
  { unfold handleIncomingPresence, passed_presence in Hch. simpl in Hch.
    destruct (negb _); [by injection Hch as <- _|].
    injection Hch as <- _.
    unfold component_handlePresence. simpl.
    destruct (negb _); [reflexivity|]. destruct (negb _); [reflexivity|].
    apply (offline_same (removeUser cfg (handlePresence_at cfg n1)) (removeUser cfg (handlePresence_at cfg n2)) p s1); [|reflexivity|exact Hu].
    destruct Hok. by constructor. }
  change (modify (with_oracle oracle) s) with (Done tt s1). cbn beta iota. rewrite !bind_run, Hmid. reflexivity.
Qed.

Lemma removeUser_same n1 n2 :
  same_removal (removeUser cfg (handlePresence_at cfg (S n1))) (removeUser cfg (handlePresence_at cfg (S n2))).
Proof.
  intros s u o Hok Ho Hu b.
  assert (Hs : sane ∅ anybody s) by (split; [done|split; [by intros ? ? ?%lookup_empty_Some|done]]).
  destruct (remove_user_parts ∅ s u o Hs Ho Hu) as (s1 & _ & Hs1 & Hn & Hrun). rewrite !Hrun, !bind_run.
  unfold leave_users. destruct (inServerMode cfg); [|done].
  by rewrite (disconnectUser_same n1 n2 (mu_jid o) s1 (proj1 Hs1) Hn).
Qed.

(** handlePresence ends: a presence comes back to it at most once, while the
    user it has just created is removed again, and any greater depth of calls
    gives the same result. *)
Theorem handlePresence_depth n p s :
  manager_ok s → handlePresence_at cfg (S (S n)) p s = handlePresence cfg p s.
Proof.
  intros Hok. unfold handlePresence.
  change (handlePresence_with cfg (removeUser cfg (handlePresence_at cfg (S n))) p s
          = handlePresence_with cfg (removeUser cfg (handlePresence_at cfg 1)) p s).
  apply handlePresence_with_same; [apply (removeUser_same n 0)|exact Hok].
Qed.

(** ** Who may log in *)

(** The specification of the checks, on the storage as it is: somebody who becomes
    available, is not the administrator of a server, and either has an account that
    is allowed in and has not disabled the transport, or may get one. *)
Definition may_login (p : Presence J) (storage : option St) : bool :=
  let userkey := bare_key (pr_from p) in
  negb (bool_decide (pr_type p = Unavailable ∨ pr_type p = Probe))
  && negb (inServerMode cfg && bool_decide (userkey ∈ cfg_admin_jid cfg))
  && match storage ≫= db_getUser userkey with
     | Some info =>
         (negb (vip_only cfg) || Pool.ui_vip info)
         && match storage with
            | Some st => String.eqb (fst (db_getUserSetting (Pool.ui_id info) "enable_transport" TYPE_BOOLEAN "1" st)) "1"
            | None => true
            end
     | None =>
         if inServerMode cfg then negb (default false (needRegistration cfg) && default true (needPassword cfg))
         else auto_register cfg || negb (default true (needRegistration cfg))
     end.

(** What the registration makes of an account that is in the storage. *)
Lemma known_account p info s :
  ∃ res, Pool.ui_vip res = Pool.ui_vip info ∧ Pool.ui_id res = Pool.ui_id info ∧
  (if inServerMode cfg then server_registration (St:=St) cfg p (bare_key (pr_from p)) true info
   else account ← gateway_registration cfg p (bare_key (pr_from p)) true info; mret (Some account)) s
  = Done (Some (true, res)) s.
Proof.
  destruct (inServerMode cfg); [|by exists info].
  eexists. split; [|split]; [| |reflexivity]; done.
Qed.

Definition refusal (I : Manager J St → Prop) (go : bool) s : Prop := go = false ∧ I s.

Lemma refuse_after I (m : mgr unit) :
  spec no_fault I m (λ _, I) → spec no_fault I (m ;; mret false) (refusal I).
Proof. intros Hm. eapply spec_bind; [exact Hm|]. intros []. by apply spec_ret. Qed.

Lemma create_user_for_refused remove p D K s :
  sane D K s → may_login p (m_storageBackend s) = false →
  match create_user_for cfg remove p (bare_key (pr_from p)) s with
  | Done go s' => refusal (sane D K) go s'
  | Fault f => no_fault f
  end.
Proof.
  intros Hs Hno. unfold create_user_for. unfold may_login in Hno.
  destruct (inServerMode cfg && bool_decide (bare_key (pr_from p) ∈ cfg_admin_jid cfg))%bool.
  { by apply (refuse_after (sane D K)); [unfold admin_contact; quiet|]. }
  rewrite (bind_run get). cbn beta iota delta [get].
  case_bool_decide as Ht; [by apply (refuse_after (sane D K)); [apply answer_offline_quiet|]|].
  simpl in Hno. destruct (m_storageBackend s ≫= db_getUser (bare_key (pr_from p))) as [info|] eqn:Hf.
  - rewrite bool_decide_true by eauto. simpl default.
    destruct (known_account p info s) as (res & Hvip & Hid & Hrun). rewrite bind_run, Hrun.
    cbn beta iota. unfold login_account. cbn [negb]. rewrite Hvip.
    destruct (vip_only cfg && negb (Pool.ui_vip info))%bool eqn:Hv.
    { by apply (refuse_after (sane D K)); [apply refuse_non_vip_quiet|]. }
    replace (negb (vip_only cfg) || Pool.ui_vip info)%bool with true in Hno
      by (by destruct (vip_only cfg), (Pool.ui_vip info)).
    pose proof (transport_enabled_quiet (Pool.ui_id res) D K s Hs) as Hen.
    cbn [negb]. rewrite bind_run. unfold transport_enabled in *. rewrite bind_run in *. cbn beta iota delta [get] in *.
    rewrite Hid in *. destruct (m_storageBackend s) as [st|]; [|done].
    destruct (db_getUserSetting _ _ _ _ st) as [value st']. rewrite bind_run in *. simpl in *. by rewrite Hno.
  - rewrite bool_decide_false by (by intros []). simpl default.
    rewrite bind_run. destruct (inServerMode cfg).
    + unfold server_registration. apply negb_false_iff in Hno. cbn [negb andb]. rewrite Hno.
      assert (Hr : spec no_fault (sane D K) (registry (onPasswordInvalid (pr_from p) "") ;; mret (None : option (bool * UserInfo)))
        (λ r s, r = None ∧ sane D K s)).
      { eapply spec_bind; [apply onPasswordInvalid_quiet|]. intros []. by apply spec_ret. }
      specialize (Hr s Hs). simpl. match type of Hr with match ?m with Done _ _ => _ | Fault _ => _ end => destruct m end; [|done].
      by destruct Hr as [-> Hs'].
    + unfold gateway_registration. cbn [negb andb]. by rewrite Hno.
Qed.

Lemma account_admitted remove p D info s :
  sane D (nobody (bare_key (pr_from p))) s → may_login p (m_storageBackend s) = true →
  m_storageBackend s ≫= db_getUser (bare_key (pr_from p)) = Some info → (∀ o, refused_by_slot o = false) →
  ∃ u s', create_user_for cfg remove p (bare_key (pr_from p)) s = Done true s' ∧ sane D anybody s'
    ∧ sfind (bare_key (pr_from p)) (m_users s') = Some u
    ∧ manager_log s' = manager_log s ++ [UserCreated u].
Proof.
  intros Hs Hyes Hf Hslot. unfold may_login in Hyes. rewrite Hf in Hyes.
  apply andb_prop in Hyes as [[Ht Hadm]%andb_prop [Hvip' Hset]%andb_prop].
  apply negb_true_iff in Ht, Hadm. unfold create_user_for. rewrite Hadm.
  rewrite (bind_run get). cbn beta iota delta [get]. rewrite Ht, Hf.
  rewrite bool_decide_true by eauto. simpl default.
  destruct (known_account p info s) as (res & Hvip & Hid & Hrun). rewrite bind_run, Hrun.
  cbn beta iota. unfold login_account. cbn [negb]. rewrite Hvip.
  replace (vip_only cfg && negb (Pool.ui_vip info))%bool with false
    by (by destruct (vip_only cfg), (Pool.ui_vip info)).
  pose proof (transport_enabled_quiet (Pool.ui_id res) _ _ s Hs) as Hen.
  assert (Henabled : ∃ s1, transport_enabled (Pool.ui_id res) s = Done true s1 ∧ manager_log s1 = manager_log s).
  { unfold transport_enabled. rewrite bind_run, Hid. cbn beta iota delta [get].
    destruct (m_storageBackend s) as [st|]; [|by exists s].
    destruct (db_getUserSetting _ _ _ _ st) as [value st']. rewrite bind_run. simpl in *. rewrite Hset. by eexists. }
  destruct Henabled as (s1 & Hrun1 & Hlog). rewrite bind_run, Hrun1 in *. cbn [negb].
  destruct (new_user_run (pr_from p) res D s1 Hen) as (u & o & s2 & Hs2 & _ & _ & _ & Hu & Hl & Hnew).
  specialize (Hnew remove). rewrite (Hslot o) in Hnew. rewrite bind_run in Hnew. rewrite bind_run.
  destruct (createUser _ _ s1) as [u1 s3|f]; [|done]. rewrite bind_run, Hnew. exists u, s2. simpl.
  split; [done|]. split; [done|]. rewrite Hu, sfind_sinsert_eq, Hl, Hlog. done.
Qed.

(** C14: the gate: somebody without a User who may not log in does not get one,
    whatever the presence; somebody who may and has an account gets a User under
    his bare JID, which is announced and then handed the presence, unless a slot
    of the announcement removes it. *)
Theorem login_gate p s :
  manager_ok s → sfind (bare_key (pr_from p)) (m_users s) = None →
  (may_login p (m_storageBackend s) = false →
   ∃ s', handlePresence cfg p s = Done tt s' ∧ m_users s' = m_users s)
  ∧ (may_login p (m_storageBackend s) = true →
     is_Some (m_storageBackend s ≫= db_getUser (bare_key (pr_from p))) → (∀ o, refused_by_slot o = false) →
     ∃ s' u, handlePresence cfg p s = Done tt s' ∧ sfind (bare_key (pr_from p)) (m_users s') = Some u
       ∧ ∃ log, manager_log s' = log ++ [UserCreated u; UserPresence u p]).
Proof.
  intros Hok Hn.
  destruct (lookup_user_run (bare_key (pr_from p)) s Hok) as (s1 & Hrun & (Hu1 & _ & _ & Hst1 & _ & Hlog1) & Hsane).
  change (handlePresence cfg p s) with (handlePresence_with cfg (removeUser cfg (handlePresence_at cfg 1)) p s).
  unfold handlePresence_with. rewrite bind_run, Hrun, Hn.
  assert (Hempty : detached ∅ s) by (by intros ? ? ?%lookup_empty_Some).
  split; rewrite <- Hst1.
  - intros Hno. pose proof (create_user_for_refused (removeUser cfg (handlePresence_at cfg 1)) p ∅ (eq (m_users s)) s1
      (Hsane ∅ (eq (m_users s)) (conj Hok (conj Hempty eq_refl))) Hno) as Hr.
    rewrite bind_run. match type of Hr with match ?m with Done _ _ => _ | Fault _ => _ end => destruct m as [go s2|f] end; [|done].
    destruct Hr as (-> & _ & _ & Hu). by exists s2.
  - intros Hyes [info Hf] Hslot.
    destruct (account_admitted (removeUser cfg (handlePresence_at cfg 1)) p ∅ info s1
      (Hsane ∅ (nobody (bare_key (pr_from p))) (conj Hok (conj Hempty Hn))) Hyes Hf Hslot)
      as (u & s2 & Hrun2 & (Hok2 & _) & Hu2 & Hlog2).
    rewrite bind_run. rewrite Hrun2. cbn [negb].
    destruct (lookup_user_run (bare_key (pr_from p)) s2 Hok2) as (s3 & Hrun3 & (Hu3 & _ & _ & _ & _ & Hlog3) & _).
    rewrite bind_run, Hrun3, Hu2. apply andb_prop in Hyes as [[Ht _]%andb_prop _]. apply negb_true_iff in Ht.
    apply bool_decide_eq_false in Ht. unfold user_presence.
    rewrite (bool_decide_false (pr_type p = Unavailable)) by auto. rewrite bind_run.
    exists (with_manager_log (λ l, l ++ [UserPresence u p]) s3), u.
    split; [by destruct (isMUC p)|]. simpl. rewrite Hu3, Hlog3, Hlog2. split; [done|].
    exists (manager_log s1). by rewrite <- app_assoc.
Qed.
End theorems.

(** ** Witnesses *)

(** A storage kept in a list, whose users have not disabled the transport. *)
#[local] Instance list_storage : StorageBackend (list UserInfo) := {
  db_getUser key := List.find (λ i, String.eqb (Pool.ui_jid i) key);
  db_setUser i st := st ++ [i];
  db_setUserOnline _ _ st := st;
  db_getAllSettings _ settings _ := settings;
  db_getUserSetting _ _ _ value st := (value, st);
}.

Definition next_address (h : gmap uid (ManagedUser ref_jid)) : uid := S (list_max (map fst (map_to_list h))).

Lemma next_address_fresh h : h !! next_address h = None.
Proof.
  destruct (h !! next_address h) as [o|] eqn:Hh; [|done]. apply elem_of_map_to_list in Hh.
  assert (Hin : In (next_address h) (map fst (map_to_list h))).
  { apply in_map_iff. exists (next_address h, o). split; [done|]. by apply list_elem_of_In. }
  pose proof (proj1 (list_max_le (map fst (map_to_list h)) _) (Nat.le_refl _)) as Hmax.
  rewrite List.Forall_forall in Hmax. specialize (Hmax _ Hin). unfold next_address in Hmax. lia.
Qed.

Definition no_account : UserInfo := Pool.mkUserInfo 0 "" "" "" "" "" false [].

#[local] Instance quiet_env : ManagerEnv ref_jid := {
  alloc := next_address;
  alloc_fresh := next_address_fresh;
  refused_by_slot _ := false;
  fresh_info := no_account;
  typeToAvailabilityOrdering _ := 0%Z;
}.

Definition gateway_config : ManagerConfig ref_jid :=
  mkManagerConfig false (mkRefJid "" "irc.localhost" "") [] None None false false "" false.

Definition alice_account : UserInfo := Pool.mkUserInfo 1 "alice@localhost" "alice" "" "" "" false [].

Definition alice_online : Presence ref_jid :=
  setPresenceFrom (mkRefJid "alice" "localhost" "pc")
    (setPresenceTo (mkRefJid "" "irc.localhost" "") empty_presence).

Lemma manager_sound_witness :
  ∃ s', UserManager.react (St := list UserInfo) gateway_config (PresenceReceived alice_online) (initial None)
        = Done tt s' ∧ manager_ok s'.
Proof.
  exact (proj2 (manager_sound gateway_config) (initial None) (PresenceReceived alice_online)
           (proj1 (manager_sound gateway_config) None) I).
Defined.

Lemma handlePresence_depth_witness :
  handlePresence_at gateway_config 7 alice_online (initial (Some [alice_account]))
  = handlePresence gateway_config alice_online (initial (Some [alice_account])).
Proof.
  apply (handlePresence_depth gateway_config 5 alice_online (initial (Some [alice_account]))).
  constructor; [discriminate|discriminate|]. exact registry_ok_initial.
Defined.

Lemma login_gate_witness :
  ∃ s' u, handlePresence gateway_config alice_online (initial (Some [alice_account])) = Done tt s'
    ∧ sfind "alice@localhost"%string (m_users s') = Some u.
Proof.
  destruct (proj2 (login_gate gateway_config alice_online (initial (Some [alice_account]))
    ltac:(constructor; [discriminate|discriminate|exact registry_ok_initial])
    eq_refl)) as (s' & u & Hrun & Hu & _).
  - reflexivity.
  - exists alice_account. reflexivity.
  - reflexivity.
  - exists s', u. split; [exact Hrun|exact Hu].
Defined.
