(* ===== verification/Registration.v ===== *)
(** * Registration

    UserRegistration (libtransport/UserRegistration.cpp), the XMPP frontend's
    XMPPUserRegistration (frontends/xmpp/XMPPUserRegistration.cpp) with the form
    fields of formutils.cpp, and UsersReconnecter (libtransport). They share the
    users and the storage with the user manager; requests whose answers are still
    to come are a list, and what goes out is a list of events. *)

From S2P Require Import Prelude StdMap Swiften Names Text.
From S2P Require Pool Roster UserManager.

Abbreviation UserInfo := Pool.UserInfo.
Abbreviation uid := nat.

(** The rest of the abstract class StorageBackend. *)
Class AccountStorage (St : Type) := {
  as_users :: UserManager.StorageBackend St;
  as_buddies :: Roster.BuddyStorage St;
  db_removeUser : Z → St → St;
  db_getUsers : St → list string;
  db_getOnlineUsers : St → list string;
  db_getLegacyNetworkUsers : St → list string;
  db_updateUserSetting : Z → string → string → St → St;
}.

(** ** Forms *)

(** Swift::FormField::Type, the ones used. *)
Inductive FieldType := HiddenType | TextSingleType | TextPrivateType | ListSingleType | BooleanType | FixedType.

Record FormField := mkFormField {
  ff_type : FieldType;
  ff_name : string;
  ff_label : string;
  ff_required : bool;
  ff_values : list string;
  ff_options : list (string * string);
}.

Record Form := mkForm {
  form_title : string;
  form_instructions : string;
  form_fields : list FormField;
}.

Definition addField (f : FormField) (form : Form) : Form :=
  mkForm (form_title form) (form_instructions form) (form_fields form ++ [f]).

Definition empty_form : Form := mkForm "" "" [].

Definition addHiddenField (name value : string) : Form → Form :=
  addField (mkFormField HiddenType name "" false [value] []).
Definition addTextSingleField (name value label : string) (required : bool) : Form → Form :=
  addField (mkFormField TextSingleType name label required [value] []).
Definition addTextPrivateField (name label : string) (required : bool) : Form → Form :=
  addField (mkFormField TextPrivateType name label required [] []).
(** The option that is there, and the value that is chosen; [required] is not used. *)
Definition addListSingleField (name : string) (value : string * string) (label def : string) : Form → Form :=
  addField (mkFormField ListSingleType name label false [def] [value]).
Definition addBooleanField (name value label : string) (required : bool) : Form → Form :=
  addField (mkFormField BooleanType name label required [value] []).
Definition addTextFixedField (value : string) : Form → Form :=
  addField (mkFormField FixedType "" "" false [value] []).

(** FormUtils::fieldValue: the first value of the first field of that name. *)
Definition fieldValue (form : Form) (key def : string) : string :=
  match List.find (λ f, String.eqb (ff_name f) key) (form_fields form) with
  | Some f => default "" (head (ff_values f))
  | None => def
  end.

(** ** What goes over IQs *)

Inductive IqError := BadRequest | NotAuthorized | NotAcceptable | ItemNotFound.

(** InBandRegistrationPayload *)
Record Registration := mkRegistration {
  reg_instructions : string;
  reg_registered : bool;
  reg_username : option string;
  reg_password : option string;
  reg_remove : bool;
  reg_form : option Form;
}.

Definition set_username (x : string) (r : Registration) : Registration :=
  mkRegistration (reg_instructions r) (reg_registered r) (Some x) (reg_password r) (reg_remove r) (reg_form r).
Definition set_reg_password (x : string) (r : Registration) : Registration :=
  mkRegistration (reg_instructions r) (reg_registered r) (reg_username r) (Some x) (reg_remove r) (reg_form r).
Definition set_remove (r : Registration) : Registration :=
  mkRegistration (reg_instructions r) (reg_registered r) (reg_username r) (reg_password r) true (reg_form r).

Inductive registration_event (J : Type) :=
  | SendError (to : J) (id : string) (condition : IqError)
  | SendResponse (to : J) (id : string) (payload : option Registration)
  | SendPresence (p : Presence J)
  | SendMessage (m : Message J)
  (** SetRosterRequest with one item *)
  | SetRoster (item : J) (subscription : Roster.ItemSubscription) (to : J)
  (** AddressedRosterRequest *)
  | AskRoster (jid : J)
  | UserRegistered (info : UserInfo)
  | UserUnregistered (info : UserInfo)
  | Reconnect (user : string)
  | StartReconnectTimer.
Arguments SendError {J}.
Arguments SendResponse {J}.
Arguments SendPresence {J}.
Arguments SendMessage {J}.
Arguments SetRoster {J}.
Arguments AskRoster {J}.
Arguments UserRegistered {J}.
Arguments UserUnregistered {J}.
Arguments Reconnect {J}.
Arguments StartReconnectTimer {J}.

(** A roster request whose answer has not come: a user registers or leaves. *)
Inductive pending := Registering (row : UserInfo) | Unregistering (row : UserInfo).

Record Front (J St : Type) := mkFront {
  fr_manager : UserManager.Manager J St;
  fr_pending : list pending;
  (** UsersReconnecter *)
  m_started : bool;
  m_users : list string;
  fr_out : list (registration_event J);
}.
Arguments mkFront {J St}.
Arguments fr_manager {J St}.
Arguments fr_pending {J St}.
Arguments m_started {J St}.
Arguments m_users {J St}.
Arguments fr_out {J St}.

(** The configuration. *)
Record RegistrationConfig := mkRegistrationConfig {
  service_protocol : string;
  enable_public_registration : bool;
  allowed_servers : list string;
  notify_jid : list string;
  reg_needPassword : option bool;
  reg_language : string;
  instructions : string;
  username_label : string;
  require_local_account : bool;
  local_username_label : string;
  local_account_server : string;
  username_mask : string;
  allowed_usernames : string;
  reconnect_all_users : bool;
}.

(** What the handlers call that is not of this program: JID::parse, Boost's
    replace_all and regex_match, and whether a client with a user's address and
    password becomes available within the time given. *)
Class RegistrationLibraries := {
  jid_parse : string → bool;
  replace_all : string → string → string → string;
  regex_match : string → string → bool;
  local_account_available : string → string → bool;
}.

Section registration.
Context {J St : Type} `{Jid J} `{AccountStorage St} `{UserManager.ManagerEnv J} `{RegistrationLibraries}.
Context (mcfg : UserManager.ManagerConfig J) (cfg : RegistrationConfig).

Abbreviation reg A := (prog (Front J St) A).
Implicit Types (s : Front J St) (info row : UserInfo).

Definition with_manager (x : UserManager.Manager J St) s : Front J St := mkFront x (fr_pending s) (m_started s) (m_users s) (fr_out s).
Definition with_pending f s : Front J St := mkFront (fr_manager s) (f (fr_pending s)) (m_started s) (m_users s) (fr_out s).
Definition with_reconnect b us s : Front J St := mkFront (fr_manager s) (fr_pending s) b us (fr_out s).
Definition with_out f s : Front J St := mkFront (fr_manager s) (fr_pending s) (m_started s) (m_users s) (f (fr_out s)).

Definition emit (e : registration_event J) : reg unit := modify (with_out (λ l, l ++ [e])).

(** A call of the user manager. *)
Definition in_manager {A} (m : prog (UserManager.Manager J St) A) : reg A := λ s,
  match m (fr_manager s) with
  | Done a x => Done a (with_manager x s)
  | Fault f => Fault f
  end.

(** A call of the storage, which these classes take for granted. *)
Definition storage : reg St := s ← get;
  match UserManager.m_storageBackend (fr_manager s) with Some st => mret st | None => raise NullDereference end.

Definition update_storage (f : St → St) : reg unit :=
  st ← storage;
  modify (λ s, with_manager (UserManager.with_storage (Some (f st)) (fr_manager s)) s).

(** ** UserRegistration *)

Section user_registration.
(** The virtual functions of the derived class. *)
Context (doUserRegistration doUserUnregistration : UserInfo → reg unit).

Definition registerUser row (allowPasswordChange : bool) : reg bool :=
  st ← storage;
  let registered := bool_decide (is_Some (UserManager.db_getUser (Pool.ui_jid row) st)) in
  when (negb registered || allowPasswordChange)
    (update_storage (UserManager.db_setUser row) ;;
     doUserRegistration row ;;
     emit (UserRegistered row)) ;;
  mret (negb registered).

Definition remove_online (barejid : string) : reg unit :=
  user ← in_manager (UserManager.getUser barejid);
  match user with
  | Some u => in_manager (UserManager.removeUser mcfg (UserManager.handlePresence mcfg) u true)
  | None => mret tt
  end.

Definition unregisterUser (barejid : string) : reg bool :=
  st ← storage;
  match UserManager.db_getUser barejid st with
  | None => mret false
  | Some userInfo =>
      update_storage (db_removeUser (Pool.ui_id userInfo)) ;;
      remove_online barejid ;;
      doUserUnregistration userInfo ;;
      emit (UserUnregistered userInfo) ;;
      mret true
  end.
End user_registration.

(** ** XMPPUserRegistration *)

Definition doUserRegistration row : reg unit :=
  modify (with_pending (λ l, l ++ [Registering row])) ;;
  emit (AskRoster (jid_of_string (Pool.ui_jid row))).

Definition doUserUnregistration row : reg unit :=
  modify (with_pending (λ l, l ++ [Unregistering row])) ;;
  emit (AskRoster (jid_of_string (Pool.ui_jid row))).

Definition component : J := UserManager.component_jid mcfg.

Definition send_presence (type : PresenceType) (from to : J) : reg unit :=
  emit (SendPresence (setPresenceType type (setPresenceFrom from (setPresenceTo to empty_presence)))).

Definition notify (text : string) : reg unit :=
  for_each (notify_jid cfg) (λ jid,
    emit (SendMessage (mkMessage component (jid_of_string jid) Normal text "" []))).

(** The answer is the items of the user's roster, or none where the server does not
    have the remote roster. *)
Definition handleRegisterRemoteRosterResponse (payload : option (list J)) row : reg unit :=
  let user := jid_of_string (Pool.ui_jid row) in
  match payload with
  | None => send_presence Subscribe component user
  | Some _ => emit (SetRoster component Roster.ItemBoth user)
  end ;;
  emit (UserRegistered row) ;;
  notify ("registered: " +:+ Pool.ui_jid row)%string.

Definition BUDDY_JID_ESCAPING : Z := 2.

(** The node a contact of the database has. *)
Definition contact_node (b : Roster.BuddyInfo) : string :=
  if Roster.has_mask (Roster.bi_flags b) BUDDY_JID_ESCAPING then getEscapedNode (Roster.bi_legacyName b)
  else at_to_percent (Roster.bi_legacyName b).

Definition forget_contact (user : J) (b : Roster.BuddyInfo) : reg unit :=
  let from := make_jid (contact_node b) (toString component) "" in
  send_presence Unsubscribe from user ;;
  send_presence Unsubscribed from user.

Definition handleUnregisterRemoteRosterResponse (payload : option (list J)) (userInfo : UserInfo) : reg unit :=
  let user := jid_of_string (Pool.ui_jid userInfo) in
  match payload with
  | None =>
      st ← storage;
      for_each (Roster.db_getBuddies (Pool.ui_id userInfo) st) (forget_contact user)
  | Some items =>
      for_each items (λ item,
        when (String.eqb (getDomain item) (getDomain component)) (emit (SetRoster item Roster.ItemRemove user)))
  end ;;
  update_storage (db_removeUser (Pool.ui_id userInfo)) ;;
  remove_online (Pool.ui_jid userInfo) ;;
  match payload with
  | None =>
      send_presence Unsubscribe component user ;;
      send_presence Unsubscribed component user
  | Some _ => emit (SetRoster component Roster.ItemRemove user)
  end ;;
  notify ("unregistered: " +:+ Pool.ui_jid userInfo)%string.

(** The answer to the request at a place of the list. *)
Definition roster_answered (i : nat) (payload : option (list J)) : reg unit :=
  s ← get;
  match fr_pending s !! i with
  | None => mret tt
  | Some p =>
      modify (with_pending (λ l, take i l ++ drop (i + 1) l)) ;;
      match p with
      | Registering row => handleRegisterRemoteRosterResponse payload row
      | Unregistering row => handleUnregisterRemoteRosterResponse payload row
      end
  end.

Definition needPassword : bool := default true (reg_needPassword cfg).

Definition generateRegistrationForm (res : UserInfo) (registered : bool) : Form :=
  let form := mkForm "Registration" (instructions cfg) [] in
  let form := addHiddenField "FORM_TYPE" "jabber:iq:register" form in
  let form := addTextSingleField "username" (Pool.ui_uin res) (username_label cfg) true form in
  let form := if needPassword then addTextPrivateField "password" "Password" true form else form in
  let form := addListSingleField "language" (reg_language cfg, reg_language cfg) "Language"
                (if registered then Pool.ui_language res else reg_language cfg) form in
  if registered then addBooleanField "unregister" "0" "Remove your registration" false form
  else if require_local_account cfg then
    addTextSingleField "local_password" "" "Local password" true
      (addTextSingleField "local_username" "" (local_username_label cfg) true form)
  else form.

(** A UserInfo nobody has filled in. *)
Definition fresh_user : UserInfo := Pool.mkUserInfo 0 "" "" "" "" "" false [].

Definition bare (j : J) : string := toString (toBare j).

Definition generateInBandRegistrationPayload (from : J) : reg Registration :=
  st ← storage;
  let found := UserManager.db_getUser (bare from) st in
  let res := default fresh_user found in
  let registered := bool_decide (is_Some found) in
  mret (mkRegistration (instructions cfg) registered (Some (Pool.ui_uin res))
          (if needPassword then Some ""%string else None) false (Some (generateRegistrationForm res registered))).

(** The checks both handlers begin with. *)
Definition may_not_register (from : J) : bool :=
  String.eqb (service_protocol cfg) "irc"
  || negb (enable_public_registration cfg) && negb (bool_decide (getDomain from ∈ allowed_servers cfg)).

Definition handleGetRequest (from : J) (id : string) : reg unit :=
  if may_not_register from then emit (SendError from id BadRequest)
  else
    payload ← generateInBandRegistrationPayload from;
    emit (SendResponse from id (Some payload)).

(** What the form fills in. *)
Definition apply_form (form : Form) (payload : Registration) : Registration :=
  let username := fieldValue form "username" "" in
  let password := fieldValue form "password" "" in
  let unregister := fieldValue form "unregister" "" in
  let payload := if String.eqb username "" then payload else set_username username payload in
  let payload := if String.eqb password "" then payload else set_reg_password password payload in
  if String.eqb unregister "1" || String.eqb unregister "true" then set_remove payload else payload.

Definition form_value (payload : Registration) (key : string) : string :=
  match reg_form payload with Some form => fieldValue form key "" | None => "" end.

(** Whether the local account is in order: None when it is, or else the answer. *)
Definition check_local_account (payload : Registration) : option (option IqError) :=
  if negb (require_local_account cfg) then None
  else
    let username := form_value payload "local_username" in
    let password := form_value payload "local_password" in
    if String.eqb username "" || String.eqb password "" then Some None
    else if local_account_available (username +:+ "@" +:+ local_account_server cfg)%string password then None
    else Some (Some NotAuthorized).

Definition masked (username : string) : string :=
  if String.eqb (username_mask cfg) "" then username else replace_all (username_mask cfg) "$username" username.

(** The checks on what is to be registered. *)
Definition acceptable (from : J) (payload : Registration) (legacyUsers : list string) : bool :=
  match reg_username payload with
  | None => false
  | Some username =>
      if bool_decide (reg_password payload = None) && needPassword then false
      else if String.eqb username "" then false
      else if jid_parse username && bool_decide (toBare (jid_of_string username) = toBare from) then false
      else if negb needPassword && bool_decide (username ∈ legacyUsers) then false
      else String.eqb (allowed_usernames cfg) "" || regex_match (masked username) (allowed_usernames cfg)
  end.

Definition account_of (from : J) (payload : Registration) (id : Z) (vip : bool) : UserInfo :=
  Pool.mkUserInfo id (bare from) (masked (default ""%string (reg_username payload)))
    (default ""%string (reg_password payload)) (form_value payload "language") (form_value payload "encoding") vip [].

Definition handleSetRequest (from : J) (id : string) (payload : Registration) : reg unit :=
  if may_not_register from then emit (SendError from id BadRequest)
  else
    st ← storage;
    let found := UserManager.db_getUser (bare from) st in
    let payload := match reg_form payload with Some form => apply_form form payload | None => payload end in
    if reg_remove payload then
      _ ← unregisterUser doUserUnregistration (bare from);
      emit (SendResponse from id None)
    else match check_local_account payload with
    | Some (Some condition) => emit (SendError from id condition)
    | Some None => emit (SendResponse from id None)
    | None =>
        if negb (acceptable from payload (db_getLegacyNetworkUsers st)) then emit (SendError from id NotAcceptable)
        else
          match found with
          | None => _ ← registerUser doUserRegistration (account_of from payload 0 false) false; mret tt
          | Some res => update_storage (UserManager.db_setUser (account_of from payload (Pool.ui_id res) (Pool.ui_vip res)))
          end ;;
          emit (SendResponse from id None)
    end.

(** ** UsersReconnecter *)

Definition reconnectNextUser : reg unit :=
  s ← get;
  match last (m_users s) with
  | None => mret tt
  | Some user =>
      modify (with_reconnect (m_started s) (removelast (m_users s))) ;;
      emit (Reconnect user) ;;
      emit StartReconnectTimer
  end.

Definition handleConnected : reg unit :=
  s ← get;
  if m_started s then mret tt
  else
    st ← storage;
    let users := if reconnect_all_users cfg then db_getUsers st else db_getOnlineUsers st in
    modify (λ s, with_reconnect true (m_users s ++ users) s) ;;
    reconnectNextUser.
End registration.
