(* ===== verification/RegistrationTheorems.v ===== *)
(** * Registration: what is stored, and what leaving forgets

    The theorems on registration, with the SQLite storage as the database. *)

From S2P Require Import Prelude StdMap Swiften Names Text Sqlite SqliteTheorems Registration.
From S2P Require Pool Roster UserManager Login ManagerTheorems.

#[export] Instance sqlite_accounts `{SqlEngine} `{Split} : AccountStorage Database := {
  as_users := sqlite_users;
  as_buddies := sqlite_buddies;
  db_removeUser id d := fst (removeUser id d);
  db_getUsers d := fst (getUsers [] d);
  db_getOnlineUsers d := fst (getOnlineUsers [] d);
  db_getLegacyNetworkUsers d := fst (getLegacyNetworkUsers [] d);
  db_updateUserSetting := updateUserSetting;
}.

Section theorems.
Context {J St : Type} `{Jid J} `{AccountStorage St} `{UserManager.ManagerEnv J} `{RegistrationLibraries}.
Context (mcfg : UserManager.ManagerConfig J) (cfg : RegistrationConfig).
Implicit Types (s : Front J St) (info row : UserInfo).

Definition stored (st : St) s : Prop := UserManager.m_storageBackend (fr_manager s) = Some st.

(** Nobody is online under an address, and the manager remembers nobody. *)
Definition offline (jid : string) s : Prop :=
  sfind jid (UserManager.m_users (fr_manager s)) = None ∧ UserManager.m_cachedUser (fr_manager s) = None.

(** ** Running the pieces *)

Lemma storage_run st s : stored st s → storage s = Done st s.
Proof. intros Hst. unfold storage. rewrite bind_run. simpl. by rewrite Hst. Qed.

Definition set_storage (st : St) s : Front J St :=
  with_manager (UserManager.with_storage (Some st) (fr_manager s)) s.

Lemma update_storage_run f st s : stored st s → update_storage f s = Done tt (set_storage (f st) s).
Proof. intros Hst. unfold update_storage. by rewrite bind_run, (storage_run st). Qed.

Lemma remove_online_run jid s : offline jid s → remove_online mcfg jid s = Done tt s.
Proof.
  intros [Hu Hc]. unfold remove_online. rewrite bind_run. unfold in_manager at 1.
  assert (UserManager.getUser jid (fr_manager s) = Done None (fr_manager s)) as ->.
  { unfold UserManager.getUser. rewrite bind_run. simpl. rewrite Hc, bind_run. simpl. by rewrite Hu. }
  by destruct s.
Qed.

Lemma notify_run text s : notify mcfg cfg text s = Done tt (with_out (λ l, l ++
  ((λ jid, SendMessage (mkMessage (component mcfg) (jid_of_string jid) Normal text "" [])) <$> notify_jid cfg)) s).
Proof.
  unfold notify. revert s. induction (notify_jid cfg) as [|jid l IH]; intros s; simpl.
  - destruct s; unfold with_out; simpl. by rewrite app_nil_r.
  - rewrite bind_run. unfold emit, modify at 1. rewrite IH. unfold with_out. simpl. by rewrite <- app_assoc.
Qed.

(** The presences the component itself sends when a user leaves. *)
Definition goodbye row : list (registration_event J) :=
  let presence type := SendPresence (setPresenceType type (setPresenceFrom (component mcfg)
    (setPresenceTo (jid_of_string (Pool.ui_jid row)) empty_presence))) in
  [presence Unsubscribe; presence Unsubscribed].

Definition notices (text : string) : list (registration_event J) :=
  (λ jid, SendMessage (mkMessage (component mcfg) (jid_of_string jid) Normal text "" [])) <$> notify_jid cfg.

Definition add_out (l : list (registration_event J)) s : Front J St := with_out (λ out, out ++ l) s.

(** The events of a run, in one list. *)
Ltac collect :=
  repeat ((rewrite !bind_run) || (progress (unfold emit, modify, add_out, with_out, notices, goodbye; cbn)));
  rewrite ?ret_run; rewrite <- ?app_assoc; done.

(** ** Registering *)

(** *** Who may register *)

(** What the request asks for: the form's field, where it is filled in, or else what the
    request says itself. *)
Definition asked (field : string) (own : option string) (payload : Registration) : option string :=
  match reg_form payload with
  | Some form => if decide (fieldValue form field "" = ""%string) then own else Some (fieldValue form field "")
  | None => own
  end.

Definition wants_out (payload : Registration) : Prop :=
  reg_remove payload = true ∨
  ∃ form, reg_form payload = Some form ∧ fieldValue form "unregister" "" ∈ ["1"; "true"]%string.

Definition password_needed : Prop := reg_needPassword cfg ≠ Some false.

(** The name on the legacy network. *)
Definition legacy_name (name : string) : string :=
  if decide (username_mask cfg = ""%string) then name else replace_all (username_mask cfg) "$username" name.

(** The request of [from] to register as [name] is in order: registration is open to the
    server, the name is one that may be used, and there is a password and a local account
    where they are needed. *)
Record welcome (from : J) (payload : Registration) (taken : list string) (name : string) : Prop := mkWelcome {
  w_protocol : service_protocol cfg ≠ "irc"%string;
  w_server : enable_public_registration cfg = true ∨ getDomain from ∈ allowed_servers cfg;
  w_name : asked "username" (reg_username payload) payload = Some name ∧ name ≠ ""%string;
  w_password : password_needed → is_Some (asked "password" (reg_password payload) payload);
  w_self : jid_parse name = true → toBare (jid_of_string name) ≠ toBare from;
  w_free : ¬ password_needed → name ∉ taken;
  w_allowed : allowed_usernames cfg = ""%string ∨ regex_match (legacy_name name) (allowed_usernames cfg) = true;
  w_local : require_local_account cfg = true →
    form_value payload "local_username" ≠ ""%string ∧ form_value payload "local_password" ≠ ""%string ∧
    local_account_available (form_value payload "local_username" +:+ "@" +:+ local_account_server cfg)
      (form_value payload "local_password") = true;
}.

(** What the form of a request makes of it. *)
Definition effective (payload : Registration) : Registration :=
  match reg_form payload with Some form => apply_form form payload | None => payload end.

Lemma effective_name payload : reg_username (effective payload) = asked "username" (reg_username payload) payload.
Proof.
  unfold effective, asked, apply_form. destruct (reg_form payload) as [form|]; [|done].
  destruct (String.eqb_spec (fieldValue form "username" "") ""), (String.eqb_spec (fieldValue form "password" "") "");
    destruct (_ || _); case_decide; done.
Qed.

Lemma effective_password payload : reg_password (effective payload) = asked "password" (reg_password payload) payload.
Proof.
  unfold effective, asked, apply_form. destruct (reg_form payload) as [form|]; [|done].
  destruct (String.eqb_spec (fieldValue form "username" "") ""), (String.eqb_spec (fieldValue form "password" "") "");
    destruct (_ || _); case_decide; done.
Qed.

Lemma effective_form payload : reg_form (effective payload) = reg_form payload.
Proof.
  unfold effective, apply_form. destruct (reg_form payload) as [form|] eqn:E; [|done].
  destruct (String.eqb (fieldValue form "username" "") ""), (String.eqb (fieldValue form "password" "") "");
    destruct (_ || _); done.
Qed.

Lemma effective_value payload key : form_value (effective payload) key = form_value payload key.
Proof. unfold form_value. by rewrite effective_form. Qed.

Lemma effective_remove payload : ¬ wants_out payload → reg_remove (effective payload) = false.
Proof.
  intros Hn. destruct (reg_remove payload) eqn:Er; [destruct Hn; by left|]. unfold effective, apply_form.
  destruct (reg_form payload) as [form|] eqn:E; [|done].
  destruct (String.eqb_spec (fieldValue form "unregister" "") "1") as [E1|_];
    [destruct Hn; right; exists form; rewrite E1; set_solver|].
  destruct (String.eqb_spec (fieldValue form "unregister" "") "true") as [E1|_];
    [destruct Hn; right; exists form; rewrite E1; set_solver|].
  destruct (String.eqb (fieldValue form "username" "") ""), (String.eqb (fieldValue form "password" "") ""); done.
Qed.

Lemma masked_name name : masked cfg name = legacy_name name.
Proof. unfold masked, legacy_name. destruct (String.eqb_spec (username_mask cfg) ""); by case_decide. Qed.

Lemma needed_spec : needPassword cfg = true ↔ password_needed.
Proof. unfold needPassword, password_needed. destruct (reg_needPassword cfg) as [[]|]; simpl; split; congruence. Qed.

(** The three checks of the code are what it takes to be welcome. *)
Lemma may_not_spec from :
  may_not_register cfg from = false ↔
  service_protocol cfg ≠ "irc"%string ∧ (enable_public_registration cfg = true ∨ getDomain from ∈ allowed_servers cfg).
Proof.
  unfold may_not_register. rewrite orb_false_iff, andb_false_iff, !negb_false_iff, String.eqb_neq, bool_decide_eq_true. tauto.
Qed.

Lemma local_spec payload :
  check_local_account cfg payload = None ↔
  (require_local_account cfg = true →
    form_value payload "local_username" ≠ ""%string ∧ form_value payload "local_password" ≠ ""%string ∧
    local_account_available (form_value payload "local_username" +:+ "@" +:+ local_account_server cfg)
      (form_value payload "local_password") = true).
Proof.
  unfold check_local_account. destruct (require_local_account cfg); simpl; [|by split].
  destruct (String.eqb_spec (form_value payload "local_username") "") as [->|Hu]; [split; [done|]; intros Hx; by destruct (Hx eq_refl)|].
  destruct (String.eqb_spec (form_value payload "local_password") "") as [->|Hp]; [split; [done|]; intros Hx; by destruct (Hx eq_refl) as (_ & ? & _)|].
  simpl. destruct (local_account_available _ _); [by split|]. split; [done|]. intros Hx. by destruct (Hx eq_refl) as (_ & _ & ?).
Qed.

Lemma acceptable_spec from payload legacyUsers :
  acceptable cfg from payload legacyUsers = true ↔
  ∃ name, (reg_username payload = Some name ∧ name ≠ ""%string) ∧ (password_needed → is_Some (reg_password payload)) ∧
    (jid_parse name = true → toBare (jid_of_string name) ≠ toBare from) ∧ (¬ password_needed → name ∉ legacyUsers) ∧
    (allowed_usernames cfg = ""%string ∨ regex_match (legacy_name name) (allowed_usernames cfg) = true).
Proof.
  unfold acceptable. destruct (reg_username payload) as [name|]; [|split; [done|by intros (? & [? _] & _)]].
  setoid_rewrite <- needed_spec. rewrite masked_name. trans (
    (name ≠ ""%string) ∧ (needPassword cfg = true → is_Some (reg_password payload)) ∧
    (jid_parse name = true → toBare (jid_of_string name) ≠ toBare from) ∧ (¬ needPassword cfg = true → name ∉ legacyUsers) ∧
    (allowed_usernames cfg = ""%string ∨ regex_match (legacy_name name) (allowed_usernames cfg) = true)).
  2: { split; [intros (? & ?); exists name; naive_solver|intros (? & [[= ->] ?] & ?); naive_solver]. }
  destruct (bool_decide_reflect (reg_password payload = None)) as [Ep|Ep].
  - destruct (needPassword cfg); simpl.
    + rewrite Ep. split; [done|]. intros (_ & Hx & _). by destruct (Hx eq_refl).
    + destruct (String.eqb_spec name "") as [->|Hn]; [split; [done|by intros [? _]]|].
      destruct (jid_parse name), (bool_decide_reflect (toBare (jid_of_string name) = toBare from)) as [Eb|Eb]; simpl;
        try (split; [done|]; naive_solver); (destruct (bool_decide_reflect (name ∈ legacyUsers)); [split; [done|naive_solver]|]);
        rewrite orb_true_iff, String.eqb_eq; naive_solver.
  - assert (is_Some (reg_password payload)) by (by apply not_eq_None_Some). simpl.
    destruct (String.eqb_spec name "") as [->|Hn]; [split; [done|by intros [? _]]|].
    destruct (jid_parse name), (bool_decide_reflect (toBare (jid_of_string name) = toBare from)) as [Eb|Eb]; simpl;
        try (split; [done|]; naive_solver); destruct (needPassword cfg); simpl;
        try (rewrite orb_true_iff, String.eqb_eq; naive_solver);
        (destruct (bool_decide_reflect (name ∈ legacyUsers)); [split; [done|naive_solver]|]);
        rewrite orb_true_iff, String.eqb_eq; naive_solver.
Qed.

Lemma registerUser_run row st s :
  stored st s → UserManager.db_getUser (Pool.ui_jid row) st = None →
  registerUser doUserRegistration row false s = Done true
    (add_out [AskRoster (jid_of_string (Pool.ui_jid row)); UserRegistered row]
      (with_pending (λ l, l ++ [Registering row]) (set_storage (UserManager.db_setUser row st) s))).
Proof.
  intros Hst Hn. unfold registerUser. rewrite bind_run, (storage_run st) by done. rewrite Hn. simpl.
  rewrite !bind_run, (update_storage_run _ st) by done. unfold doUserRegistration. collect.
Qed.

(** ** Leaving *)

Lemma unregisterUser_run jid info st s :
  stored st s → UserManager.db_getUser jid st = Some info → offline jid s →
  unregisterUser mcfg doUserUnregistration jid s = Done true
    (add_out [AskRoster (jid_of_string (Pool.ui_jid info)); UserUnregistered info]
      (with_pending (λ l, l ++ [Unregistering info]) (set_storage (db_removeUser (Pool.ui_id info) st) s))).
Proof.
  intros Hst Hf Hoff. unfold unregisterUser. rewrite bind_run, (storage_run st) by done. rewrite Hf.
  rewrite bind_run, (update_storage_run _ st) by done. rewrite bind_run, remove_online_run by done.
  unfold doUserUnregistration. collect.
Qed.

(** The answer of a server without the remote roster. *)
Lemma unregister_answer_run row st s :
  stored st s → Roster.db_getBuddies (Pool.ui_id row) st = [] → offline (Pool.ui_jid row) s →
  handleUnregisterRemoteRosterResponse mcfg cfg None row s = Done tt
    (add_out (goodbye row ++ notices ("unregistered: " +:+ Pool.ui_jid row)%string)
      (set_storage (db_removeUser (Pool.ui_id row) st) s)).
Proof.
  intros Hst Hb Hoff. unfold handleUnregisterRemoteRosterResponse.
  rewrite bind_run. rewrite bind_run, (storage_run st) by done. rewrite Hb. simpl.
  rewrite bind_run, (update_storage_run _ st) by done. rewrite bind_run, remove_online_run by done.
  rewrite bind_run. simpl. rewrite notify_run. collect.
Qed.
End theorems.

Section sqlite.
Context {J : Type} `{Jid J} `{UserManager.ManagerEnv J} `{RegistrationLibraries} `{SqlEngine} `{Split}.
Context (mcfg : UserManager.ManagerConfig J) (cfg : RegistrationConfig).
Implicit Types (s : Front J Database) (d : Database) (info row : UserInfo).

(** a user who leaves has no remote roster: his contacts are to be told. But the
    database has forgotten them by the time the answer comes, whatever his roster
    was: the component says goodbye for itself alone. *)
Theorem contacts_not_told d s jid info :
  reliable → stored d s → getUser jid d = Some info → Pool.ui_jid info = jid → offline jid s →
  ∃ s1 s2, unregisterUser mcfg doUserUnregistration jid s = Done true s1
    ∧ roster_answered mcfg cfg (length (fr_pending s)) None s1 = Done tt s2
    ∧ fr_out s2 = fr_out s ++ [AskRoster (jid_of_string jid); UserUnregistered info]
        ++ goodbye mcfg info ++ notices mcfg cfg ("unregistered: " +:+ jid)%string.
Proof.
  intros Hr Hst Hf <- Hoff. do 2 eexists. split; [by apply unregisterUser_run|]. split.
  - unfold roster_answered. rewrite bind_run. simpl. rewrite lookup_app_r, Nat.sub_diag by lia. simpl.
    rewrite bind_run.
    apply (unregister_answer_run mcfg cfg _ (db_removeUser (Pool.ui_id info) d)); [done| |exact Hoff].
    simpl. by rewrite getBuddies_removed.
  - simpl. by rewrite <- !app_assoc.
Qed.

Lemma to_int_idem z : to_int (to_int z) = to_int z.
Proof. apply to_int_id. unfold to_int. pose proof (Z.mod_pos_bound (z + 2 ^ 31) (2 ^ 32) ltac:(lia)). lia. Qed.

Lemma getUser_none jid d : reliable → (∀ k r, (k, r) ∈ t_users d → ur_jid r ≠ c_str jid) → getUser jid d = None.
Proof.
  intros Hr Hno. unfold getUser. rewrite select_all by done. rewrite filter_nothing; [done|].
  intros [k r] Hin. by apply (Hno k).
Qed.

(** Deleting the user whose key a new account got deletes that account. *)
Lemma removed_account row id d :
  reliable → consistent d → to_int id = id → user_key (c_str (Pool.ui_jid row)) d = id →
  getUser (Pool.ui_jid row) (fst (removeUser id (setUser row d))) = None.
Proof.
  intros Hr Hc Hid Hk. apply getUser_none; [done|]. intros k r. rewrite delete_user_run by done. simpl. rewrite Hid.
  intros [Hne Hin]%list_elem_of_filter Hj. pose proof (setUser_consistent row d Hr Hc) as Hc'.
  apply elem_sfind in Hin; [|apply Hc'].
  assert (Hf : sfind (user_key (c_str (Pool.ui_jid row)) d) (t_users (setUser row d)) = Some (mkUsersRow
    (c_str (Pool.ui_jid row)) (c_str (Pool.ui_uin row)) (c_str (Pool.ui_password row)) (c_str (Pool.ui_language row))
    (c_str (Pool.ui_encoding row)) (db_now d) (if Pool.ui_vip row then 1 else 0) 0)).
  { unfold setUser. rewrite write_done by done. apply sfind_sinsert_eq. }
  pose proof (tb_jids _ (ct_tables _ Hc') _ _ _ _ Hin Hf Hj) as ->. rewrite Hk in Hne. simpl in Hne. lia.
Qed.

(** *** Accounts *)

Lemma getUser_find jid d : reliable → consistent d → getUser jid d =
  (λ '(id, r), Pool.mkUserInfo (to_int id) (ur_jid r) (ur_uin r) (ur_password r) (ur_language r) (ur_encoding r)
     (negb (ur_vip r =? 0)%Z) []) <$> find_jid (c_str jid) d.
Proof.
  intros Hr Hc. destruct (find_jid (c_str jid) d) as [[id r]|] eqn:E; simpl.
  - apply find_jid_Some in E as [Hf Hj]; [|apply Hc]. by apply getUser_key.
  - apply getUser_none; [done|]. intros k r Hin. apply elem_sfind in Hin; [|by apply ct_users]. by eapply find_jid_None.
Qed.

(** The other accounts stay as they are when one is stored. *)
Lemma getUser_others row jid d :
  reliable → consistent d → c_str jid ≠ c_str (Pool.ui_jid row) → getUser jid (setUser row d) = getUser jid d.
Proof.
  intros Hr Hc Hne. pose proof (setUser_consistent row d Hr Hc) as Hc'. rewrite !getUser_find by done. f_equal.
  assert (Hset : t_users (setUser row d) = sinsert (user_key (c_str (Pool.ui_jid row)) d) (mkUsersRow
    (c_str (Pool.ui_jid row)) (c_str (Pool.ui_uin row)) (c_str (Pool.ui_password row)) (c_str (Pool.ui_language row))
    (c_str (Pool.ui_encoding row)) (db_now d) (if Pool.ui_vip row then 1 else 0) 0) (t_users d))
    by (unfold setUser; by rewrite write_done).
  apply option_eq. intros [id r]. rewrite !find_jid_Some by (apply Hc || apply Hc'). rewrite Hset.
  set (k := user_key (c_str (Pool.ui_jid row)) d). destruct (decide (id = k)) as [->|Hk]; [|by rewrite sfind_sinsert_ne].
  rewrite sfind_sinsert_eq. split; [intros [[= <-] Hj]; by destruct Hne|]. intros [Hf Hj]. exfalso. unfold k, user_key in Hf.
  destruct (find_jid (c_str (Pool.ui_jid row)) d) as [[k' r']|] eqn:E.
  - apply find_jid_Some in E as [Hf' Hj']; [|apply Hc]. congruence.
  - rewrite new_rowid_fresh in Hf; [done|by apply ct_users].
Qed.

(** The account of somebody who is welcome as [name], who was [old]. *)
Definition account_as (from : J) (payload : Registration) (name : string) (key : Z) (old : option UserInfo) : UserInfo :=
  Pool.mkUserInfo (from_option Pool.ui_id key old) (bare from) (legacy_name cfg name)
    (default ""%string (asked "password" (reg_password payload) payload)) (form_value payload "language")
    (form_value payload "encoding") (from_option Pool.ui_vip false old) [].

Lemma account_of_spec from payload name id vip :
  asked "username" (reg_username payload) payload = Some name →
  account_of cfg from (effective payload) id vip =
  Pool.mkUserInfo id (bare from) (legacy_name cfg name) (default ""%string (asked "password" (reg_password payload) payload))
    (form_value payload "language") (form_value payload "encoding") vip [].
Proof.
  intros Hn. unfold account_of. by rewrite effective_name, effective_password, !effective_value, Hn, masked_name.
Qed.

Definition clean (t : string) : Prop := ¬ has "000" t.

(** An account that is stored is found again, and no other changes. *)
Lemma account_stored row d :
  reliable → consistent d → clean_user row → Pool.ui_settings row = [] →
  to_int (user_key (Pool.ui_jid row) d) = user_key (Pool.ui_jid row) d →
  getUser (Pool.ui_jid row) (setUser row d) = Some (Pool.mkUserInfo
    (from_option Pool.ui_id (new_rowid (t_users d)) (getUser (Pool.ui_jid row) d)) (Pool.ui_jid row) (Pool.ui_uin row)
    (Pool.ui_password row) (Pool.ui_language row) (Pool.ui_encoding row) (Pool.ui_vip row) [])
  ∧ ∀ jid, c_str jid ≠ Pool.ui_jid row → getUser jid (setUser row d) = getUser jid d.
Proof.
  intros Hr Hc Hclean Hs Hid. destruct (user_round_trip row d Hr Hc Hclean Hs Hid) as (-> & Hold & _).
  apply Forall_cons in Hclean as [Hj _]. split.
  - do 2 f_equal. destruct (getUser (Pool.ui_jid row) d) as [info|] eqn:E; simpl; [symmetry; by apply Hold|].
    unfold user_key. destruct (find_jid (Pool.ui_jid row) d) as [[k r]|] eqn:Ef; [|done].
    rewrite getUser_find, c_str_clean, Ef in E by done. done.
  - intros jid Hne. apply getUser_others; [done|done|]. by rewrite (c_str_clean (Pool.ui_jid row)).
Qed.

(** C24: what a request to register does, over the SQLite storage, whose statements do not
    fail, for texts without NUL and identifiers that fit an int; unless the request is to leave. If
    the request is in order ([welcome]), the account of the sender's bare address is stored with
    the name on the legacy network and the password, language and encoding asked for, with
    the identifier and VIP flag of the account that was there, if any; no other account changes; the user's
    roster is asked for exactly if the account is new; the request is answered. If it is not
    in order, an error is sent or, where the fields of a local account are not filled in, an
    empty answer, and nothing changes. *)
Theorem registration_request (from : J) (id : string) (payload : Registration) d s :
  reliable → consistent d → stored d s → ¬ wants_out payload →
  clean (bare from) → clean (form_value payload "language") → clean (form_value payload "encoding") →
  clean (default ""%string (asked "password" (reg_password payload) payload)) →
  (∀ name, asked "username" (reg_username payload) payload = Some name → clean (legacy_name cfg name)) →
  to_int (user_key (bare from) d) = user_key (bare from) d →
  let old := getUser (bare from) d in
  (∀ name, welcome cfg from payload (fst (getLegacyNetworkUsers [] d)) name →
    ∃ d' s', handleSetRequest mcfg cfg from id payload s = Done tt s' ∧ stored d' s' ∧ consistent d' ∧
      getUser (bare from) d' = Some (account_as from payload name (new_rowid (t_users d)) old) ∧
      (∀ jid, c_str jid ≠ bare from → getUser jid d' = getUser jid d) ∧
      fr_out s' = fr_out s ++
        (if old then [] else [AskRoster (jid_of_string (bare from)); UserRegistered (account_as from payload name 0 None)]) ++
        [SendResponse from id None]) ∧
  ((∀ name, ¬ welcome cfg from payload (fst (getLegacyNetworkUsers [] d)) name) →
    ∃ e, handleSetRequest mcfg cfg from id payload s = Done tt (add_out [e] s) ∧
      ((∃ condition, e = SendError from id condition) ∨ e = SendResponse from id None)).
Proof.
  intros Hr Hc Hst Hout Hcj Hcl Hce Hcp Hcn Hid old. pose proof (effective_remove _ Hout) as Hrem. split.
  - intros name [Hp Hsv Hn Hpw Hself Hfree Hall Hloc].
    assert (Hmay : may_not_register cfg from = false) by (by apply may_not_spec).
    assert (Hl : check_local_account cfg (effective payload) = None) by (apply local_spec; by rewrite !effective_value).
    assert (Hacc : acceptable cfg from (effective payload) (db_getLegacyNetworkUsers d) = true).
    { apply acceptable_spec. exists name. rewrite effective_name, effective_password. done. }
    assert (Hrow : ∀ i vip, let row := account_of cfg from (effective payload) i vip in
      getUser (bare from) (setUser row d) = Some (Pool.mkUserInfo (from_option Pool.ui_id (new_rowid (t_users d)) old)
        (bare from) (legacy_name cfg name) (default ""%string (asked "password" (reg_password payload) payload))
        (form_value payload "language") (form_value payload "encoding") vip []) ∧
      ∀ jid, c_str jid ≠ bare from → getUser jid (setUser row d) = getUser jid d).
    { intros i vip row. assert (Erow : row = _) by exact (account_of_spec from payload name i vip (proj1 Hn)).
      pose proof (account_stored row d Hr Hc) as Hs. rewrite Erow in Hs. rewrite Erow.
      apply Hs; [|done|done]. repeat constructor; try done. by apply Hcn, Hn. }
    unfold handleSetRequest. rewrite Hmay, bind_run, (storage_run d) by done. fold (effective payload). rewrite Hrem, Hl, Hacc.
    change (UserManager.db_getUser (bare from) d) with old. destruct old as [res|] eqn:Eold; simpl.
    + destruct (Hrow (Pool.ui_id res) (Pool.ui_vip res)) as [Hget Hothers].
      rewrite bind_run, (update_storage_run _ d) by done. eexists (setUser _ d), _. split; [reflexivity|].
      split; [done|]. split; [by apply setUser_consistent|]. split; [exact Hget|]. split; [exact Hothers|]. done.
    + destruct (Hrow 0%Z false) as [Hget Hothers].
      rewrite !bind_run, (registerUser_run _ d) by done. simpl. eexists (setUser _ d), _. split; [reflexivity|].
      split; [done|]. split; [by apply setUser_consistent|]. split; [exact Hget|]. split; [exact Hothers|].
      simpl. rewrite <- app_assoc. by rewrite (account_of_spec from payload name 0 false (proj1 Hn)).
  - intros Hno. unfold handleSetRequest. destruct (may_not_register cfg from) eqn:Hmay; [eexists; split; [reflexivity|eauto]|].
    rewrite bind_run, (storage_run d) by done. fold (effective payload). rewrite Hrem.
    destruct (check_local_account cfg (effective payload)) as [[condition|]|] eqn:Hl; [eexists; split; [reflexivity|eauto]..|].
    destruct (acceptable cfg from (effective payload) (db_getLegacyNetworkUsers d)) eqn:Hacc;
      [|eexists; split; [reflexivity|eauto]].
    exfalso. apply acceptable_spec in Hacc as (name & Hn & Hpw & Hself & Hfree & Hall).
    rewrite effective_name in Hn. rewrite effective_password in Hpw. apply (Hno name).
    apply may_not_spec in Hmay as [??]. rewrite local_spec, !effective_value in Hl. done.
Qed.

(** a user leaves; his identifier is free again, and the next account gets it. When
    the answer about the roster of the one who left comes, that account is deleted
    from the database. *)
Theorem stale_answer_deletes_account d s jid info row :
  reliable → consistent d → stored d s → getUser jid d = Some info → Pool.ui_jid info = jid → offline jid s →
  new_rowid (t_users (db_removeUser (Pool.ui_id info) d)) = Pool.ui_id info →
  getUser (Pool.ui_jid row) (db_removeUser (Pool.ui_id info) d) = None →
  ∃ s1 s2 s3, unregisterUser mcfg doUserUnregistration jid s = Done true s1
    ∧ registerUser doUserRegistration row false s1 = Done true s2
    ∧ roster_answered mcfg cfg (length (fr_pending s)) None s2 = Done tt s3
    ∧ ∃ d3, stored d3 s3 ∧ getUser (Pool.ui_jid row) d3 = None.
Proof.
  intros Hr Hc Hst Hf Hj Hoff Hnew Hnone. subst jid.
  assert (Hint : to_int (Pool.ui_id info) = Pool.ui_id info).
  { unfold getUser in Hf. rewrite select_all in Hf by done. destruct (filter _ _) as [|[k r] l]; [done|].
    injection Hf as <-. apply to_int_idem. }
  set (d1 := db_removeUser (Pool.ui_id info) d) in *. assert (Hc1 : consistent d1) by by apply removeUser_consistent.
  assert (Hkey : user_key (c_str (Pool.ui_jid row)) d1 = Pool.ui_id info).
  { unfold user_key. destruct (find_jid _ d1) as [[k r]|] eqn:E; [|exact Hnew].
    apply find_jid_Some in E as [Hk Hjid]; [|apply Hc1]. by rewrite (getUser_key _ _ _ _ Hr Hc1 Hk Hjid) in Hnone. }
  do 3 eexists. split; [by apply unregisterUser_run|]. split; [by eapply registerUser_run|].
  set (s2 := add_out _ (with_pending _ (set_storage _ (add_out _ _)))).
  assert (Hst2 : stored (setUser row d1) s2) by done.
  assert (Hoff2 : offline (Pool.ui_jid info) s2) by exact Hoff.
  assert (Hb : Roster.db_getBuddies (Pool.ui_id info) (setUser row d1) = []).
  { simpl. assert (fst (getBuddies (Pool.ui_id info) (setUser row d1)) = fst (getBuddies (Pool.ui_id info) d1)) as ->;
      [|unfold d1; simpl; by rewrite getBuddies_removed].
    unfold setUser. rewrite write_done by done. unfold getBuddies. by rewrite !select_all. }
  split.
  - unfold roster_answered. rewrite bind_run. simpl. rewrite <- app_assoc, lookup_app_r, Nat.sub_diag by lia. simpl.
    rewrite bind_run. by apply (unregister_answer_run mcfg cfg _ (setUser row d1)).
  - eexists. split; [done|]. by apply removed_account.
Qed.
End sqlite.

(** ** Witnesses *)

#[local] Existing Instance SqliteTheorems.obedient_engine.
#[local] Existing Instance ManagerTheorems.quiet_env.

(** Every text is a JID, masks put the name in place of the mask, and every name will do. *)
#[local] Instance plain_libraries : RegistrationLibraries := {
  jid_parse _ := true;
  replace_all _ _ name := name;
  regex_match _ _ := true;
  local_account_available _ _ := false;
}.

Definition icq_gateway : RegistrationConfig :=
  mkRegistrationConfig "icq" true [] ["admin@localhost"] None "en" "Enter your name" "Name" false "" "" "%" "" false.

Definition irc_config := ManagerTheorems.gateway_config.

(** The component over a database. *)
Definition front (d : Database) : Front ref_jid Database := mkFront (UserManager.initial (Some d)) [] false [] [].

Definition registration_of (name : string) : Registration :=
  mkRegistration "" false (Some name) (Some "pw"%string) false None.

Definition erin : ref_jid := mkRefJid "erin" "localhost" "".

Definition carol_account : UserInfo := Pool.mkUserInfo 1 "carol@localhost" "carol" "secret" "en" "" true [].

(** Erin registers, and is refused without a name. *)
Lemma erin_welcome : welcome icq_gateway erin (registration_of "erin") (fst (getLegacyNetworkUsers [] carol_stored)) "erin".
Proof.
  split; [discriminate|by left|by split|by eexists|by intros _ [=]| |by left|discriminate].
  intros Hn. destruct Hn. discriminate.
Qed.

Lemma registration_request_witness :
  (∃ d s, handleSetRequest irc_config icq_gateway erin "1" (registration_of "erin") (front carol_stored) = Done tt s ∧
    stored d s ∧ getUser "erin@localhost" d = Some (Pool.mkUserInfo 2 "erin@localhost" "erin" "pw" "" "" false []) ∧
    getUser "carol@localhost" d = getUser "carol@localhost" carol_stored) ∧
  ∃ e, handleSetRequest irc_config icq_gateway erin "1" (registration_of "") (front carol_stored) =
    Done tt (add_out [e] (front carol_stored)).
Proof.
  split.
  - destruct (registration_request irc_config icq_gateway erin "1" (registration_of "erin") carol_stored (front carol_stored))
      as [Hyes _];
      [done|exact carol_consistent|done|by intros [?|(? & ? & _)]|
        first [by apply (bool_decide_eq_true_1 _); vm_compute|intros ? [= <-]; by apply (bool_decide_eq_true_1 _); vm_compute|reflexivity]..|].
    destruct (Hyes "erin"%string erin_welcome) as (d & s & E & Hst & _ & Hget & Hothers & _).
    exists d, s. split; [exact E|]. split; [exact Hst|]. split; [exact Hget|]. by apply Hothers.
  - destruct (registration_request irc_config icq_gateway erin "1" (registration_of "") carol_stored (front carol_stored))
      as [_ Hno];
      [done|exact carol_consistent|done|by intros [?|(? & ? & _)]|
        first [by apply (bool_decide_eq_true_1 _); vm_compute|intros ? [= <-]; by apply (bool_decide_eq_true_1 _); vm_compute|reflexivity]..|].
    destruct Hno as (e & E & _); [intros name [_ _ [[= <-] Hn] _ _ _ _ _]; by apply Hn|]. exists e. exact E.
Defined.

Lemma contacts_not_told_witness :
  ∃ s1 s2, unregisterUser irc_config doUserUnregistration "carol@localhost" (front carol_stored) = Done true s1
    ∧ roster_answered irc_config icq_gateway 0 None s1 = Done tt s2.
Proof.
  destruct (contacts_not_told irc_config icq_gateway carol_stored (front carol_stored) "carol@localhost" carol_account)
    as (s1 & s2 & H1 & H2 & _); [done|reflexivity|reflexivity|reflexivity|by split|].
  exists s1, s2. split; [exact H1|exact H2].
Defined.

Lemma stale_answer_deletes_account_witness :
  ∃ s1 s2 s3 d, unregisterUser irc_config doUserUnregistration "carol@localhost" (front carol_stored) = Done true s1
    ∧ registerUser doUserRegistration (account_of icq_gateway erin (registration_of "erin") 0 false) false s1 = Done true s2
    ∧ roster_answered irc_config icq_gateway 0 None s2 = Done tt s3
    ∧ stored d s3 ∧ getUser "erin@localhost" d = None.
Proof.
  destruct (stale_answer_deletes_account irc_config icq_gateway carol_stored (front carol_stored) "carol@localhost"
    carol_account (account_of icq_gateway erin (registration_of "erin") 0 false))
    as (s1 & s2 & s3 & H1 & H2 & H3 & d & H4 & H5);
    [done|exact carol_consistent|reflexivity|reflexivity|reflexivity|by split|reflexivity|reflexivity|].
  exists s1, s2, s3, d. split; [exact H1|split; [exact H2|split; [exact H3|split; [exact H4|exact H5]]]].
Defined.
