(* ===== verification/AdHoc.v ===== *)
(** * Ad-hoc commands

    AdHocManager (frontends/xmpp/adhocmanager.cpp) keeps the sessions of ad-hoc
    commands, with AdHocCommand (adhoccommand.cpp) and the one command there is,
    SettingsAdHocCommand (settingsadhoccommand.cpp). Commands are objects in a heap:
    [m_sessions] holds their addresses, and reading through the address of a deleted
    one is [UseAfterFree]. *)

From S2P Require Import Prelude StdMap Swiften Text Registration.
From S2P Require Pool UserManager.

Abbreviation cmd := nat.

(** Swift::Command *)
Inductive CommandStatus := Executing | Completed | Canceled.
Inductive CommandAction := NoAction | Cancel | Execute | OtherAction.

#[export] Instance CommandStatus_eq_dec : EqDecision CommandStatus.
Proof. solve_decision. Defined.
#[export] Instance CommandAction_eq_dec : EqDecision CommandAction.
Proof. solve_decision. Defined.

Record CommandPayload := mkCommandPayload {
  cp_node : string;
  cp_session : string;
  cp_status : CommandStatus;
  cp_action : CommandAction;
  cp_form : option Form;
}.

Definition setSessionID (id : string) (p : CommandPayload) : CommandPayload :=
  mkCommandPayload (cp_node p) id (cp_status p) (cp_action p) (cp_form p).

(** A response, as the constructor of Swift::Command makes it. *)
Definition response (session : string) (status : CommandStatus) (form : option Form) : CommandPayload :=
  mkCommandPayload "settings" session status NoAction form.

(** SettingsAdHocCommand::State *)
Inductive State := Init | WaitingForResponse.

(** SettingsAdHocCommand, with what it has of AdHocCommand. *)
Record AdHocCommand (J : Type) := mkAdHocCommand {
  m_initiator : J;
  m_to : J;
  m_id : string;
  m_lastActivity : Z;
  m_state : State;
}.
Arguments mkAdHocCommand {J}.
Arguments m_initiator {J}.
Arguments m_to {J}.
Arguments m_id {J}.
Arguments m_lastActivity {J}.
Arguments m_state {J}.

(** AdHocCommandFactory *)
Record Factory := mkFactory {
  f_node : string;
  f_name : string;
  f_userSettings : smap string string;
}.

(** SettingsAdHocCommandFactory *)
Definition SettingsAdHocCommandFactory : Factory :=
  mkFactory "settings" "Transport settings" [("send_headlines", "0"); ("stay_connected", "0")]%string.

Inductive adhoc_event (J : Type) :=
  | SendError (to : J) (id : string) (condition : IqError)
  | SendResponse (to : J) (id : string) (payload : CommandPayload)
  (** DiscoItemsResponder::addAdHocCommand *)
  | Announce (node name : string).
Arguments SendError {J}.
Arguments SendResponse {J}.
Arguments Announce {J}.

Record AdHoc (J St : Type) := mkAdHoc {
  ah_manager : UserManager.Manager J St;
  m_factories : smap string Factory;
  m_sessions : smap J (smap string cmd);
  ah_heap : gmap cmd (AdHocCommand J);
  ah_next : cmd;
  ah_now : Z;
  (** how often rand() has been asked for an identifier *)
  ah_drawn : nat;
  ah_out : list (adhoc_event J);
}.
Arguments mkAdHoc {J St}.
Arguments ah_manager {J St}.
Arguments m_factories {J St}.
Arguments m_sessions {J St}.
Arguments ah_heap {J St}.
Arguments ah_next {J St}.
Arguments ah_now {J St}.
Arguments ah_drawn {J St}.
Arguments ah_out {J St}.

(** The configuration's values, where a key is set and has the type asked for; and the
    identifiers rand() makes. *)
Class AdHocEnv := {
  config_string : string → option string;
  config_bool : string → option bool;
  random_id : nat → string;
}.

Section adhoc.
Context {J St : Type} `{Jid J} `{AccountStorage St} `{AdHocEnv}.

Abbreviation adhoc A := (prog (AdHoc J St) A).
Implicit Types (s : AdHoc J St).

Definition with_manager (x : UserManager.Manager J St) s : AdHoc J St := mkAdHoc x (m_factories s) (m_sessions s) (ah_heap s) (ah_next s) (ah_now s) (ah_drawn s) (ah_out s).
Definition with_factories f s : AdHoc J St := mkAdHoc (ah_manager s) (f (m_factories s)) (m_sessions s) (ah_heap s) (ah_next s) (ah_now s) (ah_drawn s) (ah_out s).
Definition with_sessions f s : AdHoc J St := mkAdHoc (ah_manager s) (m_factories s) (f (m_sessions s)) (ah_heap s) (ah_next s) (ah_now s) (ah_drawn s) (ah_out s).
Definition with_heap f s : AdHoc J St := mkAdHoc (ah_manager s) (m_factories s) (m_sessions s) (f (ah_heap s)) (ah_next s) (ah_now s) (ah_drawn s) (ah_out s).
Definition with_now n s : AdHoc J St := mkAdHoc (ah_manager s) (m_factories s) (m_sessions s) (ah_heap s) (ah_next s) n (ah_drawn s) (ah_out s).
Definition with_out f s : AdHoc J St := mkAdHoc (ah_manager s) (m_factories s) (m_sessions s) (ah_heap s) (ah_next s) (ah_now s) (ah_drawn s) (f (ah_out s)).

Definition emit (e : adhoc_event J) : adhoc unit := modify (with_out (λ l, l ++ [e])).
Definition load (c : cmd) : adhoc (AdHocCommand J) := s ← get; deref (ah_heap s !! c).
Definition store (c : cmd) (f : AdHocCommand J → AdHocCommand J) : adhoc unit :=
  o ← load c; modify (with_heap <[c := f o]>).
(** delete of an object that is there *)
Definition delete_command (c : cmd) : adhoc unit := _ ← load c; modify (with_heap (delete c)).

Definition in_manager {A} (m : prog (UserManager.Manager J St) A) : adhoc A := λ s,
  match m (ah_manager s) with
  | Done a x => Done a (with_manager x s)
  | Fault f => Fault f
  end.

(** A call of a storage that is there. *)
Definition storage : adhoc St := s ← get;
  match UserManager.m_storageBackend (ah_manager s) with Some st => mret st | None => raise NullDereference end.

Definition set_storage (st : St) : adhoc unit :=
  modify (λ s, with_manager (UserManager.with_storage (Some st) (ah_manager s)) s).

Definition storage_getUserSetting (id : Z) (variable value : string) : adhoc string :=
  st ← storage;
  let '(value, st) := UserManager.db_getUserSetting id variable UserManager.TYPE_BOOLEAN value st in
  set_storage st ;;
  mret value.

(** ** SettingsAdHocCommand *)

Definition bool_text (b : bool) : string := if b then "1" else "0".

Definition set_state (x : State) (o : AdHocCommand J) : AdHocCommand J :=
  mkAdHocCommand (m_initiator o) (m_to o) (m_id o) (m_lastActivity o) x.
Definition set_lastActivity (x : Z) (o : AdHocCommand J) : AdHocCommand J :=
  mkAdHocCommand (m_initiator o) (m_to o) (m_id o) x (m_state o).

Definition note (text : string) : option Form := Some (addTextFixedField text empty_form).

Definition getForm (o : AdHocCommand J) : adhoc CommandPayload :=
  s ← get;
  match UserManager.m_storageBackend (ah_manager s) with
  | None =>
      mret (response (m_id o) Completed
        (note "This server does not support transport settings. There is no storage backend configured"))
  | Some st =>
      match UserManager.db_getUser (toString (toBare (m_initiator o))) st with
      | None => mret (response (m_id o) Completed (note "You are not registered."))
      | Some user =>
          enable ← storage_getUserSetting (Pool.ui_id user) "enable_transport" "1";
          headlines ← storage_getUserSetting (Pool.ui_id user) "send_headlines"
            (bool_text (default false (config_bool "settings.send_headlines")));
          stay ← storage_getUserSetting (Pool.ui_id user) "stay_connected"
            (bool_text (default false (config_bool "settings.stay_connected")));
          let form := addBooleanField "enable_transport" enable "Enable transport" false empty_form in
          let form := addBooleanField "send_headlines" headlines "Allow sending messages as headlines" false form in
          let form := addBooleanField "stay_connected" stay
                        "Stay connected to legacy network when offline on XMPP" false form in
          mret (response (m_id o) Executing (Some form))
      end
  end.

Definition updateUserSetting (form : Form) (user : UserInfo) (name : string) : adhoc unit :=
  let value := fieldValue form name "" in
  if String.eqb value "" then mret tt
  else st ← storage; set_storage (db_updateUserSetting (Pool.ui_id user) name value st).

Definition handleResponse (o : AdHocCommand J) (payload : CommandPayload) : adhoc CommandPayload :=
  st ← storage;
  match UserManager.db_getUser (toString (toBare (m_initiator o))) st, cp_form payload with
  | Some user, Some form =>
      updateUserSetting form user "enable_transport" ;;
      updateUserSetting form user "send_headlines" ;;
      updateUserSetting form user "stay_connected"
  | _, _ => mret tt
  end ;;
  mret (response (m_id o) Completed None).

Definition handleRequest (c : cmd) (payload : CommandPayload) : adhoc CommandPayload :=
  o ← load c;
  if bool_decide (cp_action payload = Cancel) then mret (response (m_id o) Canceled None)
  else match m_state o with
  | Init =>
      answer ← getForm o;
      store c (set_state WaitingForResponse) ;;
      mret answer
  | WaitingForResponse => handleResponse o payload
  end.

(** ** AdHocManager *)

(** The default of one setting of a factory, as the configuration has it. *)
Definition setting_default (node key def : string) : string :=
  if bool_decide (def ∈ ["true"; "1"; "false"; "0"]%string)
  then bool_text (default (bool_decide (def ∈ ["true"; "1"]%string)) (config_bool (node +:+ "." +:+ key)%string))
  else default def (config_string (node +:+ "." +:+ key)%string).

Definition add_setting (u : uid) (node : string) (setting : string * string) : adhoc unit :=
  let '(key, def) := setting in
  let value := setting_default node key def in
  s ← get;
  value ← match UserManager.m_storageBackend (ah_manager s) with
          | Some _ =>
              o ← in_manager (UserManager.load u);
              storage_getUserSetting (Pool.ui_id (UserManager.mu_info o)) key value
          | None => mret value
          end;
  in_manager (o ← UserManager.load u;
    modify (UserManager.with_user_heap <[u := UserManager.set_settings
      (sinsert key value (Pool.ui_settings (UserManager.mu_info o))) o]>)).

Definition handleUserCreated (u : uid) : adhoc unit :=
  s ← get;
  for_each (m_factories s) (λ '(_, factory), for_each (f_userSettings factory) (add_setting u (f_node factory))).

Definition addAdHocCommand (factory : Factory) : adhoc unit :=
  s ← get;
  match sfind (f_node factory) (m_factories s) with
  | Some _ => mret tt
  | None =>
      modify (with_factories (sinsert (f_node factory) factory)) ;;
      emit (Announce (f_node factory) (f_name factory))
  end.

Definition sessions_of (from : J) s : smap string cmd := default [] (sfind from (m_sessions s)).

(** createAdHocCommand, and the session it starts. *)
Definition create_command (from to : J) : adhoc cmd :=
  s ← get;
  let c := ah_next s in
  let o := mkAdHocCommand from to (random_id (ah_drawn s)) 0 Init in
  put (mkAdHoc (ah_manager s) (m_factories s)
         (sinsert from (sinsert (m_id o) c (sessions_of from s)) (m_sessions s))
         (<[c := o]> (ah_heap s)) (c + 1) (ah_now s) (ah_drawn s + 1) (ah_out s)) ;;
  mret c.

(** The command a request is for; none is an error. *)
Definition find_command (from to : J) (payload : CommandPayload) : adhoc (option cmd) :=
  s ← get;
  match sfind from (m_sessions s) with
  | Some commands =>
      if negb (String.eqb (cp_session payload) "") then mret (sfind (cp_session payload) commands)
      else if bool_decide (is_Some (sfind (cp_node payload) (m_factories s))) then c ← create_command from to; mret (Some c)
      else mret None
  | None =>
      if bool_decide (is_Some (sfind (cp_node payload) (m_factories s))) then c ← create_command from to; mret (Some c)
      else mret None
  end.

(** The command is done: the user's settings are read again and it goes. *)
Definition finish (from : J) (c : cmd) : adhoc unit :=
  user ← in_manager (UserManager.getUser (toString (toBare from)));
  match user with
  | Some u => handleUserCreated u
  | None => mret tt
  end ;;
  o ← load c;
  s ← get;
  let commands := serase (m_id o) (sessions_of from s) in
  modify (with_sessions (match commands with [] => serase from | _ => sinsert from commands end)) ;;
  delete_command c.

Definition handleSetRequest (from to : J) (id : string) (payload : CommandPayload) : adhoc unit :=
  command ← find_command from to payload;
  match command with
  | None => emit (SendError from id BadRequest)
  | Some c =>
      answer ← handleRequest c payload;
      o ← load c;
      emit (SendResponse from id (setSessionID (m_id o) answer)) ;;
      s ← get;
      store c (set_lastActivity (ah_now s)) ;;
      when (bool_decide (cp_status answer = Completed ∨ cp_status answer = Canceled)) (finish from c)
  end.

(** removeOldSessions. The candidates are the texts of the JID, not the identifiers of
    the commands. *)
Definition too_old (now : Z) (o : AdHocCommand J) : bool := (15 * 60 <? now - m_lastActivity o)%Z.

Definition collect_command (from : J) (candidates : list string) (entry : string * cmd) : adhoc (list string) :=
  let '(_, c) := entry in
  o ← load c;
  s ← get;
  if too_old (ah_now s) o then delete_command c ;; mret (candidates ++ [toString from])
  else mret candidates.

Fixpoint collect_commands (from : J) (candidates : list string) (entries : list (string * cmd)) : adhoc (list string) :=
  match entries with
  | [] => mret candidates
  | entry :: entries =>
      candidates ← collect_command from candidates entry;
      collect_commands from candidates entries
  end.

Definition collect_sessions (toRemove : list J) (entry : J * smap string cmd) : adhoc (list J) :=
  let '(from, commands) := entry in
  candidates ← collect_commands from [] commands;
  let commands := foldl (λ m key, serase key m) commands candidates in
  modify (with_sessions (sinsert from commands)) ;;
  mret (match commands with [] => toRemove ++ [from] | _ => toRemove end).

Fixpoint collect_all (toRemove : list J) (entries : list (J * smap string cmd)) : adhoc (list J) :=
  match entries with
  | [] => mret toRemove
  | entry :: entries =>
      toRemove ← collect_sessions toRemove entry;
      collect_all toRemove entries
  end.

Definition removeOldSessions : adhoc unit :=
  s ← get;
  toRemove ← collect_all [] (m_sessions s);
  modify (with_sessions (λ m, foldl (λ m from, serase from m) m toRemove)).

Definition stop : adhoc unit :=
  s ← get;
  for_each (m_sessions s) (λ '(_, commands), for_each commands (λ '(_, c), delete_command c)) ;;
  modify (with_sessions (λ _, [])).

Definition initial (m : UserManager.Manager J St) (now : Z) : AdHoc J St := mkAdHoc m [] [] ∅ 0 now 0 [].
End adhoc.
