(* ===== verification/AdHocTheorems.v ===== *)
(** * Ad-hoc commands: requests are answered, collected sessions dangle

    The sessions of the ad-hoc manager point to commands that exist, and a request is
    always answered, once; but the timer deletes commands that stay in the map. *)

From S2P Require Import Prelude StdMap Swiften Text Registration AdHoc.
From S2P Require Pool UserManager SqliteTheorems ManagerTheorems RegistrationTheorems.

(** A loop whose turns keep a property and do not fault. *)
Lemma for_each_run {S A} (P : S → Prop) (xs : list A) (body : A → prog S unit) (t : S) :
  (∀ x t, P t → ∃ t', body x t = Done tt t' ∧ P t') → P t → ∃ t', for_each xs body t = Done tt t' ∧ P t'.
Proof.
  intros Hb. revert t. induction xs as [|x xs IH]; intros t Ht; simpl; [by exists t|].
  destruct (Hb x t Ht) as (t1 & E & Ht1). destruct (IH t1 Ht1) as (t2 & E2 & Ht2). exists t2.
  by rewrite (bind_done _ _ _ _ _ E).
Qed.

Section theorems.
Context {J St : Type} `{Jid J} `{AccountStorage St} `{AdHocEnv}.
Implicit Types (s : AdHoc J St).

Definition has_storage s : Prop := is_Some (UserManager.m_storageBackend (ah_manager s)).

(** The command at a place of the map; [X] may be about to go. *)
Definition session_ok (X : option cmd) (from : J) (id : string) (c : cmd) s : Prop :=
  ∃ o, ah_heap s !! c = Some o ∧ m_id o = id ∧ m_initiator o = from
    ∧ (m_state o = WaitingForResponse → X ≠ Some c → has_storage s).

Definition at_session (from : J) (id : string) (c : cmd) s : Prop :=
  ∃ m, sfind from (m_sessions s) = Some m ∧ sfind id m = Some c.

Record adhoc_ok (X : option cmd) s : Prop := mkAdhocOk {
  ao_manager : ManagerTheorems.manager_ok (ah_manager s);
  ao_sorted : sorted (m_sessions s);
  ao_sorted_in from m : sfind from (m_sessions s) = Some m → sorted m;
  ao_session from id c : at_session from id c s → session_ok X from id c s;
  ao_below c : is_Some (ah_heap s !! c) → c < ah_next s;
}.

Lemma ok_start m now : ManagerTheorems.manager_ok m → adhoc_ok None (initial m now).
Proof.
  intros Hm. split; simpl; [done|constructor|done| |by intros c [o Ho]]. intros from id c (m' & Hm' & _). done.
Qed.

(** States that differ in what the sessions do not speak of. *)
Lemma ok_same X s s' :
  adhoc_ok X s → ManagerTheorems.manager_ok (ah_manager s') → (has_storage s → has_storage s') →
  m_sessions s' = m_sessions s → ah_heap s' = ah_heap s → ah_next s' = ah_next s → adhoc_ok X s'.
Proof.
  intros [Hm Hs Hi Hc Hb] Hm' Hst Es Eh En. split; rewrite ?Es, ?Eh, ?En; try done.
  intros from id c Hat. unfold at_session in Hat. rewrite Es in Hat. destruct (Hc from id c Hat) as (o & Ho & H1' & H2 & H3).
  exists o. rewrite Eh. split_and!; auto.
Qed.

Lemma at_same from id c s s' : m_sessions s' = m_sessions s → at_session from id c s → at_session from id c s'.
Proof. intros E. unfold at_session. by rewrite E. Qed.

(** An address is in one place of the map. *)
Lemma one_place X from from' id id' c s :
  adhoc_ok X s → at_session from id c s → at_session from' id' c s → from = from' ∧ id = id'.
Proof.
  intros Hok (o & Ho & <- & <- & _)%(ao_session _ _ Hok) (o' & Ho' & <- & <- & _)%(ao_session _ _ Hok). by simplify_eq.
Qed.

(** Sending something. *)
Lemma out_ok X f s : adhoc_ok X s → adhoc_ok X (with_out f s).
Proof. intros Hok. apply (ok_same X s); try done. apply Hok. Qed.

(** ** The settings of a user *)

(** The places and the commands stay. *)
Definition alike s0 s : Prop :=
  m_sessions s = m_sessions s0 ∧ ah_heap s = ah_heap s0 ∧ ah_next s = ah_next s0 ∧ ah_out s = ah_out s0 ∧
  ah_now s = ah_now s0 ∧ (has_storage s0 ↔ has_storage s) ∧ m_factories s = m_factories s0.

Definition undisturbed X s0 s : Prop := adhoc_ok X s ∧ alike s0 s.

Lemma alike_refl s : alike s s.
Proof. by split_and!. Qed.

Lemma undisturbed_refl X s : adhoc_ok X s → undisturbed X s s.
Proof. intros Hok. split; [done|apply alike_refl]. Qed.

Lemma set_storage_ok X s0 st s : undisturbed X s0 s → has_storage s →
  undisturbed X s0 (with_manager (UserManager.with_storage (Some st) (ah_manager s)) s).
Proof.
  intros [Hok (E1 & E2 & E3 & E4 & E5 & E6 & E7)] Hst. split.
  - apply (ok_same X s); try done; [|by intros _; eexists]. destruct (ao_manager _ _ Hok) as [H1' H2 H3]. by split.
  - split_and!; try done. simpl. unfold has_storage. simpl. split; [by eexists|]. intros _. by apply E6.
Qed.

Lemma storage_getUserSetting_run X s0 id variable value s :
  undisturbed X s0 s → has_storage s →
  ∃ v s', storage_getUserSetting id variable value s = Done v s' ∧ undisturbed X s0 s' ∧ has_storage s'
    ∧ UserManager.user_heap (ah_manager s') = UserManager.user_heap (ah_manager s).
Proof.
  intros Hu [st Hst]. unfold storage_getUserSetting, storage. rewrite bind_run. rewrite bind_run. simpl. rewrite Hst. simpl.
  destruct (UserManager.db_getUserSetting id variable UserManager.TYPE_BOOLEAN value st) as [v st'].
  exists v. eexists. split; [done|]. split; [|split; [by eexists|done]]. apply set_storage_ok; [done|by eexists].
Qed.

Lemma updateUserSetting_run X s0 form user name s :
  undisturbed X s0 s → has_storage s → ∃ s', updateUserSetting form user name s = Done tt s' ∧ undisturbed X s0 s' ∧ has_storage s'.
Proof.
  intros Hu [st Hst]. unfold updateUserSetting. case_match; [exists s; split_and!; [done|done|by eexists]|].
  rewrite bind_run. unfold storage. rewrite bind_run. simpl. rewrite Hst. simpl. eexists. split; [done|].
  split; [|by eexists]. apply set_storage_ok; [done|by eexists].
Qed.

(** Changing the settings of a user who is there. *)
Lemma set_settings_ok X s0 u o x s :
  undisturbed X s0 s → UserManager.user_heap (ah_manager s) !! u = Some o →
  undisturbed X s0 (with_manager (UserManager.with_user_heap <[u := UserManager.set_settings x o]> (ah_manager s)) s).
Proof.
  intros [Hok (E1 & E2 & E3 & E4 & E5 & E6 & E7)] Ho. split.
  - apply (ok_same X s); try done. destruct (ao_manager _ _ Hok) as [Hus Hca Hre].
    assert (Hkeep : ∀ v p, UserManager.user_heap (ah_manager s) !! v = Some p →
      ∃ p', <[u := UserManager.set_settings x o]> (UserManager.user_heap (ah_manager s)) !! v = Some p' ∧
            UserManager.key_of p' = UserManager.key_of p).
    { intros v p Hp. destruct (decide (u = v)) as [<-|Hne].
      - rewrite lookup_insert_eq. eexists. split; [done|]. by simplify_eq.
      - rewrite lookup_insert_ne by done. by exists p. }
    split; simpl; [|intros v Hv|done].
    + intros k v (p & Hp & <-)%Hus. destruct (Hkeep v p Hp) as (p' & Hp' & Hk). by exists p'.
    + destruct (Hca v Hv) as (p & Hp & Hf). destruct (Hkeep v p Hp) as (p' & Hp' & Hk). exists p'. by rewrite Hk.
  - by split_and!.
Qed.

Definition online (u : uid) s : Prop := is_Some (UserManager.user_heap (ah_manager s) !! u).

Lemma add_setting_run X s0 u node setting s :
  undisturbed X s0 s → online u s →
  ∃ s', add_setting u node setting s = Done tt s' ∧ undisturbed X s0 s' ∧ online u s'.
Proof.
  intros Hu [o Ho]. destruct setting as [key def]. unfold add_setting.
  set (value := setting_default node key def). rewrite bind_run. simpl.
  assert (Hread : ∃ v s1, (match UserManager.m_storageBackend (ah_manager s) with
    | Some _ =>
        o ← in_manager (UserManager.load u);
        storage_getUserSetting (Pool.ui_id (UserManager.mu_info o)) key value
    | None => mret value
    end : prog (AdHoc J St) string) s = Done v s1 ∧ undisturbed X s0 s1 ∧ ∃ o, UserManager.user_heap (ah_manager s1) !! u = Some o).
  { destruct (UserManager.m_storageBackend (ah_manager s)) as [st|] eqn:Hst; [|exists value, s; split_and!; eauto].
    assert (Hload : in_manager (UserManager.load u) s = Done o s).
    { unfold in_manager. rewrite (ManagerTheorems.load_user_live u o) by done. by destruct s. }
    rewrite (bind_done _ _ s s o) by exact Hload.
    destruct (storage_getUserSetting_run X s0 (Pool.ui_id (UserManager.mu_info o)) key value s)
      as (v & s1 & E & Hu1 & _ & Eh); [done|by exists st|].
    exists v, s1. split_and!; [done|done|]. rewrite Eh. by exists o. }
  destruct Hread as (v & s1 & E & Hu1 & o1 & Ho1). rewrite (bind_done _ _ s s1 v) by exact E.
  unfold in_manager. rewrite bind_run, (ManagerTheorems.load_user_live u o1) by done. eexists. split; [done|]. split.
  - by apply set_settings_ok.
  - unfold online. simpl. rewrite lookup_insert_eq. by eexists.
Qed.

Lemma settings_added_run X s0 u s :
  undisturbed X s0 s → online u s → ∃ s', handleUserCreated u s = Done tt s' ∧ undisturbed X s0 s'.
Proof.
  intros Hu Ho. unfold handleUserCreated. rewrite bind_run. simpl.
  destruct (for_each_run (λ s, undisturbed X s0 s ∧ online u s) (m_factories s)
    (λ '(_, factory), for_each (f_userSettings factory) (add_setting u (f_node factory))) s) as (s' & E & Hs' & _); [|done|by exists s'].
  intros [k f] s1 H1'. apply for_each_run; [|done]. intros setting s2 [H2 H3]. by apply add_setting_run.
Qed.

Lemma lookup_user_kept X s0 key s :
  undisturbed X s0 s → ∃ r s', in_manager (UserManager.getUser key) s = Done r s' ∧ undisturbed X s0 s'
    ∧ (∀ u, r = Some u → online u s').
Proof.
  intros [Hok (E1 & E2 & E3 & E4 & E5 & E6 & E7)].
  destruct (ManagerTheorems.lookup_user_run key (ah_manager s) (ao_manager _ _ Hok)) as (m & Hrun & Hl & Hsane).
  assert (Hm : ManagerTheorems.manager_ok m).
  { apply (Hsane ∅ ManagerTheorems.anybody). split; [apply Hok|]. split; [by intros ? ? ?%lookup_empty_Some|done]. }
  destruct Hl as (Lu & _ & _ & Lst & _). exists (sfind key (UserManager.m_users (ah_manager s))), (with_manager m s).
  unfold in_manager. rewrite Hrun. split; [done|]. split; [split|].
  - apply (ok_same X s); try done. unfold has_storage. simpl. by rewrite Lst.
  - split_and!; try done; unfold has_storage in *; simpl; rewrite Lst; apply E6.
  - intros u Hu. rewrite <- Lu in Hu. destruct (ManagerTheorems.ok_users _ Hm _ _ Hu) as (o & Ho & _). by exists o.
Qed.

(** ** Requests *)

Lemma ok_exempt X s : adhoc_ok None s → adhoc_ok X s.
Proof.
  intros [Hm Hs Hi Hc Hb]. split; try done. intros from id c Hat.
  destruct (Hc from id c Hat) as (o & Ho & H1' & H2 & H3). exists o. split_and!; auto.
Qed.

(** A change of the command at a place that keeps whose it is. *)
Lemma store_ok X c f from id o s :
  adhoc_ok X s → at_session from id c s → ah_heap s !! c = Some o →
  m_id (f o) = m_id o → m_initiator (f o) = m_initiator o →
  (m_state (f o) = WaitingForResponse → X ≠ Some c → has_storage s) →
  adhoc_ok X (with_heap <[c := f o]> s).
Proof.
  intros [Hm Hs Hi Hc Hb] Hat Ho Hid Hin Hw. split; simpl; try done.
  - intros from' id' c' Hat'. destruct (decide (c = c')) as [<-|Hne].
    + destruct (Hc _ _ _ Hat') as (o' & Ho' & H1' & H2 & _). rewrite Ho in Ho'. injection Ho' as <-. exists (f o). simpl. rewrite lookup_insert_eq.
      split_and!; [done|congruence|congruence|exact Hw].
    + destruct (Hc _ _ _ Hat') as (o' & Ho' & Hrest). exists o'. simpl. by rewrite lookup_insert_ne.
  - intros c' Hc'. apply Hb. destruct (decide (c = c')) as [<-|Hne]; [by exists o|]. by rewrite lookup_insert_ne in Hc'.
Qed.

Definition final (status : CommandStatus) : Prop := status = Completed ∨ status = Canceled.

#[local] Instance final_dec status : Decision (final status).
Proof. unfold final. apply _. Defined.

Lemma getForm_run from id c o s :
  adhoc_ok None s → at_session from id c s → ah_heap s !! c = Some o →
  ∃ p s', getForm o s = Done p s' ∧ undisturbed None s s' ∧ (¬ final (cp_status p) → has_storage s').
Proof.
  intros Hok Hat Ho. unfold getForm. rewrite bind_run. simpl.
  destruct (UserManager.m_storageBackend (ah_manager s)) as [st|] eqn:Hst.
  2: { do 2 eexists. split; [done|]. split; [by apply undisturbed_refl|]. intros []. by left. }
  destruct (UserManager.db_getUser _ st) as [user|].
  2: { do 2 eexists. split; [done|]. split; [by apply undisturbed_refl|]. intros []. by left. }
  destruct (storage_getUserSetting_run None s (Pool.ui_id user) "enable_transport" "1" s) as (v1 & s1 & E1 & Hu1 & Hs1 & _);
    [by apply undisturbed_refl|by exists st|].
  rewrite (bind_done _ _ _ _ _ E1).
  destruct (storage_getUserSetting_run None s (Pool.ui_id user) "send_headlines"
    (bool_text (default false (config_bool "settings.send_headlines"))) s1 Hu1 Hs1) as (v2 & s2 & E2 & Hu2 & Hs2 & _).
  rewrite (bind_done _ _ _ _ _ E2).
  destruct (storage_getUserSetting_run None s (Pool.ui_id user) "stay_connected"
    (bool_text (default false (config_bool "settings.stay_connected"))) s2 Hu2 Hs2) as (v3 & s3 & E3 & Hu3 & Hs3 & _).
  rewrite (bind_done _ _ _ _ _ E3). do 2 eexists. split; [done|]. by split.
Qed.

Lemma handleResponse_run o p s :
  adhoc_ok None s → has_storage s →
  ∃ p' s', handleResponse o p s = Done p' s' ∧ undisturbed None s s' ∧ final (cp_status p').
Proof.
  intros Hok Hst. pose proof Hst as [st Hst']. unfold handleResponse. rewrite bind_run. unfold storage at 1. rewrite bind_run. simpl.
  rewrite Hst'. simpl. assert (Hu : undisturbed None s s) by by apply undisturbed_refl.
  destruct (UserManager.db_getUser _ st) as [user|], (cp_form p) as [form|];
    try (do 2 eexists; split; [done|split; [done|by left]]).
  destruct (updateUserSetting_run None s form user "enable_transport" s Hu Hst) as (s1 & E1 & Hu1 & Hs1).
  destruct (updateUserSetting_run None s form user "send_headlines" s1 Hu1 Hs1) as (s2 & E2 & Hu2 & Hs2).
  destruct (updateUserSetting_run None s form user "stay_connected" s2 Hu2 Hs2) as (s3 & E3 & Hu3 & Hs3).
  exists (response (m_id o) Completed None), s3. split_and!; [|done|by left].
  rewrite !bind_run, E1, !bind_run, E2, E3. done.
Qed.

Lemma handleRequest_run from id c payload s :
  adhoc_ok None s → at_session from id c s →
  ∃ p s', handleRequest c payload s = Done p s' ∧ adhoc_ok (Some c) s' ∧ at_session from id c s'
    ∧ (¬ final (cp_status p) → adhoc_ok None s') ∧ ah_out s' = ah_out s.
Proof.
  intros Hok Hat. pose proof (ao_session _ _ Hok _ _ _ Hat) as (o & Ho & Hid & Hin & Hw). unfold handleRequest.
  rewrite bind_run. unfold load. rewrite bind_run. simpl. rewrite Ho. simpl.
  case_bool_decide.
  { do 2 eexists. split; [done|]. split_and!; try done. by apply ok_exempt. }
  destruct (m_state o) eqn:Es.
  - destruct (getForm_run from id c o s Hok Hat Ho) as (p & s1 & E & [Hok1 (E1 & E2 & E3 & E4 & _)] & Hst).
    rewrite (bind_done _ _ _ _ _ E). unfold store, load. rewrite !bind_run. simpl. rewrite E2, Ho. simpl.
    assert (Hat1 : at_session from id c s1) by by apply (at_same from id c s).
    assert (Ho1 : ah_heap s1 !! c = Some o) by by rewrite E2.
    do 2 eexists. split; [done|]. split_and!; [| |intros Hf|done].
    + eapply (store_ok (Some c) c (set_state WaitingForResponse)); [by apply ok_exempt|done|done|done|done|done].
    + by apply (at_same from id c s).
    + eapply (store_ok None c (set_state WaitingForResponse)); [done|done|done|done|done|]. intros _ _. by apply Hst.
  - destruct (handleResponse_run o payload s Hok (Hw eq_refl ltac:(done))) as (p & s1 & E & [Hok1 (E1 & E2 & E3 & E4 & _)] & Hf).
    exists p, s1. split; [exact E|]. split_and!; [by apply ok_exempt|by apply (at_same from id c s)|done|done].
Qed.

Lemma create_command_run from to s :
  adhoc_ok None s →
  ∃ c s', create_command from to s = Done c s' ∧ adhoc_ok None s' ∧ (∃ id, at_session from id c s') ∧ ah_out s' = ah_out s.
Proof.
  intros [Hm Hs Hi Hc Hb]. unfold create_command. rewrite bind_run. simpl. do 2 eexists. split; [done|].
  assert (Hfresh : ∀ c o, ah_heap s !! c = Some o → c ≠ ah_next s) by (intros c o Ho ->; pose proof (Hb _ ltac:(by exists o)); lia).
  assert (Hin : sorted (sessions_of from s)).
  { unfold sessions_of. destruct (sfind from (m_sessions s)) as [m|] eqn:E; [by eapply Hi|constructor]. }
  split; [split; simpl|]; [done|by apply sinsert_sorted| | | |].
  - intros from' m. destruct (decide (from' = from)) as [->|]; [|rewrite sfind_sinsert_ne by done; apply Hi].
    rewrite sfind_sinsert_eq. intros [= <-]. by apply sinsert_sorted.
  - intros from' id' c' (m & Hf & Hf'). simpl in Hf.
    assert (Hold : at_session from' id' c' s → session_ok None from' id' c' (mkAdHoc (ah_manager s) (m_factories s)
      (sinsert from (sinsert (random_id (ah_drawn s)) (ah_next s) (sessions_of from s)) (m_sessions s))
      (<[ah_next s := mkAdHocCommand from to (random_id (ah_drawn s)) 0 Init]> (ah_heap s)) (ah_next s + 1) (ah_now s)
      (ah_drawn s + 1) (ah_out s))).
    { intros Hat. destruct (Hc _ _ _ Hat) as (o & Ho & Hrest). exists o. simpl.
      rewrite lookup_insert_ne; [done|]. intros E. by apply (Hfresh c' o Ho). }
    destruct (decide (from' = from)) as [->|Hne].
    + rewrite sfind_sinsert_eq in Hf. injection Hf as <-.
      destruct (decide (id' = random_id (ah_drawn s))) as [->|Hid].
      * rewrite sfind_sinsert_eq in Hf'. injection Hf' as <-. eexists. simpl. by rewrite lookup_insert_eq.
      * rewrite sfind_sinsert_ne in Hf' by done. apply Hold. unfold sessions_of in Hf'.
        destruct (sfind from (m_sessions s)) as [m|] eqn:E; [|done]. by exists m.
    + rewrite sfind_sinsert_ne in Hf by done. apply Hold. by exists m.
  - intros c Hc'. destruct (decide (c = ah_next s)) as [->|]; [lia|]. rewrite lookup_insert_ne in Hc' by done.
    specialize (Hb c Hc'). lia.
  - split; [|done]. exists (random_id (ah_drawn s)). eexists. simpl. rewrite sfind_sinsert_eq. split; [done|]. apply sfind_sinsert_eq.
Qed.

Lemma find_command_run from to payload s :
  adhoc_ok None s →
  ∃ r s', find_command from to payload s = Done r s' ∧ adhoc_ok None s' ∧ ah_out s' = ah_out s
    ∧ (∀ c, r = Some c → ∃ id, at_session from id c s') ∧ (r = None → m_sessions s' = m_sessions s).
Proof.
  intros Hok. unfold find_command. rewrite bind_run. simpl.
  assert (Hnew : ∃ r s', (if bool_decide (is_Some (sfind (cp_node payload) (m_factories s)))
      then c ← create_command from to; mret (Some c) else mret None : prog (AdHoc J St) (option cmd)) s = Done r s'
    ∧ adhoc_ok None s' ∧ ah_out s' = ah_out s
    ∧ (∀ c, r = Some c → ∃ id, at_session from id c s') ∧ (r = None → m_sessions s' = m_sessions s)).
  { case_bool_decide; [|by exists None, s]. destruct (create_command_run from to s Hok) as (c & s' & E & Hok' & Hat & Hout).
    exists (Some c), s'. rewrite (bind_done _ _ _ _ _ E). split_and!; try done. by intros c' [= <-]. }
  destruct (sfind from (m_sessions s)) as [m|] eqn:Ef; [|exact Hnew].
  destruct (negb (String.eqb (cp_session payload) "")); [|exact Hnew].
  exists (sfind (cp_session payload) m), s. split_and!; try done. intros c Hc. exists (cp_session payload). by exists m.
Qed.

(** The session of a command that is done is closed. *)
Lemma close_ok from id c s :
  adhoc_ok (Some c) s → at_session from id c s →
  let commands := serase id (sessions_of from s) in
  adhoc_ok None (with_heap (delete c)
    (with_sessions (match commands with [] => serase from | _ => sinsert from commands end) s)).
Proof.
  intros Hok Hat commands. pose proof Hat as (m & Hm & Hf). pose proof Hok as [Hma Hs Hi Hc Hb].
  assert (Hcom : commands = serase id m) by (unfold commands, sessions_of; by rewrite Hm).
  set (sessions := match commands with [] => serase from | _ => sinsert from commands end (m_sessions s)).
  assert (Hold : ∀ from' m', sfind from' sessions = Some m' → sorted m' ∧
    ∀ id' c', sfind id' m' = Some c' → at_session from' id' c' s ∧ (from' = from → id' ≠ id)).
  { assert (Hfrom : sorted commands ∧ ∀ id' c', sfind id' commands = Some c' → at_session from id' c' s ∧ (from = from → id' ≠ id)).
    { rewrite Hcom. split; [apply serase_sorted; by eapply Hi|]. intros id' c' Hf'.
      assert (id' ≠ id) as Hne by (intros ->; by rewrite sfind_serase_eq in Hf').
      rewrite sfind_serase_ne in Hf' by done. split; [by exists m|done]. }
    intros from' m'. unfold sessions. destruct (decide (from' = from)) as [->|Hne].
    - destruct commands as [|e l] eqn:El; [by rewrite sfind_serase_eq|]. rewrite sfind_sinsert_eq. by intros [= <-].
    - intros Hf'. assert (sfind from' (m_sessions s) = Some m') as Hm' by (destruct commands; [by rewrite sfind_serase_ne in Hf'|by rewrite sfind_sinsert_ne in Hf']).
      split; [by eapply Hi|]. intros id' c' Hc'. split; [by exists m'|by intros ->]. }
  split; simpl; [done| | | |].
  - fold sessions. unfold sessions. destruct commands; [by apply serase_sorted|by apply sinsert_sorted].
  - intros from' m' Hf'. by destruct (Hold _ _ Hf').
  - intros from' id' c' (m' & Hf' & Hc'). destruct (Hold _ _ Hf') as [_ Hin]. destruct (Hin _ _ Hc') as [Hat' Hne].
    assert (c ≠ c') as Hcc by (intros <-; destruct (one_place _ _ _ _ _ _ _ Hok Hat' Hat) as [Ef Ei]; by apply (Hne Ef)).
    destruct (Hc _ _ _ Hat') as (o & Ho & H1' & H2 & H3). exists o. simpl. rewrite lookup_delete_ne by done.
    split_and!; try done. intros Hw _. apply H3; [done|congruence].
  - intros c' [o Ho]. apply Hb. apply lookup_delete_Some in Ho as [_ Ho]. by exists o.
Qed.

Lemma finish_run from id c s :
  adhoc_ok (Some c) s → at_session from id c s →
  ∃ s', finish from c s = Done tt s' ∧ adhoc_ok None s' ∧ ah_out s' = ah_out s ∧ ah_heap s' !! c = None.
Proof.
  intros Hok Hat. unfold finish.
  destruct (lookup_user_kept (Some c) s (toString (toBare from)) s (undisturbed_refl _ _ Hok)) as (r & s1 & E1 & Hu1 & Hon).
  rewrite (bind_done _ _ _ _ _ E1).
  assert (∃ s2, (match r with Some u => handleUserCreated u | None => mret tt end : prog (AdHoc J St) unit) s1 = Done tt s2
    ∧ undisturbed (Some c) s s2) as (s2 & E2 & [Hok2 (A1 & A2 & A3 & A4 & _)]).
  { destruct r as [u|]; [|by exists s1]. apply settings_added_run; [done|by apply Hon]. }
  rewrite (bind_done _ _ _ _ _ E2). assert (Hat2 : at_session from id c s2) by by apply (at_same from id c s).
  pose proof (ao_session _ _ Hok2 _ _ _ Hat2) as (o & Ho & <- & _ & _).
  unfold load at 1. rewrite !bind_run. simpl. rewrite Ho. simpl. unfold delete_command, load. repeat (rewrite bind_run; simpl). rewrite Ho. simpl.
  eexists. split; [done|]. split; [by apply (close_ok from (m_id o) c s2)|]. split; [done|]. apply lookup_delete_eq.
Qed.

(** How a request is answered: an error, or the answer of the command [c] of a session, which
    goes on or is closed with its command. *)
Definition answered (from : J) (id : string) s s' (e : adhoc_event J) : Prop :=
  (e = SendError from id BadRequest ∧ m_sessions s' = m_sessions s) ∨
  ∃ p c, e = SendResponse from id p ∧
    if decide (final (cp_status p)) then ah_heap s' !! c = None ∧ ∀ f i, ¬ at_session f i c s'
    else at_session from (cp_session p) c s' ∧ is_Some (ah_heap s' !! c).

(** Every branch of handleSetRequest. *)
Lemma handleSetRequest_run from to id payload s :
  adhoc_ok None s →
  ∃ s' e, handleSetRequest from to id payload s = Done tt s' ∧ adhoc_ok None s' ∧ ah_out s' = ah_out s ++ [e]
    ∧ answered from id s s' e.
Proof.
  intros Hok. unfold handleSetRequest.
  destruct (find_command_run from to payload s Hok) as (r & s1 & E1 & Hok1 & Hout1 & Hat1 & Hses1). rewrite (bind_done _ _ _ _ _ E1).
  destruct r as [c|].
  2: { do 2 eexists. split; [done|]. split_and!; [by apply out_ok|simpl; by rewrite Hout1|left; split; [done|exact (Hses1 eq_refl)]]. }
  destruct (Hat1 c eq_refl) as (sid & Hat). destruct (handleRequest_run from sid c payload s1 Hok1 Hat)
    as (p & s2 & E2 & Hok2 & Hat2 & Hnf & Hout2). rewrite (bind_done _ _ _ _ _ E2).
  pose proof (ao_session _ _ Hok2 _ _ _ Hat2) as (o & Ho & Hmid & _ & Hw).
  unfold load at 1. rewrite !bind_run. simpl. rewrite Ho. simpl. unfold store, load. repeat (rewrite bind_run; simpl). rewrite Ho. simpl.
  set (e := SendResponse from id (setSessionID (m_id o) p)).
  set (s3 := with_out (λ l, l ++ [e]) s2). assert (Ho3 : ah_heap s3 !! c = Some o) by done.
  assert (Hok3 : adhoc_ok (Some c) s3) by by apply out_ok.
  assert (Hout3 : ah_out s3 = ah_out s ++ [e]) by (simpl; congruence).
  set (s4 := with_heap <[c := set_lastActivity (ah_now s2) o]> s3).
  assert (Hok4 : adhoc_ok (Some c) s4) by by apply (store_ok (Some c) c (set_lastActivity (ah_now s2)) from sid o).
  destruct (bool_decide _) eqn:Ef; simpl.
  - destruct (finish_run from sid c s4 Hok4) as (s5 & E5 & Hok5 & Hout5 & Hgone); [done|].
    apply bool_decide_eq_true in Ef. exists s5, e. split_and!; [exact E5|done|rewrite Hout5; exact Hout3|].
    right. eexists _, c. split; [done|]. rewrite decide_True by done. split; [done|]. intros f i Hat5.
    destruct (ao_session _ _ Hok5 _ _ _ Hat5) as (o5 & Ho5 & _). congruence.
  - apply bool_decide_eq_false in Ef. exists s4, e. split_and!; [done| |done|].
    2: { right. eexists _, c. split; [done|]. rewrite decide_False by done. simpl. rewrite Hmid. split; [exact Hat2|].
         rewrite lookup_insert_eq. by eexists. }
    apply (store_ok None c (set_lastActivity (ah_now s2)) from sid o); [|done|done|done|done|].
    + by apply out_ok, Hnf.
    + pose proof (ao_session _ _ (Hnf Ef) _ _ _ Hat2) as (o' & Ho' & _ & _ & Hw').
      rewrite Ho in Ho'. injection Ho' as <-. intros Hs _. by apply Hw'.
Qed.

End theorems.

(** ** removeOldSessions *)

Section collect.
Context {J St : Type} `{Jid J} `{AccountStorage St} `{AdHocEnv}.
Implicit Types (s : AdHoc J St).

(** States that differ in the commands there are, and in the map where it says so. *)
Definition same_but_heap s s' : Prop :=
  ah_now s' = ah_now s ∧ m_sessions s' = m_sessions s ∧ m_factories s' = m_factories s.

(** The commands of some entries exist, each once. *)
Definition live (cs : list cmd) s : Prop := NoDup cs ∧ ∀ c, c ∈ cs → is_Some (ah_heap s !! c).

Lemma live_same cs s s' : (∀ c, c ∈ cs → ah_heap s' !! c = ah_heap s !! c) → live cs s → live cs s'.
Proof. intros E [Hn Hl]. split; [done|]. intros c Hc. rewrite E by done. by apply Hl. Qed.

Lemma collect_commands_run from cands (entries : list (string * cmd)) s :
  live (snd <$> entries) s →
  ∃ cands' s', collect_commands from cands entries s = Done cands' s' ∧ same_but_heap s s'
    ∧ (∀ k, k ∈ cands' → k ∈ cands ∨ k = toString from)
    ∧ (∀ c, c ∉ snd <$> entries → ah_heap s' !! c = ah_heap s !! c)
    ∧ (∀ id c o, (id, c) ∈ entries → ah_heap s !! c = Some o → too_old (ah_now s) o = true → ah_heap s' !! c = None).
Proof.
  revert cands s. induction entries as [|[id c] entries IH]; intros cands s [Hnd Hl].
  { exists cands, s. split_and!; [done|done|auto|done|]. by intros ? ? ? ?%not_elem_of_nil. }
  apply NoDup_cons in Hnd as [Hc Hnd]. destruct (Hl c ltac:(set_solver)) as [o Ho].
  assert (Hstep : ∃ cands1 s1, collect_command from cands (id, c) s = Done cands1 s1 ∧ same_but_heap s s1
    ∧ (∀ k, k ∈ cands1 → k ∈ cands ∨ k = toString from) ∧ (∀ c', c' ≠ c → ah_heap s1 !! c' = ah_heap s !! c')
    ∧ (too_old (ah_now s) o = true → ah_heap s1 !! c = None)).
  { unfold collect_command, load. repeat (rewrite bind_run; simpl). rewrite Ho. simpl. repeat (rewrite bind_run; simpl).
    destruct (too_old (ah_now s) o).
    - unfold delete_command, load. repeat (rewrite bind_run; simpl). rewrite Ho. simpl. do 2 eexists. split; [done|].
      split; [done|]. split_and!; [set_solver|intros c' Hc'; simpl; by rewrite lookup_delete_ne|]. intros _. simpl. apply lookup_delete_eq.
    - exists cands, s. by split_and!; auto. }
  destruct Hstep as (cands1 & s1 & E1 & (N1 & S1 & F1) & Hk1 & Hh1 & Hd1). simpl.
  destruct (IH cands1 s1) as (cands2 & s2 & E2 & (N2 & S2 & F2) & Hk2 & Hh2 & Hd2).
  { apply (live_same _ s); [|split; [done|]; set_solver]. intros c' Hc'. apply Hh1. by intros ->. }
  exists cands2, s2. split; [by rewrite (bind_done _ _ _ _ _ E1)|]. split; [by split_and!; congruence|].
  split; [|split].
  - intros k [Hk|Hk]%Hk2; [by apply Hk1|by right].
  - intros c' Hc'. rewrite Hh2, Hh1; [done|set_solver|set_solver].
  - intros id' c' o' [[= -> ->]|Hin]%elem_of_cons Ho' Hold.
    + rewrite Hh2 by done. apply Hd1. congruence.
    + eapply Hd2; [exact Hin| |by rewrite N1]. rewrite Hh1; [done|]. intros ->. apply Hc. apply list_elem_of_fmap. by exists (id', c).
Qed.

(** All the commands of some sessions. *)
Definition commands_of (entries : list (J * smap string cmd)) : list cmd := mjoin ((λ e, snd <$> snd e) <$> entries).

Lemma elem_of_commands c entries : c ∈ commands_of entries ↔ ∃ from m id, (from, m) ∈ entries ∧ (id, c) ∈ m.
Proof.
  unfold commands_of. rewrite list_elem_of_join. split.
  - intros (l & Hc & ([from m] & -> & Hin)%list_elem_of_fmap). apply list_elem_of_fmap in Hc as ([id c'] & -> & Hc).
    by exists from, m, id.
  - intros (from & m & id & Hin & Hc). exists (snd <$> m). split; [apply list_elem_of_fmap; by exists (id, c)|].
    apply list_elem_of_fmap. by exists (from, m).
Qed.

Lemma erase_all_sfind (keys : list string) (m : smap string cmd) id :
  id ∉ keys → sfind id (foldl (λ m key, serase key m) m keys) = sfind id m.
Proof.
  revert m. induction keys as [|k keys IH]; intros m Hid; [done|]. simpl. rewrite IH by set_solver.
  apply sfind_serase_ne. set_solver.
Qed.

Lemma collect_all_run toRemove (entries : list (J * smap string cmd)) s :
  live (commands_of entries) s → NoDup (fst <$> entries) →
  ∃ toRemove' s', collect_all toRemove entries s = Done toRemove' s' ∧ ah_now s' = ah_now s
    ∧ (∀ from, from ∉ fst <$> entries → sfind from (m_sessions s') = sfind from (m_sessions s)
        ∧ (from ∈ toRemove' → from ∈ toRemove))
    ∧ (∀ c, c ∉ commands_of entries → ah_heap s' !! c = ah_heap s !! c)
    ∧ ∀ from m id c o, (from, m) ∈ entries → sfind id m = Some c → id ≠ toString from →
        ah_heap s !! c = Some o → too_old (ah_now s) o = true → from ∉ toRemove →
        ah_heap s' !! c = None ∧ at_session from id c s' ∧ from ∉ toRemove'.
Proof.
  revert toRemove s. induction entries as [|[from m] entries IH]; intros toRemove s Hl Hnd.
  { exists toRemove, s. split_and!; try done. by intros ? ? ? ? ? ?%not_elem_of_nil. }
  apply NoDup_cons in Hnd as [Hfrom Hnd]. destruct Hl as [Hln Hl]. unfold commands_of in Hln. simpl in Hln.
  fold (commands_of entries) in Hln. apply NoDup_app in Hln as (Hn1 & Hdisj & Hn2).
  destruct (collect_commands_run from [] m s) as (cands & s1 & E1 & (N1 & S1 & F1) & Hk1 & Hh1 & Hd1).
  { split; [done|]. intros c Hc. apply Hl. apply list_elem_of_fmap in Hc as ([id c'] & -> & Hc).
    apply elem_of_commands. exists from, m, id. split; [set_solver|done]. }
  set (m' := foldl (λ m key, serase key m) m cands).
  set (s2 := with_sessions (sinsert from m') s1).
  set (rem1 := match m' with [] => toRemove ++ [from] | _ => toRemove end).
  assert (E2 : collect_sessions toRemove (from, m) s = Done rem1 s2).
  { unfold collect_sessions. by rewrite (bind_done _ _ _ _ _ E1). }
  destruct (IH rem1 s2) as (rem2 & s3 & E3 & N3 & Hf3 & Hh3 & Hd3); [|done|].
  { apply (live_same _ s); [|split; [done|]; intros c Hc; apply Hl].
    - intros c Hc. simpl. apply Hh1. intros Hc'. by apply (Hdisj c).
    - apply elem_of_commands in Hc as (f' & m2 & id & Hin & Hc). apply elem_of_commands. exists f', m2, id. set_solver. }
  exists rem2, s3. simpl. split; [by rewrite (bind_done _ _ _ _ _ E2)|]. split; [simpl in N3; congruence|]. split; [|split].
  - intros f Hf. apply not_elem_of_cons in Hf as [Hne Hf]. destruct (Hf3 f Hf) as [Hs Hr]. simpl in Hs.
    rewrite Hs, sfind_sinsert_ne, S1 by done. split; [done|]. intros Hin%Hr. unfold rem1 in Hin. destruct m'; [set_solver|done].
  - intros c Hc. rewrite Hh3, <- Hh1; [done| |].
    + intros Hc'. apply Hc. unfold commands_of. simpl. apply elem_of_app. by left.
    + intros Hc'. apply Hc. unfold commands_of. simpl. apply elem_of_app. by right.
  - intros f mf id c o [[= -> ->]|Hin]%elem_of_cons Hid Hne Ho Hold Hrem.
    + pose proof (sfind_elem _ _ _ Hid) as Hel. assert (Hcin : c ∈ snd <$> m) by (apply list_elem_of_fmap; by exists (id, c)).
      destruct (Hf3 from Hfrom) as [Hs Hr]. split; [|split].
      * rewrite Hh3 by (intros Hc; by apply (Hdisj c)). by eapply Hd1.
      * exists m'. rewrite Hs. simpl. rewrite sfind_sinsert_eq. split; [done|]. unfold m'. rewrite erase_all_sfind; [done|].
        intros Hk. destruct (Hk1 id Hk) as [Hk'|Hk']; [by apply not_elem_of_nil in Hk'|done].
      * intros Hin%Hr. unfold rem1 in Hin. assert (Hm' : sfind id m' = Some c).
        { unfold m'. rewrite erase_all_sfind; [done|]. intros Hk. destruct (Hk1 id Hk) as [Hk'|Hk']; [by apply not_elem_of_nil in Hk'|done]. }
        by destruct m'.
    + assert (f ≠ from) as Hff by (intros ->; apply Hfrom, list_elem_of_fmap; by exists (from, mf)).
      pose proof (sfind_elem _ _ _ Hid) as Hel.
      assert (Hcin : c ∈ commands_of entries) by (apply elem_of_commands; by exists f, mf, id).
      eapply Hd3; try done.
      * simpl. rewrite Hh1; [done|]. intros Hc. by apply (Hdisj c).
      * simpl. by rewrite N1.
      * unfold rem1. destruct m'; set_solver.
Qed.

Lemma at_entry from m id c s : adhoc_ok None s → (from, m) ∈ m_sessions s → (id, c) ∈ m → at_session from id c s.
Proof.
  intros Hok Hm%elem_sfind Hin; [|apply Hok]. exists m. split; [done|]. apply elem_sfind; [by eapply (ao_sorted_in None)|done].
Qed.

(** Places of the map hold different commands. *)
Lemma commands_once l s :
  adhoc_ok None s → NoDup (fst <$> l) → (∀ e, e ∈ l → e ∈ m_sessions s) → NoDup (commands_of l).
Proof.
  intros Hok. induction l as [|[from m] l IH]; [constructor|]. intros [Hfrom Hnd]%NoDup_cons Hsub.
  assert (Hfm : (from, m) ∈ m_sessions s) by (apply Hsub, list_elem_of_here).
  assert (Hm : sorted m) by (apply (ao_sorted_in _ _ Hok from), elem_sfind; [apply Hok|done]).
  unfold commands_of. simpl. apply NoDup_app. split_and!; [| |apply IH; [done|intros e He; apply Hsub; by right]].
  - apply sorted_keys in Hm. apply NoDup_fmap_2_strong; [|by eapply NoDup_fmap_1].
    intros [i c] [i' c'] Hin Hin' Heq. simpl in Heq. subst c'.
    by destruct (one_place None from from i i' c s) as [_ ->]; [|eapply at_entry..|].
  - intros c ([i c'] & -> & Hin)%list_elem_of_fmap (f & m' & i' & Hf & Hc')%elem_of_commands. simpl in Hc'.
    apply Hfrom. apply list_elem_of_fmap. exists (f, m'). split; [|done]. simpl.
    assert (Hfm' : (f, m') ∈ m_sessions s) by (apply Hsub; by right).
    by destruct (one_place None from f i i' c' s) as [-> _]; [|eapply at_entry..|].
Qed.

Lemma live_sessions s : adhoc_ok None s → live (commands_of (m_sessions s)) s.
Proof.
  intros Hok. split; [apply (commands_once _ s); [done| |done]; by apply sorted_keys, (ao_sorted None)|].
  intros c (from & m & id & Hm & Hin)%elem_of_commands.
  destruct (ao_session _ _ Hok from id c) as (o & Ho & _); [by eapply at_entry|by exists o].
Qed.

Lemma erase_all_sessions (rem : list J) (m : smap J (smap string cmd)) from :
  from ∉ rem → sfind from (foldl (λ m from, serase from m) m rem) = sfind from m.
Proof.
  revert m. induction rem as [|k rem IH]; intros m Hin; [done|]. simpl. rewrite IH by set_solver.
  apply sfind_serase_ne. set_solver.
Qed.

(** What reads a command that is gone stops the program. *)
Lemma load_gone c s : ah_heap s !! c = None → load c s = Fault UseAfterFree.
Proof. intros Hc. unfold load. rewrite bind_run. simpl. by rewrite Hc. Qed.

(** Deleting does not bring commands back. *)
Lemma collect_command_shrinks from cands id c s :
  (ah_heap s !! c = None ∧ collect_command from cands (id, c) s = Fault UseAfterFree)
  ∨ ∃ cands' s', collect_command from cands (id, c) s = Done cands' s' ∧ ah_heap s' ⊆ ah_heap s.
Proof.
  unfold collect_command. destruct (ah_heap s !! c) as [o|] eqn:Ho.
  2: { left. split; [done|]. by rewrite bind_run, load_gone. }
  right. assert (Hl : load c s = Done o s) by (unfold load; rewrite bind_run; simpl; by rewrite Ho).
  rewrite bind_run, Hl. repeat (rewrite bind_run; simpl). destruct (too_old _ _); [|by exists cands, s].
  unfold delete_command. rewrite !bind_run, Hl. do 2 eexists. split; [done|]. apply delete_subseteq.
Qed.

Lemma collect_cons from cands entry entries s :
  collect_commands from cands (entry :: entries) s =
    (cands ← collect_command from cands entry; collect_commands from cands entries) s.
Proof. done. Qed.

Lemma collect_commands_shrinks from cands entries s :
  ((∃ c, c ∈ snd <$> entries ∧ ah_heap s !! c = None) → collect_commands from cands entries s = Fault UseAfterFree)
  ∧ (collect_commands from cands entries s = Fault UseAfterFree
     ∨ ∃ cands' s', collect_commands from cands entries s = Done cands' s' ∧ ah_heap s' ⊆ ah_heap s).
Proof.
  revert cands s. induction entries as [|[id c] entries IH]; intros cands s; rewrite ?collect_cons.
  { split; [by intros (? & ?%not_elem_of_nil & _)|]. right. by exists cands, s. }
  destruct (collect_command_shrinks from cands id c s) as [[Hc E]|(cands1 & s1 & E & Hsub)].
  { rewrite bind_run, E. split; [done|by left]. }
  rewrite (bind_done _ _ _ _ _ E). destruct (IH cands1 s1) as [IH1 IH2]. split.
  - intros (c' & [->|Hin]%elem_of_cons & Hnone).
    + unfold collect_command in E. by rewrite bind_run, load_gone in E.
    + apply IH1. exists c'. split; [done|]. by eapply lookup_weaken_None.
  - destruct IH2 as [IH2|(cands' & s' & E2 & Hsub2)]; [by left|]. right. exists cands', s'. split; [done|by etrans].
Qed.

Lemma collect_all_gone toRemove entries s :
  (∃ c, c ∈ commands_of entries ∧ ah_heap s !! c = None) → collect_all toRemove entries s = Fault UseAfterFree.
Proof.
  revert toRemove s. induction entries as [|[from m] entries IH]; intros toRemove s; [by intros (? & ?%not_elem_of_nil & _)|].
  intros (c & [Hin|Hin]%elem_of_app & Hc); simpl; unfold collect_sessions;
    destruct (collect_commands_shrinks from [] m s) as [Hdead [E|(cands & s' & E & Hsub)]];
    rewrite !bind_run, ?E; try done.
  - rewrite Hdead in E; [done|by exists c].
  - rewrite bind_run. apply IH. exists c. split; [done|]. by eapply lookup_weaken_None.
Qed.

(** the timer that collects old sessions deletes the command of a session that has
    not been used for a quarter of an hour and leaves its address in the map: it erases
    the text of the JID where the identifier of the command is the key. The next request
    of that session reads the deleted command, and so does the next run of the timer. *)
Theorem old_session_dangles from id c o s :
  adhoc_ok None s → at_session from id c s → ah_heap s !! c = Some o → too_old (ah_now s) o = true →
  id ≠ toString from → id ≠ ""%string →
  ∃ s', removeOldSessions s = Done tt s' ∧ at_session from id c s' ∧ ah_heap s' !! c = None
    ∧ (∀ to rid p, cp_session p = id → handleSetRequest from to rid p s' = Fault UseAfterFree)
    ∧ removeOldSessions s' = Fault UseAfterFree.
Proof.
  intros Hok (m & Hm & Hid) Ho Hold Hne Hempty.
  destruct (collect_all_run [] (m_sessions s) s (live_sessions s Hok)) as (rem & s1 & E & _ & _ & _ & Hc);
    [by apply sorted_keys, (ao_sorted None)|].
  destruct (Hc from m id c o) as (Hgone & (m1 & Hm1 & Hid1) & Hrem); try done; [by apply sfind_elem|by apply not_elem_of_nil|].
  set (s2 := with_sessions (λ m, foldl (λ m from, serase from m) m rem) s1).
  assert (Hm2 : sfind from (m_sessions s2) = Some m1) by (simpl; by rewrite erase_all_sessions).
  exists s2. split; [unfold removeOldSessions; rewrite bind_run; simpl; by rewrite (bind_done _ _ _ _ _ E)|].
  split; [by exists m1|]. split; [done|]. split.
  - intros to rid p <-. unfold handleSetRequest, find_command. repeat (rewrite bind_run; simpl). simpl in Hm2. rewrite Hm2.
    apply String.eqb_neq in Hempty as ->. simpl. rewrite Hid1. unfold handleRequest. by rewrite !bind_run, load_gone.
  - unfold removeOldSessions. rewrite !bind_run. simpl. rewrite bind_run, collect_all_gone; [done|]. exists c. split; [|done].
    apply elem_of_commands. simpl in Hm2. exists from, m1, id. split; by apply sfind_elem.
Qed.
End collect.

(** ** Witnesses *)

#[local] Existing Instance SqliteTheorems.obedient_engine.
#[local] Existing Instance RegistrationTheorems.sqlite_accounts.

#[local] Instance numbered_commands : AdHocEnv := {
  config_string _ := None;
  config_bool _ := None;
  random_id n := ("session" +:+ pretty n)%string;
}.

Definition carol_jid : ref_jid := mkRefJid "carol" "localhost" "pc".
Definition gateway_jid : ref_jid := mkRefJid "" "irc.localhost" "".

Definition empty_adhoc : AdHoc ref_jid Sqlite.Database :=
  with_factories (λ _, [("settings"%string, SettingsAdHocCommandFactory)])
    (initial (UserManager.initial (Some SqliteTheorems.carol_stored)) 1000).

Definition open_settings : CommandPayload := mkCommandPayload "settings" "" Executing NoAction None.

Definition adhoc_after (m : prog (AdHoc ref_jid Sqlite.Database) unit) : AdHoc ref_jid Sqlite.Database :=
  match m empty_adhoc with Done _ s => s | Fault _ => empty_adhoc end.

Lemma empty_adhoc_ok : adhoc_ok None empty_adhoc.
Proof.
  apply (ok_same None (initial (UserManager.initial (Some SqliteTheorems.carol_stored)) 1000)); try done.
  apply ok_start, ManagerTheorems.manager_ok_initial.
Qed.


(** A session of settings that nobody answers for half an hour. *)
Definition waiting : AdHoc ref_jid Sqlite.Database :=
  with_now 2900 (adhoc_after (handleSetRequest carol_jid gateway_jid "7" open_settings)).

Lemma waiting_ok : adhoc_ok None waiting.
Proof.
  destruct (handleSetRequest_run carol_jid gateway_jid "7" open_settings empty_adhoc empty_adhoc_ok) as (s & e & E & Hok & _).
  unfold waiting, adhoc_after. rewrite E. apply (ok_same None s); try done. apply Hok.
Qed.

Lemma old_session_dangles_witness :
  ∃ s, removeOldSessions waiting = Done tt s ∧ removeOldSessions s = Fault UseAfterFree.
Proof.
  destruct (old_session_dangles carol_jid "session0" 0 (mkAdHocCommand carol_jid gateway_jid "session0" 1000 WaitingForResponse)
    waiting waiting_ok) as (s & E & _ & _ & _ & H);
    [eexists; split; vm_compute; reflexivity|vm_compute; reflexivity|reflexivity|discriminate|discriminate|].
  exists s. split; [exact E|exact H].
Defined.
