(* ===== verification/Admin.v ===== *)
(** * The administration interface

    AdminInterface and AdminInterfaceCommand (libtransport), with the commands of
    libtransport/AdminInterface.cpp and the three a Slack frontend adds
    (frontends/slack/SlackUserManager.cpp). A command is a record of what its
    constructor sets, and the class that says which handlers it overrides. What the
    commands ask of the user manager, the server, the frontend, the registration and
    the storage is the interface [AdminServices]. *)

From S2P Require Import Prelude StdMap Swiften Text.
From S2P Require Pool.

Abbreviation UserInfo := Pool.UserInfo.
Abbreviation uid := nat.

(** ** AdminInterfaceCommand.h *)

Inductive Category := General | Users | Messages | Frontend | Backends | Memory.

#[export] Instance Category_eq_dec : EqDecision Category.
Proof. solve_decision. Defined.

(** The enumerations the code combines with bit operations. *)
Definition GlobalContext : Z := 0.
Definition UserContext : Z := 1.
Definition ActionNone : Z := 0.
Definition ActionGet : Z := 1.
Definition ActionSet : Z := 2.
Definition ActionExecute : Z := 4.
Definition AdminMode : Z := 0.
Definition UserMode : Z := 1.

Record Arg := mkArg {
  arg_name : string;
  arg_label : string;
  arg_type : string;
  arg_example : string;
}.

(** The classes derived from AdminInterfaceCommand, with the members of their own
    that do not point to another component. *)
Inductive CommandClass :=
  | StatusCommand
  | UptimeCommand (m_start : Z)
  | OnlineUsersCommand
  | OnlineUsersCountCommand
  | OnlineUsersPerBackendCommand
  | BackendsCountCommand
  | ReloadCommand
  | HasOnlineUserCommand
  | ResMemoryCommand
  | ShrMemoryCommand
  | UsedMemoryCommand
  | AverageMemoryPerUserCommand
  | ResMemoryPerBackendCommand
  | ShrMemoryPerBackendCommand
  | UsedMemoryPerBackendCommand
  | AverageMemoryPerUserPerBackendCommand
  | CrashedBackendsCountCommand
  | CrashedBackendsCommand
  | MessagesFromXMPPCommand
  | MessagesToXMPPCommand
  | RegisterCommand
  | UnregisterCommand
  | SetOAuth2CodeCommand
  | GetOAuth2URLCommand
  | HelpCommand
  | CommandsCommand
  | VariablesCommand
  | ArgsCommand
  (** of SlackUserManager.cpp *)
  | ListRoomsCommand
  | JoinRoomCommand
  | LeaveRoomCommand.

Record Command := mkCommand {
  m_name : string;
  m_category : Category;
  m_context : Z;
  m_accessMode : Z;
  m_actions : Z;
  m_label : string;
  m_desc : string;
  m_args : list Arg;
  m_class : CommandClass;
}.

Definition getCategoryName (category : Category) : string :=
  match category with
  | General => "General"
  | Users => "Users"
  | Messages => "Messages"
  | Frontend => "Frontend"
  | Backends => "Backends"
  | Memory => "Memory"
  end.

Definition addArg (name label type example : string) (c : Command) : Command :=
  mkCommand (m_name c) (m_category c) (m_context c) (m_accessMode c) (m_actions c) (m_label c) (m_desc c)
    (m_args c ++ [mkArg name label type example]) (m_class c).

(** Whether a flag is among the actions. *)
Definition can (action : Z) (c : Command) : bool := negb (Z.land (m_actions c) action =? 0)%Z.

(** ** The components the commands talk to *)

Class AdminServices (J S : Type) := {
  (** UserManager *)
  getUserCount : S → Z;
  getUsers : S → list (string * uid);
  getUser : string → prog S (option uid);
  getMessagesToBackend : S → Z;
  getMessagesToXMPP : S → Z;
  (** User *)
  getUserInfo : uid → prog S UserInfo;
  user_jid : uid → prog S J;
  getLastActivity : uid → prog S Z;
  (** NetworkPluginServer: what m_clients points to *)
  getBackends : S → list Pool.Backend;
  getCrashedBackends : S → list string;
  (** Frontend *)
  getRegistrationFields : S → string;
  setOAuth2Code : string → string → prog S string;
  getOAuth2URL : list string → prog S string;
  sendMessage : Message J → prog S unit;
  (** Config *)
  reload : prog S bool;
  admin_jid : S → list string;
  component_jid : S → J;
  (** UserRegistration, StorageBackend; false when there is none *)
  has_registration : bool;
  registerUser : UserInfo → prog S bool;
  unregisterUser : string → prog S bool;
  has_storage : bool;
  storage_getUser : string → prog S (option UserInfo);
  storage_getUserSetting : Z → string → string → prog S string;
  storage_updateUserSetting : Z → string → string → prog S unit;
  (** SlackSession of a user *)
  session_handleJoinMessage : uid → list string → prog S unit;
  session_leaveRoom : uid → string → prog S unit;
  (** time(NULL), process_mem_usage: shared and resident kilobytes, integers held
      in doubles *)
  time : S → Z;
  process_mem_usage : S → Z * Z;
}.

(** A UserInfo whose members are not set, but its id. *)
Definition no_info : UserInfo := Pool.mkUserInfo (-1) "" "" "" "" "" false [].

(** args[i] *)
Definition at_index {S A} (l : list A) (i : nat) : prog S A :=
  match l !! i with Some x => mret x | None => raise OutOfRange end.

Definition quote : string := String "034" "".
Definition newline : string := String "010" "".
Definition quoted (s : string) : string := (quote +:+ s +:+ quote)%string.

(** ** The constructors *)

(** The constructor of AdminInterfaceCommand and setDescription. *)
Definition command (name : string) (category : Category) (context accessMode actions : Z) (label desc : string)
    (class : CommandClass) : Command :=
  mkCommand name category context accessMode actions label desc [] class.

Definition new_StatusCommand : Command :=
  command "status" General GlobalContext AdminMode ActionGet "" "Shows instance status" StatusCommand.
Definition new_UptimeCommand (now : Z) : Command :=
  command "uptime" General GlobalContext AdminMode ActionGet "" "Returns ptime in seconds" (UptimeCommand now).
Definition new_OnlineUsersCommand : Command :=
  command "online_users" Users GlobalContext AdminMode ActionExecute "Online users"
    "Returns list of all online users" OnlineUsersCommand.
Definition new_OnlineUsersCountCommand : Command :=
  command "online_users_count" Users GlobalContext AdminMode ActionGet "" "Number of online users"
    OnlineUsersCountCommand.
Definition new_OnlineUsersPerBackendCommand : Command :=
  command "online_users_per_backend" General GlobalContext AdminMode ActionGet ""
    "Shows online users per backends" OnlineUsersPerBackendCommand.
Definition new_BackendsCountCommand : Command :=
  command "backends_count" Backends GlobalContext AdminMode ActionGet "" "Number of active backends"
    BackendsCountCommand.
Definition new_ReloadCommand : Command :=
  command "reload" General GlobalContext AdminMode ActionExecute "Reload Spectrum 2 configuration"
    "Reloads config file" ReloadCommand.
Definition new_HasOnlineUserCommand : Command :=
  addArg "username" "Username" "string" "user@domain.tld"
    (command "has_online_user" Users GlobalContext AdminMode ActionExecute "Has online user"
       "Returns 1 if user is online" HasOnlineUserCommand).
Definition new_ResMemoryCommand : Command :=
  command "res_memory" Memory GlobalContext AdminMode ActionGet ""
    "Total RESident memory Spectrum 2 and its backends use in KB" ResMemoryCommand.
Definition new_ShrMemoryCommand : Command :=
  command "shr_memory" Memory GlobalContext AdminMode ActionGet ""
    "Total SHaRed memory spectrum2 backends share together in KB" ShrMemoryCommand.
Definition new_UsedMemoryCommand : Command :=
  command "used_memory" Memory GlobalContext AdminMode ActionGet "" "(res_memory - shr_memory)" UsedMemoryCommand.
Definition new_AverageMemoryPerUserCommand : Command :=
  command "average_memory_per_user" Memory GlobalContext AdminMode ActionGet ""
    "(memory_used_without_any_user - res_memory)" AverageMemoryPerUserCommand.
Definition new_ResMemoryPerBackendCommand : Command :=
  command "res_memory_per_backend" Memory GlobalContext AdminMode ActionGet ""
    "RESident memory used by backends in KB" ResMemoryPerBackendCommand.
Definition new_ShrMemoryPerBackendCommand : Command :=
  command "shr_memory_per_backend" Memory GlobalContext AdminMode ActionGet ""
    "SHaRed memory used by backends in KB" ShrMemoryPerBackendCommand.
Definition new_UsedMemoryPerBackendCommand : Command :=
  command "used_memory_per_backend" Memory GlobalContext AdminMode ActionGet ""
    "(res_memory - shr_memory) per backend" UsedMemoryPerBackendCommand.
Definition new_AverageMemoryPerUserPerBackendCommand : Command :=
  command "average_memory_per_user_per_backend" Memory GlobalContext AdminMode ActionGet ""
    "(memory_used_without_any_user - res_memory) per backend" AverageMemoryPerUserPerBackendCommand.
Definition new_CrashedBackendsCountCommand : Command :=
  command "crashed_backends_count" Backends GlobalContext AdminMode ActionGet ""
    "Returns number of crashed backends" CrashedBackendsCountCommand.
Definition new_CrashedBackendsCommand : Command :=
  command "crashed_backends" Backends GlobalContext AdminMode ActionGet "" "Returns IDs of crashed backends"
    CrashedBackendsCommand.
Definition new_MessagesFromXMPPCommand : Command :=
  command "messages_from_xmpp" Messages GlobalContext AdminMode ActionGet ""
    "Returns number of messages received from frontend network" MessagesFromXMPPCommand.
Definition new_MessagesToXMPPCommand : Command :=
  command "messages_to_xmpp" Messages GlobalContext AdminMode ActionGet ""
    "Returns number of messages sent to Front network" MessagesToXMPPCommand.
Definition new_UnregisterCommand : Command :=
  command "unregister" Users UserContext UserMode ActionExecute "Unregister" "Unregisters existing user"
    UnregisterCommand.
Definition new_SetOAuth2CodeCommand : Command :=
  command "set_oauth2_code" Frontend GlobalContext AdminMode ActionExecute ""
    "set_oauth2_code <code> <state> - sets the OAuth2 code and state for this instance" SetOAuth2CodeCommand.
Definition new_HelpCommand : Command :=
  command "help" General GlobalContext AdminMode ActionExecute "Help" "Shows help message" HelpCommand.
Definition new_CommandsCommand : Command :=
  command "commands" General GlobalContext AdminMode ActionExecute "Available commands"
    "Shows all the available commands with extended information." CommandsCommand.
Definition new_VariablesCommand : Command :=
  command "variables" General GlobalContext AdminMode ActionExecute "Available variables"
    "Shows all the available variables." VariablesCommand.
Definition new_ArgsCommand : Command :=
  addArg "command" "Command" "string" "register"
    (command "args" General GlobalContext AdminMode ActionExecute "Command's arguments"
       "Shows description of arguments for command" ArgsCommand).
Definition new_ListRoomsCommand : Command :=
  command "list_rooms" Frontend UserContext UserMode ActionExecute "List joined 3rd-party network rooms"
    "List connected rooms" ListRoomsCommand.

(** The configuration JoinRoomCommand reads; None for a key that is not set. *)
Record JoinRoomConfig := mkJoinRoomConfig {
  join_room_room_label : option string;
  join_room_room_example : option string;
  join_room_nickname_label : option string;
  join_room_nickname_example : option string;
  join_room_server_label : option string;
  join_room_server_example : option string;
}.

Definition percent_to_hash (s : string) : string :=
  match s with
  | String c rest => if Ascii.eqb c "%" then String "#" rest else s
  | EmptyString => s
  end.

Definition new_JoinRoomCommand (cfg : JoinRoomConfig) : Command :=
  let legacyRoomLabel := percent_to_hash (default "3rd-party room name" (join_room_room_label cfg)) in
  let legacyRoomExample := percent_to_hash (default "3rd-party room name" (join_room_room_example cfg)) in
  let c := command "join_room" Frontend UserContext UserMode ActionExecute "Join 3rd-party network room"
             "Join the room" JoinRoomCommand in
  let c := addArg "nickname" (default "Nickname in 3rd-party room" (join_room_nickname_label cfg)) "string"
             (default "BotNickname" (join_room_nickname_example cfg)) c in
  let c := addArg "legacy_room" legacyRoomLabel "string" legacyRoomExample c in
  let c := addArg "legacy_server" (default "3rd-party server" (join_room_server_label cfg)) "string"
             (default "3rd.party.server.org" (join_room_server_example cfg)) c in
  addArg "slack_channel" "Slack Chanel" "string" "mychannel" c.

Definition new_LeaveRoomCommand : Command :=
  addArg "slack_channel" "Slack Chanel" "string" "mychannel"
    (command "leave_room" Frontend UserContext UserMode ActionExecute "Leave 3rd-party network room"
       "Leave the room" LeaveRoomCommand).

Section admin.
Context {J S : Type} `{Jid J} `{!AdminServices J S} `{Split}.

Abbreviation admin A := (prog S A).
Implicit Types (uinfo : UserInfo) (user : option uid) (args : list string) (c : Command).

(** The constructors that read the frontend's registration fields. The code compares
    the length of the text, not the number of fields, with 1 and 2. *)
Definition registration_args c : admin Command :=
  s ← get;
  let fields := getRegistrationFields s in
  let args := split_on "010" fields in
  username ← at_index args 0;
  let c := addArg "username" username "string" "" c in
  c ← (if (1 <? String.length fields)%nat
       then legacy_username ← at_index args 1; mret (addArg "legacy_username" legacy_username "string" "" c)
       else mret c);
  if (2 <? String.length fields)%nat
  then legacy_password ← at_index args 2; mret (addArg "legacy_password" legacy_password "password" "" c)
  else mret c.

Definition new_RegisterCommand : admin Command :=
  registration_args (command "register" Users GlobalContext UserMode ActionExecute "Register"
    "Registers the new user" RegisterCommand).

Definition new_GetOAuth2URLCommand : admin Command :=
  registration_args (command "get_oauth2_url" Frontend GlobalContext AdminMode ActionExecute ""
    "get_oauth2_code - Get OAUth2 URL" GetOAuth2URLCommand).

(** ** The handlers of AdminInterfaceCommand; no text is no error *)

(** user && (m_accessMode & AdminMode) != 0 *)
Definition no_rights user c : bool :=
  bool_decide (is_Some user) && negb (Z.land (m_accessMode c) AdminMode =? 0)%Z.

(** (!user && uinfo.id == -1) && (m_context & UserContext) *)
Definition no_user uinfo user c : bool :=
  negb (bool_decide (is_Some user)) && (Pool.ui_id uinfo =? -1)%Z
  && negb (Z.land (m_context c) UserContext =? 0)%Z.

Definition base_handleSetRequest c uinfo user args : string :=
  if negb (can ActionSet c) then "Error: This variable cannot be set."
  else if no_rights user c then "Error: You do not have rights to set this variable."
  else if no_user uinfo user c then "Error: This variable can be set only in user context."
  else match args with [] => "Error: Value is missing." | _ => "" end.

Definition base_handleGetRequest c uinfo user args : string :=
  if negb (can ActionGet c) then "Error: This variable cannot be get."
  else if no_rights user c then "Error: You do not have rights to get this variable."
  else if no_user uinfo user c then "Error: This variable can be get only in user context."
  else "".

Definition base_handleExecuteRequest c uinfo user args : string :=
  if negb (can ActionExecute c) then "Error: This is not a command, but a variable."
  else if no_rights user c then "Error: You do not have rights to execute this command."
  else if no_user uinfo user c then "Error: This command can be executed only in user context."
  else if (length args <? length (m_args c))%nat then "Error: Argument is missing."
  else if (length (m_args c) <? length args)%nat then "Error: Too many arguments."
  else "".

(** ** The variables *)

(** The loop over the backends, with the number of each. *)
Fixpoint backend_lines (line : Z → Pool.Backend → string) (id : Z) (backends : list Pool.Backend) : string :=
  match backends with
  | [] => ""
  | b :: rest => line id b +:+ backend_lines line (id + 1) rest
  end.

Definition backend_title (id : Z) (b : Pool.Backend) : string :=
  ("Backend " +:+ decimal id +:+ " (ID=" +:+ Pool.b_id b +:+ ")")%string.

Definition status_text (s : S) : string :=
  ("Running (" +:+ decimal (getUserCount s) +:+ " users connected using " +:+ decimal (zlen (getBackends s))
   +:+ " backends)")%string.

(** The lines of one backend's users. *)
Fixpoint user_lines (now : Z) (us : list uid) : admin string :=
  match us with
  | [] => mret ""%string
  | u :: us =>
      jid ← user_jid u;
      last ← getLastActivity u;
      rest ← user_lines now us;
      mret ("   " +:+ toString (toBare jid) +:+ " - non-active for " +:+ decimal (now - last) +:+ " seconds"
            +:+ newline +:+ rest)%string
  end.

Fixpoint per_backend_text (now id : Z) (backends : list Pool.Backend) : admin string :=
  match backends with
  | [] => mret ""%string
  | b :: rest =>
      let title := (backend_title id b +:+ (if Pool.acceptUsers b then "" else " - not-accepting")
                    +:+ (if Pool.longRun b then " - long-running" else "") +:+ ":" +:+ newline)%string in
      lines ← match Pool.b_users b with
              | [] => mret ("   waiting for users" +:+ newline)%string
              | us => user_lines now us
              end;
      text ← per_backend_text now (id + 1) rest;
      mret (title +:+ lines +:+ text)%string
  end.

Definition res_memory (s : S) : Z :=
  let '(_, rss) := process_mem_usage s in
  foldl (λ rss b, double_add rss (to_double (Pool.b_res b))) rss (getBackends s).

Definition shr_memory (s : S) : Z :=
  let '(shared, _) := process_mem_usage s in
  foldl (λ shared b, double_add shared (to_double (Pool.b_shared b))) shared (getBackends s).

(** The difference of a backend's counters is one of unsigned longs. *)
Definition used_memory (s : S) : Z :=
  let '(shared, rss) := process_mem_usage s in
  foldl (λ rss b, double_add rss (to_double (to_ulong (Pool.b_res b - Pool.b_shared b))))
    (double_sub rss shared) (getBackends s).

Definition average_memory (s : S) : Z :=
  if (getUserCount s =? 0)%Z then 0
  else
    let per_user := foldl (λ per_user b,
      if (Pool.b_init_res b <=? Pool.b_res b)%Z
      then to_ulong (per_user + (Pool.b_res b - Pool.b_init_res b)) else per_user) 0%Z (getBackends s) in
    (per_user / to_ulong (getUserCount s))%Z.

Definition memory_line (value : Pool.Backend → Z) (id : Z) (b : Pool.Backend) : string :=
  (backend_title id b +:+ ": " +:+ decimal (value b) +:+ newline)%string.

Definition average_of_backend (b : Pool.Backend) : Z :=
  if (zlen (Pool.b_users b) =? 0)%Z || (Pool.b_res b <? Pool.b_init_res b)%Z then 0
  else ((Pool.b_res b - Pool.b_init_res b) / zlen (Pool.b_users b))%Z.

(** handleGetRequest of each class, after that of the base class. *)
Definition get_value c : admin string :=
  s ← get;
  match m_class c with
  | StatusCommand => mret (status_text s)
  | UptimeCommand m_start => mret (decimal (time s - m_start))
  | OnlineUsersCountCommand => mret (decimal (getUserCount s))
  | OnlineUsersPerBackendCommand => per_backend_text (time s) 1 (getBackends s)
  | BackendsCountCommand => mret (decimal (zlen (getBackends s)))
  | ResMemoryCommand => mret (show_double (res_memory s))
  | ShrMemoryCommand => mret (show_double (shr_memory s))
  | UsedMemoryCommand => mret (show_double (used_memory s))
  | AverageMemoryPerUserCommand => mret (decimal (average_memory s))
  | ResMemoryPerBackendCommand => mret (backend_lines (memory_line Pool.b_res) 1 (getBackends s))
  | ShrMemoryPerBackendCommand => mret (backend_lines (memory_line Pool.b_shared) 1 (getBackends s))
  | UsedMemoryPerBackendCommand =>
      mret (backend_lines (memory_line (λ b, to_ulong (Pool.b_res b - Pool.b_shared b))) 1 (getBackends s))
  | AverageMemoryPerUserPerBackendCommand =>
      mret (backend_lines (memory_line average_of_backend) 1 (getBackends s))
  | CrashedBackendsCountCommand => mret (decimal (zlen (getCrashedBackends s)))
  | CrashedBackendsCommand =>
      mret (foldl (λ lst backend, lst +:+ backend +:+ newline)%string ""%string (getCrashedBackends s))
  | MessagesFromXMPPCommand => mret (decimal (to_int (getMessagesToBackend s)))
  | MessagesToXMPPCommand => mret (decimal (to_int (getMessagesToXMPP s)))
  | _ => mret ""%string
  end.

Definition handleGetRequest c uinfo user args : admin string :=
  let ret := base_handleGetRequest c uinfo user args in
  if negb (String.eqb ret "") then mret ret else get_value c.

(** No class overrides handleSetRequest. *)
Definition handleSetRequest c uinfo user args : admin string :=
  mret (base_handleSetRequest c uinfo user args).

(** ** The commands *)

Context (m_commands : smap string Command).

Fixpoint online_lines user (us : list (string * uid)) : admin string :=
  match us with
  | [] => mret ""%string
  | (jid, _) :: us =>
      match user with
      | None => raise NullDereference
      | Some u =>
          info ← getUserInfo u;
          rest ← online_lines user us;
          mret (jid +:+ " " +:+ quoted "3rd-party network username:" +:+ " " +:+ quoted (Pool.ui_uin info) +:+ newline
                +:+ rest)%string
      end
  end.

Definition online_users user : admin string :=
  s ← get;
  match getUsers s with
  | [] => mret ("hanzz@njs.netlab.cz " +:+ quoted "3rd-party network username:" +:+ " " +:+ quoted "me" +:+ newline)%string
  | us => online_lines user us
  end.

Definition has_online_user args : admin string :=
  match args with
  | [] => mret "Error: Missing user name as an argument"%string
  | name :: _ =>
      user ← getUser name;
      mret (if bool_decide (is_Some user) then "1" else "0")%string
  end.

Definition register args : admin string :=
  if negb ((length args =? 2) || (length args =? 3))%nat then mret "Error: Bad argument count"%string
  else
    jid ← at_index args 0;
    uin ← at_index args 1;
    password ← (if (length args =? 2)%nat then mret ""%string else at_index args 2);
    registered ← registerUser (Pool.mkUserInfo 0 jid uin password "en" "utf-8" false []);
    mret (if registered : bool then "User registered" else "Error: User is already registered")%string.

Definition unregister uinfo args : admin string :=
  unregistered ← unregisterUser (Pool.ui_jid uinfo);
  name ← at_index args 0;
  mret (if unregistered : bool then "User '" +:+ name +:+ "' unregistered."
        else "Error: User '" +:+ name +:+ "' is not registered")%string.

Definition set_oauth2_code args : admin string :=
  if negb (length args =? 2)%nat then mret "Error: Bad argument count"%string
  else
    code ← at_index args 0;
    state ← at_index args 1;
    ret ← setOAuth2Code code state;
    if String.eqb ret "" then mret ret else mret "OAuth2 code and state set."%string.

(** *** Help *)

Definition help_line (c : Command) : string :=
  ((if can ActionExecute c then "   CMD   " else "   VAR   ") +:+ m_name c +:+ " - " +:+ m_desc c +:+ newline)%string.

Definition generateCategory (category : Category) : string :=
  (getCategoryName category +:+ ":" +:+ newline +:+
   foldr (λ '(_, c) text, (if bool_decide (m_category c = category) then help_line c else "") +:+ text) ""
     m_commands)%string.

Definition help : string :=
  (generateCategory General +:+ generateCategory Users +:+ generateCategory Messages +:+ generateCategory Frontend
   +:+ generateCategory Backends +:+ generateCategory Memory)%string.

Definition modes_text (c : Command) : string :=
  (" Category: " +:+ getCategoryName (m_category c)
   +:+ " AccesMode:" +:+ (if (m_accessMode c =? UserMode)%Z then " User" else " Admin")
   +:+ " Context:" +:+ (if (m_context c =? UserContext)%Z then " User" else " Global"))%string.

Definition command_line (c : Command) : string :=
  (m_name c +:+ " - " +:+ quoted (m_desc c) +:+ modes_text c +:+ " Label: "
   +:+ quoted (if String.eqb (m_label c) "" then m_name c else m_label c) +:+ newline)%string.

Definition commands_text : string :=
  foldr (λ '(_, c) text, (if can ActionExecute c then command_line c else "") +:+ text)%string ""%string
    m_commands.

Fixpoint variables_text uinfo user args (cs : list (string * Command)) : admin string :=
  match cs with
  | [] => mret ""%string
  | (_, c) :: cs =>
      line ← (if can ActionGet c then
                value ← handleGetRequest c uinfo user args;
                mret (m_name c +:+ " - " +:+ quoted (m_desc c) +:+ " Value: " +:+ quoted value
                      +:+ (if can ActionSet c then " Read-only: false" else " Read-only: true")
                      +:+ modes_text c +:+ newline)%string
              else mret ""%string);
      rest ← variables_text uinfo user args cs;
      mret (line +:+ rest)%string
  end.

Definition arg_line (a : Arg) : string :=
  (arg_name a +:+ " - " +:+ quoted (arg_label a) +:+ " Example: " +:+ quoted (arg_example a) +:+ " Type: "
   +:+ quoted (arg_type a) +:+ newline)%string.

Definition args_text args : admin string :=
  name ← at_index args 0;
  match sfind name m_commands with
  | None => mret "Error: Unknown command passed as an argument."%string
  | Some c => mret (foldr (λ a text, arg_line a +:+ text)%string ""%string (m_args c))
  end.

(** *** Rooms on Slack *)

Definition unknown_user uinfo : bool := (Pool.ui_id uinfo =? -1)%Z.

Definition list_rooms uinfo : admin string :=
  if unknown_user uinfo then mret "Error: Unknown user"%string
  else storage_getUserSetting (Pool.ui_id uinfo) "rooms" "".

Definition join_room uinfo user args : admin string :=
  if unknown_user uinfo then mret "Error: Unknown user"%string
  else
    rooms ← storage_getUserSetting (Pool.ui_id uinfo) "rooms" "";
    nickname ← at_index args 0;
    room ← at_index args 1;
    server ← at_index args 2;
    channel ← at_index args 3;
    storage_updateUserSetting (Pool.ui_id uinfo) "rooms"
      (rooms +:+ "connected room " +:+ nickname +:+ " " +:+ room +:+ " " +:+ server +:+ " " +:+ channel +:+ newline)%string ;;
    match user with
    | Some u => session_handleJoinMessage u args
    | None => mret tt
    end ;;
    mret "Joined the room"%string.

(** The rooms that stay: lines of six words whose last is another channel. *)
Definition keep_room (channel command : string) : bool :=
  (5 <? String.length command)%nat &&
  match split_on " " command with
  | [_; _; _; _; _; c] => negb (String.eqb channel c)
  | _ => false
  end.

Definition rooms_without (channel rooms : string) : string :=
  foldr (λ command text, (if keep_room channel command then command +:+ newline else "") +:+ text)%string ""%string
    (split_on "010" rooms).

Definition leave_room uinfo user args : admin string :=
  if unknown_user uinfo then mret "Error: Unknown user"%string
  else
    rooms ← storage_getUserSetting (Pool.ui_id uinfo) "rooms" "";
    channel ← at_index args 0;
    storage_updateUserSetting (Pool.ui_id uinfo) "rooms" (rooms_without channel rooms) ;;
    match user with
    | Some u => session_leaveRoom u channel
    | None => mret tt
    end ;;
    mret "Left the room"%string.

(** handleExecuteRequest of each class, after that of the base class. *)
Definition execute c uinfo user args : admin string :=
  match m_class c with
  | OnlineUsersCommand => online_users user
  | ReloadCommand =>
      done ← reload;
      mret (if done : bool then "Config reloaded" else "Error: Error during config reload")%string
  | HasOnlineUserCommand => has_online_user args
  | RegisterCommand => register args
  | UnregisterCommand => unregister uinfo args
  | SetOAuth2CodeCommand => set_oauth2_code args
  | GetOAuth2URLCommand => getOAuth2URL args
  | HelpCommand => mret help
  | CommandsCommand => mret commands_text
  | VariablesCommand => variables_text uinfo user args m_commands
  | ArgsCommand => args_text args
  | ListRoomsCommand => list_rooms uinfo
  | JoinRoomCommand => join_room uinfo user args
  | LeaveRoomCommand => leave_room uinfo user args
  | _ => mret ""%string
  end.

Definition handleExecuteRequest c uinfo user args : admin string :=
  let ret := base_handleExecuteRequest c uinfo user args in
  if negb (String.eqb ret "") then mret ret else execute c uinfo user args.

(** ** AdminInterface *)

Definition unknown_command : string := "Error: Unknown variable or command".

(** A leading set or get. *)
Definition parse_action args : Z * list string :=
  match args with
  | word :: rest =>
      if String.eqb word "set" then (ActionSet, rest)
      else if String.eqb word "get" then (ActionGet, rest)
      else (ActionNone, args)
  | [] => (ActionNone, [])
  end.

(** Without one the command says what it is. *)
Definition default_action (action : Z) c : Z :=
  if (action =? ActionNone)%Z then
    if can ActionGet c then ActionGet else if can ActionExecute c then ActionExecute else ActionNone
  else action.

Definition run_action (action : Z) c uinfo user args : admin string :=
  if (action =? ActionGet)%Z then handleGetRequest c uinfo user args
  else if (action =? ActionSet)%Z then handleSetRequest c uinfo user args
  else if (action =? ActionExecute)%Z then handleExecuteRequest c uinfo user args
  else mret unknown_command.

(** The user a command in a user's context is for. *)
Definition user_context (name : string) : admin (UserInfo * option uid) :=
  uinfo ← (if has_storage then found ← storage_getUser name; mret (default no_info found) else mret no_info);
  user ← getUser name;
  mret (uinfo, user).

Definition run_command (action : Z) c args : admin string :=
  let action := default_action action c in
  if (m_context c =? UserContext)%Z then
    match args with
    | [] => mret "Error: No username given"%string
    | name :: args =>
        '(uinfo, user) ← user_context name;
        run_action action c uinfo user args
    end
  else run_action action c no_info None args.

(** handleQuery, from the text of the message to that of its answer. *)
Definition answer_query (msg : string) : admin string :=
  match parse_action (split_on " " msg) with
  | (_, []) => mret unknown_command
  | (action, name :: args) =>
      match sfind name m_commands with
      | None => mret unknown_command
      | Some c => run_command action c args
      end
  end.

Definition handleQuery (message : Message J) : admin (Message J) :=
  s ← get;
  body ← answer_query (m_body message);
  mret (setBody body (setMessageFrom (component_jid s) (setMessageTo (m_from message) message))).

Definition handleMessageReceived (message : Message J) : admin unit :=
  if negb (String.eqb (getNode (m_to message)) "") then mret tt
  else
    s ← get;
    if negb (bool_decide (toString (toBare (m_from message)) ∈ admin_jid s)) then mret tt
    else if String.eqb (m_body message) "" then mret tt
    else message ← handleQuery message; sendMessage message.
End admin.

(** ** The constructor of AdminInterface *)

Section construct.
Context {J S : Type} `{Jid J} `{!AdminServices J S} `{Split}.

Definition addCommand (c : Command) (m_commands : smap string Command) : smap string Command :=
  sinsert (m_name c) c m_commands.

Definition addCommands (cs : list Command) (m_commands : smap string Command) : smap string Command :=
  foldl (λ m c, addCommand c m) m_commands cs.

Definition new_AdminInterface : prog S (smap string Command) :=
  s ← get;
  let m_commands := addCommands
    [new_StatusCommand; new_UptimeCommand (time s); new_OnlineUsersCommand; new_OnlineUsersCountCommand;
     new_ReloadCommand; new_HasOnlineUserCommand; new_BackendsCountCommand; new_ResMemoryCommand;
     new_ShrMemoryCommand; new_UsedMemoryCommand; new_AverageMemoryPerUserCommand;
     new_CrashedBackendsCountCommand; new_CrashedBackendsCommand; new_MessagesFromXMPPCommand;
     new_MessagesToXMPPCommand; new_SetOAuth2CodeCommand] [] in
  get_oauth2_url ← new_GetOAuth2URLCommand;
  let m_commands := addCommands
    [get_oauth2_url; new_HelpCommand; new_ArgsCommand; new_CommandsCommand; new_VariablesCommand] m_commands in
  if has_registration then
    register ← new_RegisterCommand;
    mret (addCommands [register; new_UnregisterCommand] m_commands)
  else mret m_commands.

(** SlackUserManager::handleAdminInterfaceSet *)
Definition handleAdminInterfaceSet (cfg : JoinRoomConfig) (m_commands : smap string Command) : smap string Command :=
  addCommands [new_ListRoomsCommand; new_JoinRoomCommand cfg; new_LeaveRoomCommand] m_commands.
End construct.
