(* ===== verification/AdminTheorems.v ===== *)
(** * The administration interface: rooms, readers and commands that cannot run

    What the commands promise to the administrator: rooms are kept as a list, asking
    changes nothing. And what two of them do instead. *)

From S2P Require Import Prelude StdMap Swiften Text Admin.
From S2P Require Pool.

(** ** The text of the rooms *)

Record Room := mkRoom {
  r_nickname : string;
  r_room : string;
  r_server : string;
  r_channel : string;
}.

Definition args_of (r : Room) : list string := [r_nickname r; r_room r; r_server r; r_channel r].

(** A word holds neither a space nor the end of a line. *)
Definition word (w : string) : Prop := ¬ has " " w ∧ ¬ has "010" w.
Definition room_ok (r : Room) : Prop := Forall word (args_of r).

Definition room_line (r : Room) : string := join_with " " ("connected" :: "room" :: args_of r)%string.
Definition rooms_text (l : list Room) : string :=
  foldr (λ r text, room_line r +:+ newline +:+ text)%string ""%string l.

Section rooms.
Context `{SplitLaws}.

Lemma has_join c l sep : sep ≠ c → has c (join_with sep l) → Exists (has c) l.
Proof.
  intros Hne. induction l as [|s l IH]; [done|]. destruct l as [|t l]; [by constructor|].
  change (join_with sep (s :: t :: l)) with (s +:+ String sep (join_with sep (t :: l)))%string.
  intros [?|[?|?]]%has_app; [by constructor|done|]. apply Exists_cons_tl, IH. done.
Qed.

Lemma room_line_words r : room_ok r → split_on " " (room_line r) = "connected"%string :: "room"%string :: args_of r.
Proof.
  intros Hr. apply split_join; [done|]. repeat (constructor; [by apply (bool_decide_eq_true_1 _); vm_compute|]).
  eapply Forall_impl; [exact Hr|]. by intros w [].
Qed.

Lemma room_line_one r : room_ok r → ¬ has "010" (room_line r).
Proof.
  intros Hr Hin. apply has_join in Hin; [|done]. apply Exists_cons in Hin as [Hin|Hin]; [by vm_compute in Hin; naive_solver|].
  apply Exists_cons in Hin as [Hin|Hin]; [by vm_compute in Hin; naive_solver|].
  apply Exists_exists in Hin as (w & Hw & Hin). unfold room_ok in Hr. rewrite Forall_forall in Hr. by destruct (Hr w Hw).
Qed.

Lemma rooms_lines l : Forall room_ok l → split_on "010" (rooms_text l) = map room_line l ++ [""%string].
Proof.
  induction 1 as [|r l Hr Hl IH]; [by apply split_none; intros []|].
  change (rooms_text (r :: l)) with (room_line r +:+ String "010" ("" +:+ rooms_text l))%string.
  rewrite string_nil_app, split_some by by apply room_line_one. simpl. by rewrite IH.
Qed.

Lemma keep_room_line channel r : room_ok r → keep_room channel (room_line r) = negb (String.eqb channel (r_channel r)).
Proof.
  intros Hr. unfold keep_room. by rewrite room_line_words.
Qed.

Lemma rooms_without_text channel l :
  Forall room_ok l → rooms_without channel (rooms_text l) = rooms_text (filter (λ r, channel ≠ r_channel r) l).
Proof.
  intros Hl. unfold rooms_without. rewrite rooms_lines by done. rewrite foldr_app. simpl. rewrite string_app_nil_r.
  induction Hl as [|r l Hr Hl IH]; [done|]. simpl. rewrite keep_room_line, IH, filter_cons by done.
  destruct (String.eqb_spec channel (r_channel r)); [rewrite decide_False by tauto|rewrite decide_True by done]; simpl.
  - by rewrite string_nil_app.
  - by rewrite string_app_assoc.
Qed.

Lemma rooms_text_snoc l r : rooms_text (l ++ [r]) = (rooms_text l +:+ room_line r +:+ newline)%string.
Proof. induction l as [|r' l IH]; simpl; [autorewrite with texts; done|]. by rewrite IH, !string_app_assoc. Qed.
End rooms.

(** ** Rooms, through the storage *)

(** What the commands ask of the storage: a setting that is there can be changed. *)
Class RoomStorage (J S : Type) `{AdminServices J S} : Prop :=
  rooms_updated id v w s : storage_getUserSetting id "rooms" "" s = Done v s →
    ∃ s', storage_updateUserSetting id "rooms" w s = Done tt s' ∧ storage_getUserSetting id "rooms" "" s' = Done w s'.

Section storage.
Context {J S : Type} `{Jid J} `{!AdminServices J S} `{SplitLaws} `{!RoomStorage J S} (m_commands : smap string Command).

(** The rooms a user has. *)
Definition has_rooms uinfo (l : list Room) (s : S) : Prop :=
  storage_getUserSetting (Pool.ui_id uinfo) "rooms" "" s = Done (rooms_text l) s.

(** C27: the commands of a user who is not online keep his rooms as a list, in the text
    of one setting: joining puts a room at its end, leaving a channel takes all its
    rooms out and no other, listing shows them; whatever the words of the rooms are, as
    long as there is no space in them and no end of a line. *)
Theorem rooms_are_a_list cfg uinfo l s :
  unknown_user uinfo = false → Forall room_ok l → has_rooms uinfo l s →
  let run c args := handleExecuteRequest m_commands c uinfo None args s in
  run new_ListRoomsCommand [] = Done (rooms_text l) s
  ∧ (∀ r, room_ok r → ∃ s', run (new_JoinRoomCommand cfg) (args_of r) = Done "Joined the room"%string s'
      ∧ has_rooms uinfo (l ++ [r]) s')
  ∧ (∀ channel, ∃ s', run new_LeaveRoomCommand [channel] = Done "Left the room"%string s'
      ∧ has_rooms uinfo (filter (λ r, channel ≠ r_channel r) l) s').
Proof.
  intros Hu Hl Hs run. unfold run. clear run.
  assert (Hbase : ∀ c args, can ActionExecute c = true → length args = length (m_args c) →
    handleExecuteRequest m_commands c uinfo None args = execute m_commands c uinfo None args).
  { intros c args Hc Ha. unfold handleExecuteRequest, base_handleExecuteRequest, no_rights, no_user.
    unfold unknown_user in Hu. by rewrite Hc, Ha, Hu, Nat.ltb_irrefl. }
  split_and!.
  - rewrite Hbase by done. unfold execute. simpl. unfold list_rooms. by rewrite Hu.
  - intros r Hr. rewrite Hbase by done. unfold execute. simpl. unfold join_room. rewrite Hu, bind_run, Hs.
    destruct (rooms_updated (Pool.ui_id uinfo) (rooms_text l) (rooms_text (l ++ [r])) s Hs) as (s' & E & Hs').
    exists s'. split; [|exact Hs']. repeat (rewrite bind_run; simpl). rewrite rooms_text_snoc in E.
    assert (room_line r = "connected room " +:+ r_nickname r +:+ " " +:+ r_room r +:+ " " +:+ r_server r +:+ " " +:+ r_channel r)%string
      as Hline by (unfold room_line, args_of; simpl; by autorewrite with texts).
    rewrite Hline, !string_app_assoc in E. by rewrite E.
  - intros channel. rewrite Hbase by done. unfold execute. simpl. unfold leave_room. rewrite Hu, bind_run, Hs.
    destruct (rooms_updated (Pool.ui_id uinfo) (rooms_text l) (rooms_text (filter (λ r, channel ≠ r_channel r) l)) s Hs)
      as (s' & E & Hs'). exists s'. split; [|exact Hs']. repeat (rewrite bind_run; simpl).
    rewrite rooms_without_text by done. by rewrite E.
Qed.
End storage.

(** ** Who changes what *)

Section safety.
Context {J S : Type} `{Jid J} `{!AdminServices J S} `{SplitLaws} (m_commands : smap string Command).

(** [R s s']: what is to stay is the same in both states. *)
Class ReadersKeep (R : S → S → Prop) : Prop := {
  keep_order :: PreOrder R;
  getUser_keeps name s0 : spec any_fault (R s0) (getUser name) (λ _, R s0);
  getUserInfo_keeps u s0 : spec any_fault (R s0) (getUserInfo u) (λ _, R s0);
  user_jid_keeps u s0 : spec any_fault (R s0) (user_jid u) (λ _, R s0);
  getLastActivity_keeps u s0 : spec any_fault (R s0) (getLastActivity u) (λ _, R s0);
  storage_getUser_keeps name s0 : spec any_fault (R s0) (storage_getUser name) (λ _, R s0);
}.

Context (R : S → S → Prop) `{!ReadersKeep R}.

(** The classes whose handleExecuteRequest changes something. *)
Definition changing (c : Command) : bool :=
  match m_class c with
  | ReloadCommand | RegisterCommand | UnregisterCommand | SetOAuth2CodeCommand | GetOAuth2URLCommand
  | ListRoomsCommand | JoinRoomCommand | LeaveRoomCommand => true
  | _ => false
  end.

Abbreviation keeps s0 m := (spec any_fault (R s0) m (λ _, R s0)).

Ltac keep_step :=
  first [ apply getUser_keeps | apply getUserInfo_keeps | apply user_jid_keeps | apply getLastActivity_keeps
        | apply storage_getUser_keeps | walk_step ].

Lemma at_index_keeps {A} (l : list A) i s0 : keeps s0 (at_index l i).
Proof. unfold at_index. repeat keep_step. Qed.

Lemma user_lines_keeps now us s0 : keeps s0 (user_lines now us).
Proof. induction us as [|u us IH]; simpl; repeat keep_step. Qed.

Lemma per_backend_keeps now id bs s0 : keeps s0 (per_backend_text now id bs).
Proof.
  revert id. induction bs as [|b bs IH]; intros id; simpl; [by keep_step|].
  keep_step; [|by repeat keep_step]. destruct (Pool.b_users b) as [|u us]; [by keep_step|].
  exact (user_lines_keeps now (u :: us) s0).
Qed.

Lemma get_value_keeps c s0 : keeps s0 (get_value c).
Proof. unfold get_value. keep_step; [by apply spec_get|]. case_match; try by keep_step. apply per_backend_keeps. Qed.

Lemma handleGetRequest_keeps c uinfo user args s0 : keeps s0 (handleGetRequest c uinfo user args).
Proof. unfold handleGetRequest. case_match; [by keep_step|apply get_value_keeps]. Qed.

Lemma online_lines_keeps user us s0 : keeps s0 (online_lines user us).
Proof. induction us as [|[jid u] us IH]; simpl; repeat keep_step. Qed.

Lemma variables_keeps uinfo user args cs s0 : keeps s0 (variables_text uinfo user args cs).
Proof.
  induction cs as [|[name c] cs IH]; simpl; [by keep_step|].
  keep_step; [destruct (can ActionGet c); [keep_step; [apply handleGetRequest_keeps|by keep_step]|by keep_step]|].
  by repeat keep_step.
Qed.

Lemma execute_keeps c uinfo user args s0 : changing c = false → keeps s0 (execute m_commands c uinfo user args).
Proof.
  unfold changing, execute. destruct (m_class c); intros Hc; try discriminate Hc; try by keep_step.
  - unfold online_users. keep_step; [by apply spec_get|]. case_match; [by keep_step|apply online_lines_keeps].
  - unfold has_online_user. destruct args; by repeat keep_step.
  - apply variables_keeps.
  - unfold args_text. keep_step; [apply at_index_keeps|]. case_match; by keep_step.
Qed.

Lemma run_action_keeps action c uinfo user args s0 :
  changing c = false ∨ action ≠ ActionExecute → keeps s0 (run_action m_commands action c uinfo user args).
Proof.
  intros Hc. unfold run_action, handleSetRequest. case_match; [apply handleGetRequest_keeps|]. case_match; [by keep_step|].
  destruct (Z.eqb_spec action ActionExecute) as [->|]; [|by apply spec_ret]. unfold handleExecuteRequest.
  case_match; [by keep_step|]. apply execute_keeps. naive_solver.
Qed.

Lemma run_command_keeps action c args s0 :
  changing c = false ∨ default_action action c ≠ ActionExecute → keeps s0 (run_command m_commands action c args).
Proof.
  intros Hc. unfold run_command. case_match; [|by apply run_action_keeps].
  destruct args as [|name args]; [by keep_step|]. keep_step; [unfold user_context; repeat keep_step; apply storage_getUser_keeps|].
  destruct a as [uinfo user]. by apply run_action_keeps.
Qed.

(** The command a text asks to execute. *)
Definition executes (msg : string) (c : Command) : Prop :=
  ∃ action name args, parse_action (split_on " " msg) = (action, name :: args) ∧ sfind name m_commands = Some c
    ∧ default_action action c = ActionExecute.

Lemma executes_changing msg :
  (∀ c, executes msg c → changing c = false) ∨ ∃ c, executes msg c ∧ changing c = true.
Proof.
  unfold executes. destruct (parse_action _) as [action [|name args]]; [left; naive_solver|].
  destruct (sfind name m_commands) as [c|] eqn:Ec; [|left; naive_solver].
  destruct (changing c) eqn:Hc; [|left; naive_solver].
  destruct (decide (default_action action c = ActionExecute)); [right; naive_solver|left; naive_solver].
Qed.

Lemma answer_query_keeps msg s0 :
  (∀ c, executes msg c → changing c = false) → keeps s0 (answer_query m_commands msg).
Proof.
  intros Hc. unfold answer_query. destruct (parse_action _) as [action [|name args]] eqn:Ep; [by keep_step|].
  destruct (sfind name m_commands) as [c|] eqn:Ec; [|by keep_step]. apply run_command_keeps.
  destruct (decide (default_action action c = ActionExecute)); [left|by right]. apply Hc. by exists action, name, args.
Qed.

Definition from_administrator (message : Message J) (s : S) : Prop :=
  getNode (m_to message) = ""%string ∧ toString (toBare (m_from message)) ∈ admin_jid s ∧ m_body message ≠ ""%string.

(** What a query can do: nothing to what [R] relates, unless it executes a command of the
    changing classes. *)
Lemma query_answered message s answer s1 :
  handleQuery m_commands message s = Done answer s1 →
  (∃ text, answer = setBody text (setMessageFrom (component_jid s) (setMessageTo (m_from message) message))) ∧
  (R s s1 ∨ ∃ c, executes (m_body message) c ∧ changing c = true).
Proof.
  unfold handleQuery. rewrite bind_run. cbn beta iota delta [get]. rewrite bind_run.
  destruct (answer_query m_commands (m_body message) s) as [text s2|f] eqn:E; [|done]. intros [= <- <-].
  split; [by exists text|]. destruct (executes_changing (m_body message)) as [Hc|Hc]; [left|by right].
  pose proof (answer_query_keeps (m_body message) s Hc s ltac:(reflexivity)) as Hk. by rewrite E in Hk.
Qed.

(** C26: who gets through to the administration interface by a message, and what can change then, where
    reading accounts, users and their activity keeps what [R] relates ([ReadersKeep]). A message that is not
    an administrator's, not to the component itself or empty leaves everything as it is.
    One that is gets one answer, to its sender, from the component, unless answering stops the
    program ([online_users_stops]); and only if it executes a command of the changing classes
    may more have changed than the answer. The same holds of a query that a backend sends, which
    reaches handleQuery without any check. *)
Theorem only_administrators_change message s :
  (¬ from_administrator message s → handleMessageReceived m_commands message s = Done tt s) ∧
  (from_administrator message s →
    match handleQuery m_commands message s with
    | Done answer s1 => handleMessageReceived m_commands message s = sendMessage answer s1
    | Fault f => handleMessageReceived m_commands message s = Fault f
    end) ∧
  (∀ answer s1, handleQuery m_commands message s = Done answer s1 →
    m_to answer = m_from message ∧ m_from answer = component_jid s ∧
    (R s s1 ∨ ∃ c, executes (m_body message) c ∧ changing c = true)).
Proof.
  unfold handleMessageReceived, from_administrator. split; [|split].
  - intros Hn. destruct (String.eqb_spec (getNode (m_to message)) "") as [Ht|]; [|done].
    simpl. rewrite bind_run. simpl. case_bool_decide as Ha; [|done]. simpl.
    destruct (String.eqb_spec (m_body message) "") as [|Hb]; [done|]. by destruct Hn.
  - intros (-> & Ha & Hb%String.eqb_neq). simpl. rewrite bind_run. simpl. rewrite bool_decide_true, Hb by done. simpl.
    rewrite bind_run. by destruct (handleQuery m_commands message s).
  - intros answer s1 E. destruct (query_answered _ _ _ _ E) as [[text ->] HR]. done.
Qed.

(** an administrator who asks for the users that are online while somebody is ends
    the program: the command reads the account of the user it runs for, and a command
    in the global context runs for nobody. *)
Theorem online_users_stops message s :
  from_administrator message s → m_body message = "online_users"%string →
  sfind "online_users"%string m_commands = Some new_OnlineUsersCommand → getUsers s ≠ [] →
  handleMessageReceived m_commands message s = Fault NullDereference.
Proof.
  intros (Hn & Ha & Hb) Hbody Hc Hus. unfold handleMessageReceived. rewrite Hn. simpl. rewrite bind_run. simpl.
  rewrite bool_decide_true by done. simpl. rewrite Hbody. simpl. rewrite bind_run. unfold handleQuery.
  rewrite bind_run. simpl. rewrite bind_run, Hbody. unfold answer_query.
  rewrite split_none by (by apply (bool_decide_eq_true_1 _); vm_compute). simpl. rewrite Hc.
  unfold run_command. simpl. unfold run_action. simpl. unfold handleExecuteRequest. simpl. unfold execute. simpl.
  unfold online_users. rewrite bind_run. simpl. by destruct (getUsers s) as [|[jid u] us].
Qed.

(** no words make set_oauth2_code reach the frontend: the command declares no
    arguments, so none is asked for and two are too many, and wants two. *)
Theorem set_oauth2_code_refused uinfo user args s :
  handleExecuteRequest m_commands new_SetOAuth2CodeCommand uinfo user args s =
    Done (match args with [] => "Error: Bad argument count" | _ => "Error: Too many arguments." end)%string s.
Proof.
  unfold handleExecuteRequest, base_handleExecuteRequest, no_rights, no_user. simpl. rewrite !andb_false_r.
  by destruct args.
Qed.
End safety.

(** ** Witnesses *)

(** A component with one administrator, somebody online, and one user's rooms. *)
Record Desk := mkDesk {
  d_rooms : string;
  d_sent : list (Message ref_jid);
}.

#[local] Instance desk_services : AdminServices ref_jid Desk := {
  getUserCount _ := 1%Z;
  getUsers _ := [("carol@localhost"%string, 1)];
  getUser name := mret (if String.eqb name "carol@localhost" then Some 1 else None);
  getMessagesToBackend _ := 0%Z;
  getMessagesToXMPP _ := 0%Z;
  getUserInfo _ := mret no_info;
  user_jid _ := mret (mkRefJid "carol" "localhost" "");
  getLastActivity _ := mret 0%Z;
  getBackends _ := [];
  getCrashedBackends _ := [];
  getRegistrationFields _ := ("Jabber ID" +:+ newline +:+ "Name" +:+ newline +:+ "Password")%string;
  setOAuth2Code _ _ := mret ""%string;
  getOAuth2URL _ := mret ""%string;
  sendMessage m := modify (λ s, mkDesk (d_rooms s) (d_sent s ++ [m]));
  reload := mret true;
  admin_jid _ := ["admin@localhost"%string];
  component_jid _ := mkRefJid "" "irc.localhost" "";
  has_registration := false;
  registerUser _ := mret false;
  unregisterUser _ := mret false;
  has_storage := true;
  storage_getUser _ := mret (Some (Pool.mkUserInfo 1 "carol@localhost" "carol" "" "" "" false []));
  storage_getUserSetting _ _ _ := gets d_rooms;
  storage_updateUserSetting _ _ v := modify (λ s, mkDesk v (d_sent s));
  session_handleJoinMessage _ _ := mret tt;
  session_leaveRoom _ _ := mret tt;
  time _ := 0%Z;
  process_mem_usage _ := (0, 0)%Z;
}.

#[local] Instance desk_storage : RoomStorage ref_jid Desk.
Proof. intros id v w s E. by eexists. Qed.

(** What readers keep is everything. *)
#[local] Instance desk_readers : ReadersKeep (J := ref_jid) (@eq Desk).
Proof. split; try done; try apply _; intros; by apply spec_ret. Qed.

Definition commands_room : Room := mkRoom "bot" "#spectrum" "irc.example.org" "general".
Definition other_room : Room := mkRoom "bot" "#rocq" "irc.example.org" "proofs".
Definition no_labels : JoinRoomConfig := mkJoinRoomConfig None None None None None None.
Definition carol_info : UserInfo := Pool.mkUserInfo 1 "carol@localhost" "carol" "" "" "" false [].

Definition admin_says (text : string) : Message ref_jid :=
  mkMessage (mkRefJid "admin" "localhost" "pc") (mkRefJid "" "irc.localhost" "") Normal text "" [].

Definition empty_desk : Desk := mkDesk "" [].

(** The commands of the interface. *)
Definition desk_commands : smap string Command :=
  match new_AdminInterface (J := ref_jid) empty_desk with Done m _ => m | Fault _ => [] end.

Lemma rooms_are_a_list_witness :
  ∃ s', handleExecuteRequest (J := ref_jid) desk_commands new_LeaveRoomCommand carol_info None ["general"%string]
      (mkDesk (rooms_text [commands_room; other_room]) []) = Done "Left the room"%string s'
    ∧ d_rooms s' = rooms_text [other_room].
Proof.
  destruct (rooms_are_a_list (J := ref_jid) desk_commands no_labels carol_info [commands_room; other_room]
    (mkDesk (rooms_text [commands_room; other_room]) []) eq_refl) as (_ & _ & Hleave).
  - by apply (bool_decide_eq_true_1 _); vm_compute.
  - reflexivity.
  - destruct (Hleave "general"%string) as (s' & E & Hs'). exists s'. split; [exact E|]. by injection Hs'.
Defined.

(** The desk after a message. *)
Definition desk_after (m : Message ref_jid) : Desk :=
  match handleMessageReceived desk_commands m empty_desk with Done _ s => s | Fault _ => empty_desk end.

(** One answer was sent to the administrator, and nothing else happened. *)
Definition R_of_desk (d : Desk) : Prop :=
  ∃ answer, d = mkDesk "" [answer] ∧ m_to answer = mkRefJid "admin" "localhost" "pc".

(** An administrator is answered, and somebody else is not. *)
Lemma only_administrators_change_witness :
  desk_after (admin_says "status") ≠ empty_desk ∧ R_of_desk (desk_after (admin_says "status")) ∧
  handleMessageReceived desk_commands (setMessageFrom (mkRefJid "eve" "localhost" "pc") (admin_says "status")) empty_desk =
    Done tt empty_desk.
Proof.
  assert (Ha : from_administrator (admin_says "status") empty_desk)
    by (split; [reflexivity|split; [apply list_elem_of_here|discriminate]]).
  destruct (only_administrators_change desk_commands eq (admin_says "status") empty_desk) as (_ & Hyes & Hquery).
  specialize (Hyes Ha). split; [|split].
  - vm_compute. discriminate.
  - unfold desk_after. destruct (handleQuery desk_commands (admin_says "status") empty_desk) as [answer s1|f] eqn:E;
      [|vm_compute in E; discriminate E].
    rewrite Hyes. destruct (Hquery _ _ eq_refl) as (Hto & _ & [<-|(c & Hc & Hch)]).
    + exists answer. split; [reflexivity|exact Hto].
    + exfalso. destruct Hc as (action & name & args & Hp & Hf & _). vm_compute in Hp. injection Hp as <- <- <-.
      vm_compute in Hf. injection Hf as <-. discriminate Hch.
  - apply (only_administrators_change desk_commands eq). intros (_ & Hin & _). vm_compute in Hin.
    apply list_elem_of_singleton in Hin. discriminate Hin.
Defined.

Lemma online_users_stops_witness :
  handleMessageReceived desk_commands (admin_says "online_users") empty_desk = Fault NullDereference.
Proof.
  apply (online_users_stops desk_commands (admin_says "online_users") empty_desk).
  - split; [reflexivity|]. split; [apply list_elem_of_here|discriminate].
  - reflexivity.
  - vm_compute. reflexivity.
  - discriminate.
Defined.
