(* ===== verification/ThreadPool.v ===== *)
(** * The thread pool

    ThreadPool runs jobs on a fixed number of workers: a job gets a free worker or
    waits in a queue; when a worker is done it posts an event to the main loop,
    which finalises the job, releases the worker and starts the jobs that wait.
    The interleavings of the workers and the loop are the sequences of steps. *)

From S2P Require Import Prelude.

Definition job := nat.

(** What happens to a job, in the order it happens; Submitted is the call of
    runAsThread. *)
Inductive pool_event :=
  | Submitted (t : job)
  | Started (t : job) (wid : nat)
  | Ran (t : job)
  | Finalized (t : job)
  | Deleted (t : job).

Record ThreadPool := mkThreadPool {
  MAX_THREADS : nat;
  activeThreads : Z;
  freeThreads : list nat;
  requestQueue : list job;
  (** worker[i]: the thread, here the job it runs, or NULL *)
  worker : list (option job);
  (** the workers in workerBody, and the events posted to the main loop *)
  running : list (job * nat);
  posted : list (job * nat);
  pool_log : list pool_event;
}.

Definition with_activeThreads f (p : ThreadPool) := mkThreadPool (MAX_THREADS p) (f (activeThreads p)) (freeThreads p) (requestQueue p) (worker p) (running p) (posted p) (pool_log p).
Definition with_freeThreads f (p : ThreadPool) := mkThreadPool (MAX_THREADS p) (activeThreads p) (f (freeThreads p)) (requestQueue p) (worker p) (running p) (posted p) (pool_log p).
Definition with_requestQueue f (p : ThreadPool) := mkThreadPool (MAX_THREADS p) (activeThreads p) (freeThreads p) (f (requestQueue p)) (worker p) (running p) (posted p) (pool_log p).
Definition with_worker f (p : ThreadPool) := mkThreadPool (MAX_THREADS p) (activeThreads p) (freeThreads p) (requestQueue p) (f (worker p)) (running p) (posted p) (pool_log p).
Definition with_running f (p : ThreadPool) := mkThreadPool (MAX_THREADS p) (activeThreads p) (freeThreads p) (requestQueue p) (worker p) (f (running p)) (posted p) (pool_log p).
Definition with_posted f (p : ThreadPool) := mkThreadPool (MAX_THREADS p) (activeThreads p) (freeThreads p) (requestQueue p) (worker p) (running p) (f (posted p)) (pool_log p).
Definition with_pool_log f (p : ThreadPool) := mkThreadPool (MAX_THREADS p) (activeThreads p) (freeThreads p) (requestQueue p) (worker p) (running p) (posted p) (f (pool_log p)).

Definition record_event (e : pool_event) : prog ThreadPool unit := modify (with_pool_log (λ l, l ++ [e])).

(** The constructor. *)
Definition newThreadPool (maxthreads : nat) : ThreadPool :=
  mkThreadPool maxthreads 0 (seq 0 maxthreads) [] (replicate maxthreads None) [] [] [].

Definition getActiveThreadCount (p : ThreadPool) : Z := activeThreads p.

Definition updateActiveThreadCount (k : Z) : prog ThreadPool unit :=
  modify (with_activeThreads (λ n, n + k)%Z).

(** None for -1 *)
Definition getFreeThread : prog ThreadPool (option nat) :=
  p ← get;
  match freeThreads p with
  | [] => mret None
  | res :: rest =>
      modify (with_freeThreads (λ _, rest)) ;;
      updateActiveThreadCount (-1) ;;
      mret (Some res)
  end.

(** worker[i] = t: the array has MAX_THREADS cells. *)
Definition set_worker (i : nat) (t : option job) : prog ThreadPool unit :=
  p ← get;
  if bool_decide (i < length (worker p)) then modify (with_worker (<[i := t]>)) else raise OutOfRange.

Definition releaseThread (i : Z) : prog ThreadPool unit :=
  p ← get;
  if bool_decide (i < 0 ∨ Z.of_nat (MAX_THREADS p) < i)%Z then mret tt else
  set_worker (Z.to_nat i) None ;;
  modify (with_freeThreads (λ l, l ++ [Z.to_nat i])) ;;
  updateActiveThreadCount 1.

(** setThreadID, new boost::thread on workerBody, and the count. *)
Definition start_worker (t : job) (w : nat) : prog ThreadPool unit :=
  set_worker w (Some t) ;;
  modify (with_running (λ l, l ++ [(t, w)])) ;;
  record_event (Started t w) ;;
  updateActiveThreadCount (-1).

Fixpoint schedule (fuel : nat) : prog ThreadPool unit :=
  match fuel with
  | 0 => mret tt
  | S fuel =>
      p ← get;
      match requestQueue p with
      | [] => mret tt
      | t :: rest =>
          free ← getFreeThread;
          match free with
          | None => mret tt
          | Some w =>
              modify (with_requestQueue (λ _, rest)) ;;
              start_worker t w ;;
              schedule fuel
          end
      end
  end.

(** One turn per job that waits, and one to see there is none left. *)
Definition scheduleFromQueue : prog ThreadPool unit :=
  p ← get; schedule (S (length (requestQueue p))).

Definition runAsThread (t : job) : prog ThreadPool unit :=
  record_event (Submitted t) ;;
  free ← getFreeThread;
  match free with
  | Some w => start_worker t w
  | None => modify (with_requestQueue (λ l, l ++ [t]))
  end.

Definition cleandUp (t : job) (wid : nat) : prog ThreadPool unit :=
  record_event (Finalized t) ;;
  record_event (Deleted t) ;;
  releaseThread (Z.of_nat wid) ;;
  scheduleFromQueue.

(** The end of workerBody: run() is over, the event is posted. *)
Definition workerBody (t : job) (wid : nat) : prog ThreadPool unit :=
  record_event (Ran t) ;;
  modify (with_running (list_remove_all (t, wid))) ;;
  modify (with_posted (λ l, l ++ [(t, wid)])).

(** ** Steps *)

(** A call of runAsThread, the end of a worker's job, the next event of the loop. *)
Inductive pool_step : ThreadPool → result ThreadPool unit → Prop :=
  | step_run t p : pool_step p (runAsThread t p)
  | step_worker t w p : (t, w) ∈ running p → pool_step p (workerBody t w p)
  | step_loop t w rest p :
      posted p = (t, w) :: rest →
      pool_step p (cleandUp t w (with_posted (λ _, rest) p)).

Inductive pool_reachable (maxthreads : nat) : ThreadPool → Prop :=
  | pool_start : pool_reachable maxthreads (newThreadPool maxthreads)
  | pool_next p p' :
      pool_reachable maxthreads p → pool_step p (Done tt p') → pool_reachable maxthreads p'.

(** The jobs of the log. *)
Definition submitted_of (e : pool_event) : option job := match e with Submitted t => Some t | _ => None end.
Definition started_of (e : pool_event) : option job := match e with Started t _ => Some t | _ => None end.
Definition finalized_of (e : pool_event) : option job := match e with Finalized t => Some t | _ => None end.

Definition submitted (p : ThreadPool) : list job := omap submitted_of (pool_log p).
Definition started (p : ThreadPool) : list job := omap started_of (pool_log p).
Definition finalized (p : ThreadPool) : list job := omap finalized_of (pool_log p).

(** ** The invariant *)

(** Every worker is free or busy, and not both; a busy one has its thread. *)
Record pool_inv (p : ThreadPool) : Prop := {
  inv_length : length (worker p) = MAX_THREADS p;
  inv_ids : freeThreads p ++ (running p ++ posted p).*2 ≡ₚ seq 0 (MAX_THREADS p);
  inv_busy t w : (t, w) ∈ running p ++ posted p → worker p !! w = Some (Some t);
  inv_idle w : w ∈ freeThreads p → worker p !! w = Some None;
  inv_order : submitted p = started p ++ requestQueue p;
  inv_jobs : started p ≡ₚ (running p ++ posted p).*1 ++ finalized p;
  inv_count : activeThreads p = (Z.of_nat (length (finalized p)) - 2 * Z.of_nat (length (started p)))%Z;
}.

(** What is left to do: a job is started, run and finalised. *)
Definition work (p : ThreadPool) : nat :=
  3 * length (requestQueue p) + 2 * length (running p) + length (posted p).

(** No job waits while a worker is free. *)
Definition no_idle (p : ThreadPool) : Prop := requestQueue p = [] ∨ freeThreads p = [].

(** The state after a worker [w] of the front takes the job [t] of the queue. *)
Definition assign (t : job) (w : nat) (rest : list nat) (q : list job) (p : ThreadPool) : ThreadPool :=
  mkThreadPool (MAX_THREADS p) (activeThreads p + -1 + -1) rest q (<[w := Some t]> (worker p))
    (running p ++ [(t, w)]) (posted p) (pool_log p ++ [Started t w]).

Lemma set_worker_run i t p :
  i < length (worker p) → set_worker i t p = Done tt (with_worker (<[i := t]>) p).
Proof. intros Hi. unfold set_worker. rewrite bind_run. simpl. by rewrite bool_decide_true. Qed.

Lemma start_worker_run t w p :
  w < length (worker p) →
  start_worker t w p
  = Done tt (mkThreadPool (MAX_THREADS p) (activeThreads p + -1) (freeThreads p) (requestQueue p)
               (<[w := Some t]> (worker p)) (running p ++ [(t, w)]) (posted p) (pool_log p ++ [Started t w])).
Proof. intros Hw. unfold start_worker. rewrite bind_run, set_worker_run by done. done. Qed.

Lemma inv_free_bound p w : pool_inv p → w ∈ freeThreads p → w < length (worker p).
Proof.
  intros Hp Hw. rewrite (inv_length _ Hp). assert (Hin : w ∈ seq 0 (MAX_THREADS p)).
  { rewrite <- (inv_ids _ Hp). set_solver. }
  apply elem_of_seq in Hin. lia.
Qed.

Lemma inv_ids_NoDup p : pool_inv p → NoDup (freeThreads p ++ (running p ++ posted p).*2).
Proof. intros Hp. rewrite (inv_ids _ Hp). apply NoDup_seq. Qed.

Lemma omap_snoc {A B} (f : A → option B) l x :
  omap f (l ++ [x]) = omap f l ++ match f x with Some y => [y] | None => [] end.
Proof. rewrite omap_app. simpl. by destruct (f x). Qed.

Lemma assign_inv p t q w rest :
  pool_inv p → requestQueue p = t :: q → freeThreads p = w :: rest → pool_inv (assign t w rest q p).
Proof.
  intros Hp Hq Hf. pose proof (inv_ids_NoDup _ Hp) as Hnd. rewrite Hf in Hnd.
  apply NoDup_cons in Hnd as [Hw Hnd]. rewrite elem_of_app in Hw.
  assert (Hwb : w < length (worker p)) by (apply inv_free_bound; [done|rewrite Hf; set_solver]).
  constructor; simpl.
  - rewrite length_insert. apply Hp.
  - rewrite <- (inv_ids _ Hp), Hf, !fmap_app. simpl. solve_Permutation.
  - intros t' w'. rewrite elem_of_app, elem_of_app, list_elem_of_singleton.
    intros Hin. destruct (decide (w' = w)) as [->|Hne].
    + rewrite list_lookup_insert_eq by done. destruct Hin as [[Hin|[= ->]]|Hin]; [|done|];
        destruct Hw; right; apply list_elem_of_fmap; exists (t', w); set_solver.
    + rewrite list_lookup_insert_ne by done. apply (inv_busy _ Hp). set_solver.
  - intros w' Hw'. rewrite list_lookup_insert_ne by set_solver. apply (inv_idle _ Hp). rewrite Hf. set_solver.
  - unfold submitted, started. simpl. rewrite !omap_snoc. simpl. rewrite app_nil_r.
    pose proof (inv_order _ Hp) as Ho. unfold submitted, started in Ho. rewrite Ho, Hq, <- app_assoc. done.
  - unfold started, finalized. simpl. rewrite !omap_snoc. simpl. rewrite app_nil_r.
    pose proof (inv_jobs _ Hp) as Ho. unfold started, finalized in Ho. rewrite Ho, !fmap_app. simpl. solve_Permutation.
  - unfold started, finalized. simpl. rewrite !omap_snoc, !length_app. simpl.
    rewrite (inv_count _ Hp). unfold started, finalized. lia.
Qed.

#[local] Arguments start_worker : simpl never.
#[local] Arguments scheduleFromQueue : simpl never.

(** What the scheduling loop leaves alone, and the jobs it may add. *)
Definition schedules (p p' : ThreadPool) : Prop :=
  posted p' = posted p ∧ finalized p' = finalized p ∧ MAX_THREADS p' = MAX_THREADS p ∧ work p' ≤ work p.

Lemma schedule_spec n p :
  pool_inv p → length (requestQueue p) < n →
  ∃ p', schedule n p = Done tt p' ∧ pool_inv p' ∧ no_idle p' ∧ schedules p p'.
Proof.
  revert p. induction n as [|n IH]; intros p Hp Hn; [lia|]. simpl. rewrite bind_run. simpl.
  destruct (requestQueue p) as [|t q] eqn:Hq.
  { exists p. split; [done|]. split; [done|]. split; [by left|done]. }
  unfold getFreeThread. rewrite !bind_run. simpl. destruct (freeThreads p) as [|w rest] eqn:Hf.
  { exists p. split; [done|]. split; [done|]. split; [by right|done]. }
  assert (Hw : w < length (worker p)) by (apply inv_free_bound; [done|rewrite Hf; set_solver]).
  repeat (rewrite bind_run; simpl). rewrite start_worker_run by exact Hw.
  destruct (IH (assign t w rest q p)) as (p' & Hrun & Hp' & Hidle & Hpost & Hfin & Hmax & Hwork).
  { by apply assign_inv. }
  { simpl in *. lia. }
  exists p'. split; [exact Hrun|]. split; [done|]. split; [done|]. split; [done|]. split.
  - rewrite Hfin. unfold finalized. simpl. by rewrite omap_snoc, app_nil_r.
  - split; [done|]. etransitivity; [exact Hwork|]. unfold work. simpl. rewrite Hq, length_app. simpl. lia.
Qed.

Lemma scheduleFromQueue_spec p :
  pool_inv p →
  ∃ p', scheduleFromQueue p = Done tt p' ∧ pool_inv p' ∧ no_idle p' ∧ schedules p p'.
Proof. intros Hp. unfold scheduleFromQueue. rewrite bind_run. apply schedule_spec; [done|]. simpl. lia. Qed.

(** A job that arrives when nothing waits is a queue of one, of which the free
    worker takes the head. *)
Lemma runAsThread_spec t p :
  pool_inv p → no_idle p → ∃ p', runAsThread t p = Done tt p' ∧ pool_inv p' ∧ no_idle p'
    ∧ MAX_THREADS p' = MAX_THREADS p.
Proof.
  intros Hp Hidle. set (p1 := with_requestQueue (λ l, l ++ [t]) (with_pool_log (λ l, l ++ [Submitted t]) p)).
  assert (Hp1 : pool_inv p1).
  { destruct Hp as [H1 H2 H3 H4 H5 H6 H7]. unfold submitted, started, finalized in *.
    constructor; simpl; unfold submitted, started, finalized; simpl; rewrite ?omap_snoc; simpl; rewrite ?app_nil_r; try done.
    by rewrite H5, app_assoc. }
  unfold runAsThread, record_event. rewrite bind_run. simpl. unfold getFreeThread. rewrite !bind_run. simpl.
  destruct (freeThreads p) as [|w rest] eqn:Hf.
  - exists p1. split; [done|]. split; [done|]. split; [by right|done].
  - assert (Hq : requestQueue p = []) by (by destruct Hidle; [|congruence]).
    exists (assign t w rest [] p1). repeat (rewrite bind_run; simpl).
    rewrite start_worker_run by (apply (inv_free_bound p); [done|rewrite Hf; set_solver]). simpl.
    split; [unfold assign, p1; simpl; by rewrite Hq|]. split; [|split; [by left|done]].
    apply assign_inv; [done| |done]. unfold p1. simpl. by rewrite Hq.
Qed.

Lemma workerBody_spec t w p :
  pool_inv p → no_idle p → (t, w) ∈ running p →
  ∃ p', workerBody t w p = Done tt p' ∧ pool_inv p' ∧ no_idle p'
        ∧ MAX_THREADS p' = MAX_THREADS p ∧ work p' < work p.
Proof.
  intros Hp Hidle Hin. eexists. split; [reflexivity|]. 
  assert (Hrem : running p ≡ₚ (t, w) :: list_remove_all (t, w) (running p)).
  { apply list_remove_all_Permutation; [|done]. pose proof (inv_ids_NoDup _ Hp) as Hnd. rewrite fmap_app in Hnd.
    apply NoDup_app in Hnd as (_ & _ & Hnd). apply NoDup_app in Hnd as [Hnd _]. by eapply NoDup_fmap_1. }
  assert (Hmove : list_remove_all (t, w) (running p) ++ posted p ++ [(t, w)] ≡ₚ running p ++ posted p).
  { rewrite Hrem at 2. solve_Permutation. }
  split; [|split; [done|split; [done|]]].
  2: { apply Permutation_length in Hrem. unfold work. simpl in *. rewrite length_app. simpl. lia. }
  destruct Hp as [H1 H2 H3 H4 H5 H6 H7]. unfold submitted, started, finalized in *.
  constructor; simpl; unfold submitted, started, finalized; simpl;
    rewrite ?omap_snoc; simpl; rewrite ?app_nil_r; try done.
  - by rewrite Hmove.
  - intros t' w'. rewrite Hmove. apply H3.
  - by rewrite Hmove.
Qed.

Lemma cleandUp_spec t w rest p :
  pool_inv p → posted p = (t, w) :: rest →
  ∃ p', cleandUp t w (with_posted (λ _, rest) p) = Done tt p' ∧ pool_inv p' ∧ no_idle p'
        ∧ MAX_THREADS p' = MAX_THREADS p ∧ work p' < work p.
Proof.
  intros Hp Hpost.
  set (p1 := mkThreadPool (MAX_THREADS p) (activeThreads p + 1) (freeThreads p ++ [w]) (requestQueue p)
               (<[w := None]> (worker p)) (running p) rest (pool_log p ++ [Finalized t; Deleted t])).
  pose proof (inv_ids_NoDup _ Hp) as Hnd. rewrite Hpost in Hnd.
  assert (Hw : w < length (worker p)).
  { rewrite (inv_length _ Hp). assert (Hin : w ∈ seq 0 (MAX_THREADS p)).
    { rewrite <- (inv_ids _ Hp), Hpost, fmap_app. set_solver. }
    apply elem_of_seq in Hin. lia. }
  assert (Hp1 : pool_inv p1).
  { assert (Hother : ∀ w', w' ∈ freeThreads p ∨ w' ∈ (running p ++ rest).*2 → w' ≠ w).
    { intros w' Hin ->. rewrite !fmap_app in *. simpl in Hnd. 
      rewrite <- !Permutation_middle in Hnd. apply NoDup_cons in Hnd as [Hn _]. set_solver. }
    destruct Hp as [H1 H2 H3 H4 H5 H6 H7]. rewrite Hpost in *. unfold submitted, started, finalized in *.
    constructor; simpl; unfold submitted, started, finalized; simpl;
      rewrite ?omap_app; simpl; rewrite ?app_nil_r.
    - by rewrite length_insert.
    - rewrite <- H2, !fmap_app. simpl. solve_Permutation.
    - intros t' w' Hin. rewrite list_lookup_insert_ne; [apply H3; set_solver|].
      apply not_eq_sym, Hother. right. apply list_elem_of_fmap. by exists (t', w').
    - intros w' [Hin| ->%list_elem_of_singleton]%elem_of_app.
      + rewrite list_lookup_insert_ne; [by apply H4|]. apply not_eq_sym, Hother. by left.
      + by rewrite list_lookup_insert_eq.
    - done.
    - rewrite H6, !fmap_app. simpl. solve_Permutation.
    - rewrite length_app, H7. simpl. lia. }
  destruct (scheduleFromQueue_spec p1 Hp1) as (p' & Hrun & Hp' & Hidle & _ & _ & Hmax & Hwork). exists p'. split.
  2: { split; [done|]. split; [done|]. split; [done|]. unfold work in *. simpl in Hwork. rewrite Hpost. simpl. lia. }
  unfold cleandUp, record_event, releaseThread. repeat (rewrite bind_run; simpl).
  rewrite bool_decide_false by (rewrite (inv_length _ Hp) in Hw; lia). rewrite Nat2Z.id.
  repeat (rewrite bind_run; simpl). rewrite set_worker_run by exact Hw. simpl.
  rewrite <- Hrun. f_equal. unfold p1, with_worker, with_freeThreads, with_activeThreads. simpl.
  by rewrite <- app_assoc.
Qed.

(** ** Theorems *)

Lemma step_spec p r :
  pool_inv p → no_idle p → pool_step p r →
  ∃ p', r = Done tt p' ∧ pool_inv p' ∧ no_idle p' ∧ MAX_THREADS p' = MAX_THREADS p.
Proof.
  intros Hp Hidle. destruct 1 as [t p|t w p Hin|t w rest p Hpost].
  - by apply runAsThread_spec.
  - destruct (workerBody_spec t w p Hp Hidle Hin) as (p' & Hrun & ? & ? & ? & _). by exists p'.
  - destruct (cleandUp_spec t w rest p Hp Hpost) as (p' & Hrun & ? & ? & ? & _). by exists p'.
Qed.

Lemma pool_reachable_inv maxthreads p :
  pool_reachable maxthreads p → pool_inv p ∧ no_idle p ∧ MAX_THREADS p = maxthreads.
Proof.
  induction 1 as [|p p' _ (Hp & Hidle & Hmax) Hstep].
  - split; [|split; [by left|done]]. constructor; simpl; try done.
    + apply length_replicate.
    + by rewrite app_nil_r.
    + by intros t w ?%not_elem_of_nil.
    + intros w Hw%elem_of_seq. apply lookup_replicate_2. lia.
  - destruct (step_spec _ _ Hp Hidle Hstep) as (p2 & [= <-] & ? & ? & ?). split; [done|split; [done|congruence]].
Qed.

(** C11: whatever the interleaving, the pool never touches a cell out of its array,
    takes the jobs in the order they came, has at most [maxthreads] at a time and
    none waiting while a worker is free, and every job it started is on exactly
    one worker or was finalised once. *)
Theorem pool_jobs maxthreads p :
  pool_reachable maxthreads p →
  (∀ r, pool_step p r → ∃ p', r = Done tt p')
  ∧ submitted p = started p ++ requestQueue p
  ∧ (requestQueue p = [] ∨ length (running p ++ posted p) = maxthreads)
  ∧ NoDup (running p ++ posted p).*2 ∧ length (running p ++ posted p) ≤ maxthreads
  ∧ started p ≡ₚ (running p ++ posted p).*1 ++ finalized p.
Proof.
  intros (Hp & Hidle & Hmax)%pool_reachable_inv.
  pose proof (inv_ids_NoDup _ Hp) as (_ & _ & Hnd)%NoDup_app.
  pose proof (Permutation_length (inv_ids _ Hp)) as Hlen. rewrite length_app, length_fmap, length_seq, Hmax in Hlen.
  split; [|split; [apply Hp|split; [|split; [done|split; [lia|apply Hp]]]]].
  - intros r Hstep. destruct (step_spec _ _ Hp Hidle Hstep) as (p' & -> & _). by exists p'.
  - destruct Hidle as [|Hf]; [by left|right]. rewrite Hf in Hlen. done.
Qed.

(** A step of a worker or of the loop, while no new job comes. *)
Definition internal_step (p p' : ThreadPool) : Prop :=
  (∃ t w, (t, w) ∈ running p ∧ workerBody t w p = Done tt p')
  ∨ ∃ t w rest, posted p = (t, w) :: rest ∧ cleandUp t w (with_posted (λ _, rest) p) = Done tt p'.

(** C12: every job gets done. The steps of the workers and of the loop decrease the
    work that is left, so they come to an end when no new job arrives; and where
    none is possible any more every job submitted was finalised, once each. *)
Theorem pool_drains maxthreads p :
  pool_reachable maxthreads p → 0 < maxthreads →
  (∀ p', internal_step p p' → work p' < work p)
  ∧ ((∀ p', ¬ internal_step p p') → finalized p ≡ₚ submitted p).
Proof.
  intros (Hp & Hidle & Hmax)%pool_reachable_inv Hpos. split.
  - intros p' [(t & w & Hin & Hrun)|(t & w & rest & Hpost & Hrun)].
    + destruct (workerBody_spec t w p Hp Hidle Hin) as (p2 & Hrun2 & _ & _ & _ & Hw). congruence.
    + destruct (cleandUp_spec t w rest p Hp Hpost) as (p2 & Hrun2 & _ & _ & _ & Hw). congruence.
  - intros Hstuck. assert (Hr : running p = []).
    { destruct (running p) as [|[t w] l] eqn:Hr; [done|]. destruct (Hstuck (match workerBody t w p with Done _ p' => p' | Fault _ => p end)).
      left. exists t, w. rewrite Hr. split; [set_solver|done]. }
    assert (Hpost : posted p = []).
    { destruct (posted p) as [|[t w] rest] eqn:Hpost; [done|].
      destruct (cleandUp_spec t w rest p Hp Hpost) as (p' & Hrun & _).
      destruct (Hstuck p'). right. by exists t, w, rest. }
    pose proof (inv_jobs _ Hp) as Hjobs. rewrite Hr, Hpost in Hjobs. simpl in Hjobs.
    destruct Hidle as [Hq|Hf]; [by rewrite (inv_order _ Hp), Hq, app_nil_r|].
    pose proof (Permutation_length (inv_ids _ Hp)) as Hlen. rewrite Hf, Hr, Hpost, length_seq in Hlen. simpl in Hlen. lia.
Qed.

(** the count of active threads is wrong: a start subtracts two from it and a
    release adds one, so it is never positive, it is negative as soon as a job
    runs, and it does not tell how many workers are busy. *)
Theorem active_count maxthreads p :
  pool_reachable maxthreads p →
  getActiveThreadCount p = (- Z.of_nat (length (started p)) - Z.of_nat (length (running p ++ posted p)))%Z.
Proof.
  intros (Hp & _ & _)%pool_reachable_inv. unfold getActiveThreadCount. rewrite (inv_count _ Hp).
  pose proof (Permutation_length (inv_jobs _ Hp)) as Hlen. rewrite length_app, length_fmap in Hlen. lia.
Qed.

(** ** Witnesses *)

(** A pool of one worker with two jobs submitted. *)
Definition busy_pool : ThreadPool :=
  mkThreadPool 1 (-2) [] [8] [Some 7] [(7, 0)] [] [Submitted 7; Started 7 0; Submitted 8].

Lemma busy_pool_reachable : pool_reachable 1 busy_pool.
Proof.
  eapply pool_next; [eapply pool_next; [apply pool_start|exact (step_run 7 _)]|exact (step_run 8 _)].
Qed.

Lemma pool_jobs_witness :
  pool_reachable 1 busy_pool ∧ submitted busy_pool = started busy_pool ++ [8].
Proof. split; [exact busy_pool_reachable|]. apply (pool_jobs 1 busy_pool busy_pool_reachable). Defined.

Definition idle_worker : ThreadPool :=
  mkThreadPool 1 (-2) [] [8] [Some 7] [] [(7, 0)] [Submitted 7; Started 7 0; Submitted 8; Ran 7].

Lemma pool_drains_witness : internal_step busy_pool idle_worker ∧ work idle_worker < work busy_pool.
Proof.
  assert (Hstep : internal_step busy_pool idle_worker).
  { left. exists 7, 0. split; [apply list_elem_of_singleton; reflexivity|reflexivity]. }
  split; [exact Hstep|]. exact (proj1 (pool_drains 1 busy_pool busy_pool_reachable (le_n 1)) idle_worker Hstep).
Defined.

Lemma active_count_witness : getActiveThreadCount busy_pool = (-2)%Z.
Proof. apply (active_count 1 busy_pool busy_pool_reachable). Defined.
