(* ===== verification/Chat.v ===== *)
(** * Conversations and presences of one user

    Conversation and ConversationManager (libtransport/Conversation.cpp,
    ConversationManager.cpp) with the part of User (libtransport/User.cpp) that
    drives them: presences, rooms, cached messages. A conversation is an object
    of a heap and the manager's map holds pointers to it, so a conversation the
    map still names after its deletion is visible. What goes to XMPP clients, to
    the backend and to the roster is a list of events. *)

From S2P Require Import Prelude StdMap Swiften PresenceOracle Names.

Abbreviation cid := nat.

(** Conversation::ParticipantFlag *)
Definition PARTICIPANT_FLAG_MODERATOR : Z := 1.
Definition PARTICIPANT_FLAG_CONFLICT : Z := 2.
Definition PARTICIPANT_FLAG_NOT_AUTHORIZED : Z := 8.
Definition PARTICIPANT_FLAG_ROOM_NOT_FOUD : Z := 64.

Definition has_flag (flag mask : Z) : bool := negb (Z.land flag mask =? 0)%Z.

Section types.
Context {J : Type}.

(** Conversation's members; a Participant is a presence and an alias. *)
Record Conversation := mkConversation {
  c_legacyName : string;
  c_nickname : string;
  c_room : string;
  c_muc : bool;
  c_jid : J;
  c_jids : list J;
  c_sentInitialPresence : bool;
  c_nicknameChanged : bool;
  c_mucEscaping : bool;
  c_sentInitialSubject : bool;
  c_subject : option (Message J);
  c_cachedMessages : list (Message J);
  c_participants : smap string (Presence J * string);
}.

Inductive chat_event :=
  | SendMessage (m : Message J)
  | SendPresence (p : Presence J)
  | ToBackend (legacyName : string) (m : Message J)
  | RoomJoined (who : J) (room nickname password : string)
  | RoomLeft (room : string)
  | RawPresence (p : Presence J)
  | ReadyToConnect
  | PresenceChanged (p : Presence J)
  | StartReconnectTimer
  | StorePhotoHash (hash : string)
  | RequestVCard
  | RosterUnavailable (who : J)
  | RosterCurrent (who : J).

(** The state: conversations, the map ConversationManager::m_convs, and the
    members of User these operations use. *)
Record ChatState := mkChatState {
  heap : gmap cid Conversation;
  m_convs : smap string (option cid);
  next_cid : nat;
  joinedRooms : list (Presence J);
  connected : bool;
  readyForConnect : bool;
  cacheMessages : bool;
  resources : Z;
  photohash : string;
  oracle : smap J (smap J (Presence J));
  universal_time : Z;
  out : list chat_event;
}.

(** What does not change: the user, the component and the configuration.
    [caps_known] is whether the frontend has the disco#info of a JID,
    [roster] answers RosterManager::getBuddy's name and JID. *)
Record ChatEnv := mkChatEnv {
  user_jid : J;
  component_jid : J;
  inServerMode : bool;
  rawxml : bool;
  jid_escaping : bool;
  has_storage : bool;
  user_settings : list (string * string);
  roster : string → option (string * J);
  caps_known : J → bool;
}.
End types.
Arguments Conversation : clear implicits.
Arguments chat_event : clear implicits.
Arguments ChatState : clear implicits.
Arguments ChatEnv : clear implicits.

(** ** Updating members *)

Section updates.
Context {J : Type}.
Implicit Types c : Conversation J.

Definition set_legacyName x c := mkConversation x (c_nickname c) (c_room c) (c_muc c) (c_jid c) (c_jids c) (c_sentInitialPresence c) (c_nicknameChanged c) (c_mucEscaping c) (c_sentInitialSubject c) (c_subject c) (c_cachedMessages c) (c_participants c).
Definition set_nickname x c := mkConversation (c_legacyName c) x (c_room c) (c_muc c) (c_jid c) (c_jids c) (c_sentInitialPresence c) (c_nicknameChanged c) (c_mucEscaping c) (c_sentInitialSubject c) (c_subject c) (c_cachedMessages c) (c_participants c).
Definition set_room x c := mkConversation (c_legacyName c) (c_nickname c) x (c_muc c) (c_jid c) (c_jids c) (c_sentInitialPresence c) (c_nicknameChanged c) (c_mucEscaping c) (c_sentInitialSubject c) (c_subject c) (c_cachedMessages c) (c_participants c).
Definition set_jid x c := mkConversation (c_legacyName c) (c_nickname c) (c_room c) (c_muc c) x (c_jids c) (c_sentInitialPresence c) (c_nicknameChanged c) (c_mucEscaping c) (c_sentInitialSubject c) (c_subject c) (c_cachedMessages c) (c_participants c).
Definition set_jids x c := mkConversation (c_legacyName c) (c_nickname c) (c_room c) (c_muc c) (c_jid c) x (c_sentInitialPresence c) (c_nicknameChanged c) (c_mucEscaping c) (c_sentInitialSubject c) (c_subject c) (c_cachedMessages c) (c_participants c).
Definition set_sentInitialPresence x c := mkConversation (c_legacyName c) (c_nickname c) (c_room c) (c_muc c) (c_jid c) (c_jids c) x (c_nicknameChanged c) (c_mucEscaping c) (c_sentInitialSubject c) (c_subject c) (c_cachedMessages c) (c_participants c).
Definition set_nicknameChanged x c := mkConversation (c_legacyName c) (c_nickname c) (c_room c) (c_muc c) (c_jid c) (c_jids c) (c_sentInitialPresence c) x (c_mucEscaping c) (c_sentInitialSubject c) (c_subject c) (c_cachedMessages c) (c_participants c).
Definition set_mucEscaping x c := mkConversation (c_legacyName c) (c_nickname c) (c_room c) (c_muc c) (c_jid c) (c_jids c) (c_sentInitialPresence c) (c_nicknameChanged c) x (c_sentInitialSubject c) (c_subject c) (c_cachedMessages c) (c_participants c).
Definition set_sentInitialSubject x c := mkConversation (c_legacyName c) (c_nickname c) (c_room c) (c_muc c) (c_jid c) (c_jids c) (c_sentInitialPresence c) (c_nicknameChanged c) (c_mucEscaping c) x (c_subject c) (c_cachedMessages c) (c_participants c).
Definition set_subject x c := mkConversation (c_legacyName c) (c_nickname c) (c_room c) (c_muc c) (c_jid c) (c_jids c) (c_sentInitialPresence c) (c_nicknameChanged c) (c_mucEscaping c) (c_sentInitialSubject c) x (c_cachedMessages c) (c_participants c).
Definition set_cachedMessages x c := mkConversation (c_legacyName c) (c_nickname c) (c_room c) (c_muc c) (c_jid c) (c_jids c) (c_sentInitialPresence c) (c_nicknameChanged c) (c_mucEscaping c) (c_sentInitialSubject c) (c_subject c) x (c_participants c).
Definition set_participants x c := mkConversation (c_legacyName c) (c_nickname c) (c_room c) (c_muc c) (c_jid c) (c_jids c) (c_sentInitialPresence c) (c_nicknameChanged c) (c_mucEscaping c) (c_sentInitialSubject c) (c_subject c) (c_cachedMessages c) x.

Implicit Types s : ChatState J.

Definition with_heap f s := mkChatState (f (heap s)) (m_convs s) (next_cid s) (joinedRooms s) (connected s) (readyForConnect s) (cacheMessages s) (resources s) (photohash s) (oracle s) (universal_time s) (out s).
Definition with_convs f s := mkChatState (heap s) (f (m_convs s)) (next_cid s) (joinedRooms s) (connected s) (readyForConnect s) (cacheMessages s) (resources s) (photohash s) (oracle s) (universal_time s) (out s).
Definition with_next_cid x s := mkChatState (heap s) (m_convs s) x (joinedRooms s) (connected s) (readyForConnect s) (cacheMessages s) (resources s) (photohash s) (oracle s) (universal_time s) (out s).
Definition with_joinedRooms f s := mkChatState (heap s) (m_convs s) (next_cid s) (f (joinedRooms s)) (connected s) (readyForConnect s) (cacheMessages s) (resources s) (photohash s) (oracle s) (universal_time s) (out s).
Definition with_connected x s := mkChatState (heap s) (m_convs s) (next_cid s) (joinedRooms s) x (readyForConnect s) (cacheMessages s) (resources s) (photohash s) (oracle s) (universal_time s) (out s).
Definition with_readyForConnect x s := mkChatState (heap s) (m_convs s) (next_cid s) (joinedRooms s) (connected s) x (cacheMessages s) (resources s) (photohash s) (oracle s) (universal_time s) (out s).
Definition with_cacheMessages x s := mkChatState (heap s) (m_convs s) (next_cid s) (joinedRooms s) (connected s) (readyForConnect s) x (resources s) (photohash s) (oracle s) (universal_time s) (out s).
Definition with_resources x s := mkChatState (heap s) (m_convs s) (next_cid s) (joinedRooms s) (connected s) (readyForConnect s) (cacheMessages s) x (photohash s) (oracle s) (universal_time s) (out s).
Definition with_photohash x s := mkChatState (heap s) (m_convs s) (next_cid s) (joinedRooms s) (connected s) (readyForConnect s) (cacheMessages s) (resources s) x (oracle s) (universal_time s) (out s).
Definition with_out f s := mkChatState (heap s) (m_convs s) (next_cid s) (joinedRooms s) (connected s) (readyForConnect s) (cacheMessages s) (resources s) (photohash s) (oracle s) (universal_time s) (f (out s)).
End updates.

(** ** Conversation *)

Section chat.
Context {J : Type} `{Jid J}.
Context (typeToAvailabilityOrdering : StatusShow → Z).
Context (env : ChatEnv J).

Abbreviation chat := (prog (ChatState J)).

Definition emit (e : chat_event J) : chat unit := modify (with_out (λ l, l ++ [e])).
Definition load (c : cid) : chat (Conversation J) := s ← get; deref (heap s !! c).
Definition store (c : cid) (f : Conversation J → Conversation J) : chat unit :=
  o ← load c; modify (with_heap <[c := f o]>).

Definition getUserSetting (key : string) : string :=
  default ""%string (sfind key (user_settings env)).

(** The node part a room or a private conversation has on the XMPP side. *)
Definition room_node (mucEscaping : bool) (legacyName : string) : string :=
  getEscapedNode (if mucEscaping then legacyName else at_to_percent legacyName).

Definition component_bare : string := toString (toBare (component_jid env)).

Definition destroyed_item : MUCUserPayload :=
  mkMUCUser NoAffiliation NoRole "" "Transport" "Spectrum 2 transport is being shut down." [332; 307]%Z.

Definition destroyRoom (c : cid) : chat unit :=
  o ← load c;
  when (c_muc o) (
    let presence := addMUCUser destroyed_item (setPresenceType Unavailable
      (setPresenceFrom (make_jid (room_node (c_mucEscaping o) (c_legacyName o)) component_bare (c_nickname o))
        empty_presence)) in
    for_each (c_jids o) (λ jid, emit (SendPresence (setPresenceTo jid presence)))).

Definition setRoom (c : cid) (room : string) : chat unit :=
  store c (λ o, set_legacyName (room +:+ "/" +:+ c_legacyName o)%string (set_room room o)).

(** m_cachedMessages holds the last 100 messages. *)
Definition push_cached (m : Message J) (l : list (Message J)) : list (Message J) :=
  let l := l ++ [m] in if (100 <? length l)%nat then tail l else l.

Definition cacheMessage (c : cid) (m : Message J) : chat unit :=
  s ← get;
  store c (λ o, set_cachedMessages (push_cached (addPayload (Delay (universal_time s)) m) (c_cachedMessages o)) o).

(** The loop of handleRawMessage over the room's resources: a subject that comes
    before the user's own presence is kept and not sent. *)
Definition forward_groupchat (c : cid) (m : Message J) (jids : list J) : chat unit :=
  for_each_until jids (λ jid,
    let m := setMessageTo jid m in
    held ← (if String.eqb (m_subject m) "" then mret false
            else store c (set_subject (Some m)) ;; o ← load c; mret (negb (c_sentInitialPresence o)));
    if held : bool then mret false
    else emit (SendMessage m) ;; mret true).

Definition handleRawMessage (c : cid) (m : Message J) : chat unit :=
  o ← load c;
  if negb (bool_decide (m_type m = Groupchat)) then
    s ← get;
    if inServerMode env && cacheMessages s then cacheMessage c m else emit (SendMessage m)
  else if bool_decide (c_jids o = []) then cacheMessage c m
  else forward_groupchat c m (c_jids o).

Definition empty_message : Message J := mkMessage no_jid no_jid Chat "" "" [].

(** The envelope of a carbon. *)
Definition carbon (o : Conversation J) (payload : Message J) (to : J) (wrapped : Payload J) : Message J :=
  mkMessage (toBare (c_jid o)) to (m_type payload) "" "" [wrapped; NoCopy].

Definition forwardAsCarbonReceived (c : cid) (payload : Message J) (to : J) : chat unit :=
  o ← load c; handleRawMessage c (carbon o payload to (CarbonsReceived payload)).

Definition forwardImpersonated (c : cid) (payload : Message J) (server : J) : chat unit :=
  handleRawMessage c (mkMessage (component_jid env) server Normal "" "" [Privilege payload]).

Definition forwardAsCarbonSent (c : cid) (payload : Message J) (to : J) : chat unit :=
  o ← load c;
  let message := carbon o payload to (CarbonsSent payload) in
  if inServerMode env then handleRawMessage c message
  else forwardImpersonated c message (make_jid "" (getDomain (m_from message)) "").

Definition getDeliveryJID (c : cid) : chat J :=
  o ← load c;
  s ← get;
  if isBare (c_jid o) then
    match getHighestPriorityPresence typeToAvailabilityOrdering (toBare (c_jid o)) (oracle s) with
    | Some highest => mret (pr_from highest)
    | None => mret (c_jid o)
    end
  else mret (c_jid o).

Definition forwardReceivedCopies (c : cid) (copy : Message J) (delivered : J) : chat unit :=
  o ← load c;
  s ← get;
  for_each (getAllPresence (toBare (c_jid o)) (oracle s)) (λ p,
    if decide (pr_from p = delivered) then mret tt
    else forwardAsCarbonReceived c copy (pr_from p)).

(** The type a message from the legacy network gets. *)
Definition incoming_type (o : Conversation J) (t : MessageKind) : MessageKind :=
  if c_muc o then Groupchat
  else match t with
       | Headline => if String.eqb (getUserSetting "send_headlines") "1" then Headline else Chat
       | _ => Chat
       end.

(** Who it comes from. *)
Definition private_sender (o : Conversation J) (n : string) : J :=
  if String.eqb n "" then
    match roster env (c_legacyName o) with
    | Some (_, jid) => jid
    | None =>
        let name := if jid_escaping env then getEscapedNode (c_legacyName o)
                    else at_to_percent (c_legacyName o) in
        make_jid name component_bare "bot"
    end
  else if String.eqb (c_room o) "" then make_jid n component_bare "user"
  else make_jid (room_node (c_mucEscaping o) (c_room o)) component_bare n.

Definition room_sender (o : Conversation J) (nickname : string) : J :=
  let n := if String.eqb nickname "" then " "%string else nickname in
  let n := match sfind n (c_participants o) with
           | Some (_, alias) => if String.eqb alias "" then n else alias
           | None => n
           end in
  make_jid (room_node (c_mucEscaping o) (c_legacyName o)) component_bare n.

Definition addressed (o : Conversation J) (m : Message J) (nickname : string) : Message J :=
  let m := setMessageType (incoming_type o (m_type m)) m in
  let n := if String.eqb nickname "" && negb (String.eqb (c_room o) "") && negb (c_muc o)
           then c_nickname o else nickname in
  if negb (bool_decide (m_type m = Groupchat)) then
    setMessageFrom (private_sender o n) (setMessageTo (c_jid o) m)
  else setMessageFrom (room_sender o nickname) m.

Definition handleMessage (c : cid) (m : Message J) (nickname : string) (is_carbon : bool) : chat unit :=
  o ← load c;
  let m := addressed o m nickname in
  if is_carbon then
    let m := mkMessage (toBare (m_to m)) (m_from m) (m_type m) (m_body m) (m_subject m) (m_payloads m) in
    s ← get;
    match getAllPresence (toBare (c_jid o)) (oracle s) with
    | [] => forwardAsCarbonSent c m (toBare (c_jid o))
    | presences => for_each presences (λ p, forwardAsCarbonSent c m (pr_from p))
    end
  else
    let copyToOthers := inServerMode env && negb (c_muc o) && negb (bool_decide (m_type m = Groupchat)) in
    handleRawMessage c m ;;
    when copyToOthers (jid ← getDeliveryJID c; forwardReceivedCopies c m jid).

(** generatePresence; the code of an error presence comes back as its type. *)
Definition error_of_flag (flag : Z) (statusMessage : string) : option (ErrorCondition * string) :=
  if has_flag flag PARTICIPANT_FLAG_CONFLICT then Some (Conflict, ""%string)
  else if has_flag flag PARTICIPANT_FLAG_NOT_AUTHORIZED then Some (NotAuthorized, statusMessage)
  else if has_flag flag PARTICIPANT_FLAG_ROOM_NOT_FOUD then Some (ItemNotFound, statusMessage)
  else None.

Definition generated_presence (o : Conversation J) (nick : string) (flag status : Z)
    (statusMessage newname iconhash : string) : Presence J :=
  let node := if c_muc o then room_node (c_mucEscaping o) (c_legacyName o) else c_legacyName o in
  let show := StatusShow_of_int status in
  let p := setPresenceFrom (make_jid node component_bare nick) empty_presence in
  let p := if String.eqb statusMessage "" then p else setPresenceStatus statusMessage p in
  let p := if bool_decide (show = NoShow) then setPresenceType Unavailable p else p in
  let p := setPresenceShow show p in
  let self := String.eqb (c_nickname o) nick in
  match (if self then error_of_flag flag statusMessage else None) with
  | Some (condition, text) => addMUCError condition text (setPresenceType ErrorPresence p)
  | None =>
      let codes := (if self then 110 :: (if c_nicknameChanged o then [210] else []) else [])%Z in
      let moderator := has_flag flag PARTICIPANT_FLAG_MODERATOR in
      let renamed := negb (String.eqb newname "") in
      let p := if renamed then setPresenceType Unavailable p else p in
      let p := if String.eqb iconhash "" then p else addPhotoHash iconhash p in
      addMUCUser (mkMUCUser (if moderator then Admin else Member)
        (if moderator then Moderator else ParticipantRole) newname "" ""
        (codes ++ if renamed then [303]%Z else [])) p
  end.

Definition generatePresence (c : cid) (nick : string) (flag status : Z)
    (statusMessage newname iconhash : string) : chat (Presence J) :=
  o ← load c;
  let p := generated_presence o nick flag status statusMessage newname iconhash in
  when (String.eqb (c_nickname o) nick && negb (bool_decide (is_Some (error_of_flag flag statusMessage))))
    (store c (λ o, set_sentInitialPresence true (set_nicknameChanged false o))) ;;
  mret p.

Definition setNickname (c : cid) (nickname : string) : chat unit :=
  store c (λ o, set_nickname nickname
    (if negb (String.eqb nickname "") && negb (String.eqb (c_nickname o) nickname)
     then set_nicknameChanged true o else o)).

Definition sendParticipants (c : cid) (to : J) (nickname : string) : chat unit :=
  o ← load c;
  when (negb (String.eqb (c_nickname o) nickname) && negb (String.eqb nickname "")) (
    let tmp := c_nickname o in
    store c (set_nickname nickname) ;;
    p ← generatePresence c nickname 0 0 "" "" "";
    emit (SendPresence (setPresenceTo to p)) ;;
    store c (set_nicknameChanged true) ;;
    p ← generatePresence c nickname 0 0 "" tmp "";
    emit (SendPresence (setPresenceTo to p))) ;;
  o ← load c;
  p ← generatePresence c (c_nickname o) 0 0 "" "" "";
  emit (SendPresence (setPresenceTo to p)) ;;
  store c (λ o, set_participants
    (map (λ kv, (kv.1, (setPresenceTo to (kv.2).1, (kv.2).2))) (c_participants o)) o) ;;
  o ← load c;
  for_each (c_participants o) (λ kv, emit (SendPresence (kv.2).1)).

Definition sendCachedMessages (c : cid) (to : J) : chat unit :=
  o ← load c;
  let target := if isValid to then to else toBare (c_jid o) in
  for_each (c_cachedMessages o) (λ m, emit (SendMessage (setMessageTo target m))) ;;
  match c_subject o with
  | Some m => store c (set_subject (Some (setMessageTo target m))) ;;
              emit (SendMessage (setMessageTo target m))
  | None => mret tt
  end ;;
  store c (set_cachedMessages []).

(** Conversation::handleRawPresence; m_participants[...] makes the participant
    when it is not there. *)
Definition handleRawPresence (c : cid) (p : Presence J) : chat unit :=
  emit (SendPresence p) ;;
  store c (λ o,
    let nick := getResource (pr_from p) in
    let alias := match sfind nick (c_participants o) with Some (_, a) => a | None => ""%string end in
    set_participants (sinsert nick (p, alias) (c_participants o)) o).

Definition removeJID (c : cid) (jid : J) : chat unit :=
  o ← load c;
  when (c_muc o) (
    p ← generatePresence c (c_nickname o) 0 5 "" "" "";
    emit (SendPresence (setPresenceTo jid p))) ;;
  store c (λ o, set_jids (list_remove_all jid (c_jids o)) o).

(** *** ConversationManager *)

(** getConversation: a name with a slash is also looked up by what follows it,
    when what precedes it is a conversation. *)
Definition split_slash (name : string) : option (string * string) :=
  match index 0 "/" name with
  | Some i => Some (substring 0 i name, substring (S i) (String.length name) name)
  | None => None
  end.

Fixpoint find_conversation (fuel : nat) (name : string) (m : smap string (option cid)) : option cid :=
  match sfind name m with
  | Some p => p
  | None =>
      match fuel, split_slash name with
      | S fuel, Some (room, nick) =>
          match find_conversation fuel room m with
          | None => None
          | Some _ => find_conversation fuel nick m
          end
      | _, _ => None
      end
  end.

(** The recursion is on shorter names, so the name's length is enough fuel. *)
Definition getConversation (name : string) : chat (option cid) :=
  s ← get; mret (find_conversation (String.length name) name (m_convs s)).

(** Factory::createConversation with the constructor of Conversation. *)
Definition createConversation (legacyName : string) (muc : bool) : chat cid :=
  s ← get;
  let c := next_cid s in
  modify (with_heap <[c := mkConversation legacyName "" "" muc (toBare (user_jid env)) []
    (rawxml env) false false false None [] []]>) ;;
  modify (with_next_cid (S c)) ;;
  mret c.

Definition addConversation (c : cid) : chat unit :=
  o ← load c; modify (with_convs (sinsert (c_legacyName o) (Some c))).

Definition deref_conv (p : option cid) : chat cid :=
  match p with Some c => mret c | None => raise NullDereference end.

Definition removeConversation (c : cid) : chat unit :=
  s ← get;
  for_each (m_convs s) (λ kv,
    c' ← deref_conv kv.2;
    o' ← load c';
    o ← load c;
    when (String.eqb (c_room o') (c_legacyName o)) (setRoom c' "")) ;;
  o ← load c;
  modify (with_convs (serase (c_legacyName o))).

(** delete conv *)
Definition delete_conversation (c : cid) : chat unit := _ ← load c; modify (with_heap (delete c)).

Fixpoint delete_all (fuel : nat) : chat unit :=
  match fuel with
  | O => mret tt
  | S fuel =>
      s ← get;
      match m_convs s with
      | [] => mret tt
      | (_, p) :: _ =>
          c ← deref_conv p;
          destroyRoom c ;;
          delete_conversation c ;;
          modify (with_convs tail) ;;
          delete_all fuel
      end
  end.

(** Every turn erases the first entry. *)
Definition deleteAllConversations : chat unit := s ← get; delete_all (length (m_convs s)).

Definition sendCachedChatMessages : chat unit :=
  s ← get;
  for_each (m_convs s) (λ kv,
    c ← deref_conv kv.2; o ← load c;
    if c_muc o then mret tt else sendCachedMessages c no_jid).

Definition resetResources : chat unit :=
  s ← get;
  for_each (m_convs s) (λ kv,
    c ← deref_conv kv.2; o ← load c;
    if c_muc o then mret tt else store c (set_jid (toBare (user_jid env)))).

Definition clearJIDs : chat unit :=
  s ← get;
  for_each (m_convs s) (λ kv, c ← deref_conv kv.2; store c (set_jids [])).

(** *** User: leaving a room *)

Definition is_joined (room : string) (p : Presence J) : bool := String.eqb (JIDToLegacyName (pr_to p)) room.

(** The first joined room of that name goes. *)
Fixpoint remove_joined (room : string) (l : list (Presence J)) : list (Presence J) :=
  match l with
  | [] => []
  | p :: l => if is_joined room p then l else p :: remove_joined room l
  end.

Definition leaveRoom (room : string) : chat unit :=
  emit (RoomLeft room) ;;
  modify (with_joinedRooms (remove_joined room)) ;;
  conv ← getConversation room;
  match conv with
  | None => mret tt
  | Some c => removeConversation c ;; delete_conversation c
  end.

(** Conversation::handleParticipantChanged; [again] is the call it makes of
    itself for a new name, which has no new name and so is the last one. *)
Definition participant_changed (again : string → chat unit) (c : cid) (nick : string) (flag status : Z)
    (statusMessage newname iconhash alias : string) : chat unit :=
  p ← generatePresence c (if String.eqb alias "" then nick else alias) flag status statusMessage newname iconhash;
  o ← load c;
  let stored := match last (c_jids o) with Some jid => setPresenceTo jid p | None => p end in
  store c (λ o, set_participants
    (if bool_decide (pr_type p = Unavailable) then serase nick (c_participants o)
     else sinsert nick (stored, alias) (c_participants o)) o) ;;
  for_each (c_jids o) (λ jid, emit (SendPresence (setPresenceTo jid p))) ;;
  when (negb (String.eqb newname "")) (again newname) ;;
  o ← load c;
  match c_subject o with
  | Some m =>
      when (c_sentInitialPresence o && negb (c_sentInitialSubject o))
        (store c (set_sentInitialSubject true) ;; emit (SendMessage m))
  | None => mret tt
  end ;;
  when (bool_decide (pr_type p = ErrorPresence)) (o ← load c; leaveRoom (c_legacyName o)).

Definition handleParticipantChanged (c : cid) (nick : string) (flag status : Z)
    (statusMessage newname iconhash alias : string) : chat unit :=
  participant_changed
    (λ newname, participant_changed (λ _, mret tt) c newname flag status statusMessage "" iconhash "")
    c nick flag status statusMessage newname iconhash alias.

(** ConversationManager::removeJID: rooms without resources are left, the last
    one first. *)
Fixpoint remove_jid_loop (jid : J) (l : smap string (option cid)) : chat (list string) :=
  match l with
  | [] => mret []
  | (name, p) :: l =>
      here ← match p with
             | Some c =>
                 if String.eqb name "" then mret []
                 else removeJID c jid ;; o ← load c;
                      mret (if bool_decide (c_jids o = []) && c_muc o then [name] else [])
             | None => mret []
             end;
      rest ← remove_jid_loop jid l;
      mret (here ++ rest)
  end.

Definition manager_removeJID (jid : J) : chat unit :=
  s ← get;
  toRemove ← remove_jid_loop jid (m_convs s);
  when (negb (String.eqb (getUserSetting "stay_connected") "1"))
    (for_each (rev toRemove) leaveRoom).

Definition manager_handleMessageReceived (m : Message J) : chat unit :=
  let name := JIDToLegacyName_of (λ n, fst <$> roster env n) (m_to m) in
  if String.eqb name "" then mret tt
  else
    s ← get;
    name ← match default None (sfind name (m_convs s)) with
           | None => c ← createConversation name false; addConversation c ;; mret name
           | Some c =>
               o ← load c;
               if c_muc o && negb (bool_decide (m_type m = Groupchat)) then
                 let resource := getResource (m_to m) in
                 let pm := (name +:+ "/" +:+ resource)%string in
                 (match sfind pm (m_convs s) with
                  | Some _ => mret tt
                  | None =>
                      c ← createConversation resource false;
                      setRoom c name ;; setNickname c pm ;; addConversation c
                  end) ;; mret pm
               else mret name
           end;
    s ← get;
    c ← deref_conv (default None (sfind name (m_convs s)));
    store c (set_jid (m_from m)) ;;
    o ← load c;
    emit (ToBackend (c_legacyName o) m).

(** *** User: presences *)

(** User::sendCurrentPresence *)
Definition sendCurrentPresence : chat unit :=
  if inServerMode env then mret tt
  else
    s ← get;
    for_each (getAllPresence (user_jid env) (oracle s)) (λ p,
      if bool_decide (pr_type p = Unavailable) then mret tt
      else if connected s then
        match getHighestPriorityPresence typeToAvailabilityOrdering (toBare (user_jid env)) (oracle s) with
        | Some highest => emit (SendPresence (setPresenceFrom (component_jid env) (setPresenceTo (pr_from p) highest)))
        | None => emit (SendPresence (setPresenceType Unavailable
                    (setPresenceFrom (component_jid env) (setPresenceTo (pr_from p) empty_presence))))
        end
      else emit (SendPresence (setPresenceStatus "Connecting" (setPresenceType Unavailable
             (setPresenceFrom (component_jid env) (setPresenceTo (pr_from p) empty_presence)))))).

Definition setCacheMessages (b : bool) : chat unit :=
  s ← get;
  when (inServerMode env && negb (cacheMessages s) && b) sendCachedChatMessages ;;
  modify (with_cacheMessages b).

(** The photo hash of a presence, against the stored one. *)
Definition check_photo (p : Presence J) : chat unit :=
  match pr_photoHash p with
  | None => mret tt
  | Some hash =>
      s ← get;
      let value := if has_storage env then photohash s else ""%string in
      when (negb (String.eqb value hash)) (
        when (has_storage env) (modify (with_photohash hash) ;; emit (StorePhotoHash hash)) ;;
        emit RequestVCard)
  end.

Definition become_ready : chat unit := modify (with_readyForConnect true) ;; emit ReadyToConnect.

(** The login the first presence of a disconnected user starts. *)
Definition start_login (p : Presence J) : chat unit :=
  s ← get;
  if connected s || readyForConnect s then mret tt
  else match pr_caps p with
       | Some "sha-1"%string => if caps_known env (pr_from p) then become_ready else emit StartReconnectTimer
       | _ => if inServerMode env then become_ready else emit StartReconnectTimer
       end.

(** presence->getPayload<MUCPayload>() != NULL || the node starts with # *)
Definition is_muc_presence (p : Presence J) : bool :=
  bool_decide (is_Some (pr_muc p))
  || match getNode (pr_to p) with String c _ => Ascii.eqb c "#" | EmptyString => false end.

Fixpoint contains (needle s : string) : bool :=
  String.prefix needle s || match s with EmptyString => false | String _ s => contains needle s end.

Definition leave_by_presence (p : Presence J) : chat unit :=
  let room := JIDToLegacyName (pr_to p) in
  conv ← getConversation room;
  match conv with
  | None => mret tt
  | Some c =>
      removeJID c (pr_from p) ;;
      o ← load c;
      if negb (bool_decide (c_jids o = [])) then mret tt
      else when (negb (String.eqb (getUserSetting "stay_connected") "1"))
             (emit (RawPresence p) ;; leaveRoom room)
  end.

Definition join_by_presence (p : Presence J) (forceJoin : bool) : chat unit :=
  s ← get;
  when (negb (readyForConnect s)) become_ready ;;
  let room := JIDToLegacyName (pr_to p) in
  let nickname := getResource (pr_to p) in
  let password := default ""%string (default None (pr_muc p)) in
  conv ← getConversation room;
  match conv with
  | Some c =>
      o ← load c;
      (if bool_decide (pr_from p ∈ c_jids o) then mret tt
       else store c (λ o, set_jids (c_jids o ++ [pr_from p]) o) ;;
            sendParticipants c (pr_from p) nickname ;;
            sendCachedMessages c (pr_from p)) ;;
      when forceJoin (emit (RawPresence p) ;; emit (RoomJoined (pr_from p) room nickname password))
  | None =>
      s ← get;
      when (negb (existsb (λ q, bool_decide (pr_to q = pr_to p)) (joinedRooms s)))
        (modify (with_joinedRooms (λ l, l ++ [p]))) ;;
      if negb (connected s) then mret tt
      else
        c ← createConversation room true;
        addConversation c ;;
        setNickname c nickname ;;
        store c (λ o, set_jids (c_jids o ++ [pr_from p]) o) ;;
        when (contains "\40" (toString (pr_to p))) (store c (set_mucEscaping true)) ;;
        emit (RawPresence p) ;;
        emit (RoomJoined (pr_from p) room nickname password)
  end.

(** The rest of User::handlePresence: presences of the account. *)
Definition account_presence (p : Presence J) : chat unit :=
  s ← get;
  let currentResourcesCount := zlen (getAllPresence (user_jid env) (oracle s)) in
  let unavailable := bool_decide (pr_type p = Unavailable) in
  resetResources ;;
  when unavailable (manager_removeJID (pr_from p)) ;;
  (if inServerMode env then mret tt
   else if unavailable then
     emit (RosterUnavailable (pr_from p)) ;;
     emit (SendPresence (setPresenceType Unavailable
       (setPresenceFrom (component_jid env) (setPresenceTo (pr_from p) empty_presence))))
   else sendCurrentPresence) ;;
  s ← get;
  when (negb unavailable && negb (currentResourcesCount =? resources s)%Z) (emit (RosterCurrent (pr_from p))) ;;
  modify (with_resources currentResourcesCount) ;;
  s ← get;
  if negb (readyForConnect s) then mret tt
  else
    let stay := String.eqb (getUserSetting "stay_connected") "1" in
    let go_idle := modify (with_resources 0) ;; clearJIDs ;; setCacheMessages true in
    match getHighestPriorityPresence typeToAvailabilityOrdering (toBare (user_jid env)) (oracle s) with
    | Some highest =>
        if bool_decide (pr_type highest = Unavailable) && stay then go_idle
        else emit (PresenceChanged highest) ;; setCacheMessages false
    | None =>
        if stay then go_idle
        else emit (PresenceChanged (setPresenceType Unavailable
               (setPresenceFrom (component_jid env) (setPresenceTo (toBare (user_jid env)) empty_presence))))
    end.

Definition handlePresence (p : Presence J) (forceJoin : bool) : chat unit :=
  check_photo p ;;
  start_login p ;;
  if negb (String.eqb (getNode (pr_to p)) "") then
    if bool_decide (pr_type p = Unavailable) then leave_by_presence p
    else if is_muc_presence p then join_by_presence p forceJoin
    else emit (RawPresence p) ;; account_presence p
  else account_presence p.

(** The presences User::setConnected sends, and the rooms it joins again. *)
Definition after_setConnected (b : bool) : chat unit :=
  modify (with_connected b) ;;
  sendCurrentPresence ;;
  when b (s ← get; for_each (joinedRooms s) (λ p, handlePresence p true)).
End chat.
