(* ===== verification/ChatTheorems.v ===== *)
(** * Conversations: properties

    The history of a room, carbons, the participants a joining resource is
    told, and what leaving a room does to the manager's map. *)

From S2P Require Import Prelude StdMap Swiften PresenceOracle Names Chat.

Section lemmas.
Context {J : Type} `{Jid J}.
Context (typeToAvailabilityOrdering : StatusShow → Z).
Context (env : ChatEnv J).

(** ** Running the primitives *)

Lemma load_run (c : cid) o (s : ChatState J) : heap s !! c = Some o → load c s = Done o s.
Proof. intros E. unfold load. rewrite bind_run. simpl. by rewrite E. Qed.

Lemma load_dead (c : cid) (s : ChatState J) : heap s !! c = None → load c s = Fault UseAfterFree.
Proof. intros E. unfold load. rewrite bind_run. simpl. by rewrite E. Qed.

Lemma store_run (c : cid) f o (s : ChatState J) :
  heap s !! c = Some o → store c f s = Done tt (with_heap <[c := f o]> s).
Proof. intros E. unfold store. rewrite bind_run. by erewrite load_run. Qed.

Definition emitted (es : list (chat_event J)) (s : ChatState J) : ChatState J :=
  with_out (λ l, l ++ es) s.

Lemma emitted_emitted es es' s : emitted es' (emitted es s) = emitted (es ++ es') s.
Proof. unfold emitted, with_out. simpl. by rewrite app_assoc. Qed.

Lemma emitted_nil s : emitted [] s = s.
Proof. unfold emitted, with_out. rewrite app_nil_r. by destruct s. Qed.

Lemma for_each_emit {A} (l : list A) (f : A → chat_event J) (s : ChatState J) :
  for_each l (λ x, emit (f x)) s = Done tt (emitted (map f l) s).
Proof.
  revert s. induction l as [|x l IH]; intros s; simpl; [by rewrite emitted_nil|].
  rewrite bind_run. simpl. rewrite IH. f_equal. apply emitted_emitted.
Qed.

(** Bodies that only emit, each its own list. *)
Lemma for_each_emits {A} (l : list A) (body : A → prog (ChatState J) unit) (f : A → list (chat_event J))
    (P : ChatState J → Prop) (s : ChatState J) :
  (∀ x s, P s → body x s = Done tt (emitted (f x) s)) → (∀ es s, P s → P (emitted es s)) → P s →
  for_each l body s = Done tt (emitted (concat (map f l)) s).
Proof.
  intros Hb HP. revert s. induction l as [|x l IH]; intros s Hs; simpl; [by rewrite emitted_nil|].
  rewrite bind_run, Hb, IH by auto. by rewrite emitted_emitted.
Qed.

(** ** The history of a room *)





Lemma heap_same (c : cid) o (s : ChatState J) :
  heap s !! c = Some o → with_heap <[c := o]> s = s.
Proof. intros E. unfold with_heap. rewrite insert_id by done. by destruct s. Qed.







(** ** Leaving a room *)

(** Every entry of the map is a live conversation of that name. *)
Definition convs_ok (s : ChatState J) : Prop :=
  sorted (m_convs s) ∧
  ∀ name p, (name, p) ∈ m_convs s →
    ∃ c o, p = Some c ∧ heap s !! c = Some o ∧ c_legacyName o = name.

(** What removeConversation does to a private conversation of the room. *)
Definition renamed (room : string) (o : Conversation J) : Conversation J :=
  if String.eqb (c_room o) room
  then set_legacyName ("" +:+ "/" +:+ c_legacyName o)%string (set_room "" o) else o.

Lemma renamed_idem room o : room ≠ ""%string → renamed room (renamed room o) = renamed room o.
Proof.
  intros Hr. unfold renamed. destruct (String.eqb_spec (c_room o) room) as [<-|Hne].
  - assert (E : String.eqb "" (c_room o) = false) by (apply String.eqb_neq; congruence).
    cbn [set_legacyName set_room c_room]. by rewrite E.
  - by destruct (String.eqb_spec (c_room o) room).
Qed.

Definition rename_loop (c : cid) : string * option cid → prog (ChatState J) unit := λ kv,
  c' ← deref_conv kv.2;
  o' ← load c';
  o ← load c;
  when (String.eqb (c_room o') (c_legacyName o)) (setRoom c' "").

(** Everything but the heap. *)
Record same_but_heap (s s' : ChatState J) : Prop := {
  sh_convs : m_convs s' = m_convs s;
  sh_joined : joinedRooms s' = joinedRooms s;
  sh_out : out s' = out s;
  sh_oracle : oracle s' = oracle s;
}.

Lemma rename_loop_run c oc l (s : ChatState J) :
  heap s !! c = Some oc → c_legacyName oc ≠ ""%string → c_room oc ≠ c_legacyName oc →
  (∀ kv, kv ∈ l → ∃ c' o, kv.2 = Some c' ∧ heap s !! c' = Some o) →
  ∃ s', for_each l (rename_loop c) s = Done tt s' ∧ same_but_heap s s' ∧
    ∀ x, heap s' !! x = if decide (Some x ∈ map snd l)
                        then renamed (c_legacyName oc) <$> heap s !! x else heap s !! x.
Proof.
  intros Hc Hne Hroom. revert s Hc. induction l as [|kv l IH]; intros s Hc Hl; simpl.
  { exists s. split; [done|]. by split. }
  destruct (Hl kv) as (c' & o' & Ekv & Ho'); [set_solver|].
  rewrite bind_run. unfold rename_loop at 1. rewrite bind_run, Ekv.
  change (deref_conv (Some c') s) with (Done c' s). cbn beta iota.
  rewrite bind_run. erewrite load_run by done. rewrite bind_run. erewrite load_run by done.
  set (s1 := with_heap <[c' := renamed (c_legacyName oc) o']> s).
  assert (E1 : when (String.eqb (c_room o') (c_legacyName oc)) (setRoom c' "") s = Done tt s1).
  { unfold when, s1, renamed. destruct (String.eqb _ _).
    - unfold setRoom. by erewrite store_run by done.
    - by rewrite heap_same. }
  rewrite E1.
  assert (Hc1 : heap s1 !! c = Some oc).
  { unfold s1. simpl. destruct (decide (c = c')) as [<-|]; [|by simplify_map_eq].
    rewrite Hc in Ho'. injection Ho' as <-. unfold renamed.
    destruct (String.eqb_spec (c_room oc) (c_legacyName oc)); [done|]. by simplify_map_eq. }
  destruct (IH s1 Hc1) as (s' & E & [] & Hx).
  { intros kv' Hkv'. destruct (Hl kv') as (x & ox & Ex & Hox); [set_solver|].
    unfold s1. simpl. destruct (decide (x = c')) as [->|]; eexists _, _; split; [done| |done|];
      by simplify_map_eq. }
  exists s'. split; [done|]. split; [by split|]. intros x. rewrite Hx. unfold s1. simpl.
  destruct (decide (x = c')) as [->|Hne'].
  - rewrite lookup_insert_eq, Ho'. simpl. rewrite renamed_idem by done.
    rewrite (decide_True (P := Some c' ∈ Some c' :: map snd l)) by set_solver. by case_decide.
  - rewrite lookup_insert_ne by done. do 2 case_decide; set_solver.
Qed.

Lemma removeConversation_run c oc (s : ChatState J) :
  heap s !! c = Some oc → c_legacyName oc ≠ ""%string → c_room oc ≠ c_legacyName oc →
  (∀ kv, kv ∈ m_convs s → ∃ c' o, kv.2 = Some c' ∧ heap s !! c' = Some o) →
  ∃ s', removeConversation c s = Done tt s' ∧ m_convs s' = serase (c_legacyName oc) (m_convs s) ∧
    out s' = out s ∧ joinedRooms s' = joinedRooms s ∧
    ∀ x, heap s' !! x = if decide (Some x ∈ map snd (m_convs s))
                        then renamed (c_legacyName oc) <$> heap s !! x else heap s !! x.
Proof.
  intros Hc Hne Hroom Hl. unfold removeConversation. rewrite bind_run. simpl.
  destruct (rename_loop_run c oc (m_convs s) s Hc Hne Hroom Hl) as (s1 & E & [] & Hx).
  rewrite bind_run. unfold rename_loop in E. rewrite E.
  assert (Hc1 : heap s1 !! c = Some oc).
  { rewrite Hx, Hc. case_decide; [|done]. simpl. unfold renamed.
    by destruct (String.eqb_spec (c_room oc) (c_legacyName oc)). }
  rewrite bind_run. erewrite load_run by done. eexists. split; [reflexivity|]. simpl.
  by rewrite sh_convs0.
Qed.

Lemma find_conversation_direct fuel name m p : sfind name m = Some p → find_conversation fuel name m = p.
Proof. intros E. destruct fuel; simpl; by rewrite E. Qed.

Lemma leaveRoom_run room c oc (s : ChatState J) :
  convs_ok s → sfind room (m_convs s) = Some (Some c) → heap s !! c = Some oc →
  room ≠ ""%string → c_room oc ≠ room →
  ∃ s', leaveRoom room s = Done tt s' ∧ m_convs s' = serase room (m_convs s) ∧
    out s' = out s ++ [RoomLeft room] ∧
    ∀ x, heap s' !! x = if decide (x = c) then None
                        else if decide (Some x ∈ map snd (m_convs s))
                        then renamed room <$> heap s !! x else heap s !! x.
Proof.
  intros [Hs Hok] Hf Hc Hne Hroom.
  assert (Hname : c_legacyName oc = room).
  { destruct (Hok room (Some c)) as (c' & o & [= <-] & Ho & Hn); [by apply sfind_elem|]. congruence. }
  unfold leaveRoom. do 2 (rewrite bind_run; simpl). rewrite bind_run. unfold getConversation.
  rewrite bind_run. simpl. rewrite (find_conversation_direct _ _ _ _ Hf).
  set (s0 := with_joinedRooms _ _). rewrite bind_run.
  destruct (removeConversation_run c oc s0) as (s1 & -> & Em & Eo & _ & Hx); [done|by rewrite Hname|by rewrite Hname| |].
  { intros [name p] Hin. destruct (Hok name p Hin) as (c' & o & -> & Ho & _). by exists c', o. }
  unfold delete_conversation. rewrite bind_run.
  assert (∃ o1, heap s1 !! c = Some o1) as [o1 Ho1].
  { rewrite Hx. simpl. rewrite Hc. case_decide; eauto. }
  erewrite load_run by done. eexists. split; [reflexivity|]. simpl. rewrite Hname in *.
  split; [done|]. split; [done|]. intros x. case_decide; [by simplify_map_eq|].
  rewrite lookup_delete_ne by done. apply Hx.
Qed.

(** ** Participants *)

(** Members of a conversation the operations on participants keep. *)
Record same_room (o o' : Conversation J) : Prop := {
  sr_legacyName : c_legacyName o' = c_legacyName o;
  sr_nickname : c_nickname o' = c_nickname o;
  sr_room : c_room o' = c_room o;
  sr_muc : c_muc o' = c_muc o;
  sr_jids : c_jids o' = c_jids o;
  sr_subject : c_subject o' = c_subject o;
  sr_cached : c_cachedMessages o' = c_cachedMessages o;
}.

Lemma generatePresence_run c o nick flag status msg newname icon (s : ChatState J) :
  heap s !! c = Some o →
  ∃ o', generatePresence env c nick flag status msg newname icon s =
      Done (generated_presence env o nick flag status msg newname icon) (with_heap <[c := o']> s) ∧
    same_room o o' ∧ c_participants o' = c_participants o.
Proof.
  intros Ho. unfold generatePresence. rewrite bind_run. erewrite load_run by done. rewrite bind_run.
  unfold when. destruct (_ && _).
  - erewrite store_run by done. eexists. split; [reflexivity|]. by repeat split.
  - exists o. rewrite heap_same by done. by repeat split.
Qed.

Lemma convs_ok_store c o o' es (s : ChatState J) :
  heap s !! c = Some o → c_legacyName o' = c_legacyName o → convs_ok s →
  convs_ok (emitted es (with_heap <[c := o']> s)).
Proof.
  intros Ho Hn [Hs Hok]. split; [done|]. intros name p Hin.
  destruct (Hok name p Hin) as (c' & oc & -> & Hc' & Hl). simpl.
  destruct (decide (c' = c)) as [->|]; eexists _, _; split; [done| |done|]; simplify_map_eq; [|done].
  split; [done|congruence].
Qed.

Lemma with_heap_twice c a b (s : ChatState J) :
  with_heap <[c := a]> (with_heap <[c := b]> s) = with_heap <[c := a]> s.
Proof. unfold with_heap. simpl. by rewrite insert_insert_eq. Qed.

(** The first half of handleParticipantChanged. *)
Lemma participant_prefix again c o nick flag status msg newname icon alias (s : ChatState J) :
  heap s !! c = Some o →
  let p := generated_presence env o (if String.eqb alias "" then nick else alias) flag status msg newname icon in
  ∃ o1, same_room o o1 ∧
    participant_changed env again c nick flag status msg newname icon alias s =
    (when (negb (String.eqb newname "")) (again newname) ;;
     o ← load c;
     match c_subject o with
     | Some m =>
         when (c_sentInitialPresence o && negb (c_sentInitialSubject o))
           (store c (set_sentInitialSubject true) ;; emit (SendMessage m))
     | None => mret tt
     end ;;
     when (bool_decide (pr_type p = ErrorPresence)) (o ← load c; leaveRoom (c_legacyName o)))
    (emitted (map (λ jid, SendPresence (setPresenceTo jid p)) (c_jids o)) (with_heap <[c := o1]> s)).
Proof.
  intros Ho p. unfold participant_changed. rewrite bind_run.
  destruct (generatePresence_run c o (if String.eqb alias "" then nick else alias) flag status msg newname icon s Ho)
    as (o' & -> & Hsr & _). fold p.
  rewrite bind_run. erewrite load_run by (simpl; by simplify_map_eq).
  rewrite bind_run. erewrite store_run by (simpl; by simplify_map_eq).
  rewrite bind_run, (sr_jids _ _ Hsr), for_each_emit, with_heap_twice.
  eexists. split; [|reflexivity]. destruct Hsr. by split.
Qed.

Lemma error_presence o nick flag status msg icon :
  c_nickname o = nick → error_of_flag flag msg ≠ None →
  pr_type (generated_presence env o nick flag status msg "" icon) = ErrorPresence.
Proof.
  intros <- He. unfold generated_presence. rewrite String.eqb_refl.
  by destruct (error_of_flag flag msg) as [[]|].
Qed.

(** The error presence of a room ends in leaving it. *)
Lemma participant_error_run again c o nick flag status msg icon (s : ChatState J) :
  convs_ok s → sfind (c_legacyName o) (m_convs s) = Some (Some c) → heap s !! c = Some o →
  c_legacyName o ≠ ""%string → c_room o ≠ c_legacyName o →
  c_nickname o = nick → error_of_flag flag msg ≠ None →
  ∃ s' sent, participant_changed env again c nick flag status msg "" icon "" s = Done tt s' ∧
    heap s' !! c = None ∧ m_convs s' = serase (c_legacyName o) (m_convs s) ∧
    out s' = out s ++ map (λ jid, SendPresence (setPresenceTo jid
               (generated_presence env o nick flag status msg "" icon))) (c_jids o)
             ++ sent ++ [RoomLeft (c_legacyName o)].
Proof.
  intros Hok Hf Ho Hne Hroom Hn He.
  destruct (participant_prefix again c o nick flag status msg "" icon "" s Ho) as (o1 & Hsr & ->).
  cbn [String.eqb negb]. set (p := generated_presence _ _ _ _ _ _ _ _).
  set (es := map _ _). set (s1 := emitted es _).
  assert (Hp : pr_type p = ErrorPresence) by by apply error_presence.
  rewrite bind_run. cbn [when]. rewrite ret_run.
  assert (Ho1 : heap s1 !! c = Some o1) by (unfold s1; simpl; by simplify_map_eq).
  rewrite bind_run. erewrite load_run by done. rewrite bind_run.
  assert (∃ o2 sent, match c_subject o1 with
     | Some m =>
         when (c_sentInitialPresence o1 && negb (c_sentInitialSubject o1))
           (store c (set_sentInitialSubject true) ;; emit (SendMessage m))
     | None => mret tt
     end s1 = Done tt (emitted sent (with_heap <[c := o2]> s1)) ∧ same_room o o2) as (o2 & sent & -> & Hsr2).
  { destruct (c_subject o1) as [m|].
    - unfold when. destruct (_ && _).
      + rewrite bind_run. erewrite store_run by done. eexists _, [_]. split; [reflexivity|].
        destruct Hsr. by split.
      + exists o1, []. by rewrite emitted_nil, heap_same.
    - exists o1, []. by rewrite emitted_nil, heap_same. }
  rewrite bool_decide_true by done. cbn [when]. rewrite bind_run.
  erewrite load_run by (simpl; by simplify_map_eq). rewrite (sr_legacyName _ _ Hsr2).
  destruct (leaveRoom_run (c_legacyName o) c o2 (emitted sent (with_heap <[c := o2]> s1)))
    as (s' & -> & Em & Eo & Hx).
  - eapply convs_ok_store; [done| |].
    + by rewrite (sr_legacyName _ _ Hsr2), (sr_legacyName _ _ Hsr).
    + unfold s1. eapply convs_ok_store; [done| |done]. by rewrite (sr_legacyName _ _ Hsr).
  - done.
  - simpl. by simplify_map_eq.
  - done.
  - by rewrite (sr_room _ _ Hsr2).
  - exists s', sent. split; [done|]. split; [by rewrite Hx, decide_True|]. split; [by rewrite Em|].
    rewrite Eo. simpl. by rewrite <- !app_assoc.
Qed.
End lemmas.

Section properties.
Context {J : Type} `{Jid J}.
Context (typeToAvailabilityOrdering : StatusShow → Z).
Context (env : ChatEnv J).

(** *** Copies to the user's other resources *)

(** The resource getDeliveryJID answers. *)
Definition delivery_jid (o : Conversation J) (s : ChatState J) : J :=
  if isBare (c_jid o) then
    match getHighestPriorityPresence typeToAvailabilityOrdering (toBare (c_jid o)) (oracle s) with
    | Some highest => pr_from highest
    | None => c_jid o
    end
  else c_jid o.

Lemma getDeliveryJID_run c o (s : ChatState J) :
  heap s !! c = Some o →
  getDeliveryJID typeToAvailabilityOrdering c s = Done (delivery_jid o s) s.
Proof.
  intros Ho. unfold getDeliveryJID. rewrite bind_run. erewrite load_run by done.
  rewrite bind_run. simpl. unfold delivery_jid. destruct (isBare (c_jid o)); [|done].
  by destruct (getHighestPriorityPresence _ _ _).
Qed.

Lemma handleRawMessage_direct c o m (s : ChatState J) :
  heap s !! c = Some o → m_type m ≠ Groupchat → inServerMode env && cacheMessages s = false →
  handleRawMessage env c m s = Done tt (emitted [SendMessage m] s).
Proof.
  intros Ho Ht Hc. unfold handleRawMessage. rewrite bind_run. erewrite load_run by done.
  rewrite bool_decide_false by done. simpl. rewrite bind_run. simpl. by rewrite Hc.
Qed.

Lemma addressed_chat o m nickname : c_muc o = false → m_type (addressed env o m nickname) ≠ Groupchat.
Proof.
  intros Hm. unfold addressed, incoming_type. rewrite Hm. simpl.
  assert (Ht : match m_type m with
    | Headline => if String.eqb (getUserSetting env "send_headlines") "1" then Headline else Chat
    | _ => Chat end ≠ Groupchat) by (destruct (m_type m); try done; by destruct (String.eqb _ _)).
  rewrite bool_decide_false by done. simpl. done.
Qed.

(** in server mode an incoming message goes once to the resource it is
    addressed to, and every other resource the oracle knows gets exactly one
    received carbon of it, from the user's bare JID; nothing else is sent. *)
Theorem received_carbons (c : cid) (o : Conversation J) (m : Message J) (nickname : string) (s : ChatState J) :
  heap s !! c = Some o → c_muc o = false → inServerMode env = true → cacheMessages s = false →
  let m' := addressed env o m nickname in
  handleMessage typeToAvailabilityOrdering env c m nickname false s =
  Done tt (emitted
    (SendMessage m' ::
     map (λ p, SendMessage (mkMessage (toBare (c_jid o)) (pr_from p) (m_type m') "" "" [CarbonsReceived m'; NoCopy]))
       (filter (λ p, pr_from p ≠ delivery_jid o s) (getAllPresence (toBare (c_jid o)) (oracle s)))) s).
Proof.
  intros Ho Hm Hsrv Hcache m'. unfold handleMessage. rewrite bind_run. erewrite load_run by done.
  fold m'. assert (Ht : m_type m' ≠ Groupchat) by by apply addressed_chat.
  rewrite bind_run. erewrite handleRawMessage_direct by (rewrite ?Hcache, ?andb_false_r; done).
  rewrite Hsrv, Hm, bool_decide_false by done. simpl. unfold when.
  rewrite bind_run. erewrite getDeliveryJID_run by done.
  change (delivery_jid o (emitted [SendMessage m'] s)) with (delivery_jid o s).
  unfold forwardReceivedCopies. rewrite bind_run. erewrite load_run by done. rewrite bind_run. simpl.
  rewrite (for_each_emits _ _ (λ p, if decide (pr_from p = delivery_jid o s) then []
     else [SendMessage (carbon o m' (pr_from p) (CarbonsReceived m'))])
     (λ s, heap s !! c = Some o ∧ cacheMessages s = false)); [|..|done].
  - rewrite emitted_emitted. do 2 f_equal. simpl. f_equal.
    induction (getAllPresence _ _) as [|p l IH]; [done|]. rewrite filter_cons, map_cons. simpl.
    rewrite IH. case_decide as E; [by rewrite decide_False by auto|by rewrite decide_True].
  - intros p s' [Ho' Hc']. case_decide; [by rewrite emitted_nil|].
    unfold forwardAsCarbonReceived. rewrite bind_run. erewrite load_run by done.
    by erewrite handleRawMessage_direct by (rewrite ?Hc', ?andb_false_r; done).
  - by intros es s' [? ?].
Qed.

(** in gateway mode a message the user sent from the legacy client becomes
    one privilege request per resource (or one for the bare JID when the user
    has none), to the user's server, each holding a sent carbon whose message
    goes from the user's bare JID to the contact. *)
Theorem sent_carbons (c : cid) (o : Conversation J) (m : Message J) (nickname : string) (s : ChatState J) :
  heap s !! c = Some o → c_muc o = false → inServerMode env = false →
  let a := addressed env o m nickname in
  let m' := mkMessage (toBare (m_to a)) (m_from a) (m_type a) (m_body a) (m_subject a) (m_payloads a) in
  let request to := SendMessage (mkMessage (component_jid env) (make_jid "" (getDomain (c_jid o)) "") Normal "" ""
    [Privilege (mkMessage (toBare (c_jid o)) to (m_type m') "" "" [CarbonsSent m'; NoCopy])]) in
  handleMessage typeToAvailabilityOrdering env c m nickname true s =
  Done tt (emitted
    (match getAllPresence (toBare (c_jid o)) (oracle s) with
     | [] => [request (toBare (c_jid o))]
     | presences => map (λ p, request (pr_from p)) presences
     end) s).
Proof.
  intros Ho Hm Hsrv a m' request. unfold handleMessage. rewrite bind_run. erewrite load_run by done.
  fold a. fold m'. rewrite bind_run. simpl.
  assert (Hone : ∀ to s', heap s' !! c = Some o →
    forwardAsCarbonSent env c m' to s' = Done tt (emitted [request to] s')).
  { intros to s' Ho'. unfold forwardAsCarbonSent. rewrite bind_run. erewrite load_run by done.
    rewrite Hsrv. unfold forwardImpersonated. erewrite handleRawMessage_direct; [|done|done|by rewrite Hsrv].
    unfold request, carbon. simpl. by rewrite getDomain_toBare. }
  destruct (getAllPresence _ _) as [|p l]; [by apply Hone|].
  rewrite bind_run, Hone by done.
  rewrite (for_each_emits _ _ (λ p, [request (pr_from p)]) (λ s, heap s !! c = Some o)); [|by auto|done|done].
  rewrite emitted_emitted. do 2 f_equal. simpl. f_equal.
  induction l as [|q l IH]; simpl; [done|]. by rewrite IH.
Qed.

(** leaving a room deletes its conversation and its entry, and every other
    entry keeps its conversation. A private conversation of the room, though,
    is given a name that begins with a slash while it stays in the map under
    its own. *)
Theorem leave_room (room : string) (c : cid) (oc : Conversation J) (s : ChatState J) :
  convs_ok s → sfind room (m_convs s) = Some (Some c) → heap s !! c = Some oc →
  room ≠ ""%string → c_room oc ≠ room →
  ∃ s', leaveRoom room s = Done tt s' ∧ out s' = out s ++ [RoomLeft room] ∧
    heap s' !! c = None ∧ sfind room (m_convs s') = None ∧ (∀ name, (name, Some c) ∉ m_convs s') ∧
    ∀ name c' o', name ≠ room → sfind name (m_convs s) = Some (Some c') → heap s !! c' = Some o' →
      sfind name (m_convs s') = Some (Some c') ∧
      ∃ o'', heap s' !! c' = Some o'' ∧
        c_legacyName o'' = (if String.eqb (c_room o') room then "/" +:+ name else name)%string.
Proof.
  intros Hok Hf Hc Hne Hroom.
  destruct (leaveRoom_run room c oc s Hok Hf Hc Hne Hroom) as (s' & E & Em & Eo & Hx).
  destruct Hok as [Hs Hok]. exists s'. split; [done|]. split; [done|].
  split; [by rewrite Hx, decide_True|]. rewrite Em. split; [apply sfind_serase_eq|].
  assert (Hinj : ∀ name, (name, Some c) ∈ m_convs s → name = room).
  { intros name Hin. destruct (Hok name _ Hin) as (? & o1 & [= <-] & Ho1 & Hn1).
    apply sfind_elem in Hf. destruct (Hok room _ Hf) as (? & o2 & [= <-] & Ho2 & Hn2). congruence. }
  split.
  - intros name [Hn Hin]%list_elem_of_filter. by apply Hinj in Hin.
  - intros name c' o' Hn Hf' Hc'. split; [by rewrite sfind_serase_ne|].
    assert (c' ≠ c). { intros ->. by apply sfind_elem, Hinj in Hf'. }
    rewrite Hx, decide_False by done. apply sfind_elem in Hf'.
    rewrite decide_True by (apply list_elem_of_fmap; by exists (name, Some c')).
    rewrite Hc'. simpl. eexists. split; [done|]. unfold renamed.
    destruct (Hok name _ Hf') as (? & o1 & [= <-] & Ho1 & Hn1).
    assert (o1 = o') as -> by congruence. by destruct (String.eqb (c_room o') room); simpl; rewrite Hn1.
Qed.

(** when the backend refuses the user a room (nickname in use, not
    authorized, no such room), every resource in the room gets the error
    presence and the room is left: its conversation is gone. *)
Theorem room_error_leaves (c : cid) (o : Conversation J) (nick : string) (flag status : Z)
    (statusMessage iconhash : string) (s : ChatState J) :
  convs_ok s → sfind (c_legacyName o) (m_convs s) = Some (Some c) → heap s !! c = Some o →
  c_legacyName o ≠ ""%string → c_room o ≠ c_legacyName o →
  c_nickname o = nick → error_of_flag flag statusMessage ≠ None →
  ∃ s' p sent, handleParticipantChanged env c nick flag status statusMessage "" iconhash "" s = Done tt s' ∧
    pr_type p = ErrorPresence ∧ heap s' !! c = None ∧
    sfind (c_legacyName o) (m_convs s') = None ∧
    out s' = out s ++ map (λ jid, SendPresence (setPresenceTo jid p)) (c_jids o)
             ++ sent ++ [RoomLeft (c_legacyName o)].
Proof.
  intros Hok Hf Ho Hne Hroom Hn He. unfold handleParticipantChanged.
  destruct (participant_error_run env (λ newname, participant_changed env (λ _, mret tt) c newname flag status
    statusMessage "" iconhash "") c o nick flag status statusMessage iconhash s) as (s' & sent & E & Hgone & Em & Eo); try done.
  exists s', (generated_presence env o nick flag status statusMessage "" iconhash), sent.
  split; [done|]. split; [by apply error_presence|]. split; [done|]. split; [|done].
  rewrite Em. apply sfind_serase_eq.
Qed.

(** an error that comes with a new name equal to the user's nickname ends in
    a use after free: the inner call for the new name leaves the room and
    deletes the conversation the outer call goes on with. *)
Theorem renamed_error_use_after_free (c : cid) (o : Conversation J) (nick : string) (flag status : Z)
    (statusMessage iconhash alias : string) (s : ChatState J) :
  convs_ok s → sfind (c_legacyName o) (m_convs s) = Some (Some c) → heap s !! c = Some o →
  c_legacyName o ≠ ""%string → c_room o ≠ c_legacyName o →
  c_nickname o ≠ ""%string → error_of_flag flag statusMessage ≠ None →
  handleParticipantChanged env c nick flag status statusMessage (c_nickname o) iconhash alias s =
  Fault UseAfterFree.
Proof.
  intros Hok Hf Ho Hne Hroom Hn He. unfold handleParticipantChanged.
  destruct (participant_prefix env (λ newname, participant_changed env (λ _, mret tt) c newname flag status
    statusMessage "" iconhash "") c o nick flag status statusMessage (c_nickname o) iconhash alias s Ho)
    as (o1 & Hsr & ->).
  set (es := map _ _). set (s1 := emitted es _).
  apply String.eqb_neq in Hn. rewrite Hn. cbn [negb when]. rewrite bind_run.
  destruct (participant_error_run env (λ _, mret tt) c o1 (c_nickname o) flag status statusMessage iconhash s1)
    as (s' & sent & -> & Hgone & _).
  - unfold s1. eapply convs_ok_store; [done|by rewrite (sr_legacyName _ _ Hsr)|done].
  - by rewrite (sr_legacyName _ _ Hsr).
  - unfold s1. simpl. by simplify_map_eq.
  - by rewrite (sr_legacyName _ _ Hsr).
  - by rewrite (sr_legacyName _ _ Hsr), (sr_room _ _ Hsr).
  - by rewrite (sr_nickname _ _ Hsr).
  - done.
  - rewrite bind_run, load_dead; done.
Qed.

Definition has_code (code : Z) (p : Presence J) : Prop :=
  match pr_mucUser p with Some u => code ∈ mu_codes u | None => False end.

(** What a joining resource is sent later stays. *)
Definition kept (o o' : Conversation J) : Prop :=
  c_cachedMessages o' = c_cachedMessages o ∧ c_subject o' = c_subject o ∧ c_jids o' = c_jids o.

Lemma same_room_kept o o' : same_room o o' → kept o o'.
Proof. intros []. by repeat split. Qed.

Lemma kept_trans o1 o2 o3 : kept o1 o2 → kept o2 o3 → kept o1 o3.
Proof. intros (? & ? & ?) (? & ? & ?). by repeat split; congruence. Qed.

Lemma heap_emitted f es (s : ChatState J) : with_heap f (emitted es s) = emitted es (with_heap f s).
Proof. done. Qed.

(** a resource that joins a room the user is in already is told first about
    itself, with the code 110 that ends the list of an ordinary join, and then
    about every participant once, in the order of their names; when it asks for
    another nickname, two presences before rename it. *)
Theorem participants_told (c : cid) (o : Conversation J) (to : J) (nickname : string) (s : ChatState J) :
  heap s !! c = Some o →
  let renames := negb (String.eqb (c_nickname o) nickname) && negb (String.eqb nickname "") in
  let nick := if renames then nickname else c_nickname o in
  ∃ before self o',
    sendParticipants env c to nickname s = Done tt (emitted
      (map SendPresence (before ++ self :: map (λ kv, setPresenceTo to (kv.2).1) (c_participants o)))
      (with_heap <[c := o']> s)) ∧
    length before = (if renames then 2 else 0) ∧
    pr_to self = to ∧ pr_type self = Available ∧ has_code 110 self ∧
    (∃ node, pr_from self = make_jid node (component_bare env) nick) ∧
    c_nickname o' = nick ∧ map fst (c_participants o') = map fst (c_participants o) ∧ kept o o'.
Proof.
  intros Ho renames nick. unfold sendParticipants. rewrite bind_run. erewrite load_run by done. fold renames.
  rewrite bind_run.
  assert (∃ before o1, when renames (store c (set_nickname nickname) ;;
    p ← generatePresence env c nickname 0 0 "" "" ""; emit (SendPresence (setPresenceTo to p)) ;;
    store c (set_nicknameChanged true) ;;
    p ← generatePresence env c nickname 0 0 "" (c_nickname o) "";
    emit (SendPresence (setPresenceTo to p))) s = Done tt (emitted (map SendPresence before) (with_heap <[c := o1]> s)) ∧
    length before = (if renames then 2 else 0) ∧ c_nickname o1 = nick ∧
    c_participants o1 = c_participants o ∧ kept o o1) as (before & o1 & -> & Hlen & Hnick & Hpart & Hkept).
  { unfold when, nick. destruct renames.
    - rewrite bind_run. erewrite store_run by done. rewrite bind_run.
      destruct (generatePresence_run env c (set_nickname nickname o) nickname 0 0 "" "" ""
        (with_heap <[c := set_nickname nickname o]> s)) as (o1 & -> & H1 & P1); [simpl; by simplify_map_eq|].
      rewrite with_heap_twice, bind_run. simpl. rewrite bind_run. erewrite store_run by (simpl; by simplify_map_eq).
      rewrite bind_run. set (s1 := with_heap _ (with_out _ _)).
      destruct (generatePresence_run env c (set_nicknameChanged true o1) nickname 0 0 "" (c_nickname o) "" s1)
        as (o2 & -> & H2 & P2); [unfold s1; simpl; by simplify_map_eq|].
      eexists [_; _], o2. split; [|split; [done|]].
      + unfold s1, emit, modify, emitted, with_out, with_heap. simpl.
        rewrite !insert_insert_eq, <- app_assoc. reflexivity.
      + split; [by rewrite (sr_nickname _ _ H2); simpl; rewrite (sr_nickname _ _ H1)|].
        split; [by rewrite P2; simpl; rewrite P1|].
        apply (kept_trans _ o1); [exact (same_room_kept _ _ H1)|exact (same_room_kept _ _ H2)].
    - exists [], o. simpl map. by rewrite emitted_nil, heap_same. }
  rewrite bind_run. erewrite load_run by (simpl; by simplify_map_eq). rewrite Hnick, bind_run.
  set (s1 := emitted (map SendPresence before) _).
  destruct (generatePresence_run env c o1 nick 0 0 "" "" "" s1) as (o2 & -> & H2 & P2);
    [unfold s1; simpl; by simplify_map_eq|].
  set (self := generated_presence env o1 nick 0 0 "" "" "").
  rewrite bind_run. change (emit (SendPresence (setPresenceTo to self)) ?s) with (Done tt (emitted [SendPresence (setPresenceTo to self)] s)).
  cbv beta iota. rewrite bind_run. erewrite store_run by (simpl; by simplify_map_eq).
  rewrite bind_run. erewrite load_run by (simpl; by simplify_map_eq). rewrite for_each_emit.
  eexists before, (setPresenceTo to self), _. split; [|split; [done|]].
  - unfold s1. rewrite !heap_emitted, !with_heap_twice, !emitted_emitted. f_equal. f_equal.
    rewrite <- Hpart, <- P2, map_app. f_equal. simpl. f_equal. by rewrite !List.map_map.
  - unfold self, generated_presence, has_code. simpl. rewrite Hnick, String.eqb_refl. simpl.
    split; [done|]. split; [done|]. split; [set_solver|]. split; [eauto|].
    split; [by rewrite (sr_nickname _ _ H2)|]. split; [by simpl; rewrite List.map_map, P2, Hpart|].
    apply (kept_trans _ o1); [done|exact (same_room_kept _ _ H2)].
Qed.



End properties.

(** ** Concrete conversations *)

Definition sample_env (server : bool) : ChatEnv ref_jid :=
  mkChatEnv (mkRefJid "u" "example.com" "") (mkRefJid "" "irc.example.com" "") server false true false
    [] (λ _, None) (λ _, true).

Definition room_conversation : Conversation ref_jid :=
  mkConversation "#rocq" "me" "" true (mkRefJid "u" "example.com" "") [mkRefJid "u" "example.com" "desk"]
    true false false false None [] [].

Definition private_conversation : Conversation ref_jid :=
  mkConversation "#rocq/you" "#rocq/you" "#rocq" false (mkRefJid "u" "example.com" "desk") []
    false false false false None [] [].

(** The user is in a room, and talks to a participant in private. *)
Definition sample_state : ChatState ref_jid :=
  mkChatState {[ 0 := room_conversation; 1 := private_conversation ]}
    [("#rocq"%string, Some 0); ("#rocq/you"%string, Some 1)] 2 [] true true false 1 "" [] 0 [].

Lemma sample_ok : convs_ok sample_state.
Proof.
  split.
  - repeat constructor.
  - intros name p. simpl. rewrite !elem_of_cons. intros [[= -> ->]|[[= -> ->]|?%not_elem_of_nil]]; [| |done].
    + by exists 0, room_conversation.
    + by exists 1, private_conversation.
Qed.

(** the wrong name of a private conversation whose room was left ends in a
    use after free: when the conversation is left in its turn, its entry is not
    found under the wrong name and stays, pointing to the deleted object, and
    deleting the user's conversations reads it. *)
Theorem dangling_private_conversation :
  (leaveRoom "#rocq" ;; leaveRoom "#rocq/you" ;; deleteAllConversations (sample_env false)) sample_state =
  Fault UseAfterFree.
Proof. vm_compute. reflexivity. Qed.


Definition sample_oracle : smap ref_jid (smap ref_jid (Presence ref_jid)) :=
  snd (handleIncomingPresence (presence_of "u" "phone" Available 5)
    (snd (handleIncomingPresence (presence_of "u" "desk" Available 1) []))).

Definition chat_with (o : Conversation ref_jid) : ChatState ref_jid :=
  mkChatState {[ 0 := o ]} [(c_legacyName o, Some 0)] 1 [] true true false 2 "" sample_oracle 0 [].

Definition one_to_one : Conversation ref_jid :=
  mkConversation "you" "" "" false (mkRefJid "u" "example.com" "desk") [] false false false false None [] [].

Lemma received_carbons_witness :
  ∃ s', handleMessage show_order (sample_env true) 0 (mkMessage no_jid no_jid Chat "hello" "" []) "" false
    (chat_with one_to_one) = Done tt s' ∧ length (out s') = 2.
Proof.
  eexists. split.
  - apply (received_carbons show_order (sample_env true) 0 one_to_one); reflexivity.
  - vm_compute. reflexivity.
Defined.

Lemma sent_carbons_witness :
  ∃ s', handleMessage show_order (sample_env false) 0 (mkMessage no_jid no_jid Chat "hello" "" []) "" true
    (chat_with one_to_one) = Done tt s' ∧ length (out s') = 2.
Proof.
  eexists. split.
  - apply (sent_carbons show_order (sample_env false) 0 one_to_one); reflexivity.
  - vm_compute. reflexivity.
Defined.

Lemma leave_room_witness :
  ∃ s', leaveRoom "#rocq" sample_state = Done tt s' ∧ sfind "#rocq"%string (m_convs s') = None.
Proof.
  destruct (leave_room "#rocq" 0 room_conversation sample_state) as (s' & E & _ & _ & Hf & _);
    [exact sample_ok|reflexivity|reflexivity|discriminate|discriminate|].
  exists s'. split; [exact E|exact Hf].
Defined.

Lemma room_error_leaves_witness :
  ∃ s', handleParticipantChanged (sample_env false) 0 "me" PARTICIPANT_FLAG_CONFLICT 0 "" "" "" "" sample_state
    = Done tt s' ∧ heap s' !! 0 = None.
Proof.
  destruct (room_error_leaves (sample_env false) 0 room_conversation "me" PARTICIPANT_FLAG_CONFLICT 0 "" ""
    sample_state) as (s' & p & sent & E & _ & Hg & _);
    [exact sample_ok|reflexivity|reflexivity|discriminate|discriminate|reflexivity|discriminate|].
  exists s'. split; [exact E|exact Hg].
Defined.

Lemma renamed_error_use_after_free_witness :
  handleParticipantChanged (sample_env false) 0 "you" PARTICIPANT_FLAG_CONFLICT 0 "" "me" "" "" sample_state =
  Fault UseAfterFree.
Proof.
  apply (renamed_error_use_after_free (sample_env false) 0 room_conversation);
    [exact sample_ok|reflexivity|reflexivity|discriminate|discriminate|discriminate|discriminate].
Defined.

Lemma participants_told_witness :
  ∃ s', sendParticipants (sample_env false) 0 (mkRefJid "u" "example.com" "phone") "other" sample_state
    = Done tt s'.
Proof.
  destruct (participants_told (sample_env false) 0 room_conversation (mkRefJid "u" "example.com" "phone") "other"
    sample_state) as (b & p & o & E & _); [reflexivity|]. eexists. exact E.
Defined.
