(* ===== verification/Server.v ===== *)
(** * What the backends tell the server

    The receiving half of NetworkPluginServer (libtransport/NetworkPluginServer.cpp):
    the handlers of the payloads a backend sends, handleRawXML and handleElement,
    handleRawIQReceived, and the switch of handleDataRead. They bring the other
    components together: the pool finds the user, the user's conversations and
    roster take the news, and what goes out to XMPP clients is a list of events.

    A user is an object of the pool's heap; [sv_sessions] holds, under the same
    address, the ConversationManager and the RosterManager it owns. What those
    copy of other objects (the presences, the connection of the user) is brought
    up to date before each call. Signals that NetworkPluginServer itself handles
    are delivered when the call that raises them returns. *)

From S2P Require Utf8.
From S2P Require Import Prelude StdMap Swiften Protocol Framing Names Pool Outgoing Media.
From S2P Require Roster Chat PresenceOracle.
Import pbnetwork.

(** ** Data *)

Section types.
Context {J St X : Type}.

(** An IQ, by the parts the server reads and writes. *)
Record IQ := mkIQ {
  iq_id : string;
  iq_from : J;
  iq_to : J;
  iq_isGet : bool;
  iq_payload : string;
}.

(** Swift::Stanza; the XML library knows the id of every stanza. *)
Inductive Stanza :=
  | StanzaMessage (m : Message J)
  | StanzaPresence (p : Presence J)
  | StanzaIQ (iq : IQ).

Inductive server_event :=
  | SendPresence (p : Presence J)
  | SendMessage (m : Message J)
  | SendIQ (iq : IQ)
  | SendVCard (id : Z) (fullname nickname photo : string)
  | UpdateBackendConfig (config : string)
  | ChatEvent (u : uid) (e : Chat.chat_event J)
  | RosterEvent (u : uid) (e : Roster.roster_event J).

(** What a User owns. *)
Record Session := mkSession {
  ss_jid : J;
  ss_chat : Chat.ChatState J;
  ss_roster : Roster.Roster J St;
  ss_rooms : list (string * string);
}.

(** [sv_rooms] is the room list of the frontend, [sv_parser] the state of the
    parser of raw XML. *)
Record Server := mkServer {
  sv_pool : Pool;
  sv_sessions : gmap uid Session;
  sv_oracle : smap J (smap J (Presence J));
  m_id2resource : smap string string;
  sv_rooms : list (string * string);
  m_sentToXMPP : Z;
  sv_parser : X;
  sv_out : list server_event;
}.

Record ServerConfig := mkServerConfig {
  sc_pool : PoolConfig;
  sc_jid : J;
  sc_rawxml : bool;
  sc_jid_escaping : bool;
  sc_enable_xhtml : bool;
  sc_oob_split : bool;
  sc_oob_replace_body : bool;
  sc_enable_remove_buddy : bool;
  sc_max_room_list_size : Z;
}.

Definition with_pool x (s : Server) := mkServer x (sv_sessions s) (sv_oracle s) (m_id2resource s) (sv_rooms s) (m_sentToXMPP s) (sv_parser s) (sv_out s).
Definition with_sessions f (s : Server) := mkServer (sv_pool s) (f (sv_sessions s)) (sv_oracle s) (m_id2resource s) (sv_rooms s) (m_sentToXMPP s) (sv_parser s) (sv_out s).
Definition with_id2resource f (s : Server) := mkServer (sv_pool s) (sv_sessions s) (sv_oracle s) (f (m_id2resource s)) (sv_rooms s) (m_sentToXMPP s) (sv_parser s) (sv_out s).
Definition with_rooms f (s : Server) := mkServer (sv_pool s) (sv_sessions s) (sv_oracle s) (m_id2resource s) (f (sv_rooms s)) (m_sentToXMPP s) (sv_parser s) (sv_out s).
Definition with_sentToXMPP f (s : Server) := mkServer (sv_pool s) (sv_sessions s) (sv_oracle s) (m_id2resource s) (sv_rooms s) (f (m_sentToXMPP s)) (sv_parser s) (sv_out s).
Definition with_parser x (s : Server) := mkServer (sv_pool s) (sv_sessions s) (sv_oracle s) (m_id2resource s) (sv_rooms s) (m_sentToXMPP s) x (sv_out s).
Definition with_out f (s : Server) := mkServer (sv_pool s) (sv_sessions s) (sv_oracle s) (m_id2resource s) (sv_rooms s) (m_sentToXMPP s) (sv_parser s) (f (sv_out s)).

Definition set_chat x (o : Session) := mkSession (ss_jid o) x (ss_roster o) (ss_rooms o).
Definition set_roster x (o : Session) := mkSession (ss_jid o) (ss_chat o) x (ss_rooms o).
Definition set_rooms f (o : Session) := mkSession (ss_jid o) (ss_chat o) (ss_roster o) (f (ss_rooms o)).
End types.
Arguments IQ : clear implicits.
Arguments Stanza : clear implicits.
Arguments server_event : clear implicits.
Arguments Session : clear implicits.
Arguments Server : clear implicits.
Arguments ServerConfig : clear implicits.

(** The libraries the handlers call: Boost's comparisons, search, lower-casing
    and dates (no answer is an exception), the repair of UTF-8, Swiften's XML in
    both directions, its order of availabilities, and the database's settings. *)
Class Libraries (J X : Type) := {
  istarts_with : string → string → bool;
  iends_with : string → string → bool;
  image_search : string → option image_match;
  to_lower : string → string;
  from_iso_string : string → option Z;
  serialize_xml : XMLElement → string;
  serialize_iq : IQ J → bytes;
  xmpp_parse : X → bytes → X * list (option (Stanza J));
  typeToAvailabilityOrdering : StatusShow → Z;
  caps_known : J → bool;
  getAllSettings : Z → list (string * string) → list (string * string);
}.

Section server.
Context {J St X : Type} `{Jid J} `{Roster.BuddyStorage St} `{Protobuf} `{!Libraries J X}.
Context (cfg : ServerConfig J).

Abbreviation Srv := (Server J St X).
Abbreviation server := (prog Srv).

(** AdminInterface::handleQuery, when there is one: what it answers a query. *)
Context (admin : option (string → server string)).

Definition emit (e : server_event J) : server unit := modify (with_out (λ l, l ++ [e])).

Definition load_session (u : uid) : server (Session J St) :=
  s ← get; deref (sv_sessions s !! u).
Definition store_session (u : uid) (f : Session J St → Session J St) : server unit :=
  o ← load_session u; modify (with_sessions <[u := f o]>).

(** *** Calling the parts *)

(** The contacts of a user, as the conversations ask for them. *)
Definition roster_env (o : User) (ss : Session J St) : Roster.RosterEnv J :=
  Roster.mkRosterEnv (ss_jid ss) (ui_id (u_info o)) (ui_uin (u_info o)) (sc_jid cfg)
    (server_mode (sc_pool cfg)) (sc_rawxml cfg) (sc_enable_remove_buddy cfg) (sc_jid_escaping cfg)
    to_lower.

Definition known_contact (o : User) (ss : Session J St) (name : string) : option (string * J) :=
  b ← default None (sfind (to_lower name) (Roster.m_buddies (ss_roster ss)));
  c ← Roster.r_heap (ss_roster ss) !! b;
  let jid := Roster.b_jid c in
  Some (Roster.b_name c,
    if negb (isValid jid) || String.eqb (getNode jid) "" then Roster.generated_jid (roster_env o ss) c else jid).

Definition chat_env (o : User) (ss : Session J St) : Chat.ChatEnv J :=
  Chat.mkChatEnv (ss_jid ss) (sc_jid cfg) (server_mode (sc_pool cfg)) (sc_rawxml cfg) (sc_jid_escaping cfg)
    (has_storage (sc_pool cfg)) (ui_settings (u_info o)) (known_contact o ss) caps_known.

(** The copies a user's objects hold of the user and of the presences. *)
Definition refresh_chat (o : User) (s : Srv) (c : Chat.ChatState J) : Chat.ChatState J :=
  Chat.mkChatState (Chat.heap c) (Chat.m_convs c) (Chat.next_cid c) (Chat.joinedRooms c) (u_connected o)
    (u_readyForConnect o) (Chat.cacheMessages c) (Chat.resources c) (Chat.photohash c) (sv_oracle s)
    (now (sv_pool s)) [].

Definition refresh_roster (o : User) (s : Srv) (ss : Session J St) : Roster.Roster J St :=
  Roster.with_out (λ _, []) (Roster.surroundings (u_data o) (u_slots o) (u_connected o)
    (Chat.cacheMessages (ss_chat ss))
    (map pr_from (PresenceOracle.getAllPresence (toBare (ss_jid ss)) (sv_oracle s))) (ss_roster ss)).

(** A call of the pool, without what it sets off elsewhere. *)
Definition in_pool {A} (m : prog Pool A) : server A := λ s,
  match m (sv_pool s) with
  | Done a p => Done a (with_pool p s)
  | Fault f => Fault f
  end.

(** The signals of the conversations that NetworkPluginServer is connected to. *)
Definition chat_signal (u : uid) (o : User) (e : Chat.chat_event J) : server unit :=
  emit (ChatEvent u e) ;;
  match e with
  | Chat.RoomJoined _ room nickname password => in_pool (handleRoomJoined u (u_jid o) room nickname password)
  | Chat.RoomLeft room => in_pool (handleRoomLeft u (u_jid o) room)
  | Chat.ReadyToConnect =>
      in_pool (update_user u (set_readyForConnect true) ;; onReadyToConnect (sc_pool cfg) u)
  | _ => mret tt
  end.

Definition roster_signal (u : uid) (e : Roster.roster_event J) : server unit :=
  match e with
  | Roster.ToBackend c data => in_pool (send_to c data)
  | e => emit (RosterEvent u e)
  end.

(** Calls of a user's conversations and roster. *)
Definition chat_of {A} (o : User) (u : uid) (m : Chat.ChatEnv J → prog (Chat.ChatState J) A) : server A :=
  s ← get;
  ss ← load_session u;
  match m (chat_env o ss) (refresh_chat o s (ss_chat ss)) with
  | Done a c =>
      store_session u (set_chat c) ;;
      for_each (Chat.out c) (chat_signal u o) ;;
      mret a
  | Fault f => raise f
  end.

Definition roster_of {A} (o : User) (u : uid) (m : Roster.RosterEnv J → prog (Roster.Roster J St) A) : server A :=
  s ← get;
  ss ← load_session u;
  match m (roster_env o ss) (refresh_roster o s ss) with
  | Done a r =>
      store_session u (set_roster r) ;;
      for_each (Roster.r_out r) (roster_signal u) ;;
      mret a
  | Fault f => raise f
  end.

Definition on_chat {A} (u : uid) (m : Chat.ChatEnv J → prog (Chat.ChatState J) A) : server A :=
  o ← in_pool (load_user u); chat_of o u m.
Definition on_roster {A} (u : uid) (m : Roster.RosterEnv J → prog (Roster.Roster J St) A) : server A :=
  o ← in_pool (load_user u); roster_of o u m.

(** What the pool set off: a user that connected tells its presences and joins
    its rooms again; one that was deleted took its roster and its conversations
    along. [before] is the pool that still had it. *)
Definition pool_signal (before : Pool) (e : Pool.event) : server unit :=
  match e with
  | ConnectedPresences u =>
      on_chat u (λ env, s ← get; Chat.after_setConnected typeToAvailabilityOrdering env (Chat.connected s))
  | UserDeleted u =>
      match users before !! u with
      | Some o =>
          roster_of o u Roster.destroyRosterManager ;;
          chat_of o u Chat.deleteAllConversations ;;
          modify (with_sessions (delete u))
      | None => mret tt
      end
  | _ => mret tt
  end.

Definition on_pool {A} (m : prog Pool A) : server A :=
  s ← get;
  a ← in_pool m;
  s' ← get;
  for_each (drop (length (events (sv_pool s))) (events (sv_pool s'))) (pool_signal (sv_pool s)) ;;
  mret a.

Definition getUser (barejid : string) : server (option uid) :=
  in_pool (Pool.getUser (sc_pool cfg) getAllSettings barejid).

(** Every payload handler parses its message and gives up when that fails; what
    it does with the message is a definition of its own. *)
Definition with_payload {M : Type} {init : M → bool} `{ProtoCodec M init} (data : bytes) (handler : M → server unit)
    : server unit :=
  match ParseFromString data with
  | None => mret tt
  | Some payload => handler payload
  end.

Definition with_user (barejid : string) (handler : uid → server unit) : server unit :=
  user ← getUser barejid;
  match user with
  | None => mret tt
  | Some u => handler u
  end.

(** *** Conversations *)

Definition getConversation (u : uid) (name : string) : server (option Chat.cid) :=
  on_chat u (λ _, Chat.getConversation name).

Definition conversation (u : uid) (c : Chat.cid) : server (Chat.Conversation J) := on_chat u (λ _, Chat.load c).

(** Whether Conversation::handleMessage looks its name up in the roster. *)
Definition asks_roster (o : Chat.Conversation J) (env : Chat.ChatEnv J) (m : Message J) (nickname : string) : bool :=
  negb (bool_decide (Chat.incoming_type env o (m_type m) = Groupchat))
  && String.eqb nickname ""
  && (String.eqb (Chat.c_room o) "" || Chat.c_muc o || String.eqb (Chat.c_nickname o) "").

(** conv->handleMessage: the lookup makes an entry of the roster's map. *)
Definition conv_handleMessage (u : uid) (c : Chat.cid) (m : Message J) (nickname : string) (carbon : bool)
    : server unit :=
  asked ← on_chat u (λ env, o ← Chat.load c; mret (asks_roster o env m nickname, Chat.c_legacyName o));
  when asked.1 (on_roster u (λ env,
    b ← Roster.getBuddy env asked.2;
    match b with
    | Some b => _ ← Roster.getJID env b; mret tt
    | None => mret tt
    end)) ;;
  on_chat u (λ env, Chat.handleMessage typeToAvailabilityOrdering env c m nickname carbon).

Definition newConversation (u : uid) (name : string) : server Chat.cid :=
  on_chat u (λ env,
    c ← Chat.createConversation env name false;
    Chat.addConversation c ;;
    mret c).

Definition newPrivateConversation (u : uid) (room nickname : string) : server Chat.cid :=
  on_chat u (λ env,
    c ← Chat.createConversation env nickname false;
    Chat.setRoom c room ;;
    Chat.setNickname c (room +:+ "/" +:+ nickname)%string ;;
    Chat.addConversation c ;;
    mret c).

(** The conversation a message of a backend belongs to. *)
Definition conversation_for (u : uid) (payload : ConversationMessage.t) : server (option Chat.cid) :=
  let buddyname := str (ConversationMessage.buddyName payload) in
  let nickname := str (ConversationMessage.nickname payload) in
  conv ← getConversation u buddyname;
  match conv with
  | None =>
      if negb (String.eqb nickname "") then mret None
      else c ← newConversation u buddyname; mret (Some c)
  | Some c =>
      if flag_of (ConversationMessage.pm payload) then
        conv ← getConversation u (buddyname +:+ "/" +:+ nickname)%string;
        match conv with
        | Some c => mret (Some c)
        | None => c ← newPrivateConversation u buddyname nickname; mret (Some c)
        end
      else mret (Some c)
  end.

(** The message of the payload, before pictures are taken care of. *)
Definition incoming_message (payload : ConversationMessage.t) (subject : bool) : Message J :=
  let text := str (ConversationMessage.message payload) in
  let xhtml := str (ConversationMessage.xhtml payload) in
  let msg := if subject then setSubject text Chat.empty_message else setBody text Chat.empty_message in
  let msg := if sc_enable_xhtml cfg && negb (String.eqb xhtml "") then addPayload (XHTMLIMPayload xhtml) msg else msg in
  foldl (λ msg att, addOobPayload serialize_xml msg (str (Attachment.url att)) (str (Attachment.description att)))
    msg (ConversationMessage.attachment payload).

(** What every part of the message gets. *)
Definition dressed (payload : ConversationMessage.t) (m : Message J) : server (Message J) :=
  let m := if flag_of (ConversationMessage.headline payload) then setMessageType Headline m else m in
  let m := addPayload (ChatState Active) m in
  let timestamp := str (ConversationMessage.timestamp payload) in
  if String.eqb timestamp "" then mret m
  else match from_iso_string timestamp with
       | Some stamp => mret (addPayload (Delay stamp) m)
       | None => raise UncaughtException
       end.

Definition message_received (subject : bool) (payload : ConversationMessage.t) : server unit :=
  with_user (str (ConversationMessage.userName payload)) (λ u,
    in_pool (p ← get; update_user u (set_lastActivity (now p))) ;;
    conv ← conversation_for u payload;
    match conv with
    | None => mret tt
    | Some c =>
        let text := str (ConversationMessage.message payload) in
        msgs ← wrapIncomingMedia istarts_with iends_with image_search serialize_xml
                 (oob_mode (sc_oob_split cfg) (sc_oob_replace_body cfg))
                 (if subject then None else Some text) (incoming_message payload subject);
        for_each msgs (λ m,
          m ← dressed payload m;
          conv_handleMessage u c m (str (ConversationMessage.nickname payload))
            (flag_of (ConversationMessage.carbon payload))) ;;
        modify (with_sentToXMPP (λ n, n + 1)%Z)
    end).

Definition handleConvMessagePayload (data : bytes) (subject : bool) : server unit :=
  with_payload data (message_received subject).

Definition message_acknowledged (payload : ConversationMessage.t) : server unit :=
  with_user (str (ConversationMessage.userName payload)) (λ u,
    let id := str (ConversationMessage.id payload) in
    if String.eqb id "" then mret tt
    else
      conv ← getConversation u (str (ConversationMessage.buddyName payload));
      match conv with
      | None => mret tt
      | Some c => conv_handleMessage u c (addPayload (DeliveryReceipt id) Chat.empty_message) "" false
      end).

Definition handleConvMessageAckPayload (data : bytes) : server unit :=
  with_payload data message_acknowledged.

Definition attention_received (payload : ConversationMessage.t) : server unit :=
  with_user (str (ConversationMessage.userName payload)) (λ u,
    let msg := addPayload AttentionPayload
      (setBody (str (ConversationMessage.message payload)) Chat.empty_message) in
    conv ← getConversation u (str (ConversationMessage.buddyName payload));
    c ← match conv with
        | Some c => mret c
        | None => newConversation u (str (ConversationMessage.buddyName payload))
        end;
    conv_handleMessage u c msg "" false).

Definition handleAttentionPayload (data : bytes) : server unit :=
  with_payload data attention_received.

(** Chat states make no conversation. *)
Definition chat_state_received (type : ChatStateType) (payload : Buddy.t) : server unit :=
  with_user (str (Buddy.userName payload)) (λ u,
    conv ← getConversation u (str (Buddy.buddyName payload));
    match conv with
    | None => mret tt
    | Some c => conv_handleMessage u c (addPayload (ChatState type) Chat.empty_message) "" false
    end).

Definition handleChatStatePayload (data : bytes) (type : ChatStateType) : server unit :=
  with_payload data (chat_state_received type).

(** *** Rooms *)

Definition participant_changed (payload : Participant.t) : server unit :=
  with_user (str (Participant.userName payload)) (λ u,
    conv ← getConversation u (str (Participant.room payload));
    match conv with
    | None => mret tt
    | Some c =>
        on_chat u (λ env, Chat.handleParticipantChanged env c (str (Participant.nickname payload))
          (num (Participant.flag payload))
          (StatusType_number (default STATUS_ONLINE (Participant.status payload)))
          (str (Participant.statusMessage payload)) (str (Participant.newname payload))
          (str (Participant.iconHash payload)) (str (Participant.alias payload)))
    end).

Definition handleParticipantChangedPayload (data : bytes) : server unit :=
  with_payload data participant_changed.

Definition room_changed (payload : Room.t) : server unit :=
  with_user (str (Room.userName payload)) (λ u,
    conv ← getConversation u (str (Room.room payload));
    match conv with
    | None => mret tt
    | Some c => on_chat u (λ _, Chat.setNickname c (str (Room.nickname payload)))
    end).

Definition handleRoomChangedPayload (data : bytes) : server unit :=
  with_payload data room_changed.

Definition room_handle (room : string) : string :=
  (getEscapedNode room +:+ "@" +:+ toString (sc_jid cfg))%string.

(** XMPPFrontend::addRoomToRoomList with DiscoItemsResponder::addRoom. *)
Definition add_frontend_room (room name : string) (rooms : list (string * string)) : list (string * string) :=
  if (sc_max_room_list_size cfg <? zlen rooms)%Z then rooms else rooms ++ [(room, name)].

Definition room_list_received (payload : RoomList.t) : server unit :=
  let rooms := zip (RoomList.room payload) (RoomList.name payload) in
  let user := str (RoomList.user payload) in
  if negb (String.eqb user "") then
    with_user user (λ u,
      store_session u (set_rooms (λ _, [])) ;;
      for_each rooms (λ rn, store_session u (set_rooms (λ l, l ++ [(room_handle rn.1, rn.2)]))))
  else
    modify (with_rooms (λ _, [])) ;;
    for_each rooms (λ rn, modify (with_rooms (add_frontend_room (room_handle rn.1) rn.2))).

Definition handleRoomListPayload (data : bytes) : server unit :=
  with_payload data room_list_received.

(** *** Contacts *)

Definition vcard_received (payload : VCard.t) : server unit :=
  fullname ← Utf8.replaced (str (VCard.fullname payload));
  nickname ← Utf8.replaced (str (VCard.nickname payload));
  emit (SendVCard (num (VCard.id payload)) fullname nickname (str (VCard.photo payload))).

Definition handleVCardPayload (data : bytes) : server unit :=
  with_payload data vcard_received.

Definition authorization_requested (payload : Buddy.t) : server unit :=
  with_user (str (Buddy.userName payload)) (λ u,
    ss ← load_session u;
    let name := getSafeName (sc_jid_escaping cfg) (str (Buddy.buddyName payload)) in
    emit (SendPresence (setPresenceType Subscribe
      (setPresenceFrom (make_jid name (toString (sc_jid cfg)) "") (setPresenceTo (ss_jid ss) empty_presence))))).

Definition handleAuthorizationPayload (data : bytes) : server unit :=
  with_payload data authorization_requested.

Definition buddy_changed (payload : Buddy.t) : server unit :=
  with_user (str (Buddy.userName payload)) (λ u,
    on_roster u (λ env, Roster.handleBuddyChangedPayload env payload)).

Definition handleBuddyChangedPayload (data : bytes) : server unit :=
  with_payload data buddy_changed.

Definition buddy_removed (payload : Buddy.t) : server unit :=
  with_user (str (Buddy.userName payload)) (λ u,
    on_roster u (λ env, Roster.handleBuddyRemovedPayload env payload)).

Definition handleBuddyRemovedPayload (data : bytes) : server unit :=
  with_payload data buddy_removed.

(** *** The backend's own *)

Definition query_received (b : bid) (payload : BackendConfig.t) : server unit :=
  match admin with
  | None => mret tt
  | Some handleQuery =>
      answer ← handleQuery (str (BackendConfig.config payload));
      in_pool (send_to b (query_answer answer))
  end.

Definition handleQueryPayload (b : bid) (data : bytes) : server unit :=
  with_payload data (query_received b).

Definition backend_config_received (payload : BackendConfig.t) : server unit :=
  emit (UpdateBackendConfig (str (BackendConfig.config payload))).

Definition handleBackendConfigPayload (data : bytes) : server unit :=
  with_payload data backend_config_received.

(** *** Raw stanzas *)

Definition stanza_from (st : Stanza J) : J :=
  match st with StanzaMessage m => m_from m | StanzaPresence p => pr_from p | StanzaIQ iq => iq_from iq end.
Definition stanza_to (st : Stanza J) : J :=
  match st with StanzaMessage m => m_to m | StanzaPresence p => pr_to p | StanzaIQ iq => iq_to iq end.

Definition setIQTo (to : J) (iq : IQ J) : IQ J := mkIQ (iq_id iq) (iq_from iq) to (iq_isGet iq) (iq_payload iq).
Definition setIQFrom (from : J) (iq : IQ J) : IQ J := mkIQ (iq_id iq) from (iq_to iq) (iq_isGet iq) (iq_payload iq).

Definition bare_string (j : J) : string := toString (toBare j).

(** The node a sender without contact gets. *)
Definition sender_node (is_room : bool) (name : string) : string :=
  if is_room then at_to_percent name else getSafeName (sc_jid_escaping cfg) name.

Definition handleRawMessage (u : uid) (conv : option Chat.cid) (message : Message J) : server unit :=
  match conv with
  | None => emit (SendMessage message)
  | Some c =>
      o ← conversation u c;
      if Chat.c_muc o || bool_decide (m_type message = Groupchat) then
        on_chat u (λ env, Chat.handleRawMessage env c message)
      else
        delivered ← on_chat u (λ _, Chat.getDeliveryJID typeToAvailabilityOrdering c);
        let message := setMessageTo delivered message in
        on_chat u (λ env, Chat.handleRawMessage env c message) ;;
        when (server_mode (sc_pool cfg)) (on_chat u (λ env, Chat.forwardReceivedCopies env c message delivered))
  end.

Definition handleRawPresence (u : uid) (conv : option Chat.cid) (buddy : option nat) (presence : Presence J)
    : server unit :=
  match buddy, conv with
  | Some b, _ =>
      on_roster u (λ _,
        o ← Roster.load b;
        when (negb (Roster.isAvailable o) && negb (bool_decide (pr_type presence = Unavailable)))
          (Roster.store b (λ o, Roster.set_status Online (Roster.b_statusMessage o) o)) ;;
        Roster.handleRawPresence b presence)
  | None, Some c => on_chat u (λ _, Chat.handleRawPresence c presence)
  | None, None => emit (SendPresence presence)
  end.

(** The answer to a request goes to the resource that asked. *)
Definition handleRawIQ (u : uid) (iq : IQ J) : server unit :=
  s ← get;
  let key := (bare_string (iq_to iq) +:+ iq_id iq)%string in
  iq ← match sfind key (m_id2resource s) with
       | Some resource =>
           modify (with_id2resource (serase key)) ;;
           mret (setIQTo (make_jid (getNode (iq_to iq)) (getDomain (iq_to iq)) resource) iq)
       | None =>
           ss ← load_session u;
           mret (setIQTo (match PresenceOracle.getHighestPriorityPresence typeToAvailabilityOrdering
                                  (ss_jid ss) (sv_oracle s) with
                          | Some highest => pr_from highest
                          | None => ss_jid ss
                          end) iq)
       end;
  if negb (server_mode (sc_pool cfg)) && negb (isValid (iq_to iq)) then mret tt
  else emit (SendIQ iq).

Definition handleElement (element : option (Stanza J)) : server unit :=
  match element with
  | None => mret tt
  | Some stanza =>
      with_user (bare_string (stanza_to stanza)) (λ u,
        let from := stanza_from stanza in
        conv ← getConversation u (bare_string from);
        buddy ← on_roster u (λ env, Roster.getBuddy env (bare_string from));
        from ← match buddy with
               | Some b =>
                   jid ← on_roster u (λ env, Roster.getJID env b);
                   mret (make_jid (getNode jid) (getDomain jid) (getResource from))
               | None =>
                   is_room ← match conv with
                             | Some c => o ← conversation u c; mret (Chat.c_muc o)
                             | None => mret false
                             end;
                   mret (make_jid (sender_node is_room (bare_string from)) (toString (sc_jid cfg)) (getResource from))
               end;
        match stanza with
        | StanzaMessage m => handleRawMessage u conv (setMessageFrom from m)
        | StanzaPresence p => handleRawPresence u conv buddy (setPresenceFrom from p)
        | StanzaIQ iq => handleRawIQ u (setIQFrom from iq)
        end)
  end.

Definition handleRawXML (xml : bytes) : server unit :=
  s ← get;
  let '(parser, elements) := xmpp_parse (sv_parser s) xml in
  modify (with_parser parser) ;;
  for_each elements handleElement.

(** An IQ of a client, on its way to the legacy network. *)
Definition handleRawIQReceived (iq : IQ J) : server unit :=
  with_user (bare_string (iq_from iq)) (λ u,
    o ← in_pool (load_user u);
    match u_data o with
    | None => mret tt
    | Some c =>
        when (iq_isGet iq) (modify (with_id2resource
          (sinsert (bare_string (iq_from iq) +:+ iq_id iq)%string (getResource (iq_from iq))))) ;;
        in_pool (send_to c (raw_stanza (serialize_iq (setIQTo (legacy_to (iq_to iq)) iq))))
    end).

(** *** handleDataRead *)

(** Whatever a backend sends, it has not hung. *)
Definition heard_from (c : bid) : server unit :=
  in_pool (o ← load_backend c; when (pongReceived o =? 0)%Z (update_backend c (set_pongReceived 1))).

(** The switch; a connection's backend is alive while its handler runs. *)
Definition dispatch (c : bid) (wrapper : WrapperMessage.t) : server bool :=
  heard_from c ;;
  let payload := default [] (WrapperMessage.payload wrapper) in
  match default TYPE_CONNECTED (WrapperMessage.type wrapper) with
  | TYPE_CONNECTED => on_pool (handleConnectedPayload (sc_pool cfg) getAllSettings payload) ;; mret true
  | TYPE_DISCONNECTED => on_pool (handleDisconnectedPayload (sc_pool cfg) getAllSettings payload) ;; mret true
  | TYPE_BUDDY_CHANGED => handleBuddyChangedPayload payload ;; mret true
  | TYPE_CONV_MESSAGE => handleConvMessagePayload payload false ;; mret true
  | TYPE_ROOM_SUBJECT_CHANGED => handleConvMessagePayload payload true ;; mret true
  | TYPE_PONG => on_pool (handlePongReceived (sc_pool cfg) c) ;; mret true
  | TYPE_PARTICIPANT_CHANGED => handleParticipantChangedPayload payload ;; mret true
  | TYPE_ROOM_NICKNAME_CHANGED => handleRoomChangedPayload payload ;; mret true
  | TYPE_VCARD => handleVCardPayload payload ;; mret true
  | TYPE_BUDDY_TYPING => handleChatStatePayload payload Composing ;; mret true
  | TYPE_BUDDY_TYPED => handleChatStatePayload payload Paused ;; mret true
  | TYPE_BUDDY_STOPPED_TYPING => handleChatStatePayload payload Active ;; mret true
  | TYPE_AUTH_REQUEST => handleAuthorizationPayload payload ;; mret true
  | TYPE_ATTENTION => handleAttentionPayload payload ;; mret true
  | TYPE_STATS => on_pool (handleStatsPayload c payload) ;; mret true
  | TYPE_BUDDY_REMOVED => handleBuddyRemovedPayload payload ;; mret true
  | TYPE_QUERY => handleQueryPayload c payload ;; mret true
  | TYPE_BACKEND_CONFIG => handleBackendConfigPayload payload ;; mret true
  | TYPE_ROOM_LIST => handleRoomListPayload payload ;; mret true
  | TYPE_CONV_MESSAGE_ACK => handleConvMessageAckPayload payload ;; mret true
  | TYPE_RAW_XML => handleRawXML payload ;; mret true
  | _ => mret false
  end.

(** handleDataRead for a backend whose buffer is [buffer]; answers the buffer
    left. A frame that does not parse is skipped. *)
Definition handleDataRead (c : bid) (buffer data : bytes) : server bytes :=
  handle_data_read ParseFromString true (dispatch c) buffer data.
End server.
