(* ===== verification/ServerTheorems.v ===== *)
(** * What the server makes of a backend's calls

    The other direction of [Wire]: the calls of NetworkPlugin (plugin/cpp/
    networkplugin.cpp), written on the connection, cut into chunks by the network
    and read by handleDataRead, are the handlers of [Server] in the order of the
    calls. Then what those handlers do: the sessions of other users are not
    touched, messages reach the user, answers reach the resource that asked, and
    two ways a backend stops the whole server. *)

From S2P Require Utf8.
From S2P Require Import Prelude StdMap Swiften Protocol Framing ReferenceCodec Names Pool Outgoing Media.
From S2P Require Roster RosterStore Chat PresenceOracle NetworkPlugin.
From S2P Require Import Server.
Import pbnetwork.

(** ** The calls of a backend *)

Inductive plugin_call :=
  | PMessage (user legacyName msg nickname xhtml timestamp : string) (headline pm carbon : bool)
      (attachments : list Attachment.t)
  | PMessageAck (user legacyName id : string)
  | PAttention (user buddyName msg : string)
  | PVCard (user : string) (id : Z) (legacyName fullName nickname photo : string)
  | PSubject (user legacyName msg nickname : string)
  | PBuddyChanged (user buddyName alias : string) (groups : list string) (status : StatusType)
      (statusMessage iconHash : string) (blocked : bool)
  | PBuddyRemoved (user buddyName : string)
  | PTyping (user buddyName : string) (state : ChatStateType)
  | PAuthorization (user buddyName : string)
  | PConnected (user : string)
  | PDisconnected (user : string) (error : Z) (msg : string)
  | PParticipantChanged (user nickname room : string) (flags : Z) (status : StatusType)
      (statusMessage newname alias : string)
  | PRoomNicknameChanged (user room nickname : string)
  | PRoomList (user : string) (rooms names : list string)
  | PConfig (config : NetworkPlugin.PluginConfig)
  | PRawXML (xml : bytes).

(** A chat state a backend has a call for, and attachments with an address. *)
Definition call_ok (c : plugin_call) : Prop :=
  match c with
  | PMessage _ _ _ _ _ _ _ _ _ attachments => forallb Attachment.IsInitialized attachments = true
  | PTyping _ _ st => st = Active ∨ st = Composing ∨ st = Paused
  | _ => True
  end.

Section calls.
Context `{Protobuf}.

Definition perform_call (c : plugin_call) : prog NetworkPlugin.plugin unit :=
  match c with
  | PMessage user legacyName msg nickname xhtml timestamp headline pm carbon attachments =>
      NetworkPlugin.handleMessage user legacyName msg nickname xhtml timestamp headline pm carbon attachments
  | PMessageAck user legacyName id => NetworkPlugin.handleMessageAck user legacyName id
  | PAttention user buddyName msg => NetworkPlugin.handleAttention user buddyName msg
  | PVCard user id legacyName fullName nickname photo =>
      NetworkPlugin.handleVCard user id legacyName fullName nickname photo
  | PSubject user legacyName msg nickname => NetworkPlugin.handleSubject user legacyName msg nickname
  | PBuddyChanged user buddyName alias groups status statusMessage iconHash blocked =>
      NetworkPlugin.handleBuddyChanged user buddyName alias groups status statusMessage iconHash blocked
  | PBuddyRemoved user buddyName => NetworkPlugin.handleBuddyRemoved user buddyName
  | PTyping user buddyName Composing => NetworkPlugin.handleBuddyTyping user buddyName
  | PTyping user buddyName Paused => NetworkPlugin.handleBuddyTyped user buddyName
  | PTyping user buddyName _ => NetworkPlugin.handleBuddyStoppedTyping user buddyName
  | PAuthorization user buddyName => NetworkPlugin.handleAuthorization user buddyName
  | PConnected user => NetworkPlugin.handleConnected user
  | PDisconnected user error msg => NetworkPlugin.handleDisconnected user error msg
  | PParticipantChanged user nickname room flags status statusMessage newname alias =>
      NetworkPlugin.handleParticipantChanged user nickname room flags status statusMessage newname alias
  | PRoomNicknameChanged user room nickname => NetworkPlugin.handleRoomNicknameChanged user room nickname
  | PRoomList user rooms names => NetworkPlugin.handleRoomList user rooms names
  | PConfig config => NetworkPlugin.sendConfig config
  | PRawXML xml => NetworkPlugin.sendRawXML xml
  end.
End calls.

Section server.
Context {J St X : Type} `{Jid J} `{Roster.BuddyStorage St} `{Protobuf} `{!Libraries J X}.
Context (cfg : ServerConfig J).
Context (admin : option (string → prog (Server J St X) string)).

Abbreviation server := (prog (Server J St X)).

(** What a call of the backend means to the server. *)
Definition served (c : plugin_call) : server unit :=
  match c with
  | PMessage user legacyName msg nickname xhtml timestamp headline pm carbon attachments =>
      message_received cfg false (ConversationMessage.make (Some user) (Some legacyName) (Some msg) (Some nickname)
        (Some xhtml) (Some timestamp) (Some headline) None (Some pm) (Some carbon) attachments)
  | PMessageAck user legacyName id =>
      message_acknowledged cfg (ConversationMessage.make (Some user) (Some legacyName) (Some ""%string) None
        None None None (Some id) None None [])
  | PAttention user buddyName msg =>
      attention_received cfg (ConversationMessage.make (Some user) (Some buddyName) (Some msg) None
        None None None None None None [])
  | PVCard user id legacyName fullName nickname photo =>
      fullname ← Utf8.replaced fullName; nickname ← Utf8.replaced nickname;
      emit (SendVCard (to_int id) fullname nickname photo)
  | PSubject user legacyName msg nickname =>
      message_received cfg true (ConversationMessage.make (Some user) (Some legacyName) (Some msg) (Some nickname)
        None None None None None None [])
  | PBuddyChanged user buddyName alias groups status statusMessage iconHash blocked =>
      buddy_changed cfg (Buddy.make (Some user) (Some buddyName) (Some alias) groups (Some status)
        (Some statusMessage) (Some iconHash) (Some blocked))
  | PBuddyRemoved user buddyName => buddy_removed cfg (NetworkPlugin.plain_buddy user buddyName)
  | PTyping user buddyName state => chat_state_received cfg state (NetworkPlugin.plain_buddy user buddyName)
  | PAuthorization user buddyName => authorization_requested cfg (NetworkPlugin.plain_buddy user buddyName)
  | PConnected user =>
      on_pool cfg (user_ ← Pool.getUser (sc_pool cfg) getAllSettings user;
        match user_ with
        | None => mret tt
        | Some u => setConnected u true ;; log (PasswordValid user)
        end)
  | PDisconnected user error msg =>
      on_pool cfg (log (PasswordInvalid user msg) ;;
        user_ ← Pool.getUser (sc_pool cfg) getAllSettings user;
        match user_ with
        | None => mret tt
        | Some u => handleDisconnected (sc_pool cfg) getAllSettings u msg error
        end)
  | PParticipantChanged user nickname room flags status statusMessage newname alias =>
      participant_changed cfg (Participant.make (Some user) (Some room) (Some nickname) (Some flags)
        (Some status) (Some statusMessage) (Some newname) None (Some alias))
  | PRoomNicknameChanged user room nickname =>
      room_changed cfg (Room.make (Some user) (Some nickname) (Some room) (Some ""%string))
  | PRoomList user rooms names => room_list_received cfg (RoomList.make rooms names (Some user))
  | PConfig config => emit (UpdateBackendConfig (NetworkPlugin.config_text config))
  | PRawXML xml => handleRawXML cfg xml
  end.

(** ** Reading a call *)

(** The frame is dispatched to this handler. *)
Definition reads (c : bid) (frame : bytes) (k : server unit) : Prop :=
  ∃ w, ParseFromString frame = Some w ∧
    ∀ s, dispatch cfg admin c w s = (heard_from c ;; k ;; mret true) s.

Lemma reads_wrap c (payload : bytes) (type : MessageType) k :
  (∀ s, dispatch cfg admin c (WrapperMessage.make (Some type) (Some payload)) s =
        (heard_from c ;; k ;; mret true) s) →
  reads c (WRAP payload type) k.
Proof. intros Hd. eexists. split; [by apply parse_serialize|done]. Qed.

Ltac read_call :=
  apply reads_wrap; intros s; unfold dispatch; cbn -[SerializeToString ParseFromString];
  unfold handleConvMessagePayload, handleConvMessageAckPayload, handleAttentionPayload, handleVCardPayload,
    handleBuddyChangedPayload, handleBuddyRemovedPayload, handleChatStatePayload, handleAuthorizationPayload,
    handleParticipantChangedPayload, handleRoomChangedPayload, handleRoomListPayload, handleBackendConfigPayload,
    with_payload, handleConnectedPayload, handleDisconnectedPayload;
  rewrite ?parse_serialize by (simpl; done); reflexivity.

(** What the plugin writes for a call. *)
Lemma call_written c call pl : call_ok call →
  ∃ frame, perform_call call pl = Done tt (NetworkPlugin.mkPlugin (NetworkPlugin.m_data pl)
      (NetworkPlugin.m_pingReceived pl) (NetworkPlugin.m_init_res pl)
      (NetworkPlugin.p_log pl ++ [NetworkPlugin.SendData (send_frame frame)])) ∧
    reads c frame (served call).
Proof.
  intros Hok. destruct call; cbn [perform_call served];
    repeat match goal with st : ChatStateType |- _ => destruct st end; try naive_solver;
    (eexists; split; [reflexivity|]); read_call.
Qed.

(** The frames the network delivers are those of the plugin's log. *)
Definition written (es : list NetworkPlugin.plugin_event) : list bytes :=
  omap (λ e, match e with NetworkPlugin.SendData d => Some d | _ => None end) es.

Lemma calls_written c calls pl pl' : Forall call_ok calls → for_each calls perform_call pl = Done tt pl' →
  ∃ payloads, written (NetworkPlugin.p_log pl') = written (NetworkPlugin.p_log pl) ++ map send_frame payloads ∧
    Forall2 (λ frame call, reads c frame (served call)) payloads calls.
Proof.
  intros Hok. revert pl. induction Hok as [|call calls Hc Hok IH]; intros pl; simpl.
  - intros [= <-]. exists []. by rewrite app_nil_r.
  - destruct (call_written c call pl Hc) as (frame & E & Hr). rewrite (bind_done _ _ _ _ _ E).
    intros E2. destruct (IH _ E2) as (payloads & Hw & Hrs). exists (frame :: payloads).
    split; [|by constructor]. rewrite Hw. cbn [NetworkPlugin.p_log]. unfold written.
    rewrite omap_app. simpl. by rewrite <- app_assoc.
Qed.

Lemma reads_runs c payloads calls s :
  Forall2 (λ frame call, reads c frame (served call)) payloads calls →
  for_each payloads (run_frame ParseFromString (dispatch cfg admin c)) s =
  for_each calls (λ call, heard_from c ;; served call) s.
Proof.
  intros Hr. revert s. induction Hr as [|frame call payloads calls (w & Hw & Hd) _ IH]; intros s; [done|].
  simpl. rewrite !bind_run. unfold run_frame at 1. rewrite Hw, bind_run, Hd, !bind_run.
  destruct (heard_from c s) as [[] s1|]; [|done].
  rewrite bind_run. destruct (served call s1) as [[] s2|]; [|done]. apply IH.
Qed.

Lemma reads_never_returns c frame k : reads c frame k → never_returns ParseFromString (dispatch cfg admin c) frame.
Proof.
  intros (w & Hw & Hd) w' s b s' Hw'. rewrite Hw in Hw'. injection Hw' as <-. rewrite Hd, !bind_run.
  destruct (heard_from c s) as [[] s1|]; [|done]. rewrite bind_run.
  destruct (k s1) as [[] s2|]; [|done]. by intros [= <- _].
Qed.

(** C20: what a backend asks for is what the server does: the calls of a plugin,
    serialized, wrapped, framed, cut anywhere by the network, read and parsed,
    run the handlers of exactly those calls, each once and in order, and nothing
    is left in the buffer; each frame shorter than 2^32 bytes. Where a handler stops with
    an exception, as that of a vCard whose texts end within a character of UTF-8 does, the
    receiver stops there too. *)
Theorem calls_reach_the_server (c : bid) (calls : list plugin_call) (pl pl' : NetworkPlugin.plugin)
    (chunks : list bytes) (s : Server J St X) :
  Forall call_ok calls →
  written (NetworkPlugin.p_log pl) = [] →
  for_each calls perform_call pl = Done tt pl' →
  Forall (λ frame, (Z.of_nat (length frame) < 2 ^ 32)%Z) (written (NetworkPlugin.p_log pl')) →
  concat chunks = concat (written (NetworkPlugin.p_log pl')) →
  read_chunks ParseFromString (dispatch cfg admin c) [] chunks s =
  (for_each calls (λ call, heard_from c ;; served call) ;; mret []) s.
Proof.
  intros Hok Hnew Hrun Hlen Hchunks.
  destruct (calls_written c calls pl pl' Hok Hrun) as (payloads & Hw & Hr).
  rewrite Hnew in Hw. simpl in Hw. rewrite Hw in Hlen, Hchunks.
  rewrite (stream_round_trip ParseFromString _ payloads); [|..|exact Hchunks].
  - by rewrite !bind_run, (reads_runs c payloads calls).
  - apply Forall_map in Hlen. eapply Forall_impl; [exact Hlen|]. intros p Hp. cbv beta in *.
    unfold send_frame in Hp. rewrite length_app in Hp. lia.
  - clear -Hr. induction Hr as [|frame call payloads calls Hc _ IH]; constructor; [|done].
    by eapply reads_never_returns.
Qed.

(** ** One user's news is nobody else's *)

Section pool_quiet.
Context (v : uid) (before : list Pool.event).

(** Of the events that concern the sessions, the pool raises none of [v]. *)
Definition only (e : Pool.event) : Prop :=
  match e with
  | ConnectedPresences w | UserDeleted w => w ≠ v
  | _ => True
  end.

Definition quiet (p : Pool) : Prop := ∃ new, events p = before ++ new ∧ Forall only new.

Lemma quiet_log e : only e → spec any_fault quiet (log e) (λ _, quiet).
Proof.
  intros He p (new & E & Hn). exists (new ++ [e]). simpl. rewrite E, app_assoc.
  split; [done|]. by apply Forall_app; split; [|constructor].
Qed.

Lemma quiet_modify f : (∀ p, events (f p) = events p) → spec any_fault quiet (modify f) (λ _, quiet).
Proof. intros Hf p (new & E & Hn). exists new. by rewrite Hf. Qed.

Lemma quiet_load_user w : spec any_fault quiet (load_user w) (λ _, quiet).
Proof. unfold load_user. walk_step; [by apply spec_get|]. by apply spec_deref. Qed.

Lemma quiet_load_backend c : spec any_fault quiet (load_backend c) (λ _, quiet).
Proof. unfold load_backend. walk_step; [by apply spec_get|]. by apply spec_deref. Qed.

Ltac pool_walk :=
  repeat first
    [ walk_step
    | apply quiet_load_user | apply quiet_load_backend
    | apply quiet_log; done
    | apply quiet_modify; done
    | progress unfold update_user, update_backend, send_to, sendPing, setIgnoreDisconnect ].

Lemma quiet_find_free cfg' a l xs : spec any_fault quiet (find_free cfg' a l xs) (λ _, quiet).
Proof. induction xs as [|c xs IH]; simpl; pool_walk; apply IH. Qed.

Lemma quiet_getFreeClient cfg' a l check : spec any_fault quiet (getFreeClient cfg' a l check) (λ _, quiet).
Proof. unfold getFreeClient, spawn_backend. pool_walk; apply quiet_find_free. Qed.

Lemma quiet_handleUserCreated cfg' w : spec any_fault quiet (handleUserCreated cfg' w) (λ _, quiet).
Proof. unfold handleUserCreated. pool_walk; apply quiet_getFreeClient. Qed.

Lemma quiet_handleUserReadyToConnect cfg' w :
  spec any_fault quiet (handleUserReadyToConnect cfg' w) (λ _, quiet).
Proof. unfold handleUserReadyToConnect. pool_walk. Qed.

Lemma quiet_handleUserDestroyed cfg' w : spec any_fault quiet (handleUserDestroyed cfg' w) (λ _, quiet).
Proof. unfold handleUserDestroyed. pool_walk. Qed.

Lemma quiet_getUser cfg' settings name : spec any_fault quiet (Pool.getUser cfg' settings name) (λ _, quiet).
Proof. unfold Pool.getUser. pool_walk. Qed.

Lemma quiet_removeUser cfg' u b : u ≠ v → spec any_fault quiet (removeUser cfg' u b) (λ _, quiet).
Proof. intros Hu. unfold removeUser. pool_walk; apply quiet_handleUserDestroyed. Qed.

Lemma quiet_setConnected u b : u ≠ v → spec any_fault quiet (setConnected u b) (λ _, quiet).
Proof. intros Hu. unfold setConnected. pool_walk. Qed.

Lemma quiet_handleDisconnected cfg' settings u error e : u ≠ v →
  spec any_fault quiet (handleDisconnected cfg' settings u error e) (λ _, quiet).
Proof.
  intros Hu. unfold handleDisconnected, onReadyToConnect. pool_walk;
    first [apply quiet_handleUserDestroyed | apply quiet_handleUserCreated
          | apply quiet_handleUserReadyToConnect | apply quiet_getUser | by apply quiet_removeUser].
Qed.

(** [v] does not answer to this name. *)
Definition answers_not (name : string) (p : Pool) : Prop :=
  m_users p !! name ≠ Some v ∧ ∀ o, users p !! v = Some o → u_jid o ≠ name.

Lemma getUser_answers cfg' settings name p u p' :
  Pool.getUser cfg' settings name p = Done (Some u) p' → answers_not name p → u ≠ v.
Proof.
  assert (Hmap : ∀ q,
    match m_users p !! name with
    | None => mret None
    | Some w => modify (with_cachedUser (Some w)) ;; o ← load_user w;
                when (has_storage cfg') (update_user w (λ o, set_info
                  (let i := u_info o in
                   mkUserInfo (ui_id i) (ui_jid i) (ui_uin i) (ui_password i) (ui_language i)
                     (ui_encoding i) (ui_vip i) (settings (ui_id i) (ui_settings i))) o)) ;; mret (Some w)
    end q = Done (Some u) p' → m_users p !! name = Some u).
  { intros q. destruct (m_users p !! name) as [w|]; [|done]. rewrite bind_run. cbn beta iota delta [modify].
    rewrite bind_run. destruct (load_user w _) as [o q'|]; [|done]. rewrite bind_run.
    destruct (when _ _ q') as [[] q''|]; [|done]. by intros [= <- _]. }
  unfold Pool.getUser. rewrite bind_run. cbn beta iota delta [get]. rewrite bind_run. intros E [Hm Ho] ->.
  destruct (m_cachedUser p) as [w|]; [|cbn beta iota delta [mret prog_ret] in E; apply Hmap in E; done].
  unfold load_user in E at 1. rewrite !bind_run in E. cbn beta iota delta [get] in E.
  destruct (users p !! w) as [o|] eqn:Ew; [|done]. cbn beta iota delta [deref mret prog_ret] in E.
  destruct (String.eqb_spec name (u_jid o)) as [->|].
  - injection E as -> _. by eapply Ho.
  - apply Hmap in E. done.
Qed.

(** Looking the user up and going on with it. *)
Lemma quiet_with_user cfg' settings name (k : option uid → prog Pool unit) :
  (∀ u, u ≠ v → spec any_fault quiet (k (Some u)) (λ _, quiet)) → spec any_fault quiet (k None) (λ _, quiet) →
  spec any_fault (λ p, quiet p ∧ answers_not name p) (Pool.getUser cfg' settings name ≫= k) (λ _, quiet).
Proof.
  intros Hs Hn p [Hq Ha]. rewrite bind_run. pose proof (quiet_getUser cfg' settings name p Hq) as Hg.
  destruct (Pool.getUser cfg' settings name p) as [[u|] p'|] eqn:E; [|by apply Hn|done].
  apply Hs; [|done]. by eapply getUser_answers.
Qed.
End pool_quiet.

Section isolation.
Context (v : uid) (was : option (Session J St)) (said : list (server_event J)).

Definition about (e : server_event J) : option uid :=
  match e with
  | ChatEvent u _ | RosterEvent u _ => Some u
  | _ => None
  end.

(** The session of [v] is as it was, and nothing was said about it. *)
Definition spared (s : Server J St X) : Prop :=
  sv_sessions s !! v = was ∧ ∃ new, sv_out s = said ++ new ∧ Forall (λ e, about e ≠ Some v) new.

Abbreviation spares m := (spec any_fault spared m (λ _, spared)).

Lemma spared_modify f :
  (∀ s, sv_sessions (f s) = sv_sessions s ∧ sv_out (f s) = sv_out s) → spares (modify f).
Proof. intros Hf s [E (new & Eo & Hn)]. destruct (Hf s) as [Es Ho]. change (spared (f s)). unfold spared. rewrite Es, Ho. by split; [|exists new]. Qed.

Lemma spared_emit e : about e ≠ Some v → spares (emit e).
Proof.
  intros He s [E (new & Eo & Hn)]. split; [done|]. exists (new ++ [e]). simpl. rewrite Eo, app_assoc.
  split; [done|]. by apply Forall_app; split; [|constructor].
Qed.

Lemma spared_in_pool {A} (m : prog Pool A) : spares (in_pool m).
Proof. intros s [E (new & Eo & Hn)]. unfold in_pool. destruct (m (sv_pool s)); [|done]. split; [done|]. by exists new. Qed.

Lemma spared_load u : spares (load_session u).
Proof. unfold load_session. walk_step; [by apply spec_get|]. by apply spec_deref. Qed.

Lemma spared_store u f : u ≠ v → spares (store_session u f).
Proof.
  intros Hu. unfold store_session. walk_step; [apply spared_load|].
  intros s [E (new & Eo & Hn)]. split; [|by exists new]. simpl. by rewrite lookup_insert_ne.
Qed.

Lemma spared_delete u : u ≠ v → spares (modify (with_sessions (delete u))).
Proof. intros Hu s [E (new & Eo & Hn)]. split; [|by exists new]. simpl. by rewrite lookup_delete_ne. Qed.

Ltac session_walk :=
  repeat first
    [ walk_step
    | apply spared_load | apply spared_in_pool
    | apply spared_store; done | apply spared_delete; done
    | apply spared_emit; simpl; congruence
    | apply spared_modify; done ].

Lemma spared_chat_signal u o e : u ≠ v → spares (chat_signal cfg u o e).
Proof. intros Hu. unfold chat_signal. session_walk. Qed.

Lemma spared_roster_signal u e : u ≠ v → spares (roster_signal u e).
Proof. intros Hu. unfold roster_signal. session_walk. Qed.

Lemma spared_chat_of {A} o u (m : Chat.ChatEnv J → prog (Chat.ChatState J) A) : u ≠ v → spares (chat_of cfg o u m).
Proof. intros Hu. unfold chat_of. session_walk. by apply spared_chat_signal. Qed.

Lemma spared_roster_of {A} o u (m : Roster.RosterEnv J → prog (Roster.Roster J St) A) :
  u ≠ v → spares (roster_of cfg o u m).
Proof. intros Hu. unfold roster_of. session_walk. by apply spared_roster_signal. Qed.

Lemma spared_on_chat {A} u (m : Chat.ChatEnv J → prog (Chat.ChatState J) A) : u ≠ v → spares (on_chat cfg u m).
Proof. intros Hu. unfold on_chat. session_walk. by apply spared_chat_of. Qed.

Lemma spared_on_roster {A} u (m : Roster.RosterEnv J → prog (Roster.Roster J St) A) :
  u ≠ v → spares (on_roster cfg u m).
Proof. intros Hu. unfold on_roster. session_walk. by apply spared_roster_of. Qed.

Ltac user_walk :=
  repeat first
    [ walk_step
    | apply spared_on_chat; done | apply spared_on_roster; done
    | apply spared_chat_of; done | apply spared_roster_of; done
    | apply spared_load | apply spared_in_pool
    | apply spared_store; done | apply spared_delete; done
    | apply spared_emit; simpl; congruence
    | apply spared_modify; done
    | progress unfold getConversation, conversation, newConversation, newPrivateConversation,
        conversation_for, dressed, conv_handleMessage, wrapIncomingMedia ].

Lemma spared_pool_signal p e : only v e → spares (pool_signal cfg p e).
Proof. intros He. unfold pool_signal. destruct e; simpl in He; user_walk. Qed.

Lemma spared_on_pool {A} (m : prog Pool A) (P : Pool → Prop) :
  (∀ before, spec any_fault (λ p, quiet v before p ∧ P p) m (λ _, quiet v before)) →
  spec any_fault (λ s, spared s ∧ P (sv_pool s)) (on_pool cfg m) (λ _, spared).
Proof.
  intros Hm s [Hs HP]. unfold on_pool. rewrite !bind_run. cbn beta iota delta [get].
  rewrite bind_run. pose proof (spared_in_pool m s Hs) as Hin. unfold in_pool in *.
  assert (quiet v (events (sv_pool s)) (sv_pool s)) as Hq0 by (exists []; by rewrite app_nil_r).
  specialize (Hm _ _ (conj Hq0 HP)). destruct (m (sv_pool s)) as [a p|]; [|done].
  destruct Hm as (new & Ep & Hn).
  assert (spares (for_each new (pool_signal cfg (sv_pool s)) ;; mret a)) as Hw.
  { walk_step; [|by apply spec_ret]. apply spec_for_each. intros e He. apply spared_pool_signal.
    rewrite Forall_forall in Hn. by apply Hn. }
  specialize (Hw _ Hin). rewrite bind_run. cbn beta iota delta [get sv_pool with_pool].
  rewrite Ep, drop_app_length. exact Hw.
Qed.

Lemma spared_with_user name handler :
  (∀ u, u ≠ v → spares (handler u)) →
  spec any_fault (λ s, spared s ∧ answers_not v name (sv_pool s)) (with_user cfg name handler) (λ _, spared).
Proof.
  intros Hh s [Hs Ha]. unfold with_user, getUser. rewrite bind_run.
  pose proof (spared_in_pool (Pool.getUser (sc_pool cfg) getAllSettings name) s Hs) as Hin.
  unfold in_pool in *. destruct (Pool.getUser _ _ name (sv_pool s)) as [[u|] p|] eqn:E; [|done|done].
  apply Hh; [|done]. by eapply getUser_answers.
Qed.

(** The user a call names; the others are about the backend, an answer to a
    vCard request, or stanzas with users of their own. *)
Definition call_user (c : plugin_call) : option string :=
  match c with
  | PMessage user _ _ _ _ _ _ _ _ _ | PMessageAck user _ _ | PAttention user _ _ | PSubject user _ _ _
  | PBuddyChanged user _ _ _ _ _ _ _ | PBuddyRemoved user _ | PTyping user _ _ | PAuthorization user _
  | PConnected user | PDisconnected user _ _ | PParticipantChanged user _ _ _ _ _ _ _
  | PRoomNicknameChanged user _ _ => Some user
  | PRoomList user _ _ => if String.eqb user "" then None else Some user
  | PVCard _ _ _ _ _ _ | PConfig _ | PRawXML _ => None
  end.

Lemma served_spares call name : call_user call = Some name →
  spec any_fault (λ s, spared s ∧ answers_not v name (sv_pool s)) (served call) (λ _, spared).
Proof.
  intros Hn. destruct call; simpl in Hn; try discriminate Hn; simplify_eq; cbn [served];
    try (apply spared_with_user; intros u Hu; user_walk).
  - apply spared_on_pool. intros before. apply quiet_with_user; [|by apply spec_ret].
    intros u Hu. walk_step; [by apply quiet_setConnected|by apply quiet_log].
  - apply spared_on_pool. intros before.
    eapply (spec_bind _ _ _ (λ _ p, quiet v before p ∧ answers_not v name p)).
    + intros p [Hq Ha]. pose proof (quiet_log v before (PasswordInvalid name msg) I p Hq) as Hl. by split.
    + intros _. apply quiet_with_user; [|by apply spec_ret]. intros u Hu. by apply quiet_handleDisconnected.
  - destruct (String.eqb_spec user "") as [|Hne]; [discriminate Hn|]. injection Hn as ->.
    unfold room_list_received. cbn [RoomList.user RoomList.room RoomList.name].
    replace (String.eqb (str (Some name)) "") with false
      by (symmetry; by apply String.eqb_neq).
    change (negb false) with true. cbv beta iota. apply spared_with_user. intros u Hu. user_walk.
Qed.
End isolation.

(** C21: the calls of a backend about one user leave the other users alone: the
    conversations, the roster and the room list of a user that does not answer
    to the name stay exactly as they were, and no event about it is raised,
    whatever the call, even one that ends the named user's session. *)
Theorem other_users_untouched (call : plugin_call) (name : string) (v : uid) (s s' : Server J St X) :
  call_user call = Some name → answers_not v name (sv_pool s) → served call s = Done tt s' →
  sv_sessions s' !! v = sv_sessions s !! v ∧
  ∃ new, sv_out s' = sv_out s ++ new ∧ Forall (λ e, about e ≠ Some v) new.
Proof.
  intros Hc Ha E.
  assert (spared v (sv_sessions s !! v) (sv_out s) s) as Hs by (split; [done|exists []; by rewrite app_nil_r]).
  pose proof (served_spares v _ _ call name Hc s (conj Hs Ha)) as Hr. by rewrite E in Hr.
Qed.
End server.

(** ** A concrete server *)

#[export] Instance sample_libraries : Libraries ref_jid unit := {
  istarts_with := ascii_starts;
  iends_with := ascii_ends;
  image_search := find_image;
  to_lower s := s;
  from_iso_string s := if String.eqb s "20240229T120000" then Some 1709208000%Z else None;
  serialize_xml := show_element;
  serialize_iq _ := [];
  xmpp_parse x _ := (x, []);
  typeToAvailabilityOrdering _ := 0%Z;
  caps_known _ := true;
  getAllSettings _ l := l;
}.

Definition sample_config : ServerConfig ref_jid :=
  mkServerConfig (mkPoolConfig 10 true 0 0 false false false false) (mkRefJid "" "icq.h" "") true true false
    false false false 10.

(** The users u@h and v@h are on the backend 1; u@h talks to bob, who is a
    contact. *)
Definition sample_contact : Roster.Buddy ref_jid :=
  Roster.mkBuddy 1 2 Roster.Both (mkRefJid "bob" "icq.h" "bot") [] "bob" "Bob" [] "" "" Online.

Definition sample_session : Session ref_jid RosterStore.ref_rows :=
  mkSession (mkRefJid "u" "h" "")
    (Chat.mkChatState {[0 := Chat.mkConversation "bob" "" "" false (mkRefJid "u" "h" "phone") [] false false
                               false false None [] []]}
      [("bob"%string, Some 0)] 1 [] true true false 1 "" [] 0 [])
    (Roster.mkRoster {[0 := sample_contact]} 1 [("bob"%string, Some 0)] (Some []) false false [] 0 (Some 1) 1
      true false [] ∅ [])
    [].

Definition other_session : Session ref_jid RosterStore.ref_rows :=
  mkSession (mkRefJid "v" "h" "") (Chat.mkChatState ∅ [] 0 [] true true false 1 "" [] 0 [])
    (Roster.mkRoster ∅ 0 [] (Some []) false false [] 0 (Some 1) 1 true false [] ∅ []) [].

Definition sample_server : Server ref_jid RosterStore.ref_rows unit :=
  mkServer
    (mkPool {[1 := mkBackend 1 [2; 3] (Some 7) 0 0 0 true false false "1"]}
      {[2 := mkUser "u@h" (mkUserInfo 1 "u@h" "u" "" "" "" false []) (Some 1) true true false 0 0 0 [] 1;
        3 := mkUser "v@h" (mkUserInfo 2 "v@h" "v" "" "" "" false []) (Some 1) true true false 0 0 0 [] 1]}
      [1] [] [] false [] false 0 false {["u@h"%string := 2; "v@h"%string := 3]} None 0 0 4 [])
    {[2 := sample_session; 3 := other_session]} [] [] [] 0 tt [].

#[export] Existing Instance RosterStore.ref_storage.

(** bob types, and is renamed. *)
Definition sample_news : list plugin_call :=
  [PTyping "u@h" "bob" Composing; PBuddyChanged "u@h" "bob" "Robert" [] STATUS_AWAY "" "" false].

Lemma calls_reach_the_server_witness :
  ∃ pl', for_each sample_news perform_call (NetworkPlugin.mkPlugin [] true 0 []) = Done tt pl' ∧
    let stream := concat (written (NetworkPlugin.p_log pl')) in
    read_chunks ParseFromString (dispatch sample_config None 1) [] [take 9 stream; drop 9 stream] sample_server =
    (for_each sample_news (λ call, heard_from 1 ;; served sample_config call) ;; mret []) sample_server.
Proof.
  destruct (for_each sample_news perform_call (NetworkPlugin.mkPlugin [] true 0 [])) as [[] pl'|] eqn:E;
    [|discriminate E].
  exists pl'. split; [done|]. apply (calls_reach_the_server sample_config None 1 sample_news
    (NetworkPlugin.mkPlugin [] true 0 []) pl'); [|done|done| |].
  - apply Forall_cons; split; [simpl; auto|by constructor].
  - assert (Hl : match for_each sample_news perform_call (NetworkPlugin.mkPlugin [] true 0 []) with
                 | Done _ p => forallb (λ f, Z.of_nat (length f) <? 2 ^ 32)%Z (written (NetworkPlugin.p_log p))
                 | Fault _ => false
                 end = true) by (vm_compute; reflexivity).
    rewrite E in Hl. apply Forall_forall. intros f Hf.
    eapply forallb_forall in Hl; [|by apply list_elem_of_In]. by apply Z.ltb_lt in Hl.
  - simpl. by rewrite app_nil_r, take_drop.
Defined.

Lemma other_users_untouched_witness :
  ∃ s', served sample_config (PDisconnected "v@h" 4 "bye") sample_server = Done tt s' ∧
    sv_sessions s' !! 2 = Some sample_session.
Proof.
  destruct (served sample_config (PDisconnected "v@h" 4 "bye") sample_server) as [[] s'|] eqn:E.
  - exists s'. split; [done|].
    destruct (other_users_untouched sample_config (PDisconnected "v@h" 4 "bye") "v@h" 2 sample_server s')
      as [-> _]; [done| |done|done].
    split; [done|]. by intros o [= <-].
  - discriminate E.
Defined.
