(* ===== verification/Delivery.v ===== *)
(** * Messages, answers and failures

    Runs of the handlers of [Server] from end to end: what a message of a contact
    looks like when it leaves for the user, where the answer to a raw IQ goes,
    and how a backend stops the server. *)

From S2P Require Import Prelude StdMap Swiften Protocol Framing ReferenceCodec Names Pool Outgoing Media.
From S2P Require Roster RosterStore Chat PresenceOracle NetworkPlugin.
From S2P Require Import Server ServerTheorems.
Import pbnetwork.

Section delivery.
Context {J St X : Type} `{Jid J} `{Roster.BuddyStorage St} `{Protobuf} `{!Libraries J X}.
Context (cfg : ServerConfig J).

Abbreviation Srv := (Server J St X).
Abbreviation server := (prog Srv).

(** ** Calls of a user's objects *)

(** The user is alive, with this session. *)
Definition at_user (u : uid) (o : User) (ss : Session J St) (s : Srv) : Prop :=
  users (sv_pool s) !! u = Some o ∧ sv_sessions s !! u = Some ss.

(** What calls of a user's objects do not change. *)
Definition same_rest (s s' : Srv) : Prop :=
  sv_pool s' = sv_pool s ∧ sv_oracle s' = sv_oracle s ∧ m_id2resource s' = m_id2resource s ∧
  sv_rooms s' = sv_rooms s ∧ m_sentToXMPP s' = m_sentToXMPP s ∧ sv_parser s' = sv_parser s.

Lemma same_rest_refl s : same_rest s s.
Proof. done. Qed.

Lemma same_rest_trans s1 s2 s3 : same_rest s1 s2 → same_rest s2 s3 → same_rest s1 s3.
Proof. unfold same_rest. intuition congruence. Qed.

Lemma in_pool_load u o (s : Srv) : users (sv_pool s) !! u = Some o → in_pool (load_user u) s = Done o s.
Proof.
  intros Hu. unfold in_pool, load_user. rewrite bind_run. cbn beta iota delta [get]. rewrite Hu. by destruct s.
Qed.

Lemma load_session_run u ss (s : Srv) : sv_sessions s !! u = Some ss → load_session u s = Done ss s.
Proof. intros Hs. unfold load_session. rewrite bind_run. cbn beta iota delta [get]. by rewrite Hs. Qed.

(** The events of a conversation that stay in the log. *)
Definition plain_event (e : Chat.chat_event J) : Prop :=
  match e with
  | Chat.RoomJoined _ _ _ _ | Chat.RoomLeft _ | Chat.ReadyToConnect => False
  | _ => True
  end.

Lemma chat_signals_run u o es (s : Srv) : Forall plain_event es →
  ∃ s', for_each es (chat_signal cfg u o) s = Done tt s' ∧ same_rest s s' ∧
    sv_sessions s' = sv_sessions s ∧ sv_out s' = sv_out s ++ map (ChatEvent u) es.
Proof.
  intros Hp. revert s. induction Hp as [|e es He _ IH]; intros s; simpl.
  - exists s. by rewrite app_nil_r.
  - destruct (IH (with_out (λ l, l ++ [ChatEvent u e]) s)) as (s' & E & Hr & Hs & Ho).
    exists s'. split; [|split; [by unfold same_rest in *|split; [done|rewrite Ho; simpl; by rewrite <- app_assoc]]].
    rewrite bind_run. unfold chat_signal at 1. rewrite bind_run. cbn beta iota delta [emit modify].
    by destruct e.
Qed.

Lemma on_chat_run {A} u o ss (s : Srv) (m : Chat.ChatEnv J → prog (Chat.ChatState J) A) a c :
  at_user u o ss s → m (chat_env cfg o ss) (refresh_chat o s (ss_chat ss)) = Done a c →
  Forall plain_event (Chat.out c) →
  ∃ s', on_chat cfg u m s = Done a s' ∧ same_rest s s' ∧ at_user u o (set_chat c ss) s' ∧
    sv_out s' = sv_out s ++ map (ChatEvent u) (Chat.out c).
Proof.
  intros [Hu Hs] Hm Hp. unfold on_chat, chat_of.
  rewrite (bind_done _ _ _ _ _ (in_pool_load u o s Hu)), bind_run. cbn beta iota delta [get].
  rewrite (bind_done _ _ _ _ _ (load_session_run u ss s Hs)), Hm, bind_run.
  unfold store_session. rewrite (bind_done _ _ _ _ _ (load_session_run u ss s Hs)).
  cbn beta iota delta [modify].
  destruct (chat_signals_run u o (Chat.out c) (with_sessions <[u := set_chat c ss]> s) Hp)
    as (s' & E & Hr & Hss & Ho).
  exists s'. rewrite bind_run, E. split; [done|]. split; [exact Hr|]. split; [|done].
  destruct Hr as [Hpool _]. unfold at_user. rewrite Hpool, Hss. simpl. by rewrite lookup_insert_eq.
Qed.

Lemma on_roster_run {A} u o ss (s : Srv) (m : Roster.RosterEnv J → prog (Roster.Roster J St) A) a r :
  at_user u o ss s → m (roster_env cfg o ss) (refresh_roster o s ss) = Done a r → Roster.r_out r = [] →
  ∃ s', on_roster cfg u m s = Done a s' ∧ same_rest s s' ∧ at_user u o (set_roster r ss) s' ∧
    sv_out s' = sv_out s.
Proof.
  intros [Hu Hs] Hm Hp. unfold on_roster, roster_of.
  rewrite (bind_done _ _ _ _ _ (in_pool_load u o s Hu)), bind_run. cbn beta iota delta [get].
  rewrite (bind_done _ _ _ _ _ (load_session_run u ss s Hs)), Hm, bind_run.
  unfold store_session. rewrite (bind_done _ _ _ _ _ (load_session_run u ss s Hs)).
  cbn beta iota delta [modify]. rewrite Hp. simpl.
  exists (with_sessions <[u := set_roster r ss]> s). split; [by destruct s|].
  unfold at_user. simpl. by rewrite lookup_insert_eq.
Qed.

(** ** A conversation with a contact *)

Section contact.
Context (name : string) (c : Chat.cid) (conv : Chat.Conversation J) (b : nat) (contact : Roster.Buddy J).

(** The conversation of that name is with one person, a contact with an address. *)
Record with_contact (ss : Session J St) : Prop := {
  wc_found : Chat.find_conversation (String.length name) name (Chat.m_convs (ss_chat ss)) = Some c;
  wc_conv : Chat.heap (ss_chat ss) !! c = Some conv;
  wc_buddy : sfind (to_lower (Chat.c_legacyName conv)) (Roster.m_buddies (ss_roster ss)) = Some (Some b);
  wc_contact : Roster.r_heap (ss_roster ss) !! b = Some contact;
}.

Hypothesis one_to_one : Chat.c_muc conv = false ∧ Chat.c_room conv = ""%string.
Hypothesis addressed : isValid (Roster.b_jid contact) = true ∧ getNode (Roster.b_jid contact) ≠ ""%string.

Definition ready (u : uid) (s : Srv) : Prop := ∃ o ss, at_user u o ss s ∧ with_contact ss.

(** A call that leaves the user ready, says [es] and changes nothing else. *)
Definition says {A} (u : uid) (s : Srv) (a : A) (es : list (Chat.chat_event J)) (r : result Srv A) : Prop :=
  ∃ s', r = Done a s' ∧ ready u s' ∧ same_rest s s' ∧ sv_out s' = sv_out s ++ map (ChatEvent u) es.

Lemma says_bind {A B} u s a es es' (m : server A) (k : A → server B) x :
  says u s a es (m s) → (∀ s', ready u s' → says u s' x es' (k a s')) → says u s x (es ++ es') ((m ≫= k) s).
Proof.
  intros (s1 & E & Hs1 & R1 & O1) Hk. destruct (Hk s1 Hs1) as (s2 & E2 & Hs2 & R2 & O2).
  exists s2. rewrite bind_run, E. split_and!; [done|done|by eapply same_rest_trans|].
  by rewrite O2, O1, map_app, app_assoc.
Qed.

(** Calls that only read the conversations, and calls that say something. *)
Lemma says_chat {A} u s (m : Chat.ChatEnv J → prog (Chat.ChatState J) A) a es :
  ready u s →
  (∀ o ss, at_user u o ss s → with_contact ss →
    m (chat_env cfg o ss) (refresh_chat o s (ss_chat ss)) =
    Done a (Chat.with_out (λ l, l ++ es) (refresh_chat o s (ss_chat ss)))) →
  Forall plain_event es → says u s a es (on_chat cfg u m s).
Proof.
  intros (o & ss & Hat & Hc) Hm Hp. specialize (Hm o ss Hat Hc).
  destruct (on_chat_run u o ss s m a _ Hat Hm Hp) as (s' & E & Hr & Hat' & Ho).
  exists s'. split_and!; [done| |done|exact Ho]. eexists o, _. split; [exact Hat'|]. by destruct Hc; split.
Qed.

Lemma getConversation_says u s : ready u s → says u s (Some c) [] (getConversation cfg u name s).
Proof.
  intros Hs. apply says_chat; [done| |constructor]. intros o ss _ Hc.
  unfold Chat.getConversation. rewrite bind_run. cbn. by rewrite (wc_found _ Hc).
Qed.

Lemma contact_says u s : ready u s →
  says u s tt [] (on_roster cfg u (λ env,
    b ← Roster.getBuddy env (Chat.c_legacyName conv);
    match b with
    | Some b => _ ← Roster.getJID env b; mret tt
    | None => mret tt
    end) s).
Proof.
  intros (o & ss & Hat & Hc). destruct addressed as [Hv Hn].
  destruct (on_roster_run u o ss s (λ env,
    b ← Roster.getBuddy env (Chat.c_legacyName conv);
    match b with
    | Some b => _ ← Roster.getJID env b; mret tt
    | None => mret tt
    end) tt (refresh_roster o s ss) Hat) as (s' & E & Hr & Hat' & Ho); [|done|].
  - unfold Roster.getBuddy. rewrite !bind_run. cbn beta iota delta [get]. simpl.
    rewrite (wc_buddy _ Hc), ret_run. rewrite bind_run. unfold Roster.getJID, Roster.load. rewrite !bind_run.
    cbn beta iota delta [get]. simpl. rewrite (wc_contact _ Hc). cbn. rewrite Hv. simpl.
    apply String.eqb_neq in Hn. rewrite Hn. unfold when. rewrite bind_run.
    cbn beta iota delta [mret prog_ret]. rewrite !bind_run. cbn beta iota delta [get]. simpl.
    by rewrite (wc_contact _ Hc).
  - exists s'. split_and!; [done| |done|by rewrite Ho; simpl; rewrite app_nil_r].
    eexists o, _. split; [exact Hat'|]. by destruct Hc; split.
Qed.

(** What a message of the contact leaves as. *)
Definition to_user (m : Message J) : Message J :=
  mkMessage (Roster.b_jid contact) (Chat.c_jid conv) Chat (m_body m) (m_subject m) (m_payloads m).

Lemma handleMessage_says u s m : server_mode (sc_pool cfg) = false → m_type m = Chat → ready u s →
  says u s tt [Chat.SendMessage (to_user m)]
    (on_chat cfg u (λ env, Chat.handleMessage typeToAvailabilityOrdering env c m "" false) s).
Proof.
  intros Hmode Ht Hs. apply says_chat; [done| |by repeat constructor]. intros o ss _ Hc.
  destruct one_to_one as [Hmuc Hroom]. destruct addressed as [Hv Hn].
  unfold Chat.handleMessage, Chat.load. rewrite !bind_run. cbn beta iota delta [get]. simpl Chat.heap.
  rewrite (wc_conv _ Hc). cbn [deref mret prog_ret].
  assert (Chat.addressed (chat_env cfg o ss) conv m "" =
    to_user m) as ->.
  { unfold to_user, Chat.addressed, Chat.incoming_type. rewrite Hmuc, Hroom. destruct m as [from to type body subject payloads].
    simpl in Ht |- *. subst type. simpl. unfold Chat.private_sender. simpl.
    unfold known_contact. rewrite (wc_buddy _ Hc). simpl. rewrite (wc_contact _ Hc). simpl. rewrite Hv. simpl.
    apply String.eqb_neq in Hn. by rewrite Hn. }
  unfold Chat.handleRawMessage, Chat.load. rewrite !bind_run. cbn beta iota delta [get]. simpl Chat.heap.
  rewrite (wc_conv _ Hc). cbn [deref mret prog_ret]. simpl. by rewrite Hmode.
Qed.

(** *** The whole call *)

Lemma asks_says u s m : ready u s → m_type m = Chat →
  says u s (true, Chat.c_legacyName conv) [] (on_chat cfg u (λ env,
    o ← Chat.load c; mret (asks_roster o env m "", Chat.c_legacyName o)) s).
Proof.
  intros Hs Ht. apply says_chat; [done| |constructor]. intros o ss _ Hc. destruct one_to_one as [Hmuc Hroom].
  unfold Chat.load. rewrite !bind_run. cbn beta iota delta [get]. simpl Chat.heap. rewrite (wc_conv _ Hc).
  cbn [deref mret prog_ret]. unfold asks_roster, Chat.incoming_type. by rewrite Hmuc, Hroom, Ht.
Qed.

Lemma conv_handleMessage_says u s m : server_mode (sc_pool cfg) = false → m_type m = Chat → ready u s →
  says u s tt [Chat.SendMessage (to_user m)] (conv_handleMessage cfg u c m "" false s).
Proof.
  intros Hmode Ht Hs. unfold conv_handleMessage.
  eapply (says_bind u s _ [] [_]); [by apply asks_says|]. intros s1 Hs1. cbn [fst snd when].
  eapply (says_bind u s1 _ [] [_]); [by apply contact_says|]. intros s2 Hs2. by apply handleMessage_says.
Qed.

(** Noting the user's activity. *)
Lemma touch_ready u (s : Srv) : ready u s →
  ∃ s', in_pool (p ← get; update_user u (set_lastActivity (now p))) s = Done tt s' ∧ ready u s' ∧
    sv_out s' = sv_out s ∧ m_sentToXMPP s' = m_sentToXMPP s.
Proof.
  intros (o & ss & [Hu Hss] & Hc). unfold in_pool, update_user, load_user. rewrite !bind_run.
  cbn beta iota delta [get]. rewrite !bind_run. cbn beta iota delta [get]. rewrite Hu.
  cbn [deref mret prog_ret]. cbn beta iota delta [modify].
  eexists. split; [done|]. split; [|done]. eexists (set_lastActivity _ o), ss.
  split; [|done]. split; [|done]. simpl. apply lookup_insert_eq.
Qed.

(** The conversation of the name is found. *)
Lemma conversation_for_says u s payload : ready u s → ConversationMessage.buddyName payload = Some name →
  flag_of (ConversationMessage.pm payload) = false →
  says u s (Some c) [] (conversation_for cfg u payload s).
Proof.
  intros Hs Hn Hpm. unfold conversation_for. rewrite Hn, Hpm. cbn [str default from_option id].
  eapply (says_bind u s _ [] []); [by apply getConversation_says|]. intros s1 Hs1. cbn.
  exists s1. split_and!; [done|done|apply same_rest_refl|]. simpl. by rewrite app_nil_r.
Qed.

(** C22: in a gateway, which is not in server mode, a message of a contact reaches the
    user: in a conversation of a logged in user with a contact of the roster, a plain
    message of the backend leaves, once, from the contact's address to the resource the
    conversation is with, with the text of the backend and an active chat state, and is
    counted. In server mode it may be cached for a user who is away, or copied to the
    other resources; that is not claimed here. *)
Theorem contact_message_delivered (user text : string) (u : uid) (s s1 : Srv) :
  server_mode (sc_pool cfg) = false → getUser cfg user s = Done (Some u) s1 → ready u s1 →
  ∃ s', served cfg (PMessage user name text "" "" "" false false false []) s = Done tt s' ∧
    sv_out s' = sv_out s1 ++
      [ChatEvent u (Chat.SendMessage
         (mkMessage (Roster.b_jid contact) (Chat.c_jid conv) Chat text "" [ChatState Active]))] ∧
    m_sentToXMPP s' = (m_sentToXMPP s1 + 1)%Z.
Proof.
  intros Hmode Hu Hs1. cbn [served]. unfold message_received, with_user. simpl (str _).
  rewrite (bind_done _ _ _ _ _ Hu).
  destruct (touch_ready u s1 Hs1) as (s2 & E2 & Hs2 & Ho2 & Hn2).
  rewrite (bind_done _ _ _ _ _ E2).
  destruct (conversation_for_says u s2 (ConversationMessage.make (Some user) (Some name) (Some text) (Some ""%string)
    (Some ""%string) (Some ""%string) (Some false) None (Some false) (Some false) []) Hs2 eq_refl eq_refl)
    as (s3 & E3 & Hs3 & R3 & Ho3).
  rewrite (bind_done _ _ _ _ _ E3). cbv beta iota.
  unfold incoming_message. cbn [ConversationMessage.xhtml str default from_option id ConversationMessage.message
    ConversationMessage.attachment foldl String.eqb negb]. rewrite andb_false_r.
  set (m := addPayload (ChatState Active) (setBody text Chat.empty_message)).
  destruct (conv_handleMessage_says u s3 m Hmode eq_refl Hs3) as (s4 & E4 & _ & R4 & Ho4).
  exists (with_sentToXMPP (λ n, n + 1)%Z s4). split.
  - rewrite (bind_done _ _ s3 s3 [setBody text Chat.empty_message]) by reflexivity.
    rewrite (bind_done _ _ s3 s4 tt); [done|]. simpl for_each.
    rewrite (bind_done _ _ s3 s4 tt); [done|].
    rewrite (bind_done _ _ s3 s3 m); [exact E4|reflexivity].
  - simpl. rewrite Ho4, Ho3, Ho2. simpl. rewrite app_nil_r. split; [done|].
    destruct R3 as (_ & _ & _ & _ & E3' & _), R4 as (_ & _ & _ & _ & E4' & _). congruence.
Qed.

(** a backend stops the server with a date: in an open conversation, a
    message whose timestamp is not an ISO date ends in an exception nobody
    catches. *)
Theorem bad_timestamp_stops (user text timestamp : string) (u : uid) (s s1 : Srv) :
  getUser cfg user s = Done (Some u) s1 → ready u s1 →
  timestamp ≠ ""%string → from_iso_string timestamp = None →
  served cfg (PMessage user name text "" "" timestamp false false false []) s = Fault UncaughtException.
Proof.
  intros Hu Hs1 Ht Hd. cbn [served]. unfold message_received, with_user. simpl (str _).
  rewrite (bind_done _ _ _ _ _ Hu). destruct (touch_ready u s1 Hs1) as (s2 & E2 & Hs2 & _).
  rewrite (bind_done _ _ _ _ _ E2).
  destruct (conversation_for_says u s2 (ConversationMessage.make (Some user) (Some name) (Some text) (Some ""%string)
    (Some ""%string) (Some timestamp) (Some false) None (Some false) (Some false) []) Hs2 eq_refl eq_refl)
    as (s3 & E3 & _).
  rewrite (bind_done _ _ _ _ _ E3). cbv beta iota.
  unfold incoming_message. cbn [ConversationMessage.xhtml str default from_option id ConversationMessage.message
    ConversationMessage.attachment foldl String.eqb negb]. rewrite andb_false_r.
  rewrite (bind_done _ _ s3 s3 [setBody text Chat.empty_message]) by reflexivity.
  rewrite bind_run. simpl for_each. rewrite bind_run. unfold dressed at 1. simpl (str _).
  apply String.eqb_neq in Ht. rewrite Ht, Hd. reflexivity.
Qed.
End contact.

(** ** The answer to a raw IQ *)

Section requests.
Context (ids : smap string string).

(** The requests that wait for an answer. *)
Definition waiting (s : Srv) : Prop := m_id2resource s = ids.

Abbreviation waits m := (spec any_fault waiting m (λ _, waiting)).

Lemma waiting_modify f : (∀ s, m_id2resource (f s) = m_id2resource s) → waits (modify f).
Proof. intros Hf s Hs. change (waiting (f s)). unfold waiting. by rewrite Hf. Qed.

Lemma waiting_in_pool {A} (m : prog Pool A) : waits (in_pool m).
Proof. intros s Hs. unfold in_pool. by destruct (m (sv_pool s)). Qed.

Lemma waiting_load u : waits (load_session u).
Proof. unfold load_session. walk_step; [by apply spec_get|]. by apply spec_deref. Qed.

Ltac wait_walk :=
  repeat first
    [ walk_step
    | apply waiting_load | apply waiting_in_pool
    | apply waiting_modify; done
    | progress unfold store_session, emit, chat_signal, roster_signal, chat_of, roster_of, on_chat, on_roster,
        getConversation, conversation ].

Lemma waiting_on_chat {A} u (m : Chat.ChatEnv J → prog (Chat.ChatState J) A) : waits (on_chat cfg u m).
Proof. wait_walk. Qed.

Lemma waiting_on_roster {A} u (m : Roster.RosterEnv J → prog (Roster.Roster J St) A) : waits (on_roster cfg u m).
Proof. wait_walk. Qed.

(** Who an answer comes from is found without touching the requests. *)
Lemma handleElement_iq reply u s s1 s3 : waiting s →
  getUser cfg (bare_string (iq_to reply)) s = Done (Some u) s1 →
  handleElement cfg (Some (StanzaIQ reply)) s = Done tt s3 →
  ∃ s2 from, waiting s2 ∧ handleRawIQ cfg u (setIQFrom from reply) s2 = Done tt s3.
Proof.
  intros Hs Hu. unfold handleElement, with_user. cbn [stanza_to stanza_from].
  rewrite (bind_done _ _ _ _ _ Hu). cbv beta iota.
  assert (waiting s1) as Hs1.
  { pose proof (waiting_in_pool (Pool.getUser (sc_pool cfg) getAllSettings (bare_string (iq_to reply))) s Hs) as Hw.
    unfold getUser in Hu. by rewrite Hu in Hw. }
  set (sender := bare_string (iq_from reply)). rewrite bind_run.
  pose proof (waiting_on_chat u (λ _, Chat.getConversation sender) s1 Hs1) as Hc.
  unfold getConversation. destruct (on_chat cfg u _ s1) as [conv s2|]; [|done].
  rewrite bind_run. pose proof (waiting_on_roster u (λ env, Roster.getBuddy env sender) s2 Hc) as Hb.
  destruct (on_roster cfg u _ s2) as [buddy s4|]; [|done]. rewrite bind_run.
  match goal with |- match ?m s4 with _ => _ end = _ → _ => assert (waits m) as Hm end.
  { destruct buddy as [b|]; [walk_step; [apply waiting_on_roster|by apply spec_ret]|].
    walk_step; [|by apply spec_ret]. destruct conv; [|by apply spec_ret].
    walk_step; [apply waiting_on_chat|by apply spec_ret]. }
  specialize (Hm s4 Hb). match goal with |- match ?r with _ => _ end = _ → _ => destruct r as [from s5|]; [|done] end.
  intros E. by exists s5, from.
Qed.
End requests.

(** the answer to a client's raw IQ goes back to the resource that asked:
    once a get request of a user on a backend was forwarded, a result the backend
    sends to the user's bare address under the same id leaves for that resource,
    whatever happened in between to everything else, and the request is
    forgotten. *)
Theorem iq_answer_returns (iq reply : IQ J) (u : uid) (s s1 s2 s3 : Srv) (o : User) (c : bid) :
  iq_isGet iq = true → getUser cfg (bare_string (iq_from iq)) s = Done (Some u) s1 →
  users (sv_pool s1) !! u = Some o → u_data o = Some c →
  iq_id reply = iq_id iq → bare_string (iq_to reply) = bare_string (iq_from iq) →
  let key := (bare_string (iq_from iq) +:+ iq_id iq)%string in
  let to := make_jid (getNode (iq_to reply)) (getDomain (iq_to reply)) (getResource (iq_from iq)) in
  server_mode (sc_pool cfg) = true ∨ isValid to = true →
  handleRawIQReceived cfg iq s = Done tt s2 →
  sfind key (m_id2resource s2) = Some (getResource (iq_from iq)) ∧
  ∀ later u' s', m_id2resource later = m_id2resource s2 →
    getUser cfg (bare_string (iq_to reply)) later = Done (Some u') s' →
    handleElement cfg (Some (StanzaIQ reply)) later = Done tt s3 →
    m_id2resource s3 = serase key (m_id2resource s2) ∧
    ∃ from, last (sv_out s3) = Some (SendIQ (setIQTo to (setIQFrom from reply))).
Proof.
  intros Hget Hu Ho Hd Hid Hto key to Hvalid E.
  assert (sfind key (m_id2resource s2) = Some (getResource (iq_from iq))) as Hkey.
  { revert E. unfold handleRawIQReceived, with_user. rewrite (bind_done _ _ _ _ _ Hu). cbv beta iota.
    rewrite (bind_done _ _ _ _ _ (in_pool_load u o s1 Ho)). rewrite Hd, Hget. cbn [when]. rewrite bind_run. cbn beta iota delta [modify].
    unfold in_pool. destruct (send_to _ _ _) as [[] p|]; [|done]. intros [= <-]. simpl. apply sfind_sinsert_eq. }
  split; [done|]. intros later u' s' Hl Hu' E3.
  destruct (handleElement_iq _ reply u' later s' s3 Hl Hu' E3) as (s4 & from & Hw & E4).
  unfold waiting in Hw.
  assert (sfind key (m_id2resource s4) = Some (getResource (iq_from iq))) as Hk4 by (by rewrite Hw).
  revert E4. unfold handleRawIQ. rewrite bind_run. cbn beta iota delta [get]. cbn [iq_to setIQFrom iq_id].
  rewrite Hto, Hid. fold key. rewrite Hk4. rewrite !bind_run. cbn beta iota delta [modify mret prog_ret].
  cbn [iq_to setIQTo]. fold to.
  assert (negb (server_mode (sc_pool cfg)) && negb (isValid to) = false) as ->.
  { by destruct Hvalid as [-> | ->]; [|rewrite andb_false_r]. }
  unfold emit, modify. intros [= <-]. simpl. rewrite Hw. split; [done|]. exists from. apply last_snoc.
Qed.
End delivery.

(** ** Witnesses *)

Definition bob_conversation : Chat.Conversation ref_jid :=
  Chat.mkConversation "bob" "" "" false (mkRefJid "u" "h" "phone") [] false false false false None [] [].

(** The sample server once it has looked up u@h. *)
Definition sample_found : Server ref_jid RosterStore.ref_rows unit :=
  with_pool (with_cachedUser (Some 2) (sv_pool sample_server)) sample_server.

Lemma sample_getUser : getUser sample_config "u@h" sample_server = Done (Some 2) sample_found.
Proof. reflexivity. Qed.

Lemma sample_ready : ready "bob" 0 bob_conversation 0 sample_contact 2 sample_found.
Proof. eexists _, sample_session. split; [split; reflexivity|]. split; reflexivity. Qed.

Lemma contact_message_delivered_witness :
  ∃ s', served sample_config (PMessage "u@h" "bob" "hello" "" "" "" false false false []) sample_server = Done tt s' ∧
    sv_out s' = [ChatEvent 2 (Chat.SendMessage
      (mkMessage (mkRefJid "bob" "icq.h" "bot") (mkRefJid "u" "h" "phone") Chat "hello" "" [ChatState Active]))].
Proof.
  destruct (contact_message_delivered sample_config "bob" 0 bob_conversation 0 sample_contact
    ltac:(split; reflexivity) ltac:(split; [reflexivity|discriminate]) "u@h" "hello" 2 sample_server sample_found
    eq_refl sample_getUser sample_ready) as (s' & E & Ho & _).
  exists s'. split; [done|]. rewrite Ho. reflexivity.
Defined.

Lemma bad_timestamp_stops_witness :
  served sample_config (PMessage "u@h" "bob" "hello" "" "" "yesterday" false false false []) sample_server =
  Fault UncaughtException.
Proof.
  apply (bad_timestamp_stops sample_config "bob" 0 bob_conversation 0 sample_contact "u@h" "hello" "yesterday" 2
    sample_server sample_found sample_getUser sample_ready); [discriminate|reflexivity].
Defined.

(** The phone of u@h asks for something, the backend answers to the account. *)
Definition sample_request : IQ ref_jid :=
  mkIQ "q1" (mkRefJid "u" "h" "phone") (mkRefJid "bob" "icq.h" "") true "version".
Definition sample_answer : IQ ref_jid :=
  mkIQ "q1" (mkRefJid "bob" "" "") (mkRefJid "u" "h" "") false "1.0".

Lemma iq_answer_returns_witness :
  ∃ s2 s3 from, handleRawIQReceived sample_config sample_request sample_server = Done tt s2 ∧
    handleElement sample_config (Some (StanzaIQ sample_answer)) s2 = Done tt s3 ∧
    last (sv_out s3) = Some (SendIQ (mkIQ "q1" from (mkRefJid "u" "h" "phone") false "1.0")).
Proof.
  destruct (handleRawIQReceived sample_config sample_request sample_server) as [[] s2|] eqn:E2; [|discriminate E2].
  destruct (handleElement sample_config (Some (StanzaIQ sample_answer)) s2) as [[] s3|] eqn:E3.
  - destruct (iq_answer_returns sample_config sample_request sample_answer 2 sample_server sample_found s2 s3
      (mkUser "u@h" (mkUserInfo 1 "u@h" "u" "" "" "" false []) (Some 1) true true false 0 0 0 [] 1) 1)
      as [_ Ha]; [reflexivity..|by right|done|].
    assert (Hu : getUser sample_config (bare_string (iq_to sample_answer)) s2 = Done (Some 2) s2)
      by (injection E2 as <-; reflexivity).
    destruct (Ha s2 2 s2 eq_refl Hu E3) as [_ [from Hl]]. by exists s2, s3, from.
  - injection E2 as <-. discriminate E3.
Defined.
