(* ===== verification/Responders.v ===== *)
(** * The responders of the XMPP frontend

    What answers the requests of XMPP clients (frontends/xmpp): service discovery
    (discoinforesponder.cpp, discoitemsresponder.cpp), vCards (vcardresponder.cpp), the
    prompt of a gateway (gatewayresponder.cpp), private storage (storageresponder.cpp)
    and carbons (carbonresponder.cpp). They work over the users of [Server]: a request
    for a vCard goes to the backend through the pool, and its answer comes from
    [Server] as the event [SendVCard]. *)

From S2P Require Import Prelude StdMap Swiften Protocol Framing Names Pool Outgoing Server Registration.
From S2P Require Text Roster UserManager Sqlite.

#[export] Existing Instance Sqlite.Z_key.

(** ** Data *)

(** Swift::DiscoInfo *)
Record Identity := mkIdentity {
  id_name : string;
  id_category : string;
  id_type : string;
}.

Record DiscoInfo := mkDiscoInfo {
  di_node : string;
  di_identities : list Identity;
  di_features : list string;
}.

Definition empty_info : DiscoInfo := mkDiscoInfo "" [] [].
Definition set_node (node : string) (i : DiscoInfo) : DiscoInfo := mkDiscoInfo node (di_identities i) (di_features i).
Definition addIdentity (x : Identity) (i : DiscoInfo) : DiscoInfo :=
  mkDiscoInfo (di_node i) (di_identities i ++ [x]) (di_features i).
Definition addFeature (f : string) (i : DiscoInfo) : DiscoInfo :=
  mkDiscoInfo (di_node i) (di_identities i) (di_features i ++ [f]).
Definition hasFeature (f : string) (i : DiscoInfo) : bool := bool_decide (f ∈ di_features i).

(** Swift::DiscoItems *)
Record Item (J : Type) := mkItem {
  it_name : string;
  it_jid : J;
  it_node : string;
}.
Arguments mkItem {J}.
Arguments it_name {J}.
Arguments it_jid {J}.
Arguments it_node {J}.

(** What the responders read of a Swift::VCard. *)
Record VCard := mkVCard {
  vc_fullname : string;
  vc_nickname : string;
  vc_photo : string;
}.

Definition empty_vcard : VCard := mkVCard "" "" "".

(** VCardResponder::VCardData *)
Record VCardData (J : Type) := mkVCardData {
  vq_from : J;
  vq_to : J;
  vq_id : string;
  vq_received : Z;
}.
Arguments mkVCardData {J}.
Arguments vq_from {J}.
Arguments vq_to {J}.
Arguments vq_id {J}.
Arguments vq_received {J}.

Inductive Condition := ItemNotFound | NotAcceptable | FeatureNotImplemented.

Inductive response (J : Type) :=
  | SendError (to : J) (id : string) (condition : Condition)
  (** [from] where the code gives one *)
  | SendInfo (to : J) (from : option J) (id : string) (info : DiscoInfo)
  | SendItems (to : J) (id node : string) (items : list (Item J))
  | SendVCard (to from : J) (id : string) (vcard : VCard)
  | AcceptVCard (to : J) (id : string)
  | SendPrompt (to : J) (id label prompt : string)
  | SendJid (to : J) (id jid : string)
  | SendStorage (to : J) (id xml : string)
  | AcceptStorage (to : J) (id : string)
  | AcceptCarbons (to from : J) (id : string)
  (** onBuddyCapsInfoChanged *)
  | BuddyCapsInfoChanged (info : DiscoInfo)
  (** start of m_collectTimer *)
  | CollectTimerStarted.
Arguments SendError {J}.
Arguments SendInfo {J}.
Arguments SendItems {J}.
Arguments SendVCard {J}.
Arguments AcceptVCard {J}.
Arguments SendPrompt {J}.
Arguments SendJid {J}.
Arguments SendStorage {J}.
Arguments AcceptStorage {J}.
Arguments AcceptCarbons {J}.
Arguments BuddyCapsInfoChanged {J}.
Arguments CollectTimerStarted {J}.

(** DiscoInfoResponder and DiscoItemsResponder; [d_rooms] holds a room's address and
    its name. *)
Record Disco := mkDisco {
  m_transportFeatures : list string;
  m_transportInfo : DiscoInfo;
  m_buddyInfo : DiscoInfo;
  i_rooms : smap string string;
  i_commands : smap string string;
  d_rooms : list (string * string);
  d_commands : list (string * string);
}.

Record Responders (J St X Db : Type) := mkResponders {
  rs_server : Server J St X;
  rs_disco : Disco;
  m_queries : smap Z (VCardData J);
  m_id : Z;
  rs_storage : Db;
  rs_out : list (response J);
}.
Arguments mkResponders {J St X Db}.
Arguments rs_server {J St X Db}.
Arguments rs_disco {J St X Db}.
Arguments m_queries {J St X Db}.
Arguments m_id {J St X Db}.
Arguments rs_storage {J St X Db}.
Arguments rs_out {J St X Db}.

(** The configuration's identity.*, features.* and gateway_responder.*. *)
Record RespondersConfig := mkRespondersConfig {
  identity_name : string;
  identity_category : string;
  identity_type : string;
  features_muc : bool;
  features_receipts : bool;
  gateway_prompt : string;
  gateway_label : string;
}.

(** unsigned int *)
Definition to_uint (z : Z) : Z := (z mod 2 ^ 32)%Z.

Section responders.
Context {J St X Db : Type} `{Jid J} `{Roster.BuddyStorage St} `{Protobuf} `{!Libraries J X} `{AccountStorage Db}.
Context (scfg : ServerConfig J) (cfg : RespondersConfig).

Abbreviation resp A := (prog (Responders J St X Db) A).
Implicit Types (s : Responders J St X Db) (d : Disco).

Definition with_server x s : Responders J St X Db := mkResponders x (rs_disco s) (m_queries s) (m_id s) (rs_storage s) (rs_out s).
Definition with_disco x s : Responders J St X Db := mkResponders (rs_server s) x (m_queries s) (m_id s) (rs_storage s) (rs_out s).
Definition with_queries f s : Responders J St X Db := mkResponders (rs_server s) (rs_disco s) (f (m_queries s)) (m_id s) (rs_storage s) (rs_out s).
Definition with_id x s : Responders J St X Db := mkResponders (rs_server s) (rs_disco s) (m_queries s) x (rs_storage s) (rs_out s).
Definition with_storage x s : Responders J St X Db := mkResponders (rs_server s) (rs_disco s) (m_queries s) (m_id s) x (rs_out s).
Definition with_out f s : Responders J St X Db := mkResponders (rs_server s) (rs_disco s) (m_queries s) (m_id s) (rs_storage s) (f (rs_out s)).

Definition respond (r : response J) : resp unit := modify (with_out (λ l, l ++ [r])).

(** A call of the server. *)
Definition in_server {A} (m : prog (Server J St X) A) : resp A := λ s,
  match m (rs_server s) with
  | Done a x => Done a (with_server x s)
  | Fault f => Fault f
  end.

Definition bare (j : J) : string := toString (toBare j).

Definition getUser (j : J) : resp (option uid) := in_server (Server.getUser scfg (bare j)).

Definition load_user (u : uid) : resp User := in_server (in_pool (Pool.load_user u)).

(** ** DiscoInfoResponder *)

Definition commands_node : string := "http://jabber.org/protocol/commands".
Definition muc_feature : string := "http://jabber.org/protocol/muc".

Definition setTransportFeatures (features : list string) d : Disco :=
  mkDisco (m_transportFeatures d)
    (foldl (λ info f, if hasFeature f info then info else addFeature f info) (m_transportInfo d) features)
    (m_buddyInfo d) (i_rooms d) (i_commands d) (d_rooms d) (d_commands d).

Definition buddy_info (features : list string) : DiscoInfo :=
  foldl (λ info f, if hasFeature f info then info else addFeature f info)
    (addIdentity (mkIdentity (identity_name cfg) "client" "pc") empty_info) features.

Definition setBuddyFeatures (features : list string) d : Disco :=
  mkDisco (m_transportFeatures d) (m_transportInfo d) (buddy_info features) (i_rooms d) (i_commands d) (d_rooms d)
    (d_commands d).

Definition transport_features (extra : list string) : list string :=
  ["jabber:iq:register"; "jabber:iq:gateway"; "jabber:iq:private"; "http://jabber.org/protocol/disco#items";
   "http://jabber.org/protocol/disco#info"; commands_node]%string
  ++ (if features_muc cfg then [muc_feature] else []) ++ extra.

Definition buddy_features : list string :=
  ["http://jabber.org/protocol/disco#items"; "http://jabber.org/protocol/disco#info";
   "http://jabber.org/protocol/chatstates"; "http://jabber.org/protocol/xhtml-im"]%string
  ++ (if features_receipts cfg then ["urn:xmpp:receipts"%string] else []).

Definition refreshed d : Disco :=
  setBuddyFeatures buddy_features (setTransportFeatures (transport_features (m_transportFeatures d)) d).

Definition updateFeatures : resp unit :=
  s ← get;
  let d := refreshed (rs_disco s) in
  put (with_disco d s) ;;
  respond (BuddyCapsInfoChanged (m_buddyInfo d)).

Definition set_transportFeatures (l : list string) d : Disco :=
  mkDisco l (m_transportInfo d) (m_buddyInfo d) (i_rooms d) (i_commands d) (d_rooms d) (d_commands d).

Definition addTransportFeature (feature : string) : resp unit :=
  s ← get;
  let features := m_transportFeatures (rs_disco s) in
  if bool_decide (feature ∈ features) then mret tt
  else put (with_disco (set_transportFeatures (features ++ [feature]) (rs_disco s)) s) ;; updateFeatures.

(** erase of the first one *)
Fixpoint erase_first (x : string) (l : list string) : list string :=
  match l with
  | [] => []
  | y :: l => if String.eqb y x then l else y :: erase_first x l
  end.

Definition removeTransportFeature (feature : string) : resp unit :=
  s ← get;
  let features := m_transportFeatures (rs_disco s) in
  if negb (bool_decide (feature ∈ features)) then mret tt
  else put (with_disco (set_transportFeatures (erase_first feature features) (rs_disco s)) s) ;; updateFeatures.

(** The constructors; nobody listens to onBuddyCapsInfoChanged yet. *)
Definition new_disco : Disco :=
  refreshed (mkDisco []
    (addIdentity (mkIdentity (identity_name cfg) (identity_category cfg) (identity_type cfg)) empty_info)
    empty_info [] [] [] []).

Definition new_responders (x : Server J St X) (db : Db) : Responders J St X Db :=
  mkResponders x new_disco [] 0 db [CollectTimerStarted].

Definition info_addRoom (jid name : string) d : Disco :=
  mkDisco (m_transportFeatures d) (m_transportInfo d) (m_buddyInfo d) (sinsert (to_lower jid) name (i_rooms d))
    (i_commands d) (d_rooms d) (d_commands d).

Definition info_addAdHocCommand (node name : string) d : Disco :=
  mkDisco (m_transportFeatures d) (m_transportInfo d) (m_buddyInfo d) (i_rooms d) (sinsert node node (i_commands d))
    (d_rooms d) (d_commands d).

Definition conference (name node : string) : DiscoInfo :=
  set_node node (addFeature muc_feature (addIdentity (mkIdentity name "conference" "text") empty_info)).

(** The room of a user's own list. *)
Definition own_room (to : J) (rooms : list (string * string)) : option string :=
  snd <$> List.find (λ '(handle, _), String.eqb (toString (jid_of_string handle)) (bare to)) rooms.

Definition info_handleGetRequest (from to : J) (id node : string) : resp unit :=
  s ← get;
  let d := rs_disco s in
  if String.eqb (getNode to) "" then
    match sfind node (i_commands d) with
    | Some name =>
        respond (SendInfo from (Some to) id
          (set_node node (addIdentity (mkIdentity name "automation" "command-node")
            (addFeature "jabber:x:data" (addFeature commands_node empty_info)))))
    | None =>
        if String.eqb node commands_node then
          respond (SendInfo from (Some to) id
            (set_node node (addIdentity (mkIdentity "Commands" "automation" "command-list") empty_info)))
        else if negb (String.eqb node "") then respond (SendError from id ItemNotFound)
        else respond (SendInfo from None id (set_node node (m_transportInfo d)))
    end
  else
    match sfind (bare to) (i_rooms d) with
    | Some name => respond (SendInfo from (Some to) id (conference name node))
    | None =>
        user ← getUser from;
        room ← match user with
               | Some u => ss ← in_server (load_session u); mret (own_room to (ss_rooms ss))
               | None => mret None
               end;
        match room with
        | Some name => respond (SendInfo from (Some to) id (conference name node))
        | None => respond (SendInfo from (Some to) id (set_node node (m_buddyInfo d)))
        end
    end.

(** ** DiscoItemsResponder *)

Definition addAdHocCommand (node name : string) d : Disco :=
  info_addAdHocCommand node name
    (mkDisco (m_transportFeatures d) (m_transportInfo d) (m_buddyInfo d) (i_rooms d) (i_commands d) (d_rooms d)
       (d_commands d ++ [(name, node)])).

Definition addRoom (node name : string) d : Disco :=
  if (sc_max_room_list_size scfg <? zlen (d_rooms d))%Z then d
  else info_addRoom node name
    (mkDisco (m_transportFeatures d) (m_transportInfo d) (m_buddyInfo d) (i_rooms d) (i_commands d)
       (d_rooms d ++ [(node, name)]) (d_commands d)).

Definition clearRooms d : Disco :=
  mkDisco (m_transportFeatures d) (m_transportInfo d) (m_buddyInfo d) [] (i_commands d) [] (d_commands d).

Definition room_item (room : string * string) : Item J := mkItem room.2 (jid_of_string room.1) "".
Definition command_item (command : string * string) : Item J := mkItem command.1 (sc_jid scfg) command.2.

Definition items_handleGetRequest (from to : J) (id node : string) : resp unit :=
  s ← get;
  let d := rs_disco s in
  if String.eqb node commands_node then
    respond (SendItems from id commands_node (map command_item (d_commands d)))
  else if String.eqb (getNode to) "" && String.eqb node "" then
    user ← getUser from;
    match user with
    | None => respond (SendItems from id "" (map room_item (d_rooms d)))
    | Some u =>
        ss ← in_server (load_session u);
        respond (SendItems from id "" (map room_item (d_rooms d ++ ss_rooms ss)))
    end
  else respond (SendItems from id "" []).

(** ** VCardResponder *)

Definition sendVCard (id : Z) (vcard : VCard) : resp unit :=
  s ← get;
  match sfind id (m_queries s) with
  | None => mret tt
  | Some q =>
      respond (SendVCard (vq_from q) (vq_to q) (vq_id q) vcard) ;;
      modify (with_queries (serase id))
  end.

Definition timeouted (now : Z) (q : VCardData J) : bool := (40 <? now - vq_received q)%Z.

Definition collectTimeouted : resp unit :=
  s ← get;
  let candidates := fst <$> filter (λ e, timeouted (now (sv_pool (rs_server s))) (snd e) = true) (m_queries s) in
  for_each candidates (λ id, sendVCard id empty_vcard) ;;
  respond CollectTimerStarted.

(** The request is refused when it answers [false]. *)
Definition vcard_handleGetRequest (from to : J) (id : string) : resp bool :=
  user ← getUser from;
  match user with
  | None => mret false
  | Some u =>
      ss ← in_server (load_session u);
      let to_ := if String.eqb (getUnescapedNode to) "" then ss_jid ss else to in
      name ← in_server (on_roster scfg u (λ env, Roster.JIDToLegacyName env to_));
      let name := (if String.eqb (getResource to) "" then name else name +:+ "/" +:+ getResource to)%string in
      s ← get;
      let query := m_id s in
      put (with_id (to_uint (query + 1))
        (with_queries (sinsert query (mkVCardData from to id (now (sv_pool (rs_server s))))) s)) ;;
      o ← load_user u;
      in_server (in_pool (handleVCardRequired u (u_jid o) name query)) ;;
      mret true
  end.

Definition vcard_handleSetRequest (from to : J) (id : string) (vcard : VCard) : resp bool :=
  if negb (String.eqb (getNode to) "") && negb (String.eqb (bare from) (bare to)) then mret false
  else
    user ← getUser from;
    match user with
    | None => mret false
    | Some u =>
        o ← load_user u;
        in_server (in_pool (handleVCardUpdated u (u_jid o) (Some (vc_photo vcard, vc_nickname vcard)))) ;;
        respond (AcceptVCard from id) ;;
        mret true
    end.

(** What XMPPUserManager::sendVCard hands on when the server emits [SendVCard]. *)
Definition server_sendVCard (id : Z) (fullname nickname photo : string) : resp unit :=
  sendVCard (to_uint id) (mkVCard fullname nickname photo).

(** ** GatewayResponder *)

Definition gateway_handleGetRequest (from : J) (id : string) : resp unit :=
  respond (SendPrompt from id (gateway_label cfg) (gateway_prompt cfg)).

(** Whether \40 is in a text. *)
Fixpoint has_escaped_at (s : string) : bool :=
  match s with
  | String "\" (String "4" (String "0" _)) => true
  | String _ s => has_escaped_at s
  | EmptyString => false
  end.

Definition gateway_node (prompt : string) : string :=
  if has_escaped_at prompt then prompt else getSafeName (sc_jid_escaping scfg) prompt.

Definition gateway_handleSetRequest (from : J) (id prompt : string) : resp unit :=
  respond (SendJid from id (gateway_node prompt +:+ "@" +:+ bare (sc_jid scfg))%string).

(** ** StorageResponder *)

Definition storage_handleGetRequest (from : J) (id : string) : resp unit :=
  user ← getUser from;
  match user with
  | None => respond (SendError from id NotAcceptable)
  | Some u =>
      o ← load_user u;
      s ← get;
      let '(value, db) := UserManager.db_getUserSetting (ui_id (u_info o)) "storage" 0 "" (rs_storage s) in
      put (with_storage db s) ;;
      respond (SendStorage from id value)
  end.

(** [payload] is what StorageSerializer makes of it when it is a Swift::Storage. *)
Definition storage_handleSetRequest (from : J) (id : string) (payload : option string) : resp unit :=
  user ← getUser from;
  match user with
  | None => respond (SendError from id NotAcceptable)
  | Some u =>
      match payload with
      | Some value =>
          o ← load_user u;
          modify (λ s, with_storage (db_updateUserSetting (ui_id (u_info o)) "storage" value (rs_storage s)) s) ;;
          respond (AcceptStorage from id)
      | None => respond (SendError from id NotAcceptable)
      end
  end.

(** ** CarbonResponder *)

Definition setDiscoInfoResponder : resp unit := addTransportFeature "urn:xmpp:carbons:2".

Definition enable_carbons (from to : J) (id : string) : resp unit := respond (AcceptCarbons from to id).
Definition disable_carbons (from : J) (id : string) : resp unit := respond (SendError from id FeatureNotImplemented).
End responders.
