(* ===== verification/ResponderTheorems.v ===== *)
(** * The responders: vCards, rooms and private storage

    Every request for a vCard is open or has been answered once; the rooms that are
    listed can be asked about; and what private storage keeps, and loses. *)

From S2P Require Import Prelude StdMap Swiften Protocol Framing Names Pool Outgoing Server Registration Responders.
From S2P Require Text Roster RosterStore UserManager Sqlite SqliteTheorems RegistrationTheorems.
From S2P Require Import ReferenceCodec ServerTheorems.

Section vcards.
Context {J St X Db : Type} `{Jid J} `{Roster.BuddyStorage St} `{Protobuf} `{!Libraries J X} `{AccountStorage Db}.
Context (scfg : ServerConfig J).

Abbreviation resp A := (prog (Responders J St X Db) A).
Implicit Types (s : Responders J St X Db) (q : VCardData J).

(** Who asked, whom about, and under which id. *)
Definition asked_by q : J * J * string := (vq_from q, vq_to q, vq_id q).

(** The requests that are open, and those that were answered. *)
Definition opened s : list (J * J * string) := (asked_by ∘ snd) <$> m_queries s.
Definition answered s : list (J * J * string) :=
  omap (λ r, match r with SendVCard to from id _ => Some (to, from, id) | _ => None end) (rs_out s).

(** What happens to vCards. *)
Inductive vcard_event :=
  | Asked (from to : J) (id : string)
  | Answered (id : Z) (vcard : VCard)
  | Ticked.

(** The requests that were accepted. *)
Definition react (e : vcard_event) : resp (list (J * J * string)) :=
  match e with
  | Asked from to id => accepted ← vcard_handleGetRequest scfg from to id; mret (if accepted : bool then [(from, to, id)] else [])
  | Answered id vcard => server_sendVCard id (vc_fullname vcard) (vc_nickname vcard) (vc_photo vcard) ;; mret []
  | Ticked => collectTimeouted ;; mret []
  end.

(** The counter has not come round to a request that is still open. *)
Definition unused (e : vcard_event) s : Prop :=
  match e with Asked _ _ _ => sfind (m_id s) (m_queries s) = None | _ => True end.

Lemma sinsert_fresh {K V} `{StdKey K} (k : K) (v : V) m : sfind k m = None → sinsert k v m ≡ₚ (k, v) :: m.
Proof.
  induction m as [|[k' v'] m IH]; simpl; [done|]. case_decide; [done|]. intros Hn.
  destruct (key_lt k k'); [done|]. rewrite (IH Hn). apply Permutation_swap.
Qed.

Lemma serase_found {K V} `{StdKey K} (k : K) (v : V) m :
  sorted m → sfind k m = Some v → m ≡ₚ (k, v) :: serase k m.
Proof.
  intros Hm Hk. induction Hm as [|[k' v'] m Hm IH Hall]; simpl in *; [done|]. unfold serase. rewrite filter_cons. simpl.
  destruct (decide (k = k')) as [->|Hne].
  - injection Hk as ->. rewrite decide_False by tauto. f_equiv.
    apply reflexive_eq. symmetry. apply SqliteTheorems.filter_everything. intros [k2 v2] Hin. simpl. intros ->.
    eapply Forall_forall in Hall; [|done]. unfold entry_lt in Hall. simpl in Hall. by rewrite key_lt_irrefl in Hall.
  - rewrite decide_True by done. fold (serase k m). rewrite <- Permutation_swap. f_equiv. by apply IH.
Qed.

(** ** The book of requests *)

Record book_ok s : Prop := mkBookOk {
  bk_sorted : sorted (m_queries s);
  bk_id : (0 <= m_id s < 2 ^ 32)%Z;
}.

Definition same_book s s' : Prop := m_queries s' = m_queries s ∧ m_id s' = m_id s ∧ rs_out s' = rs_out s.

Lemma in_server_same {A} (m : prog (Server J St X) A) s a s' : in_server m s = Done a s' → same_book s s'.
Proof. unfold in_server. destruct (m (rs_server s)) as [a' x|f]; [|done]. by intros [= _ <-]. Qed.

Lemma in_server_bind {A B} (m : prog (Server J St X) A) (k : A → resp B) s b s' :
  (in_server m ≫= k) s = Done b s' → ∃ a s1, same_book s s1 ∧ k a s1 = Done b s'.
Proof.
  rewrite bind_run. destruct (in_server m s) as [a s1|f] eqn:E; [|done]. intros E2. exists a, s1.
  split; [by eapply in_server_same|done].
Qed.

Lemma same_book_trans s1 s2 s3 : same_book s1 s2 → same_book s2 s3 → same_book s1 s3.
Proof. intros (A1 & A2 & A3) (B1 & B2 & B3). split_and!; congruence. Qed.

Lemma same_book_ok s s' : same_book s s' → book_ok s → book_ok s'.
Proof. intros (E1 & E2 & E3) [Hs Hi]. split; by rewrite ?E1, ?E2. Qed.

Lemma same_accounts s s' : same_book s s' → answered s' = answered s ∧ opened s' = opened s.
Proof. intros (E1 & E2 & E3). unfold answered, opened. by rewrite E1, E3. Qed.

(** What a request adds to the book when it is accepted. *)
Lemma vcard_get_run from to id s a s' :
  vcard_handleGetRequest scfg from to id s = Done a s' →
  if a : bool then ∃ t, m_queries s' = sinsert (m_id s) (mkVCardData from to id t) (m_queries s)
    ∧ m_id s' = to_uint (m_id s + 1) ∧ rs_out s' = rs_out s
  else same_book s s'.
Proof.
  unfold vcard_handleGetRequest. intros (user & s1 & S1 & E)%in_server_bind.
  destruct user as [u|]; [|by injection E as <- <-].
  apply in_server_bind in E as (ss & s2 & S2 & E). apply in_server_bind in E as (name & s3 & S3 & E).
  rewrite bind_run in E. unfold get at 1 in E. rewrite bind_run in E. unfold put at 1 in E.
  apply in_server_bind in E as (o & s4 & (Q4 & I4 & O4) & E). apply in_server_bind in E as (x & s5 & (Q5 & I5 & O5) & E).
  injection E as <- <-. destruct (same_book_trans _ _ _ (same_book_trans _ _ _ S1 S2) S3) as (Q & I & O).
  eexists. rewrite Q5, Q4, I5, I4, O5, O4. simpl. by rewrite Q, I, O.
Qed.

(** An answer from the backend. *)
Lemma sendVCard_run id vcard s :
  ∃ s', sendVCard id vcard s = Done tt s' ∧ m_id s' = m_id s ∧ rs_server s' = rs_server s ∧
    match sfind id (m_queries s) with
    | None => s' = s
    | Some q => m_queries s' = serase id (m_queries s)
        ∧ rs_out s' = rs_out s ++ [SendVCard (vq_from q) (vq_to q) (vq_id q) vcard]
    end.
Proof.
  unfold sendVCard. rewrite bind_run. simpl. destruct (sfind id (m_queries s)) as [q|]; [|by exists s].
  eexists. split; [done|]. by split_and!.
Qed.

Lemma sendVCard_accounts id vcard s s' :
  book_ok s → sendVCard id vcard s = Done tt s' →
  book_ok s' ∧ answered s' ++ opened s' ≡ₚ answered s ++ opened s.
Proof.
  intros [Hs Hi] E. destruct (sendVCard_run id vcard s) as (s1 & E1 & I & _ & Hm). rewrite E1 in E. injection E as ->.
  destruct (sfind id (m_queries s)) as [q|] eqn:Eq; [|by subst].
  destruct Hm as [Q O]. split; [split; [rewrite Q; by apply serase_sorted|by rewrite I]|].
  unfold answered, opened. rewrite Q, O, omap_app. simpl. rewrite <- app_assoc. f_equiv.
  change [(vq_from q, vq_to q, vq_id q)] with ((asked_by ∘ snd) <$> [(id, q)]). rewrite <- fmap_app. apply fmap_Permutation.
  symmetry. by apply serase_found.
Qed.

Lemma sendVCards_accounts ids vcard s :
  book_ok s → ∃ s', for_each ids (λ id, sendVCard id vcard) s = Done tt s' ∧ book_ok s'
    ∧ answered s' ++ opened s' ≡ₚ answered s ++ opened s.
Proof.
  revert s. induction ids as [|id ids IH]; intros s Hok; simpl; [by exists s|].
  destruct (sendVCard_run id vcard s) as (s1 & E1 & _). destruct (sendVCard_accounts id vcard s s1 Hok E1) as [Hok1 P1].
  destruct (IH s1 Hok1) as (s2 & E2 & Hok2 & P2). exists s2. rewrite (bind_done _ _ _ _ _ E1). split_and!; [done|done|].
  by rewrite P2.
Qed.

(** C28: no request for a vCard is lost and none is answered twice: whatever clients ask,
    the backends answer (also under identifiers nobody asked for, or twice) and the
    timer collects, the requests that were accepted are the answers sent so far together
    with those that are open, as long as the counter of the requests does not come round
    to one that is still open. *)
Theorem vcards_accounted e s s' l :
  book_ok s → unused e s → react e s = Done l s' →
  book_ok s' ∧ answered s' ++ opened s' ≡ₚ answered s ++ opened s ++ l.
Proof.
  intros Hok Hu. destruct e as [from to id|id vcard|]; simpl.
  - rewrite bind_run. destruct (vcard_handleGetRequest scfg from to id s) as [a s1|f] eqn:E; [|done]. simpl.
    intros [= <- <-]. apply vcard_get_run in E. destruct a.
    + destruct E as (t & Q & I & O). destruct Hok as [Hs Hi]. split; [split|].
      * rewrite Q. by apply sinsert_sorted.
      * rewrite I. unfold to_uint. apply Z.mod_pos_bound. lia.
      * unfold answered, opened. rewrite Q, O. f_equiv. rewrite sinsert_fresh by done. simpl. apply Permutation_cons_append.
    + split; [by eapply same_book_ok|]. apply same_accounts in E as [-> ->]. by rewrite app_nil_r.
  - rewrite bind_run. unfold server_sendVCard.
    destruct (sendVCard (to_uint id) _ s) as [[] s1|f] eqn:E; [|done]. intros [= <- <-]. rewrite app_nil_r.
    by eapply sendVCard_accounts.
  - unfold collectTimeouted. rewrite bind_run. rewrite bind_run. simpl.
    destruct (sendVCards_accounts (fst <$> filter (λ e, timeouted (now (sv_pool (rs_server s))) (snd e) = true) (m_queries s))
      empty_vcard s Hok) as (s1 & E & [Hs1 Hi1] & P). rewrite (bind_done _ _ _ _ _ E). intros [= <- <-]. split; [by split|].
    rewrite app_nil_r. unfold answered in *. cbn [rs_out with_out]. by rewrite omap_app, app_nil_r.
Qed.

(** ** The timer *)

Lemma erase_keys_sfind {K V} `{StdKey K} (keys : list K) (m : smap K V) k :
  (k ∈ keys → sfind k (foldl (λ m k, serase k m) m keys) = None)
  ∧ (k ∉ keys → sfind k (foldl (λ m k, serase k m) m keys) = sfind k m).
Proof.
  revert m. induction keys as [|k' keys IH]; intros m; simpl; [split; [by intros ?%not_elem_of_nil|done]|].
  destruct (IH (serase k' m)) as [IH1 IH2]. destruct (decide (k ∈ keys)) as [Hin|Hin]; [set_solver|].
  rewrite IH2 by done. split.
  - intros [->|?]%elem_of_cons; [apply sfind_serase_eq|done].
  - intros [Hne _]%not_elem_of_cons. by apply sfind_serase_ne.
Qed.

Lemma sendVCards_queries ids vcard s s' :
  sorted (m_queries s) → for_each ids (λ id, sendVCard id vcard) s = Done tt s' →
  m_queries s' = foldl (λ m k, serase k m) (m_queries s) ids.
Proof.
  revert s. induction ids as [|id ids IH]; intros s Hs E; simpl in *; [by injection E as <-|].
  destruct (sendVCard_run id vcard s) as (s1 & E1 & _ & _ & Hm). rewrite (bind_done _ _ _ _ _ E1) in E.
  assert (m_queries s1 = serase id (m_queries s)) as Hq.
  { destruct (sfind id (m_queries s)) as [q|] eqn:Eq; [by destruct Hm as [-> _]|]. rewrite Hm. symmetry.
    apply SqliteTheorems.filter_everything. intros [k' v'] Hin Heq. simpl in Heq. subst.
    apply sfind_None in Eq. apply Eq, list_elem_of_fmap. by exists (id, v'). }
  rewrite (IH s1), Hq; [done| |done]. rewrite Hq. by apply serase_sorted.
Qed.

(** no request for a vCard stays open for ever: a tick of the timer leaves the
    requests of the last forty seconds, and only those. *)
Theorem vcards_collected s :
  book_ok s → ∃ s', collectTimeouted s = Done tt s' ∧
    ∀ k q, sfind k (m_queries s') = Some q ↔
      sfind k (m_queries s) = Some q ∧ timeouted (now (sv_pool (rs_server s))) q = false.
Proof.
  intros Hok. unfold collectTimeouted. rewrite bind_run. simpl.
  set (ids := fst <$> filter _ (m_queries s)). destruct (sendVCards_accounts ids empty_vcard s Hok) as (s' & E & _).
  eexists. split; [exact (bind_done _ _ _ _ _ E)|]. intros k q. cbn [m_queries with_out].
  rewrite (sendVCards_queries _ _ _ _ (bk_sorted _ Hok) E).
  destruct (erase_keys_sfind ids (m_queries s) k) as [Hgone Hkept].
  assert (Hin : k ∈ ids ↔ ∃ q, sfind k (m_queries s) = Some q ∧ timeouted (now (sv_pool (rs_server s))) q = true).
  { unfold ids. rewrite list_elem_of_fmap. setoid_rewrite list_elem_of_filter. split.
    - intros ([k' q'] & -> & Ht & Hel). exists q'. split; [|done]. apply elem_sfind; [apply Hok|done].
    - intros (q' & Hf & Ht). exists (k, q'). split_and!; [done|done|by apply sfind_elem]. }
  destruct (decide (k ∈ ids)) as [Hk|Hk]; [rewrite Hgone by done|rewrite Hkept by done]; rewrite Hin in Hk; split.
  - done.
  - intros [Hf Ht]. destruct Hk as (q' & Hf' & Ht'). congruence.
  - intros Hf. split; [done|]. destruct (timeouted _ q) eqn:Ht; [|done]. destruct Hk. by exists q.
  - by intros [Hf _].
Qed.
End vcards.

(** ** Discovery *)

Section disco.
Context {J St X Db : Type} `{Jid J} `{Roster.BuddyStorage St} `{Protobuf} `{!Libraries J X} `{AccountStorage Db}.
Context (scfg : ServerConfig J) (cfg : RespondersConfig).

(** What is done to the lists of rooms and commands. *)
Inductive disco_change :=
  | AddRoom (node name : string)
  | ClearRooms
  | AddCommand (node name : string).

Definition change (c : disco_change) (d : Disco) : Disco :=
  match c with
  | AddRoom node name => addRoom scfg node name d
  | ClearRooms => clearRooms d
  | AddCommand node name => addAdHocCommand node name d
  end.

(** The name disco#info has for a room is that of the last of its entries. *)
Definition last_name (key : string) (rooms : list (string * string)) : option string :=
  foldl (λ found '(node, name), if String.eqb (to_lower node) key then Some name else found) None rooms.

Record disco_ok (d : Disco) : Prop := mkDiscoOk {
  dk_rooms : (zlen (d_rooms d) <= Z.max 0 (sc_max_room_list_size scfg + 1))%Z;
  dk_names key : sfind key (i_rooms d) = last_name key (d_rooms d);
  dk_commands node : is_Some (sfind node (i_commands d)) ↔ node ∈ (snd <$> d_commands d);
}.

(** the two responders of service discovery agree. Whatever rooms and commands the
    backends announce, disco#info knows exactly the rooms disco#items lists, each
    under its name, and exactly the commands; there are never more rooms than one over
    the configured number; and the list is the one [Server] keeps for the frontend. *)
Theorem disco_agrees c d :
  disco_ok d → disco_ok (change c d)
  ∧ d_rooms (change c d) = match c with
      | AddRoom node name => add_frontend_room scfg node name (d_rooms d)
      | ClearRooms => []
      | AddCommand _ _ => d_rooms d
      end.
Proof.
  intros [Hr Hn Hc]. destruct c as [node name| |node name]; simpl.
  - unfold addRoom, add_frontend_room. destruct (Z.ltb_spec (sc_max_room_list_size scfg) (zlen (d_rooms d))); [by split|].
    split; [|done]. split; simpl; [|intros key|exact Hc].
    + unfold zlen in *. rewrite length_app. simpl. lia.
    + unfold last_name. rewrite foldl_app. simpl. destruct (String.eqb_spec (to_lower node) key) as [->|Hne].
      * apply sfind_sinsert_eq.
      * rewrite sfind_sinsert_ne by done. apply Hn.
  - split; [|done]. split; simpl; [unfold zlen; simpl; lia|done|exact Hc].
  - split; [|done]. split; simpl; [done|done|]. intros node'. rewrite fmap_app, elem_of_app, <- Hc. simpl.
    rewrite list_elem_of_singleton. destruct (decide (node' = node)) as [->|Hne].
    + rewrite sfind_sinsert_eq. split; [by right|by eexists].
    + rewrite sfind_sinsert_ne by done. tauto.
Qed.

(** ** Features *)

Implicit Types (s : Responders J St X Db).

Lemma features_grow (l : list string) info f :
  f ∈ di_features info ∨ f ∈ l → f ∈ di_features (foldl (λ info f, if hasFeature f info then info else addFeature f info) info l).
Proof.
  revert info. induction l as [|g l IH]; intros info Hf; simpl; [set_solver|]. apply IH. unfold hasFeature, addFeature.
  case_bool_decide; simpl; set_solver.
Qed.

Lemma updateFeatures_run s :
  updateFeatures cfg s = Done tt (with_out (λ l, l ++ [BuddyCapsInfoChanged (m_buddyInfo (refreshed cfg (rs_disco s)))])
    (with_disco (refreshed cfg (rs_disco s)) s)).
Proof. reflexivity. Qed.

Lemma updated_features d : m_transportFeatures (refreshed cfg d) = m_transportFeatures d.
Proof. reflexivity. Qed.

Lemma updated_info f d :
  f ∈ di_features (m_transportInfo d) ∨ f ∈ m_transportFeatures d → f ∈ di_features (m_transportInfo (refreshed cfg d)).
Proof.
  intros Hf. unfold refreshed. cbn [setBuddyFeatures setTransportFeatures m_transportInfo]. apply features_grow.
  destruct Hf as [Hf|Hf]; [by left|right]. unfold transport_features. rewrite !elem_of_app. auto.
Qed.

Lemma addTransportFeature_run f s :
  f ∉ m_transportFeatures (rs_disco s) →
  addTransportFeature cfg f s =
    updateFeatures cfg (with_disco (set_transportFeatures (m_transportFeatures (rs_disco s) ++ [f]) (rs_disco s)) s).
Proof. intros Hf. unfold addTransportFeature. rewrite bind_run. simpl. by rewrite bool_decide_false. Qed.

Lemma removeTransportFeature_run f s :
  f ∈ m_transportFeatures (rs_disco s) →
  removeTransportFeature cfg f s =
    updateFeatures cfg (with_disco (set_transportFeatures (erase_first f (m_transportFeatures (rs_disco s))) (rs_disco s)) s).
Proof. intros Hf. unfold removeTransportFeature. rewrite bind_run. simpl. by rewrite bool_decide_true. Qed.

Lemma erase_last f l : f ∉ l → erase_first f (l ++ [f]) = l.
Proof.
  induction l as [|g l IH]; simpl; [by rewrite String.eqb_refl|]. intros [Hne Hl]%not_elem_of_cons.
  destruct (String.eqb_spec g f) as [->|]; [done|]. by rewrite IH.
Qed.

(** a feature of the transport that is added and removed again is still told to
    everybody who asks: nothing ever takes a feature out of the answer. *)
Theorem feature_stays f s :
  f ∉ m_transportFeatures (rs_disco s) →
  ∃ s', (addTransportFeature cfg f ;; removeTransportFeature cfg f) s = Done tt s'
    ∧ m_transportFeatures (rs_disco s') = m_transportFeatures (rs_disco s)
    ∧ f ∈ di_features (m_transportInfo (rs_disco s')).
Proof.
  intros Hf. rewrite bind_run, addTransportFeature_run, updateFeatures_run by done.
  assert (Hin : f ∈ m_transportFeatures (set_transportFeatures (m_transportFeatures (rs_disco s) ++ [f]) (rs_disco s)))
    by (cbn [m_transportFeatures set_transportFeatures]; set_solver).
  rewrite removeTransportFeature_run by (cbn [rs_disco with_out with_disco]; by rewrite updated_features).
  rewrite updateFeatures_run. cbn [rs_disco with_out with_disco]. eexists. split; [reflexivity|].
  cbn [rs_disco with_out with_disco]. rewrite !updated_features. split.
  - cbn [m_transportFeatures set_transportFeatures]. by apply erase_last.
  - apply updated_info. left. cbn [m_transportInfo set_transportFeatures]. apply updated_info. by right.
Qed.
End disco.

(** ** Private storage, over SQLite *)

#[local] Existing Instance RegistrationTheorems.sqlite_accounts.

Section storage.
Context {J St X : Type} `{Jid J} `{Roster.BuddyStorage St} `{Protobuf} `{!Libraries J X}.
Context `{Sqlite.SqlEngine} `{Text.Split} (scfg : ServerConfig J).
Implicit Types (s : Responders J St X Sqlite.Database) (d : Sqlite.Database).

(** The user [u] is logged in under the address, and looking for it changes nothing. *)
Definition logged_in (from : J) (u : uid) (o : User) s : Prop :=
  Server.getUser scfg (bare from) (rs_server s) = Done (Some u) (rs_server s)
  ∧ users (sv_pool (rs_server s)) !! u = Some o.

(** Whether the storage has a row for the user's private XML. *)
Definition kept (o : User) d : bool :=
  bool_decide (is_Some (sfind (to_int (ui_id (u_info o)), "storage"%string) (Sqlite.t_users_settings d))).

Lemma getUser_known from u o s : logged_in from u o s → Responders.getUser scfg from s = Done (Some u) s.
Proof. intros [E _]. unfold Responders.getUser, in_server. rewrite E. by destruct s. Qed.

Lemma load_user_known from u o s : logged_in from u o s → Responders.load_user u s = Done o s.
Proof.
  intros [_ E]. unfold Responders.load_user, in_server, in_pool, Pool.load_user. rewrite bind_run. simpl. rewrite E. simpl.
  destruct s as [sv ? ? ? ? ?]. by destruct sv.
Qed.

Lemma storage_set_run from id value u o s :
  logged_in from u o s →
  storage_handleSetRequest scfg from id (Some value) s =
    Done tt (with_out (λ l, l ++ [AcceptStorage from id])
      (with_storage (Sqlite.updateUserSetting (ui_id (u_info o)) "storage" value (rs_storage s)) s)).
Proof.
  intros Hk. unfold storage_handleSetRequest. rewrite (bind_done _ _ _ _ _ (getUser_known _ _ _ _ Hk)).
  by rewrite (bind_done _ _ _ _ _ (load_user_known _ _ _ _ Hk)).
Qed.

Lemma storage_get_run from id u o s :
  logged_in from u o s →
  storage_handleGetRequest scfg from id s =
    let '(value, d) := UserManager.db_getUserSetting (ui_id (u_info o)) "storage" 0 "" (rs_storage s) in
    Done tt (with_out (λ l, l ++ [SendStorage from id value]) (with_storage d s)).
Proof.
  intros Hk. unfold storage_handleGetRequest. rewrite (bind_done _ _ _ _ _ (getUser_known _ _ _ _ Hk)).
  rewrite (bind_done _ _ _ _ _ (load_user_known _ _ _ _ Hk)). rewrite bind_run. cbn [get].
  by destruct (UserManager.db_getUserSetting _ _ _ _ _) as [value d].
Qed.

(** private storage answers with what was stored in it, if it has been asked before.
    The first thing a client stores is accepted and lost: storing is an update of a row
    that only asking creates, and the answer is empty. *)
Theorem private_storage from id1 id2 value u o s :
  SqliteTheorems.reliable → logged_in from u o s →
  ∃ s', (storage_handleSetRequest scfg from id1 (Some value) ;; storage_handleGetRequest scfg from id2) s = Done tt s'
    ∧ rs_out s' = rs_out s ++ [AcceptStorage from id1;
        SendStorage from id2 (if kept o (rs_storage s) then Sqlite.c_str value else "")]
    ∧ kept o (rs_storage s') = true.
Proof.
  intros Hr Hk. rewrite bind_run, (storage_set_run _ _ _ u o) by done.
  rewrite (storage_get_run _ _ u o) by (by destruct s). cbn [rs_storage with_out with_storage].
  unfold UserManager.db_getUserSetting. cbn. unfold Sqlite.getUserSetting, Sqlite.updateUserSetting, kept.
  rewrite SqliteTheorems.write_done, SqliteTheorems.select_all by done. cbn [fst Sqlite.t_users_settings Sqlite.with_users_settings].
  rewrite SqliteTheorems.sfind_update_rows.
  change (Sqlite.c_str "storage") with "storage"%string. rewrite bool_decide_true by done.
  set (key := (to_int (ui_id (u_info o)), "storage"%string)). set (d := rs_storage s).
  destruct (sfind key (Sqlite.t_users_settings d)) as [r|] eqn:E; cbn [fmap option_fmap option_map option_list].
  - eexists. split; [reflexivity|]. cbn. rewrite <- app_assoc. split; [done|].
    apply bool_decide_true. rewrite SqliteTheorems.sfind_update_rows. unfold key, d in *. rewrite E. by eexists.
  - eexists. split; [reflexivity|]. cbn. rewrite <- app_assoc. split; [done|]. rewrite SqliteTheorems.write_done by done.
    apply bool_decide_true. unfold Sqlite.insert_user_setting. cbn. change (Sqlite.c_str "storage") with "storage"%string.
    rewrite SqliteTheorems.sfind_update_rows. unfold key, d in *. rewrite E. cbn. rewrite sfind_sinsert_eq. by eexists.
Qed.
End storage.

(** ** A concrete frontend: the gateway of [ServerTheorems] over an empty database *)

#[local] Existing Instance SqliteTheorems.obedient_engine.
#[local] Existing Instance Text.reference_split.

Definition gateway : RespondersConfig := mkRespondersConfig "ICQ" "gateway" "icq" true true "Enter the number" "Number".

Definition phone : ref_jid := mkRefJid "u" "h" "phone".
Definition bob : ref_jid := mkRefJid "bob" "icq.h" "".

(** Somebody has just been looked up. *)
Definition looked_up : Server ref_jid RosterStore.ref_rows unit :=
  match Server.getUser sample_config "u@h" sample_server with Done _ x => x | Fault _ => sample_server end.

Definition frontend : Responders ref_jid RosterStore.ref_rows unit Sqlite.Database :=
  new_responders gateway looked_up (SqliteTheorems.empty_database 1700000000).

Lemma frontend_book : book_ok frontend.
Proof. split; [constructor|done]. Qed.

Lemma vcards_accounted_witness :
  ∃ s', react sample_config (Asked phone bob "7") frontend = Done [(phone, bob, "7")] s'
    ∧ answered s' ++ opened s' ≡ₚ [(phone, bob, "7"%string)].
Proof.
  destruct (react sample_config (Asked phone bob "7") frontend) as [l s'|f] eqn:E; [|by vm_compute in E].
  assert (l = [(phone, bob, "7"%string)]) as ->.
  { change l with (match Done l s' with Done l _ => l | Fault _ => [] end). rewrite <- E. by vm_compute. }
  exists s'. split; [done|].
  apply (vcards_accounted sample_config (Asked phone bob "7") frontend s' [(phone, bob, "7"%string)]); [apply frontend_book|done|exact E].
Defined.

(** A request nobody answered for a hundred seconds, and a new one. *)
Definition waiting : Responders ref_jid RosterStore.ref_rows unit Sqlite.Database :=
  with_queries (λ _, [(4%Z, mkVCardData phone bob "7" (-100)); (5%Z, mkVCardData phone bob "8" 0)]) frontend.

Lemma vcards_collected_witness :
  ∃ s', collectTimeouted waiting = Done tt s' ∧ sfind 4%Z (m_queries s') = None
    ∧ sfind 5%Z (m_queries s') = Some (mkVCardData phone bob "8" 0).
Proof.
  destruct (vcards_collected waiting) as (s' & E & Hs').
  { split; [by repeat constructor|done]. }
  exists s'. split; [done|]. split; [|by apply Hs'].
  destruct (sfind 4%Z (m_queries s')) as [q|] eqn:Eq; [|done]. apply Hs' in Eq as [[= <-] Ht]. by vm_compute in Ht.
Defined.

Lemma disco_agrees_witness :
  disco_ok sample_config (change sample_config (AddRoom "Room@chat" "A room") (new_disco gateway)).
Proof.
  apply (disco_agrees sample_config (AddRoom "Room@chat" "A room") (new_disco gateway)). split; [by vm_compute|done|].
  intros node. split; [intros [? [=]]|intros Hin; by apply not_elem_of_nil in Hin].
Defined.

Lemma feature_stays_witness :
  ∃ s', (addTransportFeature gateway "urn:xmpp:carbons:2" ;; removeTransportFeature gateway "urn:xmpp:carbons:2") frontend = Done tt s'
    ∧ "urn:xmpp:carbons:2"%string ∈ di_features (m_transportInfo (rs_disco s')).
Proof.
  destruct (feature_stays gateway "urn:xmpp:carbons:2" frontend) as (s' & E & _ & Hin); [apply not_elem_of_nil|].
  by exists s'.
Defined.

Lemma private_storage_witness :
  ∃ s', (storage_handleSetRequest sample_config phone "1" (Some "<notes/>"%string) ;; storage_handleGetRequest sample_config phone "2") frontend
      = Done tt s'
    ∧ rs_out s' = [CollectTimerStarted; AcceptStorage phone "1"; SendStorage phone "2" ""].
Proof.
  destruct (private_storage sample_config phone "1" "2" "<notes/>" 2
    (mkUser "u@h" (mkUserInfo 1 "u@h" "u" "" "" "" false []) (Some 1) true true false 0 0 0 [] 1) frontend)
    as (s' & E & O & _); [by intros ? ?|by split|].
  exists s'. split; [exact E|]. rewrite O. by vm_compute.
Defined.
