(* ===== verification/Channel.v ===== *)
(** * The server side of XMPP: sessions and the stanzas between them

    Server mode without the rest of the gateway: Swift::Server keeps the connections
    (include/Swiften/Server/Server.cpp), ServerStanzaChannel the sessions that have
    started, by the bare address of their user, and sends stanzas to them; the users of
    the XMPP frontend close them (XMPPUser.cpp). The sessions themselves and the
    registry of logins are those of [Login]. *)

From S2P Require Import Prelude StdMap Swiften.
From S2P Require Login.

Abbreviation sid := Login.sid.

(** ** Data *)

(** Swift::IQ, with the kinds of payloads the frontend tells apart. *)
Inductive IQType := GetIQ | SetIQ | ResultIQ | ErrorIQ.
Inductive IQPayload := Roster | InBandRegistration | Stats | OtherQuery (name : string).

Record IQ (J : Type) := mkIQ {
  iq_from : J;
  iq_to : J;
  iq_type : IQType;
  iq_id : string;
  iq_payloads : list IQPayload;
}.
Arguments mkIQ {J}.
Arguments iq_from {J}.
Arguments iq_to {J}.
Arguments iq_type {J}.
Arguments iq_id {J}.
Arguments iq_payloads {J}.

Inductive Stanza (J : Type) :=
  | MessageStanza (m : Message J)
  | PresenceStanza (p : Presence J)
  | IQStanza (iq : IQ J).
Arguments MessageStanza {J}.
Arguments PresenceStanza {J}.
Arguments IQStanza {J}.

(** What a session is told to write. *)
Inductive outgoing (J : Type) :=
  | SendStanza (st : Stanza J)
  | SendStreamError (text : string).
Arguments SendStanza {J}.
Arguments SendStreamError {J}.

Inductive channel_event (J : Type) :=
  (** sendElement of a session *)
  | Sent (s : sid) (e : outgoing J)
  (** the signals of the channel *)
  | PresenceReceived (p : Presence J)
  | MessageReceived (m : Message J)
  | IQReceived (iq : IQ J).
Arguments Sent {J}.
Arguments PresenceReceived {J}.
Arguments MessageReceived {J}.
Arguments IQReceived {J}.

Record Channel (J : Type) := mkChannel {
  ch_registry : Login.Registry J;
  (** ServerStanzaChannel::sessions *)
  ch_sessions : smap string (list sid);
  (** the sessions whose signals the channel is connected to *)
  ch_connected : list sid;
  serverFromClientSessions : list sid;
  ch_out : list (channel_event J);
}.
Arguments mkChannel {J}.
Arguments ch_registry {J}.
Arguments ch_sessions {J}.
Arguments ch_connected {J}.
Arguments serverFromClientSessions {J}.
Arguments ch_out {J}.

(** Whether a text is in another. *)
Fixpoint contains (needle s : string) : bool :=
  String.prefix needle s || match s with String _ s => contains needle s | EmptyString => false end.

Section channel.
Context {J : Type} `{Jid J}.
(** The address of the server, and the registry's configuration. *)
Context (m_jid : J) (cfg : Login.LoginConfig).

#[local] Existing Instance jid_key.

Abbreviation channel A := (prog (Channel J) A).
Implicit Types (c : Channel J) (st : Stanza J).

Definition with_registry x c : Channel J := mkChannel x (ch_sessions c) (ch_connected c) (serverFromClientSessions c) (ch_out c).
Definition with_sessions f c : Channel J := mkChannel (ch_registry c) (f (ch_sessions c)) (ch_connected c) (serverFromClientSessions c) (ch_out c).
Definition with_connected f c : Channel J := mkChannel (ch_registry c) (ch_sessions c) (f (ch_connected c)) (serverFromClientSessions c) (ch_out c).
Definition with_server f c : Channel J := mkChannel (ch_registry c) (ch_sessions c) (ch_connected c) (f (serverFromClientSessions c)) (ch_out c).
Definition with_out f c : Channel J := mkChannel (ch_registry c) (ch_sessions c) (ch_connected c) (serverFromClientSessions c) (f (ch_out c)).

Definition emit (e : channel_event J) : channel unit := modify (with_out (λ l, l ++ [e])).

(** A call of a session or of the registry. *)
Definition in_registry {A} (m : prog (Login.Registry J) A) : channel A := λ c,
  match m (ch_registry c) with
  | Done a r => Done a (with_registry r c)
  | Fault f => Fault f
  end.

Definition bare (j : J) : string := toString (toBare j).

Definition getRemoteJID (s : sid) : channel J := in_registry (o ← Login.load_session s; mret (Login.remoteJID o)).

Definition stanza_from st : J :=
  match st with MessageStanza m => m_from m | PresenceStanza p => pr_from p | IQStanza iq => iq_from iq end.
Definition stanza_to st : J :=
  match st with MessageStanza m => m_to m | PresenceStanza p => pr_to p | IQStanza iq => iq_to iq end.
Definition setFrom (from : J) st : Stanza J :=
  match st with
  | MessageStanza m => MessageStanza (setMessageFrom from m)
  | PresenceStanza p => PresenceStanza (setPresenceFrom from p)
  | IQStanza iq => IQStanza (mkIQ from (iq_to iq) (iq_type iq) (iq_id iq) (iq_payloads iq))
  end.

(** ** ServerStanzaChannel *)

(** sessions[key], which makes an entry where there is none *)
Definition sessions_of (key : string) c : list sid := default [] (sfind key (ch_sessions c)).

Definition addSession (s : sid) : channel unit :=
  jid ← getRemoteJID s;
  modify (λ c, with_sessions (sinsert (bare jid) (sessions_of (bare jid) c ++ [s])) c) ;;
  modify (with_connected (λ l, l ++ [s])).

Definition removeSession (s : sid) : channel unit :=
  modify (with_connected (list_remove_all s)) ;;
  jid ← getRemoteJID s;
  modify (λ c, with_sessions (sinsert (bare jid) (list_remove_all s (sessions_of (bare jid) c))) c).

Definition unavailable (from : J) : Presence J := setPresenceType Unavailable (setPresenceFrom from empty_presence).

(** The text of the stream error, if there is one, and [last]. *)
Definition finish_one (element : option string) (last : bool) (s : sid) : channel bool :=
  removeSession s ;;
  match element with Some text => emit (Sent s (SendStreamError text)) | None => mret tt end ;;
  jid ← getRemoteJID s;
  when (last && isValid jid) (emit (PresenceReceived (unavailable jid))) ;;
  in_registry (Login.finishSession s) ;;
  mret (negb last).

Definition finish_loop (element : option string) (last : bool) (candidates : list sid) : channel unit :=
  for_each_until candidates (finish_one element last).

Definition finishSession (to : J) (element : option string) (last : bool) : channel unit :=
  c ← get;
  modify (λ c, with_sessions (sinsert (bare to) (sessions_of (bare to) c)) c) ;;
  finish_loop element last (sessions_of (bare to) c).

(** Who a stanza without a sender comes from. *)
Definition fill_from st : Stanza J :=
  if isValid (stanza_from st) then st
  else match st with
       | IQStanza iq => match iq_type iq with ResultIQ | ErrorIQ => st | _ => setFrom m_jid st end
       | _ => setFrom m_jid st
       end.

(** std::find_if with HasJID *)
Fixpoint find_session (jid : J) (l : list sid) : channel (option sid) :=
  match l with
  | [] => mret None
  | s :: l => remote ← getRemoteJID s; if decide (remote = jid) then mret (Some s) else find_session jid l
  end.

(** The assertion on the address stops the program. *)
Definition send st : channel unit :=
  let to := stanza_to st in
  if negb (isValid to) then raise UncaughtException else
  let st := fill_from st in
  c ← get;
  modify (λ c, with_sessions (sinsert (bare to) (sessions_of (bare to) c)) c) ;;
  let l := sessions_of (bare to) c in
  full ← (if isBare to then mret None else find_session to l);
  match full with
  | Some s => emit (Sent s (SendStanza st))
  | None =>
      for_each l (λ s,
        remote ← getRemoteJID s;
        when (bool_decide (toBare remote = toBare to)) (emit (Sent s (SendStanza st))))
  end.

Definition sendIQ (iq : IQ J) : channel unit := send (IQStanza iq).
Definition sendMessage (m : Message J) : channel unit := send (MessageStanza m).
Definition sendPresence (p : Presence J) : channel unit := send (PresenceStanza p).

Definition handleDataRead (s : sid) (data : string) : channel unit :=
  if contains "</stream:stream>" data then
    jid ← getRemoteJID s;
    emit (PresenceReceived (unavailable jid))
  else mret tt.

Definition channel_sessionFinished (s : sid) : channel unit :=
  removeSession s ;;
  jid ← getRemoteJID s;
  emit (PresenceReceived (unavailable jid)).

(** [None]: not a stanza. *)
Definition handleElement (s : sid) (st : option (Stanza J)) : channel unit :=
  match st with
  | None => mret tt
  | Some st =>
      jid ← getRemoteJID s;
      if negb (isValid jid) then mret tt else
      match setFrom jid st with
      | MessageStanza m => emit (MessageReceived m)
      | PresenceStanza p => emit (PresenceReceived p)
      | IQStanza iq => emit (IQReceived iq)
      end
  end.

(** ** Server *)

Definition handleSessionStarted (s : sid) : channel unit := addSession s.

(** The signals a session raises while it runs. *)
Definition session_signal (st : option (Stanza J)) (e : Login.login_event J) : channel unit :=
  match e with
  | Login.SessionStarted s => handleSessionStarted s
  | Login.ElementReceived s =>
      c ← get; when (bool_decide (s ∈ ch_connected c)) (handleElement s st)
  | _ => mret tt
  end.

(** Something happens to a session; [st] is the stanza an element holds. *)
Definition in_session (i : Login.login_input) (st : option (Stanza J)) : channel unit :=
  c ← get;
  in_registry (Login.react cfg i) ;;
  c' ← get;
  for_each (drop (length (Login.login_log (ch_registry c))) (Login.login_log (ch_registry c'))) (session_signal st).

Definition handleNewClientConnection (s : sid) (tls : bool) : channel unit :=
  in_session (Login.NewClient s false tls) None ;;
  modify (with_server (λ l, l ++ [s])).

Definition server_sessionFinished (s : sid) : channel unit := modify (with_server (list_remove_all s)).

(** onSessionFinished, with the slots in the order they were connected *)
Definition onSessionFinished (s : sid) : channel unit :=
  in_session (Login.Finished s) None ;;
  c ← get;
  when (bool_decide (s ∈ serverFromClientSessions c)) (server_sessionFinished s) ;;
  c ← get;
  when (bool_decide (s ∈ ch_connected c)) (channel_sessionFinished s).

(** ** XMPPUser *)

Definition disconnectUser (inServerMode : bool) (jid : J) (error : string) : channel unit :=
  when inServerMode (finishSession jid (Some error) false).

(** The destructor, without the requests for vCards. *)
Definition destroyed (inServerMode : bool) (jid : J) : channel unit :=
  when inServerMode (finishSession jid None false).

(** ** Inputs *)

Inductive channel_input :=
  | Connected (s : sid) (tls : bool)
  (** a client speaks to a session, which starts, logs in or hands on a stanza *)
  | Spoke (s : sid) (e : Login.element) (st : option (Stanza J))
  | StreamStarted (s : sid) (to : J)
  | DataRead (s : sid) (data : string)
  | Ended (s : sid)
  | Freed (s : sid)
  (** the registry is told of a verdict *)
  | Verdict (user : J) (error : option string)
  (** the gateway *)
  | Send (st : Stanza J)
  | Disconnect (jid : J) (error : string)
  | Destroy (jid : J).

Definition react (i : channel_input) : channel unit :=
  match i with
  | Connected s tls => handleNewClientConnection s tls
  | Spoke s e st => in_session (Login.Element s e) st
  | StreamStarted s to => in_session (Login.StreamStart s to) None
  | DataRead s data => c ← get; when (bool_decide (s ∈ ch_connected c)) (handleDataRead s data)
  | Ended s => onSessionFinished s
  | Freed s => in_session (Login.Freed s) None
  | Verdict user None => in_session (Login.PasswordValid user) None
  | Verdict user (Some error) => in_session (Login.PasswordInvalid user error) None
  | Send st => send st
  | Disconnect jid error => disconnectUser true jid error
  | Destroy jid => destroyed true jid
  end.

(** What can happen: connections end once, and the last reference to a session is
    dropped after that. *)
Definition enabled (i : channel_input) c : Prop :=
  let r := ch_registry c in
  match i with
  | Connected s _ => Login.sessions r !! s = None
  | Spoke s _ _ | StreamStarted s _ | DataRead s _ | Ended s => Login.open_session s r
  | Freed s => ∃ o, Login.sessions r !! s = Some o ∧ Login.closed o = true
  | Send st => isValid (stanza_to st) = true
  | _ => True
  end.

Definition initial : Channel J := mkChannel Login.initial [] [] [] [].
End channel.
