(* ===== verification/ChannelTheorems.v ===== *)
(** * Stanzas reach the sessions of their user

    The channel lists exactly the sessions that have started and were not told to
    finish, under the address of their user; a stanza goes to those of its address. *)

From S2P Require Import Prelude StdMap Swiften Channel.
From S2P Require Import Login.
From S2P Require LoginTheorems.

Section registry.
Context {J : Type} `{Jid J} (lcfg : LoginConfig).
Implicit Types (r : Registry J) (o : Session J).

(** ** What the registry does to sessions *)

(** Nothing that concerns a session that has started. *)
Definition same_session o o' : Prop :=
  initialized o' = initialized o ∧ closed o' = closed o
  ∧ (initialized o = true → remoteJID o' = remoteJID o ∧ finishing o' = finishing o).

Definition silent (e : login_event J) : Prop :=
  match e with SessionStarted _ | ElementReceived _ => False | _ => True end.

Record quiet r0 r : Prop := mkQuiet {
  qu_sessions s : match sessions r0 !! s, sessions r !! s with
                  | Some o, Some o' => same_session o o'
                  | None, None => True
                  | _, _ => False
                  end;
  qu_log : ∃ l, login_log r = login_log r0 ++ l ∧ Forall silent l;
}.

Lemma quiet_refl r : quiet r r.
Proof. split; [|exists []; by rewrite app_nil_r]. intros s. by destruct (sessions r !! s). Qed.

Abbreviation hushed r0 m := (spec any_fault (quiet r0) m (λ _, quiet r0)).

Lemma hushed_modify r0 f :
  (∀ r, sessions (f r) = sessions r ∧ login_log (f r) = login_log r) → hushed r0 (modify f).
Proof. intros Hf r [Hs Hl]. destruct (Hf r) as [E1 E2]. split; [by rewrite E1|by rewrite E2]. Qed.

Lemma hushed_signal r0 e : silent e → hushed r0 (signal e).
Proof.
  intros He r [Hs (l & El & Hl)]. split; [done|]. exists (l ++ [e]). simpl. rewrite El, app_assoc. split; [done|].
  apply Forall_app. by split; [|constructor].
Qed.

Lemma quiet_update r0 r s o o' :
  quiet r0 r → sessions r !! s = Some o → same_session o o' → quiet r0 (with_sessions (<[s := o']>) r).
Proof.
  intros [Hs Hl] Ho Hsame. split; [|done]. intros s2. simpl. specialize (Hs s2).
  destruct (decide (s2 = s)) as [->|]; [rewrite lookup_insert_eq|by rewrite lookup_insert_ne by done].
  rewrite Ho in Hs. destruct (sessions r0 !! s) as [o0|]; [|done].
  destruct Hs as (E1 & E2 & E3), Hsame as (F1 & F2 & F3). split_and!; [congruence..|]. intros Hi.
  destruct (E3 Hi) as [? ?]. destruct F3 as [? ?]; [congruence|]. split; congruence.
Qed.

Lemma hushed_update r0 s f : (∀ o, same_session o (f o)) → hushed r0 (update_session s f).
Proof.
  intros Hf r Hq. unfold update_session, load_session. rewrite !bind_run. simpl.
  destruct (sessions r !! s) as [o|] eqn:Ho; simpl; [|done]. by eapply quiet_update.
Qed.

Lemma hushed_get {B} r0 (k : Registry J → prog (Registry J) B) :
  (∀ r, spec any_fault (quiet r0) (k r) (λ _, quiet r0)) → spec any_fault (quiet r0) (get ≫= k) (λ _, quiet r0).
Proof. intros Hk r Hr. by apply (Hk r r). Qed.

Lemma hushed_load {B} r0 s (k : Session J → prog (Registry J) B) :
  (∀ o, spec any_fault (quiet r0) (k o) (λ _, quiet r0)) →
  spec any_fault (quiet r0) (load_session s ≫= k) (λ _, quiet r0).
Proof.
  intros Hk r Hr. unfold load_session. rewrite !bind_run. simpl. destruct (sessions r !! s) as [o|]; simpl; [by apply Hk|done].
Qed.

Lemma silent_signals r0 (es : list (login_event J)) r :
  Forall silent es → quiet r0 r → quiet r0 (with_login_log (λ l, l ++ es) r).
Proof.
  intros He [Hs (l & El & Hl)]. split; [done|]. exists (l ++ es). simpl. rewrite El, app_assoc. split; [done|].
  by apply Forall_app.
Qed.

(** Before a session has started, anything may be written to it. *)
Lemma quiet_told r0 r s o o' (es : list (login_event J)) :
  quiet r0 r → sessions r !! s = Some o → initialized o = false → Forall silent es → same_session o o' →
  quiet r0 (with_sessions (<[s := o']>) (with_login_log (λ l, l ++ es) r)).
Proof. intros Hq Ho Hi He Hs. eapply quiet_update; [by apply silent_signals|exact Ho|done]. Qed.

Lemma same_before o o' : initialized o = false → initialized o' = false → closed o' = closed o → same_session o o'.
Proof. intros Hi Hi' Hc. split_and!; [congruence|done|congruence]. Qed.

Lemma handlePasswordValid_hushed r0 s : hushed r0 (handlePasswordValid s).
Proof.
  intros r Hq. unfold handlePasswordValid, load_session, update_session. rewrite !bind_run. simpl.
  destruct (sessions r !! s) as [o|] eqn:Ho; simpl; [|done]. destruct (initialized o) eqn:Ei; simpl; [done|].
  unfold load_session. rewrite !bind_run. simpl. rewrite !bind_run. simpl. rewrite Ho. simpl.
  eapply (quiet_told _ _ _ o); [done|done|done|by repeat constructor|by apply same_before].
Qed.

Lemma handlePasswordInvalid_hushed r0 s error : hushed r0 (handlePasswordInvalid s error).
Proof.
  intros r Hq. unfold handlePasswordInvalid, finishSession, load_session, update_session. rewrite !bind_run. simpl.
  destruct (sessions r !! s) as [o|] eqn:Ho; simpl; [|done]. destruct (initialized o) eqn:Ei; simpl; [done|].
  unfold load_session. rewrite !bind_run. simpl. rewrite bind_run.
  destruct (String.eqb error ""); simpl; rewrite !bind_run; simpl; rewrite Ho; simpl.
  - eapply (quiet_told _ _ _ o); [done|done|done|by repeat constructor|by apply same_before].
  - eapply (quiet_told _ (with_login_log _ r) _ o); [|done|done|by repeat constructor|by apply same_before].
    apply silent_signals; [by repeat constructor|done].
Qed.
End registry.

(** One step through an operation of the registry. *)
Ltac hush_step :=
  lazymatch goal with
  | |- spec _ _ (modify _) _ => apply hushed_modify; done
  | |- spec _ _ (signal _) _ => apply hushed_signal; done
  | |- spec _ _ (raise _) _ => intros ? ?; exact I
  | |- spec _ _ (when _ _) _ => apply spec_when
  | |- spec _ _ (mret _) _ => apply spec_ret; intros; assumption
  | |- spec _ _ (update_session _ _) _ => apply hushed_update; by intros
  | |- spec _ _ (get ≫= _) _ => apply hushed_get; intros ?
  | |- spec _ _ (load_session _ ≫= _) _ => apply hushed_load; intros ?
  | |- spec _ _ (_ ≫= _) _ => apply spec_keep; [|intros []]
  | |- spec _ _ (match _ with _ => _ end) _ => case_match
  | |- spec _ _ (handlePasswordValid _) _ => apply handlePasswordValid_hushed
  | |- spec _ _ (handlePasswordInvalid _ _) _ => apply handlePasswordInvalid_hushed
  end.
Ltac hush := repeat hush_step.

Section inputs.
Context {J : Type} `{Jid J} (lcfg : LoginConfig).
Implicit Types (r : Registry J) (o : Session J).

Lemma handleElement_hushed s e r r' o :
  sessions r !! s = Some o → initialized o = false → e ≠ StartSession →
  handleElement lcfg s e r = Done tt r' → quiet r r'.
Proof.
  intros Ho Hi He. unfold handleElement, load_session. rewrite !bind_run. simpl. rewrite Ho. simpl. rewrite Hi.
  assert (Hspec : ∀ m : prog (Registry J) unit, spec any_fault (quiet r) m (λ _, quiet r) → m r = Done tt r' → quiet r r').
  { intros m Hm Hdone. specialize (Hm r (quiet_refl r)). by rewrite Hdone in Hm. }
  destruct e as [mech user password| |uuid| |]; [| | |done|by intros [= <-]; apply quiet_refl].
  - destruct (_ || _)%bool.
    + destruct (String.eqb mech "EXTERNAL"); apply Hspec; [hush|]. unfold isValidUserPassword. hush.
    + unfold finishSession, update_session, load_session. rewrite !bind_run. simpl. rewrite !bind_run. simpl. rewrite Ho. simpl.
      intros [= <-]. eapply (quiet_told r r s o); [apply quiet_refl|done|done|by repeat constructor|by apply same_before].
  - apply Hspec. hush.
  - unfold update_session, load_session. rewrite !bind_run. simpl. rewrite Ho. simpl. intros [= <-].
    apply (silent_signals r [BindResult s _]); [by repeat constructor|].
    eapply quiet_update; [apply quiet_refl|done|by apply same_before].
Qed.

Lemma handleStreamStart_hushed r0 s to : spec any_fault (quiet r0) (handleStreamStart s to) (λ _, quiet r0).
Proof. unfold handleStreamStart. hush. Qed.

Lemma onPasswordValid_hushed r0 user : spec any_fault (quiet r0) (onPasswordValid user) (λ _, quiet r0).
Proof. unfold onPasswordValid. hush. Qed.

Lemma onPasswordInvalid_hushed r0 user error : spec any_fault (quiet r0) (onPasswordInvalid user error) (λ _, quiet r0).
Proof. unfold onPasswordInvalid. hush. Qed.

Lemma stopLogin_hushed r0 user s : spec any_fault (quiet r0) (stopLogin user s) (λ _, quiet r0).
Proof. unfold stopLogin. hush. Qed.

(** A session that started is handed elements; one that starts says so. *)
Lemma handleElement_started s e r o :
  sessions r !! s = Some o → initialized o = true →
  handleElement lcfg s e r = Done tt (with_login_log (λ l, l ++ [ElementReceived s]) r).
Proof. intros Ho Hi. unfold handleElement, load_session. rewrite !bind_run. simpl. rewrite Ho. simpl. by rewrite Hi. Qed.

Lemma handleElement_starts s r o :
  sessions r !! s = Some o → initialized o = false →
  handleElement lcfg s StartSession r =
    Done tt (with_login_log (λ l, l ++ [SessionResult s; SessionStarted s])
      (with_sessions (<[s := set_initialized o]>) r)).
Proof.
  intros Ho Hi. unfold handleElement, update_session, load_session. rewrite !bind_run. simpl. rewrite Ho. simpl. rewrite Hi.
  unfold signal, update_session, load_session. repeat (rewrite bind_run; simpl). rewrite Ho. simpl.
  unfold modify, with_login_log, with_sessions. simpl. by rewrite <- app_assoc.
Qed.

Lemma handleSessionFinished_log s r o r' :
  sessions r !! s = Some o → handleSessionFinished s r = Done tt r' → quiet (with_sessions (<[s := set_closed o]>) r) r'.
Proof.
  intros Ho. unfold handleSessionFinished, update_session, load_session. rewrite !bind_run. simpl. rewrite Ho. simpl.
  unfold load_session. rewrite !bind_run. simpl. rewrite Ho. simpl. intros E.
  pose proof (stopLogin_hushed (with_sessions (<[s := set_closed o]>) r) (login_jid (user_ o) o) s _ (quiet_refl _)) as Hq.
  by rewrite E in Hq.
Qed.
End inputs.

Section channel.
Context {J : Type} `{Jid J} (m_jid : J) (lcfg : LoginConfig).

#[local] Existing Instance jid_key.

Implicit Types (c : Channel J) (o : Session J).

(** ** What the channel knows *)

Definition session_in c s o : Prop := sessions (ch_registry c) !! s = Some o.

Record channel_ok c : Prop := mkChannelOk {
  co_sorted : sorted (ch_sessions c);
  (** the sessions of a user have started and bear the user's address *)
  co_started key s : s ∈ sessions_of key c →
    ∃ o, session_in c s o ∧ initialized o = true ∧ closed o = false ∧ bare (remoteJID o) = key;
  co_once key : NoDup (sessions_of key c);
  co_connected s : s ∈ ch_connected c ↔ ∃ key, s ∈ sessions_of key c;
  (** and a session that has started is among them until it is told to finish *)
  co_complete s o : session_in c s o → initialized o = true → finishing o = false → closed o = false →
    s ∈ sessions_of (bare (remoteJID o)) c;
  co_server s : s ∈ serverFromClientSessions c ↔ ∃ o, session_in c s o ∧ closed o = false;
}.

Lemma channel_ok_initial : channel_ok Channel.initial.
Proof.
  split; simpl; [constructor|intros ? ? Hin; by apply not_elem_of_nil in Hin|intros; constructor| |done|].
  - intros s. split; [intros Hin; by apply not_elem_of_nil in Hin|intros [? Hin]; by apply not_elem_of_nil in Hin].
  - intros s. split; [intros Hin; by apply not_elem_of_nil in Hin|intros (? & ? & ?); done].
Qed.

Lemma sessions_of_insert key l c key' :
  sessions_of key' (Channel.with_sessions (sinsert key l) c) = if decide (key' = key) then l else sessions_of key' c.
Proof.
  unfold sessions_of. cbn [ch_sessions Channel.with_sessions]. case_decide as Hk; [subst; by rewrite sfind_sinsert_eq|].
  by rewrite sfind_sinsert_ne.
Qed.

(** Reading through operator[] changes nothing that counts. *)
Lemma channel_ok_touch key c : channel_ok c → channel_ok (Channel.with_sessions (sinsert key (sessions_of key c)) c).
Proof.
  intros [H1 H2 H3 H4 H5 H6].
  assert (E : ∀ key', sessions_of key' (Channel.with_sessions (sinsert key (sessions_of key c)) c) = sessions_of key' c).
  { intros key'. rewrite sessions_of_insert. by case_decide; subst. }
  split; [by apply sinsert_sorted|..]; simpl.
  - intros k s. rewrite E. apply H2.
  - intros k. rewrite E. apply H3.
  - intros s. rewrite H4. by setoid_rewrite E.
  - intros s o. rewrite E. apply H5.
  - apply H6.
Qed.

(** What does not concern sessions that have started. *)
Lemma channel_ok_quiet c r' : channel_ok c → quiet (ch_registry c) r' → channel_ok (with_registry r' c).
Proof.
  intros [H1 H2 H3 H4 H5 H6] [Hs _].
  assert (Hf : ∀ s o, session_in c s o → ∃ o', sessions r' !! s = Some o' ∧ same_session o o').
  { intros s o Ho. specialize (Hs s). unfold session_in in Ho. rewrite Ho in Hs.
    destruct (sessions r' !! s) as [o'|]; [by exists o'|done]. }
  assert (Hb : ∀ s o', sessions r' !! s = Some o' → ∃ o, session_in c s o ∧ same_session o o').
  { intros s o' Ho. specialize (Hs s). unfold session_in. rewrite Ho in Hs.
    destruct (sessions (ch_registry c) !! s) as [o|]; [by exists o|done]. }
  split; simpl; [done| |done|done| |].
  - intros key s Hin. destruct (H2 _ _ Hin) as (o & Ho & Hi & Hc & Hk). destruct (Hf _ _ Ho) as (o' & Ho' & Ei & Ec & Er).
    destruct (Er Hi) as [Er' _]. exists o'. unfold session_in. simpl. split_and!; [done|congruence|congruence|by rewrite Er'].
  - intros s o' Ho' Hi Hfin Hc. destruct (Hb _ _ Ho') as (o & Ho & Ei & Ec & Er). destruct Er as [Er Ef]; [congruence|].
    rewrite Er. apply H5; congruence.
  - intros s. rewrite H6. unfold session_in. simpl. split.
    + intros (o & Ho & Hc). destruct (Hf _ _ Ho) as (o' & Ho' & _ & Ec & _). exists o'. split; congruence.
    + intros (o' & Ho' & Hc). destruct (Hb _ _ Ho') as (o & Ho & _ & Ec & _). exists o. split; [done|congruence].
Qed.

Lemma channel_ok_out c f : channel_ok c → channel_ok (with_out f c).
Proof. by intros [H1 H2 H3 H4 H5 H6]. Qed.

(** ** Running the pieces *)

Lemma getRemoteJID_run s c o : session_in c s o → getRemoteJID s c = Done (remoteJID o) c.
Proof.
  intros Ho. unfold getRemoteJID, in_registry, load_session. rewrite !bind_run. simpl. unfold session_in in Ho. rewrite Ho. simpl.
  by destruct c.
Qed.

Definition removed s o c : Channel J :=
  Channel.with_sessions (sinsert (bare (remoteJID o)) (list_remove_all s (sessions_of (bare (remoteJID o)) c)))
    (with_connected (list_remove_all s) c).

Lemma removeSession_run s c o : session_in c s o → removeSession s c = Done tt (removed s o c).
Proof.
  intros Ho. unfold removeSession. rewrite bind_run. unfold modify at 1.
  by rewrite (bind_done _ _ _ _ _ (getRemoteJID_run s (with_connected (list_remove_all s) c) o Ho)).
Qed.

Lemma sessions_of_removed s o c key :
  channel_ok c → session_in c s o → sessions_of key (removed s o c) = list_remove_all s (sessions_of key c).
Proof.
  intros Hok Ho. unfold removed. rewrite sessions_of_insert. case_decide as Hk; [by subst|].
  symmetry. apply list_remove_all_absent. intros Hin. destruct (co_started _ Hok _ _ Hin) as (o' & Ho' & _ & _ & Hk').
  unfold session_in in *. congruence.
Qed.

(** A session that is told to finish, or has ended, is not listed any more. *)
Lemma channel_ok_removed s o o' srv c r' :
  channel_ok c → session_in c s o → sessions r' = <[s := o']> (sessions (ch_registry c)) →
  closed o' = true ∨ finishing o' = true ∧ closed o' = closed o →
  (∀ s2, s2 ∈ srv ↔ ∃ o2, sessions r' !! s2 = Some o2 ∧ closed o2 = false) →
  channel_ok (with_server (λ _, srv) (with_registry r' (removed s o c))).
Proof.
  intros Hok Ho Er Hgone Hserver.
  assert (E : ∀ key, sessions_of key (with_server (λ _, srv) (with_registry r' (removed s o c))) = list_remove_all s (sessions_of key c)).
  { intros key. by rewrite <- (sessions_of_removed s o c key). }
  split.
  - apply sinsert_sorted, Hok.
  - intros key s2. rewrite E, elem_of_list_remove_all. intros [Hin Hne].
    destruct (co_started _ Hok _ _ Hin) as (o2 & Ho2 & Hrest). exists o2. unfold session_in in *. simpl.
    by rewrite Er, lookup_insert_ne.
  - intros key. rewrite E. apply NoDup_list_remove_all, Hok.
  - intros s2. setoid_rewrite E. simpl. setoid_rewrite elem_of_list_remove_all. rewrite (co_connected _ Hok). naive_solver.
  - intros s2 o2. unfold session_in. simpl. rewrite Er, E, elem_of_list_remove_all.
    intros [[-> <-]|[Hne Ho2]]%lookup_insert_Some Hi Hf Hc; [destruct Hgone as [?|[? ?]]; congruence|].
    split; [by apply Hok|done].
  - intros s2. simpl. apply Hserver.
Qed.

(** ** Closing the sessions of a user *)

Definition told (element : option string) s : list (channel_event J) :=
  match element with Some text => [Sent s (SendStreamError text)] | None => [] end.

Definition closing element s o c : Channel J :=
  with_registry (with_sessions (<[s := set_finishing o]>) (ch_registry c)) (with_out (λ l, l ++ told element s) (removed s o c)).

Lemma finish_one_run element s c o :
  session_in c s o → finish_one element false s c = Done true (closing element s o c).
Proof.
  intros Ho. unfold finish_one. rewrite (bind_done _ _ _ _ _ (removeSession_run s c o Ho)).
  assert (E : (match element with Some text => emit (Sent s (SendStreamError text)) | None => mret tt end) (removed s o c)
              = Done tt (with_out (λ l, l ++ told element s) (removed s o c))).
  { destruct element; [done|]. unfold with_out. simpl. by rewrite app_nil_r. }
  rewrite (bind_done _ _ _ _ _ E), (bind_done _ _ _ _ _ (getRemoteJID_run s (with_out _ (removed s o c)) o Ho)).
  cbn [andb when]. rewrite bind_run. cbn [mret prog_ret]. rewrite bind_run. unfold in_registry, Login.finishSession, update_session, load_session.
  rewrite !bind_run. simpl. unfold session_in in Ho. rewrite Ho. reflexivity.
Qed.

Lemma finish_step element s l c o :
  session_in c s o → finish_loop element false (s :: l) c = finish_loop element false l (closing element s o c).
Proof. intros Ho. unfold finish_loop. cbn [for_each_until]. by rewrite (bind_done _ _ _ _ _ (finish_one_run element s c o Ho)). Qed.

Lemma closing_ok element s o c : channel_ok c → session_in c s o → closed o = false → channel_ok (closing element s o c).
Proof.
  intros Hok Ho Hc. unfold closing.
  change (channel_ok (with_out (λ l, l ++ told element s)
    (with_registry (with_sessions (<[s := set_finishing o]>) (ch_registry c)) (removed s o c)))).
  apply channel_ok_out.
  refine (channel_ok_removed s o (set_finishing o) (serverFromClientSessions c) c
    (with_sessions (<[s := set_finishing o]>) (ch_registry c)) Hok Ho eq_refl _ _); [by right|].
  intros s2. rewrite (co_server _ Hok). unfold session_in in *. cbn [sessions with_sessions].
  destruct (decide (s2 = s)) as [->|]; [rewrite lookup_insert_eq, Ho|by rewrite lookup_insert_ne].
  split; intros (? & [= <-] & ?); by eexists.
Qed.

Lemma finish_loop_run element l c :
  channel_ok c → NoDup l → (∀ s, s ∈ l → ∃ key, s ∈ sessions_of key c) →
  ∃ c', finish_loop element false l c = Done tt c' ∧ channel_ok c' ∧ ch_out c' = ch_out c ++ concat (told element <$> l)
    ∧ (∀ key s, s ∈ sessions_of key c' ↔ s ∈ sessions_of key c ∧ s ∉ l)
    ∧ (∀ s o, session_in c s o → session_in c' s (if decide (s ∈ l) then set_finishing o else o)).
Proof.
  intros Hok Hl. revert c Hok. induction Hl as [|s l Hs Hl IH]; intros c Hok Hin.
  - exists c. split_and!; [done|done|by rewrite app_nil_r|set_solver|]. intros s o. by rewrite decide_False by apply not_elem_of_nil.
  - destruct (Hin s) as [key Hkey]; [set_solver|]. destruct (co_started _ Hok _ _ Hkey) as (o & Ho & _ & Hc & _).
    rewrite (finish_step _ _ _ _ o) by done.
    assert (E : ∀ key, sessions_of key (closing element s o c) = list_remove_all s (sessions_of key c))
      by (intros key'; by rewrite <- (sessions_of_removed s o c key')).
    destruct (IH (closing element s o c)) as (c' & Er & Hok' & Eo & Es & Ef); [by apply closing_ok| |].
    { intros s2 Hs2. destruct (Hin s2) as [key2 Hk2]; [set_solver|]. exists key2. rewrite E, elem_of_list_remove_all.
      split; [done|]. by intros ->. }
    exists c'. split_and!; [done|done|rewrite Eo; simpl; by rewrite <- app_assoc| |].
    + intros key' s2. rewrite Es, E, elem_of_list_remove_all. set_solver.
    + intros s2 o2 Ho2. destruct (decide (s2 = s)) as [->|Hne].
      * rewrite decide_True by set_solver. unfold session_in in Ho, Ho2. rewrite Ho in Ho2. injection Ho2 as <-.
        specialize (Ef s (set_finishing o)). rewrite decide_False in Ef by done. apply Ef. apply lookup_insert_eq.
      * specialize (Ef s2 o2). assert (session_in (closing element s o c) s2 o2) as Hb by (unfold session_in; simpl; by rewrite lookup_insert_ne).
        specialize (Ef Hb). destruct (decide (s2 ∈ l)); [rewrite decide_True by set_solver|rewrite decide_False by set_solver]; done.
Qed.

(** closing a user's connection (XMPPUser::disconnectUser and its destructor) closes
    all of the user's sessions and touches no others: each is told the error once, is
    told to finish and is forgotten by the channel at once, so that nothing more is sent
    to it; and the gateway itself hears nothing, not even that the user is unavailable. *)
Theorem user_closed to element c :
  channel_ok c →
  ∃ c', Channel.finishSession to element false c = Done tt c' ∧ channel_ok c'
    ∧ sessions_of (bare to) c' = []
    ∧ (∀ key, key ≠ bare to → ∀ s, s ∈ sessions_of key c' ↔ s ∈ sessions_of key c)
    ∧ ch_out c' = ch_out c ++ concat (told element <$> sessions_of (bare to) c)
    ∧ (∀ s o, session_in c s o → session_in c' s (if decide (s ∈ sessions_of (bare to) c) then set_finishing o else o)).
Proof.
  intros Hok. unfold Channel.finishSession. rewrite bind_run. cbn [get]. rewrite bind_run. cbn [modify].
  destruct (finish_loop_run element (sessions_of (bare to) c) (Channel.with_sessions (sinsert (bare to) (sessions_of (bare to) c)) c))
    as (c' & Er & Hok' & Eo & Es & Ef).
  - by apply channel_ok_touch.
  - apply Hok.
  - intros s Hs. exists (bare to). rewrite sessions_of_insert. by rewrite decide_True.
  - exists c'. split_and!; [exact Er|done| | |exact Eo|exact Ef].
    + destruct (sessions_of (bare to) c') as [|s l] eqn:El; [done|]. exfalso.
      assert (Hs : s ∈ sessions_of (bare to) c') by (rewrite El; set_solver). apply Es in Hs as [Hs Hn].
      rewrite sessions_of_insert, decide_True in Hs by done. done.
    + intros key Hne s. rewrite Es, sessions_of_insert, decide_False by done. split; [by intros [? _]|]. intros Hs. split; [done|].
      intros Hs'. destruct (co_started _ Hok _ _ Hs) as (o & Ho & _ & _ & Hk).
      destruct (co_started _ Hok _ _ Hs') as (o' & Ho' & _ & _ & Hk'). unfold session_in in *. congruence.
Qed.

(** ** Sending *)

(** The session [s] is there, has started and has not been told to finish. *)
Definition active c s o : Prop :=
  session_in c s o ∧ initialized o = true ∧ finishing o = false ∧ closed o = false.

Definition address_is jid c s : bool :=
  match sessions (ch_registry c) !! s with Some o => bool_decide (remoteJID o = jid) | None => false end.

Definition user_is jid c s : bool :=
  match sessions (ch_registry c) !! s with Some o => bool_decide (toBare (remoteJID o) = toBare jid) | None => false end.

Definition known c (l : list sid) : Prop := ∀ s, s ∈ l → ∃ o, session_in c s o.

Lemma known_sessions key c : channel_ok c → known c (sessions_of key c).
Proof. intros Hok s Hs. destruct (co_started _ Hok _ _ Hs) as (o & Ho & _). by exists o. Qed.

Lemma find_session_run jid l c : known c l → find_session jid l c = Done (List.find (address_is jid c) l) c.
Proof.
  induction l as [|s l IH]; intros Hl; [done|]. cbn [find_session List.find]. destruct (Hl s) as [o Ho]; [set_solver|].
  rewrite (bind_done _ _ _ _ _ (getRemoteJID_run s c o Ho)). unfold address_is at 1. unfold session_in in Ho. rewrite Ho.
  destruct (decide (remoteJID o = jid)) as [Heq|Hne].
  - by rewrite bool_decide_true.
  - rewrite bool_decide_false by done. apply IH. intros s2 Hs2. apply Hl. set_solver.
Qed.

Definition deliver st (l : list sid) c : Channel J := with_out (λ out, out ++ ((λ s, Sent s (SendStanza st)) <$> l)) c.

Lemma broadcast_run st jid l c :
  known c l →
  for_each l (λ s, remote ← getRemoteJID s; when (bool_decide (toBare remote = toBare jid)) (emit (Sent s (SendStanza st)))) c
    = Done tt (deliver st (filter (λ s, user_is jid c s = true) l) c).
Proof.
  revert c. induction l as [|s l IH]; intros c Hl; cbn [for_each].
  - unfold deliver, with_out. destruct c. simpl. by rewrite app_nil_r.
  - destruct (Hl s) as [o Ho]; [set_solver|]. rewrite bind_run, (bind_done _ _ _ _ _ (getRemoteJID_run s c o Ho)).
    assert (Hu : user_is jid c s = bool_decide (toBare (remoteJID o) = toBare jid)) by (unfold user_is, session_in in *; by rewrite Ho).
    rewrite filter_cons.
    assert (Hl' : ∀ c', ch_registry c' = ch_registry c → known c' l).
    { intros c' Ec s2 Hs2. unfold session_in. rewrite Ec. apply Hl. set_solver. }
    destruct (decide (toBare (remoteJID o) = toBare jid)).
    + rewrite bool_decide_true by done. cbn [when]. unfold emit, modify. rewrite IH by (by apply Hl').
      rewrite decide_True by (rewrite Hu; by apply bool_decide_true). unfold deliver, with_out. simpl. by rewrite <- app_assoc.
    + rewrite bool_decide_false by done. cbn [when]. cbn [mret prog_ret]. rewrite IH by (by apply Hl').
      rewrite decide_False; [done|]. rewrite Hu. by rewrite bool_decide_eq_true.
Qed.

Definition recipients jid c : list sid :=
  let l := sessions_of (bare jid) c in
  match (if isBare jid then None else List.find (address_is jid c) l) with
  | Some s => [s]
  | None => filter (λ s, user_is jid c s = true) l
  end.

Definition touched key c : Channel J := Channel.with_sessions (sinsert key (sessions_of key c)) c.

Lemma send_run st c :
  channel_ok c → isValid (stanza_to st) = true →
  send m_jid st c = Done tt (deliver (fill_from m_jid st) (recipients (stanza_to st) c) (touched (bare (stanza_to st)) c)).
Proof.
  intros Hok Hv. unfold send. rewrite Hv. cbn [negb]. rewrite bind_run. cbn [get]. rewrite bind_run. cbn [modify].
  fold (touched (bare (stanza_to st)) c). pose proof (known_sessions (bare (stanza_to st)) c Hok) as Hk.
  assert (Hk' : known (touched (bare (stanza_to st)) c) (sessions_of (bare (stanza_to st)) c)) by exact Hk.
  rewrite bind_run.
  assert (E : (if isBare (stanza_to st) then mret None else find_session (stanza_to st) (sessions_of (bare (stanza_to st)) c))
      (touched (bare (stanza_to st)) c)
    = Done (if isBare (stanza_to st) then None else List.find (address_is (stanza_to st) c) (sessions_of (bare (stanza_to st)) c))
        (touched (bare (stanza_to st)) c)).
  { destruct (isBare _); [done|]. by rewrite find_session_run. }
  rewrite E. unfold recipients. destruct (if isBare (stanza_to st) then None else _) as [s|]; [done|]. by rewrite broadcast_run.
Qed.

Lemma recipients_started jid c s :
  channel_ok c → s ∈ recipients jid c →
  ∃ o, session_in c s o ∧ initialized o = true ∧ closed o = false ∧ bare (remoteJID o) = bare jid.
Proof.
  intros Hok. unfold recipients. destruct (if isBare jid then None else _) as [s'|] eqn:E.
  - destruct (isBare jid); [done|]. apply find_some in E as [Hin _]. intros ->%list_elem_of_singleton.
    apply co_started; [done|by apply list_elem_of_In].
  - intros [_ Hin]%list_elem_of_filter. by apply co_started.
Qed.

(** An answer to a request. *)
Definition is_answer (st : Stanza J) : Prop := ∃ iq, st = IQStanza iq ∧ (iq_type iq = ResultIQ ∨ iq_type iq = ErrorIQ).

Lemma fill_from_spec st :
  (isValid (stanza_from st) = true ∨ is_answer st → fill_from m_jid st = st) ∧
  (isValid (stanza_from st) = false → ¬ is_answer st → fill_from m_jid st = setFrom m_jid st).
Proof.
  unfold fill_from, is_answer. destruct (isValid (stanza_from st)); [by split; [|intros [=]]|].
  destruct st as [m|p|iq]; [split; [by intros [[=]|(? & [=] & _)]|done]..|]. destruct iq as [f t ty id pl].
  split; [by intros [[=]|(iq & [= <-] & [E|E])]; simpl in E; rewrite E|].
  intros _ Hn. destruct ty; try done; by destruct Hn; eexists; split; [reflexivity|simpl; auto].
Qed.

(** C30: a stanza reaches the sessions it is for. Whatever the gateway sends to a valid
    address is handed, once each, to listed sessions, which have started and belong to the bare
    address: if an active session has the full address, to one with that address alone; if the address is bare or no
    listed session has it, to every active session of the user. It is handed on as it is, but
    that the gateway's own address is put in for the sender where none is named, except in the answers to requests. *)
Theorem stanza_routed st c :
  channel_ok c → isValid (stanza_to st) = true →
  ∃ c' l st', send m_jid st c = Done tt c' ∧ channel_ok c'
    ∧ ch_out c' = ch_out c ++ ((λ s, Sent s (SendStanza st')) <$> l) ∧ NoDup l
    ∧ (isValid (stanza_from st) = true ∨ is_answer st → st' = st)
    ∧ (isValid (stanza_from st) = false → ¬ is_answer st → st' = setFrom m_jid st)
    ∧ (∀ s, s ∈ l → ∃ o, session_in c s o ∧ initialized o = true ∧ closed o = false ∧ bare (remoteJID o) = bare (stanza_to st))
    ∧ (∀ s o, active c s o → isBare (stanza_to st) = false → remoteJID o = stanza_to st →
        ∃ s' o', l = [s'] ∧ session_in c s' o' ∧ remoteJID o' = stanza_to st)
    ∧ (isBare (stanza_to st) = true ∨
        (∀ s o, s ∈ sessions_of (bare (stanza_to st)) c → session_in c s o → remoteJID o ≠ stanza_to st) →
       ∀ s o, active c s o → toBare (remoteJID o) = toBare (stanza_to st) → s ∈ l).
Proof.
  intros Hok Hv. exists (deliver (fill_from m_jid st) (recipients (stanza_to st) c) (touched (bare (stanza_to st)) c)),
    (recipients (stanza_to st) c), (fill_from m_jid st). destruct (fill_from_spec st) as [Hkeep Hset].
  split_and!; [by apply send_run|by apply channel_ok_out, channel_ok_touch|done| |done|done|by intros s Hs; apply recipients_started| |].
  - unfold recipients. destruct (if isBare _ then None else _); [apply NoDup_singleton|]. apply NoDup_filter, Hok.
  - intros s o (Ho & Hi & Hf & Hc) Hb Heq. unfold recipients. rewrite Hb.
    destruct (List.find _ _) as [s'|] eqn:E.
    + apply find_some in E as [Hin Ha]. unfold address_is in Ha. destruct (sessions (ch_registry c) !! s') as [o'|] eqn:Ho'; [|done].
      apply bool_decide_eq_true in Ha. by exists s', o'.
    + assert (s ∈ sessions_of (bare (stanza_to st)) c) as Hin by (rewrite <- Heq; by apply Hok).
      apply list_elem_of_In in Hin. apply (find_none _ _ E) in Hin. unfold address_is, session_in in *. rewrite Ho in Hin.
      by rewrite bool_decide_true in Hin.
  - intros Hnone s o (Ho & Hi & Hf & Hc) Heq. unfold recipients.
    destruct (if isBare (stanza_to st) then None else _) as [s'|] eqn:E.
    { destruct (isBare (stanza_to st)); [done|]. destruct Hnone as [[=]|Hnone]. apply find_some in E as [Hin Ha].
      unfold address_is in Ha. destruct (sessions (ch_registry c) !! s') as [o'|] eqn:Ho'; [|done].
      apply bool_decide_eq_true in Ha. destruct (Hnone s' o'); [by apply list_elem_of_In|done|done]. }
    apply list_elem_of_filter. unfold user_is, session_in in *. rewrite Ho, bool_decide_true by done. split; [done|].
    replace (bare (stanza_to st)) with (bare (remoteJID o)) by (unfold bare; by rewrite Heq). by apply Hok.
Qed.

(** ** Every event *)

Lemma silent_signals_run st (l : list (login_event J)) c : Forall silent l → for_each l (session_signal st) c = Done tt c.
Proof.
  intros Hl. revert c. induction Hl as [|e l He Hl IH]; intros c; [done|]. cbn [for_each]. rewrite bind_run.
  destruct e; try done; apply IH.
Qed.

Lemma in_session_run i st c r' :
  Login.react lcfg i (ch_registry c) = Done tt r' →
  in_session lcfg i st c = for_each (drop (length (login_log (ch_registry c))) (login_log r')) (session_signal st) (with_registry r' c).
Proof.
  intros Er. unfold in_session. rewrite bind_run. cbn [get]. rewrite bind_run. unfold in_registry. by rewrite Er.
Qed.

Lemma in_session_quiet i st c r' :
  Login.react lcfg i (ch_registry c) = Done tt r' → quiet (ch_registry c) r' → in_session lcfg i st c = Done tt (with_registry r' c).
Proof.
  intros Er [_ (l & El & Hl)]. rewrite (in_session_run _ _ _ r') by done. rewrite El, drop_app_length. by apply silent_signals_run.
Qed.

(** What a session hands on. *)
Lemma element_run s st c o :
  session_in c s o → ∃ l, Channel.handleElement s st c = Done tt (with_out (λ out, out ++ l) c).
Proof.
  intros Ho. destruct st as [st|]; cbn [Channel.handleElement];
    [|exists []; unfold with_out; destruct c; simpl; by rewrite app_nil_r].
  rewrite (bind_done _ _ _ _ _ (getRemoteJID_run s c o Ho)).
  destruct (negb (isValid (remoteJID o))); [exists []; unfold with_out; destruct c; simpl; by rewrite app_nil_r|].
  destruct st; by eexists.
Qed.

(** A session that starts is listed. *)
Definition added s o c : Channel J :=
  with_connected (λ l, l ++ [s])
    (Channel.with_sessions (sinsert (bare (remoteJID o)) (sessions_of (bare (remoteJID o)) c ++ [s])) c).

Lemma addSession_run s c o : session_in c s o → addSession s c = Done tt (added s o c).
Proof. intros Ho. unfold addSession. by rewrite (bind_done _ _ _ _ _ (getRemoteJID_run s c o Ho)). Qed.

Lemma channel_ok_added s o c r' :
  channel_ok c → session_in c s o → initialized o = false → closed o = false →
  sessions r' = <[s := set_initialized o]> (sessions (ch_registry c)) →
  channel_ok (added s (set_initialized o) (with_registry r' c)).
Proof.
  intros Hok Ho Hi Hc Er.
  assert (Hnew : ∀ key, s ∉ sessions_of key c).
  { intros key Hin. destruct (co_started _ Hok _ _ Hin) as (o' & Ho' & Hi' & _). unfold session_in in *. congruence. }
  assert (E : ∀ key s2, s2 ∈ sessions_of key (added s (set_initialized o) (with_registry r' c))
    ↔ s2 ∈ sessions_of key c ∨ s2 = s ∧ key = bare (remoteJID o)).
  { intros key s2. unfold added. change (sessions_of key (with_connected ?f ?x)) with (sessions_of key x). rewrite sessions_of_insert.
    case_decide as Hk; [subst; rewrite elem_of_app, list_elem_of_singleton; naive_solver|]. naive_solver. }
  assert (Hs : ∀ s2 o2, sessions r' !! s2 = Some o2 ↔ (s2 = s ∧ o2 = set_initialized o) ∨ (s2 ≠ s ∧ session_in c s2 o2)).
  { intros s2 o2. rewrite Er, lookup_insert_Some. unfold session_in. naive_solver. }
  split.
  - apply sinsert_sorted, Hok.
  - intros key s2. rewrite E. intros [Hin|[-> ->]].
    + destruct (co_started _ Hok _ _ Hin) as (o2 & Ho2 & Hrest). exists o2. split; [|done]. apply Hs. right. split; [|done].
      intros ->. by apply (Hnew key).
    + exists (set_initialized o). split; [apply Hs; by left|done].
  - intros key. change (sessions_of key (added s ?o' ?x)) with (sessions_of key (Channel.with_sessions (sinsert (bare (remoteJID o)) (sessions_of (bare (remoteJID o)) c ++ [s])) c)).
    rewrite sessions_of_insert. case_decide; [|apply Hok]. apply NoDup_app. split_and!; [apply Hok| |apply NoDup_singleton].
    intros s2 Hin ->%list_elem_of_singleton. by apply (Hnew _ Hin).
  - intros s2. setoid_rewrite E. simpl. rewrite elem_of_app, list_elem_of_singleton, (co_connected _ Hok). naive_solver.
  - intros s2 o2. unfold session_in. simpl. rewrite Hs, E. intros [[-> ->]|[Hne Ho2]] Hi2 Hf Hc2; [by right|]. left. by apply Hok.
  - intros s2. simpl. rewrite (co_server _ Hok). unfold session_in. simpl. setoid_rewrite Hs. unfold session_in in Ho.
    split; [intros (o2 & Ho2 & Hc2)|intros (o2 & [[-> ->]|[Hne Ho2]] & Hc2)].
    + destruct (decide (s2 = s)) as [->|Hne]; [exists (set_initialized o)|exists o2]; naive_solver.
    + by exists o.
    + by exists o2.
Qed.

(** The connections and the registry: what an event makes the registry do. *)
Definition login_of (i : channel_input) : option (login_input (J := J)) :=
  match i with
  | Connected s tls => Some (NewClient s false tls)
  | Spoke s e _ => Some (Element s e)
  | StreamStarted s to => Some (StreamStart s to)
  | Ended s => Some (Finished s)
  | Channel.Freed s => Some (Login.Freed s)
  | Verdict user None => Some (PasswordValid user)
  | Verdict user (Some error) => Some (PasswordInvalid user error)
  | _ => None
  end.

Lemma channel_ok_ext c c' :
  channel_ok c → ch_registry c' = ch_registry c → sorted (ch_sessions c') →
  (∀ key, sessions_of key c' = sessions_of key c) → ch_connected c' = ch_connected c →
  serverFromClientSessions c' = serverFromClientSessions c → channel_ok c'.
Proof.
  intros [H1 H2 H3 H4 H5 H6] Er Hs Es Ec Ev. split; [done|..]; unfold session_in; rewrite ?Er, ?Ec, ?Ev.
  - intros key s. rewrite Es. apply H2.
  - intros key. rewrite Es. apply H3.
  - intros s. rewrite H4. by setoid_rewrite Es.
  - intros s o. rewrite Es. apply H5.
  - apply H6.
Qed.

Lemma channel_ok_connect s tls c r' :
  channel_ok c → sessions (ch_registry c) !! s = None →
  sessions r' = <[s := newSession false tls]> (sessions (ch_registry c)) →
  channel_ok (with_server (λ l, l ++ [s]) (with_registry r' c)).
Proof.
  intros [H1 H2 H3 H4 H5 H6] Hs Er. split; simpl; [done| |done|done| |].
  - intros key s2 Hin. destruct (H2 _ _ Hin) as (o2 & Ho2 & Hrest). exists o2. unfold session_in in *. simpl.
    rewrite Er, lookup_insert_ne; [done|congruence].
  - intros s2 o2. unfold session_in. simpl. rewrite Er. intros [[_ <-]|[_ Ho2]]%lookup_insert_Some; [done|by apply H5].
  - intros s2. rewrite elem_of_app, list_elem_of_singleton, H6. unfold session_in. simpl. rewrite Er.
    destruct (decide (s2 = s)) as [->|Hne]; [rewrite lookup_insert_eq, Hs; naive_solver|]. rewrite lookup_insert_ne by done. naive_solver.
Qed.

Lemma channel_ok_freed s o c r' :
  channel_ok c → session_in c s o → closed o = true → sessions r' = delete s (sessions (ch_registry c)) →
  channel_ok (with_registry r' c).
Proof.
  intros [H1 H2 H3 H4 H5 H6] Ho Hc Er. split; simpl; [done| |done|done| |].
  - intros key s2 Hin. destruct (H2 _ _ Hin) as (o2 & Ho2 & Hi2 & Hc2 & Hk). exists o2. unfold session_in in *. simpl.
    rewrite Er, lookup_delete_ne; [done|congruence].
  - intros s2 o2. unfold session_in. simpl. rewrite Er. intros [_ Ho2]%lookup_delete_Some. by apply H5.
  - intros s2. rewrite H6. unfold session_in in *. simpl. rewrite Er. setoid_rewrite lookup_delete_Some.
    split; [|naive_solver]. intros (o2 & Ho2 & Hc2). exists o2. split; [|done]. split; [congruence|done].
Qed.

(** The sessions of [jid] are told to finish and are not listed any more. *)
Definition all_finished jid c c' : Prop :=
  sessions_of (bare jid) c' = [] ∧
  ∀ s, s ∈ sessions_of (bare jid) c → ∃ o, session_in c' s o ∧ finishing o = true.

(** Sessions are listed that were, and [who] may be new. *)
Definition listed_after (who : sid → Prop) c c' : Prop :=
  ∀ key s, s ∈ sessions_of key c' → s ∈ sessions_of key c ∨ who s.

Lemma listed_same who c c' : ch_sessions c' = ch_sessions c → listed_after who c c'.
Proof. intros E key s. unfold sessions_of. rewrite E. by left. Qed.

Lemma finishSession_ok who to element c :
  channel_ok c → ∃ c', Channel.finishSession to element false c = Done tt c' ∧ channel_ok c' ∧ listed_after who c c'
    ∧ all_finished to c c'.
Proof.
  intros Hok. destruct (user_closed to element c Hok) as (c' & E & Hok' & Hnone & Hothers & _ & Hf).
  exists c'. split_and!; [done|done| |split; [done|]].
  - intros key s Hin. destruct (decide (key = bare to)) as [->|Hne]; [rewrite Hnone in Hin; by apply not_elem_of_nil in Hin|].
    left. by apply Hothers in Hin.
  - intros s Hs. destruct (co_started _ Hok _ _ Hs) as (o & Ho & _). exists (set_finishing o). specialize (Hf s o Ho).
    by rewrite decide_True in Hf.
Qed.

(** The log of the registry is its own. *)
Lemma channel_ok_log c f : channel_ok c → channel_ok (with_registry (with_login_log f (ch_registry c)) c).
Proof. by intros [H1 H2 H3 H4 H5 H6]. Qed.

(** An element arrives. *)
Lemma spoke_ok s e st c r' :
  channel_ok c → open_session s (ch_registry c) → Login.react lcfg (Element s e) (ch_registry c) = Done tt r' →
  ∃ c', in_session lcfg (Element s e) st c = Done tt c' ∧ channel_ok c' ∧ listed_after (λ s', s' = s ∧ e = StartSession) c c'.
Proof.
  intros Hok (o & Ho & Hc) Er. destruct (initialized o) eqn:Hi.
  - assert (E : Login.react lcfg (Element s e) (ch_registry c) = _) by exact (handleElement_started lcfg s e _ o Ho Hi).
    rewrite (in_session_run _ _ _ _ E). cbn [login_log with_login_log]. rewrite drop_app_length.
    pose proof (channel_ok_log c (λ l, l ++ [ElementReceived s]) Hok) as Hok1. set (c1 := with_registry _ c) in *.
    destruct (element_run s st c1 o Ho) as [l El]. cbn [for_each session_signal]. rewrite bind_run. cbn [get]. rewrite bind_run.
    cbn [get]. destruct (bool_decide (s ∈ ch_connected c1)); cbn [when].
    + rewrite El. eexists. split; [reflexivity|]. split; [by apply channel_ok_out|by apply listed_same].
    + eexists. split; [done|]. split; [done|by apply listed_same].
  - assert (He : e = StartSession ∨ e ≠ StartSession) by (destruct e; (by left) || by right). destruct He as [->|He].
    + assert (E : Login.react lcfg (Element s StartSession) (ch_registry c) = _) by exact (handleElement_starts lcfg s _ o Ho Hi).
      rewrite (in_session_run _ _ _ _ E). cbn [login_log with_login_log with_sessions]. rewrite drop_app_length.
      cbn [for_each session_signal]. rewrite bind_run. cbn [mret prog_ret]. rewrite bind_run. unfold handleSessionStarted.
      rewrite (addSession_run s _ (set_initialized o)) by apply lookup_insert_eq. eexists. split; [reflexivity|].
      split; [by apply channel_ok_added|]. intros key s2. unfold added.
      change (sessions_of key (with_connected ?f ?x)) with (sessions_of key x). rewrite sessions_of_insert. case_decide; [|by left].
      rewrite elem_of_app, list_elem_of_singleton. subst. intros [Hin| ->]; [by left|by right].
    + rewrite (in_session_quiet _ _ _ _ Er); [eexists; split; [done|]; split; [apply channel_ok_quiet; [done|]|by apply listed_same]|];
        by eapply handleElement_hushed.
Qed.

(** A session ends. *)
Lemma ended_ok s c r' :
  channel_ok c → open_session s (ch_registry c) → Login.react lcfg (Finished s) (ch_registry c) = Done tt r' →
  ∃ c', onSessionFinished lcfg s c = Done tt c' ∧ channel_ok c' ∧ listed_after (λ _, False) c c'.
Proof.
  intros Hok (o & Ho & Hc) Er. unfold onSessionFinished. rewrite bind_run.
  pose proof (handleSessionFinished_log s _ o r' Ho Er) as Hq.
  assert (E : in_session lcfg (Finished s) None c = Done tt (with_registry r' c)).
  { rewrite (in_session_run _ _ _ _ Er). destruct Hq as [_ (l & El & Hl)]. simpl in El. rewrite El, drop_app_length.
    by apply silent_signals_run. }
  rewrite E. rewrite bind_run. cbn [get]. rewrite bind_run.
  assert (Hin : s ∈ serverFromClientSessions c) by (apply Hok; by exists o). cbn [serverFromClientSessions with_registry].
  rewrite bool_decide_true by done. cbn [when server_sessionFinished modify]. rewrite bind_run. cbn [get].
  set (c2 := with_server (list_remove_all s) (with_registry r' c)).
  (* what is left when the channel has forgotten the session *)
  assert (Hok3 : channel_ok (with_registry r' (with_server (λ _, list_remove_all s (serverFromClientSessions c))
      (with_registry (with_sessions (<[s := set_closed o]>) (ch_registry c)) (removed s o c))))).
  { apply channel_ok_quiet; [|exact Hq].
    refine (channel_ok_removed s o (set_closed o) _ c (with_sessions (<[s := set_closed o]>) (ch_registry c)) Hok Ho eq_refl _ _); [by left|].
    intros s2. rewrite elem_of_list_remove_all, (co_server _ Hok). unfold session_in in *. cbn [sessions with_sessions].
    destruct (decide (s2 = s)) as [->|]; [rewrite lookup_insert_eq|rewrite lookup_insert_ne by done]; naive_solver. }
  assert (Ho2 : ∃ o2, session_in c2 s o2 ∧ (remoteJID o2 = remoteJID o ∨ initialized o = false)).
  { destruct Hq as [Hs _]. specialize (Hs s). simpl in Hs. rewrite lookup_insert_eq in Hs.
    destruct (sessions r' !! s) as [o2|] eqn:Eo2; [|done]. exists o2. split; [exact Eo2|]. destruct Hs as (_ & _ & Hr).
    simpl in Hr. destruct (initialized o); [left; by apply Hr|by right]. }
  destruct Ho2 as (o2 & Ho2 & Hrem). destruct (decide (s ∈ ch_connected c)) as [Hcon|Hcon].
  - change (ch_connected c2) with (ch_connected c). rewrite bool_decide_true by done. cbn [when]. unfold channel_sessionFinished.
    rewrite (bind_done _ _ _ _ _ (removeSession_run s c2 o2 Ho2)).
    assert (Ho2' : session_in (removed s o2 c2) s o2) by exact Ho2.
    rewrite (bind_done _ _ _ _ _ (getRemoteJID_run s _ o2 Ho2')). eexists. split; [reflexivity|]. split.
    2: { intros key s2. change (sessions_of key (with_out ?f ?x)) with (sessions_of key x). unfold removed.
         rewrite sessions_of_insert. case_decide; [subst|by left]. rewrite elem_of_list_remove_all. intros [Hin2 _]. by left. }
    apply channel_ok_out.
    apply (co_connected _ Hok) in Hcon as [key Hkey]. destruct (co_started _ Hok _ _ Hkey) as (o' & Ho' & Hi' & _).
    assert (o' = o) as -> by (unfold session_in in *; congruence). destruct Hrem as [Hrem|]; [|congruence].
    eapply (channel_ok_ext _ _ Hok3); try done; [apply sinsert_sorted, Hok|]. intros key'.
    unfold removed. rewrite Hrem. reflexivity.
  - change (ch_connected c2) with (ch_connected c). rewrite bool_decide_false by done. cbn [when]. eexists. split; [reflexivity|].
    split; [|by apply listed_same]. eapply (channel_ok_ext _ _ Hok3); try done; [apply Hok| |].
    + intros key'. change (sessions_of key' (with_registry r' (with_server ?f (with_registry ?x (removed s o c))))) with (sessions_of key' (removed s o c)).
      rewrite (sessions_of_removed s o c key' Hok Ho). change (sessions_of key' c2) with (sessions_of key' c).
      rewrite list_remove_all_absent; [done|]. intros Hin'. apply Hcon, Hok. by exists key'.
    + cbn. by rewrite list_remove_all_absent.
Qed.

(** The session an event starts. *)
Definition starts (i : channel_input (J := J)) (s : sid) : Prop := ∃ st, i = Spoke s StartSession st.

(** The address whose connections an event closes. *)
Definition closes (i : channel_input (J := J)) : option J :=
  match i with Disconnect jid _ | Destroy jid => Some jid | _ => None end.

(** C29: the channel knows the sessions. Whatever clients and the gateway do, each event
    runs to its end if the registry of logins gets through its own part of it. After it the sessions
    listed for an address have started, are open and belong to that user, once each, and a session that has started
    and was never told to finish is listed; a session comes to be listed only with the event that starts it, and
    when the gateway closes a user's connections all that are listed for the user are told to
    finish and none is listed any more; the channel listens to the listed sessions
    and to no others; and the server holds exactly the connections that are open. (A session
    that is told to finish before it has started may still start, and is listed then.) *)
Theorem channel_sound :
  channel_ok Channel.initial
  ∧ ∀ c i, channel_ok c → Channel.enabled i c →
    (∀ li, login_of i = Some li → ∃ r', Login.react lcfg li (ch_registry c) = Done tt r') →
    ∃ c', Channel.react m_jid lcfg i c = Done tt c' ∧ channel_ok c' ∧ listed_after (starts i) c c'
      ∧ ∀ jid, closes i = Some jid → all_finished jid c c'.
Proof.
  split; [exact channel_ok_initial|]. intros c i Hok Hen Hr.
  assert (Hrun : ∀ li r', Login.react lcfg li (ch_registry c) = Done tt r' → quiet (ch_registry c) r' →
    ∃ c', in_session lcfg li None c = Done tt c' ∧ channel_ok c' ∧ listed_after (starts i) c c').
  { intros li r' E Hq. exists (with_registry r' c). split; [by apply in_session_quiet|].
    split; [by apply channel_ok_quiet|by apply listed_same]. }
  destruct (closes i) as [jid|] eqn:Ecl.
  { destruct i; try discriminate Ecl; injection Ecl as ->; cbn [Channel.react];
      [destruct (finishSession_ok (starts (Disconnect jid error)) jid (Some error) c Hok) as (c' & ? & ? & ? & ?)
      |destruct (finishSession_ok (starts (Destroy jid)) jid None c Hok) as (c' & ? & ? & ? & ?)];
      exists c'; split_and!; try done; by intros ? [= <-]. }
  cut (∃ c', Channel.react m_jid lcfg i c = Done tt c' ∧ channel_ok c' ∧ listed_after (starts i) c c').
  { intros (c' & ? & ? & ?). by exists c'. }
  destruct i as [s tls|s e st|s to|s data|s|s|user [error|]|st|jid error|jid]; cbn [Channel.react login_of] in *.
  - unfold handleNewClientConnection. rewrite bind_run.
    rewrite (in_session_run (NewClient s false tls) _ _ (with_sessions (<[s := newSession false tls]>) (ch_registry c)) eq_refl).
    cbn [login_log with_sessions]. rewrite drop_all. eexists. split; [reflexivity|].
    split; [by eapply channel_ok_connect|by apply listed_same].
  - destruct (Hr _ eq_refl) as [r' E]. destruct (spoke_ok s e st c r' Hok Hen E) as (c' & ? & ? & Hl). exists c'.
    split_and!; try done. intros key s2 [?|[-> ->]]%Hl; [by left|right; by exists st].
  - destruct (Hr _ eq_refl) as [r' E]. apply (Hrun _ r' E). pose proof (handleStreamStart_hushed (ch_registry c) s to _ (quiet_refl _)) as Hq.
    simpl in E. by rewrite E in Hq.
  - rewrite bind_run. cbn [get]. destruct (bool_decide _); cbn [when]; [|exists c; split_and!; [done|done|by apply listed_same]].
    destruct Hen as (o & Ho & _). unfold handleDataRead.
    destruct (contains _ data); [|exists c; split_and!; [done|done|by apply listed_same]].
    rewrite (bind_done _ _ _ _ _ (getRemoteJID_run s c o Ho)).
    eexists. split; [reflexivity|]. split; [by apply channel_ok_out|by apply listed_same].
  - destruct (Hr _ eq_refl) as [r' E]. destruct (ended_ok s c r' Hok Hen E) as (c' & ? & ? & Hl). exists c'.
    split_and!; try done. intros key s2 [?|[]]%Hl. by left.
  - destruct Hen as (o & Ho & Hc).
    rewrite (in_session_run (Login.Freed s) _ _ (with_sessions (delete s) (ch_registry c)) eq_refl).
    cbn [login_log with_sessions]. rewrite drop_all. eexists. split; [reflexivity|].
    split; [by eapply channel_ok_freed|by apply listed_same].
  - destruct (Hr _ eq_refl) as [r' E]. apply (Hrun _ r' E).
    pose proof (onPasswordInvalid_hushed (ch_registry c) user error _ (quiet_refl _)) as Hq. simpl in E. by rewrite E in Hq.
  - destruct (Hr _ eq_refl) as [r' E]. apply (Hrun _ r' E).
    pose proof (onPasswordValid_hushed (ch_registry c) user _ (quiet_refl _)) as Hq. simpl in E. by rewrite E in Hq.
  - eexists. split; [by apply send_run|]. split; [by apply channel_ok_out, channel_ok_touch|]. intros key s.
    change (sessions_of key (deliver ?a ?b ?x)) with (sessions_of key x). unfold touched. rewrite sessions_of_insert.
    case_decide; subst; by left.
  - discriminate Ecl.
  - discriminate Ecl.
Qed.
End channel.

(** ** A concrete gateway with two sessions of one user *)

Definition gw : ref_jid := mkRefJid "" "gw" "".

Definition started (resource : string) : Session ref_jid :=
  mkSession "u" gw (mkRefJid "u" "gw" resource) true true false false false false false.

Definition two_sessions : Channel ref_jid :=
  mkChannel (mkRegistry ∅ false [] {[1 := started "phone"; 2 := started "desk"]} []) [("u@gw"%string, [1; 2])] [1; 2] [1; 2] [].

Lemma two_sessions_of key : sessions_of key two_sessions = if decide (key = "u@gw"%string) then [1; 2] else [].
Proof.
  unfold sessions_of. cbn [ch_sessions two_sessions sfind]. destruct (decide (key = "u@gw"%string)) as [->|Hne]; [by vm_compute|].
  reflexivity.
Qed.

Lemma two_sessions_in s o : session_in two_sessions s o → s = 1 ∧ o = started "phone" ∨ s = 2 ∧ o = started "desk".
Proof.
  unfold session_in. cbn [sessions ch_registry two_sessions].
  intros [[<- <-]|[_ [<- <-]%lookup_singleton_Some]]%lookup_insert_Some; tauto.
Qed.

Lemma two_sessions_ok : channel_ok two_sessions.
Proof.
  split.
  - repeat constructor.
  - intros key s. rewrite two_sessions_of. case_decide as Hk; [|by intros ?%not_elem_of_nil].
    intros [->|[->|?%not_elem_of_nil]%elem_of_cons]%elem_of_cons; subst; [exists (started "phone")|exists (started "desk")|done]; done.
  - intros key. rewrite two_sessions_of. case_decide; [|constructor]. apply NoDup_cons. split; [|apply NoDup_singleton].
    by intros [=]%list_elem_of_singleton.
  - intros s. split; [intros Hs; exists "u@gw"%string; by rewrite two_sessions_of|]. intros [key Hin]. rewrite two_sessions_of in Hin.
    by case_decide; [|apply not_elem_of_nil in Hin].
  - intros s o [[-> ->]|[-> ->]]%two_sessions_in _ _ _; rewrite two_sessions_of; rewrite decide_True by done; set_solver.
  - intros s. split.
    + intros [->|[->|?%not_elem_of_nil]%elem_of_cons]%elem_of_cons; [exists (started "phone")|exists (started "desk")|done]; done.
    + intros (o & [[-> ->]|[-> ->]]%two_sessions_in & _); simpl; set_solver.
Qed.

Lemma user_closed_witness :
  ∃ c', Channel.finishSession (mkRefJid "u" "gw" "") (Some "bye"%string) false two_sessions = Done tt c' ∧
    ch_out c' = [Sent 1 (SendStreamError "bye"); Sent 2 (SendStreamError "bye")].
Proof.
  destruct (user_closed (mkRefJid "u" "gw" "") (Some "bye"%string) two_sessions two_sessions_ok) as (c' & E & _ & _ & _ & O & _).
  exists c'. split; [exact E|]. rewrite O. by vm_compute.
Defined.

Definition greeting (resource : string) : Stanza ref_jid :=
  MessageStanza (mkMessage no_jid (mkRefJid "u" "gw" resource) Chat "hello" "" []).

Definition greeted (resource : string) (s : sid) : channel_event ref_jid :=
  Sent s (SendStanza (MessageStanza (mkMessage gw (mkRefJid "u" "gw" resource) Chat "hello" "" []))).

(** A greeting goes to the session that has the address, and one to an address nobody has to both. *)
Lemma stanza_routed_witness :
  (∃ c', send gw (greeting "desk") two_sessions = Done tt c' ∧ ch_out c' = [greeted "desk" 2]) ∧
  ∃ c', send gw (greeting "car") two_sessions = Done tt c' ∧ greeted "car" 1 ∈ ch_out c' ∧ greeted "car" 2 ∈ ch_out c'.
Proof.
  assert (Hno : ∀ resource, ¬ is_answer (greeting resource)) by (by intros resource (iq & [=] & _)). split.
  - destruct (stanza_routed gw (greeting "desk") two_sessions two_sessions_ok eq_refl)
      as (c' & l & st' & E & _ & O & _ & _ & Hst & _ & Hfull & _).
    exists c'. split; [exact E|]. destruct (Hfull 2 (started "desk")) as (s' & o' & -> & Ho' & Hj); [by vm_compute|done|done|].
    rewrite O, Hst by done. apply two_sessions_in in Ho' as [[-> ->]|[-> ->]]; [discriminate Hj|reflexivity].
  - destruct (stanza_routed gw (greeting "car") two_sessions two_sessions_ok eq_refl)
      as (c' & l & st' & E & _ & O & _ & _ & Hst & _ & _ & Hall).
    exists c'. split; [exact E|]. rewrite O, Hst by done.
    assert (Hnone : ∀ s o, s ∈ sessions_of (bare (stanza_to (greeting "car"))) two_sessions → session_in two_sessions s o →
      remoteJID o ≠ stanza_to (greeting "car")) by (by intros s o _ [[-> ->]|[-> ->]]%two_sessions_in).
    specialize (Hall (or_intror Hnone)).
    split; (apply elem_of_app; right; apply list_elem_of_fmap; eexists; split; [reflexivity|]).
    + by apply (Hall 1 (started "phone")).
    + by apply (Hall 2 (started "desk")).
Defined.

(** The gateway closes the connections of the user, and one ends by itself. *)
Lemma channel_sound_witness :
  (∃ c', Channel.react gw (mkLoginConfig [] "") (Disconnect (mkRefJid "u" "gw" "") "bye") two_sessions = Done tt c' ∧ channel_ok c' ∧
    sessions_of "u@gw" c' = []) ∧
  ∃ c', Channel.react gw (mkLoginConfig [] "") (Ended 1) two_sessions = Done tt c' ∧ channel_ok c'.
Proof.
  split.
  - destruct (proj2 (channel_sound gw (mkLoginConfig [] "")) two_sessions (Disconnect (mkRefJid "u" "gw" "") "bye"))
      as (c' & E & Hok & _ & Hfin); [apply two_sessions_ok|done|discriminate|].
    exists c'. split; [exact E|]. split; [exact Hok|]. by apply (Hfin _ eq_refl).
  - destruct (proj2 (channel_sound gw (mkLoginConfig [] "")) two_sessions (Ended 1)) as (c' & E & Hok & _);
      [apply two_sessions_ok|by exists (started "phone")|intros li [= <-]; eexists; vm_compute; reflexivity|].
    exists c'. split; [exact E|exact Hok].
Defined.
