(* ===== verification/WebSocket.v ===== *)
(** * The WebSocket client

    WebSocketClient (libtransport/WebSocketClient.cpp), the connection of the Slack
    frontend: it resolves the host, connects, asks for the upgrade and then reads and
    writes frames. What it asks of the network, and its signals, are events. *)

From S2P Require Import Prelude Protocol Framing Cutting.

(** ** Frames *)

(** The masking key, and operator^ on the characters. *)
Definition mask_bits : list Z := [17; 34; 51; 68]%Z.

Definition xor_byte (k : Z) (c : ascii) : ascii := byte_of (Z.lxor (Z_of_byte c) k).

Fixpoint mask_from (i : nat) (data : bytes) : bytes :=
  match data with
  | [] => []
  | c :: data => xor_byte (nth (i mod 4) mask_bits 0%Z) c :: mask_from (S i) data
  end.

(** uint16_t size16 = data.size() *)
Definition to_uint16 (z : Z) : Z := (z mod 2 ^ 16)%Z.

(** What [write] puts on the connection. *)
Definition client_frame (data : bytes) : bytes :=
  let size := Z.of_nat (length data) in
  let opcode := byte_of (if (size =? 0)%Z then 138 else 129) in
  let header :=
    if (size <=? 125)%Z then [opcode; byte_of (size + 128)]
    else [opcode; byte_of (126 + 128); byte_of (to_uint16 size / 256); byte_of (to_uint16 size)] in
  header ++ map byte_of mask_bits ++ mask_from 0 data.

(** One turn of the reading loop: [Some (Some payload, rest)] for a frame, [Some (None,
    rest)] when the first byte is skipped; [None] when there is not enough. The branch
    of the code for an empty frame that is not complete cannot be reached. *)
Definition next_payload (data : bytes) : option (option bytes * bytes) :=
  match data with
  | b0 :: b1 :: rest =>
      let opcode := Z.land (Z_of_byte b0) 15 in
      let size7 := Z.land (Z_of_byte b1) 127 in
      let mask := Z.testbit (Z_of_byte b1) 7 in
      match (if (size7 =? 126)%Z then
               match rest with
               | c0 :: c1 :: rest => Some ((Z_of_byte c0 * 256 + Z_of_byte c1)%Z, rest)
               | _ => None
               end
             else Some (0%Z, rest)) with
      | None => None
      | Some (size16, body) =>
          if (opcode =? 9)%Z && mask && (size7 =? 1)%Z then Some (None, b1 :: rest)
          else
            let size := if (size16 =? 0)%Z then size7 else size16 in
            if (size <=? Z.of_nat (length body))%Z
            then Some (Some (take (Z.to_nat size) body), drop (Z.to_nat size) body)
            else None
      end
  | _ => None
  end.

(** find("\r\n\r\n"), and what follows it *)
Definition crlf2 : bytes := ["013"; "010"; "013"; "010"]%char.

Definition blank_line (data : bytes) : option bytes :=
  if decide (take 4 data = crlf2) then Some (drop 4 data) else None.

Fixpoint after_blank_line (data : bytes) : option bytes :=
  match blank_line data with
  | Some rest => Some rest
  | None => match data with _ :: data => after_blank_line data | [] => None end
  end.

(** ** The client *)

Definition conn := nat.

Inductive ws_event :=
  | DnsQuery (host : string)
  | Connect (c : conn) (address : string) (port : Z)
  | Write (c : conn) (data : bytes)
  | Disconnect (c : conn)
  (** the timer, of one second *)
  | TimerStart
  | TimerStop
  (** the signals *)
  | WebSocketConnected
  | WebSocketDisconnected
  | PayloadReceived (payload : bytes).

Record WebSocket := mkWebSocket {
  m_host : string;
  m_path : string;
  m_upgraded : bool;
  m_buffer : bytes;
  m_conn : option conn;
  (** the connections whose data the client reads *)
  reading : list conn;
  (** how often the client listens to the end of a connection *)
  listening : list conn;
  fresh_conn : conn;
  ws_out : list ws_event;
}.

(** The constructor. *)
Definition new_websocket : WebSocket := mkWebSocket "" "" false [] None [] [] 0 [].

Definition with_url h p (w : WebSocket) := mkWebSocket h p (m_upgraded w) (m_buffer w) (m_conn w) (reading w) (listening w) (fresh_conn w) (ws_out w).
Definition with_buffer u b (w : WebSocket) := mkWebSocket (m_host w) (m_path w) u b (m_conn w) (reading w) (listening w) (fresh_conn w) (ws_out w).
Definition with_conn c (w : WebSocket) := mkWebSocket (m_host w) (m_path w) (m_upgraded w) (m_buffer w) c (reading w) (listening w) (fresh_conn w) (ws_out w).
Definition with_reading f (w : WebSocket) := mkWebSocket (m_host w) (m_path w) (m_upgraded w) (m_buffer w) (m_conn w) (f (reading w)) (listening w) (fresh_conn w) (ws_out w).
Definition with_listening f (w : WebSocket) := mkWebSocket (m_host w) (m_path w) (m_upgraded w) (m_buffer w) (m_conn w) (reading w) (f (listening w)) (fresh_conn w) (ws_out w).
Definition with_fresh x (w : WebSocket) := mkWebSocket (m_host w) (m_path w) (m_upgraded w) (m_buffer w) (m_conn w) (reading w) (listening w) x (ws_out w).
Definition with_ws_out f (w : WebSocket) := mkWebSocket (m_host w) (m_path w) (m_upgraded w) (m_buffer w) (m_conn w) (reading w) (listening w) (fresh_conn w) (f (ws_out w)).

Abbreviation websocket A := (prog WebSocket A).

Definition ws_emit (e : ws_event) : websocket unit := modify (with_ws_out (λ l, l ++ [e])).

Definition connectServer : websocket unit :=
  modify (with_buffer false []) ;;
  w ← get;
  ws_emit (DnsQuery (m_host w)) ;;
  ws_emit TimerStop.

(** Where a text has its first slash. *)
Fixpoint find_slash (s : string) : option nat :=
  match s with
  | EmptyString => None
  | String c s => if Ascii.eqb c "/" then Some 0 else S <$> find_slash s
  end.

(** substr(pos) throws when [pos] is past the end. *)
Definition substr (pos : nat) (s : string) : websocket string :=
  if (pos <=? String.length s)%nat then mret (substring pos (String.length s - pos) s) else raise UncaughtException.

Definition connectServer_url (url : string) : websocket unit :=
  u ← substr 6 url;
  let slash := find_slash u in
  let host := match slash with Some i => substring 0 i u | None => u end in
  modify (λ w, with_url host (m_path w) w) ;;
  path ← match slash with Some i => substr i u | None => raise UncaughtException end;
  modify (λ w, with_url (m_host w) path w) ;;
  connectServer.

Definition disconnectServer : websocket unit :=
  w ← get;
  match m_conn w with
  | None => mret tt
  | Some c =>
      ws_emit TimerStop ;;
      modify (with_reading (list_remove_all c)) ;;
      modify (with_listening (λ l, l ++ [c])) ;;
      ws_emit (Disconnect c)
  end.

Definition write (data : bytes) : websocket unit :=
  w ← get;
  match m_conn w with
  | None => mret tt
  | Some c => ws_emit (Write c (client_frame data))
  end.

(** The loop; onPayloadReceived is raised before the frame is taken off the buffer. *)
Fixpoint read_payloads (fuel : nat) : websocket unit :=
  match fuel with
  | O => mret tt
  | S fuel =>
      w ← get;
      match next_payload (m_buffer w) with
      | None => mret tt
      | Some (Some payload, rest) =>
          ws_emit (PayloadReceived payload) ;;
          modify (λ w, with_buffer (m_upgraded w) rest w) ;;
          read_payloads fuel
      | Some (None, rest) =>
          modify (λ w, with_buffer (m_upgraded w) rest w) ;;
          read_payloads fuel
      end
  end.

Definition handleDataRead (data : bytes) : websocket unit :=
  modify (λ w, with_buffer (m_upgraded w) (m_buffer w ++ data) w) ;;
  w ← get;
  go ← (if m_upgraded w then mret true
        else match after_blank_line (m_buffer w) with
             | Some rest => put (with_buffer true rest w) ;; ws_emit WebSocketConnected ;; mret true
             | None => mret false
             end);
  if go : bool then w ← get; read_payloads (length (m_buffer w)) else mret tt.

Definition crlf : string := String "013" (String "010" "").

Definition upgrade_request (host path : string) : string :=
  ("GET " +:+ path +:+ " HTTP/1.1" +:+ crlf +:+
   "Host: " +:+ host +:+ ":443" +:+ crlf +:+
   "Upgrade: websocket" +:+ crlf +:+
   "Connection: Upgrade" +:+ crlf +:+
   "Sec-WebSocket-Key: x3JJHMbDL1EzLkh9GBhXDw==" +:+ crlf +:+
   "Sec-WebSocket-Version: 13" +:+ crlf +:+ crlf)%string.

(** The client is told that it is connected only by the connection of m_conn or an older
    one; what it writes goes to m_conn. *)
Definition handleConnected (error : bool) : websocket unit :=
  if error then ws_emit TimerStart
  else
    w ← get;
    match m_conn w with
    | None => raise NullDereference
    | Some c => ws_emit (Write c (list_ascii_of_string (upgrade_request (m_host w) (m_path w))))
    end.

Definition handleDisconnected (error : bool) : websocket unit :=
  if error then ws_emit WebSocketDisconnected ;; ws_emit TimerStart else mret tt.

(** [None]: an error *)
Definition handleDNSResult (addrs : option (list string)) : websocket unit :=
  match addrs with
  | None | Some [] => ws_emit TimerStart
  | Some (addr :: _) =>
      w ← get;
      let c := fresh_conn w in
      modify (with_fresh (S c)) ;;
      modify (with_conn (Some c)) ;;
      modify (with_reading (λ l, l ++ [c])) ;;
      modify (with_listening (λ l, l ++ [c])) ;;
      ws_emit (Connect c addr 443)
  end.

(** ** Events *)

Inductive ws_input :=
  | Tick
  | Resolved (addrs : option (list string))
  | ConnectFinished (c : conn) (error : bool)
  | DataRead (c : conn) (data : bytes)
  | Disconnected (c : conn) (error : bool).

(** The slots of a signal: each is called as often as it was connected. *)
Definition react (i : ws_input) : websocket unit :=
  match i with
  | Tick => connectServer
  | Resolved addrs => handleDNSResult addrs
  | ConnectFinished _ error => handleConnected error
  | DataRead c data => w ← get; when (bool_decide (c ∈ reading w)) (handleDataRead data)
  | Disconnected c error => w ← get; for_each (filter (eq c) (listening w)) (λ _, handleDisconnected error)
  end.
