(* ===== verification/WebSocketTheorems.v ===== *)
(** * What WebSocket frames carry

    Frames the client writes can be read by a server, frames of a server arrive whole
    and in order however the network cuts them; and the sizes for which neither holds. *)

From S2P Require Import Prelude Protocol Framing Cutting WebSocket.

(** ** Masking *)

Lemma lxor_byte a k : (0 <= a < 256)%Z → (0 <= k < 256)%Z → (0 <= Z.lxor a k < 256)%Z.
Proof.
  intros Ha Hk. split; [apply Z.lxor_nonneg; lia|]. destruct (decide (Z.lxor a k = 0)%Z) as [->|Hne]; [lia|].
  assert (0 < Z.lxor a k)%Z by (pose proof (proj2 (Z.lxor_nonneg a k)); lia).
  change 256%Z with (2 ^ 8)%Z. apply Z.log2_lt_pow2; [done|].
  eapply Z.le_lt_trans; [apply Z.log2_lxor; lia|].
  destruct (Z.max_spec (Z.log2 a) (Z.log2 k)) as [[_ ->]|[_ ->]].
  - destruct (decide (k = 0)%Z) as [->|]; [simpl; lia|]. apply Z.log2_lt_pow2; lia.
  - destruct (decide (a = 0)%Z) as [->|]; [simpl; lia|]. apply Z.log2_lt_pow2; lia.
Qed.

Lemma byte_of_Z_of_byte c : byte_of (Z_of_byte c) = c.
Proof.
  unfold byte_of, Z_of_byte. pose proof (N_ascii_bounded c). rewrite Z.mod_small by lia. rewrite N2Z.id. apply ascii_N_embedding.
Qed.

Lemma xor_byte_twice k c : (0 <= k < 256)%Z → xor_byte k (xor_byte k c) = c.
Proof.
  intros Hk. unfold xor_byte. rewrite Z_of_byte_of. pose proof (Z_of_byte_range c).
  rewrite Z.mod_small by (by apply lxor_byte). rewrite Z.lxor_assoc, Z.lxor_nilpotent, Z.lxor_0_r. apply byte_of_Z_of_byte.
Qed.

Lemma mask_bits_range i : (0 <= nth i mask_bits 0 < 256)%Z.
Proof. destruct i as [|[|[|[|i]]]]; simpl; try lia. destruct i; lia. Qed.

Lemma mask_twice i data : mask_from i (mask_from i data) = data.
Proof.
  revert i. induction data as [|c data IH]; intros i; simpl; [done|]. rewrite IH, xor_byte_twice; [done|apply mask_bits_range].
Qed.

Lemma mask_length i data : length (mask_from i data) = length data.
Proof. revert i. induction data as [|c data IH]; intros i; simpl; [done|]. by rewrite IH. Qed.

(** ** What a server reads: a frame of a client, as RFC 6455 has it *)

(** The key is applied octet by octet, from its first. *)
Fixpoint unmask (key : list Z) (i : nat) (data : bytes) : bytes :=
  match data with
  | [] => []
  | c :: data => xor_byte (nth (i mod 4) key 0%Z) c :: unmask key (S i) data
  end.

Lemma unmask_mask i data : unmask mask_bits i (mask_from i data) = data.
Proof.
  revert i. induction data as [|c data IH]; intros i; simpl; [done|]. rewrite IH, xor_byte_twice; [done|apply mask_bits_range].
Qed.

(** The final fragment with its opcode, its payload, and what follows the frame;
    lengths of 64 bits are not needed here. *)
Definition server_reads (data : bytes) : option (Z * bytes * bytes) :=
  match data with
  | b0 :: b1 :: rest =>
      if negb (Z.testbit (Z_of_byte b0) 7 && Z.testbit (Z_of_byte b1) 7) then None else
      match (let len := Z.land (Z_of_byte b1) 127 in
             if (len =? 126)%Z then
               match rest with
               | c0 :: c1 :: rest => Some ((Z_of_byte c0 * 256 + Z_of_byte c1)%Z, rest)
               | _ => None
               end
             else if (len =? 127)%Z then None else Some (len, rest)) with
      | Some (len, k0 :: k1 :: k2 :: k3 :: body) =>
          if (len <=? Z.of_nat (length body))%Z
          then Some (Z.land (Z_of_byte b0) 15,
                     unmask (map Z_of_byte [k0; k1; k2; k3]) 0 (take (Z.to_nat len) body), drop (Z.to_nat len) body)
          else None
      | _ => None
      end
  | _ => None
  end.

Lemma mask_key : map Z_of_byte (map byte_of mask_bits) = mask_bits.
Proof. by vm_compute. Qed.

(** What holds of every octet can be computed. *)
Lemma every_octet (P : Z → bool) (bound : nat) n :
  forallb (λ k, P (Z.of_nat k)) (seq 0 bound) = true → (0 <= n < Z.of_nat bound)%Z → P n = true.
Proof.
  intros Hall Hn. rewrite <- (Z2Nat.id n) by lia. eapply forallb_forall in Hall; [exact Hall|]. apply in_seq. lia.
Qed.

(** A size that fits in seven bits, with and without the mask bit. *)
Lemma small_size n : (0 <= n < 126)%Z →
  Z.land ((n + 128) mod 256) 127 = n ∧ Z.testbit ((n + 128) mod 256) 7 = true
  ∧ Z.land (n mod 256) 127 = n ∧ Z.testbit (n mod 256) 7 = false.
Proof.
  intros Hn.
  assert (E : (Z.land ((n + 128) mod 256) 127 =? n)%Z && Z.testbit ((n + 128) mod 256) 7
    && (Z.land (n mod 256) 127 =? n)%Z && negb (Z.testbit (n mod 256) 7) = true).
  { apply (every_octet (λ n, (Z.land ((n + 128) mod 256) 127 =? n)%Z && Z.testbit ((n + 128) mod 256) 7
      && (Z.land (n mod 256) 127 =? n)%Z && negb (Z.testbit (n mod 256) 7)) 126); [by vm_compute|lia]. }
  rewrite !andb_true_iff, negb_true_iff, !Z.eqb_eq in E. tauto.
Qed.

Lemma two_bytes n : (0 <= n < 65536)%Z → (n / 256 mod 256 * 256 + n mod 256 = n)%Z.
Proof. intros Hn. Z.to_euclidean_division_equations. lia. Qed.

(** ** From the client to the server *)

(** a server that reads frames as RFC 6455 describes them reads what the client
    wrote, masked or not, as long as the text is shorter than 64 KiB; an empty text is a
    pong. The octets the header has for a longer one announce its length modulo 65536. *)
Theorem client_frame_read data more :
  (Z.of_nat (length data) < 2 ^ 16)%Z →
  server_reads (client_frame data ++ more) = Some (if (length data =? 0)%nat then 10%Z else 1%Z, data, more).
Proof.
  intros Hlen. set (n := Z.of_nat (length data)) in *. unfold client_frame. fold n.
  assert (Hop : ∀ z, z = 138%Z ∨ z = 129%Z → Z_of_byte (byte_of z) = z ∧ Z.testbit z 7 = true).
  { intros z [-> | ->]; by rewrite Z_of_byte_of. }
  set (op := if (n =? 0)%Z then 138%Z else 129%Z).
  destruct (Hop op) as [Eop Hop7]; [unfold op; destruct (n =? 0)%Z; tauto|].
  assert (Hop4 : Z.land op 15 = if (length data =? 0)%nat then 10%Z else 1%Z).
  { unfold op, n. destruct data; [done|]. by rewrite (proj2 (Z.eqb_neq _ _)) by (simpl; lia). }
  assert (Hbody : ∀ len, len = n → (len <=? Z.of_nat (length (mask_from 0 data ++ more)))%Z = true).
  { intros len ->. apply Z.leb_le. rewrite length_app, mask_length. lia. }
  assert (Htake : take (Z.to_nat n) (mask_from 0 data ++ more) = mask_from 0 data).
  { unfold n. rewrite Nat2Z.id. rewrite <- (mask_length 0 data). apply take_app_length. }
  assert (Hdrop : drop (Z.to_nat n) (mask_from 0 data ++ more) = more).
  { unfold n. rewrite Nat2Z.id. rewrite <- (mask_length 0 data). apply drop_app_length. }
  destruct (Z.leb_spec n 125) as [Hsmall|Hbig].
  - destruct (small_size n) as (E7 & Em & _); [lia|]. cbn [app]. unfold server_reads. cbn [app map mask_bits].
    rewrite Eop, Z_of_byte_of, Hop7, Em, E7. cbn [andb negb].
    rewrite (proj2 (Z.eqb_neq n 126)), (proj2 (Z.eqb_neq n 127)) by lia. rewrite Hbody, Htake, Hdrop by done.
    change (map Z_of_byte [_; _; _; _]) with mask_bits. by rewrite unmask_mask, Hop4.
  - cbn [app]. unfold server_reads. cbn [app map mask_bits].
    rewrite Eop, !Z_of_byte_of, Hop7. change ((126 + 128) mod 256)%Z with 254%Z. cbn [andb negb Z.testbit Pos.testbit].
    change (Z.land 254 127) with 126%Z. cbn [Z.eqb Pos.eqb]. unfold to_uint16. rewrite (Z.mod_small n) by lia.
    rewrite (two_bytes n) by lia. rewrite Hbody, Htake, Hdrop by done.
    change (map Z_of_byte [_; _; _; _]) with mask_bits. by rewrite unmask_mask, Hop4.
Qed.

(** ** From the server to the client *)

(** An unmasked frame: its first octet, and a length in seven or sixteen bits. *)
Definition server_frame (f : ascii * bytes) : bytes :=
  let '(b0, payload) := f in
  let size := Z.of_nat (length payload) in
  (if (size <=? 125)%Z then [b0; byte_of size] else [b0; byte_of 126; byte_of (size / 256); byte_of size]) ++ payload.

Lemma next_payload_shorter data p rest : next_payload data = Some (p, rest) → length rest < length data.
Proof.
  destruct data as [|b0 [|b1 data]]; try done. cbn [next_payload].
  destruct (Z.eqb_spec (Z.land (Z_of_byte b1) 127) 126) as [->|Hne].
  - destruct data as [|c0 [|c1 data]]; try done. rewrite andb_false_r.
    destruct (_ <=? _)%Z; [|done]. intros [= _ <-]. rewrite length_drop. simpl. lia.
  - destruct (_ && _ && _); [intros [= _ <-]; simpl; lia|]. destruct (_ <=? _)%Z; [|done].
    intros [= _ <-]. rewrite length_drop. simpl. lia.
Qed.

Lemma taken_app (n : Z) (body more : bytes) : (n <= Z.of_nat (length body))%Z →
  (n <=? Z.of_nat (length (body ++ more)))%Z = true ∧ take (Z.to_nat n) (body ++ more) = take (Z.to_nat n) body
  ∧ drop (Z.to_nat n) (body ++ more) = drop (Z.to_nat n) body ++ more.
Proof.
  intros Hn. split_and!; [apply Z.leb_le; rewrite length_app; lia|apply take_app_le; lia|apply drop_app_le; lia].
Qed.

Lemma next_payload_app data p rest more :
  next_payload data = Some (p, rest) → next_payload (data ++ more) = Some (p, rest ++ more).
Proof.
  destruct data as [|b0 [|b1 data]]; try done. cbn [next_payload app].
  destruct (Z.eqb_spec (Z.land (Z_of_byte b1) 127) 126) as [->|Hne].
  - destruct data as [|c0 [|c1 data]]; try done. cbn [app]. rewrite andb_false_r.
    destruct (Z.leb_spec (if (Z_of_byte c0 * 256 + Z_of_byte c1 =? 0)%Z then 126 else Z_of_byte c0 * 256 + Z_of_byte c1)%Z (Z.of_nat (length data))) as [Hle|]; [|done].
    intros [= <- <-]. destruct (taken_app _ _ more Hle) as (E1 & E2 & E3). by rewrite E1, E2, E3.
  - destruct (_ && _ && _); [by intros [= <- <-]|].
    cbn [Z.eqb]. destruct (Z.leb_spec (Z.land (Z_of_byte b1) 127) (Z.of_nat (length data))) as [Hle|]; [|done].
    intros [= <- <-]. destruct (taken_app _ _ more Hle) as (E1 & E2 & E3). by rewrite E1, E2, E3.
Qed.

Lemma next_payload_frame f more :
  (Z.of_nat (length f.2) < 2 ^ 16)%Z → next_payload (server_frame f ++ more) = Some (Some f.2, more).
Proof.
  destruct f as [b0 payload]. cbn [snd server_frame]. set (n := Z.of_nat (length payload)). intros Hn.
  assert (Hcut : take (Z.to_nat n) (payload ++ more) = payload ∧ drop (Z.to_nat n) (payload ++ more) = more
    ∧ (n <=? Z.of_nat (length (payload ++ more)))%Z = true).
  { unfold n. rewrite Nat2Z.id, take_app_length, drop_app_length. split_and!; [done|done|]. apply Z.leb_le. rewrite length_app. lia. }
  destruct Hcut as (E1 & E2 & E3). destruct (Z.leb_spec n 125) as [Hsmall|Hbig].
  - destruct (small_size n) as (_ & _ & E7 & Em); [lia|]. cbn [app next_payload]. rewrite Z_of_byte_of, E7, Em.
    rewrite (proj2 (Z.eqb_neq n 126)) by lia. rewrite andb_false_r. cbn [andb Z.eqb]. by rewrite E3, E1, E2.
  - cbn [app next_payload]. rewrite !Z_of_byte_of. change (126 mod 256)%Z with 126%Z. change (Z.land 126 127) with 126%Z.
    change (126 =? 126)%Z with true. cbn [andb Z.testbit Pos.testbit]. rewrite andb_false_r. cbn [andb].
    rewrite (two_bytes n) by lia. rewrite (proj2 (Z.eqb_neq n 0)) by lia. by rewrite E3, E1, E2.
Qed.

Definition received (data : bytes) : list ws_event := PayloadReceived <$> omap id (cut_all next_payload data).1.
Definition unread (data : bytes) : bytes := (cut_all next_payload data).2.

(** What reading leaves of a client, and what it raises. *)
Definition has_read (up : bool) (buffer : bytes) (l : list ws_event) (w : WebSocket) : WebSocket :=
  with_ws_out (λ out, out ++ l) (with_buffer up buffer w).

Lemma read_payloads_run fuel w :
  length (m_buffer w) ≤ fuel →
  read_payloads fuel w = Done tt (has_read (m_upgraded w) (unread (m_buffer w)) (received (m_buffer w)) w).
Proof.
  revert w. induction fuel as [|fuel IH]; intros w Hf.
  - destruct w as [? ? up [|]]; [|simpl in Hf; lia]. unfold has_read, received, unread. simpl.
    unfold with_ws_out. simpl. by rewrite app_nil_r.
  - cbn [read_payloads]. rewrite bind_run. cbn [get]. unfold received, unread.
    rewrite (cut_all_unfold _ next_payload_shorter). destruct (next_payload (m_buffer w)) as [[[payload|] rest]|] eqn:E.
    + apply next_payload_shorter in E. rewrite bind_run. cbn [ws_emit modify]. rewrite bind_run. cbn [modify].
      rewrite IH by (simpl; lia). unfold received, unread. simpl.
      destruct (cut_all next_payload rest) as [ps remaining]. unfold has_read, with_ws_out. simpl. by rewrite <- app_assoc.
    + apply next_payload_shorter in E. rewrite bind_run. cbn [modify]. rewrite IH by (simpl; lia). unfold received, unread. simpl.
      by destruct (cut_all next_payload rest).
    + unfold has_read, with_ws_out. destruct w. simpl. by rewrite app_nil_r.
Qed.

Lemma has_read_again up b l up' b' l' w : has_read up' b' l' (has_read up b l w) = has_read up' b' (l ++ l') w.
Proof. unfold has_read, with_ws_out. simpl. by rewrite <- app_assoc. Qed.

Abbreviation deliver c chunks := (for_each chunks (λ data, react (DataRead c data))).

Lemma handleDataRead_upgraded data w :
  m_upgraded w = true →
  handleDataRead data w = Done tt (has_read true (unread (m_buffer w ++ data)) (received (m_buffer w ++ data)) w).
Proof.
  intros Hup. unfold handleDataRead. rewrite bind_run. cbn [modify]. rewrite bind_run. cbn [get m_upgraded with_buffer]. rewrite Hup.
  rewrite bind_run. cbn [mret prog_ret]. rewrite bind_run. cbn [get]. rewrite read_payloads_run by done. by destruct w.
Qed.

Lemma handleDataRead_handshake data rest w :
  m_upgraded w = false → after_blank_line (m_buffer w ++ data) = Some rest →
  handleDataRead data w = Done tt (has_read true (unread rest) (WebSocketConnected :: received rest) w).
Proof.
  intros Hup E. unfold handleDataRead. rewrite bind_run. cbn [modify]. rewrite bind_run. cbn [get m_upgraded m_buffer with_buffer].
  rewrite Hup, E. rewrite bind_run, bind_run. cbn [put]. rewrite bind_run. cbn [ws_emit modify mret prog_ret]. rewrite bind_run.
  cbn [get]. rewrite read_payloads_run by done. unfold has_read, with_ws_out. simpl. by rewrite <- app_assoc.
Qed.

Lemma handleDataRead_waiting data w :
  m_upgraded w = false → after_blank_line (m_buffer w ++ data) = None →
  handleDataRead data w = Done tt (with_buffer false (m_buffer w ++ data) w).
Proof.
  intros Hup E. unfold handleDataRead. rewrite bind_run. cbn [modify]. rewrite bind_run. cbn [get m_upgraded m_buffer with_buffer].
  rewrite Hup, E. by rewrite bind_run.
Qed.

Lemma deliver_cons c data chunks w w' :
  c ∈ reading w → handleDataRead data w = Done tt w' → deliver c (data :: chunks) w = deliver c chunks w'.
Proof.
  intros Hc E. cbn [for_each]. rewrite bind_run. unfold react at 1. rewrite bind_run. cbn [get]. rewrite bool_decide_true by done.
  cbn [when]. by rewrite E.
Qed.

(** After the upgrade. *)
Lemma deliver_upgraded c chunks w :
  m_upgraded w = true → c ∈ reading w → next_payload (m_buffer w) = None →
  deliver c chunks w = Done tt (has_read true (unread (m_buffer w ++ concat chunks)) (received (m_buffer w ++ concat chunks)) w).
Proof.
  revert w. induction chunks as [|data chunks IH]; intros w Hup Hc Hb.
  - simpl. rewrite app_nil_r. unfold unread, received, has_read, with_ws_out.
    rewrite (cut_all_unfold _ next_payload_shorter), Hb. destruct w. simpl in *. subst. by rewrite app_nil_r.
  - rewrite (deliver_cons c data chunks w _ Hc (handleDataRead_upgraded data w Hup)).
    rewrite IH; [|done|done|apply cut_all_remaining, next_payload_shorter].
    change (m_buffer (has_read ?u ?b ?l ?w)) with b. f_equal. simpl concat. rewrite app_assoc. unfold unread, received.
    rewrite (cut_all_app _ next_payload_shorter (λ d p r m, next_payload_app d p r m) (m_buffer w ++ data)).
    cbn [fst snd]. by rewrite omap_app, fmap_app, has_read_again.
Qed.

Lemma blank_line_app data rest more : blank_line data = Some rest → blank_line (data ++ more) = Some (rest ++ more).
Proof.
  unfold blank_line. case_decide as Ht; [|done]. intros [= <-].
  assert (Hl : 4 ≤ length data) by (apply (f_equal length) in Ht; rewrite length_take in Ht; simpl length in Ht; lia).
  rewrite take_app_le, drop_app_le by done. by rewrite decide_True.
Qed.

Lemma after_blank_line_app data rest more :
  after_blank_line data = Some rest → after_blank_line (data ++ more) = Some (rest ++ more).
Proof.
  induction data as [|c data IH]; [done|]. cbn [after_blank_line app].
  destruct (blank_line (c :: data)) as [r|] eqn:E.
  - apply (blank_line_app _ _ more) in E. cbn [app] in E. rewrite E. by intros [= <-].
  - intros Ha. destruct (blank_line (c :: data ++ more)) as [r|] eqn:E'; [|by apply IH].
    (* a blank line that only the new data makes begins in the last three octets *)
    assert (Hlong : 4 ≤ length (c :: data)).
    { clear -Ha. revert Ha. induction data as [|d data IH]; simpl; [done|].
      unfold blank_line at 1. case_decide as Ht.
      - intros _. apply (f_equal length) in Ht. rewrite length_take in Ht. cbn [length crlf2] in *. lia.
      - intros Ha. specialize (IH Ha). simpl in IH. lia. }
    unfold blank_line in E, E'. change (c :: data ++ more) with ((c :: data) ++ more) in E'. rewrite take_app_le in E' by done.
    by repeat case_decide.
Qed.

Lemma omap_some {A B} (g : A → B) (l : list A) : omap id (map (λ x, Some (g x)) l) = g <$> l.
Proof. induction l as [|x l IH]; [done|]. change (g x :: omap id (map (λ x, Some (g x)) l) = g x :: (g <$> l)). by rewrite IH. Qed.

(** C31: everything a server sends arrives, whole and in order, however the network cuts
    it. The answer to the request for the upgrade ends at the first blank line, of
    which the client is told once; each frame after it that is shorter than 64 KiB is
    raised as one payload; and what is left is the beginning of a frame. *)
Theorem payloads_in_order c chunks fs rest w :
  m_upgraded w = false → m_buffer w = [] → c ∈ reading w →
  Forall (λ f, (Z.of_nat (length f.2) < 2 ^ 16)%Z) fs → next_payload rest = None →
  after_blank_line (concat chunks) = Some (concat (map server_frame fs) ++ rest) →
  ∃ w', deliver c chunks w = Done tt w' ∧ m_buffer w' = rest ∧ m_upgraded w' = true
    ∧ ws_out w' = ws_out w ++ WebSocketConnected :: (PayloadReceived <$> (snd <$> fs)).
Proof.
  intros Hup Hb Hc Hfs Hrest Hall.
  assert (Hpieces : ∀ data, data = concat (map server_frame fs) ++ rest →
    unread data = rest ∧ received data = PayloadReceived <$> (snd <$> fs)).
  { intros data ->. unfold unread, received.
    rewrite (cut_all_concat _ next_payload_shorter server_frame (λ f, Some f.2)).
    - rewrite (cut_all_unfold _ next_payload_shorter rest), Hrest. cbn [fst snd]. rewrite app_nil_r. split; [done|]. f_equal. apply omap_some.
    - eapply Forall_impl; [exact Hfs|]. intros f Hf more. by apply next_payload_frame. }
  enough (Hgen : ∀ buffer, after_blank_line buffer = None →
    after_blank_line (buffer ++ concat chunks) = Some (concat (map server_frame fs) ++ rest) →
    deliver c chunks (with_buffer false buffer w) = Done tt (has_read true rest (WebSocketConnected :: (PayloadReceived <$> (snd <$> fs))) w)).
  { exists (has_read true rest (WebSocketConnected :: (PayloadReceived <$> (snd <$> fs))) w). split; [|done].
    replace w with (with_buffer false [] w) at 1 by (destruct w; simpl in *; by subst). by apply Hgen. }
  clear Hall Hb. induction chunks as [|data chunks IH]; intros buffer Hnone Hall.
  { simpl in Hall. rewrite app_nil_r in Hall. congruence. }
  simpl concat in Hall. rewrite app_assoc in Hall. destruct (after_blank_line (buffer ++ data)) as [r|] eqn:E.
  - rewrite (deliver_cons c data chunks (with_buffer false buffer w) _ Hc (handleDataRead_handshake data r (with_buffer false buffer w) eq_refl E)).
    apply (after_blank_line_app _ _ (concat chunks)) in E. rewrite E in Hall. injection Hall as Hall.
    rewrite deliver_upgraded; [|done|done|apply cut_all_remaining, next_payload_shorter].
    change (m_buffer (has_read ?u ?b ?l ?w)) with b. rewrite has_read_again.
    destruct (Hpieces _ Hall) as [<- <-]. unfold unread, received.
    rewrite (cut_all_app _ next_payload_shorter (λ d p r m, next_payload_app d p r m) r). cbn [fst snd].
    by rewrite omap_app, fmap_app.
  - rewrite (deliver_cons c data chunks (with_buffer false buffer w) _ Hc (handleDataRead_waiting data (with_buffer false buffer w) eq_refl E)).
    apply (IH (buffer ++ data)); [done|exact Hall].
Qed.

(** ** The length of a long frame *)

(** RFC 6455 gives a payload of 64 KiB or more a length of eight octets. *)
Definition eight_octets (size : Z) : bytes :=
  byte_of <$> [size / 2 ^ 56; size / 2 ^ 48; size / 2 ^ 40; size / 2 ^ 32; size / 2 ^ 24; size / 2 ^ 16; size / 2 ^ 8; size]%Z.

Definition long_frame (b0 : ascii) (payload : bytes) : bytes :=
  [b0; byte_of 127] ++ eight_octets (Z.of_nat (length payload)) ++ payload.

(** a frame of 64 KiB or more is torn: the client takes its eight octets of length
    and the first 119 octets of the payload for a payload, and reads on in the middle of
    the rest as if a frame began there. *)
Theorem long_frame_torn b0 payload more :
  (2 ^ 16 <= Z.of_nat (length payload))%Z →
  next_payload (long_frame b0 payload ++ more) =
    Some (Some (eight_octets (Z.of_nat (length payload)) ++ take 119 payload), drop 119 payload ++ more).
Proof.
  intros Hlen. unfold long_frame. set (size := eight_octets _). assert (Hs : length size = 8) by done.
  rewrite <- !app_assoc. cbn [app next_payload]. rewrite Z_of_byte_of. change (Z.land (127 mod 256) 127) with 127%Z.
  change (127 =? 126)%Z with false. change (127 =? 1)%Z with false. rewrite andb_false_r. change (0 =? 0)%Z with true. cbn iota.
  change (Z.to_nat 127) with (8 + 119). rewrite (proj2 (Z.leb_le _ _)) by (rewrite !length_app; lia). f_equal. f_equal; [f_equal|].
  - rewrite take_app, Hs. rewrite take_ge by lia. f_equal. replace (8 + 119 - 8) with 119 by lia. apply take_app_le. lia.
  - rewrite drop_app, Hs. rewrite drop_ge by lia. replace (8 + 119 - 8) with 119 by lia. simpl. apply drop_app_le. lia.
Qed.

(** ** The address of the server *)

Lemma find_slash_app host path : find_slash host = None → find_slash (host +:+ "/" +:+ path) = Some (String.length host).
Proof.
  induction host as [|c host IH]; [done|]. cbn [find_slash]. rewrite string_cons_app. cbn [find_slash].
  destruct (Ascii.eqb c "/"); [done|]. intros Hn. destruct (find_slash host); [done|]. by rewrite IH.
Qed.

Lemma substring_app_0 s t : substring 0 (String.length s) (s +:+ t) = s.
Proof. induction s as [|c s IH]; [by destruct t|]. rewrite string_cons_app. simpl. by rewrite IH. Qed.

Lemma substring_app_drop s t : substring (String.length s) (String.length (s +:+ t) - String.length s) (s +:+ t) = t.
Proof.
  induction s as [|c s IH]; [simpl; rewrite Nat.sub_0_r; apply substring_all|]. rewrite string_cons_app. simpl. exact IH.
Qed.

Lemma substr_app s t w : substr (String.length s) (s +:+ t)%string w = Done t w.
Proof.
  unfold substr. rewrite (proj2 (Nat.leb_le _ _)) by (rewrite string_length_app; lia). by rewrite substring_app_drop.
Qed.

(** the address Slack answers with is taken apart at its first slash after the
    scheme, and the client starts over with that host; an address without one stops the
    program with an exception nobody catches. *)
Theorem address_taken_apart scheme host path w :
  String.length scheme = 6 → find_slash host = None →
  connectServer_url (scheme +:+ host +:+ "/" +:+ path) w =
    Done tt (with_ws_out (λ out, out ++ [DnsQuery host; TimerStop])
      (with_buffer false [] (with_url host ("/" +:+ path) w)))
  ∧ connectServer_url (scheme +:+ host) w = Fault UncaughtException.
Proof.
  intros Hs Hh. unfold connectServer_url. rewrite <- Hs. split.
  - rewrite bind_run, substr_app. rewrite find_slash_app by done. rewrite bind_run. cbn [modify]. rewrite bind_run, substr_app.
    rewrite substring_app_0. rewrite bind_run. cbn [modify]. unfold connectServer. rewrite bind_run. cbn [modify]. rewrite bind_run.
    cbn [get]. rewrite bind_run. cbn [ws_emit modify]. unfold ws_emit, modify, with_ws_out. cbn. by rewrite <- app_assoc.
  - rewrite bind_run, substr_app, Hh. by rewrite bind_run.
Qed.

(** ** Concrete frames *)

Lemma client_frame_read_witness :
  server_reads (client_frame (list_ascii_of_string "ping")) = Some (1%Z, list_ascii_of_string "ping", []).
Proof. rewrite <- (app_nil_r (client_frame _)). by apply (client_frame_read (list_ascii_of_string "ping") []). Defined.

Definition two_frames : list (ascii * bytes) := [("129"%char, list_ascii_of_string "hello"); ("129"%char, repeat "a"%char 200)].

Definition open_client : WebSocket := mkWebSocket "slack" "/rtm" false [] (Some 0) [0] [0] 1 [].

Lemma payloads_in_order_witness :
  let stream := list_ascii_of_string "HTTP/1.1 101 Switching Protocols" ++ crlf2 ++ concat (map server_frame two_frames) in
  ∃ w', deliver 0 [take 34 stream; drop 34 stream] open_client = Done tt w'
    ∧ ws_out w' = [WebSocketConnected; PayloadReceived (list_ascii_of_string "hello"); PayloadReceived (repeat "a"%char 200)].
Proof.
  intros stream. destruct (payloads_in_order 0 [take 34 stream; drop 34 stream] two_frames [] open_client) as (w' & E & _ & _ & O);
    [done|done|by left|by repeat constructor|done|by vm_compute|]. exists w'. split; [exact E|]. by rewrite O.
Defined.

Lemma long_frame_torn_witness :
  let payload := repeat "a"%char (Z.to_nat 65536) in
  next_payload (long_frame "129" payload ++ []) = Some (Some (eight_octets 65536 ++ take 119 payload), drop 119 payload ++ []).
Proof.
  intros payload. assert (Hp : Z.of_nat (length payload) = 65536%Z) by (unfold payload; rewrite repeat_length; lia).
  rewrite <- Hp. apply (long_frame_torn "129" payload []). rewrite Hp. lia.
Defined.

Lemma address_taken_apart_witness :
  connectServer_url "wss://slack.com/rtm" new_websocket
    = Done tt (mkWebSocket "slack.com" "/rtm" false [] None [] [] 0 [DnsQuery "slack.com"; TimerStop])
  ∧ connectServer_url "wss://slack.com" new_websocket = Fault UncaughtException.
Proof. exact (address_taken_apart "wss://" "slack.com" "rtm" new_websocket eq_refl eq_refl). Defined.
