(* ===== verification/SlackApi.v ===== *)
(** * Slack: what its servers answer and how they are asked

    The JSON of the replies (SlackAPI.cpp with the macros of SlackAPI.h), the names
    and identifiers learnt from them (SlackIdManager.cpp) and the addresses of the
    requests, in frontends/slack. *)

From S2P Require Import Prelude StdMap Codecs.

(** ** JSON *)

(** Json::Value of jsoncpp *)
Inductive Json :=
  | JNull
  | JBool (b : bool)
  | JInt (z : Z)
  | JReal
  | JString (s : string)
  | JArray (l : list Json)
  | JObject (l : list (string * Json)).

(** Json::Reader *)
Class JsonReader := json_parse : string → option Json.

(** value[name]: a member that is not there is null; a value that is neither an object
    nor null throws Json::LogicError, which nobody catches. *)
Definition member {S} (j : Json) (name : string) : prog S Json :=
  match j with
  | JObject l => mret (default JNull (snd <$> List.find (λ e, String.eqb (fst e) name) l))
  | JNull => mret JNull
  | _ => raise UncaughtException
  end.

Definition isObject (j : Json) : bool := match j with JObject _ => true | _ => false end.
Definition as_string (j : Json) : option string := match j with JString s => Some s | _ => None end.
Definition as_array (j : Json) : option (list Json) := match j with JArray l => Some l | _ => None end.

(** STORE_STRING and GET_ARRAY return from the function when this is [None];
    STORE_STRING_OPTIONAL. *)
Definition store_string {S} (j : Json) (name : string) : prog S (option string) :=
  v ← member j name; mret (as_string v).
Definition store_string_optional {S} (j : Json) (name : string) : prog S string :=
  v ← member j name; mret (default "" (as_string v))%string.
Definition get_array {S} (j : Json) (name : string) : prog S (option (list Json)) :=
  v ← member j name; mret (as_array v).

(** ** SlackIdManager *)

Record SlackChannelInfo := mkChannelInfo { ch_id : string; ch_name : string; ch_members : list string }.
Record SlackImInfo := mkImInfo { im_id : string; im_user : string }.
Record SlackUserInfo := mkSlackUserInfo { us_id : string; us_name : string; us_isPrimaryOwner : bool }.

Record SlackIdManager := mkIdManager {
  m_channels : smap string SlackChannelInfo;
  m_ims : smap string SlackImInfo;
  m_users : smap string SlackUserInfo;
  m_selfName : string;
  m_selfId : string;
}.

Definition new_idManager : SlackIdManager := mkIdManager [] [] [] "" "".

Definition set_channels x (m : SlackIdManager) := mkIdManager x (m_ims m) (m_users m) (m_selfName m) (m_selfId m).
Definition set_ims x (m : SlackIdManager) := mkIdManager (m_channels m) x (m_users m) (m_selfName m) (m_selfId m).
Definition set_users x (m : SlackIdManager) := mkIdManager (m_channels m) (m_ims m) x (m_selfName m) (m_selfId m).
Definition setSelfName x (m : SlackIdManager) := mkIdManager (m_channels m) (m_ims m) (m_users m) x (m_selfId m).
Definition setSelfId x (m : SlackIdManager) := mkIdManager (m_channels m) (m_ims m) (m_users m) (m_selfName m) x.

Definition getName (m : SlackIdManager) (id : string) : string :=
  match sfind id (m_users m) with Some u => us_name u | None => id end.

Definition getId (m : SlackIdManager) (name : string) : string :=
  match sfind name (m_channels m) with Some c => ch_id c | None => name end.

(** The first channel with that identifier, in the order of the names. *)
Definition hasMember (m : SlackIdManager) (channelId userId : string) : bool :=
  match List.find (λ e, String.eqb (ch_id (snd e)) channelId) (m_channels m) with
  | Some (_, c) => bool_decide (userId ∈ ch_members c)
  | None => false
  end.

(** ** Replies *)

Definition string_members (j : Json) : list string :=
  match j with JArray l => omap as_string l | _ => [] end.

(** An entry of a list of channels, or [None] when it lacks a name or an identifier. *)
Definition channel_info {S} (channel : Json) : prog S (option SlackChannelInfo) :=
  id ← store_string channel "id";
  match id with
  | None => mret None
  | Some id =>
      name ← store_string channel "name";
      match name with
      | None => mret None
      | Some name =>
          members ← member channel "members";
          mret (Some (mkChannelInfo id name (string_members members)))
      end
  end.

Definition add_channel (info : SlackChannelInfo) : prog (smap string SlackChannelInfo) unit :=
  modify (sinsert (ch_name info) info).

Definition getSlackChannelInfo (ok : bool) (resp : Json) : prog (smap string SlackChannelInfo) unit :=
  if negb ok then mret tt
  else
    channels ← member resp "channels";
    match as_array channels with
    | None =>
        channel ← member resp "channel";
        if isObject channel then
          info ← channel_info channel;
          match info with Some info => add_channel info | None => mret tt end
        else mret tt
    | Some l =>
        for_each_until l (λ channel,
          if isObject channel then
            info ← channel_info channel;
            match info with Some info => add_channel info ;; mret true | None => mret false end
          else mret true)
    end.

Definition getSlackImInfo (ok : bool) (resp : Json) : prog (smap string SlackImInfo) unit :=
  if negb ok then mret tt
  else
    ims ← get_array resp "ims";
    match ims with
    | None => mret tt
    | Some l =>
        for_each_until l (λ im,
          if isObject im then
            id ← store_string im "id";
            match id with
            | None => mret false
            | Some id =>
                user ← store_string im "user";
                match user with
                | None => mret false
                | Some user => modify (sinsert id (mkImInfo id user)) ;; mret true
                end
            end
          else mret true)
    end.

(** A user or a bot; [profile] says whether it must have one. *)
Definition read_user (profile : bool) (user : Json) : prog (smap string SlackUserInfo) bool :=
  if isObject user then
    id ← store_string user "id";
    match id with
    | None => mret false
    | Some id =>
        name ← store_string user "name";
        match name with
        | None => mret false
        | Some name =>
            let info := mkSlackUserInfo id name false in
            modify (sinsert id info) ;;
            if negb profile then mret true
            else
              p ← member user "profile";
              if negb (isObject p) then mret false
              else
                bot_id ← store_string_optional p "bot_id";
                when (negb (String.eqb bot_id "")) (modify (sinsert bot_id info)) ;;
                mret true
        end
    end
  else mret true.

(** Like [for_each_until], and whether the loop came to its end: a return in a loop
    leaves the function. *)
Fixpoint all_of {S A} (xs : list A) (body : A → prog S bool) : prog S bool :=
  match xs with
  | [] => mret true
  | x :: xs => go ← body x; if go : bool then all_of xs body else mret false
  end.

Definition getSlackUserInfo (ok : bool) (resp : Json) : prog (smap string SlackUserInfo) unit :=
  if negb ok then mret tt
  else
    users ← get_array resp "users";
    match users with
    | None => mret tt
    | Some l =>
        go ← all_of l (read_user true);
        if negb go then mret tt
        else
          bots ← get_array resp "bots";
          match bots with
          | None => mret tt
          | Some l => all_of l (read_user false) ;; mret tt
          end
    end.

(** The identifier of a channel that is opened, and the owner of a team; the code asks
    for neither. *)
Definition getChannelId {S} (ok : bool) (resp : Json) : prog S string :=
  if negb ok then mret ""%string
  else
    channel ← member resp "channel";
    if isObject channel then store_string_optional channel "id" else mret ""%string.

(** One member: an answer, or [None] to go on. *)
Definition owner_id {S} (m : Json) : prog S (option string) :=
  if isObject m then
    owner ← member m "is_primary_owner";
    match owner with
    | JBool true => id ← store_string_optional m "id"; mret (Some id)
    | _ => mret None
    end
  else mret None.

Fixpoint first_owner {S} (l : list Json) : prog S string :=
  match l with
  | [] => mret ""%string
  | m :: l => id ← owner_id m; match id with Some id => mret id | None => first_owner l end
  end.

Definition getOwnerId {S} (ok : bool) (resp : Json) : prog S string :=
  if negb ok then mret ""%string
  else
    members ← get_array resp "members";
    match members with Some l => first_owner l | None => mret ""%string end.

(** ** Requests *)

(** CreateChannelCallback: what is done once a channel is there. *)
Inductive created_callback :=
  | JoinRoomCreated (args : list string)
  | SlackChannelCreated.

(** HTTPRequest::Callback *)
Inductive http_callback :=
  | HandleSendMessage
  | HandleRTMStart
  | HandleSlackChannelList (channel userId : string) (callback : created_callback)
  | HandleSlackChannelCreate (channel userId : string) (callback : created_callback)
  | HandleSlackChannelInvite (channel userId : string) (callback : created_callback).

Record HTTPRequest := mkHTTPRequest {
  hr_id : nat;
  hr_url : string;
  hr_callback : http_callback;
}.

Section urls.
Context (m_token : string).
Open Scope string_scope.

Definition sendMessage_url (from to text : string) : string :=
  "https://slack.com/api/chat.postMessage?&username=" +:+ urlencode from +:+ "&channel=" +:+ urlencode to
  +:+ "&text=" +:+ urlencode text +:+ "&token=" +:+ urlencode m_token.

Definition setPurpose_url (channel purpose : string) : string :=
  "https://slack.com/api/channels.setPurpose?&channel=" +:+ urlencode channel +:+ "&purpose=" +:+ urlencode purpose
  +:+ "&token=" +:+ urlencode m_token.

Definition deleteMessage_url (channel ts : string) : string :=
  "https://slack.com/api/chat.delete?&channel=" +:+ urlencode channel +:+ "&ts=" +:+ urlencode ts +:+ "&token=" +:+ urlencode m_token.

Definition imOpen_url (uid : string) : string :=
  "https://slack.com/api/im.open?user=" +:+ urlencode uid +:+ "&token=" +:+ urlencode m_token.

Definition usersList_url : string := "https://slack.com/api/users.list?presence=0&token=" +:+ urlencode m_token.

Definition channelsList_url : string := "https://slack.com/api/channels.list?token=" +:+ urlencode m_token.

Definition channelsInvite_url (channel user : string) : string :=
  "https://slack.com/api/channels.invite?&channel=" +:+ urlencode channel +:+ "&user=" +:+ urlencode user
  +:+ "&token=" +:+ urlencode m_token.

Definition channelsCreate_url (name : string) : string :=
  "https://slack.com/api/channels.create?name=" +:+ urlencode name +:+ "&token=" +:+ urlencode m_token.

(** SlackRTM::start *)
Definition start_url : string := "https://slack.com/api/rtm.start?token=" +:+ urlencode m_token.
End urls.
