(* ===== verification/Slack.v ===== *)
(** * The Slack frontend

    What frontends/slack does with users of Slack: a session per user (SlackSession.cpp)
    over the real-time connection (SlackRTM.cpp, with the WebSocket of [WebSocket]) and
    two queues of HTTP requests (libtransport/HTTPRequestQueue.cpp, SlackAPI.cpp); the
    users that own sessions (SlackUser.cpp, SlackUserManager.cpp, SlackRosterManager.cpp)
    and their registration (SlackUserRegistration.cpp, libtransport/OAuth2.cpp).

    A request is on its way from execute() to the event that finishes it. What the user
    manager makes of the presences and messages of a session is an input of its own. *)

From S2P Require Import Prelude StdMap Swiften Codecs Text SlackApi.
From S2P Require Pool UserManager Registration Names WebSocket.

#[local] Existing Instance Registration.as_users.

Abbreviation UserInfo := Pool.UserInfo.
Abbreviation uid := nat.

(** ** Data *)

Definition sess := nat.

(** HTTPRequestQueue; [q_timer]: whether the timer of half a second runs. *)
Record HTTPRequestQueue := mkQueue {
  q_queue : list HTTPRequest;
  q_req : option nat;
  q_timer : bool;
}.

Definition new_queue : HTTPRequestQueue := mkQueue [] None false.

Record SlackRTM := mkRTM {
  m_counter : Z;
  m_started : bool;
  m_token : string;
  rtm_client : WebSocket.WebSocket;
  rtm_queue : HTTPRequestQueue;
  m_pingTimer : bool;
}.

Record SlackSession := mkSlackSession {
  m_uinfo : UserInfo;
  m_idManager : SlackIdManager;
  m_rtm : SlackRTM;
  (** m_api, with its token *)
  api_token : string;
  api_queue : HTTPRequestQueue;
  m_jid2channel : smap string string;
  m_channel2jid : smap string string;
  m_slackChannel : string;
  m_user : option uid;
  m_onlineBuddiesTimer : bool;
  m_onlineBuddies : smap string string;
  m_disconnected : bool;
}.

(** A SlackUser, and the text of its SlackRosterManager. *)
Record SlackUser := mkSlackUser {
  su_jid : string;
  m_session : option sess;
  roster_onlineBuddies : string;
}.

(** The queue a request came from: of the SlackAPI of the SlackRTM, or of the session. *)
Inductive api := RtmApi | MainApi.

(** A request on its way: the session its callback belongs to and, as long as the queue
    waits for it, that queue. *)
Record Flight := mkFlight {
  fl_session : sess;
  fl_queue : option api;
  fl_request : HTTPRequest;
}.

(** What the conversations and the roster of a user answer. *)
Record SlackBuddy (J : Type) := mkSlackBuddy {
  sb_name : string;
  sb_alias : string;
  sb_status : option StatusShow;
  sb_jid : J;
}.
Arguments mkSlackBuddy {J}.
Arguments sb_name {J}.
Arguments sb_alias {J}.
Arguments sb_status {J}.
Arguments sb_jid {J}.

Record UserView (J : Type) := mkUserView {
  (** the nickname and getParticipants of each conversation *)
  uv_conversations : smap string (option (string * string));
  uv_buddies : smap string (option (SlackBuddy J));
}.
Arguments mkUserView {J}.
Arguments uv_conversations {J}.
Arguments uv_buddies {J}.

Inductive slack_event (J : Type) :=
  (** execute() of a request *)
  | Requested (url : string)
  | PresenceReceived (p : Presence J)
  | MessageReceived (m : Message J)
  | Registered (info : UserInfo).
Arguments Requested {J}.
Arguments PresenceReceived {J}.
Arguments MessageReceived {J}.
Arguments Registered {J}.

Record Slack (J St : Type) := mkSlack {
  sl_storage : St;
  sl_sessions : gmap sess SlackSession;
  sl_next_session : sess;
  m_tempSessions : smap string sess;
  sl_users : gmap uid SlackUser;
  sl_views : gmap uid (UserView J);
  sl_flights : gmap nat Flight;
  sl_next_request : nat;
  (** m_authsData, under the states of m_auths *)
  m_auths : smap string (list string);
  sl_out : list (slack_event J);
}.
Arguments mkSlack {J St}.
Arguments sl_storage {J St}.
Arguments sl_sessions {J St}.
Arguments sl_next_session {J St}.
Arguments m_tempSessions {J St}.
Arguments sl_users {J St}.
Arguments sl_views {J St}.
Arguments sl_flights {J St}.
Arguments sl_next_request {J St}.
Arguments m_auths {J St}.
Arguments sl_out {J St}.

(** Updating members *)
Definition set_queue f (q : HTTPRequestQueue) := mkQueue (f (q_queue q)) (q_req q) (q_timer q).
Definition set_req x (q : HTTPRequestQueue) := mkQueue (q_queue q) x (q_timer q).
Definition set_timer x (q : HTTPRequestQueue) := mkQueue (q_queue q) (q_req q) x.

Definition rtm_counted (r : SlackRTM) := mkRTM (m_counter r + 1) (m_started r) (m_token r) (rtm_client r) (rtm_queue r) (m_pingTimer r).
Definition rtm_set_started (r : SlackRTM) := mkRTM (m_counter r) true (m_token r) (rtm_client r) (rtm_queue r) (m_pingTimer r).
Definition rtm_set_client x (r : SlackRTM) := mkRTM (m_counter r) (m_started r) (m_token r) x (rtm_queue r) (m_pingTimer r).
Definition rtm_set_queue f (r : SlackRTM) := mkRTM (m_counter r) (m_started r) (m_token r) (rtm_client r) (f (rtm_queue r)) (m_pingTimer r).
Definition rtm_set_ping b (r : SlackRTM) := mkRTM (m_counter r) (m_started r) (m_token r) (rtm_client r) (rtm_queue r) b.

Definition set_idManager f (o : SlackSession) := mkSlackSession (m_uinfo o) (f (m_idManager o)) (m_rtm o) (api_token o) (api_queue o) (m_jid2channel o) (m_channel2jid o) (m_slackChannel o) (m_user o) (m_onlineBuddiesTimer o) (m_onlineBuddies o) (m_disconnected o).
Definition set_rtm f (o : SlackSession) := mkSlackSession (m_uinfo o) (m_idManager o) (f (m_rtm o)) (api_token o) (api_queue o) (m_jid2channel o) (m_channel2jid o) (m_slackChannel o) (m_user o) (m_onlineBuddiesTimer o) (m_onlineBuddies o) (m_disconnected o).
Definition set_api_queue f (o : SlackSession) := mkSlackSession (m_uinfo o) (m_idManager o) (m_rtm o) (api_token o) (f (api_queue o)) (m_jid2channel o) (m_channel2jid o) (m_slackChannel o) (m_user o) (m_onlineBuddiesTimer o) (m_onlineBuddies o) (m_disconnected o).
Definition set_jid2channel f (o : SlackSession) := mkSlackSession (m_uinfo o) (m_idManager o) (m_rtm o) (api_token o) (api_queue o) (f (m_jid2channel o)) (m_channel2jid o) (m_slackChannel o) (m_user o) (m_onlineBuddiesTimer o) (m_onlineBuddies o) (m_disconnected o).
Definition set_channel2jid f (o : SlackSession) := mkSlackSession (m_uinfo o) (m_idManager o) (m_rtm o) (api_token o) (api_queue o) (m_jid2channel o) (f (m_channel2jid o)) (m_slackChannel o) (m_user o) (m_onlineBuddiesTimer o) (m_onlineBuddies o) (m_disconnected o).
Definition set_slackChannel x (o : SlackSession) := mkSlackSession (m_uinfo o) (m_idManager o) (m_rtm o) (api_token o) (api_queue o) (m_jid2channel o) (m_channel2jid o) x (m_user o) (m_onlineBuddiesTimer o) (m_onlineBuddies o) (m_disconnected o).
Definition set_user x (o : SlackSession) := mkSlackSession (m_uinfo o) (m_idManager o) (m_rtm o) (api_token o) (api_queue o) (m_jid2channel o) (m_channel2jid o) (m_slackChannel o) x (m_onlineBuddiesTimer o) (m_onlineBuddies o) (m_disconnected o).
Definition set_buddiesTimer b (o : SlackSession) := mkSlackSession (m_uinfo o) (m_idManager o) (m_rtm o) (api_token o) (api_queue o) (m_jid2channel o) (m_channel2jid o) (m_slackChannel o) (m_user o) b (m_onlineBuddies o) (m_disconnected o).
Definition set_onlineBuddies f (o : SlackSession) := mkSlackSession (m_uinfo o) (m_idManager o) (m_rtm o) (api_token o) (api_queue o) (m_jid2channel o) (m_channel2jid o) (m_slackChannel o) (m_user o) (m_onlineBuddiesTimer o) (f (m_onlineBuddies o)) (m_disconnected o).
Definition set_disconnected b (o : SlackSession) := mkSlackSession (m_uinfo o) (m_idManager o) (m_rtm o) (api_token o) (api_queue o) (m_jid2channel o) (m_channel2jid o) (m_slackChannel o) (m_user o) (m_onlineBuddiesTimer o) (m_onlineBuddies o) b.

Section slack.
Context {J St : Type} `{Jid J} `{Registration.AccountStorage St} `{JsonReader} `{Split}.
(** The address of the component, boost::to_lower and boost::locale::to_lower. *)
Context (component : J) (to_lower locale_to_lower : string → string).

Abbreviation slack A := (prog (Slack J St) A).
Implicit Types (w : Slack J St).

Definition with_storage x w : Slack J St := mkSlack x (sl_sessions w) (sl_next_session w) (m_tempSessions w) (sl_users w) (sl_views w) (sl_flights w) (sl_next_request w) (m_auths w) (sl_out w).
Definition with_sessions f w : Slack J St := mkSlack (sl_storage w) (f (sl_sessions w)) (sl_next_session w) (m_tempSessions w) (sl_users w) (sl_views w) (sl_flights w) (sl_next_request w) (m_auths w) (sl_out w).
Definition with_next_session x w : Slack J St := mkSlack (sl_storage w) (sl_sessions w) x (m_tempSessions w) (sl_users w) (sl_views w) (sl_flights w) (sl_next_request w) (m_auths w) (sl_out w).
Definition with_tempSessions f w : Slack J St := mkSlack (sl_storage w) (sl_sessions w) (sl_next_session w) (f (m_tempSessions w)) (sl_users w) (sl_views w) (sl_flights w) (sl_next_request w) (m_auths w) (sl_out w).
Definition with_users f w : Slack J St := mkSlack (sl_storage w) (sl_sessions w) (sl_next_session w) (m_tempSessions w) (f (sl_users w)) (sl_views w) (sl_flights w) (sl_next_request w) (m_auths w) (sl_out w).
Definition with_views f w : Slack J St := mkSlack (sl_storage w) (sl_sessions w) (sl_next_session w) (m_tempSessions w) (sl_users w) (f (sl_views w)) (sl_flights w) (sl_next_request w) (m_auths w) (sl_out w).
Definition with_flights f w : Slack J St := mkSlack (sl_storage w) (sl_sessions w) (sl_next_session w) (m_tempSessions w) (sl_users w) (sl_views w) (f (sl_flights w)) (sl_next_request w) (m_auths w) (sl_out w).
Definition with_next_request x w : Slack J St := mkSlack (sl_storage w) (sl_sessions w) (sl_next_session w) (m_tempSessions w) (sl_users w) (sl_views w) (sl_flights w) x (m_auths w) (sl_out w).
Definition with_auths f w : Slack J St := mkSlack (sl_storage w) (sl_sessions w) (sl_next_session w) (m_tempSessions w) (sl_users w) (sl_views w) (sl_flights w) (sl_next_request w) (f (m_auths w)) (sl_out w).
Definition with_out f w : Slack J St := mkSlack (sl_storage w) (sl_sessions w) (sl_next_session w) (m_tempSessions w) (sl_users w) (sl_views w) (sl_flights w) (sl_next_request w) (m_auths w) (f (sl_out w)).

Definition emit (e : slack_event J) : slack unit := modify (with_out (λ l, l ++ [e])).

Definition load (s : sess) : slack SlackSession := w ← get; deref (sl_sessions w !! s).
Definition store (s : sess) (f : SlackSession → SlackSession) : slack unit :=
  o ← load s; modify (with_sessions <[s := f o]>).

(** getUserSetting of the storage, whose answer is the second string. *)
Definition storage_getUserSetting (id : Z) (variable : string) (type : Z) (value : string) : slack string :=
  w ← get;
  let '(value, st) := UserManager.db_getUserSetting id variable type value (sl_storage w) in
  put (with_storage st w) ;;
  mret value.

Definition TYPE_STRING : Z := 13.

(** ** HTTPRequestQueue *)

Definition queue_of (a : api) (o : SlackSession) : HTTPRequestQueue :=
  match a with RtmApi => rtm_queue (m_rtm o) | MainApi => api_queue o end.
Definition update_queue (a : api) (f : HTTPRequestQueue → HTTPRequestQueue) : SlackSession → SlackSession :=
  match a with RtmApi => set_rtm (rtm_set_queue f) | MainApi => set_api_queue f end.

(** execute() *)
Definition execute (f : Flight) : slack unit :=
  modify (with_flights <[hr_id (fl_request f) := f]>) ;;
  emit (Requested (hr_url (fl_request f))).

Definition sendNextRequest (s : sess) (a : api) : slack unit :=
  o ← load s;
  match q_queue (queue_of a o) with
  | [] => store s (update_queue a (λ q, set_timer false (set_req None q)))
  | r :: rest =>
      match q_req (queue_of a o) with
      | Some _ => mret tt
      | None =>
          store s (update_queue a (λ q, set_queue (λ _, rest) (set_req (Some (hr_id r)) q))) ;;
          execute (mkFlight s (Some a) r)
      end
  end.

Definition handleRequestFinished (s : sess) (a : api) : slack unit :=
  store s (update_queue a (λ q, set_timer true (set_req None q))).

Definition new_request (url : string) (callback : http_callback) : slack HTTPRequest :=
  w ← get;
  put (with_next_request (S (sl_next_request w)) w) ;;
  mret (mkHTTPRequest (sl_next_request w) url callback).

Definition queueRequest (s : sess) (a : api) (url : string) (callback : http_callback) : slack unit :=
  r ← new_request url callback;
  store s (update_queue a (set_queue (λ l, l ++ [r]))) ;;
  o ← load s;
  match q_req (queue_of a o) with
  | None => sendNextRequest s a
  | Some _ => mret tt
  end.

(** ** SlackAPI *)

Definition token_of (a : api) (o : SlackSession) : string :=
  match a with RtmApi => m_token (m_rtm o) | MainApi => api_token o end.

Definition sendMessage (s : sess) (a : api) (from to text : string) : slack unit :=
  o ← load s; queueRequest s a (sendMessage_url (token_of a o) from to text) HandleSendMessage.

(** Nobody calls these three. *)
Definition deleteMessage (s : sess) (a : api) (channel ts : string) : slack unit :=
  o ← load s; queueRequest s a (deleteMessage_url (token_of a o) channel ts) HandleSendMessage.

Definition imOpen (s : sess) (a : api) (uid : string) (callback : http_callback) : slack unit :=
  o ← load s; queueRequest s a (imOpen_url (token_of a o) uid) callback.

Definition usersList (s : sess) (a : api) (callback : http_callback) : slack unit :=
  o ← load s; queueRequest s a (usersList_url (token_of a o)) callback.

Definition api_setPurpose (s : sess) (channel purpose : string) : slack unit :=
  o ← load s; queueRequest s MainApi (setPurpose_url (api_token o) channel purpose) HandleSendMessage.

Definition channelsInvite (s : sess) (channelId userId : string) (callback : created_callback) : slack unit :=
  o ← load s;
  queueRequest s MainApi (channelsInvite_url (api_token o) channelId userId)
    (HandleSlackChannelInvite channelId userId callback).

(** A function of the replies on one of the maps of the session's SlackIdManager. *)
Definition in_map {M A} (s : sess) (read : SlackIdManager → M) (write : M → SlackIdManager → SlackIdManager) (m : prog M A)
    : slack A :=
  o ← load s;
  match m (read (m_idManager o)) with
  | Done a x => store s (set_idManager (write x)) ;; mret a
  | Fault f => raise f
  end.

Definition learn_channels (s : sess) (ok : bool) (resp : Json) : slack unit :=
  in_map s m_channels set_channels (getSlackChannelInfo ok resp).
Definition learn_ims (s : sess) (ok : bool) (resp : Json) : slack unit :=
  in_map s m_ims set_ims (getSlackImInfo ok resp).
Definition learn_users (s : sess) (ok : bool) (resp : Json) : slack unit :=
  in_map s m_users set_users (getSlackUserInfo ok resp).

(** ** SlackSession: rooms *)

(** m_jid2channel[key] where the value may be missing: an entry is made. *)
Definition jid2channel (s : sess) (key : string) : slack string :=
  o ← load s;
  let value := default "" (sfind key (m_jid2channel o)) in
  store s (set_jid2channel (sinsert key value)) ;;
  mret value.
Definition channel2jid (s : sess) (key : string) : slack string :=
  o ← load s;
  let value := default "" (sfind key (m_channel2jid o)) in
  store s (set_channel2jid (sinsert key value)) ;;
  mret value.

(** args[i] of a vector *)
Definition at_index (args : list string) (i : nat) : slack string :=
  match args !! i with Some x => mret x | None => raise OutOfRange end.

(** A presence with a MUCPayload, from the user's session. *)
Definition room_presence (o : SlackSession) (to : J) (type : PresenceType) : Presence J :=
  mkPresence (jid_of_string (Pool.ui_jid (m_uinfo o) +:+ "/default")) to type Online "" 0 (Some None) None None None None.

Definition handleJoinRoomCreated (s : sess) (channelId : string) (args : list string) : slack unit :=
  _ ← at_index args 5;
  name ← at_index args 2;
  legacyRoom ← at_index args 3;
  legacyServer ← at_index args 4;
  let to := (legacyRoom +:+ "%" +:+ legacyServer +:+ "@" +:+ toString component)%string in
  store s (set_jid2channel (sinsert to channelId)) ;;
  store s (set_channel2jid (sinsert channelId to)) ;;
  o ← load s;
  emit (PresenceReceived (room_presence o (jid_of_string (to +:+ "/" +:+ name)) Available)) ;;
  store s (set_buddiesTimer true).

Definition handleSlackChannelCreated (s : sess) (channelId : string) : slack unit :=
  store s (set_slackChannel channelId) ;;
  o ← load s;
  emit (PresenceReceived (room_presence o component Available)).

Definition run_created (s : sess) (callback : created_callback) (channelId : string) : slack unit :=
  match callback with
  | JoinRoomCreated args => handleJoinRoomCreated s channelId args
  | SlackChannelCreated => handleSlackChannelCreated s channelId
  end.

Definition createChannel (s : sess) (channel userId : string) (callback : created_callback) : slack unit :=
  o ← load s;
  let channelId := getId (m_idManager o) channel in
  if negb (String.eqb channelId channel) then
    if hasMember (m_idManager o) channelId userId then run_created s callback channelId
    else channelsInvite s channelId userId callback
  else queueRequest s MainApi (channelsList_url (api_token o)) (HandleSlackChannelList channel userId callback).

Definition handleSlackChannelCreate (s : sess) (ok : bool) (resp : Json) (channel userId : string) (callback : created_callback)
    : slack unit :=
  learn_channels s ok resp ;;
  o ← load s;
  let channelId := getId (m_idManager o) channel in
  if String.eqb channelId channel then mret tt else channelsInvite s channelId userId callback.

Definition handleSlackChannelList (s : sess) (ok : bool) (resp : Json) (channel userId : string) (callback : created_callback)
    : slack unit :=
  learn_channels s ok resp ;;
  o ← load s;
  let channelId := getId (m_idManager o) channel in
  if negb (String.eqb channelId channel) then channelsInvite s channelId userId callback
  else queueRequest s MainApi (channelsCreate_url (api_token o) channel) (HandleSlackChannelCreate channel userId callback).

(** The text without a first #; s[0] of an empty string is a null character. *)
Definition without_hash (s : string) : string :=
  match s with String "#" rest => rest | _ => s end.

Definition handleJoinMessage (s : sess) (args : list string) : slack unit :=
  channel ← at_index args 5;
  let args := <[5 := without_hash channel]> args in
  room ← at_index args 3;
  let args := <[3 := to_lower room]> args in
  server ← at_index args 4;
  let args := <[4 := to_lower server]> args in
  o ← load s;
  createChannel s (without_hash channel) (m_selfId (m_idManager o)) (JoinRoomCreated args).

Definition leaveRoom (s : sess) (channel : string) : slack unit :=
  o ← load s;
  to ← channel2jid s (getId (m_idManager o) (without_hash channel));
  if String.eqb to "" then mret tt
  else emit (PresenceReceived (room_presence o (jid_of_string (to +:+ "/" +:+ Pool.ui_uin (m_uinfo o))) Unavailable)).

Definition join_stored (s : sess) (command : string) : slack unit :=
  if (5 <? String.length command)%nat then handleJoinMessage s (split_on " " command) else mret tt.

(** The setting replaces m_slackChannel. *)
Definition handleRTMStarted (s : sess) : slack unit :=
  o ← load s;
  rooms ← storage_getUserSetting (Pool.ui_id (m_uinfo o)) "rooms" TYPE_STRING "";
  channel ← storage_getUserSetting (Pool.ui_id (m_uinfo o)) "slack_channel" TYPE_STRING (m_slackChannel o);
  store s (set_slackChannel channel) ;;
  when (negb (String.eqb channel "")) (createChannel s channel (m_selfId (m_idManager o)) SlackChannelCreated) ;;
  when (negb (String.eqb rooms "")) (for_each (split_on "010" rooms) (join_stored s)).

Definition handleDisconnected (s : sess) : slack unit := store s (set_disconnected true).

Definition handleConnected (s : sess) : slack unit :=
  o ← load s;
  when (m_disconnected o) (handleRTMStarted s ;; store s (set_disconnected false)).

(** ** SlackSession: messages *)

Definition view (u : uid) : slack (UserView J) := w ← get; deref (sl_views w !! u).

(** RosterManager::getBuddy, which makes an entry where there is none. *)
Definition getBuddy (u : uid) (name : string) : slack (option (SlackBuddy J)) :=
  v ← view u;
  let key := locale_to_lower name in
  match sfind key (uv_buddies v) with
  | Some p => mret p
  | None =>
      modify (with_views <[u := mkUserView (uv_conversations v) (sinsert key None (uv_buddies v))]>) ;;
      mret None
  end.

(** Buddy::JIDToLegacyName(jid, m_user) *)
Definition JIDToLegacyName (jid : J) (user : option uid) : slack string :=
  let name := Names.JIDToLegacyName jid in
  match user with
  | None => mret name
  | Some u => b ← getBuddy u name; mret (match b with Some b => sb_name b | None => name end)
  end.

(** Whether a conversation of the user has that nickname. *)
Definition has_nickname (nickname : string) (v : UserView J) : bool :=
  existsb (λ e, match snd e with Some (nick, _) => String.eqb nick nickname | None => false end) (uv_conversations v).

(** The name a message from a contact is posted under. *)
Definition contact_name (user : option uid) (name : string) : slack string :=
  match user with
  | None => mret name
  | Some u =>
      b ← getBuddy u name;
      mret (match b with Some b => sb_alias b +:+ " (" +:+ name +:+ ")" | None => name end)%string
  end.

Definition session_sendMessage (s : sess) (m : Message J) : slack unit :=
  o ← load s;
  own ← match m_user o with
        | Some u => v ← view u; mret (has_nickname (getResource (m_from m)) v)
        | None => mret false
        end;
  if own : bool then mret tt
  else
    channel ← jid2channel s (toString (toBare (m_from m)));
    if negb (String.eqb channel "") then sendMessage s RtmApi (getResource (m_from m)) channel (m_body m)
    else if String.eqb (m_slackChannel o) "" then mret tt
    else
      name ← JIDToLegacyName (m_from m) (m_user o);
      from ← contact_name (m_user o) name;
      sendMessage s RtmApi from (m_slackChannel o) (m_body m).

(** Each channel once, in the order of the rooms. *)
Definition all_channels (l : smap string string) : list string :=
  foldl (λ found e, if bool_decide (snd e ∈ found) then found else found ++ [snd e]) [] l.

Definition sendMessageToAll (s : sess) (msg : string) : slack unit :=
  o ← load s;
  for_each (all_channels (m_jid2channel o)) (λ channel, sendMessage s RtmApi "Spectrum 2" channel msg).

Definition setPurpose (s : sess) (purpose channel : string) : slack unit :=
  o ← load s;
  let ch := if String.eqb channel "" then m_slackChannel o else channel in
  if String.eqb ch "" then mret tt else api_setPurpose s ch purpose.

(** One conversation of the user. *)
Definition tell_purpose (s : sess) (conversation : string * option (string * string)) : slack unit :=
  match snd conversation with
  | None => mret tt
  | Some (_, participants) =>
      let onlineBuddies := ("Online users: " +:+ participants)%string in
      o ← load s;
      let known := default "" (sfind (fst conversation) (m_onlineBuddies o)) in
      store s (set_onlineBuddies (sinsert (fst conversation) known)) ;;
      if String.eqb known onlineBuddies then mret tt
      else
        store s (set_onlineBuddies (sinsert (fst conversation) onlineBuddies)) ;;
        channel ← jid2channel s (Names.at_to_percent (fst conversation) +:+ "@" +:+ toString (toBare component));
        setPurpose s onlineBuddies channel
  end.

Definition sendOnlineBuddies (s : sess) : slack unit :=
  o ← load s;
  match m_user o with
  | None => mret tt
  | Some u =>
      v ← view u;
      for_each (uv_conversations v) (tell_purpose s) ;;
      store s (set_buddiesTimer true)
  end.

(** Contacts that are there and online. *)
Definition online_buddies (v : UserView J) : list (SlackBuddy J) :=
  omap (λ e, match snd e with
             | Some b => match sb_status b with
                         | Some show => if bool_decide (show = NoShow) then None else Some b
                         | None => None
                         end
             | None => None
             end) (uv_buddies v).

Definition handleMessageReceived (s : sess) (channel user message : string) : slack unit :=
  to ← channel2jid s channel;
  o ← load s;
  let name := getName (m_idManager o) user in
  let from := jid_of_string (Pool.ui_jid (m_uinfo o) +:+ "/default") in
  let body := ("<" +:+ name +:+ "> " +:+ message)%string in
  if String.eqb name (m_selfName (m_idManager o)) then mret tt
  else if negb (String.eqb to "") then emit (MessageReceived (mkMessage from (jid_of_string to) Groupchat body "" []))
  else
    match m_user o with
    | None => mret tt
    | Some u =>
        v ← view u;
        for_each (online_buddies v) (λ b, emit (MessageReceived (mkMessage from (sb_jid b) Chat body "" [])))
    end.

(** ** SlackRTM *)

Definition update_rtm (s : sess) (f : SlackRTM → SlackRTM) : slack unit := store s (set_rtm f).

(** A call of the WebSocket. *)
Definition in_client (s : sess) (m : prog WebSocket.WebSocket unit) : slack unit :=
  o ← load s;
  match m (rtm_client (m_rtm o)) with
  | Done _ x => update_rtm s (rtm_set_client x)
  | Fault f => raise f
  end.

Definition rtm_start (s : sess) : slack unit :=
  o ← load s;
  r ← new_request (start_url (m_token (m_rtm o))) HandleRTMStart;
  execute (mkFlight s None r).

(** The fallback texts of the attachments. *)
Definition add_attachments (attachments : Json) (text : string) : slack string :=
  match attachments with
  | JArray l => foldr (λ a k text, fallback ← store_string_optional a "fallback"; k (text +:+ fallback)%string) mret l text
  | _ => mret text
  end.

(** STORE_STRING that goes on with [k]. *)
Definition with_string (d : Json) (name : string) (k : string → slack unit) : slack unit :=
  v ← store_string d name;
  match v with Some v => k v | None => mret tt end.

Definition handle_message (s : sess) (d : Json) : slack unit :=
  with_string d "channel" (λ channel,
  with_string d "text" (λ text,
  with_string d "ts" (λ _,
    subtype ← store_string_optional d "subtype";
    purpose ← store_string_optional d "purpose";
    attachments ← member d "attachments";
    text ← add_attachments attachments text;
    if String.eqb subtype "bot_message" then
      with_string d "bot_id" (λ bot_id, handleMessageReceived s channel bot_id text)
    else if String.eqb subtype "me_message" then
      with_string d "user" (λ user, handleMessageReceived s channel user ("/me " +:+ text)%string)
    else if String.eqb subtype "channel_join" then mret tt
    else if negb (String.eqb purpose "") then mret tt
    else with_string d "user" (λ user, handleMessageReceived s channel user text)))).

Definition handlePayloadReceived (s : sess) (data : string) : slack unit :=
  match json_parse data with
  | None => mret tt
  | Some d =>
      with_string d "type" (λ type,
        if String.eqb type "message" then handle_message s d
        else if String.eqb type "channel_joined" || String.eqb type "channel_created" then learn_channels s true d
        else if String.eqb type "error" then
          error ← member d "error";
          if negb (isObject error) then mret tt
          else
            code ← member error "code";
            match code with
            | JInt 1 =>
                update_rtm s (rtm_set_ping false) ;;
                in_client s WebSocket.disconnectServer ;;
                rtm_start s
            | _ => mret tt
            end
        else mret tt)
  end.

Definition ping_text (counter : Z) : string :=
  ("{" +:+ String "034" "id" +:+ String "034" ": " +:+ pretty counter +:+ ", " +:+ String "034" "type" +:+ String "034" ": "
   +:+ String "034" "ping" +:+ String "034" "}")%string.

Definition sendPing (s : sess) : slack unit :=
  update_rtm s rtm_counted ;;
  o ← load s;
  in_client s (WebSocket.write (list_ascii_of_string (ping_text (m_counter (m_rtm o))))) ;;
  update_rtm s (rtm_set_ping true).

(** boost::replace_all of quotes by escaped quotes *)
Fixpoint escape_quotes (text : string) : string :=
  match text with
  | EmptyString => EmptyString
  | String c rest =>
      if Ascii.eqb c "034" then String "\" (String "034" (escape_quotes rest)) else String c (escape_quotes rest)
  end.

Definition message_text (counter : Z) (channel text : string) : string :=
  let quote := String "034" "" in
  ("{" +:+ quote +:+ "id" +:+ quote +:+ ": " +:+ pretty counter +:+ ", " +:+ quote +:+ "type" +:+ quote +:+ ": "
   +:+ quote +:+ "message" +:+ quote +:+ ", " +:+ quote +:+ "channel" +:+ quote +:+ ":" +:+ quote +:+ channel +:+ quote
   +:+ ", " +:+ quote +:+ "text" +:+ quote +:+ ":" +:+ quote +:+ escape_quotes text +:+ quote +:+ "}")%string.

(** SlackRTM::sendMessage, which nobody calls either *)
Definition rtm_sendMessage (s : sess) (channel message : string) : slack unit :=
  update_rtm s rtm_counted ;;
  o ← load s;
  in_client s (WebSocket.write (list_ascii_of_string (message_text (m_counter (m_rtm o)) channel message))).

(** The address, the name and the identifier of an answer that has them all; the name
    is kept even when there is no identifier. *)
Definition handleRTMStart (s : sess) (ok : bool) (resp : Json) : slack unit :=
  if negb ok then mret tt
  else
    error ← store_string_optional resp "error";
    if String.eqb error "account_inactive" then
      update_rtm s (rtm_set_ping false) ;;
      in_client s WebSocket.disconnectServer
    else
      with_string resp "url" (λ url,
        self ← member resp "self";
        if negb (isObject self) then mret tt
        else
          with_string self "name" (λ selfName,
            store s (set_idManager (setSelfName selfName)) ;;
            with_string self "id" (λ selfId,
              store s (set_idManager (setSelfId selfId)) ;;
              learn_channels s ok resp ;;
              learn_ims s ok resp ;;
              learn_users s ok resp ;;
              in_client s (WebSocket.connectServer_url url)))).

Definition handleWebSocketConnected (s : sess) : slack unit :=
  o ← load s;
  when (negb (m_started (m_rtm o))) (handleRTMStarted s ;; update_rtm s rtm_set_started) ;;
  update_rtm s (rtm_set_ping true).

(** The signals of the WebSocket; nothing is connected to onWebSocketDisconnected. *)
Definition client_signal (s : sess) (e : WebSocket.ws_event) : slack unit :=
  match e with
  | WebSocket.WebSocketConnected => handleWebSocketConnected s
  | WebSocket.PayloadReceived payload => handlePayloadReceived s (string_of_list_ascii payload)
  | _ => mret tt
  end.

Definition client_input (s : sess) (i : WebSocket.ws_input) : slack unit :=
  o ← load s;
  in_client s (WebSocket.react i) ;;
  o' ← load s;
  for_each (drop (length (WebSocket.ws_out (rtm_client (m_rtm o)))) (WebSocket.ws_out (rtm_client (m_rtm o')))) (client_signal s).

(** ** Sessions and their users *)

(** The constructors of SlackRTM and SlackSession. *)
Definition new_session (uinfo : UserInfo) : slack sess :=
  w ← get;
  let s := sl_next_session w in
  put (with_next_session (S s) w) ;;
  bot_token ← storage_getUserSetting (Pool.ui_id uinfo) "bot_token" TYPE_STRING "";
  modify (with_sessions <[s := mkSlackSession uinfo new_idManager
    (mkRTM 0 false bot_token WebSocket.new_websocket new_queue false) "" new_queue [] [] "" None false [] false]>) ;;
  rtm_start s ;;
  token ← storage_getUserSetting (Pool.ui_id uinfo) "access_token" TYPE_STRING "";
  store s (λ o, mkSlackSession (m_uinfo o) (m_idManager o) (m_rtm o) token (api_queue o) (m_jid2channel o)
    (m_channel2jid o) (m_slackChannel o) (m_user o) (m_onlineBuddiesTimer o) (m_onlineBuddies o) (m_disconnected o)) ;;
  mret s.

(** A queue that is destroyed listens no more to the request it waits for, if it knows
    of one; the callback of that request stays. *)
Definition forget (r : option nat) : slack unit :=
  match r with
  | None => mret tt
  | Some r => modify (with_flights (alter (λ f, mkFlight (fl_session f) None (fl_request f)) r))
  end.

(** The destructor of SlackSession, with those of its members. *)
Definition delete_session (s : sess) : slack unit :=
  o ← load s;
  modify (with_sessions (delete s)) ;;
  forget (q_req (rtm_queue (m_rtm o))) ;;
  forget (q_req (api_queue o)).

(** SlackUserManager *)
Definition reconnectUser (user : string) : slack unit :=
  w ← get;
  match UserManager.db_getUser user (sl_storage w) with
  | None => mret tt
  | Some uinfo => s ← new_session uinfo; modify (with_tempSessions (sinsert user s))
  end.

Definition takeTempSession (user : string) : slack (option sess) :=
  w ← get;
  match sfind user (m_tempSessions w) with
  | Some s => modify (with_tempSessions (serase user)) ;; mret (Some s)
  | None => mret None
  end.

Definition moveTempSession (user : string) (s : sess) : slack unit :=
  modify (with_tempSessions (sinsert user s)) ;;
  store s (set_user None).

Definition load_user (u : uid) : slack SlackUser := w ← get; deref (sl_users w !! u).

(** A pointer to a session that may be null. *)
Definition getSession (u : uid) : slack sess :=
  o ← load_user u;
  match m_session o with Some s => mret s | None => raise NullDereference end.

(** The constructor of SlackUser; a new user has no conversations and no contacts. *)
Definition new_user (u : uid) (jid : J) : slack unit :=
  let key := toString (toBare jid) in
  s ← takeTempSession key;
  match s with
  | None => raise NullDereference
  | Some s =>
      store s (set_user (Some u)) ;;
      modify (with_users <[u := mkSlackUser key (Some s) ""]>) ;;
      modify (with_views <[u := mkUserView [] []]>)
  end.

Definition delete_user (u : uid) : slack unit :=
  o ← load_user u;
  match m_session o with Some s => delete_session s | None => mret tt end ;;
  modify (with_users (delete u)) ;;
  modify (with_views (delete u)).

Definition disconnectUser (u : uid) (error : string) : slack unit :=
  o ← load_user u;
  match m_session o with
  | None => mret tt
  | Some s =>
      sendMessageToAll s (if String.eqb error "" then "Disconnected from 3rd-party network for unknown reason." else error)%string ;;
      handleDisconnected s ;;
      sendMessageToAll s "Maybe you have provided wrong 3rd-party network account information." ;;
      moveTempSession (su_jid o) s ;;
      modify (with_users <[u := mkSlackUser (su_jid o) None (roster_onlineBuddies o)]>)
  end.

Definition handleUserCreated (u : uid) : slack unit := s ← getSession u; handleConnected s.

(** UserManager::getUser by the bare address. *)
Definition find_user (key : string) (m : gmap uid SlackUser) : option uid :=
  fst <$> List.find (λ e, String.eqb (su_jid (snd e)) key) (map_to_list m).

Definition manager_sendMessage (m : Message J) : slack unit :=
  w ← get;
  match find_user (toString (toBare (m_to m))) (sl_users w) with
  | None => mret tt
  | Some u => s ← getSession u; session_sendMessage s m
  end.

(** SlackRosterManager::sendOnlineBuddies, whose timer always runs. *)
Definition roster_sendOnlineBuddies (u : uid) : slack unit :=
  o ← load_user u;
  v ← view u;
  let text := foldl (λ text b, text +:+ sb_alias b +:+ ", ")%string "Online users: "%string (online_buddies v) in
  if String.eqb (roster_onlineBuddies o) text then mret tt
  else
    modify (with_users <[u := mkSlackUser (su_jid o) (m_session o) text]>) ;;
    match m_session o with Some s => setPurpose s text "" | None => mret tt end.

(** ** Requests that are done: finalize() *)

(** handleSendMessage touches no member. *)
Definition run_callback (s : sess) (callback : http_callback) (ok : bool) (resp : Json) : slack unit :=
  match callback with
  | HandleSendMessage => mret tt
  | HandleRTMStart => handleRTMStart s ok resp
  | HandleSlackChannelList channel userId after => handleSlackChannelList s ok resp channel userId after
  | HandleSlackChannelCreate channel userId after => handleSlackChannelCreate s ok resp channel userId after
  | HandleSlackChannelInvite channel _ after => run_created s after channel
  end.

Definition finalize (r : nat) (ok : bool) (resp : Json) : slack unit :=
  w ← get;
  match sl_flights w !! r with
  | None => mret tt
  | Some f =>
      run_callback (fl_session f) (hr_callback (fl_request f)) ok resp ;;
      w ← get;
      match sl_flights w !! r with
      | Some (mkFlight s (Some a) _) => handleRequestFinished s a
      | _ => mret tt
      end ;;
      modify (with_flights (delete r))
  end.

(** ** SlackUserRegistration and OAuth2 *)

Record OAuthConfig := mkOAuthConfig {
  service_jid : string;
  client_id : string;
  client_secret : string;
}.

Context (ocfg : OAuthConfig).

Definition redirect_url : string := ("https://slack.spectrum.im/oauth2/" +:+ service_jid ocfg)%string.
Definition oauth_scope : string := "channels:read channels:write team:read im:read im:write chat:write:bot bot".

(** OAuth2::generateAuthURL, with the random state it makes. *)
Definition generateAuthURL (state : string) : string :=
  ("https://slack.com/oauth/authorize?client_id=" +:+ urlencode (client_id ocfg) +:+ "&scope=" +:+ urlencode oauth_scope
   +:+ "&redirect_uri=" +:+ urlencode redirect_url +:+ "&state=" +:+ urlencode state)%string.

Definition createOAuth2URL (state : string) (args : list string) : slack string :=
  modify (with_auths (sinsert state args)) ;;
  mret (generateAuthURL state).

(** OAuth2::requestToken: the address asked, and what is made of the answer ([None]: the
    request fails with an error text): an error, or the token and the bot's token. *)
Definition requestToken_url (code : string) : string :=
  ("https://slack.com/api/oauth.access?client_id=" +:+ urlencode (client_id ocfg) +:+ "&client_secret="
   +:+ urlencode (client_secret ocfg) +:+ "&code=" +:+ urlencode code +:+ "&redirect_uri=" +:+ urlencode redirect_url)%string.

Definition requestToken (answer : string + Json) : slack (string + string * string) :=
  match answer with
  | inl error => mret (inl error)
  | inr resp =>
      token ← store_string resp "access_token";
      match token with
      | None => mret (inl "No 'access_token' object in the reply.")
      | Some token =>
          if String.eqb token "" then mret (inl "Empty 'access_token' object in the reply.")
          else
            bot ← member resp "bot";
            if isObject bot then
              bot_token ← store_string_optional bot "bot_access_token";
              mret (inr (token, bot_token))
            else mret (inr (token, ""))
      end
  end%string.

(** SlackUserRegistration::getTeamDomain *)
Definition getTeamDomain (answer : option Json) : slack string :=
  match answer with
  | None => mret ""%string
  | Some resp =>
      team ← member resp "team";
      if isObject team then store_string_optional team "domain" else mret ""%string
  end.

(** The tokens: an error that is not empty ends the request, an empty one does not. *)
Definition tokens (code state : string) (answer : string + Json) : slack (string + string * string * list string) :=
  if String.eqb state "use_bot_token" then mret (inr (code, code, []))
  else
    w ← get;
    match sfind state (m_auths w) with
    | None => mret (inl ("Received state code '" +:+ state +:+ "' not found in state codes list.")%string)
    | Some data =>
        r ← requestToken answer;
        match r with
        | inl error => if String.eqb error "" then mret (inr ("", "", data))%string else mret (inl error)
        | inr (access_token, token) =>
            mret (inr (access_token, if String.eqb token "" then access_token else token, data))
        end
    end.

(** UserRegistration::registerUser with the password changed; doUserRegistration does
    nothing. *)
Definition registerUser (row : UserInfo) : slack unit :=
  modify (λ w, with_storage (UserManager.db_setUser row (sl_storage w)) w) ;;
  emit (Registered row).

(** The answers of oauth.access and of team.info are inputs. *)
Definition handleOAuth2Code (code state : string) (answer : string + Json) (team : option Json) : slack string :=
  r ← tokens code state answer;
  match r with
  | inl error => mret error
  | inr (access_token, token, data) =>
      domain ← getTeamDomain team;
      if String.eqb domain "" then mret "The token you have provided is invalid"%string
      else
        let '(slackChannel, uin) :=
          match data with _ :: channel :: uin :: _ => (channel, uin) | _ => ("", "")%string end in
        let password := match data with [_; _; _; password] => password | _ => ""%string end in
        w ← get;
        let id := match UserManager.db_getUser domain (sl_storage w) with Some info => Pool.ui_id info | None => 0%Z end in
        registerUser (Pool.mkUserInfo id domain uin password "en" "" false []) ;;
        w ← get;
        let id := match UserManager.db_getUser domain (sl_storage w) with Some info => Pool.ui_id info | None => id end in
        (if String.eqb slackChannel "" then mret tt
         else storage_getUserSetting id "slack_channel" TYPE_STRING (without_hash slackChannel) ;; mret tt) ;;
        storage_getUserSetting id "bot_token" TYPE_STRING token ;;
        storage_getUserSetting id "access_token" TYPE_STRING access_token ;;
        modify (with_auths (λ m, if String.eqb state "use_bot_token" then m else serase state m)) ;;
        reconnectUser domain ;;
        mret ("Registered as " +:+ domain)%string
  end.

(** ** Inputs *)

Inductive slack_input :=
  | Reconnect (user : string)
  | NewUser (u : uid) (jid : J)
  | UserCreated (u : uid)
  | UserDeleted (u : uid)
  | UserViewed (u : uid) (v : UserView J)
  | DisconnectUser (u : uid) (error : string)
  | SendMessage (m : Message J)
  | JoinRoom (u : uid) (args : list string)
  | LeaveRoom (u : uid) (channel : string)
  | RosterTick (u : uid)
  | Finalize (r : nat) (ok : bool) (resp : Json)
  | QueueTick (s : sess) (a : api)
  | PingTick (s : sess)
  | BuddiesTick (s : sess)
  | Client (s : sess) (i : WebSocket.ws_input).

Definition react (i : slack_input) : slack unit :=
  match i with
  | Reconnect user => reconnectUser user
  | NewUser u jid => new_user u jid
  | UserCreated u => handleUserCreated u
  | UserDeleted u => delete_user u
  | UserViewed u v => modify (with_views <[u := v]>)
  | DisconnectUser u error => disconnectUser u error
  | SendMessage m => manager_sendMessage m
  | JoinRoom u args => s ← getSession u; handleJoinMessage s args
  | LeaveRoom u channel => s ← getSession u; leaveRoom s channel
  | RosterTick u => roster_sendOnlineBuddies u
  | Finalize r ok resp => finalize r ok resp
  | QueueTick s a => sendNextRequest s a
  | PingTick s => sendPing s
  | BuddiesTick s => sendOnlineBuddies s
  | Client s i => client_input s i
  end.

Definition initial (st : St) : Slack J St := mkSlack st ∅ 0 [] ∅ ∅ ∅ 0 [] [].
End slack.
