(* ===== verification/SlackTheorems.v ===== *)
(** * Sessions of Slack: who owns them, and what outlives them

    No user points to a session that is gone and no session to a user that is gone; the
    requests on their way are what can outlive a session. *)

From S2P Require Import Prelude StdMap Swiften Codecs Text SlackApi Slack.
From S2P Require Pool UserManager Registration Names WebSocket.
From S2P Require Sqlite SqliteTheorems RegistrationTheorems.

#[local] Existing Instance Registration.as_users.

(** ** Programs that touch no deleted object *)

Definition survives (f : fault) : Prop := f ≠ UseAfterFree.

Definition safe {S A} (m : prog S A) : Prop := spec survives (λ _, True) m (λ _ _, True).

(** They may also leave the state alone. *)
Definition reads {S A} (m : prog S A) : Prop := ∀ w, spec survives (eq w) m (λ _, eq w).

Section safety.
Context {S : Type}.

Lemma safe_bind {A B} (m : prog S A) (k : A → prog S B) : safe m → (∀ a, safe (k a)) → safe (m ≫= k).
Proof. apply spec_bind. Qed.
Lemma safe_ret {A} (a : A) : safe (mret a : prog S A).
Proof. by intros w _. Qed.
Lemma safe_modify f : safe (modify f : prog S unit).
Proof. by intros w _. Qed.
Lemma safe_raise {A} f : f ≠ UseAfterFree → safe (raise f : prog S A).
Proof. by intros ? ? ?. Qed.
Lemma safe_get {A} (k : S → prog S A) : (∀ w, safe (k w)) → safe (get ≫= k).
Proof. intros Hk w _. by apply (Hk w w). Qed.
Lemma safe_put w : safe (put w : prog S unit).
Proof. by intros ? _. Qed.
Lemma safe_for_each {A} (xs : list A) (body : A → prog S unit) : (∀ x, safe (body x)) → safe (for_each xs body).
Proof. intros Hb. apply spec_for_each. intros x _. apply Hb. Qed.
Lemma safe_for_each_until {A} (xs : list A) (body : A → prog S bool) : (∀ x, safe (body x)) → safe (for_each_until xs body).
Proof. intros Hb. apply spec_for_each_until. intros x _. apply Hb. Qed.
Lemma safe_all_of {A} (xs : list A) (body : A → prog S bool) : (∀ x, safe (body x)) → safe (all_of xs body).
Proof. intros Hb. induction xs as [|x xs IH]; [apply safe_ret|]. apply safe_bind; [done|]. intros [|]; [done|apply safe_ret]. Qed.

Lemma reads_safe {A} (m : prog S A) : reads m → safe m.
Proof. intros Hm w _. specialize (Hm w w eq_refl). by destruct (m w). Qed.
Lemma reads_bind {A B} (m : prog S A) (k : A → prog S B) : reads m → (∀ a, reads (k a)) → reads (m ≫= k).
Proof. intros Hm Hk w. eapply spec_keep; [apply Hm|]. intros a. apply Hk. Qed.
Lemma reads_ret {A} (a : A) : reads (mret a : prog S A).
Proof. by intros w ? <-. Qed.
Lemma reads_raise {A} f : f ≠ UseAfterFree → reads (raise f : prog S A).
Proof. by intros ? w ? <-. Qed.

Lemma reads_member j name : reads (member j name : prog S Json).
Proof. destruct j; (apply reads_ret || by apply reads_raise). Qed.
Lemma reads_string j name : reads (store_string j name : prog S (option string)).
Proof. apply reads_bind; [apply reads_member|intros ?; apply reads_ret]. Qed.
Lemma reads_optional j name : reads (store_string_optional j name : prog S string).
Proof. apply reads_bind; [apply reads_member|intros ?; apply reads_ret]. Qed.
Lemma reads_array j name : reads (get_array j name : prog S (option (list Json))).
Proof. apply reads_bind; [apply reads_member|intros ?; apply reads_ret]. Qed.
Lemma reads_channel j : reads (channel_info j : prog S (option SlackChannelInfo)).
Proof.
  apply reads_bind; [apply reads_string|]. intros [id|]; [|apply reads_ret].
  apply reads_bind; [apply reads_string|]. intros [name|]; [|apply reads_ret].
  apply reads_bind; [apply reads_member|]. intros ms. apply reads_ret.
Qed.
End safety.

(** One step through a program that is safe. *)
Ltac safe_step :=
  lazymatch goal with
  | |- safe (member _ _) => apply reads_safe, reads_member
  | |- safe (store_string _ _) => apply reads_safe, reads_string
  | |- safe (store_string_optional _ _) => apply reads_safe, reads_optional
  | |- safe (get_array _ _) => apply reads_safe, reads_array
  | |- safe (channel_info _) => apply reads_safe, reads_channel
  | |- safe (for_each _ _) => apply safe_for_each; intros ?
  | |- safe (for_each_until _ _) => apply safe_for_each_until; intros ?
  | |- safe (all_of _ _) => apply safe_all_of; intros ?
  | |- safe (get ≫= _) => apply safe_get; intros ?
  | |- safe (_ ≫= _) => apply safe_bind; [|intros ?]
  | |- safe (mret _) => apply safe_ret
  | |- safe (raise _) => by apply safe_raise
  | |- safe (modify _) => apply safe_modify
  | |- safe (put _) => apply safe_put
  | |- safe (when ?b _) => destruct b; simpl
  | |- safe (match ?x with _ => _ end) => destruct x
  end.

Lemma getSlackChannelInfo_safe ok resp : safe (getSlackChannelInfo ok resp).
Proof. unfold getSlackChannelInfo, add_channel. repeat safe_step. Qed.
Lemma getSlackImInfo_safe ok resp : safe (getSlackImInfo ok resp).
Proof. unfold getSlackImInfo. repeat safe_step. Qed.
Lemma read_user_safe profile user : safe (read_user profile user).
Proof. unfold read_user. repeat safe_step. Qed.
Lemma getSlackUserInfo_safe ok resp : safe (getSlackUserInfo ok resp).
Proof. unfold getSlackUserInfo. repeat (safe_step || apply read_user_safe). Qed.

Lemma ws_emit_safe e : safe (WebSocket.ws_emit e).
Proof. apply safe_modify. Qed.
Lemma connectServer_safe : safe WebSocket.connectServer.
Proof. unfold WebSocket.connectServer. repeat (safe_step || apply ws_emit_safe). Qed.
Lemma connectServer_url_safe url : safe (WebSocket.connectServer_url url).
Proof. unfold WebSocket.connectServer_url, WebSocket.substr. repeat (safe_step || apply connectServer_safe). Qed.
Lemma disconnectServer_safe : safe WebSocket.disconnectServer.
Proof. unfold WebSocket.disconnectServer. repeat (safe_step || apply ws_emit_safe). Qed.
Lemma write_safe data : safe (WebSocket.write data).
Proof. unfold WebSocket.write. repeat (safe_step || apply ws_emit_safe). Qed.
Lemma read_payloads_safe fuel : safe (WebSocket.read_payloads fuel).
Proof. induction fuel; simpl; repeat (safe_step || apply ws_emit_safe || assumption). Qed.

Lemma client_safe i : safe (WebSocket.react i).
Proof.
  destruct i; simpl; unfold WebSocket.handleDNSResult, WebSocket.handleConnected, WebSocket.handleDataRead,
    WebSocket.handleDisconnected;
    repeat (safe_step || apply ws_emit_safe || apply connectServer_safe || apply read_payloads_safe).
Qed.

Section owners.
Context {J St : Type} `{Jid J} `{Registration.AccountStorage St} `{JsonReader} `{Split}.
Context (component : J) (to_lower locale_to_lower : string → string).

Abbreviation slack A := (prog (Slack J St) A).
Implicit Types (w : Slack J St) (o : SlackSession).

(** ** Owners *)

(** The user of each session, and the session of each user. *)
Definition owners w : gmap sess (option uid) := m_user <$> sl_sessions w.
Definition owned w : gmap uid (option sess) := m_session <$> sl_users w.

Record slack_ok w : Prop := mkSlackOk {
  so_owners u s : owned w !! u = Some (Some s) ↔ owners w !! s = Some (Some u);
  so_temp key s : sfind key (m_tempSessions w) = Some s → owners w !! s = Some None;
  so_sorted : sorted (m_tempSessions w);
  so_once key key' s : sfind key (m_tempSessions w) = Some s → sfind key' (m_tempSessions w) = Some s → key = key';
  so_views u : is_Some (owned w !! u) → is_Some (sl_views w !! u);
  so_fresh (s : sess) : sl_next_session w ≤ s → owners w !! s = None;
}.

(** What the work of a session leaves alone. *)
Record same_owners w0 w : Prop := mkSameOwners {
  sw_sessions : owners w = owners w0;
  sw_users : owned w = owned w0;
  sw_temp : m_tempSessions w = m_tempSessions w0;
  sw_next : sl_next_session w = sl_next_session w0;
  sw_views u : is_Some (sl_views w0 !! u) → is_Some (sl_views w !! u);
  sw_flights r f : sl_flights w !! r = Some f →
    is_Some (sl_sessions w0 !! fl_session f) ∨ ∃ f0, sl_flights w0 !! r = Some f0 ∧ fl_session f0 = fl_session f;
}.

Lemma same_owners_refl w : same_owners w w.
Proof. split; try done. intros r f Hf. right. by eexists. Qed.

Lemma owners_alive w s : is_Some (sl_sessions w !! s) ↔ is_Some (owners w !! s).
Proof. unfold owners. by rewrite lookup_fmap, fmap_is_Some. Qed.

Lemma same_owners_trans w0 w1 w2 : same_owners w0 w1 → same_owners w1 w2 → same_owners w0 w2.
Proof.
  intros [A1 A2 A3 A4 A5 A6] [B1 B2 B3 B4 B5 B6]. split; [congruence..|auto|].
  intros r f [Hs|(f1 & Hf1 & E)]%B6; [left; by rewrite owners_alive, A1, <- owners_alive in Hs|].
  destruct (A6 _ _ Hf1) as [Hs|(f0 & Hf0 & E0)]; rewrite E in *; [by left|right; by exists f0].
Qed.

Lemma owners_lookup_back w0 w s o0 : same_owners w0 w → sl_sessions w0 !! s = Some o0 →
  ∃ o, sl_sessions w !! s = Some o ∧ m_user o = m_user o0.
Proof.
  intros [E _ _ _ _ _] Ho. apply (f_equal (.!! s)) in E. unfold owners in E. rewrite !lookup_fmap, Ho in E.
  destruct (sl_sessions w !! s) as [o|]; [|done]. exists o. split; [done|]. by injection E.
Qed.

Lemma slack_ok_same w0 w : slack_ok w0 → same_owners w0 w → slack_ok w.
Proof.
  intros [A1 A2 A3 A4 A5 A6] [E1 E2 E3 E4 E5 _]. split.
  - intros u s. rewrite E1, E2. apply A1.
  - intros key s. rewrite E1, E3. apply A2.
  - by rewrite E3.
  - rewrite E3. apply A4.
  - intros u. rewrite E2. auto.
  - intros s. rewrite E1, E4. apply A6.
Qed.

(** ** The work of a session that is there *)

Section session.
Context (w0 : Slack J St) (s : sess) (o0 : SlackSession).
Hypothesis Ho0 : sl_sessions w0 !! s = Some o0.
Hypothesis Hview : ∀ u, m_user o0 = Some u → is_Some (sl_views w0 !! u).

Definition keeps {A} (m : slack A) : Prop := spec survives (same_owners w0) m (λ _, same_owners w0).

Lemma keeps_bind {A B} (m : slack A) (k : A → slack B) : keeps m → (∀ a, keeps (k a)) → keeps (m ≫= k).
Proof. apply spec_keep. Qed.

Lemma keeps_ret {A} (a : A) : keeps (mret a).
Proof. by apply spec_ret. Qed.

Lemma keeps_raise {A} f : f ≠ UseAfterFree → keeps (raise f : slack A).
Proof. by intros ? ? ?. Qed.

Lemma slack_keeps_modify f : (∀ w, same_owners w (f w)) → keeps (modify f).
Proof. intros Hf w Hw. eapply same_owners_trans; [done|apply Hf]. Qed.

Lemma keeps_emit e : keeps (emit e).
Proof. apply slack_keeps_modify. intros w. destruct (same_owners_refl w). by split. Qed.

Lemma slack_keeps_get {A} (k : Slack J St → slack A) : (∀ w, keeps (k w)) → keeps (get ≫= k).
Proof. intros Hk w Hw. by apply (Hk w). Qed.

Lemma slack_keeps_load {A} (k : SlackSession → slack A) :
  (∀ o, m_user o = m_user o0 → keeps (k o)) → keeps (load s ≫= k).
Proof.
  intros Hk w Hw. destruct (owners_lookup_back _ _ _ _ Hw Ho0) as (o & Ho & E).
  unfold load. rewrite !bind_run. simpl. rewrite Ho. simpl. by apply Hk.
Qed.

Lemma keeps_store f : (∀ o, m_user (f o) = m_user o) → keeps (store s f).
Proof.
  intros Hf w Hw. destruct (owners_lookup_back _ _ _ _ Hw Ho0) as (o & Ho & E).
  unfold store, load. rewrite !bind_run. simpl. rewrite Ho. simpl.
  eapply same_owners_trans; [done|]. destruct (same_owners_refl w). split; try done. unfold owners. simpl.
  rewrite fmap_insert, Hf. apply insert_id. by rewrite lookup_fmap, Ho.
Qed.

Lemma keeps_execute q r : keeps (execute (mkFlight s q r)).
Proof.
  apply keeps_bind; [|intros []; apply keeps_emit]. intros w [A1 A2 A3 A4 A5 A6]. split; try done.
  intros r' f. simpl. destruct (decide (r' = hr_id r)) as [->|]; [rewrite lookup_insert_eq|rewrite lookup_insert_ne by done].
  - intros [= <-]. left. simpl. by eexists.
  - apply A6.
Qed.

Lemma keeps_new_request url callback : keeps (new_request url callback).
Proof. intros w [A1 A2 A3 A4 A5 A6]. by split. Qed.

Lemma keeps_getUserSetting id variable type value : keeps (storage_getUserSetting id variable type value).
Proof.
  intros w [A1 A2 A3 A4 A5 A6]. unfold storage_getUserSetting. rewrite bind_run. simpl.
  destruct (UserManager.db_getUserSetting _ _ _ _ _) as [v st]. by split.
Qed.

Lemma keeps_in_map {M A} (read : SlackIdManager → M) write (m : prog M A) : safe m → keeps (in_map s read write m).
Proof.
  intros Hm. apply slack_keeps_load. intros o Eo. specialize (Hm (read (m_idManager o)) Logic.I).
  destruct (m _) as [a x|f]; [|by apply keeps_raise]. apply keeps_bind; [by apply keeps_store|intros []; apply keeps_ret].
Qed.

Lemma keeps_in_client m : safe m → keeps (in_client s m).
Proof.
  intros Hm. apply slack_keeps_load. intros o Eo. specialize (Hm (rtm_client (m_rtm o)) Logic.I).
  destruct (m _) as [a x|f]; [|by apply keeps_raise]. by apply keeps_store.
Qed.

Lemma keeps_view {A} u (k : UserView J → slack A) : m_user o0 = Some u → (∀ v, keeps (k v)) → keeps (view u ≫= k).
Proof.
  intros Hu Hk w Hw. destruct (sw_views _ _ Hw u (Hview u Hu)) as [v Hv].
  unfold view. rewrite !bind_run. simpl. rewrite Hv. simpl. by apply Hk.
Qed.

Lemma keeps_reads {A} (m : slack A) : reads m → keeps m.
Proof. intros Hm w Hw. specialize (Hm w w eq_refl). destruct (m w) as [a w'|f]; [by subst w'|done]. Qed.

Lemma keeps_views f : (∀ w u, is_Some (sl_views w !! u) → is_Some (f (sl_views w) !! u)) → keeps (modify (with_views f)).
Proof. intros Hf. apply slack_keeps_modify. intros w. destruct (same_owners_refl w). split; try done. intros u. apply Hf. Qed.

Lemma keeps_auths f : keeps (modify (with_auths f)).
Proof. apply slack_keeps_modify. intros w. destruct (same_owners_refl w). by split. Qed.

Lemma keeps_for_each {A} (xs : list A) (body : A → slack unit) : (∀ x, keeps (body x)) → keeps (for_each xs body).
Proof. intros Hb. apply spec_for_each. intros x _. apply Hb. Qed.

Lemma keeps_with_string d name k : (∀ v, keeps (k v)) → keeps (with_string d name k).
Proof. intros Hk. apply keeps_bind; [apply keeps_reads, reads_string|]. intros [v|]; [apply Hk|apply keeps_ret]. Qed.

Lemma keeps_at_index args i : keeps (at_index args i).
Proof. unfold at_index. destruct (args !! i); [apply keeps_ret|by apply keeps_raise]. Qed.

Create HintDb kept.
#[local] Hint Resolve keeps_ret keeps_emit keeps_execute keeps_new_request keeps_getUserSetting keeps_at_index : kept.

Ltac keep_step :=
  lazymatch goal with
  | |- keeps (load _ ≫= _) => apply slack_keeps_load; intros ? ?
  | |- keeps (get ≫= _) => apply slack_keeps_get; intros ?
  | |- keeps (view _ ≫= _) => apply keeps_view; [congruence|intros ?]
  | |- keeps (_ ≫= _) => apply keeps_bind; [|intros ?]
  | |- keeps (when ?b _) => destruct b; simpl
  | |- keeps (for_each _ _) => apply keeps_for_each; intros ?
  | |- keeps (with_string _ _ _) => apply keeps_with_string; intros ?
  | |- keeps (member _ _) => apply keeps_reads, reads_member
  | |- keeps (store_string_optional _ _) => apply keeps_reads, reads_optional
  | |- keeps (store _ _) => apply keeps_store; by intros
  | |- keeps (update_rtm _ _) => apply keeps_store; by intros
  | |- keeps (raise _) => by apply keeps_raise
  | |- keeps (match ?x with _ => _ end) => destruct x eqn:?
  | |- keeps _ => solve [auto with kept]
  end.
Ltac keep := repeat keep_step.

Lemma keeps_update_queue a f : keeps (store s (update_queue a f)).
Proof. by destruct a; keep. Qed.
#[local] Hint Resolve keeps_update_queue : kept.

Lemma keeps_sendNextRequest a : keeps (sendNextRequest s a).
Proof.
  unfold sendNextRequest. keep_step. destruct (q_queue _); [apply keeps_update_queue|]. destruct (q_req _); [apply keeps_ret|].
  apply keeps_bind; [apply keeps_update_queue|intros _; apply keeps_execute].
Qed.
#[local] Hint Resolve keeps_sendNextRequest : kept.

Lemma keeps_queueRequest a url callback : keeps (queueRequest s a url callback).
Proof.
  unfold queueRequest. keep_step; [keep|]. apply keeps_bind; [apply keeps_update_queue|intros _]. keep.
Qed.
#[local] Hint Resolve keeps_queueRequest : kept.

Lemma keeps_sendMessage a from to text : keeps (sendMessage s a from to text).
Proof. unfold sendMessage. keep. Qed.
Lemma keeps_api_setPurpose channel purpose : keeps (api_setPurpose s channel purpose).
Proof. unfold api_setPurpose. keep. Qed.
Lemma keeps_channelsInvite channel userId callback : keeps (channelsInvite s channel userId callback).
Proof. unfold channelsInvite. keep. Qed.
Lemma keeps_learn_channels ok resp : keeps (learn_channels s ok resp).
Proof. apply keeps_in_map, getSlackChannelInfo_safe. Qed.
Lemma keeps_learn_ims ok resp : keeps (learn_ims s ok resp).
Proof. apply keeps_in_map, getSlackImInfo_safe. Qed.
Lemma keeps_learn_users ok resp : keeps (learn_users s ok resp).
Proof. apply keeps_in_map, getSlackUserInfo_safe. Qed.
Lemma keeps_jid2channel key : keeps (jid2channel s key).
Proof. unfold jid2channel. keep. Qed.
Lemma keeps_channel2jid key : keeps (channel2jid s key).
Proof. unfold channel2jid. keep. Qed.
#[local] Hint Resolve keeps_sendMessage keeps_api_setPurpose keeps_channelsInvite keeps_learn_channels keeps_learn_ims
  keeps_learn_users keeps_jid2channel keeps_channel2jid : kept.

Lemma keeps_run_created callback channel : keeps (run_created component s callback channel).
Proof. destruct callback; simpl; unfold handleJoinRoomCreated, handleSlackChannelCreated; keep. Qed.
#[local] Hint Resolve keeps_run_created : kept.

Lemma keeps_createChannel channel userId callback : keeps (createChannel component s channel userId callback).
Proof. unfold createChannel. keep. Qed.
#[local] Hint Resolve keeps_createChannel : kept.

Lemma keeps_handleJoinMessage args : keeps (handleJoinMessage component to_lower s args).
Proof. unfold handleJoinMessage. keep. Qed.
#[local] Hint Resolve keeps_handleJoinMessage : kept.

Lemma keeps_leaveRoom channel : keeps (leaveRoom s channel).
Proof. unfold leaveRoom. keep. Qed.

Lemma keeps_handleRTMStarted : keeps (handleRTMStarted component to_lower s).
Proof. unfold handleRTMStarted, join_stored. keep. Qed.
#[local] Hint Resolve keeps_handleRTMStarted : kept.

Lemma keeps_handleConnected : keeps (handleConnected component to_lower s).
Proof. unfold handleConnected. keep. Qed.

Lemma keeps_getBuddy u name : m_user o0 = Some u → keeps (getBuddy locale_to_lower u name).
Proof.
  intros Hu. unfold getBuddy. apply keeps_view; [done|]. intros v. destruct (sfind _ _); [apply keeps_ret|].
  apply keeps_bind; [|intros _; apply keeps_ret]. apply keeps_views. intros w u' Hu'.
  destruct (decide (u' = u)) as [->|]; [by rewrite lookup_insert_eq; eexists|by rewrite lookup_insert_ne].
Qed.

Lemma keeps_contact_name user name : user = m_user o0 → keeps (contact_name locale_to_lower user name).
Proof.
  intros ->. unfold contact_name. case_eq (m_user o0); [intros u Hu|intros _; apply keeps_ret].
  apply keeps_bind; [by apply keeps_getBuddy|intros ?; apply keeps_ret].
Qed.

Lemma keeps_JIDToLegacyName jid user : user = m_user o0 → keeps (JIDToLegacyName locale_to_lower jid user).
Proof.
  intros ->. unfold JIDToLegacyName. case_eq (m_user o0); [intros u Hu|intros _; apply keeps_ret].
  apply keeps_bind; [by apply keeps_getBuddy|intros ?; apply keeps_ret].
Qed.
#[local] Hint Resolve keeps_contact_name keeps_JIDToLegacyName : kept.

Lemma keeps_session_sendMessage m : keeps (session_sendMessage locale_to_lower s m).
Proof. unfold session_sendMessage. keep. Qed.
#[local] Hint Resolve keeps_session_sendMessage : kept.

Lemma keeps_sendMessageToAll msg : keeps (sendMessageToAll s msg).
Proof. unfold sendMessageToAll. keep. Qed.

Lemma keeps_setPurpose purpose channel : keeps (setPurpose s purpose channel).
Proof. unfold setPurpose. keep. Qed.
#[local] Hint Resolve keeps_setPurpose : kept.

Lemma keeps_tell_purpose conversation : keeps (tell_purpose component s conversation).
Proof. unfold tell_purpose. keep. Qed.
#[local] Hint Resolve keeps_tell_purpose : kept.

Lemma keeps_sendOnlineBuddies : keeps (sendOnlineBuddies component s).
Proof. unfold sendOnlineBuddies. keep. Qed.

Lemma keeps_handleMessageReceived channel user message : keeps (handleMessageReceived s channel user message).
Proof. unfold handleMessageReceived. keep. Qed.
#[local] Hint Resolve keeps_handleMessageReceived : kept.

Lemma keeps_rtm_start : keeps (rtm_start s).
Proof. unfold rtm_start. keep. Qed.
#[local] Hint Resolve keeps_rtm_start : kept.

Lemma keeps_add_attachments attachments text : keeps (add_attachments attachments text).
Proof.
  unfold add_attachments. destruct attachments; keep. revert text. induction l as [|j l IH]; intros text; simpl; keep.
Qed.
#[local] Hint Resolve keeps_add_attachments : kept.

Lemma keeps_handle_message d : keeps (handle_message s d).
Proof. unfold handle_message. keep. Qed.
#[local] Hint Resolve keeps_handle_message : kept.

Lemma keeps_client m : safe m → keeps (in_client s m).
Proof. apply keeps_in_client. Qed.
#[local] Hint Resolve keeps_client connectServer_url_safe disconnectServer_safe write_safe client_safe : kept.

Lemma keeps_handlePayloadReceived data : keeps (handlePayloadReceived s data).
Proof. unfold handlePayloadReceived. keep. Qed.
#[local] Hint Resolve keeps_handlePayloadReceived : kept.

Lemma keeps_sendPing : keeps (sendPing s).
Proof. unfold sendPing. keep. Qed.

Lemma keeps_handleRTMStart ok resp : keeps (handleRTMStart s ok resp).
Proof. unfold handleRTMStart. keep. Qed.

Lemma keeps_client_signal e : keeps (client_signal component to_lower s e).
Proof. destruct e; simpl; unfold handleWebSocketConnected; keep. Qed.
#[local] Hint Resolve keeps_client_signal : kept.

Lemma keeps_client_input i : keeps (client_input component to_lower s i).
Proof. unfold client_input. keep. Qed.

Lemma keeps_run_callback callback ok resp : keeps (run_callback component s callback ok resp).
Proof.
  destruct callback; simpl; unfold handleSlackChannelList, handleSlackChannelCreate;
    keep; apply keeps_handleRTMStart.
Qed.
End session.

(** ** Events *)

Definition stays {A} w (m : slack A) : Prop :=
  match m w with Done _ w' => slack_ok w' | Fault f => survives f end.

Lemma session_view w s o u : slack_ok w → sl_sessions w !! s = Some o → m_user o = Some u → is_Some (sl_views w !! u).
Proof.
  intros Hok Ho Hu. apply (so_views _ Hok). exists (Some s). apply (so_owners _ Hok). unfold owners.
  by rewrite lookup_fmap, Ho; simpl; rewrite Hu.
Qed.

Lemma stays_keeps {A} w (m : slack A) : slack_ok w → keeps w m → stays w m.
Proof.
  intros Hok Hm. specialize (Hm w (same_owners_refl w)). unfold stays. destruct (m w); [|done]. by eapply slack_ok_same.
Qed.

Lemma stays_session {A} w s (m : slack A) :
  slack_ok w → is_Some (sl_sessions w !! s) →
  (∀ o, sl_sessions w !! s = Some o → (∀ u, m_user o = Some u → is_Some (sl_views w !! u)) → keeps w m) → stays w m.
Proof.
  intros Hok [o Ho] Hm. apply stays_keeps; [done|]. apply (Hm o Ho). intros u Hu. by eapply session_view.
Qed.

Lemma user_session w u x s : slack_ok w → sl_users w !! u = Some x → m_session x = Some s →
  ∃ o, sl_sessions w !! s = Some o ∧ m_user o = Some u.
Proof.
  intros Hok Hx Hs. assert (owners w !! s = Some (Some u)) as E.
  { apply (so_owners _ Hok). unfold owned. by rewrite lookup_fmap, Hx; simpl; rewrite Hs. }
  unfold owners in E. rewrite lookup_fmap in E. destruct (sl_sessions w !! s) as [o|]; [|done]. exists o. by injection E.
Qed.

(** What is done with the session of a user. *)
Lemma stays_getSession w u (k : sess → slack unit) :
  slack_ok w → is_Some (sl_users w !! u) →
  (∀ s o, sl_sessions w !! s = Some o → (∀ u, m_user o = Some u → is_Some (sl_views w !! u)) → keeps w (k s)) →
  stays w (getSession u ≫= k).
Proof.
  intros Hok [x Hx] Hk. unfold stays, getSession, load_user. rewrite !bind_run. simpl. rewrite Hx. simpl.
  destruct (m_session x) as [s|] eqn:Hs; simpl; [|done].
  destruct (user_session _ _ _ _ Hok Hx Hs) as (o & Ho & Hu).
  apply (stays_keeps w (k s)); [done|]. eapply Hk; [done|]. intros u' Hu'. by eapply session_view.
Qed.

Lemma owners_insert f w s o : sl_sessions (f w) = <[s := o]> (sl_sessions w) → owners (f w) = <[s := m_user o]> (owners w).
Proof. intros E. unfold owners. by rewrite E, fmap_insert. Qed.

Lemma sfind_insert_inv (key key' : string) (s s' : sess) m :
  sfind key' (sinsert key s m) = Some s' → key' = key ∧ s' = s ∨ key' ≠ key ∧ sfind key' m = Some s'.
Proof.
  destruct (decide (key' = key)) as [->|Hne]; [rewrite sfind_sinsert_eq; intros [= ->]; by left|].
  rewrite sfind_sinsert_ne by done. by right.
Qed.

Lemma sfind_erase_inv (key key' : string) (s : sess) m : sfind key' (serase key m) = Some s → key' ≠ key ∧ sfind key' m = Some s.
Proof.
  destruct (decide (key' = key)) as [->|Hne]; [by rewrite sfind_serase_eq|]. by rewrite sfind_serase_ne by done.
Qed.

Lemma ok_new_session w o : slack_ok w → m_user o = None →
  slack_ok (with_sessions <[sl_next_session w := o]> (with_next_session (S (sl_next_session w)) w)).
Proof.
  intros [A1 A2 A3 A4 A5 A6] Ho. assert (Hf := A6 (sl_next_session w) (le_n _)).
  assert (E : owners (with_sessions <[sl_next_session w := o]> (with_next_session (S (sl_next_session w)) w))
    = <[sl_next_session w := None]> (owners w)) by (unfold owners; simpl; by rewrite fmap_insert, Ho).
  split; try done.
  - intros u s. change (owned (with_sessions _ _)) with (owned w). rewrite E, A1.
    destruct (decide (s = sl_next_session w)) as [->|]; [by rewrite lookup_insert_eq, Hf|by rewrite lookup_insert_ne].
  - intros key s Hs. rewrite E. destruct (decide (s = sl_next_session w)) as [->|]; [by rewrite lookup_insert_eq|].
    rewrite lookup_insert_ne by done. by eapply A2.
  - intros s Hs. simpl in Hs. rewrite E, lookup_insert_ne by lia. apply A6. lia.
Qed.

Lemma ok_temp w key s : slack_ok w → owners w !! s = Some None → (∀ key', sfind key' (m_tempSessions w) ≠ Some s) →
  slack_ok (with_tempSessions (sinsert key s) w).
Proof.
  intros [A1 A2 A3 A4 A5 A6] Ho Hn. split; try done; simpl.
  - by intros key' s' [[-> ->]|[_ ?%A2]]%sfind_insert_inv.
  - by apply sinsert_sorted.
  - intros k1 k2 s' [[-> ->]|[N1 F1]]%sfind_insert_inv [[-> E2]|[N2 F2]]%sfind_insert_inv; subst; try done.
    + by apply Hn in F2.
    + by apply Hn in F1.
    + by eapply A4.
Qed.

Lemma ok_untemp w key : slack_ok w → slack_ok (with_tempSessions (serase key) w).
Proof.
  intros [A1 A2 A3 A4 A5 A6]. split; try done; simpl.
  - by intros key' s' [_ ?%A2]%sfind_erase_inv.
  - by apply serase_sorted.
  - intros k1 k2 s' [N1 F1]%sfind_erase_inv [N2 F2]%sfind_erase_inv. by eapply A4.
Qed.

Lemma temp_once w key s : slack_ok w → sfind key (m_tempSessions w) = Some s →
  ∀ key', sfind key' (m_tempSessions (with_tempSessions (serase key) w)) ≠ Some s.
Proof. intros Hok Hs key' [Hne Hs']%sfind_erase_inv. apply Hne. by eapply (so_once _ Hok). Qed.

(** The session [s] becomes the session of the new user [u]. *)
Definition given (u : uid) (s : sess) (o : SlackSession) x v w : Slack J St :=
  with_views <[u := v]> (with_users <[u := x]> (with_sessions <[s := set_user (Some u) o]> w)).

Lemma ok_given w u s o x v : slack_ok w → owned w !! u = None → sl_sessions w !! s = Some o → m_user o = None →
  (∀ key, sfind key (m_tempSessions w) ≠ Some s) → m_session x = Some s → slack_ok (given u s o x v w).
Proof.
  intros [A1 A2 A3 A4 A5 A6] Hu Ho Hno Hn Hx.
  assert (E1 : owners (given u s o x v w) = <[s := Some u]> (owners w)) by (unfold owners; simpl; by rewrite fmap_insert).
  assert (E2 : owned (given u s o x v w) = <[u := Some s]> (owned w)) by (unfold owned; simpl; by rewrite fmap_insert, Hx).
  assert (Hs : owners w !! s = Some None) by (unfold owners; by rewrite lookup_fmap, Ho; simpl; rewrite Hno).
  split; try done; simpl.
  - intros u' s'. rewrite E1, E2. destruct (decide (u' = u)) as [->|Hu'], (decide (s' = s)) as [->|Hs'];
      rewrite ?lookup_insert_eq, ?lookup_insert_ne by done; [done|..].
    + rewrite <- A1, Hu. split; [intros [= ->]; done|done].
    + rewrite A1, Hs. split; [done|intros [= ->]; done].
    + apply A1.
  - intros key s' Hs'. rewrite E1, lookup_insert_ne; [by eapply A2|]. intros ->. by apply Hn in Hs'.
  - intros u'. rewrite E2. destruct (decide (u' = u)) as [->|]; [rewrite !lookup_insert_eq; by eexists|].
    rewrite !lookup_insert_ne by done. apply A5.
  - intros s' Hs'. rewrite E1, lookup_insert_ne; [by apply A6|]. intros ->. by rewrite A6 in Hs.
Qed.

Lemma ok_deleted w w' u x :
  slack_ok w → sl_users w !! u = Some x →
  owners w' = match m_session x with Some s => delete s (owners w) | None => owners w end →
  owned w' = delete u (owned w) → m_tempSessions w' = m_tempSessions w → sl_next_session w' = sl_next_session w →
  (∀ u', u' ≠ u → is_Some (sl_views w !! u') → is_Some (sl_views w' !! u')) → slack_ok w'.
Proof.
  intros [A1 A2 A3 A4 A5 A6] Hx E1 E2 E3 E4 E5.
  assert (Hu : owned w !! u = Some (m_session x)) by (unfold owned; by rewrite lookup_fmap, Hx).
  split; rewrite ?E3, ?E4; try done.
  - intros u' s'. rewrite E1, E2. destruct (decide (u' = u)) as [->|Hu'].
    + rewrite lookup_delete_eq. destruct (m_session x) as [s|]; [destruct (decide (s' = s)) as [->|]|].
      * by rewrite lookup_delete_eq.
      * rewrite lookup_delete_ne, <- A1, Hu by done. split; congruence.
      * by rewrite <- A1, Hu.
    + rewrite lookup_delete_ne, A1 by done. destruct (m_session x) as [s|]; [|done]. destruct (decide (s' = s)) as [->|].
      * rewrite lookup_delete_eq. apply A1 in Hu. split; congruence.
      * by rewrite lookup_delete_ne.
  - intros key s' Hs'. pose proof (A2 _ _ Hs') as F. rewrite E1. destruct (m_session x) as [s|] eqn:Hs; [|done].
    rewrite lookup_delete_ne; [done|]. intros ->. apply A1 in Hu. congruence.
  - intros u'. rewrite E2. destruct (decide (u' = u)) as [->|]; [rewrite lookup_delete_eq; by intros [? ?]|].
    rewrite lookup_delete_ne by done. intros F%A5. by apply E5.
  - intros s' Hs'. rewrite E1. destruct (m_session x) as [s|]; [|auto]. rewrite lookup_delete_None. right. auto.
Qed.

(** The session [s] of the user [u] waits for another user of that address. *)
Lemma ok_taken w w' u s key :
  slack_ok w → owned w !! u = Some (Some s) →
  owners w' = <[s := None]> (owners w) → owned w' = <[u := None]> (owned w) →
  m_tempSessions w' = sinsert key s (m_tempSessions w) → sl_next_session w' = sl_next_session w →
  (∀ u', is_Some (sl_views w !! u') → is_Some (sl_views w' !! u')) → slack_ok w'.
Proof.
  intros [A1 A2 A3 A4 A5 A6] Hu E1 E2 E3 E4 E5. pose proof (proj1 (A1 _ _) Hu) as Hs.
  assert (Hn : ∀ key', sfind key' (m_tempSessions w) ≠ Some s) by (intros key' F%A2; congruence).
  split; rewrite ?E3, ?E4.
  - intros u' s'. rewrite E1, E2. destruct (decide (u' = u)) as [->|Hu'], (decide (s' = s)) as [->|Hs'];
      rewrite ?lookup_insert_eq.
    + done.
    + rewrite lookup_insert_ne, <- A1, Hu by done. split; congruence.
    + rewrite lookup_insert_ne, A1, Hs by done. split; congruence.
    + rewrite !lookup_insert_ne by done. apply A1.
  - intros key' s' [[-> ->]|[_ F]]%sfind_insert_inv; rewrite E1; [by rewrite lookup_insert_eq|].
    rewrite lookup_insert_ne; [by eapply A2|]. intros ->. by apply Hn in F.
  - by apply sinsert_sorted.
  - intros k1 k2 s' [[-> ->]|[N1 F1]]%sfind_insert_inv [[-> E]|[N2 F2]]%sfind_insert_inv; subst; try done.
    + by apply Hn in F2.
    + by apply Hn in F1.
    + by eapply A4.
  - intros u'. rewrite E2. destruct (decide (u' = u)) as [->|]; [intros _; apply E5, A5; by rewrite Hu|].
    rewrite lookup_insert_ne by done. intros F%A5. by apply E5.
  - intros s' Hs'. rewrite E1, lookup_insert_ne; [by apply A6|]. intros ->. by rewrite A6 in Hs.
Qed.

Lemma stays_bind {A B} w (m : slack A) (k : A → slack B) :
  (match m w with Done a w' => stays w' (k a) | Fault f => survives f end) → stays w (m ≫= k).
Proof. unfold stays. rewrite bind_run. by destruct (m w). Qed.

Lemma stays_done {A} w (a : A) : slack_ok w → stays w (mret a).
Proof. done. Qed.

(** A session nobody has taken. *)
Definition unowned s w : Prop :=
  slack_ok w ∧ owners w !! s = Some None ∧ ∀ key, sfind key (m_tempSessions w) ≠ Some s.

Lemma unowned_keeps {A} s (m : slack A) :
  (∀ w o, sl_sessions w !! s = Some o → m_user o = None → keeps w m) → spec survives (unowned s) m (λ _, unowned s).
Proof.
  intros Hm w (Hok & Ho & Hn). pose proof Ho as Hs. unfold owners in Hs. rewrite lookup_fmap in Hs.
  destruct (sl_sessions w !! s) as [o|] eqn:E; [|done]. injection Hs as Hu.
  specialize (Hm w o E Hu w (same_owners_refl w)). destruct (m w) as [a w'|f]; [|done].
  split; [by eapply slack_ok_same|]. destruct Hm as [E1 _ E3 _ _ _]. by rewrite E1, E3.
Qed.

Lemma getUserSetting_run id variable type value w :
  ∃ answer st, storage_getUserSetting id variable type value w = Done answer (with_storage st w).
Proof.
  unfold storage_getUserSetting. rewrite bind_run. cbn [get].
  destruct (UserManager.db_getUserSetting id variable type value (sl_storage w)) as [answer st]. by exists answer, st.
Qed.

(** The session made for a user that comes back. *)
Lemma new_session_ok uinfo : spec survives slack_ok (new_session uinfo) (λ s w, unowned s w).
Proof.
  intros w Hok. unfold new_session. rewrite bind_run. cbn [get]. rewrite bind_run. cbn [put].
  destruct (getUserSetting_run (Pool.ui_id uinfo) "bot_token" TYPE_STRING "" (with_next_session (S (sl_next_session w)) w))
    as (token & st & E).
  rewrite (bind_done _ _ _ _ _ E). rewrite bind_run. cbn [modify].
  set (o := mkSlackSession uinfo _ _ _ _ _ _ _ _ _ _ _). set (s := sl_next_session w).
  match goal with |- match _ ?w1 with _ => _ end => assert (Hw : unowned s w1) end.
  { assert (Hok1 := ok_new_session w o Hok eq_refl). split; [|split].
    - apply (slack_ok_same _ _ Hok1). split; try done. intros r f Hf. right. by eexists.
    - unfold owners. simpl. by rewrite fmap_insert, lookup_insert_eq.
    - intros key F%(so_temp _ Hok). by rewrite (so_fresh _ Hok) in F. }
  revert Hw. match goal with |- unowned s ?w1 → _ => generalize w1 end. 
  change (spec survives (unowned s) (rtm_start s ;; a ← storage_getUserSetting (Pool.ui_id uinfo) "access_token" TYPE_STRING "";
    store s (λ o, mkSlackSession (m_uinfo o) (m_idManager o) (m_rtm o) a (api_queue o) (m_jid2channel o)
      (m_channel2jid o) (m_slackChannel o) (m_user o) (m_onlineBuddiesTimer o) (m_onlineBuddies o) (m_disconnected o)) ;;
    mret s) unowned).
  eapply spec_bind; [apply unowned_keeps; intros ? ? Hs ?; by eapply keeps_rtm_start|intros []].
  eapply spec_bind; [apply unowned_keeps; intros ? ? Hs ?; apply keeps_getUserSetting|intros token2].
  eapply spec_bind; [apply unowned_keeps; intros ? ? Hs ?; by eapply keeps_store|intros []].
  by apply spec_ret.
Qed.

Lemma reconnectUser_ok user : spec survives slack_ok (reconnectUser user) (λ _, slack_ok).
Proof.
  intros w Hok. unfold reconnectUser. rewrite bind_run. cbn [get].
  destruct (UserManager.db_getUser user (sl_storage w)) as [uinfo|]; [|done].
  refine (spec_bind survives slack_ok (new_session uinfo) unowned _ _ (new_session_ok uinfo) _ w Hok).
  intros s. apply spec_modify. intros w' (Hok' & Ho & Hn). by apply ok_temp.
Qed.

Lemma new_user_ok u jid w : slack_ok w → sl_users w !! u = None → stays w (new_user u jid).
Proof.
  intros Hok Hu. unfold stays, new_user, takeTempSession. rewrite !bind_run. cbn [get].
  destruct (sfind _ _) as [s|] eqn:Hs; [|done]. rewrite bind_run. cbn [modify mret prog_ret].
  pose proof (so_temp _ Hok _ _ Hs) as Ho. unfold owners in Ho. rewrite lookup_fmap in Ho.
  destruct (sl_sessions w !! s) as [o|] eqn:E; [|done]. injection Ho as Ho.
  unfold store, load. rewrite !bind_run. cbn [get]. cbn [sl_sessions with_tempSessions]. rewrite E. cbn [deref mret prog_ret].
  cbn [modify]. rewrite bind_run. cbn [modify].
  apply (ok_given (with_tempSessions (serase (toString (toBare jid))) w) u s o); try done.
  - by apply ok_untemp.
  - unfold owned. simpl. by rewrite lookup_fmap, Hu.
  - by apply temp_once.
Qed.
Lemma forget_keeps w r : keeps w (forget r).
Proof.
  destruct r as [r|]; [|apply keeps_ret]. intros w1 [A1 A2 A3 A4 A5 A6]. split; try done.
  intros r' f. simpl. destruct (decide (r' = r)) as [->|]; [rewrite lookup_alter_eq|rewrite lookup_alter_ne by done; apply A6].
  destruct (sl_flights w1 !! r) as [f0|] eqn:E; [|done]. intros [= <-]. by apply A6 in E.
Qed.

Lemma keeps_run {A} w (m : slack A) : keeps w m → match m w with Done _ w' => same_owners w w' | Fault f => survives f end.
Proof. intros Hm. exact (Hm w (same_owners_refl w)). Qed.

Lemma delete_session_run s o w : sl_sessions w !! s = Some o →
  match delete_session s w with Done _ w' => same_owners (with_sessions (delete s) w) w' | Fault f => survives f end.
Proof.
  intros Ho. unfold delete_session, load. rewrite !bind_run. cbn [get]. rewrite Ho. cbn [deref mret prog_ret].
  rewrite bind_run. cbn [modify]. apply (keeps_run (with_sessions (delete s) w)).
  apply keeps_bind; intros; apply forget_keeps.
Qed.

Lemma delete_user_ok u w : slack_ok w → is_Some (sl_users w !! u) → stays w (delete_user u).
Proof.
  intros Hok [x Hx]. unfold stays, delete_user, load_user. rewrite !bind_run. cbn [get]. rewrite Hx. cbn [deref mret prog_ret].
  rewrite bind_run. destruct (m_session x) as [s|] eqn:Hs.
  - destruct (user_session _ _ _ _ Hok Hx Hs) as (o & Ho & Hu).
    pose proof (delete_session_run s o w Ho) as Hd. destruct (delete_session s w) as [[] w1|f]; [|done].
    rewrite bind_run. cbn [modify]. destruct Hd as [B1 B2 B3 B4 B5 _].
    apply (ok_deleted w _ u x Hok Hx); rewrite ?Hs; try done.
    + unfold owners in *. simpl. rewrite B1. simpl. by rewrite fmap_delete.
    + unfold owned in *. simpl. by rewrite fmap_delete, B2.
    + intros u' Hu' Hv. simpl. rewrite lookup_delete_ne by done. by apply B5.
  - cbn [mret prog_ret]. rewrite bind_run. cbn [modify].
    apply (ok_deleted w _ u x Hok Hx); rewrite ?Hs; try done.
    + unfold owned. simpl. by rewrite fmap_delete.
    + intros u' Hu' Hv. simpl. by rewrite lookup_delete_ne.
Qed.

Lemma disconnectUser_ok u error w : slack_ok w → is_Some (sl_users w !! u) → stays w (disconnectUser u error).
Proof.
  intros Hok [x Hx]. unfold stays, disconnectUser, load_user. rewrite !bind_run. cbn [get]. rewrite Hx. cbn [deref mret prog_ret].
  destruct (m_session x) as [s|] eqn:Hs; [|done]. destruct (user_session _ _ _ _ Hok Hx Hs) as (o & Ho & Hu).
  refine (spec_bind survives (same_owners w) _ (λ _, same_owners w) _ _ _ _ w (same_owners_refl w)).
  { by eapply keeps_sendMessageToAll. }
  intros _. refine (spec_bind _ _ _ (λ _, same_owners w) _ _ _ _).
  { by eapply keeps_store. }
  intros _. refine (spec_bind _ _ _ (λ _, same_owners w) _ _ _ _).
  { by eapply keeps_sendMessageToAll. }
  intros _ w1 [B1 B2 B3 B4 B5 _]. unfold moveTempSession, store, load. rewrite !bind_run. cbn [modify].
  assert (∃ o1, sl_sessions w1 !! s = Some o1) as [o1 Ho1].
  { apply owners_alive. rewrite B1. apply owners_alive. by eexists. }
  rewrite !bind_run. cbn [get]. cbn [sl_sessions with_tempSessions]. unfold sess in *. rewrite Ho1. cbn [deref mret prog_ret modify].
  apply (ok_taken w _ u s (su_jid x)); [done|unfold owned; by rewrite lookup_fmap, Hx; simpl; rewrite Hs|..]; try done.
  - unfold owners in *. simpl. by rewrite fmap_insert, B1.
  - unfold owned in *. simpl. by rewrite fmap_insert, B2.
  - simpl. by rewrite B3.
Qed.
Lemma find_user_lookup key w u : find_user key (sl_users w) = Some u → is_Some (sl_users w !! u).
Proof.
  unfold find_user. intros ([u' x] & E & ->)%fmap_Some. apply List.find_some in E as [Hin _].
  apply list_elem_of_In, elem_of_map_to_list in Hin. by exists x.
Qed.

Lemma manager_sendMessage_ok m w : slack_ok w → stays w (manager_sendMessage locale_to_lower m).
Proof.
  intros Hok. apply stays_bind. cbn [get]. destruct (find_user _ _) as [u|] eqn:E; [|by apply stays_done].
  apply stays_getSession; [done|by eapply find_user_lookup|]. intros s o Ho Hv. by eapply keeps_session_sendMessage.
Qed.

Lemma roster_sendOnlineBuddies_ok u w : slack_ok w → is_Some (sl_users w !! u) → stays w (roster_sendOnlineBuddies u).
Proof.
  intros Hok [x Hx]. apply stays_bind. unfold load_user. rewrite bind_run. cbn [get]. rewrite Hx. cbn [deref mret prog_ret].
  assert (is_Some (sl_views w !! u)) as [v Hv].
  { apply (so_views _ Hok). unfold owned. rewrite lookup_fmap, Hx. by eexists. }
  apply stays_bind. unfold view. rewrite bind_run. cbn [get]. rewrite Hv. cbn [deref mret prog_ret].
  destruct (String.eqb _ _); [by apply stays_done|]. apply stays_bind. cbn [modify].
  match goal with |- stays ?w1 _ => assert (Hw : same_owners w w1) end.
  { split; try done; [|intros r f Hf; right; by eexists]. unfold owned. simpl. rewrite fmap_insert. apply insert_id.
    by rewrite lookup_fmap, Hx. }
  pose proof (slack_ok_same _ _ Hok Hw) as Hok1. destruct (m_session x) as [s|] eqn:Hs; [|by apply stays_done].
  destruct (user_session _ _ _ _ Hok Hx Hs) as (o & Ho & _). apply (stays_session _ s); [done|by eexists|].
  intros o1 Ho1 Hv1. by eapply keeps_setPurpose.
Qed.

(** The answer to a request. *)
Lemma finalize_ok r ok resp w : slack_ok w →
  (∀ f, sl_flights w !! r = Some f → is_Some (sl_sessions w !! fl_session f)) → stays w (finalize component r ok resp).
Proof.
  intros Hok Hal. apply stays_bind. cbn [get]. destruct (sl_flights w !! r) as [f|] eqn:E; [|by apply stays_done].
  destruct (Hal f eq_refl) as [o Ho]. set (s := fl_session f) in *.
  assert (Hk : keeps w (run_callback component s (hr_callback (fl_request f)) ok resp)).
  { by eapply keeps_run_callback. }
  apply stays_bind. pose proof (keeps_run _ _ Hk) as Hw. destruct (run_callback _ _ _ _ _ w) as [[] w1|]; [|done].
  pose proof (slack_ok_same _ _ Hok Hw) as Hok1. apply stays_bind. cbn [get].
  apply stays_keeps; [done|]. apply keeps_bind.
  - destruct (sl_flights w1 !! r) as [[s' [a|] rq]|] eqn:E1; try apply keeps_ret.
    assert (is_Some (sl_sessions w1 !! s')) as [o1 Ho1].
    { rewrite owners_alive, (sw_sessions _ _ Hw), <- owners_alive.
      destruct (sw_flights _ _ Hw _ _ E1) as [?|(f0 & Hf0 & E2)]; [done|].
      rewrite E in Hf0. injection Hf0 as <-. simpl in E2. rewrite <- E2. by eexists. }
    by eapply keeps_update_queue.
  - intros _. apply slack_keeps_modify. intros w2. split; try done. intros r' f'. simpl. rewrite lookup_delete_Some. intros [_ Hf']. right. by eexists.
Qed.

(** The same for a session that is gone: what it touches is a fault. *)
Section gone.
Context (w0 : Slack J St) (s : sess).
Hypothesis Hgone : sl_sessions w0 !! s = None.

Definition idle {A} (m : slack A) : Prop := spec any_fault (eq w0) m (λ _, eq w0).

Lemma idle_load {A} (k : SlackSession → slack A) : idle (load s ≫= k).
Proof. intros w <-. unfold load. rewrite !bind_run. cbn [get]. by rewrite Hgone. Qed.

Lemma idle_store f : idle (store s f).
Proof. apply idle_load. Qed.

Lemma idle_bind {A B} (m : slack A) (k : A → slack B) : idle m → (∀ a, idle (k a)) → idle (m ≫= k).
Proof. apply spec_keep. Qed.

Lemma idle_ret {A} (a : A) : idle (mret a).
Proof. by apply spec_ret. Qed.

Lemma idle_reads {A} (m : slack A) : reads m → idle m.
Proof. intros Hm w <-. specialize (Hm w0 w0 eq_refl). by destruct (m w0). Qed.

Lemma idle_with_string d name k : (∀ v, idle (k v)) → idle (with_string d name k).
Proof. intros Hk. apply idle_bind; [apply idle_reads, reads_string|]. intros [v|]; [apply Hk|apply idle_ret]. Qed.

Lemma idle_at_index {A} args i (k : string → slack A) : (∀ v, idle (k v)) → idle (at_index args i ≫= k).
Proof. intros Hk. apply idle_bind; [|done]. unfold at_index. destruct (args !! i); [apply idle_ret|by intros w <-]. Qed.

Lemma idle_run_callback callback ok resp : idle (run_callback component s callback ok resp).
Proof.
  destruct callback as [| |? ? after|? ? after|? ? after]; simpl; [apply idle_ret| | | |].
  - unfold handleRTMStart. destruct ok; simpl; [|apply idle_ret].
    apply idle_bind; [apply idle_reads, reads_optional|]. intros error. destruct (String.eqb error _).
    + apply idle_bind; [apply idle_store|intros _; apply idle_load].
    + apply idle_with_string. intros url. apply idle_bind; [apply idle_reads, reads_member|]. intros self.
      destruct (isObject self); simpl; [|apply idle_ret]. apply idle_with_string. intros name.
      intros w <-. rewrite bind_run. pose proof (idle_store (set_idManager (setSelfName name)) w0 eq_refl) as Hs.
      unfold store, load. rewrite !bind_run. cbn [get]. by rewrite Hgone.
  - unfold handleSlackChannelList, learn_channels, in_map. intros w <-. unfold load. rewrite !bind_run. cbn [get]. by rewrite Hgone.
  - unfold handleSlackChannelCreate, learn_channels, in_map. intros w <-. unfold load. rewrite !bind_run. cbn [get]. by rewrite Hgone.
  - destruct after as [args|]; simpl; unfold handleJoinRoomCreated, handleSlackChannelCreated.
    + do 4 (apply idle_at_index; intros ?). intros w <-. unfold store, load. rewrite !bind_run. cbn [get]. by rewrite Hgone.
    + intros w <-. unfold store, load. rewrite !bind_run. cbn [get]. by rewrite Hgone.
Qed.
End gone.

Lemma finalize_orphan r ok resp w f w' : slack_ok w → sl_flights w !! r = Some f → sl_sessions w !! fl_session f = None →
  finalize component r ok resp w = Done tt w' → slack_ok w'.
Proof.
  intros Hok Hf Hs. unfold finalize. rewrite bind_run. cbn [get]. rewrite Hf. rewrite bind_run.
  pose proof (idle_run_callback w _ Hs (hr_callback (fl_request f)) ok resp w eq_refl) as Hi.
  destruct (run_callback _ _ _ _ _ w) as [[] w1|]; [|done]. subst w1. rewrite bind_run. cbn [get]. rewrite Hf.
  destruct f as [s [a|] rq]; simpl in *.
  - rewrite bind_run. pose proof (idle_store w s Hs (update_queue a (λ q, set_timer true (set_req None q))) w eq_refl).
    unfold handleRequestFinished, store, load. rewrite !bind_run. cbn [get]. by rewrite Hs.
  - rewrite bind_run. cbn [mret prog_ret modify]. intros [= <-]. apply (slack_ok_same w); [done|]. split; try done.
    intros r' f'. simpl. rewrite lookup_delete_Some. intros [_ Hf']. right. by eexists.
Qed.

(** ** The invariant *)

(** Who is called is there: users for what the user manager does, and sessions for
    their timers, which the destructors stop. The name resolver and the connection of a
    WebSocket also call a session that is deleted: ~WebSocketClient disconnects no more
    than onDataRead of its last connection. *)
Definition enabled (i : slack_input (J := J)) w : Prop :=
  match i with
  | NewUser u _ => sl_users w !! u = None
  | UserCreated u | UserDeleted u | UserViewed u _ | DisconnectUser u _ | JoinRoom u _ | LeaveRoom u _ | RosterTick u =>
      is_Some (sl_users w !! u)
  | QueueTick s _ | PingTick s | BuddiesTick s => is_Some (sl_sessions w !! s)
  | Client s _ => (s < sl_next_session w)%nat
  | Reconnect _ | SendMessage _ | Finalize _ _ _ => True
  end.

(** A request whose session is gone. *)
Definition orphan (r : nat) w : Prop :=
  ∃ f, sl_flights w !! r = Some f ∧ sl_sessions w !! fl_session f = None.

(** An event for a session that is deleted: the answer to one of its requests, or one of
    its WebSocket. *)
Definition late (i : slack_input (J := J)) w : Prop :=
  (∃ r ok resp, i = Finalize r ok resp ∧ orphan r w) ∨ (∃ s x, i = Client s x ∧ sl_sessions w !! s = None).

Lemma late_dec i w : late i w ∨ ¬ late i w.
Proof.
  unfold late, orphan. destruct i as [| | | | | | | | | |r ok resp| | | |s x]; try (right; intros [(? & ? & ? & ? & ?)|(? & ? & ? & ?)]; done).
  - destruct (sl_flights w !! r) as [f|] eqn:Hf;
      [destruct (sl_sessions w !! fl_session f) eqn:Hs; [|left; left; exists r, ok, resp; eauto]|];
      right; intros [(? & ? & ? & [= <- <- <-] & f' & ? & ?)|(? & ? & ? & ?)]; congruence.
  - destruct (sl_sessions w !! s) eqn:Hs; [|left; right; eauto].
    right; intros [(? & ? & ? & ? & ?)|(? & ? & [= <- <-] & ?)]; congruence.
Qed.

Lemma slack_react_ok i w : slack_ok w → enabled i w → ¬ late i w →
  stays w (react component to_lower locale_to_lower i).
Proof.
  intros Hok Hen Hr. destruct i as [user|u jid|u|u|u v|u error|m|u args|u channel|u|r ok resp|s a|s|s|s i]; simpl in *.
  - pose proof (reconnectUser_ok user w Hok) as F. unfold stays. by destruct (reconnectUser user w).
  - by apply new_user_ok.
  - apply stays_getSession; [done..|]. intros s o Ho Hv. by eapply keeps_handleConnected.
  - by apply delete_user_ok.
  - apply stays_keeps; [done|]. apply keeps_views. intros w' u' Hu'.
    destruct (decide (u' = u)) as [->|]; [rewrite lookup_insert_eq; by eexists|by rewrite lookup_insert_ne].
  - by apply disconnectUser_ok.
  - by apply manager_sendMessage_ok.
  - apply stays_getSession; [done..|]. intros s o Ho Hv. by eapply keeps_handleJoinMessage.
  - apply stays_getSession; [done..|]. intros s o Ho Hv. by eapply keeps_leaveRoom.
  - by apply roster_sendOnlineBuddies_ok.
  - apply finalize_ok; [done|]. intros f Hf. destruct (sl_sessions w !! fl_session f) eqn:Es; [by eexists|].
    exfalso. apply Hr. left. exists r, ok, resp. split; [done|]. by exists f.
  - apply (stays_session _ s); [done..|]. intros o Ho Hv. by eapply keeps_sendNextRequest.
  - apply (stays_session _ s); [done..|]. intros o Ho Hv. by eapply keeps_sendPing.
  - apply (stays_session _ s); [done..|]. intros o Ho Hv. by eapply keeps_sendOnlineBuddies.
  - destruct (sl_sessions w !! s) eqn:Hs; [|exfalso; apply Hr; right; by exists s, i].
    apply (stays_session _ s); [done|by eexists|]. intros o Ho Hv. by eapply keeps_client_input.
Qed.

Lemma initial_ok st : slack_ok (initial st).
Proof. split; try done; [constructor|]. intros u. unfold owned. rewrite lookup_fmap. by intros [? ?]. Qed.

(** C32: sessions of Slack have one owner. From the start on, whatever happens, a user
    points to a session exactly when that session points to the user, and a session that
    waits for its user waits under one address only. No event touches a session or a
    user that is deleted, with two exceptions, which the program has: the answer to a
    request of a session that was deleted while the request was on its way, and what
    the name resolver or the connection tells the WebSocket of a deleted session. That
    the user manager names users that exist, and that a timer is silent once it is
    stopped, is assumed. Exceptions that nobody catches and null pointers are other
    matters. *)
Theorem slack_sound :
  (∀ st, slack_ok (initial st))
  ∧ ∀ i w, slack_ok w → enabled i w →
    match react component to_lower locale_to_lower i w with
    | Done _ w' => slack_ok w'
    | Fault f => f = UseAfterFree →
        (∃ r ok resp, i = Finalize r ok resp ∧ orphan r w) ∨ (∃ s x, i = Client s x ∧ sl_sessions w !! s = None)
    end.
Proof.
  split; [exact initial_ok|]. intros i w Hok Hen. destruct (late_dec i w) as [Hl|Hl].
  - pose proof Hl as [(r & ok & resp & -> & f & Hf & Hs)|(s & x & -> & Hs)].
    + simpl. destruct (finalize component r ok resp w) as [[] w'|] eqn:E; [by eapply finalize_orphan|].
      intros _. left. exists r, ok, resp. split; [done|]. by exists f.
    + simpl. unfold client_input, load. rewrite !bind_run. cbn [get]. rewrite Hs. intros _. right. by exists s, x.
  - pose proof (slack_react_ok i w Hok Hen Hl) as Hst. unfold stays in Hst.
    destruct (react _ _ _ i w); [done|]. intros ->. by destruct Hst.
Qed.

Lemma forget_run r w : ∃ w', forget r w = Done tt w' ∧ sl_sessions w' = sl_sessions w ∧ sl_users w' = sl_users w
  ∧ sl_views w' = sl_views w
  ∧ ∀ n f, sl_flights w !! n = Some f → ∃ f', sl_flights w' !! n = Some f' ∧ fl_session f' = fl_session f ∧ fl_request f' = fl_request f.
Proof.
  destruct r as [r|]; [|exists w; split_and!; try done; intros n f Hf; by exists f].
  eexists. split; [reflexivity|]. split_and!; try done. intros n f Hf. simpl.
  destruct (decide (n = r)) as [->|]; [rewrite lookup_alter_eq, Hf|rewrite lookup_alter_ne, Hf by done]; by eexists.
Qed.

Lemma slack_delete_user_run u x s w : slack_ok w → sl_users w !! u = Some x → m_session x = Some s →
  ∃ w', delete_user u w = Done tt w' ∧ sl_sessions w' !! s = None
  ∧ ∀ n f, sl_flights w !! n = Some f → ∃ f', sl_flights w' !! n = Some f' ∧ fl_session f' = fl_session f ∧ fl_request f' = fl_request f.
Proof.
  intros Hok Hx Hs. destruct (user_session _ _ _ _ Hok Hx Hs) as (o & Ho & Hu).
  unfold delete_user, load_user. rewrite !bind_run. cbn [get]. rewrite Hx. cbn [deref mret prog_ret]. rewrite Hs, bind_run.
  unfold delete_session, load. rewrite !bind_run. cbn [get]. rewrite Ho. cbn [deref mret prog_ret].
  rewrite bind_run. cbn [modify]. rewrite bind_run.
  destruct (forget_run (q_req (rtm_queue (m_rtm o))) (with_sessions (delete s) w)) as (w1 & -> & E1 & _ & _ & F1).
  destruct (forget_run (q_req (api_queue o)) w1) as (w2 & -> & E2 & _ & _ & F2).
  rewrite bind_run. cbn [modify]. eexists. split; [reflexivity|]. split.
  - simpl. rewrite E2, E1. simpl. by rewrite lookup_delete_eq.
  - intros n f Hf. destruct (F1 n f Hf) as (f1 & Hf1 & ? & ?). destruct (F2 n f1 Hf1) as (f2 & Hf2 & ? & ?).
    exists f2. split_and!; [done|congruence..].
Qed.

(** deleting a user does not stop the requests of its session. A request for the
    real-time connection that is on its way when its user is deleted still calls the
    session it came from: an answer with an address and a name, the good case, is
    written into freed memory. *)
Theorem late_answer u x s r f resp url self name w :
  slack_ok w → sl_users w !! u = Some x → m_session x = Some s →
  sl_flights w !! r = Some f → fl_session f = s → hr_callback (fl_request f) = HandleRTMStart →
  (member resp "error" : slack Json) = mret JNull → (member resp "url" : slack Json) = mret (JString url) →
  (member resp "self" : slack Json) = mret (JObject self) →
  (member (JObject self) "name" : slack Json) = mret (JString name) →
  ∃ w', react component to_lower locale_to_lower (UserDeleted u) w = Done tt w'
    ∧ react component to_lower locale_to_lower (Finalize r true resp) w' = Fault UseAfterFree.
Proof.
  intros Hok Hx Hs Hf Ef Ecb E1 E2 E3 E4. simpl. destruct (slack_delete_user_run u x s w Hok Hx Hs) as (w' & -> & Hgone & Hfl).
  exists w'. split; [done|]. destruct (Hfl r f Hf) as (f' & Hf' & Es & Er).
  unfold finalize. rewrite bind_run. cbn [get]. rewrite Hf', bind_run, Es, Er, Ecb, Ef.
  cbn [run_callback]. unfold handleRTMStart, with_string, store_string_optional, store_string. cbn [negb].
  rewrite E1, !bind_run. cbn [mret prog_ret as_string default String.eqb].
  rewrite E2, !bind_run. cbn [mret prog_ret as_string].
  rewrite E3, bind_run. cbn [mret prog_ret isObject negb].
  rewrite E4, !bind_run. cbn [mret prog_ret as_string].
  unfold store, load. rewrite !bind_run. cbn [get]. by rewrite Hgone.
Qed.

(** nor does it stop what its WebSocket has begun: whatever the name resolver or a
    connection tells the client afterwards is handled in freed memory. *)
Theorem late_connection u x s e w :
  slack_ok w → sl_users w !! u = Some x → m_session x = Some s →
  ∃ w', react component to_lower locale_to_lower (UserDeleted u) w = Done tt w'
    ∧ react component to_lower locale_to_lower (Client s e) w' = Fault UseAfterFree.
Proof.
  intros Hok Hx Hs. simpl. destruct (slack_delete_user_run u x s w Hok Hx Hs) as (w' & -> & Hgone & _).
  exists w'. split; [done|]. unfold client_input, load. rewrite !bind_run. cbn [get]. by rewrite Hgone.
Qed.

(** the command that joins a room stops the gateway. Whenever a user with a session
    executes join_room with the arguments the command asks for, of which there are
    four, handleJoinMessage reads the sixth. *)
Theorem join_room_stops u x s args w :
  sl_users w !! u = Some x → m_session x = Some s → (length args ≤ 5)%nat →
  react component to_lower locale_to_lower (JoinRoom u args) w = Fault OutOfRange.
Proof.
  intros Hx Hs Hlen. simpl. unfold getSession, load_user. rewrite !bind_run. cbn [get]. rewrite Hx.
  cbn [deref mret prog_ret]. rewrite Hs. cbn [mret prog_ret]. unfold handleJoinMessage, at_index.
  by rewrite lookup_ge_None_2.
Qed.
End owners.

(** ** A user whose account is in a database *)

#[local] Existing Instance SqliteTheorems.obedient_engine.
#[local] Existing Instance RegistrationTheorems.sqlite_accounts.

(** No text is JSON. *)
#[local] Instance no_reader : JsonReader := λ _, None.

Definition carol : ref_jid := mkRefJid "carol" "localhost" "".
Definition gateway : ref_jid := mkRefJid "" "gw" "".
Definition same (s : string) : string := s.

Definition run (i : slack_input (J := ref_jid)) (w : Slack ref_jid Sqlite.Database) : Slack ref_jid Sqlite.Database :=
  match react gateway same same i w with Done _ w' => w' | Fault _ => w end.

Definition called : Slack ref_jid Sqlite.Database := run (Reconnect "carol@localhost") (initial SqliteTheorems.carol_stored).
Definition arrived : Slack ref_jid Sqlite.Database := run (NewUser 0 carol) called.

Lemma carol_arrives :
  react gateway same same (NewUser 0 carol) called = Done tt arrived ∧ m_session <$> sl_users arrived !! 0 = Some (Some 0)
  ∧ (hr_callback ∘ fl_request) <$> sl_flights arrived !! 0 = Some HandleRTMStart.
Proof. split_and!; vm_compute; reflexivity. Qed.

Lemma run_ok i w : slack_ok w → enabled i w → ¬ late i w → slack_ok (run i w).
Proof.
  intros Hok Hen Hi. assert (F := slack_react_ok gateway same same i w Hok Hen). unfold stays in F. unfold run.
  destruct (react _ _ _ i w) as [[] w'|]; [|done]. by apply F.
Qed.

Lemma called_ok : slack_ok called.
Proof. apply run_ok; [apply initial_ok|done|]. intros [(? & ? & ? & ? & ?)|(? & ? & ? & ?)]; done. Qed.

Lemma arrived_ok : slack_ok arrived.
Proof. apply run_ok; [exact called_ok|vm_compute; reflexivity|]. intros [(? & ? & ? & ? & ?)|(? & ? & ? & ?)]; done. Qed.

Lemma slack_sound_witness : slack_ok (run (UserDeleted 0) arrived).
Proof.
  pose proof (proj2 (slack_sound (St := Sqlite.Database) gateway same same) (UserDeleted 0) arrived arrived_ok
    (ltac:(vm_compute; by eexists))) as F.
  assert (E : ∃ w, react gateway same same (UserDeleted 0) arrived = Done tt w) by (eexists; vm_compute; reflexivity).
  unfold run. destruct E as [w E]. rewrite E in F |- *. exact F.
Defined.

(** What a server says that lets a user in. *)
Definition hello : Json :=
  JObject [("url", JString "wss://host/path"); ("self", JObject [("name", JString "bot"); ("id", JString "U1")])]%string.

Lemma late_answer_witness :
  ∃ w, react gateway same same (UserDeleted 0) arrived = Done tt w
    ∧ react gateway same same (Finalize 0 true hello) w = Fault UseAfterFree.
Proof.
  eapply (late_answer (St := Sqlite.Database) gateway same same 0 _ 0 0 _ hello); try (vm_compute; reflexivity).
  exact arrived_ok.
Defined.

Lemma join_room_stops_witness :
  react gateway same same (JoinRoom 0 ["nick"; "room"; "server"; "#channel"]%string) arrived = Fault OutOfRange.
Proof. eapply (join_room_stops (St := Sqlite.Database)); try (vm_compute; reflexivity). simpl. lia. Defined.
