(* ===== verification/SlackMessages.v ===== *)
(** * Slack: requests, rooms and tokens

    Requests leave a queue in order; what links a room to a channel, and what a user
    that comes back finds again. *)

From S2P Require Import Prelude StdMap Swiften Codecs Text SlackApi Slack.
From S2P Require Pool UserManager Registration Names WebSocket AdminTheorems.
From S2P Require Sqlite SqliteTheorems RegistrationTheorems SlackTheorems.

#[local] Existing Instance Registration.as_users.

Section messages.
Context {J St : Type} `{Jid J} `{Registration.AccountStorage St} `{JsonReader} `{Split}.
Context (component : J) (to_lower locale_to_lower : string → string).

Abbreviation slack A := (prog (Slack J St) A).
Implicit Types (w : Slack J St) (o : SlackSession) (s : sess).

(** ** Running an operation on a session *)

Lemma slack_load_run s o w : sl_sessions w !! s = Some o → load s w = Done o w.
Proof. intros Ho. unfold load. rewrite bind_run. cbn [get]. by rewrite Ho. Qed.

Lemma slack_store_run s o f w : sl_sessions w !! s = Some o → store s f w = Done tt (with_sessions <[s := f o]> w).
Proof. intros Ho. unfold store. by rewrite (bind_done _ _ _ _ _ (slack_load_run s o w Ho)). Qed.

Lemma new_request_run url callback w :
  new_request url callback w
  = Done (mkHTTPRequest (sl_next_request w) url callback) (with_next_request (S (sl_next_request w)) w).
Proof. done. Qed.

Lemma updated_lookup s o w : sl_sessions (with_sessions <[s := o]> w) !! s = Some o.
Proof. apply lookup_insert_eq. Qed.

(** ** Queues *)

Inductive queue_op :=
  | Queue (url : string) (callback : http_callback)
  | Tick
  | Finished.

Definition run_op s (a : api) (op : queue_op) : slack unit :=
  match op with
  | Queue url callback => queueRequest s a url callback
  | Tick => sendNextRequest s a
  | Finished => handleRequestFinished s a
  end.

Definition queued (op : queue_op) : list string := match op with Queue url _ => [url] | _ => [] end.

Lemma queue_of_update a f o : queue_of a (update_queue a f o) = f (queue_of a o).
Proof. by destruct a. Qed.

(** What is executed and what waits, in order. *)
Definition waiting (a : api) o : list string := hr_url <$> q_queue (queue_of a o).

Definition asked (l : list string) s o w w' : Prop :=
  sl_out w' = sl_out w ++ map Requested l ∧ sl_sessions w' !! s = Some o.

Lemma sendNextRequest_asked s a o w : sl_sessions w !! s = Some o →
  ∃ w' l o', sendNextRequest s a w = Done tt w' ∧ asked l s o' w w' ∧ l ++ waiting a o' = waiting a o.
Proof.
  intros Ho. unfold sendNextRequest. rewrite (bind_done _ _ _ _ _ (slack_load_run s o w Ho)).
  destruct (q_queue (queue_of a o)) as [|r rest] eqn:Eq.
  - rewrite (slack_store_run s o _ w Ho). eexists _, [], _. split; [reflexivity|]. split.
    + split; [by rewrite app_nil_r|apply updated_lookup].
    + unfold waiting. rewrite queue_of_update. simpl. by rewrite Eq.
  - destruct (q_req (queue_of a o)); [exists w, [], o; split; [done|]; by split; [split; [simpl; rewrite app_nil_r|]|]|].
    rewrite (bind_done _ _ _ _ _ (slack_store_run s o _ w Ho)). eexists _, [hr_url r], _. split; [reflexivity|]. split.
    + split; [reflexivity|apply updated_lookup].
    + unfold waiting. rewrite queue_of_update. simpl. by rewrite Eq.
Qed.

Lemma run_op_asked s a op o w : sl_sessions w !! s = Some o →
  ∃ w' l o', run_op s a op w = Done tt w' ∧ asked l s o' w w' ∧ l ++ waiting a o' = waiting a o ++ queued op.
Proof.
  intros Ho. destruct op as [url callback| |]; simpl.
  - unfold queueRequest. rewrite (bind_done _ _ _ _ _ (new_request_run url callback w)).
    set (r := mkHTTPRequest _ url callback). set (w1 := with_next_request _ w).
    assert (Ho1 : sl_sessions w1 !! s = Some o) by done. rewrite (bind_done _ _ _ _ _ (slack_store_run s o _ w1 Ho1)).
    set (o2 := update_queue a (set_queue (λ l, l ++ [r])) o). set (w2 := with_sessions _ w1).
    assert (Ho2 : sl_sessions w2 !! s = Some o2) by apply updated_lookup.
    rewrite (bind_done _ _ _ _ _ (slack_load_run s o2 w2 Ho2)).
    assert (Ew : waiting a o2 = waiting a o ++ [url]) by (unfold waiting, o2; rewrite queue_of_update; simpl; by rewrite fmap_app).
    destruct (q_req (queue_of a o2)); [exists w2, [], o2; split; [done|]; by split; [split; [simpl; rewrite app_nil_r|]|]|].
    destruct (sendNextRequest_asked s a o2 w2 Ho2) as (w' & l & o' & E & [Eout Hs] & Ew'). exists w', l, o'.
    split; [done|]. split; [by split; [rewrite Eout|]|]. by rewrite Ew'.
  - rewrite app_nil_r. by apply sendNextRequest_asked.
  - unfold handleRequestFinished. rewrite (slack_store_run s o _ w Ho). eexists _, [], _. split; [reflexivity|]. split.
    + split; [by rewrite app_nil_r|apply updated_lookup].
    + unfold waiting. rewrite queue_of_update, app_nil_r. done.
Qed.

(** C33: requests to Slack leave in order. Whatever is queued, whenever the timer fires
    and whenever requests finish, nothing stops, and what was executed followed by what
    still waits is what waited before followed by what was queued: no request is lost,
    sent twice or overtaken. *)
Theorem requests_in_order ops s a o w : sl_sessions w !! s = Some o →
  ∃ w' l o', for_each ops (run_op s a) w = Done tt w'
    ∧ sl_out w' = sl_out w ++ map Requested l ∧ sl_sessions w' !! s = Some o'
    ∧ l ++ waiting a o' = waiting a o ++ concat (map queued ops).
Proof.
  revert o w. induction ops as [|op ops IH]; intros o w Ho; simpl.
  { exists w, [], o. by rewrite !app_nil_r. }
  destruct (run_op_asked s a op o w Ho) as (w1 & l1 & o1 & E1 & [Eout1 Ho1] & Ew1).
  destruct (IH o1 w1 Ho1) as (w2 & l2 & o2 & E2 & Eout2 & Ho2 & Ew2).
  exists w2, (l1 ++ l2), o2. rewrite (bind_done _ _ _ _ _ E1). split_and!; [done| |done|].
  - by rewrite Eout2, Eout1, map_app, app_assoc.
  - by rewrite <- app_assoc, Ew2, app_assoc, Ew1, <- app_assoc.
Qed.

(** A request to a queue that waits for none is executed at once. *)
Lemma queueRequest_idle s a o url callback w :
  sl_sessions w !! s = Some o → q_queue (queue_of a o) = [] → q_req (queue_of a o) = None →
  ∃ w' o', queueRequest s a url callback w = Done tt w' ∧ sl_sessions w' !! s = Some o'
    ∧ queue_of a o' = mkQueue [] (Some (sl_next_request w)) (q_timer (queue_of a o))
    ∧ sl_flights w' = <[sl_next_request w := mkFlight s (Some a) (mkHTTPRequest (sl_next_request w) url callback)]> (sl_flights w)
    ∧ sl_next_request w' = S (sl_next_request w).
Proof.
  intros Ho Hq Hr. unfold queueRequest. rewrite (bind_done _ _ _ _ _ (new_request_run url callback w)).
  set (r := mkHTTPRequest _ url callback). set (w1 := with_next_request _ w).
  assert (Ho1 : sl_sessions w1 !! s = Some o) by done. rewrite (bind_done _ _ _ _ _ (slack_store_run s o _ w1 Ho1)).
  set (o2 := update_queue a (set_queue (λ l, l ++ [r])) o). set (w2 := with_sessions _ w1).
  assert (Ho2 : sl_sessions w2 !! s = Some o2) by apply updated_lookup.
  assert (Eq : queue_of a o2 = mkQueue [r] None (q_timer (queue_of a o))).
  { unfold o2. rewrite queue_of_update. unfold set_queue. by rewrite Hq, Hr. }
  rewrite (bind_done _ _ _ _ _ (slack_load_run s o2 w2 Ho2)), Eq. cbn [q_req].
  unfold sendNextRequest. rewrite (bind_done _ _ _ _ _ (slack_load_run s o2 w2 Ho2)), Eq. cbn [q_queue q_req].
  rewrite (bind_done _ _ _ _ _ (slack_store_run s o2 _ w2 Ho2)). eexists _, _. split; [reflexivity|].
  split; [apply updated_lookup|]. split; [|done]. rewrite queue_of_update, Eq. done.
Qed.

(** but not one at a time. The timer that a finished request has started forgets the
    request that was queued and executed in the meantime, and the next one is executed
    while that one is still on its way. *)
Theorem two_requests_at_once s a o url callback url' callback' w :
  sl_sessions w !! s = Some o → queue_of a o = mkQueue [] None true →
  let r := mkHTTPRequest (sl_next_request w) url callback in
  let r' := mkHTTPRequest (S (sl_next_request w)) url' callback' in
  ∃ w', (queueRequest s a url callback ;; sendNextRequest s a ;; queueRequest s a url' callback') w = Done tt w'
    ∧ sl_flights w' !! hr_id r = Some (mkFlight s (Some a) r)
    ∧ sl_flights w' !! hr_id r' = Some (mkFlight s (Some a) r').
Proof.
  intros Ho Hq r r'.
  destruct (queueRequest_idle s a o url callback w Ho) as (w1 & o1 & E1 & Ho1 & Eq1 & Ef1 & En1); [by rewrite Hq..|].
  rewrite (bind_done _ _ _ _ _ E1).
  assert (E2 : sendNextRequest s a w1 = Done tt (with_sessions <[s := update_queue a (λ q, set_timer false (set_req None q)) o1]> w1)).
  { unfold sendNextRequest. rewrite (bind_done _ _ _ _ _ (slack_load_run s o1 w1 Ho1)), Eq1. cbn [q_queue]. by apply slack_store_run. }
  rewrite (bind_done _ _ _ _ _ E2). set (w2 := with_sessions _ w1).
  destruct (queueRequest_idle s a (update_queue a (λ q, set_timer false (set_req None q)) o1) url' callback' w2)
    as (w3 & o3 & E3 & _ & _ & Ef3 & _); [apply updated_lookup|by rewrite queue_of_update, Eq1..|].
  exists w3. split; [done|]. rewrite Ef3. change (sl_next_request w2) with (sl_next_request w1).
  change (sl_flights w2) with (sl_flights w1). rewrite En1, Ef1. split; [|apply lookup_insert_eq].
  rewrite lookup_insert_ne by (simpl; lia). apply lookup_insert_eq.
Qed.
(** ** Rooms *)

Lemma same_state s o w : sl_sessions w !! s = Some o → with_sessions <[s := o]> w = w.
Proof. intros Ho. destruct w. unfold with_sessions. simpl in *. by rewrite insert_id. Qed.

Lemma store_same s o f w : sl_sessions w !! s = Some o → f o = o → store s f w = Done tt w.
Proof. intros Ho Hf. by rewrite (slack_store_run s o f w Ho), Hf, same_state. Qed.

Lemma jid2channel_known s o key channel l w : sl_sessions w !! s = Some o → m_jid2channel o = sinsert key channel l →
  jid2channel s key w = Done channel w.
Proof.
  intros Ho Hk. unfold jid2channel. rewrite (bind_done _ _ _ _ _ (slack_load_run s o w Ho)), Hk, sfind_sinsert_eq.
  rewrite bind_run, (store_same s o); [done..|]. unfold set_jid2channel. rewrite Hk. cbn [default from_option id]. rewrite sinsert_again, <- Hk. by destruct o.
Qed.

Lemma channel2jid_known s o key jid l w : sl_sessions w !! s = Some o → m_channel2jid o = sinsert key jid l →
  channel2jid s key w = Done jid w.
Proof.
  intros Ho Hk. unfold channel2jid. rewrite (bind_done _ _ _ _ _ (slack_load_run s o w Ho)), Hk, sfind_sinsert_eq.
  rewrite bind_run, (store_same s o); [done..|]. unfold set_channel2jid. rewrite Hk. cbn [default from_option id]. rewrite sinsert_again, <- Hk. by destruct o.
Qed.

(** The JID of a room, the text handleJoinRoomCreated makes of the arguments. *)
Definition room_jid (room server : string) : string := (room +:+ "%" +:+ server +:+ "@" +:+ toString component)%string.

(** The session and the gateway once the room is there. *)
Definition linked (to channelId : string) o : SlackSession :=
  set_buddiesTimer true (set_channel2jid (sinsert channelId to) (set_jid2channel (sinsert to channelId) o)).
Definition joined (to name channelId : string) s o w : Slack J St :=
  with_sessions <[s := linked to channelId o]>
    (with_out (λ l, l ++ [PresenceReceived (room_presence o (jid_of_string (to +:+ "/" +:+ name)) Available)]) w).

Lemma joined_lookup to name channelId s o w : sl_sessions (joined to name channelId s o w) !! s = Some (linked to channelId o).
Proof. apply updated_lookup. Qed.

Lemma at_index_run args i x w : args !! i = Some x → at_index args i w = Done x w.
Proof. intros E. unfold at_index. by rewrite E. Qed.

Lemma handleJoinRoomCreated_run s o channelId args name room server w :
  sl_sessions w !! s = Some o → is_Some (args !! 5) → args !! 2 = Some name → args !! 3 = Some room → args !! 4 = Some server →
  handleJoinRoomCreated component s channelId args w = Done tt (joined (room_jid room server) name channelId s o w).
Proof.
  intros Ho [x E5] E2 E3 E4. unfold handleJoinRoomCreated.
  rewrite (bind_done _ _ _ _ _ (at_index_run _ _ _ w E5)), (bind_done _ _ _ _ _ (at_index_run _ _ _ w E2)),
    (bind_done _ _ _ _ _ (at_index_run _ _ _ w E3)), (bind_done _ _ _ _ _ (at_index_run _ _ _ w E4)).
  fold (room_jid room server). set (to := room_jid room server).
  rewrite (bind_done _ _ _ _ _ (slack_store_run s o _ w Ho)).
  rewrite (bind_done _ _ _ _ _ (slack_store_run s _ _ _ (updated_lookup s _ w))).
  rewrite (bind_done _ _ _ _ _ (slack_load_run s _ _ (updated_lookup s _ _))).
  rewrite bind_run. cbn [emit modify]. erewrite slack_store_run by apply updated_lookup.
  unfold joined, linked. f_equal. destruct w. unfold with_sessions, with_out. simpl. by rewrite !insert_insert_eq.
Qed.
Lemma room_jid_not_empty room server : String.eqb (room_jid room server) "" = false.
Proof. unfold room_jid. by destruct room. Qed.

Lemma not_own_message s o m w : (∀ u, m_user o = Some u → ∃ v, sl_views w !! u = Some v ∧ has_nickname (getResource (m_from m)) v = false) →
  (match m_user o with
   | Some u => v ← view u; mret (has_nickname (getResource (m_from m)) v)
   | None => mret false
   end : slack bool) w = Done false w.
Proof.
  destruct (m_user o) as [u|]; [|done]. intros Hv. destruct (Hv u eq_refl) as (v & Hu & E).
  unfold view. rewrite !bind_run. cbn [get]. rewrite Hu. cbn [deref mret prog_ret]. by rewrite E.
Qed.

(** a room and its channel are linked both ways. Once the channel of a room is there,
    what is said in the room, except by the user's own nickname, is posted to that
    channel under the name of the speaker, and what others say in that channel is said
    by the user in that room. *)
Theorem room_linked s o channelId args name room server w :
  sl_sessions w !! s = Some o → is_Some (args !! 5) → args !! 2 = Some name → args !! 3 = Some room → args !! 4 = Some server →
  channelId ≠ ""%string →
  let to := room_jid room server in
  ∃ w', handleJoinRoomCreated component s channelId args w = Done tt w'
    ∧ (∀ m, toString (toBare (m_from m)) = to →
        (∀ u, m_user o = Some u → ∃ v, sl_views w !! u = Some v ∧ has_nickname (getResource (m_from m)) v = false) →
        session_sendMessage locale_to_lower s m w'
        = queueRequest s RtmApi (sendMessage_url (m_token (m_rtm o)) (getResource (m_from m)) channelId (m_body m)) HandleSendMessage w')
    ∧ (∀ user text, getName (m_idManager o) user ≠ m_selfName (m_idManager o) →
        handleMessageReceived s channelId user text w'
        = Done tt (with_out (λ l, l ++ [MessageReceived (mkMessage (jid_of_string (Pool.ui_jid (m_uinfo o) +:+ "/default")) (jid_of_string to)
            Groupchat ("<" +:+ getName (m_idManager o) user +:+ "> " +:+ text)%string "" [])]) w')).
Proof.
  intros Ho E5 E2 E3 E4 Hc to. eexists. split; [by eapply handleJoinRoomCreated_run|]. fold to.
  pose proof (joined_lookup to name channelId s o w) as Ho'. set (w' := joined to name channelId s o w) in *.
  split.
  - intros m Hm Hown. unfold session_sendMessage. rewrite (bind_done _ _ _ _ _ (slack_load_run s _ w' Ho')).
    rewrite (bind_done _ _ _ _ _ (not_own_message s (linked to channelId o) m w' Hown)). rewrite Hm.
    rewrite (bind_done _ _ _ _ _ (jid2channel_known s _ to channelId (m_jid2channel o) w' Ho' eq_refl)).
    apply String.eqb_neq in Hc. rewrite Hc. cbn [negb].
    unfold sendMessage. by rewrite (bind_done _ _ _ _ _ (slack_load_run s _ w' Ho')).
  - intros user text Hn. unfold handleMessageReceived.
    rewrite (bind_done _ _ _ _ _ (channel2jid_known s _ channelId to (m_channel2jid o) w' Ho' eq_refl)).
    rewrite (bind_done _ _ _ _ _ (slack_load_run s _ w' Ho')).
    assert (Ht : String.eqb to "" = false) by apply room_jid_not_empty. apply String.eqb_neq in Hn. cbn zeta.
    rewrite Ht. change (m_idManager (linked to channelId o)) with (m_idManager o). rewrite Hn. done.
Qed.
(** ** Rooms that are stored *)

Abbreviation Room := AdminTheorems.Room.

Definition stored_jid (r : Room) : string := room_jid (to_lower (AdminTheorems.r_room r)) (to_lower (AdminTheorems.r_server r)).
Definition channel_id o (r : Room) : string := getId (m_idManager o) (without_hash (AdminTheorems.r_channel r)).

(** Slack knows the channel, and the bot is in it. *)
Definition channel_open o (r : Room) : Prop :=
  channel_id o r ≠ without_hash (AdminTheorems.r_channel r)
  ∧ hasMember (m_idManager o) (channel_id o r) (m_selfId (m_idManager o)) = true.

Definition join_all (l : list Room) s o w : SlackSession * Slack J St :=
  foldl (λ '(o, w) r,
    (linked (stored_jid r) (channel_id o r) o, joined (stored_jid r) (AdminTheorems.r_nickname r) (channel_id o r) s o w)) (o, w) l.

Lemma join_stored_run `{!SplitLaws} r s o w :
  sl_sessions w !! s = Some o → AdminTheorems.room_ok r → channel_open o r →
  join_stored component to_lower s (AdminTheorems.room_line r) w
  = Done tt (joined (stored_jid r) (AdminTheorems.r_nickname r) (channel_id o r) s o w).
Proof.
  intros Ho Hr [Hn Hm]. unfold join_stored.
  assert (Hlen : (5 <? String.length (AdminTheorems.room_line r))%nat = true) by done.
  rewrite Hlen, AdminTheorems.room_line_words by done. unfold AdminTheorems.args_of, handleJoinMessage.
  erewrite (bind_done (at_index _ 5)) by (apply at_index_run; reflexivity). cbn [insert list_insert].
  erewrite (bind_done (at_index _ 3)) by (apply at_index_run; reflexivity). cbn [insert list_insert].
  erewrite (bind_done (at_index _ 4)) by (apply at_index_run; reflexivity). cbn [insert list_insert].
  rewrite (bind_done _ _ _ _ _ (slack_load_run s o w Ho)). unfold createChannel.
  rewrite (bind_done _ _ _ _ _ (slack_load_run s o w Ho)). fold (channel_id o r).
  assert (Hb : String.eqb (channel_id o r) (without_hash (AdminTheorems.r_channel r)) = false) by by apply String.eqb_neq.
  rewrite Hb, Hm. cbn [negb run_created]. by eapply handleJoinRoomCreated_run.
Qed.

Lemma join_all_run `{!SplitLaws} l s o w :
  sl_sessions w !! s = Some o → Forall AdminTheorems.room_ok l → Forall (channel_open o) l →
  for_each (map AdminTheorems.room_line l) (join_stored component to_lower s) w = Done tt (snd (join_all l s o w))
  ∧ sl_sessions (snd (join_all l s o w)) !! s = Some (fst (join_all l s o w)).
Proof.
  revert o w. induction l as [|r l IH]; intros o w Ho Hl Hc; [done|].
  apply Forall_cons in Hl as [Hr Hl]. apply Forall_cons in Hc as [Hcr Hc]. simpl.
  rewrite (bind_done _ _ _ _ _ (join_stored_run r s o w Ho Hr Hcr)).
  apply (IH (linked (stored_jid r) (channel_id o r) o)); [apply joined_lookup|done|exact Hc].
Qed.

(** What the rooms add to the maps, and the presences they are entered with. *)
Lemma join_all_maps l s o w :
  let o' := fst (join_all l s o w) in
  m_jid2channel o' = foldl (λ m r, sinsert (stored_jid r) (channel_id o r) m) (m_jid2channel o) l
  ∧ m_channel2jid o' = foldl (λ m r, sinsert (channel_id o r) (stored_jid r) m) (m_channel2jid o) l
  ∧ sl_out (snd (join_all l s o w)) = sl_out w ++ map (λ r,
      PresenceReceived (room_presence o (jid_of_string (stored_jid r +:+ "/" +:+ AdminTheorems.r_nickname r)%string) Available)) l.
Proof.
  revert o w. induction l as [|r l IH]; intros o w; simpl; [by rewrite app_nil_r|].
  destruct (IH (linked (stored_jid r) (channel_id o r) o) (joined (stored_jid r) (AdminTheorems.r_nickname r) (channel_id o r) s o w))
    as (E1 & E2 & E3).
  split_and!; [exact E1|exact E2|]. etransitivity; [exact E3|]. simpl. by rewrite <- app_assoc.
Qed.

(** rooms survive. The text of rooms that join_room keeps in the database is read
    back when the connection to Slack starts: each room it names, in order, is entered
    with its nickname and linked to its channel, when Slack knows those channels and the
    bot is in them. *)
Theorem rooms_rejoined `{!SplitLaws} l s o st st' w :
  sl_sessions w !! s = Some o → Forall AdminTheorems.room_ok l → Forall (channel_open o) l →
  UserManager.db_getUserSetting (Pool.ui_id (m_uinfo o)) "rooms" TYPE_STRING "" (sl_storage w) = (AdminTheorems.rooms_text l, st) →
  UserManager.db_getUserSetting (Pool.ui_id (m_uinfo o)) "slack_channel" TYPE_STRING (m_slackChannel o) st = (""%string, st') →
  ∃ w' o', handleRTMStarted component to_lower s w = Done tt w'
    ∧ sl_sessions w' !! s = Some o'
    ∧ m_jid2channel o' = foldl (λ m r, sinsert (stored_jid r) (channel_id o r) m) (m_jid2channel o) l
    ∧ m_channel2jid o' = foldl (λ m r, sinsert (channel_id o r) (stored_jid r) m) (m_channel2jid o) l
    ∧ sl_out w' = sl_out w ++ map (λ r,
        PresenceReceived (room_presence o (jid_of_string (stored_jid r +:+ "/" +:+ AdminTheorems.r_nickname r)%string) Available)) l.
Proof.
  intros Ho Hl Hc E1 E2. set (w1 := with_storage st w). set (w2 := with_storage st' w1).
  set (o1 := set_slackChannel "" o). set (w3 := with_sessions <[s := o1]> w2).
  assert (Ho3 : sl_sessions w3 !! s = Some o1) by apply updated_lookup.
  exists (snd (join_all l s o1 w3)), (fst (join_all l s o1 w3)).
  destruct (join_all_run l s o1 w3 Ho3 Hl Hc) as [Erun Es]. destruct (join_all_maps l s o1 w3) as (M1 & M2 & M3).
  split_and!; [|exact Es|exact M1|exact M2|exact M3].
  unfold handleRTMStarted. rewrite (bind_done _ _ _ _ _ (slack_load_run s o w Ho)).
  assert (S1 : storage_getUserSetting (Pool.ui_id (m_uinfo o)) "rooms" TYPE_STRING "" w = Done (AdminTheorems.rooms_text l) w1)
    by (unfold storage_getUserSetting; rewrite bind_run; cbn [get]; by rewrite E1).
  assert (S2 : storage_getUserSetting (Pool.ui_id (m_uinfo o)) "slack_channel" TYPE_STRING (m_slackChannel o) w1 = Done ""%string w2)
    by (unfold storage_getUserSetting; rewrite bind_run; cbn [get]; change (sl_storage w1) with st; by rewrite E2).
  rewrite (bind_done _ _ _ _ _ S1), (bind_done _ _ _ _ _ S2).
  assert (Ho2 : sl_sessions w2 !! s = Some o) by done.
  rewrite (bind_done _ _ _ _ _ (slack_store_run s o _ w2 Ho2)). fold o1 w3. rewrite bind_run. cbn [String.eqb negb when mret prog_ret].
  destruct l as [|r l]; [done|]. rewrite AdminTheorems.rooms_lines by done.
  assert (Et : String.eqb (AdminTheorems.rooms_text (r :: l)) "" = false) by done. rewrite Et. cbn [negb when].
  rewrite for_each_app, (bind_done _ _ _ _ _ Erun). done.
Qed.
End messages.

(** ** Tokens *)

(** A text a C string holds. *)
Definition plain (s : string) : Prop := ¬ has "000" s.

(** What the storage does with the settings of a user: one that is there is answered, one
    that is not is made from the answer asked for, and the rest stays. *)
Class SettingLaws (St : Type) `{UserManager.StorageBackend St} := {
  setting_of : Z → string → St → option string;
  setting_kept id variable type value st old :
    setting_of id variable st = Some old → UserManager.db_getUserSetting id variable type value st = (old, st);
  setting_made id variable type value st :
    setting_of id variable st = None → plain value →
    ∃ st', UserManager.db_getUserSetting id variable type value st = (value, st')
      ∧ setting_of id variable st' = Some value
      ∧ (∀ other, plain variable → plain other → other ≠ variable → setting_of id other st' = setting_of id other st)
      ∧ ∀ jid, UserManager.db_getUser jid st' = UserManager.db_getUser jid st;
  setUser_settings id variable row st : setting_of id variable (UserManager.db_setUser row st) = setting_of id variable st;
}.

Section tokens.
Context {J St : Type} `{Jid J} `{Registration.AccountStorage St} `{!SettingLaws St} `{JsonReader} `{Split}.
Context (component : J) (to_lower locale_to_lower : string → string).

Abbreviation slack A := (prog (Slack J St) A).
Implicit Types (w : Slack J St).

(** The setting afterwards, and the rest. *)
Lemma getUserSetting_stores id variable type value w : plain variable → plain value →
  ∃ st, storage_getUserSetting id variable type value w
      = Done (default value (setting_of id variable (sl_storage w))) (with_storage st w)
    ∧ setting_of id variable st = Some (default value (setting_of id variable (sl_storage w)))
    ∧ (∀ other, plain other → other ≠ variable → setting_of id other st = setting_of id other (sl_storage w))
    ∧ ∀ jid, UserManager.db_getUser jid st = UserManager.db_getUser jid (sl_storage w).
Proof.
  intros Hv Hx. unfold storage_getUserSetting. rewrite bind_run. cbn [get].
  destruct (setting_of id variable (sl_storage w)) as [old|] eqn:E.
  - rewrite (setting_kept _ _ _ _ _ _ E). exists (sl_storage w). split_and!; [reflexivity|done|done|done].
  - destruct (setting_made id variable type value _ E Hx) as (st & -> & F1 & F2 & F3). exists st.
    split_and!; [reflexivity|done| |done]. intros other Ho Hne. by apply F2.
Qed.
Lemma getUserSetting_kept id variable type value old w : setting_of id variable (sl_storage w) = Some old →
  storage_getUserSetting id variable type value w = Done old (with_storage (sl_storage w) w).
Proof. intros E. unfold storage_getUserSetting. rewrite bind_run. cbn [get]. by rewrite (setting_kept _ _ _ _ _ _ E). Qed.

Lemma rtm_start_run s o w : sl_sessions w !! s = Some o →
  rtm_start s w
  = let r := mkHTTPRequest (sl_next_request w) (start_url (m_token (m_rtm o))) HandleRTMStart in
    Done tt (with_out (λ l, l ++ [Requested (hr_url r)])
      (with_flights <[hr_id r := mkFlight s None r]> (with_next_request (S (sl_next_request w)) w))).
Proof. intros Ho. unfold rtm_start. by rewrite (bind_done _ _ _ _ _ (slack_load_run s o w Ho)). Qed.

Lemma new_session_run info bot token w :
  setting_of (Pool.ui_id info) "bot_token" (sl_storage w) = Some bot →
  setting_of (Pool.ui_id info) "access_token" (sl_storage w) = Some token →
  ∃ w' o, new_session info w = Done (sl_next_session w) w' ∧ sl_sessions w' !! sl_next_session w = Some o
    ∧ api_token o = token ∧ m_token (m_rtm o) = bot ∧ m_uinfo o = info ∧ sl_storage w' = sl_storage w
    ∧ m_tempSessions w' = m_tempSessions w.
Proof.
  intros Eb Et. unfold new_session. rewrite bind_run. cbn [get]. rewrite bind_run. cbn [put].
  rewrite (bind_done _ _ _ _ _ (getUserSetting_kept _ _ _ _ _ (with_next_session (S (sl_next_session w)) w) Eb)).
  rewrite bind_run. cbn [modify]. set (s := sl_next_session w). set (o := mkSlackSession info _ _ _ _ _ _ _ _ _ _ _).
  set (w1 := with_sessions _ _). assert (Ho : sl_sessions w1 !! s = Some o) by apply updated_lookup.
  rewrite (bind_done _ _ _ _ _ (rtm_start_run s o w1 Ho)). set (w2 := with_out _ _).
  assert (Ho2 : sl_sessions w2 !! s = Some o) by exact Ho.
  rewrite (bind_done _ _ _ _ _ (getUserSetting_kept _ _ _ _ _ w2 Et)).
  assert (Ho3 : sl_sessions (with_storage (sl_storage w2) w2) !! s = Some o) by exact Ho.
  rewrite (bind_done _ _ _ _ _ (slack_store_run s o _ _ Ho3)). eexists _, _. split; [reflexivity|].
  split; [apply updated_lookup|]. done.
Qed.

(** the first token counts. When a user registers with a token and Slack confirms it,
    the gateway says so and starts a session for the user; but the tokens are stored by
    asking for a setting with a default, so the session works with those that were
    stored when the user registered before, and with the new one only if there were
    none. *)
Theorem first_token_counts code answer team domain info w :
  plain code → domain ≠ ""%string → (∀ w, getTeamDomain team w = Done domain w) →
  let st := sl_storage w in
  let id := match UserManager.db_getUser domain st with Some info => Pool.ui_id info | None => 0%Z end in
  UserManager.db_getUser domain (UserManager.db_setUser (Pool.mkUserInfo id domain "" "" "en" "" false []) st) = Some info →
  ∃ s w' o, handleOAuth2Code code "use_bot_token" answer team w = Done ("Registered as " +:+ domain)%string w'
    ∧ sfind domain (m_tempSessions w') = Some s ∧ sl_sessions w' !! s = Some o
    ∧ m_token (m_rtm o) = default code (setting_of (Pool.ui_id info) "bot_token" st)
    ∧ api_token o = default code (setting_of (Pool.ui_id info) "access_token" st).
Proof.
  intros Hc Hd Ht st id Hu. unfold handleOAuth2Code, tokens. rewrite String.eqb_refl.
  rewrite bind_run. cbn [mret prog_ret]. rewrite (bind_done _ _ _ _ _ (Ht w)).
  apply String.eqb_neq in Hd as Hd'. rewrite Hd'. rewrite bind_run. cbn [get]. fold st id.
  set (row := Pool.mkUserInfo id domain "" "" "en" "" false []) in *.
  unfold registerUser. rewrite !bind_run. cbn [modify emit].
  set (w1 := with_out _ _). rewrite bind_run. cbn [get]. change (sl_storage w1) with (UserManager.db_setUser row st). rewrite Hu.
  cbn [String.eqb]. rewrite bind_run. cbn [mret prog_ret].
  assert (P1 : plain "bot_token") by (by apply (bool_decide_eq_true_1 _); vm_compute).
  assert (P2 : plain "access_token") by (by apply (bool_decide_eq_true_1 _); vm_compute).
  destruct (getUserSetting_stores (Pool.ui_id info) "bot_token" TYPE_STRING code w1 P1 Hc) as (st2 & E2 & F2 & G2 & U2).
  rewrite (bind_done _ _ _ _ _ E2). set (w2 := with_storage st2 w1) in *.
  destruct (getUserSetting_stores (Pool.ui_id info) "access_token" TYPE_STRING code w2 P2 Hc) as (st3 & E3 & F3 & G3 & U3).
  rewrite (bind_done _ _ _ _ _ E3). set (w3 := with_storage st3 w2) in *. rewrite bind_run. cbn [modify].
  unfold reconnectUser. rewrite !bind_run. cbn [get].
  match goal with |- context [with_auths ?f w3] => set (w4 := with_auths f w3) end.
  assert (Hu4 : UserManager.db_getUser domain (sl_storage w4) = Some info).
  { change (sl_storage w4) with st3. rewrite U3. change (sl_storage w2) with st2. rewrite U2. exact Hu. }
  rewrite Hu4, bind_run.
  assert (Sb : setting_of (Pool.ui_id info) "bot_token" (sl_storage w4) = Some (default code (setting_of (Pool.ui_id info) "bot_token" st))).
  { change (sl_storage w4) with st3. rewrite G3 by done. change (sl_storage w2) with st2. rewrite F2.
    change (sl_storage w1) with (UserManager.db_setUser row st). by rewrite setUser_settings. }
  assert (Sa : setting_of (Pool.ui_id info) "access_token" (sl_storage w4) = Some (default code (setting_of (Pool.ui_id info) "access_token" st))).
  { change (sl_storage w4) with st3. rewrite F3. change (sl_storage w2) with st2. rewrite G2 by done.
    change (sl_storage w1) with (UserManager.db_setUser row st). by rewrite setUser_settings. }
  destruct (new_session_run info _ _ w4 Sb Sa) as (w5 & o & -> & Ho & Ea & Eb & _ & _ & Etmp). cbn [modify].
  exists (sl_next_session w4), (with_tempSessions (sinsert domain (sl_next_session w4)) w5), o.
  split_and!; [reflexivity|apply sfind_sinsert_eq|exact Ho|exact Eb|exact Ea].
Qed.
End tokens.

(** SQLite keeps the laws when it carries its statements out. *)
#[local] Existing Instance Sqlite.Z_key.
#[local] Existing Instance RegistrationTheorems.sqlite_accounts.

Section sqlite.
Context `{Sqlite.SqlEngine} `{Split} (Hreliable : SqliteTheorems.reliable).

Definition sqlite_setting (id : Z) (variable : string) (d : Sqlite.Database) : option string :=
  Sqlite.us_value <$> sfind (to_int id, Sqlite.c_str variable) (Sqlite.t_users_settings d).

Lemma sqlite_getUserSetting id variable type value d :
  UserManager.db_getUserSetting id variable type value d =
  match sqlite_setting id variable d with
  | Some old => (old, d)
  | None => (value, Sqlite.with_users_settings
      (sinsert (to_int id, Sqlite.c_str variable) (Sqlite.mkUsersSettingsRow type (Sqlite.c_str value))) d)
  end.
Proof.
  simpl. unfold Sqlite.getUserSetting, sqlite_setting. rewrite SqliteTheorems.select_all by done.
  destruct (sfind _ _) as [r|] eqn:E; simpl; [done|]. rewrite SqliteTheorems.write_done by done. simpl.
  unfold Sqlite.insert_user_setting. by rewrite E.
Qed.

#[local] Instance sqlite_settings : SettingLaws Sqlite.Database.
Proof.
  refine (Build_SettingLaws _ _ sqlite_setting _ _ _).
  - intros id variable type value d old E. by rewrite sqlite_getUserSetting, E.
  - intros id variable type value d E Hv. rewrite sqlite_getUserSetting, E. eexists. split; [reflexivity|]. split_and!.
    + unfold sqlite_setting. simpl. rewrite sfind_sinsert_eq. simpl. by rewrite SqliteTheorems.c_str_clean.
    + intros other H1 H2 Hne. unfold sqlite_setting. simpl. rewrite sfind_sinsert_ne; [done|].
      rewrite !SqliteTheorems.c_str_clean by done. congruence.
    + intros jid. simpl. unfold Sqlite.getUser. by rewrite !SqliteTheorems.select_all by done.
  - intros id variable row d. simpl. unfold Sqlite.setUser. by rewrite SqliteTheorems.write_done.
Defined.
End sqlite.

(** ** Witnesses *)

#[local] Existing Instance SqliteTheorems.obedient_engine.
#[local] Existing Instance SlackTheorems.no_reader.

Definition obedient : SqliteTheorems.reliable := λ _ _, eq_refl.

(** The session of a user that has arrived. *)
Definition arrived_session : SlackSession :=
  default (mkSlackSession (Pool.mkUserInfo 0 "" "" "" "" "" false []) new_idManager (mkRTM 0 false "" WebSocket.new_websocket new_queue false)
    "" new_queue [] [] "" None false [] false) (sl_sessions SlackTheorems.arrived !! 0).

Lemma arrived_session_there : sl_sessions SlackTheorems.arrived !! 0 = Some arrived_session.
Proof. vm_compute. reflexivity. Qed.

Lemma requests_in_order_witness : ∃ w o,
  for_each [Queue "a" HandleSendMessage; Queue "b" HandleSendMessage; Finished; Tick] (run_op 0 MainApi) SlackTheorems.arrived = Done tt w
  ∧ sl_sessions w !! 0 = Some o.
Proof.
  destruct (requests_in_order [Queue "a" HandleSendMessage; Queue "b" HandleSendMessage; Finished; Tick] 0 MainApi
    arrived_session SlackTheorems.arrived arrived_session_there) as (w & l & o & E & _ & Ho & _).
  exists w, o. split; [exact E|exact Ho].
Defined.

Definition finished : Slack ref_jid Sqlite.Database :=
  with_sessions <[0 := update_queue MainApi (λ q, set_timer true (set_req None q)) arrived_session]> SlackTheorems.arrived.

Lemma two_requests_at_once_witness : ∃ w,
  (queueRequest 0 MainApi "a" HandleSendMessage ;; sendNextRequest 0 MainApi ;; queueRequest 0 MainApi "b" HandleSendMessage) finished
  = Done tt w.
Proof.
  destruct (two_requests_at_once 0 MainApi (update_queue MainApi (λ q, set_timer true (set_req None q)) arrived_session)
    "a" HandleSendMessage "b" HandleSendMessage finished) as (w & E & _); [apply updated_lookup|vm_compute; reflexivity|].
  exists w. exact E.
Defined.

Lemma room_linked_witness : ∃ w,
  handleJoinRoomCreated SlackTheorems.gateway 0 "C1" ["connected"; "room"; "nick"; "room"; "server"; "general"]%string
    SlackTheorems.arrived = Done tt w
  ∧ ∃ o, sl_sessions w !! 0 = Some o.
Proof.
  destruct (room_linked SlackTheorems.gateway SlackTheorems.same 0 arrived_session "C1"
    ["connected"; "room"; "nick"; "room"; "server"; "general"]%string "nick" "room" "server" SlackTheorems.arrived)
    as (w & E & _); [exact arrived_session_there|by eexists|reflexivity..|done|].
  exists w. split; [exact E|]. rewrite (handleJoinRoomCreated_run SlackTheorems.gateway 0 arrived_session "C1" _ "nick" "room" "server") in E;
    [|exact arrived_session_there|by eexists|reflexivity..]. injection E as <-. eexists. apply updated_lookup.
Defined.

(** A session whose bot is in the channel "general", and a database with a room. *)
Definition general : SlackChannelInfo := mkChannelInfo "C1" "general" ["U1"%string].
Definition in_general : SlackSession :=
  set_idManager (λ m, setSelfId "U1" (set_channels [("general"%string, general)] m)) arrived_session.
Definition a_room : AdminTheorems.Room := AdminTheorems.mkRoom "nick" "Room" "server" "#general".
Definition rooms_stored : Sqlite.Database :=
  Sqlite.insert_user_setting 1 "rooms" 13 (AdminTheorems.rooms_text [a_room]) SqliteTheorems.carol_stored.
Definition asked_rooms := UserManager.db_getUserSetting (Pool.ui_id (m_uinfo in_general)) "rooms" TYPE_STRING "" rooms_stored.
Definition asked_channel :=
  UserManager.db_getUserSetting (Pool.ui_id (m_uinfo in_general)) "slack_channel" TYPE_STRING (m_slackChannel in_general) (snd asked_rooms).

Lemma rooms_rejoined_witness : ∃ w,
  handleRTMStarted SlackTheorems.gateway SlackTheorems.same 0
    (with_storage rooms_stored (with_sessions <[0 := in_general]> SlackTheorems.arrived)) = Done tt w
  ∧ length (sl_out w) = S (length (sl_out SlackTheorems.arrived)).
Proof.
  destruct (rooms_rejoined SlackTheorems.gateway SlackTheorems.same [a_room] 0 in_general (snd asked_rooms) (snd asked_channel)
    (with_storage rooms_stored (with_sessions <[0 := in_general]> SlackTheorems.arrived))) as (w & o & E & _ & _ & _ & Eo).
  - apply updated_lookup.
  - repeat constructor; apply (bool_decide_eq_true_1 _); vm_compute; reflexivity.
  - repeat constructor; vm_compute; congruence.
  - vm_compute. reflexivity.
  - vm_compute. reflexivity.
  - exists w. split; [exact E|]. rewrite Eo, length_app. simpl. rewrite Nat.add_comm. reflexivity.
Defined.

Definition confirmed : Json := JObject [("team", JObject [("domain", JString "carol@localhost")])]%string.

Lemma first_token_counts_witness : ∃ w,
  handleOAuth2Code "xoxb" "use_bot_token" (inl ""%string) (Some confirmed) SlackTheorems.arrived = Done "Registered as carol@localhost"%string w
  ∧ ∃ s, sfind "carol@localhost"%string (m_tempSessions w) = Some s.
Proof.
  edestruct (first_token_counts (SettingLaws0 := sqlite_settings obedient) "xoxb" (inl ""%string) (Some confirmed) "carol@localhost" 
    (J := ref_jid) (St := Sqlite.Database)) as (s & w & o & E & Es & _); [..|exists w; split; [exact E|exists s; exact Es]].
  - apply (bool_decide_eq_true_1 _); vm_compute; reflexivity.
  - done.
  - intros w. reflexivity.
  - vm_compute. reflexivity.
Defined.
