(* ===== verification/Config.v ===== *)
(** * Configuration

    Config (protocol/Config.cpp, include/transport/Config.h): the options of a gateway,
    what a configuration file, the command line and a backend set them to, and how the
    other components read them. Parsing a file and storing parsed options are calls of
    Boost, an interface with the laws its documentation states. *)

From S2P Require Import Prelude StdMap Text.

(** ** Options *)

(** boost::any, with the types the code stores in it *)
Inductive value :=
  | Empty
  | VString (s : string)
  | VBool (b : bool)
  | VInt (z : Z)
  (** std::vector and std::list of strings *)
  | VStrings (l : list string)
  | VList (l : list string).

Record variable_value := mkVariable { vv_value : value; vv_defaulted : bool }.

Abbreviation Variables := (smap string variable_value).

(** The type of an option and its default; lists have none. *)
Inductive kind := KString (s : string) | KBool (b : bool) | KInt (z : Z) | KStrings.

Definition default_of (k : kind) : option value :=
  match k with
  | KString s => Some (VString s)
  | KBool b => Some (VBool b)
  | KInt z => Some (VInt z)
  | KStrings => None
  end.

(** boost::program_options::option; [o_unregistered]: no description names it. *)
Record option_given := mkOption {
  string_key : string;
  o_value : list string;
  o_unregistered : bool;
}.

(** An option of a file, which has one value. *)
Record file_option := mkFileOption {
  f_key : string;
  f_value : string;
  f_unregistered : bool;
}.

Definition of_file (o : file_option) : option_given := mkOption (f_key o) [f_value o] (f_unregistered o).
Definition set_value v (o : file_option) := mkFileOption (f_key o) v (f_unregistered o).

(** What stops a store: an option that is given more often than it may be, or anything
    else. *)
Inductive store_error := MultipleOccurrences | InvalidValue.

(** Boost and the C library. *)
Class ConfigLibraries := {
  (** parse_config_file and command_line_parser, which may throw *)
  parse_config_file : string → list (string * kind) → option (list file_option);
  parse_command_line : list string → list (string * kind) → option (list option_given);
  (** store, with what it leaves in the map *)
  po_store : list (string * kind) → list option_given → Variables → option store_error * Variables;
  replace_all : string → string → string → string;
  istarts_with : string → string → bool;
  (** rand() after srand() *)
  rand_after : Z → Z;
}.

(** The value a store makes of a text. *)
Class StoreLaws `{ConfigLibraries} : Prop := {
  (** "If 'm' already has a non-defaulted value of an option, that value is not changed,
      even if 'options' specify some value." *)
  store_kept descs given m e m' k v :
    po_store descs given m = (e, m') → sfind k m = Some v → vv_defaulted v = false → sfind k m' = Some v;
  store_string descs given m m' k d o :
    po_store descs given m = (None, m') → NoDup (fst <$> descs) → (k, KString d) ∈ descs →
    filter (λ o, string_key o = k) given = [o] → o_unregistered o = false →
    (∀ v, sfind k m = Some v → vv_defaulted v = true) →
    sfind k m' = Some (mkVariable (VString (hd ""%string (o_value o))) false);
  store_default descs given m m' k d :
    po_store descs given m = (None, m') → NoDup (fst <$> descs) → (k, d) ∈ descs →
    filter (λ o, string_key o = k) given = [] →
    sfind k m' = match sfind k m with Some v => Some v | None => (λ v, mkVariable v true) <$> default_of d end;
}.

(** The options of load, and those of a backend. *)
Definition service_options : list (string * kind) := [
  ("service.jid", KString "");
  ("service.server", KString "127.0.0.1");
  ("service.password", KString "");
  ("service.port", KInt 0);
  ("service.user", KString "");
  ("service.group", KString "");
  ("service.backend", KString "libpurple_backend");
  ("service.protocol", KString "");
  ("service.pidfile", KString "/var/run/spectrum2/$jid.pid");
  ("service.portfile", KString "/var/run/spectrum2/$jid.port");
  ("service.working_dir", KString "/var/lib/spectrum2/$jid");
  ("service.allowed_servers", KStrings);
  ("service.server_mode", KBool false);
  ("service.users_per_backend", KInt 100);
  ("service.backend_host", KString "127.0.0.1");
  ("service.backend_port", KString "0");
  ("service.cert", KString "");
  ("service.cert_password", KString "");
  ("service.admin_jid", KStrings);
  ("service.admin_password", KString "");
  ("service.reuse_old_backends", KBool true);
  ("service.idle_reconnect_time", KInt 0);
  ("service.memory_collector_time", KInt 0);
  ("service.more_resources", KBool false);
  ("service.enable_privacy_lists", KBool true);
  ("service.enable_xhtml", KBool true);
  ("service.enable_remove_buddy", KBool false);
  ("service.oob_replace_body", KBool true);
  ("service.oob_split", KBool false);
  ("service.max_room_list_size", KInt 100);
  ("service.login_delay", KInt 0);
  ("service.jid_escaping", KBool true);
  ("service.vip_only", KBool false);
  ("service.vip_message", KString "");
  ("service.reconnect_all_users", KBool false);
  ("service.frontend", KString "xmpp");
  ("service.web_directory", KString "");
  ("service.web_url", KString "");
  ("service.web_maximgsize", KInt 1000000);
  ("vhosts.vhost", KStrings);
  ("identity.name", KString "Spectrum 2 Transport");
  ("identity.category", KString "gateway");
  ("identity.type", KString "");
  ("registration.enable_public_registration", KBool true);
  ("registration.language", KString "en");
  ("registration.instructions", KString "Enter your legacy network username and password.");
  ("registration.username_label", KString "3rd-party network username");
  ("registration.password_label", KString "3rd-party network password");
  ("registration.username_mask", KString "");
  ("registration.allowed_usernames", KString "");
  ("registration.auto_register", KBool false);
  ("registration.encoding", KString "utf8");
  ("registration.require_local_account", KBool false);
  ("registration.notify_jid", KStrings);
  ("registration.local_username_label", KString "Local username:");
  ("registration.local_account_server", KString "localhost");
  ("registration.local_account_server_timeout", KInt 10000);
  ("gateway_responder.prompt", KString "Contact ID");
  ("gateway_responder.label", KString "Enter legacy network contact ID.");
  ("database.type", KString "none");
  ("database.database", KString "/var/lib/spectrum2/$jid/database.sql");
  ("database.server", KString "localhost");
  ("database.user", KString "");
  ("database.password", KString "");
  ("database.port", KInt 0);
  ("database.prefix", KString "");
  ("database.encryption_key", KString "");
  ("database.vip_statement", KString "");
  ("logging.config", KString "");
  ("logging.backend_config", KString "");
  ("backend.default_avatar", KString "");
  ("backend.avatars_directory", KString "");
  ("backend.no_vcard_fetch", KBool false);
  ("proxy.server", KString "localhost");
  ("proxy.user", KString "");
  ("proxy.password", KString "");
  ("proxy.port", KInt 0)
]%string.

Definition backend_options : list (string * kind) := [
  ("registration.needPassword", KBool true);
  ("registration.needRegistration", KBool true);
  ("registration.extraField", KStrings);
  ("features.receipts", KBool false);
  ("features.muc", KBool false);
  ("features.rawxml", KBool false);
  ("features.disable_jid_escaping", KBool false);
  ("features.send_buddies_on_login", KBool false)
]%string.

(** ** Config *)

Inductive config_event := ConfigReloaded | BackendConfigUpdated.

Record Config := mkConfig {
  (** m_argv, of m_argc words *)
  m_argv : list string;
  m_file : string;
  m_jid : string;
  m_variables : Variables;
  m_backendConfig : Variables;
  m_unregistered : smap string value;
  config_out : list config_event;
}.

(** The constructor. *)
Definition new_config (argv : list string) : Config := mkConfig argv "" "" [] [] [] [].

Definition with_source file jid (c : Config) := mkConfig (m_argv c) file jid (m_variables c) (m_backendConfig c) (m_unregistered c) (config_out c).
Definition with_variables x (c : Config) := mkConfig (m_argv c) (m_file c) (m_jid c) x (m_backendConfig c) (m_unregistered c) (config_out c).
Definition with_backendConfig x (c : Config) := mkConfig (m_argv c) (m_file c) (m_jid c) (m_variables c) x (m_unregistered c) (config_out c).
Definition with_unregistered f (c : Config) := mkConfig (m_argv c) (m_file c) (m_jid c) (m_variables c) (m_backendConfig c) (f (m_unregistered c)) (config_out c).
Definition with_config_out f (c : Config) := mkConfig (m_argv c) (m_file c) (m_jid c) (m_variables c) (m_backendConfig c) (m_unregistered c) (f (config_out c)).

Section config.
Context `{ConfigLibraries}.

Abbreviation config A := (prog Config A).

(** A char as an int, on a machine where it is signed. *)
Definition char_int (c : ascii) : Z :=
  let n := Z.of_nat (nat_of_ascii c) in if (n <? 128)%Z then n else (n - 256)%Z.

(** [now]: time(NULL) *)
Definition getRandomPort (now : Z) (s : string) : Z :=
  let r := foldl (λ r c, to_ulong (r + char_int c)) 0%Z (list_ascii_of_string s) in
  (30000 + rand_after (to_ulong (now + r) mod 2 ^ 32) mod 10000)%Z.

(** *** The options of a file *)

Record Scan := mkScan {
  sc_jid : string;
  found_working : bool;
  found_pidfile : bool;
  found_portfile : bool;
  found_backend_port : bool;
  found_database : bool;
}.

Definition new_scan : Scan := mkScan "" false false false false false.

Definition random_port (now : Z) (_jid jid : string) : string :=
  decimal (getRandomPort now (if String.eqb _jid "" then jid else _jid)).

(** The first loop, on one option. *)
Definition scan_option (now : Z) (_jid : string) (o : file_option) (s : Scan) : file_option * Scan :=
  let named key := String.eqb (f_key o) key in
  if named "service.jid" then
    if String.eqb _jid "" then
      (o, mkScan (f_value o) (found_working s) (found_pidfile s) (found_portfile s) (found_backend_port s) (found_database s))
    else
      (set_value _jid o, mkScan _jid (found_working s) (found_pidfile s) (found_portfile s) (found_backend_port s) (found_database s))
  else if named "service.backend_port" then
    (if String.eqb (f_value o) "0" then set_value (random_port now _jid (sc_jid s)) o else o,
     mkScan (sc_jid s) (found_working s) (found_pidfile s) (found_portfile s) true (found_database s))
  else if named "service.working_dir" then
    (o, mkScan (sc_jid s) true (found_pidfile s) (found_portfile s) (found_backend_port s) (found_database s))
  else if named "service.pidfile" then
    (o, mkScan (sc_jid s) (found_working s) true (found_portfile s) (found_backend_port s) (found_database s))
  else if named "service.portfile" then
    (o, mkScan (sc_jid s) (found_working s) (found_pidfile s) true (found_backend_port s) (found_database s))
  else if named "database.database" then
    (o, mkScan (sc_jid s) (found_working s) (found_pidfile s) (found_portfile s) (found_backend_port s) true)
  else (o, s).

Fixpoint scan_options (now : Z) (_jid : string) (l : list file_option) (s : Scan) : list file_option * Scan :=
  match l with
  | [] => ([], s)
  | o :: l =>
      let '(o, s) := scan_option now _jid o s in
      let '(l, s) := scan_options now _jid l s in
      (o :: l, s)
  end.

(** basic_option(key, value): unregistered is false *)
Definition added (found : bool) (key value : string) : list file_option :=
  if found then [] else [mkFileOption key value false].

Definition missing_options (now : Z) (_jid : string) (s : Scan) : list file_option :=
  added (found_working s) "service.working_dir" "/var/lib/spectrum2/$jid" ++
  added (found_pidfile s) "service.pidfile" "/var/run/spectrum2/$jid.pid" ++
  added (found_portfile s) "service.portfile" "/var/run/spectrum2/$jid.port" ++
  added (found_backend_port s) "service.backend_port" (random_port now _jid (sc_jid s)) ++
  added (found_database s) "database.database" "/var/lib/spectrum2/$jid/database.sql".

(** The value of an option nobody described. *)
Definition guess_value (text : string) : value :=
  if String.eqb text "true" || String.eqb text "1" then VBool true
  else if String.eqb text "false" || String.eqb text "0" then VBool false
  else VString text.

(** What a second value is added to; as<std::string>() of a bool throws. *)
Definition values_so_far (v : value) : config (list string) :=
  match v with
  | VList l => mret l
  | VString s => mret [s]
  | _ => raise UncaughtException
  end.

Definition note_unregistered (key text : string) (seen : list string) : config (list string) :=
  if bool_decide (key ∈ seen) then
    c ← get;
    l ← values_so_far (default Empty (sfind key (m_unregistered c)));
    modify (with_unregistered (sinsert key (VList (l ++ [text])))) ;;
    mret seen
  else
    modify (with_unregistered (sinsert key (guess_value text))) ;;
    mret (seen ++ [key]).

(** The second loop. *)
Fixpoint note_options (jid : string) (l : list file_option) (seen : list string) : config (list file_option) :=
  match l with
  | [] => mret []
  | o :: l =>
      if f_unregistered o then
        seen ← note_unregistered (f_key o) (f_value o) seen;
        l ← note_options jid l seen;
        mret (o :: l)
      else
        l ← note_options jid l seen;
        mret (set_value (replace_all (f_value o) "$jid" jid) o :: l)
  end.

(** *** Loading *)

(** What the code catches, or not. *)
Definition store (descs : list (string * kind)) (given : list option_given) : config bool :=
  c ← get;
  let '(error, variables) := po_store descs given (m_variables c) in
  put (with_variables variables c) ;;
  match error with
  | None => mret true
  | Some MultipleOccurrences => mret false
  | Some InvalidValue => raise UncaughtException
  end.

Definition note_argument (o : option_given) : config unit :=
  match o_value o with
  | v :: _ => when (o_unregistered o) (modify (with_unregistered (sinsert (string_key o) (VString v))))
  | [] => mret tt
  end.

Definition load_arguments : config bool :=
  c ← get;
  match m_argv c with
  | [] => mret true
  | argv =>
      match parse_command_line argv service_options with
      | None => raise UncaughtException
      | Some given => for_each given note_argument ;; store service_options given
      end
  end.

(** load of a stream: false when it throws multiple_occurrences. *)
Definition load_stream (now : Z) (text _jid : string) : config bool :=
  modify (with_unregistered (λ _, [])) ;;
  match parse_config_file text service_options with
  | None => raise UncaughtException
  | Some parsed =>
      let '(parsed, s) := scan_options now _jid parsed new_scan in
      parsed ← note_options (sc_jid s) (parsed ++ missing_options now _jid s) [];
      ok ← load_arguments;
      if ok : bool then
        ok ← store service_options (map of_file parsed);
        if ok : bool then modify (with_config_out (λ l, l ++ [ConfigReloaded])) ;; mret true else mret false
      else mret false
  end.

(** The files, and getcwd(). *)
Context (files : string → option string) (cwd : string).

Definition absolute (file : string) : string :=
  match file with
  | String "/" _ => file
  | _ => (cwd +:+ "/" +:+ file)%string
  end.

Definition load (now : Z) (configfile jid : string) : config bool :=
  match files configfile with
  | None => mret false
  | Some text =>
      modify (with_source configfile jid) ;;
      ok ← load_stream now text jid;
      (if ok : bool then modify (λ c, with_source (absolute (m_file c)) (m_jid c) c) else mret tt) ;;
      mret ok
  end.

Definition reload (now : Z) : config bool :=
  c ← get;
  if String.eqb (m_file c) "" then mret false else load now (m_file c) (m_jid c).

(** *** Reading *)

Definition hasKey (key : string) (c : Config) : bool :=
  bool_decide (is_Some (sfind key (m_variables c))) || bool_decide (is_Some (sfind key (m_unregistered c)))
  || bool_decide (is_Some (sfind key (m_backendConfig c))).

(** operator[], which makes an empty entry for a key nobody knows *)
Definition at_key (key : string) : config value :=
  c ← get;
  match sfind key (m_variables c) with
  | Some v => mret (vv_value v)
  | None =>
      match sfind key (m_backendConfig c) with
      | Some v => mret (vv_value v)
      | None =>
          let v := default Empty (sfind key (m_unregistered c)) in
          modify (with_unregistered (sinsert key v)) ;;
          mret v
      end
  end.

(** as<T>() throws for another type; safeAs answers the default instead. *)
Definition CONFIG_STRING (key : string) : config string :=
  v ← at_key key; match v with VString s => mret s | _ => raise UncaughtException end.
Definition CONFIG_INT (key : string) : config Z :=
  v ← at_key key; match v with VInt z => mret z | _ => raise UncaughtException end.
Definition CONFIG_BOOL (key : string) : config bool :=
  v ← at_key key; match v with VBool b => mret b | _ => raise UncaughtException end.
Definition CONFIG_VECTOR (key : string) : config (list string) :=
  c ← get;
  if hasKey key c then v ← at_key key; match v with VStrings l => mret l | _ => raise UncaughtException end
  else mret [].

Definition defaulted {A} (as_type : value → option A) (key : string) (def : A) : config A :=
  c ← get;
  if hasKey key c then v ← at_key key; mret (default def (as_type v)) else mret def.

Definition CONFIG_STRING_DEFAULTED := defaulted (λ v, match v with VString s => Some s | _ => None end).
Definition CONFIG_BOOL_DEFAULTED := defaulted (λ v, match v with VBool b => Some b | _ => None end).
Definition CONFIG_INT_DEFAULTED := defaulted (λ v, match v with VInt z => Some z | _ => None end).
Definition CONFIG_LIST_DEFAULTED := defaulted (λ v, match v with VList l => Some l | _ => None end).

Definition getSectionValues (sectionName : string) (c : Config) : smap string value :=
  let search := (sectionName +:+ ".")%string in
  let found {A} (get : A → value) (l : smap string A) m :=
    foldl (λ m e, if istarts_with (fst e) search then sinsert (fst e) (get (snd e)) m else m) m l in
  found id (m_unregistered c) (found vv_value (m_variables c) []).

Definition getCommandLineArgs (c : Config) : string :=
  foldl (λ text arg, text +:+ String "034" arg +:+ String "034" " ")%string ""%string (tail (m_argv c)).

(** *** Backends *)

Definition set_disabled (key : string) (c : Config) : option Config :=
  v ← sfind key (m_variables c);
  Some (with_variables (sinsert key (mkVariable (VBool false) (vv_defaulted v)) (m_variables c)) c).

(** What store throws, nobody catches; find() of a key that is not there is end(). *)
Definition updateBackendConfig (backendConfig : string) : config unit :=
  match parse_config_file backendConfig backend_options with
  | None => raise UncaughtException
  | Some parsed =>
      c ← get;
      let '(error, variables) := po_store backend_options (map of_file parsed) (m_backendConfig c) in
      put (with_backendConfig variables c) ;;
      match error with Some _ => raise UncaughtException | None => mret tt end ;;
      modify (with_config_out (λ l, l ++ [BackendConfigUpdated])) ;;
      disable ← CONFIG_BOOL_DEFAULTED "features.disable_jid_escaping" false;
      if disable : bool then
        c ← get;
        match set_disabled "service.jid_escaping" c with Some c => put c | None => raise OutOfRange end
      else mret tt
  end.

(** createFromArgs, from what the parser of the arguments finds: nothing when the help is
    asked for or they are wrong, or a file and a JID, which goes nowhere. *)
Definition createFromArgs (now : Z) (argv : list string) (file : option (string * string)) : result Config bool :=
  match file with
  | None => Done false (new_config argv)
  | Some (configFile, _) => load now configFile "" (new_config argv)
  end.
End config.
