(* ===== verification/ConfigTheorems.v ===== *)
(** * Configuration: what a file sets, and what a second reading changes

    The options of the first reading are those of the command line and then those of the
    file, with the address of the gateway in the paths; a later reading changes none of
    them. *)

From S2P Require Import Prelude StdMap Text Config.

Section loading.
Context `{StoreLaws}.

(** ** The loops *)

Definition keyed (k : string) (l : list file_option) : list file_option := filter (λ o, f_key o = k) l.

Definition substituted (jid : string) (o : file_option) : file_option :=
  if f_unregistered o then o else set_value (replace_all (f_value o) "$jid" jid) o.

Lemma scan_option_key now _jid o s : f_key (fst (scan_option now _jid o s)) = f_key o ∧ f_unregistered (fst (scan_option now _jid o s)) = f_unregistered o.
Proof. unfold scan_option. repeat case_match; by simplify_eq/=. Qed.

Lemma scan_option_same now _jid o s : f_key o ≠ "service.jid"%string → f_key o ≠ "service.backend_port"%string →
  fst (scan_option now _jid o s) = o.
Proof.
  intros H1 H2. apply String.eqb_neq in H1, H2. unfold scan_option. rewrite H1, H2. repeat case_match; by simplify_eq/=.
Qed.

Lemma scan_options_keyed now _jid l s k : k ≠ "service.jid"%string → k ≠ "service.backend_port"%string →
  keyed k (fst (scan_options now _jid l s)) = keyed k l.
Proof.
  intros H1 H2. revert s. induction l as [|o l IH]; intros s; [done|]. simpl.
  pose proof (scan_option_key now _jid o s) as [Hk _]. pose proof (scan_option_same now _jid o s) as Hs.
  destruct (scan_option now _jid o s) as [o' s']. specialize (IH s'). destruct (scan_options now _jid l s') as [l' s''].
  simpl in *. unfold keyed in *. rewrite !filter_cons, Hk, IH. case_decide as E; [|done]. f_equal. apply Hs; congruence.
Qed.

(** Whether the path of a key was found. *)
Definition found_key (k : string) (s : Scan) : bool :=
  if String.eqb k "service.working_dir" then found_working s
  else if String.eqb k "service.pidfile" then found_pidfile s
  else if String.eqb k "service.portfile" then found_portfile s
  else if String.eqb k "service.backend_port" then found_backend_port s
  else found_database s.

Definition default_keys : list string :=
  ["service.working_dir"; "service.pidfile"; "service.portfile"; "service.backend_port"; "database.database"]%string.

Lemma scan_option_found now _jid o s k : k ∈ default_keys →
  found_key k (snd (scan_option now _jid o s)) = String.eqb (f_key o) k || found_key k s.
Proof.
  intros Hk. unfold scan_option. cbv beta zeta. unfold default_keys in Hk.
  repeat match goal with
  | |- context [if String.eqb (f_key o) ?x then _ else _] => destruct (String.eqb_spec (f_key o) x) as [->|?]
  end; repeat case_match; repeat (apply elem_of_cons in Hk as [->|Hk]); try by apply not_elem_of_nil in Hk.
  all: repeat match goal with H : f_key _ ≠ _ |- _ => apply String.eqb_neq in H end; try (congruence || done).
  all: repeat match goal with E : String.eqb _ _ = false |- _ => try rewrite E; clear E end; done.
Qed.

Lemma scan_options_found now _jid l s k : k ∈ default_keys →
  found_key k (snd (scan_options now _jid l s)) = existsb (λ o, String.eqb (f_key o) k) l || found_key k s.
Proof.
  intros Hk. revert s. induction l as [|o l IH]; intros s; [done|]. simpl.
  pose proof (scan_option_found now _jid o s k Hk) as Ho.
  destruct (scan_option now _jid o s) as [o' s']. specialize (IH s'). destruct (scan_options now _jid l s') as [l' s''].
  simpl in *. rewrite IH, Ho. by destruct (String.eqb _ _), (existsb _ _).
Qed.

(** The address that goes into the paths: that of the caller, but only when the file has
    one too. *)
Definition address (_jid : string) (parsed : list file_option) : string :=
  match last (keyed "service.jid" parsed) with
  | None => ""
  | Some o => if String.eqb _jid "" then f_value o else _jid
  end.

Lemma scan_options_jid now _jid l s :
  sc_jid (snd (scan_options now _jid l s)) =
  match last (keyed "service.jid" l) with
  | None => sc_jid s
  | Some o => if String.eqb _jid "" then f_value o else _jid
  end.
Proof.
  revert s. induction l as [|o l IH]; intros s; [done|]. simpl. unfold keyed in *. rewrite filter_cons.
  destruct (scan_option now _jid o s) as [o' s'] eqn:E. specialize (IH s').
  destruct (scan_options now _jid l s') as [l' s'']. simpl in *. rewrite IH. clear IH.
  unfold scan_option in E. destruct (String.eqb_spec (f_key o) "service.jid") as [Hk|Hk].
  - rewrite decide_True by done. rewrite last_cons. destruct (last (filter _ l)); [done|].
    by destruct (String.eqb _jid ""); simplify_eq/=.
  - rewrite decide_False by done. destruct (last (filter _ l)); [done|]. repeat case_match; by simplify_eq/=.
Qed.

(** ** The options that are stored *)

Definition file_options (now : Z) (_jid : string) (parsed : list file_option) : list file_option :=
  let '(l, s) := scan_options now _jid parsed new_scan in
  map (substituted (sc_jid s)) (l ++ missing_options now _jid s).

Definition default_path (k : string) : option string :=
  if String.eqb k "service.working_dir" then Some "/var/lib/spectrum2/$jid"
  else if String.eqb k "service.pidfile" then Some "/var/run/spectrum2/$jid.pid"
  else if String.eqb k "service.portfile" then Some "/var/run/spectrum2/$jid.port"
  else if String.eqb k "database.database" then Some "/var/lib/spectrum2/$jid/database.sql"
  else None.

Lemma keyed_app k l l' : keyed k (l ++ l') = keyed k l ++ keyed k l'.
Proof. apply filter_app. Qed.

Lemma keyed_substituted k jid l : keyed k (map (substituted jid) l) = map (substituted jid) (keyed k l).
Proof.
  induction l as [|o l IH]; [done|]. simpl. unfold keyed in *. rewrite !filter_cons, IH.
  assert (f_key (substituted jid o) = f_key o) as -> by (unfold substituted; by destruct (f_unregistered o)).
  by case_decide.
Qed.

Lemma keyed_nil k l : keyed k l = [] ↔ existsb (λ o, String.eqb (f_key o) k) l = false.
Proof.
  induction l as [|o l IH]; [done|]. simpl. unfold keyed in *. rewrite filter_cons.
  destruct (String.eqb_spec (f_key o) k); [by rewrite decide_True|]. by rewrite decide_False.
Qed.

Lemma keyed_missing now _jid s k : k ≠ "service.backend_port"%string →
  keyed k (missing_options now _jid s) =
  match default_path k with Some path => if found_key k s then [] else [mkFileOption k path false] | None => [] end.
Proof.
  intros Hk. apply String.eqb_neq in Hk as Hk'. unfold missing_options, default_path, found_key. rewrite !keyed_app.
  assert (∀ found key v, keyed k (added found key v) = if String.eqb k key then added found key v else []) as Hadd.
  { intros found key v. unfold added, keyed. destruct found; [rewrite filter_nil; by destruct (String.eqb k key)|]. rewrite filter_cons, filter_nil.
    destruct (String.eqb_spec k key) as [->|]; [by rewrite decide_True|]. rewrite decide_False; [done|]. simpl. congruence. }
  rewrite !Hadd, Hk'.
  repeat match goal with
  | |- context [String.eqb k ?x] => destruct (String.eqb_spec k x) as [->|?]; [by destruct (found_working s), (found_pidfile s), (found_portfile s), (found_database s)|]
  end. done.
Qed.

(** A key has the value of its line, and a path nobody gave has the default one. *)
Lemma keyed_options now _jid parsed k : k ≠ "service.jid"%string → k ≠ "service.backend_port"%string →
  keyed k (file_options now _jid parsed) =
  map (substituted (address _jid parsed))
    match keyed k parsed, default_path k with
    | [], Some path => [mkFileOption k path false]
    | l, _ => l
    end.
Proof.
  intros H1 H2. unfold file_options, address.
  pose proof (scan_options_jid now _jid parsed new_scan) as Hj. pose proof (scan_options_keyed now _jid parsed new_scan k H1 H2) as Hk.
  pose proof (scan_options_found now _jid parsed new_scan k) as Hf.
  destruct (scan_options now _jid parsed new_scan) as [l s]. simpl in Hj, Hk, Hf.
  rewrite keyed_substituted, keyed_app, Hk, keyed_missing, Hj by done. f_equal.
  destruct (default_path k) as [path|] eqn:E; [|rewrite app_nil_r; by destruct (keyed k parsed)].
  rewrite Hf.
  - destruct (keyed k parsed) as [|o l'] eqn:El.
    + apply keyed_nil in El as ->. unfold default_path in E. unfold found_key. simpl. by repeat case_match.
    + assert (existsb (λ o, String.eqb (f_key o) k) parsed = true) as ->; [|by rewrite app_nil_r].
      apply not_false_iff_true. rewrite <- keyed_nil. congruence.
  - unfold default_path in E. unfold default_keys. repeat case_match; try done;
      match goal with E : String.eqb k _ = true |- _ => apply String.eqb_eq in E as -> end; set_solver.
Qed.

(** ** Running the loops *)

Lemma note_options_run jid l seen c : NoDup (f_key <$> filter f_unregistered l) →
  (∀ o, o ∈ l → f_unregistered o → f_key o ∉ seen) →
  ∃ u, note_options jid l seen c = Done (map (substituted jid) l) (with_unregistered (λ _, u) c).
Proof.
  revert seen c. induction l as [|o l IH]; intros seen c Hn Hs; [by exists (m_unregistered c); destruct c|].
  rewrite filter_cons in Hn. simpl. unfold substituted at 1. destruct (f_unregistered o) eqn:Eo.
  - rewrite decide_True in Hn by done. apply NoDup_cons in Hn as [Ho Hn].
    unfold note_unregistered. rewrite bool_decide_false by (apply Hs; [left|by rewrite Eo]).
    destruct (IH (seen ++ [f_key o]) (with_unregistered (sinsert (f_key o) (guess_value (f_value o))) c) Hn) as [u Hu].
    { intros o' Ho' Eo'. rewrite not_elem_of_app, list_elem_of_singleton. split; [by apply Hs; [right|]|].
      intros E. apply Ho. rewrite <- E. apply list_elem_of_fmap_2, list_elem_of_filter. done. }
    exists u. rewrite !bind_run. cbn [modify mret prog_ret]. rewrite bind_run, Hu. done.
  - rewrite decide_False in Hn; [|by intros []].
    destruct (IH seen c Hn) as [u Hu]; [intros; apply Hs; [by right|done]|].
    exists u. by rewrite (bind_done _ _ _ _ _ Hu).
Qed.

Lemma scan_options_unregistered now _jid l s :
  f_key <$> filter f_unregistered (fst (scan_options now _jid l s)) = f_key <$> filter f_unregistered l.
Proof.
  revert s. induction l as [|o l IH]; intros s; [done|]. simpl.
  pose proof (scan_option_key now _jid o s) as [Hk Hu].
  destruct (scan_option now _jid o s) as [o' s']. specialize (IH s'). destruct (scan_options now _jid l s') as [l' s''].
  simpl in *. rewrite !filter_cons, Hu. destruct (f_unregistered o); [|rewrite !decide_False by (intros []); exact IH].
  rewrite !decide_True by done. rewrite !fmap_cons, Hk. by f_equal.
Qed.

Lemma missing_registered now _jid s : filter f_unregistered (missing_options now _jid s) = [].
Proof.
  unfold missing_options, added.
  by destruct (found_working s), (found_pidfile s), (found_portfile s), (found_backend_port s), (found_database s).
Qed.

(** What a store answers a load. *)
Definition stored (answer : option store_error * Variables) (c : Config) : result Config bool :=
  match answer with
  | (None, m) => Done true (with_config_out (λ l, l ++ [ConfigReloaded]) (with_variables m c))
  | (Some MultipleOccurrences, m) => Done false (with_variables m c)
  | (Some InvalidValue, _) => Fault UncaughtException
  end.

(** What the command line gives: nothing without one, as in the programs that read
    many configurations. *)
Definition arguments (argv : list string) (given : list option_given) : Prop :=
  match argv with [] => given = [] | _ => parse_command_line argv service_options = Some given end.

(** The command line is stored first, the file on top of it. *)
Definition store_both (argv : list string) (given file : list option_given) (m : Variables) : option store_error * Variables :=
  match argv with
  | [] => po_store service_options file m
  | _ =>
      match po_store service_options given m with
      | (None, m') => po_store service_options file m'
      | (Some e, m') => (Some e, m')
      end
  end.

Lemma note_arguments_run l c : ∃ u, for_each l note_argument c = Done tt (with_unregistered (λ _, u) c).
Proof.
  revert c. induction l as [|o l IH]; intros c; [exists (m_unregistered c); by destruct c|].
  simpl. rewrite bind_run. unfold note_argument at 1, when. destruct (o_value o) as [|v ?]; [apply IH|].
  destruct (o_unregistered o); [|apply IH]. cbn [modify].
  destruct (IH (with_unregistered (sinsert (string_key o) (VString v)) c)) as [u Hu]. exists u. by rewrite Hu.
Qed.

Lemma load_stream_run now text _jid parsed given c : arguments (m_argv c) given →
  parse_config_file text service_options = Some parsed →
  NoDup (f_key <$> filter f_unregistered parsed) →
  ∃ u, load_stream now text _jid c =
    stored (store_both (m_argv c) given (map of_file (file_options now _jid parsed)) (m_variables c)) (with_unregistered (λ _, u) c).
Proof.
  intros Hargv Hp Hn. unfold load_stream, file_options. rewrite bind_run. cbn [modify]. rewrite Hp.
  pose proof (scan_options_unregistered now _jid parsed new_scan) as Hu.
  destruct (scan_options now _jid parsed new_scan) as [l s]. simpl in Hu.
  destruct (note_options_run (sc_jid s) (l ++ missing_options now _jid s) [] (with_unregistered (λ _, []) c)) as [u Hrun].
  { by rewrite filter_app, missing_registered, app_nil_r, Hu. }
  { intros ???. apply not_elem_of_nil. }
  change (with_unregistered (λ _, u) (with_unregistered (λ _, []) c)) with (with_unregistered (λ _, u) c) in Hrun.
  setoid_rewrite (bind_done _ _ _ _ _ Hrun). unfold load_arguments, store, store_both. rewrite !bind_run. cbn [get].
  change (m_argv (with_unregistered _ _)) with (m_argv c). destruct (m_argv c) as [|a argv].
  - exists u. cbn [mret prog_ret]. rewrite !bind_run. cbn [get].
    change (m_variables (with_unregistered _ _)) with (m_variables c).
    destruct (po_store _ _ _) as [[[]|] m]; by rewrite ?bind_run.
  - simpl in Hargv. rewrite Hargv. destruct (note_arguments_run given (with_unregistered (λ _, u) c)) as [u' Hgiven].
    exists u'. rewrite !bind_run, Hgiven, bind_run. cbn [get].
    change (m_variables (with_unregistered _ _)) with (m_variables c).
    destruct (po_store _ _ (m_variables c)) as [[[]|] m]; rewrite ?bind_run; cbn [put mret prog_ret raise]; try done.
    rewrite !bind_run. cbn [get].
    change (m_variables (with_variables _ _)) with m.
    destruct (po_store _ _ m) as [[[]|] m']; by rewrite ?bind_run.
Qed.

(** The value of an option of text: that of its line, the path made up for it, or the
    default of its description. *)
Definition first_value (k d : string) (_jid : string) (parsed : list file_option) : variable_value :=
  match keyed k parsed, default_path k with
  | o :: _, _ => mkVariable (VString (replace_all (f_value o) "$jid" (address _jid parsed))) false
  | [], Some path => mkVariable (VString (replace_all path "$jid" (address _jid parsed))) false
  | [], None => mkVariable (VString d) true
  end.

Lemma filter_of_file k l : filter (λ o, string_key o = k) (map of_file l) = map of_file (keyed k l).
Proof. induction l as [|o l IH]; [done|]. simpl. unfold keyed in *. rewrite !filter_cons, IH. simpl. by case_decide. Qed.

(** What the command line gives for a key. *)
Definition of_arguments (k : string) (given : list option_given) : list option_given := filter (λ o, string_key o = k) given.

(** The same, when there is a command line: what it gives wins. *)
Definition started_value (k d : string) (_jid : string) (given : list option_given) (parsed : list file_option) : variable_value :=
  match of_arguments k given with
  | o :: _ => mkVariable (VString (hd ""%string (o_value o))) false
  | [] => first_value k d _jid parsed
  end.

Lemma file_value now _jid parsed m m' k d : (k, KString d) ∈ service_options → NoDup (fst <$> service_options) →
  k ≠ "service.jid"%string → k ≠ "service.backend_port"%string →
  Forall (λ o, f_unregistered o = false) (keyed k parsed) → length (keyed k parsed) ≤ 1 →
  po_store service_options (map of_file (file_options now _jid parsed)) m = (None, m') →
  (sfind k m = None ∨ sfind k m = Some (mkVariable (VString d) true)) →
  sfind k m' = Some (first_value k d _jid parsed).
Proof.
  intros Hk Hnd H1 H2 Hreg Hone Hs Hm. pose proof (keyed_options now _jid parsed k H1 H2) as Ho. unfold first_value.
  assert (∀ o, keyed k (file_options now _jid parsed) = [substituted (address _jid parsed) o] → f_unregistered o = false →
    sfind k m' = Some (mkVariable (VString (replace_all (f_value o) "$jid" (address _jid parsed))) false)) as Hline.
  { intros o E Eo. rewrite (store_string _ _ _ _ k d (of_file (substituted (address _jid parsed) o)) Hs Hnd Hk).
    - unfold substituted. by rewrite Eo.
    - by rewrite filter_of_file, E.
    - unfold substituted. by rewrite Eo.
    - intros v Hv. destruct Hm as [Hm|Hm]; rewrite Hm in Hv; [done|by injection Hv as <-]. }
  destruct (keyed k parsed) as [|o [|]]; simpl in Hone; [|by apply Hline; [|inversion Hreg]|lia].
  destruct (default_path k) as [path|]; [by apply (Hline (mkFileOption k path false))|].
  rewrite (store_default _ _ _ _ k _ Hs Hnd Hk); [|by rewrite filter_of_file, Ho]. by destruct Hm as [-> | ->].
Qed.

Lemma stored_value now _jid argv given parsed m k d : arguments argv given →
  (k, KString d) ∈ service_options → NoDup (fst <$> service_options) →
  k ≠ "service.jid"%string → k ≠ "service.backend_port"%string →
  Forall (λ o, o_unregistered o = false) (of_arguments k given) → length (of_arguments k given) ≤ 1 →
  Forall (λ o, f_unregistered o = false) (keyed k parsed) → length (keyed k parsed) ≤ 1 →
  store_both argv given (map of_file (file_options now _jid parsed)) [] = (None, m) →
  sfind k m = Some (started_value k d _jid given parsed).
Proof.
  intros Hargv Hk Hnd H1 H2 Hg Hg1 Hreg Hone Hs. unfold started_value, store_both, arguments in *.
  destruct argv as [|a argv]; [subst given; apply (file_value now _jid parsed [] m k d); try done; by left|].
  destruct (po_store service_options given []) as [[e|] m1] eqn:E; [done|].
  destruct (of_arguments k given) as [|o [|]] eqn:Eo; [| |simpl in Hg1; lia].
  - apply (file_value now _jid parsed m1 m k d); try done. right.
    by rewrite (store_default _ _ _ _ k _ E Hnd Hk Eo).
  - apply (store_kept _ _ _ _ _ k _ Hs); [|done].
    apply (store_string _ _ _ _ k d o E Hnd Hk Eo); [by inversion Hg|done].
Qed.

Lemma service_options_keys : NoDup (fst <$> service_options).
Proof. apply (bool_decide_unpack _). vm_compute. exact I. Qed.
End loading.

(** ** What later readings keep *)

Section keeping.
Context `{StoreLaws} (k : string) (v : variable_value).

Definition keeps_option (c : Config) : Prop := sfind k (m_variables c) = Some v.

Lemma store_keeps descs given : vv_defaulted v = false →
  spec (λ f, f = UncaughtException) keeps_option (store descs given) (λ _, keeps_option).
Proof.
  intros Hd c Hc. unfold store. rewrite bind_run. cbn [get]. destruct (po_store _ _ _) as [e m] eqn:E.
  pose proof (store_kept _ _ _ _ _ k v E Hc Hd) as Hm. rewrite bind_run. cbn [put]. by destruct e as [[]|].
Qed.

Lemma note_options_keep jid l seen :
  spec (λ f, f = UncaughtException) keeps_option (note_options jid l seen) (λ _, keeps_option).
Proof.
  revert seen. induction l as [|o l IH]; intros seen; simpl; [by apply spec_ret|].
  unfold note_unregistered, values_so_far. repeat (first [apply IH|by apply spec_modify|walk_step]); by intros ? ?.
Qed.

Lemma load_stream_keeps now text _jid : vv_defaulted v = false →
  spec (λ f, f = UncaughtException) keeps_option (load_stream now text _jid) (λ _, keeps_option).
Proof.
  intros Hd. unfold load_stream, load_arguments, note_argument. cbv zeta.
  repeat first [by apply store_keeps|apply note_options_keep|by apply spec_modify|walk_step].
Qed.

Lemma load_keeps files cwd now file jid : vv_defaulted v = false →
  spec (λ f, f = UncaughtException) keeps_option (load files cwd now file jid) (λ _, keeps_option).
Proof.
  intros Hd. unfold load. repeat first [by apply load_stream_keeps|by apply spec_modify|walk_step].
Qed.
End keeping.

(** ** Properties *)

(** C34: the first reading of a file whose undescribed options have a line each, with a
    command line or without one. It returns, as the two stores do, of the command line
    and then of the file: false for an option given too often, an exception of the
    store's other kinds, and otherwise a configuration in which every option of text (the
    address and the port of the backends apart) has the value the command line gives it,
    or else the value of its line with [$jid] replaced by the address of the gateway,
    the path made up for it when it has no line, or its default. The address that goes
    into the paths is that of the file, unless there is one in the file and the caller
    gives another; an address on the command line does not go there. *)
Theorem first_load `{StoreLaws} files cwd now file text jid argv given parsed :
  files file = Some text → parse_config_file text service_options = Some parsed → arguments argv given →
  NoDup (f_key <$> filter f_unregistered parsed) →
  match store_both argv given (map of_file (file_options now jid parsed)) [] with
  | (Some InvalidValue, _) => load files cwd now file jid (new_config argv) = Fault UncaughtException
  | (Some MultipleOccurrences, m) => ∃ c, load files cwd now file jid (new_config argv) = Done false c ∧ config_out c = []
  | (None, m) => ∃ c, load files cwd now file jid (new_config argv) = Done true c ∧
      m_file c = absolute cwd file ∧ config_out c = [ConfigReloaded] ∧
      ∀ k d, (k, KString d) ∈ service_options → k ≠ "service.jid"%string → k ≠ "service.backend_port"%string →
        Forall (λ o, o_unregistered o = false) (of_arguments k given) → length (of_arguments k given) ≤ 1 →
        Forall (λ o, f_unregistered o = false) (keyed k parsed) → length (keyed k parsed) ≤ 1 →
        sfind k (m_variables c) = Some (started_value k d jid given parsed)
  end.
Proof.
  intros Hf Hp Hargv Hn.
  destruct (load_stream_run now text jid parsed given (with_source file jid (new_config argv)) Hargv Hp Hn) as [u Hrun].
  assert (∀ r, load files cwd now file jid (new_config argv) = r ↔
    (match stored (store_both argv given (map of_file (file_options now jid parsed)) []) (with_unregistered (λ _, u) (with_source file jid (new_config argv))) with
     | Done ok c => Done ok (if ok : bool then with_source (absolute cwd (m_file c)) (m_jid c) c else c)
     | Fault f => Fault f
     end) = r) as Hload.
  { intros r. unfold load. rewrite Hf, bind_run. cbn [modify]. rewrite bind_run, Hrun. simpl m_variables. simpl m_argv.
    by destruct (stored _ _) as [[]|]. }
  destruct (store_both _ _ _ []) as [[[]|] m] eqn:E; simpl in Hload; [eexists; split; [by apply Hload|done]|by apply Hload|].
  eexists. split; [by apply Hload|]. repeat split. intros k d Hk H1 H2 Hg Hg1 Hreg Hone.
  by apply (stored_value now jid argv given parsed m k d Hargv Hk service_options_keys).
Qed.

(** a later reading changes no option that was given before, whatever the file says by
    then: the store keeps every value that is not a default, and load stores into the same
    map. *)
Theorem reload_keeps `{StoreLaws} files cwd now k v c :
  sfind k (m_variables c) = Some v → vv_defaulted v = false →
  match reload files cwd now c with
  | Done ok c' => sfind k (m_variables c') = Some v
  | Fault f => f = UncaughtException
  end.
Proof.
  intros Hk Hd. unfold reload. rewrite bind_run. cbn [get].
  destruct (String.eqb (m_file c) ""); [done|]. by apply (load_keeps k v).
Qed.

(** an option nobody described that a file has twice, the first time as a truth value
    or as 0 or 1, stops the program: the code takes the first value for a string. *)
Theorem unregistered_twice `{ConfigLibraries} jid o o' rest seen c :
  f_unregistered o = true → f_unregistered o' = true → f_key o' = f_key o → f_key o ∉ seen →
  f_value o ∈ ["true"; "1"; "false"; "0"]%string →
  note_options jid (o :: o' :: rest) seen c = Fault UncaughtException.
Proof.
  intros Ho Ho' Hk Hs Hv. simpl. rewrite Ho, Ho', Hk.
  assert (note_unregistered (f_key o) (f_value o) seen c =
    Done (seen ++ [f_key o]) (with_unregistered (sinsert (f_key o) (guess_value (f_value o))) c)) as Hfirst.
  { unfold note_unregistered. by rewrite bool_decide_false. }
  rewrite (bind_done _ _ _ _ _ Hfirst). unfold note_unregistered.
  rewrite bool_decide_true by set_solver. rewrite !bind_run. cbn [get].
  simpl. rewrite sfind_sinsert_eq. unfold guess_value. revert Hv. generalize (f_value o). intros v Hv.
  by repeat (apply elem_of_cons in Hv as [->|Hv]); [..|apply not_elem_of_nil in Hv].
Qed.

(** ** A store with these laws *)

Section reference_store.

(** The value of a text, by the type of the option. *)
Definition typed (k : kind) (text : string) : value :=
  match k with
  | KString _ => VString text
  | KBool _ => VBool (bool_decide (text ∈ ["true"; "yes"; "on"; "1"]%string))
  | KInt _ => VInt (foldl (λ n c, 10 * n + (Z.of_nat (nat_of_ascii c) - 48)) 0 (list_ascii_of_string text))%Z
  | KStrings => VStrings [text]
  end.

Definition store_one (given : list option_given) (m : Variables) (e : string * kind) : Variables :=
  match filter (λ o, string_key o = fst e) given, sfind (fst e) m with
  | [], Some _ => m
  | [], None => match default_of (snd e) with Some v => sinsert (fst e) (mkVariable v true) m | None => m end
  | o :: _, found =>
      let fresh := sinsert (fst e) (mkVariable (typed (snd e) (hd ""%string (o_value o))) false) m in
      match found with Some v => if vv_defaulted v then fresh else m | None => fresh end
  end.

Lemma store_one_other given m e k : k ≠ fst e → sfind k (store_one given m e) = sfind k m.
Proof. intros Hk. unfold store_one. repeat case_match; try done; by rewrite sfind_sinsert_ne. Qed.

Lemma store_one_same given m m' e : sfind (fst e) m = sfind (fst e) m' →
  sfind (fst e) (store_one given m e) = sfind (fst e) (store_one given m' e).
Proof.
  intros E. unfold store_one. rewrite E.
  repeat case_match; rewrite ?sfind_sinsert_eq; congruence.
Qed.

Lemma store_all_other given m l k : k ∉ (fst <$> l) → sfind k (foldl (store_one given) m l) = sfind k m.
Proof.
  revert m. induction l as [|e l IH]; intros m Hk; [done|]. simpl. rewrite fmap_cons, not_elem_of_cons in Hk.
  rewrite IH by tauto. apply store_one_other. tauto.
Qed.

Lemma store_all_at given m l e : NoDup (fst <$> l) → e ∈ l →
  sfind (fst e) (foldl (store_one given) m l) = sfind (fst e) (store_one given m e).
Proof.
  revert m. induction l as [|e' l IH]; intros m Hn He; [by apply not_elem_of_nil in He|]. simpl.
  rewrite fmap_cons in Hn. apply NoDup_cons in Hn as [Hne Hn]. apply elem_of_cons in He as [->|He]; [by apply store_all_other|].
  rewrite IH by done. apply store_one_same, store_one_other. intros E. apply Hne. rewrite <- E. by apply list_elem_of_fmap_2.
Qed.
End reference_store.

(** The whole of it: boost::replace_all, istarts_with and the generator of numbers, with
    readers of files and command lines that find what they are given. *)
Fixpoint replaced (s pat new : string) (skip : nat) : string :=
  match s with
  | "" => ""
  | String c rest =>
      match skip with
      | S n => replaced rest pat new n
      | 0 => if String.prefix pat s then (new +:+ replaced rest pat new (pred (String.length pat)))%string else String c (replaced rest pat new 0)
      end
  end.

Definition reference_libraries (file : string → option (list file_option)) (line : list option_given) : ConfigLibraries := {|
  parse_config_file text _ := file text;
  parse_command_line _ _ := Some line;
  po_store descs given m := (None, foldl (store_one given) m descs);
  replace_all s pat new := replaced s pat new 0;
  istarts_with s pat := String.prefix pat s;
  rand_after z := z;
|}.

Lemma reference_store_laws file line : @StoreLaws (reference_libraries file line).
Proof.
  split; simpl.
  - intros descs given m e m' k v [= <- <-] Hk Hd.
    revert m Hk. induction descs as [|d descs IH]; intros m Hk; [done|]. simpl. apply IH.
    destruct (decide (k = fst d)) as [->|Hne]; [|by rewrite store_one_other]. unfold store_one. rewrite Hk, Hd. by case_match.
  - intros descs given m m' k d o [= <-] Hn Hk Ho Hu Hv. change k with (fst (k, KString d)).
    rewrite store_all_at by done. unfold store_one. simpl. rewrite Ho.
    destruct (sfind k m) as [v|]; [rewrite (Hv v) by done|]; by rewrite sfind_sinsert_eq.
  - intros descs given m m' k d [= <-] Hn Hk Ho. change k with (fst (k, d)).
    rewrite store_all_at by done. unfold store_one. simpl. rewrite Ho.
    destruct (sfind k m) as [v|] eqn:E; [done|].
    destruct (default_of d) as [v|]; [by rewrite sfind_sinsert_eq|done].
Qed.

(** ** Witnesses *)

Definition one_file (path : string) : option string := if String.eqb path "/etc/s.cfg" then Some "first"%string else None.

(** A file of an address, a path and an option nobody describes. *)
Definition read_file (text : string) : option (list file_option) :=
  Some [mkFileOption "service.jid" "icq.example.org" false; mkFileOption "logging.config" "/etc/$jid.cfg" false;
        mkFileOption "purple.port" "1" true]%string.

(** What [--service.backend=/opt/icq --logging.config=/etc/log] gives. *)
Definition given_line : list option_given :=
  [mkOption "service.backend" ["/opt/icq"] false; mkOption "logging.config" ["/etc/log"] false]%string.

Definition reference : ConfigLibraries := reference_libraries read_file given_line.

Lemma first_load_witness :
  (∃ c, @load reference one_file "/" 0 "/etc/s.cfg" "" (new_config []) = Done true c ∧
    sfind "logging.config" (m_variables c) = Some (mkVariable (VString "/etc/icq.example.org.cfg") false) ∧
    sfind "database.database" (m_variables c) = Some (mkVariable (VString "/var/lib/spectrum2/icq.example.org/database.sql") false) ∧
    sfind "service.backend" (m_variables c) = Some (mkVariable (VString "libpurple_backend") true))
  ∧ ∃ c, @load reference one_file "/" 0 "/etc/s.cfg" "" (new_config ["spectrum2"; "--service.backend=/opt/icq"; "--logging.config=/etc/log"]%string) = Done true c ∧
    sfind "logging.config" (m_variables c) = Some (mkVariable (VString "/etc/log") false) ∧
    sfind "database.database" (m_variables c) = Some (mkVariable (VString "/var/lib/spectrum2/icq.example.org/database.sql") false) ∧
    sfind "service.backend" (m_variables c) = Some (mkVariable (VString "/opt/icq") false).
Proof.
  split.
  1: destruct (@first_load reference (reference_store_laws _ _) one_file "/" 0 "/etc/s.cfg" "first" "" [] [] _
    eq_refl eq_refl eq_refl ltac:(apply (bool_decide_unpack _); vm_compute; exact I)) as (c & Hc & _ & _ & Hk).
  2: destruct (@first_load reference (reference_store_laws _ _) one_file "/" 0 "/etc/s.cfg" "first" ""
    ["spectrum2"; "--service.backend=/opt/icq"; "--logging.config=/etc/log"]%string given_line _
    eq_refl eq_refl eq_refl ltac:(apply (bool_decide_unpack _); vm_compute; exact I)) as (c & Hc & _ & _ & Hk).
  all: exists c; split; [exact Hc|].
  all: repeat split; (erewrite Hk; [vm_compute; reflexivity|unfold service_options; repeat first [apply list_elem_of_here|apply list_elem_of_further]|discriminate|discriminate|
    vm_compute; repeat constructor..]).
Defined.

Lemma reload_keeps_witness :
  let c := mkConfig [] "/etc/s.cfg" "" [("logging.config", mkVariable (VString "/etc/old.cfg") false)]%string [] [] [] in
  match @reload reference one_file "/" 0 c with
  | Done ok c' => sfind "logging.config" (m_variables c') = Some (mkVariable (VString "/etc/old.cfg") false)
  | Fault f => f = UncaughtException
  end ∧ ∃ c', @reload reference one_file "/" 0 c = Done true c'.
Proof.
  split; [apply (@reload_keeps reference (reference_store_laws _ _)); reflexivity|].
  eexists. vm_compute. reflexivity.
Defined.

Lemma unregistered_twice_witness :
  @note_options reference "icq.example.org" [mkFileOption "purple.port" "1" true; mkFileOption "purple.port" "2" true] [] (new_config []) =
  Fault UncaughtException.
Proof.
  apply (@unregistered_twice reference); first [reflexivity|apply not_elem_of_nil|right; left].
Defined.
