(* ===== verification/Irc.v ===== *)
(** * The IRC backend

    backends/libcommuni: IRCNetworkPlugin (ircnetworkplugin.cpp), the NetworkPlugin that
    serves what Spectrum asks for with a connection to IRC per user, or per user and
    network, and MyIrcSession (session.cpp), which tells Spectrum what such a connection
    receives. The connection itself, with its buffers and the users of its channels, is the
    library Communi: what it keeps and changes on its own are fields and events of their
    own here, what it is asked to do is logged in [irc_out].

    Texts are in UTF-8, so the conversions between std::string and QString are the
    identity. *)

From S2P Require Import Prelude StdMap Text Protocol Framing NetworkPlugin.
From S2P Require Sqlite.
Import pbnetwork.

(** ** Data *)

Definition sess := nat.
Definition buf := nat.

(** Communi's. *)
Record IrcUser := mkIrcUser {
  u_name : string;
  u_mode : string;
  isAway : bool;
  (** channel()->name() *)
  u_channel : string;
}.

(** [awayCycle], [awayTick]: the userData, absent until somebody sets it *)
Record IrcBuffer := mkIrcBuffer {
  b_name : string;
  b_title : string;
  isChannel : bool;
  awayData : option (Z * Z);
}.

Inductive IrcCommand :=
  | createMessage (target message : string)
  | createCtcpAction (target action : string)
  | createWhois (user : string)
  | createWho (mask : string)
  | createTopic (channel topic : string)
  | createJoin (channel key : string)
  | createPart (channel : string)
  | createAway (reason : string).

Inductive IrcMessage :=
  | IrcPartMessage
  | IrcQuitMessage
  | IrcNickMessage (nick newNick : string)
  | IrcTopicMessage (nick channel topic : string)
  | IrcPrivateMessage (nick target content : string) (isRequest isAction : bool)
  | IrcNumericMessage (code : Z) (parameters : list string)
  | IrcNoticeMessage (nick target content : string)
  | IrcWhoisMessage (nick server realName : string) (channels : list string)
  | IrcNamesMessage
  | OtherMessage.

Inductive SocketError :=
  | ConnectionRefusedError | RemoteHostClosedError | HostNotFoundError | SocketAccessError
  | SocketResourceError | SocketTimeoutError | DatagramTooLargeError | NetworkError
  | SslHandshakeFailedError | UnknownSocketError | OtherSocketError.

Record MyIrcSession := mkSession {
  m_user : string;
  m_suffix : string;
  m_identify : string;
  m_topicData : string;
  m_connected : bool;
  rooms : Z;
  m_rooms : list string;
  m_names : list string;
  m_pms : smap string string;
  m_whois : smap string string;
  (** the users in the IrcUserModel of a buffer *)
  m_userModels : list (buf * list IrcUser);
  (** m_bufferModel->buffers() *)
  buffers : list (buf * IrcBuffer);
  nickName : string;
}.

(** What a connection is asked to do. *)
Inductive irc_out_event :=
  | Connect (s : sess) (host : string) (port : Z) (secure : bool) (password : string)
  | Open (s : sess)
  | SendCommand (s : sess) (c : IrcCommand)
  | SetNickName (s : sess) (nick : string)
  | Close (s : sess)
  | DeleteLater (s : sess).

Record IRCNetworkPlugin := mkIrc {
  (** the base class *)
  np : plugin;
  (** the entries of m_sessions, some of which are null *)
  m_sessions : smap string (option sess);
  irc_sessions : gmap sess MyIrcSession;
  (** the sessions that deleteLater() was called on *)
  irc_doomed : list sess;
  next_session : sess;
  next_buffer : buf;
  m_servers : list string;
  m_currentServer : Z;
  np_identify : string;
  m_firstPing : bool;
  irc_out : list irc_out_event;
}.

Definition with_np f p : IRCNetworkPlugin := mkIrc (f (np p)) (m_sessions p) (irc_sessions p) (irc_doomed p) (next_session p) (next_buffer p) (m_servers p) (m_currentServer p) (np_identify p) (m_firstPing p) (irc_out p).
Definition with_sessions f p : IRCNetworkPlugin := mkIrc (np p) (f (m_sessions p)) (irc_sessions p) (irc_doomed p) (next_session p) (next_buffer p) (m_servers p) (m_currentServer p) (np_identify p) (m_firstPing p) (irc_out p).
Definition with_heap f p : IRCNetworkPlugin := mkIrc (np p) (m_sessions p) (f (irc_sessions p)) (irc_doomed p) (next_session p) (next_buffer p) (m_servers p) (m_currentServer p) (np_identify p) (m_firstPing p) (irc_out p).
Definition with_doomed f p : IRCNetworkPlugin := mkIrc (np p) (m_sessions p) (irc_sessions p) (f (irc_doomed p)) (next_session p) (next_buffer p) (m_servers p) (m_currentServer p) (np_identify p) (m_firstPing p) (irc_out p).
Definition with_next_session x p : IRCNetworkPlugin := mkIrc (np p) (m_sessions p) (irc_sessions p) (irc_doomed p) x (next_buffer p) (m_servers p) (m_currentServer p) (np_identify p) (m_firstPing p) (irc_out p).
Definition with_next_buffer x p : IRCNetworkPlugin := mkIrc (np p) (m_sessions p) (irc_sessions p) (irc_doomed p) (next_session p) x (m_servers p) (m_currentServer p) (np_identify p) (m_firstPing p) (irc_out p).
Definition with_currentServer x p : IRCNetworkPlugin := mkIrc (np p) (m_sessions p) (irc_sessions p) (irc_doomed p) (next_session p) (next_buffer p) (m_servers p) x (np_identify p) (m_firstPing p) (irc_out p).
Definition with_firstPing x p : IRCNetworkPlugin := mkIrc (np p) (m_sessions p) (irc_sessions p) (irc_doomed p) (next_session p) (next_buffer p) (m_servers p) (m_currentServer p) (np_identify p) x (irc_out p).
Definition with_irc_out f p : IRCNetworkPlugin := mkIrc (np p) (m_sessions p) (irc_sessions p) (irc_doomed p) (next_session p) (next_buffer p) (m_servers p) (m_currentServer p) (np_identify p) (m_firstPing p) (f (irc_out p)).

Definition set_identify x o := mkSession (m_user o) (m_suffix o) x (m_topicData o) (m_connected o) (rooms o) (m_rooms o) (m_names o) (m_pms o) (m_whois o) (m_userModels o) (buffers o) (nickName o).
Definition set_topicData x o := mkSession (m_user o) (m_suffix o) (m_identify o) x (m_connected o) (rooms o) (m_rooms o) (m_names o) (m_pms o) (m_whois o) (m_userModels o) (buffers o) (nickName o).
Definition set_connected x o := mkSession (m_user o) (m_suffix o) (m_identify o) (m_topicData o) x (rooms o) (m_rooms o) (m_names o) (m_pms o) (m_whois o) (m_userModels o) (buffers o) (nickName o).
Definition set_rooms f o := mkSession (m_user o) (m_suffix o) (m_identify o) (m_topicData o) (m_connected o) (f (rooms o)) (m_rooms o) (m_names o) (m_pms o) (m_whois o) (m_userModels o) (buffers o) (nickName o).
Definition set_lists f g o := mkSession (m_user o) (m_suffix o) (m_identify o) (m_topicData o) (m_connected o) (rooms o) (f (m_rooms o)) (g (m_names o)) (m_pms o) (m_whois o) (m_userModels o) (buffers o) (nickName o).
Definition set_pms f o := mkSession (m_user o) (m_suffix o) (m_identify o) (m_topicData o) (m_connected o) (rooms o) (m_rooms o) (m_names o) (f (m_pms o)) (m_whois o) (m_userModels o) (buffers o) (nickName o).
Definition set_whois f o := mkSession (m_user o) (m_suffix o) (m_identify o) (m_topicData o) (m_connected o) (rooms o) (m_rooms o) (m_names o) (m_pms o) (f (m_whois o)) (m_userModels o) (buffers o) (nickName o).
Definition set_userModels f o := mkSession (m_user o) (m_suffix o) (m_identify o) (m_topicData o) (m_connected o) (rooms o) (m_rooms o) (m_names o) (m_pms o) (m_whois o) (f (m_userModels o)) (buffers o) (nickName o).
Definition set_buffers f o := mkSession (m_user o) (m_suffix o) (m_identify o) (m_topicData o) (m_connected o) (rooms o) (m_rooms o) (m_names o) (m_pms o) (m_whois o) (m_userModels o) (f (buffers o)) (nickName o).
Definition set_nickName x o := mkSession (m_user o) (m_suffix o) (m_identify o) (m_topicData o) (m_connected o) (rooms o) (m_rooms o) (m_names o) (m_pms o) (m_whois o) (m_userModels o) (buffers o) x.

(** What the options say: service.server_mode, irc_send_pass, irc_away_timeout,
    irc_server (a text, or else a list) and irc_identify. *)
Record IrcConfig := mkIrcConfig {
  server_mode : bool;
  irc_send_pass : bool;
  irc_away_timeout : string;
  irc_server : string;
  irc_server_list : list string;
  irc_identify : option string;
}.

(** Communi, Qt and Boost. *)
Class IrcLibraries := {
  (** the letters of a QString *)
  toLower : string → string;
  toUpper : string → string;
  (** how Communi compares nicknames, and titles of buffers *)
  same_name : string → string → bool;
  (** IrcBufferModel::add of a title *)
  new_buffer : string → IrcBuffer;
  (** lexical_cast<int>, which throws *)
  to_integer : string → option Z;
  replace_all : string → string → string → string;
}.

(** ** Texts *)

(** What is in front of the first [c] and what follows it. *)
Fixpoint split_at (c : ascii) (s : string) : option (string * string) :=
  match s with
  | "" => None
  | String x s =>
      if Ascii.eqb x c then Some (""%string, s)
      else match split_at c s with Some (a, b) => Some (String x a, b) | None => None end
  end.

(** s.substr(0, s.find(c)): the whole text when there is no [c] *)
Definition before (c : ascii) (s : string) : string :=
  match split_at c s with Some (a, _) => a | None => s end.

(** s.substr(s.find(c) + 1): npos + 1 is 0 *)
Definition after (c : ascii) (s : string) : string :=
  match split_at c s with Some (_, b) => b | None => s end.

Definition contains_char (c : ascii) (s : string) : bool := bool_decide (is_Some (split_at c s)).

Definition starts (prefix s : string) : bool := String.prefix prefix s.

Fixpoint drop (n : nat) (s : string) : option string :=
  match n with
  | 0 => Some s
  | S n => match s with "" => None | String _ s => drop n s end
  end.

(** QStringList::join *)
Fixpoint joined (sep : string) (l : list string) : string :=
  match l with
  | [] => ""
  | [s] => s
  | s :: l => (s +:+ sep +:+ joined sep l)%string
  end.

Definition newline : string := String "010" "".

Definition correctNickname (nick : string) : string :=
  match nick with
  | String c rest => if bool_decide (c ∈ ["@"; "+"; "~"; "&"; "%"]%char) then rest else nick
  | "" => ""
  end.

(** split(" ", SkipEmptyParts).value(0) *)
Fixpoint first_word (s : string) : string :=
  match s with
  | String " " s => first_word s
  | _ => before " " s
  end.

(** boost::split at any of some characters *)
Fixpoint split_any (cs : list ascii) (s : string) : list string :=
  match s with
  | "" => [""%string]
  | String x s =>
      if bool_decide (x ∈ cs) then ""%string :: split_any cs s
      else match split_any cs s with piece :: l => String x piece :: l | [] => [] end
  end.

Section irc.
Context `{IrcLibraries, Protobuf} (cfg : IrcConfig).

Abbreviation irc A := (prog IRCNetworkPlugin A).

(** ** MyIrcSession *)

Definition load (s : sess) : irc MyIrcSession := p ← get; deref (irc_sessions p !! s).
Definition store (s : sess) (f : MyIrcSession → MyIrcSession) : irc unit :=
  o ← load s; modify (with_heap <[s := f o]>).

(** A call of m_np, of the base class. *)
Definition call {A} (m : prog plugin A) : irc A :=
  p ← get;
  match m (np p) with
  | Done a np' => put (with_np (λ _, np') p) ;; mret a
  | Fault f => raise f
  end.

Definition irc_emit (e : irc_out_event) : irc unit := modify (with_irc_out (λ l, l ++ [e])).
Definition sendCommand (s : sess) (c : IrcCommand) : irc unit := irc_emit (SendCommand s c).

(** IrcBufferModel::buffers, those that are channels *)
Definition channels (o : MyIrcSession) : list IrcBuffer := filter isChannel (snd <$> buffers o).

Definition find_users (b : buf) (o : MyIrcSession) : option (list IrcUser) :=
  (λ e, snd (snd e)) <$> list_find (λ e, fst e = b) (m_userModels o).

Definition find_buffer (title : string) (o : MyIrcSession) : option buf :=
  (λ e, fst (snd e)) <$> list_find (λ e, Is_true (same_name (b_title (snd e)) title)) (buffers o).

Definition find_name (nick : string) (l : list IrcUser) : option IrcUser :=
  snd <$> list_find (λ u, Is_true (same_name (u_name u) nick)) l.

Definition onBufferAdded (s : sess) (b : buf) (buffer : IrcBuffer) : irc unit :=
  o ← load s;
  (if isChannel buffer then
     match to_integer (irc_away_timeout cfg) with
     | None => raise UncaughtException
     | Some timeout =>
         let cycle := (timeout + zlen (m_userModels o))%Z in
         store s (set_buffers (map (λ e, if decide (fst e = b) then (b, mkIrcBuffer (b_name (snd e)) (b_title (snd e)) (isChannel (snd e)) (Some (cycle, 0%Z))) else e)))
     end
   else mret tt) ;;
  store s (set_userModels (λ l, l ++ [(b, [])])).

Definition onBufferRemoved (s : sess) (b : buf) : irc unit := store s (set_userModels (filter (λ e, fst e ≠ b))).

(** IrcBufferModel::add, which emits added *)
Definition add_buffer (s : sess) (buffer : IrcBuffer) : irc unit :=
  p ← get;
  let b := next_buffer p in
  modify (with_next_buffer (S b)) ;;
  store s (set_buffers (λ l, l ++ [(b, buffer)])) ;;
  onBufferAdded s b buffer.

Definition createBufferModel (s : sess) (host : string) : irc unit := add_buffer s (new_buffer host).

Definition hasIrcUser (channel_ name : string) (o : MyIrcSession) : bool :=
  let channel := match channel_ with String "#" _ => channel_ | _ => String "#" channel_ end in
  match find_buffer channel o with
  | None => false
  | Some b =>
      match find_users b o with
      | None => false
      | Some l => bool_decide (is_Some (find_name name l))
      end
  end.

Definition sendUserToFrontend (s : sess) (user : IrcUser) (statusType : StatusType) (statusMessage newNick : string) : irc unit :=
  o ← load s;
  let target := (String "#" (toLower (u_channel user)) +:+ m_suffix o)%string in
  let op := if String.eqb (u_mode user) "o" then 1%Z else 0%Z in
  let statusType := match statusType with STATUS_NONE => STATUS_NONE | st => if isAway user then STATUS_AWAY else st end in
  call (handleParticipantChanged (m_user o) (u_name user) target op statusType statusMessage newNick "").

Definition onIrcUserChanged (s : sess) (user : IrcUser) : irc unit := sendUserToFrontend s user STATUS_ONLINE "" "".
Definition onIrcUserAdded (s : sess) (user : IrcUser) : irc unit := sendUserToFrontend s user STATUS_ONLINE "" "".
Definition onIrcUserRemoved (s : sess) (user : IrcUser) : irc unit := sendUserToFrontend s user STATUS_NONE "" "".

Definition on_connected (s : sess) : irc unit :=
  store s (set_connected true) ;;
  o ← load s;
  match split_at " " (m_identify o) with
  | Some (to, what) => sendCommand s (createMessage to what)
  | None => mret tt
  end.

Definition addPM (s : sess) (name room : string) : irc unit := store s (set_pms (sinsert name room)).

Definition tryNextServer : irc unit :=
  p ← get;
  match m_servers p with
  | [] => mret tt
  | l => modify (with_currentServer ((m_currentServer p + 1) mod zlen l)%Z)
  end.

Definition socket_reason (error : SocketError) : string :=
  match error with
  | ConnectionRefusedError => "The connection was refused by the peer (or timed out)."
  | RemoteHostClosedError => "The remote host closed the connection."
  | HostNotFoundError => "The host address was not found."
  | SocketAccessError => "The socket operation failed because the application lacked the required privileges."
  | SocketResourceError => "The local system ran out of resources."
  | SocketTimeoutError => "The socket operation timed out."
  | DatagramTooLargeError => "The datagram was larger than the operating system's limit."
  | NetworkError => "An error occurred with the network."
  | SslHandshakeFailedError => "The SSL/TLS handshake failed, so the connection was closed"
  | UnknownSocketError => "An unidentified error occurred."
  | OtherSocketError => "Unknown error."
  end.

(** PARTICIPANT_FLAG_ROOM_NOT_FOUND and PARTICIPANT_FLAG_NOT_AUTHORIZED *)
Definition ROOM_NOT_FOUND : Z := 64.
Definition NOT_AUTHORIZED : Z := 8.

(** The participant of the user, in every channel. *)
Definition leave_channels (s : sess) (flag : Z) (reason : string) : irc unit :=
  o ← load s;
  for_each (channels o) (λ buffer,
    call (handleParticipantChanged (m_user o) (nickName o) (b_title buffer +:+ m_suffix o)%string flag STATUS_NONE reason "" "")).

Definition on_socketError (s : sess) (error : SocketError) : irc unit :=
  o ← load s;
  (if String.eqb (m_suffix o) "" then
     call (handleDisconnected (m_user o) 0 (socket_reason error)) ;;
     tryNextServer
   else leave_channels s ROOM_NOT_FOUND (socket_reason error)) ;;
  store s (set_connected false).

Definition on_disconnected (s : sess) : irc unit :=
  o ← load s;
  (if String.eqb (m_suffix o) "" then call (handleDisconnected (m_user o) 0 "") ;; tryNextServer else mret tt) ;;
  store s (set_connected false).

Definition getIrcUser (b : buf) (nick : string) (o : MyIrcSession) : option IrcUser :=
  find_users b o ≫= find_name (correctNickname nick).

Definition on_nickChanged (s : sess) (b : buf) (nick newNick : string) : irc unit :=
  o ← load s;
  match getIrcUser b nick o with
  | None => mret tt
  | Some user => sendUserToFrontend s user STATUS_ONLINE "" newNick
  end.

Definition on_topicChanged (s : sess) (nick channel topic : string) : irc unit :=
  o ← load s;
  call (handleSubject (m_user o) (toLower channel +:+ m_suffix o)%string topic (correctNickname nick)).

Definition sendWhoisCommand (s : sess) (channel to : string) : irc unit :=
  store s (set_whois (sinsert to channel)) ;;
  sendCommand s (createWhois to).

Definition on_namesMessageReceived (s : sess) (b : buf) (name : string) : irc unit :=
  o ← load s;
  match find_users b o with
  | None => mret tt
  | Some l => for_each l (λ user, sendUserToFrontend s user STATUS_ONLINE "" "") ;; sendCommand s (createWho name)
  end.

(** handleMessage with its defaults *)
Definition send_text (user legacyName msg nickname : string) (pm : bool) : irc unit :=
  call (handleMessage user legacyName msg nickname "" "" false pm false []).

(** The first channel a nickname is in, of all buffers. *)
Definition room_of (nickname : string) (o : MyIrcSession) : option string :=
  (λ e, String "#" (b_name (snd (snd e)))) <$>
  list_find (λ e, Is_true (match find_users (fst e) o with Some l => bool_decide (is_Some (find_name nickname l)) | None => false end)) (buffers o).

Definition sendMessageToFrontend (s : sess) (channel nick msg : string) : irc unit :=
  o ← load s;
  let nickname := correctNickname nick in
  if starts "#" channel then send_text (m_user o) (channel +:+ m_suffix o)%string msg nickname false
  else
    match sfind nickname (m_pms o) with
    | Some pm =>
        let room := before "@" (before "/" pm) in
        if hasIrcUser room nickname o then send_text (m_user o) (room +:+ m_suffix o)%string msg nickname true
        else send_text (m_user o) (nickname +:+ m_suffix o)%string msg "" false
    | None =>
        match room_of nickname o with
        | Some room =>
            addPM s nickname (room +:+ "/" +:+ nickname)%string ;;
            send_text (m_user o) (room +:+ m_suffix o)%string msg nickname true
        | None => send_text (m_user o) (nickname +:+ m_suffix o)%string msg "" false
        end
    end.

Definition on_whoisMessageReceived (s : sess) (nickname server realName : string) (chans : list string) : irc unit :=
  o ← load s;
  match sfind nickname (m_whois o) with
  | None => mret tt
  | Some channel =>
      let msg := (nickname +:+ " is connected to " +:+ server +:+ " (" +:+ realName +:+ ")" +:+ newline +:+
                  nickname +:+ " is a user on channels: " +:+ joined ", " chans)%string in
      sendMessageToFrontend s channel "whois" msg ;;
      store s (set_whois (serase nickname))
  end.

Definition on_messageReceived (s : sess) (nick target content : string) (isRequest isAction : bool) : irc unit :=
  if isRequest && bool_decide (toUpper (first_word content) ∈ ["PING"; "TIME"; "VERSION"]%string) then mret tt
  else sendMessageToFrontend s (toLower target) nick (if isAction then "/me " +:+ content else content)%string.

Definition on_noticeMessageReceived (s : sess) (nick target content : string) : irc unit :=
  sendMessageToFrontend s (toLower target) nick content.

(** parameters[i]; QList does not check. *)
Definition parameter (parameters : list string) (i : nat) : irc string :=
  match parameters !! i with Some x => mret x | None => raise OutOfRange end.

Definition rename_in (s : sess) (o : MyIrcSession) (buffer : IrcBuffer) : irc unit :=
  let room := (b_title buffer +:+ m_suffix o)%string in
  let again := (nickName o +:+ "_")%string in
  call (handleRoomNicknameChanged (m_user o) room again) ;;
  call (handleParticipantChanged (m_user o) (nickName o) room 0 STATUS_ONLINE "" again "").

Definition clear_lists (s : sess) : irc unit := store s (set_lists (λ _, []) (λ _, [])).

Definition on_numericMessageReceived (s : sess) (code : Z) (parameters : list string) : irc unit :=
  o ← load s;
  match code with
  | 1%Z => call (handleConnected (m_user o))
  | 332%Z => topic ← parameter parameters 2; store s (set_topicData topic)
  | 333%Z =>
      nick ← parameter parameters 2;
      channel ← parameter parameters 1;
      call (handleSubject (m_user o) (toLower channel +:+ m_suffix o)%string (m_topicData o) (before "/" (before "!" nick)))
  | 401%Z | 402%Z =>
      nick ← parameter parameters 1;
      match sfind nick (m_whois o) with
      | None => mret tt
      | Some channel =>
          sendMessageToFrontend s channel "whois" (nick +:+ ": No such client")%string ;;
          store s (set_whois (serase nick))
      end
  | 432%Z => call (handleDisconnected (m_user o) 1 "Erroneous Nickname")
  | 433%Z | 436%Z =>
      for_each (channels o) (rename_in s o) ;;
      irc_emit (SetNickName s (nickName o +:+ "_")%string) ;;
      irc_emit (Open s)
  | 464%Z =>
      leave_channels s NOT_AUTHORIZED "" ;;
      (if String.eqb (m_suffix o) "" then call (handleDisconnected (m_user o) 1 "Password incorrect") else mret tt) ;;
      clear_lists s
  | 321%Z => clear_lists s
  | 322%Z =>
      room ← parameter parameters 1;
      store s (set_lists (λ l, l ++ [room]) (λ l, l ++ [room]))
  | 323%Z => call (handleRoomList "" (m_rooms o) (m_names o))
  | _ => mret tt
  end.

(** One buffer of awayTimeout; a variant that is absent is 0. *)
Definition away_tick (buffer : IrcBuffer) : IrcBuffer * bool :=
  let '(cycle, tick) := default (0%Z, 0%Z) (awayData buffer) in
  let due := (tick =? cycle)%Z in
  (mkIrcBuffer (b_name buffer) (b_title buffer) (isChannel buffer) (Some (cycle, ((if due then 0 else tick) + 1)%Z)), due).

Definition awayTimeout (s : sess) : irc unit :=
  o ← load s;
  for_each (buffers o) (λ e,
    let '(b, buffer) := e in
    if isChannel buffer then
      let '(buffer, due) := away_tick buffer in
      when due (sendCommand s (createWho (b_title buffer))) ;;
      store s (set_buffers (map (λ e, if decide (fst e = b) then (b, buffer) else e)))
    else mret tt).

Definition onMessageReceived (s : sess) (b : buf) (message : IrcMessage) : irc unit :=
  match message with
  | IrcPartMessage | IrcQuitMessage | OtherMessage => mret tt
  | IrcNickMessage nick newNick => on_nickChanged s b nick newNick
  | IrcTopicMessage nick channel topic => on_topicChanged s nick channel topic
  | IrcPrivateMessage nick target content isRequest isAction => on_messageReceived s nick target content isRequest isAction
  | IrcNumericMessage code parameters => on_numericMessageReceived s code parameters
  | IrcNoticeMessage nick target content => on_noticeMessageReceived s nick target content
  | IrcWhoisMessage nick server realName chans => on_whoisMessageReceived s nick server realName chans
  | IrcNamesMessage =>
      o ← load s;
      on_namesMessageReceived s b (default "" ((λ e, b_name (snd (snd e))) <$> list_find (λ e, fst e = b) (buffers o)))
  end.

(** ** IRCNetworkPlugin *)

(** m_sessions[name], which makes a null entry for a new name *)
Definition at_session (name : string) : irc (option sess) :=
  p ← get;
  match sfind name (m_sessions p) with
  | Some entry => mret entry
  | None => modify (with_sessions (sinsert name None)) ;; mret None
  end.

(** The host, the port and whether to use SSL. *)
Definition connect_to (hostname : string) : string * Z * bool :=
  match split_any [":"; "/"]%char hostname with
  | [host; port_text] =>
      if String.eqb host "" || String.eqb port_text "" then (hostname, 6667%Z, false)
      else
        let port := to_int (Sqlite.atoi port_text) in
        let invalid := (port <? 1)%Z || (65535 <? port)%Z in
        if starts "+" port_text || (port =? 6697)%Z then (host, if invalid then 6697%Z else port, true)
        else (host, if invalid then 6667%Z else port, false)
  | _ => (hostname, 6667%Z, false)
  end.

(** new MyIrcSession, with setNickName before the connection is opened *)
Definition new_session (user suffix nickname : string) : irc sess :=
  p ← get;
  let s := next_session p in
  modify (with_next_session (S s)) ;;
  modify (with_heap <[s := mkSession user suffix "" "" false 0 [] [] [] [] [] [] nickname]>) ;;
  mret s.

Definition identify_text (identify password nickname : string) : string :=
  replace_all (replace_all identify "$password" password) "$name" nickname.

Definition createSession (user hostname nickname password suffix : string) : irc sess :=
  s ← new_session user suffix nickname;
  p ← get;
  let '(host, port, secure) := connect_to hostname in
  let with_pass := negb (String.eqb password "") && irc_send_pass cfg in
  irc_emit (Connect s host port secure (if with_pass then password else "")) ;;
  when (negb (String.eqb password "") && negb (irc_send_pass cfg))
    (store s (set_identify (identify_text (np_identify p) password nickname))) ;;
  createBufferModel s host ;;
  mret s.

Definition handleLoginRequest (user legacyName password : string) : irc unit :=
  p ← get;
  match m_servers p with
  | [] => call (handleConnected user)
  | servers =>
      entry ← at_session user;
      match entry with
      | Some _ => mret tt
      | None =>
          match servers !! Z.to_nat (m_currentServer p) with
          | None => raise OutOfRange
          | Some server =>
              s ← createSession user server legacyName password "";
              modify (with_sessions (sinsert user (Some s))) ;;
              irc_emit (Open s)
          end
      end
  end.

Definition handleVCardRequest (user legacyName : string) (id : Z) : irc unit := call (handleVCard user id legacyName "" "" "").

(** close(), deleteLater() and erase() *)
Definition close_session (name : string) (s : sess) : irc unit :=
  irc_emit (Close s) ;;
  irc_emit (DeleteLater s) ;;
  modify (with_doomed (λ l, l ++ [s])) ;;
  modify (with_sessions (serase name)).

Definition handleLogoutRequest (user legacyName : string) : irc unit :=
  entry ← at_session user;
  match entry with
  | None => mret tt
  | Some s => close_session user s
  end.

Definition gateway (p : IRCNetworkPlugin) : bool := negb (server_mode cfg) && bool_decide (m_servers p = []).

Definition getSessionName (user legacyName : string) (p : IRCNetworkPlugin) : string :=
  if gateway p then before "/" (user +:+ after "@" legacyName)%string else user.

Definition getTargetName (legacyName : string) : string :=
  if contains_char "/" legacyName then after "/" legacyName else before "@" legacyName.

(** message.substr(n), which throws std::out_of_range *)
Definition substr (n : nat) (message : string) : irc string :=
  match drop n message with Some rest => mret rest | None => raise UncaughtException end.

(** The loop over the lines, from [cur] on: a newline there is passed, and what is in
    front of the next one is sent. *)
Fixpoint send_lines (fuel : nat) (s : sess) (target cur : string) : irc unit :=
  match fuel with
  | 0 => mret tt
  | S fuel =>
      let cur := match cur with String "010" rest => rest | _ => cur end in
      match split_at "010" cur with
      | None => sendCommand s (createMessage target cur)
      | Some (line, rest) => sendCommand s (createMessage target line) ;; send_lines fuel s target (String "010" rest)
      end
  end.

Definition handleMessageSendRequest (user legacyName message : string) : irc unit :=
  p ← get;
  let session := getSessionName user legacyName p in
  entry ← at_session session;
  match entry with
  | None => mret tt
  | Some s =>
      let target := getTargetName legacyName in
      when (contains_char "/" legacyName) (addPM s target (before "@" legacyName)) ;;
      let echo := when (starts "#" target) (o ← load s; send_text user legacyName message (nickName o) false) in
      if starts "/me" message then
        action ← substr 4 message;
        sendCommand s (createCtcpAction target action) ;;
        echo
      else if starts "/whois" message || starts ".whois" message then
        to ← substr 7 message;
        sendWhoisCommand s target to
      else
        send_lines (S (String.length message)) s target message ;;
        echo
  end.

Definition handleRoomSubjectChangedRequest (user room message : string) : irc unit :=
  p ← get;
  entry ← at_session (getSessionName user room p);
  match entry with
  | None => mret tt
  | Some s => sendCommand s (createTopic (getTargetName room) message)
  end.

(** What a join does once there is a session. *)
Definition join_with_session (user room nickname password target : string) (s : sess) (created : bool) : irc unit :=
  sendCommand s (createJoin target password) ;;
  store s (set_rooms (λ n, n + 1)%Z) ;;
  when created (irc_emit (Open s)) ;;
  o ← load s;
  if String.eqb nickname (nickName o) then mret tt
  else
    call (handleRoomNicknameChanged user room (nickName o)) ;;
    call (handleParticipantChanged user nickname room 0 STATUS_ONLINE "" (nickName o) "").

Definition handleJoinRoomRequest (user room nickname password : string) : irc unit :=
  p ← get;
  let session := getSessionName user room p in
  let target := getTargetName room in
  entry ← at_session session;
  match entry with
  | Some s => join_with_session user room nickname password target s false
  | None =>
      match m_servers p, split_at "@" room with
      | [], Some (_, host) =>
          s ← createSession user host nickname "" (String "@" host);
          modify (with_sessions (sinsert session (Some s))) ;;
          join_with_session user room nickname password target s true
      | _, _ => mret tt
      end
  end.

Definition handleLeaveRoomRequest (user room : string) : irc unit :=
  p ← get;
  let session := getSessionName user room p in
  entry ← at_session session;
  match entry with
  | None => mret tt
  | Some s =>
      sendCommand s (createPart (getTargetName room)) ;;
      store s (set_rooms (λ n, n - 1)%Z) ;;
      o ← load s;
      if (rooms o <=? 0)%Z && bool_decide (m_servers p = []) then close_session session s else mret tt
  end.

Definition handleStatusChangeRequest (user : string) (status : StatusType) (statusMessage : string) : irc unit :=
  entry ← at_session user;
  match entry with
  | None => mret tt
  | Some s =>
      match status with
      | STATUS_AWAY => sendCommand s (createAway (if String.eqb statusMessage "" then "Away" else statusMessage))
      | _ => sendCommand s (createAway "")
      end
  end.

(** The virtual functions; the base class does nothing for the others but to exit. *)
Definition serve (r : request) : irc unit :=
  match r with
  | LoginRequest user legacyName password _ => handleLoginRequest user legacyName password
  | LogoutRequest user legacyName => handleLogoutRequest user legacyName
  | StatusChangeRequest user status statusMessage => handleStatusChangeRequest user status statusMessage
  | MessageSendRequest user legacyName message _ _ => handleMessageSendRequest user legacyName message
  | RoomSubjectChangedRequest user room message => handleRoomSubjectChangedRequest user room message
  | JoinRoomRequest user room nickname password => handleJoinRoomRequest user room nickname password
  | LeaveRoomRequest user room => handleLeaveRoomRequest user room
  | VCardRequest user legacyName id => handleVCardRequest user legacyName id
  | _ => mret tt
  end.

(** *** The connection to Spectrum *)

Context `{ProcessMemory}.

Definition requests_of (l : list plugin_event) : list request :=
  omap (λ e, match e with Request r => Some r | SendData _ => None end) l.

(** A frame: the request in it is served before the next frame is read. *)
Definition dispatch (wrapper : WrapperMessage.t) : irc bool :=
  p ← get;
  let seen := length (p_log (np p)) in
  go ← call (NetworkPlugin.dispatch wrapper);
  p ← get;
  for_each (requests_of (skipn seen (p_log (np p)))) serve ;;
  mret go.

Definition plugin_config : PluginConfig := mkPluginConfig true false true false true [].

Definition readData (data : bytes) : irc unit :=
  match data with
  | [] => mret tt
  | _ =>
      p ← get;
      (if m_firstPing p then modify (with_firstPing false) ;; call (sendConfig plugin_config) else mret tt) ;;
      p ← get;
      rest ← handle_data_read ParseFromString false dispatch (m_data (np p)) data;
      call (set_data rest)
  end.

(** ** What happens to a backend *)

Inductive slot :=
  | Connected
  | Disconnected
  | SocketFailed (error : SocketError)
  | BufferAdded (buffer : IrcBuffer)
  | BufferRemoved (b : buf)
  | UserAdded (b : buf) (user : IrcUser)
  | UserRemoved (b : buf) (user : IrcUser)
  | UserChanged (user : IrcUser)
  | MessageReceived (b : buf) (message : IrcMessage)
  | AwayTimeout
  (** Communi takes another nickname *)
  | NickNameIs (nick : string).

Inductive irc_input :=
  | DataRead (data : bytes)
  | Served (r : request)
  | Signal (s : sess) (x : slot)
  (** the event loop deletes a session *)
  | Collected (s : sess).

Definition in_model (b : buf) (f : list IrcUser → list IrcUser) : MyIrcSession → MyIrcSession :=
  set_userModels (map (λ e, if decide (fst e = b) then (b, f (snd e)) else e)).

Definition run_slot (s : sess) (x : slot) : irc unit :=
  match x with
  | Connected => on_connected s
  | Disconnected => on_disconnected s
  | SocketFailed error => on_socketError s error
  | BufferAdded buffer => add_buffer s buffer
  | BufferRemoved b => store s (set_buffers (filter (λ e, fst e ≠ b))) ;; onBufferRemoved s b
  | UserAdded b user => store s (in_model b (λ l, l ++ [user])) ;; onIrcUserAdded s user
  | UserRemoved b user => store s (in_model b (filter (λ u, u_name u ≠ u_name user))) ;; onIrcUserRemoved s user
  | UserChanged user => onIrcUserChanged s user
  | MessageReceived b message => onMessageReceived s b message
  | AwayTimeout => awayTimeout s
  | NickNameIs nick => store s (set_nickName nick)
  end.

(** The signals of an object that is gone reach nobody. *)
Definition react (i : irc_input) : irc unit :=
  match i with
  | DataRead data => readData data
  | Served r => serve r
  | Signal s x =>
      p ← get;
      if bool_decide (is_Some (irc_sessions p !! s)) then run_slot s x else mret tt
  | Collected s =>
      p ← get;
      when (bool_decide (s ∈ irc_doomed p)) (modify (with_heap (delete s)))
  end.

(** The constructor. *)
Definition servers_of : list string := if String.eqb (irc_server cfg) "" then irc_server_list cfg else [irc_server cfg].

Definition new_plugin (p : plugin) : IRCNetworkPlugin :=
  mkIrc p [] ∅ [] 0 0 servers_of 0 (default "NickServ identify $password" (irc_identify cfg))%string true [].

Fixpoint run (inputs : list irc_input) : irc unit :=
  match inputs with
  | [] => mret tt
  | i :: inputs => react i ;; run inputs
  end.
End irc.
