(* ===== verification/IrcTheorems.v ===== *)
(** * The IRC backend: properties

    The table of sessions and the counts of rooms stay sound; lines, names of sessions and
    private messages; what stops a backend. *)

From S2P Require Import Prelude StdMap Text Protocol Framing NetworkPlugin Irc.
From S2P Require ReferenceCodec.
Import pbnetwork.

(** ** Sound states *)

(** The session under a name; null entries do not count. *)
Definition entry (name : string) (p : IRCNetworkPlugin) : option sess := mjoin (sfind name (m_sessions p)).

Definition alive (s : sess) (p : IRCNetworkPlugin) : Prop := is_Some (irc_sessions p !! s).

(** A session has a room as long as networks are chosen by rooms, but for [x], which is
    being joined or left. *)
Record sound_but (x : option sess) (p : IRCNetworkPlugin) : Prop := {
  heap_below s : alive s p → s < next_session p;
  doomed_below s : s ∈ irc_doomed p → s < next_session p;
  entry_alive name s : entry name p = Some s → alive s p ∧ s ∉ irc_doomed p;
  entries_apart name name' s : entry name p = Some s → entry name' p = Some s → name = name';
  server_index : m_servers p = [] ∨ (0 <= m_currentServer p < zlen (m_servers p))%Z;
  entry_rooms name s o : m_servers p = [] → entry name p = Some s → irc_sessions p !! s = Some o →
    ((if decide (x = Some s) then 0 else 1) <= rooms o)%Z }.

Abbreviation irc_sound := (sound_but None).

(** The exceptions nobody catches, and the parameters of a numeric reply that are not
    there. *)
Definition irc_fault (f : fault) : Prop := f = UncaughtException ∨ f = OutOfRange.

(** ** Programs that leave the table and the rooms alone *)

Record calm (p0 p : IRCNetworkPlugin) : Prop := {
  calm_entry name : entry name p = entry name p0;
  calm_rooms s : rooms <$> irc_sessions p !! s = rooms <$> irc_sessions p0 !! s;
  calm_doomed : irc_doomed p = irc_doomed p0;
  calm_next : next_session p = next_session p0;
  calm_servers : m_servers p = m_servers p0;
  calm_index : m_currentServer p = m_currentServer p0 ∨ (m_servers p ≠ [] ∧ 0 <= m_currentServer p < zlen (m_servers p))%Z }.

Lemma calm_refl p : calm p p.
Proof. split; auto. Qed.

Lemma calm_alive s p0 p : calm p0 p → alive s p ↔ alive s p0.
Proof.
  intros Hc. unfold alive. pose proof (calm_rooms _ _ Hc s) as Hr.
  destruct (irc_sessions p !! s), (irc_sessions p0 !! s); simplify_eq/=; split; intros [? ?]; eauto; done.
Qed.

Lemma calm_sound x p0 p : sound_but x p0 → calm p0 p → sound_but x p.
Proof.
  intros Hs Hc. pose proof Hc as [He Hr Hd Hn Hv Hi]. split.
  - intros s Ha. rewrite Hn. by apply (heap_below x p0 Hs), (calm_alive s p0 p Hc).
  - intros s. rewrite Hd, Hn. apply (doomed_below x p0 Hs).
  - intros name s. rewrite He, Hd, (calm_alive s p0 p Hc). apply (entry_alive x p0 Hs).
  - intros name name' s. rewrite !He. apply (entries_apart x p0 Hs).
  - rewrite Hv in *. destruct Hi as [->|[??]]; [apply (server_index x p0 Hs)|by right].
  - intros name s o. rewrite Hv, He. intros Hv0 He0 Ho. pose proof (Hr s) as Hrs. rewrite Ho in Hrs.
    destruct (irc_sessions p0 !! s) as [o0|] eqn:E; [|done]. injection Hrs as ->. by apply (entry_rooms x p0 Hs name s o0).
Qed.

Lemma at_session_run `{IrcLibraries, Protobuf} name p : ∃ p', at_session name p = Done (entry name p) p' ∧ calm p p' ∧ irc_out p' = irc_out p.
Proof.
  unfold at_session, entry. rewrite bind_run. cbn [get]. destruct (sfind name (m_sessions p)) as [e|] eqn:E.
  - exists p. split; [done|]. split; [apply calm_refl|done].
  - rewrite bind_run. cbn [modify mret prog_ret]. eexists. split; [done|]. split; [|done]. split; auto.
    intros name'. unfold entry. simpl. destruct (decide (name' = name)) as [->|]; [by rewrite sfind_sinsert_eq, E|].
    by rewrite sfind_sinsert_ne.
Qed.

Section calm_programs.
Context `{IrcLibraries, Protobuf} (cfg : IrcConfig) (p0 : IRCNetworkPlugin) (s : sess).

Definition quiet (p : IRCNetworkPlugin) : Prop := calm p0 p ∧ alive s p.

Abbreviation quietly m := (spec irc_fault quiet m (λ _, quiet)).

Lemma quiet_load : quietly (load s).
Proof. intros p [Hc [o Ho]]. unfold load. rewrite bind_run. cbn [get]. rewrite Ho. simpl. by split; [|exists o]. Qed.

Lemma quiet_store f : (∀ o, rooms (f o) = rooms o) → quietly (store s f).
Proof.
  intros Hf p [Hc [o Ho]]. unfold store, load. rewrite !bind_run. cbn [get]. rewrite Ho. simpl. split.
  - destruct Hc as [He Hr Hd Hn Hv Hi]. split; try done. intros s'. simpl. destruct (decide (s' = s)) as [->|].
    + rewrite lookup_insert_eq, <- Hr, Ho. simpl. by rewrite Hf.
    + by rewrite lookup_insert_ne by done.
  - unfold alive. simpl. rewrite lookup_insert_eq. by eexists.
Qed.

Lemma quiet_call {A} (m : prog plugin A) : (∀ q, ∃ a q', m q = Done a q') → quietly (call m).
Proof.
  intros Hm p [Hc Ha]. unfold call. rewrite bind_run. cbn [get]. destruct (Hm (np p)) as (a & q' & ->).
  rewrite bind_run. cbn [put]. split; [|done]. destruct Hc. by split.
Qed.

Lemma quiet_emit e : quietly (irc_emit e).
Proof. apply spec_modify. intros p [[] Ha]. by split. Qed.

Lemma quiet_next : quietly tryNextServer.
Proof.
  intros p [Hc Ha]. unfold tryNextServer. rewrite bind_run. cbn [get]. destruct (m_servers p) as [|x l] eqn:E; [by split|].
  simpl. split; [|done]. destruct Hc as [He Hr Hd Hn Hv Hi]. split; try done. right. simpl. rewrite E. split; [done|].
  apply Z.mod_pos_bound. unfold zlen. simpl. lia.
Qed.

End calm_programs.

(** One step through such a program. *)
Ltac quiet_step :=
  lazymatch goal with
  | |- spec _ _ (load _) _ => apply quiet_load
  | |- spec _ _ (store _ _) _ => apply quiet_store; by intros ?
  | |- spec _ _ (irc_emit _) _ => apply quiet_emit
  | |- spec _ _ (sendCommand _ _) _ => apply quiet_emit
  | |- spec _ _ tryNextServer _ => apply quiet_next
  | |- spec _ _ (call _) _ => apply quiet_call; intros q; by eexists _, _
  | |- spec _ _ (raise UncaughtException) _ => by intros ? ?; left
  | |- spec _ _ (raise OutOfRange) _ => by intros ? ?; right
  | _ => walk_step
  end.

Ltac quiet_walk := repeat quiet_step; try done.

Section session_programs.
Context `{IrcLibraries, Protobuf} (cfg : IrcConfig) (p0 : IRCNetworkPlugin) (s : sess).

Abbreviation quietly m := (spec irc_fault (quiet p0 s) m (λ _, quiet p0 s)).

Lemma quiet_add_buffer buffer : quietly (add_buffer cfg s buffer).
Proof.
  unfold add_buffer, onBufferAdded. eapply spec_keep; [quiet_walk|intros p].
  eapply spec_keep; [|intros _; quiet_walk].
  apply spec_modify. intros p' [[] Ha]. by split.
Qed.

Lemma quiet_sendUser user st msg nick : quietly (sendUserToFrontend s user st msg nick).
Proof. unfold sendUserToFrontend. quiet_walk. Qed.

Lemma quiet_text user legacyName msg nickname pm : quietly (send_text user legacyName msg nickname pm).
Proof. unfold send_text. quiet_walk. Qed.

Lemma quiet_message channel nick msg : quietly (sendMessageToFrontend s channel nick msg).
Proof. unfold sendMessageToFrontend, addPM. cbv zeta. repeat lazymatch goal with
  | |- spec _ _ (send_text _ _ _ _ _) _ => apply quiet_text
  | _ => quiet_step
  end; done. Qed.

Lemma quiet_parameter l i : quietly (parameter l i).
Proof. unfold parameter. quiet_walk. Qed.

End session_programs.

Ltac session_step :=
  lazymatch goal with
  | |- spec _ _ (sendMessageToFrontend _ _ _ _) _ => apply quiet_message
  | |- spec _ _ (sendUserToFrontend _ _ _ _ _) _ => apply quiet_sendUser
  | |- spec _ _ (parameter _ _) _ => apply quiet_parameter
  | _ => quiet_step
  end.

Section signal_programs.
Context `{IrcLibraries, Protobuf} (cfg : IrcConfig) (p0 : IRCNetworkPlugin) (s : sess).

Abbreviation quietly m := (spec irc_fault (quiet p0 s) m (λ _, quiet p0 s)).

Lemma quiet_numeric code parameters : quietly (on_numericMessageReceived s code parameters).
Proof.
  unfold on_numericMessageReceived, leave_channels, clear_lists, rename_in. cbv zeta.
  repeat session_step; done.
Qed.

Lemma quiet_received b message : quietly (onMessageReceived s b message).
Proof.
  destruct message; cbn [onMessageReceived]; try apply quiet_numeric;
    unfold on_nickChanged, on_topicChanged, on_messageReceived, on_noticeMessageReceived, on_whoisMessageReceived, on_namesMessageReceived; cbv zeta;
    repeat session_step; done.
Qed.

Lemma quiet_slot x : quietly (run_slot cfg s x).
Proof.
  destruct x; cbn [run_slot]; try apply quiet_add_buffer; try apply quiet_received;
    unfold on_connected, on_disconnected, on_socketError, leave_channels, onBufferRemoved, onIrcUserAdded, onIrcUserRemoved,
    onIrcUserChanged, awayTimeout; repeat session_step; done.
Qed.
End signal_programs.

(** ** Requests *)

Section requests.
Context `{IrcLibraries, Protobuf} (cfg : IrcConfig).

Abbreviation soundly m := (spec irc_fault irc_sound m (λ _, irc_sound)).

(** A sound state with a session under a name. *)
Definition holds_session (x : option sess) (name : string) (s : sess) (p : IRCNetworkPlugin) : Prop :=
  sound_but x p ∧ entry name p = Some s.

Lemma holds_calm x name s p0 p : holds_session x name s p0 → calm p0 p → holds_session x name s p.
Proof. intros [Hs He] Hc. split; [by eapply calm_sound|]. by rewrite (calm_entry _ _ Hc). Qed.

Lemma holds_quietly {A} x name s (m : prog _ A) : (∀ p0, spec irc_fault (quiet p0 s) m (λ _, quiet p0 s)) →
  spec irc_fault (holds_session x name s) m (λ _, holds_session x name s).
Proof.
  intros Hm p Hp. assert (quiet p s p) as Hq by (split; [apply calm_refl|]; destruct Hp as [Hs He]; apply (entry_alive x p Hs name s He)).
  specialize (Hm p p Hq). destruct (m p) as [a p'|f]; [|done]. apply (holds_calm x name s p p' Hp), Hm.
Qed.

Lemma sound_weaker x p : irc_sound p → sound_but x p.
Proof.
  intros [H1 H2 H3 H4 H5 H6]. split; try done. intros name s o Hv He Ho. specialize (H6 name s o Hv He Ho). rewrite decide_False in H6 by done.
  case_decide; lia.
Qed.

(** The entry of a request: a null one ends it, a session is used. *)
Lemma sound_with_session name (k : sess → prog _ unit) :
  (∀ s, spec irc_fault (holds_session None name s) (k s) (λ _, irc_sound)) →
  soundly (e ← at_session name; match e with None => mret tt | Some s => k s end).
Proof.
  intros Hk p Hp. destruct (at_session_run name p) as (p' & Hrun & Hc & _). rewrite (bind_done _ _ _ _ _ Hrun).
  pose proof (calm_sound None p p' Hp Hc) as Hp'. destruct (entry name p) as [s|] eqn:E; [|done].
  apply Hk. split; [done|]. by rewrite (calm_entry _ _ Hc).
Qed.

Lemma sound_quietly name (k : sess → prog _ unit) :
  (∀ s p0, spec irc_fault (quiet p0 s) (k s) (λ _, quiet p0 s)) →
  soundly (e ← at_session name; match e with None => mret tt | Some s => k s end).
Proof.
  intros Hk. apply sound_with_session. intros s. eapply spec_weaken; [by apply holds_quietly|done|]. by intros _ p [].
Qed.

Lemma close_sound x name s : x = None ∨ x = Some s → spec irc_fault (holds_session x name s) (close_session name s) (λ _, irc_sound).
Proof.
  intros Hx p [Hs He]. unfold close_session. rewrite !bind_run. simpl. destruct Hs as [H1 H2 H3 H4 H5 H6].
  assert (∀ name', entry name' (with_sessions (serase name) p) = if decide (name' = name) then None else entry name' p) as Hentry.
  { intros name'. unfold entry. simpl. case_decide as E; [by rewrite E, sfind_serase_eq|]. by rewrite sfind_serase_ne. }
  assert (∀ name' s', entry name' (with_sessions (serase name) p) = Some s' → entry name' p = Some s' ∧ s' ≠ s) as Hkeep.
  { intros name' s'. rewrite Hentry. case_decide as E; [done|]. intros He'. split; [done|]. intros ->. by apply E, (H4 name' name s). }
  split; try done.
  - intros s'. simpl. rewrite elem_of_app, list_elem_of_singleton. intros [?| ->]; [by apply H2|]. by apply H1, (H3 name s).
  - intros name' s' He'. destruct (Hkeep name' s' He') as [He0 Hne]. destruct (H3 name' s' He0) as [Ha Hd]. split; [done|].
    simpl. rewrite elem_of_app, list_elem_of_singleton. by intros [?|?].
  - intros name1 name2 s' E1 E2. apply Hkeep in E1 as [E1 _], E2 as [E2 _]. by apply (H4 name1 name2 s').
  - intros name' s' o Hv He' Ho. destruct (Hkeep name' s' He') as [He0 Hne]. specialize (H6 name' s' o Hv He0 Ho).
    simpl. rewrite decide_False in H6; [done|]. destruct Hx; congruence.
Qed.

Lemma logout_sound user legacyName : soundly (handleLogoutRequest user legacyName).
Proof. apply sound_with_session. intros s. apply close_sound. by left. Qed.

Lemma subject_sound user room message : soundly (handleRoomSubjectChangedRequest cfg user room message).
Proof.
  intros p. unfold handleRoomSubjectChangedRequest. rewrite bind_run. cbn [get].
  apply sound_quietly. intros s p0. quiet_walk.
Qed.

Lemma status_sound user status msg : soundly (handleStatusChangeRequest user status msg).
Proof. apply sound_quietly. intros s p0. quiet_walk. Qed.

Lemma quiet_lines p0 fuel s target cur : spec irc_fault (quiet p0 s) (send_lines fuel s target cur) (λ _, quiet p0 s).
Proof.
  revert cur. induction fuel as [|fuel IH]; intros cur; cbn [send_lines]; cbv zeta; [quiet_walk|].
  destruct (split_at _ _) as [[line rest]|]; [|quiet_walk]. eapply spec_keep; [quiet_walk|intros _; apply IH].
Qed.

Lemma message_sound user legacyName message : soundly (handleMessageSendRequest cfg user legacyName message).
Proof.
  intros p. unfold handleMessageSendRequest. rewrite bind_run. cbn [get].
  apply sound_quietly. intros s p0. unfold addPM, sendWhoisCommand, substr, send_text. cbv zeta.
  repeat lazymatch goal with
  | |- spec _ _ (send_lines _ _ _ _) _ => apply quiet_lines
  | _ => quiet_step
  end; done.
Qed.

(** *** Sessions that are made *)

(** The state right after a session is made. *)
Definition made (user suffix nickname : string) (p : IRCNetworkPlugin) : IRCNetworkPlugin :=
  with_heap <[next_session p := mkSession user suffix "" "" false 0 [] [] [] [] [] [] nickname]> (with_next_session (S (next_session p)) p).

Lemma createSession_run user hostname nickname password suffix p :
  match createSession cfg user hostname nickname password suffix p with
  | Done s p' => s = next_session p ∧ calm (made user suffix nickname p) p'
  | Fault f => irc_fault f
  end.
Proof.
  unfold createSession. destruct (connect_to hostname) as [[host port] secure].
  assert (new_session user suffix nickname p = Done (next_session p) (made user suffix nickname p)) as Hnew by done.
  rewrite (bind_done _ _ _ _ _ Hnew), bind_run. cbn [get]. cbv zeta.
  set (s := next_session p). set (p1 := made user suffix nickname p).
  assert (spec irc_fault (quiet p1 s) (irc_emit (Connect s host port secure (if negb (String.eqb password "") && irc_send_pass cfg then password else "")) ;;
    when (negb (String.eqb password "") && negb (irc_send_pass cfg)) (store s (set_identify (identify_text (np_identify p1) password nickname))) ;;
    createBufferModel cfg s host ;; mret s) (λ a p', a = s ∧ quiet p1 s p')) as Hrest.
  { apply (spec_bind _ _ _ (λ _, quiet p1 s)); [apply quiet_emit|intros []].
    apply (spec_bind _ _ _ (λ _, quiet p1 s)); [quiet_walk|intros []].
    apply (spec_bind _ _ _ (λ _, quiet p1 s)); [apply quiet_add_buffer|intros []].
    apply spec_ret. intros p' Hp'. by split. }
  assert (quiet p1 s p1) as Hq.
  { split; [apply calm_refl|]. unfold alive, p1, made. simpl. rewrite lookup_insert_eq. by eexists. }
  specialize (Hrest p1 Hq). lazymatch type of Hrest with match ?e with _ => _ end => destruct e as [a p'|f]; [|done] end.
  by destruct Hrest as [-> [Hc _]].
Qed.

(** A session that was just made gets its name. *)
Lemma made_sound user suffix nickname name p p' : irc_sound p → entry name p = None → calm (made user suffix nickname p) p' →
  holds_session (Some (next_session p)) name (next_session p) (with_sessions (sinsert name (Some (next_session p))) p').
Proof.
  intros Hs Hn Hc. set (s := next_session p). set (p2 := with_sessions _ p').
  assert (∀ name', entry name' p2 = if decide (name' = name) then Some s else entry name' p) as Hentry.
  { intros name'. unfold entry at 1, p2. simpl. case_decide as E; [by rewrite E, sfind_sinsert_eq|]. rewrite sfind_sinsert_ne by done.
    apply (calm_entry _ _ Hc name'). }
  assert (∀ s', alive s' p2 ↔ s' = s ∨ alive s' p) as Halive.
  { intros s'. change (alive s' p2) with (alive s' p'). rewrite (calm_alive s' _ _ Hc). unfold alive, made. simpl.
    destruct (decide (s' = s)) as [->|Hne]; [rewrite lookup_insert_eq; split; [by left|by eexists]|].
    rewrite lookup_insert_ne by done. split; [by right|]. by intros [?|?]. }
  pose proof Hs as [H1 H2 H3 H4 H5 H6].
  assert (∀ name', entry name' p ≠ Some s) as Hfresh.
  { intros name' E. apply H3 in E as [E _]. apply H1 in E. unfold s in E. lia. }
  assert (irc_doomed p2 = irc_doomed p) as Hdoomed by apply (calm_doomed _ _ Hc).
  assert (next_session p2 = S s) as Hnext by apply (calm_next _ _ Hc).
  assert (m_servers p2 = m_servers p) as Hservers by apply (calm_servers _ _ Hc).
  split; [split|by rewrite Hentry, decide_True].
  - intros s'. rewrite Halive, Hnext. intros [->|Ha]; [lia|]. apply H1 in Ha. unfold s. lia.
  - intros s'. rewrite Hdoomed, Hnext. intros Hd. apply H2 in Hd. unfold s. lia.
  - intros name' s'. rewrite Hentry, Halive, Hdoomed. case_decide.
    + intros [= <-]. split; [by left|]. intros Hd. apply H2 in Hd. unfold s in Hd. lia.
    + intros E. destruct (H3 name' s' E). by split; [right|].
  - intros name1 name2 s'. rewrite !Hentry. repeat case_decide; try congruence; intros E1 E2; simplify_eq; try by edestruct Hfresh.
    by apply (H4 name1 name2 s').
  - rewrite Hservers. destruct (calm_index _ _ Hc) as [E|[_ E]].
    + change (m_currentServer p2) with (m_currentServer p'). rewrite E. apply H5.
    + rewrite <- Hservers. by right.
  - intros name' s' o. rewrite Hservers, Hentry. change (irc_sessions p2) with (irc_sessions p'). intros Hv He Ho.
    pose proof (calm_rooms _ _ Hc s') as Hr. rewrite Ho in Hr. unfold made in Hr. simpl in Hr. case_decide as Ename.
    + injection He as <-. rewrite lookup_insert_eq in Hr. injection Hr as Hr. rewrite decide_True by done. lia.
    + rewrite lookup_insert_ne in Hr by (intros <-; by apply (Hfresh name')).
      destruct (irc_sessions p !! s') as [o0|] eqn:E0; [|done]. injection Hr as ->. specialize (H6 name' s' o0 Hv He E0).
      rewrite decide_False in H6 by done. case_decide; lia.
Qed.

Lemma holds_server name s p : m_servers p ≠ [] → holds_session (Some s) name s p → irc_sound p.
Proof. intros Hv [[H1 H2 H3 H4 H5 H6] He]. by split. Qed.

(** A null entry: a session is made for it. *)
Lemma create_sound user hostname nickname password suffix name (k : sess → prog _ unit) p :
  irc_sound p → entry name p = None →
  (∀ s p', m_servers p' = m_servers p → holds_session (Some s) name s p' →
    match k s p' with Done _ p' => irc_sound p' | Fault f => irc_fault f end) →
  match (s ← createSession cfg user hostname nickname password suffix; modify (with_sessions (sinsert name (Some s))) ;; k s) p with
  | Done _ p' => irc_sound p'
  | Fault f => irc_fault f
  end.
Proof.
  intros Hs Hn Hk. rewrite bind_run. pose proof (createSession_run user hostname nickname password suffix p) as Hrun.
  destruct (createSession _ _ _ _ _ _ p) as [s p'|f]; [|done]. destruct Hrun as [-> Hc].
  rewrite bind_run. cbn [modify]. apply Hk; [apply (calm_servers _ _ Hc)|]. by apply (made_sound user suffix nickname).
Qed.

Lemma login_sound user legacyName password : soundly (handleLoginRequest cfg user legacyName password).
Proof.
  intros p Hp. unfold handleLoginRequest. rewrite bind_run. cbn [get]. destruct (m_servers p) as [|server servers] eqn:Ev.
  { assert (∀ q, ∃ q', handleConnected user q = Done tt q') as Hq by (intros q; by eexists).
    unfold call. rewrite bind_run. cbn [get]. destruct (Hq (np p)) as [q' ->]. rewrite bind_run. cbn [put mret prog_ret].
    apply (calm_sound None p); [done|]. split; auto. }
  destruct (at_session_run user p) as (p' & Hrun & Hc & _). rewrite (bind_done _ _ _ _ _ Hrun).
  pose proof (calm_sound None p p' Hp Hc) as Hp'. destruct (entry user p) as [s|] eqn:E; [done|].
  destruct ((server :: servers) !! _) as [host|]; [|by right].
  apply (create_sound user host legacyName password "" user (λ s, irc_emit (Open s)) p' Hp'); [by rewrite (calm_entry _ _ Hc)|].
  intros s p1 Hv Hs. apply (holds_server user s); [|by destruct Hs as [[] He]]. simpl. by rewrite Hv, (calm_servers _ _ Hc), Ev.
Qed.

Lemma store_rooms f name s p : holds_session (Some s) name s p →
  ∃ o p', irc_sessions p !! s = Some o ∧ store s (set_rooms f) p = Done tt p' ∧ m_servers p' = m_servers p ∧
    irc_sessions p' !! s = Some (set_rooms f o) ∧
    ((m_servers p = [] → 0 <= f (rooms o))%Z → holds_session (Some s) name s p') ∧
    ((m_servers p = [] → 1 <= f (rooms o))%Z → irc_sound p').
Proof.
  intros [Hs He]. destruct (entry_alive _ _ Hs _ _ He) as [[o Ho] _]. exists o. eexists. split; [done|].
  split; [unfold store, load; rewrite !bind_run; cbn [get]; by rewrite Ho|]. split; [done|]. split; [by simpl; rewrite lookup_insert_eq|].
  assert (∀ x, ((m_servers p = [] → (if decide (x = Some s) then 0 else 1) <= f (rooms o))%Z) →
    sound_but x (with_heap <[s:=set_rooms f o]> p)) as Hany.
  { intros x Hx. destruct Hs as [H1 H2 H3 H4 H5 H6].
    assert (∀ s', alive s' (with_heap <[s:=set_rooms f o]> p) ↔ alive s' p) as Ha.
    { intros s'. unfold alive. simpl. destruct (decide (s' = s)) as [->|]; [rewrite lookup_insert_eq, Ho; split; by eexists|].
      by rewrite lookup_insert_ne. }
    split; try done; [intros s'; rewrite Ha; apply H1|intros name' s' E; rewrite Ha; by apply (H3 name')|].
    intros name' s' o' Hv E. simpl. destruct (decide (s' = s)) as [->|Hne].
    - rewrite lookup_insert_eq. intros [= <-]. by apply Hx.
    - rewrite lookup_insert_ne by done. intros Ho'. specialize (H6 name' s' o' Hv E Ho'). rewrite decide_False in H6 by congruence.
      destruct (decide (x = Some s')); lia. }
  split; intros Hx; [split; [|done]|]; apply Hany; intros Hv; specialize (Hx Hv).
  - by rewrite decide_True.
  - by rewrite decide_False.
Qed.

Lemma join_sound user room nickname password target s name created :
  spec irc_fault (holds_session (Some s) name s) (join_with_session user room nickname password target s created) (λ _, irc_sound).
Proof.
  unfold join_with_session. apply (spec_bind _ _ _ (λ _, holds_session (Some s) name s)).
  { apply holds_quietly. intros. apply quiet_emit. }
  intros []. apply (spec_bind _ _ _ (λ _, holds_session None name s)).
  - intros p Hp. destruct (store_rooms (λ n, n + 1)%Z name s p Hp) as (o & p' & Ho & -> & _ & _ & Hh & Hsound).
    destruct Hp as [Hs He]. assert (m_servers p = [] → 0 <= rooms o)%Z as Hr.
    { intros Hv. pose proof (entry_rooms _ _ Hs name s o Hv He Ho) as Hr. by rewrite decide_True in Hr. }
    split; [apply Hsound; intros Hv; specialize (Hr Hv); lia|]. apply Hh. intros Hv. specialize (Hr Hv). cbv beta. lia.
  - intros []. eapply spec_weaken; [apply (holds_quietly None name s); intros p0|done|by intros _ p []].
    quiet_walk.
Qed.

Lemma join_request_sound user room nickname password : soundly (handleJoinRoomRequest cfg user room nickname password).
Proof.
  intros p Hp. unfold handleJoinRoomRequest. rewrite bind_run. cbn [get]. cbv zeta. set (name := getSessionName _ _ _ _).
  destruct (at_session_run name p) as (p' & Hrun & Hc & _). rewrite (bind_done _ _ _ _ _ Hrun).
  pose proof (calm_sound None p p' Hp Hc) as Hp'. destruct (entry name p) as [s|] eqn:E.
  - apply (join_sound user room nickname password _ s name false). split; [by apply sound_weaker|]. by rewrite (calm_entry _ _ Hc).
  - destruct (m_servers p) as [|server servers]; [|done]. destruct (split_at "@" room) as [[a host]|]; [|done].
    apply (create_sound user host nickname "" (String "@" host) name (λ s, join_with_session user room nickname password _ s true) p' Hp');
      [by rewrite (calm_entry _ _ Hc)|].
    intros s p1 Hv Hs. by apply (join_sound user room nickname password _ s name true).
Qed.

Lemma leave_sound user room : soundly (handleLeaveRoomRequest cfg user room).
Proof.
  intros p Hp. unfold handleLeaveRoomRequest. rewrite bind_run. cbn [get]. cbv zeta. set (name := getSessionName _ _ _ _).
  destruct (at_session_run name p) as (p' & Hrun & Hc & _). rewrite (bind_done _ _ _ _ _ Hrun).
  pose proof (calm_sound None p p' Hp Hc) as Hp'. destruct (entry name p) as [s|] eqn:E; [|done].
  set (p1 := with_irc_out (λ l, l ++ [SendCommand s (createPart (getTargetName room))]) p').
  assert (sendCommand s (createPart (getTargetName room)) p' = Done tt p1) as Hcmd by done. rewrite (bind_done _ _ _ _ _ Hcmd).
  assert (holds_session None name s p1) as H1.
  { apply (holds_calm None name s p'); [|by split; auto]. split; [done|]. by rewrite (calm_entry _ _ Hc). }
  destruct (store_rooms (λ n, n - 1)%Z name s p1) as (o & p2 & Ho & Hst & Hv & Ho2 & Hh & Hsound).
  { destruct H1. split; [by apply sound_weaker|done]. }
  rewrite (bind_done _ _ _ _ _ Hst), bind_run. unfold load. rewrite bind_run. cbn [get]. rewrite Ho2. simpl.
  assert (m_servers p1 = m_servers p) as Hv1 by apply (calm_servers _ _ Hc). rewrite Hv1 in *.
  assert (m_servers p = [] → 1 <= rooms o)%Z as Hr.
  { intros Hv0. destruct H1 as [Hs1 He1]. pose proof (entry_rooms _ _ Hs1 name s o) as Hr. rewrite decide_False in Hr by done. apply Hr; congruence. }
  destruct (_ && _) eqn:Eif.
  - apply andb_prop in Eif as [_ Hv0]. apply bool_decide_eq_true in Hv0.
    apply (close_sound (Some s) name s); [by right|]. apply Hh. intros _. specialize (Hr Hv0). cbv beta. lia.
  - apply Hsound. intros Hv0. rewrite (bool_decide_true _ Hv0), andb_true_r in Eif. lia.
Qed.

Lemma serve_sound r : soundly (serve cfg r).
Proof.
  destruct r; cbn [serve]; try by (intros p Hp; exact Hp).
  - apply login_sound.
  - apply logout_sound.
  - apply status_sound.
  - apply message_sound.
  - apply subject_sound.
  - apply join_request_sound.
  - apply leave_sound.
  - intros p Hp. unfold handleVCardRequest, call. rewrite bind_run. cbn [get]. simpl. apply (calm_sound None p); [done|]. split; auto.
Qed.

Lemma call_sound {A} (m : prog plugin A) : (∀ q, ∃ a q', m q = Done a q') → soundly (call m).
Proof.
  intros Hm p Hp. unfold call. rewrite bind_run. cbn [get]. destruct (Hm (np p)) as (a & q' & ->).
  rewrite bind_run. cbn [put mret prog_ret]. apply (calm_sound None p); [done|]. split; auto.
Qed.

Context `{ProcessMemory}.

Lemma plugin_dispatch_returns w q : ∃ a q', NetworkPlugin.dispatch w q = Done a q'.
Proof.
  unfold NetworkPlugin.dispatch.
  destruct (default _ _); unfold handleLoginPayload, handleLogoutPayload, handleStatusChangedPayload, handleConvMessagePayload,
    handleRoomSubjectChangedPayload, handleAttentionPayload, handleJoinRoomPayload, handleLeaveRoomPayload, handleVCardPayload,
    handleBuddyChangedPayload, handleBuddyRemovedPayload, handleChatStatePayload, with_payload; try by eexists _, _.
  all: rewrite bind_run; destruct (ParseFromString _); try by eexists _, _.
  all: repeat case_match; simplify_eq/=; by eexists _, _.
Qed.

Lemma dispatch_sound w : soundly (dispatch cfg w).
Proof.
  intros p Hp. unfold dispatch. rewrite bind_run. cbn [get]. revert p Hp.
  enough (∀ seen, soundly (go ← call (NetworkPlugin.dispatch w); p ← get;
    for_each (requests_of (skipn seen (p_log (np p)))) (serve cfg) ;; mret go)) as Hany by (intros p Hp; by apply Hany).
  intros seen. repeat first [apply call_sound, plugin_dispatch_returns|apply serve_sound|walk_step].
Qed.

Lemma read_loop_sound fuel data : soundly (read_loop ParseFromString false (dispatch cfg) fuel data).
Proof.
  revert data. induction fuel as [|fuel IH]; intros data; cbn [read_loop]; [by apply spec_ret|].
  destruct (next_frame data) as [[frame rest]|]; [|by apply spec_ret].
  destruct (ParseFromString frame) as [w|]; [|by apply spec_ret].
  eapply spec_keep; [apply dispatch_sound|]. intros [|]; [apply IH|by apply spec_ret].
Qed.

Lemma readData_sound data : soundly (readData cfg data).
Proof.
  unfold readData. destruct data as [|c data]; [by apply spec_ret|]. eapply spec_keep; [walk_step|intros p].
  eapply spec_keep; [destruct (m_firstPing p)|intros _].
  - eapply spec_keep; [|intros _; apply call_sound; intros q; by eexists _, _].
    apply spec_modify. intros p' Hp'. apply (calm_sound None p'); [done|]. split; auto.
  - by apply spec_ret.
  - eapply spec_keep; [walk_step|intros p']. eapply spec_keep; [apply read_loop_sound|intros rest].
    apply call_sound. intros q. by eexists _, _.
Qed.

Lemma irc_react_sound i : soundly (react cfg i).
Proof.
  destruct i as [data|r|s x|s]; cbn [react]; [apply readData_sound|apply serve_sound| |].
  - intros p Hp. rewrite bind_run. cbn [get]. case_bool_decide as Ha; [|done].
    pose proof (quiet_slot cfg p s x p (conj (calm_refl p) Ha)) as Hslot.
    destruct (run_slot cfg s x p) as [a p'|f]; [|done]. destruct Hslot as [Hc _]. by apply (calm_sound None p).
  - intros p Hp. rewrite bind_run. cbn [get]. case_bool_decide as Hd; [|done]. simpl. destruct Hp as [K1 K2 K3 K4 K5 K6].
    assert (∀ s', alive s' (with_heap (delete s) p) → s' ≠ s ∧ alive s' p) as Ha.
    { intros s'. unfold alive. simpl. destruct (decide (s' = s)) as [->|Hne]; [rewrite lookup_delete_eq; by intros [? ?]|].
      by rewrite lookup_delete_ne. }
    split; try done.
    + intros s' Hs'. apply Ha in Hs' as [_ Hs']. by apply K1.
    + intros name s' He. destruct (K3 name s' He) as [Hs' Hd']. split; [|done]. unfold alive. simpl.
      rewrite lookup_delete_ne; [done|]. by intros <-.
    + intros name s' o Hv He. simpl. destruct (decide (s = s')) as [->|]; [by rewrite lookup_delete_eq|].
      rewrite lookup_delete_ne by done. intros Ho. by apply (K6 name s' o).
Qed.

Lemma run_sound inputs : soundly (run cfg inputs).
Proof.
  induction inputs as [|i inputs IH]; cbn [run]; [by apply spec_ret|]. eapply spec_keep; [apply irc_react_sound|by intros []].
Qed.

Lemma new_plugin_sound q : irc_sound (new_plugin cfg q).
Proof.
  split; simpl.
  - by intros s [? ?].
  - intros s Hs. by apply not_elem_of_nil in Hs.
  - done.
  - done.
  - destruct (servers_of cfg); [by left|]. right. unfold zlen. simpl. lia.
  - done.
Qed.
End requests.

(** ** Texts *)

Lemma split_at_some c s a b : split_at c s = Some (a, b) → s = (a +:+ String c b)%string ∧ ¬ has c a.
Proof.
  revert a b. induction s as [|x s IH]; intros a b; [done|]. simpl. destruct (Ascii.eqb_spec x c) as [->|Hne].
  - intros [= <- <-]. split; [done|]. intros [].
  - destruct (split_at c s) as [[a' b']|]; [|done]. intros [= <- <-]. destruct (IH a' b' eq_refl) as [-> Hn].
    split; [done|]. intros [E|E]; [by apply Hne|]. by apply Hn.
Qed.

Lemma split_at_none c s : split_at c s = None → ¬ has c s.
Proof.
  induction s as [|x s IH]; [by intros _ []|]. simpl. destruct (Ascii.eqb_spec x c) as [->|Hne]; [done|].
  destruct (split_at c s) as [[]|]; [done|]. intros _ [E|E]; [by apply Hne|]. by apply IH.
Qed.

Lemma split_at_app c a b : ¬ has c a → split_at c (a +:+ String c b)%string = Some (a, b).
Proof.
  induction a as [|x a IH]; intros Hn; simpl; [by rewrite Ascii.eqb_refl|].
  destruct (Ascii.eqb_spec x c) as [->|Hne]; [by destruct Hn; left|]. rewrite IH; [done|]. intros Hh. apply Hn. by right.
Qed.

Lemma split_at_absent c s : ¬ has c s → split_at c s = None.
Proof.
  intros Hn. destruct (split_at c s) as [[a b]|] eqn:E; [|done]. apply split_at_some in E as [-> _]. destruct Hn.
  induction a as [|x a IH]; [by left|by right].
Qed.

(** A newline at the start is passed. *)
Definition without_newline (message : string) : string := match message with String "010" rest => rest | _ => message end.

Lemma without_newline_line message : ¬ has "010" message → without_newline message = message.
Proof. intros Hn. destruct message as [|[[] [] [] [] [] [] [] []] rest]; try done. by destruct Hn; left. Qed.

Section lines.
Context `{IrcLibraries}.

Lemma send_lines_run fuel s target cur p : String.length (without_newline cur) < fuel →
  ∃ l, l ≠ [] ∧ send_lines fuel s target cur p = Done tt (with_irc_out (λ out, out ++ map (λ line, SendCommand s (createMessage target line)) l) p) ∧
    Forall (λ line, ¬ has "010" line) l ∧ join_with "010" l = without_newline cur.
Proof.
  revert cur p. induction fuel as [|fuel IH]; intros cur p Hfuel; [lia|]. cbn [send_lines]. cbv zeta.
  change (match cur with String "010" rest => rest | _ => cur end) with (without_newline cur).
  destruct (split_at "010" (without_newline cur)) as [[line rest]|] eqn:E.
  - apply split_at_some in E as [E Hn].
    set (p1 := with_irc_out (λ out, out ++ [SendCommand s (createMessage target line)]) p).
    destruct (IH (String "010" rest) p1) as (l & Hl & Hrun & Hlines & Hjoin).
    { rewrite E in Hfuel. simpl. clear -Hfuel. induction line as [|x line IH]; simpl in *; lia. }
    exists (line :: l). split; [done|]. split; [|split; [by constructor|]].
    + rewrite bind_run. unfold sendCommand, irc_emit. cbn [modify]. fold p1. rewrite Hrun. unfold p1, with_irc_out. simpl. by rewrite <- app_assoc.
    + rewrite E. simpl in Hjoin. rewrite <- Hjoin. by destruct l.
  - exists [without_newline cur]. split; [done|]. split; [done|]. split; [|done]. constructor; [|done]. by apply split_at_none.
Qed.
End lines.

(** ** Messages *)

Definition command_text (message : string) : bool := starts "/me" message || starts "/whois" message || starts ".whois" message.

Section messages.
Context `{IrcLibraries, Protobuf} (cfg : IrcConfig).

Lemma at_session_some name s p : entry name p = Some s → at_session name p = Done (Some s) p.
Proof.
  unfold entry, at_session. rewrite bind_run. cbn [get]. destruct (sfind name (m_sessions p)) as [e|]; [|done].
  simpl. by intros ->.
Qed.

(** The session that sends a message, with what it remembers of the recipient. *)
Definition remembers (legacyName : string) (o : MyIrcSession) : MyIrcSession :=
  if contains_char "/" legacyName then set_pms (sinsert (getTargetName legacyName) (before "@" legacyName)) o else o.

Lemma remember_run legacyName s o p : irc_sessions p !! s = Some o →
  ∃ p1, when (contains_char "/" legacyName) (addPM s (getTargetName legacyName) (before "@" legacyName)) p = Done tt p1 ∧
    irc_out p1 = irc_out p ∧ np p1 = np p ∧ irc_sessions p1 !! s = Some (remembers legacyName o) ∧ nickName (remembers legacyName o) = nickName o.
Proof.
  intros Ho. unfold remembers. destruct (contains_char _ _); [|by exists p].
  eexists. split; [unfold when, addPM, store, load; rewrite !bind_run; cbn [get]; by rewrite Ho|]. simpl. by rewrite lookup_insert_eq.
Qed.

Lemma message_run user legacyName message s o p :
  entry (getSessionName cfg user legacyName p) p = Some s → irc_sessions p !! s = Some o → command_text message = false →
  let target := getTargetName legacyName in
  ∃ lines p', handleMessageSendRequest cfg user legacyName message p = Done tt p' ∧
    irc_out p' = irc_out p ++ map (λ line, SendCommand s (createMessage target line)) lines ∧
    lines ≠ [] ∧ Forall (λ line, ¬ has "010" line) lines ∧ join_with "010" lines = without_newline message ∧
    irc_sessions p' !! s = Some (remembers legacyName o) ∧
    (if starts "#" target then handleMessage user legacyName message (nickName o) "" "" false false false [] (np p) = Done tt (np p')
     else np p' = np p).
Proof.
  intros He Ho Hm target. unfold command_text in Hm. apply orb_false_iff in Hm as [Hm Hdot]. apply orb_false_iff in Hm as [Hme Hwhois].
  unfold handleMessageSendRequest. rewrite bind_run. cbn [get]. rewrite (bind_done _ _ _ _ _ (at_session_some _ s p He)).
  destruct (remember_run legacyName s o p Ho) as (p1 & Hrun & Hout & Hnp & Ho1 & Hnick). rewrite (bind_done _ _ _ _ _ Hrun). cbv zeta.
  rewrite Hme, Hwhois, Hdot. cbn [orb].
  destruct (send_lines_run (S (String.length message)) s target message p1) as (l & Hne & Hlines & Hl & Hjoin).
  { apply Nat.lt_succ_r. destruct message as [|[[] [] [] [] [] [] [] []] rest]; simpl; lia. }
  rewrite (bind_done _ _ _ _ _ Hlines). fold target. set (p2 := with_irc_out _ p1) in *.
  exists l. destruct (starts "#" target).
  - eexists. split; [unfold when, load; rewrite !bind_run; cbn [get]; change (irc_sessions p2) with (irc_sessions p1); by rewrite Ho1|].
    simpl. rewrite Hout, Hnp, Hnick. done.
  - exists p2. unfold p2. simpl. by rewrite Hout, Hnp.
Qed.
End messages.

(** ** Properties *)

(** C35: whatever Spectrum asks for and IRC signals, in any order, the table of the sessions
    stays sound: an entry that is not null has a session that is alive and was not told to
    delete itself, no session has two names, the index of the next server is one of the
    list, and without a list a session in the table has a room. So a null or dead session is
    never used: a backend stops only with an exception the code throws, or where it reads
    parameters a numeric reply does not have. *)
Theorem irc_table_sound `{IrcLibraries, Protobuf, ProcessMemory} cfg q inputs :
  match run cfg inputs (new_plugin cfg q) with
  | Done _ p => irc_sound p
  | Fault f => f = UncaughtException ∨ f = OutOfRange
  end.
Proof. apply (run_sound cfg inputs), new_plugin_sound. Qed.

(** C36: a message that is no command goes to IRC as its lines, one after the other, to its
    recipient: none of them has a newline in it, and joined they are the message again, but
    for a newline it starts with. The loop ends. A message to a channel is told to Spectrum
    under the nickname of the session, another one is not. *)
Theorem lines_sent `{IrcLibraries, Protobuf} cfg user legacyName message s o p :
  entry (getSessionName cfg user legacyName p) p = Some s → irc_sessions p !! s = Some o → command_text message = false →
  let target := getTargetName legacyName in
  ∃ lines p', handleMessageSendRequest cfg user legacyName message p = Done tt p' ∧
    irc_out p' = irc_out p ++ map (λ line, SendCommand s (createMessage target line)) lines ∧
    lines ≠ [] ∧ Forall (λ line, ¬ has "010" line) lines ∧
    join_with "010" lines = without_newline message ∧
    (if starts "#" target then handleMessage user legacyName message (nickName o) "" "" false false false [] (np p) = Done tt (np p')
     else np p' = np p).
Proof.
  intros He Ho Hm. destruct (message_run cfg user legacyName message s o p He Ho Hm) as (l & p' & H1 & H2 & H3 & H4 & H5 & _ & H6). eauto 10.
Qed.

(** what somebody in a room answers to a private message of the user comes back from
    that room: Spectrum is told a private message of the room's address, with the suffix of
    the session, under the nickname the user has written to. *)
Theorem private_reply `{IrcLibraries, Protobuf} cfg user room host nick message reply channel s o p :
  let legacyName := (room +:+ String "@" (host +:+ String "/" nick))%string in
  ¬ has "@" room → ¬ has "/" room → ¬ has "/" host → correctNickname nick = nick →
  entry (getSessionName cfg user legacyName p) p = Some s → irc_sessions p !! s = Some o → command_text message = false →
  hasIrcUser room nick o = true → starts "#" channel = false →
  ∃ p', handleMessageSendRequest cfg user legacyName message p = Done tt p' ∧
    sendMessageToFrontend s channel nick reply p' = send_text (m_user o) (room +:+ m_suffix o)%string reply nick true p'.
Proof.
  intros legacyName Hr1 Hr2 Hh Hn He Ho Hm Hu Hc.
  destruct (message_run cfg user legacyName message s o p He Ho Hm) as (l & p' & Hrun & _ & _ & _ & _ & Ho' & _).
  exists p'. split; [done|].
  assert (split_at "/" legacyName = Some (room +:+ String "@" host, nick)%string) as Hslash.
  { unfold legacyName. change (String "@" (host +:+ String "/" nick)) with (String "@" host +:+ String "/" nick)%string.
    rewrite <- string_app_assoc. apply split_at_app. rewrite has_app. intros [E|[E|E]]; [by apply Hr2|done|by apply Hh]. }
  assert (remembers legacyName o = set_pms (sinsert nick room) o) as Hpms.
  { unfold remembers, contains_char, getTargetName, contains_char, after, before. rewrite Hslash. simpl.
    unfold legacyName. by rewrite (split_at_app "@" room _ Hr1). }
  unfold sendMessageToFrontend, load. rewrite !bind_run. cbn [get]. rewrite Ho', Hpms. simpl. rewrite Hn, Hc, sfind_sinsert_eq.
  assert (before "@" (before "/" room) = room) as ->.
  { unfold before at 2. rewrite split_at_absent by done. unfold before. by rewrite split_at_absent. }
  assert (hasIrcUser room nick (set_pms (sinsert nick room) o) = true) as ->; [|done]. exact Hu.
Qed.

(** a message that is only the name of a command stops the backend, and with it the
    connections of everybody it serves: the code takes what follows the name and a blank,
    and there is not even the blank. *)
Theorem short_command_stops `{IrcLibraries, Protobuf} cfg user legacyName message s o p :
  entry (getSessionName cfg user legacyName p) p = Some s → irc_sessions p !! s = Some o →
  message ∈ ["/me"; "/whois"; ".whois"]%string →
  handleMessageSendRequest cfg user legacyName message p = Fault UncaughtException.
Proof.
  intros He Ho Hm. unfold handleMessageSendRequest. rewrite bind_run. cbn [get]. rewrite (bind_done _ _ _ _ _ (at_session_some _ s p He)).
  destruct (remember_run legacyName s o p Ho) as (p1 & Hrun & _). rewrite (bind_done _ _ _ _ _ Hrun).
  by repeat (apply elem_of_cons in Hm as [->|Hm]); [..|apply not_elem_of_nil in Hm].
Qed.

(** without a list of servers the session of a user and a network is under the text of
    both, with nothing in between: what a user says goes out on the connection of another
    user whose address and network make the same text. *)
Theorem session_shared `{IrcLibraries, Protobuf} cfg user host user' host' room message s o p :
  gateway cfg p = true → (user +:+ host = user' +:+ host')%string → ¬ has "/" (user +:+ host) → ¬ has "@" room → ¬ has "/" room →
  entry (user +:+ host)%string p = Some s → irc_sessions p !! s = Some o → command_text message = false → ¬ has "010" message →
  ∃ p', handleMessageSendRequest cfg user' (room +:+ String "@" host')%string message p = Done tt p' ∧
    irc_out p' = irc_out p ++ [SendCommand s (createMessage room message)].
Proof.
  intros Hg Heq Hs Hr1 Hr2 He Ho Hm Hn. set (legacyName := (room +:+ String "@" host')%string).
  assert (split_at "@" legacyName = Some (room, host')) as Hat by by apply split_at_app.
  assert (¬ has "/" legacyName) as Hslash.
  { unfold legacyName. rewrite has_app. intros [E|[E|E]]; [by apply Hr2|done|]. apply Hs. rewrite Heq, has_app. by right. }
  assert (getSessionName cfg user' legacyName p = (user +:+ host)%string) as Hname.
  { unfold getSessionName, after. rewrite Hg, Hat, <- Heq. unfold before. by rewrite split_at_absent. }
  assert (getTargetName legacyName = room) as Htarget.
  { unfold getTargetName, contains_char, before. by rewrite (split_at_absent "/") , Hat. }
  destruct (message_run cfg user' legacyName message s o p) as (l & p' & Hrun & Hout & Hne & Hl & Hjoin & _ & _); [by rewrite Hname|done|done|].
  exists p'. split; [done|]. rewrite Hout, Htarget. rewrite without_newline_line in Hjoin by done.
  destruct l as [|line [|line' l]]; [done|simpl in Hjoin; by rewrite Hjoin|].
  destruct Hn. rewrite <- Hjoin. change (join_with "010" (line :: line' :: l)) with (line +:+ String "010" (join_with "010" (line' :: l)))%string.
  rewrite has_app. right. by left.
Qed.

(** and logging out ends none of these connections. *)
Theorem logout_keeps_sessions `{IrcLibraries, Protobuf} user legacyName p :
  entry user p = None →
  ∃ p', handleLogoutRequest user legacyName p = Done tt p' ∧ irc_out p' = irc_out p ∧ ∀ name, entry name p' = entry name p.
Proof.
  intros Hn. destruct (at_session_run user p) as (p' & Hrun & Hc & Hout). exists p'. unfold handleLogoutRequest.
  rewrite (bind_done _ _ _ _ _ Hrun), Hn. repeat split; [done|apply (calm_entry _ _ Hc)].
Qed.

(** ** Witnesses *)

#[local] Instance reference_irc : IrcLibraries := {|
  toLower s := s;
  toUpper s := s;
  same_name := String.eqb;
  new_buffer title := mkIrcBuffer title title (starts "#" title) None;
  to_integer _ := Some 60%Z;
  replace_all _ _ s := s;
|}.

#[local] Existing Instance ReferenceCodec.reference_protobuf.

Definition no_servers : IrcConfig := mkIrcConfig false false "60" "" [] None.

(** joe@a.com has joined #rocq of irc.org, where ann is. *)
Definition joined_session : MyIrcSession :=
  mkSession "joe@a.com" "@irc.org" "" "" true 1 [] [] [] [] [(0, []); (1, [mkIrcUser "ann" "" false "rocq"])]
    [(0, mkIrcBuffer "irc.org" "irc.org" false None); (1, mkIrcBuffer "rocq" "#rocq" true (Some (61, 0)%Z))] "joe".

Definition joined_room : IRCNetworkPlugin :=
  mkIrc (mkPlugin [] false 0 []) [("joe@a.comirc.org", Some 0)]%string {[0 := joined_session]} [] 1 2 [] 0 "" false [].

Lemma lines_sent_witness :
  ∃ lines p', handleMessageSendRequest no_servers "joe@a.com" "#rocq@irc.org" "one
two" joined_room = Done tt p' ∧
    irc_out p' = map (λ line, SendCommand 0 (createMessage "#rocq" line)) lines ∧ lines ≠ [] ∧
    join_with "010" lines = "one
two"%string.
Proof.
  destruct (lines_sent no_servers "joe@a.com" "#rocq@irc.org" "one
two" 0 joined_session joined_room eq_refl eq_refl eq_refl) as (l & p' & H1 & H2 & H3 & _ & H4 & _).
  exists l, p'. split; [exact H1|]. split; [exact H2|]. split; [exact H3|exact H4].
Defined.

Lemma private_reply_witness :
  ∃ p', handleMessageSendRequest no_servers "joe@a.com" "#rocq@irc.org/ann" "hello" joined_room = Done tt p' ∧
    sendMessageToFrontend 0 "joe" "ann" "hi" p' = send_text "joe@a.com" "#rocq@irc.org" "hi" "ann" true p'.
Proof.
  apply (private_reply no_servers "joe@a.com" "#rocq" "irc.org" "ann" "hello" "hi" "joe" 0 joined_session joined_room);
    first [reflexivity|by apply (bool_decide_eq_true_1 _); vm_compute].
Defined.

Lemma short_command_stops_witness :
  handleMessageSendRequest no_servers "joe@a.com" "#rocq@irc.org" "/me" joined_room = Fault UncaughtException.
Proof.
  apply (short_command_stops no_servers "joe@a.com" "#rocq@irc.org" "/me" 0 joined_session joined_room); [reflexivity|reflexivity|left].
Defined.

(** joe@a.co, who asks for mirc.org, speaks as joe@a.com. *)
Lemma session_shared_witness :
  ∃ p', handleMessageSendRequest no_servers "joe@a.co" "#rocq@mirc.org" "hello" joined_room = Done tt p' ∧
    irc_out p' = [SendCommand 0 (createMessage "#rocq" "hello")].
Proof.
  apply (session_shared no_servers "joe@a.com" "irc.org" "joe@a.co" "mirc.org" "#rocq" "hello" 0 joined_session joined_room);
    first [reflexivity|by apply (bool_decide_eq_true_1 _); vm_compute].
Defined.

Lemma logout_keeps_sessions_witness :
  ∃ p', handleLogoutRequest "joe@a.com" "" joined_room = Done tt p' ∧ irc_out p' = [] ∧
    ∀ name, entry name p' = entry name joined_room.
Proof. apply (logout_keeps_sessions "joe@a.com" "" joined_room). reflexivity. Defined.
