(* ===== verification/MySql.v ===== *)
(** * The MySQL storage

    MySQLBackend (libtransport/MySQLBackend.cpp): the statements with their buffers of
    parameters, the macro EXEC that connects again when the server is lost, and the
    operations of a storage on the tables of [Sqlite]. The server decides what becomes of
    each execution and each attempt to connect; that is the list [outcomes], and everything
    works once it is used up. SQL is read in its strict mode, where a value a column cannot
    hold is an error. *)

From S2P Require Import Prelude StdMap Codecs Text Sqlite.
From S2P Require Pool UserManager.

(** ** Data *)

Inductive value := VText (s : string) | VNumber (z : Z).

(** What mysql_stmt_execute says: 0, an error, or CR_SERVER_LOST and
    CR_SERVER_GONE_ERROR. *)
Inductive outcome := Executed | Refused | ServerLost.

(** The buffers of m_params and m_offset. *)
Record Params := mkParams { p_values : list value; m_offset : nat }.

Record MySQLBackend := mkMySql {
  db : Database;
  (** whether connect has made the statements and disconnect has not deleted them *)
  prepared : bool;
  m_params : Statement → Params;
  exec_ok : bool;
  (** mysql_insert_id *)
  insert_id : Z;
  outcomes : list outcome;
}.

Record MySqlConfig := mkMySqlConfig {
  encryption_key : string;
  vip_statement : string;
}.

(** The server: equality of a collation (which may pass over spaces at the end), the value
    of an AUTO_INCREMENT column next to those there are, mysql_insert_id after an error,
    rows nobody asked an order for, whether a query has a row (or fails); and what malloc
    leaves in the upper bytes of the buffer of a TINYINT. *)
Class MySqlEngine := {
  collated_equal : string → string → bool;
  auto_increment : list Z → Z;
  id_after_error : Z;
  arrange_rows : list string → list string;
  vip_query : string → string → Database → option bool;
  upper_bytes : Z;
}.

Class MySqlLaws `{MySqlEngine} : Prop := {
  collated_refl s : collated_equal s s = true;
  auto_increment_new l : auto_increment l ∉ l;
  arrange_rows_permutes l : arrange_rows l ≡ₚ l;
}.

#[export] Instance Statement_eq_dec : EqDecision Statement.
Proof. solve_decision. Defined.

(** The letters of a format in front of the bar: a text, an int, a TINYINT. *)
Definition format (stmt : Statement) : string :=
  match stmt with
  | m_setUser => "sssssbss"
  | m_getUser => "s"
  | m_removeUser | m_removeUserBuddies | m_removeUserSettings | m_removeUserBuddiesSettings
  | m_removeBuddy | m_removeBuddySettings | m_getBuddies | m_getBuddiesSettings | m_getUserSettings => "i"
  | m_addBuddy => "issssi"
  | m_updateBuddy => "ssisis"
  | m_updateBuddySetting => "iisiss"
  | m_getBuddySetting => "iss"
  | m_getUserSetting => "is"
  | m_setUserSetting => "isis"
  | m_updateUserSetting => "sis"
  | m_setUserOnline => "bi"
  | m_getOnlineUsers | m_getUsers | m_getLegacyNetworkUsers => ""
  end.

Definition parameters (stmt : Statement) : nat := String.length (format stmt).

Definition with_db f b : MySQLBackend := mkMySql (f (db b)) (prepared b) (m_params b) (exec_ok b) (insert_id b) (outcomes b).
Definition with_prepared x b : MySQLBackend := mkMySql (db b) x (m_params b) (exec_ok b) (insert_id b) (outcomes b).
Definition with_params f b : MySQLBackend := mkMySql (db b) (prepared b) (f (m_params b)) (exec_ok b) (insert_id b) (outcomes b).
Definition with_exec_ok x b : MySQLBackend := mkMySql (db b) (prepared b) (m_params b) x (insert_id b) (outcomes b).
Definition with_insert_id x b : MySQLBackend := mkMySql (db b) (prepared b) (m_params b) (exec_ok b) x (outcomes b).
Definition with_outcomes x b : MySQLBackend := mkMySql (db b) (prepared b) (m_params b) (exec_ok b) (insert_id b) x.

(** strncpy of a text and the length it is sent with: zeros follow the first NUL. *)
Fixpoint zeros (n : nat) : string := match n with 0 => "" | S n => String "000" (zeros n) end.

Fixpoint nul_padded (s : string) : string :=
  match s with
  | "" => ""
  | String c rest => if Ascii.eqb c "000" then zeros (S (String.length rest)) else String c (nul_padded rest)
  end.

Section mysql.
Context `{MySqlEngine} `{Split} `{Base64} (cfg : MySqlConfig).

Abbreviation mysql A := (prog MySQLBackend A).

(** ** SQL *)

Definition auto_id {V} (m : smap Z V) : Z := auto_increment (fst <$> m).

(** INSERT ... ON DUPLICATE KEY UPDATE uin=?, password=? *)
Definition insert_user jid uin password language encoding vip uin' password' (d : Database) : Database :=
  match List.find (λ '(_, r), collated_equal (ur_jid r) jid) (t_users d) with
  | Some (id, r) =>
      with_users (sinsert id (mkUsersRow (ur_jid r) uin' password' (ur_language r) (ur_encoding r) (ur_last_login r) (ur_vip r) (ur_online r))) d
  | None => with_users (sinsert (auto_id (t_users d)) (mkUsersRow jid uin password language encoding (db_now d) vip 0)) d
  end.

(** A row of contacts, or none where user_id and uin have one. *)
Definition insert_contact user_id uin subscription groups nickname flags (d : Database) : option Database :=
  if existsb (λ '(_, r), (br_user_id r =? user_id)%Z && collated_equal (br_uin r) uin) (t_buddies d) then None
  else
    let id := auto_id (t_buddies d) in
    Some (with_rowid id (with_buddies (sinsert id (mkBuddiesRow user_id uin subscription nickname groups flags)) d)).

(** The row of a key with a variable, under the collation. *)
Definition find_setting {V} (id : Z) (variable : string) (m : smap (Z * string) V) : option ((Z * string) * V) :=
  List.find (λ '(k, _), (fst k =? id)%Z && collated_equal (snd k) variable) m.

(** INSERT ... ON DUPLICATE KEY UPDATE value=? *)
Definition insert_setting user_id buddy_id variable type value value' (d : Database) : Database :=
  match find_setting buddy_id variable (t_buddies_settings d) with
  | Some (k, r) => with_buddies_settings (sinsert k (mkBuddiesSettingsRow (bs_user_id r) (bs_type r) value')) d
  | None => with_buddies_settings (sinsert (buddy_id, variable) (mkBuddiesSettingsRow user_id type value)) d
  end.

(** The effect of a statement; None is an error of its own, a duplicate key. *)
Definition sql (stmt : Statement) (params : list value) (d : Database) : option Database :=
  match stmt, params with
  | m_setUser, [VText jid; VText uin; VText password; VText language; VText encoding; VNumber vip; VText uin'; VText password'] =>
      Some (insert_user jid uin password language encoding vip uin' password' d)
  | m_removeUser, [VNumber id] => Some (with_users (delete_rows (λ k _, (k =? id)%Z)) d)
  | m_removeUserBuddies, [VNumber id] => Some (with_buddies (delete_rows (λ _ r, (br_user_id r =? id)%Z)) d)
  | m_removeUserSettings, [VNumber id] => Some (with_users_settings (delete_rows (λ k _, (fst k =? id)%Z)) d)
  | m_removeUserBuddiesSettings, [VNumber id] => Some (with_buddies_settings (delete_rows (λ _ r, (bs_user_id r =? id)%Z)) d)
  | m_addBuddy, [VNumber user_id; VText uin; VText subscription; VText groups; VText nickname; VNumber flags] =>
      insert_contact user_id uin subscription groups nickname flags d
  | m_removeBuddy, [VNumber id] => Some (with_buddies (delete_rows (λ k _, (k =? id)%Z)) d)
  | m_removeBuddySettings, [VNumber id] => Some (with_buddies_settings (delete_rows (λ k _, (fst k =? id)%Z)) d)
  | m_updateBuddy, [VText groups; VText nickname; VNumber flags; VText subscription; VNumber user_id; VText uin] =>
      Some (with_buddies (update_rows (λ _ r, (br_user_id r =? user_id)%Z && collated_equal (br_uin r) uin)
        (λ r, mkBuddiesRow (br_user_id r) (br_uin r) subscription nickname groups flags)) d)
  | m_updateBuddySetting, [VNumber user_id; VNumber buddy_id; VText variable; VNumber type; VText value; VText value'] =>
      Some (insert_setting user_id buddy_id variable type value value' d)
  | m_setUserSetting, [VNumber id; VText variable; VNumber type; VText value] =>
      match find_setting id variable (t_users_settings d) with
      | Some _ => None
      | None => Some (with_users_settings (sinsert (id, variable) (mkUsersSettingsRow type value)) d)
      end
  | m_updateUserSetting, [VText value; VNumber id; VText variable] =>
      Some (with_users_settings (update_rows (λ k _, (fst k =? id)%Z && collated_equal (snd k) variable)
        (λ r, mkUsersSettingsRow (us_type r) value)) d)
  | m_setUserOnline, [VNumber online; VNumber id] =>
      Some (with_users (update_rows (λ k _, (k =? id)%Z) (λ r,
        mkUsersRow (ur_jid r) (ur_uin r) (ur_password r) (ur_language r) (ur_encoding r) (db_now d) (ur_vip r) online)) d)
  | _, _ => Some d
  end.

(** What the parameters of a query are. *)
Definition number (i : nat) (params : list value) : Z := match params !! i with Some (VNumber z) => z | _ => 0 end.
Definition text (i : nat) (params : list value) : string := match params !! i with Some (VText s) => s | _ => "" end.

(** ** Statements *)

Definition set_params (stmt : Statement) (p : Params) (f : Statement → Params) : Statement → Params :=
  λ s, if decide (s = stmt) then p else f s.

Definition put_at (n : nat) (v : value) (l : list value) : list value := take n l ++ v :: drop (S n) l.

(** operator<<: a statement with all its parameters takes no more. The buffer of a text is
    of 4096 bytes, but its length is that of the text: a longer one makes execute read
    behind the buffer, and so does a number in the buffer of a text, whose length nobody
    sets. *)
Definition push (stmt : Statement) (v : value) : mysql unit :=
  b ← get;
  if negb (prepared b) then raise UseAfterFree
  else
    let p := m_params b stmt in
    if (parameters stmt <=? m_offset p)%nat then mret tt
    else
      match v with
      | VText s =>
          if (4096 <? String.length s)%nat then raise OutOfRange
          else put (with_params (set_params stmt (mkParams (put_at (m_offset p) (VText (nul_padded s)) (p_values p)) (S (m_offset p)))) b)
      | VNumber z =>
          match String.get (m_offset p) (format stmt) with
          | Some "s"%char => raise OutOfRange
          | _ => put (with_params (set_params stmt (mkParams (put_at (m_offset p) (VNumber (to_int z)) (p_values p)) (S (m_offset p)))) b)
          end
      end.

Definition push_all (stmt : Statement) (l : list value) : mysql unit := for_each l (push stmt).

Definition next_outcome : mysql outcome :=
  b ← get;
  match outcomes b with
  | [] => mret Executed
  | o :: rest => put (with_outcomes rest b) ;; mret o
  end.

(** Statement::execute, with the values of its buffers. *)
Definition execute (stmt : Statement) : mysql (outcome * list value) :=
  b ← get;
  if negb (prepared b) then raise UseAfterFree
  else
    let values := p_values (m_params b stmt) in
    put (with_params (set_params stmt (mkParams values 0)) b) ;;
    o ← next_outcome;
    match o with
    | Executed =>
        b ← get;
        match sql stmt values (db b) with
        | Some d => put (with_insert_id (last_insert_rowid d) (with_db (λ _, d) b)) ;; mret (Executed, values)
        | None => put (with_insert_id id_after_error b) ;; mret (Refused, values)
        end
    | Refused => modify (with_insert_id id_after_error) ;; mret (Refused, values)
    | ServerLost => mret (ServerLost, values)
    end.

Definition no_params : Statement → Params := λ _, mkParams [] 0.

(** The statements are deleted; they are not set to null. *)
Definition disconnect : mysql unit :=
  b ← get;
  if prepared b then put (with_prepared false b) else raise UseAfterFree.

(** createDatabase makes the tables where there are none. *)
Definition connect : mysql bool :=
  o ← next_outcome;
  match o with
  | Executed => modify (λ b, with_params (λ _, no_params) (with_prepared true b)) ;; mret true
  | _ => mret false
  end.

(** The macro: the METHOD is called again when the server was lost, whatever connect
    answers; otherwise the method goes on. *)
Definition EXEC {A} (stmt : Statement) (METHOD : mysql A) (rest : list value → mysql A) : mysql A :=
  r ← execute stmt;
  match r with
  | (ServerLost, _) => disconnect ;; connect ;; METHOD
  | (Executed, params) => modify (with_exec_ok true) ;; rest params
  | (Refused, params) => modify (with_exec_ok false) ;; rest params
  end.

(** A method that may call itself again; each time an outcome is used up, so their number
    is enough. *)
Fixpoint attempts {B A} (fuel : nat) (method : (B → mysql A) → B → mysql A) (arg : B) : mysql A :=
  match fuel with
  | 0 => raise UncaughtException
  | S fuel => method (attempts fuel method) arg
  end.

Definition method {B A} (body : (B → mysql A) → B → mysql A) (arg : B) : mysql A :=
  b ← get;
  attempts (S (length (outcomes b))) body arg.

(** The rows of a query: none when it failed. *)
Definition rows {A} (f : Database → list A) : mysql (list A) :=
  b ← get;
  mret (if exec_ok b then f (db b) else []).

(** ** Users *)

Definition encrypted (password : string) : mysql string :=
  if String.eqb (encryption_key cfg) "" then mret password else encryptPassword password (encryption_key cfg).

Definition decrypted (password : string) : mysql string :=
  if String.eqb (encryption_key cfg) "" then mret password else decryptPassword password (encryption_key cfg).

Definition bool_number (b : bool) : Z := if b then 1 else 0.

Definition setUser : UserInfo → mysql unit := method (λ setUser user,
  password ← encrypted (Pool.ui_password user);
  push_all m_setUser [VText (Pool.ui_jid user); VText (Pool.ui_uin user); VText password; VText (Pool.ui_language user);
    VText (Pool.ui_encoding user); VNumber (bool_number (Pool.ui_vip user)); VText (Pool.ui_uin user); VText password] ;;
  EXEC m_setUser (setUser user) (λ _, mret tt)).

(** operator>> of a text ends at a NUL; that of a TINYINT reads an int. *)
Definition read_text (s : string) : string := c_str s.
Definition read_tiny (z : Z) : Z := (z mod 256 + 256 * upper_bytes)%Z.

(** The query of the options, which says who is VIP. *)
Definition vip_of (barejid : string) (vip : bool) (d : Database) : bool :=
  if String.eqb (vip_statement cfg) "" then vip else default vip (vip_query (vip_statement cfg) barejid d).

(** The last row counts; there is one. *)
Definition read_user (user : UserInfo) (row : Z * users_row) : mysql UserInfo :=
  let '(id, r) := row in
  password ← decrypted (read_text (ur_password r));
  mret (Pool.mkUserInfo (to_int id) (read_text (ur_jid r)) (read_text (ur_uin r)) password (read_text (ur_language r))
          (read_text (ur_encoding r)) (negb (read_tiny (ur_vip r) =? 0)%Z) (Pool.ui_settings user)).

Fixpoint read_users (user : UserInfo) (l : list (Z * users_row)) : mysql UserInfo :=
  match l with
  | [] => mret user
  | row :: l => user ← read_user user row; read_users user l
  end.

Definition set_vip (vip : bool) (user : UserInfo) : UserInfo :=
  Pool.mkUserInfo (Pool.ui_id user) (Pool.ui_jid user) (Pool.ui_uin user) (Pool.ui_password user) (Pool.ui_language user)
    (Pool.ui_encoding user) vip (Pool.ui_settings user).

Definition getUser (barejid : string) : UserInfo → mysql (bool * UserInfo) := method (λ getUser user,
  push m_getUser (VText barejid) ;;
  EXEC m_getUser (getUser user) (λ params,
    b ← get;
    if negb (exec_ok b) then mret (false, user)
    else
      l ← rows (λ d, filter (λ '(_, r), Is_true (collated_equal (ur_jid r) (text 0 params))) (t_users d));
      user ← read_users user l;
      mret (negb (bool_decide (l = [])), set_vip (vip_of barejid (Pool.ui_vip user) (db b)) user))).

Definition setUserOnline (id : Z) : bool → mysql unit := method (λ setUserOnline online,
  push_all m_setUserOnline [VNumber (bool_number online); VNumber id] ;;
  EXEC m_setUserOnline (setUserOnline online) (λ _, mret tt)).

(** The three lists. *)
Definition list_users (stmt : Statement) (column : users_row → option string) : list string → mysql (bool * list string) :=
  method (λ get_list found,
  EXEC stmt (get_list found) (λ _,
    b ← get;
    if negb (exec_ok b) then mret (false, found)
    else l ← rows (λ d, arrange_rows (omap (λ '(_, r), column r) (t_users d))); mret (true, found ++ map read_text l))).

Definition getOnlineUsers := list_users m_getOnlineUsers (λ r, if (ur_online r =? 1)%Z then Some (ur_jid r) else None).
Definition getUsers := list_users m_getUsers (λ r, Some (ur_jid r)).
Definition getLegacyNetworkUsers := list_users m_getLegacyNetworkUsers (λ r, Some (ur_uin r)).

(** ** Contacts *)

Definition icon_hash (info : BuddyInfo) : option string :=
  match sfind "icon_hash"%string (bi_settings info) with
  | Some var => if String.eqb (sv_s var) "" then None else Some (sv_s var)
  | None => None
  end.

(** Whether the first statement was executed nobody asks. *)
Definition addBuddy (userId : Z) : BuddyInfo → mysql Z := method (λ addBuddy info,
  push_all m_addBuddy [VNumber userId; VText (bi_legacyName info); VText (bi_subscription info);
    VText (serializeGroups (bi_groups info)); VText (bi_alias info); VNumber (bi_flags info)] ;;
  EXEC m_addBuddy (addBuddy info) (λ _,
    b ← get;
    let id := insert_id b in
    match icon_hash info with
    | None => mret id
    | Some hash =>
        push_all m_updateBuddySetting [VNumber userId; VNumber id; VText "icon_hash"; VNumber TYPE_STRING; VText hash; VText hash] ;;
        EXEC m_updateBuddySetting (addBuddy info) (λ _, mret id)
    end)).

Definition updateBuddySetting (userId buddyId : Z) (variable : string) (type : Z) : string → mysql unit :=
  method (λ updateBuddySetting value,
  push_all m_updateBuddySetting [VNumber userId; VNumber buddyId; VText variable; VNumber type; VText value; VText value] ;;
  EXEC m_updateBuddySetting (updateBuddySetting value) (λ _, mret tt)).

Definition getBuddySetting (userId buddyId : Z) (variable : string) : Z * string → mysql (Z * string) := method (λ getBuddySetting found,
  push_all m_getBuddySetting [VNumber userId; VNumber buddyId; VText variable] ;;
  EXEC m_getBuddySetting (getBuddySetting found) (λ params,
    l ← rows (λ d, filter (λ '(k, r), bs_user_id r = number 0 params ∧ fst k = number 1 params ∧ Is_true (collated_equal (snd k) (text 2 params)))
                 (t_buddies_settings d));
    match l with
    | (_, r) :: _ => mret (to_int (bs_type r), read_text (bs_value r))
    | [] => mret found
    end)).

Definition removeBuddy : Z → mysql unit := method (λ removeBuddy id,
  push m_removeBuddy (VNumber id) ;;
  EXEC m_removeBuddy (removeBuddy id) (λ _,
    b ← get;
    if negb (exec_ok b) then mret tt
    else
      push m_removeBuddySettings (VNumber id) ;;
      EXEC m_removeBuddySettings (removeBuddy id) (λ _, mret tt))).

Definition updateBuddy (userId : Z) : BuddyInfo → mysql unit := method (λ updateBuddy info,
  push_all m_updateBuddy [VText (serializeGroups (bi_groups info)); VText (bi_alias info); VNumber (bi_flags info);
    VText (bi_subscription info); VNumber userId; VText (bi_legacyName info)] ;;
  EXEC m_updateBuddy (updateBuddy info) (λ _, mret tt)).

(** A row of the first query; the flags are read as an int. *)
Definition read_contact (row : Z * buddies_row) : BuddyInfo :=
  let '(id, r) := row in
  let group := read_text (br_groups r) in
  mkBuddyInfo (to_int id) (read_text (br_nickname r)) (read_text (br_uin r)) (read_text (br_subscription r))
    (if String.eqb group "" then [] else deserializeGroups group) [] (to_int (br_flags r)).

Definition set_bi_settings settings (b : BuddyInfo) : BuddyInfo :=
  mkBuddyInfo (bi_id b) (bi_alias b) (bi_legacyName b) (bi_subscription b) (bi_groups b) settings (bi_flags b).

(** The loop over the roster, with the rows of the second query in the cursor of
    [Sqlite]: its inner loop is that of the other storage. *)
Fixpoint fill_settings (c : Cursor) (roster : list BuddyInfo) : list BuddyInfo :=
  match roster with
  | [] => []
  | b :: roster =>
      let ahead := (cu_buddy c =? bi_id b)%Z in
      let settings := if ahead then sinsert (cu_key c) (cu_var c) (bi_settings b) else bi_settings b in
      let c := if ahead then mkCursor (cu_rest c) (cu_complete c) (ret2 c) (-1) (cu_key c) (cu_var c) else c in
      let '(c, settings) := read_settings (bi_id b) (cu_rest c) c settings in
      set_bi_settings settings b :: fill_settings c roster
  end.

Definition read_setting (e : setting) : setting :=
  let '((id, key), r) := e in ((id, read_text key), mkBuddiesSettingsRow (bs_user_id r) (bs_type r) (read_text (bs_value r))).

Definition getBuddies (id : Z) : list BuddyInfo → mysql (bool * list BuddyInfo) := method (λ getBuddies roster,
  push m_getBuddies (VNumber id) ;;
  push m_getBuddiesSettings (VNumber id) ;;
  EXEC m_getBuddies (getBuddies roster) (λ params,
    b ← get;
    if negb (exec_ok b) then mret (false, roster)
    else
      l ← rows (λ d, filter (λ '(_, r), br_user_id r = number 0 params) (t_buddies d));
      let roster := roster ++ map read_contact l in
      EXEC m_getBuddiesSettings (getBuddies roster) (λ params,
        b ← get;
        if negb (exec_ok b) then mret (false, roster)
        else
          l ← rows (λ d, filter (λ '(_, r), bs_user_id r = number 0 params) (t_buddies_settings d));
          mret (true, fill_settings (start_cursor (map read_setting l) true) roster)))).

Definition removeUser : Z → mysql bool := method (λ removeUser id,
  let step stmt (rest : mysql bool) : mysql bool :=
    push stmt (VNumber id) ;;
    EXEC stmt (removeUser id) (λ _, b ← get; if negb (exec_ok b) then mret false else rest) in
  step m_removeUser (step m_removeUserSettings (step m_removeUserBuddies (step m_removeUserBuddiesSettings (mret true))))).

(** ** Settings *)

Definition getAllSettings (userId : Z) : smap string string → mysql (smap string string) := method (λ getAllSettings settings,
  push m_getUserSettings (VNumber userId) ;;
  EXEC m_getUserSettings (getAllSettings settings) (λ params,
    l ← rows (λ d, filter (λ '(k, _), fst k = number 0 params) (t_users_settings d));
    mret (foldl (λ m '((_, var), r), sinsert (read_text var) (read_text (us_value r)) m) settings l))).

Definition getUserSetting (id : Z) (variable : string) : Z * string → mysql (Z * string) := method (λ getUserSetting found,
  push_all m_getUserSetting [VNumber id; VText variable] ;;
  EXEC m_getUserSetting (getUserSetting found) (λ params,
    l ← rows (λ d, filter (λ '(k, _), fst k = number 0 params ∧ Is_true (collated_equal (snd k) (text 1 params))) (t_users_settings d));
    match l with
    | (_, r) :: _ => mret (to_int (us_type r), read_text (us_value r))
    | [] =>
        push_all m_setUserSetting [VNumber id; VText variable; VNumber (fst found); VText (snd found)] ;;
        EXEC m_setUserSetting (getUserSetting found) (λ _, mret found)
    end)).

Definition updateUserSetting (id : Z) (variable : string) : string → mysql unit := method (λ updateUserSetting value,
  push_all m_updateUserSetting [VText value; VNumber id; VText variable] ;;
  EXEC m_updateUserSetting (updateUserSetting value) (λ _, mret tt)).
End mysql.
