(* ===== verification/MySqlTheorems.v ===== *)
(** * The MySQL storage: properties

    What it reads is what the SQLite storage reads; what becomes of a method when the
    server is lost. *)

From S2P Require Import Prelude StdMap Codecs Text Sqlite MySql.
From S2P Require SqliteTheorems.
From S2P Require Pool UserManager.

(** ** Methods that call themselves *)

Section recursion.
Context `{MySqlEngine} `{Split} `{Base64} (cfg : MySqlConfig).

(** Programs that agree where at most [n] outcomes are left. *)
Definition agree {A} (n : nat) (m m' : prog MySQLBackend A) : Prop := ∀ b, length (outcomes b) <= n → m b = m' b.

Definition shrinking {A} (m : prog MySQLBackend A) : Prop :=
  ∀ b, match m b with Done _ b' => length (outcomes b') <= length (outcomes b) | Fault _ => True end.

(** A method that calls itself only when an outcome is used up. *)
Definition frugal {B A} (body : (B → prog MySQLBackend A) → B → prog MySQLBackend A) : Prop :=
  ∀ n M M' arg, (∀ arg' k, k < n → agree k (M arg') (M' arg')) → agree n (body M arg) (body M' arg).

Lemma agree_refl {A} n (m : prog MySQLBackend A) : agree n m m.
Proof. by intros b _. Qed.

Lemma agree_bind {A B} n (m : prog MySQLBackend A) (k k' : A → prog MySQLBackend B) :
  shrinking m → (∀ a, agree n (k a) (k' a)) → agree n (m ≫= k) (m ≫= k').
Proof.
  intros Hm Hk b Hb. rewrite !bind_run. specialize (Hm b). destruct (m b) as [a b'|f]; [|done]. apply Hk. lia.
Qed.

Lemma shrinking_bind {A B} (m : prog MySQLBackend A) (k : A → prog MySQLBackend B) : shrinking m → (∀ a, shrinking (k a)) → shrinking (m ≫= k).
Proof.
  intros Hm Hk b. rewrite bind_run. specialize (Hm b). destruct (m b) as [a b'|f]; [|done]. specialize (Hk a b'). destruct (k a b'); [lia|done].
Qed.

Lemma shrinking_get : shrinking get.
Proof. intros b. apply Nat.le_refl. Qed.

Lemma shrinking_ret {A} (a : A) : shrinking (mret a).
Proof. intros b. apply Nat.le_refl. Qed.

Lemma shrinking_push stmt v : shrinking (push stmt v).
Proof. 
  intros b. unfold push. rewrite bind_run. cbn [get]. destruct (negb _); [done|]. cbv zeta. destruct (_ <=? _); [simpl; lia|].
  destruct v; [destruct (_ <? _); [done|simpl; lia]|].
  destruct (String.get _ _) as [[[] [] [] [] [] [] [] []]|]; simpl; done || lia.
Qed.

Lemma shrinking_push_all stmt l : shrinking (push_all stmt l).
Proof. induction l as [|v l IH]; [apply shrinking_ret|]. apply shrinking_bind; [apply shrinking_push|by intros _]. Qed.

Lemma shrinking_rows {A} (f : Database → list A) : shrinking (rows f).
Proof. intros b. apply Nat.le_refl. Qed.

Lemma next_outcome_run b : ∃ o b', next_outcome b = Done o b' ∧ length (outcomes b') <= length (outcomes b) ∧
  (o ≠ Executed → length (outcomes b') < length (outcomes b)).
Proof.
  unfold next_outcome. rewrite bind_run. cbn [get]. destruct (outcomes b) as [|o rest] eqn:E.
  - exists Executed, b. rewrite E. split_and!; [done|lia|done].
  - exists o, (with_outcomes rest b). rewrite bind_run. cbn [put]. split_and!; simpl; [done|lia|intros; lia].
Qed.

Lemma execute_outcomes stmt b :
  match execute stmt b with
  | Done (o, _) b' => length (outcomes b') <= length (outcomes b) ∧ (o = ServerLost → length (outcomes b') < length (outcomes b))
  | Fault f => f = UseAfterFree
  end.
Proof.
  unfold execute. rewrite bind_run. cbn [get]. destruct (negb (prepared b)); [done|]. rewrite bind_run. cbn [put].
  set (b1 := with_params _ b). destruct (next_outcome_run b1) as (o & b2 & Hrun & Hle & Hlt).
  rewrite (bind_done _ _ _ _ _ Hrun). change (outcomes b1) with (outcomes b) in *.
  destruct o.
  - rewrite bind_run. cbn [get]. destruct (sql _ _ _); rewrite bind_run; cbn [put]; simpl; (split; [lia|done]).
  - simpl. split; [lia|done].
  - simpl. split; [lia|]. intros _. by apply Hlt.
Qed.

Lemma agree_EXEC {A} n stmt (M M' : prog MySQLBackend A) rest rest' :
  (∀ k, k < n → agree k M M') → (∀ params, agree n (rest params) (rest' params)) → agree n (EXEC stmt M rest) (EXEC stmt M' rest').
Proof.
  intros HM Hrest b Hb. unfold EXEC. rewrite !bind_run. pose proof (execute_outcomes stmt b) as Hex.
  destruct (execute stmt b) as [[o params] b'|f]; [|done]. destruct Hex as [Hle Hlt].
  destruct o; [apply Hrest; simpl; lia|apply Hrest; simpl; lia|]. specialize (Hlt eq_refl).
  rewrite !bind_run. unfold disconnect. rewrite bind_run. cbn [get]. destruct (prepared b'); [|done]. cbn [put].
  rewrite !bind_run. unfold connect. rewrite bind_run.
  destruct (next_outcome_run (with_prepared false b')) as (o & b2 & Hrun & Hle2 & _). rewrite Hrun. simpl in Hle2.
  destruct o; simpl; apply (HM (length (outcomes b'))); simpl; lia.
Qed.

Lemma attempts_agree {B A} (body : (B → prog MySQLBackend A) → B → prog MySQLBackend A) : frugal body →
  ∀ n fuel fuel' arg, n < fuel → n < fuel' → agree n (attempts fuel body arg) (attempts fuel' body arg).
Proof.
  intros Hf n. induction n as [n IH] using lt_wf_ind. intros [|fuel] [|fuel'] arg Hl Hl'; [lia|lia|lia|]. simpl.
  apply Hf. intros arg' k Hk. apply IH; lia.
Qed.

(** The equation of such a method: it calls itself. *)
Lemma method_equation {B A} (body : (B → prog MySQLBackend A) → B → prog MySQLBackend A) arg b : frugal body →
  method body arg b = body (method body) arg b.
Proof.
  intros Hf. unfold method at 1. rewrite bind_run. cbn [get attempts].
  apply (Hf (length (outcomes b))); [|done]. intros arg' k Hk b' Hb'. unfold method. rewrite bind_run. cbn [get].
  apply (attempts_agree body Hf (length (outcomes b'))); [lia|lia|done].
Qed.
End recursion.

Ltac frugal_step :=
  lazymatch goal with
  | |- agree _ ?m ?m => apply agree_refl
  | |- agree _ (EXEC _ _ _) (EXEC _ _ _) => apply agree_EXEC; [by auto|intros ?]
  | |- agree _ (_ ≫= _) (_ ≫= _) => apply agree_bind; [|intros ?]
  | |- agree _ (match ?x with _ => _ end) _ => destruct x
  | |- shrinking (push_all _ _) => apply shrinking_push_all
  | |- shrinking (push _ _) => apply shrinking_push
  | |- shrinking (rows _) => apply shrinking_rows
  | |- shrinking get => apply shrinking_get
  end.

Ltac solve_frugal := intros n M M' arg HM; cbv beta zeta; repeat frugal_step.

(** *** All of them *)

Section methods.
Context `{MySqlEngine} `{Split} `{Base64} (cfg : MySqlConfig).

(** A method is what its text says of it: where the text calls the method again, it is the
    method that is called, and no bound on the number of calls is met. *)
Definition calls_itself {B A} (op : B → prog MySQLBackend A) : Prop :=
  ∃ body, op = method body ∧ ∀ arg b, op arg b = body op arg b.

Lemma frugal_calls {B A} (body : (B → prog MySQLBackend A) → B → prog MySQLBackend A) : frugal body → calls_itself (method body).
Proof. intros Hf. exists body. split; [done|]. intros arg b. by apply method_equation. Qed.

Lemma shrinking_encrypted password : shrinking (encrypted cfg password).
Proof.
  intros b. unfold encrypted, encryptPassword. destruct (String.eqb _ _); [apply Nat.le_refl|].
  destruct (shift_from _ _ _ _); [apply Nat.le_refl|done].
Qed.

Lemma shrinking_read_user user row : shrinking (read_user cfg user row).
Proof.
  destruct row as [id r]. apply shrinking_bind; [|intros a; apply shrinking_ret].
  intros b. unfold decrypted, decryptPassword. destruct (String.eqb _ _); [apply Nat.le_refl|].
  destruct (shift_from _ _ _ _); [apply Nat.le_refl|done].
Qed.

Lemma shrinking_read_users user l : shrinking (read_users cfg user l).
Proof.
  revert user. induction l as [|row l IH]; intros user; [apply shrinking_ret|]. apply shrinking_bind; [apply shrinking_read_user|by intros user'].
Qed.

Lemma methods_call_themselves :
  calls_itself (setUser cfg) ∧ (∀ jid, calls_itself (getUser cfg jid)) ∧ (∀ id, calls_itself (setUserOnline id)) ∧
  calls_itself getOnlineUsers ∧ calls_itself getUsers ∧ calls_itself getLegacyNetworkUsers ∧
  (∀ id, calls_itself (addBuddy id)) ∧ (∀ id id' var type, calls_itself (updateBuddySetting id id' var type)) ∧
  (∀ id id' var, calls_itself (getBuddySetting id id' var)) ∧ calls_itself removeBuddy ∧ (∀ id, calls_itself (updateBuddy id)) ∧
  (∀ id, calls_itself (getBuddies id)) ∧ calls_itself removeUser ∧ (∀ id, calls_itself (getAllSettings id)) ∧
  (∀ id var, calls_itself (getUserSetting id var)) ∧ (∀ id var, calls_itself (updateUserSetting id var)).
Proof.
  repeat split; intros; apply frugal_calls; solve_frugal; first [apply shrinking_encrypted|apply shrinking_read_users].
Qed.
End methods.

(** ** Running a statement *)

Section running.
Context `{MySqlEngine} `{Split} `{Base64} (cfg : MySqlConfig).

(** The statements are there, and one of them waits for its first parameter. *)
Definition ready (stmt : Statement) (b : MySQLBackend) : Prop := prepared b = true ∧ m_offset (m_params b stmt) = 0.

Lemma push_number stmt z b : ready stmt b → 0 < parameters stmt → String.get 0 (format stmt) ≠ Some "s"%char →
  push stmt (VNumber z) b = Done tt (with_params (set_params stmt (mkParams (VNumber (to_int z) :: tail (p_values (m_params b stmt))) 1)) b).
Proof.
  intros [Hp Ho] Hn Hs. unfold push. rewrite bind_run. cbn [get]. rewrite Hp. cbv zeta. rewrite Ho.
  destruct (Nat.leb_spec (parameters stmt) 0); [lia|]. simpl. unfold put_at. simpl.
  destruct (p_values _), (String.get 0 (format stmt)) as [[[] [] [] [] [] [] [] []]|]; done.
Qed.

(** A statement that was left with all its parameters takes no other ones. *)
Lemma push_full stmt v b : prepared b = true → parameters stmt <= m_offset (m_params b stmt) → push stmt v b = Done tt b.
Proof.
  intros Hp Ho. unfold push. rewrite bind_run. cbn [get]. rewrite Hp. cbv zeta.
  destruct (Nat.leb_spec (parameters stmt) (m_offset (m_params b stmt))); [done|lia].
Qed.

(** A statement that is executed, by the outcome. *)
Definition rewound (stmt : Statement) (b : MySQLBackend) : MySQLBackend :=
  with_params (set_params stmt (mkParams (p_values (m_params b stmt)) 0)) b.

Lemma execute_query stmt b d : prepared b = true → sql stmt (p_values (m_params b stmt)) (db b) = Some d → head (outcomes b) = None ∨ head (outcomes b) = Some Executed →
  execute stmt b = Done (Executed, p_values (m_params b stmt))
    (with_insert_id (last_insert_rowid d) (with_db (λ _, d) (with_outcomes (tail (outcomes b)) (rewound stmt b)))).
Proof.
  intros Hp Hs Ho. unfold execute. rewrite bind_run. cbn [get]. rewrite Hp. cbn [negb]. cbv zeta. rewrite bind_run. cbn [put]. fold (rewound stmt b).
  assert (next_outcome (rewound stmt b) = Done Executed (with_outcomes (tail (outcomes b)) (rewound stmt b))) as Hn.
  { unfold next_outcome. rewrite bind_run. cbn [get]. change (outcomes (rewound stmt b)) with (outcomes b).
    destruct b as [d0 pr pa ex ii [|o l]]; [done|]. simpl in Ho. by destruct Ho as [|[= ->]]. }
  rewrite (bind_done _ _ _ _ _ Hn). cbv iota. rewrite bind_run. cbn [get].
  change (db (with_outcomes (tail (outcomes b)) (rewound stmt b))) with (db b). by rewrite Hs.
Qed.

Lemma execute_fails stmt b o l : prepared b = true → outcomes b = o :: l → o ≠ Executed →
  execute stmt b = Done (o, p_values (m_params b stmt))
    (let b' := with_outcomes l (rewound stmt b) in match o with Refused => with_insert_id id_after_error b' | _ => b' end).
Proof.
  intros Hp Ho Hne. unfold execute. rewrite bind_run. cbn [get]. rewrite Hp. cbn [negb]. cbv zeta. rewrite bind_run. cbn [put]. fold (rewound stmt b).
  assert (next_outcome (rewound stmt b) = Done o (with_outcomes l (rewound stmt b))) as Hn.
  { unfold next_outcome. rewrite bind_run. cbn [get]. change (outcomes (rewound stmt b)) with (outcomes b). by rewrite Ho. }
  rewrite (bind_done _ _ _ _ _ Hn). by destruct o.
Qed.

(** ** The contacts of a user *)

Definition getBuddies_method (id : Z) := λ (getBuddies : list BuddyInfo → prog MySQLBackend (bool * list BuddyInfo)) (roster : list BuddyInfo),
  push m_getBuddies (VNumber id) ;;
  push m_getBuddiesSettings (VNumber id) ;;
  EXEC m_getBuddies (getBuddies roster) (λ params,
    b ← get;
    if negb (exec_ok b) then mret (false, roster)
    else
      l ← rows (λ d, filter (λ '(_, r), br_user_id r = number 0 params) (t_buddies d));
      let roster := roster ++ map read_contact l in
      EXEC m_getBuddiesSettings (getBuddies roster) (λ params,
        b ← get;
        if negb (exec_ok b) then mret (false, roster)
        else
          l ← rows (λ d, filter (λ '(_, r), bs_user_id r = number 0 params) (t_buddies_settings d));
          mret (true, fill_settings (start_cursor (map read_setting l) true) roster))).

Lemma getBuddies_equation id roster b : getBuddies id roster b = getBuddies_method id (getBuddies id) roster b.
Proof. apply (method_equation (getBuddies_method id)). unfold getBuddies_method. solve_frugal. Qed.

Definition contacts_of (id : Z) (d : Database) : list BuddyInfo := map read_contact (buddies_of id d).

(** A query that is executed. *)
Definition queried (stmt : Statement) (b : MySQLBackend) : MySQLBackend :=
  with_exec_ok true (with_insert_id (last_insert_rowid (db b)) (with_db (λ _, db b) (with_outcomes (tail (outcomes b)) (rewound stmt b)))).

Lemma EXEC_query {A} stmt (M : prog MySQLBackend A) rest b : prepared b = true → sql stmt (p_values (m_params b stmt)) (db b) = Some (db b) →
  head (outcomes b) = None ∨ head (outcomes b) = Some Executed →
  EXEC stmt M rest b = rest (p_values (m_params b stmt)) (queried stmt b).
Proof. intros Hp Hs Ho. unfold EXEC. by rewrite (bind_done _ _ _ _ _ (execute_query stmt b (db b) Hp Hs Ho)). Qed.

Lemma EXEC_refused {A} stmt (M : prog MySQLBackend A) rest b l : prepared b = true → outcomes b = Refused :: l →
  EXEC stmt M rest b = rest (p_values (m_params b stmt)) (with_exec_ok false (with_insert_id id_after_error (with_outcomes l (rewound stmt b)))).
Proof. intros Hp Ho. unfold EXEC. by rewrite (bind_done _ _ _ _ _ (execute_fails stmt b Refused l Hp Ho ltac:(done))). Qed.

(** The server is lost, and the second outcome is that of connect. *)
Lemma EXEC_lost {A} stmt (M : prog MySQLBackend A) rest b l : prepared b = true → outcomes b = ServerLost :: l →
  EXEC stmt M rest b = (connect ;; M) (with_prepared false (with_outcomes l (rewound stmt b))).
Proof.
  intros Hp Ho. unfold EXEC. rewrite (bind_done _ _ _ _ _ (execute_fails stmt b ServerLost l Hp Ho ltac:(done))). cbv iota beta.
  rewrite bind_run. unfold disconnect. rewrite bind_run. cbn [get]. change (prepared (with_outcomes l (rewound stmt b))) with (prepared b).
  by rewrite Hp.
Qed.

(** The two parameters of getBuddies. *)
Definition asked (id : Z) (b : MySQLBackend) : MySQLBackend :=
  with_params (set_params m_getBuddiesSettings (mkParams (VNumber (to_int id) :: tail (p_values (m_params b m_getBuddiesSettings))) 1))
    (with_params (set_params m_getBuddies (mkParams (VNumber (to_int id) :: tail (p_values (m_params b m_getBuddies))) 1)) b).

Lemma getBuddies_start {A} id b (k : prog MySQLBackend A) : ready m_getBuddies b → ready m_getBuddiesSettings b →
  (push m_getBuddies (VNumber id) ;; push m_getBuddiesSettings (VNumber id) ;; k) b = k (asked id b).
Proof.
  intros H3 H4. rewrite (bind_done _ _ _ _ _ (push_number m_getBuddies id b H3 ltac:(cbn; lia) ltac:(done))).
  assert (ready m_getBuddiesSettings (with_params (set_params m_getBuddies (mkParams (VNumber (to_int id) :: tail (p_values (m_params b m_getBuddies))) 1)) b)) as H5
    by (destruct H4; by split).
  by rewrite (bind_done _ _ _ _ _ (push_number m_getBuddiesSettings id _ H5 ltac:(cbn; lia) ltac:(done))).
Qed.

Definition filled (id : Z) (d : Database) (roster : list BuddyInfo) : list BuddyInfo :=
  fill_settings (start_cursor (map read_setting (settings_of id d)) true) roster.

(** The first query is executed. *)
Lemma getBuddies_first id roster b : ready m_getBuddies b → ready m_getBuddiesSettings b →
  head (outcomes b) = None ∨ head (outcomes b) = Some Executed →
  getBuddies id roster b = EXEC m_getBuddiesSettings (getBuddies id (roster ++ contacts_of id (db b))) (λ params,
        b1 ← get;
        if negb (exec_ok b1) then mret (false, roster ++ contacts_of id (db b))
        else
          l ← rows (λ d, filter (λ '(_, r), bs_user_id r = number 0 params) (t_buddies_settings d));
          mret (true, fill_settings (start_cursor (map read_setting l) true) (roster ++ contacts_of id (db b)))) (queried m_getBuddies (asked id b)).
Proof.
  intros H3 H4 Ho. rewrite getBuddies_equation. unfold getBuddies_method. rewrite getBuddies_start by done.
  rewrite EXEC_query; [|by destruct H3|done|done]. rewrite !bind_run. cbn [get]. done.
Qed.

(** The second one too: nothing is lost. *)
Lemma getBuddies_all id roster b : ready m_getBuddies b → ready m_getBuddiesSettings b → outcomes b = [] →
  ∃ b', getBuddies id roster b = Done (true, filled id (db b) (roster ++ contacts_of id (db b))) b' ∧ db b' = db b.
Proof.
  intros H3 H4 Ho. rewrite getBuddies_first; [|done|done|left; by rewrite Ho].
  rewrite EXEC_query; [|by destruct H3|done|left; simpl; by rewrite Ho]. rewrite !bind_run. cbn [get]. by eexists.
Qed.
End running.

(** ** The loop over the roster *)

Section filling.
Context `{Split}.

(** Texts without a NUL are read as they are. *)
Definition clean_contact (r : buddies_row) : Prop :=
  read_text (br_nickname r) = br_nickname r ∧ read_text (br_uin r) = br_uin r ∧ read_text (br_subscription r) = br_subscription r ∧
  read_text (br_groups r) = br_groups r.

Lemma fill_contacts c l : Forall (λ row, clean_contact (snd row)) l → fill_settings c (map read_contact l) = snd (read_buddies c l).
Proof.
  revert c. induction l as [|[id r] l IH]; intros c Hl; [done|]. apply Forall_cons in Hl as [(H1 & H2 & H3 & H4) Hl]. simpl in H1, H2, H3, H4.
  change (map read_contact ((id, r) :: l)) with (read_contact (id, r) :: map read_contact l).
  cbn [fill_settings read_buddies]. 
  assert (read_contact (id, r) = mkBuddyInfo (to_int id) (br_nickname r) (br_uin r) (br_subscription r) (deserializeGroups (br_groups r)) [] (to_int (br_flags r))) as ->.
  { unfold read_contact. rewrite H1, H2, H3, H4. cbv zeta. f_equal. unfold deserializeGroups. by destruct (String.eqb (br_groups r) ""). }
  unfold read_buddy. cbn [bi_id bi_settings]. cbv zeta.
  destruct (read_settings _ _ _ _) as [c' settings]. rewrite (IH c' Hl). destruct (read_buddies c' l) as [c'' infos]. done.
Qed.

Lemma fill_names c l : map bi_legacyName (fill_settings c l) = map bi_legacyName l.
Proof.
  revert c. induction l as [|b l IH]; intros c; [done|]. cbn [fill_settings]. cbv zeta. destruct (read_settings _ _ _ _) as [c' settings].
  simpl. by rewrite IH.
Qed.

Lemma read_settings_clean l : Forall (λ e : setting, read_setting e = e) l → map read_setting l = l.
Proof. induction 1 as [|e l He Hl IH]; [done|]. simpl. by rewrite He, IH. Qed.
End filling.

Lemma rows_run {A} (f : Database → list A) b : rows f b = Done (if exec_ok b then f (db b) else []) b.
Proof. done. Qed.

(** ** Properties *)

(** Nothing was left in the buffers of the two statements. *)
Definition fresh (b : MySQLBackend) : Prop := ready m_getBuddies b ∧ ready m_getBuddiesSettings b.

(** C37: the contacts of a user are those the SQLite storage reads from the same tables, each
    with its groups and settings, though one storage steps through both statements at once
    and the other reads all contacts first; from consistent tables they are the rows of
    the user, each with all the settings stored for it and no others. This holds for a
    connection on which no statement was left half filled, while the server neither
    refuses a statement nor is lost, for texts without NULs, and when the SQLite engine
    does not fail; [contacts_twice] and [stale_settings] say what happens otherwise. *)
Theorem buddies_as_sqlite `{MySqlEngine, SqlEngine, Split} id b :
  fresh b → outcomes b = [] → SqliteTheorems.reliable →
  Forall (λ row, clean_contact (snd row)) (buddies_of id (db b)) → Forall (λ e : setting, read_setting e = e) (settings_of id (db b)) →
  ∃ infos b', getBuddies id [] b = Done (true, infos) b' ∧ Sqlite.getBuddies id (db b) = (infos, true) ∧ db b' = db b
    ∧ (SqliteTheorems.consistent (db b) → infos = map (SqliteTheorems.info_with (settings_of id (db b))) (buddies_of id (db b))).
Proof.
  intros [Hb Hs] Ho Hr Hc Hset. destruct (getBuddies_all id [] b Hb Hs Ho) as (b' & Hrun & Hdb).
  assert (Sqlite.getBuddies id (db b) = (filled id (db b) ([] ++ contacts_of id (db b)), true)) as Hsqlite.
  { unfold Sqlite.getBuddies. rewrite !SqliteTheorems.select_all by done.
    unfold filled. simpl app. unfold contacts_of. rewrite fill_contacts by done. rewrite read_settings_clean by done.
    by destruct (read_buddies _ _). }
  eexists _, b'. split_and!; [exact Hrun|exact Hsqlite|done|]. intros Hcons.
  rewrite SqliteTheorems.getBuddies_rows in Hsqlite by done. by injection Hsqlite.
Qed.

(** when the server is lost between the two statements and comes back, the roster has
    every contact twice: the method starts again with the contacts it has read. *)
Theorem contacts_twice `{MySqlEngine, Split} id b :
  fresh b → outcomes b = [Executed; ServerLost; Executed] →
  ∃ infos b', getBuddies id [] b = Done (true, infos) b' ∧
    map bi_legacyName infos = map bi_legacyName (contacts_of id (db b)) ++ map bi_legacyName (contacts_of id (db b)).
Proof.
  intros [Hb Hs] Ho. rewrite getBuddies_first; [|done|done|right; by rewrite Ho].
  rewrite (EXEC_lost _ _ _ _ [Executed]); [|by destruct Hb|simpl; by rewrite Ho]. rewrite bind_run.
  set (b1 := with_prepared false _). assert (connect b1 = Done true (with_params (λ _, no_params) (with_prepared true (with_outcomes [] b1)))) as Hconn by done.
  rewrite Hconn. set (b2 := with_params _ _).
  destruct (getBuddies_all id ([] ++ contacts_of id (db b)) b2) as (b' & Hrun & _); [done|done|done|].
  eexists _, b'. split; [exact Hrun|]. unfold filled. rewrite fill_names. simpl app. rewrite map_app. done.
Qed.

(** after a first statement that fails, the second one keeps the parameter it was given,
    and takes no other: for the next user the method reads the settings of the user before. *)
Theorem stale_settings `{MySqlEngine, Split} id id' b :
  fresh b → outcomes b = [Refused] →
  ∃ b1 b2, getBuddies id [] b = Done (false, []) b1 ∧
    getBuddies id' [] b1 = Done (true, fill_settings (start_cursor (map read_setting (settings_of id (db b))) true) (contacts_of id' (db b))) b2.
Proof.
  intros [Hb Hs] Ho. set (b1 := with_exec_ok false (with_insert_id id_after_error (with_outcomes [] (rewound m_getBuddies (asked id b))))).
  exists b1.
  assert (ready m_getBuddies b1) as H2 by (destruct Hb; by split).
  assert (prepared b1 = true ∧ parameters m_getBuddiesSettings <= m_offset (m_params b1 m_getBuddiesSettings)) as [Hp Hfull]
    by (destruct Hb; split; [done|unfold parameters; simpl; lia]).
  assert (getBuddies id [] b = Done (false, []) b1) as Hfirst.
  { rewrite getBuddies_equation. unfold getBuddies_method at 1. rewrite getBuddies_start by done.
    by rewrite (EXEC_refused _ _ _ _ []); [|destruct Hb|]. }
  rewrite Hfirst. eexists. split; [done|].
  rewrite getBuddies_equation. unfold getBuddies_method at 1.
  rewrite (bind_done _ _ _ _ _ (push_number m_getBuddies id' b1 H2 ltac:(cbn; lia) ltac:(done))).
  set (b2 := with_params _ b1).
  rewrite (bind_done _ _ _ _ _ (push_full m_getBuddiesSettings (VNumber id') b2 Hp Hfull)).
  rewrite EXEC_query; [|done|done|by left]. rewrite !bind_run. cbn [get]. change (negb (exec_ok (queried m_getBuddies b2))) with false. cbv iota.
  rewrite bind_run, rows_run. rewrite EXEC_query; [|done|done|by left]. rewrite !bind_run. cbn [get]. done.
Qed.

(** when the server is lost and does not come back, the method goes on with statements
    that are deleted. *)
Theorem lost_server_use_after_free `{MySqlEngine, Split} id roster b o l :
  fresh b → outcomes b = ServerLost :: o :: l → o ≠ Executed → getBuddies id roster b = Fault UseAfterFree.
Proof.
  intros [Hb Hs] Ho Hne. rewrite getBuddies_equation. unfold getBuddies_method at 1. rewrite getBuddies_start by done.
  rewrite (EXEC_lost _ _ _ _ (o :: l)); [|by destruct Hb|done]. rewrite bind_run. set (b1 := with_prepared false _).
  assert (connect b1 = Done false (with_outcomes l b1)) as Hconn by (by destruct o).
  rewrite Hconn. by rewrite getBuddies_equation.
Qed.

(** nobody can ask for a setting of a contact: the format of the statement has a text
    where the identifier of the contact goes, and the length of that text is never set. *)
Theorem contact_setting_unreadable `{MySqlEngine, Split} userId buddyId variable found b :
  ready m_getBuddySetting b → getBuddySetting userId buddyId variable found b = Fault OutOfRange.
Proof.
  intros Hb. unfold getBuddySetting, method. rewrite bind_run. cbn [get attempts]. cbn [push_all for_each].
  rewrite !bind_run. rewrite (push_number m_getBuddySetting userId b Hb ltac:(cbn; lia) ltac:(done)).
  rewrite bind_run. unfold push at 1. rewrite bind_run. cbn [get]. destruct Hb as [Hp _].
  change (prepared (with_params _ b)) with (prepared b). by rewrite Hp.
Qed.

(** ** Witnesses *)

#[local] Instance reference_mysql : MySqlEngine := {|
  collated_equal := String.eqb;
  auto_increment := foldr Z.max 0%Z;
  id_after_error := 0;
  arrange_rows l := l;
  vip_query _ _ _ := None;
  upper_bytes := 0;
|}.

#[local] Instance reliable_sqlite : SqlEngine := {| fails_after _ _ := None; arrange l := l; arrange_permutes := λ l, reflexivity l |}.

#[local] Existing Instance Text.reference_split.

Definition two_users : Database :=
  mkDatabase [] [(1, mkBuddiesRow 7 "ann" "both" "Ann" "" 0); (2, mkBuddiesRow 8 "bob" "both" "Bob" "" 0)]%Z
    [((1, "icon_hash"), mkBuddiesSettingsRow 7 TYPE_STRING "abc"); ((2, "icon_hash"), mkBuddiesSettingsRow 8 TYPE_STRING "def")]%Z%string [] 2 0.

Definition connected (l : list outcome) : MySQLBackend := mkMySql two_users true (λ _, mkParams [] 0) true 0 l.

Definition ann : BuddyInfo := mkBuddyInfo 1 "Ann" "ann" "both" [] [("icon_hash", mkSettingVariable TYPE_STRING "abc" false)]%string 0.
Definition bob_without_icon : BuddyInfo := mkBuddyInfo 2 "Bob" "bob" "both" [] [] 0.

Lemma two_users_consistent : SqliteTheorems.consistent two_users.
Proof.
  assert (∀ {V} k (v a b : V), sfind k [(1, a); (2, b)]%Z = Some v → (k = 1 ∧ v = a)%Z ∨ (k = 2 ∧ v = b)%Z) as Hids.
  { intros V k v a b Hk%sfind_elem. set_solver. }
  split; split; try (repeat constructor; fail).
  - done.
  - intros id id' r r' [[-> ->]|[-> ->]]%Hids [[-> ->]|[-> ->]]%Hids; done.
  - intros id r [[-> ->]|[-> ->]]%Hids; lia.
  - intros id var s Hs%sfind_elem. apply elem_of_cons in Hs as [[= -> -> ->]|[[= -> -> ->]|?%not_elem_of_nil]%elem_of_cons]; [..|done]; by eexists.
  - intros k s Hs%sfind_elem. apply elem_of_cons in Hs as [[= -> ->]|[[= -> ->]|?%not_elem_of_nil]%elem_of_cons]; done.
Qed.

Lemma buddies_as_sqlite_witness :
  ∃ infos b', getBuddies 7 [] (connected []) = Done (true, infos) b' ∧ Sqlite.getBuddies 7 two_users = (infos, true) ∧
    infos = map (SqliteTheorems.info_with (settings_of 7 two_users)) (buddies_of 7 two_users) ∧ infos = [ann].
Proof.
  destruct (buddies_as_sqlite 7 (connected [])) as (infos & b' & H1 & H2 & _ & H3);
    [split; split; reflexivity|reflexivity|intros ? ?; reflexivity|vm_compute; repeat constructor|vm_compute; repeat constructor|].
  exists infos, b'. split; [exact H1|]. split; [exact H2|]. split; [exact (H3 two_users_consistent)|].
  vm_compute in H2. injection H2 as <-. reflexivity.
Defined.

Lemma contacts_twice_witness :
  ∃ infos b', getBuddies 7 [] (connected [Executed; ServerLost; Executed]) = Done (true, infos) b' ∧
    map bi_legacyName infos = ["ann"; "ann"]%string.
Proof. apply (contacts_twice 7 (connected [Executed; ServerLost; Executed])); [split; split; reflexivity|reflexivity]. Defined.

(** bob loses his icon to a failure of the user before. *)
Lemma stale_settings_witness :
  ∃ b1 b2, getBuddies 7 [] (connected [Refused]) = Done (false, []) b1 ∧ getBuddies 8 [] b1 = Done (true, [bob_without_icon]) b2.
Proof. apply (stale_settings 7 8 (connected [Refused])); [split; split; reflexivity|reflexivity]. Defined.

Lemma lost_server_use_after_free_witness :
  getBuddies 7 [] (connected [ServerLost; Refused]) = Fault UseAfterFree.
Proof.
  apply (lost_server_use_after_free 7 [] (connected [ServerLost; Refused]) Refused []); [split; split; reflexivity|reflexivity|discriminate].
Defined.

Lemma contact_setting_unreadable_witness : getBuddySetting 7 1 "icon_hash" (0%Z, ""%string) (connected []) = Fault OutOfRange.
Proof. apply (contact_setting_unreadable 7 1 "icon_hash" (0%Z, ""%string) (connected [])). split; reflexivity. Defined.
