(* ===== verification/Pqxx.v ===== *)
(** * The PostgreSQL storage

    PQXXBackend (libtransport/PQXXBackend.cpp, include/transport/PQXXBackend.h), on the
    tables of [Sqlite], with its statements named as there. The server decides which
    statements throw; every operation catches that. Texts are escaped up to their first
    NUL, and SQL is read as it is written. *)

From S2P Require Import Prelude StdMap Codecs Text Sqlite.
From S2P Require Pool UserManager.

(** The server: whether a statement throws, the next number of a SERIAL column, and the
    order of rows nobody asked an order for. *)
Class PgEngine := {
  throws : Statement → Database → bool;
  serial : list Z → Z;
  pg_arrange : list string → list string;
}.

Section pqxx.
Context `{PgEngine} `{Split} `{Base64} (encryption_key : string).

Abbreviation pqxx A := (prog Database A).

(** txn.exec of a command, which may violate a constraint: whether it did not throw. *)
Definition command (stmt : Statement) (f : Database → option Database) : pqxx bool :=
  d ← get;
  if throws stmt d then mret false
  else match f d with
  | Some d => put d ;; mret true
  | None => mret false
  end.

(** txn.exec of a query: no rows when it throws. *)
Definition query {A} (stmt : Statement) (f : Database → list A) : pqxx (option (list A)) :=
  d ← get;
  mret (if throws stmt d then None else Some (f d)).

(** try: what is in the block goes on as long as nothing throws. *)
Definition and_then (m n : pqxx bool) : pqxx bool := done ← m; if done : bool then n else mret false.

(** ** Users *)

Definition encrypted (password : string) : pqxx string :=
  if String.eqb encryption_key "" then mret password else encryptPassword password encryption_key.

Definition decrypted (password : string) : pqxx string :=
  if String.eqb encryption_key "" then mret password else decryptPassword password encryption_key.

(** A plain INSERT, which the unique column jid may refuse. *)
Definition insert_user (user : UserInfo) (password : string) (d : Database) : option Database :=
  match find_jid (c_str (Pool.ui_jid user)) d with
  | Some _ => None
  | None =>
      Some (with_users (sinsert (serial (fst <$> t_users d)) (mkUsersRow (c_str (Pool.ui_jid user)) (c_str (Pool.ui_uin user))
        (c_str password) (c_str (Pool.ui_language user)) (c_str (Pool.ui_encoding user)) (db_now d) (if Pool.ui_vip user then 1 else 0) 0)) d)
  end.

Definition setUser (user : UserInfo) : pqxx unit :=
  password ← encrypted (Pool.ui_password user);
  command m_setUser (insert_user user password) ;;
  mret tt.

Definition getUser (barejid : string) (user : UserInfo) : pqxx (bool * UserInfo) :=
  rows ← query m_getUser (λ d, filter (λ '(_, r), ur_jid r = c_str barejid) (t_users d));
  match rows with
  | None | Some [] => mret (false, user)
  | Some ((id, r) :: _) =>
      password ← decrypted (ur_password r);
      mret (true, Pool.mkUserInfo id (ur_jid r) (ur_uin r) password (ur_language r) (ur_encoding r) (negb (ur_vip r =? 0)%Z) (Pool.ui_settings user))
  end.

Definition setUserOnline (id : Z) (online : bool) : pqxx unit :=
  command m_setUserOnline (λ d, Some (with_users (update_rows (λ k _, (k =? id)%Z) (λ r,
    mkUsersRow (ur_jid r) (ur_uin r) (ur_password r) (ur_language r) (ur_encoding r) (db_now d) (ur_vip r) (if online then 1 else 0))) d)) ;;
  mret tt.

Definition list_users (stmt : Statement) (column : users_row → option string) (users : list string) : pqxx (bool * list string) :=
  rows ← query stmt (λ d, pg_arrange (omap (λ '(_, r), column r) (t_users d)));
  match rows with
  | None => mret (false, users)
  | Some l => mret (true, users ++ l)
  end.

Definition getOnlineUsers := list_users m_getOnlineUsers (λ r, if (ur_online r =? 1)%Z then Some (ur_jid r) else None).
Definition getUsers := list_users m_getUsers (λ r, Some (ur_jid r)).
Definition getLegacyNetworkUsers := list_users m_getLegacyNetworkUsers (λ r, Some (ur_uin r)).

(** ** Contacts *)

Definition insert_contact (userId : Z) (info : BuddyInfo) (d : Database) : option Database :=
  if buddy_exists userId (c_str (bi_legacyName info)) d then None
  else
    let id := serial (fst <$> t_buddies d) in
    Some (with_rowid id (with_buddies (sinsert id (mkBuddiesRow userId (c_str (bi_legacyName info)) (c_str (bi_subscription info))
      (c_str (bi_alias info)) (c_str (serializeGroups (bi_groups info))) (bi_flags info))) d)).

(** The rows of settings of the contact, whatever their variable. *)
Definition is_setting_of (userId id : Z) (k : Z * string) (r : buddies_settings_row) : bool :=
  (bs_user_id r =? userId)%Z && (fst k =? id)%Z.

(** UPDATE buddies_settings SET var = 'icon_hash': more than one row of a contact would
    have the same key. *)
Definition rename_settings (userId id : Z) (value : string) (d : Database) : option Database :=
  let '(mine, others) := (filter (λ e, is_setting_of userId id (fst e) (snd e) = true) (t_buddies_settings d),
                          filter (λ e, is_setting_of userId id (fst e) (snd e) = false) (t_buddies_settings d)) in
  match mine with
  | [] => Some d
  | [_] =>
      match sfind (id, "icon_hash"%string) others with
      | Some _ => None
      | None => Some (with_buddies_settings (λ _, sinsert (id, "icon_hash"%string) (mkBuddiesSettingsRow userId TYPE_STRING value) others) d)
      end
  | _ => None
  end.

Definition insert_icon (userId id : Z) (value : string) (d : Database) : option Database :=
  match sfind (id, "icon_hash"%string) (t_buddies_settings d) with
  | Some _ => None
  | None => Some (with_buddies_settings (sinsert (id, "icon_hash"%string) (mkBuddiesSettingsRow userId TYPE_STRING value)) d)
  end.

(** A contact without an icon hash is end(), whose members nobody may read. What throws
    after the contact is inserted leaves it there. *)
Definition addBuddy (userId : Z) (info : BuddyInfo) : pqxx Z :=
  inserted ← command m_addBuddy (insert_contact userId info);
  if negb inserted then mret (-1)%Z
  else
    d ← get;
    let id := last_insert_rowid d in
    match sfind "icon_hash"%string (bi_settings info) with
    | None => raise OutOfRange
    | Some var =>
        let affected := existsb (λ e, is_setting_of userId id (fst e) (snd e)) (t_buddies_settings d) in
        renamed ← command m_updateBuddySetting (rename_settings userId id (c_str (sv_s var)));
        if negb renamed then mret (-1)%Z
        else if affected then mret id
        else
          stored ← command m_setUserSetting (insert_icon userId id (c_str (sv_s var)));
          mret (if stored : bool then id else (-1)%Z)
    end.

Definition updateBuddy (userId : Z) (info : BuddyInfo) : pqxx unit :=
  command m_updateBuddy (λ d, Some (with_buddies (update_rows
    (λ _ r, (br_user_id r =? userId)%Z && String.eqb (br_uin r) (c_str (bi_legacyName info)))
    (λ r, mkBuddiesRow (br_user_id r) (br_uin r) (c_str (bi_subscription info)) (c_str (bi_alias info))
            (c_str (serializeGroups (bi_groups info))) (bi_flags info))) d)) ;;
  mret tt.

(** Three functions of the header that do nothing. *)
Definition removeBuddy (id : Z) : pqxx unit := mret tt.
Definition getBuddySetting (userId buddyId : Z) (variable : string) (found : Z * string) : pqxx (Z * string) := mret found.
Definition updateBuddySetting (userId buddyId : Z) (variable : string) (type : Z) (value : string) : pqxx unit := mret tt.

Definition read_contact (row : Z * buddies_row) : BuddyInfo :=
  let '(id, r) := row in
  mkBuddyInfo id (br_nickname r) (br_uin r) (br_subscription r)
    (if String.eqb (br_groups r) "" then [] else deserializeGroups (br_groups r)) [] (to_int (br_flags r)).

Definition add_setting (key : string) (var : SettingVariableInfo) (b : BuddyInfo) : BuddyInfo :=
  mkBuddyInfo (bi_id b) (bi_alias b) (bi_legacyName b) (bi_subscription b) (bi_groups b) (sinsert key var (bi_settings b)) (bi_flags b).

(** The inner loop: the first contact with the identifier. *)
Fixpoint give_setting (id : Z) (key : string) (var : SettingVariableInfo) (roster : list BuddyInfo) : list BuddyInfo :=
  match roster with
  | [] => []
  | b :: roster => if (id =? bi_id b)%Z then add_setting key var b :: roster else b :: give_setting id key var roster
  end.

(** A row of the second query; each has a variable of its own. *)
Definition take_setting (roster : list BuddyInfo) (e : setting) : list BuddyInfo :=
  let '((id, key), r) := e in
  if known_type (bs_type r) then give_setting id key (read_value (bs_type r) (bs_value r) (mkSettingVariable (bs_type r) "" false)) roster
  else roster.

Definition getBuddies (id : Z) (roster : list BuddyInfo) : pqxx (bool * list BuddyInfo) :=
  rows ← query m_getBuddies (λ d, filter (λ '(_, r), br_user_id r = id) (t_buddies d));
  match rows with
  | None => mret (false, roster)
  | Some l =>
      let roster := roster ++ map read_contact l in
      rows ← query m_getBuddiesSettings (λ d, filter (λ '(_, r), bs_user_id r = id) (t_buddies_settings d));
      match rows with
      | None => mret (false, roster)
      | Some l => mret (true, foldl take_setting roster l)
      end
  end.

Definition removeUser (id : Z) : pqxx bool :=
  and_then (command m_removeUser (λ d, Some (with_users (delete_rows (λ k _, (k =? id)%Z)) d)))
    (and_then (command m_removeUserBuddies (λ d, Some (with_buddies (delete_rows (λ _ r, (br_user_id r =? id)%Z)) d)))
      (and_then (command m_removeUserSettings (λ d, Some (with_users_settings (delete_rows (λ k _, (fst k =? id)%Z)) d)))
        (command m_removeUserBuddiesSettings (λ d, Some (with_buddies_settings (delete_rows (λ _ r, (bs_user_id r =? id)%Z)) d))))).

(** ** Settings *)

Definition getAllSettings (userId : Z) (settings : smap string string) : pqxx (smap string string) :=
  rows ← query m_getUserSettings (λ d, filter (λ '(k, _), fst k = userId) (t_users_settings d));
  mret (foldl (λ m '((_, var), r), sinsert var (us_value r) m) settings (default [] rows)).

Definition getUserSetting (id : Z) (variable : string) (type : Z) (value : string) : pqxx (Z * string) :=
  rows ← query m_getUserSetting (λ d, option_list (sfind (id, c_str variable) (t_users_settings d)));
  match rows with
  | None => mret (type, value)
  | Some (r :: _) => mret (us_type r, us_value r)
  | Some [] =>
      command m_setUserSetting (λ d,
        match sfind (id, c_str variable) (t_users_settings d) with
        | Some _ => None
        | None => Some (with_users_settings (sinsert (id, c_str variable) (mkUsersSettingsRow type (c_str value))) d)
        end) ;;
      mret (type, value)
  end.

Definition updateUserSetting (id : Z) (variable value : string) : pqxx unit :=
  command m_updateUserSetting (λ d, Some (with_users_settings (update_rows (λ k _, bool_decide (k = (id, c_str variable)))
    (λ r, mkUsersSettingsRow (us_type r) (c_str value))) d)) ;;
  mret tt.
End pqxx.
