(* ===== verification/PqxxTheorems.v ===== *)
(** * The PostgreSQL storage: properties

    What it reads is what the SQLite storage reads; what it does not write. *)

From S2P Require Import Prelude StdMap Codecs Text Sqlite SqliteTheorems.
From S2P Require Import Pqxx.
From S2P Require Pool UserManager.

(** ** Settings by identifier *)

Definition with_settings (f : BuddyInfo → smap string SettingVariableInfo) (b : BuddyInfo) : BuddyInfo :=
  mkBuddyInfo (bi_id b) (bi_alias b) (bi_legacyName b) (bi_subscription b) (bi_groups b) (f b) (bi_flags b).

Lemma with_own_settings l : map (with_settings bi_settings) l = l.
Proof. induction l as [|[] l IH]; [done|]. simpl. by rewrite IH. Qed.

(** One contact has the identifier, so the first one is all of them. *)
Lemma give_setting_map id key var l : NoDup (bi_id <$> l) →
  give_setting id key var l = map (with_settings (λ b, if (id =? bi_id b)%Z then sinsert key var (bi_settings b) else bi_settings b)) l.
Proof.
  induction l as [|b l IH]; intros Hn; [done|]. rewrite fmap_cons in Hn. apply NoDup_cons in Hn as [Hb Hn]. simpl.
  destruct (Z.eqb_spec id (bi_id b)) as [->|Hne].
  - f_equal. { unfold with_settings, add_setting. by rewrite Z.eqb_refl. }
    rewrite <- (with_own_settings l) at 1. apply map_ext_in. intros b' Hb'. unfold with_settings. f_equal.
    destruct (Z.eqb_spec (bi_id b) (bi_id b')) as [E|]; [|done]. destruct Hb. rewrite E. by apply list_elem_of_fmap_2, list_elem_of_In.
  - f_equal; [|by apply IH]. unfold with_settings. rewrite (proj2 (Z.eqb_neq _ _) Hne). by destruct b.
Qed.

(** The rows of settings, one after the other, are the groups of the contacts. *)
Lemma take_settings l roster : NoDup (bi_id <$> roster) → Forall (λ e : setting, bs_type (snd e) = TYPE_STRING) l →
  foldl take_setting roster l = map (with_settings (λ b, with_all (group l (bi_id b)) (bi_settings b))) roster.
Proof.
  revert roster. induction l as [|[[id key] r] l IH]; intros roster Hn Hl; [by rewrite with_own_settings|].
  apply Forall_cons in Hl as [Ht Hl]. simpl in Ht. simpl foldl. rewrite Ht. change (known_type TYPE_STRING) with true. cbv iota.
  rewrite give_setting_map by done. rewrite IH; [|by rewrite <- list_fmap_compose|done].
  rewrite map_map. apply map_ext. intros b. unfold with_settings. simpl. f_equal.
  unfold group. rewrite filter_cons. simpl. destruct (Z.eqb_spec id (bi_id b)) as [->|Hne].
  - rewrite decide_True by done. done.
  - by rewrite decide_False by done.
Qed.

Lemma query_run `{PgEngine} {A} stmt (f : Database → list A) d : throws stmt d = false → query stmt f d = Done (Some (f d)) d.
Proof. intros Ht. unfold query. rewrite bind_run. cbn [get]. by rewrite Ht. Qed.

Lemma read_contact_info `{Split} id r : to_int id = id → Pqxx.read_contact (id, r) = info_of_row id r [].
Proof.
  intros Hid. unfold Pqxx.read_contact, info_of_row. rewrite Hid. f_equal. unfold deserializeGroups. by destruct (String.eqb (br_groups r) "").
Qed.

(** ** Properties *)

(** from a consistent database in which every setting is a text the contacts of a user
    are those the SQLite storage reads: to look for the contact of each setting is to read
    the two tables side by side. *)
Theorem contacts_as_sqlite `{PgEngine, SqlEngine, Split} id d :
  (∀ stmt d, throws stmt d = false) → reliable → consistent d → to_int id = id →
  ∃ infos, Pqxx.getBuddies id [] d = Done (true, infos) d ∧ Sqlite.getBuddies id d = (infos, true).
Proof.
  intros Hp Hr Hc Hid. rewrite getBuddies_rows by done. eexists. split; [|done].
  unfold Pqxx.getBuddies. rewrite (bind_done _ _ _ _ _ (query_run m_getBuddies _ d (Hp _ _))). cbv iota zeta.
  rewrite (bind_done _ _ _ _ _ (query_run m_getBuddiesSettings _ d (Hp _ _))). simpl app.
  assert (∀ row, row ∈ buddies_of id d → to_int (fst row) = fst row) as Hids.
  { intros [id' r] [_ Hin]%list_elem_of_filter. apply elem_sfind in Hin; [|apply Hc]. apply (ct_ids _ Hc) in Hin. by apply range_id. }
  assert (map Pqxx.read_contact (buddies_of id d) = map (λ row, info_of_row (fst row) (snd row) []) (buddies_of id d)) as Hread.
  { apply map_ext_in. intros [id' r] Hin. apply read_contact_info, (Hids (id', r)), list_elem_of_In, Hin. }
  assert (filter (λ '(_, r), br_user_id r = id) (t_buddies d) = buddies_of id d) as -> by (unfold buddies_of; by rewrite Hid).
  assert (filter (λ '(_, r), bs_user_id r = id) (t_buddies_settings d) = settings_of id d) as -> by (unfold settings_of; by rewrite Hid).
  rewrite Hread, take_settings.
  - do 2 f_equal. rewrite map_map. apply map_ext_in. intros [id' r] Hin%list_elem_of_In. specialize (Hids _ Hin). simpl in Hids.
    unfold info_with, with_settings, info_of_row. simpl. by rewrite Hids.
  - rewrite <- list_fmap_compose. rewrite (list_fmap_ext _ fst).
    + apply NoDup_ids, sorted_ids, sfilter_sorted, Hc.
    + intros i row Hrow. simpl. apply Hids. by apply list_elem_of_lookup_2 in Hrow.
  - apply Forall_forall. intros [k r] [_ Hin]%list_elem_of_filter. apply elem_sfind in Hin; [|apply Hc]. by apply (so_strings _ (ct_settings _ Hc)) in Hin.
Qed.

(** to register somebody again, or with another password, changes nothing: the statement
    inserts a row, which the column of addresses refuses, and the error is only logged. *)
Theorem registration_dropped `{PgEngine, Base64} key user d :
  is_Some (find_jid (c_str (Pool.ui_jid user)) d) → Pqxx.setUser key user d = Done tt d.
Proof.
  intros [r Hr]. unfold Pqxx.setUser, encrypted, encryptPassword.
  assert (∀ password, (command m_setUser (insert_user user password) ;; mret tt : prog Database unit) d = Done tt d) as Hcmd.
  { intros password. unfold command, insert_user. rewrite !bind_run. cbn [get]. destruct (throws _ _); [done|]. by rewrite Hr. }
  rewrite bind_run. destruct (String.eqb_spec key "") as [_|Hk]; [apply Hcmd|].
  destruct (shift_from_total 0 Z.add key (Pool.ui_password user) Hk) as [e ->]. apply Hcmd.
Qed.

(** ** Witnesses *)

(** A server where nothing throws, which counts on from the greatest number. *)
#[local] Instance reference_pg : PgEngine := {| throws _ _ := false; serial l := (foldr Z.max 0 l + 1)%Z; pg_arrange l := l |}.

#[local] Instance reliable_tables : SqlEngine := {| fails_after _ _ := None; arrange l := l; arrange_permutes := λ l, reflexivity l |}.

#[local] Existing Instance Text.reference_split.

Definition erin : UserInfo := Pool.mkUserInfo 0 "erin@localhost" "erin" "secret" "en" "" false [].
Definition erin_again : UserInfo := Pool.mkUserInfo 0 "erin@localhost" "erin" "other" "en" "" false [].
Definition fred : BuddyInfo :=
  mkBuddyInfo 0 "Fred" "fred" "both" ["Friends"] [("icon_hash", mkSettingVariable TYPE_STRING "da39a3ee" false)]%string 0.

Definition db_of (r : result Database Z) : Database := match r with Done _ d => d | Fault _ => empty_database 0 end.

(** A user with one contact, which this storage has written. *)
Definition one_contact : Database :=
  match Pqxx.setUser "" erin (empty_database 1700000000) with
  | Done _ d => db_of (Pqxx.addBuddy 1 fred d)
  | Fault _ => empty_database 0
  end.

Lemma one_contact_stored : one_contact = db_of (Sqlite.addBuddy 1 fred (Sqlite.setUser erin (empty_database 1700000000))).
Proof. vm_compute. reflexivity. Qed.

Lemma one_contact_consistent : consistent one_contact.
Proof.
  rewrite one_contact_stored.
  destruct (addBuddy_consistent 1 fred (Sqlite.setUser erin (empty_database 1700000000))) as (id & d & -> & Hc); [done| | |done].
  - apply setUser_consistent; [done|apply empty_consistent].
  - split; [by eexists|vm_compute; reflexivity].
Qed.

Lemma contacts_as_sqlite_witness :
  ∃ infos, Pqxx.getBuddies 1 [] one_contact = Done (true, infos) one_contact ∧ Sqlite.getBuddies 1 one_contact = (infos, true) ∧
    infos = [set_bi_id 1 fred].
Proof.
  destruct (contacts_as_sqlite 1 one_contact) as (infos & H1 & H2);
    [intros ? ?; reflexivity|intros ? ?; reflexivity|exact one_contact_consistent|reflexivity|].
  exists infos. split; [exact H1|]. split; [exact H2|]. vm_compute in H2. injection H2 as <-. reflexivity.
Defined.

Lemma registration_dropped_witness : Pqxx.setUser "" erin_again one_contact = Done tt one_contact.
Proof. apply (registration_dropped "" erin_again one_contact). vm_compute. eexists. reflexivity. Defined.
