(* ===== verification/Http.v ===== *)
(** * Requests of a browser

    What spectrum_manager reads of a request over HTTP: the variables of a form
    (mg_get_http_var and mg_url_decode of server/mongoose.c, get_http_var of
    server/server.cpp and server/APIServer.cpp) and the cookies (mg_http_parse_header). *)

From S2P Require Import Prelude Text.
From S2P Require Sqlite.

(** struct http_message, with the headers that are read: the path, the query behind it,
    the body, and the values of Host and Cookie. *)
Record http_message := mkHttp {
  uri : string;
  query_string : string;
  body : string;
  host_header : option string;
  cookie_header : option string;
}.

Definition drop (n : nat) (s : string) : string := substring n (String.length s - n) s.

(** ** Variables of forms *)

Definition code (c : ascii) : nat := nat_of_ascii c.

Definition tolower (c : ascii) : ascii :=
  if (65 <=? code c) && (code c <=? 90) then ascii_of_nat (code c + 32) else c.

Fixpoint lower (s : string) : string :=
  match s with EmptyString => EmptyString | String c s => String (tolower c) (lower s) end.

(** HEXTOI of a digit, in the case tolower leaves it *)
Definition hextoi (c : ascii) : option nat :=
  let n := code (tolower c) in
  if (48 <=? n) && (n <=? 57) then Some (n - 48)
  else if (97 <=? n) && (n <=? 102) then Some (n - 87)
  else None.

(** mg_url_decode of a form, into [room] bytes: what it writes, and whether it ends the
    text. *)
Fixpoint mg_url_decode (room : N) (src : string) : string * bool :=
  match src with
  | EmptyString => (""%string, true)
  | String c src =>
      if (room =? 0)%N then (""%string, false)
      else if Ascii.eqb c "%" then
        match src with
        | String a (String b src) =>
            match hextoi a, hextoi b with
            | Some a, Some b =>
                let '(dst, ok) := mg_url_decode (N.pred room) src in (String (ascii_of_nat (16 * a + b)) dst, ok)
            | _, _ => (""%string, false)
            end
        | _ => (""%string, false)
        end
      else let '(dst, ok) := mg_url_decode (N.pred room) src in (String (if Ascii.eqb c "+" then " "%char else c) dst, ok)
  end.

(** The text up to a character. *)
Fixpoint until (c : ascii) (s : string) : string :=
  match s with
  | EmptyString => EmptyString
  | String d s => if Ascii.eqb d c then EmptyString else String d (until c s)
  end.

(** The text of a variable, from a position that is at the start of one or is not. *)
Fixpoint var_text (name : string) (start : bool) (s : string) : option string :=
  if start && (String.length name <? String.length s) && bool_decide (String.get (String.length name) s = Some "="%char)
     && String.eqb (lower (substring 0 (String.length name) s)) (lower name)
  then Some (until "&" (drop (S (String.length name)) s))
  else match s with EmptyString => None | String c s => var_text name (Ascii.eqb c "&") s end.

(** mg_get_http_var into char data[4096], which is not initialised: nothing when what is
    read afterwards has no end. *)
Definition mg_get_http_var (buf name : string) : option string :=
  match var_text name true buf with
  | None => Some ""%string
  | Some src =>
      let '(dst, ok) := mg_url_decode 4095 src in
      if ok || String.eqb dst "" || bool_decide (has "000" dst) then Some (Sqlite.c_str dst) else None
  end.

(** get_http_var: what the body has, or else the query. *)
Definition http_var (hm : http_message) (name : string) : option string :=
  data ← mg_get_http_var (body hm) name;
  if negb (String.eqb data "") then Some data else mg_get_http_var (query_string hm) name.

Definition get_http_var {S} (hm : http_message) (name : string) : prog S string :=
  match http_var hm name with Some data => mret data | None => raise OutOfRange end.

(** ** Cookies *)

(** Where the value of a variable of a header starts. *)
Fixpoint header_var (name : string) (start : bool) (s : string) : option string :=
  if start && (String.length name <? String.length s) && bool_decide (String.get (String.length name) s = Some "="%char)
     && String.eqb (substring 0 (String.length name) s) name
  then Some (drop (S (String.length name)) s)
  else match s with
       | EmptyString => None
       | String c s => header_var name (Ascii.eqb c " " || Ascii.eqb c ",") s
       end.

(** The loop over the value, up to [ch] or [ch1]: what is copied, and what is left. *)
Fixpoint header_value (ch ch1 : ascii) (room : N) (p : string) : string * string :=
  match p with
  | EmptyString => (""%string, p)
  | String c rest =>
      if Ascii.eqb c ch || Ascii.eqb c ch1 || (room =? 0)%N then (""%string, p)
      else match rest with
           | String d rest' =>
               if negb (Ascii.eqb ch " ") && Ascii.eqb c "\" && Ascii.eqb d ch then
                 let '(buf, remaining) := header_value ch ch1 (N.pred room) rest' in (String d buf, remaining)
               else let '(buf, remaining) := header_value ch ch1 (N.pred room) rest in (String c buf, remaining)
           | EmptyString => (String c "", ""%string)
           end
  end.

(** if (len > 0 && s[len - 1] == c) len--; *)
Definition without_last (c : ascii) (s : string) (len : nat) : nat :=
  match len with
  | 0 => 0
  | S n => if bool_decide (String.get n s = Some c) then n else len
  end.

(** mg_http_parse_header into [size] bytes. *)
Definition mg_http_parse_header (hdr : option string) (name : string) (size : N) : string :=
  match hdr ≫= header_var name true with
  | None | Some EmptyString => ""%string
  | Some (String q tail as s) =>
      let quoted := Ascii.eqb q "034" || Ascii.eqb q "039" in
      let '(ch, ch1, s) := if quoted then (q, q, tail) else (" "%char, ","%char, s) in
      let '(buf, remaining) := header_value ch ch1 size s in
      if (size <=? N.of_nat (String.length buf))%N || (quoted && negb (bool_decide (String.get 0 remaining = Some ch))) then ""%string
      else substring 0 (without_last ";" s (without_last "," s (String.length buf))) buf
  end.

Example cookie_of_a_browser :
  mg_http_parse_header (Some "admin=0; session=0a1b2c; user=joe"%string) "session" 255 = "0a1b2c"%string.
Proof. reflexivity. Qed.

Example form_of_a_browser : mg_get_http_var "User=joe%40a.b&password=x+y%26" "user" = Some "joe@a.b"%string.
Proof. reflexivity. Qed.
