(* ===== verification/Web.v ===== *)
(** * The web interface of the manager

    Server and APIServer (spectrum_manager/src/server): the sessions of users who log in
    with a browser, which requests need one, and the calls of the interface the pages
    use. What the manager does with the gateways of the machine, in methods.cpp, is the
    interface [Gateways]; accounts are those of [AccountStorage]. *)

From S2P Require Import Prelude StdMap Text Http SlackApi.
From S2P Require Pool UserManager Registration Sqlite.

#[local] Existing Instance Registration.as_users.

Abbreviation UserInfo := Pool.UserInfo.

(** cs_md5 of a text, in hexadecimal. *)
Class Md5 := cs_md5 : string → string.

(** boost::tokenizer with escaped_list_separator('\', ' ', double quotes); it throws at an
    escape it does not know. *)
Class Tokenizer := tokenize : string → option (list string).

(** methods.cpp; start and stop with the response they leave. *)
Class Gateways (W : Type) := {
  show_list : prog W (list string);
  get_config : string → string → prog W string;
  start_instances : string → prog W string;
  stop_instances : string → prog W string;
  (** send_command, with the seconds it waits *)
  gateway_answer : string → string → Z → prog W string;
}.

(** ** Server *)

Record ManagerConfig := mkManagerConfig {
  admin_username : string;
  admin_password : string;
  service_cert : string;
  base_location : string;
}.

(** The characters of a temporary password. *)
Definition password_pool : string := "!#%+23456789:=?@ABCDEFGHJKLMNPRSTUVWXYZabcdefghijkmnopqrstuvwxyz".

(** m_password of the constructor, with the numbers index_dist draws. *)
Definition initial_password (cfg : ManagerConfig) (drawn : list nat) : string :=
  if String.eqb (admin_password cfg) "" || String.eqb (admin_password cfg) "test" then
    foldr (λ i s, match String.get i password_pool with Some c => String c s | None => s end) ""%string (take 10 drawn)
  else admin_password cfg.

Record session := mkSession {
  session_id : string;
  session_random : string;
  session_user : string;
  expire : Z;
  admin : bool;
}.

(** What the manager answers, and what it does to the gateways and the accounts. *)
Inductive web_event :=
  | Printed (text : string)
  | SentJson (json : Json)
  | ServedFile (uri : string)
  | Closing
  | SentCommand (instance cmd response : string)
  | StartedInstances (instance : string)
  | StoppedInstances (instance : string)
  | ListedUsers
  | StoredUser (info : UserInfo)
  | RemovedUser (id : Z)
  | AskedSetting (id : Z) (variable value : string)
  | StoredSetting (id : Z) (variable value : string).

Record Server (W St : Type) := mkServer {
  sessions : smap string session;
  m_storage : option St;
  gateways : W;
  web_out : list web_event;
}.
Arguments mkServer {W St}.
Arguments sessions {W St}.
Arguments m_storage {W St}.
Arguments gateways {W St}.
Arguments web_out {W St}.

Definition with_sessions {W St} f (w : Server W St) := mkServer (f (sessions w)) (m_storage w) (gateways w) (web_out w).
Definition with_storage {W St} (st : St) (w : Server W St) := mkServer (sessions w) (Some st) (gateways w) (web_out w).
Definition with_gateways {W St} (g : W) (w : Server W St) := mkServer (sessions w) (m_storage w) g (web_out w).
Definition with_web_out {W St} f (w : Server W St) := mkServer (sessions w) (m_storage w) (gateways w) (f (web_out w)).

Definition SESSION_TTL : Z := 120.

(** Whether a text has another one in it, and what is behind the last of its slashes. *)
Fixpoint contains (needle s : string) : bool :=
  String.prefix needle s || match s with EmptyString => false | String _ s => contains needle s end.

Fixpoint after_slash (s : string) : option string :=
  match s with
  | EmptyString => None
  | String c rest =>
      match after_slash rest with
      | Some t => Some t
      | None => if Ascii.eqb c "/" then Some rest else None
      end
  end.

(** uri.substr(uri.rfind("/") + 1) *)
Definition last_part (s : string) : string := default s (after_slash s).

(** boost::replace_all, of a text that is not empty. *)
Fixpoint replaced (needle by_text : string) (skip : nat) (s : string) : string :=
  match s with
  | EmptyString => EmptyString
  | String c rest =>
      match skip with
      | S skip => replaced needle by_text skip rest
      | O =>
          if String.prefix needle s then by_text +:+ replaced needle by_text (String.length needle - 1) rest
          else String c (replaced needle by_text 0 rest)
      end
  end.
Definition replace_all (s needle by_text : string) : string := replaced needle by_text 0 s.

Section server.
Context {W St : Type} `{Registration.AccountStorage St} `{Gateways W} `{Md5} `{Tokenizer} `{Split}.

(** [m_password] of the constructor; the id of a UserInfo nobody has set. *)
Context (cfg : ManagerConfig) (m_password : string) (indeterminate : Z).

Abbreviation web A := (prog (Server W St) A).

Definition emit (e : web_event) : web unit := modify (with_web_out (λ l, l ++ [e])).

(** A call of methods.cpp. *)
Definition on_gateways {A} (m : prog W A) : web A := λ w,
  match m (gateways w) with
  | Done a g => Done a (with_gateways g w)
  | Fault f => Fault f
  end.

(** m_storage-> *)
Definition storage : web St :=
  w ← get; match m_storage w with Some st => mret st | None => raise NullDereference end.
Definition set_storage (st : St) : web unit := modify (with_storage st).

(** session-> *)
Definition the_session (s : option session) : web session :=
  match s with Some s => mret s | None => raise NullDereference end.

Definition send_command (instance cmd : string) (timeout : Z) : web string :=
  response ← on_gateways (gateway_answer instance cmd timeout);
  emit (SentCommand instance cmd response) ;;
  mret response.

(** *** Pages *)

Definition host_text (hm : http_message) : string :=
  match host_header hm with
  | None => ""
  | Some h => (if String.eqb (service_cert cfg) "" then "http://" else "https://") +:+ h
  end.

Definition line (s : string) : string := s +:+ String "013" (String "010" "").

Definition location_text (hm : http_message) (where_ : string) : string :=
  "Location: " +:+ Sqlite.c_str (host_text hm) +:+ Sqlite.c_str (base_location cfg) +:+ where_.

(** [where_] is not empty. *)
Definition redirect_to (hm : http_message) (where_ : string) : web unit :=
  emit (Printed (line "HTTP/1.1 302 Found" +:+ line "Set-Cookie: original_url=/"
    +:+ line (line (location_text hm (Sqlite.c_str (drop 1 where_)))))).

(** *** Sessions *)

Definition check_password (user password : string) : web bool :=
  if String.eqb (admin_username cfg) user && String.eqb m_password password then mret true
  else
    w ← get;
    mret match m_storage w with
         | Some st =>
             match UserManager.db_getUser user st with
             | Some info => String.eqb (Pool.ui_password info) password
             | None => false
             end
         | None => false
         end.

(** generate_session_id *)
Definition generate_session_id (random user : string) : string := cs_md5 (random +:+ user).

(** [rand]: what rand() answers; [now]: time(0) *)
Definition new_session (rand now : Z) (user : string) : web session :=
  let name := substring 0 254 (Sqlite.c_str user) in
  let s := mkSession (generate_session_id (decimal rand) name) (decimal rand) name (now + SESSION_TTL)
             (String.eqb user (admin_username cfg)) in
  modify (with_sessions (sinsert (session_id s) s)) ;;
  mret s.

Definition get_session (now : Z) (hm : http_message) : web (option session) :=
  w ← get;
  let id := Sqlite.c_str (mg_http_parse_header (cookie_header hm) "session" 255) in
  mret match sfind id (sessions w) with
       | Some s => if negb (expire s =? 0)%Z && (now <? expire s)%Z then Some s else None
       | None => None
       end.

Definition authorize (rand now : Z) (hm : http_message) : web unit :=
  user ← get_http_var hm "user";
  password ← get_http_var hm "password";
  ok ← check_password user password;
  if ok : bool then
    s ← new_session rand now user;
    emit (Printed (line "HTTP/1.1 302 Found"
      +:+ line ("Set-Cookie: session=" +:+ session_id s +:+ "; max-age=3600; http-only")
      +:+ line ("Set-Cookie: user=" +:+ session_user s)
      +:+ line ("Set-Cookie: admin=" +:+ (if admin s then "1" else "0"))
      +:+ line ("Set-Cookie: base_location=" +:+ Sqlite.c_str (base_location cfg))
      +:+ line "Set-Cookie: original_url=/; max-age=0"
      +:+ line (line (location_text hm "instances"))))
  else redirect_to hm "/login".

(** The requests that need no session. *)
Definition public_uris : list string := [
  "/login"; "/login/"; "/form.css"; "/style.css"; "/logo.png"; "/js/config.js"; "/js/app.js";
  "/users/register.shtml"; "/api/v1/users/add"; "/authorize"]%string.

Definition is_authorized (now : Z) (hm : http_message) : web bool :=
  if bool_decide (uri hm ∈ public_uris) then mret true
  else
    s ← get_session now hm;
    match s with
    | None => mret false
    | Some s =>
        if String.eqb (generate_session_id (session_random s) (session_user s)) (session_id s) then
          modify (with_sessions (sinsert (session_id s)
            (mkSession (session_id s) (session_random s) (session_user s) (now + SESSION_TTL) (admin s)))) ;;
          mret true
        else mret false
    end.

Definition serve_logout (now : Z) (hm : http_message) : web unit :=
  s ← get_session now hm;
  s ← the_session s;
  emit (Printed (line "HTTP/1.1 302 Found"
    +:+ line ("Set-Cookie: session=" +:+ session_id s +:+ "; max-age=0")
    +:+ line ("Set-Cookie: admin=" +:+ (if admin s then "1" else "0") +:+ "; max-age=0")
    +:+ line (line (location_text hm "")))) ;;
  modify (with_sessions (serase (session_id s))).

(** *** Accounts *)

(** UserInfo info; m_storage->getUser(user, info): info.id *)
Definition user_id (user : string) : web Z :=
  st ← storage;
  mret match UserManager.db_getUser user st with Some info => Pool.ui_id info | None => indeterminate end.

(** The setting getUserSetting answers when it is asked with an empty text. *)
Definition user_setting (id : Z) (variable : string) : web string :=
  st ← storage;
  let '(value, st) := UserManager.db_getUserSetting id variable Sqlite.TYPE_STRING "" st in
  set_storage st ;;
  emit (AskedSetting id variable value) ;;
  mret value.

Definition update_setting (id : Z) (variable value : string) : web unit :=
  st ← storage;
  set_storage (Registration.db_updateUserSetting id variable value st) ;;
  emit (StoredSetting id variable value).

(** [rand] and [now] are those of the end of the thirty seconds it may wait. *)
Definition serve_oauth2 (now : Z) (hm : http_message) : web unit :=
  let instance := last_part (uri hm) in
  code ← get_http_var hm "code";
  state ← get_http_var hm "state";
  response ← send_command instance ("set_oauth2_code " +:+ code +:+ " " +:+ state) 30;
  (if String.prefix "Registered as " response then
     match split_on " " response with
     | [_; _; name] =>
         s ← get_session now hm;
         s ← the_session s;
         id ← user_id (session_user s);
         _ ← user_setting id instance;
         update_setting id instance name
     | _ => mret tt
     end
   else mret tt) ;;
  redirect_to hm "/instances/".

(** ** APIServer *)

(** A JSON object with these members. *)
Definition object (l : list (string * Json)) : Json := JObject (foldl (λ m '(k, v), sinsert k v m) [] l).

Definition send_ack (error : bool) (message : string) : web unit :=
  emit (SentJson (object [("error", JBool error); ("message", JString message)]))%string.

(** The macro returns from the function. *)
Definition ALLOW_ONLY_ADMIN (s : option session) (then_ : web unit) : web unit :=
  s ← the_session s;
  if admin s then then_
  else send_ack true "Only administrators can do this API call.".

(** What the functions begin with: the user's id, and the name he is registered under. *)
Definition registered_as (s : option session) (instance : string) : web (Z * string) :=
  s ← the_session s;
  id ← user_id (session_user s);
  username ← user_setting id instance;
  mret (id, username).

Definition serve_instance (s : option session) (id : string) : web Json :=
  name ← on_gateways (get_config id "identity.name");
  status ← send_command id "status" 1;
  let status := if String.eqb status "" then "Cannot get the instance status."%string else status in
  reg ← registered_as s id;
  frontend ← on_gateways (get_config id "service.frontend");
  mret (object [("id", JString id);
    ("name", JString (if String.eqb name "" || String.eqb name "Spectrum 2 Transport" then id else name));
    ("status", JString status); ("running", JBool (contains "Running" status));
    ("registered", JBool (negb (String.eqb (snd reg) ""))); ("username", JString (snd reg)); ("frontend", JString frontend)])%string.

Fixpoint serve_each (s : option session) (ids : list string) : web (list Json) :=
  match ids with
  | [] => mret []
  | id :: ids => j ← serve_instance s id; l ← serve_each s ids; mret (j :: l)
  end.

Definition serve_instances (s : option session) : web unit :=
  ids ← on_gateways show_list;
  l ← serve_each s ids;
  emit (SentJson (object [("error", JInt 0); ("instances", JArray l)]))%string.

Definition serve_instances_start (s : option session) (hm : http_message) : web unit :=
  ALLOW_ONLY_ADMIN s (
    let instance := last_part (uri hm) in
    emit (StartedInstances instance) ;;
    response ← on_gateways (start_instances instance);
    send_ack (negb (contains "OK" response)) response).

Definition serve_instances_stop (s : option session) (hm : http_message) : web unit :=
  ALLOW_ONLY_ADMIN s (
    let instance := last_part (uri hm) in
    emit (StoppedInstances instance) ;;
    response ← on_gateways (stop_instances instance);
    send_ack (negb (contains "OK" response)) response).

Definition serve_instances_unregister (s : option session) (hm : http_message) : web unit :=
  let instance := last_part (uri hm) in
  reg ← registered_as s instance;
  let '(id, username) := reg in
  s ← the_session s;
  username ← (if String.eqb username "" && admin s then get_http_var hm "command_arg0" else mret username);
  if negb (String.eqb username "") then
    response ← send_command instance ("unregister " +:+ username) 1;
    if negb (String.eqb response "") then
      update_setting id instance "" ;;
      send_ack false response
    else send_ack true "Unknown error."
  else send_ack true "You are not registered to this Spectrum 2 instance.".

Definition serve_instances_register (s : option session) (hm : http_message) : web unit :=
  let instance := last_part (uri hm) in
  reg ← registered_as s instance;
  jid ← get_http_var hm "jid";
  uin ← get_http_var hm "uin";
  password ← get_http_var hm "password";
  names ← (if String.eqb uin "" || String.eqb password "" then
             response ← send_command instance "registration_fields" 1;
             mret (if length (split_on "010" response) =? 1 then ("unknown"%string, "unknown"%string) else (uin, password))
           else mret (uin, password));
  let '(uin, password) := names in
  if String.eqb jid "" || String.eqb uin "" || String.eqb password "" then send_ack true "Insufficient data."
  else
    response ← send_command instance ("get_oauth2_url " +:+ jid +:+ " " +:+ uin +:+ " " +:+ password) 1;
    if negb (String.eqb response "") && negb (String.prefix "Error:" response) then
      emit (SentJson (object [("error", JBool false); ("oauth2_url", JString response)]))%string
    else
      response ← send_command instance ("register " +:+ jid +:+ " " +:+ uin +:+ " " +:+ password) 1;
      if negb (String.eqb response "") then
        update_setting (fst reg) instance jid ;;
        send_ack false response
      else send_ack true response.

(** *** The commands of a gateway *)

(** A line of what the gateway answers. *)
Definition tokens (l : string) : web (list string) :=
  match tokenize l with Some t => mret t | None => raise UncaughtException end.

Definition token (i : nat) (t : list string) : string := nth i t ""%string.

(** The loop over the lines, which goes on to the next one when there is nothing to show. *)
Fixpoint show_lines (show : list string → option Json) (lines : list string) : web (list Json) :=
  match lines with
  | [] => mret []
  | l :: lines =>
      t ← tokens l;
      rest ← show_lines show lines;
      mret (match show t with Some j => j :: rest | None => rest end)
  end.

Definition show_command (is_admin : bool) (username : string) (t : list string) : option Json :=
  if negb (length t =? 11) then None
  else if negb is_admin && String.eqb (token 6 t) "Admin" then None
  else if negb is_admin && String.eqb username "" && String.eqb (token 8 t) "User" then None
  else if negb is_admin && negb (String.eqb username "") && String.eqb (token 0 t) "register" then None
  else Some (object [("name", JString (token 0 t)); ("desc", JString (token 2 t)); ("category", JString (token 4 t));
    ("context", JString (token 8 t)); ("label", JString (token 10 t))])%string.

Definition show_variable (is_admin : bool) (t : list string) : option Json :=
  if negb (length t =? 13) then None
  else if negb is_admin && String.eqb (token 10 t) "Admin" then None
  else Some (object [("name", JString (token 0 t)); ("desc", JString (token 2 t)); ("value", JString (token 4 t));
    ("read_only", JString (token 6 t)); ("category", JString (token 8 t)); ("context", JString (token 12 t))])%string.

Definition show_argument (t : list string) : option Json :=
  if negb (length t =? 7) then None
  else Some (object [("name", JString (token 0 t)); ("label", JString (token 2 t)); ("example", JString (token 4 t));
    ("type", JString (token 6 t))])%string.

Definition serve_instances_commands (s : option session) (hm : http_message) : web unit :=
  let instance := last_part (uri hm) in
  reg ← registered_as s instance;
  response ← send_command instance "commands" 1;
  s ← the_session s;
  l ← show_lines (show_command (admin s) (snd reg)) (split_on "010" response);
  emit (SentJson (object [("error", JInt 0); ("commands", JArray l)]))%string.

Definition serve_instances_variables (s : option session) (hm : http_message) : web unit :=
  let instance := last_part (uri hm) in
  _ ← registered_as s instance;
  response ← send_command instance "variables" 1;
  s ← the_session s;
  l ← show_lines (show_variable (admin s)) (split_on "010" response);
  emit (SentJson (object [("error", JInt 0); ("variables", JArray l)]))%string.

(** The loop that looks for a command. *)
Inductive search := NotFound | AdminOnly | Found (userContext : bool).

Fixpoint find_command (is_admin : bool) (command : string) (lines : list string) : web search :=
  match lines with
  | [] => mret NotFound
  | l :: lines =>
      t ← tokens l;
      if negb (length t =? 11) || negb (String.eqb (token 0 t) command) then find_command is_admin command lines
      else if negb is_admin && String.eqb (token 6 t) "Admin" then mret AdminOnly
      else mret (Found (String.eqb (token 8 t) "User"))
  end.

(** boost::trim *)
Definition blanks : string := " " +:+ String "009" (String "010" (String "011" (String "012" (String "013" "")))).
Fixpoint trim_left (s : string) : string :=
  match s with String c rest => if bool_decide (has c blanks) then trim_left rest else s | EmptyString => s end.
Fixpoint trim_right (s : string) : string :=
  match s with
  | EmptyString => EmptyString
  | String c rest =>
      match trim_right rest with
      | EmptyString => if bool_decide (has c blanks) then EmptyString else String c EmptyString
      | t => String c t
      end
  end.
Definition trim_both (s : string) : string := trim_left (trim_right s).

Definition serve_instances_command_args (s : option session) (hm : http_message) : web unit :=
  let instance := last_part (uri hm) in
  command ← get_http_var hm "command";
  let command := trim_both command in
  response ← send_command instance "commands" 1;
  s ← the_session s;
  found ← find_command (admin s) command (split_on "010" response);
  match found with
  | AdminOnly => send_ack false "Only admin is able to query this command."
  | _ =>
      let command := match found with NotFound => "unknown"%string | _ => command end in
      response ← send_command instance ("args " +:+ command) 1;
      if String.prefix "Error:" response then send_ack false response
      else
        l ← show_lines show_argument (split_on "010" response);
        let first := match found with
          | Found true => if admin s then [object [("name", JString "username"); ("label", JString "Username"); ("example", JString "")]]%string else []
          | _ => []
          end in
        emit (SentJson (object [("error", JInt 0); ("args", JArray (first ++ l))]))%string
  end.

(** *** Executing a command *)

Fixpoint add_arguments (hm : http_message) (i : list nat) (command : string) : web string :=
  match i with
  | [] => mret command
  | i :: l =>
      var ← get_http_var hm ("command_arg" +:+ decimal (Z.of_nat i));
      add_arguments hm l (if String.eqb var "" then command else command +:+ " " +:+ var)
  end.

(** A row of the table: the token [i] and those behind it. *)
Fixpoint row_of (i : nat) (hasDesc : bool) (key : string) (arg : smap string Json) (t : list string) : smap string Json :=
  match t with
  | [] => arg
  | beg :: t =>
      let hasDesc := if (i =? 1) && negb (String.eqb beg "-") then false else hasDesc in
      if i =? 0 then row_of (S i) hasDesc key (sinsert "Key"%string (JString beg) arg) t
      else if (i =? 2) && hasDesc then row_of (S i) hasDesc key (sinsert "Description"%string (JString beg) arg) t
      else if (1 <? i) || (negb hasDesc && (0 <? i)) then
        if String.eqb key "" then row_of (S i) hasDesc beg arg t
        else row_of (S i) hasDesc "" (sinsert key (JString beg) arg) t
      else row_of (S i) hasDesc key arg t
  end.

(** A Json::Value nobody has given a member is null. *)
Definition show_row (t : list string) : option Json :=
  Some (match row_of 0 true "" [] t with [] => JNull | l => JObject l end).

Definition serve_instances_execute (s : option session) (hm : http_message) : web unit :=
  let instance := last_part (uri hm) in
  command ← get_http_var hm "command";
  let command := trim_both command in
  response ← send_command instance "commands" 1;
  s ← the_session s;
  found ← find_command (admin s) command (split_on "010" response);
  match found with
  | AdminOnly => send_ack false "Only admin is able to execute."
  | _ =>
      let command := match found with NotFound => "unknown"%string | _ => command end in
      let userContext := match found with Found u => u | _ => false end in
      reg ← registered_as (Some s) instance;
      let username := snd reg in
      if userContext && negb (admin s) && String.eqb username "" then
        send_ack false "Error: You are not registered to this transport instance."
      else
        let command := if userContext && negb (admin s) then command +:+ " " +:+ username else command in
        command ← add_arguments hm (seq 0 10) command;
        response ← send_command instance command 1;
        (if String.prefix "Error:" response then send_ack false response else mret tt) ;;
        let fields := split_on "010" response in
        if contains ": " (hd "" fields) || contains (String ":" (String "034" "")) (hd "" fields) then
          l ← show_lines show_row fields;
          emit (SentJson (object [("error", JInt 0); ("table", JArray l); ("message", JString response)]))%string
        else send_ack true (replace_all response (String "010" "") "<br/>")
  end.

(** *** Users of the manager *)

Definition serve_users (s : option session) : web unit :=
  ALLOW_ONLY_ADMIN s (
    st ← storage;
    emit ListedUsers ;;
    emit (SentJson (object [("error", JInt 0);
      ("users", JArray (map (λ id, object [("username", JString id)]) (Registration.db_getUsers st)))])))%string.

(** The members nobody sets: the id, and vip, which is [vip]. *)
Definition serve_users_add (vip : bool) (hm : http_message) : web unit :=
  user ← get_http_var hm "username";
  password ← get_http_var hm "password";
  if negb (String.eqb user "") && negb (String.eqb password "") then
    w ← get;
    match m_storage w with
    | Some st =>
        match UserManager.db_getUser user st with
        | None =>
            let info := Pool.mkUserInfo indeterminate user "" password "" "" vip [] in
            set_storage (UserManager.db_setUser info st) ;;
            emit (StoredUser info) ;;
            send_ack false ""
        | Some _ => send_ack true "This user is already registered"
        end
    | None => send_ack false "Storage backend is not configured." ;; send_ack false ""
    end
  else send_ack true "Username or password has not been provided.".

Definition serve_users_remove (s : option session) (hm : http_message) : web unit :=
  ALLOW_ONLY_ADMIN s (
    let user := last_part (uri hm) in
    w ← get;
    match m_storage w with
    | None => mret tt
    | Some _ =>
        id ← user_id user;
        st ← storage;
        set_storage (Registration.db_removeUser id st) ;;
        emit (RemovedUser id) ;;
        send_ack false ""
    end).

Definition handleRequest (vip : bool) (s : option session) (hm : http_message) : web unit :=
  let has_prefix p := String.prefix p (uri hm) in
  if has_prefix "/api/v1/instances/start/" then serve_instances_start s hm
  else if has_prefix "/api/v1/instances/stop/" then serve_instances_stop s hm
  else if has_prefix "/api/v1/instances/unregister/" then serve_instances_unregister s hm
  else if has_prefix "/api/v1/instances/register/" then serve_instances_register s hm
  else if has_prefix "/api/v1/instances/commands/" then serve_instances_commands s hm
  else if has_prefix "/api/v1/instances/variables/" then serve_instances_variables s hm
  else if has_prefix "/api/v1/instances/command_args/" then serve_instances_command_args s hm
  else if has_prefix "/api/v1/instances/execute/" then serve_instances_execute s hm
  else if has_prefix "/api/v1/users/remove/" then serve_users_remove s hm
  else if String.eqb (uri hm) "/api/v1/users/add" then serve_users_add vip hm
  else if String.eqb (uri hm) "/api/v1/users" then serve_users s
  else if String.eqb (uri hm) "/api/v1/instances" then serve_instances s
  else mret tt.

(** ** Requests *)

(** hm->uri without the base location but its last slash; without a base location it
    begins with the space in front of it. *)
Definition strip_base (u : string) : option string :=
  match String.length (base_location cfg) with
  | 0 => Some (String " " u)
  | S n => if n <=? String.length u then Some (drop n u) else None
  end.

Definition set_uri (u : string) (hm : http_message) : http_message :=
  mkHttp u (query_string hm) (body hm) (host_header hm) (cookie_header hm).

(** MG_EV_HTTP_REQUEST, with what rand() and time() answer meanwhile. *)
Definition event_handler (rand now : Z) (vip : bool) (hm : http_message) : web unit :=
  match strip_base (uri hm) with
  | None => raise OutOfRange
  | Some u =>
      let last := String.get (String.length (uri hm) - 1) (uri hm) in
      let hm := set_uri u hm in
      authorized ← is_authorized now hm;
      (if negb authorized then redirect_to hm "/login"
       else if String.eqb u "/authorize" then authorize rand now hm
       else if String.eqb u "/logout" then serve_logout now hm
       else if String.prefix "/oauth2" u then serve_oauth2 now hm
       else if String.prefix "/api/v1/" u then
         s ← get_session now hm;
         handleRequest vip s hm
       else if negb (bool_decide (last = Some "/"%char)) && negb (contains "." u) then redirect_to hm (u +:+ "/")
       else emit (ServedFile u)) ;;
      emit Closing
  end.

(** MG_EV_SSI_CALL: the page that is in the send buffer, of [size] bytes. *)
Definition ssi_call (size : nat) (page : string) : web string :=
  let into attribute s :=
    replace_all s (attribute +:+ "=" +:+ String "034" "/") (attribute +:+ "=" +:+ String "034" (base_location cfg)) in
  let resp := into "action"%string (into "src"%string (into "href"%string page)) in
  if String.length (Sqlite.c_str resp) <? 2 * size then mret resp else raise OutOfRange.
End server.
