(* ===== verification/WebTheorems.v ===== *)
(** * The web interface of the manager: properties

    Who gets a session, what a session allows, and what goes wrong. *)

From S2P Require Import Prelude StdMap Text Http SlackApi Web.
From S2P Require Pool UserManager Registration Sqlite SqliteTheorems RegistrationTheorems.

#[local] Existing Instance Registration.as_users.

Section web.
Context {W St : Type} `{Registration.AccountStorage St} `{Gateways W} `{Md5} `{Tokenizer} `{Split}.
Context (cfg : ManagerConfig) (m_password : string) (indeterminate : Z).
Implicit Types (w : Server W St) (s : session) (hm : http_message) (l : list web_event).

Abbreviation handle := (event_handler cfg m_password indeterminate).

(** ** Sessions *)

(** A session is found under its identifier, which is made of what it holds, and only the
    administrator's is one of an administrator. *)
Definition session_sound (s : session) : Prop :=
  session_id s = generate_session_id (session_random s) (session_user s) ∧
  (admin s = true → session_user s = substring 0 254 (Sqlite.c_str (admin_username cfg))).

Definition sessions_sound (m : smap string session) : Prop :=
  sorted m ∧ ∀ id s, sfind id m = Some s → session_id s = id ∧ session_sound s.

Definition web_sound w : Prop := sessions_sound (sessions w).

(** The session a request comes with. *)
Definition cookie hm : string := Sqlite.c_str (mg_http_parse_header (cookie_header hm) "session" 255).

Definition session_of (now : Z) hm w : option session :=
  match sfind (cookie hm) (sessions w) with
  | Some s => if negb (expire s =? 0)%Z && (now <? expire s)%Z then Some s else None
  | None => None
  end.

Lemma get_session_run now hm w : get_session now hm w = Done (session_of now hm w) w.
Proof. done. Qed.

Definition renewed (now : Z) (s : session) : session :=
  mkSession (session_id s) (session_random s) (session_user s) (now + SESSION_TTL) (admin s).

(** Whether a request is authorized, and the state it leaves. *)
Definition may_pass (now : Z) hm w : bool :=
  bool_decide (uri hm ∈ public_uris) || match session_of now hm w with Some _ => true | None => false end.

Definition passed (now : Z) hm w : Server W St :=
  if bool_decide (uri hm ∈ public_uris) then w
  else match session_of now hm w with
       | Some s => with_sessions (sinsert (session_id s) (renewed now s)) w
       | None => w
       end.

Lemma session_of_found now hm w s : web_sound w → session_of now hm w = Some s → 
  sfind (cookie hm) (sessions w) = Some s ∧ session_id s = cookie hm ∧ session_sound s.
Proof.
  intros [_ Hw]. unfold session_of. destruct (sfind _ _) as [s'|] eqn:E; [|done].
  case_match; [|done]. intros [= <-]. by destruct (Hw _ _ E).
Qed.

Lemma is_authorized_run now hm w : web_sound w → is_authorized now hm w = Done (may_pass now hm w) (passed now hm w).
Proof.
  intros Hw. unfold is_authorized, may_pass, passed. destruct (bool_decide _); [done|].
  rewrite (bind_done _ _ _ _ _ (get_session_run now hm w)). destruct (session_of now hm w) as [s|] eqn:E; [|done].
  destruct (session_of_found _ _ _ _ Hw E) as (_ & _ & Hid & _). by rewrite <- Hid, String.eqb_refl.
Qed.

Lemma renewed_sound now s : session_sound s → session_sound (renewed now s).
Proof. done. Qed.

Lemma insert_sound id s w : web_sound w → session_id s = id → session_sound s → web_sound (with_sessions (sinsert id s) w).
Proof.
  intros [Hs Hw] Hid Hss. split; [by apply sinsert_sorted|]. intros id' s'. simpl.
  destruct (decide (id' = id)) as [->|Hne]; [rewrite sfind_sinsert_eq; by intros [= <-]|rewrite sfind_sinsert_ne by done; apply Hw].
Qed.

Lemma passed_sound now hm w : web_sound w → web_sound (passed now hm w).
Proof.
  intros Hw. unfold passed. destruct (bool_decide _); [done|]. destruct (session_of now hm w) as [s|] eqn:E; [|done].
  destruct (session_of_found _ _ _ _ Hw E) as (_ & _ & Hs). by apply insert_sound.
Qed.

(** It is the same session afterwards, for longer. *)
Lemma session_passed now hm w : web_sound w → (0 <= now)%Z → uri hm ∉ public_uris →
  session_of now hm (passed now hm w) = renewed now <$> session_of now hm w.
Proof.
  intros Hw Hnow Hu. unfold passed. rewrite bool_decide_false by done. destruct (session_of now hm w) as [s|] eqn:E; [|done].
  destruct (session_of_found _ _ _ _ Hw E) as (_ & Hid & _). unfold session_of. simpl. rewrite Hid, sfind_sinsert_eq. simpl.
  unfold SESSION_TTL. destruct (Z.eqb_spec (now + 120) 0); [lia|]. by destruct (Z.ltb_spec now (now + 120)); [|lia].
Qed.

(** ** What a session allows *)

(** A command the page of a user may send to a gateway, after what has been sent and
    asked before. *)
Inductive user_command (l : list web_event) (instance : string) : string → Prop :=
  | uc_question c : c ∈ ["status"; "registration_fields"; "commands"; "variables"]%string → user_command l instance c
  | uc_about verb args : verb ∈ ["args "; "get_oauth2_url "; "register "; "set_oauth2_code "]%string →
      user_command l instance (verb +:+ args)
  | uc_unregister id name : AskedSetting id instance name ∈ l → user_command l instance ("unregister " +:+ name)
  | uc_unknown args : user_command l instance ("unknown" +:+ args)
  | uc_execute response text t args :
      SentCommand instance "commands" response ∈ l → text ∈ split_on "010" response → tokenize text = Some t →
      token 6 t ≠ "Admin"%string →
      (token 8 t = "User"%string → ∃ id name rest, AskedSetting id instance name ∈ l ∧ name ≠ ""%string ∧ args = (" " +:+ name +:+ rest)%string) →
      user_command l instance (token 0 t +:+ args).

(** What the settings a request reads and writes make of the storage: to read a setting
    may store a default for it. *)
Inductive touched (st0 : St) : St → Prop :=
  | to_same : touched st0 st0
  | to_read id variable type value st : touched st0 st →
      touched st0 (snd (UserManager.db_getUserSetting id variable type value st))
  | to_written id variable value st : touched st0 st →
      touched st0 (Registration.db_updateUserSetting id variable value st).

(** The identifier of a session's user. *)
Definition id_of (st : St) (s : session) : Z :=
  match UserManager.db_getUser (session_user s) st with Some info => Pool.ui_id info | None => indeterminate end.

(** What may happen for a session, or for nobody, to a request with this form: settings
    are those of the session's user, read as they are stored, and who is added has no account and is the one in
    the form. *)
Inductive allowed (form : string → option string) (store : option St) (who : option session) (l : list web_event) : web_event → Prop :=
  | al_printed text : allowed form store who l (Printed text)
  | al_json j : allowed form store who l (SentJson j)
  | al_file u : allowed form store who l (ServedFile u)
  | al_closing : allowed form store who l Closing
  | al_stored_user info st st' :
      form "username"%string = Some (Pool.ui_jid info) → form "password"%string = Some (Pool.ui_password info) →
      Pool.ui_jid info ≠ ""%string → Pool.ui_password info ≠ ""%string →
      store = Some st → touched st st' → UserManager.db_getUser (Pool.ui_jid info) st' = None →
      allowed form store who l (StoredUser info)
  | al_asked s st st' st'' variable value : who = Some s → store = Some st → touched st st' → touched st st'' →
      value = fst (UserManager.db_getUserSetting (id_of st' s) variable Sqlite.TYPE_STRING "" st'') →
      allowed form store who l (AskedSetting (id_of st' s) variable value)
  | al_stored s st st' variable value : who = Some s → store = Some st → touched st st' →
      allowed form store who l (StoredSetting (id_of st' s) variable value)
  | al_command s instance c response : who = Some s → user_command l instance c →
      allowed form store who l (SentCommand instance c response)
  | al_admin s e : who = Some s → admin s = true → allowed form store who l e.

Lemma user_command_app l l' instance c : user_command l instance c → user_command (l ++ l') instance c.
Proof.
  destruct 1 as [c Hc|verb args Hv|id name Hin|args|response text t args F1 F2 F3 F4 F5]; [by apply uc_question|by apply uc_about| |apply uc_unknown|].
  - eapply uc_unregister, elem_of_app. by left.
  - eapply uc_execute; [apply elem_of_app; by left|done|done|done|]. intros (id & name & rest & Hin & Hne & E)%F5.
    exists id, name, rest. split; [apply elem_of_app; by left|done].
Qed.

Lemma allowed_app form store who l l' e : allowed form store who l e → allowed form store who (l ++ l') e.
Proof.
  destruct 1; [constructor|constructor|constructor|constructor|by eapply al_stored_user|by eapply al_asked|by eapply al_stored| |by eapply al_admin].
  eapply al_command; [done|]. by apply user_command_app.
Qed.

(** The handlers, with the faults that may come. *)
Section handlers.
Context (E : fault → Prop) (hm : http_message) (store : option St) (who : option session) (old : list web_event) (ss : smap string session).
Context (Hvars : ∀ name, http_var hm name = None → E OutOfRange) (Htok : ∀ text, tokenize text = None → E UncaughtException).
Context (Hlist : spec E (λ _ : W, True) show_list (λ _ _, True)) (Hconfig : ∀ id key, spec E (λ _ : W, True) (get_config id key) (λ _ _, True))
  (Hstart : ∀ id, spec E (λ _ : W, True) (start_instances id) (λ _ _, True)) (Hstop : ∀ id, spec E (λ _ : W, True) (stop_instances id) (λ _ _, True))
  (Hanswer : ∀ id c t, spec E (λ _ : W, True) (gateway_answer id c t) (λ _ _, True)).

Abbreviation fine := (allowed (http_var hm) store who).

(** What the storage may have become. *)
Definition reached (st : St) : Prop := ∃ st0, store = Some st0 ∧ touched st0 st.

(** What has happened since the request came was allowed, and some of it is known; the
    sessions are as they were. *)
Definition inside (known : list web_event) w : Prop :=
  sessions w = ss ∧ (m_storage w = None → E NullDereference) ∧ (∀ st, m_storage w = Some st → reached st) ∧
  ∃ l, web_out w = old ++ l ∧ Forall (fine l) l ∧ known ⊆ l.

(** The same of a request that asks no more. *)
Definition finished w : Prop := sessions w = ss ∧ ∃ l, web_out w = old ++ l ∧ Forall (fine l) l.

Definition safe {A} (known : list web_event) (m : prog (Server W St) A) : Prop := spec E (inside known) m (λ _, inside known).

Lemma fine_emit l e : fine l e → Forall (fine l) l → Forall (fine (l ++ [e])) (l ++ [e]).
Proof.
  intros He Hl. apply Forall_app. split; [|constructor; [by apply allowed_app|done]].
  eapply Forall_impl; [exact Hl|]. intros e'. apply allowed_app.
Qed.

Lemma finish_emit e : (∀ l, fine l e) → spec E finished (emit e) (λ _, finished).
Proof.
  intros He w (Hs & l & Hout & Hl). simpl. split; [done|]. exists (l ++ [e]). simpl. rewrite Hout, app_assoc.
  split; [done|]. by apply fine_emit.
Qed.

Lemma inside_finished known w : inside known w → finished w.
Proof. intros (Hs & _ & _ & l & Hout & Hl & _). split; [done|]. by exists l. Qed.

Lemma learn_emit known e : (∀ l, known ⊆ l → fine l e) → spec E (inside known) (emit e) (λ _, inside (e :: known)).
Proof.
  intros He w (Hs & Hd & Hr & l & Hout & Hl & Hk). simpl. split_and!; [done..|]. exists (l ++ [e]). simpl.
  rewrite Hout, app_assoc. split; [done|]. split; [|set_solver]. by apply fine_emit; [apply He|].
Qed.

Lemma inside_less known e w : inside (e :: known) w → inside known w.
Proof. intros (Hs & Hd & Hr & l & Hout & Hl & Hk). split_and!; [done..|]. exists l. split_and!; [done..|]. set_solver. Qed.

Lemma forget {A} known (e : A → web_event) (m : prog (Server W St) A) :
  spec E (inside known) m (λ a, inside (e a :: known)) → safe known m.
Proof. intros Hm. eapply spec_weaken; [exact Hm|done|]. intros a w. apply inside_less. Qed.

Lemma safe_after {A} known e (m : prog (Server W St) A) : safe (e :: known) m → spec E (inside (e :: known)) m (λ _, inside known).
Proof. intros Hm. eapply spec_weaken; [exact Hm|done|]. intros a w. apply inside_less. Qed.

Lemma safe_finished {A} known (m : prog (Server W St) A) : safe known m → spec E (inside known) m (λ _, finished).
Proof. intros Hm. eapply spec_weaken; [exact Hm|done|]. intros a w. apply inside_finished. Qed.

Lemma spec_pure {A} P (φ : Prop) (m : prog (Server W St) A) Q : (φ → spec E P m Q) → spec E (λ w, P w ∧ φ) m Q.
Proof. intros Hm w [HP Hφ]. by apply Hm. Qed.

Lemma safe_emit known e : (∀ l, known ⊆ l → fine l e) → safe known (emit e).
Proof. intros He. by apply (forget _ (λ _, e)), learn_emit. Qed.

Lemma serve_ret {A} known (a : A) : safe known (mret a).
Proof. by apply spec_ret. Qed.

Lemma serve_bind {A B} known (m : prog (Server W St) A) (k : A → prog (Server W St) B) :
  safe known m → (∀ a, safe known (k a)) → safe known (m ≫= k).
Proof. apply spec_keep. Qed.

Lemma safe_var known name : safe known (get_http_var hm name).
Proof. unfold get_http_var. destruct (http_var hm name) eqn:Ev; [apply serve_ret|]. intros w _. by apply (Hvars name). Qed.

Lemma learn_storage known : spec E (inside known) storage (λ st w, inside known w ∧ reached st).
Proof.
  intros w Hw. unfold storage. rewrite bind_run. simpl. destruct (m_storage w) eqn:Es; [|by apply Hw].
  split; [done|]. by apply Hw.
Qed.

Lemma safe_storage known : safe known storage.
Proof. eapply spec_weaken; [apply learn_storage|done|]. by intros st w []. Qed.

Lemma safe_set_storage known st : reached st → safe known (set_storage st).
Proof. intros Hst w (Hs & Hd & Hr & Hl). split_and!; [done..| |done]. by intros st' [= <-]. Qed.

Lemma safe_gateways {A} known (m : prog W A) : spec E (λ _, True) m (λ _ _, True) → safe known (on_gateways m).
Proof. intros Hm w Hw. unfold on_gateways. specialize (Hm (gateways w) I). destruct (m (gateways w)); [|done]. exact Hw. Qed.

Lemma safe_tokens known text : safe known (tokens text).
Proof. unfold tokens. destruct (tokenize text) eqn:Et; [apply serve_ret|]. intros w _. by apply (Htok text). Qed.

Lemma safe_ack known error text : safe known (send_ack error text).
Proof. apply safe_emit. intros. constructor. Qed.

Lemma safe_redirect known where_ : safe known (redirect_to cfg hm where_).
Proof. apply safe_emit. intros. constructor. Qed.

Lemma learn_user_id known user : spec E (inside known) (user_id indeterminate user)
  (λ id w, inside known w ∧ ∃ st, reached st ∧ id = match UserManager.db_getUser user st with Some info => Pool.ui_id info | None => indeterminate end).
Proof.
  eapply spec_bind; [apply learn_storage|]. intros st. apply spec_pure. intros Hst w Hw. split; [done|]. by exists st.
Qed.

Lemma safe_user_id known user : safe known (user_id indeterminate user).
Proof. eapply spec_weaken; [apply learn_user_id|done|]. by intros id w []. Qed.

Lemma safe_show known show lines : safe known (show_lines show lines).
Proof.
  induction lines as [|text lines IH]; [apply serve_ret|]. apply serve_bind; [apply safe_tokens|]. intros t.
  apply serve_bind; [apply IH|]. intros rest. apply serve_ret.
Qed.

Lemma safe_arguments known i c : safe known (add_arguments hm i c).
Proof.
  revert c. induction i as [|i l IH]; intros c; [apply serve_ret|]. apply serve_bind; [apply safe_var|]. intros var. apply IH.
Qed.

Lemma spec_session {B} P (k : session → prog (Server W St) B) Q s :
  spec E P (k s) Q → spec E P (the_session (Some s) ≫= k) Q.
Proof. done. Qed.

(** After this the users are others, and nothing more is asked. *)
Lemma finish_users known st e text : (∀ l, fine l e) →
  spec E (inside known) (set_storage st ;; emit e ;; send_ack false text) (λ _, finished).
Proof.
  intros He. eapply (spec_bind _ _ _ (λ _, finished)).
  - intros w Hw%inside_finished. exact Hw.
  - intros []. eapply spec_bind; [by apply finish_emit|]. intros []. apply finish_emit. intros. constructor.
Qed.

(** What a session is needed for. *)
Section with_session.
Context (s : session) (Hwho : who = Some s).

Lemma learn_command known instance c t : (∀ l, known ⊆ l → user_command l instance c) →
  spec E (inside known) (send_command instance c t) (λ r, inside (SentCommand instance c r :: known)).
Proof.
  intros Hc. eapply spec_bind; [apply safe_gateways, Hanswer|]. intros r.
  eapply spec_bind; [apply learn_emit|intros []; by apply spec_ret]. intros l Hl. eapply al_command; [exact Hwho|by apply Hc].
Qed.

Lemma safe_command known instance c t : (∀ l, known ⊆ l → user_command l instance c) → safe known (send_command instance c t).
Proof.
  intros Hc. by apply (forget _ (SentCommand instance c)), learn_command.
Qed.

(** The identifier of the user, as it is or was. *)
Definition own (id : Z) : Prop := ∃ st, reached st ∧ id = id_of st s.

Lemma learn_own known : spec E (inside known) (user_id indeterminate (session_user s)) (λ id w, inside known w ∧ own id).
Proof. apply learn_user_id. Qed.

Lemma learn_setting known id variable : own id →
  spec E (inside known) (user_setting id variable) (λ v, inside (AskedSetting id variable v :: known)).
Proof.
  intros (st' & (st0 & Hst0 & Ht) & ->).
  eapply spec_bind; [apply learn_storage|]. intros st. apply spec_pure. intros (st1 & Hst1 & Ht1).
  destruct (UserManager.db_getUserSetting _ _ _ _ _) as [v st2] eqn:Eg.
  eapply spec_bind; [apply safe_set_storage; exists st1; split; [done|]|].
  { change st2 with (snd (v, st2)). rewrite <- Eg. by constructor. }
  intros []. eapply spec_bind; [apply learn_emit|intros []; by apply spec_ret]. intros l _. apply (al_asked _ _ _ _ s st0 _ st); try done; [congruence|by rewrite Eg].
Qed.

Lemma learn_registered known instance :
  spec E (inside known) (registered_as indeterminate (Some s) instance)
    (λ r w, inside (AskedSetting (fst r) instance (snd r) :: known) w ∧ own (fst r)).
Proof.
  apply spec_session.
  eapply spec_bind; [apply learn_own|]. intros id. apply spec_pure. intros Hid.
  eapply spec_bind; [by apply learn_setting|]. intros v w Hw. by split.
Qed.

Lemma safe_registered known instance :
  spec E (inside known) (registered_as indeterminate (Some s) instance) (λ r w, inside known w ∧ own (fst r)).
Proof. eapply spec_weaken; [apply learn_registered|done|]. intros r w [Hw%inside_less Hr]. by split. Qed.

Lemma safe_update known id variable value : own id → safe known (update_setting id variable value).
Proof.
  intros (st' & (st0 & Hst0 & Ht) & ->).
  eapply spec_bind; [apply learn_storage|]. intros st. apply spec_pure. intros (st1 & Hst1 & Ht1).
  apply serve_bind; [apply safe_set_storage; exists st1; split; [done|by constructor]|]. intros []. apply safe_emit.
  intros l _. by apply (al_stored _ _ _ _ s st0).
Qed.

Lemma safe_instance known id : safe known (serve_instance indeterminate (Some s) id).
Proof.
  apply serve_bind; [apply safe_gateways, Hconfig|]. intros name. apply serve_bind; [apply safe_command; intros; apply uc_question; set_solver|].
  intros status. eapply spec_bind; [apply safe_registered|]. intros reg. apply spec_pure. intros _. apply serve_bind; [apply safe_gateways, Hconfig|]. intros frontend. apply serve_ret.
Qed.

Lemma safe_instances known : safe known (serve_instances indeterminate (Some s)).
Proof.
  apply serve_bind; [apply safe_gateways, Hlist|]. intros ids. apply serve_bind.
  - induction ids as [|id ids IH]; [apply serve_ret|]. apply serve_bind; [apply safe_instance|]. intros j.
    apply serve_bind; [apply IH|]. intros l. apply serve_ret.
  - intros l. apply safe_emit. intros. constructor.
Qed.

Lemma safe_admin known m : (admin s = true → safe known m) → safe known (ALLOW_ONLY_ADMIN (Some s) m).
Proof. intros Hm. apply spec_session. destruct (admin s) eqn:Ha; [by apply Hm|apply safe_ack]. Qed.

Lemma safe_start known : safe known (serve_instances_start (Some s) hm).
Proof.
  apply safe_admin. intros Ha. apply serve_bind; [apply safe_emit; intros; by eapply al_admin|]. intros [].
  apply serve_bind; [apply safe_gateways, Hstart|]. intros r. apply safe_ack.
Qed.

Lemma safe_stop known : safe known (serve_instances_stop (Some s) hm).
Proof.
  apply safe_admin. intros Ha. apply serve_bind; [apply safe_emit; intros; by eapply al_admin|]. intros [].
  apply serve_bind; [apply safe_gateways, Hstop|]. intros r. apply safe_ack.
Qed.

Lemma safe_users known : safe known (serve_users (Some s)).
Proof.
  apply safe_admin. intros Ha. apply serve_bind; [apply safe_storage|]. intros st.
  apply serve_bind; [apply safe_emit; intros; by eapply al_admin|]. intros []. apply safe_emit. intros. constructor.
Qed.

Lemma serve_get known : safe known get.
Proof. by apply spec_get. Qed.

Lemma finish_remove known : spec E (inside known) (serve_users_remove indeterminate (Some s) hm) (λ _, finished).
Proof.
  apply spec_session. destruct (admin s) eqn:Ha; [|apply safe_finished, safe_ack].
  eapply spec_bind; [apply serve_get|]. intros w. destruct (m_storage w); [|apply safe_finished, serve_ret].
  eapply spec_bind; [apply safe_user_id|]. intros id. eapply spec_bind; [apply safe_storage|]. intros st.
  apply finish_users. intros l. by eapply al_admin.
Qed.

Lemma safe_commands known : safe known (serve_instances_commands indeterminate (Some s) hm).
Proof.
  eapply spec_bind; [apply safe_registered|]. intros reg. apply spec_pure. intros _. apply serve_bind; [apply safe_command; intros; apply uc_question; set_solver|].
  intros r. apply spec_session, serve_bind; [apply safe_show|]. intros l. apply safe_emit. intros. constructor.
Qed.

Lemma safe_variables known : safe known (serve_instances_variables indeterminate (Some s) hm).
Proof.
  eapply spec_bind; [apply safe_registered|]. intros reg. apply spec_pure. intros _. apply serve_bind; [apply safe_command; intros; apply uc_question; set_solver|].
  intros r. apply spec_session, serve_bind; [apply safe_show|]. intros l. apply safe_emit. intros. constructor.
Qed.

Lemma safe_register known : safe known (serve_instances_register indeterminate (Some s) hm).
Proof.
  eapply spec_bind; [apply safe_registered|]. intros [id name]. apply spec_pure. intros Hown. do 3 (apply serve_bind; [apply safe_var|]; intros ?).
  apply serve_bind.
  { destruct (_ || _); [|apply serve_ret]. apply serve_bind; [apply safe_command; intros; apply uc_question; set_solver|]. intros r. apply serve_ret. }
  intros [uin password]. destruct (_ || _); [apply safe_ack|].
  apply serve_bind; [apply safe_command; intros; apply uc_about; set_solver|]. intros r.
  destruct (_ && _); [apply safe_emit; intros; constructor|].
  apply serve_bind; [apply safe_command; intros; apply uc_about; set_solver|]. intros r'.
  destruct (negb _); [|apply safe_ack]. apply serve_bind; [by apply safe_update|]. intros []. apply safe_ack.
Qed.

Lemma safe_oauth2 known now : (∀ w, inside known w → session_of now hm w = Some s) → safe known (serve_oauth2 cfg indeterminate now hm).
Proof.
  intros Hsession. do 2 (apply serve_bind; [apply safe_var|]; intros ?).
  apply serve_bind; [apply safe_command; intros; apply uc_about; set_solver|]. intros r. apply serve_bind; [|intros []; apply safe_redirect].
  destruct (String.prefix _ _); [|apply serve_ret]. destruct (split_on _ _) as [|? [|? [|name [|]]]]; try apply serve_ret.
  intros w Hw. rewrite (bind_done _ _ _ _ _ (get_session_run now hm w)), (Hsession w Hw). apply (spec_session (inside known)); [|done].
  eapply spec_bind; [apply learn_own|]. intros id. apply spec_pure. intros Hown. apply serve_bind; [|intros ?; by apply safe_update].
  by apply (forget _ (AskedSetting id (last_part (uri hm)))), learn_setting.
Qed.

(** An administrator may send anything. *)
Lemma learn_any known instance c t : admin s = true →
  spec E (inside known) (send_command instance c t) (λ r, inside (SentCommand instance c r :: known)).
Proof.
  intros Ha. eapply spec_bind; [apply safe_gateways, Hanswer|]. intros r.
  eapply spec_bind; [apply learn_emit|intros []; by apply spec_ret]. intros l Hl. by eapply al_admin.
Qed.

Lemma safe_any known instance c t : admin s = true → safe known (send_command instance c t).
Proof. intros Ha. by apply (forget _ (SentCommand instance c)), learn_any. Qed.

Lemma safe_unregister known : safe known (serve_instances_unregister indeterminate (Some s) hm).
Proof.
  eapply spec_bind; [apply learn_registered|]. intros [id name]. cbn [fst snd]. apply spec_pure. intros Hown. apply spec_session.
  eapply (spec_bind _ _ _ (λ name', λ w, inside (AskedSetting id (last_part (uri hm)) name :: known) w ∧ (admin s = false → name' = name))).
  { destruct (String.eqb name "" && admin s) eqn:Eb.
    - intros w Hw. pose proof (safe_var (AskedSetting id (last_part (uri hm)) name :: known) "command_arg0" w Hw) as Hv.
      destruct (get_http_var hm "command_arg0" w); [|done]. split; [done|]. intros Ha. by rewrite Ha, andb_false_r in Eb.
    - intros w Hw. by split. }
  intros name'. apply spec_pure. intros Hname. apply safe_after. destruct (negb (String.eqb name' "")); [|apply safe_ack].
  apply serve_bind.
  { destruct (admin s) eqn:Ha; [by apply safe_any|]. rewrite Hname by done.
    apply safe_command. intros l Hl. apply (uc_unregister _ _ id). set_solver. }
  intros r. destruct (negb _); [|apply safe_ack]. apply serve_bind; [by apply safe_update|]. intros []. apply safe_ack.
Qed.

(** *** Commands *)

(** The command that is found is one of those the gateway names. *)
Lemma find_command_safe known command lines :
  spec E (inside known) (find_command (admin s) command lines) (λ found w, inside known w ∧
    (found = NotFound ∨ found = AdminOnly ∨ ∃ text t, text ∈ lines ∧ tokenize text = Some t ∧ token 0 t = command ∧
      (admin s = false → token 6 t ≠ "Admin"%string) ∧ found = Found (String.eqb (token 8 t) "User"))).
Proof.
  induction lines as [|text lines IH]; [apply spec_ret; naive_solver|].
  intros w Hw. pose proof (safe_tokens known text w Hw) as Ht. cbn [find_command]. rewrite bind_run.
  unfold tokens in *. destruct (tokenize text) as [t|] eqn:Et; [|exact Ht]. cbn.
  destruct (negb (length t =? 11) || negb (String.eqb (token 0 t) command)) eqn:E1.
  { specialize (IH w Hw).
    destruct (find_command _ _ _ w); [|done]. destruct IH as [Hw' Hf]. split; [done|]. set_solver. }
  apply orb_false_iff in E1 as [_ E1]. apply negb_false_iff, String.eqb_eq in E1.
  destruct (negb (admin s) && String.eqb (token 6 t) "Admin") eqn:E2; [split; [done|naive_solver]|].
  split; [done|]. right; right. exists text, t. split; [set_solver|]. split; [done|]. split; [done|]. split; [|done].
  intros Ha. rewrite Ha in E2. simpl in E2. by apply String.eqb_neq.
Qed.

Lemma safe_command_args known : safe known (serve_instances_command_args (Some s) hm).
Proof.
  apply serve_bind; [apply safe_var|]. intros command. apply serve_bind; [apply safe_command; intros; apply uc_question; set_solver|].
  intros r. apply spec_session. eapply spec_bind; [apply find_command_safe|]. intros found. apply spec_pure. intros _.
  assert (∀ c, safe known (send_command (last_part (uri hm)) ("args " +:+ c) 1)) as Hargs
    by (intros c; apply safe_command; intros; apply uc_about; set_solver).
  destruct found; [|apply safe_ack|]; apply serve_bind; try apply Hargs; intros r';
    (destruct (String.prefix _ _); [apply safe_ack|apply serve_bind; [apply safe_show|intros l; apply safe_emit; intros; constructor]]).
Qed.

(** Arguments come behind the command. *)
Lemma add_arguments_behind known i c : spec E (inside known) (add_arguments hm i c) (λ c' w, inside known w ∧ ∃ rest, c' = (c +:+ rest)%string).
Proof.
  revert c. induction i as [|i l IH]; intros c; [apply spec_ret; intros; split; [done|]; exists ""%string; by rewrite string_app_nil_r|].
  eapply spec_bind; [apply safe_var|]. intros var. destruct (String.eqb var ""); [apply IH|].
  eapply spec_weaken; [apply IH|done|]. intros c' w [Hw [rest ->]]. split; [done|]. rewrite !string_app_assoc. by eexists.
Qed.

Lemma safe_answer known response :
  safe known ((if String.prefix "Error:" response then send_ack false response else mret tt) ;;
    let fields := split_on "010" response in
    if contains ": " (hd "" fields)%string || contains (String ":" (String "034" "")) (hd "" fields)%string then
      l ← show_lines show_row fields;
      emit (SentJson (object [("error", JInt 0); ("table", JArray l); ("message", JString response)]))%string
    else send_ack true (replace_all response (String "010" "") "<br/>")).
Proof.
  apply serve_bind; [destruct (String.prefix _ _); [apply safe_ack|apply serve_ret]|]. intros []. cbv zeta.
  destruct (_ || _); [|apply safe_ack]. apply serve_bind; [apply safe_show|]. intros l. apply safe_emit. intros. constructor.
Qed.

Lemma safe_execute known : safe known (serve_instances_execute indeterminate (Some s) hm).
Proof.
  apply serve_bind; [apply safe_var|]. intros command. set (instance := last_part (uri hm)).
  eapply spec_bind; [apply learn_command; intros; apply uc_question; set_solver|]. intros r. apply safe_after.
  set (known1 := _ :: known). apply spec_session. eapply spec_bind; [apply find_command_safe|]. intros found. apply spec_pure. intros Hfound.
  destruct found; [|apply safe_ack|].
  - eapply spec_bind; [apply learn_registered|]. intros [id name]. apply spec_pure. intros _. apply safe_after. cbv zeta. cbn [fst snd andb].
    eapply spec_bind; [apply add_arguments_behind|]. intros c. apply spec_pure. intros [rest ->].
    apply serve_bind; [apply safe_command; intros; apply uc_unknown|]. intros r'. apply safe_answer.
  - destruct Hfound as [|[|(text & t & Hin & Ht & Hc & Hadmin & Hf)]]; [done|done|]. injection Hf as Huser.
    eapply spec_bind; [apply learn_registered|]. intros [id name]. apply spec_pure. intros _. apply safe_after. cbv zeta. cbn [fst snd].
    destruct (userContext && negb (admin s) && String.eqb name "") eqn:E0; [apply safe_ack|].
    eapply spec_bind; [apply add_arguments_behind|]. intros c. apply spec_pure. intros [rest ->].
    apply serve_bind; [|intros r'; apply safe_answer]. destruct (admin s) eqn:Ha; [by apply safe_any|].
    apply safe_command. intros l Hl. rewrite Huser in E0 |- *. simpl in E0 |- *. rewrite andb_true_r in *. rewrite <- Hc.
    destruct (String.eqb_spec (token 8 t) "User") as [E8|E8].
    + simpl in E0. rewrite !string_app_assoc. apply (uc_execute _ _ r text t); [set_solver|done|done|by apply Hadmin|]. intros _.
      exists id, name, rest. split; [set_solver|]. split; [by apply String.eqb_neq|]. by rewrite ?string_app_assoc.
    + apply (uc_execute _ _ r text t); [set_solver|done|done|by apply Hadmin|done].
Qed.
End with_session.

(** Anybody may add a user. *)
Lemma finish_add known vip : spec E (inside known) (serve_users_add indeterminate vip hm) (λ _, finished).
Proof.
  intros w Hw. unfold serve_users_add, get_http_var.
  destruct (http_var hm "username") as [user|] eqn:Eu; [|by apply (Hvars "username")].
  destruct (http_var hm "password") as [password|] eqn:Ep; [|by apply (Hvars "password")].
  rewrite !bind_run. cbn [mret prog_ret]. rewrite bind_run. cbn [mret prog_ret].
  destruct (negb _ && negb _) eqn:En; [|by apply (safe_finished known _ (safe_ack known _ _))].
  apply andb_true_iff in En as [Hn1%negb_true_iff%String.eqb_neq Hn2%negb_true_iff%String.eqb_neq].
  rewrite bind_run. cbn [get]. destruct (m_storage w) as [st|] eqn:Es.
  - destruct (UserManager.db_getUser user st) eqn:Eg; [by apply (safe_finished known _ (safe_ack known _ _))|].
    destruct Hw as (Hs & Hd & Hr & Hl). destruct (Hr st Es) as (st0 & Hst0 & Ht).
    apply (finish_users known); [|done]. intros l. by eapply al_stored_user.
  - apply (safe_finished known); [|done]. apply serve_bind; [apply safe_ack|]. intros []. apply safe_ack.
Qed.

Lemma finish_request known vip (given : option session) :
  given = who → (∃ s, who = Some s) ∨ uri hm = "/api/v1/users/add"%string →
  spec E (inside known) (handleRequest indeterminate vip given hm) (λ _, finished).
Proof.
  intros -> [[s Hs]|Hu].
  - unfold handleRequest. rewrite Hs.
    repeat (match goal with |- spec _ _ (if ?b then _ else _) _ => destruct b end);
      eauto using safe_finished, safe_start, safe_stop, safe_unregister, safe_register, safe_commands, safe_variables, safe_command_args,
        safe_execute, finish_remove, safe_users, safe_instances, finish_add, serve_ret.
  - unfold handleRequest. rewrite Hu. apply finish_add.
Qed.
End handlers.

Lemma allowed_renewed form store now (who : option session) l e :
  allowed form store (renewed now <$> who) l e → allowed form store who l e.
Proof.
  assert (∀ s, renewed now <$> who = Some s → ∃ s', who = Some s' ∧ s = renewed now s') as Hwho
    by (destruct who as [s0|]; intros s; [intros [= <-]; by exists s0|done]).
  destruct 1; try constructor; try (match goal with Hr : _ = Some ?s |- _ => destruct (Hwho _ Hr) as (s' & -> & ->) end).
  - by eapply al_stored_user.
  - by eapply (al_asked _ _ _ _ s').
  - by eapply (al_stored _ _ _ _ s').
  - by eapply al_command.
  - by eapply al_admin.
Qed.

(** ** Requests *)

(** check_password *)
Definition password_fits w (user password : string) : bool :=
  (String.eqb (admin_username cfg) user && String.eqb m_password password)
  || match m_storage w with
     | Some st => match UserManager.db_getUser user st with
                  | Some info => String.eqb (Pool.ui_password info) password
                  | None => false
                  end
     | None => false
     end.

Lemma check_password_run user password w :
  check_password cfg m_password user password w = Done (password_fits w user password) w.
Proof. unfold check_password, password_fits. by destruct (_ && _). Qed.

(** The session of new_session. *)
Definition granted (rand now : Z) (user : string) : session :=
  let name := substring 0 254 (Sqlite.c_str user) in
  mkSession (generate_session_id (decimal rand) name) (decimal rand) name (now + SESSION_TTL) (String.eqb user (admin_username cfg)).

Lemma granted_sound rand now user : session_sound (granted rand now user).
Proof. split; [done|]. intros Ha%String.eqb_eq. simpl. by rewrite Ha. Qed.

(** What a request makes of the sessions: it renews one, gives a new one to who knows a
    password, or ends one. *)
Inductive sessions_after (rand now : Z) hm w : smap string session → Prop :=
  | sa_same : sessions_after rand now hm w (sessions (passed now hm w))
  | sa_login user password :
      uri hm = "/authorize"%string → http_var hm "user" = Some user → http_var hm "password" = Some password →
      password_fits w user password = true →
      sessions_after rand now hm w (sinsert (session_id (granted rand now user)) (granted rand now user) (sessions w))
  | sa_logout s :
      uri hm = "/logout"%string → session_of now hm w = Some s →
      sessions_after rand now hm w (serase (session_id s) (sessions (passed now hm w))).

Section requests.
Context (E : fault → Prop) (rand now : Z) (vip : bool) (hm : http_message).
Context (Hnow : (0 <= now)%Z).
Context (Hvars : ∀ name, http_var hm name = None → E OutOfRange) (Htok : ∀ text, tokenize text = None → E UncaughtException).
Context (Hlist : spec E (λ _ : W, True) show_list (λ _ _, True)) (Hconfig : ∀ id key, spec E (λ _ : W, True) (get_config id key) (λ _ _, True))
  (Hstart : ∀ id, spec E (λ _ : W, True) (start_instances id) (λ _ _, True)) (Hstop : ∀ id, spec E (λ _ : W, True) (stop_instances id) (λ _ _, True))
  (Hanswer : ∀ id c t, spec E (λ _ : W, True) (gateway_answer id c t) (λ _ _, True)).

(** The request as it came, and as it is left. *)
Definition well_handled w w' : Prop :=
  sessions_after rand now hm w (sessions w') ∧
  ∃ l, web_out w' = web_out w ++ l ∧ Forall (allowed (http_var hm) (m_storage w) (session_of now hm w) l) l.

(** What event_handler does once it knows whether the request is authorized. *)
Definition dispatch (last : option ascii) (authorized : bool) : prog (Server W St) unit :=
  if negb authorized then redirect_to cfg hm "/login"
  else if String.eqb (uri hm) "/authorize" then authorize cfg m_password rand now hm
  else if String.eqb (uri hm) "/logout" then serve_logout cfg now hm
  else if String.prefix "/oauth2" (uri hm) then serve_oauth2 cfg indeterminate now hm
  else if String.prefix "/api/v1/" (uri hm) then s ← get_session now hm; handleRequest indeterminate vip s hm
  else if negb (bool_decide (last = Some "/"%char)) && negb (contains "." (uri hm)) then redirect_to cfg hm (uri hm +:+ "/")
  else emit (ServedFile (uri hm)).

Lemma well_handled_emit w w' e :
  well_handled w w' → (∀ form store who l, allowed form store who l e) → well_handled w (with_web_out (λ l, l ++ [e]) w').
Proof.
  intros [Hs (l & Hout & Hl)] He. split; [done|]. exists (l ++ [e]). simpl. rewrite Hout, app_assoc. split; [done|].
  apply Forall_app. split; [eapply Forall_impl; [exact Hl|]; intros ?; apply allowed_app|by constructor].
Qed.

Lemma passed_out w : web_out (passed now hm w) = web_out w ∧ m_storage (passed now hm w) = m_storage w.
Proof. unfold passed. destruct (bool_decide _); [done|]. by destruct (session_of now hm w). Qed.

Lemma well_handled_passed w : well_handled w (passed now hm w).
Proof. split; [apply sa_same|]. exists []. destruct (passed_out w) as [-> _]. by rewrite app_nil_r. Qed.

(** What the handlers do for the session of the request. *)
Lemma finished_handled w who w' :
  finished hm (m_storage w) who (web_out w) (sessions (passed now hm w)) w' → who = session_of now hm w ∨ who = renewed now <$> session_of now hm w →
  well_handled w w'.
Proof.
  intros (Hs & l & Hout & Hl) Hwho. split; [rewrite Hs; apply sa_same|]. exists l. split; [done|].
  eapply Forall_impl; [exact Hl|]. intros e. destruct Hwho as [->| ->]; [done|apply allowed_renewed].
Qed.

Lemma passed_inside w who : (m_storage w = None → E NullDereference) →
  inside E hm (m_storage w) who (web_out w) (sessions (passed now hm w)) [] (passed now hm w).
Proof.
  intros Hd. destruct (passed_out w) as [Hout Hst]. split; [done|]. rewrite Hst, Hout. split; [done|]. split.
  { intros st Hst'. exists st. split; [done|constructor]. }
  exists []. rewrite app_nil_r. split_and!; [done|constructor|set_solver].
Qed.

Lemma authorize_handled w : uri hm = "/authorize"%string →
  match authorize cfg m_password rand now hm w with Done _ w' => well_handled w w' | Fault f => E f end.
Proof.
  intros Hu. assert (passed now hm w = w) as Hp by (unfold passed; by rewrite Hu).
  assert (well_handled w w) as Hw by (rewrite <- Hp at 2; apply well_handled_passed).
  unfold authorize, get_http_var. destruct (http_var hm "user") as [user|] eqn:Eu; [|by eapply Hvars].
  rewrite bind_run. cbn. destruct (http_var hm "password") as [password|] eqn:Ep; [|by eapply Hvars].
  rewrite bind_run. cbn. rewrite (bind_done _ _ _ _ _ (check_password_run user password w)).
  destruct (password_fits w user password) eqn:Ef; [|by apply well_handled_emit; [|constructor]].
  apply well_handled_emit; [|constructor]. split; [by apply (sa_login _ _ _ _ user password)|]. exists []. by rewrite app_nil_r.
Qed.

Lemma session_of_sessions w w' : sessions w' = sessions w → session_of now hm w' = session_of now hm w.
Proof. intros Hs. unfold session_of. by rewrite Hs. Qed.

Lemma public_api : uri hm ∈ public_uris → String.prefix "/oauth2" (uri hm) = false ∧
  (String.prefix "/api/v1/" (uri hm) = true → uri hm = "/api/v1/users/add"%string) ∧ uri hm ≠ "/logout"%string.
Proof.
  assert (Forall (λ u, String.prefix "/oauth2" u = false ∧ (String.prefix "/api/v1/" u = true → u = "/api/v1/users/add") ∧ u ≠ "/logout")%string public_uris) as Hall
    by (repeat constructor; done).
  intros Hin. by apply (proj1 (Forall_forall _ _) Hall).
Qed.

(** With a session, or at an address that needs none. *)
Lemma passed_cases w : web_sound w → may_pass now hm w = true →
  (uri hm ∈ public_uris ∧ passed now hm w = w) ∨
  (uri hm ∉ public_uris ∧ ∃ s, session_of now hm w = Some s ∧ session_of now hm (passed now hm w) = Some (renewed now s)).
Proof.
  intros Hw. unfold may_pass. destruct (decide (uri hm ∈ public_uris)) as [Hu|Hu].
  - intros _. left. split; [done|]. unfold passed. by rewrite bool_decide_true.
  - rewrite bool_decide_false by done. simpl. destruct (session_of now hm w) as [s|] eqn:Es; [|done]. intros _. right. split; [done|].
    exists s. split; [done|]. by rewrite session_passed, Es.
Qed.

Lemma logout_handled w s : uri hm = "/logout"%string → session_of now hm w = Some s → session_of now hm (passed now hm w) = Some (renewed now s) →
  match serve_logout cfg now hm (passed now hm w) with Done _ w' => well_handled w w' | Fault f => E f end.
Proof.
  intros Hu Hs Hr. unfold serve_logout. rewrite (bind_done _ _ _ _ _ (get_session_run now hm _)), Hr. rewrite bind_run. cbn [the_session mret prog_ret].
  unfold emit. rewrite bind_run. unfold modify. set (text := Printed _).
  destruct (well_handled_emit w (passed now hm w) text (well_handled_passed w) ltac:(constructor)) as [_ Hout].
  split; [|exact Hout]. by apply (sa_logout rand now hm w s).
Qed.

Lemma dispatch_handled last w : web_sound w → (m_storage w = None → E NullDereference) →
  match dispatch last (may_pass now hm w) (passed now hm w) with Done _ w' => well_handled w w' | Fault f => E f end.
Proof.
  intros Hw Hd. pose proof (well_handled_passed w) as Hp. unfold dispatch.
  destruct (may_pass now hm w) eqn:Em; [|by apply well_handled_emit; [|constructor]]. cbn [negb].
  destruct (passed_cases w Hw Em) as [[Hpub Hsame]|[Hpub (s & Hs & Hr)]].
  - destruct (public_api Hpub) as (P1 & P2 & P3). destruct (String.eqb_spec (uri hm) "/authorize") as [Hu|_]; [by rewrite Hsame; apply authorize_handled|].
    destruct (String.eqb_spec (uri hm) "/logout") as [|_]; [done|]. rewrite P1. destruct (String.prefix "/api/v1/" (uri hm)).
    + rewrite (bind_done _ _ _ _ _ (get_session_run now hm _)).
      replace (session_of now hm (passed now hm w)) with (session_of now hm w) by (by rewrite Hsame).
      pose proof (finish_request E hm _ _ _ _ Hvars Htok Hlist Hconfig Hstart Hstop Hanswer [] vip _ eq_refl (or_intror (P2 eq_refl)) _
        (passed_inside w (session_of now hm w) Hd)) as Hrun.
      destruct (handleRequest _ _ _ _ _); [|done]. eapply finished_handled; [exact Hrun|by left].
    + destruct (_ && _); (apply well_handled_emit; [done|constructor]).
  - destruct (String.eqb_spec (uri hm) "/authorize") as [Hu|_]; [by destruct Hpub; rewrite Hu; vm_compute; set_solver|].
    pose proof (passed_inside w (Some (renewed now s)) Hd) as Hi.
    assert (Some (renewed now s) = session_of now hm w ∨ Some (renewed now s) = renewed now <$> session_of now hm w) as Hwho
      by (right; by rewrite Hs).
    destruct (String.eqb_spec (uri hm) "/logout") as [Hu|_].
    { by apply (logout_handled w s). }
    destruct (String.prefix "/oauth2" (uri hm)).
    { assert (∀ w', inside E hm (m_storage w) (Some (renewed now s)) (web_out w) (sessions (passed now hm w)) [] w' → session_of now hm w' = Some (renewed now s)) as Hsession.
      { intros w' (Hs' & _). by rewrite (session_of_sessions (passed now hm w)). }
      assert (safe E hm (m_storage w) (Some (renewed now s)) (web_out w) (sessions (passed now hm w)) [] (serve_oauth2 cfg indeterminate now hm)) as Hrun
        by (by eapply safe_oauth2).
      specialize (Hrun _ Hi).
      destruct (serve_oauth2 _ _ _ _ _); [|done]. by eapply finished_handled; [eapply inside_finished|]. }
    destruct (String.prefix "/api/v1/" (uri hm)).
    { rewrite (bind_done _ _ _ _ _ (get_session_run now hm _)), Hr.
      pose proof (finish_request E hm _ _ _ _ Hvars Htok Hlist Hconfig Hstart Hstop Hanswer [] vip _ eq_refl (or_introl (ex_intro _ _ eq_refl)) _ Hi) as Hrun.
      destruct (handleRequest _ _ _ _ _); [|done]. by eapply finished_handled. }
    destruct (_ && _); (apply well_handled_emit; [done|constructor]).
Qed.
End requests.

Definition last_char_of hm : option ascii := String.get (String.length (uri hm) - 1) (uri hm).

Lemma handle_run rand now vip hm u w : strip_base cfg (uri hm) = Some u → web_sound w →
  handle rand now vip hm w
  = (dispatch rand now vip (set_uri u hm) (last_char_of hm) (may_pass now (set_uri u hm) w) ;; emit Closing) (passed now (set_uri u hm) w).
Proof.
  intros Hu Hw. unfold event_handler. rewrite Hu. rewrite (bind_done _ _ _ _ _ (is_authorized_run now (set_uri u hm) w Hw)). done.
Qed.

Lemma handle_handled E rand now vip hm w : web_sound w → (0 <= now)%Z →
  (strip_base cfg (uri hm) = None → E OutOfRange) → (∀ name, http_var hm name = None → E OutOfRange) →
  (∀ text, tokenize text = None → E UncaughtException) → (m_storage w = None → E NullDereference) →
  spec E (λ _ : W, True) show_list (λ _ _, True) → (∀ id key, spec E (λ _ : W, True) (get_config id key) (λ _ _, True)) →
  (∀ id, spec E (λ _ : W, True) (start_instances id) (λ _ _, True)) → (∀ id, spec E (λ _ : W, True) (stop_instances id) (λ _ _, True)) →
  (∀ id c t, spec E (λ _ : W, True) (gateway_answer id c t) (λ _ _, True)) →
  match handle rand now vip hm w with
  | Done _ w' => ∃ u w1, strip_base cfg (uri hm) = Some u ∧ well_handled rand now (set_uri u hm) w w1 ∧ w' = with_web_out (λ l, l ++ [Closing]) w1
  | Fault f => E f
  end.
Proof.
  intros Hw Hnow Hbase Hvars Htok Hst Hlist Hconfig Hstart Hstop Hanswer.
  destruct (strip_base cfg (uri hm)) as [u|] eqn:Eu; [|unfold event_handler; rewrite Eu; by apply Hbase].
  rewrite (handle_run _ _ _ _ u) by done. rewrite bind_run.
  pose proof (dispatch_handled E rand now vip (set_uri u hm) Hnow Hvars Htok Hlist Hconfig Hstart Hstop Hanswer (last_char_of hm) w Hw Hst) as Hrun.
  destruct (dispatch _ _ _ _ _ _ _) as [[] w1|f]; [|done]. by exists u, w1.
Qed.

Lemma anything {A} (m : prog W A) : spec any_fault (λ _, True) m (λ _ _, True).
Proof. intros g _. by destruct (m g). Qed.

Lemma handled_done rand now vip hm w w' : web_sound w → (0 <= now)%Z → handle rand now vip hm w = Done tt w' →
  ∃ u w1, strip_base cfg (uri hm) = Some u ∧ well_handled rand now (set_uri u hm) w w1 ∧ w' = with_web_out (λ l, l ++ [Closing]) w1.
Proof.
  intros Hw Hnow Hrun. pose proof (handle_handled any_fault rand now vip hm w Hw Hnow) as Hh. rewrite Hrun in Hh.
  by apply Hh; try done; intros; apply anything.
Qed.

(** ** Properties *)


(** C39: sessions stay what they are made of, and who gets one knows a password: after a
    request each session is one that was there before, of the same user, or is new, for a
    user whose name and password came with the request and fit. *)
Theorem sessions_for_passwords rand now vip hm w w' :
  web_sound w → (0 <= now)%Z → handle rand now vip hm w = Done tt w' →
  web_sound w' ∧
  ∀ id s', sfind id (sessions w') = Some s' →
    (∃ s, sfind id (sessions w) = Some s ∧ session_user s = session_user s' ∧ admin s = admin s') ∨
    (strip_base cfg (uri hm) = Some "/authorize"%string ∧ ∃ user password,
      http_var hm "user" = Some user ∧ http_var hm "password" = Some password ∧ password_fits w user password = true ∧
      s' = granted rand now user).
Proof.
  intros Hw Hnow (u & w1 & Hu & [Hs _] & ->)%handled_done; [|done|done].
  unfold web_sound. change (sessions (with_web_out _ w1)) with (sessions w1). set (hm' := set_uri u hm) in *.
  assert (Hold : ∀ id s', sfind id (sessions (passed now hm' w)) = Some s' →
    ∃ s, sfind id (sessions w) = Some s ∧ session_user s = session_user s' ∧ admin s = admin s').
  { intros id s'. unfold passed. destruct (bool_decide _); [by exists s'|]. destruct (session_of now hm' w) as [s|] eqn:Es; [|by exists s'].
    destruct (session_of_found _ _ _ _ Hw Es) as (Hf & Hid & _). simpl. destruct (decide (id = session_id s)) as [->|Hne].
    - rewrite sfind_sinsert_eq. intros [= <-]. exists s. by rewrite Hid.
    - rewrite sfind_sinsert_ne by done. by exists s'. }
  pose proof (passed_sound now hm' w Hw) as Hp. destruct Hs as [|user password Hau Hv1 Hv2 Hfit|s Hlo Hsess].
  - split; [exact Hp|]. intros id s' Hf. left. by apply Hold.
  - split; [by apply (insert_sound _ _ w Hw); [|apply granted_sound]|]. intros id s'.
    destruct (decide (id = session_id (granted rand now user))) as [->|Hne].
    + rewrite sfind_sinsert_eq. intros [= <-]. right. split; [by rewrite <- Hau|]. by exists user, password.
    + rewrite sfind_sinsert_ne by done. left. by exists s'.
  - split.
    + destruct Hp as [Hsort Hall]. split; [by apply serase_sorted|]. intros id s' Hf. apply Hall.
      destruct (decide (id = session_id s)) as [->|Hne]; [by rewrite sfind_serase_eq in Hf|]. by rewrite sfind_serase_ne in Hf.
    + intros id s' Hf. left. apply Hold.
      destruct (decide (id = session_id s)) as [->|Hne]; [by rewrite sfind_serase_eq in Hf|]. by rewrite sfind_serase_ne in Hf.
Qed.

(** with a storage, forms that can be read and gateways that answer, every request below
    the base location is answered and its connection closed. *)
Theorem requests_served rand now vip hm w :
  web_sound w → (0 <= now)%Z → is_Some (strip_base cfg (uri hm)) → (∀ name, is_Some (http_var hm name)) →
  (∀ text, is_Some (tokenize text)) → is_Some (m_storage w) →
  spec no_fault (λ _ : W, True) show_list (λ _ _, True) → (∀ id key, spec no_fault (λ _ : W, True) (get_config id key) (λ _ _, True)) →
  (∀ id, spec no_fault (λ _ : W, True) (start_instances id) (λ _ _, True)) → (∀ id, spec no_fault (λ _ : W, True) (stop_instances id) (λ _ _, True)) →
  (∀ id c t, spec no_fault (λ _ : W, True) (gateway_answer id c t) (λ _ _, True)) →
  ∃ l w', handle rand now vip hm w = Done tt w' ∧ web_out w' = web_out w ++ l ++ [Closing].
Proof.
  intros Hw Hnow [u Hu] Hvars Htok [st Hst] Hlist Hconfig Hstart Hstop Hanswer.
  assert (∀ {A} (o : option A), is_Some o → o = None → False) as Hno by (intros A o [a ->] [=]).
  pose proof (handle_handled no_fault rand now vip hm w Hw Hnow) as Hh.
  assert (match handle rand now vip hm w with
          | Done _ w' => ∃ u w1, strip_base cfg (uri hm) = Some u ∧ well_handled rand now (set_uri u hm) w w1 ∧ w' = with_web_out (λ l, l ++ [Closing]) w1
          | Fault f => False
          end) as Hrun by (apply Hh; try done; [congruence|intros name; by apply Hno|intros text; by apply Hno|congruence]).
  destruct (handle rand now vip hm w) as [[] w'|f]; [|done]. destruct Hrun as (u' & w1 & _ & [_ (l & Hout & _)] & ->).
  exists l. eexists. split; [done|]. simpl. by rewrite Hout, app_assoc.
Qed.
End web.

(** ** What goes wrong *)

(** What the accounts are relied on for: who is added is found with his password, and a
    setting that is stored is answered. *)
Class AccountLaws (St : Type) `{Registration.AccountStorage St} : Prop := {
  user_added info st :
    UserManager.db_getUser (Pool.ui_jid info) st = None → ¬ has "000" (Pool.ui_jid info) → ¬ has "000" (Pool.ui_password info) →
    ∃ row, UserManager.db_getUser (Pool.ui_jid info) (UserManager.db_setUser info st) = Some row ∧ Pool.ui_password row = Pool.ui_password info;
  setting_stored id variable type value x st :
    ¬ has "000" x →
    fst (UserManager.db_getUserSetting id variable type value
      (Registration.db_updateUserSetting id variable x (snd (UserManager.db_getUserSetting id variable type value st)))) = x;
  users_kept jid id variable type value x st :
    UserManager.db_getUser jid (snd (UserManager.db_getUserSetting id variable type value st)) = UserManager.db_getUser jid st ∧
    UserManager.db_getUser jid (Registration.db_updateUserSetting id variable x st) = UserManager.db_getUser jid st;
}.

Section errors.
Context {W St : Type} `{Registration.AccountStorage St} `{!AccountLaws St} `{Gateways W} `{Md5} `{Tokenizer} `{Split}.
Context (cfg : ManagerConfig) (m_password : string) (indeterminate : Z).
Implicit Types (w : Server W St) (s : session) (hm : http_message) (l : list web_event).

Abbreviation own_id := (id_of indeterminate).

Abbreviation handle := (event_handler cfg m_password indeterminate).

Lemma get_http_var_run {S} hm name v (x : S) : http_var hm name = Some v → get_http_var hm name x = Done v x.
Proof. intros E. unfold get_http_var. by rewrite E. Qed.

Lemma c_str_no_nul x : ¬ has "000" (Sqlite.c_str x).
Proof. unfold has. induction x as [|c x IH]; [by intros []|]. simpl. destruct (Ascii.eqb_spec c "000"); [by intros []|]. simpl. naive_solver. Qed.

Lemma mg_var_no_nul buf name v : mg_get_http_var buf name = Some v → ¬ has "000" v.
Proof.
  unfold mg_get_http_var. destruct (var_text name true buf) as [src|]; [|intros [= <-]; by intros []].
  destruct (mg_url_decode 4095 src) as [dst ok]. destruct (_ || _ || _); [|done]. intros [= <-]. apply c_str_no_nul.
Qed.

Lemma http_var_no_nul hm name v : http_var hm name = Some v → ¬ has "000" v.
Proof.
  unfold http_var. destruct (mg_get_http_var (body hm) name) as [data|] eqn:E1; [|done]. cbn.
  destruct (negb _); [intros [= <-]; by eapply mg_var_no_nul|]. apply mg_var_no_nul.
Qed.

Lemma add_run rand now vip hm w st user password :
  strip_base cfg (uri hm) = Some "/api/v1/users/add"%string → web_sound cfg w → m_storage w = Some st →
  http_var hm "username" = Some user → http_var hm "password" = Some password → user ≠ ""%string → password ≠ ""%string →
  UserManager.db_getUser user st = None →
  ∃ l, handle rand now vip hm w = Done tt (with_web_out (λ o, o ++ l)
    (with_storage (UserManager.db_setUser (Pool.mkUserInfo indeterminate user "" password "" "" vip []) st) w)).
Proof.
  intros Hu Hw Hst Hn Hp Hne Hpe Hnone. rewrite (handle_run cfg m_password indeterminate _ _ _ _ _ _ Hu Hw).
  assert (passed now (set_uri "/api/v1/users/add" hm) w = w) as -> by done. unfold dispatch. cbn [may_pass uri set_uri].
  rewrite bind_run. unfold may_pass. cbn [uri set_uri]. rewrite bool_decide_true by set_solver. cbn [orb negb].
  change (String.eqb "/api/v1/users/add" "/authorize") with false. change (String.eqb "/api/v1/users/add" "/logout") with false.
  change (String.prefix "/oauth2" "/api/v1/users/add") with false. change (String.prefix "/api/v1/" "/api/v1/users/add") with true. cbv iota.
  rewrite (bind_done _ _ _ _ _ (get_session_run now _ w)).
  change (handleRequest indeterminate vip ?g (set_uri "/api/v1/users/add" hm)) with (serve_users_add (W := W) (St := St) indeterminate vip (set_uri "/api/v1/users/add" hm)).
  unfold serve_users_add. rewrite (bind_done _ _ _ _ _ (get_http_var_run (set_uri _ hm) "username" user w Hn)).
  rewrite (bind_done _ _ _ _ _ (get_http_var_run (set_uri _ hm) "password" password w Hp)).
  rewrite (proj2 (String.eqb_neq _ _) Hne), (proj2 (String.eqb_neq _ _) Hpe). cbn [negb andb]. rewrite bind_run. cbn [get]. rewrite Hst, Hnone.
  eexists. cbn. unfold emit, modify, with_storage, with_web_out. simpl. rewrite <- !app_assoc. done.
Qed.

(** anybody becomes an administrator: the administrator of the configuration is not in the
    storage, so a user of his name can be added without a session, with a password of one's
    own; who logs in with it gets a session that is an administrator's, since only the names
    are compared. *)
Theorem anybody_becomes_administrator rand now vip hm rand' now' vip' hm' w st password :
  web_sound cfg w → m_storage w = Some st → UserManager.db_getUser (admin_username cfg) st = None →
  admin_username cfg ≠ ""%string → password ≠ ""%string →
  strip_base cfg (uri hm) = Some "/api/v1/users/add"%string →
  http_var hm "username" = Some (admin_username cfg) → http_var hm "password" = Some password →
  strip_base cfg (uri hm') = Some "/authorize"%string →
  http_var hm' "user" = Some (admin_username cfg) → http_var hm' "password" = Some password →
  ∃ w' s, (handle rand now vip hm ;; handle rand' now' vip' hm') w = Done tt w' ∧
    sfind (session_id s) (sessions w') = Some s ∧ admin s = true.
Proof.
  intros Hw Hst Hnone Hne Hpe Hu Hn Hp Hu' Hn' Hp'.
  destruct (add_run rand now vip hm w st (admin_username cfg) password) as [l Hrun]; try done.
  rewrite (bind_done _ _ _ _ _ Hrun). set (info := Pool.mkUserInfo _ _ _ _ _ _ _ _) in *. set (w1 := with_web_out _ _).
  destruct (user_added info st) as (row & Hrow & Hpw); [done|by eapply http_var_no_nul|by eapply http_var_no_nul|].
  rewrite (handle_run cfg m_password indeterminate _ _ _ _ _ w1 Hu' Hw).
  assert (passed now' (set_uri "/authorize" hm') w1 = w1) as -> by done. rewrite bind_run. unfold dispatch, may_pass. cbn [uri set_uri].
  rewrite bool_decide_true by set_solver. cbn [orb negb]. change (String.eqb "/authorize" "/authorize") with true. cbv iota.
  unfold authorize. rewrite (bind_done _ _ _ _ _ (get_http_var_run (set_uri _ hm') "user" _ w1 Hn')).
  rewrite (bind_done _ _ _ _ _ (get_http_var_run (set_uri _ hm') "password" _ w1 Hp')).
  rewrite (bind_done _ _ _ _ _ (check_password_run cfg m_password _ _ w1)).
  assert (password_fits cfg m_password w1 (admin_username cfg) password = true) as ->.
  { unfold password_fits. assert (m_storage w1 = Some (UserManager.db_setUser info st)) as -> by done.
    change (Pool.ui_jid info) with (admin_username cfg) in Hrow. rewrite Hrow. cbv iota. rewrite Hpw. cbn. rewrite !String.eqb_refl. apply orb_true_r. }
  eexists _, (granted cfg rand' now' (admin_username cfg)). split; [reflexivity|]. split; [|simpl; apply String.eqb_refl].
  simpl. apply sfind_sinsert_eq.
Qed.
(** *** Somebody else's account *)

Definition told (l : list web_event) w : Server W St := with_web_out (λ o, o ++ l) w.

Lemma told_twice l l' w : told l' (told l w) = told (l ++ l') w.
Proof. unfold told, with_web_out. simpl. by rewrite <- app_assoc. Qed.

Lemma registered_run s instance st v st1 w : m_storage w = Some st →
  UserManager.db_getUserSetting (own_id st s) instance Sqlite.TYPE_STRING "" st = (v, st1) →
  registered_as indeterminate (Some s) instance w = Done (own_id st s, v) (told [AskedSetting (own_id st s) instance v] (with_storage st1 w)).
Proof.
  intros Hst Hset. unfold registered_as. rewrite bind_run. cbn [the_session mret prog_ret]. unfold user_id, storage. rewrite !bind_run. cbn [get].
  rewrite Hst. cbn. unfold user_setting, storage. rewrite !bind_run. cbn [get]. rewrite Hst. cbn. fold (own_id st s). by rewrite Hset.
Qed.

Lemma command_run instance c t r w : gateway_answer instance c t (gateways w) = Done r (gateways w) →
  send_command instance c t w = Done r (told [SentCommand instance c r] w).
Proof. intros Hr. unfold send_command, on_gateways. rewrite bind_run, Hr. by destruct w. Qed.

Lemma update_run id variable value st w : m_storage w = Some st →
  update_setting id variable value w = Done tt (told [StoredSetting id variable value] (with_storage (Registration.db_updateUserSetting id variable value st) w)).
Proof. intros Hst. unfold update_setting, storage. rewrite !bind_run. cbn [get]. by rewrite Hst. Qed.

(** A call of the interface with a session. *)
Lemma handle_call rand now vip hm u s w : strip_base cfg (uri hm) = Some u → web_sound cfg w → (0 <= now)%Z →
  String.prefix "/api/v1/" u = true → u ≠ "/api/v1/users/add"%string → session_of now hm w = Some s →
  handle rand now vip hm w
  = (handleRequest indeterminate vip (Some (renewed now s)) (set_uri u hm) ;; emit Closing) (passed now (set_uri u hm) w).
Proof.
  intros Hu Hw Hnow Hapi Hne Hs. rewrite (handle_run cfg m_password indeterminate _ _ _ _ _ _ Hu Hw).
  assert (u ∉ public_uris) as Hpub by (intros Hin; by apply Hne, (public_api (set_uri u hm) Hin)).
  assert (may_pass now (set_uri u hm) w = true) as -> by (unfold may_pass; rewrite bool_decide_false by done; change (session_of now (set_uri u hm) w) with (session_of now hm w); by rewrite Hs).
  unfold dispatch. cbn [negb uri set_uri]. rewrite Hapi.
  assert (∀ v, v ∈ ["/authorize"; "/logout"]%string → String.eqb u v = false) as Hv.
  { intros v Hin. apply String.eqb_neq. intros ->. rewrite elem_of_cons, list_elem_of_singleton in Hin. by destruct Hin as [-> | ->]. }
  rewrite !Hv by set_solver. assert (String.prefix "/oauth2" u = false) as ->.
  { destruct u as [|c1 [|c2 u]]; cbn [String.prefix] in Hapi |- *; repeat (case_match; try done; subst). done. }
  assert (session_of now (set_uri u hm) w = Some s) as Hs' by exact Hs.
  pose proof (session_passed cfg now (set_uri u hm) w Hw Hnow Hpub) as Hr. rewrite Hs' in Hr.
  rewrite !bind_run, (get_session_run now (set_uri u hm)). by rewrite Hr.
Qed.
Lemma after_slash_none x : ¬ has "/" x → after_slash x = None.
Proof.
  unfold has. induction x as [|c x IH]; [done|]. simpl. intros Hc. rewrite IH by naive_solver.
  destruct (Ascii.eqb_spec c "/"); [naive_solver|done].
Qed.

Lemma last_part_app p x : ¬ has "/" x → last_part (p +:+ String "/" x) = x.
Proof.
  intros Hx. unfold last_part. assert (after_slash (p +:+ String "/" x) = Some x) as ->; [|done].
  induction p as [|c p IH]; [simpl; by rewrite after_slash_none|]. rewrite string_cons_app. simpl. by rewrite IH.
Qed.

Section stolen.
Context (instance victim : string) (answer : string → string).
Context (Hinstance : ¬ has "/" instance) (Hanswer : ∀ c g, gateway_answer (W := W) instance c 1 g = Done (answer c) g).

(** The gateway refuses to register, and the setting is stored all the same. *)
Lemma register_run hm s st v st1 uin password w :
  uri hm = ("/api/v1/instances/register" +:+ String "/" instance)%string → m_storage w = Some st →
  UserManager.db_getUserSetting (own_id st s) instance Sqlite.TYPE_STRING "" st = (v, st1) →
  http_var hm "jid" = Some victim → http_var hm "uin" = Some uin → http_var hm "password" = Some password →
  victim ≠ ""%string → uin ≠ ""%string → password ≠ ""%string →
  String.prefix "Error:" (answer ("get_oauth2_url " +:+ victim +:+ " " +:+ uin +:+ " " +:+ password)) = true →
  answer ("register " +:+ victim +:+ " " +:+ uin +:+ " " +:+ password) ≠ ""%string →
  ∃ l, serve_instances_register indeterminate (Some s) hm w
    = Done tt (told l (with_storage (Registration.db_updateUserSetting (own_id st s) instance victim st1) w)).
Proof.
  intros Hu Hst Hset Hj Hui Hp Hne1 Hne2 Hne3 Hoauth Hreg. unfold serve_instances_register. rewrite Hu, last_part_app by done. cbv zeta.
  rewrite (bind_done _ _ _ _ _ (registered_run s instance st v st1 w Hst Hset)). set (w1 := told _ _).
  rewrite (bind_done _ _ _ _ _ (get_http_var_run hm "jid" _ w1 Hj)), (bind_done _ _ _ _ _ (get_http_var_run hm "uin" _ w1 Hui)),
    (bind_done _ _ _ _ _ (get_http_var_run hm "password" _ w1 Hp)).
  apply String.eqb_neq in Hne1, Hne2, Hne3. rewrite Hne2, Hne3. cbn [orb]. rewrite bind_run. cbn [mret prog_ret]. rewrite Hne1, Hne2, Hne3. cbn [orb].
  rewrite (bind_done _ _ _ _ _ (command_run instance _ 1 _ w1 (Hanswer _ _))). rewrite Hoauth, andb_false_r.
  match goal with |- context [told ?l w1] => set (w2 := told l w1) end.
  rewrite (bind_done _ _ _ _ _ (command_run instance _ 1 _ w2 (Hanswer _ _))). apply String.eqb_neq in Hreg. rewrite Hreg. cbn [negb fst].
  match goal with |- context [told ?l w2] => set (w3 := told l w2) end.
  rewrite (bind_done _ _ _ _ _ (update_run (own_id st s) instance victim st1 w3 eq_refl)). eexists.
  unfold send_ack, emit, modify, w3, w2, w1, told, with_storage, with_web_out. simpl. rewrite <- !app_assoc. reflexivity.
Qed.

(** Whoever has the setting may unregister who is named in it. *)
Lemma unregister_run hm s st st1 w :
  uri hm = ("/api/v1/instances/unregister" +:+ String "/" instance)%string → m_storage w = Some st →
  UserManager.db_getUserSetting (own_id st s) instance Sqlite.TYPE_STRING "" st = (victim, st1) → victim ≠ ""%string →
  ∃ w', serve_instances_unregister indeterminate (Some s) hm w = Done tt w' ∧
    SentCommand instance ("unregister " +:+ victim) (answer ("unregister " +:+ victim)) ∈ web_out w'.
Proof.
  intros Hu Hst Hset Hne. unfold serve_instances_unregister. rewrite Hu, last_part_app by done. cbv zeta.
  rewrite (bind_done _ _ _ _ _ (registered_run s instance st victim st1 w Hst Hset)). set (w1 := told _ _).
  rewrite bind_run. cbn [the_session mret prog_ret]. apply String.eqb_neq in Hne. rewrite Hne. cbn [andb]. rewrite bind_run. cbn [mret prog_ret].
  rewrite Hne. cbn [negb]. rewrite (bind_done _ _ _ _ _ (command_run instance _ 1 _ w1 (Hanswer _ _))). set (w2 := told _ w1).
  assert (SentCommand instance ("unregister " +:+ victim) (answer ("unregister " +:+ victim)) ∈ web_out w2) as Hin by (simpl; set_solver).
  destruct (String.eqb (answer _) ""); cbn [negb]; [eexists; split; [reflexivity|simpl in *; set_solver]|].
  rewrite (bind_done _ _ _ _ _ (update_run (own_id st s) instance "" st1 w2 eq_refl)). eexists. split; [reflexivity|]. simpl in *. set_solver.
Qed.

Lemma prefix_nil x : String.prefix "" x = true.
Proof. by destruct x. Qed.

Lemma register_request vip r hm : uri hm = ("/api/v1/instances/register" +:+ String "/" instance)%string →
  handleRequest indeterminate vip r hm = serve_instances_register (W := W) (St := St) indeterminate r hm.
Proof. intros Hu. unfold handleRequest. rewrite Hu. simpl. by rewrite prefix_nil. Qed.

Lemma unregister_request vip r hm : uri hm = ("/api/v1/instances/unregister" +:+ String "/" instance)%string →
  handleRequest indeterminate vip r hm = serve_instances_unregister (W := W) (St := St) indeterminate r hm.
Proof. intros Hu. unfold handleRequest. rewrite Hu. simpl. by rewrite prefix_nil. Qed.

Lemma stored_victim now s variable st v st1 :
  UserManager.db_getUserSetting (own_id st (renewed now s)) variable Sqlite.TYPE_STRING "" st = (v, st1) → ¬ has "000" victim →
  let st2 := Registration.db_updateUserSetting (own_id st (renewed now s)) variable victim st1 in
  own_id st2 (renewed now s) = own_id st (renewed now s) ∧
  fst (UserManager.db_getUserSetting (own_id st (renewed now s)) variable Sqlite.TYPE_STRING "" st2) = victim.
Proof.
  intros Hset Hno. assert (st1 = snd (UserManager.db_getUserSetting (own_id st (renewed now s)) variable Sqlite.TYPE_STRING "" st)) as -> by (by rewrite Hset).
  split; [|by apply setting_stored]. set (id := own_id st (renewed now s)) at 1 2. unfold own_id.
  destruct (users_kept (session_user (renewed now s)) id variable Sqlite.TYPE_STRING "" victim (snd (UserManager.db_getUserSetting id variable Sqlite.TYPE_STRING "" st))) as [_ ->].
  by destruct (users_kept (session_user (renewed now s)) id variable Sqlite.TYPE_STRING "" victim st) as [-> _].
Qed.

(** a user may have somebody else's account removed: he registers with the address of the
    other, which the gateway refuses, but any answer counts as a success and the address is
    stored as the name he is registered under; when he unregisters, the gateway is told to
    unregister the other. *)
Theorem somebody_else_unregistered rand now vip hm rand' now' vip' hm' w st s uin password :
  web_sound cfg w → m_storage w = Some st → (0 <= now <= now')%Z → (now' < now + SESSION_TTL)%Z →
  session_of now hm w = Some s → admin s = false → cookie_header hm' = cookie_header hm →
  strip_base cfg (uri hm) = Some ("/api/v1/instances/register" +:+ String "/" instance)%string →
  strip_base cfg (uri hm') = Some ("/api/v1/instances/unregister" +:+ String "/" instance)%string →
  http_var hm "jid" = Some victim → http_var hm "uin" = Some uin → http_var hm "password" = Some password →
  victim ≠ ""%string → uin ≠ ""%string → password ≠ ""%string →
  String.prefix "Error:" (answer ("get_oauth2_url " +:+ victim +:+ " " +:+ uin +:+ " " +:+ password)) = true →
  answer ("register " +:+ victim +:+ " " +:+ uin +:+ " " +:+ password) = "Error: User is already registered"%string →
  ∃ w', (handle rand now vip hm ;; handle rand' now' vip' hm') w = Done tt w' ∧
    SentCommand instance ("unregister " +:+ victim) (answer ("unregister " +:+ victim)) ∈ web_out w'.
Proof.
  intros Hw Hst Hnow Hlater Hs Hadmin Hcookie Hu Hu' Hj Hui Hp Hne1 Hne2 Hne3 Hoauth Hreg.
  rewrite bind_run, (handle_call _ _ _ _ _ s _ Hu) by (done || lia).
  destruct (UserManager.db_getUserSetting (own_id st (renewed now s)) instance Sqlite.TYPE_STRING "" st) as [v st1] eqn:Hset.
  set (u := ("/api/v1/instances/register" +:+ String "/" instance)%string) in *. set (w1 := passed now _ w).
  assert (m_storage w1 = Some st) as Hst1 by (rewrite <- Hst; apply passed_out).
  rewrite (register_request vip _ (set_uri u hm) eq_refl).
  destruct (register_run (set_uri u hm) (renewed now s) st v st1 uin password w1) as [l Hrun]; try done; [by rewrite Hreg|].
  rewrite (bind_done _ _ _ _ _ Hrun). cbn [emit modify]. set (w2 := with_web_out _ _).
  destruct (stored_victim now s instance st v st1 Hset) as [Hid Hvictim]; [by eapply http_var_no_nul|].
  assert (session_of now' hm' w2 = Some (renewed now s)) as Hs2.
  { unfold session_of, cookie. rewrite Hcookie. change (sessions w2) with (sessions w1). fold (cookie hm).
    destruct (session_of_found cfg now hm w s Hw Hs) as (_ & Hck & _).
    assert (sfind (cookie hm) (sessions w1) = Some (renewed now s)) as ->.
    { unfold w1, passed. rewrite bool_decide_false; [|by intros Hin; destruct (public_api (set_uri u hm) Hin) as (_ & P2 & _); discriminate (P2 eq_refl)].
      change (session_of now (set_uri u hm) w) with (session_of now hm w). rewrite Hs. simpl. by rewrite Hck, sfind_sinsert_eq. }
    simpl. destruct (Z.eqb_spec (now + SESSION_TTL) 0); [unfold SESSION_TTL in *; lia|]. by destruct (Z.ltb_spec now' (now + SESSION_TTL)); [|lia]. }
  assert (web_sound cfg w2) as Hw2 by exact (passed_sound cfg now (set_uri u hm) w Hw).
  rewrite (handle_call _ _ _ _ _ (renewed now s) _ Hu' Hw2) by (done || lia).
  set (u' := ("/api/v1/instances/unregister" +:+ String "/" instance)%string) in *. set (w3 := passed now' _ w2).
  rewrite (unregister_request vip' _ (set_uri u' hm') eq_refl).
  destruct (UserManager.db_getUserSetting (own_id st (renewed now s)) instance Sqlite.TYPE_STRING "" (Registration.db_updateUserSetting (own_id st (renewed now s)) instance victim st1))
    as [v' st3] eqn:Hset'. simpl in Hvictim. subst v'.
  destruct (unregister_run (set_uri u' hm') (renewed now' (renewed now s)) (Registration.db_updateUserSetting (own_id st (renewed now s)) instance victim st1) st3 w3)
    as (w4 & Hrun' & Hin); [done|transitivity (m_storage w2); [apply passed_out|done]| |done|].
  { change (own_id ?a (renewed now' (renewed now s))) with (own_id a (renewed now s)). by rewrite Hid. }
  rewrite (bind_done _ _ _ _ _ Hrun'). eexists. split; [reflexivity|]. simpl. set_solver.
Qed.
End stolen.
End errors.

(** ** The SQLite storage as the accounts *)

Section sqlite.
Context `{Sqlite.SqlEngine} `{Split} (Hreliable : SqliteTheorems.reliable).
#[local] Existing Instance RegistrationTheorems.sqlite_accounts.
#[local] Existing Instance Sqlite.Z_key.

Lemma elem_sinsert `{StdKey K} {V} k (v : V) m k' v' : (k', v') ∈ sinsert k v m → (k', v') = (k, v) ∨ (k', v') ∈ m.
Proof.
  induction m as [|[k1 v1] m IH]; simpl; [rewrite list_elem_of_singleton; tauto|].
  repeat case_decide; [set_solver|]. destruct (key_lt k k1); set_solver.
Qed.

Lemma filter_added `{StdKey K} {V} (P : K * V → Prop) `{∀ x, Decision (P x)} k v m :
  filter P m = [] → P (k, v) → ∃ l, filter P (sinsert k v m) = (k, v) :: l.
Proof.
  intros Hm Hk. destruct (filter P (sinsert k v m)) as [|[k' v'] l] eqn:E.
  - exfalso. apply (not_elem_of_nil (k, v)). rewrite <- E. apply list_elem_of_filter. split; [done|]. apply sfind_elem, sfind_sinsert_eq.
  - assert ((k', v') ∈ (k', v') :: l) as Hin by set_solver. rewrite <- E in Hin. apply list_elem_of_filter in Hin as [Hk' Hin].
    apply elem_sinsert in Hin as [->|Hin]; [by exists l|]. exfalso. apply (not_elem_of_nil (k', v')). rewrite <- Hm. by apply list_elem_of_filter.
Qed.

Lemma sqlite_user_added info d :
  Sqlite.getUser (Pool.ui_jid info) d = None → ¬ has "000" (Pool.ui_password info) →
  ∃ row, Sqlite.getUser (Pool.ui_jid info) (Sqlite.setUser info d) = Some row ∧ Pool.ui_password row = Pool.ui_password info.
Proof.
  intros Hnone Hp. unfold Sqlite.setUser. rewrite SqliteTheorems.write_done by done. unfold Sqlite.getUser in *.
  rewrite SqliteTheorems.select_all in * by done. destruct (filter _ (Sqlite.t_users d)) as [|[]] eqn:E; [|done].
  unfold Sqlite.insert_or_replace_user. set (id := match _ with Some _ => _ | None => _ end). set (row := Sqlite.mkUsersRow _ _ _ _ _ _ _ _).
  cbn [fst]. change (Sqlite.t_users (Sqlite.with_rowid id _)) with (sinsert id row (Sqlite.t_users d)).
  destruct (filter_added _ id row _ E eq_refl) as [l El]. rewrite El.
  eexists. split; [done|]. simpl. by apply SqliteTheorems.c_str_clean.
Qed.

#[local] Instance sqlite_laws : AccountLaws Sqlite.Database.
Proof.
  split.
  - intros info d Hnone _ Hp. by apply sqlite_user_added.
  - intros id variable type value x d Hx. simpl. set (key := (to_int id, Sqlite.c_str variable)).
    unfold Sqlite.getUserSetting at 2. rewrite SqliteTheorems.select_all by done. unfold Sqlite.updateUserSetting. rewrite !SqliteTheorems.write_done by done.
    fold key. assert (∀ d', is_Some (sfind key (Sqlite.t_users_settings d')) →
      fst (let '((_, v), d2) := Sqlite.getUserSetting id variable type value (Sqlite.with_users_settings (Sqlite.update_rows (λ k _, bool_decide (k = key))
        (λ r, Sqlite.mkUsersSettingsRow (Sqlite.us_type r) (Sqlite.c_str x))) d') in (v, d2)) = x) as Hread.
    { intros d' [r Hr]. unfold Sqlite.getUserSetting. rewrite SqliteTheorems.select_all by done. fold key. simpl.
      rewrite SqliteTheorems.sfind_update_rows, Hr. simpl. rewrite bool_decide_true by done. simpl. by apply SqliteTheorems.c_str_clean. }
    destruct (sfind key (Sqlite.t_users_settings d)) as [r|] eqn:E; simpl; apply Hread; [by eexists|].
    unfold Sqlite.insert_user_setting. fold key. rewrite E. simpl. rewrite sfind_sinsert_eq. by eexists.
  - intros jid id variable type value x d. simpl. unfold Sqlite.updateUserSetting, Sqlite.getUser. rewrite SqliteTheorems.write_done, !SqliteTheorems.select_all by done.
    split; [|done]. unfold Sqlite.getUserSetting. rewrite SqliteTheorems.select_all by done. destruct (sfind _ _) eqn:E; [done|]. simpl.
    rewrite SqliteTheorems.write_done by done. simpl. unfold Sqlite.insert_user_setting. by rewrite E.
Qed.
End sqlite.

(** ** Witnesses *)

#[local] Existing Instance SqliteTheorems.obedient_engine.
#[local] Existing Instance Text.reference_split.
#[local] Existing Instance RegistrationTheorems.sqlite_accounts.

Lemma obedience : SqliteTheorems.reliable.
Proof. by intros. Qed.

(** Not MD5, but of the same length. *)
#[local] Instance short_md5 : Md5 := λ s, substring 0 32 (s +:+ "00000000000000000000000000000000").

(** Words, as boost reads them where nothing is quoted. *)
#[local] Instance words : Tokenizer := λ s, Some (pieces " " s).

(** One gateway, where carol is registered. *)
Definition icq : string := "icq.localhost".

Definition icq_answer (cmd : string) : string :=
  if String.prefix "get_oauth2_url" cmd then "Error: Unknown command."
  else if String.prefix "register" cmd then "Error: User is already registered"
  else if String.prefix "unregister" cmd then "Unregistered"
  else "Running".

#[local] Instance one_gateway : Gateways unit := {
  show_list := mret [icq];
  get_config _ _ := mret ""%string;
  start_instances _ := mret "OK"%string;
  stop_instances _ := mret "OK"%string;
  gateway_answer _ cmd _ := mret (icq_answer cmd);
}.

Definition home : ManagerConfig := mkManagerConfig "admin" "s3cret" "" "/".

Definition mallory : session := mkSession (cs_md5 "7mallory") "7" "mallory" 1120 false.

Definition mallory_stored : Sqlite.Database :=
  Sqlite.setUser (Pool.mkUserInfo 0 "mallory" "" "x" "" "" false []) (SqliteTheorems.empty_database 1700000000).

Definition manager : Server unit Sqlite.Database := mkServer [(session_id mallory, mallory)] (Some mallory_stored) tt [].

Lemma home_sound : web_sound home manager.
Proof.
  split; [repeat constructor|]. intros id s. simpl. destruct (decide _) as [->|]; [|done]. intros [= <-]. split; [done|]. by split.
Qed.

Definition request (path form : string) : http_message := mkHttp path "" form (Some "localhost"%string) (Some ("session=" +:+ session_id mallory)%string).

Definition register_carol : http_message := request "/api/v1/instances/register/icq.localhost" "jid=carol%40localhost&uin=carol&password=x".
Definition unregister_me : http_message := request "/api/v1/instances/unregister/icq.localhost" "".

Lemma somebody_else_unregistered_witness :
  ∃ w', (event_handler home "s3cret" 0 1 1000 false register_carol ;; event_handler home "s3cret" 0 2 1010 false unregister_me) manager = Done tt w' ∧
    SentCommand icq "unregister carol@localhost" "Unregistered" ∈ web_out w'.
Proof.
  apply (somebody_else_unregistered (AccountLaws0 := sqlite_laws obedience) home "s3cret" 0 icq "carol@localhost" icq_answer
    ltac:(by apply (bool_decide_eq_true_1 _); vm_compute) (λ c g, eq_refl) 1 1000 false register_carol 2 1010 false unregister_me manager mallory_stored mallory "carol" "x");
    [exact home_sound|reflexivity|split; discriminate|reflexivity|reflexivity|reflexivity|reflexivity|reflexivity|reflexivity|reflexivity|reflexivity|reflexivity|discriminate|discriminate|discriminate|reflexivity|reflexivity].
Defined.

Definition add_admin : http_message := mkHttp "/api/v1/users/add" "" "username=admin&password=mine" None None.
Definition log_in : http_message := mkHttp "/authorize" "" "user=admin&password=mine" None None.

Lemma anybody_becomes_administrator_witness :
  ∃ w' s, (event_handler home "s3cret" 0 1 1000 false add_admin ;; event_handler home "s3cret" 0 2 1010 false log_in) manager = Done tt w' ∧
    sfind (session_id s) (sessions w') = Some s ∧ admin s = true.
Proof.
  apply (anybody_becomes_administrator (AccountLaws0 := sqlite_laws obedience) home "s3cret" 0 1 1000 false add_admin 2 1010 false log_in manager mallory_stored "mine");
    [exact home_sound|reflexivity|reflexivity|discriminate|discriminate|reflexivity|reflexivity|reflexivity|reflexivity|reflexivity|reflexivity].
Defined.

Definition state_of (r : result (Server unit Sqlite.Database) unit) : Server unit Sqlite.Database :=
  match r with Done _ w => w | Fault _ => manager end.


(** The password of a user, who is not made an administrator. *)
Definition mallory_again : http_message := mkHttp "/authorize" "" "user=mallory&password=x" None None.

Lemma sessions_for_passwords_witness :
  web_sound home (state_of (event_handler home "s3cret" 0 8 1010 false mallory_again manager)) ∧
  length (sessions (state_of (event_handler home "s3cret" 0 8 1010 false mallory_again manager))) = 2.
Proof.
  destruct (sessions_for_passwords home "s3cret" 0 8 1010 false mallory_again manager
    (state_of (event_handler home "s3cret" 0 8 1010 false mallory_again manager))) as (Hs & _);
    [exact home_sound|discriminate|vm_compute; reflexivity|].
  split; [exact Hs|vm_compute; reflexivity].
Defined.

Lemma requests_served_witness :
  ∃ l w', event_handler home "s3cret" 0 2 1010 false (request "/api/v1/instances" "") manager = Done tt w' ∧
    web_out w' = l ++ [Closing].
Proof.
  apply (requests_served home "s3cret" 0 2 1010 false (request "/api/v1/instances" "") manager);
    [exact home_sound|discriminate|eexists; reflexivity|intros name; eexists; reflexivity|intros text; eexists; reflexivity|eexists; reflexivity| | | | |];
    intros; intros ? ?; exact I.
Defined.
