(* ===== verification/Instances.v ===== *)
(** * The gateways of a machine

    methods.cpp and main.cpp of spectrum_manager: which gateways the files of a directory
    describe, starting, stopping and asking them. Time is a clock that sleep() moves; what
    the file system, the processes and the network do is a function of it. *)

From S2P Require Import Prelude StdMap Text Protocol Framing Config.
From S2P Require Web.
Import pbnetwork.

(** A directory, or what there is instead; errors while it is read come before the first
    file. A file of it is named with its path, and is a
    configuration when it is a regular file whose name ends in .cfg. *)
Inductive directory :=
  | NoDirectory
  | NotADirectory
  | FilesystemError (what : string)
  | Files (l : list (string * bool)).

(** What the network tells a connection. *)
Inductive network_event :=
  | ConnectFinished (conn : nat) (error : bool)
  | DataRead (conn : nat) (data : bytes).

(** The machine, at a time, and boost. *)
Class Machine := {
  config_directory : string;
  directory_now : nat → directory;
  (** files as Config::load reads them, and getcwd() *)
  file_text : string → option string;
  working_directory : string;
  (** time(NULL) *)
  seconds : nat → Z;
  (** the environment variable PATH, and whether a file is there that is no directory *)
  env_PATH : option string;
  is_file : string → bool;
  (** the first word of a file, which is empty when there is none *)
  first_word : nat → string → option string;
  (** whether kill(pid, 0) answers 0 *)
  answers : nat → Z → bool;
  (** what waitpid says of a child, when there is one *)
  exit_status : nat → string → string → option Z;
  lexical_cast_int : string → option Z;
  is_address : string → bool;
  (** a path, as boost prints it *)
  quoted : string → string;
  (** what runOnce() finds, one call after the other *)
  network : nat → list (list network_event);
}.

(** What is done, and what a command shows; progress and warnings on the terminal are left
    out. *)
Inductive host_event :=
  | Executed (binary config jid : string)
  | Killed (pid : Z) (signal : string)
  | Connected (host : string) (port : Z)
  | Written (conn : nat) (data : bytes)
  | Disconnected (conn : nat)
  | Shown (text : string).

(** The variables of methods.cpp, the clock, and the connections that have been made and
    the message of each. *)
Record Host := mkHost {
  h_response : string;
  h_data : bytes;
  h_clock : nat;
  h_connections : list string;
  (** onDataRead of these is not connected any more *)
  h_silent : list nat;
  h_out : list host_event;
}.

Definition set_response r h := mkHost r (h_data h) (h_clock h) (h_connections h) (h_silent h) (h_out h).
Definition set_data d h := mkHost (h_response h) d (h_clock h) (h_connections h) (h_silent h) (h_out h).
Definition tick h := mkHost (h_response h) (h_data h) (S (h_clock h)) (h_connections h) (h_silent h) (h_out h).
Definition set_connections f h := mkHost (h_response h) (h_data h) (h_clock h) (f (h_connections h)) (h_silent h) (h_out h).
Definition set_silent f h := mkHost (h_response h) (h_data h) (h_clock h) (h_connections h) (f (h_silent h)) (h_out h).
Definition set_out f h := mkHost (h_response h) (h_data h) (h_clock h) (h_connections h) (h_silent h) (f (h_out h)).

Section methods.
Context `{Machine} `{ConfigLibraries} `{Protobuf}.

Abbreviation host A := (prog Host A).

Definition do_event (e : host_event) : host unit := modify (set_out (λ l, l ++ [e])).
Definition respond (text : string) : host unit := modify (set_response text).
Definition sleep : host unit := modify tick.

Definition nl : string := String "010" "".

(** ** Files *)

(** The parts of PATH, the last one only when there is something in it. *)
Definition path_list (env : string) : list string :=
  let l := pieces ":" env in
  match last l with Some EmptyString => removelast l | _ => l end.

Definition searchForBinary (binary : string) : string :=
  match env_PATH with
  | None => ""
  | Some env => default ""%string (List.find is_file (map (λ dit, dit +:+ "/" +:+ binary) (path_list env)))
  end.

Definition getPort (portfile : string) : host Z :=
  h ← get;
  mret match first_word (h_clock h) portfile with
       | None | Some EmptyString => 0%Z
       | Some port => default 0%Z (lexical_cast_int port)
       end.

Definition isRunning (pidfile : string) : host Z :=
  h ← get;
  mret match first_word (h_clock h) pidfile with
       | None | Some EmptyString => 0%Z
       | Some pid =>
           match lexical_cast_int pid with
           | None => (-1)%Z
           | Some ipid => if answers (h_clock h) ipid then ipid else 0%Z
           end
       end.

(** A Config that is loaded from a file, and what is read of it; what load answers goes to
    [use]. *)
Definition of_config {A} (path jid : string) (use : bool → prog Config A) : host A :=
  h ← get;
  match (ok ← load file_text working_directory (seconds (h_clock h)) path jid; use ok) (new_config []) with
  | Done a _ => mret a
  | Fault f => raise f
  end.

(** The addresses of the gateways of a file. *)
Definition vhosts : prog Config (list string) :=
  c ← get;
  l ← (if hasKey "vhosts.vhost" c then CONFIG_VECTOR "vhosts.vhost" else mret []);
  jid ← CONFIG_STRING "service.jid";
  mret (l ++ [jid]).

(** The process file of a gateway; nothing when it is not the one that is asked for, or
    cannot be loaded. *)
Definition pidfile_of (path vhost _jid : string) : host (option string) :=
  of_config path vhost (λ ok,
    if negb ok then mret None
    else if negb (String.eqb _jid "") && negb (String.eqb _jid vhost) then mret None
    else f ← CONFIG_STRING "service.pidfile"; mret (Some f)).

Definition for_files (l : list (string * bool)) (body : string → host unit) : host unit :=
  for_each l (λ '(path, is_config), if is_config : bool then body path else mret tt).

(** ** Starting and stopping *)

(** exec_: what it leaves in [rc], which nobody sets when there is no child. *)
Definition exec_ (binary config jid : string) (rc : Z) : host Z :=
  h ← get;
  match exit_status (h_clock h) config jid with
  | None => mret rc
  | Some status => do_event (Executed binary config jid) ;; mret status
  end.

(** while (kill(pid, 0) == 0 && count != 0) *)
Fixpoint wait_for (count : nat) (pid : Z) : host nat :=
  h ← get;
  if answers (h_clock h) pid then
    match count with
    | O => mret 0
    | S count => sleep ;; wait_for count pid
    end
  else mret count.

(** Whether it was stopped; a process that is gone after the last second was not. *)
Definition stop_process (path : string) (pid : Z) : host bool :=
  respond ("Stopping " +:+ path +:+ ": ") ;;
  do_event (Killed pid "SIGTERM") ;;
  sleep ;;
  count ← wait_for 20 pid;
  h ← get;
  if count =? 0 then respond (h_response h +:+ "ERROR (timeout)" +:+ nl) ;; mret false
  else respond (h_response h +:+ "OK" +:+ nl) ;; mret true.

Definition not_there : string := "Error: Config directory " +:+ config_directory +:+ " does not exist" +:+ nl.

Definition filesystem_error (what : string) : string := "Error: Filesystem error: " +:+ what +:+ nl.

(** [rc]: what int rc holds before exec_ *)
Definition start_one (rc : Z) (binary path _jid vhost : string) (rv : Z) : host Z :=
  pidfile ← pidfile_of path vhost _jid;
  match pidfile with
  | None => mret rv
  | Some pidfile =>
      pid ← isRunning pidfile;
      if (pid =? 0)%Z then
        respond ("Starting " +:+ path +:+ ": OK" +:+ nl) ;;
        rc ← exec_ binary path vhost rc;
        mret (if (rv =? 0)%Z then rc else rv)
      else respond ("Starting " +:+ path +:+ ": Already started (PID=" +:+ decimal pid +:+ ")" +:+ nl) ;; mret rv
  end.

Fixpoint start_vhosts (rc : Z) (binary path _jid : string) (l : list string) (rv : Z) : host Z :=
  match l with
  | [] => mret rv
  | vhost :: l => rv ← start_one rc binary path _jid vhost rv; start_vhosts rc binary path _jid l rv
  end.

Fixpoint start_files (rc : Z) (binary _jid : string) (l : list (string * bool)) (rv : Z) : host Z :=
  match l with
  | [] => mret rv
  | (path, is_config) :: l =>
      rv ← (if is_config : bool then
              addresses ← of_config path "" (λ ok, if ok : bool then l ← vhosts; mret (Some l) else mret None);
              match addresses with
              | None => mret rv
              | Some addresses => start_vhosts rc binary path _jid addresses rv
              end
            else mret rv);
      start_files rc binary _jid l rv
  end.

Definition start_instances (rc : Z) (_jid : string) : host Z :=
  respond "" ;;
  h ← get;
  match directory_now (h_clock h) with
  | NoDirectory => respond not_there ;; mret 6%Z
  | NotADirectory => respond not_there ;; mret 7%Z
  | FilesystemError what => respond (filesystem_error what) ;; mret 6%Z
  | Files l =>
      let binary := searchForBinary "spectrum2" in
      if String.eqb binary "" then respond ("Error: spectrum2 binary not found in PATH" +:+ nl) ;; mret 8%Z
      else start_files rc binary _jid l 0
  end.

Definition stop_one (path _jid vhost : string) : host unit :=
  pidfile ← pidfile_of path vhost _jid;
  match pidfile with
  | None => mret tt
  | Some pidfile =>
      pid ← isRunning pidfile;
      if negb (pid =? 0)%Z then stop_process path pid ;; mret tt
      else respond ("Stopping " +:+ path +:+ ": Not running" +:+ nl)
  end.

(** Here a file that cannot be loaded is read all the same. *)
Definition stop_file (_jid path : string) : host unit :=
  addresses ← of_config path "" (λ _, vhosts);
  for_each addresses (stop_one path _jid).

Definition stop_instances (_jid : string) : host unit :=
  respond "" ;;
  h ← get;
  match directory_now (h_clock h) with
  | NoDirectory | NotADirectory => respond not_there
  | FilesystemError what => respond (filesystem_error what)
  | Files l => for_files l (stop_file _jid)
  end.

Definition restart_one (rc : Z) (binary path _jid vhost : string) (rv : Z) : host Z :=
  pidfile ← pidfile_of path vhost _jid;
  match pidfile with
  | None => mret rv
  | Some pidfile =>
      pid ← isRunning pidfile;
      if negb (pid =? 0)%Z then
        stopped ← stop_process path pid;
        if stopped : bool then
          respond ("Starting " +:+ path +:+ ": OK" +:+ nl) ;;
          rc ← exec_ binary path vhost rc;
          mret (if (rv =? 0)%Z then rc else rv)
        else mret rv
      else respond ("Stopping " +:+ path +:+ ": Not running" +:+ nl) ;; mret rv
  end.

Fixpoint restart_vhosts (rc : Z) (binary path _jid : string) (l : list string) (rv : Z) : host Z :=
  match l with
  | [] => mret rv
  | vhost :: l => rv ← restart_one rc binary path _jid vhost rv; restart_vhosts rc binary path _jid l rv
  end.

Fixpoint restart_files (rc : Z) (binary _jid : string) (l : list (string * bool)) (rv : Z) : host Z :=
  match l with
  | [] => mret rv
  | (path, is_config) :: l =>
      rv ← (if is_config : bool then addresses ← of_config path "" (λ _, vhosts); restart_vhosts rc binary path _jid addresses rv
            else mret rv);
      restart_files rc binary _jid l rv
  end.

Definition restart_instances (rc : Z) (_jid : string) : host Z :=
  respond "" ;;
  h ← get;
  match directory_now (h_clock h) with
  | NoDirectory => respond not_there ;; mret 1%Z
  | NotADirectory => respond not_there ;; mret 2%Z
  | FilesystemError what => respond (filesystem_error what) ;; mret 1%Z
  | Files l =>
      let binary := searchForBinary "spectrum2" in
      if String.eqb binary "" then respond ("Error: spectrum2 binary not found in PATH" +:+ nl) ;; mret 8%Z
      else restart_files rc binary _jid l 0
  end.

(** inl: exit() leaves the program *)
Definition show_status : host (Z + Z) :=
  h ← get;
  match directory_now (h_clock h) with
  | NoDirectory => mret (inl 6%Z)
  | NotADirectory => mret (inl 7%Z)
  | FilesystemError _ => mret (inl 5%Z)
  | Files l =>
      ret ← (fix go (l : list (string * bool)) (ret : Z) : host Z :=
         match l with
         | [] => mret ret
         | (path, is_config) :: l =>
             ret ← (if is_config : bool then
                      addresses ← of_config path "" (λ _, vhosts);
                      (fix each (addresses : list string) (ret : Z) : host Z :=
                         match addresses with
                         | [] => mret ret
                         | vhost :: addresses =>
                             pidfile ← pidfile_of path vhost "";
                             ret ← match pidfile with
                                   | None => mret ret
                                   | Some pidfile =>
                                       pid ← isRunning pidfile;
                                       if (pid =? 0)%Z then do_event (Shown (quoted path +:+ ": " +:+ vhost +:+ " Stopped" +:+ nl)) ;; mret 3%Z
                                       else do_event (Shown (quoted path +:+ ": " +:+ vhost +:+ " Running" +:+ nl)) ;; mret ret
                                   end;
                             each addresses ret
                         end) addresses ret
                    else mret ret);
             go l ret
         end) l 0%Z;
      mret (inr ret)
  end.

(** ** Asking *)

(** as<std::string>() of a value, which throws bad_any_cast: what is read of a Config
    that is loaded from a file, and nothing when it is thrown. *)
Definition try_config {A} (path : string) (use : bool → prog Config A) : host (option A) :=
  h ← get;
  match load file_text working_directory (seconds (h_clock h)) path "" (new_config []) with
  | Done ok c => mret (match use ok c with Done a _ => Some a | Fault _ => None end)
  | Fault f => raise f
  end.

(** Two options of the gateways that can be loaded: the address, and another one when it is
    asked for. *)
Fixpoint get_config_of (l : list (string * bool)) (jid key : string) : host string :=
  match l with
  | [] => mret ""%string
  | (path, is_config) :: l =>
      if is_config : bool then
        v ← of_config path "" (λ ok,
          if negb ok then mret None
          else address ← CONFIG_STRING "service.jid";
               if String.eqb address jid then v ← CONFIG_STRING key; mret (Some v) else mret None);
        match v with Some v => mret v | None => get_config_of l jid key end
      else get_config_of l jid key
  end.

Definition get_config (jid key : string) : host string :=
  h ← get;
  match directory_now (h_clock h) with Files l => get_config_of l jid key | _ => mret ""%string end.

Fixpoint list_of (show : bool) (l : list (string * bool)) : host (list string) :=
  match l with
  | [] => mret []
  | (path, is_config) :: l =>
      address ← (if is_config : bool then
                   of_config path "" (λ ok, if ok : bool then a ← CONFIG_STRING "service.jid"; mret (Some a) else mret None)
                 else mret None);
      match address with
      | Some a => (if show then do_event (Shown (a +:+ nl)) else mret tt) ;; rest ← list_of show l; mret (a :: rest)
      | None => list_of show l
      end
  end.

Definition show_list (show : bool) : host (list string) :=
  h ← get;
  match directory_now (h_clock h) with Files l => list_of show l | _ => mret [] end.

(** A connection to a gateway; dereferencing an address that is none is not allowed. *)
Definition connect_to (backend_host portfile message : string) : host unit :=
  port ← getPort portfile;
  if is_address backend_host then
    modify (set_connections (λ l, l ++ [message])) ;;
    do_event (Connected backend_host port)
  else raise NullDereference.

(** Where a gateway with the address is asked. *)
Definition where_to_ask (jid : string) (ok : bool) : prog Config (option (string * string)) :=
  if negb ok then mret None
  else
    address ← CONFIG_STRING "service.jid";
    if negb (String.eqb address jid) then mret None
    else
      backend_host ← CONFIG_STRING_DEFAULTED "service.backend_host" "127.0.0.1";
      portfile ← CONFIG_STRING "service.portfile";
      mret (Some (backend_host, portfile)).

(** The files with the address; nothing when a value is not a text. *)
Fixpoint ask_files (jid message : string) (l : list (string * bool)) (found : bool) : host (option bool) :=
  match l with
  | [] => mret (Some found)
  | (path, is_config) :: l =>
      if is_config : bool then
        v ← try_config path (where_to_ask jid);
        match v with
        | None => mret None
        | Some None => ask_files jid message l found
        | Some (Some (backend_host, portfile)) =>
            connect_to backend_host portfile message ;;
            ask_files jid message l true
        end
      else ask_files jid message l found
  end.

Definition ask_local_server (jid message : string) : host bool :=
  respond "" ;;
  h ← get;
  match directory_now (h_clock h) with
  | NoDirectory | NotADirectory => respond not_there ;; mret true
  | FilesystemError what => respond (filesystem_error what) ;; mret true
  | Files l =>
      found ← ask_files jid message l false;
      match found with
      | None => mret false
      | Some found =>
          (if found : bool then mret tt else respond ("Error: Config file for Spectrum instance with this JID was not found" +:+ nl)) ;;
          mret true
      end
  end.

(** *** The connection *)

Definition encode_config (message : string) : bytes :=
  WRAP (SerializeToString (BackendConfig.empty |> (BackendConfig.set_config message))) TYPE_QUERY.

Definition handleConnected (conn : nat) (error : bool) : host unit :=
  h ← get;
  match h_connections h !! conn with
  | None => mret tt
  | Some msg =>
      if error then
        respond ("Can't connect the server" +:+ nl) ;;
        modify (set_silent (λ l, conn :: l))
      else do_event (Written conn (send_frame (encode_config msg)))
  end.

(** What the loop does with a message that parses. *)
Definition take_answer (conn : nat) (wrapper : WrapperMessage.t) : host bool :=
  if bool_decide (WrapperMessage.type wrapper = Some TYPE_QUERY) then
    match ParseFromString (default [] (WrapperMessage.payload wrapper)) with
    | None => mret true
    | Some payload =>
        modify (set_silent (λ l, conn :: l)) ;;
        do_event (Disconnected conn) ;;
        let text := default ""%string (BackendConfig.config payload) in
        respond (if String.eqb text "" then "Empty response" else text) ;;
        do_event (Shown (text +:+ nl)) ;;
        mret true
    end
  else mret true.

Definition handleDataRead (conn : nat) (data : bytes) : host unit :=
  h ← get;
  if bool_decide (conn ∈ h_silent h) then mret tt
  else
    left_over ← handle_data_read ParseFromString true (take_answer conn) (h_data h) data;
    modify (set_data left_over).

(** *** The event loop *)

Definition deliver (e : network_event) : host unit :=
  match e with
  | ConnectFinished conn error => handleConnected conn error
  | DataRead conn data => handleDataRead conn data
  end.

(** while (get_response().empty()): what the calls of runOnce deliver, until the time is
    over. *)
Fixpoint run_loop (l : list (list network_event)) : host unit :=
  match l with
  | [] => mret tt
  | once :: l =>
      h ← get;
      if String.eqb (h_response h) "" then for_each once deliver ;; run_loop l else mret tt
  end.

(** The loop and the connections of a command end with it. *)
Definition end_of_loop : host unit := modify (λ h, set_silent (λ _, seq 0 (length (h_connections h))) h).

(** Server::send_command *)
Definition send_command (jid cmd : string) : host string :=
  asked ← ask_local_server jid cmd;
  if negb asked then end_of_loop ;; mret ""%string
  else
    h ← get;
    run_loop (network (h_clock h)) ;;
    end_of_loop ;;
    h ← get;
    mret (if String.eqb (h_response h) "Empty response" then ""%string else h_response h).

(** What the web interface does with the gateways; [rc] as in [exec_]. *)
Definition manager_gateways (rc : Z) : Web.Gateways Host := {|
  Web.show_list := show_list false;
  Web.get_config := get_config;
  Web.start_instances jid := start_instances rc jid ;; h ← get; mret (h_response h);
  Web.stop_instances jid := stop_instances jid ;; h ← get; mret (h_response h);
  Web.gateway_answer jid cmd _ := send_command jid cmd;
|}.

(** ** The program *)

Fixpoint join (l : list string) : string :=
  match l with
  | [] => ""
  | [s] => s
  | s :: l => s +:+ " " +:+ join l
  end.

(** What becomes of main for the words of the command: an exit code, the web interface, or
    waiting for an answer that does not come. *)
Inductive outcome := Exit (code : Z) | WebInterface | Waiting.

(** if (get_response().find("Error") == 0) std::cerr << get_response(); *)
Definition show_error : host unit :=
  h ← get;
  if String.prefix "Error" (h_response h) then do_event (Shown (h_response h)) else mret tt.

Definition ending (m : host Z) : host outcome := ret ← m; show_error ;; mret (Exit ret).

Definition main_command (rc : Z) (command : list string) : host outcome :=
  match command with
  | [] => mret (Exit 1)
  | first :: rest =>
      if String.eqb first "start" then ending (start_instances rc "")
      else if String.eqb first "stop" then stop_instances "" ;; mret (Exit 0)
      else if String.eqb first "status" then
        ret ← show_status;
        match ret with inl code => mret (Exit code) | inr code => ending (mret code) end
      else if String.eqb first "list" then ending (show_list true ;; mret 0%Z)
      else if String.eqb first "restart" then ending (restart_instances rc "")
      else if String.eqb first "server" then mret WebInterface
      else
        match rest with
        | [] => mret (Exit 11)
        | _ =>
            let cmd := join rest in
            if String.eqb cmd "start" then ending (start_instances rc first)
            else if String.eqb cmd "stop" then ending (stop_instances first ;; mret 0%Z)
            else if String.eqb cmd "restart" then ending (restart_instances rc first)
            else
              asked ← ask_local_server first cmd;
              if negb asked then raise UncaughtException
              else
                h ← get;
                match network (h_clock h) with
                | [] => mret Waiting
                | once :: l =>
                    for_each once deliver ;;
                    run_loop l ;;
                    h ← get;
                    mret (if String.eqb (h_response h) "" then Waiting else Exit 0)
                end
        end
  end.
End methods.
