(* ===== verification/InstancesTheorems.v ===== *)
(** * The gateways of a machine: properties

    Starting, stopping and asking: what is reported, and what is done. *)

From S2P Require Import Prelude StdMap Text Protocol Cutting Framing Config Instances.
From S2P Require ConfigTheorems ReferenceCodec Web.
Import pbnetwork.

Section instances.
Context `{Machine} `{ConfigLibraries} `{Protobuf}.
Implicit Types (h : Host) (path vhost : string) (pid : Z).

(** ** Stopping *)

Definition at_clock (n : nat) h : Host := mkHost (h_response h) (h_data h) n (h_connections h) (h_silent h) (h_out h).

(** The loop counts down until the process is gone. *)
Lemma wait_for_run count pid h : ∃ left_over,
  wait_for count pid h = Done left_over (at_clock (h_clock h + (count - left_over)) h) ∧ left_over <= count ∧
  (∀ k, k < count - left_over → answers (h_clock h + k) pid = true) ∧
  (0 < left_over → answers (h_clock h + (count - left_over)) pid = false).
Proof.
  revert h. induction count as [|count IH]; intros h.
  - exists 0. simpl. rewrite bind_run. cbn [get]. destruct (answers (h_clock h) pid).
    all: split_and!; try lia; rewrite Nat.add_0_r; by destruct h.
  - simpl. rewrite bind_run. cbn [get]. destruct (answers (h_clock h) pid) eqn:Ea.
    + rewrite bind_run. cbn [sleep modify]. destruct (IH (tick h)) as (n & Hrun & Hle & Hall & Hgone). simpl in Hall, Hgone.
      exists n. rewrite Hrun. split_and!; [|lia| |].
      * f_equal. unfold at_clock. simpl. f_equal. lia.
      * intros [|k] Hk; [by rewrite Nat.add_0_r|]. replace (h_clock h + S k) with (S (h_clock h + k)) by lia. apply Hall. lia.
      * intros Hn. replace (h_clock h + (S count - n)) with (S (h_clock h + (count - n))) by lia. by apply Hgone.
    + exists (S count). rewrite Nat.sub_diag, Nat.add_0_r. split_and!; [by destruct h|lia|lia|by intros _].
Qed.

Definition ended (path : string) (stopped : bool) : string :=
  "Stopping " +:+ path +:+ ": " +:+ (if stopped then "OK" else "ERROR (timeout)") +:+ nl.

(** stopping a process signals it once, waits at most twenty-one seconds, and says that
    it was stopped exactly when it is gone before the last of them. *)
Theorem stop_reported path pid h : ∃ stopped n,
  stop_process path pid h
  = Done stopped (mkHost (ended path stopped) (h_data h) n (h_connections h) (h_silent h) (h_out h ++ [Killed pid "SIGTERM"])) ∧
  (stopped = true ↔ ∃ k, k < 20 ∧ answers (S (h_clock h) + k) pid = false) ∧ h_clock h < n <= h_clock h + 21.
Proof.
  unfold stop_process. rewrite bind_run. cbn [respond modify]. rewrite bind_run. cbn [do_event modify]. rewrite bind_run. cbn [sleep modify].
  set (h1 := tick _). destruct (wait_for_run 20 pid h1) as (n & Hrun & Hle & Hall & Hgone). rewrite (bind_done _ _ _ _ _ Hrun). rewrite bind_run. cbn [get].
  change (h_clock h1) with (S (h_clock h)) in *. exists (negb (n =? 0)), (S (h_clock h) + (20 - n)).
  destruct (Nat.eqb_spec n 0) as [->|Hn]; cbn [negb].
  - split; [rewrite bind_run; unfold respond, modify, ended, set_response, at_clock; simpl; by rewrite !string_app_assoc|]. split; [|lia].
    split; [done|]. intros (k & Hk & Hf). rewrite Hall in Hf by lia. done.
  - split; [rewrite bind_run; unfold respond, modify, ended, set_response, at_clock; simpl; by rewrite !string_app_assoc|]. split; [|lia].
    split; [|done]. intros _. exists (20 - n). split; [lia|]. apply Hgone. lia.
Qed.

Lemma stop_process_signals path pid h : ∃ stopped h', stop_process path pid h = Done stopped h' ∧ h_out h' = h_out h ++ [Killed pid "SIGTERM"].
Proof.
  unfold stop_process. rewrite bind_run. cbn [respond modify]. rewrite bind_run. cbn [do_event modify]. rewrite bind_run. cbn [sleep modify].
  set (h1 := tick _). destruct (wait_for_run 20 pid h1) as (n & Hrun & _). rewrite (bind_done _ _ _ _ _ Hrun). rewrite bind_run. cbn [get].
  destruct (n =? 0); rewrite bind_run; eexists _, _; split; reflexivity.
Qed.

(** The process file of a gateway. *)
Definition process_file path vhost _jid (pidfile : string) h : Prop := pidfile_of path vhost _jid h = Done (Some pidfile) h.

Lemma isRunning_run pidfile h : isRunning pidfile h = Done
  (match first_word (h_clock h) pidfile with
   | None | Some EmptyString => 0%Z
   | Some pid => match lexical_cast_int pid with None => (-1)%Z | Some ipid => if answers (h_clock h) ipid then ipid else 0%Z end
   end) h.
Proof. done. Qed.

(** a process file that holds no number makes the manager signal every process it may
    signal: isRunning answers -1, which counts as the number of a process that runs. *)
Theorem bad_pidfile_signals_everybody path vhost _jid pidfile text h :
  process_file path vhost _jid pidfile h → first_word (h_clock h) pidfile = Some text → text ≠ ""%string → lexical_cast_int text = None →
  ∃ h', stop_one path _jid vhost h = Done tt h' ∧ Killed (-1) "SIGTERM" ∈ h_out h'.
Proof.
  intros Hf Ht Hne Hno. unfold stop_one. rewrite (bind_done _ _ _ _ _ Hf), (bind_done _ _ _ _ _ (isRunning_run pidfile h)), Ht.
  destruct text as [|c text]; [done|]. rewrite Hno. cbn [Z.eqb negb].
  destruct (stop_process_signals path (-1) h) as (stopped & h' & Hrun & Hout). rewrite (bind_done _ _ _ _ _ Hrun). exists h'. rewrite Hout. set_solver.
Qed.

(** ** Starting *)

(** a gateway is started once, with its own file and address, exactly when the process its
    file names does not run; whatever becomes of the program, the answer says that it was
    started. *)
Theorem start_outcome rc binary path vhost _jid pidfile rv h :
  process_file path vhost _jid pidfile h →
  (∀ text ipid, first_word (h_clock h) pidfile = Some text → lexical_cast_int text = Some ipid → (0 < ipid)%Z) →
  (∀ text, first_word (h_clock h) pidfile = Some text → text ≠ ""%string → is_Some (lexical_cast_int text)) →
  let running := match first_word (h_clock h) pidfile with
                 | None | Some EmptyString => None
                 | Some text => ipid ← lexical_cast_int text; if answers (h_clock h) ipid then Some ipid else None
                 end in
  ∃ rv' h', start_one rc binary path _jid vhost rv h = Done rv' h' ∧
    match running with
    | Some pid => rv' = rv ∧ h_out h' = h_out h ∧ h_response h' = ("Starting " +:+ path +:+ ": Already started (PID=" +:+ decimal pid +:+ ")" +:+ nl)%string
    | None => h_response h' = ("Starting " +:+ path +:+ ": OK" +:+ nl)%string ∧
        h_out h' = h_out h ++ (match exit_status (h_clock h) path vhost with Some _ => [Executed binary path vhost] | None => [] end) ∧
        rv' = (if (rv =? 0)%Z then default rc (exit_status (h_clock h) path vhost) else rv)
    end.
Proof.
  intros Hf Hpos Hnum running. unfold start_one. rewrite (bind_done _ _ _ _ _ Hf), (bind_done _ _ _ _ _ (isRunning_run pidfile h)).
  assert (match first_word (h_clock h) pidfile with
   | None | Some EmptyString => 0%Z
   | Some pid => match lexical_cast_int pid with None => (-1)%Z | Some ipid => if answers (h_clock h) ipid then ipid else 0%Z end
   end = default 0%Z running ∧ running ≠ Some 0%Z) as [-> Hzero].
  { unfold running. destruct (first_word (h_clock h) pidfile) as [[|c text]|] eqn:Ew; [done| |done].
    destruct (Hnum _ eq_refl) as [ipid Hi]; [done|]. pose proof (Hpos _ _ eq_refl Hi) as Hp. rewrite Hi. simpl.
    destruct (answers _ ipid); [|done]. split; [done|]. intros [= ->]. lia. }
  clearbody running. destruct running as [pid|]; cbn [default from_option id].
  - destruct (Z.eqb_spec pid 0) as [->|Hne]; [done|]. rewrite bind_run. cbn [respond modify]. eexists _, _. split; [reflexivity|done].
  - change (0 =? 0)%Z with true. cbv iota. rewrite bind_run. cbn [respond modify]. unfold exec_. rewrite !bind_run. cbn [get].
    change (h_clock (set_response _ h)) with (h_clock h). destruct (exit_status (h_clock h) path vhost) as [status|].
    + rewrite bind_run. cbn [do_event modify]. eexists _, _. split; [reflexivity|]. split_and!; done.
    + eexists _, _. split; [reflexivity|]. simpl. rewrite app_nil_r. split_and!; done.
Qed.

(** ** Asking *)



Lemma take_answer_goes conn frame : never_returns ParseFromString (take_answer conn) frame.
Proof.
  intros wrapper h b h' _. unfold take_answer. case_bool_decide; [|by intros [= <- _]].
  destruct (ParseFromString _); [|by intros [= <- _]]. by intros [= <- _].
Qed.

Lemma handleDataRead_run conn data h : conn ∉ h_silent h →
  handleDataRead conn data h
  = (for_each (frames (h_data h ++ data)).1 (run_frame ParseFromString (take_answer conn)) ;; modify (set_data (frames (h_data h ++ data)).2)) h.
Proof.
  intros Hs. unfold handleDataRead. rewrite bind_run. cbn [get]. rewrite bool_decide_false by done. unfold handle_data_read.
  rewrite !bind_run, read_loop_frames; [|done|apply Forall_forall; intros; apply take_answer_goes].
  rewrite bind_run. by destruct (for_each _ _ h) as [[] h'|].
Qed.

Lemma handleDataRead_partial conn data h : conn ∉ h_silent h → next_frame (h_data h ++ data) = None →
  handleDataRead conn data h = Done tt (set_data (h_data h ++ data) h).
Proof. intros Hs Hn. rewrite handleDataRead_run by done. by rewrite frames_unfold, Hn. Qed.

Definition arrivals (conn : nat) (chunks : list bytes) : list (list network_event) := map (λ d, [DataRead conn d]) chunks.

Lemma run_loop_step conn d l h : h_response h = ""%string → run_loop ([DataRead conn d] :: l) h = (handleDataRead conn d ;; run_loop l) h.
Proof. intros Hr. cbn [run_loop]. rewrite bind_run. cbn [get]. rewrite Hr. cbn. rewrite !bind_run. by destruct (handleDataRead conn d h) as [[] h'|]. Qed.




(** An option of a configuration, as text. *)
Definition option_is (key text : string) (c : Config) : Prop :=
  ∃ defaulted, sfind key (m_variables c) = Some (mkVariable (VString text) defaulted).

(** What a file of the directory holds, at some time. *)
Definition loaded_as (n : nat) path (ok : bool) (c : Config) : Prop :=
  Config.load file_text working_directory (seconds n) path "" (new_config []) = Done ok c.

(** A file that is no gateway's with this address: no configuration, one that cannot be
    loaded, or that of another address. *)
Definition passed_by (n : nat) (jid : string) (file : string * bool) : Prop :=
  snd file = false ∨ (∃ c, loaded_as n (fst file) false c) ∨
  (∃ c other, loaded_as n (fst file) true c ∧ option_is "service.jid" other c ∧ other ≠ jid).

(** A gateway that is asked: one file of the directory names it and says where, and the
    others are passed by. *)
Definition asks path (jid : string) h : Prop :=
  ∃ before after c backend_host portfile,
    directory_now (h_clock h) = Files (before ++ (path, true) :: after) ∧
    Forall (passed_by (h_clock h) jid) before ∧ Forall (passed_by (h_clock h) jid) after ∧
    loaded_as (h_clock h) path true c ∧ option_is "service.jid" jid c ∧
    option_is "service.backend_host" backend_host c ∧ option_is "service.portfile" portfile c ∧
    is_address backend_host = true.

Lemma at_key_run key text c : option_is key text c → at_key key c = Done (VString text) c.
Proof. intros [d Hk]. unfold at_key. rewrite bind_run. cbn [get]. by rewrite Hk. Qed.

Lemma config_string_run key text c : option_is key text c → CONFIG_STRING key c = Done text c.
Proof. intros Hk. unfold CONFIG_STRING. by rewrite (bind_done _ _ _ _ _ (at_key_run key text c Hk)). Qed.

Lemma config_defaulted_run key text def c : option_is key text c → CONFIG_STRING_DEFAULTED key def c = Done text c.
Proof.
  intros Hk. unfold CONFIG_STRING_DEFAULTED, defaulted. rewrite bind_run. cbn [get].
  assert (hasKey key c = true) as -> by (destruct Hk as [d Hk]; unfold hasKey; by rewrite Hk).
  by rewrite (bind_done _ _ _ _ _ (at_key_run key text c Hk)).
Qed.

Lemma ask_files_over jid cmd l rest found h : Forall (passed_by (h_clock h) jid) l →
  ask_files jid cmd (l ++ rest) found h = ask_files jid cmd rest found h.
Proof.
  induction 1 as [|[path is_config] l Hf Hl IH]; [done|]. cbn [app ask_files]. destruct is_config; [|done].
  unfold try_config. rewrite !bind_run. cbn [get].
  destruct Hf as [|[[c Hc]|(c & other & Hc & Hj & Hne)]]; [done| |]; unfold loaded_as in Hc; cbn [fst] in Hc; rewrite Hc; [done|].
  unfold where_to_ask. cbn [negb]. rewrite (bind_done _ _ _ _ _ (config_string_run _ _ c Hj)).
  by rewrite (proj2 (String.eqb_neq other jid) Hne).
Qed.

Lemma ask_run path jid cmd h : asks path jid h → ∃ e,
  ask_local_server jid cmd h
  = Done true (mkHost "" (h_data h) (h_clock h) (h_connections h ++ [cmd]) (h_silent h) (h_out h ++ [e])).
Proof.
  intros (before & after & c & backend_host & portfile & Hd & Hb & Hafter & Hc & Hj & Hh & Hp & Ha).
  unfold ask_local_server. rewrite bind_run. cbn [respond modify]. rewrite bind_run. cbn [get].
  change (h_clock (set_response "" h)) with (h_clock h). rewrite Hd, bind_run.
  rewrite ask_files_over by done. cbn [ask_files]. unfold try_config at 1. rewrite !bind_run. cbn [get].
  unfold loaded_as in Hc. change (h_clock (set_response "" h)) with (h_clock h). rewrite Hc.
  unfold where_to_ask at 1. cbn [negb]. rewrite (bind_done _ _ _ _ _ (config_string_run _ _ c Hj)), String.eqb_refl. cbn [negb].
  rewrite (bind_done _ _ _ _ _ (config_defaulted_run _ _ _ c Hh)), (bind_done _ _ _ _ _ (config_string_run _ _ c Hp)). cbn [mret prog_ret].
  unfold connect_to, getPort. rewrite !bind_run. cbn [get mret prog_ret]. rewrite Ha, bind_run. cbn [modify do_event].
  rewrite <- (app_nil_r after), ask_files_over by done. eexists. reflexivity.
Qed.

(** The connection is the next one, and is made. *)
Definition next_conn h : nat := length (h_connections h).

Lemma connected_step conn cmd l h : h_response h = ""%string → h_connections h !! conn = Some cmd →
  run_loop ([ConnectFinished conn false] :: l) h = run_loop l (set_out (λ o, o ++ [Written conn (send_frame (encode_config cmd))]) h).
Proof.
  intros Hr Hc. cbn [run_loop]. rewrite bind_run. cbn [get]. rewrite Hr. cbn. rewrite !bind_run. unfold handleConnected. rewrite bind_run. cbn [get].
  by rewrite Hc.
Qed.


Lemma frame_in_the_way old data rest more :
  (Z.of_nat (length (encode_config old)) < 2 ^ 32)%Z → data ++ rest = send_frame (encode_config old) → 4 <= length data →
  length more < length rest → next_frame (data ++ more) = None.
Proof.
  intros Hlen Hcat Hfour Hshort. pose proof (next_frame_send (encode_config old) [] Hlen) as Hnext. rewrite app_nil_r, <- Hcat in Hnext.
  destruct data as [|b0 [|b1 [|b2 [|b3 l]]]]; try (simpl in Hfour; lia). simpl in Hnext |- *.
  set (n := ntohl_bytes b0 b1 b2 b3) in *. destruct (Z.ltb_spec (Z.of_nat (length (l ++ rest))) n); [done|]. injection Hnext as _ Hrest.
  assert (length (skipn (Z.to_nat n) (l ++ rest)) = 0) as Hz by (by rewrite Hrest). rewrite length_skipn in Hz. rewrite !length_app in *.
  destruct (Z.ltb_spec (Z.of_nat (length l + length more)) n); [done|]. exfalso. pose proof (ntohl_bytes_range b0 b1 b2 b3). lia.
Qed.

(** what is left of an answer that came too late is kept for the next connection: while the
    buffer waits for the end of the old answer the new one is not seen, and the command has no
    answer. *)
Theorem old_answer_in_the_way path jid cmd old text rest h :
  asks path jid h → next_conn h ∉ h_silent h →
  (Z.of_nat (length (encode_config old)) < 2 ^ 32)%Z → h_data h ++ rest = send_frame (encode_config old) → 4 <= length (h_data h) →
  length (send_frame (encode_config text)) < length rest →
  network (h_clock h) = [ConnectFinished (next_conn h) false] :: arrivals (next_conn h) [send_frame (encode_config text)] →
  ∃ h', send_command jid cmd h = Done ""%string h' ∧ h_data h' = h_data h ++ send_frame (encode_config text).
Proof.
  intros Hask Hs Hlen Hcat Hfour Hshort Hnet. destruct (ask_run path jid cmd h Hask) as [e Hrun]. unfold send_command.
  rewrite (bind_done _ _ _ _ _ Hrun). cbn [negb]. rewrite bind_run. cbn [get h_clock]. rewrite Hnet, bind_run.
  rewrite (connected_step _ cmd) by (done || by apply list_lookup_middle). set (h1 := set_out _ _). cbn [arrivals map].
  rewrite run_loop_step by done. rewrite bind_run, handleDataRead_partial; [|done|by eapply frame_in_the_way]. eexists. split; [reflexivity|done].
Qed.
End instances.

(** ** Witnesses *)

(** A machine with one gateway. Its process answers for three seconds, its process file holds
    a word, and the network is as it is told. *)
Definition one_machine (pid_word : string) (child : option Z) (net : list (list network_event)) : Machine := {|
  config_directory := "/etc/spectrum2";
  directory_now _ := Files [("/etc/s.cfg", true)]%string;
  file_text := ConfigTheorems.one_file;
  working_directory := "/";
  seconds _ := 0%Z;
  env_PATH := Some "/usr/bin"%string;
  is_file f := String.eqb f "/usr/bin/spectrum2";
  first_word _ _ := Some pid_word;
  answers t _ := t <? 3;
  exit_status _ _ _ := child;
  lexical_cast_int s := if String.eqb s "17" then Some 17%Z else None;
  is_address s := String.eqb s "127.0.0.1";
  quoted s := s;
  network _ := net;
|}.

Definition quiet : Host := mkHost "" [] 5 [] [] [].

#[local] Existing Instance ConfigTheorems.reference.
#[local] Existing Instance ReferenceCodec.reference_protobuf.

Definition icq : string := "icq.example.org".

Lemma file_of_icq word child net : ∃ pidfile, @process_file (one_machine word child net) _ "/etc/s.cfg" icq "" pidfile quiet.
Proof. eexists. unfold process_file. vm_compute. reflexivity. Defined.

Lemma bad_pidfile_signals_everybody_witness :
  ∃ h', @stop_one (one_machine "none" None []) _ "/etc/s.cfg" "" icq quiet = Done tt h' ∧ Killed (-1) "SIGTERM" ∈ h_out h'.
Proof.
  destruct (file_of_icq "none" None []) as [pidfile Hf].
  apply (@bad_pidfile_signals_everybody (one_machine "none" None []) _ "/etc/s.cfg" icq "" pidfile "none" quiet Hf eq_refl ltac:(discriminate) eq_refl).
Defined.

Lemma start_outcome_witness :
  ∃ rv' h', @start_one (one_machine "17" (Some 256%Z) []) _ 0 "/usr/bin/spectrum2" "/etc/s.cfg" "" icq 0 quiet = Done rv' h' ∧
    h_out h' = [Executed "/usr/bin/spectrum2" "/etc/s.cfg" icq] ∧ rv' = 256%Z.
Proof.
  destruct (file_of_icq "17" (Some 256%Z) []) as [pidfile Hf].
  destruct (@start_outcome (one_machine "17" (Some 256%Z) []) _ 0 "/usr/bin/spectrum2" "/etc/s.cfg" icq "" pidfile 0 quiet Hf) as (rv' & h' & Hrun & Hrest).
  - intros text ipid [= <-] [= <-]. reflexivity.
  - intros text [= <-] _. eexists. reflexivity.
  - destruct Hrest as (_ & Hout & Hrv). exists rv', h'. split; [exact Hrun|split; [exact Hout|exact Hrv]].
Defined.

(** A directory with more in it: a text, a file that cannot be read, and another gateway's. *)
Definition two_files (path : string) : option string :=
  if String.eqb path "/etc/s.cfg" then Some "first"%string
  else if String.eqb path "/etc/other.cfg" then Some "second"%string else None.

Definition read_two (text : string) : option (list file_option) :=
  Some [mkFileOption "service.jid" (if String.eqb text "first" then icq else "xmpp.example.org") false]%string.

Definition two_gateways : ConfigLibraries := ConfigTheorems.reference_libraries read_two [].

Definition crowded (net : list (list network_event)) : Machine := {|
  config_directory := "/etc/spectrum2";
  directory_now _ := Files [("/etc/readme", false); ("/etc/other.cfg", true); ("/etc/s.cfg", true); ("/etc/gone.cfg", true)]%string;
  file_text := two_files;
  working_directory := "/";
  seconds _ := 0%Z;
  env_PATH := Some "/usr/bin"%string;
  is_file f := String.eqb f "/usr/bin/spectrum2";
  first_word _ _ := Some "17"%string;
  answers t _ := t <? 3;
  exit_status _ _ _ := None;
  lexical_cast_int s := if String.eqb s "17" then Some 17%Z else None;
  is_address s := String.eqb s "127.0.0.1";
  quoted s := s;
  network _ := net;
|}.



Lemma asks_icq net h : @asks (crowded net) two_gateways "/etc/s.cfg" icq h.
Proof.
  eexists [("/etc/readme", false); ("/etc/other.cfg", true)]%string, [("/etc/gone.cfg", true)]%string, _, _, _.
  split; [reflexivity|]. split; [|split; [|split; [unfold loaded_as; vm_compute; reflexivity|]]].
  - constructor; [by left|]. constructor; [|constructor]. right; right. eexists _, _.
    split; [unfold loaded_as; vm_compute; reflexivity|]. split; [by eexists|discriminate].
  - constructor; [|constructor]. right; left. eexists. unfold loaded_as. vm_compute. reflexivity.
  - split; [by eexists|]. split; [by eexists|]. split; [by eexists|reflexivity].
Qed.


(** The beginning of an answer that the manager did not wait for. *)
Definition late_answer : string := "Everything has been running for a long time".

Definition left_waiting : Host :=
  mkHost "" (firstn 6 (send_frame (encode_config late_answer))) 5 [] [] [].

Lemma old_answer_in_the_way_witness :
  ∃ h', @send_command (crowded ([ConnectFinished 0 false] :: arrivals 0 [send_frame (encode_config "OK")])) two_gateways _ icq "status" left_waiting
        = Done ""%string h' ∧ h_data h' = h_data left_waiting ++ send_frame (encode_config "OK").
Proof.
  apply (@old_answer_in_the_way (crowded ([ConnectFinished 0 false] :: arrivals 0 [send_frame (encode_config "OK")])) two_gateways _
    "/etc/s.cfg" icq "status" late_answer "OK" (skipn 6 (send_frame (encode_config late_answer))) left_waiting).
  - apply asks_icq.
  - apply not_elem_of_nil.
  - vm_compute. reflexivity.
  - apply firstn_skipn.
  - apply (bool_decide_eq_true_1 _). vm_compute. reflexivity.
  - apply (bool_decide_eq_true_1 _). vm_compute. reflexivity.
  - reflexivity.
Defined.
